(* ===== verification/_CoqProject ===== *)
-Q . S2P
Prelude.v
Accelerator.v
DSPState.v
DSPTables.v
DSPHardware.v
DSPInterpreter.v
DSPArithmetic.v
DSPMultiplier.v
DSPBranch.v
DSPLoadStore.v
DSPExtOps.v
DSPIntTables.v
DSPRun.v
DSPLLE.v
DSPFacts.v
SimHost.v
ArithmeticProps.v
MultiplierProps.v
AddressProps.v
StackProps.v
RunProps.v
TableProps.v
MailboxProps.v
RegisterProps.v
DmaProps.v
AcceleratorProps.v
BootProps.v
Float32.v
Memmap.v
PowerPC.v
ProcessorInterface.v
CoreTiming.v
Machine.v
DSPManager.v
SystemTimers.v
PowerPCProps.v
ConditionRegister.v
Gekko.v
PPCInteger.v
PPCIntegerProps.v
PPCSystem.v
PPCSystemProps.v
PPCStatusProps.v
PPCTables.v
InterpreterTables.v
PPCInterpreter.v
PPCTypeProps.v
PPCAnalyst.v
PPCTableProps.v
Footprint.v
PPCReorder.v
PPCReorderProps.v
CoreTimingProps.v
HostProps.v
MemoryProps.v
ManagerProps.v
AramProps.v
PPCCache.v
PPCCacheBlocks.v
PPCCacheProps.v
PPCCacheTheorems.v
MMU.v
MMUAccess.v
MMUBatProps.v
MMUPageProps.v
MMUAccessProps.v
MMUMemoryProps.v
PPCLoadStore.v
PPCLoadStoreProps.v
PPCMultipleProps.v
PPCSingleProps.v
MemoryExamples.v
PPCRun.v
PPCFrame.v
PPCRunProps.v
DeviceProps.v
SystemClock.v
HWInit.v
SystemRun.v
SystemWitnesses.v
