(* ===== verification/Prelude.v ===== *)
(** * Verification of the KARphin/Dolphin emulator core

    The program is a GameCube/Wii emulator.  This library models the emulated sound
    processor (DSP) completely; of the PowerPC the integer, branch and system instructions,
    the loads and stores with address translation and the caches, the interpreter's run
    loop, the instruction tables and the reordering of blocks by the recompilers; and the parts of the emulated machine
    around them: the event scheduler, physical memory, the
    interrupt lines, the timers and the DSP interface the PowerPC sees.  Paths are relative
    to [src/Source/Core].

    ** The program's parts and the files that model them

    The DSP core, [Core/DSP]:
    - [Accelerator]: [DSPAccelerator.cpp], the streaming ADPCM/PCM reader;
    - [DSPState]: [DSPCore.h], the registers, stacks, mailboxes and memories of [SDSP];
    - [DSPTables]: [DSPTables.cpp], the instruction descriptions and their lookup;
    - [DSPHardware]: [DSPCore.cpp], [DSPStacks.cpp], [DSPHWInterface.cpp],
      [DSPMemoryMap.cpp], [DSPAnalyzer.cpp] and [HW/DSPLLE/DSPHost.cpp], exceptions,
      hardware registers, mailboxes, DMA and the code analysis;
    - [DSPInterpreter], [DSPArithmetic], [DSPMultiplier], [DSPBranch], [DSPLoadStore],
      [DSPExtOps], [DSPIntTables], [DSPRun]: the files of [Interpreter/]: flags and
      register file, every instruction and extension opcode, the dispatch tables and the
      three run loops;
    - [DSPLLE]: [HW/DSPLLE/DSPLLE.cpp], what the CPU does to the DSP.

    The machine, [Core] and [Core/HW]:
    - [Float32]: the C++ [float] of the clock factors, [Memmap]: [HW/Memmap.cpp];
    - [ProcessorInterface]: [HW/ProcessorInterface.cpp], the interrupt lines;
    - [CoreTiming]: [CoreTiming.cpp], the clock, the event queue, [Advance];
    - [Machine], [DSPManager]: [HW/DSP.cpp], [HW/HSP], the registers at 0xCC005000,
      interrupts, ARAM DMA, audio DMA and the DSP's time slices;
    - [SystemTimers]: [HW/SystemTimers.cpp]; [HWInit]: [HW/HW.cpp], start-up.

    The PowerPC, [Core/PowerPC]:
    - [PowerPC]: [PowerPC.cpp], the registers, exceptions, time base, performance counters;
    - [ConditionRegister], [Gekko]: [ConditionRegister.h], [Gekko.h] and
      [Interpreter/ExceptionUtils.h], the condition register's encoding, XER, the fields of
      an instruction word;
    - [PPCInteger], [PPCSystem]: [Interpreter/Interpreter_Integer.cpp],
      [Interpreter_Branch.cpp], [Interpreter_SystemRegisters.cpp] and part of
      [Interpreter_FPUtils.h], one definition per instruction;
    - [PPCTables], [InterpreterTables]: [PPCTables.cpp] and [Interpreter_Tables.cpp], the
      analyzer's and the interpreter's tables; [PPCInterpreter]: the dispatch;
    - [PPCAnalyst]: [PPCAnalyst.cpp], what an instruction reads and writes, and the
      reordering of a block;
    - [PPCCache]: [PPCCache.cpp], the data and instruction caches with their PLRU bits and
      lookup tables;
    - [MMU], [MMUAccess]: [MMU.cpp] and [MMU.h], block address translation, the TLB, the
      page tables, [ReadFromHardware] and [WriteToHardware], and every entry that reads or
      writes guest memory, for the CPU and for the host;
    - [PPCLoadStore]: [Interpreter/Interpreter_LoadStore.cpp] and the conversions of
      [Interpreter_FPUtils.h], one definition per instruction;
    - [PPCRun]: the moves of special purpose registers of
      [Interpreter/Interpreter_SystemRegisters.cpp], and the steps, blocks and slices of
      [Interpreter/Interpreter.cpp].

    The parts interact through interfaces.  [Accelerator.AcceleratorEnv] is what the
    accelerator asks of the core; [DSPState.DSPHost] is [DSPHost.cpp], what the DSP core
    asks of the machine, with two instances, [SimHost.sim] (a flat memory) and
    [Machine.machine_host] (the modelled machine); [DSPManager.DSPEmulator] is the class
    of the same name, of which [DSPManager.LLE] is the low-level DSP;
    [CoreTiming.EventSystem] is the system whose callbacks [Advance] calls, instantiated by
    [SystemTimers.lle_system]; [CoreTiming.HeapAlgorithms] with [HeapLaws] is what the C++
    standard promises of its heap algorithms.  [MMU.Bus] is what the memory unit asks of
    the rest of the machine: the mapped registers, the gather pipe, the frame buffer; with
    the instance [MemoryExamples.no_devices].  [PPCRun.Timers], [PPCRun.FunctionHooks] and
    [PPCRun.RunLoop] are what the interpreter asks of the timers, of the replacements of
    known functions and of the scheduler.

    ** What the theorems show

    - [SystemClock], [SystemRun]: the whole machine.  An interrupt of the DSP reaches the
      CPU; the scheduler's invariant holds from start-up on.
    - [CoreTimingProps]: [Advance] refines a queue of timed events; slices end before
      events; events are on time; what a change of the clock does to the heap.
    - [ManagerProps], [AramProps], [DeviceProps], [PowerPCProps],
      [MemoryProps], [HostProps]: the interrupt line of the DSP is an invariant of all
      accesses; DMA copies what it should; the audio DMA plays each block once; the
      decrementer; exceptions by priority; the memory laws the DSP core relies on.
    - [PPCReorderProps]: reordering a block terminates, gives a permutation and does not
      change what the block does.  [Footprint] proves which locations every instruction
      reads and writes and that disjoint ones commute; [PPCReorder] that the tables' flags
      declare them; [PPCTableProps] that the two sets of tables agree.
    - [PPCIntegerProps], [PPCSystemProps], [PPCStatusProps]: what the instructions compute;
      [PPCTypeProps]: every register keeps its type, and user mode is confined.
    - [PPCFrame], [PPCRunProps]: what no access to memory changes; whatever program runs,
      the tables and flags of the translation follow the registers ([BusLaws],
      [TimersLaws], [HooksLaws] and [RunLoopLaws] state what is assumed of the
      parameters); a slice takes the cycles of its blocks, each begun before it is over.
    - [PPCCacheBlocks], [PPCCacheProps], [PPCCacheTheorems]: the data cache
      cannot be told from memory without it; what the operations on blocks do; a block used
      recently is not the one replaced.
    - [MMUBatProps], [MMUPageProps]: the table of blocks is a match against the BATs, an
      access without checks does not leave the memory, the TLB cannot be told from the page tables.
      [MMUAccessProps], [MMUMemoryProps]: accesses implement a memory of bytes, through
      pages that need not be adjacent; what is stored is loaded; an unmapped access raises
      its exception and changes nothing else.
    - [PPCLoadStoreProps], [PPCMultipleProps], [PPCSingleProps]: what loads and stores do;
      a failed access can be restarted when the MMU is enabled; [lmw] restores what [stmw] saved; the conditional
      stores; single precision numbers survive the conversions.
    - [RunProps]: every reachable state of the DSP is well typed and the
      next action is within the bounds of all arrays, but for the blocks of DMA; the run loops terminate; ROMs are constant.
    - [ArithmeticProps], [MultiplierProps]: the instructions compute 40-bit arithmetic and
      set the flags of it; [AddressProps]: circular addressing; [RegisterProps]: the
      register file; [StackProps]: stacks as lists, loops, exceptions and interrupts;
      [TableProps]: the two decoders agree.
    - [MailboxProps], [DmaProps], [AcceleratorProps], [BootProps]: mailboxes, DMA, sample
      playback, boot.

    Witnesses that apply a theorem to a concrete machine are next to it, or in
    [SystemWitnesses] for the theorems about the machine, and [MemoryExamples] for those about
    memory.

    ** How the code is modelled

    Code that mutates objects is a function of type [M S A], from the state to a value and
    a new state, or to a [fault]: an exit of the process or undefined behaviour.  Members
    are [field]s.  Integers are [Z] with the conversions of the code written out; arrays
    are finite maps read through accesses that check the bound.  Bit fields and unions are
    their [Hex] value or members of their own.  [x++; x &= MASK] may be one assignment.

    The PowerPC's instructions are functions from the state to the state, in the files of
    their sources, [m_end_block] a second result where they set it.  Signed overflow, which
    C++ leaves undefined, wraps around.  Those that access memory are functions from the
    state of processor, memory and caches ([MMU.MMUState]) to a new one.

    Loops with a bound that is not structural take fuel: [while_true] gets one turn more
    than the cycles it is given, each turn using one up; [CoreRunCycles] needs two turns;
    the write-back log has six entries; the analyzer needs one turn per word of its range;
    the ARAM DMA gets one turn more than an eighth of the count; the reordering of [n]
    instructions takes at most [n * (n + 1) + 1] turns; the caches' loops take a byte at
    least per turn; [normalise] shifts out 23 bits at most.  That each is enough is
    proved ([RunProps.RunCycles_terminates], [RunProps.Update_returns],
    [BootProps.analysis_scans_range], [ManagerProps.mmio_write_ends],
    [PPCReorderProps.reordering_preserves_execution],
    [PPCCacheTheorems.data_cache_transparent], [PPCSingleProps.single_precision_exact]).
    The loop of [Advance] runs as many turns as there are due events, so its theorems say
    that there is an amount of fuel from which on the result is the same.  The loops of the
    interpreter's [Run] need not end (a program may run on without a branch), so the
    theorems about them are about every state they reach.

    ** Choices of configuration

    Without a DSP thread and without a JIT; [PRECISE_BACKLOG] is not defined, as in the
    source; the flags analysis that only the JIT uses is not modelled; the check of the
    ROMs' hashes is a parameter; settings do not change while the machine runs; event
    types go by their name, which [RegisterEvent] keeps unique.  The callbacks of devices
    that are not modelled are a parameter, of which the theorems assume ([OtherLaws]) that
    they keep the scheduler's invariant, schedule at least a cycle ahead, and neither mask
    nor withdraw the DSP's interrupt.  They may move the program, as the callback of
    [PatchEngine] does when it starts the handler of the Gecko codes.

    ** Not modelled

    Logging, the debugger's symbols, the capture logger, save states, and the host's
    address-space mapping, threads and throttling: no effect on the emulated machine.
    Of the PowerPC, the floating-point arithmetic, the quantised loads and stores of paired
    singles, and [dcba]; the watchpoints and breakpoints of the debugger, the host's mapping of guest memory, [HostGetString], the invalidation of
    recompiled blocks; the analyzer's branch following, liveness scan and idle loops.  The theorem on reordering
    is about the instructions that are modelled, and leaves the meaning of the others open.
    The recompilers, which produce host code; the HLE DSP beyond its interface; video,
    peripherals, discs, IOS, NetPlay, user interfaces and the vendored libraries. *)
From stdpp Require Import base tactics option list gmap.
From Stdlib Require Import ZArith Lia Bool.

#[global] Open Scope Z_scope.

(** * Machine integers

    A [w]-bit unsigned integer is a [Z] in [[0, 2^w)], a signed one a [Z] in
    [[-2^(w-1), 2^(w-1))].  [wrapu] and [wraps] are the C++ conversions
    [static_cast<uW>] and [static_cast<sW>]. *)

Definition wrapu (w x : Z) : Z := x mod 2 ^ w.
Definition wraps (w x : Z) : Z := (x + 2 ^ (w - 1)) mod 2 ^ w - 2 ^ (w - 1).

Definition uN (w x : Z) : Prop := 0 <= x < 2 ^ w.
Definition sN (w x : Z) : Prop := - 2 ^ (w - 1) <= x < 2 ^ (w - 1).

Abbreviation u8 := (uN 8).
Abbreviation u16 := (uN 16).
Abbreviation u32 := (uN 32).
Abbreviation u64 := (uN 64).
Abbreviation s8 := (sN 8).
Abbreviation s16 := (sN 16).
Abbreviation s32 := (sN 32).
Abbreviation s40 := (sN 40).
Abbreviation s64 := (sN 64).

Abbreviation to_u8 := (wrapu 8).
Abbreviation to_u16 := (wrapu 16).
Abbreviation to_u32 := (wrapu 32).
Abbreviation to_u64 := (wrapu 64).
Abbreviation to_s8 := (wraps 8).
Abbreviation to_s16 := (wraps 16).
Abbreviation to_s32 := (wraps 32).
Abbreviation to_s64 := (wraps 64).

(** Bitwise operators, read with C++'s names. *)
Notation "x .& y" := (Z.land x y) (at level 40, left associativity) : Z_scope.
Notation "x .| y" := (Z.lor x y) (at level 45, left associativity) : Z_scope.
Notation "x .^ y" := (Z.lxor x y) (at level 44, left associativity) : Z_scope.
Notation "x .<< y" := (Z.shiftl x y) (at level 36, left associativity) : Z_scope.
Notation "x .>> y" := (Z.shiftr x y) (at level 36, left associativity) : Z_scope.

(** [truth b] is the C++ conversion of a [bool] in arithmetic. *)
Definition truth (b : bool) : Z := if b then 1 else 0.

(** * Fixed-size arrays

    A C array [T a[n]] is a finite map from indices to values in which an
    absent key reads as the zero of static or value initialisation.  Accesses
    go through [geta]/[seta] below, which check the bound [n]. *)

Abbreviation arr := (gmap Z Z).
Definition aat (a : arr) (i : Z) : Z := default 0 (a !! i).
Definition aupd (a : arr) (i v : Z) : arr := <[i := v]> a.
Definition arr_ok (P : Z -> Prop) (a : arr) : Prop := forall i, P (aat a i).

(** [aupd_list a i l] stores the elements of [l] at [i], [i + 1], ... *)
Fixpoint aupd_list (a : arr) (i : Z) (l : list Z) : arr :=
  match l with
  | [] => a
  | v :: l' => aupd_list (aupd a i v) (i + 1) l'
  end.

(** [aslice a i n] is the list of the [n] elements from index [i]. *)
Fixpoint aslice (a : arr) (i : Z) (n : nat) : list Z :=
  match n with
  | O => []
  | S n' => aat a i :: aslice a (i + 1) n'
  end.

(** * Computations

    Source code that mutates the emulator's objects is a function from the
    state to an [outcome].  [Fault] is an execution that does not come back:
    the process exits, or the C++ program has undefined behaviour. *)

Inductive fault : Type :=
  | ProcessExit          (* [std::exit] *)
  | DmaOutOfBounds       (* a DMA past the end of the DSP's memory buffer *)
  | HostRangeInvalid     (* a host pointer that is null is dereferenced *)
  | ArrayOutOfBounds.    (* any other array access outside the array *)

Inductive outcome (S A : Type) : Type :=
  | Done (a : A) (s : S)
  | Fault (f : fault).
Arguments Done {S A} a s.
Arguments Fault {S A} f.

Definition M (S A : Type) : Type := S -> outcome S A.

#[export] Instance M_ret {S} : MRet (M S) := fun A a s => Done a s.
#[export] Instance M_bind {S} : MBind (M S) := fun A B k m s =>
  match m s with
  | Done a s' => k a s'
  | Fault f => Fault f
  end.

Definition fail {S A} (f : fault) : M S A := fun _ => Fault f.

(** [if (b) m;] *)
Definition when {S} (b : bool) (m : M S unit) : M S unit :=
  if b then m else mret tt.

(** * Fields

    A [field] is a member of the state that the code reads and assigns. *)

Record field (S A : Type) : Type := Field {
  fget : S -> A;
  fset : A -> S -> S
}.
Arguments Field {S A} fget fset.
Arguments fget {S A} _ _.
Arguments fset {S A} _ _ _.

Definition getf {S A} (F : field S A) : M S A := fun s => Done (fget F s) s.
Definition setf {S A} (F : field S A) (v : A) : M S unit := fun s => Done tt (fset F v s).
Definition modf {S A} (F : field S A) (f : A -> A) : M S unit :=
  fun s => Done tt (fset F (f (fget F s)) s).

Definition inb (n i : Z) : bool := (0 <=? i) && (i <? n).

Definition geta {S} (n : Z) (F : field S arr) (i : Z) : M S Z := fun s =>
  if inb n i then Done (aat (fget F s) i) s else Fault ArrayOutOfBounds.
Definition seta {S} (n : Z) (F : field S arr) (i v : Z) : M S unit := fun s =>
  if inb n i then Done tt (fset F (aupd (fget F s) i v) s) else Fault ArrayOutOfBounds.

(** * Lemmas on machine integers *)

Lemma pow2_pos w : 0 <= w -> 0 < 2 ^ w.
Proof. intros; apply Z.pow_pos_nonneg; lia. Qed.

Lemma pow2_half w : 0 < w -> 2 ^ w = 2 * 2 ^ (w - 1).
Proof. intros. rewrite <- Z.pow_succ_r by lia. f_equal; lia. Qed.

Lemma wrapu_range w x : 0 <= w -> uN w (wrapu w x).
Proof. intros; apply Z.mod_pos_bound, pow2_pos; lia. Qed.

Lemma wrapu_small w x : uN w x -> wrapu w x = x.
Proof. apply Z.mod_small. Qed.

Lemma wraps_range w x : 0 < w -> sN w (wraps w x).
Proof.
  intros Hw. unfold wraps, sN. pose proof (pow2_half w Hw).
  pose proof (Z.mod_pos_bound (x + 2 ^ (w - 1)) (2 ^ w) (pow2_pos w ltac:(lia))). lia.
Qed.

Lemma wraps_small w x : 0 < w -> sN w x -> wraps w x = x.
Proof.
  intros Hw Hx. unfold wraps, sN in *. pose proof (pow2_half w Hw).
  rewrite Z.mod_small; lia.
Qed.

Lemma wraps_unique w x y k : 0 < w -> sN w y -> x = y + k * 2 ^ w -> wraps w x = y.
Proof.
  intros Hw Hy ->. rewrite <- (wraps_small w y Hw Hy) at 2. unfold wraps. f_equal.
  replace (y + k * 2 ^ w + 2 ^ (w - 1)) with (y + 2 ^ (w - 1) + k * 2 ^ w) by lia.
  apply Z.mod_add, Z.pow_nonzero; lia.
Qed.

Lemma wraps_spec w x : 0 < w -> exists k, x = wraps w x + k * 2 ^ w.
Proof.
  intros Hw. exists ((x + 2 ^ (w - 1)) / 2 ^ w). unfold wraps.
  pose proof (Z.div_mod (x + 2 ^ (w - 1)) (2 ^ w) (Z.pow_nonzero 2 w ltac:(lia) ltac:(lia))). lia.
Qed.

Lemma wrapu_spec w x : 0 <= w -> exists k, x = wrapu w x + k * 2 ^ w.
Proof.
  intros Hw. exists (x / 2 ^ w). unfold wrapu.
  pose proof (Z.div_mod x (2 ^ w) (Z.pow_nonzero 2 w ltac:(lia) ltac:(lia))). lia.
Qed.

Lemma wrapu_unique w x y k : uN w y -> x = y + k * 2 ^ w -> wrapu w x = y.
Proof.
  intros Hy ->. unfold wrapu. unfold uN in Hy. destruct (Z.eq_dec (2 ^ w) 0) as [E|E]; [lia|].
  rewrite Z.mod_add by done. apply Z.mod_small, Hy.
Qed.

Lemma wraps_add_mul w x k : 0 < w -> wraps w (x + k * 2 ^ w) = wraps w x.
Proof.
  intros Hw. destruct (wraps_spec w x Hw) as [j Hj].
  apply wraps_unique with (k := j + k); [done | by apply wraps_range | lia].
Qed.

Lemma wraps_wrapu w x : 0 < w -> wraps w (wrapu w x) = wraps w x.
Proof.
  intros Hw. destruct (wrapu_spec w x ltac:(lia)) as [k Hk].
  rewrite Hk at 2. by rewrite wraps_add_mul.
Qed.

Lemma wrapu_wraps w x : 0 < w -> wrapu w (wraps w x) = wrapu w x.
Proof.
  intros Hw. destruct (wraps_spec w x Hw) as [k Hk].
  rewrite Hk at 2. unfold wrapu. by rewrite Z.mod_add by (apply Z.pow_nonzero; lia).
Qed.

(** The idiom [(v << n) >> n] on a [w]-bit signed integer is the sign extension
    of its low [w - n] bits. *)
Lemma shl_shr_sext w n v :
  0 <= n < w -> (wraps w (v .<< n)) .>> n = wraps (w - n) v.
Proof.
  intros Hn. rewrite Z.shiftl_mul_pow2, Z.shiftr_div_pow2 by lia.
  destruct (wraps_spec (w - n) v ltac:(lia)) as [k Hk].
  assert (Hp : 2 ^ w = 2 ^ (w - n) * 2 ^ n) by (rewrite <- Z.pow_add_r by lia; f_equal; lia).
  assert (Hq : 2 ^ (w - 1) = 2 ^ (w - n - 1) * 2 ^ n)
    by (rewrite <- Z.pow_add_r by lia; f_equal; lia).
  pose proof (wraps_range (w - n) v ltac:(lia)) as Hr. pose proof (pow2_pos n ltac:(lia)).
  rewrite (wraps_unique w (v * 2 ^ n) (wraps (w - n) v * 2 ^ n) k).
  - apply Z.div_mul; lia.
  - lia.
  - unfold sN in *. rewrite Hq. nia.
  - rewrite Hk at 1. rewrite Hp. lia.
Qed.

(** ** Bit operations *)

Lemma land_bound x c : 0 <= c -> 0 <= x .& c <= c.
Proof.
  intros Hc. split; [apply Z.land_nonneg; lia|].
  assert (H : c = Z.lor (x .& c) (Z.ldiff c x)).
  { apply Z.bits_inj'. intros i Hi. rewrite Z.lor_spec, Z.land_spec, Z.ldiff_spec.
    by destruct (Z.testbit x i), (Z.testbit c i). }
  assert (0 <= Z.ldiff c x) by (apply Z.ldiff_nonneg; lia).
  assert (0 <= x .& c) by (apply Z.land_nonneg; lia).
  rewrite H at 2. rewrite <- Z.lxor_lor, <- Z.add_nocarry_lxor; [lia | |].
  all: apply Z.bits_inj'; intros i Hi; rewrite !Z.land_spec, Z.ldiff_spec, Z.bits_0;
    by destruct (Z.testbit x i), (Z.testbit c i).
Qed.

Lemma land_wrapu w x : 0 <= w -> x .& (2 ^ w - 1) = wrapu w x.
Proof.
  intros. replace (2 ^ w - 1) with (Z.ones w) by (rewrite Z.ones_equiv; lia).
  by apply Z.land_ones.
Qed.

Lemma uN_bits w x : 0 <= w -> 0 <= x -> (uN w x <-> forall i, w <= i -> Z.testbit x i = false).
Proof.
  intros Hw Hx. split.
  - intros Hu i Hi. rewrite <- (Z.mod_small x (2 ^ w)) by exact Hu.
    by apply Z.mod_pow2_bits_high.
  - intros Hb. enough (E : x = x mod 2 ^ w) by (rewrite E; by apply wrapu_range).
    apply Z.bits_inj'. intros i Hi. destruct (Z.lt_ge_cases i w).
    + by rewrite Z.mod_pow2_bits_low.
    + rewrite Z.mod_pow2_bits_high by done. by apply Hb.
Qed.

Lemma uN_land_r w x y : 0 <= w -> uN w y -> uN w (x .& y).
Proof. intros Hw [Hy Hy']. pose proof (land_bound x y Hy). unfold uN; lia. Qed.

Lemma uN_land_l w x y : 0 <= w -> uN w x -> uN w (x .& y).
Proof. rewrite Z.land_comm. apply uN_land_r. Qed.

Lemma uN_bitop w x y z (f : bool -> bool -> bool) :
  0 <= w -> 0 <= z -> f false false = false -> uN w x -> uN w y ->
  (forall i, 0 <= i -> Z.testbit z i = f (Z.testbit x i) (Z.testbit y i)) -> uN w z.
Proof.
  intros Hw Hz Hf Hx Hy Hb. apply uN_bits; [done..|]. intros i Hi.
  rewrite Hb by lia. unfold uN in *.
  by rewrite (proj1 (uN_bits w x Hw ltac:(lia)) Hx i), (proj1 (uN_bits w y Hw ltac:(lia)) Hy i).
Qed.

Lemma uN_lor w x y : 0 <= w -> uN w x -> uN w y -> uN w (x .| y).
Proof.
  intros Hw Hx Hy. apply (uN_bitop w x y _ orb); [done | | done..|].
  - apply Z.lor_nonneg. unfold uN in *; lia.
  - intros. apply Z.lor_spec.
Qed.

Lemma uN_lxor w x y : 0 <= w -> uN w x -> uN w y -> uN w (x .^ y).
Proof.
  intros Hw Hx Hy. apply (uN_bitop w x y _ xorb); [done | | done..|].
  - apply Z.lxor_nonneg. unfold uN in *; lia.
  - intros. apply Z.lxor_spec.
Qed.

Lemma uN_shiftr w x n : 0 <= w -> 0 <= n -> uN (w + n) x -> uN w (x .>> n).
Proof.
  intros Hw Hn. unfold uN. rewrite Z.shiftr_div_pow2, Z.pow_add_r by lia. intros Hx.
  pose proof (pow2_pos n Hn). split; [apply Z.div_pos; lia | apply Z.div_lt_upper_bound; lia].
Qed.

Lemma lor_shiftl_add a b n : uN n a -> 0 <= n -> a .| (b .<< n) = a + b * 2 ^ n.
Proof.
  intros Ha Hn. rewrite <- Z.shiftl_mul_pow2 by done. unfold uN in Ha.
  rewrite <- Z.lxor_lor, <- Z.add_nocarry_lxor; [done | |].
  all: apply Z.bits_inj'; intros i Hi; rewrite Z.land_spec, Z.bits_0.
  all: destruct (Z.lt_ge_cases i n); [rewrite Z.shiftl_spec_low by done; apply andb_false_r|].
  all: by rewrite (proj1 (uN_bits n a Hn ltac:(lia)) Ha i).
Qed.

(** * Array lemmas *)

Lemma aat_aupd a i v j : aat (aupd a i v) j = if i =? j then v else aat a j.
Proof.
  unfold aat, aupd. rewrite lookup_insert. destruct (Z.eqb_spec i j); by case_decide.
Qed.

Lemma aat_aupd_eq a i v : aat (aupd a i v) i = v.
Proof. rewrite aat_aupd. by rewrite Z.eqb_refl. Qed.

Lemma aat_aupd_ne a i v j : i <> j -> aat (aupd a i v) j = aat a j.
Proof. intros. rewrite aat_aupd. by destruct (Z.eqb_spec i j). Qed.

Lemma aupd_aupd a i v w : aupd (aupd a i v) i w = aupd a i w.
Proof. apply insert_insert_eq. Qed.

Lemma arr_ok_aupd (P : Z -> Prop) a i v : arr_ok P a -> P v -> arr_ok P (aupd a i v).
Proof. intros Ha Hv j. rewrite aat_aupd. by destruct (i =? j). Qed.

Lemma arr_ok_aupd_list (P : Z -> Prop) l a i :
  arr_ok P a -> Forall P l -> arr_ok P (aupd_list a i l).
Proof.
  revert a i. induction l as [|v l IH]; intros a i Ha Hl; cbn; [done|].
  inversion_clear Hl. apply IH; [by apply arr_ok_aupd | done].
Qed.

Lemma arr_ok_empty (P : Z -> Prop) : P 0 -> arr_ok P ∅.
Proof. intros H i. unfold aat. by rewrite lookup_empty. Qed.

Lemma aat_aupd_list l a i j :
  aat (aupd_list a i l) j =
  if (i <=? j) && (j <? i + Z.of_nat (length l)) then default 0 (l !! Z.to_nat (j - i)) else aat a j.
Proof.
  revert a i. induction l as [|v l IH]; intros a i; cbn [aupd_list length].
  - destruct (Z.leb_spec i j), (Z.ltb_spec j (i + Z.of_nat 0)); cbn; done || lia.
  - rewrite IH, aat_aupd. rewrite Nat2Z.inj_succ.
    destruct (Z.leb_spec (i + 1) j), (Z.leb_spec i j), (Z.eqb_spec i j), (Z.ltb_spec j (i + 1 + Z.of_nat (length l))),
      (Z.ltb_spec j (i + Z.succ (Z.of_nat (length l)))); cbn; try lia; try done.
    + replace (Z.to_nat (j - i)) with (S (Z.to_nat (j - (i + 1)))) by lia. done.
    + subst. by rewrite Z.sub_diag.
Qed.

Lemma inb_true n i : 0 <= i < n -> inb n i = true.
Proof. intros. unfold inb. rewrite (proj2 (Z.leb_le 0 i)), (proj2 (Z.ltb_lt i n)) by lia. done. Qed.

Lemma inb_spec n i : inb n i = true <-> 0 <= i < n.
Proof. unfold inb. rewrite andb_true_iff, Z.leb_le, Z.ltb_lt. done. Qed.


(** * Typed computations

    [typed I T m]: started in a state satisfying the invariant [I], [m] never
    accesses an array out of its bounds and, when it returns, re-establishes [I]
    and returns a value of type [T].  The judgement is compositional, so an
    operation is typed from the types of the operations it calls. *)

Definition any {A} (_ : A) : Prop := True.

Definition typed {S A} (I : S -> Prop) (T : A -> Prop) (m : M S A) : Prop :=
  forall s, I s ->
    match m s with
    | Done a s' => I s' /\ T a
    | Fault f => f <> ArrayOutOfBounds
    end.

(** A field whose values have type [P] in every state of the invariant, and that
    keeps the invariant when a value of type [P] is assigned. *)
Class FieldTyped {S A} (I : S -> Prop) (F : field S A) (P : A -> Prop) : Prop := {
  ft_get : forall s, I s -> P (fget F s);
  ft_set : forall s v, I s -> P v -> I (fset F v s)
}.

Section Typed.
Context {S : Type} (I : S -> Prop).

Lemma typed_ret {A} (T : A -> Prop) (a : A) : T a -> typed I T (mret a).
Proof. by intros Ha s Hs. Qed.

Lemma typed_bind {A B} (T : A -> Prop) (U : B -> Prop) (m : M S A) (k : A -> M S B) :
  typed I T m -> (forall a, T a -> typed I U (k a)) -> typed I U (m ≫= k).
Proof.
  intros Hm Hk s Hs. specialize (Hm s Hs). unfold mbind, M_bind.
  destruct (m s) as [a s'|f]; [|done]. destruct Hm as [Hs' Ha]. by apply Hk.
Qed.

Lemma typed_weaken {A} (T U : A -> Prop) (m : M S A) :
  typed I T m -> (forall a, T a -> U a) -> typed I U m.
Proof.
  intros Hm Hi s Hs. specialize (Hm s Hs). destruct (m s); [|done].
  destruct Hm; eauto.
Qed.

Lemma typed_any {A} (T : A -> Prop) (m : M S A) : typed I T m -> typed I any m.
Proof. intros H. eapply typed_weaken; done. Qed.

Lemma typed_if {A} (T : A -> Prop) (b : bool) (m1 m2 : M S A) :
  (b = true -> typed I T m1) -> (b = false -> typed I T m2) -> typed I T (if b then m1 else m2).
Proof. destruct b; auto. Qed.

Lemma typed_when (b : bool) (m : M S unit) :
  (b = true -> typed I any m) -> typed I any (when b m).
Proof. intros. apply typed_if; [done | intros; by apply typed_ret]. Qed.

Lemma typed_fail {A} (T : A -> Prop) f : f <> ArrayOutOfBounds -> typed I T (fail f).
Proof. by intros Hf s Hs. Qed.

Lemma typed_getf {A} (F : field S A) P {HF : FieldTyped I F P} : typed I P (getf F).
Proof. intros s Hs. cbn. split; [done | by apply (ft_get (I := I))]. Qed.

Lemma typed_setf {A} (F : field S A) P {HF : FieldTyped I F P} v : P v -> typed I any (setf F v).
Proof. intros Hv s Hs. cbn. split; [by apply (ft_set (I := I) (P := P)) | done]. Qed.

Lemma typed_modf {A} (F : field S A) P {HF : FieldTyped I F P} f :
  (forall v, P v -> P (f v)) -> typed I any (modf F f).
Proof.
  intros Hf s Hs. cbn. split; [|done].
  apply (ft_set (I := I) (P := P)); [done|]. by apply Hf, (ft_get (I := I)).
Qed.

Lemma typed_geta n (F : field S arr) P {HF : FieldTyped I F (arr_ok P)} i :
  0 <= i < n -> typed I P (geta n F i).
Proof.
  intros Hi s Hs. unfold geta. rewrite inb_true by done. split; [done|].
  by apply (ft_get (I := I) (P := arr_ok P)).
Qed.

Lemma typed_seta n (F : field S arr) P {HF : FieldTyped I F (arr_ok P)} i v :
  0 <= i < n -> P v -> typed I any (seta n F i v).
Proof.
  intros Hi Hv s Hs. unfold seta. rewrite inb_true by done. split; [|done].
  apply (ft_set (I := I) (P := arr_ok P)); [done|].
  apply arr_ok_aupd; [by apply (ft_get (I := I)) | done].
Qed.
End Typed.

(** * Running computations

    [mrun] evaluates the head of a computation from a symbolic state, calling an
    operation by its [run] lemma: an equation [op args s = Done a s']. *)

Lemma bind_done {S A B} (m : M S A) (k : A -> M S B) s a s' :
  m s = Done a s' -> (m ≫= k) s = k a s'.
Proof. unfold mbind, M_bind. by intros ->. Qed.

Lemma bind_fault {S A B} (m : M S A) (k : A -> M S B) s f :
  m s = Fault f -> (m ≫= k) s = Fault f.
Proof. unfold mbind, M_bind. by intros ->. Qed.

Lemma run_ret {S A} (a : A) (s : S) : (mret a : M S A) s = Done a s.
Proof. done. Qed.
Lemma run_getf {S A} (F : field S A) s : getf F s = Done (fget F s) s.
Proof. done. Qed.
Lemma run_setf {S A} (F : field S A) v s : setf F v s = Done tt (fset F v s).
Proof. done. Qed.
Lemma run_modf {S A} (F : field S A) f s : modf F f s = Done tt (fset F (f (fget F s)) s).
Proof. done. Qed.
Lemma run_geta {S} n (F : field S arr) i s :
  0 <= i < n -> geta n F i s = Done (aat (fget F s) i) s.
Proof. intros. unfold geta. by rewrite inb_true. Qed.
Lemma run_seta {S} n (F : field S arr) i v s :
  0 <= i < n -> seta n F i v s = Done tt (fset F (aupd (fget F s) i v) s).
Proof. intros. unfold seta. by rewrite inb_true. Qed.

Lemma run_eq {S A} (m : M S A) s a s1 b s2 :
  m s = Done a s1 -> a = b -> s1 = s2 -> m s = Done b s2.
Proof. by intros -> -> ->. Qed.

(** Inversion of a computation that came back. *)
Lemma bind_inv {S A B} (m : M S A) (k : A -> M S B) s b s' :
  (m ≫= k) s = Done b s' -> exists a s1, m s = Done a s1 /\ k a s1 = Done b s'.
Proof. unfold mbind, M_bind. destruct (m s); [eauto | done]. Qed.

(** * Automation *)

(** Adds the bound of every [_ .& c] with a literal mask that occurs in the goal
    or the hypotheses, then calls [lia]. *)
Ltac land_facts :=
  repeat match goal with
  | |- context [?x .& Zpos ?p] =>
      lazymatch goal with
      | _ : 0 <= x .& Zpos p <= Zpos p |- _ => fail
      | _ => pose proof (land_bound x (Zpos p) ltac:(lia))
      end
  | _ : context [?x .& Zpos ?p] |- _ =>
      lazymatch goal with
      | _ : 0 <= x .& Zpos p <= Zpos p |- _ => fail
      | _ => pose proof (land_bound x (Zpos p) ltac:(lia))
      end
  end.

(** The same for every conversion that occurs in the goal. *)
Ltac wrap_facts :=
  repeat match goal with
  | |- context [wrapu ?w ?x] =>
      lazymatch goal with
      | _ : uN w (wrapu w x) |- _ => fail
      | _ => pose proof (wrapu_range w x ltac:(lia))
      end
  | |- context [wraps ?w ?x] =>
      lazymatch goal with
      | _ : sN w (wraps w x) |- _ => fail
      | _ => pose proof (wraps_range w x ltac:(lia))
      end
  end.

Ltac range_lia := wrap_facts; unfold uN, sN, any in *; cbn [truth] in *; land_facts; lia.

(** Proves that a value has a machine-integer type. *)
Ltac solve_uN :=
  lazymatch goal with
  | H : uN ?w ?x |- uN ?w ?x => exact H
  | |- uN _ (wrapu _ _) => first [ apply wrapu_range; lia | range_lia ]
  | |- uN _ (_ .| _) => apply uN_lor; [lia | solve_uN | solve_uN]
  | |- uN _ (_ .^ _) => apply uN_lxor; [lia | solve_uN | solve_uN]
  | |- uN _ (_ .& _) =>
      first [ apply uN_land_r; [lia | solve_uN] | apply uN_land_l; [lia | solve_uN] ]
  | |- uN _ (if ?b then _ else _) => destruct b; solve_uN
  | |- uN _ (_ .<< _) => rewrite Z.shiftl_mul_pow2 by lia; range_lia
  | |- uN _ (_ .>> _) =>
      rewrite Z.shiftr_div_pow2 by lia; unfold uN, sN in *; land_facts;
      Z.div_mod_to_equations; lia
  | |- uN _ _ => range_lia
  end.

Ltac solve_sN :=
  lazymatch goal with
  | H : sN ?w ?x |- sN ?w ?x => exact H
  | |- sN _ (wraps _ _) => first [ apply wraps_range; lia | range_lia ]
  | |- sN _ _ => range_lia
  end.

Create HintDb typed discriminated.
#[export] Hint Extern 0 (FieldTyped _ _ _) => typeclasses eauto : typed.
#[export] Hint Extern 1 (any _) => exact I : typed.
#[export] Hint Resolve typed_getf typed_setf typed_geta typed_seta : typed.
#[export] Hint Extern 2 (_ <= _ < _) => range_lia : typed.
#[export] Hint Extern 2 (uN _ _) => solve_uN : typed.
#[export] Hint Extern 2 (sN _ _) => solve_sN : typed.
#[export] Hint Extern 3 (_ <> ArrayOutOfBounds) => discriminate : typed.

(** One step of a typing derivation: follow the computation's structure, and
    type a call by the hints of [typed]. *)
Ltac tstep :=
  lazymatch goal with
  | |- typed _ _ (mbind _ _) => eapply typed_bind; [ | intros ? ? ]
  | |- typed _ _ (mret _) => apply typed_ret
  | |- typed _ _ (when _ _) => apply typed_when; intros ?
  | |- typed _ _ (if _ then _ else _) => apply typed_if; intros ?
  | |- forall _, _ => intros ?
  | |- typed _ _ (fail _) => apply typed_fail; discriminate
  | |- typed _ _ (modf _ _) => first [ solve [ eauto 3 with typed ] | eapply typed_modf; [ typeclasses eauto | intros ? ? ] ]
  | |- typed _ _ _ => solve [ eauto 3 with typed ]
  | |- any _ => exact I
  | |- _ => solve [ eauto 3 with typed ]
  end.

Ltac tauto_typed := cbv zeta; repeat tstep.

Create HintDb run discriminated.
#[export] Hint Constants Opaque : run.
#[export] Hint Resolve run_ret run_getf run_setf run_modf run_geta run_seta : run.
#[export] Hint Extern 2 (_ <= _ < _) => range_lia : run.

(** One call, and as many as there are. *)
Ltac mstep := erewrite bind_done; [ | solve [ eauto 2 with run nocore ] ]; cbv beta.
Ltac mrun := cbv zeta beta; repeat mstep; 
  try solve [ eauto 2 with run nocore | reflexivity
            | eapply run_eq; [ solve [ eauto 2 with run nocore ] | reflexivity.. ] ].

(** * Slices of arrays *)

Lemma length_aslice a i n : length (aslice a i n) = n.
Proof. revert i. induction n; intros; cbn; auto. Qed.

Lemma lookup_aslice a i n k : (k < n)%nat -> aslice a i n !! k = Some (aat a (i + Z.of_nat k)).
Proof.
  revert i k. induction n as [|n IH]; intros i k Hk; [lia|]. destruct k as [|k]; cbn [aslice lookup].
  - cbn. do 2 f_equal. lia.
  - cbn. rewrite IH by lia. do 2 f_equal. lia.
Qed.
