(* ===== verification/Accelerator.v ===== *)
(** The DSP's ARAM accelerator ([Core/DSP/DSPAccelerator.{h,cpp}]): the sample
    decoder that the ucodes read through the hardware registers.

    [Accelerator] is an abstract C++ class; its three virtual methods are the
    class [AcceleratorEnv] here, over the state [E] of whatever implements them
    (the LLE instance is in [DSPHardware]). *)
From stdpp Require Import base tactics option list gmap.
From Stdlib Require Import ZArith Lia Bool.
From S2P Require Import Prelude.

(** * State *)

Record Accel : Type := mkAccel {
  m_start_address : Z;
  m_end_address : Z;
  m_current_address : Z;
  m_sample_format : Z;
  m_yn1 : Z;
  m_yn2 : Z;
  m_pred_scale : Z;
  m_reads_stopped : bool
}.

Definition Accel_init : Accel := mkAccel 0 0 0 0 0 0 0 false.

(** The pure virtual methods. *)
Class AcceleratorEnv (E : Type) : Type := {
  ReadMemory : Z -> E -> Z;
  WriteMemory : Z -> Z -> E -> E;
  OnEndException : E -> E
}.

Definition START_END_ADDRESS_MASK : Z := 0x3fffffff.
Definition CURRENT_ADDRESS_MASK : Z := 0xbfffffff.

(** * Operations *)

Section Operations.
Context {E : Type} {env : AcceleratorEnv E}.

Abbreviation AM := (M (Accel * E)).

Definition a_start : field (Accel * E) Z := Field (fun s => m_start_address s.1)
  (fun v s => (mkAccel v (m_end_address s.1) (m_current_address s.1) (m_sample_format s.1)
    (m_yn1 s.1) (m_yn2 s.1) (m_pred_scale s.1) (m_reads_stopped s.1), s.2)).
Definition a_end : field (Accel * E) Z := Field (fun s => m_end_address s.1)
  (fun v s => (mkAccel (m_start_address s.1) v (m_current_address s.1) (m_sample_format s.1)
    (m_yn1 s.1) (m_yn2 s.1) (m_pred_scale s.1) (m_reads_stopped s.1), s.2)).
Definition a_current : field (Accel * E) Z := Field (fun s => m_current_address s.1)
  (fun v s => (mkAccel (m_start_address s.1) (m_end_address s.1) v (m_sample_format s.1)
    (m_yn1 s.1) (m_yn2 s.1) (m_pred_scale s.1) (m_reads_stopped s.1), s.2)).
Definition a_format : field (Accel * E) Z := Field (fun s => m_sample_format s.1)
  (fun v s => (mkAccel (m_start_address s.1) (m_end_address s.1) (m_current_address s.1) v
    (m_yn1 s.1) (m_yn2 s.1) (m_pred_scale s.1) (m_reads_stopped s.1), s.2)).
Definition a_yn1 : field (Accel * E) Z := Field (fun s => m_yn1 s.1)
  (fun v s => (mkAccel (m_start_address s.1) (m_end_address s.1) (m_current_address s.1)
    (m_sample_format s.1) v (m_yn2 s.1) (m_pred_scale s.1) (m_reads_stopped s.1), s.2)).
Definition a_yn2 : field (Accel * E) Z := Field (fun s => m_yn2 s.1)
  (fun v s => (mkAccel (m_start_address s.1) (m_end_address s.1) (m_current_address s.1)
    (m_sample_format s.1) (m_yn1 s.1) v (m_pred_scale s.1) (m_reads_stopped s.1), s.2)).
Definition a_pred_scale : field (Accel * E) Z := Field (fun s => m_pred_scale s.1)
  (fun v s => (mkAccel (m_start_address s.1) (m_end_address s.1) (m_current_address s.1)
    (m_sample_format s.1) (m_yn1 s.1) (m_yn2 s.1) v (m_reads_stopped s.1), s.2)).
Definition a_stopped : field (Accel * E) bool := Field (fun s => m_reads_stopped s.1)
  (fun v s => (mkAccel (m_start_address s.1) (m_end_address s.1) (m_current_address s.1)
    (m_sample_format s.1) (m_yn1 s.1) (m_yn2 s.1) (m_pred_scale s.1) v, s.2)).
Definition a_env : field (Accel * E) E := Field snd (fun v s => (s.1, v)).

(** The implementation's [ReadMemory] returns a [u8]. *)
Definition read_memory (address : Z) : AM Z :=
  e ← getf a_env; mret (to_u8 (ReadMemory (to_u32 address) e)).
(** ... and its [WriteMemory] takes a [u32] and a [u8]. *)
Definition write_memory (address value : Z) : AM unit :=
  modf a_env (WriteMemory (to_u32 address) (to_u8 value)).

Definition SetStartAddress (address : Z) : AM unit :=
  setf a_start (address .& START_END_ADDRESS_MASK).
Definition SetEndAddress (address : Z) : AM unit :=
  setf a_end (address .& START_END_ADDRESS_MASK).
Definition SetCurrentAddress (address : Z) : AM unit :=
  setf a_current (address .& CURRENT_ADDRESS_MASK).
Definition SetSampleFormat (format : Z) : AM unit := setf a_format format.
Definition SetYn1 (yn1 : Z) : AM unit := setf a_yn1 yn1.
Definition SetYn2 (yn2 : Z) : AM unit := setf a_yn2 yn2 ;; setf a_stopped false.
Definition SetPredScale (pred_scale : Z) : AM unit := setf a_pred_scale (pred_scale .& 0x7f).

Definition bump_current (n : Z) : AM unit := modf a_current (fun c => to_u32 (c + n)).

Definition ReadD3 : AM Z :=
  fmt ← getf a_format;
  val ← (if fmt =? 0x5 then
           c ← getf a_current; v ← read_memory c; bump_current 1 ;; mret v
         else if fmt =? 0x6 then
           c ← getf a_current;
           hi ← read_memory (c * 2); lo ← read_memory (c * 2 + 1);
           bump_current 1 ;; mret ((hi .<< 8) .| lo)
         else mret 0);
  current ← getf a_current; end_ ← getf a_end;
  when (end_ <=? current) (start ← getf a_start; setf a_current start) ;;
  mret val.

Definition WriteD3 (value : Z) : AM unit :=
  fmt ← getf a_format;
  when (fmt =? 0xA)
    (c ← getf a_current;
     write_memory (c * 2) (value .>> 8) ;;
     write_memory (c * 2 + 1) (value .& 0xFF) ;;
     bump_current 1).

(** [std::clamp<s32>(v, lo, hi)] *)
Definition clamp (v lo hi : Z) : Z := if v <? lo then lo else if hi <? v then hi else v.

(** The ADPCM prediction; [int] arithmetic, which wraps where C++ leaves the
    overflow undefined. *)
Definition adpcm_sample (scale temp coef1 coef2 yn1 yn2 : Z) : Z :=
  let pred := to_s32 (to_s32 (0x400 + coef1 * yn1) + coef2 * yn2) in
  let val32 := to_s32 (scale * temp + (pred .>> 11)) in
  to_u16 (clamp val32 (-0x7FFF) 0x7FFF).

(** Reading element [i] of the [coefs] argument, [None] past its array. *)
Definition coef_at (coefs : Z -> option Z) (i : Z) : AM Z :=
  match coefs i with Some c => mret c | None => fail ArrayOutOfBounds end.

(** Pushes a decoded sample into the history: [m_yn2 = m_yn1; m_yn1 = val;]. *)
Definition push_yn (val : Z) : AM unit :=
  y1 ← getf a_yn1; setf a_yn2 y1 ;; setf a_yn1 (to_s16 val).

(** The [case 0x00] of [Read]: the sample and [step_size_bytes]. *)
Definition Read_adpcm (coefs : Z -> option Z) : AM (Z * Z) :=
  ps ← getf a_pred_scale;
  let scale := 1 .<< (ps .& 0xF) in
  let coef_idx := (ps .>> 4) .& 0x7 in
  coef1 ← coef_at coefs (coef_idx * 2 + 0);
  coef2 ← coef_at coefs (coef_idx * 2 + 1);
  c ← getf a_current;
  m ← read_memory (c .>> 1);
  let temp := if negb ((c .& 1) =? 0) then m .& 0xF else m .>> 4 in
  let temp := if 8 <=? temp then temp - 16 else temp in
  yn1 ← getf a_yn1; yn2 ← getf a_yn2;
  let val := adpcm_sample scale temp coef1 coef2 yn1 yn2 in
  push_yn val ;;
  bump_current 1 ;;
  end_ ← getf a_end; c ← getf a_current;
  if ((end_ .& 0xf) =? 0x0) && (c =? end_) then
    start ← getf a_start; setf a_current (to_u32 (start + 1)) ;; mret (val, 2)
  else if ((end_ .& 0xf) =? 0x1) && (c =? to_u32 (end_ - 1)) then
    start ← getf a_start; setf a_current start ;; mret (val, 2)
  else if (c .& 15) =? 0 then
    p ← read_memory ((c .& to_u32 (Z.lnot 15)) .>> 1);
    setf a_pred_scale p ;; bump_current 2 ;; mret (val, 2 + 2)
  else mret (val, 2).

Definition Read (coefs : Z -> option Z) : AM Z :=
  stopped ← getf a_stopped;
  if (stopped : bool) then mret 0x0000 else
  fmt ← getf a_format;
  vs ← (if fmt =? 0x00 then Read_adpcm coefs
        else if fmt =? 0x0A then
          c ← getf a_current;
          hi ← read_memory (c * 2); lo ← read_memory (c * 2 + 1);
          let val := (hi .<< 8) .| lo in
          push_yn val ;; bump_current 1 ;; mret (val, 2)
        else if fmt =? 0x19 then
          c ← getf a_current;
          m ← read_memory c;
          let val := to_u16 (m .<< 8) in
          push_yn val ;; bump_current 1 ;; mret (val, 2)
        else bump_current 1 ;; mret (0, 2));
  let (val, step_size_bytes) := (vs : Z * Z) in
  current ← getf a_current; end_ ← getf a_end;
  when (current =? to_u32 (end_ + step_size_bytes - 1))
    (start ← getf a_start;
     setf a_current start ;;
     setf a_stopped true ;;
     modf a_env OnEndException) ;;
  current ← getf a_current;
  SetCurrentAddress current ;;
  mret val.
End Operations.

(** * The type invariant *)

(** [MaskedCurrent] is what [SetCurrentAddress] establishes. *)
Definition masked_current (c : Z) : Prop := u32 c /\ c .& 0x40000000 = 0.

Record accel_ok (a : Accel) : Prop := {
  ok_start : uN 30 (m_start_address a);
  ok_end : uN 30 (m_end_address a);
  ok_current : u32 (m_current_address a);
  ok_format : u16 (m_sample_format a);
  ok_yn1 : s16 (m_yn1 a);
  ok_yn2 : s16 (m_yn2 a);
  ok_pred : u16 (m_pred_scale a)
}.

Section Typing.
Context {E : Type} {env : AcceleratorEnv E} (J : E -> Prop).
Hypothesis WriteMemory_ok : forall e a v, J e -> u32 a -> u8 v -> J (WriteMemory a v e).
Hypothesis OnEndException_ok : forall e, J e -> J (OnEndException e).

Definition AI (s : Accel * E) : Prop := accel_ok s.1 /\ J s.2.

Ltac ft := split; [ intros [a e] [[] ?]; cbn in *; assumption
                  | intros [a e] v [[] ?] ?; split; [split|]; cbn in *; assumption ].

#[export] Instance ft_a_start : FieldTyped AI a_start (uN 30). Proof. ft. Qed.
#[export] Instance ft_a_end : FieldTyped AI a_end (uN 30). Proof. ft. Qed.
#[export] Instance ft_a_current : FieldTyped AI a_current u32. Proof. ft. Qed.
#[export] Instance ft_a_format : FieldTyped AI a_format u16. Proof. ft. Qed.
#[export] Instance ft_a_yn1 : FieldTyped AI a_yn1 s16. Proof. ft. Qed.
#[export] Instance ft_a_yn2 : FieldTyped AI a_yn2 s16. Proof. ft. Qed.
#[export] Instance ft_a_pred : FieldTyped AI a_pred_scale u16. Proof. ft. Qed.
#[export] Instance ft_a_env : FieldTyped AI a_env J. Proof. ft. Qed.
#[export] Instance ft_a_stopped : FieldTyped AI a_stopped any.
Proof. split; [done|]. intros [a e] v [[] ?] ?; split; [split|]; assumption. Qed.

Lemma typed_read_memory a : typed AI u8 (read_memory a).
Proof. unfold read_memory. tauto_typed. Qed.

Lemma typed_write_memory a v : typed AI any (write_memory a v).
Proof.
  apply (typed_modf _ _ J). intros e He.
  apply WriteMemory_ok; [done | apply wrapu_range; lia..].
Qed.

Lemma typed_bump n : typed AI any (bump_current n).
Proof. apply (typed_modf _ _ u32). intros. solve_uN. Qed.
#[local] Hint Resolve typed_read_memory typed_write_memory typed_bump : typed.

Lemma typed_push_yn v : typed AI any (push_yn v).
Proof. unfold push_yn. tauto_typed. Qed.

Lemma typed_SetCurrentAddress a : u32 a -> typed AI any (SetCurrentAddress a).
Proof. unfold SetCurrentAddress, CURRENT_ADDRESS_MASK. intros. tauto_typed. Qed.

Lemma typed_SetStartAddress a : typed AI any (SetStartAddress a).
Proof. unfold SetStartAddress, START_END_ADDRESS_MASK. tauto_typed. Qed.

Lemma typed_SetEndAddress a : typed AI any (SetEndAddress a).
Proof. unfold SetEndAddress, START_END_ADDRESS_MASK. tauto_typed. Qed.

Lemma typed_SetSampleFormat a : u16 a -> typed AI any (SetSampleFormat a).
Proof. unfold SetSampleFormat. intros. tauto_typed. Qed.

Lemma typed_SetYn1 a : s16 a -> typed AI any (SetYn1 a).
Proof. unfold SetYn1. intros. tauto_typed. Qed.

Lemma typed_SetYn2 a : s16 a -> typed AI any (SetYn2 a).
Proof. unfold SetYn2. intros. tauto_typed. Qed.

Lemma typed_SetPredScale a : typed AI any (SetPredScale a).
Proof. unfold SetPredScale. tauto_typed. Qed.

Lemma typed_ReadD3 : typed AI u16 ReadD3.
Proof.
  unfold ReadD3. tstep; [tstep|]. eapply (typed_bind _ u16); tauto_typed.
Qed.

Lemma typed_WriteD3 v : typed AI any (WriteD3 v).
Proof. unfold WriteD3. tauto_typed. Qed.

Lemma typed_coef_at coefs i :
  (forall j, 0 <= j < 16 -> exists c, coefs j = Some c /\ s16 c) ->
  0 <= i < 16 -> typed AI s16 (coef_at coefs i).
Proof. intros Hc Hi. unfold coef_at. destruct (Hc i Hi) as (c & -> & ?). tauto_typed. Qed.

Lemma adpcm_sample_range a b c d e f : u16 (adpcm_sample a b c d e f).
Proof. unfold adpcm_sample. apply wrapu_range. lia. Qed.
#[local] Hint Resolve typed_push_yn typed_SetCurrentAddress adpcm_sample_range : typed.

Definition sample_step (vs : Z * Z) : Prop := u16 vs.1 /\ 0 <= vs.2 <= 4.

Lemma typed_Read_adpcm coefs :
  (forall j, 0 <= j < 16 -> exists c, coefs j = Some c /\ s16 c) ->
  typed AI sample_step (Read_adpcm coefs).
Proof.
  intros Hc. unfold Read_adpcm, sample_step.
  tstep; [tstep|]. cbv zeta. do 2 (tstep; [apply typed_coef_at; [done | range_lia]|]).
  tauto_typed; cbn; (split; [apply adpcm_sample_range | lia]) || idtac.
Qed.

Lemma typed_Read coefs :
  (forall j, 0 <= j < 16 -> exists c, coefs j = Some c /\ s16 c) ->
  typed AI u16 (Read coefs).
Proof.
  intros Hc. unfold Read. tstep; [tstep|]. tstep; [tauto_typed|].
  tstep; [tstep|]. tstep.
  - eapply typed_if; intros _; [by apply typed_Read_adpcm|].
    unfold sample_step. tauto_typed; split; cbn; solve_uN || lia.
  - destruct a1 as [val step]. unfold sample_step in *. cbn in *. tauto_typed.
Qed.
End Typing.

#[export] Hint Resolve typed_SetStartAddress typed_SetEndAddress typed_SetCurrentAddress
  typed_SetSampleFormat typed_SetYn1 typed_SetYn2 typed_SetPredScale : typed.
