(* ===== verification/DSPState.v ===== *)
(** The state of the DSP ([Core/DSP/DSPCore.h]): the registers, memories,
    stacks and hardware registers of [SDSP], the interpreter's write-back log,
    and the interface to the rest of the emulator ([Core/DSP/DSPHost.h]). *)
From stdpp Require Import base tactics option list gmap.
From Stdlib Require Import ZArith Lia Bool.
From S2P Require Import Prelude Accelerator.

(** * Constants of [DSPCore.h] *)

Abbreviation DSP_IRAM_SIZE := 0x1000 (only parsing).
Abbreviation DSP_IRAM_BYTE_SIZE := 0x2000 (only parsing).
Abbreviation DSP_IRAM_MASK := 0x0fff (only parsing).
Abbreviation DSP_IROM_SIZE := 0x1000 (only parsing).
Abbreviation DSP_IROM_MASK := 0x0fff (only parsing).
Abbreviation DSP_DRAM_SIZE := 0x1000 (only parsing).
Abbreviation DSP_DRAM_BYTE_SIZE := 0x2000 (only parsing).
Abbreviation DSP_DRAM_MASK := 0x0fff (only parsing).
Abbreviation DSP_COEF_SIZE := 0x800 (only parsing).
Abbreviation DSP_COEF_MASK := 0x7ff (only parsing).
Abbreviation DSP_RESET_VECTOR := 0x8000 (only parsing).
Abbreviation DSP_STACK_DEPTH := 0x20 (only parsing).
Abbreviation DSP_STACK_MASK := 0x1f (only parsing).
Abbreviation DSP_CR_IMEM := 2 (only parsing).
Abbreviation DSP_CR_DMEM := 0 (only parsing).
Abbreviation DSP_CR_TO_CPU := 1 (only parsing).
Abbreviation DSP_CR_FROM_CPU := 0 (only parsing).

Abbreviation DSP_REG_AR0 := 0x00 (only parsing).
Abbreviation DSP_REG_AR3 := 0x03 (only parsing).
Abbreviation DSP_REG_IX0 := 0x04 (only parsing).
Abbreviation DSP_REG_WR0 := 0x08 (only parsing).
Abbreviation DSP_REG_ST0 := 0x0c (only parsing).
Abbreviation DSP_REG_ACH0 := 0x10 (only parsing).
Abbreviation DSP_REG_ACH1 := 0x11 (only parsing).
Abbreviation DSP_REG_CR := 0x12 (only parsing).
Abbreviation DSP_REG_SR := 0x13 (only parsing).
Abbreviation DSP_REG_PRODL := 0x14 (only parsing).
Abbreviation DSP_REG_PRODM := 0x15 (only parsing).
Abbreviation DSP_REG_PRODH := 0x16 (only parsing).
Abbreviation DSP_REG_PRODM2 := 0x17 (only parsing).
Abbreviation DSP_REG_AXL0 := 0x18 (only parsing).
Abbreviation DSP_REG_AXL1 := 0x19 (only parsing).
Abbreviation DSP_REG_AXH0 := 0x1a (only parsing).
Abbreviation DSP_REG_AXH1 := 0x1b (only parsing).
Abbreviation DSP_REG_ACL0 := 0x1c (only parsing).
Abbreviation DSP_REG_ACL1 := 0x1d (only parsing).
Abbreviation DSP_REG_ACM0 := 0x1e (only parsing).
Abbreviation DSP_REG_ACM1 := 0x1f (only parsing).

Abbreviation DSP_COEF_A1_0 := 0xa0 (only parsing).
Abbreviation DSP_DSCR := 0xc9 (only parsing).
Abbreviation DSP_DSPA := 0xcd (only parsing).
Abbreviation DSP_DSBL := 0xcb (only parsing).
Abbreviation DSP_DSMAH := 0xce (only parsing).
Abbreviation DSP_DSMAL := 0xcf (only parsing).
Abbreviation DSP_FORMAT := 0xd1 (only parsing).
Abbreviation DSP_ACDATA1 := 0xd3 (only parsing).
Abbreviation DSP_ACSAH := 0xd4 (only parsing).
Abbreviation DSP_ACSAL := 0xd5 (only parsing).
Abbreviation DSP_ACEAH := 0xd6 (only parsing).
Abbreviation DSP_ACEAL := 0xd7 (only parsing).
Abbreviation DSP_ACCAH := 0xd8 (only parsing).
Abbreviation DSP_ACCAL := 0xd9 (only parsing).
Abbreviation DSP_PRED_SCALE := 0xda (only parsing).
Abbreviation DSP_YN1 := 0xdb (only parsing).
Abbreviation DSP_YN2 := 0xdc (only parsing).
Abbreviation DSP_ACCELERATOR := 0xdd (only parsing).
Abbreviation DSP_GAIN := 0xde (only parsing).
Abbreviation DSP_AMDM := 0xef (only parsing).
Abbreviation DSP_DIRQ := 0xfb (only parsing).
Abbreviation DSP_DMBH := 0xfc (only parsing).
Abbreviation DSP_DMBL := 0xfd (only parsing).
Abbreviation DSP_CMBH := 0xfe (only parsing).
Abbreviation DSP_CMBL := 0xff (only parsing).

Abbreviation CR_RESET := 0x0001 (only parsing).
Abbreviation CR_EXTERNAL_INT := 0x0002 (only parsing).
Abbreviation CR_HALT := 0x0004 (only parsing).
Abbreviation CR_INIT_CODE := 0x0400 (only parsing).
Abbreviation CR_INIT := 0x0800 (only parsing).

Abbreviation SR_CARRY := 0x0001 (only parsing).
Abbreviation SR_OVERFLOW := 0x0002 (only parsing).
Abbreviation SR_ARITH_ZERO := 0x0004 (only parsing).
Abbreviation SR_SIGN := 0x0008 (only parsing).
Abbreviation SR_OVER_S32 := 0x0010 (only parsing).
Abbreviation SR_TOP2BITS := 0x0020 (only parsing).
Abbreviation SR_LOGIC_ZERO := 0x0040 (only parsing).
Abbreviation SR_OVERFLOW_STICKY := 0x0080 (only parsing).
Abbreviation SR_100 := 0x0100 (only parsing).
Abbreviation SR_INT_ENABLE := 0x0200 (only parsing).
Abbreviation SR_EXT_INT_ENABLE := 0x0800 (only parsing).
Abbreviation SR_MUL_MODIFY := 0x2000 (only parsing).
Abbreviation SR_40_MODE_BIT := 0x4000 (only parsing).
Abbreviation SR_MUL_UNSIGNED := 0x8000 (only parsing).
Abbreviation SR_CMP_MASK := 0x3f (only parsing).

Inductive StackRegister : Type := Call | Data | LoopAddress | LoopCounter.

Definition stack_index (s : StackRegister) : Z :=
  match s with Call => 0 | Data => 1 | LoopAddress => 2 | LoopCounter => 3 end.

Inductive ExceptionType : Type :=
  | StackOverflow | EXP_2 | EXP_3 | EXP_4 | AcceleratorOverflow | EXP_6 | ExternalInterrupt.

Definition exception_number (e : ExceptionType) : Z :=
  match e with
  | StackOverflow => 1 | EXP_2 => 2 | EXP_3 => 3 | EXP_4 => 4
  | AcceleratorOverflow => 5 | EXP_6 => 6 | ExternalInterrupt => 7
  end.

Inductive Mailbox : Type := CPU | DSP.

Definition mailbox_index (m : Mailbox) : Z := match m with CPU => 0 | DSP => 1 end.

#[export] Instance StackRegister_eq_dec : EqDecision StackRegister.
Proof. solve_decision. Defined.
#[export] Instance Mailbox_eq_dec : EqDecision Mailbox.
Proof. solve_decision. Defined.

(** * The emulator around the DSP

    [DSPHost] is the interface of [DSPHost.h] as [DSPHost.cpp] implements it:
    ARAM, the emulated main memory behind [CopyFromEmuSwapped] and
    [GetPointerForRange], the interrupt line to the PowerPC and the clock.
    [range_valid h a n] says that [GetPointerForRange(a, n)] is not null. *)
Class DSPHost (H : Type) : Type := {
  ReadARAM : Z -> H -> Z;
  WriteARAM : Z -> Z -> H -> H;
  range_valid : Z -> Z -> H -> bool;
  mem_read_u8 : Z -> H -> Z;
  mem_write_u8 : Z -> Z -> H -> H;
  GenerateDSPInterrupt : H -> H;
  GetFakeTimeBase : H -> Z;
  ForceExceptionCheck : Z -> H -> H
}.

(** * State

    The unions of [DSP_Regs] are their 16-bit members ([prod.val], [ax.val] and
    [ac.val] are computed from them, little-endian); the arrays [ax[2]] and
    [ac[2]] of structs are one array per member. *)

Record DSP_Regs : Type := mkRegs {
  ar : arr;
  ix : arr;
  wr : arr;
  st : arr;
  cr : Z;
  sr : Z;
  prod_l : Z;
  prod_m : Z;
  prod_h : Z;
  prod_m2 : Z;
  ax_l : arr;
  ax_h : arr;
  ac_l : arr;
  ac_m : arr;
  ac_h : arr
}.

(** [reg_stacks[4][DSP_STACK_DEPTH]] is flattened in row order.  [m_code_flags] is the
    [Analyzer]'s. *)
Record SDSP : Type := mkSDSP {
  r : DSP_Regs;
  pc : Z;
  control_reg : Z;
  control_reg_init_code_clear_time : Z;
  reg_stack_ptrs : arr;
  exceptions : Z;
  external_interrupt_waiting : bool;
  reg_stacks : arr;
  iram : arr;
  dram : arr;
  irom : arr;
  coef : arr;
  m_iram_crc : Z;
  m_step_counter : Z;
  m_ifx_regs : arr;
  m_accelerator : Accel;
  m_mailbox : arr;
  m_code_flags : arr
}.

(** The interpreter's state: the DSP, the write-back log, and the host. *)
Record State (H : Type) : Type := mkState {
  dsp : SDSP;
  m_write_back_log : arr;
  m_write_back_log_idx : arr;
  host : H
}.
Arguments mkState {H} dsp m_write_back_log m_write_back_log_idx host.
Arguments dsp {H} _.
Arguments m_write_back_log {H} _.
Arguments m_write_back_log_idx {H} _.
Arguments host {H} _.

Section Fields.
Context {H : Type}.
Implicit Type s : State H.

Definition upd_dsp (f : SDSP -> SDSP) s : State H :=
  mkState (f (dsp s)) (m_write_back_log s) (m_write_back_log_idx s) (host s).

Definition f_r : field (State H) DSP_Regs := Field (fun s => r (dsp s))
  (fun v => upd_dsp (fun d => mkSDSP v (pc d) (control_reg d) (control_reg_init_code_clear_time d) (reg_stack_ptrs d) (exceptions d) (external_interrupt_waiting d) (reg_stacks d) (iram d) (dram d) (irom d) (coef d) (m_iram_crc d) (m_step_counter d) (m_ifx_regs d) (m_accelerator d) (m_mailbox d) (m_code_flags d))).
Definition f_pc : field (State H) Z := Field (fun s => pc (dsp s))
  (fun v => upd_dsp (fun d => mkSDSP (r d) v (control_reg d) (control_reg_init_code_clear_time d) (reg_stack_ptrs d) (exceptions d) (external_interrupt_waiting d) (reg_stacks d) (iram d) (dram d) (irom d) (coef d) (m_iram_crc d) (m_step_counter d) (m_ifx_regs d) (m_accelerator d) (m_mailbox d) (m_code_flags d))).
Definition f_control_reg : field (State H) Z := Field (fun s => control_reg (dsp s))
  (fun v => upd_dsp (fun d => mkSDSP (r d) (pc d) v (control_reg_init_code_clear_time d) (reg_stack_ptrs d) (exceptions d) (external_interrupt_waiting d) (reg_stacks d) (iram d) (dram d) (irom d) (coef d) (m_iram_crc d) (m_step_counter d) (m_ifx_regs d) (m_accelerator d) (m_mailbox d) (m_code_flags d))).
Definition f_control_reg_init_code_clear_time : field (State H) Z := Field (fun s => control_reg_init_code_clear_time (dsp s))
  (fun v => upd_dsp (fun d => mkSDSP (r d) (pc d) (control_reg d) v (reg_stack_ptrs d) (exceptions d) (external_interrupt_waiting d) (reg_stacks d) (iram d) (dram d) (irom d) (coef d) (m_iram_crc d) (m_step_counter d) (m_ifx_regs d) (m_accelerator d) (m_mailbox d) (m_code_flags d))).
Definition f_reg_stack_ptrs : field (State H) arr := Field (fun s => reg_stack_ptrs (dsp s))
  (fun v => upd_dsp (fun d => mkSDSP (r d) (pc d) (control_reg d) (control_reg_init_code_clear_time d) v (exceptions d) (external_interrupt_waiting d) (reg_stacks d) (iram d) (dram d) (irom d) (coef d) (m_iram_crc d) (m_step_counter d) (m_ifx_regs d) (m_accelerator d) (m_mailbox d) (m_code_flags d))).
Definition f_exceptions : field (State H) Z := Field (fun s => exceptions (dsp s))
  (fun v => upd_dsp (fun d => mkSDSP (r d) (pc d) (control_reg d) (control_reg_init_code_clear_time d) (reg_stack_ptrs d) v (external_interrupt_waiting d) (reg_stacks d) (iram d) (dram d) (irom d) (coef d) (m_iram_crc d) (m_step_counter d) (m_ifx_regs d) (m_accelerator d) (m_mailbox d) (m_code_flags d))).
Definition f_external_interrupt_waiting : field (State H) bool := Field (fun s => external_interrupt_waiting (dsp s))
  (fun v => upd_dsp (fun d => mkSDSP (r d) (pc d) (control_reg d) (control_reg_init_code_clear_time d) (reg_stack_ptrs d) (exceptions d) v (reg_stacks d) (iram d) (dram d) (irom d) (coef d) (m_iram_crc d) (m_step_counter d) (m_ifx_regs d) (m_accelerator d) (m_mailbox d) (m_code_flags d))).
Definition f_reg_stacks : field (State H) arr := Field (fun s => reg_stacks (dsp s))
  (fun v => upd_dsp (fun d => mkSDSP (r d) (pc d) (control_reg d) (control_reg_init_code_clear_time d) (reg_stack_ptrs d) (exceptions d) (external_interrupt_waiting d) v (iram d) (dram d) (irom d) (coef d) (m_iram_crc d) (m_step_counter d) (m_ifx_regs d) (m_accelerator d) (m_mailbox d) (m_code_flags d))).
Definition f_iram : field (State H) arr := Field (fun s => iram (dsp s))
  (fun v => upd_dsp (fun d => mkSDSP (r d) (pc d) (control_reg d) (control_reg_init_code_clear_time d) (reg_stack_ptrs d) (exceptions d) (external_interrupt_waiting d) (reg_stacks d) v (dram d) (irom d) (coef d) (m_iram_crc d) (m_step_counter d) (m_ifx_regs d) (m_accelerator d) (m_mailbox d) (m_code_flags d))).
Definition f_dram : field (State H) arr := Field (fun s => dram (dsp s))
  (fun v => upd_dsp (fun d => mkSDSP (r d) (pc d) (control_reg d) (control_reg_init_code_clear_time d) (reg_stack_ptrs d) (exceptions d) (external_interrupt_waiting d) (reg_stacks d) (iram d) v (irom d) (coef d) (m_iram_crc d) (m_step_counter d) (m_ifx_regs d) (m_accelerator d) (m_mailbox d) (m_code_flags d))).
Definition f_irom : field (State H) arr := Field (fun s => irom (dsp s))
  (fun v => upd_dsp (fun d => mkSDSP (r d) (pc d) (control_reg d) (control_reg_init_code_clear_time d) (reg_stack_ptrs d) (exceptions d) (external_interrupt_waiting d) (reg_stacks d) (iram d) (dram d) v (coef d) (m_iram_crc d) (m_step_counter d) (m_ifx_regs d) (m_accelerator d) (m_mailbox d) (m_code_flags d))).
Definition f_coef : field (State H) arr := Field (fun s => coef (dsp s))
  (fun v => upd_dsp (fun d => mkSDSP (r d) (pc d) (control_reg d) (control_reg_init_code_clear_time d) (reg_stack_ptrs d) (exceptions d) (external_interrupt_waiting d) (reg_stacks d) (iram d) (dram d) (irom d) v (m_iram_crc d) (m_step_counter d) (m_ifx_regs d) (m_accelerator d) (m_mailbox d) (m_code_flags d))).
Definition f_m_iram_crc : field (State H) Z := Field (fun s => m_iram_crc (dsp s))
  (fun v => upd_dsp (fun d => mkSDSP (r d) (pc d) (control_reg d) (control_reg_init_code_clear_time d) (reg_stack_ptrs d) (exceptions d) (external_interrupt_waiting d) (reg_stacks d) (iram d) (dram d) (irom d) (coef d) v (m_step_counter d) (m_ifx_regs d) (m_accelerator d) (m_mailbox d) (m_code_flags d))).
Definition f_m_step_counter : field (State H) Z := Field (fun s => m_step_counter (dsp s))
  (fun v => upd_dsp (fun d => mkSDSP (r d) (pc d) (control_reg d) (control_reg_init_code_clear_time d) (reg_stack_ptrs d) (exceptions d) (external_interrupt_waiting d) (reg_stacks d) (iram d) (dram d) (irom d) (coef d) (m_iram_crc d) v (m_ifx_regs d) (m_accelerator d) (m_mailbox d) (m_code_flags d))).
Definition f_m_ifx_regs : field (State H) arr := Field (fun s => m_ifx_regs (dsp s))
  (fun v => upd_dsp (fun d => mkSDSP (r d) (pc d) (control_reg d) (control_reg_init_code_clear_time d) (reg_stack_ptrs d) (exceptions d) (external_interrupt_waiting d) (reg_stacks d) (iram d) (dram d) (irom d) (coef d) (m_iram_crc d) (m_step_counter d) v (m_accelerator d) (m_mailbox d) (m_code_flags d))).
Definition f_m_accelerator : field (State H) Accel := Field (fun s => m_accelerator (dsp s))
  (fun v => upd_dsp (fun d => mkSDSP (r d) (pc d) (control_reg d) (control_reg_init_code_clear_time d) (reg_stack_ptrs d) (exceptions d) (external_interrupt_waiting d) (reg_stacks d) (iram d) (dram d) (irom d) (coef d) (m_iram_crc d) (m_step_counter d) (m_ifx_regs d) v (m_mailbox d) (m_code_flags d))).
Definition f_m_mailbox : field (State H) arr := Field (fun s => m_mailbox (dsp s))
  (fun v => upd_dsp (fun d => mkSDSP (r d) (pc d) (control_reg d) (control_reg_init_code_clear_time d) (reg_stack_ptrs d) (exceptions d) (external_interrupt_waiting d) (reg_stacks d) (iram d) (dram d) (irom d) (coef d) (m_iram_crc d) (m_step_counter d) (m_ifx_regs d) (m_accelerator d) v (m_code_flags d))).
Definition f_m_code_flags : field (State H) arr := Field (fun s => m_code_flags (dsp s))
  (fun v => upd_dsp (fun d => mkSDSP (r d) (pc d) (control_reg d) (control_reg_init_code_clear_time d) (reg_stack_ptrs d) (exceptions d) (external_interrupt_waiting d) (reg_stacks d) (iram d) (dram d) (irom d) (coef d) (m_iram_crc d) (m_step_counter d) (m_ifx_regs d) (m_accelerator d) (m_mailbox d) v)).

Definition upd_r (f : DSP_Regs -> DSP_Regs) s : State H := fset f_r (f (r (dsp s))) s.

Definition f_ar : field (State H) arr := Field (fun s => ar (r (dsp s)))
  (fun v => upd_r (fun x => mkRegs v (ix x) (wr x) (st x) (cr x) (sr x) (prod_l x) (prod_m x) (prod_h x) (prod_m2 x) (ax_l x) (ax_h x) (ac_l x) (ac_m x) (ac_h x))).
Definition f_ix : field (State H) arr := Field (fun s => ix (r (dsp s)))
  (fun v => upd_r (fun x => mkRegs (ar x) v (wr x) (st x) (cr x) (sr x) (prod_l x) (prod_m x) (prod_h x) (prod_m2 x) (ax_l x) (ax_h x) (ac_l x) (ac_m x) (ac_h x))).
Definition f_wr : field (State H) arr := Field (fun s => wr (r (dsp s)))
  (fun v => upd_r (fun x => mkRegs (ar x) (ix x) v (st x) (cr x) (sr x) (prod_l x) (prod_m x) (prod_h x) (prod_m2 x) (ax_l x) (ax_h x) (ac_l x) (ac_m x) (ac_h x))).
Definition f_st : field (State H) arr := Field (fun s => st (r (dsp s)))
  (fun v => upd_r (fun x => mkRegs (ar x) (ix x) (wr x) v (cr x) (sr x) (prod_l x) (prod_m x) (prod_h x) (prod_m2 x) (ax_l x) (ax_h x) (ac_l x) (ac_m x) (ac_h x))).
Definition f_cr : field (State H) Z := Field (fun s => cr (r (dsp s)))
  (fun v => upd_r (fun x => mkRegs (ar x) (ix x) (wr x) (st x) v (sr x) (prod_l x) (prod_m x) (prod_h x) (prod_m2 x) (ax_l x) (ax_h x) (ac_l x) (ac_m x) (ac_h x))).
Definition f_sr : field (State H) Z := Field (fun s => sr (r (dsp s)))
  (fun v => upd_r (fun x => mkRegs (ar x) (ix x) (wr x) (st x) (cr x) v (prod_l x) (prod_m x) (prod_h x) (prod_m2 x) (ax_l x) (ax_h x) (ac_l x) (ac_m x) (ac_h x))).
Definition f_prod_l : field (State H) Z := Field (fun s => prod_l (r (dsp s)))
  (fun v => upd_r (fun x => mkRegs (ar x) (ix x) (wr x) (st x) (cr x) (sr x) v (prod_m x) (prod_h x) (prod_m2 x) (ax_l x) (ax_h x) (ac_l x) (ac_m x) (ac_h x))).
Definition f_prod_m : field (State H) Z := Field (fun s => prod_m (r (dsp s)))
  (fun v => upd_r (fun x => mkRegs (ar x) (ix x) (wr x) (st x) (cr x) (sr x) (prod_l x) v (prod_h x) (prod_m2 x) (ax_l x) (ax_h x) (ac_l x) (ac_m x) (ac_h x))).
Definition f_prod_h : field (State H) Z := Field (fun s => prod_h (r (dsp s)))
  (fun v => upd_r (fun x => mkRegs (ar x) (ix x) (wr x) (st x) (cr x) (sr x) (prod_l x) (prod_m x) v (prod_m2 x) (ax_l x) (ax_h x) (ac_l x) (ac_m x) (ac_h x))).
Definition f_prod_m2 : field (State H) Z := Field (fun s => prod_m2 (r (dsp s)))
  (fun v => upd_r (fun x => mkRegs (ar x) (ix x) (wr x) (st x) (cr x) (sr x) (prod_l x) (prod_m x) (prod_h x) v (ax_l x) (ax_h x) (ac_l x) (ac_m x) (ac_h x))).
Definition f_ax_l : field (State H) arr := Field (fun s => ax_l (r (dsp s)))
  (fun v => upd_r (fun x => mkRegs (ar x) (ix x) (wr x) (st x) (cr x) (sr x) (prod_l x) (prod_m x) (prod_h x) (prod_m2 x) v (ax_h x) (ac_l x) (ac_m x) (ac_h x))).
Definition f_ax_h : field (State H) arr := Field (fun s => ax_h (r (dsp s)))
  (fun v => upd_r (fun x => mkRegs (ar x) (ix x) (wr x) (st x) (cr x) (sr x) (prod_l x) (prod_m x) (prod_h x) (prod_m2 x) (ax_l x) v (ac_l x) (ac_m x) (ac_h x))).
Definition f_ac_l : field (State H) arr := Field (fun s => ac_l (r (dsp s)))
  (fun v => upd_r (fun x => mkRegs (ar x) (ix x) (wr x) (st x) (cr x) (sr x) (prod_l x) (prod_m x) (prod_h x) (prod_m2 x) (ax_l x) (ax_h x) v (ac_m x) (ac_h x))).
Definition f_ac_m : field (State H) arr := Field (fun s => ac_m (r (dsp s)))
  (fun v => upd_r (fun x => mkRegs (ar x) (ix x) (wr x) (st x) (cr x) (sr x) (prod_l x) (prod_m x) (prod_h x) (prod_m2 x) (ax_l x) (ax_h x) (ac_l x) v (ac_h x))).
Definition f_ac_h : field (State H) arr := Field (fun s => ac_h (r (dsp s)))
  (fun v => upd_r (fun x => mkRegs (ar x) (ix x) (wr x) (st x) (cr x) (sr x) (prod_l x) (prod_m x) (prod_h x) (prod_m2 x) (ax_l x) (ax_h x) (ac_l x) (ac_m x) v)).

Definition f_wbl : field (State H) arr := Field m_write_back_log
  (fun v s => mkState (dsp s) v (m_write_back_log_idx s) (host s)).
Definition f_wbl_idx : field (State H) arr := Field m_write_back_log_idx
  (fun v s => mkState (dsp s) (m_write_back_log s) v (host s)).
Definition f_host : field (State H) H := Field host
  (fun v s => mkState (dsp s) (m_write_back_log s) (m_write_back_log_idx s) v).
End Fields.

(** * The invariant

    Every member has its C++ type; beyond that, the upper 24 bits of an
    accumulator's [h] are the sign extension of its 8 bits, the stack pointers
    index the stacks, and the write-back log keeps the terminator that
    [ApplyWriteBackLog] relies on. *)

Definition ach (h : Z) : Prop := u32 h /\ s8 (to_s32 h).
Abbreviation stack_ptr := (uN 5).
Definition backlog_idx (i : Z) : Prop := -1 <= i < 32.
Definition backlog_terminated (a : arr) : Prop := arr_ok backlog_idx a /\ aat a 4 = -1.

Record regs_ok (x : DSP_Regs) : Prop := {
  wf_ar : arr_ok u16 (ar x);
  wf_ix : arr_ok u16 (ix x);
  wf_wr : arr_ok u16 (wr x);
  wf_st : arr_ok u16 (st x);
  wf_cr : u16 (cr x);
  wf_sr : u16 (sr x);
  wf_prod_l : u16 (prod_l x);
  wf_prod_m : u16 (prod_m x);
  wf_prod_h : u16 (prod_h x);
  wf_prod_m2 : u16 (prod_m2 x);
  wf_ax_l : arr_ok u16 (ax_l x);
  wf_ax_h : arr_ok u16 (ax_h x);
  wf_ac_l : arr_ok u16 (ac_l x);
  wf_ac_m : arr_ok u16 (ac_m x);
  wf_ac_h : arr_ok ach (ac_h x)
}.

Record sdsp_ok (d : SDSP) : Prop := {
  wf_r : regs_ok (r d);
  wf_pc : u16 (pc d);
  wf_control_reg : u16 (control_reg d);
  wf_control_reg_init_code_clear_time : u64 (control_reg_init_code_clear_time d);
  wf_reg_stack_ptrs : arr_ok stack_ptr (reg_stack_ptrs d);
  wf_exceptions : u8 (exceptions d);
  wf_external_interrupt_waiting : any (external_interrupt_waiting d);
  wf_reg_stacks : arr_ok u16 (reg_stacks d);
  wf_iram : arr_ok u16 (iram d);
  wf_dram : arr_ok u16 (dram d);
  wf_irom : arr_ok u16 (irom d);
  wf_coef : arr_ok u16 (coef d);
  wf_m_iram_crc : u32 (m_iram_crc d);
  wf_m_step_counter : u64 (m_step_counter d);
  wf_m_ifx_regs : arr_ok u16 (m_ifx_regs d);
  wf_m_accelerator : accel_ok (m_accelerator d);
  wf_m_mailbox : arr_ok u32 (m_mailbox d);
  wf_m_code_flags : arr_ok u8 (m_code_flags d)
}.

Record wf {H} (s : State H) : Prop := {
  wf_dsp : sdsp_ok (dsp s);
  wf_wbl : arr_ok u16 (m_write_back_log s);
  wf_wbl_idx : backlog_terminated (m_write_back_log_idx s)
}.

Section FieldTypes.
Context {H : Type}.

Ltac ft :=
  split; [ intros s Hs; by destruct Hs as [[[]] ? ?]
         | intros s v Hs Hv; destruct Hs as [[[]] ? ?]; cbn in *;
           repeat (split; try assumption) ].
Ltac ftd :=
  split; [ intros s Hs; by destruct Hs as [[] ? ?]
         | intros s v Hs Hv; destruct Hs as [[] ? ?]; cbn in *;
           split; cbn; try assumption; split; cbn; assumption ].

#[export] Instance ft_ar : FieldTyped (wf (H := H)) f_ar (arr_ok u16).
Proof. ft. Qed.
#[export] Instance ft_ix : FieldTyped (wf (H := H)) f_ix (arr_ok u16).
Proof. ft. Qed.
#[export] Instance ft_wr : FieldTyped (wf (H := H)) f_wr (arr_ok u16).
Proof. ft. Qed.
#[export] Instance ft_st : FieldTyped (wf (H := H)) f_st (arr_ok u16).
Proof. ft. Qed.
#[export] Instance ft_cr : FieldTyped (wf (H := H)) f_cr (u16).
Proof. ft. Qed.
#[export] Instance ft_sr : FieldTyped (wf (H := H)) f_sr (u16).
Proof. ft. Qed.
#[export] Instance ft_prod_l : FieldTyped (wf (H := H)) f_prod_l (u16).
Proof. ft. Qed.
#[export] Instance ft_prod_m : FieldTyped (wf (H := H)) f_prod_m (u16).
Proof. ft. Qed.
#[export] Instance ft_prod_h : FieldTyped (wf (H := H)) f_prod_h (u16).
Proof. ft. Qed.
#[export] Instance ft_prod_m2 : FieldTyped (wf (H := H)) f_prod_m2 (u16).
Proof. ft. Qed.
#[export] Instance ft_ax_l : FieldTyped (wf (H := H)) f_ax_l (arr_ok u16).
Proof. ft. Qed.
#[export] Instance ft_ax_h : FieldTyped (wf (H := H)) f_ax_h (arr_ok u16).
Proof. ft. Qed.
#[export] Instance ft_ac_l : FieldTyped (wf (H := H)) f_ac_l (arr_ok u16).
Proof. ft. Qed.
#[export] Instance ft_ac_m : FieldTyped (wf (H := H)) f_ac_m (arr_ok u16).
Proof. ft. Qed.
#[export] Instance ft_ac_h : FieldTyped (wf (H := H)) f_ac_h (arr_ok ach).
Proof. ft. Qed.
#[export] Instance ft_r : FieldTyped (wf (H := H)) f_r (regs_ok).
Proof. ftd. Qed.
#[export] Instance ft_pc : FieldTyped (wf (H := H)) f_pc (u16).
Proof. ftd. Qed.
#[export] Instance ft_control_reg : FieldTyped (wf (H := H)) f_control_reg (u16).
Proof. ftd. Qed.
#[export] Instance ft_control_reg_init_code_clear_time : FieldTyped (wf (H := H)) f_control_reg_init_code_clear_time (u64).
Proof. ftd. Qed.
#[export] Instance ft_reg_stack_ptrs : FieldTyped (wf (H := H)) f_reg_stack_ptrs (arr_ok stack_ptr).
Proof. ftd. Qed.
#[export] Instance ft_exceptions : FieldTyped (wf (H := H)) f_exceptions (u8).
Proof. ftd. Qed.
#[export] Instance ft_external_interrupt_waiting : FieldTyped (wf (H := H)) f_external_interrupt_waiting (any).
Proof. ftd. Qed.
#[export] Instance ft_reg_stacks : FieldTyped (wf (H := H)) f_reg_stacks (arr_ok u16).
Proof. ftd. Qed.
#[export] Instance ft_iram : FieldTyped (wf (H := H)) f_iram (arr_ok u16).
Proof. ftd. Qed.
#[export] Instance ft_dram : FieldTyped (wf (H := H)) f_dram (arr_ok u16).
Proof. ftd. Qed.
#[export] Instance ft_irom : FieldTyped (wf (H := H)) f_irom (arr_ok u16).
Proof. ftd. Qed.
#[export] Instance ft_coef : FieldTyped (wf (H := H)) f_coef (arr_ok u16).
Proof. ftd. Qed.
#[export] Instance ft_m_iram_crc : FieldTyped (wf (H := H)) f_m_iram_crc (u32).
Proof. ftd. Qed.
#[export] Instance ft_m_step_counter : FieldTyped (wf (H := H)) f_m_step_counter (u64).
Proof. ftd. Qed.
#[export] Instance ft_m_ifx_regs : FieldTyped (wf (H := H)) f_m_ifx_regs (arr_ok u16).
Proof. ftd. Qed.
#[export] Instance ft_m_accelerator : FieldTyped (wf (H := H)) f_m_accelerator (accel_ok).
Proof. ftd. Qed.
#[export] Instance ft_m_mailbox : FieldTyped (wf (H := H)) f_m_mailbox (arr_ok u32).
Proof. ftd. Qed.
#[export] Instance ft_m_code_flags : FieldTyped (wf (H := H)) f_m_code_flags (arr_ok u8).
Proof. ftd. Qed.
#[export] Instance ft_wbl : FieldTyped (wf (H := H)) f_wbl (arr_ok u16).
Proof. split; [by intros s [] | by intros s v [] ?; split]. Qed.
#[export] Instance ft_wbl_idx : FieldTyped (wf (H := H)) f_wbl_idx backlog_terminated.
Proof. split; [by intros s [] | by intros s v [] ?; split]. Qed.
#[export] Instance ft_host : FieldTyped (wf (H := H)) f_host any.
Proof. split; [done | by intros s v [] ?; split]. Qed.
End FieldTypes.
