(* ===== verification/DSPTables.v ===== *)
(** The instruction tables of the DSP ([Core/DSP/DSPTables.{h,cpp}]): opcode,
    mask, size, operand fields and attributes of every instruction, and their
    lookup by opcode. *)
From stdpp Require Import base tactics option list strings.
From Stdlib Require Import ZArith Lia Bool.
From S2P Require Import Prelude.

#[local] Open Scope string_scope.
#[local] Open Scope Z_scope.

(** * Data *)

Inductive partype_t : Type :=
  | P_NONE | P_VAL | P_IMM | P_MEM | P_STR | P_ADDR_I | P_ADDR_D | P_REG
  | P_REG04 | P_REG08 | P_REG18 | P_REGM18 | P_REG19 | P_REGM19 | P_REG1A
  | P_ACCL | P_REG1C | P_ACCM | P_ACCM_D | P_ACC | P_ACCH | P_ACC_D | P_AX | P_PRG.

#[export] Instance partype_eq_dec : EqDecision partype_t.
Proof. solve_decision. Defined.

(** The enumerators' values ([DSPTables.h]); [P_REF] is [P_REG | 0x4000]. *)
Definition partype_value (p : partype_t) : Z :=
  match p with
  | P_NONE => 0 | P_VAL => 1 | P_IMM => 2 | P_MEM => 3 | P_STR => 4 | P_ADDR_I => 5
  | P_ADDR_D => 6 | P_REG => 0x8000
  | P_REG04 => 0x8000 .| (0x04 .<< 8)
  | P_REG08 => 0x8000 .| (0x08 .<< 8)
  | P_REG18 => 0x8000 .| (0x18 .<< 8)
  | P_REGM18 => 0x8000 .| (0x18 .<< 8) .| 0x10
  | P_REG19 => 0x8000 .| (0x19 .<< 8)
  | P_REGM19 => 0x8000 .| (0x19 .<< 8) .| 0x10
  | P_REG1A => 0x8000 .| (0x1a .<< 8) .| 0x80
  | P_ACCL => 0x8000 .| (0x1c .<< 8)
  | P_REG1C => 0x8000 .| (0x1c .<< 8) .| 0x10
  | P_ACCM => 0x8000 .| (0x1e .<< 8)
  | P_ACCM_D => 0x8000 .| (0x1e .<< 8) .| 0x80
  | P_ACC => 0x8000 .| (0x20 .<< 8)
  | P_ACCH => 0x8000 .| (0x10 .<< 8)
  | P_ACC_D => 0x8000 .| (0x20 .<< 8) .| 0x80
  | P_AX => 0x8000 .| (0x22 .<< 8)
  | P_PRG => 0x8000 .| 0x4000
  end.

Record param2_t : Type := P {
  p_type : partype_t;
  p_size : Z;
  p_loc : Z;
  p_lshift : Z;
  p_mask : Z
}.

Record DSPOPCTemplate : Type := T {
  name : string;
  opcode : Z;
  opcode_mask : Z;
  size : Z;
  param_count : Z;
  params : list param2_t;
  extended : bool;
  branch : bool;
  uncond_branch : bool;
  reads_pc : bool;
  updates_sr : bool
}.

(** [FindByOpcode]: the first entry whose masked opcode matches.  [oc] and [om]
    select an entry's [opcode] and [opcode_mask]. *)
Definition FindByOpcode {A} (oc om : A -> Z) (inst : Z) (data : list A) : option A :=
  List.find (fun info => (inst .& om info) =? oc info) data.

Definition s_opcodes : list DSPOPCTemplate := [
  T "NOP" 0x0000 0xfffc 1 0 [] false false false false false;
  T "DAR" 0x0004 0xfffc 1 1 [P P_REG 1 0 0 0x0003] false false false false false;
  T "IAR" 0x0008 0xfffc 1 1 [P P_REG 1 0 0 0x0003] false false false false false;
  T "SUBARN" 0x000c 0xfffc 1 1 [P P_REG 1 0 0 0x0003] false false false false false;
  T "ADDARN" 0x0010 0xfff0 1 2 [P P_REG 1 0 0 0x0003; P P_REG04 1 0 2 0x000c] false false false false false;
  T "HALT" 0x0021 0xffff 1 0 [] false true true false false;
  T "RETGE" 0x02d0 0xffff 1 0 [] false true false true false;
  T "RETL" 0x02d1 0xffff 1 0 [] false true false true false;
  T "RETG" 0x02d2 0xffff 1 0 [] false true false true false;
  T "RETLE" 0x02d3 0xffff 1 0 [] false true false true false;
  T "RETNZ" 0x02d4 0xffff 1 0 [] false true false true false;
  T "RETZ" 0x02d5 0xffff 1 0 [] false true false true false;
  T "RETNC" 0x02d6 0xffff 1 0 [] false true false true false;
  T "RETC" 0x02d7 0xffff 1 0 [] false true false true false;
  T "RETX8" 0x02d8 0xffff 1 0 [] false true false true false;
  T "RETX9" 0x02d9 0xffff 1 0 [] false true false true false;
  T "RETXA" 0x02da 0xffff 1 0 [] false true false true false;
  T "RETXB" 0x02db 0xffff 1 0 [] false true false true false;
  T "RETLNZ" 0x02dc 0xffff 1 0 [] false true false true false;
  T "RETLZ" 0x02dd 0xffff 1 0 [] false true false true false;
  T "RETO" 0x02de 0xffff 1 0 [] false true false true false;
  T "RET" 0x02df 0xffff 1 0 [] false true true false false;
  T "RTIGE" 0x02f0 0xffff 1 0 [] false true false true false;
  T "RTIL" 0x02f1 0xffff 1 0 [] false true false true false;
  T "RTIG" 0x02f2 0xffff 1 0 [] false true false true false;
  T "RTILE" 0x02f3 0xffff 1 0 [] false true false true false;
  T "RTINZ" 0x02f4 0xffff 1 0 [] false true false true false;
  T "RTIZ" 0x02f5 0xffff 1 0 [] false true false true false;
  T "RTINC" 0x02f6 0xffff 1 0 [] false true false true false;
  T "RTIC" 0x02f7 0xffff 1 0 [] false true false true false;
  T "RTIX8" 0x02f8 0xffff 1 0 [] false true false true false;
  T "RTIX9" 0x02f9 0xffff 1 0 [] false true false true false;
  T "RTIXA" 0x02fa 0xffff 1 0 [] false true false true false;
  T "RTIXB" 0x02fb 0xffff 1 0 [] false true false true false;
  T "RTILNZ" 0x02fc 0xffff 1 0 [] false true false true false;
  T "RTILZ" 0x02fd 0xffff 1 0 [] false true false true false;
  T "RTIO" 0x02fe 0xffff 1 0 [] false true false true false;
  T "RTI" 0x02ff 0xffff 1 0 [] false true true false false;
  T "CALLGE" 0x02b0 0xffff 2 1 [P P_ADDR_I 2 1 0 0xffff] false true false true false;
  T "CALLL" 0x02b1 0xffff 2 1 [P P_ADDR_I 2 1 0 0xffff] false true false true false;
  T "CALLG" 0x02b2 0xffff 2 1 [P P_ADDR_I 2 1 0 0xffff] false true false true false;
  T "CALLLE" 0x02b3 0xffff 2 1 [P P_ADDR_I 2 1 0 0xffff] false true false true false;
  T "CALLNZ" 0x02b4 0xffff 2 1 [P P_ADDR_I 2 1 0 0xffff] false true false true false;
  T "CALLZ" 0x02b5 0xffff 2 1 [P P_ADDR_I 2 1 0 0xffff] false true false true false;
  T "CALLNC" 0x02b6 0xffff 2 1 [P P_ADDR_I 2 1 0 0xffff] false true false true false;
  T "CALLC" 0x02b7 0xffff 2 1 [P P_ADDR_I 2 1 0 0xffff] false true false true false;
  T "CALLX8" 0x02b8 0xffff 2 1 [P P_ADDR_I 2 1 0 0xffff] false true false true false;
  T "CALLX9" 0x02b9 0xffff 2 1 [P P_ADDR_I 2 1 0 0xffff] false true false true false;
  T "CALLXA" 0x02ba 0xffff 2 1 [P P_ADDR_I 2 1 0 0xffff] false true false true false;
  T "CALLXB" 0x02bb 0xffff 2 1 [P P_ADDR_I 2 1 0 0xffff] false true false true false;
  T "CALLLNZ" 0x02bc 0xffff 2 1 [P P_ADDR_I 2 1 0 0xffff] false true false true false;
  T "CALLLZ" 0x02bd 0xffff 2 1 [P P_ADDR_I 2 1 0 0xffff] false true false true false;
  T "CALLO" 0x02be 0xffff 2 1 [P P_ADDR_I 2 1 0 0xffff] false true false true false;
  T "CALL" 0x02bf 0xffff 2 1 [P P_ADDR_I 2 1 0 0xffff] false true true true false;
  T "IFGE" 0x0270 0xffff 1 0 [] false true false true false;
  T "IFL" 0x0271 0xffff 1 0 [] false true false true false;
  T "IFG" 0x0272 0xffff 1 0 [] false true false true false;
  T "IFLE" 0x0273 0xffff 1 0 [] false true false true false;
  T "IFNZ" 0x0274 0xffff 1 0 [] false true false true false;
  T "IFZ" 0x0275 0xffff 1 0 [] false true false true false;
  T "IFNC" 0x0276 0xffff 1 0 [] false true false true false;
  T "IFC" 0x0277 0xffff 1 0 [] false true false true false;
  T "IFX8" 0x0278 0xffff 1 0 [] false true false true false;
  T "IFX9" 0x0279 0xffff 1 0 [] false true false true false;
  T "IFXA" 0x027a 0xffff 1 0 [] false true false true false;
  T "IFXB" 0x027b 0xffff 1 0 [] false true false true false;
  T "IFLNZ" 0x027c 0xffff 1 0 [] false true false true false;
  T "IFLZ" 0x027d 0xffff 1 0 [] false true false true false;
  T "IFO" 0x027e 0xffff 1 0 [] false true false true false;
  T "IF" 0x027f 0xffff 1 0 [] false true true true false;
  T "JGE" 0x0290 0xffff 2 1 [P P_ADDR_I 2 1 0 0xffff] false true false true false;
  T "JL" 0x0291 0xffff 2 1 [P P_ADDR_I 2 1 0 0xffff] false true false true false;
  T "JG" 0x0292 0xffff 2 1 [P P_ADDR_I 2 1 0 0xffff] false true false true false;
  T "JLE" 0x0293 0xffff 2 1 [P P_ADDR_I 2 1 0 0xffff] false true false true false;
  T "JNZ" 0x0294 0xffff 2 1 [P P_ADDR_I 2 1 0 0xffff] false true false true false;
  T "JZ" 0x0295 0xffff 2 1 [P P_ADDR_I 2 1 0 0xffff] false true false true false;
  T "JNC" 0x0296 0xffff 2 1 [P P_ADDR_I 2 1 0 0xffff] false true false true false;
  T "JC" 0x0297 0xffff 2 1 [P P_ADDR_I 2 1 0 0xffff] false true false true false;
  T "JMPX8" 0x0298 0xffff 2 1 [P P_ADDR_I 2 1 0 0xffff] false true false true false;
  T "JMPX9" 0x0299 0xffff 2 1 [P P_ADDR_I 2 1 0 0xffff] false true false true false;
  T "JMPXA" 0x029a 0xffff 2 1 [P P_ADDR_I 2 1 0 0xffff] false true false true false;
  T "JMPXB" 0x029b 0xffff 2 1 [P P_ADDR_I 2 1 0 0xffff] false true false true false;
  T "JLNZ" 0x029c 0xffff 2 1 [P P_ADDR_I 2 1 0 0xffff] false true false true false;
  T "JLZ" 0x029d 0xffff 2 1 [P P_ADDR_I 2 1 0 0xffff] false true false true false;
  T "JO" 0x029e 0xffff 2 1 [P P_ADDR_I 2 1 0 0xffff] false true false true false;
  T "JMP" 0x029f 0xffff 2 1 [P P_ADDR_I 2 1 0 0xffff] false true true true false;
  T "JRGE" 0x1700 0xff1f 1 1 [P P_REG 1 0 5 0x00e0] false true false false false;
  T "JRL" 0x1701 0xff1f 1 1 [P P_REG 1 0 5 0x00e0] false true false false false;
  T "JRG" 0x1702 0xff1f 1 1 [P P_REG 1 0 5 0x00e0] false true false false false;
  T "JRLE" 0x1703 0xff1f 1 1 [P P_REG 1 0 5 0x00e0] false true false false false;
  T "JRNZ" 0x1704 0xff1f 1 1 [P P_REG 1 0 5 0x00e0] false true false false false;
  T "JRZ" 0x1705 0xff1f 1 1 [P P_REG 1 0 5 0x00e0] false true false false false;
  T "JRNC" 0x1706 0xff1f 1 1 [P P_REG 1 0 5 0x00e0] false true false false false;
  T "JRC" 0x1707 0xff1f 1 1 [P P_REG 1 0 5 0x00e0] false true false false false;
  T "JMPRX8" 0x1708 0xff1f 1 1 [P P_REG 1 0 5 0x00e0] false true false false false;
  T "JMPRX9" 0x1709 0xff1f 1 1 [P P_REG 1 0 5 0x00e0] false true false false false;
  T "JMPRXA" 0x170a 0xff1f 1 1 [P P_REG 1 0 5 0x00e0] false true false false false;
  T "JMPRXB" 0x170b 0xff1f 1 1 [P P_REG 1 0 5 0x00e0] false true false false false;
  T "JRLNZ" 0x170c 0xff1f 1 1 [P P_REG 1 0 5 0x00e0] false true false false false;
  T "JRLZ" 0x170d 0xff1f 1 1 [P P_REG 1 0 5 0x00e0] false true false false false;
  T "JRO" 0x170e 0xff1f 1 1 [P P_REG 1 0 5 0x00e0] false true false false false;
  T "JMPR" 0x170f 0xff1f 1 1 [P P_REG 1 0 5 0x00e0] false true true false false;
  T "CALLRGE" 0x1710 0xff1f 1 1 [P P_REG 1 0 5 0x00e0] false true false true false;
  T "CALLRL" 0x1711 0xff1f 1 1 [P P_REG 1 0 5 0x00e0] false true false true false;
  T "CALLRG" 0x1712 0xff1f 1 1 [P P_REG 1 0 5 0x00e0] false true false true false;
  T "CALLRLE" 0x1713 0xff1f 1 1 [P P_REG 1 0 5 0x00e0] false true false true false;
  T "CALLRNZ" 0x1714 0xff1f 1 1 [P P_REG 1 0 5 0x00e0] false true false true false;
  T "CALLRZ" 0x1715 0xff1f 1 1 [P P_REG 1 0 5 0x00e0] false true false true false;
  T "CALLRNC" 0x1716 0xff1f 1 1 [P P_REG 1 0 5 0x00e0] false true false true false;
  T "CALLRC" 0x1717 0xff1f 1 1 [P P_REG 1 0 5 0x00e0] false true false true false;
  T "CALLRX8" 0x1718 0xff1f 1 1 [P P_REG 1 0 5 0x00e0] false true false true false;
  T "CALLRX9" 0x1719 0xff1f 1 1 [P P_REG 1 0 5 0x00e0] false true false true false;
  T "CALLRXA" 0x171a 0xff1f 1 1 [P P_REG 1 0 5 0x00e0] false true false true false;
  T "CALLRXB" 0x171b 0xff1f 1 1 [P P_REG 1 0 5 0x00e0] false true false true false;
  T "CALLRLNZ" 0x171c 0xff1f 1 1 [P P_REG 1 0 5 0x00e0] false true false true false;
  T "CALLRLZ" 0x171d 0xff1f 1 1 [P P_REG 1 0 5 0x00e0] false true false true false;
  T "CALLRO" 0x171e 0xff1f 1 1 [P P_REG 1 0 5 0x00e0] false true false true false;
  T "CALLR" 0x171f 0xff1f 1 1 [P P_REG 1 0 5 0x00e0] false true true true false;
  T "SBCLR" 0x1200 0xff00 1 1 [P P_IMM 1 0 0 0x0007] false false false false false;
  T "SBSET" 0x1300 0xff00 1 1 [P P_IMM 1 0 0 0x0007] false false false false false;
  T "LSL" 0x1400 0xfec0 1 2 [P P_ACC 1 0 8 0x0100; P P_IMM 1 0 0 0x003f] false false false false true;
  T "LSR" 0x1440 0xfec0 1 2 [P P_ACC 1 0 8 0x0100; P P_IMM 1 0 0 0x003f] false false false false true;
  T "ASL" 0x1480 0xfec0 1 2 [P P_ACC 1 0 8 0x0100; P P_IMM 1 0 0 0x003f] false false false false true;
  T "ASR" 0x14c0 0xfec0 1 2 [P P_ACC 1 0 8 0x0100; P P_IMM 1 0 0 0x003f] false false false false true;
  T "LSRN" 0x02ca 0xffff 1 0 [] false false false false true;
  T "ASRN" 0x02cb 0xffff 1 0 [] false false false false true;
  T "LRI" 0x0080 0xffe0 2 2 [P P_REG 1 0 0 0x001f; P P_IMM 2 1 0 0xffff] false false false true false;
  T "LR" 0x00c0 0xffe0 2 2 [P P_REG 1 0 0 0x001f; P P_MEM 2 1 0 0xffff] false false false true false;
  T "SR" 0x00e0 0xffe0 2 2 [P P_MEM 2 1 0 0xffff; P P_REG 1 0 0 0x001f] false false false true false;
  T "MRR" 0x1c00 0xfc00 1 2 [P P_REG 1 0 5 0x03e0; P P_REG 1 0 0 0x001f] false false false false false;
  T "SI" 0x1600 0xff00 2 2 [P P_MEM 1 0 0 0x00ff; P P_IMM 2 1 0 0xffff] false false false true false;
  T "ADDIS" 0x0400 0xfe00 1 2 [P P_ACCM 1 0 8 0x0100; P P_IMM 1 0 0 0x00ff] false false false false true;
  T "CMPIS" 0x0600 0xfe00 1 2 [P P_ACCM 1 0 8 0x0100; P P_IMM 1 0 0 0x00ff] false false false false true;
  T "LRIS" 0x0800 0xf800 1 2 [P P_REG18 1 0 8 0x0700; P P_IMM 1 0 0 0x00ff] false false false false true;
  T "ADDI" 0x0200 0xfeff 2 2 [P P_ACCM 1 0 8 0x0100; P P_IMM 2 1 0 0xffff] false false false true true;
  T "XORI" 0x0220 0xfeff 2 2 [P P_ACCM 1 0 8 0x0100; P P_IMM 2 1 0 0xffff] false false false true true;
  T "ANDI" 0x0240 0xfeff 2 2 [P P_ACCM 1 0 8 0x0100; P P_IMM 2 1 0 0xffff] false false false true true;
  T "ORI" 0x0260 0xfeff 2 2 [P P_ACCM 1 0 8 0x0100; P P_IMM 2 1 0 0xffff] false false false true true;
  T "CMPI" 0x0280 0xfeff 2 2 [P P_ACCM 1 0 8 0x0100; P P_IMM 2 1 0 0xffff] false false false true true;
  T "ANDF" 0x02a0 0xfeff 2 2 [P P_ACCM 1 0 8 0x0100; P P_IMM 2 1 0 0xffff] false false false true true;
  T "ANDCF" 0x02c0 0xfeff 2 2 [P P_ACCM 1 0 8 0x0100; P P_IMM 2 1 0 0xffff] false false false true true;
  T "ILRR" 0x0210 0xfefc 1 2 [P P_ACCM 1 0 8 0x0100; P P_PRG 1 0 0 0x0003] false false false false false;
  T "ILRRD" 0x0214 0xfefc 1 2 [P P_ACCM 1 0 8 0x0100; P P_PRG 1 0 0 0x0003] false false false false false;
  T "ILRRI" 0x0218 0xfefc 1 2 [P P_ACCM 1 0 8 0x0100; P P_PRG 1 0 0 0x0003] false false false false false;
  T "ILRRN" 0x021c 0xfefc 1 2 [P P_ACCM 1 0 8 0x0100; P P_PRG 1 0 0 0x0003] false false false false false;
  T "LOOP" 0x0040 0xffe0 1 1 [P P_REG 1 0 0 0x001f] false true true true false;
  T "BLOOP" 0x0060 0xffe0 2 2 [P P_REG 1 0 0 0x001f; P P_ADDR_I 2 1 0 0xffff] false true true true false;
  T "LOOPI" 0x1000 0xff00 1 1 [P P_IMM 1 0 0 0x00ff] false true true true false;
  T "BLOOPI" 0x1100 0xff00 2 2 [P P_IMM 1 0 0 0x00ff; P P_ADDR_I 2 1 0 0xffff] false true true true false;
  T "LRR" 0x1800 0xff80 1 2 [P P_REG 1 0 0 0x001f; P P_PRG 1 0 5 0x0060] false false false false false;
  T "LRRD" 0x1880 0xff80 1 2 [P P_REG 1 0 0 0x001f; P P_PRG 1 0 5 0x0060] false false false false false;
  T "LRRI" 0x1900 0xff80 1 2 [P P_REG 1 0 0 0x001f; P P_PRG 1 0 5 0x0060] false false false false false;
  T "LRRN" 0x1980 0xff80 1 2 [P P_REG 1 0 0 0x001f; P P_PRG 1 0 5 0x0060] false false false false false;
  T "SRR" 0x1a00 0xff80 1 2 [P P_PRG 1 0 5 0x0060; P P_REG 1 0 0 0x001f] false false false false false;
  T "SRRD" 0x1a80 0xff80 1 2 [P P_PRG 1 0 5 0x0060; P P_REG 1 0 0 0x001f] false false false false false;
  T "SRRI" 0x1b00 0xff80 1 2 [P P_PRG 1 0 5 0x0060; P P_REG 1 0 0 0x001f] false false false false false;
  T "SRRN" 0x1b80 0xff80 1 2 [P P_PRG 1 0 5 0x0060; P P_REG 1 0 0 0x001f] false false false false false;
  T "LRS" 0x2000 0xf800 1 2 [P P_REG18 1 0 8 0x0700; P P_MEM 1 0 0 0x00ff] false false false false false;
  T "SRSH" 0x2800 0xfe00 1 2 [P P_MEM 1 0 0 0x00ff; P P_ACCH 1 0 8 0x0100] false false false false false;
  T "SRS" 0x2c00 0xfc00 1 2 [P P_MEM 1 0 0 0x00ff; P P_REG1C 1 0 8 0x0300] false false false false false;
  T "XORR" 0x3000 0xfc80 1 2 [P P_ACCM 1 0 8 0x0100; P P_REG1A 1 0 9 0x0200] true false false false true;
  T "ANDR" 0x3400 0xfc80 1 2 [P P_ACCM 1 0 8 0x0100; P P_REG1A 1 0 9 0x0200] true false false false true;
  T "ORR" 0x3800 0xfc80 1 2 [P P_ACCM 1 0 8 0x0100; P P_REG1A 1 0 9 0x0200] true false false false true;
  T "ANDC" 0x3c00 0xfe80 1 2 [P P_ACCM 1 0 8 0x0100; P P_ACCM_D 1 0 8 0x0100] true false false false true;
  T "ORC" 0x3e00 0xfe80 1 2 [P P_ACCM 1 0 8 0x0100; P P_ACCM_D 1 0 8 0x0100] true false false false true;
  T "XORC" 0x3080 0xfe80 1 2 [P P_ACCM 1 0 8 0x0100; P P_ACCM_D 1 0 8 0x0100] true false false false true;
  T "NOT" 0x3280 0xfe80 1 1 [P P_ACCM 1 0 8 0x0100] true false false false true;
  T "LSRNRX" 0x3480 0xfc80 1 2 [P P_ACC 1 0 8 0x0100; P P_REG1A 1 0 9 0x0200] true false false false true;
  T "ASRNRX" 0x3880 0xfc80 1 2 [P P_ACC 1 0 8 0x0100; P P_REG1A 1 0 9 0x0200] true false false false true;
  T "LSRNR" 0x3c80 0xfe80 1 2 [P P_ACC 1 0 8 0x0100; P P_ACCM_D 1 0 8 0x0100] true false false false true;
  T "ASRNR" 0x3e80 0xfe80 1 2 [P P_ACC 1 0 8 0x0100; P P_ACCM_D 1 0 8 0x0100] true false false false true;
  T "ADDR" 0x4000 0xf800 1 2 [P P_ACC 1 0 8 0x0100; P P_REG18 1 0 9 0x0600] true false false false true;
  T "ADDAX" 0x4800 0xfc00 1 2 [P P_ACC 1 0 8 0x0100; P P_AX 1 0 9 0x0200] true false false false true;
  T "ADD" 0x4c00 0xfe00 1 2 [P P_ACC 1 0 8 0x0100; P P_ACC_D 1 0 8 0x0100] true false false false true;
  T "ADDP" 0x4e00 0xfe00 1 1 [P P_ACC 1 0 8 0x0100] true false false false true;
  T "SUBR" 0x5000 0xf800 1 2 [P P_ACC 1 0 8 0x0100; P P_REG18 1 0 9 0x0600] true false false false true;
  T "SUBAX" 0x5800 0xfc00 1 2 [P P_ACC 1 0 8 0x0100; P P_AX 1 0 9 0x0200] true false false false true;
  T "SUB" 0x5c00 0xfe00 1 2 [P P_ACC 1 0 8 0x0100; P P_ACC_D 1 0 8 0x0100] true false false false true;
  T "SUBP" 0x5e00 0xfe00 1 1 [P P_ACC 1 0 8 0x0100] true false false false true;
  T "MOVR" 0x6000 0xf800 1 2 [P P_ACC 1 0 8 0x0100; P P_REG18 1 0 9 0x0600] true false false false true;
  T "MOVAX" 0x6800 0xfc00 1 2 [P P_ACC 1 0 8 0x0100; P P_AX 1 0 9 0x0200] true false false false true;
  T "MOV" 0x6c00 0xfe00 1 2 [P P_ACC 1 0 8 0x0100; P P_ACC_D 1 0 8 0x0100] true false false false true;
  T "MOVP" 0x6e00 0xfe00 1 1 [P P_ACC 1 0 8 0x0100] true false false false true;
  T "ADDAXL" 0x7000 0xfc00 1 2 [P P_ACC 1 0 8 0x0100; P P_REG18 1 0 9 0x0200] true false false false true;
  T "INCM" 0x7400 0xfe00 1 1 [P P_ACCM 1 0 8 0x0100] true false false false true;
  T "INC" 0x7600 0xfe00 1 1 [P P_ACC 1 0 8 0x0100] true false false false true;
  T "DECM" 0x7800 0xfe00 1 1 [P P_ACCM 1 0 8 0x0100] true false false false true;
  T "DEC" 0x7a00 0xfe00 1 1 [P P_ACC 1 0 8 0x0100] true false false false true;
  T "NEG" 0x7c00 0xfe00 1 1 [P P_ACC 1 0 8 0x0100] true false false false true;
  T "MOVNP" 0x7e00 0xfe00 1 1 [P P_ACC 1 0 8 0x0100] true false false false true;
  T "NX" 0x8000 0xf700 1 0 [] true false false false false;
  T "CLR" 0x8100 0xf700 1 1 [P P_ACC 1 0 11 0x0800] true false false false true;
  T "CMP" 0x8200 0xff00 1 0 [] true false false false true;
  T "MULAXH" 0x8300 0xff00 1 0 [] true false false false true;
  T "CLRP" 0x8400 0xff00 1 0 [] true false false false true;
  T "TSTPROD" 0x8500 0xff00 1 0 [] true false false false true;
  T "TSTAXH" 0x8600 0xfe00 1 1 [P P_REG1A 1 0 8 0x0100] true false false false true;
  T "M2" 0x8a00 0xff00 1 0 [] true false false false false;
  T "M0" 0x8b00 0xff00 1 0 [] true false false false false;
  T "CLR15" 0x8c00 0xff00 1 0 [] true false false false false;
  T "SET15" 0x8d00 0xff00 1 0 [] true false false false false;
  T "SET16" 0x8e00 0xff00 1 0 [] true false false false false;
  T "SET40" 0x8f00 0xff00 1 0 [] true false false false false;
  T "MUL" 0x9000 0xf700 1 2 [P P_REG18 1 0 11 0x0800; P P_REG1A 1 0 11 0x0800] true false false false true;
  T "ASR16" 0x9100 0xf700 1 1 [P P_ACC 1 0 11 0x0800] true false false false true;
  T "MULMVZ" 0x9200 0xf600 1 3 [P P_REG18 1 0 11 0x0800; P P_REG1A 1 0 11 0x0800; P P_ACC 1 0 8 0x0100] true false false false true;
  T "MULAC" 0x9400 0xf600 1 3 [P P_REG18 1 0 11 0x0800; P P_REG1A 1 0 11 0x0800; P P_ACC 1 0 8 0x0100] true false false false true;
  T "MULMV" 0x9600 0xf600 1 3 [P P_REG18 1 0 11 0x0800; P P_REG1A 1 0 11 0x0800; P P_ACC 1 0 8 0x0100] true false false false true;
  T "MULX" 0xa000 0xe700 1 2 [P P_REGM18 1 0 11 0x1000; P P_REGM19 1 0 10 0x0800] true false false false true;
  T "ABS" 0xa100 0xf700 1 1 [P P_ACC 1 0 11 0x0800] true false false false true;
  T "MULXMVZ" 0xa200 0xe600 1 3 [P P_REGM18 1 0 11 0x1000; P P_REGM19 1 0 10 0x0800; P P_ACC 1 0 8 0x0100] true false false false true;
  T "MULXAC" 0xa400 0xe600 1 3 [P P_REGM18 1 0 11 0x1000; P P_REGM19 1 0 10 0x0800; P P_ACC 1 0 8 0x0100] true false false false true;
  T "MULXMV" 0xa600 0xe600 1 3 [P P_REGM18 1 0 11 0x1000; P P_REGM19 1 0 10 0x0800; P P_ACC 1 0 8 0x0100] true false false false true;
  T "TST" 0xb100 0xf700 1 1 [P P_ACC 1 0 11 0x0800] true false false false true;
  T "MULC" 0xc000 0xe700 1 2 [P P_ACCM 1 0 12 0x1000; P P_REG1A 1 0 11 0x0800] true false false false true;
  T "CMPAXH" 0xc100 0xe700 1 2 [P P_ACC 1 0 11 0x0800; P P_REG1A 1 0 12 0x1000] true false false false true;
  T "MULCMVZ" 0xc200 0xe600 1 3 [P P_ACCM 1 0 12 0x1000; P P_REG1A 1 0 11 0x0800; P P_ACC 1 0 8 0x0100] true false false false true;
  T "MULCAC" 0xc400 0xe600 1 3 [P P_ACCM 1 0 12 0x1000; P P_REG1A 1 0 11 0x0800; P P_ACC 1 0 8 0x0100] true false false false true;
  T "MULCMV" 0xc600 0xe600 1 3 [P P_ACCM 1 0 12 0x1000; P P_REG1A 1 0 11 0x0800; P P_ACC 1 0 8 0x0100] true false false false true;
  T "MADDX" 0xe000 0xfc00 1 2 [P P_REGM18 1 0 8 0x0200; P P_REGM19 1 0 7 0x0100] true false false false true;
  T "MSUBX" 0xe400 0xfc00 1 2 [P P_REGM18 1 0 8 0x0200; P P_REGM19 1 0 7 0x0100] true false false false true;
  T "MADDC" 0xe800 0xfc00 1 2 [P P_ACCM 1 0 9 0x0200; P P_REG19 1 0 7 0x0100] true false false false true;
  T "MSUBC" 0xec00 0xfc00 1 2 [P P_ACCM 1 0 9 0x0200; P P_REG19 1 0 7 0x0100] true false false false true;
  T "LSL16" 0xf000 0xfe00 1 1 [P P_ACC 1 0 8 0x0100] true false false false true;
  T "MADD" 0xf200 0xfe00 1 2 [P P_REG18 1 0 8 0x0100; P P_REG1A 1 0 8 0x0100] true false false false true;
  T "LSR16" 0xf400 0xfe00 1 1 [P P_ACC 1 0 8 0x0100] true false false false true;
  T "MSUB" 0xf600 0xfe00 1 2 [P P_REG18 1 0 8 0x0100; P P_REG1A 1 0 8 0x0100] true false false false true;
  T "ADDPAXZ" 0xf800 0xfc00 1 2 [P P_ACC 1 0 9 0x0200; P P_AX 1 0 8 0x0100] true false false false true;
  T "CLRL" 0xfc00 0xfe00 1 1 [P P_ACCL 1 0 11 0x0800] true false false false true;
  T "MOVPZ" 0xfe00 0xfe00 1 1 [P P_ACC 1 0 8 0x0100] true false false false true
].

Definition cw : DSPOPCTemplate :=
  T "CW" 0x0000 0x0000 1 1 [P P_VAL 2 0 0 0xffff] false false false false false.

Definition s_opcodes_ext : list DSPOPCTemplate := [
  T "XXX" 0x0000 0x00fc 1 1 [P P_VAL 1 0 0 0x00ff] false false false false false;
  T "DR" 0x0004 0x00fc 1 1 [P P_REG 1 0 0 0x0003] false false false false false;
  T "IR" 0x0008 0x00fc 1 1 [P P_REG 1 0 0 0x0003] false false false false false;
  T "NR" 0x000c 0x00fc 1 1 [P P_REG 1 0 0 0x0003] false false false false false;
  T "MV" 0x0010 0x00f0 1 2 [P P_REG18 1 0 2 0x000c; P P_REG1C 1 0 0 0x0003] false false false false false;
  T "S" 0x0020 0x00e4 1 2 [P P_PRG 1 0 0 0x0003; P P_REG1C 1 0 3 0x0018] false false false false false;
  T "SN" 0x0024 0x00e4 1 2 [P P_PRG 1 0 0 0x0003; P P_REG1C 1 0 3 0x0018] false false false false false;
  T "L" 0x0040 0x00c4 1 2 [P P_REG18 1 0 3 0x0038; P P_PRG 1 0 0 0x0003] false false false false false;
  T "LN" 0x0044 0x00c4 1 2 [P P_REG18 1 0 3 0x0038; P P_PRG 1 0 0 0x0003] false false false false false;
  T "LS" 0x0080 0x00ce 1 2 [P P_REG18 1 0 4 0x0030; P P_ACCM 1 0 0 0x0001] false false false false false;
  T "SL" 0x0082 0x00ce 1 2 [P P_ACCM 1 0 0 0x0001; P P_REG18 1 0 4 0x0030] false false false false false;
  T "LSN" 0x0084 0x00ce 1 2 [P P_REG18 1 0 4 0x0030; P P_ACCM 1 0 0 0x0001] false false false false false;
  T "SLN" 0x0086 0x00ce 1 2 [P P_ACCM 1 0 0 0x0001; P P_REG18 1 0 4 0x0030] false false false false false;
  T "LSM" 0x0088 0x00ce 1 2 [P P_REG18 1 0 4 0x0030; P P_ACCM 1 0 0 0x0001] false false false false false;
  T "SLM" 0x008a 0x00ce 1 2 [P P_ACCM 1 0 0 0x0001; P P_REG18 1 0 4 0x0030] false false false false false;
  T "LSNM" 0x008c 0x00ce 1 2 [P P_REG18 1 0 4 0x0030; P P_ACCM 1 0 0 0x0001] false false false false false;
  T "SLNM" 0x008e 0x00ce 1 2 [P P_ACCM 1 0 0 0x0001; P P_REG18 1 0 4 0x0030] false false false false false;
  T "LDAX" 0x00c3 0x00cf 1 2 [P P_AX 1 0 4 0x0010; P P_PRG 1 0 5 0x0020] false false false false false;
  T "LDAXN" 0x00c7 0x00cf 1 2 [P P_AX 1 0 4 0x0010; P P_PRG 1 0 5 0x0020] false false false false false;
  T "LDAXM" 0x00cb 0x00cf 1 2 [P P_AX 1 0 4 0x0010; P P_PRG 1 0 5 0x0020] false false false false false;
  T "LDAXNM" 0x00cf 0x00cf 1 2 [P P_AX 1 0 4 0x0010; P P_PRG 1 0 5 0x0020] false false false false false;
  T "LD" 0x00c0 0x00cc 1 3 [P P_REGM18 1 0 4 0x0020; P P_REGM19 1 0 3 0x0010; P P_PRG 1 0 0 0x0003] false false false false false;
  T "LDN" 0x00c4 0x00cc 1 3 [P P_REGM18 1 0 4 0x0020; P P_REGM19 1 0 3 0x0010; P P_PRG 1 0 0 0x0003] false false false false false;
  T "LDM" 0x00c8 0x00cc 1 3 [P P_REGM18 1 0 4 0x0020; P P_REGM19 1 0 3 0x0010; P P_PRG 1 0 0 0x0003] false false false false false;
  T "LDNM" 0x00cc 0x00cc 1 3 [P P_REGM18 1 0 4 0x0020; P P_REGM19 1 0 3 0x0010; P P_PRG 1 0 0 0x0003] false false false false false
].

(** * Lookup *)

Definition FindOpInfoByOpcode (inst : Z) : option DSPOPCTemplate :=
  FindByOpcode opcode opcode_mask inst s_opcodes.
Definition FindExtOpInfoByOpcode (inst : Z) : option DSPOPCTemplate :=
  FindByOpcode opcode opcode_mask inst s_opcodes_ext.
Definition FindOpInfoByName (n : string) : option DSPOPCTemplate :=
  List.find (fun info => String.eqb n (name info)) s_opcodes.
Definition FindExtOpInfoByName (n : string) : option DSPOPCTemplate :=
  List.find (fun info => String.eqb n (name info)) s_opcodes_ext.

(** The entries [InitInstructionTable] stores in [s_op_table] and
    [s_ext_op_table]: the first match, or [cw]. *)
Definition s_op_table (i : Z) : DSPOPCTemplate := default cw (FindOpInfoByOpcode i).
Definition s_ext_op_table (i : Z) : DSPOPCTemplate := default cw (FindExtOpInfoByOpcode i).

Definition GetOpTemplate (inst : Z) : DSPOPCTemplate := s_op_table inst.
Definition GetExtOpTemplate (inst : Z) : DSPOPCTemplate :=
  let has_seven_bit_extension := (inst .>> 12) =? 0x3 in
  if has_seven_bit_extension then s_ext_op_table (inst .& 0x7F)
  else s_ext_op_table (inst .& 0xFF).

(** * Lemmas *)

Lemma FindByOpcode_spec {A} (oc om : A -> Z) inst data info :
  FindByOpcode oc om inst data = Some info -> In info data /\ inst .& om info = oc info.
Proof. intros H%List.find_some. by rewrite Z.eqb_eq in H. Qed.

(** A test that holds of every entry holds of every lookup. *)
Lemma s_op_table_forall (P : DSPOPCTemplate -> bool) i :
  forallb P (cw :: s_opcodes) = true -> P (s_op_table i) = true.
Proof.
  rewrite forallb_forall. intros H. apply H. unfold s_op_table, FindOpInfoByOpcode.
  destruct (FindByOpcode _ _ _ _) eqn:E; [right | by left].
  by apply FindByOpcode_spec in E as [? ?].
Qed.

Lemma size_range i : 1 <= size (GetOpTemplate i) <= 2.
Proof.
  pose proof (s_op_table_forall (fun t => (1 <=? size t) && (size t <=? 2)) i eq_refl) as H.
  cbv beta in H. unfold GetOpTemplate. lia.
Qed.
