(* ===== verification/DSPHardware.v ===== *)
(** The DSP around its instruction set: hardware stacks ([DSPStacks.cpp]), memory
    map ([DSPMemoryMap.cpp]), mailboxes, DMA and the other hardware registers
    ([DSPHWInterface.cpp]), exceptions, reset and initialisation
    ([DSPCore.cpp]), and the static analyzer ([DSPAnalyzer.cpp]). *)
From stdpp Require Import base tactics option list gmap strings.
From Stdlib Require Import ZArith Lia Bool.
From S2P Require Import Prelude Accelerator DSPState DSPTables.

#[local] Open Scope Z_scope.

Section Hardware.
Context {H : Type} {hst : DSPHost H}.
Abbreviation DM := (M (State H)).

(** * Stacks *)

Definition stack_slot (reg_index p : Z) : Z := reg_index * DSP_STACK_DEPTH + p.

Definition StoreStack (stack_reg : StackRegister) (val : Z) : DM unit :=
  let reg_index := stack_index stack_reg in
  p ← geta 4 f_reg_stack_ptrs reg_index;
  seta 4 f_reg_stack_ptrs reg_index (to_u8 (p + 1) .& DSP_STACK_MASK) ;;
  p ← geta 4 f_reg_stack_ptrs reg_index;
  top ← geta 4 f_st reg_index;
  seta (4 * DSP_STACK_DEPTH) f_reg_stacks (stack_slot reg_index p) top ;;
  seta 4 f_st reg_index val.

Definition PopStack (stack_reg : StackRegister) : DM Z :=
  let reg_index := stack_index stack_reg in
  val ← geta 4 f_st reg_index;
  p ← geta 4 f_reg_stack_ptrs reg_index;
  below ← geta (4 * DSP_STACK_DEPTH) f_reg_stacks (stack_slot reg_index p);
  seta 4 f_st reg_index below ;;
  seta 4 f_reg_stack_ptrs reg_index (to_u8 (p - 1) .& DSP_STACK_MASK) ;;
  mret val.

(** * Status register flags *)

Definition SetSRFlag (flag : Z) : DM unit := modf f_sr (fun sr => sr .| flag).
Definition IsSRFlagSet (flag : Z) : DM bool :=
  sr ← getf f_sr; mret (negb ((sr .& flag) =? 0)).

(** * Exceptions *)

Definition SetException (exception : ExceptionType) : DM unit :=
  modf f_exceptions (fun e => to_u8 (e .| (1 .<< exception_number exception))).

Definition SetExternalInterrupt (val : bool) : DM unit :=
  setf f_external_interrupt_waiting val.

Definition CheckExternalInterrupt : DM unit :=
  en ← IsSRFlagSet SR_EXT_INT_ENABLE;
  when en
    (SetException ExternalInterrupt ;;
     modf f_control_reg (fun c => c .& to_u16 (Z.lnot CR_EXTERNAL_INT))).

(** The body of the loop of [CheckExceptions] for exception [i]; [true] is
    [break]. *)
Definition CheckException1 (i : Z) : DM bool :=
  e ← getf f_exceptions;
  if negb ((e .& (1 .<< i)) =? 0) then
    en ← IsSRFlagSet SR_INT_ENABLE;
    if (en : bool) || (i =? exception_number ExternalInterrupt) then
      pc ← getf f_pc; StoreStack Call pc ;;
      sr ← getf f_sr; StoreStack Data sr ;;
      setf f_pc (to_u16 (i * 2)) ;;
      modf f_exceptions (fun e => e .& to_u8 (Z.lnot (1 .<< i))) ;;
      (if i =? 7 then modf f_sr (fun sr => sr .& to_u16 (Z.lnot SR_EXT_INT_ENABLE))
       else modf f_sr (fun sr => sr .& to_u16 (Z.lnot SR_INT_ENABLE))) ;;
      mret true
    else mret false
  else mret false.

(** [for (int i = 7; i > 0; i--)]; [n] is the current [i]. *)
Fixpoint CheckExceptions_loop (n : nat) : DM unit :=
  match n with
  | O => mret tt
  | S n' =>
      stop ← CheckException1 (Z.of_nat n);
      if (stop : bool) then mret tt else CheckExceptions_loop n'
  end.

Definition CheckExceptions : DM unit :=
  e ← getf f_exceptions;
  if e =? 0 then mret tt else CheckExceptions_loop 7.

(** * Mailboxes *)

Definition PeekMailbox (mailbox : Mailbox) : DM Z := geta 2 f_m_mailbox (mailbox_index mailbox).

Definition ReadMailboxLow (mailbox : Mailbox) : DM Z :=
  value ← geta 2 f_m_mailbox (mailbox_index mailbox);
  seta 2 f_m_mailbox (mailbox_index mailbox) (value .& to_u32 (Z.lnot 0x80000000)) ;;
  mret (to_u16 value).

Definition ReadMailboxHigh (mailbox : Mailbox) : DM Z :=
  value ← PeekMailbox mailbox; mret (to_u16 (value .>> 16)).

Definition WriteMailboxLow (mailbox : Mailbox) (value : Z) : DM unit :=
  old_value ← geta 2 f_m_mailbox (mailbox_index mailbox);
  let new_value := (old_value .& to_u32 (Z.lnot 0xffff)) .| value in
  seta 2 f_m_mailbox (mailbox_index mailbox) (new_value .| 0x80000000).

Definition WriteMailboxHigh (mailbox : Mailbox) (value : Z) : DM unit :=
  old_value ← geta 2 f_m_mailbox (mailbox_index mailbox);
  let new_value := (old_value .& 0xffff) .| to_u32 (value .<< 16) in
  seta 2 f_m_mailbox (mailbox_index mailbox) (new_value .& to_u32 (Z.lnot 0x80000000)).

(** * Instruction memory *)

Definition ReadIMEM (address : Z) : DM Z :=
  match address .>> 12 with
  | 0 => geta DSP_IRAM_SIZE f_iram (address .& DSP_IRAM_MASK)
  | 8 => geta DSP_IRAM_SIZE f_irom (address .& DSP_IROM_MASK)
  | _ => mret 0
  end.

Definition PeekInstruction : DM Z := pc ← getf f_pc; ReadIMEM pc.

Definition FetchInstruction : DM Z :=
  opc ← PeekInstruction;
  modf f_pc (fun pc => to_u16 (pc + 1)) ;;
  mret opc.

Definition SkipInstruction : DM unit :=
  opc ← PeekInstruction;
  modf f_pc (fun pc => to_u16 (pc + size (GetOpTemplate opc))).

(** * The analyzer *)

Definition CODE_START_OF_INST : Z := 1.
Definition CODE_IDLE_SKIP : Z := 2.
Definition CODE_LOOP_START : Z := 4.
Definition CODE_LOOP_END : Z := 8.
Definition CODE_CHECK_EXC : Z := 32.

(** [m_code_flags[address] |= flags;] *)
Definition set_code_flags (address flags : Z) : DM unit :=
  f ← geta 65536 f_m_code_flags address;
  seta 65536 f_m_code_flags address (f .| flags).

Definition has_code_flag (flag address : Z) : DM bool :=
  f ← geta 65536 f_m_code_flags address; mret (negb ((f .& flag) =? 0)).

Definition IsStartOfInstruction (address : Z) : DM bool := has_code_flag CODE_START_OF_INST address.
Definition IsIdleSkip (address : Z) : DM bool := has_code_flag CODE_IDLE_SKIP address.
Definition IsLoopStart (address : Z) : DM bool := has_code_flag CODE_LOOP_START address.
Definition IsLoopEnd (address : Z) : DM bool := has_code_flag CODE_LOOP_END address.
Definition IsCheckExceptions (address : Z) : DM bool := has_code_flag CODE_CHECK_EXC address.

(** 0xFFFF means ignore. *)
Definition idle_skip_sigs : list (list Z) := [
  [0x26fc; 0x02c0; 0x8000; 0x029d; 0xFFFF; 0; 0];
  [0x27fc; 0x03c0; 0x8000; 0x029d; 0xFFFF; 0; 0];
  [0x26fe; 0x02c0; 0x8000; 0x029c; 0xFFFF; 0; 0];
  [0x27fe; 0x03c0; 0x8000; 0x029c; 0xFFFF; 0; 0];
  [0x26fc; 0x02a0; 0x8000; 0x029c; 0xFFFF; 0; 0];
  [0x27fc; 0x03a0; 0x8000; 0x029c; 0xFFFF; 0; 0];
  [0x00de; 0xFFFE; 0x02c0; 0x8000; 0x029c; 0xFFFF; 0];
  [0x00da; 0x0352; 0x8600; 0x0295; 0xFFFF; 0; 0] ].

(** Does the instruction raise exceptions, so that the next one must check? *)
Definition may_raise (opc : DSPOPCTemplate) : bool :=
  (opcode opc =? 0x00c0) || (opcode opc =? 0x1800) || (opcode opc =? 0x1880) ||
  (opcode opc =? 0x1900) || (opcode opc =? 0x1980) || (opcode opc =? 0x2000) || extended opc.

(** The body of the loop of [FindInstructionStarts]; the result is the next
    address.  The SR analysis is compiled out ([DISABLE_UPDATE_SR_ANALYSIS]). *)
Definition FindInstructionStart1 (addr : Z) : DM Z :=
  inst ← ReadIMEM addr;
  let opc := GetOpTemplate inst in
  set_code_flags addr CODE_START_OF_INST ;;
  (if ((inst .& 0xffe0) =? 0x0060) || ((inst .& 0xff00) =? 0x1100) then
     loop_end ← ReadIMEM (to_u16 (addr + 1));
     set_code_flags addr CODE_LOOP_START ;;
     set_code_flags loop_end CODE_LOOP_END
   else when (((inst .& 0xffe0) =? 0x0040) || ((inst .& 0xff00) =? 0x1000))
     (set_code_flags addr CODE_LOOP_START ;;
      set_code_flags (to_u16 (addr + 1)) CODE_LOOP_END)) ;;
  when (may_raise opc) (set_code_flags (to_u16 (addr + size opc)) CODE_CHECK_EXC) ;;
  mret (to_u16 (addr + size opc)).

(** [for (u16 addr = start_addr; addr < end_addr;)], run for at most [fuel]
    instructions.  Every instruction has a size, so [end_addr - start_addr] of
    them reach the end. *)
Fixpoint FindInstructionStarts_loop (fuel : nat) (end_addr addr : Z) : DM unit :=
  match fuel with
  | O => mret tt
  | S fuel' =>
      if addr <? end_addr then
        next ← FindInstructionStart1 addr; FindInstructionStarts_loop fuel' end_addr next
      else mret tt
  end.

Definition FindInstructionStarts (start_addr end_addr : Z) : DM unit :=
  FindInstructionStarts_loop (Z.to_nat (end_addr - start_addr)) end_addr start_addr.

(** The inner loop of [FindIdleSkips]: compares a signature from element [i] on. *)
Fixpoint match_idle_sig (sig : list Z) (addr i : Z) (found : bool) : DM bool :=
  match sig with
  | [] => mret found
  | w :: sig' =>
      let found := found || (w =? 0) in
      if w =? 0xFFFF then match_idle_sig sig' addr (i + 1) found
      else
        m ← ReadIMEM (to_u16 (addr + i));
        if negb (w =? m) then mret found else match_idle_sig sig' addr (i + 1) found
  end.

(** The addresses [addr], [addr + 1], ..., [n] of them, against one signature. *)
Fixpoint FindIdleSkips_addrs (sig : list Z) (n : nat) (addr : Z) : DM unit :=
  match n with
  | O => mret tt
  | S n' =>
      found ← match_idle_sig sig addr 0 false;
      when found (set_code_flags addr CODE_IDLE_SKIP) ;;
      FindIdleSkips_addrs sig n' (addr + 1)
  end.

Fixpoint FindIdleSkips_sigs (sigs : list (list Z)) (start_addr end_addr : Z) : DM unit :=
  match sigs with
  | [] => mret tt
  | sig :: sigs' =>
      FindIdleSkips_addrs sig (Z.to_nat (end_addr - start_addr)) start_addr ;;
      FindIdleSkips_sigs sigs' start_addr end_addr
  end.

Definition FindIdleSkips (start_addr end_addr : Z) : DM unit :=
  FindIdleSkips_sigs idle_skip_sigs start_addr end_addr.

Definition AnalyzeRange (start_addr end_addr : Z) : DM unit :=
  FindInstructionStarts start_addr end_addr ;;
  FindIdleSkips start_addr end_addr.

(** [Analyzer::Reset] *)
Definition ResetAnalysis : DM unit := setf f_m_code_flags ∅.

Definition Analyze : DM unit :=
  ResetAnalysis ;;
  AnalyzeRange 0x0000 0x1000 ;;
  AnalyzeRange 0x8000 0x9000.

(** * The host's memory

    [CopyFromEmuSwapped<u16>]: element [i] of the copied data, big-endian in
    emulated memory. *)
Definition emu_u16 (h : H) (addr i : Z) : Z :=
  (to_u8 (mem_read_u8 (addr + 2 * i) h) .<< 8) .| to_u8 (mem_read_u8 (addr + 2 * i + 1) h).

Definition emu_words (h : H) (addr : Z) (n : nat) : list Z :=
  map (fun i => emu_u16 h addr (Z.of_nat i)) (seq 0 n).

(** [CopyToEmuSwapped<u16>] of the elements [ws], from element [i] on. *)
Fixpoint emu_store_words (addr i : Z) (ws : list Z) (h : H) : H :=
  match ws with
  | [] => h
  | w :: ws' =>
      emu_store_words addr (i + 1) ws'
        (mem_write_u8 (addr + 2 * i + 1) (w .& 0xFF) (mem_write_u8 (addr + 2 * i) (w .>> 8) h))
  end.

(** Whether [n] elements from [base] lie inside a buffer of 0x1000 words. *)
Definition dma_inside (base : Z) (n : nat) : bool :=
  Nat.eqb n 0 || (base + Z.of_nat n <=? 0x1000).

(** [Host::DMAToDSP(buffer + base, addr, size)] *)
Definition DMAToDSP (buffer : field (State H) arr) (base addr size : Z) : DM unit :=
  h ← getf f_host;
  when (range_valid addr size h)
    (let n := Z.to_nat (size / 2) in
     if dma_inside base n then modf buffer (fun a => aupd_list a base (emu_words h addr n))
     else fail DmaOutOfBounds).

(** [Host::DMAFromDSP(buffer + base, addr, size)] *)
Definition DMAFromDSP (buffer : field (State H) arr) (base addr size : Z) : DM unit :=
  h ← getf f_host;
  when (range_valid addr size h)
    (let n := Z.to_nat (size / 2) in
     if dma_inside base n then
       a ← getf buffer; setf f_host (emu_store_words addr 0 (aslice a base n) h)
     else fail DmaOutOfBounds).

(** [Common::HashEctor]; the rotation is [(crc << 3) | (crc >> 29)]. *)
Definition HashEctor_step (crc byte : Z) : Z :=
  let crc := crc .^ byte in to_u32 (crc .<< 3) .| (crc .>> 29).

Definition HashEctor (data : list Z) : Z := fold_left HashEctor_step data 0.

Definition emu_bytes (h : H) (addr : Z) (n : nat) : list Z :=
  map (fun i => to_u8 (mem_read_u8 (addr + Z.of_nat i) h)) (seq 0 n).

(** [Host::CodeLoaded]: the CRC of the code and its analysis.  The symbols, the
    debugger window and the JIT's code are not part of the state. *)
Definition CodeLoaded (addr size : Z) : DM unit :=
  h ← getf f_host;
  if range_valid addr size h || (size =? 0) then
    setf f_m_iram_crc (HashEctor (emu_bytes h addr (Z.to_nat size))) ;;
    Analyze
  else fail HostRangeInvalid.

(** * DMA *)

Definition IDMAIn (dsp_addr addr size : Z) : DM unit :=
  DMAToDSP f_iram (dsp_addr / 2) addr size ;;
  CodeLoaded addr size.

Definition IDMAOut (dsp_addr addr size : Z) : DM unit := mret tt.

Definition DDMAIn (dsp_addr addr size : Z) : DM unit :=
  DMAToDSP f_dram (dsp_addr / 2) addr size.

Definition DDMAOut (dsp_addr addr size : Z) : DM unit :=
  DMAFromDSP f_dram (dsp_addr / 2) addr size.

Definition ifx (i : Z) : DM Z := geta 256 f_m_ifx_regs i.
Definition set_ifx (i v : Z) : DM unit := seta 256 f_m_ifx_regs i v.

Definition DoDMA : DM unit :=
  mah ← ifx DSP_DSMAH; mal ← ifx DSP_DSMAL;
  let addr := to_u32 (mah .<< 16) .| mal in
  ctl ← ifx DSP_DSCR;
  dspa ← ifx DSP_DSPA;
  let dsp_addr := to_u16 (dspa * 2) in
  len ← ifx DSP_DSBL;
  if 0x4000 <? len then fail ProcessExit else
  let sel := ctl .& 0x3 in
  if sel =? (DSP_CR_DMEM .| DSP_CR_TO_CPU) then DDMAOut dsp_addr addr len
  else if sel =? (DSP_CR_DMEM .| DSP_CR_FROM_CPU) then DDMAIn dsp_addr addr len
  else if sel =? (DSP_CR_IMEM .| DSP_CR_TO_CPU) then IDMAOut dsp_addr addr len
  else IDMAIn dsp_addr addr len.

(** * The accelerator's environment: [LLEAccelerator] *)

#[export] Instance LLEAccelerator : AcceleratorEnv (State H) := {
  ReadMemory address s := ReadARAM address (host s);
  WriteMemory address value s := fset f_host (WriteARAM value address (host s)) s;
  OnEndException s :=
    fset f_exceptions
      (to_u8 (fget f_exceptions s .| (1 .<< exception_number AcceleratorOverflow))) s
}.

(** A call on [*m_accelerator]. *)
Definition accel {A} (m : M (Accel * State H) A) : DM A := fun s =>
  match m (m_accelerator (dsp s), s) with
  | Done a (acc, s') => Done a (fset f_m_accelerator acc s')
  | Fault f => Fault f
  end.

(** [reinterpret_cast<s16*>(&m_ifx_regs[DSP_COEF_A1_0])] *)
Definition ifx_coefs (regs : arr) (i : Z) : option Z :=
  if inb 256 (DSP_COEF_A1_0 + i) then Some (to_s16 (aat regs (DSP_COEF_A1_0 + i))) else None.

Definition set_high (value old : Z) : Z := to_u32 (value .<< 16) .| to_u16 old.
Definition set_low (value old : Z) : Z := to_u32 (to_u16 (old .>> 16) .<< 16) .| value.

(** * Hardware registers *)

Definition WriteIFX (address value : Z) : DM unit :=
  let a := address .& 0xff in
  if a =? DSP_DIRQ then
    when (negb ((value .& 1) =? 0)) (modf f_host GenerateDSPInterrupt)
  else if a =? DSP_DMBH then WriteMailboxHigh DSP value
  else if a =? DSP_DMBL then WriteMailboxLow DSP value
  else if a =? DSP_CMBH then WriteMailboxHigh CPU value
  else if a =? DSP_CMBL then WriteMailboxLow CPU value
  else if a =? DSP_DSBL then
    set_ifx DSP_DSBL value ;;
    c ← ifx DSP_DSCR; set_ifx DSP_DSCR (c .| 4) ;;
    amdm ← ifx DSP_AMDM;
    (if amdm =? 0 then DoDMA else mret tt) ;;
    c ← ifx DSP_DSCR; set_ifx DSP_DSCR (c .& to_u16 (Z.lnot 4)) ;;
    set_ifx DSP_DSBL 0
  else if a =? DSP_ACSAH then
    accel (old ← getf a_start; SetStartAddress (set_high value old))
  else if a =? DSP_ACSAL then
    accel (old ← getf a_start; SetStartAddress (set_low value old))
  else if a =? DSP_ACEAH then
    accel (old ← getf a_end; SetEndAddress (set_high value old))
  else if a =? DSP_ACEAL then
    accel (old ← getf a_end; SetEndAddress (set_low value old))
  else if a =? DSP_ACCAH then
    accel (old ← getf a_current; SetCurrentAddress (set_high value old))
  else if a =? DSP_ACCAL then
    accel (old ← getf a_current; SetCurrentAddress (set_low value old))
  else if a =? DSP_FORMAT then accel (SetSampleFormat value)
  else if a =? DSP_YN1 then accel (SetYn1 (to_s16 value))
  else if a =? DSP_YN2 then accel (SetYn2 (to_s16 value))
  else if a =? DSP_PRED_SCALE then accel (SetPredScale value)
  else if a =? DSP_ACDATA1 then accel (WriteD3 value)
  else set_ifx (address .& 0xFF) value.

Definition ReadIFXImpl (address : Z) : DM Z :=
  let a := address .& 0xff in
  if a =? DSP_DMBH then ReadMailboxHigh DSP
  else if a =? DSP_DMBL then ReadMailboxLow DSP
  else if a =? DSP_CMBH then ReadMailboxHigh CPU
  else if a =? DSP_CMBL then ReadMailboxLow CPU
  else if a =? DSP_DSCR then ifx (address .& 0xFF)
  else if a =? DSP_ACSAH then accel (v ← getf a_start; mret (to_u16 (v .>> 16)))
  else if a =? DSP_ACSAL then accel (v ← getf a_start; mret (to_u16 v))
  else if a =? DSP_ACEAH then accel (v ← getf a_end; mret (to_u16 (v .>> 16)))
  else if a =? DSP_ACEAL then accel (v ← getf a_end; mret (to_u16 v))
  else if a =? DSP_ACCAH then accel (v ← getf a_current; mret (to_u16 (v .>> 16)))
  else if a =? DSP_ACCAL then accel (v ← getf a_current; mret (to_u16 v))
  else if a =? DSP_FORMAT then accel (getf a_format)
  else if a =? DSP_YN1 then accel (v ← getf a_yn1; mret (to_u16 v))
  else if a =? DSP_YN2 then accel (v ← getf a_yn2; mret (to_u16 v))
  else if a =? DSP_PRED_SCALE then accel (getf a_pred_scale)
  else if a =? DSP_ACCELERATOR then regs ← getf f_m_ifx_regs; accel (Read (ifx_coefs regs))
  else if a =? DSP_ACDATA1 then accel ReadD3
  else ifx (address .& 0xFF).

Definition ReadIFX (address : Z) : DM Z := ReadIFXImpl address.

Definition InitializeIFX : DM unit :=
  setf f_m_ifx_regs ∅ ;;
  seta 2 f_m_mailbox (mailbox_index CPU) 0 ;;
  seta 2 f_m_mailbox (mailbox_index DSP) 0.

(** * Data memory *)

Definition ReadDMEM (address : Z) : DM Z :=
  match address .>> 12 with
  | 0x0 => geta DSP_DRAM_SIZE f_dram (address .& DSP_DRAM_MASK)
  | 0x1 => geta DSP_COEF_SIZE f_coef (address .& DSP_COEF_MASK)
  | 0xf => ReadIFX address
  | _ => mret 0
  end.

Definition WriteDMEM (address value : Z) : DM unit :=
  match address .>> 12 with
  | 0x0 => seta DSP_DRAM_SIZE f_dram (address .& DSP_DRAM_MASK) value
  | 0xf => WriteIFX address value
  | _ => mret tt
  end.

(** * Reset and initialisation *)

(** [std::fill] of an [n]-element array. *)
Definition afill (n : nat) (v : Z) : arr := aupd_list ∅ 0 (replicate n v).

Definition Reset : DM unit :=
  setf f_pc DSP_RESET_VECTOR ;;
  setf f_wr (afill 4 0xffff).

(** [DSPCore::Reset] *)
Definition CoreReset : DM unit := Reset ;; Analyze.

Definition regs_zero : DSP_Regs :=
  mkRegs ∅ ∅ ∅ ∅ 0 0 0 0 0 0 ∅ ∅ ∅ ∅ ∅.

(** [SDSP::Initialize]; [roms_ok] is the answer of [VerifyRoms]. *)
Definition Initialize (irom_contents coef_contents : arr) (roms_ok : bool) : DM bool :=
  setf f_m_step_counter 0 ;;
  setf f_m_accelerator Accel_init ;;
  setf f_irom irom_contents ;;
  setf f_coef coef_contents ;;
  if roms_ok then
    setf f_r regs_zero ;;
    setf f_reg_stack_ptrs (afill 4 0) ;;
    setf f_reg_stacks (afill (4 * 32) 0) ;;
    setf f_iram (afill 4096 0x0021) ;;
    setf f_dram (afill 4096 0) ;;
    setf f_wr (afill 4 0xffff) ;;
    SetSRFlag SR_INT_ENABLE ;;
    SetSRFlag SR_EXT_INT_ENABLE ;;
    setf f_control_reg (CR_INIT .| CR_HALT) ;;
    InitializeIFX ;;
    mret true
  else mret false.

(** * The debugger's access to the registers: [SDSP::ReadRegister] and
    [WriteRegister], which, unlike the instructions, touch no stack and extend
    no sign. *)

Definition ReadRegister (reg : Z) : DM Z :=
  if (DSP_REG_AR0 <=? reg) && (reg <? DSP_REG_IX0) then geta 4 f_ar (reg - DSP_REG_AR0)
  else if (DSP_REG_IX0 <=? reg) && (reg <? DSP_REG_WR0) then geta 4 f_ix (reg - DSP_REG_IX0)
  else if (DSP_REG_WR0 <=? reg) && (reg <? DSP_REG_ST0) then geta 4 f_wr (reg - DSP_REG_WR0)
  else if (DSP_REG_ST0 <=? reg) && (reg <? DSP_REG_ACH0) then geta 4 f_st (reg - DSP_REG_ST0)
  else if (DSP_REG_ACH0 <=? reg) && (reg <=? DSP_REG_ACH1) then
    h ← geta 2 f_ac_h (reg - DSP_REG_ACH0); mret (to_u16 h)
  else if reg =? DSP_REG_CR then getf f_cr
  else if reg =? DSP_REG_SR then getf f_sr
  else if reg =? DSP_REG_PRODL then getf f_prod_l
  else if reg =? DSP_REG_PRODM then getf f_prod_m
  else if reg =? DSP_REG_PRODH then getf f_prod_h
  else if reg =? DSP_REG_PRODM2 then getf f_prod_m2
  else if (DSP_REG_AXL0 <=? reg) && (reg <=? DSP_REG_AXL1) then geta 2 f_ax_l (reg - DSP_REG_AXL0)
  else if (DSP_REG_AXH0 <=? reg) && (reg <=? DSP_REG_AXH1) then geta 2 f_ax_h (reg - DSP_REG_AXH0)
  else if (DSP_REG_ACL0 <=? reg) && (reg <=? DSP_REG_ACL1) then geta 2 f_ac_l (reg - DSP_REG_ACL0)
  else if (DSP_REG_ACM0 <=? reg) && (reg <=? DSP_REG_ACM1) then geta 2 f_ac_m (reg - DSP_REG_ACM0)
  else mret 0.

Definition WriteRegister (reg val : Z) : DM unit :=
  if (DSP_REG_AR0 <=? reg) && (reg <? DSP_REG_IX0) then seta 4 f_ar (reg - DSP_REG_AR0) val
  else if (DSP_REG_IX0 <=? reg) && (reg <? DSP_REG_WR0) then seta 4 f_ix (reg - DSP_REG_IX0) val
  else if (DSP_REG_WR0 <=? reg) && (reg <? DSP_REG_ST0) then seta 4 f_wr (reg - DSP_REG_WR0) val
  else if (DSP_REG_ST0 <=? reg) && (reg <? DSP_REG_ACH0) then seta 4 f_st (reg - DSP_REG_ST0) val
  else if (DSP_REG_ACH0 <=? reg) && (reg <=? DSP_REG_ACH1) then seta 2 f_ac_h (reg - DSP_REG_ACH0) val
  else if reg =? DSP_REG_CR then setf f_cr val
  else if reg =? DSP_REG_SR then setf f_sr val
  else if reg =? DSP_REG_PRODL then setf f_prod_l val
  else if reg =? DSP_REG_PRODM then setf f_prod_m val
  else if reg =? DSP_REG_PRODH then setf f_prod_h val
  else if reg =? DSP_REG_PRODM2 then setf f_prod_m2 val
  else if (DSP_REG_AXL0 <=? reg) && (reg <=? DSP_REG_AXL1) then seta 2 f_ax_l (reg - DSP_REG_AXL0) val
  else if (DSP_REG_AXH0 <=? reg) && (reg <=? DSP_REG_AXH1) then seta 2 f_ax_h (reg - DSP_REG_AXH0) val
  else if (DSP_REG_ACL0 <=? reg) && (reg <=? DSP_REG_ACL1) then seta 2 f_ac_l (reg - DSP_REG_ACL0) val
  else if (DSP_REG_ACM0 <=? reg) && (reg <=? DSP_REG_ACM1) then seta 2 f_ac_m (reg - DSP_REG_ACM0) val
  else mret tt.

(** * Typing *)

Abbreviation W := (wf (H := H)).

Lemma typed_StoreStack sr v : u16 v -> typed W any (StoreStack sr v).
Proof.
  intros. unfold StoreStack, stack_slot. destruct sr; cbn [stack_index]; tauto_typed.
Qed.

Lemma typed_PopStack sr : typed W u16 (PopStack sr).
Proof.
  unfold PopStack, stack_slot. destruct sr; cbn [stack_index]; tauto_typed.
Qed.
#[local] Hint Resolve typed_StoreStack typed_PopStack : typed.

Lemma typed_SetSRFlag f : u16 f -> typed W any (SetSRFlag f).
Proof. intros. unfold SetSRFlag. tauto_typed. Qed.

Lemma typed_IsSRFlagSet f : typed W any (IsSRFlagSet f).
Proof. unfold IsSRFlagSet. tauto_typed. Qed.
#[local] Hint Resolve typed_SetSRFlag typed_IsSRFlagSet : typed.

Lemma typed_SetException e : typed W any (SetException e).
Proof. unfold SetException. tauto_typed. Qed.
#[local] Hint Resolve typed_SetException : typed.

Lemma typed_CheckExternalInterrupt : typed W any CheckExternalInterrupt.
Proof. unfold CheckExternalInterrupt. tauto_typed. Qed.

Lemma typed_CheckException1 i : typed W any (CheckException1 i).
Proof.
  unfold CheckException1. tauto_typed.
Qed.
#[local] Hint Resolve typed_CheckException1 : typed.

Lemma typed_CheckExceptions_loop n : typed W any (CheckExceptions_loop n).
Proof. induction n; cbn [CheckExceptions_loop]; tauto_typed. Qed.
#[local] Hint Resolve typed_CheckExceptions_loop : typed.

Lemma typed_CheckExceptions : typed W any CheckExceptions.
Proof. unfold CheckExceptions. tauto_typed. Qed.

Lemma mailbox_index_range m : 0 <= mailbox_index m < 2.
Proof. destruct m; cbn; lia. Qed.
#[local] Hint Resolve mailbox_index_range : typed.

Lemma typed_ReadMailboxLow m : typed W u16 (ReadMailboxLow m).
Proof. unfold ReadMailboxLow. tauto_typed. Qed.

Lemma typed_ReadMailboxHigh m : typed W u16 (ReadMailboxHigh m).
Proof. unfold ReadMailboxHigh, PeekMailbox. tauto_typed. Qed.

Lemma typed_WriteMailboxLow m v : u16 v -> typed W any (WriteMailboxLow m v).
Proof. intros. unfold WriteMailboxLow. tauto_typed. Qed.

Lemma typed_WriteMailboxHigh m v : typed W any (WriteMailboxHigh m v).
Proof. unfold WriteMailboxHigh. tauto_typed. Qed.
#[local] Hint Resolve typed_ReadMailboxLow typed_ReadMailboxHigh typed_WriteMailboxLow
  typed_WriteMailboxHigh : typed.

Lemma typed_ReadIMEM a : typed W u16 (ReadIMEM a).
Proof. unfold ReadIMEM. repeat case_match; tauto_typed. Qed.
#[local] Hint Resolve typed_ReadIMEM : typed.

Lemma typed_FetchInstruction : typed W u16 FetchInstruction.
Proof.
  unfold FetchInstruction, PeekInstruction. tauto_typed.
Qed.

Lemma typed_SkipInstruction : typed W any SkipInstruction.
Proof.
  unfold SkipInstruction, PeekInstruction. tauto_typed.
Qed.
#[local] Hint Resolve typed_FetchInstruction typed_SkipInstruction : typed.

Lemma typed_set_code_flags a f : u16 a -> u8 f -> typed W any (set_code_flags a f).
Proof. intros. unfold set_code_flags. tauto_typed. Qed.
#[local] Hint Resolve typed_set_code_flags : typed.

Lemma typed_has_code_flag f a : u16 a -> typed W any (has_code_flag f a).
Proof. intros. unfold has_code_flag. tauto_typed. Qed.

Lemma typed_FindInstructionStart1 a : u16 a -> typed W u16 (FindInstructionStart1 a).
Proof.
  intros. unfold FindInstructionStart1, CODE_START_OF_INST, CODE_LOOP_START, CODE_LOOP_END,
    CODE_CHECK_EXC. tauto_typed.
Qed.
#[local] Hint Resolve typed_FindInstructionStart1 : typed.

Lemma typed_FindInstructionStarts_loop n e a :
  u16 a -> typed W any (FindInstructionStarts_loop n e a).
Proof. revert a. induction n; intros; cbn [FindInstructionStarts_loop]; tauto_typed. Qed.

Lemma typed_match_idle_sig sig a i b : typed W any (match_idle_sig sig a i b).
Proof. revert i b. induction sig; intros; cbn [match_idle_sig]; tauto_typed. Qed.
#[local] Hint Resolve typed_match_idle_sig : typed.

Lemma typed_FindIdleSkips_addrs sig n a :
  0 <= a -> a + Z.of_nat n < 65536 -> typed W any (FindIdleSkips_addrs sig n a).
Proof.
  revert a. induction n; intros; cbn [FindIdleSkips_addrs]; unfold CODE_IDLE_SKIP; tauto_typed.
  apply IHn; lia.
Qed.

Lemma typed_FindIdleSkips_sigs sigs s e :
  0 <= s <= e -> e < 65536 -> typed W any (FindIdleSkips_sigs sigs s e).
Proof.
  intros. induction sigs; cbn [FindIdleSkips_sigs]; [by apply typed_ret|].
  tstep; [apply typed_FindIdleSkips_addrs; lia | by intros].
Qed.

Lemma typed_AnalyzeRange s e : 0 <= s <= e -> e < 65536 -> typed W any (AnalyzeRange s e).
Proof.
  intros. unfold AnalyzeRange, FindInstructionStarts, FindIdleSkips. tstep.
  - apply typed_FindInstructionStarts_loop. range_lia.
  - intros. by apply typed_FindIdleSkips_sigs.
Qed.

Lemma typed_Analyze : typed W any Analyze.
Proof.
  unfold Analyze, ResetAnalysis. repeat (tstep; [|intros]).
  - eapply typed_setf; [exact _|]. apply arr_ok_empty. range_lia.
  - apply typed_AnalyzeRange; lia.
  - apply typed_AnalyzeRange; lia.
Qed.
#[local] Hint Resolve typed_Analyze : typed.

(** ** DMA and hardware registers *)

Lemma emu_u16_range h a i : u16 (emu_u16 h a i).
Proof.
  unfold emu_u16. solve_uN.
Qed.

Lemma emu_words_ok h a n : Forall u16 (emu_words h a n).
Proof.
  unfold emu_words. apply Forall_forall. intros w Hw.
  apply list_elem_of_In, in_map_iff in Hw as (i & <- & _). apply emu_u16_range.
Qed.

Lemma typed_DMAToDSP buffer b a n :
  FieldTyped W buffer (arr_ok u16) -> typed W any (DMAToDSP buffer b a n).
Proof.
  intros. unfold DMAToDSP. tauto_typed. apply arr_ok_aupd_list; [done | apply emu_words_ok].
Qed.

Lemma typed_DMAFromDSP buffer b a n :
  FieldTyped W buffer (arr_ok u16) -> typed W any (DMAFromDSP buffer b a n).
Proof. intros. unfold DMAFromDSP. tauto_typed. Qed.
#[local] Hint Resolve typed_DMAToDSP typed_DMAFromDSP : typed.

Lemma HashEctor_step_range c b : u32 c -> u8 b -> u32 (HashEctor_step c b).
Proof.
  intros. unfold HashEctor_step. assert (Hx : u32 (c .^ b)) by solve_uN. revert Hx.
  generalize (c .^ b). intros. solve_uN.
Qed.

Lemma HashEctor_range l : Forall u8 l -> u32 (HashEctor l).
Proof.
  unfold HashEctor. enough (G : forall c, u32 c -> Forall u8 l -> u32 (fold_left HashEctor_step l c))
    by (apply G; range_lia).
  induction l as [|b l IH]; intros c Hc Hl; [done|]. inversion_clear Hl.
  cbn. apply IH; [by apply HashEctor_step_range | done].
Qed.

Lemma emu_bytes_ok h a n : Forall u8 (emu_bytes h a n).
Proof.
  unfold emu_bytes. apply Forall_forall. intros w Hw.
  apply list_elem_of_In, in_map_iff in Hw as (i & <- & _). solve_uN.
Qed.

Lemma typed_CodeLoaded a n : typed W any (CodeLoaded a n).
Proof.
  assert (Hh : forall h, u32 (HashEctor (emu_bytes h a (Z.to_nat n))))
    by (intros; apply HashEctor_range, emu_bytes_ok).
  unfold CodeLoaded. tauto_typed.
Qed.
#[local] Hint Resolve typed_CodeLoaded : typed.

Lemma typed_ifx i : 0 <= i < 256 -> typed W u16 (ifx i).
Proof. intros. unfold ifx. tauto_typed. Qed.

Lemma typed_set_ifx i v : 0 <= i < 256 -> u16 v -> typed W any (set_ifx i v).
Proof. intros. unfold set_ifx. tauto_typed. Qed.
#[local] Hint Resolve typed_ifx typed_set_ifx : typed.

Lemma typed_DoDMA : typed W any DoDMA.
Proof.
  unfold DoDMA, DDMAOut, DDMAIn, IDMAOut, IDMAIn. tauto_typed.
Qed.
#[local] Hint Resolve typed_DoDMA : typed.

Lemma typed_accel {A} (T : A -> Prop) m : typed (AI W) T m -> typed W T (accel m).
Proof.
  intros Hm s Hs. unfold accel. specialize (Hm (m_accelerator (dsp s), s)).
  destruct (m _) as [a [acc s']|f].
  - destruct Hm as [[? ?] ?]; [split; [apply (ft_get (F := f_m_accelerator) s Hs) | done]|].
    split; [|done]. by apply (ft_set (F := f_m_accelerator)).
  - apply Hm. split; [apply (ft_get (F := f_m_accelerator) s Hs) | done].
Qed.

Lemma LLE_WriteMemory_ok (s : State H) a v : W s -> u32 a -> u8 v -> W (WriteMemory a v s).
Proof. intros. by apply (ft_set (F := f_host)). Qed.

Lemma LLE_OnEndException_ok (s : State H) : W s -> W (OnEndException s).
Proof. intros. apply (ft_set (F := f_exceptions)); [done | solve_uN]. Qed.

Lemma ifx_coefs_ok regs j :
  0 <= j < 16 -> exists c, ifx_coefs regs j = Some c /\ s16 c.
Proof. intros. unfold ifx_coefs. rewrite inb_true by lia. eexists; split; [done | solve_sN]. Qed.

Lemma typed_accel_Read regs : typed W u16 (accel (Read (ifx_coefs regs))).
Proof.
  apply typed_accel, typed_Read; auto using LLE_WriteMemory_ok, LLE_OnEndException_ok, ifx_coefs_ok.
Qed.

Lemma typed_accel_ReadD3 : typed W u16 (accel ReadD3).
Proof. apply typed_accel, typed_ReadD3; auto using LLE_WriteMemory_ok, LLE_OnEndException_ok. Qed.

Lemma typed_accel_WriteD3 v : typed W any (accel (WriteD3 v)).
Proof. apply typed_accel, typed_WriteD3; auto using LLE_WriteMemory_ok, LLE_OnEndException_ok. Qed.
#[local] Hint Resolve typed_accel_Read typed_accel_ReadD3 typed_accel_WriteD3 : typed.

Lemma set_high_range v old : u32 (set_high v old).
Proof. unfold set_high. solve_uN. Qed.

Lemma set_low_range v old : u16 v -> u32 (set_low v old).
Proof. intros. unfold set_low. solve_uN. Qed.

#[local] Hint Resolve set_high_range set_low_range : typed.

Lemma typed_WriteIFX a v : u16 v -> typed W any (WriteIFX a v).
Proof.
  intros. unfold WriteIFX. tauto_typed.
  all: apply typed_accel; tauto_typed.
Qed.

Lemma typed_ReadIFX a : typed W u16 (ReadIFX a).
Proof.
  unfold ReadIFX, ReadIFXImpl. tauto_typed.
  all: apply typed_accel; tauto_typed.
Qed.
#[local] Hint Resolve typed_WriteIFX typed_ReadIFX : typed.

Lemma typed_ReadDMEM a : typed W u16 (ReadDMEM a).
Proof. unfold ReadDMEM. repeat case_match; tauto_typed. Qed.

Lemma typed_WriteDMEM a v : u16 v -> typed W any (WriteDMEM a v).
Proof. intros. unfold WriteDMEM. repeat case_match; tauto_typed. Qed.

(** ** Reset, initialisation, registers *)

Lemma afill_ok (P : Z -> Prop) n v : P 0 -> P v -> arr_ok P (afill n v).
Proof.
  intros. apply arr_ok_aupd_list; [by apply arr_ok_empty | by apply Forall_replicate].
Qed.

#[local] Hint Resolve afill_ok : typed.

Lemma typed_CoreReset : typed W any CoreReset.
Proof. unfold CoreReset, Reset. tauto_typed. Qed.

Lemma regs_zero_ok : regs_ok regs_zero.
Proof. split; cbn; try range_lia; apply arr_ok_empty; try range_lia. split; [range_lia|]. done. Qed.

Lemma typed_Initialize irom_c coef_c ok :
  arr_ok u16 irom_c -> arr_ok u16 coef_c -> typed W any (Initialize irom_c coef_c ok).
Proof.
  intros. unfold Initialize, InitializeIFX.
  pose proof regs_zero_ok.
  assert (Hf : forall n v, u16 v -> arr_ok u16 (afill n v)) by (intros; apply afill_ok; range_lia || done).
  assert (arr_ok u16 ∅) by (apply arr_ok_empty; range_lia).
  assert (arr_ok stack_ptr (afill 4 0)) by (apply afill_ok; range_lia).
  assert (accel_ok Accel_init) by (split; cbn; range_lia).
  tauto_typed.
Qed.

Lemma typed_ReadRegister reg : typed W u16 (ReadRegister reg).
Proof. unfold ReadRegister. tauto_typed. Qed.
End Hardware.

#[export] Hint Resolve typed_StoreStack typed_PopStack typed_SetSRFlag typed_IsSRFlagSet
  typed_SetException typed_CheckExternalInterrupt typed_CheckExceptions typed_ReadMailboxLow
  typed_ReadMailboxHigh typed_WriteMailboxLow typed_WriteMailboxHigh typed_ReadIMEM
  typed_FetchInstruction typed_SkipInstruction typed_has_code_flag typed_Analyze typed_CodeLoaded
  typed_DMAToDSP typed_ReadDMEM typed_WriteDMEM typed_CoreReset typed_ReadRegister : typed.
