(* ===== verification/DSPInterpreter.v ===== *)
(** The services the DSP instructions are written with
    ([Core/DSP/Interpreter/DSPInterpreter.cpp], [DSPIntCCUtil.h],
    [DSPIntUtil.h]): conditions and flags, address-register arithmetic,
    accumulators, the multiplier, register access and the write-back log. *)
From stdpp Require Import base tactics option list gmap strings.
From Stdlib Require Import ZArith Lia Bool.
From S2P Require Import Prelude Accelerator DSPState DSPTables DSPHardware.

#[local] Open Scope Z_scope.

(** * Carry, overflow, rounding *)

Definition isCarryAdd (val result : Z) : bool := to_u64 result <? to_u64 val.
Definition isCarrySubtract (val result : Z) : bool := to_u64 result <=? to_u64 val.
Definition isOverflow (val1 val2 res : Z) : bool := ((val1 .^ res) .& (val2 .^ res)) <? 0.
Definition isOverS32 (acc : Z) : bool := negb (acc =? to_s32 acc).

Definition dsp_convert_long_acc (val : Z) : Z := to_s64 (val .<< 24) .>> 24.
Definition dsp_round_long_acc (val : Z) : Z :=
  if negb ((val .& 0x10000) =? 0) then (val + 0x8000) .& Z.lnot 0xffff
  else (val + 0x7fff) .& Z.lnot 0xffff.

Definition IsProperlySignExtended (val : Z) : bool :=
  let topbits := val .& 0xffffff8000000000 in
  (topbits =? 0) || (0xffffff8000000000 =? topbits).

(** * Flags *)

(** [if (b) sr |= flag;] *)
Definition or_flag (b : bool) (flag sr : Z) : Z := if b then sr .| flag else sr.

Definition UpdateSR16_sr (value : Z) (carry overflow over_s32 : bool) (sr : Z) : Z :=
  let sr := sr .& to_u16 (Z.lnot SR_CMP_MASK) in
  let sr := or_flag carry SR_CARRY sr in
  let sr := or_flag overflow SR_OVERFLOW_STICKY (or_flag overflow SR_OVERFLOW sr) in
  let sr := or_flag (value =? 0) SR_ARITH_ZERO sr in
  let sr := or_flag (value <? 0) SR_SIGN sr in
  let sr := or_flag over_s32 SR_OVER_S32 sr in
  or_flag (((to_u16 value .>> 14) =? 0) || ((to_u16 value .>> 14) =? 3)) SR_TOP2BITS sr.

Definition UpdateSR64_sr (value : Z) (carry overflow : bool) (sr : Z) : Z :=
  let sr := sr .& to_u16 (Z.lnot SR_CMP_MASK) in
  let sr := or_flag carry SR_CARRY sr in
  let sr := or_flag overflow SR_OVERFLOW_STICKY (or_flag overflow SR_OVERFLOW sr) in
  let sr := or_flag (value =? 0) SR_ARITH_ZERO sr in
  let sr := or_flag (value <? 0) SR_SIGN sr in
  let sr := or_flag (isOverS32 value) SR_OVER_S32 sr in
  or_flag (((value .& 0xc0000000) =? 0) || ((value .& 0xc0000000) =? 0xc0000000)) SR_TOP2BITS sr.

(** * Address registers

    The four routines compute on [u32]; [ar], [wr] are the register's values. *)

Definition increment_ar (ar wr : Z) : Z :=
  let nar := to_u32 (ar + 1) in
  let nar := if to_u32 ((wr .| 1) .<< 1) <? (nar .^ ar) then to_u32 (nar - (wr + 1)) else nar in
  to_u16 nar.

Definition decrement_ar (ar wr : Z) : Z :=
  let nar := to_u32 (ar + wr) in
  let nar := if wr <? ((nar .^ ar) .& to_u32 ((wr .| 1) .<< 1)) then to_u32 (nar - (wr + 1)) else nar in
  to_u16 nar.

Definition increase_ar (ar wr ix : Z) : Z :=
  let mx := to_u32 ((wr .| 1) .<< 1) in
  let nar := to_u32 (ar + ix) in
  let dar := (nar .^ ar .^ to_u32 ix) .& mx in
  let nar :=
    if 0 <=? ix then
      if wr <? dar then to_u32 (nar - (wr + 1)) else nar
    else
      if ((to_u32 (nar + wr + 1) .^ nar) .& dar) <=? wr then to_u32 (nar + (wr + 1)) else nar in
  to_u16 nar.

Definition decrease_ar (ar wr ix : Z) : Z :=
  let mx := to_u32 ((wr .| 1) .<< 1) in
  let nar := to_u32 (ar - ix) in
  let dar := (nar .^ ar .^ to_u32 (Z.lnot ix)) .& mx in
  let nar :=
    if 0xFFFF8000 <? to_u32 ix then
      if wr <? dar then to_u32 (nar - (wr + 1)) else nar
    else
      if ((to_u32 (nar + wr + 1) .^ nar) .& dar) <=? wr then to_u32 (nar + (wr + 1)) else nar in
  to_u16 nar.

(** * Accumulators and product *)

(** [ac[reg].val] of the union, a [u64]. *)
Definition ac_val (l m h : Z) : Z := l .| (m .<< 16) .| (h .<< 32).

(** The [s64] that [GetLongProduct] assembles from the four registers. *)
Definition long_product (l m h m2 : Z) : Z :=
  let val := to_s8 (to_u8 h) .<< 32 in
  let low_prod := (m + m2) .<< 16 in
  let low_prod := low_prod .| l in
  val + low_prod.

(** [GetMultiplyProduct] on the operands' values.  The unsigned product is
    computed modulo 2^32; in C++ the [int] multiplication of two promoted [u16]
    is undefined when it exceeds [INT_MAX]. *)
Definition multiply_product (mul_unsigned mul_modify : bool) (a b sign : Z) : Z :=
  let prod :=
    if (sign =? 1) && mul_unsigned then to_u32 (a * b)
    else if (sign =? 2) && mul_unsigned then a * to_s16 b
    else to_s16 a * to_s16 b in
  if mul_modify then prod else prod .<< 1.

Section Interpreter.
Context {H : Type} {hst : DSPHost H}.
Abbreviation DM := (M (State H)).

(** * Conditions *)

Definition CheckCondition (condition : Z) : DM bool :=
  sr ← getf f_sr;
  let flag_set flag := negb ((sr .& flag) =? 0) in
  let IsCarry := flag_set SR_CARRY in
  let IsOverflow := flag_set SR_OVERFLOW in
  let IsOverS32 := flag_set SR_OVER_S32 in
  let IsLess := xorb (flag_set SR_OVERFLOW) (flag_set SR_SIGN) in
  let IsZero := flag_set SR_ARITH_ZERO in
  let IsLogicZero := flag_set SR_LOGIC_ZERO in
  let IsConditionB := negb (flag_set SR_OVER_S32 || flag_set SR_TOP2BITS) || flag_set SR_ARITH_ZERO in
  mret match condition .& 0xf with
  | 0xf => true
  | 0x0 => negb IsLess
  | 0x1 => IsLess
  | 0x2 => negb IsLess && negb IsZero
  | 0x3 => IsLess || IsZero
  | 0x4 => negb IsZero
  | 0x5 => IsZero
  | 0x6 => negb IsCarry
  | 0x7 => IsCarry
  | 0x8 => negb IsOverS32
  | 0x9 => IsOverS32
  | 0xa => negb IsConditionB
  | 0xb => IsConditionB
  | 0xc => negb IsLogicZero
  | 0xd => IsLogicZero
  | 0xe => IsOverflow
  | _ => true
  end.

(** * Address registers *)

Definition IncrementAddressRegister (reg : Z) : DM Z :=
  ar ← geta 4 f_ar reg; wr ← geta 4 f_wr reg; mret (increment_ar ar wr).
Definition DecrementAddressRegister (reg : Z) : DM Z :=
  ar ← geta 4 f_ar reg; wr ← geta 4 f_wr reg; mret (decrement_ar ar wr).
Definition IncreaseAddressRegister (reg ix : Z) : DM Z :=
  ar ← geta 4 f_ar reg; wr ← geta 4 f_wr reg; mret (increase_ar ar wr ix).
Definition DecreaseAddressRegister (reg ix : Z) : DM Z :=
  ar ← geta 4 f_ar reg; wr ← geta 4 f_wr reg; mret (decrease_ar ar wr ix).

(** * Accumulators *)

Definition GetLongACX (reg : Z) : DM Z :=
  h ← geta 2 f_ax_h reg; l ← geta 2 f_ax_l reg; mret (to_s32 ((h .<< 16) .| l)).
Definition GetAXLow (reg : Z) : DM Z := l ← geta 2 f_ax_l reg; mret (to_s16 l).
Definition GetAXHigh (reg : Z) : DM Z := h ← geta 2 f_ax_h reg; mret (to_s16 h).

Definition GetLongAcc (reg : Z) : DM Z :=
  l ← geta 2 f_ac_l reg; m ← geta 2 f_ac_m reg; h ← geta 2 f_ac_h reg;
  mret (to_s64 (ac_val l m h)).

Definition SetLongAcc (reg value : Z) : DM unit :=
  let val := to_u64 (to_s64 (value .<< (64 - 40)) .>> (64 - 40)) in
  seta 2 f_ac_l reg (to_u16 val) ;;
  seta 2 f_ac_m reg (to_u16 (val .>> 16)) ;;
  seta 2 f_ac_h reg (to_u32 (val .>> 32)).

Definition GetAccLow (reg : Z) : DM Z := l ← geta 2 f_ac_l reg; mret (to_s16 l).
Definition GetAccMid (reg : Z) : DM Z := m ← geta 2 f_ac_m reg; mret (to_s16 m).
Definition GetAccHigh (reg : Z) : DM Z := h ← geta 2 f_ac_h reg; mret (to_s16 h).

Definition GetLongProduct : DM Z :=
  h ← getf f_prod_h; m ← getf f_prod_m; m2 ← getf f_prod_m2; l ← getf f_prod_l;
  mret (long_product l m h m2).

Definition GetLongProductRounded : DM Z :=
  prod ← GetLongProduct;
  mret (if negb ((prod .& 0x10000) =? 0) then (prod + 0x8000) .& Z.lnot 0xffff
        else (prod + 0x7fff) .& Z.lnot 0xffff).

Definition SetLongProduct (value : Z) : DM unit :=
  let val := to_u64 (value .& 0x000000FFFFFFFFFF) in
  setf f_prod_l (to_u16 val) ;;
  setf f_prod_m (to_u16 (val .>> 16)) ;;
  setf f_prod_h (to_u16 (val .>> 32)) ;;
  setf f_prod_m2 (to_u16 (val .>> 48)).

(** * Multiplier *)

Definition GetMultiplyProduct (a b sign : Z) : DM Z :=
  u ← IsSRFlagSet SR_MUL_UNSIGNED; m ← IsSRFlagSet SR_MUL_MODIFY;
  mret (multiply_product u m a b sign).

Definition Multiply (a b sign : Z) : DM Z := GetMultiplyProduct a b sign.
Definition MultiplyAdd (a b sign : Z) : DM Z :=
  p ← GetLongProduct; m ← GetMultiplyProduct a b sign; mret (p + m).
Definition MultiplySub (a b sign : Z) : DM Z :=
  p ← GetLongProduct; m ← GetMultiplyProduct a b sign; mret (p - m).

Definition MultiplyMulX (axh0 axh1 val1 val2 : Z) : DM Z :=
  if (axh0 =? 0) && (axh1 =? 0) then Multiply val1 val2 1
  else if (axh0 =? 0) && (axh1 =? 1) then Multiply val1 val2 2
  else if (axh0 =? 1) && (axh1 =? 0) then Multiply val2 val1 2
  else Multiply val1 val2 0.

(** * Flags *)

Definition UpdateSR16 (value : Z) (carry overflow over_s32 : bool) : DM unit :=
  modf f_sr (UpdateSR16_sr value carry overflow over_s32).
Definition UpdateSR64 (value : Z) (carry overflow : bool) : DM unit :=
  modf f_sr (UpdateSR64_sr value carry overflow).
Definition UpdateSR64Add (val1 val2 result : Z) : DM unit :=
  UpdateSR64 result (isCarryAdd val1 result) (isOverflow val1 val2 result).
Definition UpdateSR64Sub (val1 val2 result : Z) : DM unit :=
  UpdateSR64 result (isCarrySubtract val1 result) (isOverflow val1 (- val2) result).
Definition UpdateSRLogicZero (value : bool) : DM unit :=
  if value then modf f_sr (fun sr => sr .| SR_LOGIC_ZERO)
  else modf f_sr (fun sr => sr .& to_u16 (Z.lnot SR_LOGIC_ZERO)).

(** * Register access *)

Definition stack_of_reg (reg : Z) : StackRegister :=
  match reg - DSP_REG_ST0 with 0 => Call | 1 => Data | 2 => LoopAddress | _ => LoopCounter end.

(** [case DSP_REG_ACM0], [case DSP_REG_ACM1] of [OpReadRegister]: reads saturate
    in 40-bit mode. *)
Definition ReadAccMidSaturated (reg : Z) : DM Z :=
  mode40 ← IsSRFlagSet SR_40_MODE_BIT;
  if (mode40 : bool) then
    acc ← GetLongAcc (reg - DSP_REG_ACM0);
    if negb (acc =? to_s32 acc) then mret (if 0 <? acc then 0x7fff else 0x8000)
    else geta 2 f_ac_m (reg - DSP_REG_ACM0)
  else geta 2 f_ac_m (reg - DSP_REG_ACM0).

Definition OpReadRegister (reg_ : Z) : DM Z :=
  let reg := reg_ .& 0x1f in
  if (DSP_REG_ST0 <=? reg) && (reg <? DSP_REG_ACH0) then PopStack (stack_of_reg reg)
  else if (DSP_REG_AR0 <=? reg) && (reg <? DSP_REG_IX0) then geta 4 f_ar (reg - DSP_REG_AR0)
  else if (DSP_REG_IX0 <=? reg) && (reg <? DSP_REG_WR0) then geta 4 f_ix (reg - DSP_REG_IX0)
  else if (DSP_REG_WR0 <=? reg) && (reg <? DSP_REG_ST0) then geta 4 f_wr (reg - DSP_REG_WR0)
  else if (DSP_REG_ACH0 <=? reg) && (reg <=? DSP_REG_ACH1) then
    h ← geta 2 f_ac_h (reg - DSP_REG_ACH0); mret (to_u16 h)
  else if reg =? DSP_REG_CR then getf f_cr
  else if reg =? DSP_REG_SR then getf f_sr
  else if reg =? DSP_REG_PRODL then getf f_prod_l
  else if reg =? DSP_REG_PRODM then getf f_prod_m
  else if reg =? DSP_REG_PRODH then getf f_prod_h
  else if reg =? DSP_REG_PRODM2 then getf f_prod_m2
  else if (DSP_REG_AXL0 <=? reg) && (reg <=? DSP_REG_AXL1) then geta 2 f_ax_l (reg - DSP_REG_AXL0)
  else if (DSP_REG_AXH0 <=? reg) && (reg <=? DSP_REG_AXH1) then geta 2 f_ax_h (reg - DSP_REG_AXH0)
  else if (DSP_REG_ACL0 <=? reg) && (reg <=? DSP_REG_ACL1) then geta 2 f_ac_l (reg - DSP_REG_ACL0)
  else if (DSP_REG_ACM0 <=? reg) && (reg <=? DSP_REG_ACM1) then ReadAccMidSaturated reg
  else mret 0.

Definition OpWriteRegister (reg_ val : Z) : DM unit :=
  let reg := reg_ .& 0x1f in
  if (DSP_REG_ACH0 <=? reg) && (reg <=? DSP_REG_ACH1) then
    seta 2 f_ac_h (reg - DSP_REG_ACH0) (to_u32 (to_s8 val))
  else if (DSP_REG_ST0 <=? reg) && (reg <? DSP_REG_ACH0) then StoreStack (stack_of_reg reg) val
  else if (DSP_REG_AR0 <=? reg) && (reg <? DSP_REG_IX0) then seta 4 f_ar (reg - DSP_REG_AR0) val
  else if (DSP_REG_IX0 <=? reg) && (reg <? DSP_REG_WR0) then seta 4 f_ix (reg - DSP_REG_IX0) val
  else if (DSP_REG_WR0 <=? reg) && (reg <? DSP_REG_ST0) then seta 4 f_wr (reg - DSP_REG_WR0) val
  else if reg =? DSP_REG_CR then setf f_cr (val .& 0x00ff)
  else if reg =? DSP_REG_SR then setf f_sr (val .& to_u16 (Z.lnot SR_100))
  else if reg =? DSP_REG_PRODL then setf f_prod_l val
  else if reg =? DSP_REG_PRODM then setf f_prod_m val
  else if reg =? DSP_REG_PRODH then setf f_prod_h (val .& 0x00ff)
  else if reg =? DSP_REG_PRODM2 then setf f_prod_m2 val
  else if (DSP_REG_AXL0 <=? reg) && (reg <=? DSP_REG_AXL1) then seta 2 f_ax_l (reg - DSP_REG_AXL0) val
  else if (DSP_REG_AXH0 <=? reg) && (reg <=? DSP_REG_AXH1) then seta 2 f_ax_h (reg - DSP_REG_AXH0) val
  else if (DSP_REG_ACL0 <=? reg) && (reg <=? DSP_REG_ACL1) then seta 2 f_ac_l (reg - DSP_REG_ACL0) val
  else if (DSP_REG_ACM0 <=? reg) && (reg <=? DSP_REG_ACM1) then seta 2 f_ac_m (reg - DSP_REG_ACM0) val
  else mret tt.

Definition ConditionalExtendAccum (reg : Z) : DM unit :=
  if negb (reg =? DSP_REG_ACM0) && negb (reg =? DSP_REG_ACM1) then mret tt else
  mode40 ← IsSRFlagSet SR_40_MODE_BIT;
  if negb mode40 then mret tt else
  val ← geta 2 f_ac_m (reg - DSP_REG_ACM0);
  seta 2 f_ac_h (reg - DSP_REG_ACM0)
    (if negb ((val .& 0x8000) =? 0) then 0xFFFFFFFF else 0x0000) ;;
  seta 2 f_ac_l (reg - DSP_REG_ACM0) 0.

(** * The write-back log of the extension opcodes *)

Definition WRITEBACK_LOG_SIZE : Z := 5.

Definition WriteToBackLog (i idx value : Z) : DM unit :=
  seta WRITEBACK_LOG_SIZE f_wbl i value ;;
  seta WRITEBACK_LOG_SIZE f_wbl_idx i idx.

(** [for (int i = 0; m_write_back_log_idx[i] != -1; i++)].  Reading past the log
    is an [ArrayOutOfBounds], so [WRITEBACK_LOG_SIZE + 1] iterations suffice. *)
Fixpoint ApplyWriteBackLog_loop (fuel : nat) (i : Z) : DM unit :=
  match fuel with
  | O => fail ArrayOutOfBounds
  | S fuel' =>
      idx ← geta WRITEBACK_LOG_SIZE f_wbl_idx i;
      if idx =? -1 then mret tt else
      value ← geta WRITEBACK_LOG_SIZE f_wbl i;
      OpWriteRegister idx value ;;
      seta WRITEBACK_LOG_SIZE f_wbl_idx i (-1) ;;
      ApplyWriteBackLog_loop fuel' (i + 1)
  end.

Definition ApplyWriteBackLog : DM unit := ApplyWriteBackLog_loop 6 0.

(** Both are empty unless [PRECISE_BACKLOG] is defined, which it is not. *)
Definition ZeroWriteBackLog : DM unit := mret tt.
Definition ZeroWriteBackLogPreserveAcc (acc : Z) : DM unit := mret tt.

(** * The control register *)

Definition WriteControlRegister (val : Z) : DM unit :=
  val ← (if negb ((val .& CR_RESET) =? 0) then
           CoreReset ;; mret (val .& to_u16 (Z.lnot CR_RESET))
         else mret val);
  c ← getf f_control_reg;
  val ← (if negb ((c .& CR_INIT) =? 0) && ((val .& CR_INIT) =? 0) then
           setf f_pc 0 ;;
           DMAToDSP f_iram 0 0x81000000 0x1000 ;;
           CodeLoaded 0x81000000 0x1000 ;;
           h ← getf f_host;
           setf f_control_reg_init_code_clear_time (to_u64 (GetFakeTimeBase h + 130)) ;;
           mret ((val .& to_u16 (Z.lnot CR_INIT)) .| CR_INIT_CODE)
         else mret val);
  setf f_control_reg val.

Definition ReadControlRegister : DM Z :=
  c ← getf f_control_reg;
  when (negb ((c .& CR_INIT_CODE) =? 0))
    (h ← getf f_host;
     t ← getf f_control_reg_init_code_clear_time;
     if t <=? GetFakeTimeBase h then
       modf f_control_reg (fun c => c .& to_u16 (Z.lnot CR_INIT_CODE))
     else modf f_host (ForceExceptionCheck 50)) ;;
  getf f_control_reg.
End Interpreter.

(** * Lemmas on values *)

Lemma or_flag_range b f sr : u16 f -> u16 sr -> u16 (or_flag b f sr).
Proof. intros. unfold or_flag. solve_uN. Qed.

Lemma UpdateSR16_sr_range v c o s sr : u16 sr -> u16 (UpdateSR16_sr v c o s sr).
Proof.
  intros. unfold UpdateSR16_sr. repeat (apply or_flag_range; [range_lia|]). solve_uN.
Qed.

Lemma UpdateSR64_sr_range v c o sr : u16 sr -> u16 (UpdateSR64_sr v c o sr).
Proof.
  intros. unfold UpdateSR64_sr. repeat (apply or_flag_range; [range_lia|]). solve_uN.
Qed.

(** The union's [val] as a sum. *)
Lemma ac_val_sum l m h : u16 l -> u16 m -> ac_val l m h = l + m * 2 ^ 16 + h * 2 ^ 32.
Proof.
  intros Hl Hm. unfold ac_val. rewrite (lor_shiftl_add l m 16 Hl ltac:(lia)).
  apply lor_shiftl_add; [|lia]. range_lia.
Qed.

(** The signed value of an accumulator is [h]'s sign-extended byte, [m] and [l]. *)
Lemma ac_val_s40 l m h :
  u16 l -> u16 m -> ach h ->
  to_s64 (ac_val l m h) = l + m * 2 ^ 16 + to_s32 h * 2 ^ 32 /\ s40 (to_s64 (ac_val l m h)).
Proof.
  intros Hl Hm [Hh Hs]. rewrite ac_val_sum by done.
  destruct (wraps_spec 32 h ltac:(lia)) as [k Hk].
  rewrite (wraps_unique 64 _ (l + m * 2 ^ 16 + to_s32 h * 2 ^ 32) k) by (unfold uN, sN in *; lia).
  split; [done|]. unfold uN, sN in *. lia.
Qed.

(** Splitting a 40-bit value into the union's members. *)
Lemma ac_split x : s40 x ->
  let val := to_u64 x in
  u16 (to_u16 val) /\ u16 (to_u16 (val .>> 16)) /\ ach (to_u32 (val .>> 32)) /\
  to_s64 (ac_val (to_u16 val) (to_u16 (val .>> 16)) (to_u32 (val .>> 32))) = x.
Proof.
  intros Hx val. assert (Hv : u64 val) by (unfold val; solve_uN).
  rewrite !Z.shiftr_div_pow2 by lia.
  assert (Hh : u32 (val / 2 ^ 32)) by (unfold uN in *; Z.div_mod_to_equations; lia).
  assert (Hach : ach (to_u32 (val / 2 ^ 32))).
  { rewrite (wrapu_small 32) by done. split; [done|].
    destruct (wrapu_spec 64 x ltac:(lia)) as [k Hk]. fold val in Hk.
    pose proof (Z.div_mod val (2 ^ 32) ltac:(lia)). pose proof (Z.mod_pos_bound val (2 ^ 32) ltac:(lia)).
    rewrite (wraps_unique 32 _ (val / 2 ^ 32 + k * 2 ^ 32) (- k)); unfold uN, sN in *; lia. }
  repeat split; try apply Hach; try (apply wrapu_range; lia).
  rewrite ac_val_sum by (apply wrapu_range; lia).
  replace (to_u16 val + _ + _) with val.
  - unfold val. rewrite wraps_wrapu by lia. apply wraps_small; [lia|]. unfold sN in *; lia.
  - rewrite (wrapu_small 32) by done. unfold wrapu. Z.div_mod_to_equations. lia.
Qed.

Lemma long_product_sum l m h m2 :
  u16 l -> u16 m -> u16 m2 ->
  long_product l m h m2 = to_s8 h * 2 ^ 32 + (m + m2) * 2 ^ 16 + l.
Proof.
  intros Hl Hm Hm2. unfold long_product. rewrite wraps_wrapu by lia.
  rewrite Z.lor_comm, lor_shiftl_add, Z.shiftl_mul_pow2 by (done || lia). lia.
Qed.

Lemma long_product_range l m h m2 :
  u16 l -> u16 m -> u16 m2 -> sN 41 (long_product l m h m2).
Proof. intros. rewrite long_product_sum by done. range_lia. Qed.

(** * Typing *)

Section Typing.
Context {H : Type} {hst : DSPHost H}.
Abbreviation W := (wf (H := H)).

Lemma typed_CheckCondition c : typed W any (CheckCondition c).
Proof. unfold CheckCondition. tauto_typed. Qed.

Lemma typed_IncrementAddressRegister reg :
  0 <= reg < 4 -> typed W u16 (IncrementAddressRegister reg).
Proof. intros. unfold IncrementAddressRegister, increment_ar. tauto_typed. Qed.
Lemma typed_DecrementAddressRegister reg :
  0 <= reg < 4 -> typed W u16 (DecrementAddressRegister reg).
Proof. intros. unfold DecrementAddressRegister, decrement_ar. tauto_typed. Qed.
Lemma typed_IncreaseAddressRegister reg ix_ :
  0 <= reg < 4 -> typed W u16 (IncreaseAddressRegister reg ix_).
Proof. intros. unfold IncreaseAddressRegister, increase_ar. tauto_typed. Qed.
Lemma typed_DecreaseAddressRegister reg ix_ :
  0 <= reg < 4 -> typed W u16 (DecreaseAddressRegister reg ix_).
Proof. intros. unfold DecreaseAddressRegister, decrease_ar. tauto_typed. Qed.

Lemma typed_GetLongACX reg : 0 <= reg < 2 -> typed W s32 (GetLongACX reg).
Proof. intros. unfold GetLongACX. tauto_typed. Qed.
Lemma typed_GetAXLow reg : 0 <= reg < 2 -> typed W s16 (GetAXLow reg).
Proof. intros. unfold GetAXLow. tauto_typed. Qed.
Lemma typed_GetAXHigh reg : 0 <= reg < 2 -> typed W s16 (GetAXHigh reg).
Proof. intros. unfold GetAXHigh. tauto_typed. Qed.

Lemma typed_GetLongAcc reg : 0 <= reg < 2 -> typed W s40 (GetLongAcc reg).
Proof. intros. unfold GetLongAcc. tauto_typed. by apply ac_val_s40. Qed.

Lemma typed_SetLongAcc reg v : 0 <= reg < 2 -> typed W any (SetLongAcc reg v).
Proof.
  intros Hr. unfold SetLongAcc. rewrite shl_shr_sext by lia.
  destruct (ac_split (wraps 40 v)) as (? & ? & ? & _); [apply wraps_range; lia|].
  cbv zeta in *. change (64 - (64 - 40)) with 40. tauto_typed.
Qed.

Lemma typed_GetAccMid reg : 0 <= reg < 2 -> typed W s16 (GetAccMid reg).
Proof. intros. unfold GetAccMid. tauto_typed. Qed.

Lemma typed_GetLongProduct : typed W (sN 41) GetLongProduct.
Proof. unfold GetLongProduct. tauto_typed. by apply long_product_range. Qed.
#[local] Hint Resolve typed_GetLongProduct : typed.

Lemma typed_GetLongProductRounded : typed W any GetLongProductRounded.
Proof. unfold GetLongProductRounded. tauto_typed. Qed.

Lemma typed_SetLongProduct v : typed W any (SetLongProduct v).
Proof. unfold SetLongProduct. tauto_typed. Qed.

Lemma typed_GetMultiplyProduct a b sg : typed W any (GetMultiplyProduct a b sg).
Proof. unfold GetMultiplyProduct. tauto_typed. Qed.
#[local] Hint Resolve typed_GetMultiplyProduct : typed.

Lemma typed_Multiply a b sg : typed W any (Multiply a b sg).
Proof. unfold Multiply. tauto_typed. Qed.
Lemma typed_MultiplyAdd a b sg : typed W any (MultiplyAdd a b sg).
Proof. unfold MultiplyAdd. tauto_typed. Qed.
Lemma typed_MultiplySub a b sg : typed W any (MultiplySub a b sg).
Proof. unfold MultiplySub. tauto_typed. Qed.
#[local] Hint Resolve typed_Multiply : typed.
Lemma typed_MultiplyMulX x y a b : typed W any (MultiplyMulX x y a b).
Proof. unfold MultiplyMulX. tauto_typed. Qed.

Lemma typed_UpdateSR16 v c o b : typed W any (UpdateSR16 v c o b).
Proof. unfold UpdateSR16. tauto_typed. by apply UpdateSR16_sr_range. Qed.
Lemma typed_UpdateSR64 v c o : typed W any (UpdateSR64 v c o).
Proof. unfold UpdateSR64. tauto_typed. by apply UpdateSR64_sr_range. Qed.
Lemma typed_UpdateSR64Add a b c : typed W any (UpdateSR64Add a b c).
Proof. apply typed_UpdateSR64. Qed.
Lemma typed_UpdateSR64Sub a b c : typed W any (UpdateSR64Sub a b c).
Proof. apply typed_UpdateSR64. Qed.
Lemma typed_UpdateSRLogicZero b : typed W any (UpdateSRLogicZero b).
Proof. unfold UpdateSRLogicZero. tauto_typed. Qed.
#[local] Hint Resolve typed_GetLongAcc : typed.

Lemma typed_OpReadRegister reg : typed W u16 (OpReadRegister reg).
Proof. unfold OpReadRegister, ReadAccMidSaturated. tauto_typed. Qed.

Lemma ach_of_s8 v : ach (to_u32 (to_s8 v)).
Proof.
  split; [solve_uN|]. rewrite wraps_wrapu by lia. rewrite (wraps_small 32); [solve_sN | lia | range_lia].
Qed.
#[local] Hint Resolve ach_of_s8 : typed.

Lemma typed_OpWriteRegister reg v : u16 v -> typed W any (OpWriteRegister reg v).
Proof. intros. unfold OpWriteRegister. tauto_typed. Qed.
#[local] Hint Resolve typed_OpWriteRegister : typed.

Lemma ach_extend (b : bool) : ach (if b then 0xFFFFFFFF else 0).
Proof. destruct b; split; range_lia || done. Qed.
#[local] Hint Resolve ach_extend : typed.

Lemma typed_ConditionalExtendAccum reg : typed W any (ConditionalExtendAccum reg).
Proof. unfold ConditionalExtendAccum. tauto_typed. Qed.
#[local] Hint Resolve typed_ConditionalExtendAccum : typed.

(** The last slot of the log is never written by an instruction, so it stays the
    terminator of [ApplyWriteBackLog]'s loop. *)
Lemma backlog_terminated_aupd a i v :
  backlog_terminated a -> 0 <= i < 5 -> backlog_idx v -> (i = 4 -> v = -1) ->
  backlog_terminated (aupd a i v).
Proof.
  intros [Ha H4] Hi Hv Hl. split; [by apply arr_ok_aupd|].
  rewrite aat_aupd. destruct (Z.eqb_spec i 4); auto.
Qed.

Lemma typed_seta_wbl_idx i v :
  0 <= i < 5 -> backlog_idx v -> (i = 4 -> v = -1) ->
  typed W any (seta WRITEBACK_LOG_SIZE f_wbl_idx i v).
Proof.
  intros Hi Hv Hl s Hs. unfold seta, WRITEBACK_LOG_SIZE. rewrite inb_true by done. split; [|done].
  apply (ft_set (F := f_wbl_idx)); [done|]. apply backlog_terminated_aupd; try done.
  by apply (ft_get (F := f_wbl_idx)).
Qed.

Lemma typed_WriteToBackLog i idx v :
  0 <= i < 4 -> 0 <= idx < 32 -> u16 v -> typed W any (WriteToBackLog i idx v).
Proof.
  intros. unfold WriteToBackLog. tstep.
  - apply (typed_seta _ _ f_wbl u16); unfold WRITEBACK_LOG_SIZE; lia || done.
  - apply typed_seta_wbl_idx; [lia | unfold backlog_idx; lia | lia].
Qed.

Lemma typed_ApplyWriteBackLog_loop n i :
  0 <= i -> i + Z.of_nat n = 6 -> i < 5 -> typed W any (ApplyWriteBackLog_loop n i).
Proof.
  revert i. induction n as [|n IH]; intros i Hi Hn Hi5; [lia|]. cbn [ApplyWriteBackLog_loop].
  apply (typed_bind _ (fun v => i = 4 -> v = -1)).
  { intros s Hs. unfold geta, WRITEBACK_LOG_SIZE. rewrite inb_true by lia.
    split; [done | intros ->; apply Hs]. }
  intros idx Hidx. tstep; [by apply typed_ret|]. assert (i <> 4) by lia.
  eapply typed_bind; [apply (typed_geta _ _ f_wbl u16); unfold WRITEBACK_LOG_SIZE; lia|].
  intros v Hv. tstep; [by apply typed_OpWriteRegister|].
  tstep; [apply typed_seta_wbl_idx; unfold backlog_idx; lia|]. apply IH; lia.
Qed.

Lemma typed_ApplyWriteBackLog : typed W any ApplyWriteBackLog.
Proof. apply typed_ApplyWriteBackLog_loop; lia. Qed.

Lemma typed_ZeroWriteBackLog : typed W any ZeroWriteBackLog.
Proof. by apply typed_ret. Qed.
Lemma typed_ZeroWriteBackLogPreserveAcc a : typed W any (ZeroWriteBackLogPreserveAcc a).
Proof. by apply typed_ret. Qed.

Lemma typed_WriteControlRegister v : u16 v -> typed W any (WriteControlRegister v).
Proof.
  intros. unfold WriteControlRegister. tstep.
  - apply (typed_if _ u16); intros; tauto_typed.
  - tstep; [tauto_typed|]. tstep; [apply (typed_if _ u16); intros; tauto_typed|]. tauto_typed.
Qed.

Lemma typed_ReadControlRegister : typed W u16 ReadControlRegister.
Proof. unfold ReadControlRegister. tauto_typed. Qed.
End Typing.

#[export] Hint Resolve typed_CheckCondition typed_IncrementAddressRegister
  typed_DecrementAddressRegister typed_IncreaseAddressRegister typed_DecreaseAddressRegister
  typed_GetLongACX typed_GetAXLow typed_GetAXHigh typed_GetLongAcc typed_SetLongAcc
  typed_GetAccMid typed_GetLongProduct typed_GetLongProductRounded typed_SetLongProduct
  typed_GetMultiplyProduct typed_Multiply typed_MultiplyAdd typed_MultiplySub typed_MultiplyMulX
  typed_UpdateSR16 typed_UpdateSR64 typed_UpdateSR64Add typed_UpdateSR64Sub
  typed_UpdateSRLogicZero typed_OpReadRegister typed_OpWriteRegister
  typed_ConditionalExtendAccum typed_WriteToBackLog typed_ApplyWriteBackLog
  typed_ZeroWriteBackLog typed_ZeroWriteBackLogPreserveAcc
  typed_WriteControlRegister typed_ReadControlRegister : typed.
