(* ===== verification/DSPArithmetic.v ===== *)
(** The arithmetic, logic, move and shift instructions of the DSP
    ([Core/DSP/Interpreter/DSPIntArithmetic.cpp]), one definition per
    instruction, as a function of its opcode. *)
From stdpp Require Import base tactics option list gmap strings.
From Stdlib Require Import ZArith Lia Bool.
From S2P Require Import Prelude Accelerator DSPState DSPTables DSPHardware DSPInterpreter.

#[local] Open Scope Z_scope.

Section Arithmetic.
Context {H : Type} {hst : DSPHost H}.
Abbreviation DM := (M (State H)).
Implicit Type opc : Z.

(** * Clear and test *)

Definition clr opc : DM unit :=
  let reg := (opc .>> 11) .& 0x1 in
  SetLongAcc reg 0 ;;
  UpdateSR64 0 false false ;;
  ZeroWriteBackLog.

Definition clrl opc : DM unit :=
  let reg := (opc .>> 8) .& 0x1 in
  a ← GetLongAcc reg;
  let acc := dsp_round_long_acc a in
  ZeroWriteBackLog ;;
  SetLongAcc reg acc ;;
  UpdateSR64 acc false false.

Definition andcf opc : DM unit :=
  let reg := (opc .>> 8) .& 0x1 in
  imm ← FetchInstruction;
  m ← GetAccMid reg;
  let val := to_u16 m in
  UpdateSRLogicZero ((val .& imm) =? imm).

Definition andf opc : DM unit :=
  let reg := (opc .>> 8) .& 0x1 in
  imm ← FetchInstruction;
  m ← GetAccMid reg;
  let val := to_u16 m in
  UpdateSRLogicZero ((val .& imm) =? 0).

Definition tst opc : DM unit :=
  let reg := (opc .>> 11) .& 0x1 in
  acc ← GetLongAcc reg;
  UpdateSR64 acc false false ;;
  ZeroWriteBackLog.

Definition tstaxh opc : DM unit :=
  let reg := (opc .>> 8) .& 0x1 in
  val ← GetAXHigh reg;
  UpdateSR16 val false false false ;;
  ZeroWriteBackLog.

(** * Compare *)

Definition cmp opc : DM unit :=
  acc0 ← GetLongAcc 0;
  acc1 ← GetLongAcc 1;
  let res := dsp_convert_long_acc (acc0 - acc1) in
  UpdateSR64Sub acc0 acc1 res ;;
  ZeroWriteBackLog.

Definition cmpaxh opc : DM unit :=
  let rreg := (opc .>> 12) .& 0x1 in
  let sreg := (opc .>> 11) .& 0x1 in
  acc ← GetLongAcc sreg;
  ax ← GetAXHigh rreg;
  let ax := ax .<< 16 in
  let res := dsp_convert_long_acc (acc - ax) in
  UpdateSR64Sub acc ax res ;;
  ZeroWriteBackLog.

Definition cmpi opc : DM unit :=
  let reg := (opc .>> 8) .& 0x1 in
  val ← GetLongAcc reg;
  i ← FetchInstruction;
  let imm := to_s16 i .<< 16 in
  let res := dsp_convert_long_acc (val - imm) in
  UpdateSR64Sub val imm res.

Definition cmpis opc : DM unit :=
  let areg := (opc .>> 8) .& 0x1 in
  acc ← GetLongAcc areg;
  let imm := to_s8 opc .<< 16 in
  let res := dsp_convert_long_acc (acc - imm) in
  UpdateSR64Sub acc imm res.

(** * Logic

    [state.r.ac[dreg].m = accm] and the flags of the register operations. *)

Definition SetAccMidFlags (dreg accm : Z) : DM unit :=
  ZeroWriteBackLogPreserveAcc dreg ;;
  seta 2 f_ac_m dreg accm ;;
  acc ← GetLongAcc dreg;
  UpdateSR16 (to_s16 accm) false false (isOverS32 acc).

Definition xorr opc : DM unit :=
  let dreg := (opc .>> 8) .& 0x1 in
  let sreg := (opc .>> 9) .& 0x1 in
  m ← geta 2 f_ac_m dreg; h ← geta 2 f_ax_h sreg;
  SetAccMidFlags dreg (m .^ h).

Definition andr opc : DM unit :=
  let dreg := (opc .>> 8) .& 0x1 in
  let sreg := (opc .>> 9) .& 0x1 in
  m ← geta 2 f_ac_m dreg; h ← geta 2 f_ax_h sreg;
  SetAccMidFlags dreg (m .& h).

Definition orr opc : DM unit :=
  let dreg := (opc .>> 8) .& 0x1 in
  let sreg := (opc .>> 9) .& 0x1 in
  m ← geta 2 f_ac_m dreg; h ← geta 2 f_ax_h sreg;
  SetAccMidFlags dreg (m .| h).

Definition andc opc : DM unit :=
  let dreg := (opc .>> 8) .& 0x1 in
  m ← geta 2 f_ac_m dreg; o ← geta 2 f_ac_m (1 - dreg);
  SetAccMidFlags dreg (m .& o).

Definition orc opc : DM unit :=
  let dreg := (opc .>> 8) .& 0x1 in
  m ← geta 2 f_ac_m dreg; o ← geta 2 f_ac_m (1 - dreg);
  SetAccMidFlags dreg (m .| o).

Definition xorc opc : DM unit :=
  let dreg := (opc .>> 8) .& 0x1 in
  m ← geta 2 f_ac_m dreg; o ← geta 2 f_ac_m (1 - dreg);
  SetAccMidFlags dreg (m .^ o).

Definition notc opc : DM unit :=
  let dreg := (opc .>> 8) .& 0x1 in
  m ← geta 2 f_ac_m dreg;
  SetAccMidFlags dreg (m .^ 0xffff).

(** The immediate forms, [state.r.ac[reg].m op= imm], have no extension. *)

Definition ImmediateLogic (op : Z -> Z -> Z) opc : DM unit :=
  let reg := (opc .>> 8) .& 0x1 in
  imm ← FetchInstruction;
  m ← geta 2 f_ac_m reg;
  seta 2 f_ac_m reg (op m imm) ;;
  m ← geta 2 f_ac_m reg;
  acc ← GetLongAcc reg;
  UpdateSR16 (to_s16 m) false false (isOverS32 acc).

Definition xori opc : DM unit := ImmediateLogic Z.lxor opc.
Definition andi opc : DM unit := ImmediateLogic Z.land opc.
Definition ori opc : DM unit := ImmediateLogic Z.lor opc.

(** * Add *)

(** The operand [$axS.R] of [addr], [subr] and [movr]: the [switch (sreg)]. *)
Definition AxPart (sreg : Z) : DM Z :=
  if (sreg =? DSP_REG_AXL0) || (sreg =? DSP_REG_AXL1) then
    l ← geta 2 f_ax_l (sreg - DSP_REG_AXL0); mret (to_s16 l)
  else if (sreg =? DSP_REG_AXH0) || (sreg =? DSP_REG_AXH1) then
    h ← geta 2 f_ax_h (sreg - DSP_REG_AXH0); mret (to_s16 h)
  else mret 0.

Definition addr opc : DM unit :=
  let dreg := (opc .>> 8) .& 0x1 in
  let sreg := ((opc .>> 9) .& 0x3) + DSP_REG_AXL0 in
  acc ← GetLongAcc dreg;
  ax ← AxPart sreg;
  let ax := ax .<< 16 in
  let res := acc + ax in
  ZeroWriteBackLog ;;
  SetLongAcc dreg res ;;
  new ← GetLongAcc dreg;
  UpdateSR64Add acc ax new.

Definition addax opc : DM unit :=
  let dreg := (opc .>> 8) .& 0x1 in
  let sreg := (opc .>> 9) .& 0x1 in
  acc ← GetLongAcc dreg;
  ax ← GetLongACX sreg;
  let res := acc + ax in
  ZeroWriteBackLog ;;
  SetLongAcc dreg res ;;
  new ← GetLongAcc dreg;
  UpdateSR64Add acc ax new.

Definition add opc : DM unit :=
  let dreg := (opc .>> 8) .& 0x1 in
  acc0 ← GetLongAcc dreg;
  acc1 ← GetLongAcc (1 - dreg);
  let res := acc0 + acc1 in
  ZeroWriteBackLog ;;
  SetLongAcc dreg res ;;
  new ← GetLongAcc dreg;
  UpdateSR64Add acc0 acc1 new.

Definition addp opc : DM unit :=
  let dreg := (opc .>> 8) .& 0x1 in
  acc ← GetLongAcc dreg;
  prod ← GetLongProduct;
  let res := acc + prod in
  ZeroWriteBackLog ;;
  SetLongAcc dreg res ;;
  new ← GetLongAcc dreg;
  UpdateSR64Add acc prod new.

Definition addaxl opc : DM unit :=
  let sreg := (opc .>> 9) .& 0x1 in
  let dreg := (opc .>> 8) .& 0x1 in
  a ← GetLongAcc dreg;
  let acc := to_u64 a in
  x ← GetAXLow sreg;
  let acx := to_u16 x in
  let res := to_u64 (acc + acx) in
  ZeroWriteBackLog ;;
  SetLongAcc dreg (to_s64 res) ;;
  new ← GetLongAcc dreg;
  UpdateSR64Add (to_s64 acc) acx new.

Definition addi opc : DM unit :=
  let areg := (opc .>> 8) .& 0x1 in
  acc ← GetLongAcc areg;
  i ← FetchInstruction;
  let imm := to_s16 i .<< 16 in
  let res := acc + imm in
  SetLongAcc areg res ;;
  new ← GetLongAcc areg;
  UpdateSR64Add acc imm new.

Definition addis opc : DM unit :=
  let dreg := (opc .>> 8) .& 0x1 in
  acc ← GetLongAcc dreg;
  let imm := to_s8 opc .<< 16 in
  let res := acc + imm in
  SetLongAcc dreg res ;;
  new ← GetLongAcc dreg;
  UpdateSR64Add acc imm new.

Definition incm opc : DM unit :=
  let dreg := (opc .>> 8) .& 0x1 in
  let sub := 0x10000 in
  acc ← GetLongAcc dreg;
  let res := acc + sub in
  ZeroWriteBackLog ;;
  SetLongAcc dreg res ;;
  new ← GetLongAcc dreg;
  UpdateSR64Add acc sub new.

Definition inc opc : DM unit :=
  let dreg := (opc .>> 8) .& 0x1 in
  acc ← GetLongAcc dreg;
  let res := acc + 1 in
  ZeroWriteBackLog ;;
  SetLongAcc dreg res ;;
  new ← GetLongAcc dreg;
  UpdateSR64Add acc 1 new.

(** * Subtract *)

Definition subr opc : DM unit :=
  let dreg := (opc .>> 8) .& 0x1 in
  let sreg := ((opc .>> 9) .& 0x3) + DSP_REG_AXL0 in
  acc ← GetLongAcc dreg;
  ax ← AxPart sreg;
  let ax := ax .<< 16 in
  let res := acc - ax in
  ZeroWriteBackLog ;;
  SetLongAcc dreg res ;;
  new ← GetLongAcc dreg;
  UpdateSR64Sub acc ax new.

Definition subax opc : DM unit :=
  let dreg := (opc .>> 8) .& 0x1 in
  let sreg := (opc .>> 9) .& 0x1 in
  acc ← GetLongAcc dreg;
  acx ← GetLongACX sreg;
  let res := acc - acx in
  ZeroWriteBackLog ;;
  SetLongAcc dreg res ;;
  new ← GetLongAcc dreg;
  UpdateSR64Sub acc acx new.

Definition sub opc : DM unit :=
  let dreg := (opc .>> 8) .& 0x1 in
  acc1 ← GetLongAcc dreg;
  acc2 ← GetLongAcc (1 - dreg);
  let res := acc1 - acc2 in
  ZeroWriteBackLog ;;
  SetLongAcc dreg res ;;
  new ← GetLongAcc dreg;
  UpdateSR64Sub acc1 acc2 new.

Definition subp opc : DM unit :=
  let dreg := (opc .>> 8) .& 0x1 in
  acc ← GetLongAcc dreg;
  prod ← GetLongProduct;
  let res := acc - prod in
  ZeroWriteBackLog ;;
  SetLongAcc dreg res ;;
  new ← GetLongAcc dreg;
  UpdateSR64Sub acc prod new.

Definition decm opc : DM unit :=
  let dreg := (opc .>> 8) .& 0x01 in
  let sub := 0x10000 in
  acc ← GetLongAcc dreg;
  let res := acc - sub in
  ZeroWriteBackLog ;;
  SetLongAcc dreg res ;;
  new ← GetLongAcc dreg;
  UpdateSR64Sub acc sub new.

Definition dec opc : DM unit :=
  let dreg := (opc .>> 8) .& 0x01 in
  acc ← GetLongAcc dreg;
  let res := acc - 1 in
  ZeroWriteBackLog ;;
  SetLongAcc dreg res ;;
  new ← GetLongAcc dreg;
  UpdateSR64Sub acc 1 new.

Definition neg opc : DM unit :=
  let dreg := (opc .>> 8) .& 0x1 in
  acc ← GetLongAcc dreg;
  let res := 0 - acc in
  ZeroWriteBackLog ;;
  SetLongAcc dreg res ;;
  new ← GetLongAcc dreg;
  UpdateSR64Sub 0 acc new.

Definition abs opc : DM unit :=
  let dreg := (opc .>> 11) .& 0x1 in
  acc ← GetLongAcc dreg;
  let acc := if acc <? 0 then 0 - acc else acc in
  ZeroWriteBackLog ;;
  SetLongAcc dreg acc ;;
  new ← GetLongAcc dreg;
  UpdateSR64 new false false.

(** * Move *)

Definition movr opc : DM unit :=
  let areg := (opc .>> 8) .& 0x1 in
  let sreg := ((opc .>> 9) .& 0x3) + DSP_REG_AXL0 in
  ax ← AxPart sreg;
  let ax := ax .<< 16 in
  ZeroWriteBackLog ;;
  SetLongAcc areg ax ;;
  UpdateSR64 ax false false.

Definition movax opc : DM unit :=
  let dreg := (opc .>> 8) .& 0x1 in
  let sreg := (opc .>> 9) .& 0x1 in
  acx ← GetLongACX sreg;
  ZeroWriteBackLog ;;
  SetLongAcc dreg acx ;;
  UpdateSR64 acx false false.

Definition mov opc : DM unit :=
  let dreg := (opc .>> 8) .& 0x1 in
  a ← GetLongAcc (1 - dreg);
  let acc := to_u64 a in
  ZeroWriteBackLog ;;
  SetLongAcc dreg (to_s64 acc) ;;
  UpdateSR64 (to_s64 acc) false false.

(** * Shift *)

(** The end of every shift: [SetLongAcc(reg, acc); UpdateSR64(GetLongAcc(reg));]. *)
Definition SetShifted (reg acc : Z) : DM unit :=
  SetLongAcc reg acc ;;
  new ← GetLongAcc reg;
  UpdateSR64 new false false.

(** The extraneous sign extension lopped off: the accumulator as a 40-bit [u64]. *)
Definition lop_off (acc : Z) : Z := to_u64 acc .& 0x000000FFFFFFFFFF.

Definition lsl16 opc : DM unit :=
  let areg := (opc .>> 8) .& 0x1 in
  acc ← GetLongAcc areg;
  let acc := to_s64 (acc .<< 16) in
  ZeroWriteBackLog ;;
  SetShifted areg acc.

Definition lsr16 opc : DM unit :=
  let areg := (opc .>> 8) .& 0x1 in
  acc ← GetLongAcc areg;
  let acc := lop_off acc .>> 16 in
  ZeroWriteBackLog ;;
  SetShifted areg (to_s64 acc).

Definition asr16 opc : DM unit :=
  let areg := (opc .>> 11) .& 0x1 in
  acc ← GetLongAcc areg;
  let acc := acc .>> 16 in
  ZeroWriteBackLog ;;
  SetShifted areg acc.

Definition lsl opc : DM unit :=
  let rreg := (opc .>> 8) .& 0x01 in
  let shift := opc .& 0x3f in
  acc ← GetLongAcc rreg;
  let acc := to_u64 (to_u64 acc .<< shift) in
  SetShifted rreg (to_s64 acc).

(** The shift of [lsr] and [asr]: the opcode's six bits, negated. *)
Definition right_shift opc : Z :=
  if (opc .& 0x3f) =? 0 then 0 else 0x40 - (opc .& 0x3f).

Definition lsr opc : DM unit :=
  let rreg := (opc .>> 8) .& 0x01 in
  acc ← GetLongAcc rreg;
  let acc := lop_off acc .>> right_shift opc in
  SetShifted rreg (to_s64 acc).

Definition asl opc : DM unit :=
  let rreg := (opc .>> 8) .& 0x01 in
  let shift := opc .& 0x3f in
  acc ← GetLongAcc rreg;
  let acc := to_u64 (to_u64 acc .<< shift) in
  SetShifted rreg (to_s64 acc).

Definition asr opc : DM unit :=
  let dreg := (opc .>> 8) .& 0x01 in
  acc ← GetLongAcc dreg;
  let acc := acc .>> right_shift opc in
  SetShifted dreg acc.

(** The signed 7-bit shift held in a register. *)
Definition register_shift (val : Z) : Z :=
  if (val .& 0x3f) =? 0 then 0
  else if negb ((val .& 0x40) =? 0) then -0x40 + (val .& 0x3f)
  else val .& 0x3f.

(** [acc >>= shift] for a positive shift, [acc <<= -shift] for a negative one, on
    [u64] and on [s64]; [shift_left_u64] and [shift_left_s64] the other way round. *)
Definition shift_right_u64 (acc shift : Z) : Z :=
  if 0 <? shift then acc .>> shift
  else if shift <? 0 then to_u64 (acc .<< - shift) else acc.
Definition shift_right_s64 (acc shift : Z) : Z :=
  if 0 <? shift then acc .>> shift
  else if shift <? 0 then to_s64 (acc .<< - shift) else acc.
Definition shift_left_u64 (acc shift : Z) : Z :=
  if 0 <? shift then to_u64 (acc .<< shift)
  else if shift <? 0 then acc .>> - shift else acc.
Definition shift_left_s64 (acc shift : Z) : Z :=
  if 0 <? shift then to_s64 (acc .<< shift)
  else if shift <? 0 then acc .>> - shift else acc.

Definition lsrn opc : DM unit :=
  m ← GetAccMid 1;
  let accm := to_u16 m in
  acc ← GetLongAcc 0;
  let acc := shift_right_u64 (lop_off acc) (register_shift accm) in
  SetShifted 0 (to_s64 acc).

Definition asrn opc : DM unit :=
  m ← GetAccMid 1;
  let accm := to_u16 m in
  acc ← GetLongAcc 0;
  let acc := shift_right_s64 acc (register_shift accm) in
  SetShifted 0 acc.

Definition lsrnrx opc : DM unit :=
  let dreg := (opc .>> 8) .& 0x1 in
  let sreg := (opc .>> 9) .& 0x1 in
  axh ← geta 2 f_ax_h sreg;
  acc ← GetLongAcc dreg;
  let acc := shift_left_u64 (lop_off acc) (register_shift axh) in
  ZeroWriteBackLog ;;
  SetShifted dreg (to_s64 acc).

Definition asrnrx opc : DM unit :=
  let dreg := (opc .>> 8) .& 0x1 in
  let sreg := (opc .>> 9) .& 0x1 in
  axh ← geta 2 f_ax_h sreg;
  acc ← GetLongAcc dreg;
  let acc := shift_left_s64 acc (register_shift axh) in
  ZeroWriteBackLog ;;
  SetShifted dreg acc.

Definition lsrnr opc : DM unit :=
  let dreg := (opc .>> 8) .& 0x1 in
  m ← GetAccMid (1 - dreg);
  let accm := to_u16 m in
  acc ← GetLongAcc dreg;
  let acc := shift_left_u64 (lop_off acc) (register_shift accm) in
  ZeroWriteBackLog ;;
  SetShifted dreg (to_s64 acc).

Definition asrnr opc : DM unit :=
  let dreg := (opc .>> 8) .& 0x1 in
  m ← GetAccMid (1 - dreg);
  let accm := to_u16 m in
  acc ← GetLongAcc dreg;
  let acc := shift_left_s64 acc (register_shift accm) in
  ZeroWriteBackLog ;;
  SetShifted dreg acc.

(** * Typing *)

Abbreviation W := (wf (H := H)).

Lemma typed_SetAccMidFlags dreg accm :
  0 <= dreg < 2 -> u16 accm -> typed W any (SetAccMidFlags dreg accm).
Proof. intros. unfold SetAccMidFlags. tauto_typed. Qed.

Lemma typed_ImmediateLogic op opc :
  (forall a b, u16 a -> u16 b -> u16 (op a b)) -> typed W any (ImmediateLogic op opc).
Proof. intros Hop. unfold ImmediateLogic. tauto_typed. Qed.

Lemma typed_AxPart sreg : typed W s16 (AxPart sreg).
Proof. unfold AxPart. tauto_typed. Qed.

Lemma typed_SetShifted reg acc : 0 <= reg < 2 -> typed W any (SetShifted reg acc).
Proof. intros. unfold SetShifted. tauto_typed. Qed.
#[local] Hint Resolve typed_SetAccMidFlags typed_AxPart typed_SetShifted : typed.

Lemma typed_clr opc : typed W any (clr opc).
Proof. unfold clr. tauto_typed. Qed.
Lemma typed_clrl opc : typed W any (clrl opc).
Proof. unfold clrl. tauto_typed. Qed.
Lemma typed_andcf opc : typed W any (andcf opc).
Proof. unfold andcf. tauto_typed. Qed.
Lemma typed_andf opc : typed W any (andf opc).
Proof. unfold andf. tauto_typed. Qed.
Lemma typed_tst opc : typed W any (tst opc).
Proof. unfold tst. tauto_typed. Qed.
Lemma typed_tstaxh opc : typed W any (tstaxh opc).
Proof. unfold tstaxh. tauto_typed. Qed.
Lemma typed_cmp opc : typed W any (cmp opc).
Proof. unfold cmp. tauto_typed. Qed.
Lemma typed_cmpaxh opc : typed W any (cmpaxh opc).
Proof. unfold cmpaxh. tauto_typed. Qed.
Lemma typed_cmpi opc : typed W any (cmpi opc).
Proof. unfold cmpi. tauto_typed. Qed.
Lemma typed_cmpis opc : typed W any (cmpis opc).
Proof. unfold cmpis. tauto_typed. Qed.
Lemma typed_xorr opc : typed W any (xorr opc).
Proof. unfold xorr. tauto_typed. Qed.
Lemma typed_andr opc : typed W any (andr opc).
Proof. unfold andr. tauto_typed. Qed.
Lemma typed_orr opc : typed W any (orr opc).
Proof. unfold orr. tauto_typed. Qed.
Lemma typed_andc opc : typed W any (andc opc).
Proof. unfold andc. tauto_typed. Qed.
Lemma typed_orc opc : typed W any (orc opc).
Proof. unfold orc. tauto_typed. Qed.
Lemma typed_xorc opc : typed W any (xorc opc).
Proof. unfold xorc. tauto_typed. Qed.
Lemma typed_notc opc : typed W any (notc opc).
Proof. unfold notc. tauto_typed. Qed.
Lemma typed_xori opc : typed W any (xori opc).
Proof. apply typed_ImmediateLogic. intros. solve_uN. Qed.
Lemma typed_andi opc : typed W any (andi opc).
Proof. apply typed_ImmediateLogic. intros. solve_uN. Qed.
Lemma typed_ori opc : typed W any (ori opc).
Proof. apply typed_ImmediateLogic. intros. solve_uN. Qed.
Lemma typed_addr opc : typed W any (addr opc).
Proof. unfold addr. tauto_typed. Qed.
Lemma typed_addax opc : typed W any (addax opc).
Proof. unfold addax. tauto_typed. Qed.
Lemma typed_add opc : typed W any (add opc).
Proof. unfold add. tauto_typed. Qed.
Lemma typed_addp opc : typed W any (addp opc).
Proof. unfold addp. tauto_typed. Qed.
Lemma typed_addaxl opc : typed W any (addaxl opc).
Proof. unfold addaxl. tauto_typed. Qed.
Lemma typed_addi opc : typed W any (addi opc).
Proof. unfold addi. tauto_typed. Qed.
Lemma typed_addis opc : typed W any (addis opc).
Proof. unfold addis. tauto_typed. Qed.
Lemma typed_incm opc : typed W any (incm opc).
Proof. unfold incm. tauto_typed. Qed.
Lemma typed_inc opc : typed W any (inc opc).
Proof. unfold inc. tauto_typed. Qed.
Lemma typed_subr opc : typed W any (subr opc).
Proof. unfold subr. tauto_typed. Qed.
Lemma typed_subax opc : typed W any (subax opc).
Proof. unfold subax. tauto_typed. Qed.
Lemma typed_sub opc : typed W any (sub opc).
Proof. unfold sub. tauto_typed. Qed.
Lemma typed_subp opc : typed W any (subp opc).
Proof. unfold subp. tauto_typed. Qed.
Lemma typed_decm opc : typed W any (decm opc).
Proof. unfold decm. tauto_typed. Qed.
Lemma typed_dec opc : typed W any (dec opc).
Proof. unfold dec. tauto_typed. Qed.
Lemma typed_neg opc : typed W any (neg opc).
Proof. unfold neg. tauto_typed. Qed.
Lemma typed_abs opc : typed W any (abs opc).
Proof. unfold abs. tauto_typed. Qed.
Lemma typed_movr opc : typed W any (movr opc).
Proof. unfold movr. tauto_typed. Qed.
Lemma typed_movax opc : typed W any (movax opc).
Proof. unfold movax. tauto_typed. Qed.
Lemma typed_mov opc : typed W any (mov opc).
Proof. unfold mov. tauto_typed. Qed.
Lemma typed_lsl16 opc : typed W any (lsl16 opc).
Proof. unfold lsl16. tauto_typed. Qed.
Lemma typed_lsr16 opc : typed W any (lsr16 opc).
Proof. unfold lsr16. tauto_typed. Qed.
Lemma typed_asr16 opc : typed W any (asr16 opc).
Proof. unfold asr16. tauto_typed. Qed.
Lemma typed_lsl opc : typed W any (lsl opc).
Proof. unfold lsl. tauto_typed. Qed.
Lemma typed_lsr opc : typed W any (lsr opc).
Proof. unfold lsr. tauto_typed. Qed.
Lemma typed_asl opc : typed W any (asl opc).
Proof. unfold asl. tauto_typed. Qed.
Lemma typed_asr opc : typed W any (asr opc).
Proof. unfold asr. tauto_typed. Qed.
Lemma typed_lsrn opc : typed W any (lsrn opc).
Proof. unfold lsrn. tauto_typed. Qed.
Lemma typed_asrn opc : typed W any (asrn opc).
Proof. unfold asrn. tauto_typed. Qed.
Lemma typed_lsrnrx opc : typed W any (lsrnrx opc).
Proof. unfold lsrnrx. tauto_typed. Qed.
Lemma typed_asrnrx opc : typed W any (asrnrx opc).
Proof. unfold asrnrx. tauto_typed. Qed.
Lemma typed_lsrnr opc : typed W any (lsrnr opc).
Proof. unfold lsrnr. tauto_typed. Qed.
Lemma typed_asrnr opc : typed W any (asrnr opc).
Proof. unfold asrnr. tauto_typed. Qed.
End Arithmetic.

#[export] Hint Resolve typed_AxPart
  typed_clr typed_clrl typed_andcf typed_andf typed_tst typed_tstaxh typed_cmp typed_cmpaxh
  typed_cmpi typed_cmpis typed_xorr typed_andr typed_orr typed_andc typed_orc typed_xorc
  typed_notc typed_xori typed_andi typed_ori typed_addr typed_addax typed_add typed_addp
  typed_addaxl typed_addi typed_addis typed_incm typed_inc typed_subr typed_subax typed_sub
  typed_subp typed_decm typed_dec typed_neg typed_abs typed_movr typed_movax typed_mov
  typed_lsl16 typed_lsr16 typed_asr16 typed_lsl typed_lsr typed_asl typed_asr typed_lsrn
  typed_asrn typed_lsrnrx typed_asrnrx typed_lsrnr typed_asrnr : typed.
