(* ===== verification/DSPMultiplier.v ===== *)
(** The multiplier and product-register instructions of the DSP
    ([Core/DSP/Interpreter/DSPIntMultiplier.cpp]). *)
From stdpp Require Import base tactics option list gmap strings.
From Stdlib Require Import ZArith Lia Bool.
From S2P Require Import Prelude Accelerator DSPState DSPTables DSPHardware DSPInterpreter.

#[local] Open Scope Z_scope.

Section Multiplier.
Context {H : Type} {hst : DSPHost H}.
Abbreviation DM := (M (State H)).
Implicit Type opc : Z.

(** * The product register *)

Definition clrp opc : DM unit :=
  ZeroWriteBackLog ;;
  setf f_prod_l 0x0000 ;;
  setf f_prod_m 0xfff0 ;;
  setf f_prod_h 0x00ff ;;
  setf f_prod_m2 0x0010.

Definition tstprod opc : DM unit :=
  prod ← GetLongProduct;
  UpdateSR64 prod false false ;;
  ZeroWriteBackLog.

Definition movp opc : DM unit :=
  let dreg := (opc .>> 8) .& 0x1 in
  acc ← GetLongProduct;
  ZeroWriteBackLog ;;
  SetLongAcc dreg acc ;;
  UpdateSR64 acc false false.

Definition movnp opc : DM unit :=
  let dreg := (opc .>> 8) .& 0x1 in
  prod ← GetLongProduct;
  let acc := - prod in
  ZeroWriteBackLog ;;
  SetLongAcc dreg acc ;;
  UpdateSR64 acc false false.

Definition movpz opc : DM unit :=
  let dreg := (opc .>> 8) .& 0x01 in
  acc ← GetLongProductRounded;
  ZeroWriteBackLog ;;
  SetLongAcc dreg acc ;;
  UpdateSR64 acc false false.

Definition addpaxz opc : DM unit :=
  let dreg := (opc .>> 8) .& 0x1 in
  let sreg := (opc .>> 9) .& 0x1 in
  oldprod ← GetLongProduct;
  prod ← GetLongProductRounded;
  ax ← GetLongACX sreg;
  let res := prod + (ax .& Z.lnot 0xffff) in
  ZeroWriteBackLog ;;
  SetLongAcc dreg res ;;
  res ← GetLongAcc dreg;
  UpdateSR64 res (isCarryAdd oldprod res) false.

(** * Multiplication *)

Definition mulaxh opc : DM unit :=
  value ← GetAXHigh 0;
  prod ← Multiply (to_u16 value) (to_u16 value) 0;
  ZeroWriteBackLog ;;
  SetLongProduct prod.

(** One part of [$ax0] or [$ax1]:
    [const u16 val = (sel == 0) ? GetAXLow(i) : GetAXHigh(i)]. *)
Definition AxSelect (i sel : Z) : DM Z :=
  v ← (if sel =? 0 then GetAXLow i else GetAXHigh i);
  mret (to_u16 v).

(** ** [mul] and its forms that also move or accumulate the old product *)

Definition mul opc : DM unit :=
  let sreg := (opc .>> 11) .& 0x1 in
  l ← GetAXLow sreg;
  let axl := to_u16 l in
  h ← GetAXHigh sreg;
  let axh := to_u16 h in
  prod ← Multiply axh axl 0;
  ZeroWriteBackLog ;;
  SetLongProduct prod.

Definition mulac opc : DM unit :=
  let rreg := (opc .>> 8) .& 0x1 in
  let sreg := (opc .>> 11) .& 0x1 in
  a ← GetLongAcc rreg;
  p ← GetLongProduct;
  let acc := a + p in
  l ← GetAXLow sreg;
  let axl := to_u16 l in
  h ← GetAXHigh sreg;
  let axh := to_u16 h in
  prod ← Multiply axl axh 0;
  ZeroWriteBackLog ;;
  SetLongProduct prod ;;
  SetLongAcc rreg acc ;;
  new ← GetLongAcc rreg;
  UpdateSR64 new false false.

Definition mulmv opc : DM unit :=
  let rreg := (opc .>> 8) .& 0x1 in
  let sreg := (opc .>> 11) .& 0x1 in
  acc ← GetLongProduct;
  l ← GetAXLow sreg;
  let axl := to_u16 l in
  h ← GetAXHigh sreg;
  let axh := to_u16 h in
  prod ← Multiply axl axh 0;
  ZeroWriteBackLog ;;
  SetLongProduct prod ;;
  SetLongAcc rreg acc ;;
  new ← GetLongAcc rreg;
  UpdateSR64 new false false.

Definition mulmvz opc : DM unit :=
  let rreg := (opc .>> 8) .& 0x1 in
  let sreg := (opc .>> 11) .& 0x1 in
  acc ← GetLongProductRounded;
  l ← GetAXLow sreg;
  let axl := to_u16 l in
  h ← GetAXHigh sreg;
  let axh := to_u16 h in
  prod ← Multiply axl axh 0;
  ZeroWriteBackLog ;;
  SetLongProduct prod ;;
  SetLongAcc rreg acc ;;
  new ← GetLongAcc rreg;
  UpdateSR64 new false false.

(** ** [mulx] and its forms that also move or accumulate the old product *)

Definition mulx opc : DM unit :=
  let treg := (opc .>> 11) .& 0x1 in
  let sreg := (opc .>> 12) .& 0x1 in
  val1 ← AxSelect 0 sreg;
  val2 ← AxSelect 1 treg;
  prod ← MultiplyMulX sreg treg val1 val2;
  ZeroWriteBackLog ;;
  SetLongProduct prod.

Definition mulxac opc : DM unit :=
  let rreg := (opc .>> 8) .& 0x1 in
  let treg := (opc .>> 11) .& 0x1 in
  let sreg := (opc .>> 12) .& 0x1 in
  a ← GetLongAcc rreg;
  p ← GetLongProduct;
  let acc := a + p in
  val1 ← AxSelect 0 sreg;
  val2 ← AxSelect 1 treg;
  prod ← MultiplyMulX sreg treg val1 val2;
  ZeroWriteBackLog ;;
  SetLongProduct prod ;;
  SetLongAcc rreg acc ;;
  new ← GetLongAcc rreg;
  UpdateSR64 new false false.

Definition mulxmv opc : DM unit :=
  let rreg := (opc .>> 8) .& 0x1 in
  let treg := (opc .>> 11) .& 0x1 in
  let sreg := (opc .>> 12) .& 0x1 in
  acc ← GetLongProduct;
  val1 ← AxSelect 0 sreg;
  val2 ← AxSelect 1 treg;
  prod ← MultiplyMulX sreg treg val1 val2;
  ZeroWriteBackLog ;;
  SetLongProduct prod ;;
  SetLongAcc rreg acc ;;
  new ← GetLongAcc rreg;
  UpdateSR64 new false false.

Definition mulxmvz opc : DM unit :=
  let rreg := (opc .>> 8) .& 0x1 in
  let treg := (opc .>> 11) .& 0x1 in
  let sreg := (opc .>> 12) .& 0x1 in
  acc ← GetLongProductRounded;
  val1 ← AxSelect 0 sreg;
  val2 ← AxSelect 1 treg;
  prod ← MultiplyMulX sreg treg val1 val2;
  ZeroWriteBackLog ;;
  SetLongProduct prod ;;
  SetLongAcc rreg acc ;;
  new ← GetLongAcc rreg;
  UpdateSR64 new false false.

(** ** [mulc] and its forms that also move or accumulate the old product *)

Definition mulc opc : DM unit :=
  let treg := (opc .>> 11) .& 0x1 in
  let sreg := (opc .>> 12) .& 0x1 in
  m ← GetAccMid sreg;
  let accm := to_u16 m in
  h ← GetAXHigh treg;
  let axh := to_u16 h in
  prod ← Multiply accm axh 0;
  ZeroWriteBackLog ;;
  SetLongProduct prod.

Definition mulcac opc : DM unit :=
  let rreg := (opc .>> 8) .& 0x1 in
  let treg := (opc .>> 11) .& 0x1 in
  let sreg := (opc .>> 12) .& 0x1 in
  a ← GetLongAcc rreg;
  p ← GetLongProduct;
  let acc := a + p in
  m ← GetAccMid sreg;
  let accm := to_u16 m in
  h ← GetAXHigh treg;
  let axh := to_u16 h in
  prod ← Multiply accm axh 0;
  ZeroWriteBackLog ;;
  SetLongProduct prod ;;
  SetLongAcc rreg acc ;;
  new ← GetLongAcc rreg;
  UpdateSR64 new false false.

Definition mulcmv opc : DM unit :=
  let rreg := (opc .>> 8) .& 0x1 in
  let treg := (opc .>> 11) .& 0x1 in
  let sreg := (opc .>> 12) .& 0x1 in
  acc ← GetLongProduct;
  m ← GetAccMid sreg;
  let accm := to_u16 m in
  h ← GetAXHigh treg;
  let axh := to_u16 h in
  prod ← Multiply accm axh 0;
  ZeroWriteBackLog ;;
  SetLongProduct prod ;;
  SetLongAcc rreg acc ;;
  new ← GetLongAcc rreg;
  UpdateSR64 new false false.

Definition mulcmvz opc : DM unit :=
  let rreg := (opc .>> 8) .& 0x1 in
  let treg := (opc .>> 11) .& 0x1 in
  let sreg := (opc .>> 12) .& 0x1 in
  acc ← GetLongProductRounded;
  m ← GetAccMid sreg;
  let accm := to_u16 m in
  h ← GetAXHigh treg;
  let axh := to_u16 h in
  prod ← Multiply accm axh 0;
  ZeroWriteBackLog ;;
  SetLongProduct prod ;;
  SetLongAcc rreg acc ;;
  new ← GetLongAcc rreg;
  UpdateSR64 new false false.

(** * Multiply and add to, or subtract from, the product *)

Definition maddx opc : DM unit :=
  let treg := (opc .>> 8) .& 0x1 in
  let sreg := (opc .>> 9) .& 0x1 in
  val1 ← AxSelect 0 sreg;
  val2 ← AxSelect 1 treg;
  prod ← MultiplyAdd val1 val2 0;
  ZeroWriteBackLog ;;
  SetLongProduct prod.

Definition msubx opc : DM unit :=
  let treg := (opc .>> 8) .& 0x1 in
  let sreg := (opc .>> 9) .& 0x1 in
  val1 ← AxSelect 0 sreg;
  val2 ← AxSelect 1 treg;
  prod ← MultiplySub val1 val2 0;
  ZeroWriteBackLog ;;
  SetLongProduct prod.

Definition maddc opc : DM unit :=
  let treg := (opc .>> 8) .& 0x1 in
  let sreg := (opc .>> 9) .& 0x1 in
  m ← GetAccMid sreg;
  let accm := to_u16 m in
  h ← GetAXHigh treg;
  let axh := to_u16 h in
  prod ← MultiplyAdd accm axh 0;
  ZeroWriteBackLog ;;
  SetLongProduct prod.

Definition msubc opc : DM unit :=
  let treg := (opc .>> 8) .& 0x1 in
  let sreg := (opc .>> 9) .& 0x1 in
  m ← GetAccMid sreg;
  let accm := to_u16 m in
  h ← GetAXHigh treg;
  let axh := to_u16 h in
  prod ← MultiplySub accm axh 0;
  ZeroWriteBackLog ;;
  SetLongProduct prod.

Definition madd opc : DM unit :=
  let sreg := (opc .>> 8) .& 0x1 in
  l ← GetAXLow sreg;
  let axl := to_u16 l in
  h ← GetAXHigh sreg;
  let axh := to_u16 h in
  prod ← MultiplyAdd axl axh 0;
  ZeroWriteBackLog ;;
  SetLongProduct prod.

Definition msub opc : DM unit :=
  let sreg := (opc .>> 8) .& 0x1 in
  l ← GetAXLow sreg;
  let axl := to_u16 l in
  h ← GetAXHigh sreg;
  let axh := to_u16 h in
  prod ← MultiplySub axl axh 0;
  ZeroWriteBackLog ;;
  SetLongProduct prod.

(** * Typing *)

Abbreviation W := (wf (H := H)).

Lemma typed_AxSelect i sel : 0 <= i < 2 -> typed W u16 (AxSelect i sel).
Proof. intros. unfold AxSelect. tstep; [apply (typed_if _ s16)|]; tauto_typed. Qed.
#[local] Hint Resolve typed_AxSelect : typed.

Lemma typed_clrp opc : typed W any (clrp opc).
Proof. unfold clrp. tauto_typed. Qed.
Lemma typed_tstprod opc : typed W any (tstprod opc).
Proof. unfold tstprod. tauto_typed. Qed.
Lemma typed_movp opc : typed W any (movp opc).
Proof. unfold movp. tauto_typed. Qed.
Lemma typed_movnp opc : typed W any (movnp opc).
Proof. unfold movnp. tauto_typed. Qed.
Lemma typed_movpz opc : typed W any (movpz opc).
Proof. unfold movpz. tauto_typed. Qed.
Lemma typed_addpaxz opc : typed W any (addpaxz opc).
Proof. unfold addpaxz. tauto_typed. Qed.
Lemma typed_mulaxh opc : typed W any (mulaxh opc).
Proof. unfold mulaxh. tauto_typed. Qed.
Lemma typed_mul opc : typed W any (mul opc).
Proof. unfold mul. tauto_typed. Qed.
Lemma typed_mulac opc : typed W any (mulac opc).
Proof. unfold mulac. tauto_typed. Qed.
Lemma typed_mulmv opc : typed W any (mulmv opc).
Proof. unfold mulmv. tauto_typed. Qed.
Lemma typed_mulmvz opc : typed W any (mulmvz opc).
Proof. unfold mulmvz. tauto_typed. Qed.
Lemma typed_mulx opc : typed W any (mulx opc).
Proof. unfold mulx. tauto_typed. Qed.
Lemma typed_mulxac opc : typed W any (mulxac opc).
Proof. unfold mulxac. tauto_typed. Qed.
Lemma typed_mulxmv opc : typed W any (mulxmv opc).
Proof. unfold mulxmv. tauto_typed. Qed.
Lemma typed_mulxmvz opc : typed W any (mulxmvz opc).
Proof. unfold mulxmvz. tauto_typed. Qed.
Lemma typed_mulc opc : typed W any (mulc opc).
Proof. unfold mulc. tauto_typed. Qed.
Lemma typed_mulcac opc : typed W any (mulcac opc).
Proof. unfold mulcac. tauto_typed. Qed.
Lemma typed_mulcmv opc : typed W any (mulcmv opc).
Proof. unfold mulcmv. tauto_typed. Qed.
Lemma typed_mulcmvz opc : typed W any (mulcmvz opc).
Proof. unfold mulcmvz. tauto_typed. Qed.
Lemma typed_maddx opc : typed W any (maddx opc).
Proof. unfold maddx. tauto_typed. Qed.
Lemma typed_msubx opc : typed W any (msubx opc).
Proof. unfold msubx. tauto_typed. Qed.
Lemma typed_maddc opc : typed W any (maddc opc).
Proof. unfold maddc. tauto_typed. Qed.
Lemma typed_msubc opc : typed W any (msubc opc).
Proof. unfold msubc. tauto_typed. Qed.
Lemma typed_madd opc : typed W any (madd opc).
Proof. unfold madd. tauto_typed. Qed.
Lemma typed_msub opc : typed W any (msub opc).
Proof. unfold msub. tauto_typed. Qed.
End Multiplier.

#[export] Hint Resolve typed_clrp typed_tstprod typed_movp typed_movnp typed_movpz typed_addpaxz
  typed_mulaxh typed_mul typed_mulac typed_mulmv typed_mulmvz typed_mulx typed_mulxac
  typed_mulxmv typed_mulxmvz typed_mulc typed_mulcac typed_mulcmv typed_mulcmvz typed_maddx
  typed_msubx typed_maddc typed_msubc typed_madd typed_msub : typed.
