(* ===== verification/DSPBranch.v ===== *)
(** The branch, loop and halt instructions of the DSP and its looping hardware
    ([Core/DSP/Interpreter/DSPIntBranch.cpp]). *)
From stdpp Require Import base tactics option list gmap strings.
From Stdlib Require Import ZArith Lia Bool.
From S2P Require Import Prelude Accelerator DSPState DSPTables DSPHardware DSPInterpreter.

#[local] Open Scope Z_scope.

Section Branch.
Context {H : Type} {hst : DSPHost H}.
Abbreviation DM := (M (State H)).
Implicit Type opc : Z.

(** * Calls, jumps, returns *)

Definition call opc : DM unit :=
  dest ← FetchInstruction;
  c ← CheckCondition (opc .& 0xf);
  when c
    (pc ← getf f_pc;
     StoreStack Call pc ;;
     setf f_pc dest).

Definition callr opc : DM unit :=
  c ← CheckCondition (opc .& 0xf);
  if negb c then mret tt else
  let reg := (opc .>> 5) .& 0x7 in
  addr ← OpReadRegister reg;
  pc ← getf f_pc;
  StoreStack Call pc ;;
  setf f_pc addr.

Definition ifcc opc : DM unit :=
  c ← CheckCondition (opc .& 0xf);
  if (c : bool) then mret tt else SkipInstruction.

Definition jcc opc : DM unit :=
  dest ← FetchInstruction;
  c ← CheckCondition (opc .& 0xf);
  when c (setf f_pc dest).

Definition jmprcc opc : DM unit :=
  c ← CheckCondition (opc .& 0xf);
  if negb c then mret tt else
  let reg := (opc .>> 5) .& 0x7 in
  addr ← OpReadRegister reg;
  setf f_pc addr.

Definition ret opc : DM unit :=
  c ← CheckCondition (opc .& 0xf);
  if negb c then mret tt else
  pc ← PopStack Call;
  setf f_pc pc.

Definition rti opc : DM unit :=
  c ← CheckCondition (opc .& 0xf);
  if negb c then mret tt else
  sr ← PopStack Data;
  setf f_sr sr ;;
  pc ← PopStack Call;
  setf f_pc pc.

Definition halt opc : DM unit :=
  modf f_control_reg (fun c => c .| CR_HALT) ;;
  modf f_pc (fun pc => to_u16 (pc - 1)).

(** * Loops *)

(** The comparison [state.pc - 1 == rLoopAddress] is on [int]. *)
Definition HandleLoop : DM unit :=
  rCallAddress ← geta 4 f_st 0;
  rLoopAddress ← geta 4 f_st 2;
  rLoopCounter ← geta 4 f_st 3;
  when ((0 <? rLoopAddress) && (0 <? rLoopCounter))
    (pc ← getf f_pc;
     when (pc - 1 =? rLoopAddress)
       (seta 4 f_st 3 (to_u16 (rLoopCounter - 1)) ;;
        rLoopCounter ← geta 4 f_st 3;
        if 0 <? rLoopCounter then setf f_pc rCallAddress
        else
          PopStack Call ;;
          PopStack LoopAddress ;;
          PopStack LoopCounter ;;
          mret tt)).

(** The three pushes of a loop instruction, with [state.pc] read when they are made. *)
Definition PushLoop (loop_pc cnt : Z) : DM unit :=
  pc ← getf f_pc;
  StoreStack Call pc ;;
  StoreStack LoopAddress loop_pc ;;
  StoreStack LoopCounter cnt.

Definition loop opc : DM unit :=
  let reg := opc .& 0x1f in
  cnt ← OpReadRegister reg;
  loop_pc ← getf f_pc;
  if negb (cnt =? 0) then PushLoop loop_pc cnt
  else SkipInstruction.

Definition loopi opc : DM unit :=
  let cnt := opc .& 0xff in
  loop_pc ← getf f_pc;
  if negb (cnt =? 0) then PushLoop loop_pc cnt
  else SkipInstruction.

Definition bloop opc : DM unit :=
  let reg := opc .& 0x1f in
  cnt ← OpReadRegister reg;
  loop_pc ← FetchInstruction;
  if negb (cnt =? 0) then PushLoop loop_pc cnt
  else
    setf f_pc loop_pc ;;
    SkipInstruction.

Definition bloopi opc : DM unit :=
  let cnt := opc .& 0xff in
  loop_pc ← FetchInstruction;
  if negb (cnt =? 0) then PushLoop loop_pc cnt
  else
    setf f_pc loop_pc ;;
    SkipInstruction.

(** * Typing *)

Abbreviation W := (wf (H := H)).

Lemma typed_call opc : typed W any (call opc).
Proof. unfold call. tauto_typed. Qed.
Lemma typed_callr opc : typed W any (callr opc).
Proof. unfold callr. tauto_typed. Qed.
Lemma typed_ifcc opc : typed W any (ifcc opc).
Proof. unfold ifcc. tauto_typed. Qed.
Lemma typed_jcc opc : typed W any (jcc opc).
Proof. unfold jcc. tauto_typed. Qed.
Lemma typed_jmprcc opc : typed W any (jmprcc opc).
Proof. unfold jmprcc. tauto_typed. Qed.
Lemma typed_ret_op opc : typed W any (ret opc).
Proof. unfold ret. tauto_typed. Qed.
Lemma typed_rti opc : typed W any (rti opc).
Proof. unfold rti. tauto_typed. Qed.
Lemma typed_halt opc : typed W any (halt opc).
Proof. unfold halt. tauto_typed. Qed.
Lemma typed_HandleLoop : typed W any HandleLoop.
Proof. unfold HandleLoop. tauto_typed. Qed.
Lemma typed_PushLoop loop_pc cnt : u16 loop_pc -> u16 cnt -> typed W any (PushLoop loop_pc cnt).
Proof. intros. unfold PushLoop. tauto_typed. Qed.
#[local] Hint Resolve typed_PushLoop : typed.
Lemma typed_loop opc : typed W any (loop opc).
Proof. unfold loop. tauto_typed. Qed.
Lemma typed_loopi opc : typed W any (loopi opc).
Proof. unfold loopi. tauto_typed. Qed.
Lemma typed_bloop opc : typed W any (bloop opc).
Proof. unfold bloop. tauto_typed. Qed.
Lemma typed_bloopi opc : typed W any (bloopi opc).
Proof. unfold bloopi. tauto_typed. Qed.
End Branch.

#[export] Hint Resolve typed_call typed_callr typed_ifcc typed_jcc typed_jmprcc typed_ret_op
  typed_rti typed_halt typed_HandleLoop typed_loop typed_loopi typed_bloop typed_bloopi : typed.
