(* ===== verification/DSPLoadStore.v ===== *)
(** The load and store instructions of the DSP
    ([Core/DSP/Interpreter/DSPIntLoadStore.cpp]) and its register moves,
    address-register arithmetic and status-bit instructions
    ([Core/DSP/Interpreter/DSPIntMisc.cpp]). *)
From stdpp Require Import base tactics option list gmap strings.
From Stdlib Require Import ZArith Lia Bool.
From S2P Require Import Prelude Accelerator DSPState DSPTables DSPHardware DSPInterpreter.

#[local] Open Scope Z_scope.

Section LoadStore.
Context {H : Type} {hst : DSPHost H}.
Abbreviation DM := (M (State H)).
Implicit Type opc : Z.

(** * Short addresses: [CR[0-7] | M] *)

Definition cr_address (cr opc : Z) : Z := to_u16 ((cr .<< 8) .| (opc .& 0xFF)).

Definition srsh opc : DM unit :=
  let reg := to_u8 (((opc .>> 8) .& 0x1) + DSP_REG_ACH0) in
  cr ← getf f_cr;
  v ← OpReadRegister reg;
  WriteDMEM (cr_address cr opc) v.

Definition srs opc : DM unit :=
  let reg := to_u8 (((opc .>> 8) .& 0x3) + DSP_REG_ACL0) in
  cr ← getf f_cr;
  v ← OpReadRegister reg;
  WriteDMEM (cr_address cr opc) v.

Definition lrs opc : DM unit :=
  let reg := to_u8 (((opc .>> 8) .& 0x7) + 0x18) in
  cr ← getf f_cr;
  v ← ReadDMEM (cr_address cr opc);
  OpWriteRegister reg v ;;
  ConditionalExtendAccum reg.

(** * Immediate addresses *)

Definition lr opc : DM unit :=
  let reg := opc .& 0x1F in
  addr ← FetchInstruction;
  val ← ReadDMEM addr;
  OpWriteRegister reg val ;;
  ConditionalExtendAccum reg.

Definition sr opc : DM unit :=
  let reg := opc .& 0x1F in
  addr ← FetchInstruction;
  v ← OpReadRegister reg;
  WriteDMEM addr v.

Definition si opc : DM unit :=
  let addr := to_u16 (to_s8 opc) in
  imm ← FetchInstruction;
  WriteDMEM addr imm.

(** * Indirect loads *)

(** [state.r.ar[reg] = IncreaseAddressRegister(reg, static_cast<s16>(state.r.ix[ireg]))] *)
Definition AddIndex (reg ireg : Z) : DM unit :=
  ix ← geta 4 f_ix ireg;
  a ← IncreaseAddressRegister reg (to_s16 ix);
  seta 4 f_ar reg a.
Definition DecAddress (reg : Z) : DM unit :=
  a ← DecrementAddressRegister reg; seta 4 f_ar reg a.
Definition IncAddress (reg : Z) : DM unit :=
  a ← IncrementAddressRegister reg; seta 4 f_ar reg a.

Definition lrr opc : DM unit :=
  let sreg := (opc .>> 5) .& 0x3 in
  let dreg := opc .& 0x1f in
  a ← OpReadRegister sreg;
  val ← ReadDMEM a;
  OpWriteRegister dreg val ;;
  ConditionalExtendAccum dreg.

Definition lrrd opc : DM unit :=
  let sreg := (opc .>> 5) .& 0x3 in
  let dreg := opc .& 0x1f in
  a ← OpReadRegister sreg;
  val ← ReadDMEM a;
  OpWriteRegister dreg val ;;
  ConditionalExtendAccum dreg ;;
  DecAddress sreg.

Definition lrri opc : DM unit :=
  let sreg := (opc .>> 5) .& 0x3 in
  let dreg := opc .& 0x1f in
  a ← OpReadRegister sreg;
  val ← ReadDMEM a;
  OpWriteRegister dreg val ;;
  ConditionalExtendAccum dreg ;;
  IncAddress sreg.

Definition lrrn opc : DM unit :=
  let sreg := (opc .>> 5) .& 0x3 in
  let dreg := opc .& 0x1f in
  a ← OpReadRegister sreg;
  val ← ReadDMEM a;
  OpWriteRegister dreg val ;;
  ConditionalExtendAccum dreg ;;
  AddIndex sreg sreg.

(** * Indirect stores *)

Definition srr opc : DM unit :=
  let dreg := (opc .>> 5) .& 0x3 in
  let sreg := opc .& 0x1f in
  a ← geta 4 f_ar dreg;
  v ← OpReadRegister sreg;
  WriteDMEM a v.

Definition srrd opc : DM unit :=
  let dreg := (opc .>> 5) .& 0x3 in
  let sreg := opc .& 0x1f in
  a ← geta 4 f_ar dreg;
  v ← OpReadRegister sreg;
  WriteDMEM a v ;;
  DecAddress dreg.

Definition srri opc : DM unit :=
  let dreg := (opc .>> 5) .& 0x3 in
  let sreg := opc .& 0x1f in
  a ← geta 4 f_ar dreg;
  v ← OpReadRegister sreg;
  WriteDMEM a v ;;
  IncAddress dreg.

Definition srrn opc : DM unit :=
  let dreg := (opc .>> 5) .& 0x3 in
  let sreg := opc .& 0x1f in
  a ← geta 4 f_ar dreg;
  v ← OpReadRegister sreg;
  WriteDMEM a v ;;
  AddIndex dreg dreg.

(** * Loads from instruction memory *)

Definition ilrr opc : DM unit :=
  let reg := opc .& 0x3 in
  let dreg := DSP_REG_ACM0 + ((opc .>> 8) .& 1) in
  a ← geta 4 f_ar reg;
  v ← ReadIMEM a;
  seta 2 f_ac_m (dreg - DSP_REG_ACM0) v ;;
  ConditionalExtendAccum dreg.

Definition ilrrd opc : DM unit :=
  let reg := opc .& 0x3 in
  let dreg := DSP_REG_ACM0 + ((opc .>> 8) .& 1) in
  a ← geta 4 f_ar reg;
  v ← ReadIMEM a;
  seta 2 f_ac_m (dreg - DSP_REG_ACM0) v ;;
  ConditionalExtendAccum dreg ;;
  DecAddress reg.

Definition ilrri opc : DM unit :=
  let reg := opc .& 0x3 in
  let dreg := DSP_REG_ACM0 + ((opc .>> 8) .& 1) in
  a ← geta 4 f_ar reg;
  v ← ReadIMEM a;
  seta 2 f_ac_m (dreg - DSP_REG_ACM0) v ;;
  ConditionalExtendAccum dreg ;;
  IncAddress reg.

Definition ilrrn opc : DM unit :=
  let reg := opc .& 0x3 in
  let dreg := DSP_REG_ACM0 + ((opc .>> 8) .& 1) in
  a ← geta 4 f_ar reg;
  v ← ReadIMEM a;
  seta 2 f_ac_m (dreg - DSP_REG_ACM0) v ;;
  ConditionalExtendAccum dreg ;;
  AddIndex reg reg.

(** * Register moves *)

Definition mrr opc : DM unit :=
  let sreg := opc .& 0x1f in
  let dreg := (opc .>> 5) .& 0x1f in
  v ← OpReadRegister sreg;
  OpWriteRegister dreg v ;;
  ConditionalExtendAccum dreg.

Definition lri opc : DM unit :=
  let reg := opc .& 0x1F in
  imm ← FetchInstruction;
  OpWriteRegister reg imm ;;
  ConditionalExtendAccum reg.

Definition lris opc : DM unit :=
  let reg := ((opc .>> 8) .& 0x7) + DSP_REG_AXL0 in
  let imm := to_u16 (to_s8 opc) in
  OpWriteRegister reg imm ;;
  ConditionalExtendAccum reg.

Definition nx opc : DM unit := ZeroWriteBackLog.

(** * Address registers *)

Definition dar opc : DM unit := DecAddress (opc .& 3).
Definition iar opc : DM unit := IncAddress (opc .& 3).

Definition subarn opc : DM unit :=
  let dreg := opc .& 0x3 in
  ix ← geta 4 f_ix dreg;
  a ← DecreaseAddressRegister dreg (to_s16 ix);
  seta 4 f_ar dreg a.

Definition addarn opc : DM unit :=
  let dreg := opc .& 0x3 in
  let sreg := (opc .>> 2) .& 0x3 in
  AddIndex dreg sreg.

(** * Status bits *)

Definition sbclr opc : DM unit :=
  let bit := (opc .& 0x7) + 6 in
  modf f_sr (fun sr => to_u16 (sr .& to_u32 (Z.lnot (1 .<< bit)))).

Definition sbset opc : DM unit :=
  let bit := (opc .& 0x7) + 6 in
  modf f_sr (fun sr => to_u16 (sr .| (1 .<< bit))).

Definition clear_sr (flag : Z) : DM unit := modf f_sr (fun sr => sr .& to_u16 (Z.lnot flag)).

Definition srbith opc : DM unit :=
  ZeroWriteBackLog ;;
  match (opc .>> 8) .& 0x7 with
  | 2 => clear_sr SR_MUL_MODIFY
  | 3 => SetSRFlag SR_MUL_MODIFY
  | 4 => clear_sr SR_MUL_UNSIGNED
  | 5 => SetSRFlag SR_MUL_UNSIGNED
  | 6 => clear_sr SR_40_MODE_BIT
  | 7 => SetSRFlag SR_40_MODE_BIT
  | _ => mret tt
  end.

(** * Typing *)

Abbreviation W := (wf (H := H)).

Lemma typed_AddIndex reg ireg : 0 <= reg < 4 -> 0 <= ireg < 4 -> typed W any (AddIndex reg ireg).
Proof. intros. unfold AddIndex. tauto_typed. Qed.
Lemma typed_DecAddress reg : 0 <= reg < 4 -> typed W any (DecAddress reg).
Proof. intros. unfold DecAddress. tauto_typed. Qed.
Lemma typed_IncAddress reg : 0 <= reg < 4 -> typed W any (IncAddress reg).
Proof. intros. unfold IncAddress. tauto_typed. Qed.
#[local] Hint Resolve typed_AddIndex typed_DecAddress typed_IncAddress : typed.

Lemma typed_clear_sr f : typed W any (clear_sr f).
Proof. unfold clear_sr. tauto_typed. Qed.
#[local] Hint Resolve typed_clear_sr : typed.

Lemma typed_srsh opc : typed W any (srsh opc).
Proof. unfold srsh. tauto_typed. Qed.
Lemma typed_srs opc : typed W any (srs opc).
Proof. unfold srs. tauto_typed. Qed.
Lemma typed_lrs opc : typed W any (lrs opc).
Proof. unfold lrs. tauto_typed. Qed.
Lemma typed_lr opc : typed W any (lr opc).
Proof. unfold lr. tauto_typed. Qed.
Lemma typed_sr opc : typed W any (sr opc).
Proof. unfold sr. tauto_typed. Qed.
Lemma typed_si opc : typed W any (si opc).
Proof. unfold si. tauto_typed. Qed.
Lemma typed_lrr opc : typed W any (lrr opc).
Proof. unfold lrr. tauto_typed. Qed.
Lemma typed_lrrd opc : typed W any (lrrd opc).
Proof. unfold lrrd. tauto_typed. Qed.
Lemma typed_lrri opc : typed W any (lrri opc).
Proof. unfold lrri. tauto_typed. Qed.
Lemma typed_lrrn opc : typed W any (lrrn opc).
Proof. unfold lrrn. tauto_typed. Qed.
Lemma typed_srr opc : typed W any (srr opc).
Proof. unfold srr. tauto_typed. Qed.
Lemma typed_srrd opc : typed W any (srrd opc).
Proof. unfold srrd. tauto_typed. Qed.
Lemma typed_srri opc : typed W any (srri opc).
Proof. unfold srri. tauto_typed. Qed.
Lemma typed_srrn opc : typed W any (srrn opc).
Proof. unfold srrn. tauto_typed. Qed.
Lemma typed_ilrr opc : typed W any (ilrr opc).
Proof. unfold ilrr. tauto_typed. Qed.
Lemma typed_ilrrd opc : typed W any (ilrrd opc).
Proof. unfold ilrrd. tauto_typed. Qed.
Lemma typed_ilrri opc : typed W any (ilrri opc).
Proof. unfold ilrri. tauto_typed. Qed.
Lemma typed_ilrrn opc : typed W any (ilrrn opc).
Proof. unfold ilrrn. tauto_typed. Qed.
Lemma typed_mrr opc : typed W any (mrr opc).
Proof. unfold mrr. tauto_typed. Qed.
Lemma typed_lri opc : typed W any (lri opc).
Proof. unfold lri. tauto_typed. Qed.
Lemma typed_lris opc : typed W any (lris opc).
Proof. unfold lris. tauto_typed. Qed.
Lemma typed_nx opc : typed W any (nx opc).
Proof. unfold nx. tauto_typed. Qed.
Lemma typed_dar opc : typed W any (dar opc).
Proof. unfold dar. tauto_typed. Qed.
Lemma typed_iar opc : typed W any (iar opc).
Proof. unfold iar. tauto_typed. Qed.
Lemma typed_subarn opc : typed W any (subarn opc).
Proof. unfold subarn. tauto_typed. Qed.
Lemma typed_addarn opc : typed W any (addarn opc).
Proof. unfold addarn. tauto_typed. Qed.
Lemma typed_sbclr opc : typed W any (sbclr opc).
Proof. unfold sbclr. tauto_typed. Qed.
Lemma typed_sbset opc : typed W any (sbset opc).
Proof. unfold sbset. tauto_typed. Qed.
Lemma typed_srbith opc : typed W any (srbith opc).
Proof. unfold srbith. tstep; [tauto_typed|]. repeat case_match; tauto_typed. Qed.
End LoadStore.

#[export] Hint Resolve typed_AddIndex typed_DecAddress typed_IncAddress typed_srsh typed_srs
  typed_lrs typed_lr typed_sr typed_si typed_lrr typed_lrrd typed_lrri typed_lrrn typed_srr
  typed_srrd typed_srri typed_srrn typed_ilrr typed_ilrrd typed_ilrri typed_ilrrn typed_mrr
  typed_lri typed_lris typed_nx typed_dar typed_iar typed_subarn typed_addarn typed_sbclr
  typed_sbset typed_srbith : typed.
