(* ===== verification/DSPExtOps.v ===== *)
(** The extension opcodes of the DSP
    ([Core/DSP/Interpreter/DSPIntExtOps.cpp]): they run before the main opcode
    and log their register writes, which [ApplyWriteBackLog] makes after it. *)
From stdpp Require Import base tactics option list gmap strings.
From Stdlib Require Import ZArith Lia Bool.
From S2P Require Import Prelude Accelerator DSPState DSPTables DSPHardware DSPInterpreter.

#[local] Open Scope Z_scope.

Definition IsSameMemArea (a b : Z) : bool := (a .>> 10) =? (b .>> 10).

Section ExtOps.
Context {H : Type} {hst : DSPHost H}.
Abbreviation DM := (M (State H)).
Implicit Type opc : Z.

(** [WriteToBackLog(i, reg, IncrementAddressRegister(reg))] *)
Definition LogIncrement (i reg : Z) : DM unit :=
  a ← IncrementAddressRegister reg; WriteToBackLog i reg a.
(** [WriteToBackLog(i, reg, DecrementAddressRegister(reg))] *)
Definition LogDecrement (i reg : Z) : DM unit :=
  a ← DecrementAddressRegister reg; WriteToBackLog i reg a.
(** [WriteToBackLog(i, reg, IncreaseAddressRegister(reg, static_cast<s16>(state.r.ix[reg])))] *)
Definition LogIncrease (i reg : Z) : DM unit :=
  ix ← geta 4 f_ix reg;
  a ← IncreaseAddressRegister reg (to_s16 ix); WriteToBackLog i reg a.
(** [WriteToBackLog(i, idx, state.ReadDMEM(state.r.ar[reg]))] *)
Definition LogLoad (i idx reg : Z) : DM unit :=
  a ← geta 4 f_ar reg; v ← ReadDMEM a; WriteToBackLog i idx v.
(** [state.WriteDMEM(state.r.ar[reg], OpReadRegister(sreg))] *)
Definition StoreAt (reg sreg : Z) : DM unit :=
  a ← geta 4 f_ar reg; v ← OpReadRegister sreg; WriteDMEM a v.

(** * Address registers and moves *)

Definition dr opc : DM unit := LogDecrement 0 (opc .& 0x3).
Definition ir opc : DM unit := LogIncrement 0 (opc .& 0x3).
Definition nr opc : DM unit := LogIncrease 0 (opc .& 0x3).

Definition mv opc : DM unit :=
  let sreg := (opc .& 0x3) + DSP_REG_ACL0 in
  let dreg := (opc .>> 2) .& 0x3 in
  v ← OpReadRegister sreg;
  WriteToBackLog 0 (dreg + DSP_REG_AXL0) v.

(** * One store or one load *)

Definition s opc : DM unit :=
  let dreg := opc .& 0x3 in
  let sreg := ((opc .>> 3) .& 0x3) + DSP_REG_ACL0 in
  StoreAt dreg sreg ;;
  LogIncrement 0 dreg.

Definition sn opc : DM unit :=
  let dreg := opc .& 0x3 in
  let sreg := ((opc .>> 3) .& 0x3) + DSP_REG_ACL0 in
  StoreAt dreg sreg ;;
  LogIncrease 0 dreg.

Definition l opc : DM unit :=
  let sreg := opc .& 0x3 in
  let dreg := ((opc .>> 3) .& 0x7) + DSP_REG_AXL0 in
  mode40 ← (if DSP_REG_ACM0 <=? dreg then IsSRFlagSet SR_40_MODE_BIT else mret false);
  if (mode40 : bool) then
    a ← geta 4 f_ar sreg;
    val ← ReadDMEM a;
    WriteToBackLog 0 (dreg - DSP_REG_ACM0 + DSP_REG_ACH0)
      (if negb ((val .& 0x8000) =? 0) then 0xFFFF else 0x0000) ;;
    WriteToBackLog 1 dreg val ;;
    WriteToBackLog 2 (dreg - DSP_REG_ACM0 + DSP_REG_ACL0) 0 ;;
    LogIncrement 3 sreg
  else
    LogLoad 0 dreg sreg ;;
    LogIncrement 1 sreg.

Definition ln opc : DM unit :=
  let sreg := opc .& 0x3 in
  let dreg := ((opc .>> 3) .& 0x7) + DSP_REG_AXL0 in
  mode40 ← (if DSP_REG_ACM0 <=? dreg then IsSRFlagSet SR_40_MODE_BIT else mret false);
  if (mode40 : bool) then
    a ← geta 4 f_ar sreg;
    val ← ReadDMEM a;
    WriteToBackLog 0 (dreg - DSP_REG_ACM0 + DSP_REG_ACH0)
      (if negb ((val .& 0x8000) =? 0) then 0xFFFF else 0x0000) ;;
    WriteToBackLog 1 dreg val ;;
    WriteToBackLog 2 (dreg - DSP_REG_ACM0 + DSP_REG_ACL0) 0 ;;
    LogIncrease 3 sreg
  else
    LogLoad 0 dreg sreg ;;
    LogIncrease 1 sreg.

(** * A load and a store through [$ar0] and [$ar3] *)

Definition ls opc : DM unit :=
  let sreg := (opc .& 0x1) + DSP_REG_ACM0 in
  let dreg := ((opc .>> 4) .& 0x3) + DSP_REG_AXL0 in
  StoreAt 3 sreg ;;
  LogLoad 0 dreg 0 ;;
  LogIncrement 1 DSP_REG_AR3 ;;
  LogIncrement 2 DSP_REG_AR0.

Definition lsn opc : DM unit :=
  let sreg := (opc .& 0x1) + DSP_REG_ACM0 in
  let dreg := ((opc .>> 4) .& 0x3) + DSP_REG_AXL0 in
  StoreAt 3 sreg ;;
  LogLoad 0 dreg 0 ;;
  LogIncrement 1 DSP_REG_AR3 ;;
  LogIncrease 2 DSP_REG_AR0.

Definition lsm opc : DM unit :=
  let sreg := (opc .& 0x1) + DSP_REG_ACM0 in
  let dreg := ((opc .>> 4) .& 0x3) + DSP_REG_AXL0 in
  StoreAt 3 sreg ;;
  LogLoad 0 dreg 0 ;;
  LogIncrease 1 DSP_REG_AR3 ;;
  LogIncrement 2 DSP_REG_AR0.

Definition lsnm opc : DM unit :=
  let sreg := (opc .& 0x1) + DSP_REG_ACM0 in
  let dreg := ((opc .>> 4) .& 0x3) + DSP_REG_AXL0 in
  StoreAt 3 sreg ;;
  LogLoad 0 dreg 0 ;;
  LogIncrease 1 DSP_REG_AR3 ;;
  LogIncrease 2 DSP_REG_AR0.

Definition sl opc : DM unit :=
  let sreg := (opc .& 0x1) + DSP_REG_ACM0 in
  let dreg := ((opc .>> 4) .& 0x3) + DSP_REG_AXL0 in
  StoreAt 0 sreg ;;
  LogLoad 0 dreg 3 ;;
  LogIncrement 1 DSP_REG_AR3 ;;
  LogIncrement 2 DSP_REG_AR0.

Definition sln opc : DM unit :=
  let sreg := (opc .& 0x1) + DSP_REG_ACM0 in
  let dreg := ((opc .>> 4) .& 0x3) + DSP_REG_AXL0 in
  StoreAt 0 sreg ;;
  LogLoad 0 dreg 3 ;;
  LogIncrement 1 DSP_REG_AR3 ;;
  LogIncrease 2 DSP_REG_AR0.

Definition slm opc : DM unit :=
  let sreg := (opc .& 0x1) + DSP_REG_ACM0 in
  let dreg := ((opc .>> 4) .& 0x3) + DSP_REG_AXL0 in
  StoreAt 0 sreg ;;
  LogLoad 0 dreg 3 ;;
  LogIncrease 1 DSP_REG_AR3 ;;
  LogIncrement 2 DSP_REG_AR0.

Definition slnm opc : DM unit :=
  let sreg := (opc .& 0x1) + DSP_REG_ACM0 in
  let dreg := ((opc .>> 4) .& 0x3) + DSP_REG_AXL0 in
  StoreAt 0 sreg ;;
  LogLoad 0 dreg 3 ;;
  LogIncrease 1 DSP_REG_AR3 ;;
  LogIncrease 2 DSP_REG_AR0.

(** * Two loads, through [$arS] and [$ar3] *)

(** The second load: [$ar3]'s word, or [$arS]'s when both point to the same area. *)
Definition LogSecondLoad (idx sreg : Z) : DM unit :=
  a ← geta 4 f_ar sreg; a3 ← geta 4 f_ar 3;
  if IsSameMemArea a a3 then LogLoad 1 idx sreg else LogLoad 1 idx 3.

Definition ld opc : DM unit :=
  let dreg := (opc .>> 5) .& 0x1 in
  let rreg := (opc .>> 4) .& 0x1 in
  let sreg := opc .& 0x3 in
  LogLoad 0 ((dreg .<< 1) + DSP_REG_AXL0) sreg ;;
  LogSecondLoad ((rreg .<< 1) + DSP_REG_AXL1) sreg ;;
  LogIncrement 2 sreg ;;
  LogIncrement 3 DSP_REG_AR3.

Definition ldax opc : DM unit :=
  let sreg := (opc .>> 5) .& 0x1 in
  let rreg := (opc .>> 4) .& 0x1 in
  LogLoad 0 (rreg + DSP_REG_AXH0) sreg ;;
  LogSecondLoad (rreg + DSP_REG_AXL0) sreg ;;
  LogIncrement 2 sreg ;;
  LogIncrement 3 DSP_REG_AR3.

Definition ldn opc : DM unit :=
  let dreg := (opc .>> 5) .& 0x1 in
  let rreg := (opc .>> 4) .& 0x1 in
  let sreg := opc .& 0x3 in
  LogLoad 0 ((dreg .<< 1) + DSP_REG_AXL0) sreg ;;
  LogSecondLoad ((rreg .<< 1) + DSP_REG_AXL1) sreg ;;
  LogIncrease 2 sreg ;;
  LogIncrement 3 DSP_REG_AR3.

Definition ldaxn opc : DM unit :=
  let sreg := (opc .>> 5) .& 0x1 in
  let rreg := (opc .>> 4) .& 0x1 in
  LogLoad 0 (rreg + DSP_REG_AXH0) sreg ;;
  LogSecondLoad (rreg + DSP_REG_AXL0) sreg ;;
  LogIncrease 2 sreg ;;
  LogIncrement 3 DSP_REG_AR3.

Definition ldm opc : DM unit :=
  let dreg := (opc .>> 5) .& 0x1 in
  let rreg := (opc .>> 4) .& 0x1 in
  let sreg := opc .& 0x3 in
  LogLoad 0 ((dreg .<< 1) + DSP_REG_AXL0) sreg ;;
  LogSecondLoad ((rreg .<< 1) + DSP_REG_AXL1) sreg ;;
  LogIncrement 2 sreg ;;
  LogIncrease 3 DSP_REG_AR3.

Definition ldaxm opc : DM unit :=
  let sreg := (opc .>> 5) .& 0x1 in
  let rreg := (opc .>> 4) .& 0x1 in
  LogLoad 0 (rreg + DSP_REG_AXH0) sreg ;;
  LogSecondLoad (rreg + DSP_REG_AXL0) sreg ;;
  LogIncrement 2 sreg ;;
  LogIncrease 3 DSP_REG_AR3.

Definition ldnm opc : DM unit :=
  let dreg := (opc .>> 5) .& 0x1 in
  let rreg := (opc .>> 4) .& 0x1 in
  let sreg := opc .& 0x3 in
  LogLoad 0 ((dreg .<< 1) + DSP_REG_AXL0) sreg ;;
  LogSecondLoad ((rreg .<< 1) + DSP_REG_AXL1) sreg ;;
  LogIncrease 2 sreg ;;
  LogIncrease 3 DSP_REG_AR3.

Definition ldaxnm opc : DM unit :=
  let sreg := (opc .>> 5) .& 0x1 in
  let rreg := (opc .>> 4) .& 0x1 in
  LogLoad 0 (rreg + DSP_REG_AXH0) sreg ;;
  LogSecondLoad (rreg + DSP_REG_AXL0) sreg ;;
  LogIncrease 2 sreg ;;
  LogIncrease 3 DSP_REG_AR3.

Definition nop_ext opc : DM unit := mret tt.

(** * Typing *)

Abbreviation W := (wf (H := H)).

Lemma typed_LogIncrement i reg : 0 <= i < 4 -> 0 <= reg < 4 -> typed W any (LogIncrement i reg).
Proof. intros. unfold LogIncrement. tauto_typed. Qed.
Lemma typed_LogDecrement i reg : 0 <= i < 4 -> 0 <= reg < 4 -> typed W any (LogDecrement i reg).
Proof. intros. unfold LogDecrement. tauto_typed. Qed.
Lemma typed_LogIncrease i reg : 0 <= i < 4 -> 0 <= reg < 4 -> typed W any (LogIncrease i reg).
Proof. intros. unfold LogIncrease. tauto_typed. Qed.
Lemma typed_LogLoad i idx reg :
  0 <= i < 4 -> 0 <= idx < 32 -> 0 <= reg < 4 -> typed W any (LogLoad i idx reg).
Proof. intros. unfold LogLoad. tauto_typed. Qed.
Lemma typed_StoreAt reg sreg : 0 <= reg < 4 -> typed W any (StoreAt reg sreg).
Proof. intros. unfold StoreAt. tauto_typed. Qed.
#[local] Hint Resolve typed_LogIncrement typed_LogDecrement typed_LogIncrease typed_LogLoad
  typed_StoreAt : typed.
Lemma typed_LogSecondLoad idx reg :
  0 <= idx < 32 -> 0 <= reg < 4 -> typed W any (LogSecondLoad idx reg).
Proof. intros. unfold LogSecondLoad. tauto_typed. Qed.
#[local] Hint Resolve typed_LogSecondLoad : typed.

#[local] Hint Extern 1 (_ <= (_ .<< 1) + _ < _) =>
  (rewrite Z.shiftl_mul_pow2 by lia; range_lia) : typed.

Lemma typed_ext_dr opc : typed W any (dr opc).
Proof. unfold dr. tauto_typed. Qed.
Lemma typed_ext_ir opc : typed W any (ir opc).
Proof. unfold ir. tauto_typed. Qed.
Lemma typed_ext_nr opc : typed W any (nr opc).
Proof. unfold nr. tauto_typed. Qed.
Lemma typed_ext_mv opc : typed W any (mv opc).
Proof. unfold mv. tauto_typed. Qed.
Lemma typed_ext_s opc : typed W any (s opc).
Proof. unfold s. tauto_typed. Qed.
Lemma typed_ext_sn opc : typed W any (sn opc).
Proof. unfold sn. tauto_typed. Qed.
Lemma typed_ext_l opc : typed W any (l opc).
Proof.
  unfold l. tstep; [apply (typed_if _ any); intros; tauto_typed|]. tauto_typed.
Qed.
Lemma typed_ext_ln opc : typed W any (ln opc).
Proof.
  unfold ln. tstep; [apply (typed_if _ any); intros; tauto_typed|]. tauto_typed.
Qed.
Lemma typed_ext_ls opc : typed W any (ls opc).
Proof. unfold ls. tauto_typed. Qed.
Lemma typed_ext_lsn opc : typed W any (lsn opc).
Proof. unfold lsn. tauto_typed. Qed.
Lemma typed_ext_lsm opc : typed W any (lsm opc).
Proof. unfold lsm. tauto_typed. Qed.
Lemma typed_ext_lsnm opc : typed W any (lsnm opc).
Proof. unfold lsnm. tauto_typed. Qed.
Lemma typed_ext_sl opc : typed W any (sl opc).
Proof. unfold sl. tauto_typed. Qed.
Lemma typed_ext_sln opc : typed W any (sln opc).
Proof. unfold sln. tauto_typed. Qed.
Lemma typed_ext_slm opc : typed W any (slm opc).
Proof. unfold slm. tauto_typed. Qed.
Lemma typed_ext_slnm opc : typed W any (slnm opc).
Proof. unfold slnm. tauto_typed. Qed.
Lemma typed_ext_ld opc : typed W any (ld opc).
Proof. unfold ld. tauto_typed. Qed.
Lemma typed_ext_ldax opc : typed W any (ldax opc).
Proof. unfold ldax. tauto_typed. Qed.
Lemma typed_ext_ldn opc : typed W any (ldn opc).
Proof. unfold ldn. tauto_typed. Qed.
Lemma typed_ext_ldaxn opc : typed W any (ldaxn opc).
Proof. unfold ldaxn. tauto_typed. Qed.
Lemma typed_ext_ldm opc : typed W any (ldm opc).
Proof. unfold ldm. tauto_typed. Qed.
Lemma typed_ext_ldaxm opc : typed W any (ldaxm opc).
Proof. unfold ldaxm. tauto_typed. Qed.
Lemma typed_ext_ldnm opc : typed W any (ldnm opc).
Proof. unfold ldnm. tauto_typed. Qed.
Lemma typed_ext_ldaxnm opc : typed W any (ldaxnm opc).
Proof. unfold ldaxnm. tauto_typed. Qed.
Lemma typed_ext_nop_ext opc : typed W any (nop_ext opc).
Proof. unfold nop_ext. tauto_typed. Qed.
End ExtOps.

#[export] Hint Resolve typed_ext_dr typed_ext_ir typed_ext_nr typed_ext_mv typed_ext_s
  typed_ext_sn typed_ext_l typed_ext_ln typed_ext_ls typed_ext_lsn typed_ext_lsm typed_ext_lsnm
  typed_ext_sl typed_ext_sln typed_ext_slm typed_ext_slnm typed_ext_ld typed_ext_ldax
  typed_ext_ldn typed_ext_ldaxn typed_ext_ldm typed_ext_ldaxm typed_ext_ldnm typed_ext_ldaxnm
  typed_ext_nop_ext : typed.
