(* ===== verification/DSPIntTables.v ===== *)
(** The dispatch tables of the interpreter
    ([Core/DSP/Interpreter/DSPIntTables.cpp]): the function of every opcode. *)
From stdpp Require Import base tactics option list gmap strings.
From Stdlib Require Import ZArith Lia Bool.
From S2P Require Import Prelude Accelerator DSPState DSPTables DSPHardware DSPInterpreter.
From S2P Require Import DSPArithmetic DSPMultiplier DSPBranch DSPLoadStore DSPExtOps.

#[local] Open Scope Z_scope.

Section IntTables.
Context {H : Type} {hst : DSPHost H}.
Abbreviation DM := (M (State H)).

(** [&Interpreter::f] *)
Abbreviation InterpreterFunction := (Z -> DM unit).

Record InterpreterOpInfo : Type := Op {
  int_opcode : Z;
  int_opcode_mask : Z;
  function : InterpreterFunction
}.

(** Anything but 0 is only logged as an unrecognised opcode. *)
Definition nop : InterpreterFunction := fun opc => mret tt.

Definition s_opcodes : list InterpreterOpInfo := [
  Op 0x0000 0xfffc nop;
  Op 0x0004 0xfffc dar;
  Op 0x0008 0xfffc iar;
  Op 0x000c 0xfffc subarn;
  Op 0x0010 0xfff0 addarn;
  Op 0x0021 0xffff halt;
  Op 0x02d0 0xfff0 ret;
  Op 0x02f0 0xfff0 rti;
  Op 0x02b0 0xfff0 call;
  Op 0x0270 0xfff0 ifcc;
  Op 0x0290 0xfff0 jcc;
  Op 0x1700 0xff10 jmprcc;
  Op 0x1710 0xff10 callr;
  Op 0x1200 0xff00 sbclr;
  Op 0x1300 0xff00 sbset;
  Op 0x1400 0xfec0 lsl;
  Op 0x1440 0xfec0 lsr;
  Op 0x1480 0xfec0 asl;
  Op 0x14c0 0xfec0 asr;
  Op 0x02ca 0xffff lsrn;
  Op 0x02cb 0xffff asrn;
  Op 0x0080 0xffe0 lri;
  Op 0x00c0 0xffe0 lr;
  Op 0x00e0 0xffe0 sr;
  Op 0x1c00 0xfc00 mrr;
  Op 0x1600 0xff00 si;
  Op 0x0400 0xfe00 addis;
  Op 0x0600 0xfe00 cmpis;
  Op 0x0800 0xf800 lris;
  Op 0x0200 0xfeff addi;
  Op 0x0220 0xfeff xori;
  Op 0x0240 0xfeff andi;
  Op 0x0260 0xfeff ori;
  Op 0x0280 0xfeff cmpi;
  Op 0x02a0 0xfeff andf;
  Op 0x02c0 0xfeff andcf;
  Op 0x0210 0xfefc ilrr;
  Op 0x0214 0xfefc ilrrd;
  Op 0x0218 0xfefc ilrri;
  Op 0x021c 0xfefc ilrrn;
  Op 0x0040 0xffe0 loop;
  Op 0x0060 0xffe0 bloop;
  Op 0x1000 0xff00 loopi;
  Op 0x1100 0xff00 bloopi;
  Op 0x1800 0xff80 lrr;
  Op 0x1880 0xff80 lrrd;
  Op 0x1900 0xff80 lrri;
  Op 0x1980 0xff80 lrrn;
  Op 0x1a00 0xff80 srr;
  Op 0x1a80 0xff80 srrd;
  Op 0x1b00 0xff80 srri;
  Op 0x1b80 0xff80 srrn;
  Op 0x2000 0xf800 lrs;
  Op 0x2800 0xfe00 srsh;
  Op 0x2c00 0xfc00 srs;
  Op 0x3000 0xfc80 xorr;
  Op 0x3400 0xfc80 andr;
  Op 0x3800 0xfc80 orr;
  Op 0x3c00 0xfe80 andc;
  Op 0x3e00 0xfe80 orc;
  Op 0x3080 0xfe80 xorc;
  Op 0x3280 0xfe80 notc;
  Op 0x3480 0xfc80 lsrnrx;
  Op 0x3880 0xfc80 asrnrx;
  Op 0x3c80 0xfe80 lsrnr;
  Op 0x3e80 0xfe80 asrnr;
  Op 0x4000 0xf800 addr;
  Op 0x4800 0xfc00 addax;
  Op 0x4c00 0xfe00 add;
  Op 0x4e00 0xfe00 addp;
  Op 0x5000 0xf800 subr;
  Op 0x5800 0xfc00 subax;
  Op 0x5c00 0xfe00 sub;
  Op 0x5e00 0xfe00 subp;
  Op 0x6000 0xf800 movr;
  Op 0x6800 0xfc00 movax;
  Op 0x6c00 0xfe00 mov;
  Op 0x6e00 0xfe00 movp;
  Op 0x7000 0xfc00 addaxl;
  Op 0x7400 0xfe00 incm;
  Op 0x7600 0xfe00 inc;
  Op 0x7800 0xfe00 decm;
  Op 0x7a00 0xfe00 dec;
  Op 0x7c00 0xfe00 neg;
  Op 0x7e00 0xfe00 movnp;
  Op 0x8000 0xf700 nx;
  Op 0x8100 0xf700 clr;
  Op 0x8200 0xff00 cmp;
  Op 0x8300 0xff00 mulaxh;
  Op 0x8400 0xff00 clrp;
  Op 0x8500 0xff00 tstprod;
  Op 0x8600 0xfe00 tstaxh;
  Op 0x8a00 0xff00 srbith;
  Op 0x8b00 0xff00 srbith;
  Op 0x8c00 0xff00 srbith;
  Op 0x8d00 0xff00 srbith;
  Op 0x8e00 0xff00 srbith;
  Op 0x8f00 0xff00 srbith;
  Op 0x9000 0xf700 mul;
  Op 0x9100 0xf700 asr16;
  Op 0x9200 0xf600 mulmvz;
  Op 0x9400 0xf600 mulac;
  Op 0x9600 0xf600 mulmv;
  Op 0xa000 0xe700 mulx;
  Op 0xa100 0xf700 abs;
  Op 0xa200 0xe600 mulxmvz;
  Op 0xa400 0xe600 mulxac;
  Op 0xa600 0xe600 mulxmv;
  Op 0xb100 0xf700 tst;
  Op 0xc000 0xe700 mulc;
  Op 0xc100 0xe700 cmpaxh;
  Op 0xc200 0xe600 mulcmvz;
  Op 0xc400 0xe600 mulcac;
  Op 0xc600 0xe600 mulcmv;
  Op 0xe000 0xfc00 maddx;
  Op 0xe400 0xfc00 msubx;
  Op 0xe800 0xfc00 maddc;
  Op 0xec00 0xfc00 msubc;
  Op 0xf000 0xfe00 lsl16;
  Op 0xf200 0xfe00 madd;
  Op 0xf400 0xfe00 lsr16;
  Op 0xf600 0xfe00 msub;
  Op 0xf800 0xfc00 addpaxz;
  Op 0xfc00 0xfe00 clrl;
  Op 0xfe00 0xfe00 movpz
].

Definition s_opcodes_ext : list InterpreterOpInfo := [
  Op 0x0000 0x00fc nop_ext;
  Op 0x0004 0x00fc dr;
  Op 0x0008 0x00fc ir;
  Op 0x000c 0x00fc nr;
  Op 0x0010 0x00f0 mv;
  Op 0x0020 0x00e4 s;
  Op 0x0024 0x00e4 sn;
  Op 0x0040 0x00c4 l;
  Op 0x0044 0x00c4 ln;
  Op 0x0080 0x00ce ls;
  Op 0x0082 0x00ce sl;
  Op 0x0084 0x00ce lsn;
  Op 0x0086 0x00ce sln;
  Op 0x0088 0x00ce lsm;
  Op 0x008a 0x00ce slm;
  Op 0x008c 0x00ce lsnm;
  Op 0x008e 0x00ce slnm;
  Op 0x00c3 0x00cf ldax;
  Op 0x00c7 0x00cf ldaxn;
  Op 0x00cb 0x00cf ldaxm;
  Op 0x00cf 0x00cf ldaxnm;
  Op 0x00c0 0x00cc ld;
  Op 0x00c4 0x00cc ldn;
  Op 0x00c8 0x00cc ldm;
  Op 0x00cc 0x00cc ldnm
].

(** The tables [InitInstructionTables] fills: the first match, or [nop]. *)
Definition lookup_function (inst : Z) (data : list InterpreterOpInfo) : InterpreterFunction :=
  match FindByOpcode int_opcode int_opcode_mask inst data with
  | Some info => function info
  | None => nop
  end.

Definition s_op_table (i : Z) : InterpreterFunction := lookup_function i s_opcodes.
Definition s_ext_op_table (i : Z) : InterpreterFunction := lookup_function i s_opcodes_ext.

Definition GetOp (inst : Z) : InterpreterFunction := s_op_table inst.
Definition GetExtOp (inst : Z) : InterpreterFunction :=
  let has_seven_bit_extension := (inst .>> 12) =? 0x3 in
  if has_seven_bit_extension then s_ext_op_table (inst .& 0x7F)
  else s_ext_op_table (inst .& 0xFF).

(** * Lemmas *)

Abbreviation W := (wf (H := H)).

(** A property of [nop] and of every function of a table holds of every lookup. *)
Lemma lookup_function_forall (Q : InterpreterFunction -> Prop) inst data :
  Q nop -> Forall (fun info => Q (function info)) data -> Q (lookup_function inst data).
Proof.
  intros Hn Hd. unfold lookup_function. destruct (FindByOpcode _ _ _ _) eqn:E; [|done].
  apply FindByOpcode_spec in E as [E _]. rewrite Forall_forall in Hd.
  apply Hd. by apply list_elem_of_In.
Qed.

Lemma typed_nop opc : typed W any (nop opc).
Proof. by apply typed_ret. Qed.

Lemma typed_GetOp inst opc : typed W any (GetOp inst opc).
Proof.
  apply (lookup_function_forall (fun f => typed W any (f opc))); [apply typed_nop|].
  repeat apply Forall_cons_2; try apply Forall_nil_2; cbn [function]; auto with typed.
Qed.

Lemma typed_GetExtOp inst opc : typed W any (GetExtOp inst opc).
Proof.
  unfold GetExtOp. destruct (_ =? _).
  all: apply (lookup_function_forall (fun f => typed W any (f opc))); [apply typed_nop|].
  all: repeat apply Forall_cons_2; try apply Forall_nil_2; cbn [function]; auto with typed.
Qed.
End IntTables.

#[export] Hint Resolve typed_GetOp typed_GetExtOp : typed.
