(* ===== verification/DSPRun.v ===== *)
(** Execution: one instruction, one step, and the three run loops of the
    interpreter ([Core/DSP/Interpreter/DSPInterpreter.cpp]), with the
    breakpoints of [Core/DSP/DSPBreakpoints.h]. *)
From stdpp Require Import base tactics option list gmap strings.
From Stdlib Require Import ZArith Lia Bool.
From S2P Require Import Prelude Accelerator DSPState DSPTables DSPHardware DSPInterpreter.
From S2P Require Import DSPBranch DSPIntTables.

#[local] Open Scope Z_scope.

(** * Breakpoints: [u8 b[65536]] *)

Definition bp_Clear : arr := ∅.
Definition IsAddressBreakPoint (b : arr) (addr : Z) : bool := negb (aat b addr =? 0).
Definition bp_Add (b : arr) (addr : Z) (temp : bool) : bool * arr :=
  if negb (IsAddressBreakPoint b addr) then (true, aupd b addr (if temp then 2 else 1))
  else (false, b).
Definition bp_Remove (b : arr) (addr : Z) : bool * arr :=
  (IsAddressBreakPoint b addr, aupd b addr 0).
Definition bp_DeleteByAddress (b : arr) (addr : Z) : arr := aupd b addr 0.

Section Run.
Context {H : Type} {hst : DSPHost H}.
Abbreviation DM := (M (State H)).

(** * One instruction *)

Definition ExecuteInstruction (inst : Z) : DM unit :=
  let opcode_template := GetOpTemplate inst in
  when (extended opcode_template) (GetExtOp inst inst) ;;
  GetOp inst inst ;;
  when (extended opcode_template) ApplyWriteBackLog.

Definition AdvanceStepCounter : DM unit := modf f_m_step_counter (fun c => to_u64 (c + 1)).

Definition Step : DM unit :=
  CheckExceptions ;;
  AdvanceStepCounter ;;
  opc ← FetchInstruction;
  ExecuteInstruction opc ;;
  pc ← getf f_pc;
  e ← IsLoopEnd (to_u16 (pc - 1));
  when e HandleLoop.

(** * Run loops *)

(** How a loop body ends: [Return r] is [return r;], [GoOn c] goes on with [cycles = c],
    [BreakAt r] is [SetState(State::Stepping); return r;]. *)
Inductive loop_exit : Type :=
  | Return (r : Z)
  | BreakAt (r : Z)
  | GoOn (cycles : Z).

(** [Step(); cycles--; if (cycles <= 0) return 0;] *)
Definition StepCycle (cycles : Z) : DM loop_exit :=
  Step ;;
  let cycles := cycles - 1 in
  mret (if cycles <=? 0 then Return 0 else GoOn cycles).

(** [for (int i = 0; i < n; i++) { guard; Step(); cycles--; if (cycles <= 0) return 0; }],
    where [guard] are the early returns before the step. *)
Fixpoint for_steps (n : nat) (guard : Z -> DM loop_exit) (cycles : Z) : DM loop_exit :=
  match n with
  | O => mret (GoOn cycles)
  | S n' =>
      g ← guard cycles;
      match g with
      | GoOn c =>
          x ← StepCycle c;
          match x with GoOn c' => for_steps n' guard c' | _ => mret x end
      | _ => mret g
      end
  end.

(** [if ((state.control_reg & CR_HALT) != 0) return 0;] *)
Definition halt_guard (cycles : Z) : DM loop_exit :=
  c ← getf f_control_reg;
  mret (if negb ((c .& CR_HALT) =? 0) then Return 0 else GoOn cycles).

(** [if (state.GetAnalyzer().IsIdleSkip(state.pc)) return 0;] *)
Definition idle_guard (cycles : Z) : DM loop_exit :=
  pc ← getf f_pc;
  i ← IsIdleSkip pc;
  mret (if (i : bool) then Return 0 else GoOn cycles).

(** [if (BreakPoints().IsAddressBreakPoint(state.pc)) { ... return cycles; }] *)
Definition break_guard (b : arr) (cycles : Z) : DM loop_exit :=
  pc ← getf f_pc;
  mret (if IsAddressBreakPoint b pc then BreakAt cycles else GoOn cycles).

Definition no_guard (cycles : Z) : DM loop_exit := mret (GoOn cycles).

Definition guards (g1 g2 : Z -> DM loop_exit) (cycles : Z) : DM loop_exit :=
  x ← g1 cycles;
  match x with GoOn c => g2 c | _ => mret x end.

(** [while (true) body], run at most [fuel] times; [None] is out of fuel.  The
    callers give it at least as much fuel as cycles, and every body uses one. *)
Fixpoint while_true (fuel : nat) (body : Z -> DM loop_exit) (cycles : Z) : DM (option loop_exit) :=
  match fuel with
  | O => mret None
  | S fuel' =>
      x ← body cycles;
      match x with GoOn c => while_true fuel' body c | _ => mret (Some x) end
  end.

Definition RunCyclesThread (cycles : Z) : DM (option loop_exit) :=
  while_true (S (Z.to_nat cycles)) (fun cycles =>
    g ← halt_guard cycles;
    match g with
    | GoOn _ =>
        w ← getf f_external_interrupt_waiting;
        setf f_external_interrupt_waiting false ;;
        when w CheckExternalInterrupt ;;
        StepCycle cycles
    | _ => mret g
    end) cycles.

(** The body of the [while (true)] of [RunCyclesDebug] and [RunCycles]. *)
Definition skip_body (break : Z -> DM loop_exit) (cycles : Z) : DM loop_exit :=
  x ← for_steps 8 (guards halt_guard (guards break idle_guard)) cycles;
  match x with GoOn c => for_steps 200 break c | _ => mret x end.

Definition run_cycles (break : Z -> DM loop_exit) (cycles : Z) : DM (option loop_exit) :=
  x ← for_steps 8 (guards halt_guard break) cycles;
  match x with
  | GoOn c => while_true (S (Z.to_nat cycles)) (skip_body break) c
  | _ => mret (Some x)
  end.

Definition RunCyclesDebug (b : arr) (cycles : Z) : DM (option loop_exit) :=
  run_cycles (break_guard b) cycles.

Definition RunCycles (cycles : Z) : DM (option loop_exit) := run_cycles no_guard cycles.

(** * Typing *)

Abbreviation W := (wf (H := H)).

Lemma typed_ExecuteInstruction inst : typed W any (ExecuteInstruction inst).
Proof. unfold ExecuteInstruction. tauto_typed. Qed.
#[local] Hint Resolve typed_ExecuteInstruction : typed.

Lemma typed_Step : typed W any Step.
Proof. unfold Step, AdvanceStepCounter, IsLoopEnd. tauto_typed. Qed.
#[local] Hint Resolve typed_Step : typed.

Lemma typed_StepCycle c : typed W any (StepCycle c).
Proof. unfold StepCycle. tauto_typed. Qed.
#[local] Hint Resolve typed_StepCycle : typed.

Lemma typed_for_steps n guard c :
  (forall c, typed W any (guard c)) -> typed W any (for_steps n guard c).
Proof.
  intros Hg. revert c. induction n as [|n IH]; intros c; cbn [for_steps]; [tauto_typed|].
  tstep; [apply Hg|]. case_match; try solve [tauto_typed].
  tstep; [tauto_typed|]. case_match; tauto_typed.
Qed.

Lemma typed_while_true n body c :
  (forall c, typed W any (body c)) -> typed W any (while_true n body c).
Proof.
  intros Hg. revert c. induction n as [|n IH]; intros c; cbn [while_true]; [tauto_typed|].
  tstep; [apply Hg|]. case_match; tauto_typed.
Qed.

Lemma typed_halt_guard c : typed W any (halt_guard c).
Proof. unfold halt_guard. tauto_typed. Qed.
Lemma typed_idle_guard c : typed W any (idle_guard c).
Proof. unfold idle_guard, IsIdleSkip. tauto_typed. Qed.
Lemma typed_break_guard b c : typed W any (break_guard b c).
Proof. unfold break_guard. tauto_typed. Qed.
Lemma typed_no_guard c : typed W any (no_guard c).
Proof. unfold no_guard. tauto_typed. Qed.
Lemma typed_guards g1 g2 c :
  (forall c, typed W any (g1 c)) -> (forall c, typed W any (g2 c)) -> typed W any (guards g1 g2 c).
Proof. intros. unfold guards. tstep; [auto|]. case_match; tauto_typed. Qed.
#[local] Hint Resolve typed_halt_guard typed_idle_guard typed_break_guard typed_no_guard
  typed_guards typed_for_steps : typed.

Lemma typed_run_cycles break c :
  (forall c, typed W any (break c)) -> typed W any (run_cycles break c).
Proof.
  intros Hb. unfold run_cycles. tstep; [auto with typed|].
  case_match; try solve [tauto_typed]. apply typed_while_true. intros. unfold skip_body.
  tstep; [auto with typed|]. case_match; tauto_typed.
Qed.

Lemma typed_RunCycles c : typed W any (RunCycles c).
Proof. apply typed_run_cycles. auto with typed. Qed.
Lemma typed_RunCyclesDebug b c : typed W any (RunCyclesDebug b c).
Proof. apply typed_run_cycles. auto with typed. Qed.
Lemma typed_RunCyclesThread c : typed W any (RunCyclesThread c).
Proof.
  apply typed_while_true. intros. tstep; [auto with typed|]. case_match; tauto_typed.
Qed.
End Run.

#[export] Hint Resolve typed_ExecuteInstruction typed_Step typed_RunCycles typed_RunCyclesDebug
  typed_RunCyclesThread : typed.
