(* ===== verification/DSPLLE.v ===== *)
(** The DSP as the rest of the emulator drives it
    ([Core/HW/DSPLLE/DSPLLE.cpp], [DSPCore::RunCycles]): the control register,
    the mailboxes, the periodic update, and the states they can reach.

    With the interpreter the emulator never uses a DSP thread
    ([DSPLLE::Initialize] clears [dsp_thread] when there is no JIT), so
    [m_is_dsp_on_thread] is false throughout. *)
From stdpp Require Import base tactics option list gmap strings relations.
From Stdlib Require Import ZArith Lia Bool.
From S2P Require Import Prelude Accelerator DSPState DSPTables DSPHardware DSPInterpreter DSPRun.

#[local] Open Scope Z_scope.

Section LLE.
Context {H : Type} {hst : DSPHost H}.
Abbreviation DM := (M (State H)).

(** [DSPCore::RunCycles] without JIT in [State::Running]: the [while (cycles > 0)]
    around the interpreter, at most [fuel] times. *)
Fixpoint CoreRunCycles (fuel : nat) (cycles : Z) : DM (option Z) :=
  match fuel with
  | O => mret None
  | S fuel' =>
      if 0 <? cycles then
        x ← RunCycles cycles;
        match x with
        | Some (Return r) => CoreRunCycles fuel' r
        | _ => mret None
        end
      else mret (Some cycles)
  end.

Definition DSP_ReadControlRegister : DM Z := ReadControlRegister.

Definition DSP_WriteControlRegister (value : Z) : DM Z :=
  WriteControlRegister value ;;
  when (negb ((value .& CR_EXTERNAL_INT) =? 0))
    (CheckExternalInterrupt ;;
     CheckExceptions) ;;
  DSP_ReadControlRegister.

Definition mailbox_of (cpu_mailbox : bool) : Mailbox := if cpu_mailbox then CPU else DSP.

Definition DSP_ReadMailBoxHigh (cpu_mailbox : bool) : DM Z :=
  ReadMailboxHigh (mailbox_of cpu_mailbox).
Definition DSP_ReadMailBoxLow (cpu_mailbox : bool) : DM Z :=
  ReadMailboxLow (mailbox_of cpu_mailbox).
Definition DSP_WriteMailBoxHigh (cpu_mailbox : bool) (value : Z) : DM unit :=
  when cpu_mailbox (WriteMailboxHigh CPU value).
Definition DSP_WriteMailBoxLow (cpu_mailbox : bool) (value : Z) : DM unit :=
  when cpu_mailbox (WriteMailboxLow CPU value).

(** [RunCycles] returns 0, so two turns of [DSPCore::RunCycles]'s loop suffice. *)
Definition DSP_Update (cycles : Z) : DM (option Z) :=
  let dsp_cycles := cycles ÷ 6 in
  if dsp_cycles <=? 0 then mret (Some 0)
  else CoreRunCycles 2 dsp_cycles.

(** * Reachable states *)

(** What the rest of the emulator does to the DSP; [Other f] is anything that
    changes only the host: the PowerPC writes its memory, time passes. *)
Inductive cpu_action : Type :=
  | ReadControl
  | WriteControl (value : Z)
  | ReadMailHigh (cpu_mailbox : bool)
  | ReadMailLow (cpu_mailbox : bool)
  | WriteMailHigh (cpu_mailbox : bool) (value : Z)
  | WriteMailLow (cpu_mailbox : bool) (value : Z)
  | Update (cycles : Z)
  | Other (f : H -> H).

(** The arguments have the types of the C++ parameters. *)
Definition action_ok (a : cpu_action) : Prop :=
  match a with
  | WriteControl v | WriteMailHigh _ v | WriteMailLow _ v => u16 v
  | Update c => s32 c
  | _ => True
  end.

Definition ignore {A} (m : DM A) : DM unit := m ;; mret tt.

Definition perform (a : cpu_action) : DM unit :=
  match a with
  | ReadControl => ignore DSP_ReadControlRegister
  | WriteControl v => ignore (DSP_WriteControlRegister v)
  | ReadMailHigh m => ignore (DSP_ReadMailBoxHigh m)
  | ReadMailLow m => ignore (DSP_ReadMailBoxLow m)
  | WriteMailHigh m v => DSP_WriteMailBoxHigh m v
  | WriteMailLow m v => DSP_WriteMailBoxLow m v
  | Update c => ignore (DSP_Update c)
  | Other f => modf f_host f
  end.

(** One action that comes back. *)
Inductive lle_step : State H -> State H -> Prop :=
  | lle_action a s s' : action_ok a -> perform a s = Done tt s' -> lle_step s s'.

(** The object as constructed, before [Initialize]. *)
Definition constructed (h : H) : State H :=
  mkState (mkSDSP regs_zero 0 0 0 ∅ 0 false ∅ ∅ ∅ ∅ ∅ 0 0 ∅ Accel_init ∅ ∅) ∅ (afill 5 (-1)) h.

(** [DSPLLE::Initialize]: the core's initialisation and reset. *)
Definition LLE_Initialize (irom_contents coef_contents : arr) (roms_ok : bool) : DM bool :=
  ok ← Initialize irom_contents coef_contents roms_ok;
  if negb ok then mret false
  else CoreReset ;; mret true.

Inductive reachable : State H -> Prop :=
  | reachable_init irom_contents coef_contents h s :
      arr_ok u16 irom_contents -> arr_ok u16 coef_contents ->
      LLE_Initialize irom_contents coef_contents true (constructed h) = Done true s ->
      reachable s
  | reachable_step s s' : reachable s -> lle_step s s' -> reachable s'.

(** * Typing *)

Abbreviation W := (wf (H := H)).

Lemma typed_CoreRunCycles fuel c : typed W any (CoreRunCycles fuel c).
Proof.
  revert c. induction fuel as [|fuel IH]; intros c; cbn [CoreRunCycles]; [tauto_typed|].
  tstep; [|tauto_typed]. tstep; [tauto_typed|]. repeat case_match; tauto_typed.
Qed.

Lemma typed_ignore {A} (T : A -> Prop) (m : DM A) : typed W T m -> typed W any (ignore m).
Proof. intros. unfold ignore. tstep; [done|]. tauto_typed. Qed.

Lemma typed_perform a : action_ok a -> typed W any (perform a).
Proof.
  destruct a; cbn [perform action_ok]; intros Ha.
  - apply typed_ignore with u16. apply typed_ReadControlRegister.
  - apply typed_ignore with u16. unfold DSP_WriteControlRegister, DSP_ReadControlRegister. tauto_typed.
  - apply typed_ignore with u16, typed_ReadMailboxHigh.
  - apply typed_ignore with u16, typed_ReadMailboxLow.
  - unfold DSP_WriteMailBoxHigh. tauto_typed.
  - unfold DSP_WriteMailBoxLow. tauto_typed.
  - apply typed_ignore with any. unfold DSP_Update. tstep; [tauto_typed | apply typed_CoreRunCycles].
  - apply (typed_modf _ f_host any). done.
Qed.

Lemma constructed_ok h : W (constructed h).
Proof.
  split; cbn.
  - split; cbn; try apply regs_zero_ok; try (apply arr_ok_empty; range_lia); try range_lia.
    split; cbn; range_lia.
  - apply arr_ok_empty. range_lia.
  - split; [|done]. apply (afill_ok backlog_idx 5 (-1)); unfold backlog_idx; lia.
Qed.

Lemma typed_LLE_Initialize i c ok :
  arr_ok u16 i -> arr_ok u16 c -> typed W any (LLE_Initialize i c ok).
Proof.
  intros. unfold LLE_Initialize. tstep; [by apply typed_Initialize|]. tauto_typed.
Qed.
End LLE.
Arguments cpu_action : clear implicits.
