(* ===== verification/DSPFacts.v ===== *)
(** What the services of the interpreter compute, as equations: accumulators,
    product and address registers read and written as values, and the status
    register bit by bit.  The instruction theorems are proved from these. *)
From stdpp Require Import base tactics option list gmap strings.
From Stdlib Require Import ZArith Lia Bool.
From S2P Require Import Prelude Accelerator DSPState DSPTables DSPHardware DSPInterpreter.

#[local] Open Scope Z_scope.

(** Splits the comparisons of the goal, innermost first, and calls [lia]. *)
Ltac atomic x :=
  lazymatch x with context [if _ then _ else _] => fail | _ => idtac end.
Ltac split_cmp :=
  repeat match goal with
  | |- context [?x <? ?y] => atomic x; atomic y; destruct (Z.ltb_spec x y)
  | |- context [?x <=? ?y] => atomic x; atomic y; destruct (Z.leb_spec x y)
  end; cbn [xorb andb orb negb]; try done; lia.

Ltac split_eq :=
  repeat match goal with
  | |- context [?x =? ?y] => atomic x; atomic y; destruct (Z.eqb_spec x y)
  | |- context [?x <? ?y] => atomic x; atomic y; destruct (Z.ltb_spec x y)
  | |- context [?x <=? ?y] => atomic x; atomic y; destruct (Z.leb_spec x y)
  end; cbn [xorb andb orb negb]; try done; lia.

(** * The status register *)

Lemma flag_testbit sr k : 0 <= k -> negb ((sr .& 2 ^ k) =? 0) = Z.testbit sr k.
Proof.
  intros Hk. destruct (Z.testbit sr k) eqn:E.
  - apply negb_true_iff, Z.eqb_neq. intros H0.
    assert (Hb : Z.testbit (sr .& 2 ^ k) k = true)
      by (rewrite Z.land_spec, E, Z.pow2_bits_eqb by done; by rewrite Z.eqb_refl).
    by rewrite H0, Z.bits_0 in Hb.
  - apply negb_false_iff, Z.eqb_eq, Z.bits_inj'. intros i Hi.
    rewrite Z.land_spec, Z.bits_0, Z.pow2_bits_eqb by done.
    destruct (Z.eqb_spec k i); [subst; by rewrite E | by rewrite andb_false_r].
Qed.

Lemma testbit_or_flag b k sr i :
  0 <= k -> Z.testbit (or_flag b (2 ^ k) sr) i = Z.testbit sr i || (b && (k =? i)).
Proof.
  intros. unfold or_flag. destruct b; cbn [andb]; [|by rewrite orb_false_r].
  by rewrite Z.lor_spec, Z.pow2_bits_eqb.
Qed.

(** The bits of [SR_CMP_MASK] cleared, the rest kept. *)
Lemma testbit_clear_cmp sr i :
  u16 sr -> Z.testbit (sr .& to_u16 (Z.lnot SR_CMP_MASK)) i = Z.testbit sr i && negb ((0 <=? i) && (i <? 6)).
Proof.
  intros Hsr. rewrite Z.land_spec. destruct (Z.lt_ge_cases i 0) as [Hi|Hi].
  { by rewrite (Z.testbit_neg_r sr) by done. }
  destruct (Z.lt_ge_cases i 16) as [Hi'|Hi'].
  - assert (Hc : i = 0 \/ i = 1 \/ i = 2 \/ i = 3 \/ i = 4 \/ i = 5 \/ i = 6 \/ i = 7 \/ i = 8 \/
      i = 9 \/ i = 10 \/ i = 11 \/ i = 12 \/ i = 13 \/ i = 14 \/ i = 15) by lia.
    repeat destruct Hc as [-> | Hc]; try done. by subst.
  - rewrite (proj1 (uN_bits 16 sr ltac:(lia) ltac:(unfold uN in *; lia)) Hsr i Hi'). done.
Qed.

(** [arith_flags carry overflow r sr sr']: [sr'] is [sr] with the comparison flags of
    the result [r]. *)
Record arith_flags (carry overflow : bool) (r sr sr' : Z) : Prop := {
  flag_carry : Z.testbit sr' 0 = carry;
  flag_overflow : Z.testbit sr' 1 = overflow;
  flag_zero : Z.testbit sr' 2 = (r =? 0);
  flag_sign : Z.testbit sr' 3 = (r <? 0);
  flag_over_s32 : Z.testbit sr' 4 = negb ((- 2 ^ 31 <=? r) && (r <? 2 ^ 31));
  flag_top2bits : Z.testbit sr' 5 = Bool.eqb (Z.testbit r 31) (Z.testbit r 30);
  flag_sticky : Z.testbit sr' 7 = Z.testbit sr 7 || overflow;
  flag_others : forall i, 6 <= i -> i <> 7 -> Z.testbit sr' i = Z.testbit sr i
}.

Lemma isOverS32_spec r : isOverS32 r = negb ((- 2 ^ 31 <=? r) && (r <? 2 ^ 31)).
Proof.
  unfold isOverS32. f_equal. destruct (Z.eqb_spec r (to_s32 r)) as [E|E].
  - pose proof (wraps_range 32 r ltac:(lia)) as Hr. rewrite <- E in Hr. unfold sN in Hr. lia.
  - destruct ((- 2 ^ 31 <=? r) && (r <? 2 ^ 31)) eqn:B; [|done].
    destruct E. symmetry. apply wraps_small; [lia | unfold sN; lia].
Qed.

Lemma top2bits_spec r :
  ((r .& 0xc0000000) =? 0) || ((r .& 0xc0000000) =? 0xc0000000) =
  Bool.eqb (Z.testbit r 31) (Z.testbit r 30).
Proof.
  assert (E : r .& 0xc0000000 = Z.b2z (Z.testbit r 31) * 2 ^ 31 + Z.b2z (Z.testbit r 30) * 2 ^ 30).
  { replace 0xc0000000 with (2 ^ 31 .| 2 ^ 30) by reflexivity.
    rewrite Z.land_lor_distr_r.
    assert (Hp : forall k, 0 <= k -> r .& 2 ^ k = Z.b2z (Z.testbit r k) * 2 ^ k).
    { intros k Hk. pose proof (flag_testbit r k Hk) as Hf. apply Z.bits_inj'. intros i Hi.
      rewrite Z.land_spec, Z.pow2_bits_eqb by done.
      destruct (Z.testbit r k) eqn:Eb; cbn [Z.b2z].
      - rewrite Z.mul_1_l, Z.pow2_bits_eqb by done. destruct (Z.eqb_spec k i); [by subst; rewrite Eb|].
        apply andb_false_r.
      - rewrite Z.mul_0_l, Z.bits_0. destruct (Z.eqb_spec k i); [by subst; rewrite Eb|].
        apply andb_false_r. }
    rewrite !Hp by lia. by destruct (Z.testbit r 31), (Z.testbit r 30). }
  rewrite E. by destruct (Z.testbit r 31), (Z.testbit r 30).
Qed.

Lemma UpdateSR64_flags v c o sr :
  u16 sr -> arith_flags c o v sr (UpdateSR64_sr v c o sr).
Proof.
  intros Hsr. unfold UpdateSR64_sr. rewrite top2bits_spec, isOverS32_spec. cbv zeta.
  change (or_flag c SR_CARRY) with (or_flag c (2 ^ 0)).
  change (or_flag o SR_OVERFLOW) with (or_flag o (2 ^ 1)).
  change (or_flag o SR_OVERFLOW_STICKY) with (or_flag o (2 ^ 7)).
  change (or_flag (v =? 0) SR_ARITH_ZERO) with (or_flag (v =? 0) (2 ^ 2)).
  change (or_flag (v <? 0) SR_SIGN) with (or_flag (v <? 0) (2 ^ 3)).
  change (or_flag ?b SR_OVER_S32) with (or_flag b (2 ^ 4)).
  change (or_flag ?b SR_TOP2BITS) with (or_flag b (2 ^ 5)).
  split; intros; rewrite !testbit_or_flag by lia; rewrite testbit_clear_cmp by done.
  all: cbn -[Z.testbit Z.pow Z.ltb Z.leb Z.eqb]; rewrite ?andb_false_r, ?andb_true_r, ?orb_false_r; try done.
  destruct (Z.ltb_spec i 6); [lia|]. rewrite andb_false_r, andb_true_r.
  repeat match goal with |- context [?a =? i] => destruct (Z.eqb_spec a i); [lia|] end.
  by rewrite ?andb_false_r, ?orb_false_r.
Qed.

(** * Carry and overflow of 40-bit addition and subtraction *)

Lemma u64_s40_order a b : s40 a -> s40 b -> (to_u64 a <? to_u64 b) = (wrapu 40 a <? wrapu 40 b).
Proof.
  intros Ha Hb.
  assert (Hu : forall w x, 40 <= w -> s40 x -> wrapu w x = if x <? 0 then x + 2 ^ w else x).
  { intros w x Hw Hx. unfold sN in Hx. pose proof (Z.pow_le_mono_r 2 40 w ltac:(lia) Hw).
    destruct (Z.ltb_spec x 0).
    - apply (wrapu_unique w _ _ (-1)); unfold uN; lia.
    - apply wrapu_small; unfold uN; lia. }
  rewrite !Hu by (done || lia). unfold sN in *.
  destruct (Z.ltb_spec a 0), (Z.ltb_spec b 0);
    repeat match goal with |- context [?x <? ?y] => destruct (Z.ltb_spec x y) end; try done; lia.
Qed.

Lemma wrapu40_s40 x : s40 x -> wrapu 40 x = if x <? 0 then x + 2 ^ 40 else x.
Proof.
  intros Hx. unfold sN in Hx. destruct (Z.ltb_spec x 0).
  - apply (wrapu_unique 40 _ _ (-1)); unfold uN; lia.
  - apply wrapu_small; unfold uN; lia.
Qed.

Lemma wraps40_cases x : - 2 ^ 40 <= x <= 2 ^ 40 ->
  wraps 40 x = if x <? - 2 ^ 39 then x + 2 ^ 40 else if 2 ^ 39 <=? x then x - 2 ^ 40 else x.
Proof.
  intros Hx. destruct (Z.ltb_spec x (- 2 ^ 39)), (Z.leb_spec (2 ^ 39) x); try lia.
  - apply (wraps_unique 40 _ _ (-1)); unfold sN; lia.
  - apply (wraps_unique 40 _ _ 1); unfold sN; lia.
  - apply wraps_small; unfold sN; lia.
Qed.

Definition fits40 (x : Z) : bool := (- 2 ^ 39 <=? x) && (x <? 2 ^ 39).

Lemma fits40_spec x : fits40 x = true <-> s40 x.
Proof. unfold fits40, sN. rewrite andb_true_iff, Z.leb_le, Z.ltb_lt. done. Qed.

Lemma isCarryAdd_spec a b :
  s40 a -> s40 b -> isCarryAdd a (wraps 40 (a + b)) = (2 ^ 40 <=? wrapu 40 a + wrapu 40 b).
Proof.
  intros Ha Hb. unfold isCarryAdd. rewrite u64_s40_order by (done || apply wraps_range; lia).
  pose proof (wraps_range 40 (a + b) ltac:(lia)) as Hr. rewrite (wrapu40_s40 _ Hr).
  rewrite wrapu40_s40, (wrapu40_s40 b), wraps40_cases in * by (done || unfold sN in *; lia).
  unfold sN in *.
  split_cmp.
Qed.

Lemma isCarrySubtract_spec a b :
  s40 a -> s40 b -> isCarrySubtract a (wraps 40 (a - b)) = (wrapu 40 b <=? wrapu 40 a).
Proof.
  intros Ha Hb. unfold isCarrySubtract. rewrite !Z.leb_antisym. f_equal.
  rewrite u64_s40_order by (done || apply wraps_range; lia).
  pose proof (wraps_range 40 (a - b) ltac:(lia)) as Hr. rewrite (wrapu40_s40 _ Hr).
  rewrite wrapu40_s40, (wrapu40_s40 b), wraps40_cases in * by (done || unfold sN in *; lia).
  unfold sN in *.
  split_cmp.
Qed.

Lemma isOverflow_signs a b r :
  isOverflow a b r = xorb (a <? 0) (r <? 0) && xorb (b <? 0) (r <? 0).
Proof.
  unfold isOverflow.
  assert (Hn : forall x y, (x .& y <? 0) = (x <? 0) && (y <? 0)).
  { intros x y. pose proof (Z.land_nonneg x y). destruct (Z.ltb_spec (x .& y) 0), (Z.ltb_spec x 0), (Z.ltb_spec y 0);
      cbn; try done; lia. }
  assert (Hx : forall x y, (x .^ y <? 0) = xorb (x <? 0) (y <? 0)).
  { intros x y. pose proof (Z.lxor_nonneg x y). destruct (Z.ltb_spec (x .^ y) 0), (Z.ltb_spec x 0), (Z.ltb_spec y 0);
      cbn; try done; lia. }
  by rewrite Hn, !Hx.
Qed.

Lemma isOverflow_add_spec a b :
  s40 a -> s40 b -> isOverflow a b (wraps 40 (a + b)) = negb (fits40 (a + b)).
Proof.
  intros Ha Hb. rewrite isOverflow_signs, wraps40_cases by (unfold sN in *; lia).
  unfold fits40, sN in *.
  split_cmp.
Qed.

Lemma isOverflow_sub_spec a b :
  s40 a -> s40 b -> isOverflow a (- b) (wraps 40 (a - b)) = negb (fits40 (a - b)).
Proof.
  intros Ha Hb. rewrite isOverflow_signs, wraps40_cases by (unfold sN in *; lia).
  unfold fits40, sN in *.
  split_cmp.
Qed.

(** * Accumulators, product and registers as values *)

(** A number in three fields, the lower two 16 bits wide. *)
Lemma split_16_16 u : u = u / 2 ^ 32 * 2 ^ 32 + to_u16 (u / 2 ^ 16) * 2 ^ 16 + to_u16 u.
Proof.
  unfold wrapu. pose proof (Z.div_mod u (2 ^ 16) ltac:(lia)).
  pose proof (Z.div_mod (u / 2 ^ 16) (2 ^ 16) ltac:(lia)) as E.
  rewrite Z.div_div in E by lia. change (2 ^ 16 * 2 ^ 16) with (2 ^ 32) in E. lia.
Qed.

Section Values.
Context {H : Type} {hst : DSPHost H}.
Implicit Type s : State H.

(** [$acD], [$prod], [$axS], [$axS.l], [$axS.h], [$acD.m] as signed numbers. *)
Definition acc s (d : Z) : Z :=
  to_s64 (ac_val (aat (fget f_ac_l s) d) (aat (fget f_ac_m s) d) (aat (fget f_ac_h s) d)).
Definition product s : Z :=
  long_product (fget f_prod_l s) (fget f_prod_m s) (fget f_prod_h s) (fget f_prod_m2 s).
Definition ax_val s (i : Z) : Z :=
  to_s32 ((aat (fget f_ax_h s) i .<< 16) .| aat (fget f_ax_l s) i).
Definition ax_low s (i : Z) : Z := to_s16 (aat (fget f_ax_l s) i).
Definition ax_high s (i : Z) : Z := to_s16 (aat (fget f_ax_h s) i).
Definition acc_mid s (d : Z) : Z := to_s16 (aat (fget f_ac_m s) d).

(** [put_acc d v s]: the accumulator [d] holds [v], wrapped to 40 bits. *)
Definition put_acc (d v : Z) s : State H :=
  let val := to_u64 (wraps 40 v) in
  let s1 := fset f_ac_l (aupd (fget f_ac_l s) d (to_u16 val)) s in
  let s2 := fset f_ac_m (aupd (fget f_ac_m s1) d (to_u16 (val .>> 16))) s1 in
  fset f_ac_h (aupd (fget f_ac_h s2) d (to_u32 (val .>> 32))) s2.

(** [put_product v s]: the product register holds [v]'s low 40 bits, unsplit. *)
Definition put_product (v : Z) s : State H :=
  let val := to_u64 (v .& 0x000000FFFFFFFFFF) in
  fset f_prod_m2 (to_u16 (val .>> 48)) (fset f_prod_h (to_u16 (val .>> 32))
    (fset f_prod_m (to_u16 (val .>> 16)) (fset f_prod_l (to_u16 val) s))).

Lemma acc_put d v s : acc (put_acc d v s) d = wraps 40 v.
Proof.
  unfold acc, put_acc. cbn. rewrite !aat_aupd_eq. apply ac_split. apply wraps_range. lia.
Qed.

Lemma acc_put_ne d d' v s : d <> d' -> acc (put_acc d v s) d' = acc s d'.
Proof. intros. unfold acc, put_acc. cbn. by rewrite !aat_aupd_ne. Qed.

Lemma acc_s40 s d : wf s -> s40 (acc s d).
Proof.
  intros Hs. apply ac_val_s40;
    [ apply (ft_get (F := f_ac_l) (P := arr_ok u16) s Hs)
    | apply (ft_get (F := f_ac_m) (P := arr_ok u16) s Hs)
    | apply (ft_get (F := f_ac_h) (P := arr_ok ach) s Hs) ].
Qed.

Lemma product_s41 s : wf s -> sN 41 (product s).
Proof.
  intros Hs. unfold product. apply long_product_range;
    [ apply (ft_get (F := f_prod_l) (P := u16) s Hs) | apply (ft_get (F := f_prod_m) (P := u16) s Hs)
    | apply (ft_get (F := f_prod_m2) (P := u16) s Hs) ].
Qed.

Lemma product_put v s : product (put_product v s) = wraps 40 v.
Proof.
  unfold product, put_product. cbn.
  replace 0x000000FFFFFFFFFF with (2 ^ 40 - 1) by reflexivity. rewrite land_wrapu by lia.
  pose proof (wrapu_range 40 v ltac:(lia)) as Hu. rewrite (wrapu_small 64) by (unfold uN in *; lia).
  rewrite !Z.shiftr_div_pow2 by lia.
  rewrite long_product_sum by (apply wrapu_range; lia).
  destruct (wrapu_spec 40 v ltac:(lia)) as [k Hk]. set (u := wrapu 40 v) in *. clearbody u.
  symmetry.
  assert (E48 : to_u16 (u / 2 ^ 48) = 0) by (rewrite Z.div_small by (unfold uN in *; lia); done).
  rewrite E48, Z.add_0_r. unfold uN in Hu.
  assert (Hh : 0 <= u / 2 ^ 32 < 2 ^ 8)
    by (split; [apply Z.div_pos; lia | apply Z.div_lt_upper_bound; lia]).
  rewrite (wrapu_small 16 (u / 2 ^ 32)) by (unfold uN; lia).
  destruct (wraps_spec 8 (u / 2 ^ 32) ltac:(lia)) as [j Hj].
  pose proof (wraps_range 8 (u / 2 ^ 32) ltac:(lia)) as Hr.
  apply (wraps_unique 40 _ _ (k + j)); [lia | |].
  - unfold wrapu, sN in *. pose proof (Z.mod_pos_bound (u / 2 ^ 16) (2 ^ 16) ltac:(lia)).
    pose proof (Z.mod_pos_bound u (2 ^ 16) ltac:(lia)). lia.
  - enough (u = to_s8 (u / 2 ^ 32) * 2 ^ 32 + to_u16 (u / 2 ^ 16) * 2 ^ 16 + to_u16 u + j * 2 ^ 40) by lia.
    assert (u = u / 2 ^ 32 * 2 ^ 32 + to_u16 (u / 2 ^ 16) * 2 ^ 16 + to_u16 u)
      by apply split_16_16. lia.
Qed.

(** Updates of one part leave the others. *)
Lemma acc_sr v s d : acc (fset f_sr v s) d = acc s d.
Proof. done. Qed.
Lemma product_sr v s : product (fset f_sr v s) = product s.
Proof. done. Qed.
Lemma product_put_acc d v s : product (put_acc d v s) = product s.
Proof. done. Qed.

(** ** Running the accessors *)

Lemma run_GetLongAcc d s : 0 <= d < 2 -> GetLongAcc d s = Done (acc s d) s.
Proof. intros. unfold GetLongAcc. mrun. Qed.
Lemma run_SetLongAcc d v s : 0 <= d < 2 -> SetLongAcc d v s = Done tt (put_acc d v s).
Proof.
  intros. unfold SetLongAcc. rewrite shl_shr_sext by lia. change (64 - (64 - 40)) with 40.
  mrun.
Qed.
Lemma run_GetAccMid d s : 0 <= d < 2 -> GetAccMid d s = Done (acc_mid s d) s.
Proof. intros. unfold GetAccMid. mrun. Qed.
Lemma run_GetLongACX i s : 0 <= i < 2 -> GetLongACX i s = Done (ax_val s i) s.
Proof. intros. unfold GetLongACX. mrun. Qed.
Lemma run_GetAXLow i s : 0 <= i < 2 -> GetAXLow i s = Done (ax_low s i) s.
Proof. intros. unfold GetAXLow. mrun. Qed.
Lemma run_GetAXHigh i s : 0 <= i < 2 -> GetAXHigh i s = Done (ax_high s i) s.
Proof. intros. unfold GetAXHigh. mrun. Qed.
Lemma run_GetLongProduct s : GetLongProduct s = Done (product s) s.
Proof. done. Qed.
Lemma run_SetLongProduct v s : SetLongProduct v s = Done tt (put_product v s).
Proof. done. Qed.
Lemma run_ZeroWriteBackLog s : ZeroWriteBackLog s = Done tt s.
Proof. done. Qed.
Lemma run_ZeroWriteBackLogPreserveAcc a s : ZeroWriteBackLogPreserveAcc a s = Done tt s.
Proof. done. Qed.
Lemma run_IsSRFlagSet f s : IsSRFlagSet f s = Done (negb ((fget f_sr s .& f) =? 0)) s.
Proof. done. Qed.
Lemma bind_ret_unit (m : M (State H) unit) s : (m ;; ZeroWriteBackLog) s = m s.
Proof. unfold mbind, M_bind. by destruct (m s) as [[] ?|]. Qed.
Lemma run_UpdateSR64 v c o s :
  UpdateSR64 v c o s = Done tt (fset f_sr (UpdateSR64_sr v c o (fget f_sr s)) s).
Proof. done. Qed.

(** The flags of an addition, a subtraction and a plain result. *)
Lemma run_UpdateSR64Add a b s : wf s -> s40 a -> s40 b -> exists sr',
  arith_flags (2 ^ 40 <=? wrapu 40 a + wrapu 40 b) (negb (fits40 (a + b))) (wraps 40 (a + b))
    (fget f_sr s) sr' /\
  UpdateSR64Add a b (wraps 40 (a + b)) s = Done tt (fset f_sr sr' s).
Proof.
  intros Hs Ha Hb. eexists. split; [|done].
  rewrite <- isCarryAdd_spec, <- isOverflow_add_spec by done. apply UpdateSR64_flags, Hs.
Qed.

Lemma run_UpdateSR64Sub a b s : wf s -> s40 a -> s40 b -> exists sr',
  arith_flags (wrapu 40 b <=? wrapu 40 a) (negb (fits40 (a - b))) (wraps 40 (a - b))
    (fget f_sr s) sr' /\
  UpdateSR64Sub a b (wraps 40 (a - b)) s = Done tt (fset f_sr sr' s).
Proof.
  intros Hs Ha Hb. eexists. split; [|done].
  rewrite <- isCarrySubtract_spec, <- isOverflow_sub_spec by done. apply UpdateSR64_flags, Hs.
Qed.

Lemma wf_put_acc d v s : 0 <= d < 2 -> wf s -> wf (put_acc d v s).
Proof.
  intros Hd Hs. pose proof (typed_SetLongAcc d v Hd s Hs) as Ht.
  rewrite run_SetLongAcc in Ht by done. apply Ht.
Qed.
End Values.

#[export] Hint Resolve run_GetLongAcc run_SetLongAcc run_GetAccMid run_GetLongACX run_GetAXLow
  run_GetAXHigh run_GetLongProduct run_SetLongProduct run_ZeroWriteBackLog
  run_ZeroWriteBackLogPreserveAcc run_IsSRFlagSet run_UpdateSR64 : run.

(** * Instruction memory *)

Section Fetch.
Context {H : Type} {hst : DSPHost H}.
Implicit Type s : State H.

(** The word of instruction memory at [a]. *)
Definition imem s (a : Z) : Z :=
  match a .>> 12 with
  | 0 => aat (fget f_iram s) (a .& DSP_IRAM_MASK)
  | 8 => aat (fget f_irom s) (a .& DSP_IROM_MASK)
  | _ => 0
  end.

(** The state after [n] words were fetched. *)
Definition past (n : Z) s : State H := fset f_pc (to_u16 (fget f_pc s + n)) s.

Lemma run_ReadIMEM a s : ReadIMEM a s = Done (imem s a) s.
Proof. unfold ReadIMEM, imem. repeat case_match; try done; apply run_geta; range_lia. Qed.

Lemma run_FetchInstruction s : FetchInstruction s = Done (imem s (fget f_pc s)) (past 1 s).
Proof.
  unfold FetchInstruction, PeekInstruction. erewrite bind_done; [|apply run_ReadIMEM]. done.
Qed.

Lemma run_SkipInstruction s :
  SkipInstruction s = Done tt (past (size (GetOpTemplate (imem s (fget f_pc s)))) s).
Proof.
  unfold SkipInstruction, PeekInstruction. erewrite bind_done; [|apply run_ReadIMEM]. done.
Qed.

Lemma imem_range s a : wf s -> u16 (imem s a).
Proof.
  intros Hs. pose proof (typed_ReadIMEM a s Hs) as Ht. rewrite run_ReadIMEM in Ht. apply Ht.
Qed.

Lemma wf_past n s : wf s -> wf (past n s).
Proof. intros. apply (ft_set (F := f_pc) (P := u16)); [done | solve_uN]. Qed.
End Fetch.

#[export] Hint Resolve run_ReadIMEM run_FetchInstruction run_SkipInstruction : run.

(** * Values modulo 2^40 *)

Lemma wraps40_congr x y k : x = y + k * 2 ^ 40 -> wraps 40 x = wraps 40 y.
Proof. intros ->. by rewrite wraps_add_mul. Qed.

Lemma wraps40_s64 x : wraps 40 (to_s64 x) = wraps 40 x.
Proof.
  destruct (wraps_spec 64 x ltac:(lia)) as [k Hk]. symmetry.
  apply (wraps40_congr _ _ (k * 2 ^ 24)). lia.
Qed.

Lemma wraps40_u64 x : wraps 40 (to_u64 x) = wraps 40 x.
Proof.
  destruct (wrapu_spec 64 x ltac:(lia)) as [k Hk]. symmetry.
  apply (wraps40_congr _ _ (k * 2 ^ 24)). lia.
Qed.

Lemma wraps40_mul x y n : wraps 40 x = wraps 40 y -> 0 <= n -> wraps 40 (x * 2 ^ n) = wraps 40 (y * 2 ^ n).
Proof.
  intros E Hn. destruct (wraps_spec 40 x ltac:(lia)) as [k Hk], (wraps_spec 40 y ltac:(lia)) as [j Hj].
  apply (wraps40_congr _ _ ((k - j) * 2 ^ n)). rewrite Hk, E, Hj at 1.
  rewrite Hj at 2. rewrite wraps_add_mul by lia. rewrite (wraps_small 40 (wraps 40 y)); [lia..|].
  apply wraps_range. lia.
Qed.

(** The low 40 bits of the [u64] of an accumulator. *)
Lemma land_ones40_u64 x : to_u64 x .& 0x000000FFFFFFFFFF = wrapu 40 x.
Proof.
  replace 0x000000FFFFFFFFFF with (2 ^ 40 - 1) by reflexivity. rewrite land_wrapu by lia.
  destruct (wrapu_spec 64 x ltac:(lia)) as [k Hk]. destruct (wrapu_spec 40 x ltac:(lia)) as [j Hj].
  apply (wrapu_unique 40 _ _ (j - k * 2 ^ 24)); [apply wrapu_range; lia | lia].
Qed.

Lemma put_acc_congr {H} d v w (s : State H) : wraps 40 v = wraps 40 w -> put_acc d v s = put_acc d w s.
Proof. intros E. unfold put_acc. by rewrite E. Qed.

Lemma lxor_ffff m : u16 m -> m .^ 0xffff = 0xffff - m.
Proof.
  intros Hm. rewrite Z.sub_nocarry_ldiff.
  - apply Z.bits_inj'. intros i Hi. rewrite Z.lxor_spec, Z.ldiff_spec.
    change 0xffff with (Z.ones 16). rewrite Z.testbit_ones by lia.
    destruct (Z.ltb_spec i 16).
    + rewrite (proj2 (Z.leb_le 0 i)) by lia. by destruct (Z.testbit m i).
    + rewrite andb_false_r, (proj1 (uN_bits 16 m ltac:(lia) ltac:(unfold uN in *; lia)) Hm i) by lia. done.
  - apply Z.bits_inj'. intros i Hi. rewrite Z.ldiff_spec, Z.bits_0.
    change 0xffff with (Z.ones 16). rewrite Z.testbit_ones by lia.
    destruct (Z.ltb_spec i 16).
    + rewrite (proj2 (Z.leb_le 0 i)) by lia. apply andb_false_r.
    + by rewrite (proj1 (uN_bits 16 m ltac:(lia) ltac:(unfold uN in *; lia)) Hm i) by lia.
Qed.

(** ** Flags of a 16-bit result *)

(** [logic_flags v a sr sr']: [sr'] is [sr] with the flags of the 16-bit result [v]
    stored in an accumulator that now holds [a]. *)
Record logic_flags (v a sr sr' : Z) : Prop := {
  lflag_carry : Z.testbit sr' 0 = false;
  lflag_overflow : Z.testbit sr' 1 = false;
  lflag_zero : Z.testbit sr' 2 = (v =? 0);
  lflag_sign : Z.testbit sr' 3 = Z.testbit v 15;
  lflag_over_s32 : Z.testbit sr' 4 = negb ((- 2 ^ 31 <=? a) && (a <? 2 ^ 31));
  lflag_top2bits : Z.testbit sr' 5 = Bool.eqb (Z.testbit v 15) (Z.testbit v 14);
  lflag_others : forall i, 6 <= i -> Z.testbit sr' i = Z.testbit sr i
}.

Lemma u16_top v : u16 v -> v .>> 14 = 2 * Z.b2z (Z.testbit v 15) + Z.b2z (Z.testbit v 14).
Proof.
  intros Hv. unfold uN in Hv. rewrite !Z.testbit_spec', Z.shiftr_div_pow2 by lia.
  assert (0 <= v / 2 ^ 14 < 4) by (split; [apply Z.div_pos; lia | apply Z.div_lt_upper_bound; lia]).
  replace (v / 2 ^ 15) with (v / 2 ^ 14 / 2) by (rewrite Z.div_div by lia; done).
  pose proof (Z.div_mod (v / 2 ^ 14) 2 ltac:(lia)).
  rewrite (Z.mod_small (v / 2 ^ 14 / 2)); [lia|].
  split; [apply Z.div_pos; lia | apply Z.div_lt_upper_bound; lia].
Qed.

Lemma s16_cases v : u16 v ->
  (Z.testbit v 15 = true /\ to_s16 v = v - 2 ^ 16 /\ 2 ^ 15 <= v) \/
  (Z.testbit v 15 = false /\ to_s16 v = v /\ v < 2 ^ 15).
Proof.
  intros Hv. unfold uN in Hv. pose proof (Z.testbit_spec' v 15 ltac:(lia)) as Hb.
  assert (Hd : 0 <= v / 2 ^ 15 < 2) by (split; [apply Z.div_pos; lia | apply Z.div_lt_upper_bound; lia]).
  rewrite Z.mod_small in Hb by done. pose proof (Z.div_mod v (2 ^ 15) ltac:(lia)).
  pose proof (Z.mod_pos_bound v (2 ^ 15) ltac:(lia)).
  destruct (Z.testbit v 15); cbn [Z.b2z] in Hb; [left | right]; (split; [done | split; [|lia]]).
  - apply (wraps_unique 16 _ _ 1); unfold sN; lia.
  - apply wraps_small; unfold sN; lia.
Qed.

Lemma s16_sign v : u16 v ->
  (to_s16 v =? 0) = (v =? 0) /\ (to_s16 v <? 0) = Z.testbit v 15.
Proof.
  intros Hv. destruct (s16_cases v Hv) as [(Hb & Hw & Hr) | (Hb & Hw & Hr)]; rewrite Hb, Hw;
    unfold uN in Hv; split; lia.
Qed.

Lemma UpdateSR16_flags v a sr :
  u16 v -> u16 sr -> logic_flags v a sr (UpdateSR16_sr (to_s16 v) false false (isOverS32 a) sr).
Proof.
  intros Hv Hsr. unfold UpdateSR16_sr. rewrite isOverS32_spec, wrapu_wraps, (wrapu_small 16 v) by (done || lia).
  replace (((v .>> 14) =? 0) || ((v .>> 14) =? 3)) with (Bool.eqb (Z.testbit v 15) (Z.testbit v 14))
    by (rewrite u16_top by done; by destruct (Z.testbit v 15), (Z.testbit v 14)).
  destruct (s16_sign v Hv) as [Hz Hn]. rewrite Hz, Hn. cbv zeta.
  change (or_flag false SR_CARRY) with (or_flag false (2 ^ 0)).
  change (or_flag false SR_OVERFLOW) with (or_flag false (2 ^ 1)).
  change (or_flag false SR_OVERFLOW_STICKY) with (or_flag false (2 ^ 7)).
  change (or_flag (v =? 0) SR_ARITH_ZERO) with (or_flag (v =? 0) (2 ^ 2)).
  change (or_flag (Z.testbit v 15) SR_SIGN) with (or_flag (Z.testbit v 15) (2 ^ 3)).
  change (or_flag ?b SR_OVER_S32) with (or_flag b (2 ^ 4)).
  change (or_flag ?b SR_TOP2BITS) with (or_flag b (2 ^ 5)).
  split; intros; rewrite !testbit_or_flag by lia; rewrite testbit_clear_cmp by done.
  all: cbn -[Z.testbit Z.pow Z.ltb Z.leb Z.eqb]; rewrite ?andb_false_r, ?andb_true_r, ?orb_false_r; try done.
  destruct (Z.ltb_spec i 6); [lia|]. rewrite andb_false_r, andb_true_r.
  repeat match goal with |- context [?a =? i] => destruct (Z.eqb_spec a i); [lia|] end.
  by rewrite ?andb_false_r, ?orb_false_r.
Qed.
