(* ===== verification/SimHost.v ===== *)
(** A concrete host, on which the theorems' witnesses run: flat main memory and
    ARAM, a count of the interrupts raised, and a clock. *)
From stdpp Require Import base tactics option list gmap strings.
From Stdlib Require Import ZArith Lia Bool.
From S2P Require Import Prelude Accelerator DSPState DSPTables DSPHardware DSPInterpreter.
From S2P Require Import DSPRun DSPLLE.

#[local] Open Scope Z_scope.

Record sim : Type := mkSim {
  sim_aram : arr;
  sim_mem : arr;
  sim_interrupts : Z;
  sim_time : Z
}.

(** Main memory is 24 MiB from [0x80000000]. *)
Definition sim_range_valid (addr size : Z) : bool :=
  (0x80000000 <=? addr) && (addr + size <=? 0x81800000).

#[export] Instance sim_host : DSPHost sim := {
  ReadARAM a h := aat (sim_aram h) a;
  WriteARAM v a h := mkSim (aupd (sim_aram h) a v) (sim_mem h) (sim_interrupts h) (sim_time h);
  range_valid a n _ := sim_range_valid a n;
  mem_read_u8 a h := aat (sim_mem h) a;
  mem_write_u8 a v h := mkSim (sim_aram h) (aupd (sim_mem h) a v) (sim_interrupts h) (sim_time h);
  GenerateDSPInterrupt h := mkSim (sim_aram h) (sim_mem h) (sim_interrupts h + 1) (sim_time h);
  GetFakeTimeBase h := sim_time h;
  ForceExceptionCheck _ h := h
}.

Definition sim0 : sim := mkSim ∅ ∅ 0 0.

(** The DSP as constructed, around this host. *)
Definition sim_state : State sim := constructed sim0.

(** ... with a program in the instruction ROM, at the reset vector. *)
Definition sim_program (words : list Z) : State sim :=
  fset f_pc 0x8000 (fset f_irom (aupd_list ∅ 0 words) sim_state).

Definition is_done {S A} (o : outcome S A) : bool := match o with Done _ _ => true | Fault _ => false end.

Lemma sim_state_ok : wf sim_state.
Proof. apply constructed_ok. Qed.

Lemma sim_program_ok words : Forall u16 words -> wf (sim_program words).
Proof.
  intros Hw. unfold sim_program.
  apply (ft_set (F := f_pc) (P := u16)); [|range_lia].
  apply (ft_set (F := f_irom) (P := arr_ok u16)); [apply sim_state_ok|].
  apply arr_ok_aupd_list; [apply arr_ok_empty; range_lia | done].
Qed.
