(* ===== verification/ArithmeticProps.v ===== *)
(** What the arithmetic instructions do to the accumulators and the flags: each
    family against its specification on 40-bit integers. *)
From stdpp Require Import base tactics option list gmap strings.
From Stdlib Require Import ZArith Lia Bool.
From S2P Require Import Prelude Accelerator DSPState DSPTables DSPHardware DSPInterpreter.
From S2P Require Import DSPArithmetic DSPFacts SimHost.

#[local] Open Scope Z_scope.

Section Families.
Context {H : Type} {hst : DSPHost H}.
Abbreviation DM := (M (State H)).
Implicit Type s : State H.

(** * Specifications *)

(** Bits 8, 9, 11 and 12 of an opcode select registers. *)
Definition bit_at (k opc : Z) : Z := (opc .>> k) .& 0x1.

(** [$ax0.l], [$ax1.l], [$ax0.h], [$ax1.h], selected by bits 9 and 10. *)
Definition ax_part (opc : Z) s : Z :=
  match (opc .>> 9) .& 0x3 with
  | 0 => ax_low s 0 | 1 => ax_low s 1 | 2 => ax_high s 0 | _ => ax_high s 1
  end.

(** An instruction with its operand and the words it fetches. *)
Definition alu_instruction : Type := (Z -> DM unit) * (Z -> State H -> Z) * Z.

Definition add_instructions : list alu_instruction := [
  (add, fun opc s => acc s (1 - bit_at 8 opc), 0);
  (addax, fun opc s => ax_val s (bit_at 9 opc), 0);
  (addr, fun opc s => ax_part opc s * 2 ^ 16, 0);
  (addp, fun opc s => product s, 0);
  (addaxl, fun opc s => to_u16 (ax_low s (bit_at 9 opc)), 0);
  (addi, fun opc s => to_s16 (imem s (fget f_pc s)) * 2 ^ 16, 1);
  (addis, fun opc s => to_s8 opc * 2 ^ 16, 0);
  (incm, fun opc s => 2 ^ 16, 0);
  (inc, fun opc s => 1, 0)
].

Definition sub_instructions : list alu_instruction := [
  (sub, fun opc s => acc s (1 - bit_at 8 opc), 0);
  (subax, fun opc s => ax_val s (bit_at 9 opc), 0);
  (subr, fun opc s => ax_part opc s * 2 ^ 16, 0);
  (subp, fun opc s => product s, 0);
  (decm, fun opc s => 2 ^ 16, 0);
  (dec, fun opc s => 1, 0)
].

(** The compare instructions, with the accumulator and the operand they compare. *)
Definition compare_instructions : list ((Z -> DM unit) * (Z -> State H -> Z) * (Z -> State H -> Z) * Z) := [
  (cmp, fun opc s => acc s 0, fun opc s => acc s 1, 0);
  (cmpaxh, fun opc s => acc s (bit_at 11 opc), fun opc s => ax_high s (bit_at 12 opc) * 2 ^ 16, 0);
  (cmpi, fun opc s => acc s (bit_at 8 opc), fun opc s => to_s16 (imem s (fget f_pc s)) * 2 ^ 16, 1);
  (cmpis, fun opc s => acc s (bit_at 8 opc), fun opc s => to_s8 opc * 2 ^ 16, 0)
].

(** The conditions of [CheckCondition] that follow a comparison, as relations on
    the signed values compared; 6 and 7 compare them as unsigned. *)
Definition compare_condition (c a b : Z) : bool :=
  match c with
  | 0 => b <=? a | 1 => a <? b | 2 => b <? a | 3 => a <=? b
  | 4 => negb (a =? b) | 5 => a =? b
  | 6 => wrapu 40 a <? wrapu 40 b | _ => wrapu 40 b <=? wrapu 40 a
  end.

(** The logic instructions on [$acD.m], with the value they store. *)
Definition logic_instructions : list alu_instruction := [
  (xorr, fun opc s => aat (fget f_ac_m s) (bit_at 8 opc) .^ aat (fget f_ax_h s) (bit_at 9 opc), 0);
  (andr, fun opc s => aat (fget f_ac_m s) (bit_at 8 opc) .& aat (fget f_ax_h s) (bit_at 9 opc), 0);
  (orr, fun opc s => aat (fget f_ac_m s) (bit_at 8 opc) .| aat (fget f_ax_h s) (bit_at 9 opc), 0);
  (andc, fun opc s => aat (fget f_ac_m s) (bit_at 8 opc) .& aat (fget f_ac_m s) (1 - bit_at 8 opc), 0);
  (orc, fun opc s => aat (fget f_ac_m s) (bit_at 8 opc) .| aat (fget f_ac_m s) (1 - bit_at 8 opc), 0);
  (xorc, fun opc s => aat (fget f_ac_m s) (bit_at 8 opc) .^ aat (fget f_ac_m s) (1 - bit_at 8 opc), 0);
  (notc, fun opc s => 0xffff - aat (fget f_ac_m s) (bit_at 8 opc), 0);
  (xori, fun opc s => aat (fget f_ac_m s) (bit_at 8 opc) .^ imem s (fget f_pc s), 1);
  (andi, fun opc s => aat (fget f_ac_m s) (bit_at 8 opc) .& imem s (fget f_pc s), 1);
  (ori, fun opc s => aat (fget f_ac_m s) (bit_at 8 opc) .| imem s (fget f_pc s), 1)
].

(** The shifts, with the accumulator they shift and the value they leave in it:
    [x * 2 ^ n] for a left shift, the floor of [x / 2 ^ n] for a right one, on
    the accumulator as a signed number (arithmetic) or as its 40 bits (logical). *)
Definition shift40 (x n : Z) : Z := if 0 <=? n then x * 2 ^ n else x / 2 ^ (- n).

(** Six bits of an opcode as a right-shift count, and seven of a register. *)
Definition neg6 (x : Z) : Z := if x .& 0x3f =? 0 then 0 else (x .& 0x3f) - 64.
Definition signed7 (x : Z) : Z :=
  if x .& 0x3f =? 0 then 0 else if Z.testbit x 6 then (x .& 0x3f) - 64 else x .& 0x3f.

Definition shift_instructions : list ((Z -> DM unit) * (Z -> Z) * (Z -> State H -> Z)) := [
  (lsl16, bit_at 8, fun opc s => shift40 (acc s (bit_at 8 opc)) 16);
  (lsr16, bit_at 8, fun opc s => shift40 (wrapu 40 (acc s (bit_at 8 opc))) (-16));
  (asr16, bit_at 11, fun opc s => shift40 (acc s (bit_at 11 opc)) (-16));
  (lsl, bit_at 8, fun opc s => shift40 (acc s (bit_at 8 opc)) (opc .& 0x3f));
  (lsr, bit_at 8, fun opc s => shift40 (wrapu 40 (acc s (bit_at 8 opc))) (neg6 opc));
  (asl, bit_at 8, fun opc s => shift40 (acc s (bit_at 8 opc)) (opc .& 0x3f));
  (asr, bit_at 8, fun opc s => shift40 (acc s (bit_at 8 opc)) (neg6 opc));
  (lsrn, fun _ => 0, fun opc s => shift40 (wrapu 40 (acc s 0)) (- signed7 (aat (fget f_ac_m s) 1)));
  (asrn, fun _ => 0, fun opc s => shift40 (acc s 0) (- signed7 (aat (fget f_ac_m s) 1)));
  (lsrnrx, bit_at 8, fun opc s =>
     shift40 (wrapu 40 (acc s (bit_at 8 opc))) (signed7 (aat (fget f_ax_h s) (bit_at 9 opc))));
  (asrnrx, bit_at 8, fun opc s =>
     shift40 (acc s (bit_at 8 opc)) (signed7 (aat (fget f_ax_h s) (bit_at 9 opc))));
  (lsrnr, bit_at 8, fun opc s =>
     shift40 (wrapu 40 (acc s (bit_at 8 opc))) (signed7 (aat (fget f_ac_m s) (1 - bit_at 8 opc))));
  (asrnr, bit_at 8, fun opc s =>
     shift40 (acc s (bit_at 8 opc)) (signed7 (aat (fget f_ac_m s) (1 - bit_at 8 opc))))
].

(** * Lemmas *)

Lemma bit_at_range k opc : 0 <= bit_at k opc < 2.
Proof. unfold bit_at. range_lia. Qed.

Lemma run_AxPart opc s : AxPart (((opc .>> 9) .& 0x3) + DSP_REG_AXL0) s = Done (ax_part opc s) s.
Proof.
  unfold ax_part. pose proof (land_bound (opc .>> 9) 0x3 ltac:(lia)) as Hb.
  set (k := (opc .>> 9) .& 0x3) in *. clearbody k.
  assert (Hc : k = 0 \/ k = 1 \/ k = 2 \/ k = 3) by lia.
  destruct Hc as [-> | [-> | [-> | ->]]]; cbn -[geta]; mrun.
Qed.
#[local] Hint Resolve run_AxPart : run.
#[local] Hint Resolve bit_at_range : run.

Lemma past0 s : u16 (fget f_pc s) -> past 0 s = s.
Proof.
  intros Hp. unfold past. rewrite Z.add_0_r, wrapu_small by done.
  destruct s as [[] ? ? ?]. done.
Qed.

(** The end that the additions share, and the one of the subtractions. *)
Lemma add_tail d a b s : wf s -> 0 <= d < 2 -> s40 a -> s40 b -> exists sr',
  arith_flags (2 ^ 40 <=? wrapu 40 a + wrapu 40 b) (negb (fits40 (a + b))) (wraps 40 (a + b))
    (fget f_sr s) sr' /\
  (SetLongAcc d (a + b) ;; new ← GetLongAcc d; UpdateSR64Add a b new) s =
    Done tt (fset f_sr sr' (put_acc d (a + b) s)).
Proof.
  intros Hs Hd Ha Hb.
  destruct (run_UpdateSR64Add a b (put_acc d (a + b) s)) as (sr' & Hf & E); [by apply wf_put_acc | done.. |].
  exists sr'. split; [done|]. mrun. by rewrite acc_put.
Qed.

Lemma sub_tail d a b s : wf s -> 0 <= d < 2 -> s40 a -> s40 b -> exists sr',
  arith_flags (wrapu 40 b <=? wrapu 40 a) (negb (fits40 (a - b))) (wraps 40 (a - b))
    (fget f_sr s) sr' /\
  (SetLongAcc d (a - b) ;; new ← GetLongAcc d; UpdateSR64Sub a b new) s =
    Done tt (fset f_sr sr' (put_acc d (a - b) s)).
Proof.
  intros Hs Hd Ha Hb.
  destruct (run_UpdateSR64Sub a b (put_acc d (a - b) s)) as (sr' & Hf & E); [by apply wf_put_acc | done.. |].
  exists sr'. split; [done|]. mrun. by rewrite acc_put.
Qed.

Lemma to_s64_u64 x : - 2 ^ 63 <= x < 2 ^ 63 -> to_s64 (to_u64 x) = x.
Proof. intros. rewrite wraps_wrapu by lia. apply wraps_small; [lia | unfold sN; lia]. Qed.

Lemma to_s64_add_u64 a b : s40 a -> u16 b -> to_s64 (to_u64 (to_u64 a + b)) = a + b.
Proof.
  intros Ha Hb. rewrite wraps_wrapu by lia. destruct (wrapu_spec 64 a ltac:(lia)) as [k Hk].
  apply (wraps_unique 64 _ _ (- k)); unfold sN, uN in *; lia.
Qed.

(** The nine addition instructions: each adds its operand to the accumulator
    bit 8 of the opcode selects, leaves the sum wrapped to 40 bits in it, and
    sets the flags to the carry and the overflow of that 40-bit addition and the
    zero, sign, range and top-bits of the sum; nothing else changes. *)
Theorem add_instructions_spec s opc op operand n :
  In (op, operand, n) add_instructions -> wf s -> s40 (operand opc s) ->
  let d := bit_at 8 opc in
  let a := acc s d in
  let b := operand opc s in
  exists sr',
    arith_flags (2 ^ 40 <=? wrapu 40 a + wrapu 40 b) (negb (fits40 (a + b))) (wraps 40 (a + b))
      (fget f_sr s) sr' /\
    op opc s = Done tt (fset f_sr sr' (put_acc d (a + b) (past n s))).
Proof.
  intros Hin Hs Hb d a b. pose proof (bit_at_range 8 opc) as Hd. fold d in Hd.
  pose proof (bit_at_range 9 opc) as H9. assert (Ha : s40 a) by by apply acc_s40.
  destruct (add_tail d a b (past n s)) as (sr' & Hf & E); [by apply wf_past | done..|].
  exists sr'. split; [exact Hf|]. rewrite <- E. subst a b. clear Hf E.
  cbn [In add_instructions] in Hin.
  repeat destruct Hin as [[= <- <- <-]|Hin]; try done; rewrite ?past0 by apply Hs.
  - unfold add. fold (bit_at 8 opc). mrun.
  - unfold addax. mrun.
  - unfold addr. mrun. by rewrite Z.shiftl_mul_pow2 by lia.
  - unfold addp. mrun.
  - unfold addaxl. mrun. unfold bit_at in H9.
    rewrite to_s64_add_u64, to_s64_u64; try done.
    + unfold sN in Ha. subst d. unfold bit_at in Ha. lia.
    + solve_uN.
  - unfold addi. mrun. by rewrite Z.shiftl_mul_pow2 by lia.
  - unfold addis. mrun. by rewrite Z.shiftl_mul_pow2 by lia.
  - unfold incm. mrun.
  - unfold inc. mrun.
Qed.

(** The six subtraction instructions: each subtracts its operand from the
    accumulator, leaves the difference wrapped to 40 bits in it, and sets the
    carry when there was no borrow and the overflow when the difference does not
    fit in 40 bits, with the flags of the difference; nothing else changes. *)
Theorem sub_instructions_spec s opc op operand n :
  In (op, operand, n) sub_instructions -> wf s -> s40 (operand opc s) ->
  let d := bit_at 8 opc in
  let a := acc s d in
  let b := operand opc s in
  exists sr',
    arith_flags (wrapu 40 b <=? wrapu 40 a) (negb (fits40 (a - b))) (wraps 40 (a - b))
      (fget f_sr s) sr' /\
    op opc s = Done tt (fset f_sr sr' (put_acc d (a - b) (past n s))).
Proof.
  intros Hin Hs Hb d a b. pose proof (bit_at_range 8 opc) as Hd. fold d in Hd.
  pose proof (bit_at_range 9 opc) as H9. assert (Ha : s40 a) by by apply acc_s40.
  destruct (sub_tail d a b (past n s)) as (sr' & Hf & E); [by apply wf_past | done..|].
  exists sr'. split; [exact Hf|]. rewrite <- E. subst a b. clear Hf E.
  cbn [In sub_instructions] in Hin.
  repeat destruct Hin as [[= <- <- <-]|Hin]; try done; rewrite ?past0 by apply Hs.
  - unfold sub. fold (bit_at 8 opc). mrun.
  - unfold subax. mrun.
  - unfold subr. mrun. by rewrite Z.shiftl_mul_pow2 by lia.
  - unfold subp. mrun.
  - unfold decm. mrun.
  - unfold dec. mrun.
Qed.

(** The conditions read off the flags of a subtraction. *)
Lemma run_CheckCondition s c :
  CheckCondition c s =
  Done (let b k := Z.testbit (fget f_sr s) k in
        match c .& 0xf with
        | 0 => negb (xorb (b 1) (b 3)) | 1 => xorb (b 1) (b 3)
        | 2 => negb (xorb (b 1) (b 3)) && negb (b 2) | 3 => xorb (b 1) (b 3) || b 2
        | 4 => negb (b 2) | 5 => b 2 | 6 => negb (b 0) | 7 => b 0
        | 8 => negb (b 4) | 9 => b 4
        | 10 => negb (negb (b 4 || b 5) || b 2) | 11 => negb (b 4 || b 5) || b 2
        | 12 => negb (b 6) | 13 => b 6 | 14 => b 1
        | _ => true
        end) s.
Proof.
  unfold CheckCondition. mstep. rewrite <- !flag_testbit by lia.
  change (2 ^ 0) with 1. change (2 ^ 1) with 2. change (2 ^ 2) with 4. change (2 ^ 3) with 8.
  change (2 ^ 4) with 0x10. change (2 ^ 5) with 0x20. change (2 ^ 6) with 0x40.
  set (x := c .& 0xf). clearbody x. unfold mret, M_ret. f_equal.
  repeat case_match; done.
Qed.

Lemma compare_tail a b s : wf s -> s40 a -> s40 b -> exists sr',
  UpdateSR64Sub a b (dsp_convert_long_acc (a - b)) s = Done tt (fset f_sr sr' s) /\
  forall c, 0 <= c < 8 ->
    CheckCondition c (fset f_sr sr' s) = Done (compare_condition c a b) (fset f_sr sr' s).
Proof.
  intros Hs Ha Hb. unfold dsp_convert_long_acc. rewrite shl_shr_sext by lia. change (64 - 24) with 40.
  destruct (run_UpdateSR64Sub a b s Hs Ha Hb) as (sr' & Hf & E). exists sr'. split; [done|].
  intros c Hc. rewrite run_CheckCondition. f_equal. change (fget f_sr (fset f_sr sr' s)) with sr'.
  cbv beta zeta. rewrite (flag_carry _ _ _ _ _ Hf), (flag_overflow _ _ _ _ _ Hf), (flag_zero _ _ _ _ _ Hf),
    (flag_sign _ _ _ _ _ Hf).
  assert (Hlt : xorb (negb (fits40 (a - b))) (wraps 40 (a - b) <? 0) = (a <? b)).
  { unfold sN in *. rewrite wraps40_cases by lia. unfold fits40. split_eq. }
  assert (Heq : (wraps 40 (a - b) =? 0) = (a =? b)).
  { unfold sN in *. rewrite wraps40_cases by lia. split_eq. }
  rewrite Hlt, Heq. assert (Hk : c = 0 \/ c = 1 \/ c = 2 \/ c = 3 \/ c = 4 \/ c = 5 \/ c = 6 \/ c = 7) by lia.
  repeat destruct Hk as [-> | Hk]; [..|subst c]; cbn -[Z.ltb Z.leb Z.eqb wrapu]; split_eq.
Qed.

(** C32. Comparisons decide order: after [CMP], [CMPAXH], [CMPI] and [CMPIS] the
    conditions GE, L, G, LE, NZ, Z hold exactly when the signed 40-bit values
    compared are in that relation, even when their difference overflows, and the
    conditions NC, C when they are below, or not below, as unsigned values; the
    accumulators and everything but the status register are untouched. *)
Theorem compare_decides_order s opc op left right n :
  In (op, left, right, n) compare_instructions -> wf s ->
  exists sr',
    let s' := fset f_sr sr' (past n s) in
    op opc s = Done tt s' /\
    forall c, 0 <= c < 8 ->
      CheckCondition c s' = Done (compare_condition c (left opc s) (right opc s)) s'.
Proof.
  intros Hin Hs. pose proof (bit_at_range 8 opc). pose proof (bit_at_range 11 opc).
  pose proof (bit_at_range 12 opc).
  assert (Hr : s40 (right opc s) /\ s40 (left opc s)).
  { cbn [In compare_instructions] in Hin.
    repeat destruct Hin as [[= <- <- <- <-]|Hin]; try done; split; try by apply acc_s40.
    all: unfold ax_high; range_lia. }
  destruct Hr as [Hr Hl].
  destruct (compare_tail (left opc s) (right opc s) (past n s)) as (sr' & E & Hc);
    [by apply wf_past | done..|].
  exists sr'. split; [|exact Hc]. rewrite <- E. clear E Hc.
  cbn [In compare_instructions] in Hin.
  repeat destruct Hin as [[= <- <- <- <-]|Hin]; try done; rewrite ?past0 by apply Hs.
  - unfold cmp. mstep. mstep. cbv zeta. apply bind_ret_unit.
  - unfold cmpaxh. mrun. rewrite Z.shiftl_mul_pow2 by lia. reflexivity.
  - unfold cmpi. mrun. by rewrite Z.shiftl_mul_pow2 by lia.
  - unfold cmpis. mrun. by rewrite Z.shiftl_mul_pow2 by lia.
Qed.

(** [NEG]: the accumulator is negated modulo 2^40; the carry is set exactly
    when it was zero and the overflow exactly when it was the minimum, the two
    values it leaves unchanged. *)
Theorem neg_spec s opc :
  wf s ->
  let d := bit_at 8 opc in
  exists sr',
    arith_flags (acc s d =? 0) (acc s d =? - 2 ^ 39) (wraps 40 (- acc s d)) (fget f_sr s) sr' /\
    neg opc s = Done tt (fset f_sr sr' (put_acc d (- acc s d) s)) /\
    (wraps 40 (- acc s d) = acc s d <-> acc s d = 0 \/ acc s d = - 2 ^ 39).
Proof.
  intros Hs d. pose proof (bit_at_range 8 opc) as Hd. fold d in Hd.
  pose proof (acc_s40 s d Hs) as Ha.
  destruct (sub_tail d 0 (acc s d) s) as (sr' & Hf & E); [done | done | unfold sN; lia | done |].
  exists sr'. split; [|split].
  - replace (acc s d =? 0) with (wrapu 40 (acc s d) <=? wrapu 40 0).
    2:{ rewrite wrapu40_s40, (wrapu_small 40 0) by (done || unfold uN; lia). unfold sN in Ha. split_eq. }
    replace (acc s d =? - 2 ^ 39) with (negb (fits40 (0 - acc s d)))
      by (unfold fits40, sN in *; split_eq).
    exact Hf.
  - change (- acc s d) with (0 - acc s d). rewrite <- E. unfold neg. fold (bit_at 8 opc). fold d. mrun.
  - unfold sN in Ha. rewrite wraps40_cases by lia. split_eq.
Qed.
Lemma run_SetAccMidFlags d v s : wf s -> 0 <= d < 2 -> u16 v -> exists sr',
  let s' := fset f_ac_m (aupd (fget f_ac_m s) d v) s in
  logic_flags v (acc s' d) (fget f_sr s) sr' /\
  SetAccMidFlags d v s = Done tt (fset f_sr sr' s').
Proof.
  intros Hs Hd Hv. eexists. split; [apply UpdateSR16_flags; [exact Hv | apply Hs] |].
  unfold SetAccMidFlags. mrun.
Qed.

Lemma ac_m_u16 s d : wf s -> u16 (aat (fget f_ac_m s) d).
Proof. intros Hs. apply (ft_get (F := f_ac_m) (P := arr_ok u16) s Hs). Qed.
Lemma ax_h_u16 s d : wf s -> u16 (aat (fget f_ax_h s) d).
Proof. intros Hs. apply (ft_get (F := f_ax_h) (P := arr_ok u16) s Hs). Qed.

Lemma run_ImmediateLogic opf opc s :
  wf s -> (forall a b, u16 a -> u16 b -> u16 (opf a b)) ->
  let d := bit_at 8 opc in
  let v := opf (aat (fget f_ac_m s) d) (imem s (fget f_pc s)) in
  exists sr',
    let s' := fset f_ac_m (aupd (fget f_ac_m s) d v) (past 1 s) in
    logic_flags v (acc s' d) (fget f_sr s) sr' /\
    ImmediateLogic opf opc s = Done tt (fset f_sr sr' s').
Proof.
  intros Hs Hop d v. pose proof (bit_at_range 8 opc) as Hd.
  assert (Hv : u16 v) by (apply Hop; [by apply ac_m_u16 | by apply imem_range]).
  eexists. split; [apply UpdateSR16_flags; [exact Hv | apply Hs] |].
  unfold ImmediateLogic. fold (bit_at 8 opc). fold d. cbv zeta.
  do 5 mstep.
  change (aat (fget f_ac_m (fset f_ac_m ?a (past 1 s))) d) with (aat a d). rewrite aat_aupd_eq. done.
Qed.

(** The ten logic instructions: each stores the bitwise combination of
    [$acD.m] and its operand in [$acD.m], leaves the other parts of the
    accumulator, clears carry and overflow, and sets zero, sign and top-bits from
    the 16-bit result and the range flag from the whole accumulator. *)
Theorem logic_instructions_spec s opc op result n :
  In (op, result, n) logic_instructions -> wf s ->
  let d := bit_at 8 opc in
  let v := result opc s in
  exists sr',
    let s' := fset f_ac_m (aupd (fget f_ac_m s) d v) (past n s) in
    logic_flags v (acc s' d) (fget f_sr s) sr' /\
    op opc s = Done tt (fset f_sr sr' s').
Proof.
  intros Hin Hs d v. pose proof (bit_at_range 8 opc) as Hd. fold d in Hd.
  pose proof (bit_at_range 9 opc) as H9.
  assert (Hreg : forall op' w, (op' opc s = SetAccMidFlags d w s) -> u16 w -> w = v -> op = op' -> n = 0 ->
    exists sr', let s' := fset f_ac_m (aupd (fget f_ac_m s) d v) (past n s) in
      logic_flags v (acc s' d) (fget f_sr s) sr' /\ op opc s = Done tt (fset f_sr sr' s')).
  { intros op' w E Hw -> -> ->. rewrite past0 by apply Hs.
    destruct (run_SetAccMidFlags d v s Hs Hd Hw) as (sr' & ? & E'). exists sr'.
    split; [done|]. by rewrite E. }
  assert (Him : forall f, (forall a b, u16 a -> u16 b -> u16 (f a b)) ->
    op = ImmediateLogic f -> v = f (aat (fget f_ac_m s) d) (imem s (fget f_pc s)) -> n = 1 ->
    exists sr', let s' := fset f_ac_m (aupd (fget f_ac_m s) d v) (past n s) in
      logic_flags v (acc s' d) (fget f_sr s) sr' /\ op opc s = Done tt (fset f_sr sr' s')).
  { intros f Hf -> -> ->. by apply run_ImmediateLogic. }
  pose proof (ac_m_u16 s d Hs). pose proof (ac_m_u16 s (1 - d) Hs). pose proof (ax_h_u16 s (bit_at 9 opc) Hs).
  assert (0 <= 1 - d < 2) by lia.
  cbn [In logic_instructions] in Hin.
  repeat destruct Hin as [[= <- <- <-]|Hin]; try done.
  - apply (Hreg xorr v); [unfold xorr; mrun | unfold v; solve_uN | done..].
  - apply (Hreg andr v); [unfold andr; mrun | unfold v; solve_uN | done..].
  - apply (Hreg orr v); [unfold orr; mrun | unfold v; solve_uN | done..].
  - apply (Hreg andc v); [unfold andc; fold (bit_at 8 opc); mrun | unfold v; solve_uN | done..].
  - apply (Hreg orc v); [unfold orc; fold (bit_at 8 opc); mrun | unfold v; solve_uN | done..].
  - apply (Hreg xorc v); [unfold xorc; fold (bit_at 8 opc); mrun | unfold v; solve_uN | done..].
  - apply (Hreg notc v); [| unfold v; change (u16 (0xffff - aat (fget f_ac_m s) d)); unfold uN in *; lia | done..].
    unfold notc. fold (bit_at 8 opc). fold d. mrun.
    change v with (0xffff - aat (fget f_ac_m s) d). by rewrite lxor_ffff.
  - apply (Him Z.lxor); try done. intros. solve_uN.
  - apply (Him Z.land); try done. intros. solve_uN.
  - apply (Him Z.lor); try done. intros. solve_uN.
Qed.

(** ** Shifts *)

Lemma run_SetShifted d v w s :
  wf s -> 0 <= d < 2 -> wraps 40 v = wraps 40 w -> exists sr',
  arith_flags false false (wraps 40 w) (fget f_sr s) sr' /\
  SetShifted d v s = Done tt (fset f_sr sr' (put_acc d w s)).
Proof.
  intros Hs Hd E. eexists. split; [apply UpdateSR64_flags; apply Hs|].
  unfold SetShifted. rewrite (put_acc_congr d w v s) by done.
  mrun. rewrite acc_put, <- E. done.
Qed.

Lemma register_shift_spec x : register_shift x = signed7 x.
Proof.
  unfold register_shift, signed7. destruct (_ =? 0); [done|].
  change 0x40 with (2 ^ 6). rewrite flag_testbit by lia. destruct (Z.testbit x 6); lia.
Qed.

Lemma signed7_range x : -64 < signed7 x < 64.
Proof.
  unfold signed7. pose proof (land_bound x 0x3f ltac:(lia)).
  destruct (Z.eqb_spec (x .& 0x3f) 0); [lia|]. destruct (Z.testbit x 6); lia.
Qed.

Lemma right_shift_spec opc : right_shift opc = - neg6 opc /\ 0 <= right_shift opc < 64.
Proof.
  unfold right_shift, neg6. pose proof (land_bound opc 0x3f ltac:(lia)).
  destruct (Z.eqb_spec (opc .& 0x3f) 0); lia.
Qed.

(** The four variable shifts, and the fixed ones, modulo 2^40. *)
Lemma shift_left_u64_spec x n :
  wraps 40 (to_s64 (shift_left_u64 (lop_off x) n)) = wraps 40 (shift40 (wrapu 40 x) n).
Proof.
  unfold shift_left_u64, shift40, lop_off. rewrite land_ones40_u64, wraps40_s64.
  destruct (Z.ltb_spec 0 n), (Z.leb_spec 0 n); try lia.
  - by rewrite wraps40_u64, Z.shiftl_mul_pow2 by lia.
  - destruct (Z.ltb_spec n 0); [lia|]. replace n with 0 by lia. by rewrite Z.mul_1_r.
  - destruct (Z.ltb_spec n 0); [|lia]. by rewrite Z.shiftr_div_pow2 by lia.
Qed.

Lemma shift_left_s64_spec x n :
  wraps 40 (shift_left_s64 x n) = wraps 40 (shift40 x n).
Proof.
  unfold shift_left_s64, shift40.
  destruct (Z.ltb_spec 0 n), (Z.leb_spec 0 n); try lia.
  - by rewrite wraps40_s64, Z.shiftl_mul_pow2 by lia.
  - destruct (Z.ltb_spec n 0); [lia|]. replace n with 0 by lia. by rewrite Z.mul_1_r.
  - destruct (Z.ltb_spec n 0); [|lia]. by rewrite Z.shiftr_div_pow2 by lia.
Qed.

Lemma shift_right_u64_opp x n : shift_right_u64 x n = shift_left_u64 x (- n).
Proof.
  unfold shift_right_u64, shift_left_u64. rewrite Z.opp_involutive.
  destruct (Z.ltb_spec 0 n), (Z.ltb_spec 0 (- n)), (Z.ltb_spec n 0), (Z.ltb_spec (- n) 0); done || lia.
Qed.

Lemma shift_right_s64_opp x n : shift_right_s64 x n = shift_left_s64 x (- n).
Proof.
  unfold shift_right_s64, shift_left_s64. rewrite Z.opp_involutive.
  destruct (Z.ltb_spec 0 n), (Z.ltb_spec 0 (- n)), (Z.ltb_spec n 0), (Z.ltb_spec (- n) 0); done || lia.
Qed.

Lemma shift40_right x n : 0 <= n -> shift40 x (- n) = x .>> n.
Proof.
  intros Hn. unfold shift40. rewrite Z.shiftr_div_pow2, Z.opp_involutive by done.
  destruct (Z.leb_spec 0 (- n)); [|done]. replace n with 0 by lia. by rewrite Z.mul_1_r, Z.div_1_r.
Qed.

Lemma acc_mid_u16 s d : wf s -> to_u16 (acc_mid s d) = aat (fget f_ac_m s) d.
Proof. intros. unfold acc_mid. rewrite wrapu_wraps, wrapu_small by (lia || by apply ac_m_u16). done. Qed.

(** The thirteen shifts: each leaves in the accumulator it selects the value
    of that accumulator, taken as signed for the arithmetic shifts and as 40 bits
    for the logical ones, times or divided (rounding down) by the power of two
    its immediate or register count gives, wrapped to 40 bits, with carry and
    overflow clear and the other flags those of the result. *)
Theorem shift_instructions_spec s opc op sel result :
  In (op, sel, result) shift_instructions -> wf s ->
  let d := sel opc in
  exists sr',
    arith_flags false false (wraps 40 (result opc s)) (fget f_sr s) sr' /\
    op opc s = Done tt (fset f_sr sr' (put_acc d (result opc s) s)).
Proof.
  intros Hin Hs d. pose proof (bit_at_range 8 opc) as H8. pose proof (bit_at_range 11 opc) as H11.
  pose proof (bit_at_range 9 opc) as H9. assert (Hd1 : 0 <= 1 - bit_at 8 opc < 2) by lia.
  assert (Hd : 0 <= d < 2).
  { subst d. cbn [In shift_instructions] in Hin.
    repeat destruct Hin as [[= _ <- _]|Hin]; done || lia. }
  assert (Hred : forall v, op opc s = SetShifted d v s -> wraps 40 v = wraps 40 (result opc s) ->
    exists sr', arith_flags false false (wraps 40 (result opc s)) (fget f_sr s) sr' /\
      op opc s = Done tt (fset f_sr sr' (put_acc d (result opc s) s))).
  { intros v E Hv. destruct (run_SetShifted d v (result opc s) s Hs Hd Hv) as (sr' & ? & E').
    exists sr'. split; [done|]. by rewrite E. }
  destruct (right_shift_spec opc) as [Hrs Hrr].
  cbn [In shift_instructions] in Hin.
  repeat destruct Hin as [[= <- <- <-]|Hin]; try done; subst d; cbv beta in *.
  - eapply Hred; [unfold lsl16; mrun|]. by rewrite wraps40_s64, Z.shiftl_mul_pow2 by lia.
  - eapply Hred; [unfold lsr16; mrun|]. unfold lop_off.
    by rewrite wraps40_s64, land_ones40_u64, (shift40_right _ 16) by lia.
  - eapply Hred; [unfold asr16; mrun|]. by rewrite (shift40_right _ 16) by lia.
  - eapply Hred; [unfold lsl; mrun|]. fold (bit_at 8 opc).
    pose proof (land_bound opc 0x3f ltac:(lia)). unfold shift40.
    rewrite (proj2 (Z.leb_le 0 _)), wraps40_s64, wraps40_u64, Z.shiftl_mul_pow2 by lia.
    apply wraps40_mul; [apply wraps40_u64 | lia].
  - eapply Hred; [unfold lsr; mrun|]. unfold lop_off.
    by rewrite wraps40_s64, land_ones40_u64, <- shift40_right, Hrs, Z.opp_involutive by lia.
  - eapply Hred; [unfold asl; mrun|]. fold (bit_at 8 opc).
    pose proof (land_bound opc 0x3f ltac:(lia)). unfold shift40.
    rewrite (proj2 (Z.leb_le 0 _)), wraps40_s64, wraps40_u64, Z.shiftl_mul_pow2 by lia.
    apply wraps40_mul; [apply wraps40_u64 | lia].
  - eapply Hred; [unfold asr; mrun|].
    by rewrite <- shift40_right, Hrs, Z.opp_involutive by lia.
  - apply (Hred (to_s64 (shift_right_u64 (lop_off (acc s 0)) (register_shift (to_u16 (acc_mid s 1))))));
      [done|].
    by rewrite acc_mid_u16, shift_right_u64_opp, shift_left_u64_spec, register_shift_spec by done.
  - apply (Hred (shift_right_s64 (acc s 0) (register_shift (to_u16 (acc_mid s 1))))); [done|].
    by rewrite acc_mid_u16, shift_right_s64_opp, shift_left_s64_spec, register_shift_spec by done.
  - eapply Hred; [unfold lsrnrx; mrun|]. by rewrite shift_left_u64_spec, register_shift_spec.
  - eapply Hred; [unfold asrnrx; mrun|]. by rewrite shift_left_s64_spec, register_shift_spec.
  - eapply Hred; [unfold lsrnr; fold (bit_at 8 opc); mrun|].
    by rewrite acc_mid_u16, shift_left_u64_spec, register_shift_spec by done.
  - eapply Hred; [unfold asrnr; fold (bit_at 8 opc); mrun|].
    by rewrite acc_mid_u16, shift_left_s64_spec, register_shift_spec by done.
Qed.
End Families.

(** * Witnesses *)

(** [$ac0] at the maximum, [$ac1] = -1. *)
Definition extreme_state : State sim := put_acc 1 (-1) (put_acc 0 (2 ^ 39 - 1) sim_state).

Lemma extreme_state_ok : wf extreme_state.
Proof. apply wf_put_acc; [lia|]. apply wf_put_acc; [lia | apply sim_state_ok]. Qed.

(** [INC] at the maximum overflows to the minimum, without a carry. *)
Lemma add_instructions_spec_witness :
  exists sr', inc 0x7600 extreme_state = Done tt (fset f_sr sr' (put_acc 0 (acc extreme_state 0 + 1) (past 0 extreme_state))).
Proof.
  destruct (add_instructions_spec extreme_state 0x7600 inc (fun _ _ => 1) 0) as (sr' & _ & E).
  - cbn. tauto.
  - exact extreme_state_ok.
  - split; reflexivity || (intros [=]).
  - exists sr'. exact E.
Defined.

(** The maximum less -1 borrows and overflows. *)
Lemma sub_instructions_spec_witness :
  exists sr', sub 0x5c00 extreme_state = Done tt (fset f_sr sr' (put_acc 0 (acc extreme_state 0 - acc extreme_state 1) (past 0 extreme_state))).
Proof.
  destruct (sub_instructions_spec extreme_state 0x5c00 sub (fun opc s => acc s (1 - bit_at 8 opc)) 0)
    as (sr' & _ & E).
  - cbn. tauto.
  - exact extreme_state_ok.
  - split; reflexivity || (intros [=]).
  - exists sr'. exact E.
Defined.

(** The maximum is greater than -1 although their difference overflows. *)
Lemma compare_decides_order_witness :
  exists sr', let s' := fset f_sr sr' (past 0 extreme_state) in
    cmp 0x8200 extreme_state = Done tt s' /\ CheckCondition 2 s' = Done true s'.
Proof.
  destruct (compare_decides_order extreme_state 0x8200 cmp (fun _ s => acc s 0) (fun _ s => acc s 1) 0)
    as (sr' & E & Hc).
  - cbn. tauto.
  - exact extreme_state_ok.
  - exists sr'. split; [exact E|]. exact (Hc 2 ltac:(lia)).
Defined.

Lemma neg_spec_witness :
  exists sr', neg 0x7d00 extreme_state = Done tt (fset f_sr sr' (put_acc 1 (- -1) extreme_state)).
Proof.
  destruct (neg_spec extreme_state 0x7d00 extreme_state_ok) as (sr' & _ & E & _).
  exists sr'. exact E.
Defined.

Lemma logic_instructions_spec_witness :
  exists sr', notc 0x3280 extreme_state =
    Done tt (fset f_sr sr' (fset f_ac_m (aupd (fget f_ac_m extreme_state) 0 0) (past 0 extreme_state))).
Proof.
  destruct (logic_instructions_spec extreme_state 0x3280 notc
              (fun opc s => 0xffff - aat (fget f_ac_m s) (bit_at 8 opc)) 0) as (sr' & _ & E).
  - cbn. tauto.
  - exact extreme_state_ok.
  - exists sr'. exact E.
Defined.

(** -1 shifted right by 4, as signed. *)
Lemma shift_instructions_spec_witness :
  exists sr', asr 0x15fc extreme_state = Done tt (fset f_sr sr' (put_acc 1 (-1) extreme_state)) /\
    arith_flags false false (-1) (fget f_sr extreme_state) sr'.
Proof.
  destruct (shift_instructions_spec extreme_state 0x15fc asr (bit_at 8)
              (fun opc s => shift40 (acc s (bit_at 8 opc)) (neg6 opc))) as (sr' & Hf & E).
  - cbn. tauto.
  - exact extreme_state_ok.
  - exists sr'. split; [exact E | exact Hf].
Defined.
