(* ===== verification/MultiplierProps.v ===== *)
(** What the multiplier and product-register instructions compute. *)
From stdpp Require Import base tactics option list gmap strings.
From Stdlib Require Import ZArith Lia Bool.
From S2P Require Import Prelude Accelerator DSPState DSPTables DSPHardware DSPInterpreter.
From S2P Require Import DSPArithmetic DSPMultiplier DSPFacts ArithmeticProps SimHost.

#[local] Open Scope Z_scope.

(** * Rounding *)

(** [dsp_round_long_acc] and [GetLongProductRounded] share this computation. *)
Lemma clear_low16 x : x .& Z.lnot 0xffff = x / 2 ^ 16 * 2 ^ 16.
Proof.
  rewrite <- Z.ldiff_land. change 0xffff with (Z.ones 16).
  rewrite Z.ldiff_ones_r, Z.shiftl_mul_pow2, Z.shiftr_div_pow2 by lia. done.
Qed.

Lemma dsp_round_cases x :
  let q := x / 2 ^ 16 in
  let f := x mod 2 ^ 16 in
  dsp_round_long_acc x = (if (if Z.odd q then 2 ^ 15 <=? f else 2 ^ 15 <? f) then q + 1 else q) * 2 ^ 16.
Proof.
  intros q f. unfold dsp_round_long_acc. change 0x10000 with (2 ^ 16). rewrite flag_testbit by lia.
  rewrite Z.testbit_odd, Z.shiftr_div_pow2 by lia. fold q.
  pose proof (Z.div_mod x (2 ^ 16) ltac:(lia)) as E. fold q f in E.
  pose proof (Z.mod_pos_bound x (2 ^ 16) ltac:(lia)) as Hf. fold f in Hf. clearbody q f.
  rewrite !clear_low16. destruct (Z.odd q).
  - destruct (Z.leb_spec (2 ^ 15) f); f_equal; symmetry;
      [apply (Z.div_unique _ _ _ (f - 2 ^ 15)) | apply (Z.div_unique _ _ _ (f + 2 ^ 15))]; lia.
  - destruct (Z.ltb_spec (2 ^ 15) f); f_equal; symmetry;
      [apply (Z.div_unique _ _ _ (f - 2 ^ 15 - 1)) | apply (Z.div_unique _ _ _ (f + 2 ^ 15 - 1))]; lia.
Qed.

(** Rounding of accumulators and products is round-half-to-even at bit 16: the
    result is a multiple of 2^16, at a distance of at most 2^15 from the value,
    and when two multiples are equally near it is the even one. *)
Theorem dsp_round_half_even x :
  let r := dsp_round_long_acc x in
  r mod 2 ^ 16 = 0 /\ Z.abs (r - x) <= 2 ^ 15 /\
  (Z.abs (r - x) = 2 ^ 15 -> Z.even (r / 2 ^ 16) = true).
Proof.
  intros r. unfold r. rewrite dsp_round_cases.
  pose proof (Z.div_mod x (2 ^ 16) ltac:(lia)) as E. pose proof (Z.mod_pos_bound x (2 ^ 16) ltac:(lia)) as Hf.
  set (q := x / 2 ^ 16) in *. set (f := x mod 2 ^ 16) in *. clearbody q f.
  rewrite Z.mod_mul, Z.div_mul by lia. split; [done|].
  destruct (Z.odd q) eqn:Ho.
  - destruct (Z.leb_spec (2 ^ 15) f); (split; [lia|]); intros Ha.
    + by rewrite Z.add_1_r, Z.even_succ.
    + lia.
  - destruct (Z.ltb_spec (2 ^ 15) f); (split; [lia|]); intros Ha.
    + lia.
    + by rewrite <- Z.negb_odd, Ho.
Qed.

Lemma dsp_round_s41 x : sN 41 x -> - 2 ^ 40 <= dsp_round_long_acc x <= 2 ^ 40.
Proof.
  intros Hx. rewrite dsp_round_cases. unfold sN in Hx.
  pose proof (Z.div_mod x (2 ^ 16) ltac:(lia)) as E. pose proof (Z.mod_pos_bound x (2 ^ 16) ltac:(lia)) as Hf.
  repeat case_match; lia.
Qed.

Section Multiplier.
Context {H : Type} {hst : DSPHost H}.
Abbreviation DM := (M (State H)).
Implicit Type s : State H.

(** * Specifications *)

(** The multiplier doubles its result unless [SR_MUL_MODIFY] (bit 13) is set. *)
Definition scaled s (x : Z) : Z := if Z.testbit (fget f_sr s) 13 then x else 2 * x.

(** [$acD.m] times [$axT.h], [$axS.l] times [$axS.h], [$ax0.h] squared, and a part
    of [$ax0] times a part of [$ax1], all signed. *)
Definition mulc_value (ssel tsel : Z -> Z) opc s : Z :=
  scaled s (acc_mid s (ssel opc) * ax_high s (tsel opc)).
Definition mul_value (ssel : Z -> Z) opc s : Z :=
  scaled s (ax_low s (ssel opc) * ax_high s (ssel opc)).
Definition half (sel : Z) s (i : Z) : Z := if sel =? 0 then ax_low s i else ax_high s i.
Definition maddx_value opc s : Z :=
  scaled s (half (bit_at 9 opc) s 0 * half (bit_at 8 opc) s 1).

(** [mulx]: a low part is unsigned when [SR_MUL_UNSIGNED] (bit 15) is set. *)
Definition half_u (sel : Z) s (i : Z) : Z :=
  if (sel =? 0) && Z.testbit (fget f_sr s) 15 then aat (fget f_ax_l s) i else half sel s i.
Definition mulx_value opc s : Z :=
  scaled s (half_u (bit_at 12 opc) s 0 * half_u (bit_at 11 opc) s 1).

(** The instructions that only change the product, with its new value. *)
Definition product_instructions : list ((Z -> DM unit) * (Z -> State H -> Z)) := [
  (mulaxh, fun opc s => scaled s (ax_high s 0 * ax_high s 0));
  (mul, mul_value (bit_at 11));
  (mulx, mulx_value);
  (mulc, mulc_value (bit_at 12) (bit_at 11));
  (maddx, fun opc s => product s + maddx_value opc s);
  (msubx, fun opc s => product s - maddx_value opc s);
  (maddc, fun opc s => product s + mulc_value (bit_at 9) (bit_at 8) opc s);
  (msubc, fun opc s => product s - mulc_value (bit_at 9) (bit_at 8) opc s);
  (madd, fun opc s => product s + mul_value (bit_at 8) opc s);
  (msub, fun opc s => product s - mul_value (bit_at 8) opc s)
].

(** The instructions that also move the old product, with the new product and the
    accumulator's value. *)
Definition product_move_instructions : list ((Z -> DM unit) * (Z -> State H -> Z) * (Z -> State H -> Z)) := [
  (mulac, mul_value (bit_at 11), fun opc s => acc s (bit_at 8 opc) + product s);
  (mulmv, mul_value (bit_at 11), fun opc s => product s);
  (mulmvz, mul_value (bit_at 11), fun opc s => dsp_round_long_acc (product s));
  (mulxac, mulx_value, fun opc s => acc s (bit_at 8 opc) + product s);
  (mulxmv, mulx_value, fun opc s => product s);
  (mulxmvz, mulx_value, fun opc s => dsp_round_long_acc (product s));
  (mulcac, mulc_value (bit_at 12) (bit_at 11), fun opc s => acc s (bit_at 8 opc) + product s);
  (mulcmv, mulc_value (bit_at 12) (bit_at 11), fun opc s => product s);
  (mulcmvz, mulc_value (bit_at 12) (bit_at 11), fun opc s => dsp_round_long_acc (product s))
].

(** The instructions that set an accumulator and compute the flags from the value
    they set. *)
Definition move_instructions : list ((Z -> DM unit) * (Z -> Z) * (Z -> State H -> Z)) := [
  (clr, bit_at 11, fun opc s => 0);
  (clrl, bit_at 8, fun opc s => dsp_round_long_acc (acc s (bit_at 8 opc)));
  (movr, bit_at 8, fun opc s => ax_part opc s * 2 ^ 16);
  (movax, bit_at 8, fun opc s => ax_val s (bit_at 9 opc));
  (mov, bit_at 8, fun opc s => acc s (1 - bit_at 8 opc));
  (movp, bit_at 8, fun opc s => product s);
  (movnp, bit_at 8, fun opc s => - product s);
  (movpz, bit_at 8, fun opc s => dsp_round_long_acc (product s))
].

(** * Lemmas *)

#[local] Hint Resolve bit_at_range run_AxPart : run.

Lemma run_GetLongProductRounded s :
  GetLongProductRounded s = Done (dsp_round_long_acc (product s)) s.
Proof. done. Qed.

Lemma run_GetMultiplyProduct a b sg s :
  GetMultiplyProduct a b sg s =
  Done (multiply_product (Z.testbit (fget f_sr s) 15) (Z.testbit (fget f_sr s) 13) a b sg) s.
Proof.
  unfold GetMultiplyProduct. mstep. mstep.
  change SR_MUL_UNSIGNED with (2 ^ 15). change SR_MUL_MODIFY with (2 ^ 13).
  by rewrite !flag_testbit by lia.
Qed.

Lemma multiply_scaled u s a b sg x :
  (if (sg =? 1) && u then to_u32 (a * b)
   else if (sg =? 2) && u then a * to_s16 b else to_s16 a * to_s16 b) = x ->
  multiply_product u (Z.testbit (fget f_sr s) 13) a b sg = scaled s x.
Proof.
  intros <-. unfold multiply_product, scaled. destruct (Z.testbit _ 13); [done|].
  rewrite Z.shiftl_mul_pow2 by lia. lia.
Qed.

Lemma s16_u16 x : s16 x -> to_s16 (to_u16 x) = x.
Proof. intros. rewrite wraps_wrapu by lia. by apply wraps_small; [lia|]. Qed.

Lemma ax_low_s16 s i : s16 (ax_low s i).
Proof. apply wraps_range. lia. Qed.
Lemma ax_high_s16 s i : s16 (ax_high s i).
Proof. apply wraps_range. lia. Qed.
Lemma acc_mid_s16 s i : s16 (acc_mid s i).
Proof. apply wraps_range. lia. Qed.

(** Signed products of two 16-bit values. *)
Lemma run_Multiply_signed x y s :
  s16 x -> s16 y -> Multiply (to_u16 x) (to_u16 y) 0 s = Done (scaled s (x * y)) s.
Proof.
  intros Hx Hy. unfold Multiply. rewrite run_GetMultiplyProduct. f_equal. apply multiply_scaled.
  cbn. by rewrite !s16_u16.
Qed.

Lemma run_MultiplyAdd_signed x y s :
  s16 x -> s16 y -> MultiplyAdd (to_u16 x) (to_u16 y) 0 s = Done (product s + scaled s (x * y)) s.
Proof.
  intros Hx Hy. unfold MultiplyAdd. mstep.
  erewrite bind_done; [|apply (run_Multiply_signed x y s Hx Hy)]. done.
Qed.

Lemma run_MultiplySub_signed x y s :
  s16 x -> s16 y -> MultiplySub (to_u16 x) (to_u16 y) 0 s = Done (product s - scaled s (x * y)) s.
Proof.
  intros Hx Hy. unfold MultiplySub. mstep.
  erewrite bind_done; [|apply (run_Multiply_signed x y s Hx Hy)]. done.
Qed.

Lemma run_AxSelect i sel s : 0 <= i < 2 -> AxSelect i sel s = Done (to_u16 (half sel s i)) s.
Proof. intros. unfold AxSelect, half. destruct (sel =? 0); mrun. Qed.

Lemma half_s16 sel s i : s16 (half sel s i).
Proof. unfold half. destruct (sel =? 0); [apply ax_low_s16 | apply ax_high_s16]. Qed.

Lemma to_u16_ax_low s i : wf s -> to_u16 (ax_low s i) = aat (fget f_ax_l s) i.
Proof.
  intros Hs. unfold ax_low. rewrite wrapu_wraps, wrapu_small; [done | | lia].
  apply (ft_get (F := f_ax_l) (P := arr_ok u16) s Hs).
Qed.

Lemma to_u16_range x : u16 (to_u16 x).
Proof. apply wrapu_range. lia. Qed.

Lemma run_MultiplyMulX opc s : wf s ->
  MultiplyMulX (bit_at 12 opc) (bit_at 11 opc)
    (to_u16 (half (bit_at 12 opc) s 0)) (to_u16 (half (bit_at 11 opc) s 1)) s =
  Done (mulx_value opc s) s.
Proof.
  intros Hs. pose proof (bit_at_range 12 opc). pose proof (bit_at_range 11 opc).
  unfold MultiplyMulX, mulx_value, half_u.
  pose proof (half_s16 1 s 0) as Hh0. pose proof (half_s16 1 s 1) as Hh1.
  pose proof (half_s16 0 s 0) as Hl0. pose proof (half_s16 0 s 1) as Hl1.
  assert (E12 : bit_at 12 opc = 0 \/ bit_at 12 opc = 1) by lia.
  assert (E11 : bit_at 11 opc = 0 \/ bit_at 11 opc = 1) by lia.
  pose proof (to_u16_ax_low s 0 Hs) as U0. pose proof (to_u16_ax_low s 1 Hs) as U1.
  assert (R0 : u16 (aat (fget f_ax_l s) 0)) by (rewrite <- U0; apply to_u16_range).
  assert (R1 : u16 (aat (fget f_ax_l s) 1)) by (rewrite <- U1; apply to_u16_range).
  destruct E12 as [-> | ->], E11 as [-> | ->]; cbn [Z.eqb andb orb Pos.eqb].
  all: unfold Multiply; rewrite run_GetMultiplyProduct; f_equal; apply multiply_scaled; cbn [Z.eqb andb Pos.eqb].
  all: destruct (Z.testbit (fget f_sr s) 15); cbn [andb]; rewrite ?s16_u16 by done; try done.
  - unfold half; cbn [Z.eqb]. rewrite U0, U1. apply wrapu_small. unfold uN in *. nia.
  - unfold half; cbn [Z.eqb]. by rewrite U0.
  - unfold half; cbn [Z.eqb]. rewrite U1. cbn [Z.eqb]. by rewrite Z.mul_comm.
  - by rewrite Z.mul_comm.
Qed.
#[local] Hint Resolve run_GetLongProductRounded : run.

(** One step of a multiplication: the operands' lemmas discharged. *)
#[local] Hint Resolve run_Multiply_signed run_MultiplyAdd_signed run_MultiplySub_signed
  run_AxSelect ax_low_s16 ax_high_s16 acc_mid_s16 half_s16 run_MultiplyMulX : run.

(** The multiplications: each instruction that only changes the product
    leaves in it, modulo 2^40, the (doubled, unless the mode bit is set) product
    of its operands, added to or subtracted from the old product for the
    multiply-accumulate forms; the operands are signed, except that [MULX]
    treats a low part as unsigned in unsigned mode.  No flag changes. *)
Theorem product_instructions_spec s opc op value :
  In (op, value) product_instructions -> wf s ->
  exists s', op opc s = Done tt s' /\ s' = put_product (value opc s) s /\
    product s' = wraps 40 (value opc s).
Proof.
  intros Hin Hs. exists (put_product (value opc s) s). split; [|split; [done | apply product_put]].
  pose proof (bit_at_range 8 opc). pose proof (bit_at_range 9 opc).
  pose proof (bit_at_range 11 opc). pose proof (bit_at_range 12 opc).
  cbn [In product_instructions] in Hin.
  repeat destruct Hin as [[= <- <-]|Hin]; try done.
  - unfold mulaxh. mstep. mrun.
  - unfold mul. fold (bit_at 11 opc). mrun. unfold mul_value. by rewrite Z.mul_comm.
  - unfold mulx. fold (bit_at 11 opc). fold (bit_at 12 opc). mrun.
  - unfold mulc. fold (bit_at 11 opc). fold (bit_at 12 opc). mrun.
  - unfold maddx. fold (bit_at 8 opc). fold (bit_at 9 opc). mrun.
  - unfold msubx. fold (bit_at 8 opc). fold (bit_at 9 opc). mrun.
  - unfold maddc. fold (bit_at 8 opc). fold (bit_at 9 opc). mrun.
  - unfold msubc. fold (bit_at 8 opc). fold (bit_at 9 opc). mrun.
  - unfold madd. fold (bit_at 8 opc). mrun.
  - unfold msub. fold (bit_at 8 opc). mrun.
Qed.

Lemma product_move_tail r v p s : wf s -> 0 <= r < 2 -> exists sr',
  arith_flags false false (wraps 40 v) (fget f_sr s) sr' /\
  (SetLongProduct p ;; SetLongAcc r v ;; new ← GetLongAcc r; UpdateSR64 new false false) s =
    Done tt (fset f_sr sr' (put_acc r v (put_product p s))).
Proof.
  intros Hs Hr. eexists. split; [apply UpdateSR64_flags; apply Hs|]. repeat mstep. by rewrite acc_put.
Qed.

(** The multiplications that move the product: the accumulator receives the
    old product, plain, rounded or added to it, wrapped to 40 bits, with its
    flags; the product receives the new multiplication's result, computed from
    the operands as they were before the instruction. *)
Theorem product_move_instructions_spec s opc op value result :
  In (op, value, result) product_move_instructions -> wf s ->
  let r := bit_at 8 opc in
  exists sr' s',
    op opc s = Done tt s' /\
    s' = fset f_sr sr' (put_acc r (result opc s) (put_product (value opc s) s)) /\
    arith_flags false false (wraps 40 (result opc s)) (fget f_sr s) sr' /\
    acc s' r = wraps 40 (result opc s) /\ product s' = wraps 40 (value opc s).
Proof.
  intros Hin Hs r. pose proof (bit_at_range 8 opc) as H8.
  pose proof (bit_at_range 11 opc). pose proof (bit_at_range 12 opc).
  destruct (product_move_tail r (result opc s) (value opc s) s Hs H8) as (sr' & Hf & E).
  exists sr'. eexists. split; [|split; [reflexivity | split; [exact Hf | split]]].
  2: by rewrite acc_sr, acc_put.
  2: by rewrite product_sr, product_put_acc, product_put.
  rewrite <- E. clear Hf E. unfold r. clear r.
  cbn [In product_move_instructions] in Hin.
  repeat destruct Hin as [[= <- <- <-]|Hin]; try done.
  - unfold mulac. fold (bit_at 8 opc). fold (bit_at 11 opc). do 6 mstep. done.
  - unfold mulmv. fold (bit_at 8 opc). fold (bit_at 11 opc). do 5 mstep. done.
  - unfold mulmvz. fold (bit_at 8 opc). fold (bit_at 11 opc). do 5 mstep. done.
  - unfold mulxac. fold (bit_at 8 opc). fold (bit_at 11 opc). fold (bit_at 12 opc). do 6 mstep. done.
  - unfold mulxmv. fold (bit_at 8 opc). fold (bit_at 11 opc). fold (bit_at 12 opc). do 5 mstep. done.
  - unfold mulxmvz. fold (bit_at 8 opc). fold (bit_at 11 opc). fold (bit_at 12 opc). do 5 mstep. done.
  - unfold mulcac. fold (bit_at 8 opc). fold (bit_at 11 opc). fold (bit_at 12 opc). do 6 mstep. done.
  - unfold mulcmv. fold (bit_at 8 opc). fold (bit_at 11 opc). fold (bit_at 12 opc). do 5 mstep. done.
  - unfold mulcmvz. fold (bit_at 8 opc). fold (bit_at 11 opc). fold (bit_at 12 opc). do 5 mstep. done.
Qed.

(** The moves to an accumulator: it holds the value moved, wrapped to 40 bits,
    and when that value fits in 40 bits the flags are those of the accumulator,
    with carry and overflow clear. *)
Theorem move_instructions_spec s opc op sel value :
  In (op, sel, value) move_instructions -> wf s ->
  exists sr' s',
    op opc s = Done tt s' /\ s' = fset f_sr sr' (put_acc (sel opc) (value opc s) s) /\
    arith_flags false false (value opc s) (fget f_sr s) sr' /\
    acc s' (sel opc) = wraps 40 (value opc s) /\
    (s40 (value opc s) -> acc s' (sel opc) = value opc s).
Proof.
  intros Hin Hs. exists (UpdateSR64_sr (value opc s) false false (fget f_sr s)). eexists.
  pose proof (bit_at_range 8 opc). pose proof (bit_at_range 9 opc). pose proof (bit_at_range 11 opc).
  assert (0 <= 1 - bit_at 8 opc < 2) by lia.
  split; [|split; [reflexivity | split; [apply UpdateSR64_flags, Hs | split]]].
  2: by rewrite acc_sr, acc_put.
  2:{ intros Hv. rewrite acc_sr, acc_put. by apply wraps_small; [lia|]. }
  cbn [In move_instructions] in Hin.
  repeat destruct Hin as [[= <- <- <-]|Hin]; try done.
  - unfold clr. mrun.
  - unfold clrl. mrun.
  - unfold movr. mrun. by rewrite Z.shiftl_mul_pow2 by lia.
  - unfold movax. mrun.
  - unfold mov. fold (bit_at 8 opc). mrun.
    assert (Ha : s40 (acc s (1 - bit_at 8 opc))) by by apply acc_s40.
    rewrite to_s64_u64 by (unfold sN in Ha; lia). done.
  - unfold movp. mrun.
  - unfold movnp. mrun.
  - unfold movpz. mrun.
Qed.
End Multiplier.

(** [MOVNP] and [CLRL] compute the flags from the value before it is wrapped to
    40 bits: when the product is -2^39 the negated accumulator is again the
    minimum, and when the accumulator is 2^39 - 1 the rounded one is, but in both
    cases the sign flag is clear. *)
Theorem flags_of_unwrapped_value :
  (exists s s' : State sim, wf s /\ movnp 0x7e00 s = Done tt s' /\
     acc s' 0 = - 2 ^ 39 /\ Z.testbit (fget f_sr s') 3 = false) /\
  (exists s s' : State sim, wf s /\ clrl 0xfc00 s = Done tt s' /\
     acc s' 0 = - 2 ^ 39 /\ Z.testbit (fget f_sr s') 3 = false).
Proof.
  split.
  - exists (fset f_prod_h 0x80 sim_state). eexists. split; [|split; [vm_compute; reflexivity | by split; vm_compute]].
    apply (ft_set (F := f_prod_h) (P := u16)); [apply sim_state_ok | range_lia].
  - exists (put_acc 0 (2 ^ 39 - 1) sim_state). eexists. split; [|split; [vm_compute; reflexivity | by split; vm_compute]].
    apply wf_put_acc; [lia | apply sim_state_ok].
Qed.

(** * Witnesses *)

(** [$ax0] = (3, 5), product 7 * 2^16. *)
Definition mul_state : State sim :=
  fset f_ax_h (aupd ∅ 0 5) (fset f_ax_l (aupd ∅ 0 3) (fset f_prod_m 7 sim_state)).

Lemma mul_state_ok : wf mul_state.
Proof.
  apply (ft_set (F := f_ax_h) (P := arr_ok u16)); [|apply arr_ok_aupd; [apply arr_ok_empty|]; range_lia].
  apply (ft_set (F := f_ax_l) (P := arr_ok u16)); [|apply arr_ok_aupd; [apply arr_ok_empty|]; range_lia].
  apply (ft_set (F := f_prod_m) (P := u16)); [apply sim_state_ok | range_lia].
Qed.

Lemma product_instructions_spec_witness :
  exists s', mul 0x9000 mul_state = Done tt s' /\ product s' = 30.
Proof.
  destruct (product_instructions_spec mul_state 0x9000 mul (mul_value (bit_at 11))) as (s' & E & _ & Hp).
  - cbn. tauto.
  - exact mul_state_ok.
  - exists s'. split; [exact E | exact Hp].
Defined.

Lemma product_move_instructions_spec_witness :
  exists s', mulmv 0x9600 mul_state = Done tt s' /\ acc s' 0 = 7 * 2 ^ 16 /\ product s' = 30.
Proof.
  destruct (product_move_instructions_spec mul_state 0x9600 mulmv (mul_value (bit_at 11)) (fun _ s => product s))
    as (sr' & s' & E & _ & _ & Ha & Hp).
  - cbn. tauto.
  - exact mul_state_ok.
  - exists s'. split; [exact E|]. split; [exact Ha | exact Hp].
Defined.

Lemma move_instructions_spec_witness :
  exists s', movnp 0x7f00 mul_state = Done tt s' /\ acc s' 1 = - 7 * 2 ^ 16.
Proof.
  destruct (move_instructions_spec mul_state 0x7f00 movnp (bit_at 8) (fun _ s => - product s))
    as (sr' & s' & E & _ & _ & Ha & _).
  - cbn. tauto.
  - exact mul_state_ok.
  - exists s'. split; [exact E | exact Ha].
Defined.
