(* ===== verification/AddressProps.v ===== *)
(** Address-register arithmetic: the four routines of [DSPInterpreter.cpp] that
    step an address register implement one circular buffer. *)
From stdpp Require Import base tactics option list gmap strings.
From Stdlib Require Import ZArith Lia Bool.
From S2P Require Import Prelude Accelerator DSPState DSPTables DSPHardware DSPInterpreter.
From S2P Require Import DSPFacts SimHost.

#[local] Open Scope Z_scope.

(** * The circular buffer

    A wrapping register [wr] describes a buffer of [wr + 1] words, the last ones of
    an aligned block of [block wr] words, the least power of two that holds
    [wr + 1] of them (and at least 2). *)

Definition block_bits (wr : Z) : Z := Z.log2 (wr .| 1) + 1.
Definition block (wr : Z) : Z := 2 ^ block_bits wr.
Definition ring_base (ar wr : Z) : Z := ar - ar mod block wr + (block wr - 1 - wr).
Definition on_ring (ar wr : Z) : bool := block wr - 1 - wr <=? ar mod block wr.
(** [n] words forward, or backward when [n] is negative. *)
Definition ring_move (ar wr n : Z) : Z :=
  ring_base ar wr + (ar - ring_base ar wr + n) mod (wr + 1).

Definition mx (wr : Z) : Z := to_u32 ((wr .| 1) .<< 1).

Section Block.
Context (wr : Z) (Hwr : u16 wr).

Lemma lor_1 : wr .| 1 = if Z.odd wr then wr else wr + 1.
Proof.
  pose proof (Zmod_odd wr) as Hm. destruct (Z.odd wr) eqn:Ho.
  - apply Z.bits_inj'. intros i Hi. rewrite Z.lor_spec. destruct (Z.eq_dec i 0) as [->|Hn].
    + by rewrite Z.bit0_odd, Ho.
    + change 1 with (2 ^ 0). by rewrite Z.pow2_bits_false, orb_false_r by lia.
  - rewrite <- Z.lxor_lor, <- Z.add_nocarry_lxor; [done| |].
    all: apply Z.bits_inj'; intros i Hi; rewrite Z.land_spec, Z.bits_0; destruct (Z.eq_dec i 0) as [->|Hn].
    all: try (by rewrite Z.bit0_odd, Ho).
    all: change 1 with (2 ^ 0); by rewrite Z.pow2_bits_false, andb_false_r by lia.
Qed.

Lemma lor_1_range : wr <= wr .| 1 <= wr + 1 /\ 1 <= wr .| 1 < 2 ^ 16 /\ (wr .| 1) mod 2 = 1.
Proof.
  pose proof (Zmod_odd wr) as Hm. unfold uN in Hwr.
  rewrite lor_1. destruct (Z.odd wr); Z.div_mod_to_equations; lia.
Qed.

Lemma block_bits_range : 1 <= block_bits wr <= 16.
Proof.
  unfold block_bits. destruct lor_1_range as (_ & [H1 H2] & _).
  pose proof (Z.log2_nonneg (wr .| 1)). pose proof (proj1 (Z.log2_lt_pow2 (wr .| 1) 16 ltac:(lia)) H2). lia.
Qed.

Lemma block_range : 2 <= block wr <= 2 ^ 16 /\ wr < block wr /\ block wr <= 2 * (wr .| 1) < 2 * block wr.
Proof.
  pose proof block_bits_range as Hk. destruct lor_1_range as (Hl & [H1 H2] & _).
  unfold block. pose proof (Z.log2_spec (wr .| 1) ltac:(lia)) as Hs.
  assert (Ek : block_bits wr = Z.succ (Z.log2 (wr .| 1))) by (unfold block_bits; lia).
  rewrite <- Ek in Hs. assert (E : 2 ^ block_bits wr = 2 * 2 ^ Z.log2 (wr .| 1)).
  { rewrite Ek. apply Z.pow_succ_r, Z.log2_nonneg. }
  pose proof (Z.pow_le_mono_r 2 (block_bits wr) 16 ltac:(lia) ltac:(lia)).
  pose proof (Z.pow_le_mono_r 2 1 (block_bits wr) ltac:(lia) ltac:(lia)). lia.
Qed.

Lemma mx_eq : mx wr = 2 * (wr .| 1).
Proof.
  unfold mx. destruct lor_1_range as (_ & H1 & _).
  rewrite Z.shiftl_mul_pow2, wrapu_small by (unfold uN; lia). lia.
Qed.

(** Bit [block_bits] of [mx] is set, and what is below it is at most [wr]. *)
Lemma mx_low : mx wr = block wr + (mx wr - block wr) /\ 0 <= mx wr - block wr <= wr /\ mx wr - block wr < block wr.
Proof.
  rewrite mx_eq. destruct lor_1_range as (H1 & H2 & H3), block_range as (Hb & Hw & Hm).
  assert (He : block wr mod 2 = 0).
  { unfold block. pose proof block_bits_range. rewrite (pow2_half (block_bits wr)) by lia.
    rewrite Z.mul_comm. apply Z.mod_mul. lia. }
  Z.div_mod_to_equations. lia.
Qed.

Lemma mx_testbit : Z.testbit (mx wr) (block_bits wr) = true.
Proof.
  destruct mx_low as (E & Hl & Hb). pose proof block_bits_range.
  rewrite Z.testbit_odd, Z.shiftr_div_pow2 by lia. fold (block wr).
  replace (mx wr / block wr) with 1; [done|]. apply Z.div_unique with (mx wr - block wr); lia.
Qed.

(** The comparisons of the routines test one bit. *)
Lemma land_mx x : 0 <= x -> (wr <? x .& mx wr) = Z.testbit x (block_bits wr).
Proof.
  intros Hx. destruct mx_low as (E & Hl & Hb). pose proof block_bits_range as Hk.
  destruct block_range as (Hbr & Hw & Hm).
  destruct (Z.testbit x (block_bits wr)) eqn:Et.
  - apply Z.ltb_lt. assert (Ht : Z.testbit (x .& mx wr) (block_bits wr) = true)
      by (rewrite Z.land_spec, Et; apply mx_testbit).
    destruct (Z.lt_ge_cases (x .& mx wr) (block wr)) as [Hlt|Hge]; [|lia].
    rewrite (proj1 (uN_bits (block_bits wr) (x .& mx wr) ltac:(lia) ltac:(apply Z.land_nonneg; lia))) in Ht;
      [done | | lia].
    split; [apply Z.land_nonneg; lia | done].
  - apply Z.ltb_ge. enough (El : x .& mx wr = x .& (mx wr - block wr))
      by (rewrite El; pose proof (land_bound x (mx wr - block wr)); lia).
    assert (Ed : mx wr = (mx wr - block wr) .| (1 .<< block_bits wr)).
    { rewrite lor_shiftl_add; fold (block wr); unfold uN; try lia. fold (block wr). lia. }
    rewrite Ed at 1. rewrite Z.land_lor_distr_r, Z.shiftl_1_l.
    enough (x .& 2 ^ block_bits wr = 0) as -> by apply Z.lor_0_r.
    pose proof (flag_testbit x (block_bits wr) ltac:(lia)) as Hf. rewrite Et in Hf.
    by apply negb_false_iff, Z.eqb_eq in Hf.
Qed.
End Block.

(** * Carries *)

(** Bit [k] of [x + y + c], against the sum of the low [k] bits. *)
Lemma carry_bit x y c k :
  0 <= k -> 0 <= c <= 1 ->
  xorb (xorb (Z.testbit (x + y + c) k) (Z.testbit x k)) (Z.testbit y k) =
  (2 ^ k <=? x mod 2 ^ k + y mod 2 ^ k + c).
Proof.
  intros Hk Hc. rewrite !Z.testbit_odd, !Z.shiftr_div_pow2 by done.
  pose proof (pow2_pos k Hk) as Hp.
  pose proof (Z.div_mod x (2 ^ k) ltac:(lia)). pose proof (Z.div_mod y (2 ^ k) ltac:(lia)).
  pose proof (Z.mod_pos_bound x (2 ^ k) Hp). pose proof (Z.mod_pos_bound y (2 ^ k) Hp).
  set (r := x mod 2 ^ k + y mod 2 ^ k + c) in *.
  assert (E : (x + y + c) / 2 ^ k = x / 2 ^ k + y / 2 ^ k + truth (2 ^ k <=? r)).
  { symmetry. apply Z.div_unique with (r - truth (2 ^ k <=? r) * 2 ^ k); unfold r in *.
    - destruct (Z.leb_spec (2 ^ k) (x mod 2 ^ k + y mod 2 ^ k + c)); cbn [truth]; lia.
    - lia. }
  rewrite E, !Z.odd_add. destruct (2 ^ k <=? r); cbn [truth Z.odd];
    by destruct (Z.odd (x / 2 ^ k)), (Z.odd (y / 2 ^ k)).
Qed.

Lemma testbit_u32 x k : 0 <= k < 32 -> Z.testbit (to_u32 x) k = Z.testbit x k.
Proof. intros. apply Z.mod_pow2_bits_low. lia. Qed.

Lemma carry_bit_u32 x y c k :
  0 <= k < 32 -> 0 <= c <= 1 ->
  Z.testbit (to_u32 (x + y + c) .^ x .^ to_u32 y) k = (2 ^ k <=? x mod 2 ^ k + y mod 2 ^ k + c).
Proof. intros. rewrite !Z.lxor_spec, !testbit_u32 by lia. apply carry_bit; lia. Qed.

(** Adding less than a block to a word changes bit [k] when it leaves the block. *)
Lemma crosses_u32 x n k :
  0 <= k < 32 -> 0 <= n <= 2 ^ k ->
  Z.testbit (to_u32 (x + n) .^ x) k = (2 ^ k <=? x mod 2 ^ k + n).
Proof.
  intros Hk Hn. rewrite Z.lxor_spec, testbit_u32 by lia. pose proof (pow2_pos k ltac:(lia)).
  destruct (Z.eq_dec n (2 ^ k)) as [->|Hne].
  - pose proof (carry_bit x (2 ^ k) 0 k ltac:(lia) ltac:(lia)) as Hc.
    rewrite Z.add_0_r, Z.pow2_bits_true, Z.mod_same in Hc by lia.
    pose proof (Z.mod_pos_bound x (2 ^ k) ltac:(lia)).
    rewrite !Z.add_0_r in Hc. destruct (Z.leb_spec (2 ^ k) (x mod 2 ^ k)); [lia|].
    destruct (Z.leb_spec (2 ^ k) (x mod 2 ^ k + 2 ^ k)); [|lia].
    by destruct (xorb (Z.testbit (x + 2 ^ k) k) (Z.testbit x k)).
  - pose proof (carry_bit x n 0 k ltac:(lia) ltac:(lia)) as Hc.
    rewrite !Z.add_0_r, (Z.mod_small n) in Hc by lia.
    rewrite (proj1 (uN_bits k n ltac:(lia) ltac:(lia))) in Hc by (unfold uN; lia).
    by rewrite xorb_false_r in Hc.
Qed.

Lemma lxor_mod_pow2 x y k : 0 <= k -> (x .^ y) mod 2 ^ k = (x mod 2 ^ k) .^ (y mod 2 ^ k).
Proof.
  intros Hk. apply Z.bits_inj'. intros i Hi. rewrite Z.lxor_spec. destruct (Z.lt_ge_cases i k).
  - rewrite !Z.mod_pow2_bits_low by lia. apply Z.lxor_spec.
  - by rewrite !Z.mod_pow2_bits_high.
Qed.

(** The bits a successor changes are a block of ones at the bottom. *)
Lemma successor_bits ar wr :
  u16 ar -> u16 wr ->
  (mx wr <? to_u32 (ar + 1) .^ ar) = Z.testbit (to_u32 (ar + 1) .^ ar) (block_bits wr).
Proof.
  intros Har Hwr. pose proof (block_bits_range wr Hwr) as Hk. pose proof (mx_eq wr Hwr) as Em.
  destruct (block_range wr Hwr) as (Hb & Hw & Hm).
  rewrite crosses_u32 by (fold (block wr); lia). fold (block wr).
  rewrite (wrapu_small 32) by (unfold uN in *; lia).
  set (x := (ar + 1) .^ ar). assert (Hx0 : 0 <= x) by (apply Z.lxor_nonneg; unfold uN in *; lia).
  assert (Hlow : x mod block wr = ((ar + 1) mod block wr) .^ (ar mod block wr))
    by (apply lxor_mod_pow2; lia).
  assert (Hhigh : x / block wr = ((ar + 1) / block wr) .^ (ar / block wr)).
  { unfold block. rewrite <- !Z.shiftr_div_pow2 by lia. apply Z.shiftr_lxor. }
  pose proof (Z.div_mod x (block wr) ltac:(lia)) as Ex.
  pose proof (Z.div_mod ar (block wr) ltac:(lia)) as Ea.
  pose proof (Z.mod_pos_bound ar (block wr) ltac:(lia)).
  pose proof (Z.mod_pos_bound x (block wr) ltac:(lia)).
  destruct (Z.leb_spec (block wr) (ar mod block wr + 1)).
  - rewrite <- (Z.mod_unique (ar + 1) (block wr) (ar / block wr + 1) 0), Z.lxor_0_l in Hlow by lia.
    rewrite <- (Z.div_unique (ar + 1) (block wr) (ar / block wr + 1) 0) in Hhigh by lia.
    assert (x / block wr <> 0) by (rewrite Hhigh; intros E%Z.lxor_eq; lia).
    assert (0 <= x / block wr) by (apply Z.div_pos; lia). apply Z.ltb_lt. nia.
  - rewrite <- (Z.div_unique (ar + 1) (block wr) (ar / block wr) (ar mod block wr + 1)) in Hhigh by lia.
    rewrite Z.lxor_nilpotent in Hhigh. apply Z.ltb_ge. rewrite Hhigh in Ex. lia.
Qed.

(** * The routines *)

Section Ring.
Context (ar wr : Z) (Har : u16 ar) (Hwr : u16 wr) (Hon : on_ring ar wr = true).

Lemma ring_facts :
  let a := ar mod block wr in
  block wr - 1 - wr <= a < block wr /\ 0 <= wr < block wr /\ block wr <= 2 ^ 16 /\
  0 <= ar - a /\ ar - a + block wr <= 2 ^ 16.
Proof.
  cbv zeta. apply Z.leb_le in Hon. destruct (block_range wr Hwr) as (Hb & Hw & _).
  pose proof (Z.mod_pos_bound ar (block wr) ltac:(lia)). unfold uN in *.
  assert (Hd : 2 ^ 16 = block wr * 2 ^ (16 - block_bits wr)).
  { unfold block. pose proof (block_bits_range wr Hwr). rewrite <- Z.pow_add_r by lia. f_equal. lia. }
  pose proof (Z.div_mod ar (block wr) ltac:(lia)).
  assert (ar / block wr < 2 ^ (16 - block_bits wr)) by (apply Z.div_lt_upper_bound; lia).
  assert (0 <= ar / block wr) by (apply Z.div_pos; lia). repeat split; try lia. nia.
Qed.

(** A move of at most [wr + 1] words is a step, corrected by one turn when it leaves
    the buffer. *)
Lemma ring_move_cases n : - wr - 1 <= n <= wr + 1 ->
  let a := ar mod block wr in
  ring_move ar wr n =
  if block wr <=? a + n then ar + n - (wr + 1)
  else if a + n <? block wr - 1 - wr then ar + n + (wr + 1) else ar + n.
Proof.
  intros Hn. cbv zeta. pose proof ring_facts as Hf. cbv zeta in Hf.
  unfold ring_move, ring_base. set (a := ar mod block wr) in *. set (B := block wr) in *.
  replace (ar - (ar - a + (B - 1 - wr)) + n) with (a - (B - 1 - wr) + n) by lia.
  set (o := a - (B - 1 - wr)) in *.
  destruct (Z.leb_spec B (a + n)), (Z.ltb_spec (a + n) (B - 1 - wr)); try lia.
  - rewrite <- (Z.mod_unique (o + n) (wr + 1) 1 (o + n - (wr + 1))) by lia. lia.
  - rewrite <- (Z.mod_unique (o + n) (wr + 1) (-1) (o + n + (wr + 1))) by lia. lia.
  - rewrite Z.mod_small by lia. lia.
Qed.

Lemma ring_move_range n : ring_base ar wr <= ring_move ar wr n <= ring_base ar wr + wr /\
  0 <= ring_base ar wr /\ ring_base ar wr + wr < 2 ^ 16.
Proof.
  pose proof ring_facts as Hf. cbv zeta in Hf. unfold ring_move.
  pose proof (Z.mod_pos_bound (ar - ring_base ar wr + n) (wr + 1) ltac:(lia)).
  unfold ring_base in *. lia.
Qed.

(** A [u32] that is a value of the buffer plus a multiple of [2^32]. *)
Lemma u16_of_u32 x y k : u16 y -> x = y + k * 2 ^ 32 -> to_u16 (to_u32 x) = y.
Proof.
  intros Hy ->. rewrite (wrapu_unique 32 _ y k); [by apply wrapu_small | unfold uN in *; lia | done].
Qed.

Lemma u32_sub_u32 x y : to_u32 (to_u32 x - y) = to_u32 (x - y).
Proof. apply Zminus_mod_idemp_l. Qed.
Lemma u32_add_u32 x y : to_u32 (to_u32 x + y) = to_u32 (x + y).
Proof. apply Zplus_mod_idemp_l. Qed.

(** The two ways the routines move: forward, and one turn back if bit [block_bits]
    of [x] says so; backward, and one turn forward unless bit [block_bits] of [x]
    and of the turn say not. *)
Lemma move_forward n x :
  0 <= n <= wr + 1 -> 0 <= x ->
  Z.testbit x (block_bits wr) = (block wr <=? ar mod block wr + n) ->
  to_u16 (if wr <? x .& mx wr then to_u32 (to_u32 (ar + n) - (wr + 1)) else to_u32 (ar + n)) =
  ring_move ar wr n.
Proof.
  intros Hn Hx Ht. rewrite land_mx, Ht by done.
  pose proof (ring_move_range n) as Hr. pose proof ring_facts as Hf. cbv zeta in Hf.
  rewrite ring_move_cases in * by lia.
  set (a := ar mod block wr) in *. set (B := block wr) in *.
  destruct (Z.leb_spec B (a + n)); [rewrite u32_sub_u32|destruct (Z.ltb_spec (a + n) (B - 1 - wr)); [lia|]].
  all: apply (u16_of_u32 _ _ 0); [unfold uN; lia | lia].
Qed.

Lemma move_backward n x y :
  0 <= n <= wr -> 0 <= x -> y = ar - n ->
  Z.testbit x (block_bits wr) = (n <=? ar mod block wr) ->
  to_u16 (if ((to_u32 (to_u32 y + wr + 1) .^ to_u32 y) .& (x .& mx wr)) <=? wr
          then to_u32 (to_u32 y + (wr + 1)) else to_u32 y) =
  ring_move ar wr (- n).
Proof.
  intros Hn Hx -> Ht. rewrite Z.leb_antisym, Z.land_assoc, land_mx by
    (try done; apply Z.land_nonneg; left; apply Z.lxor_nonneg; split; intros; apply wrapu_range; lia).
  pose proof (ring_move_range (- n)) as Hr. pose proof ring_facts as Hf. cbv zeta in Hf.
  rewrite ring_move_cases in * by lia. pose proof (block_bits_range wr Hwr).
  rewrite Z.land_spec, Ht.
  replace (to_u32 (ar - n) + wr + 1) with (to_u32 (ar - n) + (wr + 1)) by lia.
  rewrite crosses_u32 by (fold (block wr); lia). fold (block wr).
  assert (Em : to_u32 (ar - n) mod block wr = (ar - n) mod block wr).
  { unfold wrapu, block. apply Z.mod_mod_divide. exists (2 ^ (32 - block_bits wr)).
    rewrite <- Z.pow_add_r by lia. f_equal. lia. }
  assert (Ed : (ar - n) mod block wr = if n <=? ar mod block wr then ar mod block wr - n
               else ar mod block wr - n + block wr).
  { pose proof (Z.div_mod ar (block wr) ltac:(lia)). symmetry.
    destruct (Z.leb_spec n (ar mod block wr)).
    - apply Z.mod_unique with (ar / block wr); lia.
    - apply Z.mod_unique with (ar / block wr - 1); lia. }
  rewrite Em, Ed, u32_add_u32. set (a := ar mod block wr) in *. set (B := block wr) in *.
  destruct (Z.leb_spec n a); cbn [andb negb]; rewrite ?andb_false_r; cbn [negb].
  - destruct (Z.leb_spec B (a - n + (wr + 1))), (Z.ltb_spec (a + - n) (B - 1 - wr)),
      (Z.leb_spec B (a + - n)); cbn [andb negb] in *; try lia.
    all: apply (u16_of_u32 _ _ 0); [unfold uN; lia | lia].
  - destruct (Z.ltb_spec (a + - n) (B - 1 - wr)), (Z.leb_spec B (a + - n)); try lia.
    apply (u16_of_u32 _ _ 0); [unfold uN; lia | lia].
Qed.

Lemma u32_nonneg x : 0 <= to_u32 x.
Proof. apply wrapu_range. lia. Qed.
Ltac pos := repeat (apply Z.lxor_nonneg; split; intros); try apply u32_nonneg; unfold uN in *; lia.

Lemma increment_ring : increment_ar ar wr = ring_move ar wr 1.
Proof.
  pose proof ring_facts as Hf. cbv zeta in Hf. pose proof (block_bits_range wr Hwr) as Hk.
  rewrite <- (move_forward 1 (to_u32 (ar + 1) .^ ar)); [| lia | pos | apply crosses_u32; fold (block wr); lia].
  unfold increment_ar. fold (mx wr). rewrite land_mx, successor_bits by (done || pos). done.
Qed.

Lemma decrement_ring : decrement_ar ar wr = ring_move ar wr (-1).
Proof.
  pose proof ring_facts as Hf. cbv zeta in Hf. pose proof (block_bits_range wr Hwr) as Hk.
  unfold decrement_ar. fold (mx wr). rewrite land_mx, crosses_u32 by (done || pos || fold (block wr); lia).
  fold (block wr). rewrite u32_sub_u32, ring_move_cases by lia.
  pose proof (ring_move_range (-1)) as Hr. rewrite ring_move_cases in Hr by lia.
  set (a := ar mod block wr) in *. set (B := block wr) in *.
  destruct (Z.leb_spec B (a + wr)), (Z.leb_spec B (a + -1)), (Z.ltb_spec (a + -1) (B - 1 - wr)); try lia.
  all: apply (u16_of_u32 _ _ 0); [unfold uN; lia | lia].
Qed.

Lemma increase_ring ix : - wr <= ix <= wr -> increase_ar ar wr ix = ring_move ar wr ix.
Proof.
  intros Hix. pose proof ring_facts as Hf. cbv zeta in Hf. pose proof (block_bits_range wr Hwr) as Hk.
  unfold increase_ar. fold (mx wr). cbv zeta.
  assert (Hc := carry_bit_u32 ar ix 0 (block_bits wr) ltac:(lia) ltac:(lia)).
  fold (block wr) in Hc. rewrite Z.add_0_r in Hc.
  destruct (Z.leb_spec 0 ix).
  - apply move_forward; [lia | pos |]. rewrite Hc, (Z.mod_small ix) by lia. f_equal; lia.
  - replace (ring_move ar wr ix) with (ring_move ar wr (- - ix)) by (f_equal; lia).
    apply move_backward; [lia | pos | lia |]. rewrite Hc.
    rewrite <- (Z.mod_unique ix (block wr) (-1) (ix + block wr)) by lia.
    split_cmp.
Qed.

(** -0x8000 is the one index the test [(u32)ix > 0xFFFF8000] takes for a positive one. *)
Lemma decrease_ring ix :
  - wr <= ix <= wr -> - 0x8000 < ix < 0x8000 -> decrease_ar ar wr ix = ring_move ar wr (- ix).
Proof.
  intros Hix H16. pose proof ring_facts as Hf. cbv zeta in Hf. pose proof (block_bits_range wr Hwr) as Hk.
  unfold decrease_ar. fold (mx wr). cbv zeta.
  assert (Hc := carry_bit_u32 ar (Z.lnot ix) 1 (block_bits wr) ltac:(lia) ltac:(lia)).
  fold (block wr) in Hc. unfold Z.lnot in *.
  replace (ar + Z.pred (- ix) + 1) with (ar - ix) in Hc by lia.
  destruct (Z.ltb_spec 0xFFFF8000 (to_u32 ix)) as [Hneg|Hpos].
  - assert (ix < 0). { destruct (Z.lt_ge_cases ix 0); [done|]. rewrite wrapu_small in Hneg by (unfold uN; lia). lia. }
    replace (ar - ix) with (ar + - ix) in * by lia.
    apply move_forward; [lia | pos |]. rewrite Hc, (Z.mod_small (Z.pred (- ix))) by lia. f_equal; lia.
  - assert (0 <= ix).
    { destruct (Z.lt_ge_cases ix 0); [|done]. rewrite (wrapu_unique 32 ix (ix + 2 ^ 32) (-1)) in Hpos by (unfold uN; lia). lia. }
    apply move_backward; [lia | pos | lia |]. rewrite Hc.
    rewrite <- (Z.mod_unique (Z.pred (- ix)) (block wr) (-1) (Z.pred (- ix) + block wr)) by lia.
    split_cmp.
Qed.
End Ring.

Section Instructions.
Context {H : Type} {hst : DSPHost H}.
Implicit Type s : State H.

Lemma run_IncrementAddressRegister reg s : 0 <= reg < 4 ->
  IncrementAddressRegister reg s = Done (increment_ar (aat (fget f_ar s) reg) (aat (fget f_wr s) reg)) s.
Proof. intros. unfold IncrementAddressRegister. mrun. Qed.
Lemma run_DecrementAddressRegister reg s : 0 <= reg < 4 ->
  DecrementAddressRegister reg s = Done (decrement_ar (aat (fget f_ar s) reg) (aat (fget f_wr s) reg)) s.
Proof. intros. unfold DecrementAddressRegister. mrun. Qed.
Lemma run_IncreaseAddressRegister reg ix s : 0 <= reg < 4 ->
  IncreaseAddressRegister reg ix s = Done (increase_ar (aat (fget f_ar s) reg) (aat (fget f_wr s) reg) ix) s.
Proof. intros. unfold IncreaseAddressRegister. mrun. Qed.
Lemma run_DecreaseAddressRegister reg ix s : 0 <= reg < 4 ->
  DecreaseAddressRegister reg ix s = Done (decrease_ar (aat (fget f_ar s) reg) (aat (fget f_wr s) reg) ix) s.
Proof. intros. unfold DecreaseAddressRegister. mrun. Qed.

(** Address registers are circular buffers.  When register [reg] holds an address
    of its buffer (the last [$wr + 1] words of an aligned power-of-two block), the
    four routines move it by 1, -1, [ix] and -[ix] words around that buffer, for
    every index of at most [$wr] words either way: the xor-and-mask tests of the
    code detect exactly the moves that leave the buffer. *)
Theorem address_registers_circular reg s :
  wf s -> 0 <= reg < 4 ->
  let ar := aat (fget f_ar s) reg in
  let wr := aat (fget f_wr s) reg in
  on_ring ar wr = true ->
  IncrementAddressRegister reg s = Done (ring_move ar wr 1) s /\
  DecrementAddressRegister reg s = Done (ring_move ar wr (-1)) s /\
  (forall ix, - wr <= ix <= wr -> IncreaseAddressRegister reg ix s = Done (ring_move ar wr ix) s) /\
  (forall ix, - wr <= ix <= wr -> - 0x8000 < ix < 0x8000 ->
     DecreaseAddressRegister reg ix s = Done (ring_move ar wr (- ix)) s).
Proof.
  intros Hs Hreg ar wr Hon.
  assert (u16 ar) by apply (ft_get (F := f_ar) (P := arr_ok u16) s Hs).
  assert (u16 wr) by apply (ft_get (F := f_wr) (P := arr_ok u16) s Hs).
  repeat split; intros;
    rewrite ?run_IncrementAddressRegister, ?run_DecrementAddressRegister, ?run_IncreaseAddressRegister,
      ?run_DecreaseAddressRegister by done; fold ar wr; f_equal.
  - by apply increment_ring.
  - by apply decrement_ring.
  - by apply increase_ring.
  - by apply decrease_ring.
Qed.
End Instructions.

(** Moves compose: the buffer and the block of an address stay those it started in. *)
Lemma ring_base_move ar wr n :
  u16 ar -> u16 wr -> on_ring ar wr = true ->
  ring_base (ring_move ar wr n) wr = ring_base ar wr /\ on_ring (ring_move ar wr n) wr = true.
Proof.
  intros Har Hwr Hon. pose proof (ring_facts ar wr Har Hwr Hon) as Hf. cbv zeta in Hf.
  pose proof (ring_move_range ar wr Har Hwr Hon n) as [Hr _].
  assert (Em : ring_move ar wr n mod block wr = ring_move ar wr n - (ar - ar mod block wr)).
  { pose proof (Z.div_mod ar (block wr) ltac:(lia)). unfold ring_base in Hr. symmetry.
    apply Z.mod_unique with (ar / block wr); lia. }
  unfold on_ring. unfold ring_base at 1. rewrite Em. unfold ring_base in *. split; [lia|].
  apply Z.leb_le. lia.
Qed.

(** Moving an address register there and back: inside its buffer, a decrement undoes
    an increment, a decrease by [ix] an increase by [ix], and [$wr + 1] increments
    come back to where they started. *)
Theorem address_moves_invert ar wr :
  u16 ar -> u16 wr -> on_ring ar wr = true ->
  decrement_ar (increment_ar ar wr) wr = ar /\
  increment_ar (decrement_ar ar wr) wr = ar /\
  (forall ix, - wr <= ix <= wr -> - 0x8000 < ix < 0x8000 ->
     decrease_ar (increase_ar ar wr ix) wr ix = ar) /\
  Nat.iter (Z.to_nat (wr + 1)) (fun a => increment_ar a wr) ar = ar.
Proof.
  intros Har Hwr Hon. pose proof (ring_facts ar wr Har Hwr Hon) as Hf. cbv zeta in Hf.
  assert (Hu : forall n, u16 (ring_move ar wr n)).
  { intros n. pose proof (ring_move_range ar wr Har Hwr Hon n). unfold uN. lia. }
  assert (Hm : forall n m, ring_move (ring_move ar wr n) wr m = ring_move ar wr (n + m)).
  { intros n m. unfold ring_move at 1. rewrite (proj1 (ring_base_move ar wr n Har Hwr Hon)).
    unfold ring_move. f_equal.
    replace (ar - ring_base ar wr + (n + m)) with (ar - ring_base ar wr + n + m) by lia.
    rewrite <- (Zplus_mod_idemp_l (ar - ring_base ar wr + n) m). f_equal. lia. }
  assert (H0 : forall n, n mod (wr + 1) = 0 -> ring_move ar wr n = ar).
  { intros n Hn. unfold ring_move. rewrite Z.add_mod, Hn, Z.add_0_r, Z.mod_mod by lia.
    rewrite (Z.mod_small (ar - ring_base ar wr)); unfold ring_base; lia. }
  assert (Hon' : forall n, on_ring (ring_move ar wr n) wr = true) by (intros; by apply ring_base_move).
  assert (Hi : forall n, Nat.iter n (fun a => increment_ar a wr) ar = ring_move ar wr (Z.of_nat n)).
  { induction n as [|n IH]; cbn [Nat.iter nat_rect]; [by rewrite H0|].
    unfold Nat.iter in IH. rewrite IH, increment_ring by done. rewrite Hm. f_equal. lia. }
  repeat split; intros.
  - by rewrite increment_ring, decrement_ring, Hm, H0.
  - by rewrite decrement_ring, increment_ring, Hm, H0.
  - by rewrite increase_ring, decrease_ring, Hm, Z.add_opp_diag_r, H0.
  - rewrite Hi, Z2Nat.id by lia. apply H0, Z.mod_same. lia.
Qed.

Lemma address_moves_invert_witness :
  on_ring 0x1230 0x00a7 = false /\ on_ring 0x1280 0x00a7 = true /\
  decrement_ar (increment_ar 0x12ff 0x00a7) 0x00a7 = 0x12ff /\ increment_ar 0x12ff 0x00a7 = 0x1258.
Proof.
  split; [reflexivity|]. split; [reflexivity|].
  split; [|reflexivity]. apply (address_moves_invert 0x12ff 0x00a7); [range_lia | range_lia | reflexivity].
Defined.

(** Register 1 at the last word of a buffer of 168 words. *)
Definition ring_state : State sim :=
  fset f_wr (aupd ∅ 1 0x00a7) (fset f_ar (aupd ∅ 1 0x12ff) sim_state).

Lemma ring_state_ok : wf ring_state.
Proof.
  unfold ring_state. apply (ft_set (F := f_wr) (P := arr_ok u16));
    [apply (ft_set (F := f_ar) (P := arr_ok u16)); [apply sim_state_ok|]|];
    apply arr_ok_aupd; try (apply arr_ok_empty); range_lia.
Qed.

Lemma address_registers_circular_witness :
  IncrementAddressRegister 1 ring_state = Done 0x1258 ring_state.
Proof.
  apply (address_registers_circular 1 ring_state ring_state_ok ltac:(lia)). reflexivity.
Defined.
