(* ===== verification/StackProps.v ===== *)
(** The four hardware stacks, and what is built on them: exceptions and returns
    from them, and the loop hardware. *)
From stdpp Require Import base tactics option list gmap strings.
From Stdlib Require Import ZArith Lia Bool.
From S2P Require Import Prelude Accelerator DSPState DSPTables DSPHardware DSPInterpreter.
From S2P Require Import DSPBranch DSPFacts SimHost.

#[local] Open Scope Z_scope.

(** * The stacks as lists

    A stack is its register [$stN] on top of 32 words of memory that the stack
    pointer goes around: a list of 33 words, the top first. *)

Section Stacks.
Context {H : Type} {hst : DSPHost H}.
Implicit Type (s : State H) (r : StackRegister).

Definition stack_entry r s (k : Z) : Z :=
  if k =? 0 then aat (fget f_st s) (stack_index r)
  else aat (fget f_reg_stacks s)
         (stack_slot (stack_index r) ((aat (fget f_reg_stack_ptrs s) (stack_index r) - (k - 1)) mod 32)).

Definition contents r s : list Z := map (fun k => stack_entry r s (Z.of_nat k)) (seq 0 33).

(** The state with its stacks forgotten. *)
Definition but_stacks s : State H := fset f_st ∅ (fset f_reg_stacks ∅ (fset f_reg_stack_ptrs ∅ s)).

Definition push_state r (v : Z) s : State H :=
  let i := stack_index r in
  let p := (aat (fget f_reg_stack_ptrs s) i + 1) mod 32 in
  fset f_st (aupd (fget f_st s) i v)
    (fset f_reg_stacks (aupd (fget f_reg_stacks s) (stack_slot i p) (aat (fget f_st s) i))
      (fset f_reg_stack_ptrs (aupd (fget f_reg_stack_ptrs s) i p) s)).

Definition pop_state r s : State H :=
  let i := stack_index r in
  let p := aat (fget f_reg_stack_ptrs s) i in
  fset f_reg_stack_ptrs (aupd (fget f_reg_stack_ptrs s) i ((p - 1) mod 32))
    (fset f_st (aupd (fget f_st s) i (aat (fget f_reg_stacks s) (stack_slot i p))) s).

Lemma stack_index_range r : 0 <= stack_index r < 4.
Proof. destruct r; cbn; lia. Qed.

Lemma stack_ptr_range r s : wf s -> 0 <= aat (fget f_reg_stack_ptrs s) (stack_index r) < 32.
Proof. intros Hs. apply (ft_get (F := f_reg_stack_ptrs) (P := arr_ok stack_ptr) s Hs). Qed.

Lemma stack_mask x : to_u8 x .& DSP_STACK_MASK = x mod 32.
Proof.
  change DSP_STACK_MASK with (2 ^ 5 - 1). rewrite land_wrapu by lia. unfold wrapu.
  apply Z.mod_mod_divide. by exists 8.
Qed.

Lemma stack_slot_inj i p j q :
  0 <= p < 32 -> 0 <= q < 32 -> stack_slot i p = stack_slot j q -> i = j /\ p = q.
Proof. unfold stack_slot. lia. Qed.

Lemma stack_slot_range r p : 0 <= p < 32 -> 0 <= stack_slot (stack_index r) p < 4 * DSP_STACK_DEPTH.
Proof. pose proof (stack_index_range r). unfold stack_slot. lia. Qed.

Lemma run_StoreStack r v s : wf s -> StoreStack r v s = Done tt (push_state r v s).
Proof.
  intros Hs. pose proof (stack_index_range r). pose proof (stack_ptr_range r s Hs).
  unfold StoreStack. cbv zeta. do 2 mstep. rewrite stack_mask. do 2 mstep.
  change (fget f_reg_stack_ptrs (fset f_reg_stack_ptrs ?v ?s)) with v. rewrite aat_aupd_eq.
  erewrite bind_done; [|apply run_seta; apply stack_slot_range; Z.div_mod_to_equations; lia].
  by rewrite run_seta by done.
Qed.

Lemma run_PopStack r s : wf s -> PopStack r s = Done (aat (fget f_st s) (stack_index r)) (pop_state r s).
Proof.
  intros Hs. pose proof (stack_index_range r). pose proof (stack_ptr_range r s Hs).
  unfold PopStack. cbv zeta. do 2 mstep.
  erewrite bind_done; [|apply run_geta; by apply stack_slot_range].
  do 2 mstep. by rewrite stack_mask.
Qed.

Lemma wf_push r v s : wf s -> u16 v -> wf (push_state r v s).
Proof.
  intros Hs Hv. pose proof (typed_StoreStack r v Hv s Hs) as Ht. rewrite run_StoreStack in Ht by done.
  apply Ht.
Qed.

Lemma wf_pop r s : wf s -> wf (pop_state r s).
Proof.
  intros Hs. pose proof (typed_PopStack r s Hs) as Ht. rewrite run_PopStack in Ht by done. apply Ht.
Qed.

Lemma entry_push r v s k :
  wf s -> 0 <= k < 32 -> stack_entry r (push_state r v s) (k + 1) = stack_entry r s k.
Proof.
  intros Hs Hk. pose proof (stack_ptr_range r s Hs) as Hp. unfold stack_entry, push_state. cbn.
  set (p := aat (reg_stack_ptrs (dsp s)) (stack_index r)). change (0 <= p < 32) in Hp.
  rewrite !aat_aupd_eq. destruct (Z.eqb_spec (k + 1) 0); [lia|].
  destruct (Z.eqb_spec k 0) as [->|].
  - rewrite Z.sub_0_r, Z.mod_mod by lia. by rewrite aat_aupd_eq.
  - rewrite aat_aupd_ne.
    + rewrite Zminus_mod_idemp_l. by replace (p + 1 - (k + 1 - 1)) with (p - (k - 1)) by lia.
    + intros [_ E]%stack_slot_inj; [|apply Z.mod_pos_bound; lia..].
      rewrite Zminus_mod_idemp_l in E. Z.div_mod_to_equations. lia.
Qed.

Lemma entry_pop r s k :
  wf s -> 0 <= k < 32 -> stack_entry r (pop_state r s) k = stack_entry r s (k + 1).
Proof.
  intros Hs Hk. pose proof (stack_ptr_range r s Hs) as Hp. unfold stack_entry, pop_state. cbn.
  set (p := aat (reg_stack_ptrs (dsp s)) (stack_index r)). change (0 <= p < 32) in Hp.
  rewrite !aat_aupd_eq. destruct (Z.eqb_spec (k + 1) 0); [lia|].
  destruct (Z.eqb_spec k 0) as [->|].
  - replace (p - (0 + 1 - 1)) with p by lia. by rewrite Z.mod_small.
  - rewrite Zminus_mod_idemp_l. by replace (p - 1 - (k - 1)) with (p - (k + 1 - 1)) by lia.
Qed.

Lemma entry_pop_last r s :
  wf s -> stack_entry r (pop_state r s) 32 = stack_entry r s 1.
Proof.
  intros Hs. pose proof (stack_ptr_range r s Hs) as Hp. unfold stack_entry, pop_state. cbn.
  set (p := aat (reg_stack_ptrs (dsp s)) (stack_index r)). change (0 <= p < 32) in Hp.
  rewrite !aat_aupd_eq, Zminus_mod_idemp_l. f_equal. f_equal. Z.div_mod_to_equations. lia.
Qed.

Lemma contents_cons r s :
  contents r s = stack_entry r s 0 :: map (fun k => stack_entry r s (Z.of_nat k + 1)) (seq 0 32).
Proof.
  reflexivity.
Qed.

Lemma contents_take r s : take 32 (contents r s) = map (fun k => stack_entry r s (Z.of_nat k)) (seq 0 32).
Proof. reflexivity. Qed.

Lemma contents_length r s : length (contents r s) = 33%nat.
Proof. reflexivity. Qed.

Lemma contents_push r v s : wf s -> contents r (push_state r v s) = v :: take 32 (contents r s).
Proof.
  intros Hs. rewrite contents_cons, contents_take. f_equal.
  - unfold stack_entry, push_state. cbn. by rewrite aat_aupd_eq.
  - apply map_ext_in. intros k Hk%in_seq. apply entry_push; [done | lia].
Qed.

Lemma contents_pop r s :
  wf s -> contents r (pop_state r s) = tail (contents r s) ++ [stack_entry r s 1].
Proof.
  intros Hs. rewrite (contents_cons r s). cbn [tail]. unfold contents.
  change (seq 0 33) with (seq 0 32 ++ [32%nat]). rewrite map_app. f_equal.
  - apply map_ext_in. intros k Hk%in_seq. apply entry_pop; [done | lia].
  - cbn [map]. f_equal. by apply entry_pop_last.
Qed.

Lemma contents_other r r' v s :
  wf s -> r <> r' -> contents r' (push_state r v s) = contents r' s /\ contents r' (pop_state r s) = contents r' s.
Proof.
  intros Hs Hr.
  assert (Hi : stack_index r <> stack_index r') by (destruct r, r'; done).
  split; apply map_ext_in; intros k _; unfold stack_entry, push_state, pop_state; cbn;
    repeat rewrite (aat_aupd_ne _ (stack_index r) _ (stack_index r')) by done; try done.
  rewrite (aat_aupd_ne (reg_stacks (dsp s))); [done|].
  intros [E _]%stack_slot_inj; [done | apply Z.mod_pos_bound; lia..].
Qed.

(** The hardware stacks are bounded stacks.  Each of the four is, with its register
    [$stN] on top, a list of 33 words: [StoreStack] puts a word on top and drops the
    oldest one, [PopStack] takes the top off (the word that wraps around appears at
    the bottom), neither touches another stack or anything else, and neither fails. *)
Theorem stacks_refine_lists r v s :
  wf s ->
  (exists s1, StoreStack r v s = Done tt s1 /\
     contents r s1 = v :: take 32 (contents r s) /\ but_stacks s1 = but_stacks s /\
     forall r', r <> r' -> contents r' s1 = contents r' s) /\
  (exists top s2, PopStack r s = Done top s2 /\
     head (contents r s) = Some top /\
     contents r s2 = tail (contents r s) ++ [stack_entry r s 1] /\ but_stacks s2 = but_stacks s /\
     forall r', r <> r' -> contents r' s2 = contents r' s).
Proof.
  intros Hs. split.
  - exists (push_state r v s). split; [by apply run_StoreStack|]. split; [by apply contents_push|].
    split; [done|]. intros. by apply (proj1 (contents_other r r' v s Hs ltac:(done))).
  - eexists _, (pop_state r s). split; [by apply run_PopStack|]. split; [done|].
    split; [by apply contents_pop|]. split; [done|]. intros. by apply (proj2 (contents_other r r' 0 s Hs ltac:(done))).
Qed.

(** ** Last in, first out *)

Fixpoint push_all r (l : list Z) : M (State H) unit :=
  match l with [] => mret tt | v :: l' => StoreStack r v ;; push_all r l' end.

Fixpoint pop_all r (n : nat) : M (State H) (list Z) :=
  match n with
  | O => mret []
  | S n' => v ← PopStack r; l ← pop_all r n'; mret (v :: l)
  end.

Lemma run_push_all r l s : wf s -> Forall u16 l -> exists s',
  push_all r l s = Done tt s' /\ wf s' /\ but_stacks s' = but_stacks s /\
  contents r s' = take 33 (rev l ++ contents r s).
Proof.
  revert s. induction l as [|v l IH]; intros s Hs Hl.
  - exists s. do 3 (split; [done|]). symmetry. apply (take_ge (contents r s)). by rewrite contents_length.
  - inversion_clear Hl. cbn [push_all]. erewrite bind_done; [|by apply run_StoreStack].
    destruct (IH (push_state r v s)) as (s' & E & Hw & Hb & Hc); [by apply wf_push | done |].
    exists s'. split; [done|]. split; [done|]. split; [done|]. rewrite Hc, contents_push by done.
    cbn [rev]. rewrite <- app_assoc. cbn [app].
    destruct (Nat.le_gt_cases 33 (length (rev l))).
    + by rewrite !take_app_le by done.
    + rewrite !take_app_ge by lia. f_equal.
      destruct (33 - length (rev l))%nat as [|m] eqn:Em; [done|].
      cbn [take]. f_equal. rewrite take_take. f_equal. lia.
Qed.

Lemma run_pop_all r n s : wf s -> (n <= 32)%nat -> exists s',
  pop_all r n s = Done (take n (contents r s)) s' /\ wf s' /\ but_stacks s' = but_stacks s /\
  take (33 - n) (contents r s') = drop n (contents r s).
Proof.
  revert s. induction n as [|n IH]; intros s Hs Hn.
  - exists s. do 3 (split; [done|]). apply (take_ge (contents r s)). by rewrite contents_length.
  - cbn [pop_all]. erewrite bind_done; [|by apply run_PopStack]. cbv beta.
    destruct (IH (pop_state r s)) as (s' & E & Hw & Hb & Hc); [by apply wf_pop | lia |].
    exists s'. erewrite bind_done; [|exact E]. rewrite contents_pop in * by done.
    pose proof (contents_length r s) as Hl.
    destruct (contents r s) as [|t c] eqn:Ec; [done|]. cbn [tail] in *. cbn [length] in Hl.
    assert (Ht : t = aat (fget f_st s) (stack_index r)) by (rewrite contents_cons in Ec; by inversion Ec).
    split; [|split; [done | split; [done|]]].
    + rewrite take_app_le by lia. by rewrite Ht.
    + cbn [drop]. rewrite drop_app_le in Hc by lia.
      replace (33 - S n)%nat with (Nat.min (33 - S n) (33 - n)) by lia.
      rewrite <- take_take, Hc, take_app_le by (rewrite length_drop; lia).
      apply take_ge. rewrite length_drop. lia.
Qed.

(** Up to 32 words come back in the reverse of the order they were stored in, and
    the stack is then what it was, as deep as the stores did not reach. *)
Theorem stack_lifo r l s :
  wf s -> Forall u16 l -> (length l <= 32)%nat ->
  exists s1 s2, push_all r l s = Done tt s1 /\ pop_all r (length l) s1 = Done (rev l) s2 /\
    but_stacks s2 = but_stacks s /\
    take (33 - length l) (contents r s2) = take (33 - length l) (contents r s).
Proof.
  intros Hs Hl Hn. destruct (run_push_all r l s Hs Hl) as (s1 & E1 & Hw1 & Hb1 & Hc1).
  destruct (run_pop_all r (length l) s1 Hw1 Hn) as (s2 & E2 & Hw2 & Hb2 & Hc2).
  exists s1, s2. split; [done|]. rewrite Hc1 in *.
  rewrite take_take, (Nat.min_l _ 33), take_app_le, take_ge in E2 by (rewrite ?length_rev; lia).
  split; [done|]. split; [by rewrite Hb2|]. rewrite Hc2, skipn_firstn_comm.
  by rewrite drop_app_length' by (by rewrite length_rev).
Qed.
End Stacks.

(** * Exceptions *)

Section Exceptions.
Context {H : Type} {hst : DSPHost H}.
Implicit Type s : State H.

(** Exception [i] is pending and enabled; the external interrupt, 7, cannot be masked
    once it is pending. *)
Definition deliverable s (i : Z) : bool :=
  Z.testbit (fget f_exceptions s) i && (Z.testbit (fget f_sr s) 9 || (i =? 7)).

(** The exception to deliver: the highest. *)
Definition next_exception s : option Z := List.find (deliverable s) [7; 6; 5; 4; 3; 2; 1].

(** Its delivery. *)
Definition deliver (i : Z) s : State H :=
  let s1 := push_state Data (fget f_sr s) (push_state Call (fget f_pc s) s) in
  fset f_sr (Z.clearbit (fget f_sr s) (if i =? 7 then 11 else 9))
    (fset f_exceptions (Z.clearbit (fget f_exceptions s) i) (fset f_pc (2 * i) s1)).

Lemma land_lnot_clearbit w x k :
  0 <= k < w -> uN w x -> x .& wrapu w (Z.lnot (2 ^ k)) = Z.clearbit x k.
Proof.
  intros Hk Hx. apply Z.bits_inj'. intros i Hi. rewrite Z.land_spec.
  destruct (Z.lt_ge_cases i w).
  - unfold wrapu. rewrite Z.mod_pow2_bits_low, Z.lnot_spec, Z.pow2_bits_eqb by lia.
    rewrite Z.clearbit_eqb. done.
  - unfold uN in Hx. rewrite Z.clearbit_eqb.
    by rewrite (proj1 (uN_bits w x ltac:(lia) ltac:(lia)) Hx i).
Qed.

Lemma run_CheckException1 i s :
  wf s -> 1 <= i <= 7 ->
  CheckException1 i s = if deliverable s i then Done true (deliver i s) else Done false s.
Proof.
  intros Hs Hi. unfold CheckException1, deliverable. mstep.
  rewrite Z.shiftl_1_l, flag_testbit by lia. change (exception_number ExternalInterrupt) with 7.
  destruct (Z.testbit (fget f_exceptions s) i); cbn [andb]; [|done].
  mstep. change SR_INT_ENABLE with (2 ^ 9). rewrite flag_testbit by lia.
  destruct (Z.testbit (fget f_sr s) 9 || (i =? 7)) eqn:Een; [|done].
  assert (Hp : wf (push_state Call (fget f_pc s) s))
    by (apply wf_push; [done | apply (ft_get (F := f_pc) (P := u16) s Hs)]).
  mstep. erewrite bind_done; [|by apply run_StoreStack].
  mstep. erewrite bind_done; [|by apply run_StoreStack].
  do 2 mstep. rewrite (wrapu_small 16 (i * 2)) by (unfold uN; lia).
  pose proof (ft_get (F := f_exceptions) (P := u8) s Hs) as He.
  pose proof (ft_get (F := f_sr) (P := u16) s Hs) as Hr.
  unfold deliver. destruct (i =? 7); mstep; rewrite run_ret; f_equal.
  all: change (SR_EXT_INT_ENABLE) with (2 ^ 11); change (fget f_sr ?x .& _) with (fget f_sr s .& to_u16 (Z.lnot (2 ^ 11)))
    || change (fget f_sr ?x .& _) with (fget f_sr s .& to_u16 (Z.lnot (2 ^ 9))).
  all: change (fget f_exceptions ?x .& ?y) with (fget f_exceptions s .& y).
  all: rewrite !land_lnot_clearbit by (lia || done).
  all: by rewrite Z.mul_comm.
Qed.

Lemma run_CheckExceptions_loop s n :
  wf s -> (n <= 7)%nat ->
  CheckExceptions_loop n s =
  Done tt match List.find (deliverable s) (map Z.of_nat (rev (seq 1 n))) with
          | Some i => deliver i s | None => s end.
Proof.
  intros Hs. induction n as [|n IH]; intros Hn; [done|].
  cbn [CheckExceptions_loop]. rewrite seq_S, rev_app_distr.
  change (map Z.of_nat (rev [1 + n]%nat ++ rev (seq 1 n))) with (Z.of_nat (S n) :: map Z.of_nat (rev (seq 1 n))).
  cbn [List.find]. pose proof (run_CheckException1 (Z.of_nat (S n)) s Hs ltac:(lia)) as E.
  destruct (deliverable s (Z.of_nat (S n))); (erewrite bind_done; [|exact E]); [done | apply IH; lia].
Qed.

Lemma run_CheckExceptions s :
  wf s -> CheckExceptions s = Done tt match next_exception s with Some i => deliver i s | None => s end.
Proof.
  intros Hs. unfold CheckExceptions. mstep. destruct (Z.eqb_spec (fget f_exceptions s) 0) as [E|].
  - unfold next_exception. destruct (List.find _ _) as [i|] eqn:Ef; [|done].
    apply List.find_some in Ef as [_ Ed]. unfold deliverable in Ed. by rewrite E, Z.bits_0 in Ed.
  - by rewrite (run_CheckExceptions_loop s 7).
Qed.

Lemma next_exception_range s i : next_exception s = Some i -> 1 <= i <= 7 /\ deliverable s i = true.
Proof.
  intros [Hin Hd]%List.find_some. split; [|done]. cbn in Hin. lia.
Qed.

(** Exceptions are delivered by priority: [CheckExceptions] delivers the highest
    pending exception that is enabled (the global enable flag, or the external
    interrupt), leaves lower and masked ones pending, and does nothing when there is
    none.  Delivery stores the program counter and the status register on their
    stacks, jumps to vector [2 * i], clears the pending bit, and disables only the
    enable flag of that kind of exception. *)
Theorem exceptions_by_priority s :
  wf s ->
  match next_exception s with
  | None => CheckExceptions s = Done tt s /\ forall i, 1 <= i <= 7 -> deliverable s i = false
  | Some i =>
      CheckExceptions s = Done tt (deliver i s) /\
      deliverable s i = true /\ (forall j, i < j <= 7 -> deliverable s j = false) /\
      fget f_pc (deliver i s) = 2 * i /\
      contents Call (deliver i s) = fget f_pc s :: take 32 (contents Call s) /\
      contents Data (deliver i s) = fget f_sr s :: take 32 (contents Data s)
  end.
Proof.
  intros Hs. pose proof (run_CheckExceptions s Hs) as E. destruct (next_exception s) as [i|] eqn:En.
  - destruct (next_exception_range s i En) as [Hi Hd]. split; [done|]. split; [done|].
    assert (Hp : wf (push_state Call (fget f_pc s) s))
      by (apply wf_push; [done | apply (ft_get (F := f_pc) (P := u16) s Hs)]).
    split; [|split; [done | split]].
    + intros j Hj. unfold next_exception in En. cbn [List.find] in En.
      repeat match type of En with
      | (if deliverable s ?k then _ else _) = _ =>
          destruct (deliverable s k) eqn:?; [injection En as <-|]
      end; try discriminate.
      all: repeat (destruct (Z.eq_dec j 7); [subst; try lia; done|];
                   destruct (Z.eq_dec j 6); [subst; try lia; done|];
                   destruct (Z.eq_dec j 5); [subst; try lia; done|];
                   destruct (Z.eq_dec j 4); [subst; try lia; done|];
                   destruct (Z.eq_dec j 3); [subst; try lia; done|];
                   destruct (Z.eq_dec j 2); [subst; try lia; done|]; lia).
    + change (contents Call (deliver i s)) with
        (contents Call (push_state Data (fget f_sr s) (push_state Call (fget f_pc s) s))).
      rewrite (proj1 (contents_other Data Call _ _ Hp ltac:(done))). by apply contents_push.
    + change (contents Data (deliver i s)) with
        (contents Data (push_state Data (fget f_sr s) (push_state Call (fget f_pc s) s))).
      rewrite contents_push by done. f_equal. f_equal.
      by apply (proj1 (contents_other Call Data _ _ Hs ltac:(done))).
  - split; [done|]. intros i Hi. apply (List.find_none _ _ En). cbn. lia.
Qed.

(** An interrupt is transparent: after the delivery of an exception and a handler
    that leaves the call and data stacks as it found them, the return from interrupt
    resumes at the interrupted instruction with the interrupted status register, and
    both stacks are what they were before, one word short of their full depth. *)
Theorem interrupt_returns s i (handler : M (State H) unit) s1 opc :
  wf s -> next_exception s = Some i -> opc .& 0xf = 0xf ->
  handler (deliver i s) = Done tt s1 -> wf s1 ->
  contents Call s1 = contents Call (deliver i s) -> contents Data s1 = contents Data (deliver i s) ->
  exists s2, (CheckExceptions ;; handler ;; rti opc) s = Done tt s2 /\
    fget f_pc s2 = fget f_pc s /\ fget f_sr s2 = fget f_sr s /\
    take 32 (contents Call s2) = take 32 (contents Call s) /\
    take 32 (contents Data s2) = take 32 (contents Data s).
Proof.
  intros Hs Hn Hopc Hh Hs1 Hc Hd.
  pose proof (run_CheckExceptions s Hs) as E. rewrite Hn in E.
  assert (Hp : wf (push_state Call (fget f_pc s) s))
    by (apply wf_push; [done | apply (ft_get (F := f_pc) (P := u16) s Hs)]).
  change (contents Call (deliver i s)) with
    (contents Call (push_state Data (fget f_sr s) (push_state Call (fget f_pc s) s))) in Hc.
  rewrite (proj1 (contents_other Data Call _ _ Hp ltac:(done))), contents_push in Hc by done.
  change (contents Data (deliver i s)) with
    (contents Data (push_state Data (fget f_sr s) (push_state Call (fget f_pc s) s))) in Hd.
  rewrite contents_push, (proj1 (contents_other Call Data _ _ Hs ltac:(done))) in Hd by done.
  set (s2 := fset f_pc (aat (fget f_st s1) 0) (pop_state Call (fset f_sr (aat (fget f_st s1) 1) (pop_state Data s1)))).
  assert (Hr : rti opc s1 = Done tt s2).
  { unfold rti. rewrite Hopc, (bind_done _ _ s1 true s1) by done. cbn [negb].
    erewrite bind_done; [|by apply run_PopStack]. cbv beta. mstep.
    erewrite bind_done; [|apply run_PopStack].
    { rewrite run_setf. unfold s2. do 2 f_equal. by apply (aat_aupd_ne _ 1). }
    apply (ft_set (F := f_sr) (P := u16)); [by apply wf_pop|].
    apply (ft_get (F := f_st) (P := arr_ok u16) s1 Hs1). }
  exists s2. split; [erewrite bind_done; [|exact E]; erewrite bind_done; [|exact Hh]; exact Hr|].
  assert (Hpop : wf (fset f_sr (aat (fget f_st s1) 1) (pop_state Data s1))).
  { apply (ft_set (F := f_sr) (P := u16)); [by apply wf_pop|].
    apply (ft_get (F := f_st) (P := arr_ok u16) s1 Hs1). }
  split; [|split; [|split]].
  - rewrite contents_cons in Hc. by injection Hc.
  - rewrite contents_cons in Hd. by injection Hd.
  - change (contents Call s2) with (contents Call (pop_state Call (fset f_sr (aat (fget f_st s1) 1) (pop_state Data s1)))).
    rewrite contents_pop by done.
    change (contents Call (fset f_sr ?v ?x)) with (contents Call x).
    rewrite (proj2 (contents_other Data Call 0 s1 Hs1 ltac:(done))), Hc. cbn [tail].
    by rewrite take_app_length'.
  - change (contents Data s2) with (contents Data (pop_state Call (fset f_sr (aat (fget f_st s1) 1) (pop_state Data s1)))).
    rewrite (proj2 (contents_other Call Data 0 _ Hpop ltac:(done))).
    change (contents Data (fset f_sr ?v ?x)) with (contents Data x).
    rewrite contents_pop, Hd by done. cbn [tail]. by rewrite take_app_length'.
Qed.
End Exceptions.

(** * The loop hardware *)

Section Loops.
Context {H : Type} {hst : DSPHost H}.
Implicit Type s : State H.

(** The register on top of a stack. *)
Definition set_top (r : StackRegister) (v : Z) s : State H :=
  fset f_st (aupd (fget f_st s) (stack_index r) v) s.

Lemma contents_top r s v l :
  contents r s = v :: l -> aat (fget f_st s) (stack_index r) = v.
Proof. rewrite contents_cons. by intros [= <- _]. Qed.

Lemma contents_set_top r v s : contents r (set_top r v s) = v :: tail (contents r s).
Proof.
  rewrite !contents_cons. cbn [tail]. f_equal.
  unfold stack_entry, set_top. cbn. by rewrite aat_aupd_eq.
Qed.

Lemma contents_set_top_other r r' v s : r <> r' -> contents r' (set_top r v s) = contents r' s.
Proof.
  intros Hr. apply map_ext_in. intros k _. unfold stack_entry, set_top. cbn.
  rewrite aat_aupd_ne; [done|]. destruct r, r'; done.
Qed.

(** The stacks inside a loop that was entered at state [s0]: its start, its last
    address and the passes left. *)
Record in_loop s0 (start e left : Z) s : Prop := {
  loop_wf : wf s;
  loop_call : contents Call s = start :: take 32 (contents Call s0);
  loop_addr : contents LoopAddress s = e :: take 32 (contents LoopAddress s0);
  loop_left : contents LoopCounter s = left :: take 32 (contents LoopCounter s0);
  loop_data : contents Data s = contents Data s0
}.

(** ... and after it. *)
Record left_loop s0 s : Prop := {
  after_wf : wf s;
  after_stacks : forall r, take 32 (contents r s) = take 32 (contents r s0)
}.

Lemma in_loop_same s0 start e left s s' :
  in_loop s0 start e left s -> wf s' -> (forall r, contents r s' = contents r s) ->
  in_loop s0 start e left s'.
Proof. intros [] Hw Hr. split; rewrite ?Hr; done. Qed.

Lemma run_PushLoop s e cnt :
  wf s -> u16 e -> u16 cnt -> exists s1,
  PushLoop e cnt s = Done tt s1 /\ fget f_pc s1 = fget f_pc s /\
  in_loop s (fget f_pc s) e cnt s1.
Proof.
  intros Hs He Hcnt. unfold PushLoop. mstep.
  assert (Hp : u16 (fget f_pc s)) by apply (ft_get (F := f_pc) (P := u16) s Hs).
  pose proof (wf_push Call _ _ Hs Hp) as H1.
  pose proof (wf_push LoopAddress _ _ H1 He) as H2.
  pose proof (wf_push LoopCounter _ _ H2 Hcnt) as H3.
  do 2 (erewrite bind_done; [|by apply run_StoreStack]).
  eexists. split; [by apply run_StoreStack|]. split; [done|]. split; [done | ..].
  - rewrite (proj1 (contents_other LoopCounter Call _ _ H2 ltac:(done))),
      (proj1 (contents_other LoopAddress Call _ _ H1 ltac:(done))). by apply contents_push.
  - rewrite (proj1 (contents_other LoopCounter LoopAddress _ _ H2 ltac:(done))), contents_push by done.
    by rewrite (proj1 (contents_other Call LoopAddress _ _ Hs ltac:(done))).
  - rewrite contents_push, (proj1 (contents_other LoopAddress LoopCounter _ _ H1 ltac:(done))) by done.
    by rewrite (proj1 (contents_other Call LoopCounter _ _ Hs ltac:(done))).
  - by rewrite (proj1 (contents_other LoopCounter Data _ _ H2 ltac:(done))),
      (proj1 (contents_other LoopAddress Data _ _ H1 ltac:(done))),
      (proj1 (contents_other Call Data _ _ Hs ltac:(done))).
Qed.

Lemma wf_set_top r v s : wf s -> u16 v -> wf (set_top r v s).
Proof.
  intros Hs Hv. apply (ft_set (F := f_st) (P := arr_ok u16)); [done|].
  apply arr_ok_aupd; [apply (ft_get (F := f_st) (P := arr_ok u16) s Hs) | done].
Qed.

(** The end of a pass. *)
Lemma run_HandleLoop s0 start e left s :
  in_loop s0 start e left s -> 0 < e -> 0 < left -> u16 left -> fget f_pc s = e + 1 ->
  exists s', HandleLoop s = Done tt s' /\
    if 1 <? left then fget f_pc s' = start /\ (u16 start -> in_loop s0 start e (left - 1) s')
    else fget f_pc s' = e + 1 /\ left_loop s0 s'.
Proof.
  intros [Hw Hc Ha Hl Hd] He Hleft Hu Hpc.
  pose proof (contents_top _ _ _ _ Hc) as Tc. pose proof (contents_top _ _ _ _ Ha) as Ta.
  pose proof (contents_top _ _ _ _ Hl) as Tl. cbn [stack_index] in Tc, Ta, Tl.
  assert (Hs1 : wf (set_top LoopCounter (left - 1) s))
    by (apply wf_set_top; [done | unfold uN in *; lia]).
  unfold HandleLoop. do 3 mstep. rewrite Tc, Ta, Tl.
  rewrite (proj2 (Z.ltb_lt 0 e)), (proj2 (Z.ltb_lt 0 left)) by done. cbn [andb when].
  mstep. rewrite Hpc. replace (e + 1 - 1) with e by lia. rewrite Z.eqb_refl. cbn [when].
  rewrite (wrapu_small 16) by (unfold uN in *; lia).
  rewrite (bind_done _ _ s tt (set_top LoopCounter (left - 1) s)) by (by apply run_seta). cbv beta.
  mstep. change (fget f_st (set_top LoopCounter (left - 1) s)) with (aupd (fget f_st s) 3 (left - 1)).
  rewrite aat_aupd_eq.
  destruct (Z.ltb_spec 1 left) as [H1|H1], (Z.ltb_spec 0 (left - 1)) as [H2|H2]; try lia.
  - eexists. split; [apply run_setf|]. split; [done|]. intros Hst. split.
    + by apply (ft_set (F := f_pc) (P := u16)).
    + change (contents Call (fset f_pc ?v ?x)) with (contents Call x).
      by rewrite (contents_set_top_other LoopCounter Call) by done.
    + change (contents LoopAddress (fset f_pc ?v ?x)) with (contents LoopAddress x).
      by rewrite (contents_set_top_other LoopCounter LoopAddress) by done.
    + change (contents LoopCounter (fset f_pc ?v ?x)) with (contents LoopCounter x).
      by rewrite contents_set_top, Hl.
    + change (contents Data (fset f_pc ?v ?x)) with (contents Data x).
      by rewrite (contents_set_top_other LoopCounter Data) by done.
  - set (s1 := set_top LoopCounter (left - 1) s) in *.
    pose proof (wf_pop Call s1 Hs1) as W1. pose proof (wf_pop LoopAddress _ W1) as W2.
    pose proof (wf_pop LoopCounter _ W2) as W3.
    do 3 (erewrite bind_done; [|by apply run_PopStack]).
    eexists. split; [done|]. split; [done|]. split; [done|].
    assert (Ho : forall r, r <> LoopCounter -> contents r s1 = contents r s)
      by (intros; by apply contents_set_top_other).
    intros [].
    + rewrite (proj2 (contents_other LoopCounter Call 0 _ W2 ltac:(done))),
        (proj2 (contents_other LoopAddress Call 0 _ W1 ltac:(done))), contents_pop, Ho, Hc by done.
      cbn [tail]. by rewrite take_app_length'.
    + rewrite (proj2 (contents_other LoopCounter Data 0 _ W2 ltac:(done))),
        (proj2 (contents_other LoopAddress Data 0 _ W1 ltac:(done))),
        (proj2 (contents_other Call Data 0 _ Hs1 ltac:(done))), Ho, Hd by done. done.
    + rewrite (proj2 (contents_other LoopCounter LoopAddress 0 _ W2 ltac:(done))), contents_pop,
        (proj2 (contents_other Call LoopAddress 0 _ Hs1 ltac:(done))), Ho, Ha by done.
      cbn [tail]. by rewrite take_app_length'.
    + rewrite contents_pop, (proj2 (contents_other LoopAddress LoopCounter 0 _ W1 ltac:(done))),
        (proj2 (contents_other Call LoopCounter 0 _ Hs1 ltac:(done))) by done.
      unfold s1. rewrite contents_set_top, Hl. cbn [tail]. by rewrite take_app_length'.
Qed.

(** [n] passes of a loop's body, each followed by the loop hardware. *)
Fixpoint passes (body : M (State H) unit) (n : nat) : M (State H) unit :=
  match n with O => mret tt | S n' => passes body n' ;; body ;; HandleLoop end.

(** C33. A loop runs its body exactly as often as its count says.  After a loop
    instruction has pushed its start, last address and count, and for every body that
    runs from the start to its last address and leaves the stacks as it found them:
    after fewer than [cnt] passes the program counter is back at the start, after
    [cnt] passes it has gone past the last address, and the stacks are then what they
    were before the loop. *)
Theorem loop_runs_count_times s e cnt (body : M (State H) unit) :
  let start := fget f_pc s in
  wf s -> u16 e -> 0 < e -> u16 cnt -> 0 < cnt ->
  (forall t, wf t -> fget f_pc t = start -> exists t',
     body t = Done tt t' /\ wf t' /\ fget f_pc t' = e + 1 /\ forall r, contents r t' = contents r t) ->
  (forall n, Z.of_nat n < cnt -> exists s', (PushLoop e cnt ;; passes body n) s = Done tt s' /\
     fget f_pc s' = start /\ in_loop s start e (cnt - Z.of_nat n) s') /\
  (exists s', (PushLoop e cnt ;; passes body (Z.to_nat cnt)) s = Done tt s' /\
     fget f_pc s' = e + 1 /\ left_loop s s').
Proof.
  intros start Hs He He0 Hc Hc0 Hbody.
  assert (Hst : u16 start) by apply (ft_get (F := f_pc) (P := u16) s Hs).
  destruct (run_PushLoop s e cnt Hs He Hc) as (s1 & E1 & Hpc1 & Hin1). fold start in Hin1.
  assert (Hpass : forall t left, in_loop s start e left t -> fget f_pc t = start -> 0 < left -> u16 left ->
    exists t', (body ;; HandleLoop) t = Done tt t' /\
      if 1 <? left then fget f_pc t' = start /\ in_loop s start e (left - 1) t'
      else fget f_pc t' = e + 1 /\ left_loop s t').
  { intros t left Ht Hpc Hleft Hu. destruct (Hbody t (loop_wf _ _ _ _ _ Ht) Hpc) as (t1 & Eb & Hw & Hp & Hr).
    destruct (run_HandleLoop s start e left t1) as (t2 & Eh & Hcase); try done.
    { by apply (in_loop_same _ _ _ _ t). }
    exists t2. erewrite bind_done; [|exact Eb]. split; [done|].
    destruct (1 <? left); [|done]. destruct Hcase; auto. }
  assert (Hn : forall n, Z.of_nat n < cnt -> exists s', passes body n s1 = Done tt s' /\
     fget f_pc s' = start /\ in_loop s start e (cnt - Z.of_nat n) s').
  { induction n as [|n IH]; intros Hn.
    - exists s1. split; [done|]. split; [done|]. by rewrite Z.sub_0_r.
    - destruct IH as (t & Et & Hpc & Hin); [lia|].
      destruct (Hpass t (cnt - Z.of_nat n)) as (t' & Et' & Hcase); try done; [lia | unfold uN in *; lia |].
      destruct (Z.ltb_spec 1 (cnt - Z.of_nat n)); [|lia]. exists t'. cbn [passes].
      erewrite bind_done; [|exact Et]. split; [done|].
      replace (cnt - Z.of_nat (S n)) with (cnt - Z.of_nat n - 1) by lia. done. }
  split.
  - intros n Hlt. destruct (Hn n Hlt) as (s' & ? & ?). exists s'. by erewrite bind_done.
  - destruct (Hn (Z.to_nat (cnt - 1))) as (t & Et & Hpc & Hin); [lia|].
    destruct (Hpass t 1) as (t' & Et' & Hcase); [| done | lia | range_lia |].
    { by replace 1 with (cnt - Z.of_nat (Z.to_nat (cnt - 1))) by lia. }
    exists t'. erewrite bind_done; [|exact E1].
    replace (Z.to_nat cnt) with (S (Z.to_nat (cnt - 1))) by lia. cbn [passes].
    erewrite bind_done; [|exact Et]. by rewrite Et'.
Qed.
End Loops.

(** * Witnesses *)

Lemma stacks_refine_lists_witness :
  wf sim_state /\ exists s1, StoreStack Call 0x1234 sim_state = Done tt s1 /\
    contents Call s1 = 0x1234 :: take 32 (contents Call sim_state).
Proof.
  split; [apply sim_state_ok|].
  destruct (stacks_refine_lists Call 0x1234 sim_state sim_state_ok) as [(s1 & E & Hc & _) _].
  exists s1. by split.
Defined.

Lemma stack_lifo_witness :
  exists s1 s2, push_all Data [1; 2; 3] sim_state = Done tt s1 /\ pop_all Data 3 s1 = Done [3; 2; 1] s2.
Proof.
  destruct (stack_lifo Data [1; 2; 3] sim_state sim_state_ok) as (s1 & s2 & E1 & E2 & _).
  - repeat constructor; range_lia.
  - cbn. lia.
  - exists s1, s2. by split.
Defined.

(** Exceptions 3 and 5 pending and enabled, at address 0x123. *)
Definition exc_state : State sim :=
  fset f_pc 0x123 (fset f_sr 0x0a00 (fset f_exceptions 0x28 sim_state)).

Lemma exc_state_ok : wf exc_state.
Proof.
  unfold exc_state.
  apply (ft_set (F := f_pc) (P := u16)); [|range_lia].
  apply (ft_set (F := f_sr) (P := u16)); [|range_lia].
  apply (ft_set (F := f_exceptions) (P := u8)); [apply sim_state_ok | range_lia].
Qed.

Lemma exceptions_by_priority_witness :
  next_exception exc_state = Some 5 /\ CheckExceptions exc_state = Done tt (deliver 5 exc_state).
Proof.
  split; [reflexivity|]. exact (proj1 (exceptions_by_priority exc_state exc_state_ok)).
Defined.

Lemma interrupt_returns_witness :
  exists s2, (CheckExceptions ;; mret tt ;; rti 0x02ff) exc_state = Done tt s2 /\
    fget f_pc s2 = 0x123 /\ fget f_sr s2 = 0x0a00.
Proof.
  destruct (interrupt_returns exc_state 5 (mret tt) (deliver 5 exc_state) 0x02ff exc_state_ok)
    as (s2 & E & Hpc & Hsr & _); try reflexivity.
  - pose proof (typed_CheckExceptions exc_state exc_state_ok) as Ht.
    rewrite (run_CheckExceptions exc_state exc_state_ok) in Ht.
    change (next_exception exc_state) with (Some 5) in Ht. apply Ht.
  - exists s2. by split.
Defined.

Lemma loop_runs_count_times_witness :
  exists s', (PushLoop 0x40 3 ;; passes (setf f_pc 0x41) 3) exc_state = Done tt s' /\
    fget f_pc s' = 0x41 /\ left_loop exc_state s'.
Proof.
  apply (loop_runs_count_times exc_state 0x40 3 (setf f_pc 0x41) exc_state_ok);
    try range_lia.
  intros t Ht _. eexists. split; [reflexivity|].
  split; [apply (ft_set (F := f_pc) (P := u16)); [done | range_lia]|]. by split.
Defined.
