(* ===== verification/RunProps.v ===== *)
(** Execution of the DSP: what an instruction cannot change, the termination and the
    cycle count of the run loops, and the safety of every state the emulator can reach. *)
From stdpp Require Import base tactics option list gmap strings.
From Stdlib Require Import ZArith Lia Bool.
From S2P Require Import Prelude Accelerator DSPState DSPTables DSPHardware DSPInterpreter DSPArithmetic.
From S2P Require Import DSPMultiplier DSPBranch DSPLoadStore DSPExtOps DSPIntTables DSPRun DSPLLE DSPFacts.
From S2P Require Import SimHost.

#[local] Open Scope Z_scope.

(** * Frames

    [keeps view m]: [m] does not change the part [view] of the state. *)

Definition keeps {S V A} (view : S -> V) (m : M S A) : Prop :=
  forall s, match m s with Done _ s' => view s' = view s | Fault _ => True end.

Section Keeps.
Context {S V : Type} (view : S -> V).

Lemma keeps_ret {A} (a : A) : keeps view (mret a).
Proof. done. Qed.
Lemma keeps_fail {A} f : keeps view (fail f : M S A).
Proof. done. Qed.
Lemma keeps_bind {A B} (m : M S A) (k : A -> M S B) :
  keeps view m -> (forall a, keeps view (k a)) -> keeps view (m ≫= k).
Proof.
  intros Hm Hk s. specialize (Hm s). unfold mbind, M_bind. destruct (m s) as [a s'|f]; [|done].
  specialize (Hk a s'). destruct (k a s'); [congruence | done].
Qed.
Lemma keeps_getf {A} (F : field S A) : keeps view (getf F).
Proof. done. Qed.
Lemma keeps_geta n (F : field S arr) i : keeps view (geta n F i).
Proof. intros s. unfold geta. by destruct (inb n i). Qed.
Lemma keeps_setf {A} (F : field S A) v : (forall s, view (fset F v s) = view s) -> keeps view (setf F v).
Proof. intros Hv s. apply Hv. Qed.
Lemma keeps_modf {A} (F : field S A) f :
  (forall v s, view (fset F v s) = view s) -> keeps view (modf F f).
Proof. intros Hv s. apply Hv. Qed.
Lemma keeps_seta n (F : field S arr) i v :
  (forall v s, view (fset F v s) = view s) -> keeps view (seta n F i v).
Proof. intros Hv s. unfold seta. destruct (inb n i); [apply Hv | done]. Qed.
Lemma keeps_done {A} (m : M S A) s a s' : keeps view m -> m s = Done a s' -> view s' = view s.
Proof. intros Hm E. specialize (Hm s). by rewrite E in Hm. Qed.
End Keeps.

Create HintDb keeps discriminated.

(** Follows the structure of a computation; a call is framed by the hints of [keeps],
    or by unfolding the operation. *)
Ltac head_of t := lazymatch t with ?f _ => head_of f | _ => t end.
Ltac kstep :=
  lazymatch goal with
  | |- forall _, _ => intros ?
  | |- keeps _ (mbind _ _) => apply keeps_bind
  | |- keeps _ (mret _) => apply keeps_ret
  | |- keeps _ (fail _) => apply keeps_fail
  | |- keeps _ (getf _) => apply keeps_getf
  | |- keeps _ (geta _ _ _) => apply keeps_geta
  | |- keeps _ (setf _ _) => apply keeps_setf; solve [ reflexivity | auto 2 ]
  | |- keeps _ (modf _ _) =>
      first [ solve [ auto 4 with keeps nocore ] | apply keeps_modf; reflexivity ]
  | |- keeps _ (seta _ _ _ _) => apply keeps_seta; solve [ reflexivity | auto 2 ]
  | |- keeps _ (let _ := _ in _) => cbv zeta
  | |- keeps _ (match ?x with _ => _ end) => destruct x
  | |- keeps _ ?m =>
      first [ solve [ auto 4 with keeps nocore ] | let h := head_of m in unfold h ]
  end.
Ltac ktac := repeat kstep.

(** The analysis changes nothing but its flags. *)
Section Analysis.
Context {H : Type} {hst : DSPHost H} {V : Type} (view : State H -> V).
Hypothesis view_flags : forall v s, view (fset f_m_code_flags v s) = view s.

Lemma keeps_FindInstructionStarts_loop n e a : keeps view (FindInstructionStarts_loop n e a).
Proof. revert a. induction n; intros; cbn [FindInstructionStarts_loop]; ktac. Qed.
Lemma keeps_match_idle_sig sig a i b : keeps view (match_idle_sig sig a i b).
Proof. revert i b. induction sig; intros; cbn [match_idle_sig]; ktac. Qed.
#[local] Hint Resolve keeps_FindInstructionStarts_loop keeps_match_idle_sig : keeps.
Lemma keeps_FindIdleSkips_addrs sig n a : keeps view (FindIdleSkips_addrs sig n a).
Proof. revert a. induction n; intros; cbn [FindIdleSkips_addrs]; ktac. Qed.
#[local] Hint Resolve keeps_FindIdleSkips_addrs : keeps.
Lemma keeps_FindIdleSkips_sigs sigs a e : keeps view (FindIdleSkips_sigs sigs a e).
Proof. induction sigs; cbn [FindIdleSkips_sigs]; ktac. Qed.
#[local] Hint Resolve keeps_FindIdleSkips_sigs : keeps.
Lemma keeps_Analyze : keeps view Analyze.
Proof. ktac. Qed.
End Analysis.

Section Frames.
Context {H : Type} {hst : DSPHost H}.
Abbreviation DM := (M (State H)).

(** What no instruction changes: the ROMs and the step counter. *)
Definition fixed_view (s : State H) : arr * arr * Z :=
  (fget f_irom s, fget f_coef s, fget f_m_step_counter s).

(** ... and only a branch, an exception or the fetch of an operand the program
    counter. *)
Definition run_view (s : State H) : arr * arr * Z * Z := (fixed_view s, fget f_pc s).
(** The write-back log, which the extension opcodes fill and [ApplyWriteBackLog] empties. *)
Definition log_view (s : State H) : arr * arr := (fget f_wbl s, fget f_wbl_idx s).
Definition quiet_view (s : State H) : arr * arr * Z * Z * (arr * arr) := (run_view s, log_view s).

Lemma keeps_proj {V W A} (view : State H -> V) (f : V -> W) (m : DM A) :
  keeps view m -> keeps (fun s => f (view s)) m.
Proof. intros Hm s. specialize (Hm s). destruct (m s); [by rewrite Hm | done]. Qed.
Lemma keeps_fixed {A} (m : DM A) : keeps run_view m -> keeps fixed_view m.
Proof. apply (keeps_proj run_view fst). Qed.
Lemma keeps_run {A} (m : DM A) : keeps quiet_view m -> keeps run_view m.
Proof. apply (keeps_proj quiet_view fst). Qed.
Lemma keeps_log {A} (m : DM A) : keeps quiet_view m -> keeps log_view m.
Proof. apply (keeps_proj quiet_view snd). Qed.
#[local] Hint Resolve keeps_fixed keeps_run keeps_log : keeps.

Lemma keeps_accel {A} (m : M (Accel * State H) A) :
  keeps (fun s => quiet_view s.2) m -> keeps quiet_view (accel m).
Proof.
  intros Hm s. specialize (Hm (m_accelerator (dsp s), s)). unfold accel.
  by destruct (m _) as [a [acc s']|f].
Qed.

Lemma keeps_StoreStack r v : keeps quiet_view (StoreStack r v).
Proof. ktac. Qed.
Lemma keeps_PopStack r : keeps quiet_view (PopStack r).
Proof. ktac. Qed.
#[local] Hint Resolve keeps_StoreStack keeps_PopStack : keeps.

Lemma keeps_Analyze_quiet : keeps quiet_view (Analyze (H := H)).
Proof. by apply keeps_Analyze. Qed.
#[local] Hint Resolve keeps_Analyze_quiet : keeps.

(** ** Memory *)

Lemma keeps_end_exception :
  keeps (fun s : Accel * State H => quiet_view s.2) (modf a_env OnEndException).
Proof. done. Qed.
Lemma keeps_write_memory a v :
  keeps (fun s : Accel * State H => quiet_view s.2) (write_memory a v).
Proof. done. Qed.
#[local] Hint Resolve keeps_end_exception keeps_write_memory keeps_accel : keeps.

Lemma keeps_accel_Read regs : keeps quiet_view (accel (Read (ifx_coefs regs))).
Proof. apply keeps_accel. ktac. Qed.
Lemma keeps_accel_ReadD3 : keeps quiet_view (accel ReadD3).
Proof. apply keeps_accel. ktac. Qed.
Lemma keeps_accel_WriteD3 v : keeps quiet_view (accel (WriteD3 v)).
Proof. apply keeps_accel. ktac. Qed.
#[local] Hint Resolve keeps_accel_Read keeps_accel_ReadD3 keeps_accel_WriteD3 : keeps.

Lemma keeps_ReadIFX a : keeps quiet_view (ReadIFX a).
Proof. unfold ReadIFX, ReadIFXImpl. ktac; apply keeps_accel; ktac. Qed.
Lemma keeps_WriteIFX a v : keeps quiet_view (WriteIFX a v).
Proof. unfold WriteIFX. ktac; apply keeps_accel; ktac. Qed.
#[local] Hint Resolve keeps_ReadIFX keeps_WriteIFX : keeps.

Lemma keeps_ReadDMEM a : keeps quiet_view (ReadDMEM a).
Proof. unfold ReadDMEM. generalize (a .>> 12). intros x. repeat case_match; ktac. Qed.
Lemma keeps_WriteDMEM a v : keeps quiet_view (WriteDMEM a v).
Proof. unfold WriteDMEM. repeat case_match; ktac. Qed.
Lemma keeps_ReadIMEM a : keeps quiet_view (ReadIMEM a).
Proof. unfold ReadIMEM. repeat case_match; ktac. Qed.
#[local] Hint Resolve keeps_ReadDMEM keeps_WriteDMEM keeps_ReadIMEM : keeps.
Lemma keeps_OpReadRegister r : keeps quiet_view (OpReadRegister r).
Proof. ktac. Qed.
Lemma keeps_OpWriteRegister r v : keeps quiet_view (OpWriteRegister r v).
Proof. ktac. Qed.
#[local] Hint Resolve keeps_OpReadRegister keeps_OpWriteRegister : keeps.
Lemma keeps_ApplyWriteBackLog_loop n i : keeps run_view (ApplyWriteBackLog_loop n i).
Proof. revert i. induction n; intros; cbn [ApplyWriteBackLog_loop]; ktac. Qed.
#[local] Hint Resolve keeps_ApplyWriteBackLog_loop : keeps.

(** ** Instructions *)

Lemma keeps_CheckExceptions_loop n : keeps fixed_view (CheckExceptions_loop n).
Proof. induction n; cbn [CheckExceptions_loop]; ktac. Qed.
#[local] Hint Resolve keeps_CheckExceptions_loop : keeps.


Lemma keeps_GetOp inst opc : keeps fixed_view (GetOp inst opc).
Proof.
  apply (lookup_function_forall (fun f => keeps fixed_view (f opc))); [apply keeps_ret|].
  repeat apply Forall_cons_2; try apply Forall_nil_2; cbn [function]; ktac.
Qed.

Lemma keeps_log_GetOp inst opc : keeps log_view (GetOp inst opc).
Proof.
  apply (lookup_function_forall (fun f => keeps log_view (f opc))); [apply keeps_ret|].
  repeat apply Forall_cons_2; try apply Forall_nil_2; cbn [function]; ktac.
Qed.

Lemma keeps_GetExtOp inst opc : keeps run_view (GetExtOp inst opc).
Proof.
  unfold GetExtOp. destruct (_ =? _).
  all: apply (lookup_function_forall (fun f => keeps run_view (f opc))); [apply keeps_ret|].
  all: repeat apply Forall_cons_2; try apply Forall_nil_2; cbn [function]; ktac.
Qed.
#[local] Hint Resolve keeps_GetOp keeps_GetExtOp : keeps.

Lemma keeps_ExecuteInstruction inst : keeps fixed_view (ExecuteInstruction inst).
Proof. ktac. Qed.
Lemma keeps_CheckExceptions : keeps fixed_view CheckExceptions.
Proof. ktac. Qed.
End Frames.

#[export] Hint Resolve keeps_fixed keeps_run keeps_log keeps_StoreStack keeps_PopStack keeps_Analyze_quiet keeps_ReadIMEM
  keeps_ReadDMEM keeps_WriteDMEM keeps_OpReadRegister keeps_OpWriteRegister
  keeps_ApplyWriteBackLog_loop keeps_GetExtOp keeps_log_GetOp keeps_ExecuteInstruction keeps_CheckExceptions : keeps.

(** * The run loops *)

Section Cycles.
Context {H : Type} {hst : DSPHost H}.
Implicit Type s : State H.

Definition halted s : bool := Z.testbit (fget f_control_reg s) 2.
Definition idle s : bool := Z.testbit (aat (fget f_m_code_flags s) (fget f_pc s)) 1.

(** [ran k s s']: [k] instructions were executed between [s] and [s']; the ROMs are
    the same. *)
Definition ran (k : Z) s s' : Prop :=
  fget f_irom s' = fget f_irom s /\ fget f_coef s' = fget f_coef s /\
  fget f_m_step_counter s' = to_u64 (fget f_m_step_counter s + k).

Lemma ran_0 s : wf s -> ran 0 s s.
Proof.
  intros Hs. split; [done|]. split; [done|]. rewrite Z.add_0_r. symmetry.
  apply wrapu_small, (ft_get (F := f_m_step_counter) (P := u64) s Hs).
Qed.

Lemma ran_trans j k s s' s'' : ran j s s' -> ran k s' s'' -> ran (j + k) s s''.
Proof.
  intros (I1 & C1 & E1) (I2 & C2 & E2). split; [congruence|]. split; [congruence|].
  rewrite E2, E1. unfold wrapu. rewrite Zplus_mod_idemp_l. f_equal. lia.
Qed.

(** From a well-formed state [m] faults, but not on an array, or ends well-formed in
    a state related by [Q]. *)
Definition runs {A} (m : M (State H) A) (Q : State H -> A -> State H -> Prop) : Prop :=
  forall s, wf s -> match m s with
    | Done a s' => wf s' /\ Q s a s'
    | Fault f => f <> ArrayOutOfBounds
    end.

Lemma runs_bind {A B} (m : M (State H) A) (k : A -> M (State H) B) Q R :
  runs m Q -> (forall s a, wf s -> forall s', wf s' -> Q s a s' ->
    match k a s' with Done b s'' => wf s'' /\ R s b s'' | Fault f => f <> ArrayOutOfBounds end) ->
  runs (m ≫= k) R.
Proof.
  intros Hm Hk s Hs. specialize (Hm s Hs). unfold mbind, M_bind.
  destruct (m s) as [a s'|f]; [|done]. destruct Hm. by apply Hk.
Qed.

Lemma runs_Step : runs Step (fun s _ s' => ran 1 s s').
Proof.
  intros s Hs. pose proof (typed_Step s Hs) as Ht. destruct (Step s) as [[] s'|f] eqn:E; [|done].
  split; [apply Ht|]. unfold Step in E.
  apply bind_inv in E as ([] & s1 & E1 & E). apply bind_inv in E as ([] & s2 & E2 & E).
  apply (keeps_done fixed_view) in E1; [|apply keeps_CheckExceptions].
  assert (E3 : fixed_view s' = fixed_view s2).
  { refine (keeps_done fixed_view _ s2 tt s' _ E). ktac. }
  injection E2 as <-. unfold fixed_view in *. cbn [fget fset] in *.
  injection E1 as Hi Hc Hk. injection E3 as Hi' Hc' Hk'. split; [|split]; cbn in *; congruence.
Qed.

(** The states in which a loop may return, or stop at a breakpoint, before its cycles
    are used up. *)
Record exits : Type := Exits { may_return : State H -> bool; may_break : State H -> bool }.

(** What a pass of a loop, or a guard, that starts with [c] cycles left may answer after
    [k] instructions, in state [s']. *)
Definition answers (e : exits) (c k : Z) (x : loop_exit) s' : Prop :=
  match x with
  | GoOn c' => c' = c - k /\ 1 <= c'
  | Return r => r = 0 /\ (k = c \/ (k < c /\ may_return e s' = true))
  | BreakAt r => r = c - k /\ 1 <= r /\ may_break e s' = true
  end.

Lemma runs_StepCycle brk c : 1 <= c -> runs (StepCycle c) (fun s x s' => ran 1 s s' /\ answers brk c 1 x s').
Proof.
  intros Hc. eapply runs_bind; [apply runs_Step|]. intros s [] Hs s' Hs' Hr. cbn.
  split; [done|]. split; [done|]. destruct (Z.leb_spec (c - 1) 0); cbn; lia.
Qed.

(** A guard only looks. *)
Definition guard_ok (brk : exits) (g : Z -> M (State H) loop_exit) : Prop :=
  forall c s, wf s -> 1 <= c -> exists x, g c s = Done x s /\ answers brk c 0 x s.

Lemma guard_halt brk :
  (forall s, halted s = true -> may_return brk s = true) -> guard_ok brk halt_guard.
Proof.
  intros Hh c s Hs Hc. eexists. split; [done|]. change CR_HALT with (2 ^ 2). rewrite flag_testbit by lia.
  destruct (Z.testbit (fget f_control_reg s) 2) eqn:E; cbn; [|lia]. split; [done|]. right. split; [lia|]. by apply Hh.
Qed.

Lemma guard_idle brk :
  (forall s, idle s = true -> may_return brk s = true) -> guard_ok brk idle_guard.
Proof.
  intros Hi c s Hs Hc. unfold idle_guard. mstep. unfold IsIdleSkip, has_code_flag.
  pose proof (ft_get (F := f_pc) (P := u16) s Hs) as Hp.
  change CODE_IDLE_SKIP with (2 ^ 1).
  erewrite bind_done; [|erewrite bind_done; [|apply run_geta; unfold uN in Hp; lia]; apply run_ret].
  eexists. split; [apply run_ret|]. rewrite flag_testbit by lia.
  destruct (Z.testbit _ 1) eqn:E; cbn [answers]; [|lia]. split; [done|]. right. split; [lia|]. by apply Hi.
Qed.

Lemma guard_break ret b :
  guard_ok (Exits ret (fun s => IsAddressBreakPoint b (fget f_pc s))) (break_guard b).
Proof.
  intros c s Hs Hc. eexists. split; [done|].
  destruct (IsAddressBreakPoint b (fget f_pc s)) eqn:E; cbn [answers]; [|lia]. split; [lia|]. by split.
Qed.

Lemma guard_none brk : guard_ok brk no_guard.
Proof. intros c s Hs Hc. eexists. split; [done|]. cbn. lia. Qed.

Lemma guard_both brk g1 g2 : guard_ok brk g1 -> guard_ok brk g2 -> guard_ok brk (guards g1 g2).
Proof.
  intros H1 H2 c s Hs Hc. destruct (H1 c s Hs Hc) as (x & E & Hx). unfold guards.
  erewrite bind_done; [|exact E]. destruct x as [r|r|c']; [eexists; split; done..|].
  destruct Hx as [-> _]. rewrite Z.sub_0_r. by apply H2.
Qed.

Lemma answers_shift brk c j k x s : answers brk (c - j) k x s -> answers brk c (j + k) x s.
Proof. destruct x; cbn; intuition lia. Qed.

(** [k] instructions, and the answer, of a loop body that starts with [c] cycles. *)
Definition body_spec brk (c : Z) s (x : loop_exit) s' : Prop :=
  exists k, 0 <= k /\ ran k s s' /\ answers brk c k x s'.

Lemma runs_for_steps brk n g c : guard_ok brk g -> 1 <= c ->
  runs (for_steps n g c) (fun s x s' => exists k, 0 <= k /\ ran k s s' /\ answers brk c k x s' /\
    match x with GoOn _ => k = Z.of_nat n | _ => True end).
Proof.
  intros Hg. revert c. induction n as [|n IH]; intros c Hc s Hs; cbn [for_steps].
  - split; [done|]. exists 0. split; [lia|]. split; [by apply ran_0|]. cbn. lia.
  - destruct (Hg c s Hs Hc) as (x & E & Hx). erewrite bind_done; [|exact E].
    destruct x as [r|r|c'].
    1, 2: split; [done|]; exists 0; split; [lia|]; split; [by apply ran_0|]; done.
    destruct Hx as [-> _]. rewrite Z.sub_0_r.
    pose proof (runs_StepCycle brk c Hc s Hs) as Hst. unfold mbind, M_bind.
    destruct (StepCycle c s) as [x s1|f]; [|done]. destruct Hst as (Hs1 & Hr & Hx).
    destruct x as [r|r|c'].
    1, 2: split; [done|]; exists 1; split; [lia|]; done.
    destruct Hx as [-> Hc']. specialize (IH (c - 1) Hc' s1 Hs1).
    destruct (for_steps n g (c - 1) s1) as [x s2|f]; [|done]. destruct IH as (Hs2 & k & Hk & Hr2 & Hx & Hn).
    split; [done|]. exists (1 + k). split; [lia|]. split; [by apply ran_trans with s1|].
    split; [by apply answers_shift|]. destruct x; [done..|lia].
Qed.

Definition finished brk (c : Z) s (o : option loop_exit) s' : Prop :=
  exists k x, o = Some x /\ 0 <= k /\ ran k s s' /\ answers brk c k x s' /\
    match x with GoOn _ => False | _ => True end.

Lemma runs_while_true brk fuel body c :
  (forall c, 1 <= c -> runs (body c) (fun s x s' => exists k, 0 <= k /\ ran k s s' /\ answers brk c k x s' /\
     match x with GoOn _ => 1 <= k | _ => True end)) ->
  1 <= c -> c <= Z.of_nat fuel -> runs (while_true fuel body c) (finished brk c).
Proof.
  intros Hb. revert c. induction fuel as [|fuel IH]; intros c Hc Hf s Hs; [lia|]. cbn [while_true].
  specialize (Hb c Hc s Hs). unfold mbind, M_bind.
  destruct (body c s) as [x s1|f]; [|done]. destruct Hb as (Hs1 & k & Hk & Hr & Hx & Hg).
  destruct x as [r|r|c'].
  1, 2: split; [done|]; eexists k, _; split; [done|]; done.
  destruct Hx as [-> Hc']. specialize (IH (c - k) Hc' ltac:(lia) s1 Hs1).
  destruct (while_true fuel body (c - k) s1) as [o s2|f]; [|done].
  destruct IH as (Hs2 & j & x & -> & Hj & Hr2 & Hx & Hn). split; [done|].
  exists (k + j), x. split; [done|]. split; [lia|]. split; [by apply ran_trans with s1|].
  split; [by apply answers_shift | done].
Qed.

(** The exits of [RunCycles] and [RunCyclesDebug]. *)
Definition waits s : bool := halted s || idle s.

Lemma runs_run_cycles brk break c :
  may_return brk = waits -> guard_ok brk break -> 1 <= c ->
  runs (run_cycles break c) (finished brk c).
Proof.
  intros Hw Hg Hc s Hs. unfold run_cycles.
  assert (Hh : guard_ok brk halt_guard)
    by (apply guard_halt; rewrite Hw; unfold waits; intros ? ->; done).
  assert (Hi : guard_ok brk idle_guard)
    by (apply guard_idle; rewrite Hw; unfold waits; intros ? ->; by rewrite orb_true_r).
  clear Hw.
  assert (H8 := runs_for_steps brk 8 (guards halt_guard break) c
    ltac:(by apply guard_both) Hc s Hs).
  unfold mbind, M_bind. destruct (for_steps 8 _ c s) as [x s1|f]; [|done].
  destruct H8 as (Hs1 & k & Hk & Hr & Hx & Hn). destruct x as [r|r|c'].
  1, 2: split; [done|]; eexists k, _; split; [done|]; done.
  destruct Hx as [-> Hc'].
  assert (Hw : runs (while_true (S (Z.to_nat c)) (skip_body break) (c - k)) (finished brk (c - k))).
  { apply runs_while_true; [|done | lia]. clear - Hg Hh Hi. intros c Hc s Hs. unfold skip_body.
    assert (H8 := runs_for_steps brk 8 (guards halt_guard (guards break idle_guard)) c
      ltac:(apply guard_both; [done | by apply guard_both]) Hc s Hs).
    unfold mbind, M_bind. destruct (for_steps 8 _ c s) as [x s1|f]; [|done].
    destruct H8 as (Hs1 & k & Hk & Hr & Hx & Hn). destruct x as [r|r|c'].
    1, 2: split; [done|]; exists k; done.
    destruct Hx as [-> Hc']. pose proof (runs_for_steps brk 200 break (c - k) Hg Hc' s1 Hs1) as H200.
    destruct (for_steps 200 _ (c - k) s1) as [x s2|f]; [|done].
    destruct H200 as (Hs2 & j & Hj & Hr2 & Hx & Hn2). split; [done|].
    exists (k + j). split; [lia|]. split; [by apply ran_trans with s1|]. split; [by apply answers_shift|].
    destruct x; lia || done. }
  specialize (Hw s1 Hs1). destruct (while_true _ _ (c - k) s1) as [o s2|f]; [|done].
  destruct Hw as (Hs2 & j & x & -> & Hj & Hr2 & Hx & Hn2). split; [done|].
  exists (k + j), x. split; [done|]. split; [lia|]. split; [by apply ran_trans with s1|].
  split; [by apply answers_shift | done].
Qed.

(** A computation that changes nothing of [fixed_view] executes no instruction. *)
Lemma runs_keeps {A} (T : A -> Prop) (m : M (State H) A) :
  typed (wf (H := H)) T m -> keeps fixed_view m -> runs m (fun s _ s' => ran 0 s s').
Proof.
  intros Ht Hk s Hs. specialize (Ht s Hs). specialize (Hk s). destruct (m s) as [a s'|f]; [|done].
  split; [apply Ht|]. injection Hk as Hi Hc Hn. split; [done|]. split; [done|].
  cbn [fget f_m_step_counter]. rewrite Hn, Z.add_0_r. symmetry.
  apply wrapu_small, (ft_get (F := f_m_step_counter) (P := u64) s Hs).
Qed.

(** C21. The interpreter's run loops terminate.  Given [c] cycles, [RunCycles] either
    meets a fault of the program it runs (never an array index out of range) or
    returns 0 after at most [c] instructions: exactly [c], unless the DSP is halted or
    waits in an idle loop.  The fuel of the model's loop never runs out, and no
    instruction changes the ROMs. *)
Theorem RunCycles_terminates c s :
  wf s -> 1 <= c ->
  (exists f, RunCycles c s = Fault f /\ f <> ArrayOutOfBounds) \/
  (exists k s', RunCycles c s = Done (Some (Return 0)) s' /\ wf s' /\ 0 <= k <= c /\ ran k s s' /\
     (k < c -> waits s' = true)).
Proof.
  intros Hs Hc. pose proof (runs_run_cycles (Exits waits (fun _ => false)) no_guard c eq_refl (guard_none _) Hc s Hs) as Hr.
  unfold RunCycles. destruct (run_cycles no_guard c s) as [o s'|f]; [right | left; eauto].
  destruct Hr as (Hs' & k & x & -> & Hk & Hr & Hx & Hn). destruct x as [r|r|r]; [|by destruct Hx as (_ & _ & ?)|done].
  destruct Hx as [-> Hx]. exists k, s'. repeat (split; [done || lia|]). intuition lia.
Qed.

(** With breakpoints: [RunCyclesDebug] also stops before an instruction at a
    breakpoint, and then returns the cycles it has not used; without any breakpoint it
    is [RunCycles]. *)
Theorem RunCyclesDebug_stops_at_breakpoints b c s :
  wf s -> 1 <= c ->
  ((exists f, RunCyclesDebug b c s = Fault f /\ f <> ArrayOutOfBounds) \/
   (exists k s', 0 <= k <= c /\ ran k s s' /\
      ((RunCyclesDebug b c s = Done (Some (Return 0)) s' /\ (k < c -> waits s' = true)) \/
       (RunCyclesDebug b c s = Done (Some (BreakAt (c - k))) s' /\ k < c /\
        IsAddressBreakPoint b (fget f_pc s') = true)))) /\
  RunCyclesDebug bp_Clear c s = RunCycles c s.
Proof.
  intros Hs Hc. split; [|done].
  pose proof (runs_run_cycles (Exits waits (fun s => IsAddressBreakPoint b (fget f_pc s)))
    (break_guard b) c eq_refl (guard_break waits b) Hc s Hs) as Hr.
  unfold RunCyclesDebug. destruct (run_cycles (break_guard b) c s) as [o s'|f]; [right | left; eauto].
  destruct Hr as (Hs' & k & x & -> & Hk & Hr & Hx & Hn). destruct x as [r|r|r]; [| |done].
  - destruct Hx as [-> Hx]. exists k, s'. split; [lia|]. split; [done|]. left. split; [done|]. intuition lia.
  - destruct Hx as (-> & Hx & Hbrk). exists k, s'. split; [lia|]. split; [done|]. right. split; [done|]. by split; [lia|].
Qed.

(** The same of the loop of the DSP thread, which takes the CPU's interrupt before
    each instruction. *)
Theorem RunCyclesThread_terminates c s :
  wf s -> 1 <= c ->
  (exists f, RunCyclesThread c s = Fault f /\ f <> ArrayOutOfBounds) \/
  (exists k s', RunCyclesThread c s = Done (Some (Return 0)) s' /\ wf s' /\ 0 <= k <= c /\ ran k s s' /\
     (k < c -> halted s' = true)).
Proof.
  intros Hs Hc. unfold RunCyclesThread.
  match goal with |- context [while_true ?n ?body c s] =>
    assert (Hr : runs (while_true n body c) (finished (Exits halted (fun _ => false)) c)) end.
  { apply runs_while_true; [|done | lia]. clear. intros c Hc s Hs.
    destruct (guard_halt (Exits halted (fun _ => false)) ltac:(done) c s Hs Hc) as (x & E & Hx).
    erewrite bind_done; [|exact E]. destruct x as [r|r|c'].
    1, 2: split; [done|]; exists 0; split; [lia|]; split; [by apply ran_0|]; done.
    assert (Hm : runs (w ← getf f_external_interrupt_waiting;
                       setf f_external_interrupt_waiting false ;; when w CheckExternalInterrupt)
                   (fun s _ s' => ran 0 s s'))
      by (apply (runs_keeps any); [tauto_typed | ktac]).
    specialize (Hm s Hs). revert Hm. unfold mbind, M_bind. cbn [getf setf].
    destruct (when _ _ _) as [[] s1|f]; [|done]. intros (Hs1 & Hr1).
    pose proof (runs_StepCycle (Exits halted (fun _ => false)) c Hc s1 Hs1) as Hst.
    destruct (StepCycle c s1) as [x s2|f]; [|done]. destruct Hst as (Hs2 & Hr & Hx2).
    split; [done|]. exists 1. split; [lia|]. split; [by apply (ran_trans 0 1 s s1)|].
    split; [done|]. by destruct x. }
  specialize (Hr s Hs). destruct (while_true _ _ c s) as [o s'|f]; [right | left; eauto].
  destruct Hr as (Hs' & k & x & -> & Hk & Hr & Hx & Hn). destruct x as [r|r|r]; [|by destruct Hx as (_ & _ & ?)|done].
  destruct Hx as [-> Hx]. exists k, s'. repeat (split; [done || lia|]). intuition lia.
Qed.

Lemma runs_Update c :
  runs (DSP_Update c) (fun s o s' => o = Some 0 /\ exists k, 0 <= k <= Z.max 0 (c ÷ 6) /\ ran k s s').
Proof.
  intros s Hs. unfold DSP_Update. destruct (Z.leb_spec (c ÷ 6) 0).
  { split; [done|]. split; [done|]. exists 0. split; [lia | by apply ran_0]. }
  cbn [CoreRunCycles]. rewrite (proj2 (Z.ltb_lt 0 (c ÷ 6))) by lia.
  pose proof (runs_run_cycles (Exits waits (fun _ => false)) no_guard (c ÷ 6) eq_refl (guard_none _) ltac:(lia) s Hs) as Hr.
  fold (RunCycles (c ÷ 6)) in Hr. unfold mbind, M_bind.
  destruct (RunCycles (c ÷ 6) s) as [o s'|f]; [|done].
  destruct Hr as (Hs' & k & x & -> & Hk & Hr & Hx & Hn). destruct x as [r|r|r]; [|by destruct Hx as (_ & _ & ?)|done].
  destruct Hx as [-> Hx]. cbn. split; [done|]. split; [done|]. exists k. split; [lia | done].
Qed.

(** The periodic update returns: given any number of CPU cycles it runs at most a
    sixth as many DSP instructions and returns with no cycle left, unless the ucode
    itself makes the emulator fault (never by an array index out of range).  In
    particular two turns are enough for the loop of [DSPCore::RunCycles]. *)
Theorem Update_returns c s :
  wf s ->
  (exists f, DSP_Update c s = Fault f /\ f <> ArrayOutOfBounds) \/
  (exists k s', DSP_Update c s = Done (Some 0) s' /\ wf s' /\ ran k s s' /\ 0 <= k <= Z.max 0 (c ÷ 6)).
Proof.
  intros Hs. pose proof (runs_Update c s Hs) as Hr.
  destruct (DSP_Update c s) as [o s'|f]; [right | left; eauto].
  destruct Hr as (Hs' & -> & k & Hk & Hr). by exists k, s'.
Qed.

Lemma keeps_perform a : (forall c, a <> Update c) -> keeps fixed_view (perform a).
Proof.
  intros Ha. destruct a; try by destruct (Ha cycles).
  all: cbn [perform]; unfold ignore; ktac.
Qed.

(** The ROMs are read-only: no access of the CPU to the DSP, and no program the DSP
    runs, changes the instruction ROM or the coefficient ROM. *)
Theorem roms_never_written s s' :
  wf s -> lle_step s s' -> fget f_irom s' = fget f_irom s /\ fget f_coef s' = fget f_coef s.
Proof.
  intros Hs Hst. destruct Hst as [a s s' Ha E].
  assert (Hc : (exists c, a = Update c) \/ forall c, a <> Update c) by (destruct a; eauto; right; done).
  destruct Hc as [[c ->]|Hn].
  - cbn [perform] in E. unfold ignore in E. apply bind_inv in E as (o & s1 & E & E1). injection E1 as <-.
    pose proof (runs_Update c s Hs) as Hr. rewrite E in Hr. destruct Hr as (_ & _ & k & _ & Hr). split; apply Hr.
  - pose proof (keeps_done fixed_view _ _ _ _ (keeps_perform a Hn) E) as Ev. by injection Ev.
Qed.
End Cycles.

(** * Witnesses *)

(** A program that increments [$ar0] twice and halts. *)
Definition run_state : State sim := sim_program [0x0008; 0x0008; 0x0021].

Lemma run_state_ok : wf run_state.
Proof. apply sim_program_ok. repeat constructor; range_lia. Qed.

Lemma RunCycles_terminates_witness :
  exists k s', RunCycles 100 run_state = Done (Some (Return 0)) s' /\ 0 <= k <= 100 /\ ran k run_state s'.
Proof.
  destruct (RunCycles_terminates 100 run_state run_state_ok ltac:(lia)) as [(f & E & _)|(k & s' & E & _ & Hk & Hr & _)].
  - exfalso. assert (Hd : is_done (RunCycles 100 run_state) = true) by (vm_compute; reflexivity).
    by rewrite E in Hd.
  - exists k, s'. by split.
Defined.

Lemma RunCyclesDebug_stops_at_breakpoints_witness :
  RunCyclesDebug bp_Clear 100 run_state = RunCycles 100 run_state.
Proof. exact (proj2 (RunCyclesDebug_stops_at_breakpoints (aupd ∅ 0x8001 1) 100 run_state run_state_ok ltac:(lia))). Defined.

Lemma RunCyclesThread_terminates_witness :
  exists k s', RunCyclesThread 100 run_state = Done (Some (Return 0)) s' /\ 0 <= k <= 100.
Proof.
  destruct (RunCyclesThread_terminates 100 run_state run_state_ok ltac:(lia)) as [(f & E & _)|(k & s' & E & _ & Hk & _)].
  - exfalso. assert (Hd : is_done (RunCyclesThread 100 run_state) = true) by (vm_compute; reflexivity).
    by rewrite E in Hd.
  - exists k, s'. by split.
Defined.

Lemma Update_returns_witness :
  exists k s', DSP_Update 600 run_state = Done (Some 0) s' /\ 0 <= k <= 100.
Proof.
  destruct (Update_returns 600 run_state run_state_ok) as [(f & E & _)|(k & s' & E & _ & _ & Hk)].
  - exfalso. assert (Hd : is_done (DSP_Update 600 run_state) = true) by (vm_compute; reflexivity).
    by rewrite E in Hd.
  - exists k, s'. by split.
Defined.

Lemma roms_never_written_witness :
  exists s', lle_step run_state s' /\ fget f_irom s' = fget f_irom run_state.
Proof.
  destruct (perform (Update 600) run_state) as [[] s'|f] eqn:E.
  - assert (Hst : lle_step run_state s') by (apply (lle_action (Update 600)); [cbn; range_lia | done]).
    exists s'. split; [done|]. apply (roms_never_written run_state s' run_state_ok Hst).
  - exfalso. assert (Hd : is_done (perform (Update 600) run_state) = true) by (vm_compute; reflexivity).
    by rewrite E in Hd.
Defined.

Section System.
Context {H : Type} {hst : DSPHost H}.

Lemma typed_done {S A} (I : S -> Prop) (T : A -> Prop) (m : M S A) s a s' :
  typed I T m -> I s -> m s = Done a s' -> I s' /\ T a.
Proof. intros Hm Hs E. specialize (Hm s Hs). by rewrite E in Hm. Qed.

Lemma reachable_wf (s : State H) : reachable s -> wf s.
Proof.
  induction 1 as [i c h s Hi Hc E | s s' _ IH Hst]; [|destruct Hst as [a s s' Ha E]].
  - exact (proj1 (typed_done _ _ _ _ _ _ (typed_LLE_Initialize i c true Hi Hc) (constructed_ok h) E)).
  - exact (proj1 (typed_done _ _ _ _ _ _ (typed_perform a Ha) IH E)).
Qed.

(** C16. Safety of the emulated DSP: in every state the emulator can reach, from
    initialisation by any sequence of mailbox and control-register accesses,
    updates (running any ucode) and changes of the host, the registers, stacks
    and memories hold values of their types, and no instruction or register access of
    the next action indexes a register, stack, memory or log array outside its bounds.
    The blocks that DMA moves are not among these accesses: a block that ends past the
    DSP's data or instruction memory is written there by the code, which is a fault of
    its own ([DmaOutOfBounds]), as are the process's exit and a null pointer to main
    memory; [data_dma_in] says when a transfer is such a block. *)
Theorem reachable_safe (s : State H) :
  reachable s ->
  wf s /\ forall a, action_ok a -> perform a s <> Fault ArrayOutOfBounds.
Proof.
  intros Hr%reachable_wf. split; [done|]. intros a Ha E.
  pose proof (typed_perform a Ha s Hr) as Ht. by rewrite E in Ht.
Qed.
End System.

Lemma reachable_safe_witness :
  exists s : State sim, reachable s /\ perform (Update 600) s <> Fault ArrayOutOfBounds.
Proof.
  destruct (LLE_Initialize ∅ ∅ true sim_state) as [b s|f] eqn:E.
  - assert (Hb : b = true).
    { assert (Hc : match LLE_Initialize ∅ ∅ true sim_state with Done b _ => b | _ => false end = true)
        by (vm_compute; reflexivity).
      by rewrite E in Hc. }
    subst b.
    assert (Hr : reachable s).
    { eapply (reachable_init ∅ ∅ sim0); [| | exact E]; apply arr_ok_empty; range_lia. }
    exists s. split; [exact Hr|]. apply (reachable_safe s Hr). cbn. range_lia.
  - exfalso.
    assert (Hc : is_done (LLE_Initialize ∅ ∅ true sim_state) = true) by (vm_compute; reflexivity).
    by rewrite E in Hc.
Defined.
