(* ===== verification/TableProps.v ===== *)
(** Decoding: the instruction descriptions of [DSPTables.cpp], which the analyzer, the
    assembler and [SkipInstruction] use, and the dispatch table of the interpreter. *)
From stdpp Require Import base tactics option list gmap strings.
From Stdlib Require Import ZArith Lia Bool.
From S2P Require Import Prelude Accelerator DSPState DSPTables DSPHardware DSPInterpreter.
From S2P Require Import DSPArithmetic DSPMultiplier DSPBranch DSPLoadStore DSPExtOps.
From S2P Require Import DSPIntTables DSPRun DSPFacts SimHost RunProps.

#[local] Open Scope Z_scope.

(** * Opcode patterns

    A pattern [(o, m)] is the set of the words [w] with [w & m == o]. *)

Abbreviation pattern := (Z * Z)%type.

Definition matches (w : Z) (p : pattern) : bool := (w .& p.2) =? p.1.
Definition disjoint (p q : pattern) : bool := negb (((p.1 .^ q.1) .& (p.2 .& q.2)) =? 0).
(** [q] contains [p]. *)
Definition within (p q : pattern) : bool := ((p.2 .& q.2) =? q.2) && ((p.1 .& q.2) =? q.1).

Lemma disjoint_sound w p q : disjoint p q = true -> matches w p = true -> matches w q = false.
Proof.
  unfold disjoint, matches. intros Hd%negb_true_iff%Z.eqb_neq Hp%Z.eqb_eq. apply Z.eqb_neq. intros Hq.
  apply Hd. rewrite <- Hp, <- Hq. apply Z.bits_inj'. intros i Hi.
  rewrite !Z.land_spec, !Z.lxor_spec, !Z.land_spec, Z.bits_0.
  by destruct (Z.testbit w i), (Z.testbit p.2 i), (Z.testbit q.2 i).
Qed.

Lemma within_sound w p q : within p q = true -> matches w p = true -> matches w q = true.
Proof.
  unfold within, matches. rewrite andb_true_iff, !Z.eqb_eq. intros [Hm Ho] Hp.
  by rewrite <- Ho, <- Hp, <- Z.land_assoc, Hm.
Qed.

(** [covered n p l]: the patterns of [l] together contain [p]; where none does, the
    lowest free bit of [p] is fixed both ways, [n] times at most. *)
Fixpoint covered (n : nat) (bit : Z) (p : pattern) (l : list pattern) : bool :=
  if existsb (within p) l then true else
  match n with
  | O => false
  | S n' =>
      if Z.testbit p.2 bit then covered n' (bit + 1) p l
      else covered n' (bit + 1) (p.1, p.2 .| 2 ^ bit) l &&
           covered n' (bit + 1) (p.1 .| 2 ^ bit, p.2 .| 2 ^ bit) l
  end.

Lemma matches_split w (p : pattern) k : 0 <= k -> Z.testbit p.2 k = false -> matches w p = true ->
  matches w (p.1, p.2 .| 2 ^ k) = true \/ matches w (p.1 .| 2 ^ k, p.2 .| 2 ^ k) = true.
Proof.
  destruct p as [o m]. unfold matches. cbn [fst snd]. intros Hk Hm Hw%Z.eqb_eq.
  rewrite !Z.eqb_eq, Z.land_lor_distr_r, Hw.
  assert (Hp : w .& 2 ^ k = if Z.testbit w k then 2 ^ k else 0).
  { apply Z.bits_inj'. intros i Hi. rewrite Z.land_spec, Z.pow2_bits_eqb by done.
    destruct (Z.eqb_spec k i) as [<-|Hn]; destruct (Z.testbit w k) eqn:E;
      rewrite ?Z.bits_0, ?andb_false_r, ?andb_true_r; try done.
    - by rewrite Z.pow2_bits_true.
    - by rewrite Z.pow2_bits_false. }
  rewrite Hp. destruct (Z.testbit w k); [by right | left; apply Z.lor_0_r].
Qed.

Lemma covered_sound n bit p l w :
  0 <= bit -> covered n bit p l = true -> matches w p = true -> existsb (matches w) l = true.
Proof.
  revert bit p. induction n as [|n IH]; intros bit p Hb Hc Hw; cbn [covered] in Hc.
  all: destruct (existsb (within p) l) eqn:He; [
    apply existsb_exists in He as (q & Hq & Hin); apply existsb_exists; exists q; split; [done|];
    by apply (within_sound w p) |].
  - done.
  - destruct (Z.testbit p.2 bit) eqn:Et; [by apply (IH (bit + 1) p); [lia|..]|].
    apply andb_true_iff in Hc as [H0 H1].
    destruct (matches_split w p bit Hb Et Hw); [eapply IH; [|exact H0|]; done || lia
                                               |eapply IH; [|exact H1|]; done || lia].
Qed.

(** * The two tables *)

Definition template_pattern (t : DSPOPCTemplate) : pattern := (opcode t, opcode_mask t).

Section Tables.
Context {H : Type} {hst : DSPHost H}.

Definition info_pattern (e : InterpreterOpInfo (H := H)) : pattern := (int_opcode e, int_opcode_mask e).

Definition templates : list pattern := map template_pattern DSPTables.s_opcodes.
Definition functions : list pattern := map info_pattern DSPIntTables.s_opcodes.

Lemma each_pair_decided :
  forallb (fun p => forallb (fun q => disjoint p q || within p q) functions) templates = true.
Proof. vm_compute. reflexivity. Qed.

Lemma templates_dispatched : forallb (fun p => existsb (within p) functions) templates = true.
Proof. vm_compute. reflexivity. Qed.

Lemma functions_described : forallb (fun q => covered 16 0 q templates) functions = true.
Proof. vm_compute. reflexivity. Qed.

(** No two entries of a list have a word in common. *)
Fixpoint pairwise_disjoint (l : list pattern) : bool :=
  match l with [] => true | p :: l' => forallb (disjoint p) l' && pairwise_disjoint l' end.

Lemma templates_disjoint : pairwise_disjoint templates = true.
Proof. vm_compute. reflexivity. Qed.

Lemma functions_disjoint : pairwise_disjoint functions = true.
Proof. vm_compute. reflexivity. Qed.

Lemma pairwise_disjoint_spec l w p q :
  pairwise_disjoint l = true -> In p l -> In q l -> matches w p = true -> matches w q = true ->
  p = q.
Proof.
  induction l as [|a l IH]; cbn; [done|]. rewrite andb_true_iff, forallb_forall.
  intros [Ha Hl] [<-|Hp] [<-|Hq] Mp Mq; [done | | |by apply IH].
  - by rewrite (disjoint_sound w a q (Ha q Hq) Mp) in Mq.
  - by rewrite (disjoint_sound w a p (Ha p Hp) Mq) in Mp.
Qed.

Lemma find_template w t : FindOpInfoByOpcode w = Some t ->
  In (template_pattern t) templates /\ matches w (template_pattern t) = true.
Proof. intros [Hin Hm]%FindByOpcode_spec. split; [by apply in_map | by apply Z.eqb_eq]. Qed.

Lemma find_function w e : FindByOpcode int_opcode int_opcode_mask w DSPIntTables.s_opcodes = Some e ->
  In (info_pattern e) functions /\ matches w (info_pattern e) = true.
Proof. intros [Hin Hm]%FindByOpcode_spec. split; [by apply in_map | by apply Z.eqb_eq]. Qed.

Lemma found_related w t e :
  FindOpInfoByOpcode w = Some t ->
  FindByOpcode int_opcode int_opcode_mask w DSPIntTables.s_opcodes = Some e ->
  within (template_pattern t) (info_pattern e) = true.
Proof.
  intros [Ht Mt]%find_template [He Me]%find_function.
  pose proof each_pair_decided as Hd. rewrite forallb_forall in Hd. specialize (Hd _ Ht).
  rewrite forallb_forall in Hd. specialize (Hd _ He). apply orb_true_iff in Hd as [Hd|Hd]; [|done].
  by rewrite (disjoint_sound w _ _ Hd Mt) in Me.
Qed.

(** A word both tables decode, or neither. *)
Lemma decode_neither w :
  FindOpInfoByOpcode w = None <->
  FindByOpcode int_opcode int_opcode_mask w DSPIntTables.s_opcodes = None.
Proof.
  destruct (FindOpInfoByOpcode w) as [t|] eqn:Et,
    (FindByOpcode int_opcode int_opcode_mask w DSPIntTables.s_opcodes) as [e|] eqn:Ee; try done.
  - apply find_template in Et as [Ht Mt]. pose proof templates_dispatched as Hd.
    rewrite forallb_forall in Hd. apply Hd, existsb_exists in Ht as (q & Hq & Hw).
    apply in_map_iff in Hq as (e & <- & He). pose proof (List.find_none _ _ Ee e He) as Hn.
    pose proof (within_sound w _ _ Hw Mt) as Mq. unfold matches in Mq. cbn in Mq, Hn. congruence.
  - apply find_function in Ee as [He Me]. pose proof functions_described as Hd.
    rewrite forallb_forall in Hd. pose proof (covered_sound 16 0 _ _ w ltac:(lia) (Hd _ He) Me) as Hc.
    apply existsb_exists in Hc as (q & Hq & Mq). apply in_map_iff in Hq as (t & <- & Ht).
    pose proof (List.find_none _ _ Et t Ht) as Hn. unfold matches in Mq. cbn in Mq, Hn. congruence.
Qed.

(** The instruction descriptions and the interpreter agree.  Every word either is
    decoded by both tables, and then the described opcode is one the function was
    registered for (its pattern lies within the function's), or by neither; and in
    each table at most one pattern matches, so the order of the entries is immaterial. *)
Theorem decode_tables_agree w :
  match FindOpInfoByOpcode w, FindByOpcode int_opcode int_opcode_mask w DSPIntTables.s_opcodes with
  | Some t, Some e =>
      within (template_pattern t) (info_pattern e) = true /\
      (forall t', In t' DSPTables.s_opcodes -> matches w (template_pattern t') = true ->
         template_pattern t' = template_pattern t) /\
      (forall e', In e' DSPIntTables.s_opcodes -> matches w (info_pattern e') = true ->
         info_pattern e' = info_pattern e)
  | None, None => GetOpTemplate w = cw /\ GetOp w = nop (H := H)
  | _, _ => False
  end.
Proof.
  pose proof (decode_neither w) as Hn. destruct (FindOpInfoByOpcode w) as [t|] eqn:Et,
    (FindByOpcode int_opcode int_opcode_mask w DSPIntTables.s_opcodes) as [e|] eqn:Ee;
    try (by destruct Hn as [H1 H2]; first [discriminate (H1 eq_refl) | discriminate (H2 eq_refl)]).
  - split; [by apply found_related with w|].
    apply find_template in Et as [Ht Mt]. apply find_function in Ee as [He Me]. split; intros x Hx Mx.
    + eapply (pairwise_disjoint_spec templates w); [apply templates_disjoint | | done..]. by apply in_map.
    + eapply (pairwise_disjoint_spec functions w); [apply functions_disjoint | | done..]. by apply in_map.
  - unfold GetOpTemplate, DSPTables.s_op_table, GetOp, DSPIntTables.s_op_table, lookup_function.
    by rewrite Et, Ee.
Qed.
End Tables.

(** * Instruction lengths *)

Section Lengths.
Context {H : Type} {hst : DSPHost H}.
Abbreviation DM := (M (State H)).

(** [m] moves the program counter [n] words forward. *)
Definition fetches (n : Z) {A} (m : DM A) : Prop :=
  forall s, wf s -> match m s with
    | Done _ s' => fget f_pc s' = to_u16 (fget f_pc s + n)
    | Fault _ => True
    end.

Lemma fetches_0 {A} (m : DM A) : keeps run_view m -> fetches 0 m.
Proof.
  intros Hk s Hs. specialize (Hk s). destruct (m s) as [a s'|]; [|done].
  apply (f_equal snd) in Hk. cbn [snd run_view] in Hk. rewrite Hk, Z.add_0_r. symmetry.
  apply wrapu_small, (ft_get (F := f_pc) (P := u16) s Hs).
Qed.

Lemma fetches_after {A B} (T : A -> Prop) n (m : DM A) (k : A -> DM B) :
  typed wf T m -> keeps run_view m -> (forall a, fetches n (k a)) -> fetches n (m ≫= k).
Proof.
  intros Ht Hm Hk s Hs. specialize (Hm s). specialize (Ht s Hs). unfold mbind, M_bind.
  destruct (m s) as [a s'|f]; [|done]. specialize (Hk a s' (proj1 Ht)).
  apply (f_equal snd) in Hm. cbn [snd run_view] in Hm. by rewrite Hm in Hk.
Qed.

Lemma fetches_before {A B} n (m : DM A) (k : A -> DM B) :
  fetches n m -> (forall a, keeps run_view (k a)) -> fetches n (m ≫= k).
Proof.
  intros Hm Hk s Hs. specialize (Hm s Hs). unfold mbind, M_bind.
  destruct (m s) as [a s'|f]; [|done]. specialize (Hk a s'). destruct (k a s'); [|done].
  apply (f_equal snd) in Hk. cbn [snd run_view] in Hk. by rewrite Hk.
Qed.

Lemma fetches_fetch : fetches 1 (FetchInstruction (H := H)).
Proof. intros s Hs. by rewrite run_FetchInstruction. Qed.

(** The template of a function's registered opcode. *)
Definition described (e : InterpreterOpInfo (H := H)) : DSPOPCTemplate := GetOpTemplate (int_opcode e).

Ltac fetch_one :=
  lazymatch goal with
  | |- fetches 1 (FetchInstruction ≫= _) => apply fetches_before; [apply fetches_fetch | ktac]
  | |- fetches 1 (_ ≫= _) => eapply fetches_after; [tauto_typed | ktac | intros ?; fetch_one]
  | |- fetches 1 (let _ := _ in _) => cbv zeta; fetch_one
  | |- fetches 1 ?m => let h := head_of m in unfold h; fetch_one
  end.

Lemma functions_fetch : Forall (fun e => branch (described e) = false ->
  forall opc, fetches (size (described e) - 1) (function e opc)) DSPIntTables.s_opcodes.
Proof.
  unfold described. repeat apply Forall_cons_2; try apply Forall_nil_2; cbn [function int_opcode].
  all: intros Hb; vm_compute in Hb; first [ discriminate Hb | clear Hb; intros opc ].
  all: match goal with |- fetches ?n _ => let v := eval vm_compute in n in change n with v end.
  all: lazymatch goal with |- fetches 0 _ => apply fetches_0; ktac | |- _ => fetch_one end.
Qed.

Lemma lengths_agree :
  forallb (fun t => forallb (fun e =>
    if within (template_pattern t) (info_pattern e)
    then Bool.eqb (branch t) (branch (described e)) && (size t =? size (described e)) else true)
    DSPIntTables.s_opcodes) DSPTables.s_opcodes = true.
Proof. vm_compute. reflexivity. Qed.

Lemma GetOp_fetches w opc :
  branch (GetOpTemplate w) = false -> fetches (size (GetOpTemplate w) - 1) (GetOp (H := H) w opc).
Proof.
  intros Hb. pose proof (found_related (H := H) w) as Hrel.
  unfold GetOp, DSPIntTables.s_op_table, lookup_function.
  destruct (FindByOpcode int_opcode int_opcode_mask w DSPIntTables.s_opcodes) as [e|] eqn:Ee.
  - assert (He := Ee). apply FindByOpcode_spec in He as [He _].
    unfold GetOpTemplate, DSPTables.s_op_table in *. destruct (FindOpInfoByOpcode w) as [t|] eqn:Et.
    + cbn [default] in *. specialize (Hrel t e eq_refl eq_refl).
      apply FindByOpcode_spec in Et as [Ht _]. pose proof lengths_agree as Hl.
      rewrite forallb_forall in Hl. specialize (Hl t Ht). rewrite forallb_forall in Hl.
      specialize (Hl e He). rewrite Hrel, andb_true_iff in Hl. destruct Hl as [Hlb Hls].
      apply Bool.eqb_prop in Hlb. apply Z.eqb_eq in Hls.
      change (fetches (size t - 1) (function e opc)). rewrite Hls.
      change (branch t = false) in Hb. pose proof functions_fetch as Hf. rewrite Forall_forall in Hf.
      apply Hf; [by apply list_elem_of_In | congruence].
    + pose proof (decode_neither (H := H) w) as [Hn _]. rewrite Ee in Hn. discriminate (Hn Et).
  - unfold GetOpTemplate, DSPTables.s_op_table.
    destruct (FindOpInfoByOpcode w) as [t|] eqn:Et; [|apply fetches_0; ktac].
    pose proof (decode_neither (H := H) w) as [_ Hn]. rewrite Et in Hn. discriminate (Hn Ee).
Qed.

(** The size in an instruction's description is the number of words the interpreter
    fetches for it: every instruction that is not a branch leaves the program counter,
    which [Step] has moved past its first word, [size - 1] words further on, whatever
    its extension opcode does.  [SkipInstruction] and the analyzer rely on it. *)
Theorem instruction_length w s :
  wf s -> branch (GetOpTemplate w) = false ->
  match ExecuteInstruction w s with
  | Done _ s' => fget f_pc s' = to_u16 (fget f_pc s + (size (GetOpTemplate w) - 1))
  | Fault f => f <> ArrayOutOfBounds
  end.
Proof.
  intros Hs Hb. pose proof (typed_ExecuteInstruction w s Hs) as Ht.
  assert (Hf : fetches (size (GetOpTemplate w) - 1) (ExecuteInstruction w)).
  { unfold ExecuteInstruction. eapply fetches_after; [tauto_typed | ktac |]. intros _.
    apply fetches_before; [by apply GetOp_fetches | ktac]. }
  specialize (Hf s Hs). by destruct (ExecuteInstruction w s).
Qed.
End Lengths.

(** [LRI $ar0, #imm] is two words long. *)
Lemma instruction_length_witness :
  match ExecuteInstruction 0x0080 run_state with
  | Done _ s' => fget f_pc s' = 0x8001 | Fault f => f <> ArrayOutOfBounds end.
Proof. exact (instruction_length 0x0080 run_state run_state_ok eq_refl). Defined.
