(* ===== verification/MailboxProps.v ===== *)
(** The mailboxes between the CPU and the DSP. *)
From stdpp Require Import base tactics option list gmap strings.
From Stdlib Require Import ZArith Lia Bool.
From S2P Require Import Prelude Accelerator DSPState DSPTables DSPHardware DSPInterpreter.
From S2P Require Import DSPRun DSPLLE DSPFacts SimHost.

#[local] Open Scope Z_scope.

(** Setting the top bit of a [k + 1]-bit number. *)
Lemma lor_top k x : 0 <= k -> uN (k + 1) x -> x .| 2 ^ k = x mod 2 ^ k + 2 ^ k.
Proof.
  intros Hk Hx. rewrite <- (Z.mul_1_l (2 ^ k)) at 3.
  rewrite <- lor_shiftl_add by (try apply wrapu_range; lia). rewrite Z.shiftl_1_l.
  apply Z.bits_inj'. intros i Hi. rewrite !Z.lor_spec, Z.pow2_bits_eqb by done.
  destruct (Z.eqb_spec k i) as [<-|Hn]; [by rewrite !orb_true_r|]. rewrite !orb_false_r.
  destruct (Z.lt_ge_cases i k); [by rewrite Z.mod_pow2_bits_low|].
  rewrite Z.mod_pow2_bits_high by done. unfold uN in Hx.
  by apply (proj1 (uN_bits (k + 1) x ltac:(lia) ltac:(lia)) Hx); lia.
Qed.

Section Mail.
Context {H : Type} {hst : DSPHost H}.
Implicit Type (s : State H) (m : Mailbox).

(** The word in a mailbox: 31 bits of message under a flag that says it was sent. *)
Definition mail s m : Z := aat (fget f_m_mailbox s) (mailbox_index m).
Definition full s m : bool := Z.testbit (mail s m) 31.
Definition put_mail m (v : Z) s : State H :=
  fset f_m_mailbox (aupd (fget f_m_mailbox s) (mailbox_index m) v) s.

Lemma mail_put m v s : mail (put_mail m v s) m = v.
Proof. apply aat_aupd_eq. Qed.
Lemma mail_put_other m m' v s : m <> m' -> mail (put_mail m v s) m' = mail s m'.
Proof. intros. unfold mail, put_mail. apply aat_aupd_ne. by destruct m, m'. Qed.
Lemma put_put m v w s : put_mail m w (put_mail m v s) = put_mail m w s.
Proof. unfold put_mail. cbn. by rewrite aupd_aupd. Qed.
Lemma mail_u32 s m : wf s -> u32 (mail s m).
Proof. intros Hs. apply (ft_get (F := f_m_mailbox) (P := arr_ok u32) s Hs). Qed.
Lemma wf_put_mail m v s : wf s -> u32 v -> wf (put_mail m v s).
Proof.
  intros. apply (ft_set (F := f_m_mailbox) (P := arr_ok u32)); [done|].
  apply arr_ok_aupd; [by apply (ft_get (F := f_m_mailbox)) | done].
Qed.

Lemma run_ReadMailboxHigh m s : ReadMailboxHigh m s = Done (to_u16 (mail s m / 2 ^ 16)) s.
Proof.
  unfold ReadMailboxHigh, PeekMailbox. erewrite bind_done; [|apply run_geta; by destruct m].
  by rewrite Z.shiftr_div_pow2 by lia.
Qed.

Lemma run_ReadMailboxLow m s :
  ReadMailboxLow m s = Done (to_u16 (mail s m)) (put_mail m (mail s m mod 2 ^ 31) s).
Proof.
  unfold ReadMailboxLow. erewrite bind_done; [|apply run_geta; by destruct m].
  erewrite bind_done; [|apply run_seta; by destruct m].
  change (to_u32 (Z.lnot 0x80000000)) with (2 ^ 31 - 1). rewrite land_wrapu by lia. done.
Qed.

Lemma run_WriteMailboxHigh m v s :
  u16 v -> WriteMailboxHigh m v s = Done tt (put_mail m (mail s m mod 2 ^ 16 + v mod 2 ^ 15 * 2 ^ 16) s).
Proof.
  intros Hv. unfold WriteMailboxHigh. erewrite bind_done; [|apply run_geta; by destruct m]. cbv zeta beta.
  rewrite run_seta by (by destruct m). change (to_u32 (Z.lnot 0x80000000)) with (2 ^ 31 - 1).
  change 0xffff with (2 ^ 16 - 1). rewrite !land_wrapu by lia. fold (mail s m).
  rewrite (wrapu_small 32), lor_shiftl_add
    by (try apply wrapu_range; try lia; rewrite ?Z.shiftl_mul_pow2 by lia; unfold uN in *; lia).
  unfold put_mail. do 3 f_equal. unfold wrapu, uN in *. Z.div_mod_to_equations. lia.
Qed.

Lemma run_WriteMailboxLow m v s :
  wf s -> u16 v ->
  WriteMailboxLow m v s = Done tt (put_mail m (v + (mail s m / 2 ^ 16) mod 2 ^ 15 * 2 ^ 16 + 2 ^ 31) s).
Proof.
  intros Hs Hv. unfold WriteMailboxLow. erewrite bind_done; [|apply run_geta; by destruct m]. cbv zeta beta.
  rewrite run_seta by (by destruct m). fold (mail s m). pose proof (mail_u32 s m Hs) as Hm.
  assert (E : mail s m .& to_u32 (Z.lnot 0xffff) = (mail s m / 2 ^ 16) .<< 16).
  { apply Z.bits_inj'. intros i Hi. rewrite Z.land_spec.
    change (to_u32 (Z.lnot 0xffff)) with ((2 ^ 16 - 1) .<< 16).
    destruct (Z.lt_ge_cases i 16).
    - rewrite !Z.shiftl_spec_low by done. apply andb_false_r.
    - rewrite !Z.shiftl_spec, Z.div_pow2_bits by lia. replace (i - 16 + 16) with i by lia.
      replace (2 ^ 16 - 1) with (Z.ones 16) by done. destruct (Z.lt_ge_cases i 32).
      + rewrite Z.ones_spec_low by lia. apply andb_true_r.
      + unfold uN in Hm. by rewrite (proj1 (uN_bits 32 (mail s m) ltac:(lia) ltac:(lia)) Hm i). }
  rewrite E, (Z.lor_comm _ v), lor_shiftl_add by (done || lia).
  change 0x80000000 with (2 ^ 31). rewrite lor_top by (unfold uN in *; Z.div_mod_to_equations; lia).
  unfold put_mail. do 3 f_equal. unfold uN in *. Z.div_mod_to_equations. lia.
Qed.

(** The state in which [hi], [lo] has been sent through [m]. *)
Definition sent m (hi lo : Z) s : State H :=
  put_mail m (lo + hi mod 2 ^ 15 * 2 ^ 16 + 2 ^ 31) s.

Lemma run_send m hi lo s :
  wf s -> u16 hi -> u16 lo ->
  exists s1, WriteMailboxHigh m hi s = Done tt s1 /\ full s1 m = false /\
    WriteMailboxLow m lo s1 = Done tt (sent m hi lo s).
Proof.
  intros Hs Hhi Hlo. eexists. split; [by apply run_WriteMailboxHigh|].
  set (v := mail s m mod 2 ^ 16 + hi mod 2 ^ 15 * 2 ^ 16).
  assert (Hv : 0 <= v < 2 ^ 31) by (unfold v, uN in *; Z.div_mod_to_equations; lia). split.
  - unfold full. rewrite mail_put. apply (proj1 (uN_bits 31 v ltac:(lia) ltac:(lia))); [done | lia].
  - rewrite run_WriteMailboxLow by (try apply wf_put_mail; unfold uN in *; done || lia).
    rewrite mail_put, put_put. unfold sent. do 2 f_equal.
    replace (v / 2 ^ 16) with (hi mod 2 ^ 15); [rewrite Z.mod_mod by lia; done|].
    unfold v. rewrite Z.div_add by lia. rewrite Z.div_small by (apply Z.mod_pos_bound; lia). lia.
Qed.

Lemma run_receive m hi lo s :
  u16 hi -> u16 lo -> exists s3,
    full (sent m hi lo s) m = true /\
    ReadMailboxHigh m (sent m hi lo s) = Done (0x8000 + hi mod 2 ^ 15) (sent m hi lo s) /\
    ReadMailboxLow m (sent m hi lo s) = Done lo s3 /\
    full s3 m = false /\ ReadMailboxHigh m s3 = Done (hi mod 2 ^ 15) s3 /\
    forall m', m <> m' -> mail s3 m' = mail s m'.
Proof.
  intros Hhi Hlo. pose proof (Z.mod_pos_bound hi (2 ^ 15) ltac:(lia)) as Hh.
  set (h := hi mod 2 ^ 15) in *. unfold sent. fold h.
  exists (put_mail m (lo + h * 2 ^ 16) s).
  rewrite !run_ReadMailboxHigh, run_ReadMailboxLow. unfold full. rewrite !mail_put, put_put.
  assert (Em : (lo + h * 2 ^ 16 + 2 ^ 31) mod 2 ^ 31 = lo + h * 2 ^ 16)
    by (unfold uN in *; symmetry; apply Z.mod_unique with 1; lia).
  assert (Ed : (lo + h * 2 ^ 16 + 2 ^ 31) / 2 ^ 16 = 0x8000 + h)
    by (unfold uN in *; symmetry; apply Z.div_unique with lo; lia).
  assert (Ed' : (lo + h * 2 ^ 16) / 2 ^ 16 = h)
    by (unfold uN in *; symmetry; apply Z.div_unique with lo; lia).
  rewrite Em, Ed, Ed'. rewrite !(wrapu_small 16 (_ + h)), !(wrapu_small 16 h) by (unfold uN; lia).
  split; [|split; [done|split; [|split; [|split; [done|]]]]].
  - replace (lo + h * 2 ^ 16 + 2 ^ 31) with ((lo + h * 2 ^ 16) + 1 * 2 ^ 31) by lia.
    rewrite <- lor_shiftl_add by (unfold uN in *; lia). by rewrite Z.lor_spec, Z.shiftl_1_l, Z.pow2_bits_true, orb_true_r by lia.
  - f_equal. unfold wrapu, uN in *. symmetry. apply Z.mod_unique with (h + 2 ^ 15); lia.
  - apply (proj1 (uN_bits 31 (lo + h * 2 ^ 16) ltac:(lia) ltac:(unfold uN in *; lia))); [unfold uN in *; lia | lia].
  - intros m' Hm. by apply mail_put_other.
Qed.

(** Mail gets through, both ways.  A word that the DSP stores in its two mailbox
    registers is the word the CPU then reads, with the "sent" flag on top; the flag is
    clear until the low half is written and again once the low half has been read, and
    the other mailbox is untouched.  The same holds from the CPU to the DSP; the CPU
    cannot write the DSP's own mailbox. *)
Theorem mailboxes_deliver hi lo s :
  wf s -> u16 hi -> u16 lo ->
  (exists s1 s2 s3,
     WriteDMEM 0xfffc hi s = Done tt s1 /\ full s1 DSP = false /\
     WriteDMEM 0xfffd lo s1 = Done tt s2 /\ full s2 DSP = true /\
     DSP_ReadMailBoxHigh false s2 = Done (0x8000 + hi mod 2 ^ 15) s2 /\
     DSP_ReadMailBoxLow false s2 = Done lo s3 /\
     full s3 DSP = false /\ mail s3 CPU = mail s CPU) /\
  (exists s1 s2 s3,
     DSP_WriteMailBoxHigh true hi s = Done tt s1 /\ full s1 CPU = false /\
     DSP_WriteMailBoxLow true lo s1 = Done tt s2 /\ full s2 CPU = true /\
     ReadDMEM 0xfffe s2 = Done (0x8000 + hi mod 2 ^ 15) s2 /\
     ReadDMEM 0xffff s2 = Done lo s3 /\
     full s3 CPU = false /\ mail s3 DSP = mail s DSP) /\
  DSP_WriteMailBoxHigh false hi s = Done tt s /\ DSP_WriteMailBoxLow false lo s = Done tt s.
Proof.
  intros Hs Hhi Hlo. split; [|split; [|done]].
  - destruct (run_send DSP hi lo s Hs Hhi Hlo) as (s1 & E1 & F1 & E2).
    destruct (run_receive DSP hi lo s Hhi Hlo) as (s3 & F2 & R1 & R2 & F3 & _ & Ho).
    exists s1, (sent DSP hi lo s), s3. repeat (split; [done|]). by apply Ho.
  - destruct (run_send CPU hi lo s Hs Hhi Hlo) as (s1 & E1 & F1 & E2).
    destruct (run_receive CPU hi lo s Hhi Hlo) as (s3 & F2 & R1 & R2 & F3 & _ & Ho).
    exists s1, (sent CPU hi lo s), s3. repeat (split; [done|]). by apply Ho.
Qed.
End Mail.

Lemma mailboxes_deliver_witness :
  exists s1 s2 s3, WriteDMEM 0xfffc 0xdcd1 sim_state = Done tt s1 /\
    WriteDMEM 0xfffd 0x0002 s1 = Done tt s2 /\
    DSP_ReadMailBoxHigh false s2 = Done 0xdcd1 s2 /\ DSP_ReadMailBoxLow false s2 = Done 0x0002 s3.
Proof.
  destruct (mailboxes_deliver 0xdcd1 0x0002 sim_state sim_state_ok ltac:(range_lia) ltac:(range_lia))
    as [(s1 & s2 & s3 & E1 & _ & E2 & _ & E3 & E4 & _) _].
  exists s1, s2, s3. repeat split; assumption.
Defined.
