(* ===== verification/RegisterProps.v ===== *)
(** The register file as the instructions see it: what a write stores and a read
    returns, the accumulators in 40-bit mode, and the debugger's access. *)
From stdpp Require Import base tactics option list gmap strings.
From Stdlib Require Import ZArith Lia Bool.
From S2P Require Import Prelude Accelerator DSPState DSPTables DSPHardware DSPInterpreter.
From S2P Require Import DSPFacts SimHost StackProps.

#[local] Open Scope Z_scope.

Section Registers.
Context {H : Type} {hst : DSPHost H}.
Implicit Type s : State H.

(** The bits of a register that are there: [$cr] and [$prod.h] have 8, bit 8 of [$sr]
    reads 0, and the accumulators' [$acN.h] are 8 bits, sign-extended. *)
Definition readback (reg v : Z) : Z :=
  if (reg =? DSP_REG_ACH0) || (reg =? DSP_REG_ACH1) then to_u16 (to_s8 v)
  else if (reg =? DSP_REG_CR) || (reg =? DSP_REG_PRODH) then v mod 2 ^ 8
  else if reg =? DSP_REG_SR then Z.clearbit v 8
  else v.

Definition is_stack (reg : Z) : bool := (DSP_REG_ST0 <=? reg) && (reg <? DSP_REG_ACH0).
Definition is_acc_mid (reg : Z) : bool := (reg =? DSP_REG_ACM0) || (reg =? DSP_REG_ACM1).

Lemma reg_cases reg : 0 <= reg < 32 ->
  In reg [0;1;2;3;4;5;6;7;8;9;10;11;12;13;14;15;16;17;18;19;20;21;22;23;24;25;26;27;28;29;30;31].
Proof. cbn. lia. Qed.

Lemma u16_of_u32_s8 v : to_u16 (to_u32 (to_s8 v)) = to_u16 (to_s8 v).
Proof. unfold wrapu. apply Z.mod_mod_divide. by exists (2 ^ 16). Qed.

Lemma stack_roundtrip r v s : wf s -> u16 v ->
  PopStack r (push_state r v s) = Done v (pop_state r (push_state r v s)) /\
  take 32 (contents r (pop_state r (push_state r v s))) = take 32 (contents r s).
Proof.
  intros Hs Hv. pose proof (wf_push r v s Hs Hv) as Hw. split.
  - rewrite run_PopStack by done. f_equal. apply aat_aupd_eq.
  - rewrite contents_pop, contents_push by done. cbn [tail]. apply take_app_length'.
    rewrite length_take, contents_length. done.
Qed.

(** A register that is written reads back.  Reading a register after writing it
    returns the value as far as the register has the bits, for every register but the
    middle accumulators; reading changes nothing, except that a stack register pops,
    which restores the stack the write has pushed. *)
Theorem register_roundtrip reg v s :
  wf s -> 0 <= reg < 32 -> u16 v -> is_acc_mid reg = false ->
  exists s1 s2, OpWriteRegister reg v s = Done tt s1 /\
    OpReadRegister reg s1 = Done (readback reg v) s2 /\
    if is_stack reg then take 32 (contents (stack_of_reg reg) s2) = take 32 (contents (stack_of_reg reg) s)
    else s2 = s1.
Proof.
  intros Hs Hreg Hv Hm. apply reg_cases in Hreg. cbn [In] in Hreg.
  repeat destruct Hreg as [<-|Hreg]; try done; try discriminate Hm.
  all: first
    [ (* a stack *)
      match goal with |- context [is_stack ?n] =>
        change (is_stack n) with true; cbv iota;
        let r := eval vm_compute in (stack_of_reg n) in change (stack_of_reg n) with r;
        destruct (stack_roundtrip r v s Hs Hv) as [Hp Hc];
        exists (push_state r v s), (pop_state r (push_state r v s));
        split; [by apply (run_StoreStack r v s Hs) | by split] end
    | eexists _, _; split; [reflexivity|]; split; [|reflexivity];
      eapply run_eq; [reflexivity | | reflexivity]; cbn; rewrite ?aat_aupd_eq ].
  all: try done.
  all: unfold readback; cbn [Z.eqb Pos.eqb orb].
  - apply u16_of_u32_s8.
  - apply u16_of_u32_s8.
  - change 0x00ff with (2 ^ 8 - 1). by rewrite land_wrapu.
  - change SR_100 with (2 ^ 8). by apply land_lnot_clearbit; [lia|].
  - change 0x00ff with (2 ^ 8 - 1). by rewrite land_wrapu.
Qed.

(** ** The middle of an accumulator *)

Definition mode40 s : bool := Z.testbit (fget f_sr s) 14.
(** Saturation to 32 bits. *)
Definition sat32 (x : Z) : Z := clamp x (- 2 ^ 31) (2 ^ 31 - 1).

Lemma acc_parts s d : wf s ->
  let l := aat (fget f_ac_l s) d in let m := aat (fget f_ac_m s) d in let h := aat (fget f_ac_h s) d in
  u16 l /\ u16 m /\ ach h /\ acc s d = l + m * 2 ^ 16 + to_s32 h * 2 ^ 32.
Proof.
  intros Hs. cbv zeta.
  assert (u16 (aat (fget f_ac_l s) d)) by apply (ft_get (F := f_ac_l) (P := arr_ok u16) s Hs).
  assert (u16 (aat (fget f_ac_m s) d)) by apply (ft_get (F := f_ac_m) (P := arr_ok u16) s Hs).
  assert (ach (aat (fget f_ac_h s) d)) by apply (ft_get (F := f_ac_h) (P := arr_ok ach) s Hs).
  repeat (split; [done|]). by apply ac_val_s40.
Qed.

Lemma acc_middle s d : wf s -> aat (fget f_ac_m s) d = to_u16 (acc s d / 2 ^ 16).
Proof.
  intros Hs. destruct (acc_parts s d Hs) as (Hl & Hm & Hh & ->). cbv zeta in *.
  set (l := aat (fget f_ac_l s) d) in *. set (m := aat (fget f_ac_m s) d) in *.
  set (h := to_s32 _). unfold wrapu, uN in *. apply Z.mod_unique with h; [lia|].
  symmetry. apply Z.div_unique with l; lia.
Qed.

Lemma sat32_cases x : sat32 x = if x <? - 2 ^ 31 then - 2 ^ 31 else if 2 ^ 31 - 1 <? x then 2 ^ 31 - 1 else x.
Proof. done. Qed.

Lemma run_ReadAccMidSaturated d s : wf s -> 0 <= d < 2 ->
  ReadAccMidSaturated (DSP_REG_ACM0 + d) s =
  Done (to_u16 ((if mode40 s then sat32 (acc s d) else acc s d) / 2 ^ 16)) s.
Proof.
  intros Hs Hd. unfold ReadAccMidSaturated. mstep. change SR_40_MODE_BIT with (2 ^ 14).
  rewrite flag_testbit by lia. fold (mode40 s). replace (DSP_REG_ACM0 + d - DSP_REG_ACM0) with d by lia.
  assert (Hread : geta 2 f_ac_m d s = Done (to_u16 (acc s d / 2 ^ 16)) s)
    by (rewrite run_geta by done; by rewrite acc_middle).
  destruct (mode40 s); [|done]. mstep. pose proof (isOverS32_spec (acc s d)) as Ho.
  unfold isOverS32 in Ho. rewrite Ho, sat32_cases, negb_andb.
  destruct (Z.leb_spec (- 2 ^ 31) (acc s d)), (Z.ltb_spec (acc s d) (- 2 ^ 31)),
    (Z.ltb_spec (acc s d) (2 ^ 31)), (Z.ltb_spec (2 ^ 31 - 1) (acc s d)); try lia; cbn [negb orb].
  - done.
  - by rewrite (proj2 (Z.ltb_lt 0 (acc s d))) by lia.
  - by rewrite (proj2 (Z.ltb_ge 0 (acc s d))) by lia.
Qed.

Lemma run_OpReadAccMid d s : wf s -> 0 <= d < 2 ->
  OpReadRegister (DSP_REG_ACM0 + d) s =
  Done (to_u16 ((if mode40 s then sat32 (acc s d) else acc s d) / 2 ^ 16)) s.
Proof.
  intros Hs Hd. rewrite <- run_ReadAccMidSaturated by done.
  assert (Hc : d = 0 \/ d = 1) by lia. by destruct Hc as [-> | ->].
Qed.

(** The middle of an accumulator in 40-bit mode.  A read of [$acN.m] returns the middle
    of the accumulator, of its value saturated to 32 bits in 40-bit mode. *)
Theorem acc_mid_read_saturates d s :
  wf s -> 0 <= d < 2 ->
  OpReadRegister (DSP_REG_ACM0 + d) s =
  Done (to_u16 ((if mode40 s then sat32 (acc s d) else acc s d) / 2 ^ 16)) s.
Proof. apply run_OpReadAccMid. Qed.

(** [ConditionalExtendAccum] on the accumulator it concerns. *)
Definition extended (d : Z) s : State H :=
  let h := if Z.testbit (aat (fget f_ac_m s) d) 15 then 0xFFFFFFFF else 0 in
  let s1 := fset f_ac_h (aupd (fget f_ac_h s) d h) s in
  fset f_ac_l (aupd (fget f_ac_l s1) d 0) s1.

Lemma run_ConditionalExtendAccum d s : 0 <= d < 2 ->
  ConditionalExtendAccum (DSP_REG_ACM0 + d) s = Done tt (if mode40 s then extended d s else s).
Proof.
  intros Hd. unfold ConditionalExtendAccum.
  replace (negb _ && negb _) with false by (symmetry; split_eq).
  mstep. change SR_40_MODE_BIT with (2 ^ 14). rewrite flag_testbit by lia. fold (mode40 s).
  replace (DSP_REG_ACM0 + d - DSP_REG_ACM0) with d by lia.
  destruct (mode40 s); [|done]. cbn [negb]. change 0x8000 with (2 ^ 15). do 2 mstep.
  rewrite flag_testbit by lia. mrun.
Qed.

Lemma acc_extended d s : wf s -> acc (extended d s) d = to_s16 (aat (fget f_ac_m s) d) * 2 ^ 16.
Proof.
  intros Hs. destruct (acc_parts s d Hs) as (_ & Hm & _ & _). cbv zeta in Hm.
  unfold acc, extended. cbn -[Z.testbit]. rewrite !aat_aupd_eq.
  change (ac_m (r (dsp s))) with (fget f_ac_m s).
  destruct (ac_val_s40 0 (aat (fget f_ac_m s) d) (if Z.testbit (aat (fget f_ac_m s) d) 15 then 0xFFFFFFFF else 0))
    as [-> _]; [range_lia | done | apply ach_extend |].
  destruct (s16_cases _ Hm) as [(Hb & Hw & Hr) | (Hb & Hw & Hr)]; rewrite Hb, Hw;
    change (to_s32 0xFFFFFFFF) with (-1); change (to_s32 0) with 0; lia.
Qed.

Lemma acc_extended_other d s : acc (extended d s) (1 - d) = acc s (1 - d).
Proof. unfold acc, extended. cbn. by rewrite !aat_aupd_ne by lia. Qed.

(** The write of a load instruction: [OpWriteRegister] and [ConditionalExtendAccum]. *)
Definition load_register (reg v : Z) : M (State H) unit :=
  OpWriteRegister reg v ;; ConditionalExtendAccum reg.

Lemma run_load_acc_mid d v s : 0 <= d < 2 ->
  let s1 := fset f_ac_m (aupd (fget f_ac_m s) d v) s in
  OpWriteRegister (DSP_REG_ACM0 + d) v s = Done tt s1 /\
  load_register (DSP_REG_ACM0 + d) v s = Done tt (if mode40 s then extended d s1 else s1).
Proof.
  intros Hd s1.
  assert (E1 : OpWriteRegister (DSP_REG_ACM0 + d) v s = Done tt s1)
    by (assert (Hc : d = 0 \/ d = 1) by lia; by destruct Hc as [-> | ->]).
  split; [done|]. unfold load_register. rewrite (bind_done _ _ s tt s1) by done.
  by rewrite run_ConditionalExtendAccum.
Qed.

(** Loading [$acN.m] in 40-bit mode loads the whole accumulator with the value as a
    signed 16.16 number; otherwise it replaces bits 16 to 31 only.  The other
    accumulator keeps its value, and in 40-bit mode the value reads back. *)
Theorem acc_mid_load_extends d v s :
  wf s -> 0 <= d < 2 -> u16 v ->
  exists s1, load_register (DSP_REG_ACM0 + d) v s = Done tt s1 /\
    acc s1 d = (if mode40 s then to_s16 v * 2 ^ 16
                else acc s d + (v - to_u16 (acc s d / 2 ^ 16)) * 2 ^ 16) /\
    acc s1 (1 - d) = acc s (1 - d) /\
    (mode40 s = true -> OpReadRegister (DSP_REG_ACM0 + d) s1 = Done v s1).
Proof.
  intros Hs Hd Hv. destruct (run_load_acc_mid d v s Hd) as [Ew El]. cbv zeta in Ew, El.
  set (s1 := fset f_ac_m (aupd (fget f_ac_m s) d v) s) in *.
  assert (W1 : wf s1).
  { pose proof (typed_OpWriteRegister (DSP_REG_ACM0 + d) v Hv s Hs) as Ht. rewrite Ew in Ht. apply Ht. }
  assert (Ho : acc s1 (1 - d) = acc s (1 - d)) by (unfold acc, s1; cbn; by rewrite !aat_aupd_ne by lia).
  eexists. split; [exact El|]. destruct (mode40 s) eqn:Em.
  - assert (Ha : acc (extended d s1) d = to_s16 v * 2 ^ 16)
      by (rewrite acc_extended by done; unfold s1; cbn; by rewrite aat_aupd_eq).
    split; [done|]. split; [by rewrite acc_extended_other|]. intros _.
    pose proof (typed_ConditionalExtendAccum (DSP_REG_ACM0 + d) s1 W1) as Ht.
    rewrite run_ConditionalExtendAccum in Ht by done. change (mode40 s1) with (mode40 s) in Ht.
    rewrite Em in Ht. destruct Ht as [W2 _]. rewrite run_OpReadAccMid by done.
    change (mode40 (extended d s1)) with (mode40 s). rewrite Em, Ha, sat32_cases.
    pose proof (wraps_range 16 v ltac:(lia)) as Hr. unfold sN in Hr.
    destruct (Z.ltb_spec (to_s16 v * 2 ^ 16) (- 2 ^ 31)), (Z.ltb_spec (2 ^ 31 - 1) (to_s16 v * 2 ^ 16)); try lia.
    by rewrite Z.div_mul, wrapu_wraps, wrapu_small by (done || lia).
  - split; [|by split]. rewrite <- acc_middle by done. destruct (acc_parts s d Hs) as (_ & _ & _ & ->).
    destruct (acc_parts s1 d W1) as (_ & _ & _ & ->). unfold s1. cbn. rewrite aat_aupd_eq. lia.
Qed.
End Registers.

(** * Witnesses *)

Lemma register_roundtrip_witness :
  exists s1 s2, OpWriteRegister DSP_REG_SR 0xffff sim_state = Done tt s1 /\
    OpReadRegister DSP_REG_SR s1 = Done 0xfeff s2.
Proof.
  destruct (register_roundtrip DSP_REG_SR 0xffff sim_state sim_state_ok) as (s1 & s2 & E1 & E2 & _);
    [lia | range_lia | reflexivity |].
  exists s1, s2. by split.
Defined.

(** 40-bit mode, with [$ac1] = 2^35. *)
Definition mode40_state : State sim := put_acc 1 (2 ^ 35) (fset f_sr 0x4000 sim_state).

Lemma mode40_state_ok : wf mode40_state.
Proof.
  apply wf_put_acc; [lia|]. apply (ft_set (F := f_sr) (P := u16)); [apply sim_state_ok | range_lia].
Qed.

Lemma acc_mid_read_saturates_witness :
  acc mode40_state 1 = 2 ^ 35 /\ OpReadRegister 0x1f mode40_state = Done 0x7fff mode40_state.
Proof. split; [reflexivity|]. exact (acc_mid_read_saturates 1 mode40_state mode40_state_ok ltac:(lia)). Defined.

Lemma acc_mid_load_extends_witness :
  exists s1, load_register 0x1f 0x8000 mode40_state = Done tt s1 /\ acc s1 1 = - 2 ^ 31.
Proof.
  destruct (acc_mid_load_extends 1 0x8000 mode40_state mode40_state_ok ltac:(lia) ltac:(range_lia))
    as (s1 & E & Ha & _).
  exists s1. split; [exact E | exact Ha].
Defined.
