(* ===== verification/DmaProps.v ===== *)
(** DMA between the DSP's memories and main memory, started by a write to the block
    length register. *)
From stdpp Require Import base tactics option list gmap strings.
From Stdlib Require Import ZArith Lia Bool.
From S2P Require Import Prelude Accelerator DSPState DSPTables DSPHardware DSPInterpreter.
From S2P Require Import DSPFacts SimHost.

#[local] Open Scope Z_scope.

(** What DMA expects of main memory, in the states of its invariant and whatever aliases
    addresses have: within a valid range, a byte that was written reads back and the
    others keep their values, and writing does not unmap a range. *)
Class HostMemory (H : Type) {hst : DSPHost H} : Type := {
  memory_inv : H -> Prop;
  memory_inv_write : forall a v (h : H), memory_inv h -> u8 v -> memory_inv (mem_write_u8 a v h);
  mem_read_write : forall a n i j v (h : H),
    memory_inv h -> range_valid a n h = true -> 0 <= i < n -> 0 <= j < n -> u8 v ->
    mem_read_u8 (a + i) (mem_write_u8 (a + j) v h) = if i =? j then v else mem_read_u8 (a + i) h;
  range_valid_write : forall a n b v (h : H),
    range_valid a n (mem_write_u8 b v h) = range_valid a n h
}.

#[export] Instance sim_memory : HostMemory sim.
Proof.
  apply (Build_HostMemory sim _ (fun _ => True)); [done | | done].
  intros a n i j v h _ _ _ _ Hv. cbn. rewrite aat_aupd.
  destruct (Z.eqb_spec (a + j) (a + i)), (Z.eqb_spec i j); done || lia.
Defined.

(** * Blocks of words *)

Section Words.
Context {H : Type} {hst : DSPHost H} {mem : HostMemory H}.

Lemma range_valid_store a n addr i ws (h : H) :
  range_valid a n (emu_store_words addr i ws h) = range_valid a n h.
Proof.
  revert i h. induction ws as [|w ws IH]; intros i h; cbn [emu_store_words]; [done|].
  by rewrite IH, !range_valid_write.
Qed.

(** The side conditions of the laws. *)
Ltac mside :=
  rewrite ?range_valid_write;
  first [assumption | lia | apply memory_inv_write; [mside | assumption]].

(** A byte before the words written keeps its value. *)
Lemma mem_read_store addr len j i ws (h : H) :
  memory_inv h -> range_valid addr len h = true -> Forall u16 ws -> 0 <= j < 2 * i ->
  2 * (i + Z.of_nat (length ws)) <= len ->
  mem_read_u8 (addr + j) (emu_store_words addr i ws h) = mem_read_u8 (addr + j) h.
Proof.
  intros Hi0 Hv Hw. revert i h Hi0 Hv. induction Hw as [|w ws Hw Hws IH]; intros i h Hi0 Hv Hj Hl;
    cbn [emu_store_words length] in *; [done|].
  assert (u8 (w .>> 8)) by (rewrite Z.shiftr_div_pow2 by lia; unfold uN in *; Z.div_mod_to_equations; lia).
  assert (u8 (w .& 0xFF)) by solve_uN.
  rewrite IH by mside.
  rewrite <- Z.add_assoc.
  rewrite !(mem_read_write addr len) by mside. split_eq.
Qed.

Lemma word_of_bytes w : u16 w -> (to_u8 (w .>> 8) .<< 8) .| to_u8 (w .& 0xFF) = w.
Proof.
  intros Hw. change 0xFF with (2 ^ 8 - 1). rewrite land_wrapu, Z.lor_comm, Z.shiftr_div_pow2 by lia.
  rewrite (wrapu_small 8 (wrapu 8 w)), lor_shiftl_add by (try apply wrapu_range; lia).
  unfold wrapu, uN in *. Z.div_mod_to_equations. lia.
Qed.

Lemma emu_words_store addr len i ws k (h : H) :
  memory_inv h -> range_valid addr len h = true -> Forall u16 ws -> 0 <= i -> (k < length ws)%nat ->
  2 * (i + Z.of_nat (length ws)) <= len ->
  ws !! k = Some (emu_u16 (emu_store_words addr i ws h) addr (i + Z.of_nat k)).
Proof.
  intros Hi0 Hv Hw. revert i k h Hi0 Hv. induction Hw as [|w ws Hw Hws IH]; intros i k h Hi0 Hv Hi Hk Hl;
    cbn [length] in *; [lia|].
  assert (u8 (w .>> 8)) by (rewrite Z.shiftr_div_pow2 by lia; unfold uN in *; Z.div_mod_to_equations; lia).
  assert (u8 (w .& 0xFF)) by solve_uN. destruct k as [|k]; cbn [emu_store_words].
  - change ((w :: ws) !! O) with (Some w). f_equal. symmetry. unfold emu_u16.
    replace (i + Z.of_nat 0) with i by lia. rewrite <- !Z.add_assoc.
    rewrite !(mem_read_store addr len) by mside. rewrite !(mem_read_write addr len) by mside.
    rewrite !Z.eqb_refl. rewrite (proj2 (Z.eqb_neq (2 * i) (2 * i + 1))) by lia. by apply word_of_bytes.
  - change ((w :: ws) !! S k) with (ws !! k).
    replace (i + Z.of_nat (S k)) with (i + 1 + Z.of_nat k) by lia.
    apply IH; mside.
Qed.

Lemma lookup_emu_words (h : H) addr n k :
  (k < n)%nat -> emu_words h addr n !! k = Some (emu_u16 h addr (Z.of_nat k)).
Proof.
  intros Hk. unfold emu_words. rewrite list_lookup_fmap, lookup_seq_lt by done. done.
Qed.

Lemma length_emu_words (h : H) addr n : length (emu_words h addr n) = n.
Proof. unfold emu_words. by rewrite length_map, length_seq. Qed.
End Words.

(** * The transfers *)

Section Transfers.
Context {H : Type} {hst : DSPHost H}.
Implicit Type s : State H.

Definition ifx_at s (i : Z) : Z := aat (fget f_m_ifx_regs s) i.

(** The parameters the hardware registers hold: main-memory address, direction, and the
    word address in the DSP's memory. *)
Definition dma_address s : Z := to_u32 (ifx_at s DSP_DSMAH .<< 16) .| ifx_at s DSP_DSMAL.
Definition dma_direction s : Z := ifx_at s DSP_DSCR .& 0x3.
Definition dma_base s : Z := to_u16 (ifx_at s DSP_DSPA * 2) / 2.

Lemma run_DoDMA s :
  DoDMA s = (if 0x4000 <? ifx_at s DSP_DSBL then fail ProcessExit else
    let len := ifx_at s DSP_DSBL in
    if dma_direction s =? 1 then DMAFromDSP f_dram (dma_base s) (dma_address s) len
    else if dma_direction s =? 0 then DMAToDSP f_dram (dma_base s) (dma_address s) len
    else if dma_direction s =? 3 then mret tt
    else DMAToDSP f_iram (dma_base s) (dma_address s) len ;; CodeLoaded (dma_address s) len) s.
Proof.
  unfold DoDMA, ifx. do 5 (erewrite bind_done; [|apply run_geta; lia]). done.
Qed.

Definition put_ifx (i v : Z) s : State H := fset f_m_ifx_regs (aupd (fget f_m_ifx_regs s) i v) s.

Lemma ifx_put i v s j : ifx_at (put_ifx i v s) j = if i =? j then v else ifx_at s j.
Proof. apply aat_aupd. Qed.
Lemma run_ifx i s : 0 <= i < 256 -> ifx i s = Done (ifx_at s i) s.
Proof. intros. by apply run_geta. Qed.
Lemma run_set_ifx i v s : 0 <= i < 256 -> set_ifx i v s = Done tt (put_ifx i v s).
Proof. intros. by apply run_seta. Qed.
#[local] Hint Resolve run_ifx run_set_ifx : run.

(** The handler of a write to DSBL, around the transfer. *)
Lemma run_WriteDSBL s len :
  ifx_at s DSP_AMDM = 0 ->
  WriteIFX 0xffcb len s =
  match DoDMA (put_ifx DSP_DSCR (ifx_at s DSP_DSCR .| 4) (put_ifx DSP_DSBL len s)) with
  | Done _ s2 =>
      Done tt (put_ifx DSP_DSBL 0 (put_ifx DSP_DSCR (ifx_at s2 DSP_DSCR .& to_u16 (Z.lnot 4)) s2))
  | Fault f => Fault f
  end.
Proof.
  intros Ha. change (WriteIFX 0xffcb len s) with
    ((set_ifx DSP_DSBL len ;;
      c ← ifx DSP_DSCR; set_ifx DSP_DSCR (c .| 4) ;;
      amdm ← ifx DSP_AMDM;
      (if amdm =? 0 then DoDMA else mret tt) ;;
      c ← ifx DSP_DSCR; set_ifx DSP_DSCR (c .& to_u16 (Z.lnot 4)) ;;
      set_ifx DSP_DSBL 0) s).
  do 4 mstep. rewrite !ifx_put. cbn [Z.eqb Pos.eqb]. rewrite Ha. cbn [Z.eqb].
  unfold mbind at 1, M_bind at 1.
  destruct (DoDMA _) as [[] s2|f]; [|done]. do 2 mstep. mrun.
Qed.

(** Well-formed parameters of a transfer: the base is the word address written to
    DSPA, and the length is not changed by the handler. *)
Lemma dma_params s len :
  let s1 := put_ifx DSP_DSCR (ifx_at s DSP_DSCR .| 4) (put_ifx DSP_DSBL len s) in
  ifx_at s1 DSP_DSBL = len /\ dma_base s1 = dma_base s /\ dma_address s1 = dma_address s /\
  dma_direction s1 = dma_direction s.
Proof.
  cbv zeta. unfold dma_base, dma_address, dma_direction. rewrite !ifx_put. cbn [Z.eqb Pos.eqb].
  repeat (split; [done|]). rewrite Z.land_lor_distr_l. by rewrite Z.lor_0_r.
Qed.

(** The words [ws] at [base], the rest as before. *)
Definition block_at (a : arr) (base : Z) (n : Z) (w : Z -> Z) (a' : arr) : Prop :=
  forall i, aat a' i = if (base <=? i) && (i <? base + n) then w (i - base) else aat a i.

Lemma block_emu_words (h : H) a base addr n :
  0 <= n -> block_at a base n (emu_u16 h addr) (aupd_list a base (emu_words h addr (Z.to_nat n))).
Proof.
  intros Hn i. rewrite aat_aupd_list, length_emu_words, Z2Nat.id by done.
  destruct (Z.leb_spec base i), (Z.ltb_spec i (base + n)); cbn [andb]; try done.
  rewrite lookup_emu_words by lia. cbn. f_equal. lia.
Qed.

(** Data DMA into the DSP.  A write to the block length register with the direction
    "from the CPU, to data memory" copies the big-endian words of main memory to the
    DSP's data memory at the given word address, and only those, and leaves the length
    register 0 and the busy bit clear.  It is a no-op when main memory has no such
    range; it ends the process when the length exceeds 0x4000, and when the block does
    not fit the 0x1000 words of data memory it writes outside them. *)
Theorem data_dma_in s len :
  ifx_at s DSP_AMDM = 0 -> dma_direction s = 0 -> u16 len ->
  let n := len / 2 in
  let fits := (n =? 0) || (dma_base s + n <=? 0x1000) in
  let valid := range_valid (dma_address s) len (host s) in
  (0x4000 < len -> WriteIFX 0xffcb len s = Fault ProcessExit) /\
  (len <= 0x4000 -> valid = true -> fits = false -> WriteIFX 0xffcb len s = Fault DmaOutOfBounds) /\
  (len <= 0x4000 -> valid = false \/ fits = true -> exists s', WriteIFX 0xffcb len s = Done tt s' /\
     (if valid then block_at (fget f_dram s) (dma_base s) n (emu_u16 (host s) (dma_address s)) (fget f_dram s')
      else fget f_dram s' = fget f_dram s) /\
     host s' = host s /\ ifx_at s' DSP_DSBL = 0 /\ Z.testbit (ifx_at s' DSP_DSCR) 2 = false).
Proof.
  intros Ha Hdir Hlen n fits valid. rewrite run_WriteDSBL by done.
  destruct (dma_params s len) as (El & Eb & Ea & Ed). cbv zeta in *.
  set (s1 := put_ifx DSP_DSCR _ _) in *. rewrite run_DoDMA, El, Ed, Hdir, Eb, Ea. cbv zeta. cbn [Z.eqb].
  split; [intros Hl; by rewrite (proj2 (Z.ltb_lt 0x4000 len)) by done|].
  assert (Hd : forall x, Z.testbit (x .& to_u16 (Z.lnot 4)) 2 = false)
    by (intros; rewrite Z.land_spec; apply andb_false_r).
  assert (Ef : dma_inside (dma_base s) (Z.to_nat n) = fits).
  { unfold dma_inside, fits, n, uN in *. assert (0 <= len / 2) by (apply Z.div_pos; lia).
    rewrite Z2Nat.id by done. f_equal. destruct (Nat.eqb_spec (Z.to_nat (len / 2)) 0), (Z.eqb_spec (len / 2) 0); try done; lia. }
  split; intros Hl; rewrite (proj2 (Z.ltb_ge 0x4000 len)) by done; unfold DMAToDSP; mstep;
    change (fget f_host s1) with (host s); fold valid; fold n; rewrite Ef.
  - by intros -> ->.
  - intros Hok. destruct valid; cbn [when].
    + destruct Hok as [?| ->]; [done|]. eexists. split; [done|]. split.
      * apply block_emu_words. unfold n, uN in *. Z.div_mod_to_equations. lia.
      * split; [done|]. rewrite !ifx_put. split; [done | apply Hd].
    + eexists. split; [done|]. split; [done|]. split; [done|]. rewrite !ifx_put. split; [done | apply Hd].
Qed.
End Transfers.

Section RoundTrip.
Context {H : Type} {hst : DSPHost H} {mem : HostMemory H}.
Implicit Type s : State H.

(** DMA round trip: a block of data memory that is sent to main memory and fetched
    back to another place of data memory arrives unchanged, word by word. *)
Theorem dma_roundtrip s from to addr len :
  wf s -> memory_inv (host s) -> 0 <= len -> 0 <= from -> 0 <= to ->
  from + len / 2 <= 0x1000 -> to + len / 2 <= 0x1000 -> range_valid addr len (host s) = true ->
  exists s1 s2, DDMAOut (2 * from) addr len s = Done tt s1 /\ DDMAIn (2 * to) addr len s1 = Done tt s2 /\
    block_at (fget f_dram s) to (len / 2) (fun i => aat (fget f_dram s) (from + i)) (fget f_dram s2).
Proof.
  intros Hs Hmem Hlen Hf Ht Hff Htf Hv. unfold DDMAOut, DDMAIn, DMAToDSP, DMAFromDSP.
  assert (E2 : forall x, 2 * x / 2 = x) by (intros x; rewrite Z.mul_comm; apply Z.div_mul; lia). rewrite !E2.
  set (n := Z.to_nat (len / 2)). assert (Hn : Z.of_nat n = len / 2) by (apply Z2Nat.id, Z.div_pos; lia).
  assert (Hin : forall x, x + len / 2 <= 0x1000 -> dma_inside x n = true).
  { intros x Hx. unfold dma_inside. rewrite Hn, (proj2 (Z.leb_le _ _)) by done. apply orb_true_r. }
  set (ws := aslice (fget f_dram s) from n).
  assert (Hws : Forall u16 ws).
  { apply Forall_lookup. intros i w Hi. assert (Hlt : (i < n)%nat)
      by (apply lookup_lt_Some in Hi; unfold ws in Hi; by rewrite length_aslice in Hi).
    unfold ws in Hi. rewrite lookup_aslice in Hi by done. injection Hi as <-.
    apply (ft_get (F := f_dram) (P := arr_ok u16) s Hs). }
  set (h1 := emu_store_words addr 0 ws (host s)).
  exists (fset f_host h1 s). eexists. split; [|split].
  - erewrite bind_done; [|apply run_getf]. change (fget f_host s) with (host s). rewrite Hv. cbn [when].
    by rewrite Hin.
  - erewrite bind_done; [|apply run_getf]. change (fget f_host (fset f_host h1 s)) with h1.
    unfold h1 at 1. rewrite range_valid_store, Hv. cbn [when]. fold n. by rewrite Hin.
  - intros i. cbn. rewrite aat_aupd_list, length_emu_words, Hn.
    destruct (Z.leb_spec to i), (Z.ltb_spec i (to + len / 2)); cbn [andb]; try done.
    rewrite lookup_emu_words by lia.
    assert (Hk : (Z.to_nat (i - to) < length ws)%nat) by (unfold ws; rewrite length_aslice; lia).
    pose proof (emu_words_store addr len 0 ws (Z.to_nat (i - to)) (host s) Hmem Hv Hws ltac:(lia) Hk) as Ew.
    assert (El : Z.of_nat (length ws) = len / 2) by (unfold ws; by rewrite length_aslice).
    specialize (Ew ltac:(pose proof (Z.mul_div_le len 2 ltac:(lia)); lia)).
    fold h1 in Ew. rewrite Z.add_0_l in Ew. unfold ws in Ew.
    rewrite lookup_aslice in Ew by (unfold ws in Hk; by rewrite length_aslice in Hk).
    injection Ew as Ew. cbn. rewrite <- Ew. do 2 f_equal. lia.
Qed.
End RoundTrip.

(** * Witnesses *)

(** DMA of 0x20 bytes from main memory to data memory at 0x400. *)
Definition dma_state : State sim :=
  fset f_m_ifx_regs (aupd (aupd ∅ DSP_DSPA 0x400) DSP_DSMAH 0x8012) sim_state.

Lemma data_dma_in_witness :
  exists s', WriteIFX 0xffcb 0x20 dma_state = Done tt s' /\ ifx_at s' DSP_DSBL = 0.
Proof.
  destruct (data_dma_in dma_state 0x20 eq_refl eq_refl ltac:(range_lia)) as (_ & _ & Hin).
  destruct Hin as (s' & E & _ & _ & Hb & _); [lia | by right |].
  exists s'. by split.
Defined.

Lemma dma_roundtrip_witness :
  exists s1 s2, DDMAOut 0x100 0x80001000 0x40 sim_state = Done tt s1 /\
    DDMAIn 0x800 0x80001000 0x40 s1 = Done tt s2.
Proof.
  destruct (dma_roundtrip (mem := sim_memory) sim_state 0x80 0x400 0x80001000 0x40 sim_state_ok I) as (s1 & s2 & E1 & E2 & _);
    [lia.. | vm_compute; discriminate | vm_compute; discriminate | vm_compute; reflexivity |].
  exists s1, s2. by split.
Defined.
