(* ===== verification/AcceleratorProps.v ===== *)
(** The accelerator: playback of PCM sound, and the ADPCM decoder. *)
From stdpp Require Import base tactics option list gmap strings.
From Stdlib Require Import ZArith Lia Bool.
From S2P Require Import Prelude Accelerator DSPState DSPTables DSPHardware DSPInterpreter.
From S2P Require Import DSPFacts SimHost.

#[local] Open Scope Z_scope.

Section Playback.
Context {E : Type} {env : AcceleratorEnv E}.
Abbreviation AM := (M (Accel * E)).
Implicit Type (a : Accel) (e : E).

(** A byte of sample memory, and the sample at an address in the two PCM formats. *)
Definition byte e (address : Z) : Z := to_u8 (ReadMemory (to_u32 address) e).
Definition pcm_sample (fmt : Z) e (c : Z) : Z :=
  if fmt =? 0x0A then (byte e (c * 2) .<< 8) .| byte e (c * 2 + 1) else to_u16 (byte e c .<< 8).

Definition is_pcm (fmt : Z) : Prop := fmt = 0x0A \/ fmt = 0x19.

Lemma run_read_memory c a e : read_memory c (a, e) = Done (byte e c) (a, e).
Proof. done. Qed.

(** The accelerator after a PCM sample [v] was read, away from the end and at it. *)
Definition advanced a (v : Z) : Accel :=
  mkAccel (m_start_address a) (m_end_address a)
    (to_u32 (m_current_address a + 1) .& CURRENT_ADDRESS_MASK) (m_sample_format a)
    (to_s16 v) (m_yn1 a) (m_pred_scale a) (m_reads_stopped a).
Definition ended a (v : Z) : Accel :=
  mkAccel (m_start_address a) (m_end_address a)
    (m_start_address a .& CURRENT_ADDRESS_MASK) (m_sample_format a)
    (to_s16 v) (m_yn1 a) (m_pred_scale a) true.

Lemma run_Read_pcm coefs a e :
  is_pcm (m_sample_format a) -> m_reads_stopped a = false ->
  let v := pcm_sample (m_sample_format a) e (m_current_address a) in
  Read coefs (a, e) =
  if to_u32 (m_current_address a + 1) =? to_u32 (m_end_address a + 2 - 1)
  then Done v (ended a v, OnEndException e) else Done v (advanced a v, e).
Proof.
  intros Hf Hst. destruct a as [st en cu fm y1 y2 ps rs]. cbn [m_sample_format m_reads_stopped] in *.
  subst rs. cbv zeta. cbn [m_current_address m_end_address].
  assert (E0 : (fm =? 0) = false) by (by destruct Hf as [-> | ->]).
  unfold Read. mstep. cbn [fget a_stopped fst m_reads_stopped]. mstep.
  cbn [fget a_format fst m_sample_format]. rewrite E0.
  assert (Hv : (if fm =? 0x0A then
            c ← getf a_current; hi ← read_memory (c * 2); lo ← read_memory (c * 2 + 1);
            let val := (hi .<< 8) .| lo in push_yn val ;; bump_current 1 ;; mret (val, 2)
          else if fm =? 0x19 then
            c ← getf a_current; m ← read_memory c;
            let val := to_u16 (m .<< 8) in push_yn val ;; bump_current 1 ;; mret (val, 2)
          else bump_current 1 ;; mret (0, 2)) (mkAccel st en cu fm y1 y2 ps false, e)
        = Done (pcm_sample fm e cu, 2)
            (mkAccel st en (to_u32 (cu + 1)) fm (to_s16 (pcm_sample fm e cu)) y1 ps false, e))
    by (by destruct Hf as [-> | ->]).
  erewrite bind_done; [|exact Hv]. cbv iota beta. do 2 mstep.
  cbn [fget a_current a_end fst m_current_address m_end_address].
  by destruct (to_u32 (cu + 1) =? to_u32 (en + 2 - 1)).
Qed.

(** [n] reads in a row. *)
Fixpoint reads (coefs : Z -> option Z) (n : nat) : AM (list Z) :=
  match n with
  | O => mret []
  | S n' => v ← Read coefs; l ← reads coefs n'; mret (v :: l)
  end.

Lemma reads_stopped coefs n a e :
  m_reads_stopped a = true -> reads coefs n (a, e) = Done (replicate n 0) (a, e).
Proof.
  intros Hs. induction n as [|n IH]; cbn [reads]; [done|].
  rewrite (bind_done _ _ (a, e) 0 (a, e)).
  - erewrite bind_done; [|exact IH]. done.
  - unfold Read. erewrite bind_done; [|apply run_getf]. cbn [fget a_stopped fst]. by rewrite Hs.
Qed.

Lemma mask_small c : 0 <= c < 2 ^ 30 -> c .& CURRENT_ADDRESS_MASK = c.
Proof.
  intros Hc. change CURRENT_ADDRESS_MASK with ((2 .<< 30) .| (2 ^ 30 - 1)).
  rewrite Z.land_lor_distr_r, land_wrapu, wrapu_small by (unfold uN; lia).
  enough (c .& (2 .<< 30) = 0) as -> by done. apply Z.bits_inj'. intros i Hi.
  rewrite Z.land_spec, Z.bits_0. destruct (Z.lt_ge_cases i 30).
  - rewrite Z.shiftl_spec_low by done. apply andb_false_r.
  - by rewrite (proj1 (uN_bits 30 c ltac:(lia) ltac:(lia))).
Qed.

Lemma run_reads_pcm coefs k a e :
  is_pcm (m_sample_format a) -> m_reads_stopped a = false ->
  0 <= m_current_address a -> m_end_address a = m_current_address a + Z.of_nat k ->
  m_end_address a < 2 ^ 30 - 1 ->
  exists y1 y2,
    reads coefs (S k) (a, e) =
    Done (map (fun i => pcm_sample (m_sample_format a) e (m_current_address a + Z.of_nat i)) (seq 0 (S k)))
      (mkAccel (m_start_address a) (m_end_address a) (m_start_address a .& CURRENT_ADDRESS_MASK)
         (m_sample_format a) y1 y2 (m_pred_scale a) true, OnEndException e).
Proof.
  revert a. induction k as [|k IH]; intros a Hf Hs Hc He Hb.
  all: cbn [reads]; pose proof (run_Read_pcm coefs a e Hf Hs) as Hr; cbv zeta in Hr.
  all: rewrite !(wrapu_small 32) in Hr by (unfold uN; lia).
  - rewrite (proj2 (Z.eqb_eq _ _)) in Hr by lia. erewrite bind_done; [|exact Hr].
    do 2 eexists. unfold reads. erewrite bind_done; [|done]. cbn [map seq]. rewrite Z.add_0_r. done.
  - rewrite (proj2 (Z.eqb_neq _ _)) in Hr by lia. erewrite bind_done; [|exact Hr].
    destruct (IH (advanced a (pcm_sample (m_sample_format a) e (m_current_address a)))) as (y1 & y2 & E2); try done.
    1, 2: cbn [advanced m_current_address m_end_address]; rewrite wrapu_small, mask_small by (unfold uN; lia); lia.
    exists y1, y2. cbn [reads] in E2. erewrite bind_done; [|exact E2].
    change (seq 0 (S (S k))) with (0%nat :: seq 1 (S k)). cbn [map]. rewrite Z.add_0_r.
    rewrite run_ret. f_equal. f_equal. cbn [advanced m_current_address m_sample_format].
    rewrite wrapu_small, mask_small by (unfold uN; lia).
    rewrite <- seq_shift, map_map. apply map_ext. intros i. f_equal. lia.
Qed.

(** One-shot playback.  From a current address at or before the end address, a voice
    in a PCM format returns each sample up to the end address once and in order; with
    the last one it raises the end exception, rewinds to the start address and stops:
    every further read returns 0 and changes nothing, until [SetYn2] restarts it. *)
Theorem pcm_plays_once coefs a e n :
  is_pcm (m_sample_format a) -> m_reads_stopped a = false ->
  0 <= m_current_address a <= m_end_address a -> m_end_address a < 2 ^ 30 - 1 ->
  uN 30 (m_start_address a) ->
  let k := Z.to_nat (m_end_address a - m_current_address a + 1) in
  exists a1,
    reads coefs k (a, e) =
      Done (map (fun i => pcm_sample (m_sample_format a) e (m_current_address a + Z.of_nat i)) (seq 0 k))
        (a1, OnEndException e) /\
    m_current_address a1 = m_start_address a /\
    reads coefs n (a1, OnEndException e) = Done (replicate n 0) (a1, OnEndException e) /\
    forall y, exists a2, SetYn2 y (a1, OnEndException e) = Done tt (a2, OnEndException e) /\
      m_reads_stopped a2 = false.
Proof.
  intros Hf Hs Hc Hb Hst k.
  destruct (run_reads_pcm coefs (Z.to_nat (m_end_address a - m_current_address a)) a e)
    as (y1 & y2 & E1); try done; try lia.
  replace (S (Z.to_nat (m_end_address a - m_current_address a))) with k in E1 by (unfold k; lia).
  eexists. split; [exact E1|]. split; [by apply mask_small|]. split; [by apply reads_stopped|].
  intros y. eexists. split; [reflexivity | done].
Qed.

(** ** ADPCM *)

(** The signed nibble at a nibble address. *)
Definition nibble e (c : Z) : Z :=
  let b := byte e (c / 2) in
  let n := if Z.odd c then b mod 16 else b / 16 in
  if 8 <=? n then n - 16 else n.

(** The reference decoder: the prediction from the last two samples, in fixed point with
    11 fractional bits and rounded, plus the scaled nibble, saturated. *)
Definition adpcm_reference (scale n c1 c2 y1 y2 : Z) : Z :=
  clamp (scale * n + (0x400 + c1 * y1 + c2 * y2) / 2 ^ 11) (-0x7FFF) 0x7FFF.

Lemma adpcm_sample_reference scale n c1 c2 y1 y2 :
  1 <= scale <= 2 ^ 15 -> -8 <= n <= 7 -> s16 c1 -> s16 y1 ->
  s32 (0x400 + c1 * y1 + c2 * y2) ->
  adpcm_sample scale n c1 c2 y1 y2 = to_u16 (adpcm_reference scale n c1 c2 y1 y2).
Proof.
  intros Hsc Hn Hc1 Hy1 Hp. unfold adpcm_sample, adpcm_reference. cbv zeta.
  rewrite (wraps_small 32 (0x400 + c1 * y1)) by (unfold sN in *; nia || lia).
  rewrite (wraps_small 32 (0x400 + c1 * y1 + c2 * y2)) by (done || lia).
  rewrite Z.shiftr_div_pow2 by lia. rewrite (wraps_small 32); [done | lia |].
  set (p := 0x400 + c1 * y1 + c2 * y2) in *. clearbody p.
  assert (- 2 ^ 20 <= p / 2 ^ 11 < 2 ^ 20) by (unfold sN in *; Z.div_mod_to_equations; lia).
  unfold sN. nia.
Qed.

Lemma clamp_range v lo hi : lo <= hi -> lo <= clamp v lo hi <= hi.
Proof. intros. unfold clamp. split_cmp. Qed.

Definition scale_of (ps : Z) : Z := 2 ^ (ps mod 16).
Definition coef_index (ps : Z) : Z := ps / 16 mod 8 * 2.

Lemma byte_range e c : u8 (byte e c).
Proof. apply wrapu_range. lia. Qed.

Lemma nibble_range e c : -8 <= nibble e c <= 7.
Proof.
  unfold nibble. pose proof (byte_range e (c / 2)) as Hb. unfold uN in Hb.
  destruct (Z.odd c); [destruct (Z.leb_spec 8 (byte e (c / 2) mod 16)) | destruct (Z.leb_spec 8 (byte e (c / 2) / 16))];
    Z.div_mod_to_equations; lia.
Qed.

(** The accelerator after an ADPCM sample: the current address skips the header of the
    next frame, from which the predictor and scale are taken. *)
Definition adpcm_advanced a e (v : Z) : Accel :=
  let c := m_current_address a + 1 in
  let header := c mod 16 =? 0 in
  mkAccel (m_start_address a) (m_end_address a) (if header then c + 2 else c) (m_sample_format a)
    v (m_yn1 a) (if header then byte e (c / 2) else m_pred_scale a) (m_reads_stopped a).

Lemma land_15 x : x .& 15 = x mod 16.
Proof. change 15 with (2 ^ 4 - 1). by rewrite land_wrapu. Qed.

(** The address of a frame header is aligned, so clearing its low bits does nothing. *)
Lemma header_address c : u32 c -> c mod 16 = 0 -> c .& to_u32 (Z.lnot 15) = c.
Proof.
  intros Hc Hm. assert (Hl : forall i, 0 <= i < 4 -> Z.testbit c i = false).
  { intros i Hi. rewrite <- (Z.mod_pow2_bits_low c 4 i) by lia. change (2 ^ 4) with 16.
    rewrite Hm. apply Z.bits_0. }
  apply Z.bits_inj'. intros i Hi. rewrite Z.land_spec.
  destruct (Z.lt_ge_cases i 4); [by rewrite Hl|]. destruct (Z.lt_ge_cases i 32).
  - unfold wrapu. rewrite Z.mod_pow2_bits_low, Z.lnot_spec by lia.
    change 15 with (Z.ones 4). rewrite Z.ones_spec_high by lia. apply andb_true_r.
  - unfold uN in Hc. by rewrite (proj1 (uN_bits 32 c ltac:(lia) ltac:(lia)) Hc i).
Qed.

Definition adpcm_value a e c1 c2 : Z :=
  adpcm_reference (scale_of (m_pred_scale a)) (nibble e (m_current_address a)) c1 c2 (m_yn1 a) (m_yn2 a).

Definition adpcm_step a : Z := if (m_current_address a + 1) mod 16 =? 0 then 4 else 2.

Lemma run_Read_adpcm coefs a e c1 c2 :
  accel_ok a -> m_current_address a + 4 < m_end_address a ->
  coefs (coef_index (m_pred_scale a)) = Some c1 -> coefs (coef_index (m_pred_scale a) + 1) = Some c2 ->
  s16 c1 -> s32 (0x400 + c1 * m_yn1 a + c2 * m_yn2 a) ->
  Read_adpcm coefs (a, e) =
  Done (to_u16 (adpcm_value a e c1 c2), adpcm_step a) (adpcm_advanced a e (adpcm_value a e c1 c2), e).
Proof.
  intros [Hst Hen Hcu Hfm Hy1 Hy2 Hps] Hend Hc1 Hc2 Hr1 Hov. unfold adpcm_value, adpcm_step, adpcm_advanced.
  destruct a as [st en cu fm y1 y2 ps rs]. cbn in *. unfold uN in Hcu, Hen, Hps.
  unfold Read_adpcm. mstep. cbn [fget a_pred_scale fst m_pred_scale].
  assert (Ei : (ps .>> 4) .& 0x7 * 2 = coef_index ps).
  { change 0x7 with (2 ^ 3 - 1). rewrite land_wrapu, Z.shiftr_div_pow2 by lia. done. }
  assert (Esc : 1 .<< (ps .& 0xF) = scale_of ps) by (rewrite land_15, Z.shiftl_1_l; done).
  cbv zeta. rewrite Ei, Esc, Z.add_0_r.
  rewrite (bind_done _ _ _ c1 (mkAccel st en cu fm y1 y2 ps rs, e)) by (unfold coef_at; by rewrite Hc1).
  rewrite (bind_done _ _ _ c2 (mkAccel st en cu fm y1 y2 ps rs, e)) by (unfold coef_at; by rewrite Hc2).
  mstep. cbn [fget a_current fst m_current_address].
  erewrite bind_done; [|apply run_read_memory]. do 2 mstep. cbn [fget a_yn1 a_yn2 fst m_yn1 m_yn2].
  assert (Et : (let t := if negb ((cu .& 1) =? 0) then byte e (cu .>> 1) .& 15 else byte e (cu .>> 1) .>> 4 in
                if 8 <=? t then t - 16 else t) = nibble e cu).
  { change 1 with (2 ^ 0) at 1. rewrite flag_testbit, Z.bit0_odd, land_15, !Z.shiftr_div_pow2 by lia. done. }
  cbv zeta in Et. rewrite Et, adpcm_sample_reference by
    (try apply nibble_range; try done; unfold scale_of; pose proof (Z.mod_pos_bound ps 16 ltac:(lia));
     pose proof (Z.pow_le_mono_r 2 (ps mod 16) 15 ltac:(lia) ltac:(lia)); pose proof (pow2_pos (ps mod 16)); lia).
  set (v := adpcm_reference (scale_of ps) (nibble e cu) c1 c2 y1 y2).
  assert (Hv : -0x7FFF <= v <= 0x7FFF) by (apply clamp_range; lia).
  assert (Ev : to_s16 (to_u16 v) = v) by (rewrite wraps_wrapu, wraps_small by (unfold sN; lia); done).
  rewrite (bind_done _ _ _ tt (mkAccel st en cu fm v y1 ps rs, e)) by (by rewrite <- Ev at 2).
  rewrite (bind_done _ _ _ tt (mkAccel st en (cu + 1) fm v y1 ps rs, e)) by
    (rewrite <- (wrapu_small 32 (cu + 1)) by (unfold uN; lia); done).
  do 2 mstep. cbn [fget a_end a_current fst m_current_address m_end_address].
  rewrite (wrapu_small 32 (en - 1)) by (unfold uN; lia).
  rewrite (proj2 (Z.eqb_neq (cu + 1) en)), (proj2 (Z.eqb_neq (cu + 1) (en - 1))), !andb_false_r by lia.
  rewrite land_15. destruct (Z.eqb_spec ((cu + 1) mod 16) 0) as [Em|Em]; [|done].
  rewrite header_address by (done || unfold uN; lia).
  erewrite bind_done; [|apply run_read_memory]. rewrite Z.shiftr_div_pow2 by lia. mstep.
  rewrite (bind_done _ _ _ tt (mkAccel st en (cu + 1 + 2) fm v y1 (byte e ((cu + 1) / 2)) rs, e)); [done|].
  rewrite <- (wrapu_small 32 (cu + 1 + 2)) by (unfold uN; lia). done.
Qed.

(** The ADPCM decoder computes the reference prediction.  Away from the end of the
    buffer, a read of an ADPCM voice returns the saturated sum of the scaled nibble and
    the prediction from the last two samples, shifts it into the history, and advances
    by one nibble; before the first nibble of a new frame it takes the predictor and
    scale from the frame's header and skips it.  The one condition is that the
    prediction fits the 32-bit integer it is computed in. *)
Theorem adpcm_decodes coefs a e c1 c2 :
  accel_ok a -> m_sample_format a = 0 -> m_reads_stopped a = false ->
  m_current_address a + 4 < m_end_address a ->
  coefs (coef_index (m_pred_scale a)) = Some c1 -> coefs (coef_index (m_pred_scale a) + 1) = Some c2 ->
  s16 c1 -> s32 (0x400 + c1 * m_yn1 a + c2 * m_yn2 a) ->
  Read coefs (a, e) =
  Done (to_u16 (adpcm_value a e c1 c2)) (adpcm_advanced a e (adpcm_value a e c1 c2), e).
Proof.
  intros Hok Hf Hs Hend Hc1 Hc2 Hr1 Hov.
  pose proof (run_Read_adpcm coefs a e c1 c2 Hok Hend Hc1 Hc2 Hr1 Hov) as Hr.
  unfold Read. mstep. cbn [fget a_stopped fst]. rewrite Hs. mstep. cbn [fget a_format fst]. rewrite Hf.
  cbn [Z.eqb]. erewrite bind_done; [|exact Hr]. cbv iota beta. do 2 mstep.
  set (v := adpcm_value a e c1 c2). destruct Hok as [Hst Hen Hcu _ _ _ _]. unfold uN in Hen, Hcu.
  cbn [fget a_current a_end fst adpcm_advanced m_current_address m_end_address].
  unfold adpcm_step. set (c := m_current_address a) in *.
  rewrite (wrapu_small 32) by (unfold uN; destruct ((c + 1) mod 16 =? 0); lia).
  rewrite (proj2 (Z.eqb_neq _ _)) by (destruct ((c + 1) mod 16 =? 0); lia). cbn [when]. unfold SetCurrentAddress. do 3 mstep.
  rewrite run_ret. f_equal. unfold adpcm_advanced. fold c. cbn. f_equal. f_equal.
  apply mask_small. destruct ((c + 1) mod 16 =? 0); lia.
Qed.
End Playback.

(** * Witnesses: voices on the DSP's own accelerator *)

Lemma pcm_plays_once_witness :
  exists a1, reads (fun _ => Some 0) 4 (mkAccel 0 3 0 0x0A 0 0 0 false, sim_state) =
      Done [0; 0; 0; 0] (a1, OnEndException sim_state) /\
    fget f_exceptions (OnEndException sim_state) = 0x20 /\
    reads (fun _ => Some 0) 2 (a1, OnEndException sim_state) = Done [0; 0] (a1, OnEndException sim_state).
Proof.
  destruct (pcm_plays_once (fun _ => Some 0) (mkAccel 0 3 0 0x0A 0 0 0 false) sim_state 2)
    as (a1 & E1 & _ & E2 & _);
    [by left | done | cbn; lia | cbn; lia | cbn; range_lia |].
  exists a1. split; [exact E1|]. split; [reflexivity | exact E2].
Defined.

Lemma adpcm_decodes_witness :
  exists v a', Read (fun _ => Some 0x100) (mkAccel 0 0x100 2 0 (-5) 7 0x12 false, sim_state) =
    Done v (a', sim_state) /\ m_current_address a' = 3.
Proof.
  eexists _, _. split.
  - apply (adpcm_decodes (fun _ => Some 0x100) (mkAccel 0 0x100 2 0 (-5) 7 0x12 false) sim_state 0x100 0x100);
      [split; cbn; range_lia | done | done | cbn; lia | done | done | range_lia | cbn; range_lia].
  - reflexivity.
Defined.
