(* ===== verification/BootProps.v ===== *)
(** Initialisation and boot: the state after [DSPLLE::Initialize], the control register,
    the upload of the ucode, and the analysis that follows it. *)
From stdpp Require Import base tactics option list gmap strings.
From Stdlib Require Import ZArith Lia Bool.
From S2P Require Import Prelude Accelerator DSPState DSPTables DSPHardware DSPInterpreter.
From S2P Require Import DSPRun DSPLLE DSPFacts SimHost StackProps RunProps DmaProps.

#[local] Open Scope Z_scope.

(** * Computations that only an array index can stop

    [pure m]: [m] has no other fault than [ArrayOutOfBounds]; with a typing of [m] it has
    none. *)

Definition pure {S A} (m : M S A) : Prop :=
  forall s, match m s with Done _ _ => True | Fault f => f = ArrayOutOfBounds end.

Lemma pure_ret {S A} (a : A) : pure (mret a : M S A).
Proof. done. Qed.
Lemma pure_bind {S A B} (m : M S A) (k : A -> M S B) :
  pure m -> (forall a, pure (k a)) -> pure (m ≫= k).
Proof.
  intros Hm Hk s. specialize (Hm s). unfold mbind, M_bind. destruct (m s) as [a s'|f]; [apply Hk | done].
Qed.
Lemma pure_field {S A} (F : field S A) v f : pure (getf F) /\ pure (setf F v) /\ pure (modf F f).
Proof. done. Qed.
Lemma pure_geta {S} n (F : field S arr) i : pure (geta n F i).
Proof. intros s. unfold geta. by destruct (inb n i). Qed.
Lemma pure_seta {S} n (F : field S arr) i v : pure (seta n F i v).
Proof. intros s. unfold seta. by destruct (inb n i). Qed.

Lemma typed_pure_done {S A} (I : S -> Prop) (T : A -> Prop) (m : M S A) s :
  typed I T m -> pure m -> I s -> exists a s', m s = Done a s' /\ I s' /\ T a.
Proof.
  intros Ht Hp Hs. specialize (Ht s Hs). specialize (Hp s). destruct (m s); [eauto | done].
Qed.

Ltac ptac :=
  repeat lazymatch goal with
  | |- forall _, _ => intros ?
  | |- pure (mbind _ _) => apply pure_bind
  | |- pure (mret _) => apply pure_ret
  | |- pure (getf _) => done
  | |- pure (setf _ _) => done
  | |- pure (modf _ _) => done
  | |- pure (geta _ _ _) => apply pure_geta
  | |- pure (seta _ _ _ _) => apply pure_seta
  | |- pure (let _ := _ in _) => cbv zeta
  | |- pure (match ?x with _ => _ end) => destruct x
  | |- pure ?m => first [ assumption | let h := head_of m in unfold h ]
  end.

Section Boot.
Context {H : Type} {hst : DSPHost H}.
Implicit Type s : State H.

(** * The analysis *)

Lemma pure_FindInstructionStarts_loop n e a : pure (FindInstructionStarts_loop (H := H) n e a).
Proof. revert a. induction n; intros; cbn [FindInstructionStarts_loop]; ptac; auto. Qed.
Lemma pure_match_idle_sig sig a i b : pure (match_idle_sig (H := H) sig a i b).
Proof. revert i b. induction sig; intros; cbn [match_idle_sig]; ptac; auto. Qed.
Lemma pure_FindIdleSkips_addrs sig n a : pure (FindIdleSkips_addrs (H := H) sig n a).
Proof.
  revert a. induction n; intros; cbn [FindIdleSkips_addrs]; [ptac|].
  apply pure_bind; [apply pure_match_idle_sig|]. ptac; auto.
Qed.
Lemma pure_FindIdleSkips_sigs sigs a e : pure (FindIdleSkips_sigs (H := H) sigs a e).
Proof.
  induction sigs; cbn [FindIdleSkips_sigs]; [ptac|].
  apply pure_bind; [apply pure_FindIdleSkips_addrs | by intros].
Qed.
Lemma pure_AnalyzeRange a e : pure (AnalyzeRange (H := H) a e).
Proof.
  apply pure_bind; intros; [apply pure_FindInstructionStarts_loop | apply pure_FindIdleSkips_sigs].
Qed.
Lemma pure_Analyze : pure (Analyze (H := H)).
Proof.
  apply pure_bind; [done | intros _]. apply pure_bind; intros; apply pure_AnalyzeRange.
Qed.

Lemma run_Analyze s : wf s -> exists fl, Analyze s = Done tt (fset f_m_code_flags fl s).
Proof.
  intros Hs. destruct (typed_pure_done wf any Analyze s typed_Analyze pure_Analyze Hs) as ([] & s' & E & _).
  exists (fget f_m_code_flags s'). rewrite E. f_equal.
  pose proof (keeps_done _ _ _ _ _ (keeps_Analyze (fset f_m_code_flags ∅) ltac:(done)) E) as Hk.
  apply (f_equal (fset f_m_code_flags (fget f_m_code_flags s'))) in Hk.
  destruct s' as [[] ? ? ?]. exact Hk.
Qed.

(** * Initialisation *)

(** A halted DSP does nothing. *)
Lemma Update_halted c s : halted s = true -> DSP_Update c s = Done (Some 0) s.
Proof.
  intros Hh. unfold DSP_Update. destruct (Z.leb_spec (c ÷ 6) 0); [done|].
  cbn [CoreRunCycles]. rewrite (proj2 (Z.ltb_lt 0 (c ÷ 6))) by lia.
  rewrite (bind_done _ _ s (Some (Return 0)) s); [done|].
  unfold RunCycles, run_cycles. rewrite (bind_done _ _ s (Return 0) s); [done|].
  cbn [for_steps]. rewrite (bind_done _ _ s (Return 0) s); [done|].
  unfold guards. rewrite (bind_done _ _ s (Return 0) s); [done|].
  unfold halt_guard. mstep. change CR_HALT with (2 ^ 2). rewrite flag_testbit by lia.
  fold (halted s). by rewrite Hh.
Qed.

Lemma aat_afill n v i : aat (afill n v) i = if inb (Z.of_nat n) i then v else 0.
Proof.
  unfold afill, inb. rewrite aat_aupd_list, length_replicate.
  destruct (Z.leb_spec 0 i), (Z.ltb_spec i (Z.of_nat n)), (Z.ltb_spec i (0 + Z.of_nat n)); cbn [andb]; try lia.
  - rewrite lookup_replicate_2 by lia. done.
  - unfold aat. by rewrite lookup_empty.
  - unfold aat. by rewrite lookup_empty.
Qed.

#[local] Opaque afill.

(** The state [Initialize] and [Reset] leave, with the analysis [fl]. *)
Definition initial (irom_contents coef_contents : arr) (h : H) (fl : arr) : State H :=
  mkState (mkSDSP (mkRegs ∅ ∅ (afill 4 0xffff) ∅ 0 0x0a00 0 0 0 0 ∅ ∅ ∅ ∅ ∅)
    0x8000 0x804 0 (afill 4 0) 0 false (afill (4 * 32) 0) (afill 4096 0x0021) (afill 4096 0)
    irom_contents coef_contents 0 0 ∅ Accel_init (aupd (aupd ∅ 0 0) 1 0) fl)
    ∅ (afill 5 (-1)) h.

Lemma run_LLE_Initialize i c h :
  arr_ok u16 i -> arr_ok u16 c ->
  exists fl, LLE_Initialize i c true (constructed h) = Done true (initial i c h fl).
Proof.
  intros Hi Hc. assert (E : Initialize i c true (constructed h) = Done true (fset f_pc 0 (initial i c h ∅)))
    by reflexivity.
  pose proof (typed_Initialize i c true Hi Hc (constructed h) (constructed_ok h)) as Ht.
  rewrite E in Ht. destruct Ht as [W0 _].
  assert (W : wf (fset f_pc 0x8000 (fset f_pc 0 (initial i c h ∅))))
    by (apply (ft_set (F := f_pc) (P := u16)); [exact W0 | range_lia]).
  clear W0. change (fset f_pc 0x8000 (fset f_pc 0 (initial i c h ∅))) with (initial i c h ∅) in W.
  destruct (run_Analyze _ W) as [fl Ea]. exists fl.
  unfold LLE_Initialize. erewrite bind_done; [|exact E]. cbn [negb].
  rewrite (bind_done _ _ _ tt (initial i c h fl)); [done|]. unfold CoreReset.
  rewrite (bind_done _ _ _ tt (initial i c h ∅)) by reflexivity. exact Ea.
Qed.

(** The DSP comes up halted, at the reset vector, with interrupts enabled, address
    registers unwrapped, empty stacks and mailboxes, instruction RAM full of [HALT] and
    data RAM clear; and until the CPU writes the control register, updates leave it
    exactly as it is. *)
Theorem initial_state_halted irom_contents coef_contents (h : H) :
  arr_ok u16 irom_contents -> arr_ok u16 coef_contents ->
  exists s, LLE_Initialize irom_contents coef_contents true (constructed h) = Done true s /\
    fget f_pc s = DSP_RESET_VECTOR /\ fget f_sr s = (SR_INT_ENABLE .| SR_EXT_INT_ENABLE) /\
    fget f_control_reg s = (CR_INIT .| CR_HALT) /\
    (forall r, contents r s = replicate 33 0) /\
    (forall reg, 0 <= reg < 4 -> aat (fget f_wr s) reg = 0xffff) /\
    (forall a, 0 <= a < 0x1000 -> aat (fget f_iram s) a = 0x0021 /\ aat (fget f_dram s) a = 0) /\
    (forall m, aat (fget f_m_mailbox s) (mailbox_index m) = 0) /\
    host s = h /\ forall c, DSP_Update c s = Done (Some 0) s.
Proof.
  intros Hi Hc. destruct (run_LLE_Initialize _ _ h Hi Hc) as [fl E].
  exists (initial irom_contents coef_contents h fl). split; [exact E|]. clear E.
  do 3 (split; [reflexivity|]). split; [|split; [|split; [|split; [|split]]]].
  - intros r. unfold contents.
    assert (Hz : forall k, stack_entry r (initial irom_contents coef_contents h fl) k = 0).
    { intros k. unfold stack_entry, initial. cbn -[afill]. destruct (k =? 0); [done|].
      rewrite (aat_afill 128). by destruct (inb _ _). }
    erewrite map_ext; [|intros k; apply Hz]. reflexivity.
  - intros reg Hr. cbn -[afill]. rewrite aat_afill, inb_true by lia. done.
  - intros a Ha. cbn -[afill]. rewrite !(aat_afill 4096).
    replace (Z.of_nat 4096) with 0x1000 by (vm_compute; reflexivity). rewrite inb_true by done. by split.
  - by intros [].
  - done.
  - intros cyc. by apply Update_halted.
Qed.

(** * Boot *)

Lemma typed_ends {A} (T : A -> Prop) (m : M (State H) A) s a s' :
  typed wf T m -> wf s -> m s = Done a s' -> wf s'.
Proof. intros Ht Hs E. specialize (Ht s Hs). rewrite E in Ht. apply Ht. Qed.

(** Instruction DMA of a block that fits, and the hook that follows it. *)
Lemma run_code_upload base addr len s :
  wf s -> 0 <= len -> range_valid addr len (host s) = true -> base + len / 2 <= 0x1000 ->
  exists fl iram' crc,
    (DMAToDSP f_iram base addr len ;; CodeLoaded addr len) s =
    Done tt (fset f_m_code_flags fl (fset f_m_iram_crc crc (fset f_iram iram' s))) /\
    block_at (fget f_iram s) base (len / 2) (emu_u16 (host s) addr) iram' /\
    crc = HashEctor (emu_bytes (host s) addr (Z.to_nat len)).
Proof.
  intros Hs Hlen Hv Hb. assert (Hn : 0 <= len / 2) by (apply Z.div_pos; lia).
  set (iram' := aupd_list (fget f_iram s) base (emu_words (host s) addr (Z.to_nat (len / 2)))).
  set (crc := HashEctor (emu_bytes (host s) addr (Z.to_nat len))).
  assert (E1 : DMAToDSP f_iram base addr len s = Done tt (fset f_iram iram' s)).
  { unfold DMAToDSP. mstep. change (fget f_host s) with (host s). rewrite Hv. cbn [when].
    unfold dma_inside. rewrite Z2Nat.id, (proj2 (Z.leb_le _ _)), orb_true_r by done. done. }
  assert (W1 : wf (fset f_iram iram' s))
    by (refine (typed_ends any _ s tt _ (typed_DMAToDSP f_iram base addr len _) Hs E1); exact _).
  assert (W2 : wf (fset f_m_iram_crc crc (fset f_iram iram' s)))
    by (apply (ft_set (F := f_m_iram_crc) (P := u32)); [done | apply HashEctor_range, emu_bytes_ok]).
  destruct (run_Analyze _ W2) as [fl E2]. exists fl, iram', crc. split; [|split; [by apply block_emu_words | done]].
  rewrite (bind_done _ _ _ _ _ E1). unfold CodeLoaded. mstep.
  change (fget f_host (fset f_iram iram' s)) with (host s). rewrite Hv. cbn [orb].
  fold crc. mstep. exact E2.
Qed.

Lemma land_bit v k : 0 <= k -> Z.testbit v k = false -> (v .& 2 ^ k) = 0.
Proof.
  intros Hk Hv. pose proof (flag_testbit v k Hk) as Hf. rewrite Hv in Hf.
  by apply negb_false_iff, Z.eqb_eq in Hf.
Qed.

Lemma clear_absent_bit v k :
  0 <= k < 16 -> u16 v -> Z.testbit v k = false -> v .& to_u16 (Z.lnot (2 ^ k)) = v.
Proof.
  intros Hk Hv Hb. rewrite land_lnot_clearbit by done. apply Z.bits_inj'. intros i Hi.
  rewrite Z.clearbit_eqb. destruct (Z.eqb_spec k i) as [<-|]; [by rewrite Hb | apply andb_true_r].
Qed.

Lemma init_code_set v : negb (((v .| CR_INIT_CODE) .& CR_INIT_CODE) =? 0) = true.
Proof.
  change CR_INIT_CODE with (2 ^ 10). rewrite flag_testbit by lia.
  by rewrite Z.lor_spec, Z.pow2_bits_true, orb_true_r by lia.
Qed.

(** C34. Boot.  When the CPU clears the "init" bit of the control register, the DSP loads
    its first 4 KiB of code from main memory at 0x81000000 into instruction RAM, its
    checksum is taken, execution starts at 0, and the control register reads back
    what was written plus the "init code" bit; that bit is cleared by the first read
    at least 130 ticks later, and until then the CPU is told to look again.  This is
    what the code does; its own comment and the manual of the DSP doubt the size, and
    the manual has the transfer start when the bit is set. *)
Theorem boot_uploads_code v s :
  wf s -> u16 v -> Z.testbit (fget f_control_reg s) 11 = true ->
  Z.testbit v 0 = false -> Z.testbit v 11 = false ->
  range_valid 0x81000000 0x1000 (host s) = true ->
  exists s1, WriteControlRegister v s = Done tt s1 /\
    fget f_pc s1 = 0 /\ fget f_control_reg s1 = (v .| CR_INIT_CODE) /\ host s1 = host s /\
    block_at (fget f_iram s) 0 0x800 (emu_u16 (host s) 0x81000000) (fget f_iram s1) /\
    fget f_m_iram_crc s1 = HashEctor (emu_bytes (host s) 0x81000000 0x1000) /\
    let ready := to_u64 (GetFakeTimeBase (host s) + 130) in
    forall h, ReadControlRegister (fset f_host h s1) =
      if ready <=? GetFakeTimeBase h
      then Done (Z.clearbit (v .| CR_INIT_CODE) 10)
             (fset f_control_reg (Z.clearbit (v .| CR_INIT_CODE) 10) (fset f_host h s1))
      else Done (v .| CR_INIT_CODE) (fset f_host (ForceExceptionCheck 50 h) s1).
Proof.
  intros Hs Hv Hi Hr Hv11 Hrange.
  assert (Hs0 : wf (fset f_pc 0 s)) by (apply (ft_set (F := f_pc) (P := u16)); [done | range_lia]).
  destruct (run_code_upload 0 0x81000000 0x1000 (fset f_pc 0 s) Hs0 ltac:(lia) Hrange ltac:(vm_compute; discriminate))
    as (fl & iram' & crc & E & Hb & Hcrc).
  set (s2 := fset f_m_code_flags fl (fset f_m_iram_crc crc (fset f_iram iram' (fset f_pc 0 s)))) in *.
  assert (Hc10 : u16 (v .| CR_INIT_CODE)) by (apply uN_lor; [lia | done | range_lia]).
  set (t0 := to_u64 (GetFakeTimeBase (host s) + 130)).
  set (s3 := fset f_control_reg_init_code_clear_time t0 s2).
  apply bind_inv in E as ([] & sd & E1 & E2).
  pose proof (clear_absent_bit v 11 ltac:(lia) Hv Hv11) as Hclear.
  assert (Ew : WriteControlRegister v s = Done tt (fset f_control_reg (v .| CR_INIT_CODE) s3)).
  { unfold WriteControlRegister. change CR_RESET with (2 ^ 0). rewrite flag_testbit, Hr by lia.
    cbv iota. do 2 mstep.
    change CR_INIT with (2 ^ 11). rewrite flag_testbit, Hi, land_bit by (exact Hv11 || lia).
    rewrite (bind_done _ _ s (v .| CR_INIT_CODE) s3); [apply run_setf|]. cbn [andb Z.eqb].
    mstep. rewrite (bind_done _ _ _ _ _ E1), (bind_done _ _ _ _ _ E2). do 2 mstep. by rewrite Hclear. }
  eexists. split; [exact Ew|]. do 3 (split; [reflexivity|]). split; [exact Hb|]. split; [exact Hcrc|].
  intros ready h. clear Ew E1 E2. unfold ReadControlRegister. mstep.
  set (s4 := fset f_host h (fset f_control_reg (v .| CR_INIT_CODE) s3)).
  change (fget f_control_reg s4) with (v .| CR_INIT_CODE).
  rewrite init_code_set. cbn [when].
  change (fget f_control_reg_init_code_clear_time s4) with ready.
  destruct (ready <=? GetFakeTimeBase h) eqn:Et.
  - rewrite (bind_done _ _ s4 tt (fset f_control_reg (Z.clearbit (v .| CR_INIT_CODE) 10) s4)); [done|].
    do 2 mstep. change (fget f_control_reg_init_code_clear_time s4) with ready.
    change (fget f_host s4) with h. rewrite Et, run_modf.
    change (fget f_control_reg s4) with (v .| CR_INIT_CODE). do 2 f_equal.
    change (Z.lnot CR_INIT_CODE) with (Z.lnot (2 ^ 10)). apply land_lnot_clearbit; [lia | exact Hc10].
  - rewrite (bind_done _ _ s4 tt (fset f_host (ForceExceptionCheck 50 h) s4)); [done|].
    do 2 mstep. change (fget f_control_reg_init_code_clear_time s4) with ready.
    change (fget f_host s4) with h. by rewrite Et, run_modf.
Qed.

(** ** The analysis scans a whole range *)

Lemma FindInstructionStart1_next a s next s' :
  FindInstructionStart1 a s = Done next s' -> exists inst, next = to_u16 (a + size (GetOpTemplate inst)).
Proof.
  intros E. unfold FindInstructionStart1 in E. apply bind_inv in E as (inst & s1 & _ & E).
  repeat (apply bind_inv in E as ([] & ? & _ & E)). injection E as <- _. by exists inst.
Qed.

Lemma FindInstructionStarts_loop_more n k e a s :
  0 <= a -> e < 65535 -> e - a <= Z.of_nat n ->
  FindInstructionStarts_loop (n + k) e a s = FindInstructionStarts_loop n e a s.
Proof.
  revert a s. induction n as [|n IH]; intros a s Ha He Hn; cbn [FindInstructionStarts_loop Nat.add].
  - destruct k; cbn [FindInstructionStarts_loop]; [done|].
    by rewrite (proj2 (Z.ltb_ge a e)) by lia.
  - destruct (Z.ltb_spec a e); [|done]. unfold mbind, M_bind.
    destruct (FindInstructionStart1 a s) as [next s'|f] eqn:E; [|done].
    apply FindInstructionStart1_next in E as [inst ->]. pose proof (size_range inst).
    rewrite wrapu_small by (unfold uN; lia). apply IH; lia.
Qed.

(** The analyzer's scan for instructions ends: the fuel of the model, one step per
    word of the range, is always enough, since every instruction is at least one word
    long and the ranges end below 0xffff. *)
Theorem analysis_scans_range start_addr end_addr k s :
  0 <= start_addr -> end_addr < 0xffff ->
  FindInstructionStarts_loop (Z.to_nat (end_addr - start_addr) + k) end_addr start_addr s =
  FindInstructionStarts start_addr end_addr s.
Proof. intros. apply FindInstructionStarts_loop_more; lia. Qed.
End Boot.

(** * Witnesses *)

Lemma initial_state_halted_witness :
  exists s, LLE_Initialize ∅ ∅ true (constructed sim0) = Done true s /\ DSP_Update 600 s = Done (Some 0) s.
Proof.
  destruct (initial_state_halted ∅ ∅ sim0 (arr_ok_empty u16 ltac:(range_lia)) (arr_ok_empty u16 ltac:(range_lia)))
    as (s & E & _ & _ & _ & _ & _ & _ & _ & _ & Hu).
  exists s. split; [exact E | apply Hu].
Defined.

(** The state of a DSP that waits for its ucode. *)
Definition boot_state : State sim := fset f_control_reg 0x0804 sim_state.

Lemma boot_state_ok : wf boot_state.
Proof. apply (ft_set (F := f_control_reg) (P := u16)); [apply sim_state_ok | range_lia]. Qed.

Lemma boot_uploads_code_witness :
  exists s1, WriteControlRegister 0 boot_state = Done tt s1 /\ fget f_pc s1 = 0 /\
    fget f_control_reg s1 = 0x0400.
Proof.
  destruct (boot_uploads_code (hst := sim_host) 0 boot_state boot_state_ok ltac:(range_lia) eq_refl eq_refl eq_refl
    ltac:(vm_compute; reflexivity))
    as (s1 & E & Hpc & Hc & _).
  exists s1. split; [exact E|]. split; [exact Hpc | exact Hc].
Defined.

Lemma analysis_scans_range_witness :
  FindInstructionStarts_loop (Z.to_nat (0x9000 - 0x8000) + 5) 0x9000 0x8000 boot_state =
  FindInstructionStarts 0x8000 0x9000 boot_state.
Proof. apply (analysis_scans_range 0x8000 0x9000 5 boot_state); lia. Defined.
