(* ===== verification/Float32.v ===== *)
(** IEEE 754 single precision, as the C++ [float] of the emulation-speed factors:
    the Standard Library's executable specification at 24 bits of precision, with
    the conversions from and to [int]. *)
From stdpp Require Import base tactics option list.
From Stdlib Require Import ZArith Lia Bool.
From Stdlib Require Import SpecFloat.
From S2P Require Import Prelude.

#[local] Open Scope Z_scope.

Abbreviation f32 := spec_float.

Definition f32_of_int (x : Z) : f32 := binary_normalize 24 128 x 0 false.
Definition f32_mul : f32 -> f32 -> f32 := SFmul 24 128.
Definition f32_div : f32 -> f32 -> f32 := SFdiv 24 128.
Definition f32_one : f32 := S754_finite false 8388608 (-23).

(** [static_cast<int>(f)] truncates; a value that is not an [int] gives [INT_MIN],
    as the x86 instruction does (in C++ it is undefined). *)
Definition int_of_f32 (f : f32) : Z :=
  match f with
  | S754_zero _ => 0
  | S754_finite s m e =>
      let a := if 0 <=? e then Zpos m * 2 ^ e else Zpos m / 2 ^ (- e) in
      let v := if s then - a else a in
      if (- 2 ^ 31 <=? v) && (v <? 2 ^ 31) then v else - 2 ^ 31
  | _ => - 2 ^ 31
  end.

(** * Integers of up to 24 bits are exact *)

Lemma digits2_pos_log2 p : Zpos (digits2_pos p) = Z.log2 (Zpos p) + 1.
Proof.
  induction p as [p IH|p IH|]; cbn [digits2_pos]; [| |done]; rewrite Pos2Z.inj_succ, IH.
  - rewrite (Pos2Z.inj_xI p), Z.log2_succ_double by lia. lia.
  - rewrite (Pos2Z.inj_xO p), Z.log2_double by lia. lia.
Qed.

Lemma digits2_pos_bounds p d :
  0 <= d -> 2 ^ d <= Zpos p < 2 ^ (d + 1) -> Zpos (digits2_pos p) = d + 1.
Proof. intros Hd Hp. rewrite digits2_pos_log2. by rewrite (Z.log2_unique (Zpos p) d). Qed.

Lemma iter_xO p n : Zpos (Pos.iter xO p n) = Zpos p * 2 ^ Zpos n.
Proof.
  revert n. apply (Pos.peano_ind (fun n => Zpos (Pos.iter xO p n) = Zpos p * 2 ^ Zpos n)).
  - cbn. lia.
  - intros n IH. rewrite Pos.iter_succ, (Pos2Z.inj_xO (Pos.iter xO p n)), IH, Pos2Z.inj_succ, Z.pow_succ_r by lia. lia.
Qed.

Lemma shr_1_iter_exact c n :
  iter_pos shr_1 n (Build_shr_record (Zpos c * 2 ^ Zpos n) false false) = Build_shr_record (Zpos c) false false.
Proof.
  assert (H1 : forall q, shr_1 (Build_shr_record (2 * Zpos q) false false) = Build_shr_record (Zpos q) false false)
    by done.
  assert (H2 : forall p, exists q, Zpos c * 2 ^ Zpos p = Zpos q).
  { intros p. exists (c * 2 ^ p)%positive. by rewrite Pos2Z.inj_mul, Pos2Z.inj_pow. }
  revert c H2. induction n as [n IH|n IH|]; intros c H2; cbn [iter_pos].
  - rewrite (Pos2Z.inj_xI n), Z.pow_add_r, Z.pow_1_r, Z.pow_twice_r by lia.
    destruct (H2 n) as [q Eq].
    replace (Zpos c * (2 ^ Zpos n * 2 ^ Zpos n * 2)) with (2 * (Zpos q * 2 ^ Zpos n)) by (rewrite <- Eq; lia).
    replace (Zpos q * 2 ^ Zpos n) with (Zpos (q * 2 ^ n)) by (by rewrite Pos2Z.inj_mul, Pos2Z.inj_pow).
    rewrite H1, Pos2Z.inj_mul, Pos2Z.inj_pow, IH, <- Eq, IH; [done | done |].
    intros p. exists (q * 2 ^ p)%positive. by rewrite Pos2Z.inj_mul, Pos2Z.inj_pow.
  - rewrite (Pos2Z.inj_xO n), Z.pow_twice_r. destruct (H2 n) as [q Eq].
    rewrite Z.mul_assoc, Eq, IH, <- Eq, IH; [done | done |].
    intros p. exists (q * 2 ^ p)%positive. by rewrite Pos2Z.inj_mul, Pos2Z.inj_pow.
  - rewrite Z.mul_comm. apply H1.
Qed.

(** Rounding a value that fits in 24 bits only normalises it. *)
Lemma binary_round_aux_exact s c k e M :
  0 <= k -> - 149 <= e + k <= 104 -> 2 ^ 23 <= Zpos c < 2 ^ 24 -> Zpos M = Zpos c * 2 ^ k ->
  binary_round_aux 24 128 s (Zpos M) e loc_Exact = S754_finite s c (e + k).
Proof.
  intros Hk He Hc HM.
  assert (Hd : Zdigits2 (Zpos M) = 24 + k).
  { cbn [Zdigits2]. rewrite (digits2_pos_bounds M (23 + k)); [lia | lia |].
    rewrite HM. replace (23 + k + 1) with (24 + k) by lia. rewrite !Z.pow_add_r by lia.
    pose proof (pow2_pos k Hk). nia. }
  assert (Hc' : Zdigits2 (Zpos c) = 24) by (cbn [Zdigits2]; rewrite (digits2_pos_bounds c 23); lia).
  assert (Hf : forall x, -149 <= x -> fexp 24 128 (24 + x) = x) by (intros; unfold fexp, emin; lia).
  unfold binary_round_aux, shr_fexp. rewrite Hd. cbn [shr_record_of_loc].
  replace (24 + k + e) with (24 + (e + k)) by lia. rewrite Hf by lia.
  replace (e + k - e) with k by lia.
  assert (Hs : shr (Build_shr_record (Zpos M) false false) e k = (Build_shr_record (Zpos c) false false, e + k)).
  { unfold shr. destruct k as [|n|n]; [|by rewrite HM, shr_1_iter_exact | lia].
    rewrite HM. f_equal; [f_equal|]; lia. }
  rewrite Hs. cbn [shr_m loc_of_shr_record round_nearest_even shr_record_of_loc].
  rewrite Hc', Hf by lia. rewrite Z.sub_diag. cbn [shr shr_m].
  by rewrite (proj2 (Z.leb_le (e + k) (128 - 24))) by lia.
Qed.

Lemma binary_round_int s p :
  Zpos p < 2 ^ 24 -> exists c k, 0 <= k <= 23 /\ 2 ^ 23 <= Zpos c < 2 ^ 24 /\ Zpos c = Zpos p * 2 ^ k /\
    binary_round 24 128 s p 0 = S754_finite s c (- k).
Proof.
  intros Hp. set (l := Z.log2 (Zpos p)).
  pose proof (Z.log2_spec (Zpos p) ltac:(lia)) as Hl. fold l in Hl. unfold Z.succ in Hl.
  assert (0 <= l) by apply Z.log2_nonneg.
  assert (l <= 23) by (apply Z.lt_succ_r, (Z.pow_lt_mono_r_iff 2); lia).
  unfold binary_round. rewrite (digits2_pos_bounds p l) by lia.
  replace (fexp 24 128 (l + 1 + 0)) with (- (23 - l)) by (unfold fexp, emin; lia).
  assert (Hc : forall c, Zpos c = Zpos p * 2 ^ (23 - l) -> 2 ^ 23 <= Zpos c < 2 ^ 24).
  { intros c ->. clearbody l.
    assert (E1 : 2 ^ 23 = 2 ^ l * 2 ^ (23 - l)) by (rewrite <- Z.pow_add_r by lia; f_equal; lia).
    assert (E2 : 2 ^ 24 = 2 ^ (l + 1) * 2 ^ (23 - l)) by (rewrite <- Z.pow_add_r by lia; f_equal; lia).
    pose proof (pow2_pos (23 - l) ltac:(lia)). rewrite E1, E2. nia. }
  unfold shl_align. replace (- (23 - l) - 0) with (- (23 - l)) by lia.
  destruct (23 - l) as [|n|n] eqn:E; [| |lia]; [change (- 0) with 0 | change (- Zpos n) with (Zneg n)]; cbv beta iota.
  - specialize (Hc p ltac:(rewrite Z.pow_0_r; lia)). exists p, 0.
    rewrite (binary_round_aux_exact s p 0 0 p) by (rewrite ?Z.pow_0_r; lia). rewrite Z.pow_0_r. auto with lia.
  - exists (Pos.iter xO p n), (Zpos n). pose proof (iter_xO p n) as Hi. specialize (Hc _ Hi). change (Z.neg n) with (- Zpos n).
    rewrite (binary_round_aux_exact s (Pos.iter xO p n) 0 (- Zpos n)) by (rewrite ?Z.pow_0_r; lia).
    rewrite Z.add_0_r. auto with lia.
Qed.

Lemma int_of_f32_scaled (s : bool) p c k :
  0 <= k <= 23 -> Zpos p < 2 ^ 24 -> Zpos c = Zpos p * 2 ^ k ->
  int_of_f32 (S754_finite s c (- k)) = if s then Zneg p else Zpos p.
Proof.
  intros Hk Hp Hc. unfold int_of_f32.
  assert (E : (if 0 <=? - k then Zpos c * 2 ^ (- k) else Zpos c / 2 ^ (- - k)) = Zpos p).
  { destruct (Z.leb_spec 0 (- k)).
    - replace k with 0 in * by lia. cbn in Hc |- *. lia.
    - rewrite Z.opp_involutive, Hc, Z.div_mul; [done | apply Z.pow_nonzero; lia]. }
  rewrite E. destruct s; [change (- Zpos p) with (Zneg p)|];
    destruct (Z.leb_spec (- 2 ^ 31) (Zneg p)), (Z.ltb_spec (Zneg p) (2 ^ 31)),
      (Z.leb_spec (- 2 ^ 31) (Zpos p)), (Z.ltb_spec (Zpos p) (2 ^ 31)); cbn [andb]; lia.
Qed.

(** Scaling by 1.0 is the identity on them. *)
Lemma scale_one x : - 2 ^ 24 < x < 2 ^ 24 -> int_of_f32 (f32_mul (f32_of_int x) f32_one) = x.
Proof.
  intros Hx. unfold f32_mul, f32_of_int, f32_one, binary_normalize.
  assert (Hp : forall s p, Zpos p < 2 ^ 24 ->
    int_of_f32 (SFmul 24 128 (binary_round 24 128 s p 0) (S754_finite false 8388608 (-23))) =
    if s then Zneg p else Zpos p).
  { intros s p Hp. destruct (binary_round_int s p Hp) as (c & k & Hk & Hc & Ec & ->).
    unfold SFmul. rewrite xorb_false_r, (binary_round_aux_exact s c 23 (- k + -23)); [| lia.. |].
    - replace (- k + -23 + 23) with (- k) by lia. by apply int_of_f32_scaled.
    - by rewrite Pos2Z.inj_mul. }
  destruct x as [|p|p]; [done | rewrite Hp; lia | rewrite Hp; lia].
Qed.
