(* ===== verification/Memmap.v ===== *)
(** Physical memory ([Core/HW/Memmap.cpp]): the two memories of the console, address
    translation, and the accesses emulated hardware makes. *)
From stdpp Require Import base tactics option list gmap.
From Stdlib Require Import ZArith Lia Bool.
From S2P Require Import Prelude.

#[local] Open Scope Z_scope.

(** * Little-endian integers *)

Fixpoint le_bytes (n : nat) (x : Z) : list Z :=
  match n with O => [] | S n' => wrapu 8 x :: le_bytes n' (x .>> 8) end.
Fixpoint of_le_bytes (l : list Z) : Z :=
  match l with [] => 0 | b :: l' => b .| (of_le_bytes l' .<< 8) end.

Definition swap64 (x : Z) : Z := of_le_bytes (rev (le_bytes 8 x)).

(** * State

    [m_exram] is null on a GameCube. *)

Inductive region : Type := RAM | EXRAM.

#[export] Instance region_eq_dec : EqDecision region.
Proof. solve_decision. Defined.

Record MemoryManager : Type := mkMemory {
  m_ram : arr;
  m_exram : option arr;
  m_ram_size_real : Z;
  m_ram_size : Z;
  m_ram_mask : Z;
  m_exram_size_real : Z;
  m_exram_size : Z;
  m_exram_mask : Z
}.

Definition NextPowerOf2 (value : Z) : Z :=
  let value := to_u32 (value - 1) in
  let value := value .| (value .>> 1) in
  let value := value .| (value .>> 2) in
  let value := value .| (value .>> 4) in
  let value := value .| (value .>> 8) in
  let value := value .| (value .>> 16) in
  to_u32 (value + 1).

Definition MEM1_SIZE_RETAIL : Z := 0x01800000.
Definition MEM2_SIZE_RETAIL : Z := 0x04000000.

(** [Init], with the sizes of the two memories; [Clear] is the zero fill. *)
Definition Memory_Init (wii : bool) (mem1_size mem2_size : Z) : MemoryManager :=
  {| m_ram := ∅;
     m_exram := if wii then Some ∅ else None;
     m_ram_size_real := mem1_size;
     m_ram_size := NextPowerOf2 mem1_size;
     m_ram_mask := to_u32 (NextPowerOf2 mem1_size - 1);
     m_exram_size_real := mem2_size;
     m_exram_size := NextPowerOf2 mem2_size;
     m_exram_mask := to_u32 (NextPowerOf2 mem2_size - 1) |}.

(** * Translation

    A pointer is a region with an offset; a span also has a length. *)

Definition GetSpanForAddress (address : Z) (m : MemoryManager) : option (region * Z * Z) :=
  let address := address .& 0x3FFFFFFF in
  if address <? m_ram_size_real m then Some (RAM, address, m_ram_size_real m - address)
  else
    match m_exram m with
    | Some _ =>
        if (address .>> 28 =? 1) && ((address .& 0x0fffffff) <? m_exram_size_real m) then
          Some (EXRAM, address .& m_exram_mask m, m_exram_size_real m - (address .& m_exram_mask m))
        else None
    | None => None
    end.

(** The length of the span is a [size_t], so a difference below zero is huge. *)
Definition GetPointerForRange (address size : Z) (m : MemoryManager) : option (region * Z) :=
  match GetSpanForAddress address m with
  | None => None
  | Some (r, off, len) => if to_u64 len <? size then None else Some (r, off)
  end.

(** * Bytes of a region *)

Definition region_bytes (r : region) (m : MemoryManager) : arr :=
  match r with RAM => m_ram m | EXRAM => default ∅ (m_exram m) end.

Definition set_region (r : region) (a : arr) (m : MemoryManager) : MemoryManager :=
  match r with
  | RAM => {| m_ram := a; m_exram := m_exram m; m_ram_size_real := m_ram_size_real m;
              m_ram_size := m_ram_size m; m_ram_mask := m_ram_mask m;
              m_exram_size_real := m_exram_size_real m; m_exram_size := m_exram_size m;
              m_exram_mask := m_exram_mask m |}
  | EXRAM => {| m_ram := m_ram m; m_exram := match m_exram m with Some _ => Some a | None => None end;
                m_ram_size_real := m_ram_size_real m;
                m_ram_size := m_ram_size m; m_ram_mask := m_ram_mask m;
                m_exram_size_real := m_exram_size_real m; m_exram_size := m_exram_size m;
                m_exram_mask := m_exram_mask m |}
  end.

(** * Accesses *)

(** [data] is left as it is when the range is invalid. *)
Definition CopyFromEmu (data : list Z) (address size : Z) (m : MemoryManager) : list Z :=
  if size =? 0 then data
  else
    match GetPointerForRange address size m with
    | None => data
    | Some (r, off) => aslice (region_bytes r m) off (Z.to_nat size)
    end.

Definition CopyToEmu (address : Z) (data : list Z) (m : MemoryManager) : MemoryManager :=
  if (length data =? 0)%nat then m
  else
    match GetPointerForRange address (Z.of_nat (length data)) m with
    | None => m
    | Some (r, off) => set_region r (aupd_list (region_bytes r m) off data) m
    end.

Definition Read_U8 (address : Z) (m : MemoryManager) : Z :=
  of_le_bytes (CopyFromEmu (le_bytes 1 0) address 1 m).
Definition Read_U64 (address : Z) (m : MemoryManager) : Z :=
  swap64 (of_le_bytes (CopyFromEmu (le_bytes 8 0) address 8 m)).
Definition Write_U8 (value address : Z) (m : MemoryManager) : MemoryManager :=
  CopyToEmu address (le_bytes 1 value) m.
Definition Write_U64 (value address : Z) (m : MemoryManager) : MemoryManager :=
  CopyToEmu address (le_bytes 8 (swap64 value)) m.
Definition Write_U64_Swap (value address : Z) (m : MemoryManager) : MemoryManager :=
  CopyToEmu address (le_bytes 8 value) m.

(** * Lemmas on integers as bytes *)

Lemma length_le_bytes n x : length (le_bytes n x) = n.
Proof. revert x. induction n; intros; cbn; auto. Qed.

Lemma le_bytes_u8 n x : Forall u8 (le_bytes n x).
Proof. revert x. induction n; intros; cbn; constructor; [apply wrapu_range; lia | auto]. Qed.

Lemma of_le_bytes_range l : Forall u8 l -> uN (8 * Z.of_nat (length l)) (of_le_bytes l).
Proof.
  induction 1 as [|b l Hb Hl IH]; cbn [of_le_bytes length]; [by unfold uN|].
  rewrite lor_shiftl_add by (done || lia). unfold uN in *.
  replace (8 * Z.of_nat (S (length l))) with (8 + 8 * Z.of_nat (length l)) by lia.
  rewrite Z.pow_add_r by lia. nia.
Qed.

Lemma le_bytes_of_le_bytes l : Forall u8 l -> le_bytes (length l) (of_le_bytes l) = l.
Proof.
  induction 1 as [|b l Hb Hl IH]; cbn [of_le_bytes length le_bytes]; [done|].
  rewrite lor_shiftl_add by (done || lia). rewrite Z.shiftr_div_pow2 by lia. f_equal.
  - apply wrapu_unique with (k := of_le_bytes l); [done | lia].
  - rewrite Z.div_add, Z.div_small, Z.add_0_l by (done || lia). exact IH.
Qed.

Lemma of_le_bytes_le_bytes n x : of_le_bytes (le_bytes n x) = wrapu (8 * Z.of_nat n) x.
Proof.
  revert x. induction n as [|n IH]; intros x; cbn [of_le_bytes le_bytes].
  - unfold wrapu. by rewrite Z.mod_1_r.
  - rewrite IH, lor_shiftl_add by (lia || (apply wrapu_range; lia)).
    rewrite Z.shiftr_div_pow2 by lia. unfold wrapu.
    replace (8 * Z.of_nat (S n)) with (8 + 8 * Z.of_nat n) by lia.
    rewrite Z.pow_add_r, Z.rem_mul_r by lia. lia.
Qed.

Lemma swap64_bytes l : Forall u8 l -> length l = 8%nat -> swap64 (of_le_bytes l) = of_le_bytes (rev l).
Proof. intros Hl Hn. unfold swap64. by rewrite <- Hn, le_bytes_of_le_bytes. Qed.

Lemma swap64_involutive x : u64 x -> swap64 (swap64 x) = x.
Proof.
  intros Hx. unfold swap64 at 2. rewrite swap64_bytes.
  - rewrite rev_involutive, of_le_bytes_le_bytes. by apply wrapu_small.
  - apply Forall_rev, le_bytes_u8.
  - by rewrite length_rev, length_le_bytes.
Qed.

(** * The memory contract *)

(** What every memory has after [Init]: sizes that fit the address space, the mask of
    the extra memory covering its size. *)
Record memory_ok (m : MemoryManager) : Prop := {
  mok_ram : arr_ok u8 (m_ram m);
  mok_exram : arr_ok u8 (default ∅ (m_exram m));
  mok_ram_size : 0 <= m_ram_size_real m <= 0x10000000;
  mok_ram_mask : 0 <= m_ram_mask m < 0x10000000;
  mok_exram_size : 0 <= m_exram_size_real m <= 0x10000000;
  mok_exram_mask : exists k, 0 <= k <= 28 /\ m_exram_mask m = 2 ^ k - 1 /\ m_exram_size_real m <= 2 ^ k
}.

Lemma span_ok a r off len m :
  memory_ok m -> GetSpanForAddress a m = Some (r, off, len) ->
  0 <= off /\ 0 < len <= 0x10000000 /\
  forall i, 0 <= i < len -> GetSpanForAddress (a + i) m = Some (r, off + i, len - i).
Proof.
  intros Hm. unfold GetSpanForAddress.
  pose proof (land_bound a 0x3fffffff ltac:(lia)).
  assert (Hand : forall x, x .& 0x3fffffff = wrapu 30 x) by (intros; by rewrite <- land_wrapu).
  assert (Hsum : forall i, wrapu 30 a + i < 2 ^ 30 -> 0 <= i -> wrapu 30 (a + i) = wrapu 30 a + i).
  { intros i Hi Hi'. destruct (wrapu_spec 30 a ltac:(lia)) as [k Hk].
    pose proof (wrapu_range 30 a ltac:(lia)). apply wrapu_unique with (k := k); unfold uN in *; lia. }
  rewrite !Hand in *. pose proof (mok_ram_size m Hm). pose proof (mok_exram_size m Hm).
  destruct (Z.ltb_spec (wrapu 30 a) (m_ram_size_real m)) as [Hr|Hr].
  - intros [= <- <- <-]. split; [lia|]. split; [lia|]. intros i Hi. rewrite Hand, Hsum by lia.
    rewrite (proj2 (Z.ltb_lt _ _)) by lia. do 2 f_equal. lia.
  - destruct (m_exram m) as [e|]; [|done].
    destruct (Z.eqb_spec (wrapu 30 a .>> 28) 1) as [Hhi|]; [|done].
    destruct (Z.ltb_spec (wrapu 30 a .& 0x0fffffff) (m_exram_size_real m)) as [Hlt|]; [|done].
    cbn [andb]. intros [= <- <- <-]. destruct (mok_exram_mask m Hm) as (k & Hk & -> & Hsz).
    rewrite Z.shiftr_div_pow2 in Hhi by lia.
    change 0x0fffffff with (2 ^ 28 - 1) in *. rewrite land_wrapu in Hlt |- * by lia.
    assert (Hlo : wrapu 28 (wrapu 30 a) = wrapu 30 a - 2 ^ 28)
      by (apply wrapu_unique with (k := 1); unfold uN; Z.div_mod_to_equations; lia).
    set (b := wrapu 30 a - 2 ^ 28) in *. rewrite Hlo in Hlt.
    assert (Hb : 0 <= b) by (unfold b; Z.div_mod_to_equations; lia).
    assert (2 ^ k <= 2 ^ 28) by (apply Z.pow_le_mono_r; lia).
    assert (Hoff : forall i, 0 <= i < m_exram_size_real m - b -> wrapu k (wrapu 30 a + i) = b + i).
    { intros i Hi. apply wrapu_unique with (k := 2 ^ (28 - k)); [unfold uN; lia|].
      rewrite <- Z.pow_add_r by lia. replace (28 - k + k) with 28 by lia. unfold b. lia. }
    pose proof (Hoff 0 ltac:(lia)) as E0. rewrite !Z.add_0_r in E0. rewrite E0.
    split; [lia|]. split; [lia|]. intros i Hi.
    rewrite Hand, Hsum by (unfold b in *; lia).
    rewrite (proj2 (Z.ltb_ge _ _)) by lia.
    rewrite (proj2 (Z.eqb_eq _ _)) by (rewrite Z.shiftr_div_pow2 by lia; unfold b in *; Z.div_mod_to_equations; lia).
    rewrite land_wrapu by lia.
    assert (Hlo' : wrapu 28 (wrapu 30 a + i) = b + i)
      by (apply wrapu_unique with (k := 1); unfold uN, b in *; lia).
    rewrite Hlo', (proj2 (Z.ltb_lt _ _)) by lia. cbn [andb].
    rewrite land_wrapu, Hoff by lia. do 2 f_equal. lia.
Qed.
