(* ===== verification/PowerPC.v ===== *)
(** The part of the PowerPC that devices see ([Core/PowerPC/PowerPC.cpp]): its
    exceptions and its performance counters. *)
From stdpp Require Import base tactics option list gmap.
From Stdlib Require Import ZArith Lia Bool.
From S2P Require Import Prelude.

#[local] Open Scope Z_scope.

(** * State *)

Record PPCState : Type := mkPPC {
  pc : Z;
  npc : Z;
  gpr : arr;
  spr : arr;
  msr : Z;
  Exceptions : Z;
  downcount : Z;
  feature_flags : Z;
  cr_fields : arr;
  xer_ca : Z;
  xer_so_ov : Z;
  xer_stringctrl : Z;
  ppc_sr : arr;
  reserve : bool;
  reserve_address : Z;
  fpscr : Z;
  ps0 : arr;
  ps1 : arr
}.

Definition p_pc : field PPCState Z := Field pc (fun v p => mkPPC v (npc p) (gpr p) (spr p) (msr p) (Exceptions p) (downcount p) (feature_flags p) (cr_fields p) (xer_ca p) (xer_so_ov p) (xer_stringctrl p) (ppc_sr p) (reserve p) (reserve_address p) (fpscr p) (ps0 p) (ps1 p)).
Definition p_npc : field PPCState Z := Field npc (fun v p => mkPPC (pc p) v (gpr p) (spr p) (msr p) (Exceptions p) (downcount p) (feature_flags p) (cr_fields p) (xer_ca p) (xer_so_ov p) (xer_stringctrl p) (ppc_sr p) (reserve p) (reserve_address p) (fpscr p) (ps0 p) (ps1 p)).
Definition p_gpr : field PPCState arr := Field gpr (fun v p => mkPPC (pc p) (npc p) v (spr p) (msr p) (Exceptions p) (downcount p) (feature_flags p) (cr_fields p) (xer_ca p) (xer_so_ov p) (xer_stringctrl p) (ppc_sr p) (reserve p) (reserve_address p) (fpscr p) (ps0 p) (ps1 p)).
Definition p_spr : field PPCState arr := Field spr (fun v p => mkPPC (pc p) (npc p) (gpr p) v (msr p) (Exceptions p) (downcount p) (feature_flags p) (cr_fields p) (xer_ca p) (xer_so_ov p) (xer_stringctrl p) (ppc_sr p) (reserve p) (reserve_address p) (fpscr p) (ps0 p) (ps1 p)).
Definition p_msr : field PPCState Z := Field msr (fun v p => mkPPC (pc p) (npc p) (gpr p) (spr p) v (Exceptions p) (downcount p) (feature_flags p) (cr_fields p) (xer_ca p) (xer_so_ov p) (xer_stringctrl p) (ppc_sr p) (reserve p) (reserve_address p) (fpscr p) (ps0 p) (ps1 p)).
Definition p_Exceptions : field PPCState Z := Field Exceptions (fun v p => mkPPC (pc p) (npc p) (gpr p) (spr p) (msr p) v (downcount p) (feature_flags p) (cr_fields p) (xer_ca p) (xer_so_ov p) (xer_stringctrl p) (ppc_sr p) (reserve p) (reserve_address p) (fpscr p) (ps0 p) (ps1 p)).
Definition p_downcount : field PPCState Z := Field downcount (fun v p => mkPPC (pc p) (npc p) (gpr p) (spr p) (msr p) (Exceptions p) v (feature_flags p) (cr_fields p) (xer_ca p) (xer_so_ov p) (xer_stringctrl p) (ppc_sr p) (reserve p) (reserve_address p) (fpscr p) (ps0 p) (ps1 p)).
Definition p_feature_flags : field PPCState Z := Field feature_flags (fun v p => mkPPC (pc p) (npc p) (gpr p) (spr p) (msr p) (Exceptions p) (downcount p) v (cr_fields p) (xer_ca p) (xer_so_ov p) (xer_stringctrl p) (ppc_sr p) (reserve p) (reserve_address p) (fpscr p) (ps0 p) (ps1 p)).
Definition p_cr_fields : field PPCState arr := Field cr_fields (fun v p => mkPPC (pc p) (npc p) (gpr p) (spr p) (msr p) (Exceptions p) (downcount p) (feature_flags p) v (xer_ca p) (xer_so_ov p) (xer_stringctrl p) (ppc_sr p) (reserve p) (reserve_address p) (fpscr p) (ps0 p) (ps1 p)).
Definition p_xer_ca : field PPCState Z := Field xer_ca (fun v p => mkPPC (pc p) (npc p) (gpr p) (spr p) (msr p) (Exceptions p) (downcount p) (feature_flags p) (cr_fields p) v (xer_so_ov p) (xer_stringctrl p) (ppc_sr p) (reserve p) (reserve_address p) (fpscr p) (ps0 p) (ps1 p)).
Definition p_xer_so_ov : field PPCState Z := Field xer_so_ov (fun v p => mkPPC (pc p) (npc p) (gpr p) (spr p) (msr p) (Exceptions p) (downcount p) (feature_flags p) (cr_fields p) (xer_ca p) v (xer_stringctrl p) (ppc_sr p) (reserve p) (reserve_address p) (fpscr p) (ps0 p) (ps1 p)).
Definition p_xer_stringctrl : field PPCState Z := Field xer_stringctrl (fun v p => mkPPC (pc p) (npc p) (gpr p) (spr p) (msr p) (Exceptions p) (downcount p) (feature_flags p) (cr_fields p) (xer_ca p) (xer_so_ov p) v (ppc_sr p) (reserve p) (reserve_address p) (fpscr p) (ps0 p) (ps1 p)).
Definition p_ppc_sr : field PPCState arr := Field ppc_sr (fun v p => mkPPC (pc p) (npc p) (gpr p) (spr p) (msr p) (Exceptions p) (downcount p) (feature_flags p) (cr_fields p) (xer_ca p) (xer_so_ov p) (xer_stringctrl p) v (reserve p) (reserve_address p) (fpscr p) (ps0 p) (ps1 p)).
Definition p_reserve : field PPCState bool := Field reserve (fun v p => mkPPC (pc p) (npc p) (gpr p) (spr p) (msr p) (Exceptions p) (downcount p) (feature_flags p) (cr_fields p) (xer_ca p) (xer_so_ov p) (xer_stringctrl p) (ppc_sr p) v (reserve_address p) (fpscr p) (ps0 p) (ps1 p)).
Definition p_reserve_address : field PPCState Z := Field reserve_address (fun v p => mkPPC (pc p) (npc p) (gpr p) (spr p) (msr p) (Exceptions p) (downcount p) (feature_flags p) (cr_fields p) (xer_ca p) (xer_so_ov p) (xer_stringctrl p) (ppc_sr p) (reserve p) v (fpscr p) (ps0 p) (ps1 p)).
Definition p_fpscr : field PPCState Z := Field fpscr (fun v p => mkPPC (pc p) (npc p) (gpr p) (spr p) (msr p) (Exceptions p) (downcount p) (feature_flags p) (cr_fields p) (xer_ca p) (xer_so_ov p) (xer_stringctrl p) (ppc_sr p) (reserve p) (reserve_address p) v (ps0 p) (ps1 p)).
Definition p_ps0 : field PPCState arr := Field ps0 (fun v p => mkPPC (pc p) (npc p) (gpr p) (spr p) (msr p) (Exceptions p) (downcount p) (feature_flags p) (cr_fields p) (xer_ca p) (xer_so_ov p) (xer_stringctrl p) (ppc_sr p) (reserve p) (reserve_address p) (fpscr p) v (ps1 p)).
Definition p_ps1 : field PPCState arr := Field ps1 (fun v p => mkPPC (pc p) (npc p) (gpr p) (spr p) (msr p) (Exceptions p) (downcount p) (feature_flags p) (cr_fields p) (xer_ca p) (xer_so_ov p) (xer_stringctrl p) (ppc_sr p) (reserve p) (reserve_address p) (fpscr p) (ps0 p) v).

(** Special purpose registers, by number. *)
Abbreviation SPR_DEC := 22 (only parsing).
Abbreviation SPR_SRR0 := 26 (only parsing).
Abbreviation SPR_SRR1 := 27 (only parsing).
Abbreviation SPR_TL := 268 (only parsing).
Abbreviation SPR_TU := 269 (only parsing).
Abbreviation SPR_MMCR0 := 952 (only parsing).
Abbreviation SPR_PMC1 := 953 (only parsing).
Abbreviation SPR_PMC2 := 954 (only parsing).
Abbreviation SPR_MMCR1 := 956 (only parsing).
Abbreviation SPR_PMC3 := 957 (only parsing).
Abbreviation SPR_PMC4 := 958 (only parsing).

Abbreviation EXCEPTION_DECREMENTER := 0x00000001 (only parsing).
Abbreviation EXCEPTION_SYSCALL := 0x00000002 (only parsing).
Abbreviation EXCEPTION_EXTERNAL_INT := 0x00000004 (only parsing).
Abbreviation EXCEPTION_DSI := 0x00000008 (only parsing).
Abbreviation EXCEPTION_ISI := 0x00000010 (only parsing).
Abbreviation EXCEPTION_ALIGNMENT := 0x00000020 (only parsing).
Abbreviation EXCEPTION_FPU_UNAVAILABLE := 0x00000040 (only parsing).
Abbreviation EXCEPTION_PROGRAM := 0x00000080 (only parsing).
Abbreviation EXCEPTION_PERFORMANCE_MONITOR := 0x00000100 (only parsing).
Abbreviation EXCEPTION_FAKE_MEMCHECK_HIT := 0x00000200 (only parsing).

Definition get_spr (i : Z) (p : PPCState) : Z := aat (spr p) i.
Definition set_spr (i v : Z) (p : PPCState) : PPCState := fset p_spr (aupd (spr p) i v) p.

(** [exceptions & e] as a condition. *)
Definition has (e exceptions : Z) : bool := negb ((exceptions .& e) =? 0).
Definition clear_exception (e : Z) (p : PPCState) : PPCState :=
  fset p_Exceptions (Exceptions p .& to_u32 (Z.lnot e)) p.
Definition raise_exception (e : Z) (p : PPCState) : PPCState :=
  fset p_Exceptions (Exceptions p .| e) p.

(** * Exceptions *)

Definition MSRUpdated (p : PPCState) : PPCState :=
  fset p_feature_flags ((feature_flags p .& 4) .| ((msr p .>> 4) .& 0x3)) p.

(** [msr.LE = msr.ILE; msr.Hex &= ~0x04EF36;] *)
Definition exception_msr (m : Z) : Z :=
  ((m .& to_u32 (Z.lnot 1)) .| ((m .>> 16) .& 1)) .& to_u32 (Z.lnot 0x04EF36).

(** The steps every exception has in common: where to come back to, the saved
    machine state, the new machine state and the vector. *)
Definition take_exception (srr0 srr1 vector e : Z) (p : PPCState) : PPCState :=
  let p := set_spr SPR_SRR0 srr0 p in
  let p := set_spr SPR_SRR1 srr1 p in
  let p := fset p_msr (exception_msr (msr p)) p in
  let p := fset p_pc vector (fset p_npc vector p) in
  clear_exception e p.

Definition saved_msr (p : PPCState) : Z := msr p .& 0x87C0FFFF.

Definition CheckExternalExceptions (p : PPCState) : PPCState :=
  let exceptions := Exceptions p in
  if negb (exceptions =? 0) && Z.testbit (msr p) 15 then
    MSRUpdated
      (if has EXCEPTION_EXTERNAL_INT exceptions then
         take_exception (npc p) (saved_msr p) 0x500 EXCEPTION_EXTERNAL_INT p
       else if has EXCEPTION_PERFORMANCE_MONITOR exceptions then
         take_exception (npc p) (saved_msr p) 0xF00 EXCEPTION_PERFORMANCE_MONITOR p
       else if has EXCEPTION_DECREMENTER exceptions then
         take_exception (npc p) (saved_msr p) 0x900 EXCEPTION_DECREMENTER p
       else p)
  else p.

Definition CheckExceptions (p : PPCState) : PPCState :=
  let exceptions := Exceptions p in
  if has EXCEPTION_ISI exceptions then
    MSRUpdated (take_exception (npc p) (saved_msr p .| (1 .<< 30)) 0x400 EXCEPTION_ISI p)
  else if has EXCEPTION_PROGRAM exceptions then
    MSRUpdated (take_exception (pc p) (get_spr SPR_SRR1 p .| saved_msr p) 0x700 EXCEPTION_PROGRAM p)
  else if has EXCEPTION_SYSCALL exceptions then
    MSRUpdated (take_exception (npc p) (saved_msr p) 0xC00 EXCEPTION_SYSCALL p)
  else if has EXCEPTION_FPU_UNAVAILABLE exceptions then
    MSRUpdated (take_exception (pc p) (saved_msr p) 0x800 EXCEPTION_FPU_UNAVAILABLE p)
  else if has EXCEPTION_FAKE_MEMCHECK_HIT exceptions then
    MSRUpdated (clear_exception (EXCEPTION_DSI .| EXCEPTION_FAKE_MEMCHECK_HIT) p)
  else if has EXCEPTION_DSI exceptions then
    MSRUpdated (take_exception (pc p) (saved_msr p) 0x300 EXCEPTION_DSI p)
  else if has EXCEPTION_ALIGNMENT exceptions then
    MSRUpdated (take_exception (pc p) (saved_msr p) 0x600 EXCEPTION_ALIGNMENT p)
  else CheckExternalExceptions p.

(** * Performance counters *)

(** A bit field of [n] bits from bit [i]. *)
Definition bits (i n x : Z) : Z := (x .>> i) .& (2 ^ n - 1).

Definition add_pmc (i v : Z) (p : PPCState) : PPCState := set_spr i (to_u32 (get_spr i p + v)) p.

Definition UpdatePerformanceMonitor (cycles num_load_stores num_fp_inst : Z) (p : PPCState) : PPCState :=
  let mmcr0 := get_spr SPR_MMCR0 p in
  let mmcr1 := get_spr SPR_MMCR1 p in
  let p := match bits 6 7 mmcr0 with 1 => add_pmc SPR_PMC1 cycles p | _ => p end in
  let p := match bits 0 6 mmcr0 with
           | 1 => add_pmc SPR_PMC2 cycles p | 11 => add_pmc SPR_PMC2 num_load_stores p | _ => p end in
  let p := match bits 27 5 mmcr1 with
           | 1 => add_pmc SPR_PMC3 cycles p | 11 => add_pmc SPR_PMC3 num_fp_inst p | _ => p end in
  let p := match bits 22 5 mmcr1 with 1 => add_pmc SPR_PMC4 cycles p | _ => p end in
  let negative i := negb ((get_spr i p .& 0x80000000) =? 0) in
  if (Z.testbit mmcr0 15 && negative SPR_PMC1) || (Z.testbit mmcr0 14 && negative SPR_PMC2) ||
     (Z.testbit mmcr0 14 && negative SPR_PMC3) || (Z.testbit mmcr0 14 && negative SPR_PMC4)
  then raise_exception EXCEPTION_PERFORMANCE_MONITOR p
  else p.

(** * Time base *)

(** The low word is at [SPR_TL], the high one follows. *)
Definition ReadFullTimeBaseValue (p : PPCState) : Z := get_spr SPR_TL p .| (get_spr SPR_TU p .<< 32).
Definition WriteFullTimeBaseValue (value : Z) (p : PPCState) : PPCState :=
  set_spr SPR_TU (to_u32 (value .>> 32)) (set_spr SPR_TL (to_u32 value) p).
