(* ===== verification/ProcessorInterface.v ===== *)
(** The processor interface ([Core/HW/ProcessorInterface.cpp]): the interrupt lines of
    the devices and the external interrupt of the PowerPC. *)
From stdpp Require Import base tactics option list gmap.
From Stdlib Require Import ZArith Lia Bool.
From S2P Require Import Prelude PowerPC.

#[local] Open Scope Z_scope.

Abbreviation INT_CAUSE_DSP := 0x40 (only parsing).
Abbreviation INT_CAUSE_VI := 0x100 (only parsing).
Abbreviation INT_CAUSE_RST_BUTTON := 0x10000 (only parsing).

Record ProcessorInterface : Type := mkPI {
  m_interrupt_cause : Z;
  m_interrupt_mask : Z;
  m_fifo_cpu_base : Z;
  m_fifo_cpu_end : Z;
  m_fifo_cpu_write_pointer : Z;
  m_reset_code : Z
}.

Definition pi_m_interrupt_cause : field ProcessorInterface Z := Field m_interrupt_cause (fun v p => mkPI v (m_interrupt_mask p) (m_fifo_cpu_base p) (m_fifo_cpu_end p) (m_fifo_cpu_write_pointer p) (m_reset_code p)).
Definition pi_m_interrupt_mask : field ProcessorInterface Z := Field m_interrupt_mask (fun v p => mkPI (m_interrupt_cause p) v (m_fifo_cpu_base p) (m_fifo_cpu_end p) (m_fifo_cpu_write_pointer p) (m_reset_code p)).
Definition pi_m_fifo_cpu_base : field ProcessorInterface Z := Field m_fifo_cpu_base (fun v p => mkPI (m_interrupt_cause p) (m_interrupt_mask p) v (m_fifo_cpu_end p) (m_fifo_cpu_write_pointer p) (m_reset_code p)).
Definition pi_m_fifo_cpu_end : field ProcessorInterface Z := Field m_fifo_cpu_end (fun v p => mkPI (m_interrupt_cause p) (m_interrupt_mask p) (m_fifo_cpu_base p) v (m_fifo_cpu_write_pointer p) (m_reset_code p)).
Definition pi_m_fifo_cpu_write_pointer : field ProcessorInterface Z := Field m_fifo_cpu_write_pointer (fun v p => mkPI (m_interrupt_cause p) (m_interrupt_mask p) (m_fifo_cpu_base p) (m_fifo_cpu_end p) v (m_reset_code p)).
Definition pi_m_reset_code : field ProcessorInterface Z := Field m_reset_code (fun v p => mkPI (m_interrupt_cause p) (m_interrupt_mask p) (m_fifo_cpu_base p) (m_fifo_cpu_end p) (m_fifo_cpu_write_pointer p) v).

(** The operations also change the pending exceptions of the PowerPC. *)
Definition PI_Init : ProcessorInterface := {|
  m_interrupt_cause := INT_CAUSE_RST_BUTTON .| INT_CAUSE_VI;
  m_interrupt_mask := 0;
  m_fifo_cpu_base := 0; m_fifo_cpu_end := 0; m_fifo_cpu_write_pointer := 0;
  m_reset_code := 0
|}.

Definition asserted (x : ProcessorInterface) : bool :=
  negb ((m_interrupt_cause x .& m_interrupt_mask x) =? 0).

Definition UpdateException (x : ProcessorInterface) (p : PPCState) : PPCState :=
  if asserted x then raise_exception EXCEPTION_EXTERNAL_INT p
  else clear_exception EXCEPTION_EXTERNAL_INT p.

Definition SetInterrupt (cause_mask : Z) (set : bool) (xp : ProcessorInterface * PPCState) :
    ProcessorInterface * PPCState :=
  let '(x, p) := xp in
  let x := if set then fset pi_m_interrupt_cause (m_interrupt_cause x .| cause_mask) x
           else fset pi_m_interrupt_cause (m_interrupt_cause x .& to_u32 (Z.lnot cause_mask)) x in
  (x, UpdateException x p).

Definition SetResetButton (set : bool) : ProcessorInterface * PPCState -> ProcessorInterface * PPCState :=
  SetInterrupt INT_CAUSE_RST_BUTTON (negb set).

(** ** Memory-mapped registers *)

Definition WriteInterruptCause (val : Z) (xp : ProcessorInterface * PPCState) : ProcessorInterface * PPCState :=
  let '(x, p) := xp in
  let x := fset pi_m_interrupt_cause (m_interrupt_cause x .& to_u32 (Z.lnot val)) x in
  (x, UpdateException x p).

Definition WriteInterruptMask (val : Z) (xp : ProcessorInterface * PPCState) : ProcessorInterface * PPCState :=
  let '(x, p) := xp in
  let x := fset pi_m_interrupt_mask val x in
  (x, UpdateException x p).

Definition WriteFifoBase (val : Z) : ProcessorInterface -> ProcessorInterface := fset pi_m_fifo_cpu_base (val .& 0xFFFFFFE0).
Definition WriteFifoEnd (val : Z) : ProcessorInterface -> ProcessorInterface := fset pi_m_fifo_cpu_end (val .& 0xFFFFFFE0).
Definition WriteFifoWritePointer (val : Z) : ProcessorInterface -> ProcessorInterface :=
  fset pi_m_fifo_cpu_write_pointer (val .& 0xFFFFFFE0).
