(* ===== verification/CoreTiming.v ===== *)
(** Event scheduling ([Core/CoreTiming.cpp]): the clock of the emulated machine, the
    queue of timed events, and the slices of CPU time between them. *)
From stdpp Require Import base tactics option list gmap strings sorting.
From Stdlib Require Import ZArith Lia Bool.
From Stdlib Require Import SpecFloat.
From S2P Require Import Prelude Float32 PowerPC.

#[local] Open Scope Z_scope.

(** * Events

    The pointer [type] of an event points into [m_event_types]; it is the key of
    the type there, its name. *)

Record Event : Type := mkEvent {
  time : Z;
  fifo_order : Z;
  userdata : Z;
  type : string
}.

(** [operator>]: by time, then by the order added to the queue. *)
Definition event_gt (left right : Event) : bool :=
  (time right <? time left) || ((time left =? time right) && (fifo_order right <? fifo_order left)).

(** ** Heaps

    The queue is kept with the heap algorithms of the C++ standard library, whose
    layout the standard leaves open: this is what it promises of them for the
    comparison [std::greater]. *)

Definition is_heap (l : list Event) : Prop :=
  forall i p c, (0 < i)%nat -> l !! ((i - 1) / 2)%nat = Some p -> l !! i = Some c -> event_gt p c = false.

Class HeapAlgorithms : Type := {
  push_heap : list Event -> list Event;
  pop_heap : list Event -> list Event;
  make_heap : list Event -> list Event
}.

Class HeapLaws {heap : HeapAlgorithms} : Prop := {
  push_heap_perm : forall l e, is_heap l -> push_heap (l ++ [e]) ≡ₚ l ++ [e];
  push_heap_heap : forall l e, is_heap l -> is_heap (push_heap (l ++ [e]));
  pop_heap_spec : forall e l, is_heap (e :: l) ->
    exists l', pop_heap (e :: l) = l' ++ [e] /\ l' ≡ₚ l /\ is_heap l';
  make_heap_perm : forall l, make_heap l ≡ₚ l;
  make_heap_heap : forall l, is_heap (make_heap l)
}.

(** * State

    The throttle, which puts the host to sleep to keep the emulation at real speed,
    is not modelled beyond its parameters. *)

Record CoreTimingManager (CB : Type) : Type := mkCoreTiming {
  global_timer : Z;
  slice_length : Z;
  fake_TB_start_value : Z;
  fake_TB_start_ticks : Z;
  last_OC_factor_inverted : f32;
  m_event_types : gmap string CB;
  m_event_queue : list Event;
  m_event_fifo_id : Z;
  m_ts_queue : list Event;
  m_last_oc_factor : f32;
  m_idled_cycles : Z;
  m_fake_dec_start_value : Z;
  m_fake_dec_start_ticks : Z;
  m_is_global_timer_sane : bool;
  m_ev_lost : option string;
  m_config_oc_factor : f32;
  m_config_oc_inv_factor : f32;
  m_config_sync_on_skip_idle : bool;
  m_throttle_last_cycle : Z;
  m_throttle_clock_per_sec : Z;
  m_throttle_min_clock_per_sleep : Z
}.
Arguments mkCoreTiming {CB}.
Arguments global_timer {CB} c.
Arguments slice_length {CB} c.
Arguments fake_TB_start_value {CB} c.
Arguments fake_TB_start_ticks {CB} c.
Arguments last_OC_factor_inverted {CB} c.
Arguments m_event_types {CB} c.
Arguments m_event_queue {CB} c.
Arguments m_event_fifo_id {CB} c.
Arguments m_ts_queue {CB} c.
Arguments m_last_oc_factor {CB} c.
Arguments m_idled_cycles {CB} c.
Arguments m_fake_dec_start_value {CB} c.
Arguments m_fake_dec_start_ticks {CB} c.
Arguments m_is_global_timer_sane {CB} c.
Arguments m_ev_lost {CB} c.
Arguments m_config_oc_factor {CB} c.
Arguments m_config_oc_inv_factor {CB} c.
Arguments m_config_sync_on_skip_idle {CB} c.
Arguments m_throttle_last_cycle {CB} c.
Arguments m_throttle_clock_per_sec {CB} c.
Arguments m_throttle_min_clock_per_sleep {CB} c.

(** The clock also needs the PowerPC's downcount. *)
Record Timing (CB : Type) : Type := mkTiming {
  core_timing : CoreTimingManager CB;
  ppc_state : PPCState
}.
Arguments mkTiming {CB}.
Arguments core_timing {CB} t.
Arguments ppc_state {CB} t.

Section Fields.
Context {CB : Type}.
Implicit Type t : Timing CB.

Definition f_core_timing : field (Timing CB) (CoreTimingManager CB) :=
  Field core_timing (fun v t => mkTiming v (ppc_state t)).
Definition f_ppc_state : field (Timing CB) PPCState :=
  Field ppc_state (fun v t => mkTiming (core_timing t) v).

Definition t_global_timer : field (Timing CB) Z := Field (fun t => global_timer (core_timing t))
  (fun v t => let c := core_timing t in mkTiming (mkCoreTiming v (slice_length c) (fake_TB_start_value c) (fake_TB_start_ticks c) (last_OC_factor_inverted c) (m_event_types c) (m_event_queue c) (m_event_fifo_id c) (m_ts_queue c) (m_last_oc_factor c) (m_idled_cycles c) (m_fake_dec_start_value c) (m_fake_dec_start_ticks c) (m_is_global_timer_sane c) (m_ev_lost c) (m_config_oc_factor c) (m_config_oc_inv_factor c) (m_config_sync_on_skip_idle c) (m_throttle_last_cycle c) (m_throttle_clock_per_sec c) (m_throttle_min_clock_per_sleep c)) (ppc_state t)).
Definition t_slice_length : field (Timing CB) Z := Field (fun t => slice_length (core_timing t))
  (fun v t => let c := core_timing t in mkTiming (mkCoreTiming (global_timer c) v (fake_TB_start_value c) (fake_TB_start_ticks c) (last_OC_factor_inverted c) (m_event_types c) (m_event_queue c) (m_event_fifo_id c) (m_ts_queue c) (m_last_oc_factor c) (m_idled_cycles c) (m_fake_dec_start_value c) (m_fake_dec_start_ticks c) (m_is_global_timer_sane c) (m_ev_lost c) (m_config_oc_factor c) (m_config_oc_inv_factor c) (m_config_sync_on_skip_idle c) (m_throttle_last_cycle c) (m_throttle_clock_per_sec c) (m_throttle_min_clock_per_sleep c)) (ppc_state t)).
Definition t_fake_TB_start_value : field (Timing CB) Z := Field (fun t => fake_TB_start_value (core_timing t))
  (fun v t => let c := core_timing t in mkTiming (mkCoreTiming (global_timer c) (slice_length c) v (fake_TB_start_ticks c) (last_OC_factor_inverted c) (m_event_types c) (m_event_queue c) (m_event_fifo_id c) (m_ts_queue c) (m_last_oc_factor c) (m_idled_cycles c) (m_fake_dec_start_value c) (m_fake_dec_start_ticks c) (m_is_global_timer_sane c) (m_ev_lost c) (m_config_oc_factor c) (m_config_oc_inv_factor c) (m_config_sync_on_skip_idle c) (m_throttle_last_cycle c) (m_throttle_clock_per_sec c) (m_throttle_min_clock_per_sleep c)) (ppc_state t)).
Definition t_fake_TB_start_ticks : field (Timing CB) Z := Field (fun t => fake_TB_start_ticks (core_timing t))
  (fun v t => let c := core_timing t in mkTiming (mkCoreTiming (global_timer c) (slice_length c) (fake_TB_start_value c) v (last_OC_factor_inverted c) (m_event_types c) (m_event_queue c) (m_event_fifo_id c) (m_ts_queue c) (m_last_oc_factor c) (m_idled_cycles c) (m_fake_dec_start_value c) (m_fake_dec_start_ticks c) (m_is_global_timer_sane c) (m_ev_lost c) (m_config_oc_factor c) (m_config_oc_inv_factor c) (m_config_sync_on_skip_idle c) (m_throttle_last_cycle c) (m_throttle_clock_per_sec c) (m_throttle_min_clock_per_sleep c)) (ppc_state t)).
Definition t_last_OC_factor_inverted : field (Timing CB) f32 := Field (fun t => last_OC_factor_inverted (core_timing t))
  (fun v t => let c := core_timing t in mkTiming (mkCoreTiming (global_timer c) (slice_length c) (fake_TB_start_value c) (fake_TB_start_ticks c) v (m_event_types c) (m_event_queue c) (m_event_fifo_id c) (m_ts_queue c) (m_last_oc_factor c) (m_idled_cycles c) (m_fake_dec_start_value c) (m_fake_dec_start_ticks c) (m_is_global_timer_sane c) (m_ev_lost c) (m_config_oc_factor c) (m_config_oc_inv_factor c) (m_config_sync_on_skip_idle c) (m_throttle_last_cycle c) (m_throttle_clock_per_sec c) (m_throttle_min_clock_per_sleep c)) (ppc_state t)).
Definition t_m_event_types : field (Timing CB) (gmap string CB) := Field (fun t => m_event_types (core_timing t))
  (fun v t => let c := core_timing t in mkTiming (mkCoreTiming (global_timer c) (slice_length c) (fake_TB_start_value c) (fake_TB_start_ticks c) (last_OC_factor_inverted c) v (m_event_queue c) (m_event_fifo_id c) (m_ts_queue c) (m_last_oc_factor c) (m_idled_cycles c) (m_fake_dec_start_value c) (m_fake_dec_start_ticks c) (m_is_global_timer_sane c) (m_ev_lost c) (m_config_oc_factor c) (m_config_oc_inv_factor c) (m_config_sync_on_skip_idle c) (m_throttle_last_cycle c) (m_throttle_clock_per_sec c) (m_throttle_min_clock_per_sleep c)) (ppc_state t)).
Definition t_m_event_queue : field (Timing CB) (list Event) := Field (fun t => m_event_queue (core_timing t))
  (fun v t => let c := core_timing t in mkTiming (mkCoreTiming (global_timer c) (slice_length c) (fake_TB_start_value c) (fake_TB_start_ticks c) (last_OC_factor_inverted c) (m_event_types c) v (m_event_fifo_id c) (m_ts_queue c) (m_last_oc_factor c) (m_idled_cycles c) (m_fake_dec_start_value c) (m_fake_dec_start_ticks c) (m_is_global_timer_sane c) (m_ev_lost c) (m_config_oc_factor c) (m_config_oc_inv_factor c) (m_config_sync_on_skip_idle c) (m_throttle_last_cycle c) (m_throttle_clock_per_sec c) (m_throttle_min_clock_per_sleep c)) (ppc_state t)).
Definition t_m_event_fifo_id : field (Timing CB) Z := Field (fun t => m_event_fifo_id (core_timing t))
  (fun v t => let c := core_timing t in mkTiming (mkCoreTiming (global_timer c) (slice_length c) (fake_TB_start_value c) (fake_TB_start_ticks c) (last_OC_factor_inverted c) (m_event_types c) (m_event_queue c) v (m_ts_queue c) (m_last_oc_factor c) (m_idled_cycles c) (m_fake_dec_start_value c) (m_fake_dec_start_ticks c) (m_is_global_timer_sane c) (m_ev_lost c) (m_config_oc_factor c) (m_config_oc_inv_factor c) (m_config_sync_on_skip_idle c) (m_throttle_last_cycle c) (m_throttle_clock_per_sec c) (m_throttle_min_clock_per_sleep c)) (ppc_state t)).
Definition t_m_ts_queue : field (Timing CB) (list Event) := Field (fun t => m_ts_queue (core_timing t))
  (fun v t => let c := core_timing t in mkTiming (mkCoreTiming (global_timer c) (slice_length c) (fake_TB_start_value c) (fake_TB_start_ticks c) (last_OC_factor_inverted c) (m_event_types c) (m_event_queue c) (m_event_fifo_id c) v (m_last_oc_factor c) (m_idled_cycles c) (m_fake_dec_start_value c) (m_fake_dec_start_ticks c) (m_is_global_timer_sane c) (m_ev_lost c) (m_config_oc_factor c) (m_config_oc_inv_factor c) (m_config_sync_on_skip_idle c) (m_throttle_last_cycle c) (m_throttle_clock_per_sec c) (m_throttle_min_clock_per_sleep c)) (ppc_state t)).
Definition t_m_last_oc_factor : field (Timing CB) f32 := Field (fun t => m_last_oc_factor (core_timing t))
  (fun v t => let c := core_timing t in mkTiming (mkCoreTiming (global_timer c) (slice_length c) (fake_TB_start_value c) (fake_TB_start_ticks c) (last_OC_factor_inverted c) (m_event_types c) (m_event_queue c) (m_event_fifo_id c) (m_ts_queue c) v (m_idled_cycles c) (m_fake_dec_start_value c) (m_fake_dec_start_ticks c) (m_is_global_timer_sane c) (m_ev_lost c) (m_config_oc_factor c) (m_config_oc_inv_factor c) (m_config_sync_on_skip_idle c) (m_throttle_last_cycle c) (m_throttle_clock_per_sec c) (m_throttle_min_clock_per_sleep c)) (ppc_state t)).
Definition t_m_idled_cycles : field (Timing CB) Z := Field (fun t => m_idled_cycles (core_timing t))
  (fun v t => let c := core_timing t in mkTiming (mkCoreTiming (global_timer c) (slice_length c) (fake_TB_start_value c) (fake_TB_start_ticks c) (last_OC_factor_inverted c) (m_event_types c) (m_event_queue c) (m_event_fifo_id c) (m_ts_queue c) (m_last_oc_factor c) v (m_fake_dec_start_value c) (m_fake_dec_start_ticks c) (m_is_global_timer_sane c) (m_ev_lost c) (m_config_oc_factor c) (m_config_oc_inv_factor c) (m_config_sync_on_skip_idle c) (m_throttle_last_cycle c) (m_throttle_clock_per_sec c) (m_throttle_min_clock_per_sleep c)) (ppc_state t)).
Definition t_m_fake_dec_start_value : field (Timing CB) Z := Field (fun t => m_fake_dec_start_value (core_timing t))
  (fun v t => let c := core_timing t in mkTiming (mkCoreTiming (global_timer c) (slice_length c) (fake_TB_start_value c) (fake_TB_start_ticks c) (last_OC_factor_inverted c) (m_event_types c) (m_event_queue c) (m_event_fifo_id c) (m_ts_queue c) (m_last_oc_factor c) (m_idled_cycles c) v (m_fake_dec_start_ticks c) (m_is_global_timer_sane c) (m_ev_lost c) (m_config_oc_factor c) (m_config_oc_inv_factor c) (m_config_sync_on_skip_idle c) (m_throttle_last_cycle c) (m_throttle_clock_per_sec c) (m_throttle_min_clock_per_sleep c)) (ppc_state t)).
Definition t_m_fake_dec_start_ticks : field (Timing CB) Z := Field (fun t => m_fake_dec_start_ticks (core_timing t))
  (fun v t => let c := core_timing t in mkTiming (mkCoreTiming (global_timer c) (slice_length c) (fake_TB_start_value c) (fake_TB_start_ticks c) (last_OC_factor_inverted c) (m_event_types c) (m_event_queue c) (m_event_fifo_id c) (m_ts_queue c) (m_last_oc_factor c) (m_idled_cycles c) (m_fake_dec_start_value c) v (m_is_global_timer_sane c) (m_ev_lost c) (m_config_oc_factor c) (m_config_oc_inv_factor c) (m_config_sync_on_skip_idle c) (m_throttle_last_cycle c) (m_throttle_clock_per_sec c) (m_throttle_min_clock_per_sleep c)) (ppc_state t)).
Definition t_m_is_global_timer_sane : field (Timing CB) bool := Field (fun t => m_is_global_timer_sane (core_timing t))
  (fun v t => let c := core_timing t in mkTiming (mkCoreTiming (global_timer c) (slice_length c) (fake_TB_start_value c) (fake_TB_start_ticks c) (last_OC_factor_inverted c) (m_event_types c) (m_event_queue c) (m_event_fifo_id c) (m_ts_queue c) (m_last_oc_factor c) (m_idled_cycles c) (m_fake_dec_start_value c) (m_fake_dec_start_ticks c) v (m_ev_lost c) (m_config_oc_factor c) (m_config_oc_inv_factor c) (m_config_sync_on_skip_idle c) (m_throttle_last_cycle c) (m_throttle_clock_per_sec c) (m_throttle_min_clock_per_sleep c)) (ppc_state t)).
Definition t_m_ev_lost : field (Timing CB) (option string) := Field (fun t => m_ev_lost (core_timing t))
  (fun v t => let c := core_timing t in mkTiming (mkCoreTiming (global_timer c) (slice_length c) (fake_TB_start_value c) (fake_TB_start_ticks c) (last_OC_factor_inverted c) (m_event_types c) (m_event_queue c) (m_event_fifo_id c) (m_ts_queue c) (m_last_oc_factor c) (m_idled_cycles c) (m_fake_dec_start_value c) (m_fake_dec_start_ticks c) (m_is_global_timer_sane c) v (m_config_oc_factor c) (m_config_oc_inv_factor c) (m_config_sync_on_skip_idle c) (m_throttle_last_cycle c) (m_throttle_clock_per_sec c) (m_throttle_min_clock_per_sleep c)) (ppc_state t)).
Definition t_m_config_oc_factor : field (Timing CB) f32 := Field (fun t => m_config_oc_factor (core_timing t))
  (fun v t => let c := core_timing t in mkTiming (mkCoreTiming (global_timer c) (slice_length c) (fake_TB_start_value c) (fake_TB_start_ticks c) (last_OC_factor_inverted c) (m_event_types c) (m_event_queue c) (m_event_fifo_id c) (m_ts_queue c) (m_last_oc_factor c) (m_idled_cycles c) (m_fake_dec_start_value c) (m_fake_dec_start_ticks c) (m_is_global_timer_sane c) (m_ev_lost c) v (m_config_oc_inv_factor c) (m_config_sync_on_skip_idle c) (m_throttle_last_cycle c) (m_throttle_clock_per_sec c) (m_throttle_min_clock_per_sleep c)) (ppc_state t)).
Definition t_m_config_oc_inv_factor : field (Timing CB) f32 := Field (fun t => m_config_oc_inv_factor (core_timing t))
  (fun v t => let c := core_timing t in mkTiming (mkCoreTiming (global_timer c) (slice_length c) (fake_TB_start_value c) (fake_TB_start_ticks c) (last_OC_factor_inverted c) (m_event_types c) (m_event_queue c) (m_event_fifo_id c) (m_ts_queue c) (m_last_oc_factor c) (m_idled_cycles c) (m_fake_dec_start_value c) (m_fake_dec_start_ticks c) (m_is_global_timer_sane c) (m_ev_lost c) (m_config_oc_factor c) v (m_config_sync_on_skip_idle c) (m_throttle_last_cycle c) (m_throttle_clock_per_sec c) (m_throttle_min_clock_per_sleep c)) (ppc_state t)).
Definition t_m_config_sync_on_skip_idle : field (Timing CB) bool := Field (fun t => m_config_sync_on_skip_idle (core_timing t))
  (fun v t => let c := core_timing t in mkTiming (mkCoreTiming (global_timer c) (slice_length c) (fake_TB_start_value c) (fake_TB_start_ticks c) (last_OC_factor_inverted c) (m_event_types c) (m_event_queue c) (m_event_fifo_id c) (m_ts_queue c) (m_last_oc_factor c) (m_idled_cycles c) (m_fake_dec_start_value c) (m_fake_dec_start_ticks c) (m_is_global_timer_sane c) (m_ev_lost c) (m_config_oc_factor c) (m_config_oc_inv_factor c) v (m_throttle_last_cycle c) (m_throttle_clock_per_sec c) (m_throttle_min_clock_per_sleep c)) (ppc_state t)).
Definition t_m_throttle_last_cycle : field (Timing CB) Z := Field (fun t => m_throttle_last_cycle (core_timing t))
  (fun v t => let c := core_timing t in mkTiming (mkCoreTiming (global_timer c) (slice_length c) (fake_TB_start_value c) (fake_TB_start_ticks c) (last_OC_factor_inverted c) (m_event_types c) (m_event_queue c) (m_event_fifo_id c) (m_ts_queue c) (m_last_oc_factor c) (m_idled_cycles c) (m_fake_dec_start_value c) (m_fake_dec_start_ticks c) (m_is_global_timer_sane c) (m_ev_lost c) (m_config_oc_factor c) (m_config_oc_inv_factor c) (m_config_sync_on_skip_idle c) v (m_throttle_clock_per_sec c) (m_throttle_min_clock_per_sleep c)) (ppc_state t)).
Definition t_m_throttle_clock_per_sec : field (Timing CB) Z := Field (fun t => m_throttle_clock_per_sec (core_timing t))
  (fun v t => let c := core_timing t in mkTiming (mkCoreTiming (global_timer c) (slice_length c) (fake_TB_start_value c) (fake_TB_start_ticks c) (last_OC_factor_inverted c) (m_event_types c) (m_event_queue c) (m_event_fifo_id c) (m_ts_queue c) (m_last_oc_factor c) (m_idled_cycles c) (m_fake_dec_start_value c) (m_fake_dec_start_ticks c) (m_is_global_timer_sane c) (m_ev_lost c) (m_config_oc_factor c) (m_config_oc_inv_factor c) (m_config_sync_on_skip_idle c) (m_throttle_last_cycle c) v (m_throttle_min_clock_per_sleep c)) (ppc_state t)).
Definition t_m_throttle_min_clock_per_sleep : field (Timing CB) Z := Field (fun t => m_throttle_min_clock_per_sleep (core_timing t))
  (fun v t => let c := core_timing t in mkTiming (mkCoreTiming (global_timer c) (slice_length c) (fake_TB_start_value c) (fake_TB_start_ticks c) (last_OC_factor_inverted c) (m_event_types c) (m_event_queue c) (m_event_fifo_id c) (m_ts_queue c) (m_last_oc_factor c) (m_idled_cycles c) (m_fake_dec_start_value c) (m_fake_dec_start_ticks c) (m_is_global_timer_sane c) (m_ev_lost c) (m_config_oc_factor c) (m_config_oc_inv_factor c) (m_config_sync_on_skip_idle c) (m_throttle_last_cycle c) (m_throttle_clock_per_sec c) v) (ppc_state t)).
Definition t_downcount : field (Timing CB) Z := Field (fun t => downcount (ppc_state t))
  (fun v t => mkTiming (core_timing t) (fset p_downcount v (ppc_state t))).
End Fields.

(** * Operations *)

Abbreviation MAX_SLICE_LENGTH := 20000 (only parsing).

Inductive FromThread : Type := FromCPU | FromNonCPU | FromAny.

Section Operations.
Context {CB : Type} {heap : HeapAlgorithms}.
Implicit Type t : Timing CB.

(** ** Clock *)

Definition DowncountToCycles (dc : Z) t : Z :=
  int_of_f32 (f32_mul (f32_of_int dc) (fget t_last_OC_factor_inverted t)).
Definition CyclesToDowncount (cycles : Z) t : Z :=
  int_of_f32 (f32_mul (f32_of_int cycles) (fget t_m_last_oc_factor t)).

Definition GetTicks t : Z :=
  let ticks := to_u64 (fget t_global_timer t) in
  if fget t_m_is_global_timer_sane t then ticks
  else
    let dc := DowncountToCycles (fget t_downcount t) t in
    to_u64 (ticks + to_s32 (fget t_slice_length t - dc)).

Definition GetIdleTicks t : Z := to_u64 (fget t_m_idled_cycles t).

Definition ForceExceptionCheck (cycles : Z) t : Timing CB :=
  let cycles := Z.max 0 cycles in
  if cycles <? DowncountToCycles (fget t_downcount t) t then
    let t := fset t_slice_length
      (to_s32 (fget t_slice_length t - to_s32 (DowncountToCycles (fget t_downcount t) t - to_s32 cycles))) t in
    fset t_downcount (CyclesToDowncount (to_s32 cycles) t) t
  else t.

(** ** The event queue *)

(** [emplace] keeps an entry that is already there. *)
Definition RegisterEvent (name : string) (cb : CB) t : Timing CB :=
  match fget t_m_event_types t !! name with
  | Some _ => t
  | None => fset t_m_event_types (<[name := cb]> (fget t_m_event_types t)) t
  end.

Definition UnregisterAllEvents t : Timing CB := fset t_m_event_types ∅ t.
Definition ClearPendingEvents t : Timing CB := fset t_m_event_queue [] t.

(** [m_event_queue.emplace_back(e); std::push_heap(...)] *)
Definition queue_push (e : Event) t : Timing CB :=
  fset t_m_event_queue (push_heap (fget t_m_event_queue t ++ [e])) t.

(** [m_event_fifo_id++] *)
Definition next_fifo_id t : Timing CB := fset t_m_event_fifo_id (to_u64 (fget t_m_event_fifo_id t + 1)) t.

(** [is_cpu_thread] is [Core::IsCPUThread()]. *)
Definition ScheduleEvent (cycles_into_future : Z) (event_type : string) (userdata : Z) (from : FromThread)
    (is_cpu_thread : bool) t : Timing CB :=
  let from_cpu_thread := match from with FromAny => is_cpu_thread | FromCPU => true | FromNonCPU => false end in
  if from_cpu_thread then
    let timeout := to_s64 (GetTicks t + cycles_into_future) in
    let t := if fget t_m_is_global_timer_sane t then t else ForceExceptionCheck cycles_into_future t in
    let e := mkEvent timeout (fget t_m_event_fifo_id t) userdata event_type in
    queue_push e (next_fifo_id t)
  else
    let e := mkEvent (to_s64 (fget t_global_timer t + cycles_into_future)) 0 userdata event_type in
    fset t_m_ts_queue (fget t_m_ts_queue t ++ [e]) t.

(** [std::erase_if], and a new heap when anything was erased. *)
Definition RemoveEvent (event_type : string) t : Timing CB :=
  let q := fget t_m_event_queue t in
  let kept := filter (fun e => type e <> event_type) q in
  if (length kept =? length q)%nat then t
  else fset t_m_event_queue (make_heap kept) t.

Definition move_event (ev : Event) t : Timing CB :=
  queue_push (mkEvent (time ev) (fget t_m_event_fifo_id t) (userdata ev) (type ev)) (next_fifo_id t).

(** Empties the thread-safe queue, oldest first. *)
Definition MoveEvents t : Timing CB :=
  foldl (fun t ev => move_event ev t) (fset t_m_ts_queue [] t) (fget t_m_ts_queue t).

Definition RemoveAllEvents (event_type : string) t : Timing CB := RemoveEvent event_type (MoveEvents t).

(** The products and quotients are on [s64]; the clocks are [u32]. *)
Definition AdjustEventQueueTimes (new_ppc_clock old_ppc_clock : Z) t : Timing CB :=
  let t := fset t_m_throttle_clock_per_sec new_ppc_clock t in
  let t := fset t_m_throttle_min_clock_per_sleep (new_ppc_clock / 1200) t in
  let now := fget t_global_timer t in
  let adjust ev :=
    let ticks := to_s64 (to_s64 (to_s64 (time ev - now) * new_ppc_clock) ÷ old_ppc_clock) in
    mkEvent (to_s64 (now + ticks)) (fifo_order ev) (userdata ev) (type ev) in
  fset t_m_event_queue (map adjust (fget t_m_event_queue t)) t.

(** ** Initialisation and configuration *)

(** The settings read: overclocking enabled, its factor, and waiting for the GPU. *)
Definition RefreshConfig (overclock_enable : bool) (overclock : f32) (sync_on_skip_idle : bool) t : Timing CB :=
  let factor := if overclock_enable then overclock else f32_one in
  let t := fset t_m_config_oc_factor factor t in
  let t := fset t_m_config_oc_inv_factor (f32_div f32_one factor) t in
  fset t_m_config_sync_on_skip_idle sync_on_skip_idle t.

Definition ResetThrottle (cycle : Z) t : Timing CB := fset t_m_throttle_last_cycle cycle t.

(** [EmptyTimedCallback] is the callback of the same name. *)
Definition Init (EmptyTimedCallback : CB) (overclock_enable : bool) (overclock : f32) (sync_on_skip_idle : bool) t :
    Timing CB :=
  let t := RefreshConfig overclock_enable overclock sync_on_skip_idle t in
  let t := fset t_m_last_oc_factor (fget t_m_config_oc_factor t) t in
  let t := fset t_last_OC_factor_inverted (fget t_m_config_oc_inv_factor t) t in
  let t := fset t_downcount (CyclesToDowncount MAX_SLICE_LENGTH t) t in
  let t := fset t_slice_length MAX_SLICE_LENGTH t in
  let t := fset t_global_timer 0 t in
  let t := fset t_m_idled_cycles 0 t in
  let t := fset t_m_is_global_timer_sane true t in
  let t := ResetThrottle 0 t in
  let t := fset t_m_event_fifo_id 0 t in
  fset t_m_ev_lost (Some "_lost_event"%string) (RegisterEvent "_lost_event" EmptyTimedCallback t).

Definition Shutdown t : Timing CB := UnregisterAllEvents (ClearPendingEvents (MoveEvents t)).

(** The wait for the GPU before idling is not modelled. *)
Definition Idle t : Timing CB :=
  let t := fset f_ppc_state (UpdatePerformanceMonitor (to_u32 (fget t_downcount t)) 0 0 (ppc_state t)) t in
  let t := fset t_m_idled_cycles
    (to_s64 (fget t_m_idled_cycles t + DowncountToCycles (fget t_downcount t) t)) t in
  fset t_downcount 0 t.
End Operations.

(** * Advance

    The callbacks of the events are operations on the whole system, of which the
    clock is a part. *)

Class EventSystem (Sys CB : Type) : Type := {
  f_timing : field Sys (Timing CB);
  invoke : CB -> Z -> Z -> M Sys unit;
  CheckForConfigChanges : Sys -> Sys
}.

Section Advance.
Context {Sys CB : Type} {heap : HeapAlgorithms} {sys : EventSystem Sys CB}.

Definition timing (s : Sys) : Timing CB := fget f_timing s.
Definition modt (f : Timing CB -> Timing CB) : M Sys unit := modf f_timing f.

(** A type that is not registered cannot be pointed to. *)
Definition callback (name : string) (userdata cycles_late : Z) : M Sys unit := fun s =>
  match fget t_m_event_types (timing s) !! name with
  | Some cb => invoke cb userdata cycles_late s
  | None => Fault HostRangeInvalid
  end.

(** The loop over the events that are due; [fuel] bounds its turns. *)
Fixpoint run_events (fuel : nat) : M Sys (option unit) :=
  match fuel with
  | O => mret None
  | S fuel' =>
      t ← getf f_timing;
      match fget t_m_event_queue t with
      | evt :: _ =>
          if time evt <=? fget t_global_timer t then
            modt (fun t => fset t_m_event_queue (removelast (pop_heap (fget t_m_event_queue t))) t) ;;
            t ← getf f_timing;
            callback (type evt) (userdata evt) (to_s64 (fget t_global_timer t - time evt)) ;;
            run_events fuel'
          else mret (Some tt)
      | [] => mret (Some tt)
      end
  end.

(** The end of the old slice. *)
Definition end_slice (t : Timing CB) : Timing CB :=
  let cyclesExecuted := to_s32 (fget t_slice_length t - DowncountToCycles (fget t_downcount t) t) in
  let t := fset t_global_timer (to_s64 (fget t_global_timer t + cyclesExecuted)) t in
  let t := fset t_m_last_oc_factor (fget t_m_config_oc_factor t) t in
  let t := fset t_last_OC_factor_inverted (fget t_m_config_oc_inv_factor t) t in
  let t := fset t_slice_length MAX_SLICE_LENGTH t in
  fset t_m_is_global_timer_sane true t.

(** The start of the new one, up to the next event. *)
Definition start_slice (t : Timing CB) : Timing CB :=
  let t := fset t_m_is_global_timer_sane false t in
  let t := match fget t_m_event_queue t with
           | [] => t
           | ev :: _ =>
               fset t_slice_length
                 (to_s32 (Z.min (to_s64 (time ev - fget t_global_timer t)) MAX_SLICE_LENGTH)) t
           end in
  let t := fset t_downcount (CyclesToDowncount (fget t_slice_length t) t) t in
  fset f_ppc_state (CheckExternalExceptions (ppc_state t)) t.

Definition Advance (fuel : nat) : M Sys (option unit) :=
  (fun s => Done tt (CheckForConfigChanges s)) ;;
  modt MoveEvents ;;
  modt end_slice ;;
  r ← run_events fuel;
  match r with
  | None => mret None
  | Some _ => modt start_slice ;; mret (Some tt)
  end.
End Advance.
