(* ===== verification/Machine.v ===== *)
(** The machine around the DSP: the clock, physical memory, the interrupt lines, the
    CPU's side of the DSP and the timers, and the interface of [DSPHost.cpp] that they
    give the DSP core. *)
From stdpp Require Import base tactics option list gmap strings.
From Stdlib Require Import ZArith Lia Bool.
From S2P Require Import Prelude Accelerator DSPState PowerPC ProcessorInterface Memmap CoreTiming.

#[local] Open Scope Z_scope.

(** * State *)

(** The callbacks of events ([TimedCallback] is a function pointer in the code); those of
    devices that are not modelled go by their name. *)
Inductive TimedCallback : Type :=
  | EmptyTimedCallback
  | GlobalGenerateDSPInterrupt
  | GlobalCompleteARAM
  | DSPCallback
  | AudioDMACallback
  | DecrementerCallback
  | OtherCallback (name : string).

(** The device in the high-speed port ([Core/HW/HSP]). *)
Inductive HSPDevice : Type :=
  | NoDevice
  | DeviceNull
  | ARAMExpansion (mask : Z) (contents : arr).

(** [DSPManager], without the emulator object.  [aram_mem] is the memory behind
    [m_aram.ptr] on a GameCube; on a Wii the pointer is that of the extra memory.  The
    members of [m_audio_dma] and [m_aram_dma] are members of their own, the bit-field
    unions are their [Hex]. *)
Record DSPManager : Type := mkDSPManager {
  wii_mode : bool;
  aram_size : Z;
  aram_mask : Z;
  aram_mem : arr;
  current_source_address : Z;
  remaining_blocks_count : Z;
  SourceAddress : Z;
  AudioDMAControl : Z;
  MMAddr : Z;
  ARAddr : Z;
  Cnt : Z;
  m_dsp_control : Z;
  m_aram_info : Z;
  m_aram_mode : Z;
  m_aram_refresh : Z;
  m_dsp_slice : Z
}.

(** The system.  [m_samples] is what was sent to the mixer, the oldest first. *)
Record Machine : Type := mkMachine {
  m_timing : Timing TimedCallback;
  m_memory : MemoryManager;
  m_pi : ProcessorInterface;
  m_dsp : DSPManager;
  m_hsp : HSPDevice;
  m_cpu_core_clock : Z;
  m_aid_sample_rate_divisor : Z;
  m_samples : list (list Z);
  m_is_wii : bool
}.

Definition d_wii_mode : field DSPManager bool := Field wii_mode (fun v d => mkDSPManager v (aram_size d) (aram_mask d) (aram_mem d) (current_source_address d) (remaining_blocks_count d) (SourceAddress d) (AudioDMAControl d) (MMAddr d) (ARAddr d) (Cnt d) (m_dsp_control d) (m_aram_info d) (m_aram_mode d) (m_aram_refresh d) (m_dsp_slice d)).
Definition d_aram_size : field DSPManager Z := Field aram_size (fun v d => mkDSPManager (wii_mode d) v (aram_mask d) (aram_mem d) (current_source_address d) (remaining_blocks_count d) (SourceAddress d) (AudioDMAControl d) (MMAddr d) (ARAddr d) (Cnt d) (m_dsp_control d) (m_aram_info d) (m_aram_mode d) (m_aram_refresh d) (m_dsp_slice d)).
Definition d_aram_mask : field DSPManager Z := Field aram_mask (fun v d => mkDSPManager (wii_mode d) (aram_size d) v (aram_mem d) (current_source_address d) (remaining_blocks_count d) (SourceAddress d) (AudioDMAControl d) (MMAddr d) (ARAddr d) (Cnt d) (m_dsp_control d) (m_aram_info d) (m_aram_mode d) (m_aram_refresh d) (m_dsp_slice d)).
Definition d_aram_mem : field DSPManager arr := Field aram_mem (fun v d => mkDSPManager (wii_mode d) (aram_size d) (aram_mask d) v (current_source_address d) (remaining_blocks_count d) (SourceAddress d) (AudioDMAControl d) (MMAddr d) (ARAddr d) (Cnt d) (m_dsp_control d) (m_aram_info d) (m_aram_mode d) (m_aram_refresh d) (m_dsp_slice d)).
Definition d_current_source_address : field DSPManager Z := Field current_source_address (fun v d => mkDSPManager (wii_mode d) (aram_size d) (aram_mask d) (aram_mem d) v (remaining_blocks_count d) (SourceAddress d) (AudioDMAControl d) (MMAddr d) (ARAddr d) (Cnt d) (m_dsp_control d) (m_aram_info d) (m_aram_mode d) (m_aram_refresh d) (m_dsp_slice d)).
Definition d_remaining_blocks_count : field DSPManager Z := Field remaining_blocks_count (fun v d => mkDSPManager (wii_mode d) (aram_size d) (aram_mask d) (aram_mem d) (current_source_address d) v (SourceAddress d) (AudioDMAControl d) (MMAddr d) (ARAddr d) (Cnt d) (m_dsp_control d) (m_aram_info d) (m_aram_mode d) (m_aram_refresh d) (m_dsp_slice d)).
Definition d_SourceAddress : field DSPManager Z := Field SourceAddress (fun v d => mkDSPManager (wii_mode d) (aram_size d) (aram_mask d) (aram_mem d) (current_source_address d) (remaining_blocks_count d) v (AudioDMAControl d) (MMAddr d) (ARAddr d) (Cnt d) (m_dsp_control d) (m_aram_info d) (m_aram_mode d) (m_aram_refresh d) (m_dsp_slice d)).
Definition d_AudioDMAControl : field DSPManager Z := Field AudioDMAControl (fun v d => mkDSPManager (wii_mode d) (aram_size d) (aram_mask d) (aram_mem d) (current_source_address d) (remaining_blocks_count d) (SourceAddress d) v (MMAddr d) (ARAddr d) (Cnt d) (m_dsp_control d) (m_aram_info d) (m_aram_mode d) (m_aram_refresh d) (m_dsp_slice d)).
Definition d_MMAddr : field DSPManager Z := Field MMAddr (fun v d => mkDSPManager (wii_mode d) (aram_size d) (aram_mask d) (aram_mem d) (current_source_address d) (remaining_blocks_count d) (SourceAddress d) (AudioDMAControl d) v (ARAddr d) (Cnt d) (m_dsp_control d) (m_aram_info d) (m_aram_mode d) (m_aram_refresh d) (m_dsp_slice d)).
Definition d_ARAddr : field DSPManager Z := Field ARAddr (fun v d => mkDSPManager (wii_mode d) (aram_size d) (aram_mask d) (aram_mem d) (current_source_address d) (remaining_blocks_count d) (SourceAddress d) (AudioDMAControl d) (MMAddr d) v (Cnt d) (m_dsp_control d) (m_aram_info d) (m_aram_mode d) (m_aram_refresh d) (m_dsp_slice d)).
Definition d_Cnt : field DSPManager Z := Field Cnt (fun v d => mkDSPManager (wii_mode d) (aram_size d) (aram_mask d) (aram_mem d) (current_source_address d) (remaining_blocks_count d) (SourceAddress d) (AudioDMAControl d) (MMAddr d) (ARAddr d) v (m_dsp_control d) (m_aram_info d) (m_aram_mode d) (m_aram_refresh d) (m_dsp_slice d)).
Definition d_m_dsp_control : field DSPManager Z := Field m_dsp_control (fun v d => mkDSPManager (wii_mode d) (aram_size d) (aram_mask d) (aram_mem d) (current_source_address d) (remaining_blocks_count d) (SourceAddress d) (AudioDMAControl d) (MMAddr d) (ARAddr d) (Cnt d) v (m_aram_info d) (m_aram_mode d) (m_aram_refresh d) (m_dsp_slice d)).
Definition d_m_aram_info : field DSPManager Z := Field m_aram_info (fun v d => mkDSPManager (wii_mode d) (aram_size d) (aram_mask d) (aram_mem d) (current_source_address d) (remaining_blocks_count d) (SourceAddress d) (AudioDMAControl d) (MMAddr d) (ARAddr d) (Cnt d) (m_dsp_control d) v (m_aram_mode d) (m_aram_refresh d) (m_dsp_slice d)).
Definition d_m_aram_mode : field DSPManager Z := Field m_aram_mode (fun v d => mkDSPManager (wii_mode d) (aram_size d) (aram_mask d) (aram_mem d) (current_source_address d) (remaining_blocks_count d) (SourceAddress d) (AudioDMAControl d) (MMAddr d) (ARAddr d) (Cnt d) (m_dsp_control d) (m_aram_info d) v (m_aram_refresh d) (m_dsp_slice d)).
Definition d_m_aram_refresh : field DSPManager Z := Field m_aram_refresh (fun v d => mkDSPManager (wii_mode d) (aram_size d) (aram_mask d) (aram_mem d) (current_source_address d) (remaining_blocks_count d) (SourceAddress d) (AudioDMAControl d) (MMAddr d) (ARAddr d) (Cnt d) (m_dsp_control d) (m_aram_info d) (m_aram_mode d) v (m_dsp_slice d)).
Definition d_m_dsp_slice : field DSPManager Z := Field m_dsp_slice (fun v d => mkDSPManager (wii_mode d) (aram_size d) (aram_mask d) (aram_mem d) (current_source_address d) (remaining_blocks_count d) (SourceAddress d) (AudioDMAControl d) (MMAddr d) (ARAddr d) (Cnt d) (m_dsp_control d) (m_aram_info d) (m_aram_mode d) (m_aram_refresh d) v).

Definition mf_timing : field Machine (Timing TimedCallback) := Field m_timing (fun v m => mkMachine v (m_memory m) (m_pi m) (m_dsp m) (m_hsp m) (m_cpu_core_clock m) (m_aid_sample_rate_divisor m) (m_samples m) (m_is_wii m)).
Definition mf_memory : field Machine MemoryManager := Field m_memory (fun v m => mkMachine (m_timing m) v (m_pi m) (m_dsp m) (m_hsp m) (m_cpu_core_clock m) (m_aid_sample_rate_divisor m) (m_samples m) (m_is_wii m)).
Definition mf_pi : field Machine ProcessorInterface := Field m_pi (fun v m => mkMachine (m_timing m) (m_memory m) v (m_dsp m) (m_hsp m) (m_cpu_core_clock m) (m_aid_sample_rate_divisor m) (m_samples m) (m_is_wii m)).
Definition mf_dsp : field Machine DSPManager := Field m_dsp (fun v m => mkMachine (m_timing m) (m_memory m) (m_pi m) v (m_hsp m) (m_cpu_core_clock m) (m_aid_sample_rate_divisor m) (m_samples m) (m_is_wii m)).
Definition mf_hsp : field Machine HSPDevice := Field m_hsp (fun v m => mkMachine (m_timing m) (m_memory m) (m_pi m) (m_dsp m) v (m_cpu_core_clock m) (m_aid_sample_rate_divisor m) (m_samples m) (m_is_wii m)).
Definition mf_cpu_core_clock : field Machine Z := Field m_cpu_core_clock (fun v m => mkMachine (m_timing m) (m_memory m) (m_pi m) (m_dsp m) (m_hsp m) v (m_aid_sample_rate_divisor m) (m_samples m) (m_is_wii m)).
Definition mf_aid_sample_rate_divisor : field Machine Z := Field m_aid_sample_rate_divisor (fun v m => mkMachine (m_timing m) (m_memory m) (m_pi m) (m_dsp m) (m_hsp m) (m_cpu_core_clock m) v (m_samples m) (m_is_wii m)).
Definition mf_samples : field Machine (list (list Z)) := Field m_samples (fun v m => mkMachine (m_timing m) (m_memory m) (m_pi m) (m_dsp m) (m_hsp m) (m_cpu_core_clock m) (m_aid_sample_rate_divisor m) v (m_is_wii m)).
Definition mf_is_wii : field Machine bool := Field m_is_wii (fun v m => mkMachine (m_timing m) (m_memory m) (m_pi m) (m_dsp m) (m_hsp m) (m_cpu_core_clock m) (m_aid_sample_rate_divisor m) (m_samples m) v).

(** A member of a member. *)
Definition compose {S A B} (F : field S A) (G : field A B) : field S B :=
  Field (fun s => fget G (fget F s)) (fun v s => fset F (fset G v (fget F s)) s).

(** An operation on a member. *)
Definition on {S A B} (F : field S A) (m : M A B) : M S B := fun s =>
  match m (fget F s) with
  | Done b a => Done b (fset F a s)
  | Fault f => Fault f
  end.

Definition f_wii_mode : field Machine bool := compose mf_dsp d_wii_mode.
Definition f_aram_size : field Machine Z := compose mf_dsp d_aram_size.
Definition f_aram_mask : field Machine Z := compose mf_dsp d_aram_mask.
Definition f_aram_mem : field Machine arr := compose mf_dsp d_aram_mem.
Definition f_current_source_address : field Machine Z := compose mf_dsp d_current_source_address.
Definition f_remaining_blocks_count : field Machine Z := compose mf_dsp d_remaining_blocks_count.
Definition f_SourceAddress : field Machine Z := compose mf_dsp d_SourceAddress.
Definition f_AudioDMAControl : field Machine Z := compose mf_dsp d_AudioDMAControl.
Definition f_MMAddr : field Machine Z := compose mf_dsp d_MMAddr.
Definition f_ARAddr : field Machine Z := compose mf_dsp d_ARAddr.
Definition f_Cnt : field Machine Z := compose mf_dsp d_Cnt.
Definition f_m_dsp_control : field Machine Z := compose mf_dsp d_m_dsp_control.
Definition f_m_aram_info : field Machine Z := compose mf_dsp d_m_aram_info.
Definition f_m_aram_mode : field Machine Z := compose mf_dsp d_m_aram_mode.
Definition f_m_aram_refresh : field Machine Z := compose mf_dsp d_m_aram_refresh.
Definition f_m_dsp_slice : field Machine Z := compose mf_dsp d_m_dsp_slice.

(** * Operations of other components, on the machine *)

Abbreviation TIMER_RATIO := 12 (only parsing).
Abbreviation INT_DSP := 0x80 (only parsing).
Abbreviation INT_ARAM := 0x20 (only parsing).
Abbreviation INT_AID := 0x08 (only parsing).

Section Host.
Context {heap : HeapAlgorithms}.

(** [GetCoreTiming().ScheduleEvent(...)], from the CPU thread. *)
Definition Schedule (cycles_into_future : Z) (event_type : string) (userdata : Z) (m : Machine) : Machine :=
  fset mf_timing (ScheduleEvent cycles_into_future event_type userdata FromCPU true (m_timing m)) m.

Definition MachineSetInterrupt (cause_mask : Z) (set : bool) (m : Machine) : Machine :=
  let '(x, p) := SetInterrupt cause_mask set (m_pi m, ppc_state (m_timing m)) in
  fset mf_pi x (fset mf_timing (fset f_ppc_state p (m_timing m)) m).

(** ** [SystemTimers.cpp] *)


Definition TimersGetFakeTimeBase (m : Machine) : Z :=
  let t := m_timing m in
  to_u64 (fget t_fake_TB_start_value t + to_u64 (GetTicks t - fget t_fake_TB_start_ticks t) / TIMER_RATIO).

(** ** [HW/DSP.cpp] *)


Definition GenerateDSPInterruptFromDSPEmu (type cycles_into_future : Z) (m : Machine) : Machine :=
  fset mf_timing (ScheduleEvent cycles_into_future "DSPint" type FromAny true (m_timing m)) m.

(** [m_aram.ptr[i]] *)
Definition aram_bytes (m : Machine) : arr :=
  if wii_mode (m_dsp m) then region_bytes EXRAM (m_memory m) else aram_mem (m_dsp m).
Definition set_aram (a : arr) (m : Machine) : Machine :=
  if wii_mode (m_dsp m) then fset mf_memory (set_region EXRAM a (m_memory m)) m
  else fset f_aram_mem a m.

Definition ManagerReadARAM (address : Z) (m : Machine) : Z :=
  if wii_mode (m_dsp m) then
    if negb ((address .& 0x10000000) =? 0) then aat (aram_bytes m) (address .& aram_mask (m_dsp m))
    else Read_U8 (address .& m_ram_mask (m_memory m)) (m_memory m)
  else aat (aram_bytes m) (address .& aram_mask (m_dsp m)).

Definition ManagerWriteARAM (value address : Z) (m : Machine) : Machine :=
  set_aram (aupd (aram_bytes m) (address .& aram_mask (m_dsp m)) value) m.

(** ** [DSPHost.cpp]

    A byte at an offset from a valid pointer is the byte of that address. *)

Definition memory_u8 (a : Z) (m : MemoryManager) : Z :=
  match GetPointerForRange a 1 m with Some (r, off) => aat (region_bytes r m) off | None => 0 end.
Definition set_memory_u8 (a v : Z) (m : MemoryManager) : MemoryManager :=
  match GetPointerForRange a 1 m with
  | Some (r, off) => set_region r (aupd (region_bytes r m) off v) m
  | None => m
  end.
Definition memory_range_valid (a n : Z) (m : MemoryManager) : bool :=
  match GetPointerForRange a n m with Some _ => true | None => false end.

#[export] Instance machine_host : DSPHost Machine := {
  ReadARAM := ManagerReadARAM;
  WriteARAM v a := ManagerWriteARAM v a;
  range_valid a n m := memory_range_valid a n (m_memory m);
  mem_read_u8 a m := memory_u8 a (m_memory m);
  mem_write_u8 a v m := fset mf_memory (set_memory_u8 a v (m_memory m)) m;
  GenerateDSPInterrupt := GenerateDSPInterruptFromDSPEmu INT_DSP 0;
  GetFakeTimeBase := TimersGetFakeTimeBase;
  ForceExceptionCheck c m := fset mf_timing (CoreTiming.ForceExceptionCheck c (m_timing m)) m
}.
End Host.
