(* ===== verification/DSPManager.v ===== *)
(** The CPU's side of the DSP ([Core/HW/DSP.cpp]): the registers mapped at 0xCC005000,
    interrupts, the ARAM DMA, the audio DMA and the time slices of the emulated DSP. *)
From stdpp Require Import base tactics option list gmap strings.
From Stdlib Require Import ZArith Lia Bool.
From S2P Require Import Prelude DSPState PowerPC ProcessorInterface Memmap CoreTiming Machine.
From S2P Require Import DSPInterpreter DSPHardware DSPRun DSPLLE.

#[local] Open Scope Z_scope.

(** * The emulated DSP

    [DSPEmulator] is the abstract class of [Core/DSPEmulator.h]; [S] is the state of
    the system, with the emulator in it. *)
Class DSPEmulator (S : Type) : Type := {
  IsLLE : bool;
  DSP_UpdateRate : Z;
  EmuReadMailBoxHigh : bool -> M S Z;
  EmuReadMailBoxLow : bool -> M S Z;
  EmuWriteMailBoxHigh : bool -> Z -> M S unit;
  EmuWriteMailBoxLow : bool -> Z -> M S unit;
  EmuReadControlRegister : M S Z;
  EmuWriteControlRegister : Z -> M S Z;
  EmuUpdate : Z -> M S unit
}.

(** The low-level emulator of [DSPLLE.cpp]. *)
#[export] Instance LLE {H} {hst : DSPHost H} : DSPEmulator (State H) := {
  IsLLE := true;
  DSP_UpdateRate := 12600;
  EmuReadMailBoxHigh := DSP_ReadMailBoxHigh;
  EmuReadMailBoxLow := DSP_ReadMailBoxLow;
  EmuWriteMailBoxHigh := DSP_WriteMailBoxHigh;
  EmuWriteMailBoxLow := DSP_WriteMailBoxLow;
  EmuReadControlRegister := DSP_ReadControlRegister;
  EmuWriteControlRegister := DSP_WriteControlRegister;
  EmuUpdate c := ignore (DSP_Update c)
}.

(** * Bits and halves *)

(** [x] with the bits of [mask] replaced by those of [v]; [mask] has 16 bits. *)
Definition set_bits (mask v x : Z) : Z := (x .& to_u16 (Z.lnot mask)) .| (v .& mask).

Definition get_low (x : Z) : Z := to_u16 x.
Definition get_high (x : Z) : Z := x .>> 16.
Definition put_low (x v : Z) : Z := (x .& 0xFFFF0000) .| v.
Definition put_high (x v : Z) : Z := (x .& 0xFFFF) .| (v .<< 16).

Abbreviation DSP_CONTROL_MASK := 0x0C07 (only parsing).
Abbreviation WMASK_AR_INFO := 0x007f (only parsing).
Abbreviation WMASK_AR_REFRESH := 0x07ff (only parsing).
Abbreviation WMASK_AR_HI_RESTRICT := 0x03ff (only parsing).
Abbreviation WMASK_AR_CNT_DIR_BIT := 0x8000 (only parsing).
Abbreviation WMASK_AUDIO_HI_RESTRICT_GCN := 0x03ff (only parsing).
Abbreviation WMASK_AUDIO_HI_RESTRICT_WII := 0x1fff (only parsing).
Abbreviation WMASK_LO_ALIGN_32BIT := 0xffe0 (only parsing).
Abbreviation DSP_MAIL_SLICE := 72 (only parsing).
Abbreviation ARAM_SIZE := 0x01000000 (only parsing).
Abbreviation ARAM_MASK := 0x00FFFFFF (only parsing).

(** * On the machine *)

Section OnMachine.
Context {heap : HeapAlgorithms}.
Abbreviation MM := (M Machine).

(** ** Interrupts *)

(** Each mask bit is the bit to the left of its interrupt's. *)
Definition ints_set (control : Z) : bool :=
  negb ((((control .>> 1) .& control) .& ((INT_DSP .| INT_ARAM) .| INT_AID)) =? 0).

Definition UpdateInterrupts : MM unit := fun m =>
  Done tt (MachineSetInterrupt INT_CAUSE_DSP (ints_set (m_dsp_control (m_dsp m))) m).

Definition GenerateDSPInterrupt (DSPIntType : Z) : MM unit :=
  modf f_m_dsp_control (fun c => c .| to_u16 (DSPIntType .& ((INT_DSP .| INT_ARAM) .| INT_AID))) ;;
  UpdateInterrupts.

(** [m_dsp_control.DMAState] is bit 9. *)
Definition CompleteARAM : MM unit :=
  modf f_m_dsp_control (set_bits 0x0200 0) ;;
  GenerateDSPInterrupt INT_ARAM.

(** ** Initialisation *)

Definition Reinit (m : Machine) : Machine :=
  let mem := m_memory m in
  let wii := m_is_wii m in
  fset mf_dsp {|
    wii_mode := wii;
    aram_size := if wii then m_exram_size_real mem else ARAM_SIZE;
    aram_mask := if wii then m_exram_mask mem else ARAM_MASK;
    aram_mem := ∅;
    current_source_address := 0; remaining_blocks_count := 0; SourceAddress := 0; AudioDMAControl := 0;
    MMAddr := 0; ARAddr := 0; Cnt := 0;
    m_dsp_control := 4;
    m_aram_info := 0; m_aram_mode := 1; m_aram_refresh := 156;
    m_dsp_slice := m_dsp_slice (m_dsp m)
  |} m.

Definition Init (m : Machine) : Machine :=
  let m := Reinit m in
  let m := fset mf_timing (RegisterEvent "DSPint" GlobalGenerateDSPInterrupt (m_timing m)) m in
  fset mf_timing (RegisterEvent "ARAMint" GlobalCompleteARAM (m_timing m)) m.

(** ** ARAM DMA *)

(** [*(u64* )&m_aram.ptr[i]], within the memory. *)
Definition aram_read_u64 (i : Z) : MM Z := fun m =>
  if (0 <=? i) && (i + 8 <=? aram_size (m_dsp m)) then Done (of_le_bytes (aslice (aram_bytes m) i 8)) m
  else Fault ArrayOutOfBounds.
Definition aram_write_u64 (i v : Z) : MM unit := fun m =>
  if (0 <=? i) && (i + 8 <=? aram_size (m_dsp m)) then Done tt (set_aram (aupd_list (aram_bytes m) i (le_bytes 8 v)) m)
  else Fault ArrayOutOfBounds.

(** [HSPManager::Read] and [Write] of the device in the port. *)
Definition HSP_Read (address : Z) : MM Z := fun m =>
  match m_hsp m with
  | ARAMExpansion mask mem =>
      let i := address .& mask in
      if i + 8 <=? mask + 1 then Done (swap64 (of_le_bytes (aslice mem i 8))) m else Fault ArrayOutOfBounds
  | _ => Done 0 m
  end.
Definition HSP_Write (address value : Z) : MM unit := fun m =>
  match m_hsp m with
  | ARAMExpansion mask mem =>
      let i := address .& mask in
      if i + 8 <=? mask + 1 then
        Done tt (fset mf_hsp (ARAMExpansion mask (aupd_list mem i (le_bytes 8 (swap64 value)))) m)
      else Fault ArrayOutOfBounds
  | _ => Done tt m
  end.

(** [Cnt.count] and [Cnt.dir]. *)
Definition dma_count (cnt : Z) : Z := cnt .& 0x7fffffff.
Definition dma_to_mram (cnt : Z) : bool := Z.testbit cnt 31.

(** The ends of the loop bodies: the addresses advance, the count goes down. *)
Definition dma_advance : MM unit :=
  modf f_MMAddr (fun a => to_u32 (a + 8)) ;;
  modf f_ARAddr (fun a => to_u32 (a + 8)) ;;
  modf f_Cnt (fun c => (c .& 0x80000000) .| wrapu 31 (dma_count c - 8)).

(** [while (m_aram_dma.Cnt.count) { body; ... }], at most [fuel] times. *)
Fixpoint while_count (fuel : nat) (body : MM unit) : MM (option unit) :=
  match fuel with
  | O => mret None
  | S fuel' =>
      c ← getf f_Cnt;
      if dma_count c =? 0 then mret (Some tt)
      else body ;; dma_advance ;; while_count fuel' body
  end.

Definition aram_index : MM Z :=
  d ← getf mf_dsp; mret (ARAddr d .& aram_mask d).

Definition copy_from_aram : MM unit :=
  i ← aram_index; v ← aram_read_u64 i; a ← getf f_MMAddr;
  modf mf_memory (Write_U64_Swap v a).

Definition copy_from_hsp : MM unit :=
  i ← getf f_ARAddr; v ← HSP_Read i; a ← getf f_MMAddr;
  modf mf_memory (Write_U64 v a).

(** The lower 4 MiB are mirrored behind themselves in memory configuration 4. *)
Definition copy_to_aram : MM unit :=
  d ← getf mf_dsp;
  let i := ARAddr d in
  when (((m_aram_info d .& 0xf) =? 4) && (i <? 0x400000))
    (mem ← getf mf_memory;
     aram_write_u64 ((i + 0x400000) .& aram_mask d) (swap64 (Read_U64 (MMAddr d) mem))) ;;
  mem ← getf mf_memory;
  aram_write_u64 (i .& aram_mask d) (swap64 (Read_U64 (MMAddr d) mem)).

Definition copy_to_hsp : MM unit :=
  d ← getf mf_dsp; mem ← getf mf_memory;
  HSP_Write (ARAddr d) (Read_U64 (MMAddr d) mem).

(** The count goes down by 8 each turn, so the fuel is enough for a multiple of 8. *)
Definition Do_ARAM_DMA : MM (option unit) :=
  modf f_m_dsp_control (set_bits 0x0200 0x0200) ;;
  cnt ← getf f_Cnt;
  let ticksToTransfer := to_s32 (dma_count cnt / 32 * 246) in
  modf mf_timing (ScheduleEvent ticksToTransfer "ARAMint" 0 FromCPU true) ;;
  modf f_ARAddr (fun a => a .& 0x3ffffff) ;;
  modf f_MMAddr (fun a => a .& 0x3ffffff) ;;
  d ← getf mf_dsp;
  let fuel := S (Z.to_nat (dma_count cnt / 8)) in
  if dma_to_mram cnt then
    if ARAddr d <? aram_size d then while_count fuel copy_from_aram
    else if negb (wii_mode d) then while_count fuel copy_from_hsp
    else mret (Some tt)
  else
    if ARAddr d <? aram_size d then while_count fuel copy_to_aram
    else if negb (wii_mode d) then while_count fuel copy_to_hsp
    else mret (Some tt).

(** ** Audio DMA

    32 bytes of samples at a time; a null pointer is not sent on. *)

Definition SendAIBuffer (samples : option (list Z)) : MM unit :=
  match samples with
  | Some l => modf mf_samples (fun out => out ++ [l])
  | None => mret tt
  end.

(** [AudioDMAControl.NumBlocks] and [Enable]. *)
Definition NumBlocks (control : Z) : Z := control .& 0x7fff.
Definition AudioEnable (control : Z) : bool := Z.testbit control 15.

Definition UpdateAudioDMA : MM unit :=
  control ← getf f_AudioDMAControl;
  if AudioEnable control then
    mem ← getf mf_memory;
    address ← getf f_current_source_address;
    SendAIBuffer (match GetPointerForRange address 32 mem with
                  | Some (r, off) => Some (aslice (region_bytes r mem) off 32)
                  | None => None
                  end) ;;
    n ← getf f_remaining_blocks_count;
    when (negb (n =? 0))
      (modf f_remaining_blocks_count (fun n => to_u16 (n - 1)) ;;
       modf f_current_source_address (fun a => to_u32 (a + 32))) ;;
    n ← getf f_remaining_blocks_count;
    when (n =? 0)
      (start ← getf f_SourceAddress;
       setf f_current_source_address start ;;
       control ← getf f_AudioDMAControl;
       setf f_remaining_blocks_count (NumBlocks control) ;;
       GenerateDSPInterrupt INT_AID)
  else SendAIBuffer (Some (replicate 32 0)).
End OnMachine.

(** * With the emulator

    [MF] is where the machine is in the state of the system. *)

Section Manager.
Context {S : Type} (MF : field S Machine) {heap : HeapAlgorithms} {emu : DSPEmulator S}.
Abbreviation MS := (M S).

Definition machine {A} (m : M Machine A) : MS A := on MF m.
Definition dspman : MS DSPManager := machine (getf mf_dsp).

Definition UpdateDSPSlice (cycles : Z) : MS unit :=
  if IsLLE then
    d ← dspman;
    EmuUpdate (m_dsp_slice d) ;;
    machine (modf f_m_dsp_slice (fun n => Z.rem n 6)) ;;
    machine (modf f_m_dsp_slice (fun n => to_s32 (n + cycles)))
  else EmuUpdate cycles.

(** Reading the high half of a mailbox gives the emulator some of its time. *)
Definition read_mail_hi (cpu_mailbox : bool) : MS Z :=
  d ← dspman;
  when ((DSP_MAIL_SLICE <? m_dsp_slice d) && IsLLE)
    (EmuUpdate DSP_MAIL_SLICE ;;
     machine (modf f_m_dsp_slice (fun n => to_s32 (n - DSP_MAIL_SLICE)))) ;;
  EmuReadMailBoxHigh cpu_mailbox.

Definition read_dsp_control : MS Z :=
  d ← dspman;
  c ← EmuReadControlRegister;
  mret ((m_dsp_control d .& to_u16 (Z.lnot DSP_CONTROL_MASK)) .| (c .& DSP_CONTROL_MASK)).

Definition acknowledge (bit tmpControl : Z) : M Machine unit :=
  when (negb ((tmpControl .& bit) =? 0)) (modf f_m_dsp_control (set_bits bit 0)).

Definition write_dsp_control (val : Z) : MS unit :=
  c ← EmuWriteControlRegister val;
  let tmpControl := (val .& to_u16 (Z.lnot DSP_CONTROL_MASK)) .| (c .& DSP_CONTROL_MASK) in
  machine (
    when (negb ((val .& 1) =? 0)) (setf f_AudioDMAControl 0) ;;
    modf f_m_dsp_control (set_bits DSP_CONTROL_MASK tmpControl) ;;
    modf f_m_dsp_control (set_bits 0x0150 tmpControl) ;;
    acknowledge INT_AID tmpControl ;;
    acknowledge INT_ARAM tmpControl ;;
    acknowledge INT_DSP tmpControl ;;
    modf f_m_dsp_control (set_bits 0xF000 tmpControl) ;;
    UpdateInterrupts).

Definition write_audio_dma_control (val : Z) : M Machine unit :=
  c ← getf f_AudioDMAControl;
  let already_enabled := AudioEnable c in
  setf f_AudioDMAControl val ;;
  when (negb already_enabled && AudioEnable val)
    (a ← getf f_SourceAddress;
     setf f_current_source_address a ;;
     setf f_remaining_blocks_count (NumBlocks val) ;;
     modf mf_timing (ScheduleEvent 200 "DSPint" INT_AID FromCPU true)).

(** ** The registers

    [DSPManager::RegisterMMIO]: 16-bit reads and writes by the offset from the base;
    any other offset is an invalid access, which reads as -1 and writes nothing. *)

Definition mmio_read16 (offset : Z) : MS Z :=
  d ← dspman;
  match offset with
  | 0x5000 => read_mail_hi true
  | 0x5002 => EmuReadMailBoxLow true
  | 0x5004 => read_mail_hi false
  | 0x5006 => EmuReadMailBoxLow false
  | 0x500A => read_dsp_control
  | 0x5012 => mret (m_aram_info d)
  | 0x5016 => mret (m_aram_mode d)
  | 0x501a => mret (m_aram_refresh d)
  | 0x5020 => mret (get_high (MMAddr d))
  | 0x5022 => mret (get_low (MMAddr d))
  | 0x5024 => mret (get_high (ARAddr d))
  | 0x5026 => mret (get_low (ARAddr d))
  | 0x5028 => mret (get_high (Cnt d))
  | 0x502A => mret (get_low (Cnt d))
  | 0x5030 => mret (get_high (SourceAddress d))
  | 0x5032 => mret (get_low (SourceAddress d))
  | 0x5036 => mret (AudioDMAControl d)
  | 0x503A => mret (if 0 <? remaining_blocks_count d then remaining_blocks_count d - 1 else 0)
  | _ => mret 0xffff
  end.

(** The result says whether the DMA loop came to its end. *)
Definition mmio_write16 (offset val : Z) : MS (option unit) :=
  let put {A} (m : MS A) : MS (option unit) := m ;; mret (Some tt) in
  match offset with
  | 0x5000 => put (EmuWriteMailBoxHigh true val)
  | 0x5002 => put (EmuWriteMailBoxLow true val)
  | 0x500A => put (write_dsp_control val)
  | 0x5012 => put (machine (setf f_m_aram_info (val .& WMASK_AR_INFO)))
  | 0x501a => put (machine (setf f_m_aram_refresh (val .& WMASK_AR_REFRESH)))
  | 0x5020 => put (machine (modf f_MMAddr (fun x => put_high x (val .& WMASK_AR_HI_RESTRICT))))
  | 0x5022 => put (machine (modf f_MMAddr (fun x => put_low x (val .& WMASK_LO_ALIGN_32BIT))))
  | 0x5024 => put (machine (modf f_ARAddr (fun x => put_high x (val .& WMASK_AR_HI_RESTRICT))))
  | 0x5026 => put (machine (modf f_ARAddr (fun x => put_low x (val .& WMASK_LO_ALIGN_32BIT))))
  | 0x5028 => put (machine (modf f_Cnt (fun x =>
      put_high x (val .& (WMASK_AR_HI_RESTRICT .| WMASK_AR_CNT_DIR_BIT)))))
  | 0x502A =>
      machine (modf f_Cnt (fun x => put_low x (val .& WMASK_LO_ALIGN_32BIT)) ;; Do_ARAM_DMA)
  | 0x5030 => put (machine (m ← getf mf_is_wii; modf f_SourceAddress (fun x =>
      put_high x (val .& (if m : bool then WMASK_AUDIO_HI_RESTRICT_WII else WMASK_AUDIO_HI_RESTRICT_GCN)))))
  | 0x5032 => put (machine (modf f_SourceAddress (fun x => put_low x (val .& WMASK_LO_ALIGN_32BIT))))
  | 0x5036 => put (machine (write_audio_dma_control val))
  | _ => mret (Some tt)
  end.

(** 32-bit accesses are two 16-bit ones, the high half first. *)
Definition mmio_read32 (offset : Z) : MS Z :=
  h ← mmio_read16 offset; l ← mmio_read16 (offset + 2); mret ((h .<< 16) .| l).
Definition mmio_write32 (offset val : Z) : MS (option unit) :=
  a ← mmio_write16 offset (val .>> 16);
  b ← mmio_write16 (offset + 2) (to_u16 val);
  mret (match a, b with Some _, Some _ => Some tt | _, _ => None end).
End Manager.
