(* ===== verification/SystemTimers.v ===== *)
(** The system's timers ([Core/HW/SystemTimers.cpp]): the periodic events that drive the
    DSP and the audio DMA, the decrementer and the time base, and with them the loop
    of [CoreTiming] over the whole system. *)
From stdpp Require Import base tactics option list gmap strings.
From Stdlib Require Import ZArith Lia Bool.
From S2P Require Import Prelude DSPState PowerPC ProcessorInterface Memmap CoreTiming Machine DSPManager.

#[local] Open Scope Z_scope.

(** * On the machine *)

Section Timers.
Context {heap : HeapAlgorithms}.

Definition GetTicksPerSecond (m : Machine) : Z := m_cpu_core_clock m.

(** The division is on [u64]; [FIXED_SAMPLE_RATE_DIVIDEND] is 108000000. *)
Definition GetAudioDMACallbackPeriod (cpu_core_clock aid_sample_rate_divisor : Z) : Z :=
  to_s32 (to_u64 (cpu_core_clock * aid_sample_rate_divisor) / (108000000 * 4 / 32)).

Definition ChangePPCClock (wii : bool) (m : Machine) : Machine :=
  let previous_clock := m_cpu_core_clock m in
  let m := fset mf_cpu_core_clock (if wii then 729000000 else 486000000) m in
  fset mf_timing (AdjustEventQueueTimes (m_cpu_core_clock m) previous_clock (m_timing m)) m.

Definition PreInit (m : Machine) : Machine := ChangePPCClock (m_is_wii m) m.

(** ** The decrementer and the time base *)

Definition DecrementerSet (m : Machine) : Machine :=
  let decValue := get_spr SPR_DEC (ppc_state (m_timing m)) in
  let m := fset mf_timing (RemoveEvent "DecCallback" (m_timing m)) m in
  if (decValue .& 0x80000000) =? 0 then
    let t := fset t_m_fake_dec_start_ticks (GetTicks (m_timing m)) (m_timing m) in
    let t := fset t_m_fake_dec_start_value decValue t in
    Schedule (to_u32 (decValue * TIMER_RATIO)) "DecCallback" 0 (fset mf_timing t m)
  else m.

Definition GetFakeDecrementer (m : Machine) : Z :=
  let t := m_timing m in
  to_u32 (fget t_m_fake_dec_start_value t -
          to_u32 (to_u64 (GetTicks t - fget t_m_fake_dec_start_ticks t) / TIMER_RATIO)).

Definition TimeBaseSet (m : Machine) : Machine :=
  let t := fset t_fake_TB_start_ticks (GetTicks (m_timing m)) (m_timing m) in
  fset mf_timing (fset t_fake_TB_start_value (ReadFullTimeBaseValue (ppc_state t)) t) m.

(** [SystemTimersManager::GetFakeTimeBase] is [TimersGetFakeTimeBase]. *)

Definition decrementer_callback (m : Machine) : Machine :=
  let p := ppc_state (m_timing m) in
  let p := set_spr SPR_DEC 0xFFFFFFFF p in
  fset mf_timing (fset f_ppc_state (raise_exception EXCEPTION_DECREMENTER p) (m_timing m)) m.

(** ** Initialisation

    [emulated_time] is what the clock chip shows, [vi_half_line] and [vi_field] are the
    periods of the video interface, of components that are not modelled. *)
Definition TimersInit (emulated_time vi_half_line vi_field : Z) (m : Machine) : Machine :=
  let ipc_period := GetTicksPerSecond m / 1500 in
  let reg name cb m := fset mf_timing (RegisterEvent name cb (m_timing m)) m in
  let t := m_timing m in
  let t := fset t_fake_TB_start_value (to_u64 (m_cpu_core_clock m / TIMER_RATIO * emulated_time)) t in
  let t := fset t_fake_TB_start_ticks (GetTicks t) t in
  let t := fset t_m_fake_dec_start_value 0xFFFFFFFF t in
  let t := fset t_m_fake_dec_start_ticks (GetTicks t) t in
  let m := fset mf_timing t m in
  let m := reg "DecCallback"%string DecrementerCallback m in
  let m := reg "VICallback"%string (OtherCallback "VICallback") m in
  let m := reg "DSPCallback"%string DSPCallback m in
  let m := reg "AudioDMACallback"%string AudioDMACallback m in
  let m := reg "IPC_HLE_UpdateCallback"%string (OtherCallback "IPC_HLE_UpdateCallback") m in
  let m := reg "GPUSleeper"%string (OtherCallback "GPUSleeper") m in
  let m := reg "PerfTracker"%string (OtherCallback "PerfTracker") m in
  let m := reg "PatchEngine"%string (OtherCallback "PatchEngine") m in
  let m := Schedule 0 "PerfTracker" 0 m in
  let m := Schedule 0 "GPUSleeper" 0 m in
  let m := Schedule vi_half_line "VICallback" 0 m in
  let m := Schedule 0 "DSPCallback" 0 m in
  let m := Schedule (GetAudioDMACallbackPeriod (m_cpu_core_clock m) (m_aid_sample_rate_divisor m))
    "AudioDMACallback" 0 m in
  let m := Schedule vi_field "PatchEngine" 0 m in
  if m_is_wii m then Schedule ipc_period "IPC_HLE_UpdateCallback" 0 m else m.
End Timers.

(** * The callbacks *)

Section Callbacks.
Context {S : Type} (MF : field S Machine) {heap : HeapAlgorithms} {emu : DSPEmulator S}.

(** The callbacks of the devices that are not modelled. *)
Context (other : string -> Z -> Z -> M S unit).

Definition dsp_callback (cycles_late : Z) : M S unit :=
  UpdateDSPSlice MF (to_s32 (DSP_UpdateRate - cycles_late)) ;;
  modf MF (Schedule (to_s64 (DSP_UpdateRate - cycles_late)) "DSPCallback" 0).

Definition audio_dma_callback (cycles_late : Z) : M S unit :=
  machine MF UpdateAudioDMA ;;
  m ← getf MF;
  let callback_period := GetAudioDMACallbackPeriod (m_cpu_core_clock m) (m_aid_sample_rate_divisor m) in
  modf MF (Schedule (to_s64 (callback_period - cycles_late)) "AudioDMACallback" 0).

Definition invoke_callback (cb : TimedCallback) (userdata cycles_late : Z) : M S unit :=
  match cb with
  | EmptyTimedCallback => mret tt
  | GlobalGenerateDSPInterrupt => machine MF (GenerateDSPInterrupt userdata)
  | GlobalCompleteARAM => machine MF CompleteARAM
  | DSPCallback => dsp_callback cycles_late
  | AudioDMACallback => audio_dma_callback cycles_late
  | DecrementerCallback => modf MF decrementer_callback
  | OtherCallback name => other name userdata cycles_late
  end.
End Callbacks.

(** The system with the low-level DSP: the machine is the DSP core's host.  Settings do
    not change while it runs. *)
Section LLESystem.
Context {heap : HeapAlgorithms} (other : string -> Z -> Z -> M (State Machine) unit).

Definition lle_system : EventSystem (State Machine) TimedCallback := {|
  f_timing := compose f_host mf_timing;
  invoke := invoke_callback f_host other;
  CheckForConfigChanges s := s
|}.
End LLESystem.
