(* ===== verification/PowerPCProps.v ===== *)
(** The PowerPC's asynchronous exceptions and the interrupt lines that raise them. *)
From stdpp Require Import base tactics option list gmap.
From Stdlib Require Import ZArith Lia Bool.
From S2P Require Import Prelude PowerPC ProcessorInterface.

#[local] Open Scope Z_scope.

(** * Bits *)

Lemma testbit_u32_lnot e i : 0 <= i < 32 -> Z.testbit (to_u32 (Z.lnot e)) i = negb (Z.testbit e i).
Proof. intros Hi. unfold wrapu. rewrite Z.mod_pow2_bits_low by lia. apply Z.lnot_spec. lia. Qed.

Lemma testbit_pow2 n i : 0 <= n -> Z.testbit (2 ^ n) i = (n =? i).
Proof. intros Hn. by rewrite Z.pow2_bits_eqb. Qed.

Lemma has_testbit n x : 0 <= n -> has (2 ^ n) x = Z.testbit x n.
Proof.
  intros Hn. unfold has. destruct (Z.testbit x n) eqn:E.
  - apply negb_true_iff, Z.eqb_neq. intros H0.
    assert (Hb : Z.testbit (x .& 2 ^ n) n = false) by (by rewrite H0, Z.bits_0).
    rewrite Z.land_spec, E, testbit_pow2, Z.eqb_refl in Hb by done. done.
  - apply negb_false_iff, Z.eqb_eq, Z.bits_inj'. intros i Hi. rewrite Z.land_spec, Z.bits_0, testbit_pow2 by done.
    destruct (Z.eqb_spec n i) as [->|]; [by rewrite E | apply andb_false_r].
Qed.

(** * Asynchronous exceptions

    The bits of [Exceptions] and the vectors of the three exceptions that do not come
    from the instruction being executed, the most important first. *)

Definition asynchronous : list (Z * Z) := [(2, 0x500); (8, 0xF00); (0, 0x900)].

Definition first_pending (exceptions : Z) : option (Z * Z) :=
  head (filter (fun e => Z.testbit exceptions e.1 = true) asynchronous).

(** The PowerPC after an exception was taken. *)
Record taken (bit vector : Z) (p p' : PPCState) : Prop := {
  tk_pc : pc p' = vector;
  tk_npc : npc p' = vector;
  tk_srr0 : get_spr SPR_SRR0 p' = npc p;
  tk_srr1 : get_spr SPR_SRR1 p' = msr p .& 0x87C0FFFF;
  tk_masked : Z.testbit (msr p') 15 = false;
  tk_acknowledged : forall i, 0 <= i < 32 -> Z.testbit (Exceptions p') i = Z.testbit (Exceptions p) i && negb (i =? bit);
  tk_others : gpr p' = gpr p /\ downcount p' = downcount p /\
    forall i, i <> SPR_SRR0 -> i <> SPR_SRR1 -> get_spr i p' = get_spr i p
}.

Lemma exception_msr_masked m : Z.testbit (exception_msr m) 15 = false.
Proof. unfold exception_msr. rewrite Z.land_spec, testbit_u32_lnot by lia. apply andb_false_r. Qed.

Lemma take_exception_taken bit vector p :
  0 <= bit -> taken bit vector p (MSRUpdated (take_exception (npc p) (saved_msr p) vector (2 ^ bit) p)).
Proof.
  intros Hb. set (p' := MSRUpdated _).
  assert (Hspr : spr p' = aupd (aupd (spr p) SPR_SRR0 (npc p)) SPR_SRR1 (saved_msr p)) by done.
  split; try done.
  - unfold get_spr. rewrite Hspr, aat_aupd_ne by lia. apply aat_aupd_eq.
  - unfold get_spr. rewrite Hspr. apply aat_aupd_eq.
  - cbn. apply exception_msr_masked.
  - intros i Hi. change (Exceptions p') with (Exceptions p .& to_u32 (Z.lnot (2 ^ bit))).
    rewrite Z.land_spec, testbit_u32_lnot, testbit_pow2 by lia. by rewrite Z.eqb_sym.
  - split; [done|]. split; [done|]. intros i H0 H1. unfold get_spr. by rewrite Hspr, !aat_aupd_ne by lia.
Qed.

Lemma no_exceptions_masked p : Z.testbit (msr p) 15 = false -> CheckExternalExceptions p = p.
Proof. intros E. unfold CheckExternalExceptions. by rewrite E, andb_false_r. Qed.

Lemma first_pending_eq e :
  first_pending e = if Z.testbit e 2 then Some (2, 0x500) else if Z.testbit e 8 then Some (8, 0xF00)
                    else if Z.testbit e 0 then Some (0, 0x900) else None.
Proof.
  unfold first_pending, asynchronous. rewrite !filter_cons. cbn [fst].
  destruct (Z.testbit e 2), (Z.testbit e 8), (Z.testbit e 0); reflexivity.
Qed.

Lemma CheckExternalExceptions_eq p :
  Z.testbit (msr p) 15 = true ->
  let take bit vector := MSRUpdated (take_exception (npc p) (saved_msr p) vector (2 ^ bit) p) in
  CheckExternalExceptions p =
  match first_pending (Exceptions p) with
  | Some (bit, vector) => take bit vector
  | None => if Exceptions p =? 0 then p else MSRUpdated p
  end.
Proof.
  intros HEE. cbn zeta. rewrite first_pending_eq. unfold CheckExternalExceptions. rewrite HEE, andb_true_r.
  change EXCEPTION_EXTERNAL_INT with (2 ^ 2). change EXCEPTION_PERFORMANCE_MONITOR with (2 ^ 8).
  change EXCEPTION_DECREMENTER with (2 ^ 0). rewrite !has_testbit by lia.
  destruct (Z.eqb_spec (Exceptions p) 0) as [->|_]; [done|].
  by destruct (Z.testbit (Exceptions p) 2), (Z.testbit (Exceptions p) 8), (Z.testbit (Exceptions p) 0).
Qed.

Lemma CheckExternalExceptions_taken p bit vector :
  Z.testbit (msr p) 15 = true -> first_pending (Exceptions p) = Some (bit, vector) ->
  taken bit vector p (CheckExternalExceptions p).
Proof.
  intros HEE Hp. rewrite CheckExternalExceptions_eq, Hp by done. apply take_exception_taken.
  rewrite first_pending_eq in Hp. repeat case_match; simplify_eq; lia.
Qed.

(** C39. Asynchronous exceptions.  When external interrupts are enabled and one of the three
    asynchronous exceptions is pending, exactly the most important one is taken: the CPU
    goes to its vector, the address and the machine state to come back to are saved, that
    exception alone is acknowledged, and interrupts are disabled, so that checking again
    takes nothing; with interrupts disabled nothing is taken at all. *)
Theorem external_exceptions_by_priority p :
  (Z.testbit (msr p) 15 = false -> CheckExternalExceptions p = p) /\
  (Z.testbit (msr p) 15 = true -> first_pending (Exceptions p) = None -> pc (CheckExternalExceptions p) = pc p /\
     Exceptions (CheckExternalExceptions p) = Exceptions p /\ msr (CheckExternalExceptions p) = msr p) /\
  (forall bit vector, Z.testbit (msr p) 15 = true -> first_pending (Exceptions p) = Some (bit, vector) ->
     taken bit vector p (CheckExternalExceptions p) /\
     CheckExternalExceptions (CheckExternalExceptions p) = CheckExternalExceptions p).
Proof.
  split; [apply no_exceptions_masked|]. split.
  - intros HEE Hp. rewrite CheckExternalExceptions_eq, Hp by done. by destruct (Exceptions p =? 0).
  - intros bit vector HEE Hp. pose proof (CheckExternalExceptions_taken p bit vector HEE Hp) as Ht.
    split; [done|]. apply no_exceptions_masked, Ht.
Qed.

Definition waiting_cpu : PPCState := mkPPC 0x80003100 0x80003104 ∅ ∅ 0x9032 0x0D 20000 0 ∅ 0 0 0 ∅ false 0 0 ∅ ∅.

Lemma external_exceptions_by_priority_witness :
  pc (CheckExternalExceptions waiting_cpu) = 0x500 /\ get_spr SPR_SRR0 (CheckExternalExceptions waiting_cpu) = 0x80003104 /\
  Exceptions (CheckExternalExceptions waiting_cpu) = 0x09.
Proof.
  destruct (external_exceptions_by_priority waiting_cpu) as (_ & _ & H).
  destruct (H 2 0x500 eq_refl eq_refl) as [Ht _]. split; [apply Ht|]. split; [apply Ht | reflexivity].
Defined.

(** * Interrupt lines *)

(** The external interrupt is pending exactly when an enabled device asserts its line. *)
Definition line_ok (xp : ProcessorInterface * PPCState) : Prop :=
  Z.testbit (Exceptions xp.2) 2 = asserted xp.1.

Lemma UpdateException_line x p : line_ok (x, UpdateException x p).
Proof.
  unfold line_ok, UpdateException. cbn [fst snd]. destruct (asserted x) eqn:E.
  - unfold raise_exception. cbn [fset p_Exceptions Exceptions]. rewrite Z.lor_spec. apply orb_true_r.
  - unfold clear_exception. cbn [fset p_Exceptions Exceptions].
    rewrite Z.land_spec, testbit_u32_lnot by lia. apply andb_false_r.
Qed.

Lemma UpdateException_others x p :
  exists e, UpdateException x p = fset p_Exceptions e p /\
    forall i, 0 <= i < 32 -> i <> 2 -> Z.testbit e i = Z.testbit (Exceptions p) i.
Proof.
  unfold UpdateException, raise_exception, clear_exception. destruct (asserted x); eexists; (split; [reflexivity|]); intros i Hi Hn.
  - change EXCEPTION_EXTERNAL_INT with (2 ^ 2). rewrite Z.lor_spec, testbit_pow2 by lia.
    by rewrite (proj2 (Z.eqb_neq 2 i)), orb_false_r by lia.
  - change EXCEPTION_EXTERNAL_INT with (2 ^ 2). rewrite Z.land_spec, testbit_u32_lnot, testbit_pow2 by lia.
    by rewrite (proj2 (Z.eqb_neq 2 i)), andb_true_r by lia.
Qed.

Lemma SetInterrupt_spec n set x p :
  0 <= n < 32 ->
  let '(x', p') := SetInterrupt (2 ^ n) set (x, p) in
  (forall i, 0 <= i < 32 -> Z.testbit (m_interrupt_cause x') i =
     if i =? n then set else Z.testbit (m_interrupt_cause x) i) /\
  m_interrupt_mask x' = m_interrupt_mask x /\ p' = UpdateException x' p.
Proof.
  intros Hn. unfold SetInterrupt. destruct set; (split; [|done]); intros i Hi;
    cbn [fget fset pi_m_interrupt_cause m_interrupt_cause].
  - rewrite Z.lor_spec, testbit_pow2 by lia. rewrite (Z.eqb_sym n i). destruct (i =? n); [apply orb_true_r | apply orb_false_r].
  - rewrite Z.land_spec, testbit_u32_lnot, testbit_pow2 by lia. rewrite (Z.eqb_sym n i).
    destruct (i =? n); [apply andb_false_r | apply andb_true_r].
Qed.

(** What devices and the CPU do to the lines. *)
Inductive line_step : ProcessorInterface * PPCState -> ProcessorInterface * PPCState -> Prop :=
  | LineSet n set xp : 0 <= n < 32 -> line_step xp (SetInterrupt (2 ^ n) set xp)
  | LineReset set xp : line_step xp (SetResetButton set xp)
  | LineCause val xp : line_step xp (WriteInterruptCause val xp)
  | LineMask val xp : line_step xp (WriteInterruptMask val xp).

(** The interrupt controller.  Whatever a device or the CPU does to the lines, the external
    interrupt is pending afterwards exactly when some line is asserted and enabled, no
    other exception is affected, and a device sets or clears its own line only. *)
Theorem interrupt_controller xp xp' :
  line_step xp xp' ->
  line_ok xp' /\
  (forall i, 0 <= i < 32 -> i <> 2 -> Z.testbit (Exceptions xp'.2) i = Z.testbit (Exceptions xp.2) i) /\
  (forall n set, 0 <= n < 32 -> xp' = SetInterrupt (2 ^ n) set xp ->
     forall i, 0 <= i < 32 -> Z.testbit (m_interrupt_cause xp'.1) i =
       if i =? n then set else Z.testbit (m_interrupt_cause xp.1) i).
Proof.
  intros Hs. split; [|split].
  - destruct Hs as [n set [x p] Hn|set [x p]|val [x p]|val [x p]]; cbn; apply UpdateException_line.
  - assert (Hu : exists x, xp'.2 = UpdateException x xp.2)
      by (destruct Hs as [n set [x p] Hn|set [x p]|val [x p]|val [x p]]; cbn; eauto).
    destruct Hu as [x Hx]. rewrite Hx. destruct (UpdateException_others x xp.2) as (e & -> & He). exact He.
  - intros n set Hn -> i Hi. destruct xp as [x p]. pose proof (SetInterrupt_spec n set x p Hn) as Hx.
    destruct (SetInterrupt (2 ^ n) set (x, p)). by apply Hx.
Qed.

Lemma interrupt_controller_witness :
  let xp := (fset pi_m_interrupt_mask 0x40 PI_Init, waiting_cpu) in
  line_ok (SetInterrupt (2 ^ 6) true xp) /\ asserted (SetInterrupt (2 ^ 6) true xp).1 = true.
Proof.
  split; [|reflexivity]. eapply (interrupt_controller _ _). apply LineSet. lia.
Defined.
