(* ===== verification/ConditionRegister.v ===== *)
(** The condition register of the PowerPC ([Core/PowerPC/ConditionRegister.h] and
    [.cpp]): eight 4-bit fields, each kept as a 64-bit value from which the four flags
    are read off without unpacking. *)
From stdpp Require Import base tactics option list gmap.
From Stdlib Require Import ZArith Lia Bool.
From S2P Require Import Prelude.

#[local] Open Scope Z_scope.

Abbreviation CR_SO := 1 (only parsing).
Abbreviation CR_EQ := 2 (only parsing).
Abbreviation CR_GT := 4 (only parsing).
Abbreviation CR_LT := 8 (only parsing).
Abbreviation CR_SO_BIT := 0 (only parsing).
Abbreviation CR_EQ_BIT := 1 (only parsing).
Abbreviation CR_GT_BIT := 2 (only parsing).
Abbreviation CR_EMU_SO_BIT := 59 (only parsing).
Abbreviation CR_EMU_LT_BIT := 62 (only parsing).

(** [!!(value & bit)] and [!(value & bit)]. *)
Definition set_in (value bit : Z) : Z := truth (negb ((value .& bit) =? 0)).
Definition clear_in (value bit : Z) : Z := truth ((value .& bit) =? 0).

Definition PPCToInternal (value : Z) : Z :=
  let cr_val := 0x100000000 in
  let cr_val := cr_val .| (set_in value CR_SO .<< CR_EMU_SO_BIT) in
  let cr_val := cr_val .| clear_in value CR_EQ in
  let cr_val := cr_val .| (clear_in value CR_GT .<< 63) in
  cr_val .| (set_in value CR_LT .<< CR_EMU_LT_BIT).

Definition s_crTable : list Z :=
  map PPCToInternal [0x0; 0x1; 0x2; 0x3; 0x4; 0x5; 0x6; 0x7; 0x8; 0x9; 0xA; 0xB; 0xC; 0xD; 0xE; 0xF].

(** The register is the array [fields]; [cr_field] is below 8 and [value] below 16. *)
Definition SetField (cr_field value : Z) (fields : arr) : arr :=
  aupd fields cr_field (nth (Z.to_nat value) s_crTable 0).

Definition GetField (cr_field : Z) (fields : arr) : Z :=
  let cr_val := aat fields cr_field in
  let ppc_cr := (cr_val .>> CR_EMU_SO_BIT) .& (CR_LT .| CR_SO) in
  let ppc_cr := ppc_cr .| (truth ((cr_val .& 0xFFFFFFFF) =? 0) .<< CR_EQ_BIT) in
  ppc_cr .| (truth (0 <? to_s64 cr_val) .<< CR_GT_BIT).

Definition GetBit (bit : Z) (fields : arr) : Z :=
  (GetField (bit .>> 2) fields .>> (3 - (bit .& 3))) .& 1.

Definition SetBit (bit value : Z) (fields : arr) : arr :=
  if negb ((value .& 1) =? 0) then
    SetField (bit .>> 2) (GetField (bit .>> 2) fields .| (0x8 .>> (bit .& 3))) fields
  else
    SetField (bit .>> 2) (GetField (bit .>> 2) fields .& to_u32 (Z.lnot (0x8 .>> (bit .& 3)))) fields.

(** The loops over the eight fields. *)
Definition field_indices : list Z := [0; 1; 2; 3; 4; 5; 6; 7].

Definition CR_Get (fields : arr) : Z :=
  foldl (fun new_cr i => new_cr .| to_u32 (GetField i fields .<< (28 - i * 4))) 0 field_indices.

Definition CR_Set (cr : Z) (fields : arr) : arr :=
  foldl (fun fields i => SetField i ((cr .>> (28 - i * 4)) .& 0xF) fields) fields field_indices.

(** * Facts *)

(** The eight fields read back as one word. *)
Definition nibble (i cr : Z) : Z := (cr .>> (28 - i * 4)) .& 0xF.

Lemma cr_nibble_range i cr : 0 <= nibble i cr < 16.
Proof. unfold nibble. pose proof (land_bound (cr .>> (28 - i * 4)) 15). lia. Qed.

Lemma cases16 (P : Z -> Prop) :
  Forall P [0; 1; 2; 3; 4; 5; 6; 7; 8; 9; 10; 11; 12; 13; 14; 15] -> forall v, 0 <= v < 16 -> P v.
Proof.
  intros H v Hv. rewrite Forall_forall in H. apply H. rewrite !elem_of_cons. lia.
Qed.

(** A field that was set reads back. *)
Lemma GetField_SetField i v fields : 0 <= v < 16 -> GetField i (SetField i v fields) = v.
Proof.
  intros Hv. unfold GetField, SetField. rewrite aat_aupd_eq. revert v Hv. apply cases16.
  repeat (apply Forall_cons; split; [reflexivity|]). by apply Forall_nil.
Qed.

Lemma GetField_SetField_ne i j v fields : i <> j -> GetField j (SetField i v fields) = GetField j fields.
Proof. intros Hij. unfold GetField, SetField. by rewrite aat_aupd_ne. Qed.

Lemma SetField_ok i v fields : 0 <= v < 16 -> arr_ok u64 fields -> arr_ok u64 (SetField i v fields).
Proof.
  intros Hv Hf. apply arr_ok_aupd; [done|]. revert v Hv. apply cases16.
  repeat (apply Forall_cons; split; [by vm_compute|]). by apply Forall_nil.
Qed.

(** The flags a field stands for. *)
Definition flags_value (lt gt eq so : bool) : Z := truth lt * 8 + truth gt * 4 + truth eq * 2 + truth so.

Lemma GetField_flags i fields :
  GetField i fields =
    flags_value (Z.testbit (aat fields i) CR_EMU_LT_BIT) (0 <? to_s64 (aat fields i))
      ((aat fields i .& 0xFFFFFFFF) =? 0) (Z.testbit (aat fields i) CR_EMU_SO_BIT).
Proof.
  unfold GetField. set (x := aat fields i).
  assert (E : (x .>> 59) .& (8 .| 1) = truth (Z.testbit x 62) * 8 + truth (Z.testbit x 59)).
  { apply Z.bits_inj'. intros n Hn. rewrite Z.land_spec, Z.shiftr_spec by lia.
    destruct (Z.eq_dec n 0) as [->|]; [change (0 + 59) with 59; by destruct (Z.testbit x 62), (Z.testbit x 59)|].
    destruct (Z.eq_dec n 3) as [->|].
    - change (3 + 59) with 62. by destruct (Z.testbit x 62), (Z.testbit x 59).
    - change (8 .| 1) with 9. assert (Z.testbit 9 n = false) as ->.
      { destruct (Z.lt_ge_cases n 4); [assert (n = 1 \/ n = 2) as [->| ->] by lia; done|].
        by apply (uN_bits 4 9); [lia | lia | unfold uN; lia |]. }
      rewrite andb_false_r. symmetry. destruct (Z.lt_ge_cases n 4).
      + assert (n = 1 \/ n = 2) as [->| ->] by lia; by destruct (Z.testbit x 62), (Z.testbit x 59).
      + apply (uN_bits 4); [lia | | | done]; unfold uN; destruct (Z.testbit x 62), (Z.testbit x 59); cbn; lia. }
  rewrite E. by destruct (Z.testbit x 62), (Z.testbit x 59), (_ =? _), (_ <? _).
Qed.

Lemma GetField_range i fields : 0 <= GetField i fields < 16.
Proof. rewrite GetField_flags. unfold flags_value, truth. repeat case_match; lia. Qed.

(** ** Bits *)

Lemma nibble_testbit v i : 0 <= v < 16 -> 4 <= i -> Z.testbit v i = false.
Proof. intros Hv Hi. apply (uN_bits 4 v); [lia | lia | exact Hv | exact Hi]. Qed.

Lemma field_bit i j fields :
  0 <= i < 8 -> 0 <= j < 32 ->
  Z.testbit (to_u32 (GetField i fields .<< (28 - i * 4))) j = (j / 4 =? 7 - i) && Z.testbit (GetField i fields) (j mod 4).
Proof.
  intros Hi Hj. pose proof (GetField_range i fields) as Hr. unfold wrapu. rewrite Z.mod_pow2_bits_low, Z.shiftl_spec by lia.
  pose proof (Z.div_mod j 4 ltac:(lia)) as Ej. pose proof (Z.mod_pos_bound j 4 ltac:(lia)).
  destruct (Z.eqb_spec (j / 4) (7 - i)) as [E|E]; cbn [andb].
  - f_equal. lia.
  - destruct (Z.lt_ge_cases (j - (28 - i * 4)) 0); [by apply Z.testbit_neg_r|].
    apply nibble_testbit; lia.
Qed.

Lemma CR_Get_testbit j fields :
  0 <= j < 32 -> Z.testbit (CR_Get fields) j = Z.testbit (GetField (7 - j / 4) fields) (j mod 4).
Proof.
  intros Hj. unfold CR_Get, field_indices. cbn [foldl]. rewrite !Z.lor_spec, !field_bit, Z.bits_0 by lia.
  assert (Hq : 0 <= j / 4 < 8) by (split; [apply Z.div_pos; lia | apply Z.div_lt_upper_bound; lia]).
  destruct (Z.eq_dec (j / 4) 0) as [->|]; [cbn; by rewrite ?orb_false_r|].
  destruct (Z.eq_dec (j / 4) 1) as [->|]; [cbn; by rewrite ?orb_false_r|].
  destruct (Z.eq_dec (j / 4) 2) as [->|]; [cbn; by rewrite ?orb_false_r|].
  destruct (Z.eq_dec (j / 4) 3) as [->|]; [cbn; by rewrite ?orb_false_r|].
  destruct (Z.eq_dec (j / 4) 4) as [->|]; [cbn; by rewrite ?orb_false_r|].
  destruct (Z.eq_dec (j / 4) 5) as [->|]; [cbn; by rewrite ?orb_false_r|].
  destruct (Z.eq_dec (j / 4) 6) as [->|]; [cbn; by rewrite ?orb_false_r|].
  assert (j / 4 = 7) as -> by lia. cbn. by rewrite ?orb_false_r.
Qed.

Lemma CR_Get_u32 fields : u32 (CR_Get fields).
Proof.
  unfold CR_Get, field_indices. cbn [foldl].
  repeat (apply uN_lor; [lia | | apply wrapu_range; lia]). by unfold uN.
Qed.

(** A field after all eight are set. *)
Lemma GetField_CR_Set i cr fields : 0 <= i < 8 -> GetField i (CR_Set cr fields) = nibble i cr.
Proof.
  intros Hi. unfold CR_Set, field_indices. cbn [foldl].
  assert (Hn : forall k, 0 <= (cr .>> k) .& 15 < 16) by (intros k; pose proof (land_bound (cr .>> k) 15); lia).
  repeat lazymatch goal with
  | |- GetField i (SetField ?k ?v _) = _ =>
      destruct (Z.eq_dec i k) as [->|]; [apply GetField_SetField, Hn | rewrite GetField_SetField_ne by congruence]
  end. lia.
Qed.

Lemma nibble_bit i j cr : 0 <= i < 8 -> 0 <= j < 4 -> Z.testbit (nibble i cr) j = Z.testbit cr (28 - i * 4 + j).
Proof.
  intros Hi Hj. unfold nibble. change 15 with (2 ^ 4 - 1). rewrite land_wrapu by lia. unfold wrapu.
  rewrite Z.mod_pow2_bits_low, Z.shiftr_spec by lia. f_equal. lia.
Qed.

Lemma GetBit_testbit bit fields : 0 <= bit < 32 ->
  GetBit bit fields = truth (Z.testbit (GetField (bit / 4) fields) (3 - bit mod 4)).
Proof.
  intros Hb. unfold GetBit. rewrite (Z.shiftr_div_pow2 bit 2) by lia. change (2 ^ 2) with 4.
  assert (E3 : bit .& 3 = bit mod 4) by exact (Z.land_ones bit 2 ltac:(lia)). rewrite E3.
  pose proof (Z.mod_pos_bound bit 4 ltac:(lia)).
  change 1 with (Z.ones 1). rewrite Z.land_ones by lia. change (2 ^ 1) with 2.
  rewrite <- Z.bit0_mod, Z.shiftr_spec, Z.add_0_l by lia. by destruct (Z.testbit _ _).
Qed.

Lemma CR_Set_ok cr fields : arr_ok u64 fields -> arr_ok u64 (CR_Set cr fields).
Proof.
  intros Hf. unfold CR_Set, field_indices. cbn [foldl].
  repeat (apply SetField_ok; [match goal with |- 0 <= ?x .& _ < _ => pose proof (land_bound x 15) end; lia |]).
  exact Hf.
Qed.
