(* ===== verification/Gekko.v ===== *)
(** Instruction words of the PowerPC ([Core/PowerPC/Gekko.h]) and the accessors of its
    registers ([PowerPC.h]). *)
From stdpp Require Import base tactics option list gmap.
From Stdlib Require Import ZArith Lia Bool.
From S2P Require Import Prelude PowerPC ConditionRegister.

#[local] Open Scope Z_scope.

(** * [UGeckoInstruction]

    The members of the union, by their offset from the lowest bit. *)

Definition flag (inst i : Z) : bool := Z.testbit inst i.

Definition OPCD (inst : Z) : Z := bits 26 6 inst.
Definition SUBOP10 (inst : Z) : Z := bits 1 10 inst.
Definition SUBOP5 (inst : Z) : Z := bits 1 5 inst.
Definition RD (inst : Z) : Z := bits 21 5 inst.
Definition RS (inst : Z) : Z := bits 21 5 inst.
Definition RA (inst : Z) : Z := bits 16 5 inst.
Definition RB (inst : Z) : Z := bits 11 5 inst.
Definition SIMM_16 (inst : Z) : Z := to_s16 inst.
Definition UIMM (inst : Z) : Z := bits 0 16 inst.
Definition TO (inst : Z) : Z := bits 21 5 inst.
Definition CRFD (inst : Z) : Z := bits 23 3 inst.
Definition CRFS (inst : Z) : Z := bits 18 3 inst.
Definition CRBA (inst : Z) : Z := bits 16 5 inst.
Definition CRBB (inst : Z) : Z := bits 11 5 inst.
Definition CRBD (inst : Z) : Z := bits 21 5 inst.
Definition CRM (inst : Z) : Z := bits 12 8 inst.
Definition SR_ (inst : Z) : Z := bits 16 4 inst.
Definition SPR (inst : Z) : Z := bits 11 10 inst.
Definition SPRU (inst : Z) : Z := bits 11 5 inst.
Definition SPRL (inst : Z) : Z := bits 16 5 inst.
Definition LI (inst : Z) : Z := bits 2 24 inst.
Definition BD (inst : Z) : Z := bits 2 14 inst.
Definition BI (inst : Z) : Z := bits 16 5 inst.
Definition BO (inst : Z) : Z := bits 21 5 inst.
Definition SH (inst : Z) : Z := bits 11 5 inst.
Definition MB (inst : Z) : Z := bits 6 5 inst.
Definition ME (inst : Z) : Z := bits 1 5 inst.
Definition Rc (inst : Z) : bool := flag inst 0.
Definition LK (inst : Z) : bool := flag inst 0.
Definition AA (inst : Z) : bool := flag inst 1.
Definition OE (inst : Z) : bool := flag inst 10.

(** Used in implementations of rlwimi, rlwinm, and rlwnm. *)
Definition MakeRotationMask (mb me : Z) : Z :=
  let begin := 0xFFFFFFFF .>> mb in
  let end_ := 0x7FFFFFFF .>> me in
  let mask := begin .^ end_ in
  if me <? mb then to_u32 (Z.lnot mask) else mask.

(** [SignExt16] and [SignExt26]. *)
Definition SignExt16 (x : Z) : Z := wraps 16 x.
Definition SignExt26 (x : Z) : Z :=
  if negb ((x .& 0x2000000) =? 0) then to_s32 (x .| 0xFC000000) else to_s32 x.

(** * Registers *)

Definition get_gpr (i : Z) (p : PPCState) : Z := aat (gpr p) i.
Definition set_gpr (i v : Z) (p : PPCState) : PPCState := fset p_gpr (aupd (gpr p) i v) p.

Definition SetCarry (ca : Z) : PPCState -> PPCState := fset p_xer_ca (to_u8 ca).
Definition GetCarry (p : PPCState) : Z := xer_ca p.

Definition GetXER_SO (p : PPCState) : Z := xer_so_ov p .>> 1.
Definition GetXER_OV (p : PPCState) : Z := xer_so_ov p .& 1.
Definition SetXER_SO (value : bool) (p : PPCState) : PPCState :=
  fset p_xer_so_ov (xer_so_ov p .| (truth value .<< 1)) p.
Definition SetXER_OV (value : bool) (p : PPCState) : PPCState :=
  SetXER_SO value (fset p_xer_so_ov ((xer_so_ov p .& 0xFE) .| truth value) p).

(** The shifts of the [u8] members are on [int]; the result is a [u32]. *)
Definition GetXER (p : PPCState) : Z :=
  let xer := 0 in
  let xer := xer .| xer_stringctrl p in
  let xer := xer .| to_u32 (xer_ca p .<< 29) in
  xer .| to_u32 (xer_so_ov p .<< 30).

Definition SetXER (new_xer : Z) (p : PPCState) : PPCState :=
  let p := fset p_xer_stringctrl (to_u16 (bits 0 7 new_xer + (bits 8 8 new_xer .<< 8))) p in
  let p := fset p_xer_ca (bits 29 1 new_xer) p in
  fset p_xer_so_ov (to_u8 ((bits 31 1 new_xer .<< 1) + bits 30 1 new_xer)) p.

Definition SetCRField (cr_field value : Z) (p : PPCState) : PPCState :=
  fset p_cr_fields (SetField cr_field value (cr_fields p)) p.

(** * [ExceptionUtils.h] *)

Inductive ProgramExceptionCause : Type :=
  | FloatingPoint | IllegalInstruction | PrivilegedInstruction | Trap.

Definition program_exception_value (cause : ProgramExceptionCause) : Z :=
  match cause with
  | FloatingPoint => 1 .<< (31 - 11)
  | IllegalInstruction => 1 .<< (31 - 12)
  | PrivilegedInstruction => 1 .<< (31 - 13)
  | Trap => 1 .<< (31 - 14)
  end.

Abbreviation SPR_XER := 1 (only parsing).
Abbreviation SPR_LR := 8 (only parsing).
Abbreviation SPR_CTR := 9 (only parsing).
Abbreviation SPR_DSISR := 18 (only parsing).
Abbreviation SPR_DAR := 19 (only parsing).

Definition GenerateAlignmentException (address : Z) (p : PPCState) : PPCState :=
  set_spr SPR_DAR address (raise_exception EXCEPTION_ALIGNMENT p).
Definition GenerateDSIException (address : Z) (p : PPCState) : PPCState :=
  set_spr SPR_DAR address (raise_exception EXCEPTION_DSI p).
Definition GenerateProgramException (cause : ProgramExceptionCause) (p : PPCState) : PPCState :=
  set_spr SPR_SRR1 (program_exception_value cause) (raise_exception EXCEPTION_PROGRAM p).

(** * The invariant of the registers

    Every register holds a value of its type; the members of XER are single bits. *)
Record ppc_ok (p : PPCState) : Prop := {
  pk_pc : u32 (pc p);
  pk_npc : u32 (npc p);
  pk_gpr : arr_ok u32 (gpr p);
  pk_spr : arr_ok u32 (spr p);
  pk_msr : u32 (msr p);
  pk_exceptions : u32 (Exceptions p);
  pk_cr : arr_ok u64 (cr_fields p);
  pk_ca : 0 <= xer_ca p <= 1;
  pk_so_ov : 0 <= xer_so_ov p <= 3;
  pk_string : 0 <= xer_stringctrl p < 2 ^ 16;
  pk_sr : arr_ok u32 (ppc_sr p)
}.
