(* ===== verification/PPCInteger.v ===== *)
(** The integer instructions of the PowerPC
    ([Core/PowerPC/Interpreter/Interpreter_Integer.cpp]).  They change nothing but
    [ppc_state]; the two traps also end the block, and give back whether they did. *)
From stdpp Require Import base tactics option list gmap.
From Stdlib Require Import ZArith Lia Bool.
From S2P Require Import Prelude PowerPC ConditionRegister Gekko.

#[local] Open Scope Z_scope.
Implicit Types (inst value : Z) (p : PPCState).

(** * Helpers *)

(** [~value] on [u32]. *)
Definition not32 (value : Z) : Z := to_u32 (Z.lnot value).

(** The value becomes field 0 of the condition register as it is, sign-extended. *)
Definition cr0_value (so value : Z) : Z :=
  let sign_extended := to_s32 value in
  let cr_val := to_u64 sign_extended in
  let cr_val := if value =? 0 then cr_val .| (1 .<< 63) else cr_val in
  (cr_val .& to_u64 (Z.lnot (1 .<< CR_EMU_SO_BIT))) .| to_u64 (so .<< CR_EMU_SO_BIT).

Definition Helper_UpdateCR0 value p : PPCState :=
  fset p_cr_fields (aupd (cr_fields p) 0 (cr0_value (GetXER_SO p) value)) p.

Definition Helper_Carry (value1 value2 : Z) : bool := not32 value1 <? value2.

Definition Helper_IntCompare inst (a b : Z) p : PPCState :=
  let cr_field := if a <? b then CR_LT else if b <? a then CR_GT else CR_EQ in
  let cr_field := if negb (GetXER_SO p =? 0) then cr_field .| CR_SO else cr_field in
  SetCRField (CRFD inst) cr_field p.

Definition HasAddOverflowed (x y result : Z) : bool :=
  negb ((((x .^ result) .& (y .^ result)) .>> 31) =? 0).

(** [if (inst.Rc) Helper_UpdateCR0(...)] and [if (inst.OE) SetXER_OV(...)]. *)
Definition update_Rc inst value p : PPCState := if Rc inst then Helper_UpdateCR0 value p else p.
Definition update_OE inst (overflow : bool) p : PPCState := if OE inst then SetXER_OV overflow p else p.

Definition rotl32 (x s : Z) : Z := to_u32 (x .<< s) .| (x .>> (32 - s)).
Definition countl_zero32 (x : Z) : Z := if x =? 0 then 32 else 31 - Z.log2 x.

(** * Instructions with an immediate operand *)

Definition addi inst p : PPCState :=
  if negb (RA inst =? 0) then
    set_gpr (RD inst) (to_u32 (get_gpr (RA inst) p + to_u32 (SIMM_16 inst))) p
  else set_gpr (RD inst) (to_u32 (SIMM_16 inst)) p.

Definition addic inst p : PPCState :=
  let a := get_gpr (RA inst) p in
  let imm := to_u32 (SIMM_16 inst) in
  SetCarry (truth (Helper_Carry a imm)) (set_gpr (RD inst) (to_u32 (a + imm)) p).

Definition addic_rc inst p : PPCState :=
  let p := addic inst p in
  Helper_UpdateCR0 (get_gpr (RD inst) p) p.

Definition addis inst p : PPCState :=
  if negb (RA inst =? 0) then
    set_gpr (RD inst) (to_u32 (get_gpr (RA inst) p + to_u32 (SIMM_16 inst .<< 16))) p
  else set_gpr (RD inst) (to_u32 (SIMM_16 inst .<< 16)) p.

Definition andi_rc inst p : PPCState :=
  let p := set_gpr (RA inst) (get_gpr (RS inst) p .& UIMM inst) p in
  Helper_UpdateCR0 (get_gpr (RA inst) p) p.

Definition andis_rc inst p : PPCState :=
  let p := set_gpr (RA inst) (get_gpr (RS inst) p .& to_u32 (UIMM inst .<< 16)) p in
  Helper_UpdateCR0 (get_gpr (RA inst) p) p.

Definition cmpi inst p : PPCState :=
  let a := to_s32 (get_gpr (RA inst) p) in
  let b := SIMM_16 inst in
  Helper_IntCompare inst a b p.

Definition cmpli inst p : PPCState :=
  let a := get_gpr (RA inst) p in
  let b := UIMM inst in
  Helper_IntCompare inst a b p.

(** The product of the [s32]s may overflow, which C++ leaves undefined. *)
Definition mulli inst p : PPCState :=
  set_gpr (RD inst) (to_u32 (to_s32 (get_gpr (RA inst) p) * SIMM_16 inst)) p.

Definition ori inst p : PPCState := set_gpr (RA inst) (get_gpr (RS inst) p .| UIMM inst) p.
Definition oris inst p : PPCState := set_gpr (RA inst) (get_gpr (RS inst) p .| to_u32 (UIMM inst .<< 16)) p.

(** The carry is computed from [gpr[RA]] after [gpr[RD]] is written. *)
Definition subfic inst p : PPCState :=
  let immediate := SIMM_16 inst in
  let p := set_gpr (RD inst) (to_u32 (immediate - to_s32 (get_gpr (RA inst) p))) p in
  SetCarry (truth ((get_gpr (RA inst) p =? 0) ||
                   Helper_Carry (to_u32 (0 - get_gpr (RA inst) p)) (to_u32 immediate))) p.

(** The condition of [tw] and [twi]: the operands are [s32]. *)
Definition trap_condition (to a b : Z) : bool :=
  ((a <? b) && negb ((to .& 0x10) =? 0)) ||
  ((b <? a) && negb ((to .& 0x08) =? 0)) ||
  ((a =? b) && negb ((to .& 0x04) =? 0)) ||
  ((to_u32 a <? to_u32 b) && negb ((to .& 0x02) =? 0)) ||
  ((to_u32 b <? to_u32 a) && negb ((to .& 0x01) =? 0)).

Definition take_trap (condition : bool) p : PPCState * bool :=
  if condition then (CheckExceptions (GenerateProgramException Trap p), true) else (p, false).

Definition twi inst p : PPCState * bool :=
  let a := to_s32 (get_gpr (RA inst) p) in
  let b := SIMM_16 inst in
  take_trap (trap_condition (TO inst) a b) p.

Definition xori inst p : PPCState := set_gpr (RA inst) (get_gpr (RS inst) p .^ UIMM inst) p.
Definition xoris inst p : PPCState := set_gpr (RA inst) (get_gpr (RS inst) p .^ to_u32 (UIMM inst .<< 16)) p.

(** * Rotations *)

Definition rlwimix inst p : PPCState :=
  let mask := MakeRotationMask (MB inst) (ME inst) in
  let p := set_gpr (RA inst)
    ((get_gpr (RA inst) p .& not32 mask) .| (rotl32 (get_gpr (RS inst) p) (SH inst) .& mask)) p in
  update_Rc inst (get_gpr (RA inst) p) p.

Definition rlwinmx inst p : PPCState :=
  let mask := MakeRotationMask (MB inst) (ME inst) in
  let p := set_gpr (RA inst) (rotl32 (get_gpr (RS inst) p) (SH inst) .& mask) p in
  update_Rc inst (get_gpr (RA inst) p) p.

Definition rlwnmx inst p : PPCState :=
  let mask := MakeRotationMask (MB inst) (ME inst) in
  let p := set_gpr (RA inst) (rotl32 (get_gpr (RS inst) p) (get_gpr (RB inst) p .& 0x1F) .& mask) p in
  update_Rc inst (get_gpr (RA inst) p) p.

(** * Logic *)

Definition andx inst p : PPCState :=
  let p := set_gpr (RA inst) (get_gpr (RS inst) p .& get_gpr (RB inst) p) p in
  update_Rc inst (get_gpr (RA inst) p) p.

Definition andcx inst p : PPCState :=
  let p := set_gpr (RA inst) (get_gpr (RS inst) p .& not32 (get_gpr (RB inst) p)) p in
  update_Rc inst (get_gpr (RA inst) p) p.

Definition cmp inst p : PPCState :=
  let a := to_s32 (get_gpr (RA inst) p) in
  let b := to_s32 (get_gpr (RB inst) p) in
  Helper_IntCompare inst a b p.

Definition cmpl inst p : PPCState :=
  let a := get_gpr (RA inst) p in
  let b := get_gpr (RB inst) p in
  Helper_IntCompare inst a b p.

Definition cntlzwx inst p : PPCState :=
  let p := set_gpr (RA inst) (countl_zero32 (get_gpr (RS inst) p)) p in
  update_Rc inst (get_gpr (RA inst) p) p.

Definition eqvx inst p : PPCState :=
  let p := set_gpr (RA inst) (not32 (get_gpr (RS inst) p .^ get_gpr (RB inst) p)) p in
  update_Rc inst (get_gpr (RA inst) p) p.

Definition extsbx inst p : PPCState :=
  let p := set_gpr (RA inst) (to_u32 (to_s8 (get_gpr (RS inst) p))) p in
  update_Rc inst (get_gpr (RA inst) p) p.

Definition extshx inst p : PPCState :=
  let p := set_gpr (RA inst) (to_u32 (to_s16 (get_gpr (RS inst) p))) p in
  update_Rc inst (get_gpr (RA inst) p) p.

Definition nandx inst p : PPCState :=
  let p := set_gpr (RA inst) (not32 (get_gpr (RS inst) p .& get_gpr (RB inst) p)) p in
  update_Rc inst (get_gpr (RA inst) p) p.

Definition norx inst p : PPCState :=
  let p := set_gpr (RA inst) (not32 (get_gpr (RS inst) p .| get_gpr (RB inst) p)) p in
  update_Rc inst (get_gpr (RA inst) p) p.

Definition orx inst p : PPCState :=
  let p := set_gpr (RA inst) (get_gpr (RS inst) p .| get_gpr (RB inst) p) p in
  update_Rc inst (get_gpr (RA inst) p) p.

Definition orcx inst p : PPCState :=
  let p := set_gpr (RA inst) (get_gpr (RS inst) p .| not32 (get_gpr (RB inst) p)) p in
  update_Rc inst (get_gpr (RA inst) p) p.

(** * Shifts *)

Definition slwx inst p : PPCState :=
  let amount := get_gpr (RB inst) p in
  let p := set_gpr (RA inst)
    (if negb ((amount .& 0x20) =? 0) then 0 else to_u32 (get_gpr (RS inst) p .<< (amount .& 0x1f))) p in
  update_Rc inst (get_gpr (RA inst) p) p.

(** [rrs < 0 && amount > 0 && (u32(rrs) << (32 - amount)) != 0] *)
Definition shifted_out (rrs amount : Z) : bool :=
  (rrs <? 0) && (0 <? amount) && negb (to_u32 (to_u32 rrs .<< (32 - amount)) =? 0).

Definition srawx inst p : PPCState :=
  let rb := get_gpr (RB inst) p in
  let p :=
    if negb ((rb .& 0x20) =? 0) then
      if negb ((get_gpr (RS inst) p .& 0x80000000) =? 0) then SetCarry 1 (set_gpr (RA inst) 0xFFFFFFFF p)
      else SetCarry 0 (set_gpr (RA inst) 0x00000000 p)
    else
      let amount := rb .& 0x1f in
      let rrs := to_s32 (get_gpr (RS inst) p) in
      SetCarry (truth (shifted_out rrs amount)) (set_gpr (RA inst) (to_u32 (rrs .>> amount)) p) in
  update_Rc inst (get_gpr (RA inst) p) p.

Definition srawix inst p : PPCState :=
  let amount := SH inst in
  let rrs := to_s32 (get_gpr (RS inst) p) in
  let p := SetCarry (truth (shifted_out rrs amount)) (set_gpr (RA inst) (to_u32 (rrs .>> amount)) p) in
  update_Rc inst (get_gpr (RA inst) p) p.

Definition srwx inst p : PPCState :=
  let amount := get_gpr (RB inst) p in
  let p := set_gpr (RA inst)
    (if negb ((amount .& 0x20) =? 0) then 0 else get_gpr (RS inst) p .>> (amount .& 0x1f)) p in
  update_Rc inst (get_gpr (RA inst) p) p.

Definition tw inst p : PPCState * bool :=
  let a := to_s32 (get_gpr (RA inst) p) in
  let b := to_s32 (get_gpr (RB inst) p) in
  take_trap (trap_condition (TO inst) a b) p.

Definition xorx inst p : PPCState :=
  let p := set_gpr (RA inst) (get_gpr (RS inst) p .^ get_gpr (RB inst) p) p in
  update_Rc inst (get_gpr (RA inst) p) p.

(** * Arithmetic *)

Definition addx inst p : PPCState :=
  let a := get_gpr (RA inst) p in
  let b := get_gpr (RB inst) p in
  let result := to_u32 (a + b) in
  let p := set_gpr (RD inst) result p in
  update_Rc inst result (update_OE inst (HasAddOverflowed a b result) p).

Definition addcx inst p : PPCState :=
  let a := get_gpr (RA inst) p in
  let b := get_gpr (RB inst) p in
  let result := to_u32 (a + b) in
  let p := set_gpr (RD inst) result p in
  let p := SetCarry (truth (Helper_Carry a b)) p in
  update_Rc inst result (update_OE inst (HasAddOverflowed a b result) p).

Definition addex inst p : PPCState :=
  let carry := GetCarry p in
  let a := get_gpr (RA inst) p in
  let b := get_gpr (RB inst) p in
  let result := to_u32 (a + b + carry) in
  let p := set_gpr (RD inst) result p in
  let p := SetCarry (truth (Helper_Carry a b || (negb (carry =? 0) && Helper_Carry (to_u32 (a + b)) carry))) p in
  update_Rc inst result (update_OE inst (HasAddOverflowed a b result) p).

Definition addmex inst p : PPCState :=
  let carry := GetCarry p in
  let a := get_gpr (RA inst) p in
  let b := 0xFFFFFFFF in
  let result := to_u32 (a + b + carry) in
  let p := set_gpr (RD inst) result p in
  let p := SetCarry (truth (Helper_Carry a (to_u32 (carry - 1)))) p in
  update_Rc inst result (update_OE inst (HasAddOverflowed a b result) p).

Definition addzex inst p : PPCState :=
  let carry := GetCarry p in
  let a := get_gpr (RA inst) p in
  let result := to_u32 (a + carry) in
  let p := set_gpr (RD inst) result p in
  let p := SetCarry (truth (Helper_Carry a carry)) p in
  update_Rc inst result (update_OE inst (HasAddOverflowed a 0 result) p).

Definition divwx inst p : PPCState :=
  let a := to_s32 (get_gpr (RA inst) p) in
  let b := to_s32 (get_gpr (RB inst) p) in
  let overflow := (b =? 0) || ((to_u32 a =? 0x80000000) && (b =? -1)) in
  let p :=
    if overflow then
      if a <? 0 then set_gpr (RD inst) 0xFFFFFFFF p else set_gpr (RD inst) 0 p
    else set_gpr (RD inst) (to_u32 (a ÷ b)) p in
  let p := update_OE inst overflow p in
  update_Rc inst (get_gpr (RD inst) p) p.

Definition divwux inst p : PPCState :=
  let a := get_gpr (RA inst) p in
  let b := get_gpr (RB inst) p in
  let overflow := b =? 0 in
  let p := if overflow then set_gpr (RD inst) 0 p else set_gpr (RD inst) (a / b) p in
  let p := update_OE inst overflow p in
  update_Rc inst (get_gpr (RD inst) p) p.

Definition mulhwx inst p : PPCState :=
  let a := to_s32 (get_gpr (RA inst) p) in
  let b := to_s32 (get_gpr (RB inst) p) in
  let d := to_u32 ((a * b) .>> 32) in
  update_Rc inst d (set_gpr (RD inst) d p).

Definition mulhwux inst p : PPCState :=
  let a := get_gpr (RA inst) p in
  let b := get_gpr (RB inst) p in
  let d := to_u32 (to_u64 (a * b) .>> 32) in
  update_Rc inst d (set_gpr (RD inst) d p).

Definition mullwx inst p : PPCState :=
  let a := to_s32 (get_gpr (RA inst) p) in
  let b := to_s32 (get_gpr (RB inst) p) in
  let result := a * b in
  let p := set_gpr (RD inst) (to_u32 result) p in
  let p := update_OE inst ((result <? -0x80000000) || (0x7FFFFFFF <? result)) p in
  update_Rc inst (get_gpr (RD inst) p) p.

Definition negx inst p : PPCState :=
  let a := get_gpr (RA inst) p in
  let p := set_gpr (RD inst) (to_u32 (not32 a + 1)) p in
  let p := update_OE inst (a =? 0x80000000) p in
  update_Rc inst (get_gpr (RD inst) p) p.

Definition subfx inst p : PPCState :=
  let a := not32 (get_gpr (RA inst) p) in
  let b := get_gpr (RB inst) p in
  let result := to_u32 (a + b + 1) in
  let p := set_gpr (RD inst) result p in
  update_Rc inst result (update_OE inst (HasAddOverflowed a b result) p).

Definition subfcx inst p : PPCState :=
  let a := not32 (get_gpr (RA inst) p) in
  let b := get_gpr (RB inst) p in
  let result := to_u32 (a + b + 1) in
  let p := set_gpr (RD inst) result p in
  let p := SetCarry (truth ((a =? 0xFFFFFFFF) || Helper_Carry b (to_u32 (a + 1)))) p in
  update_Rc inst result (update_OE inst (HasAddOverflowed a b result) p).

Definition subfex inst p : PPCState :=
  let a := not32 (get_gpr (RA inst) p) in
  let b := get_gpr (RB inst) p in
  let carry := GetCarry p in
  let result := to_u32 (a + b + carry) in
  let p := set_gpr (RD inst) result p in
  let p := SetCarry (truth (Helper_Carry a b || Helper_Carry (to_u32 (a + b)) carry)) p in
  update_Rc inst result (update_OE inst (HasAddOverflowed a b result) p).

(** Subtraction from minus one, and from zero. *)
Definition subfmex inst p : PPCState :=
  let a := not32 (get_gpr (RA inst) p) in
  let b := 0xFFFFFFFF in
  let carry := GetCarry p in
  let result := to_u32 (a + b + carry) in
  let p := set_gpr (RD inst) result p in
  let p := SetCarry (truth (Helper_Carry a (to_u32 (carry - 1)))) p in
  update_Rc inst result (update_OE inst (HasAddOverflowed a b result) p).

Definition subfzex inst p : PPCState :=
  let a := not32 (get_gpr (RA inst) p) in
  let carry := GetCarry p in
  let result := to_u32 (a + carry) in
  let p := set_gpr (RD inst) result p in
  let p := SetCarry (truth (Helper_Carry a carry)) p in
  update_Rc inst result (update_OE inst (HasAddOverflowed a 0 result) p).
