(* ===== verification/PPCIntegerProps.v ===== *)
(** The integer instructions of the PowerPC compute what the architecture defines. *)
From stdpp Require Import base tactics option list gmap.
From Stdlib Require Import ZArith Lia Bool.
From S2P Require Import Prelude PowerPC ConditionRegister Gekko PPCInteger.

#[local] Open Scope Z_scope.
Implicit Types (inst v : Z) (p : PPCState).

(** * Words *)

Lemma not32_eq x : u32 x -> not32 x = 0xFFFFFFFF - x.
Proof. intros Hx. unfold not32, Z.lnot. apply wrapu_unique with (k := -1); unfold uN in *; lia. Qed.

Lemma not32_range x : u32 (not32 x).
Proof. apply wrapu_range. lia. Qed.

Lemma Helper_Carry_spec x y : u32 x -> Helper_Carry x y = (2 ^ 32 <=? x + y).
Proof.
  intros Hx. unfold Helper_Carry. rewrite not32_eq by done.
  destruct (Z.ltb_spec (0xFFFFFFFF - x) y), (Z.leb_spec (2 ^ 32) (x + y)); lia.
Qed.

Lemma to_s32_eq x : u32 x -> to_s32 x = if 2 ^ 31 <=? x then x - 2 ^ 32 else x.
Proof.
  intros Hx. unfold uN in Hx. destruct (Z.leb_spec (2 ^ 31) x).
  - apply wraps_unique with (k := 1); unfold sN; lia.
  - apply wraps_unique with (k := 0); unfold sN; lia.
Qed.

Lemma testbit31 x : u32 x -> Z.testbit x 31 = (2 ^ 31 <=? x).
Proof.
  intros Hx. unfold uN in Hx. rewrite Z.testbit_eqb by lia.
  destruct (Z.leb_spec (2 ^ 31) x).
  - by rewrite <- (Z.div_unique x (2 ^ 31) 1 (x - 2 ^ 31)) by lia.
  - by rewrite Z.div_small by lia.
Qed.

Lemma shiftr31 x : u32 x -> negb ((x .>> 31) =? 0) = Z.testbit x 31.
Proof.
  intros Hx. rewrite testbit31 by done. rewrite Z.shiftr_div_pow2 by lia. unfold uN in Hx.
  destruct (Z.leb_spec (2 ^ 31) x).
  - by rewrite <- (Z.div_unique x (2 ^ 31) 1 (x - 2 ^ 31)) by lia.
  - by rewrite Z.div_small by lia.
Qed.

Lemma u32_div x k : u32 x -> 0 <= k -> u32 (x / 2 ^ k).
Proof.
  intros Hx Hk. unfold uN in *. pose proof (pow2_pos k Hk). split; [apply Z.div_pos; lia|].
  apply Z.le_lt_trans with x; [|lia]. apply Z.div_le_upper_bound; nia.
Qed.

(** A signed sum that does not fit 32 bits. *)
Definition overflows (s : Z) : bool := negb (to_s32 s =? s).

Lemma overflows_spec s : overflows s = (s <? - 2 ^ 31) || (2 ^ 31 <=? s).
Proof.
  unfold overflows. pose proof (wraps_range 32 s ltac:(lia)) as Hr. unfold sN in Hr.
  destruct (Z.ltb_spec s (- 2 ^ 31)), (Z.leb_spec (2 ^ 31) s); cbn [orb];
    [lia | | | rewrite wraps_small by (unfold sN; lia); by rewrite Z.eqb_refl];
    destruct (Z.eqb_spec (to_s32 s) s); (done || lia).
Qed.

Lemma HasAddOverflowed_spec x y c :
  u32 x -> u32 y -> 0 <= c <= 1 ->
  HasAddOverflowed x y (to_u32 (x + y + c)) = overflows (to_s32 x + to_s32 y + c).
Proof.
  intros Hx Hy Hc. unfold HasAddOverflowed. set (r := to_u32 (x + y + c)).
  assert (Hr : u32 r) by (apply wrapu_range; lia).
  rewrite shiftr31 by (apply uN_land_r; [lia | by apply uN_lxor]).
  rewrite Z.land_spec, !Z.lxor_spec, !testbit31 by done.
  rewrite overflows_spec, !to_s32_eq by done.
  assert (Er : r = x + y + c \/ r = x + y + c - 2 ^ 32).
  { unfold r. unfold uN in *. destruct (Z.lt_ge_cases (x + y + c) (2 ^ 32)).
    - left. apply wrapu_small. unfold uN. lia.
    - right. apply wrapu_unique with (k := 1); unfold uN; lia. }
  unfold uN in *.
  destruct (Z.leb_spec (2 ^ 31) x), (Z.leb_spec (2 ^ 31) y), (Z.leb_spec (2 ^ 31) r); cbn [xorb andb];
    repeat match goal with |- context [?a <? ?b] => destruct (Z.ltb_spec a b) | |- context [?a <=? ?b] => destruct (Z.leb_spec a b) end;
    cbn [orb]; (done || lia).
Qed.

(** * Registers *)

(** The relation of a result with zero, as the four flags of a field. *)
Definition compare_flags (a b so : Z) : Z := flags_value (a <? b) (b <? a) (a =? b) (negb (so =? 0)).

Lemma so_bit p : ppc_ok p -> 0 <= GetXER_SO p <= 1.
Proof.
  intros Hp. pose proof (pk_so_ov p Hp). unfold GetXER_SO. rewrite Z.shiftr_div_pow2 by lia.
  change (2 ^ 1) with 2. Z.div_mod_to_equations. lia.
Qed.

(** The sign-extended value, with the summary overflow bit in its place. *)
Lemma cr0_value_bits so v n :
  0 <= so <= 1 -> 0 <= n < 64 -> n <> 59 ->
  Z.testbit (cr0_value so v) n = Z.testbit (if v =? 0 then 2 ^ 63 else to_s32 v) n.
Proof.
  intros Hso Hn Hne. unfold cr0_value. rewrite (wrapu_small 64 (so .<< 59)) by (rewrite Z.shiftl_mul_pow2 by lia; unfold uN; lia).
  rewrite Z.lor_spec, Z.land_spec, Z.shiftl_spec by lia.
  assert (Hk : Z.testbit (to_u64 (Z.lnot (1 .<< 59))) n = true).
  { unfold wrapu. rewrite Z.mod_pow2_bits_low, Z.lnot_spec, Z.shiftl_1_l, Z.pow2_bits_false by lia. done. }
  rewrite Hk, andb_true_r. replace (Z.testbit so (n - 59)) with false.
  - rewrite orb_false_r. destruct (Z.eqb_spec v 0) as [->|]; [done|]. unfold wrapu. by rewrite Z.mod_pow2_bits_low by lia.
  - symmetry. destruct (Z.lt_ge_cases n 59); [apply Z.testbit_neg_r; lia|]. apply (uN_bits 1); unfold uN; lia.
Qed.

Lemma cr0_value_so so v : 0 <= so <= 1 -> Z.testbit (cr0_value so v) 59 = negb (so =? 0).
Proof.
  intros Hso. unfold cr0_value. rewrite (wrapu_small 64 (so .<< 59)) by (rewrite Z.shiftl_mul_pow2 by lia; unfold uN; lia).
  rewrite Z.lor_spec, Z.land_spec, Z.shiftl_spec by lia. change (59 - 59) with 0.
  replace (Z.testbit (to_u64 (Z.lnot (1 .<< CR_EMU_SO_BIT))) 59) with false by done.
  rewrite andb_false_r. by assert (so = 0 \/ so = 1) as [->| ->] by lia.
Qed.

Lemma cr0_value_range so v : u64 (cr0_value so v).
Proof.
  unfold cr0_value. apply uN_lor; [lia | apply uN_land_r; [lia|] |]; apply wrapu_range; lia.
Qed.

Lemma cr0_value_low so v : u32 v -> 0 <= so <= 1 -> cr0_value so v .& 0xFFFFFFFF = v.
Proof.
  intros Hv Hso. change 0xFFFFFFFF with (2 ^ 32 - 1). rewrite land_wrapu by lia.
  apply Z.bits_inj'. intros n Hn. unfold wrapu. destruct (Z.lt_ge_cases n 32).
  - rewrite Z.mod_pow2_bits_low, cr0_value_bits by lia. destruct (Z.eqb_spec v 0) as [->|].
    + rewrite Z.pow2_bits_false, Z.bits_0 by lia. done.
    + rewrite <- (Z.mod_pow2_bits_low (to_s32 v) 32) by lia. change (to_s32 v mod 2 ^ 32) with (to_u32 (to_s32 v)).
      rewrite wrapu_wraps by lia. by rewrite (wrapu_small 32 v).
  - rewrite Z.mod_pow2_bits_high by lia. symmetry. by apply (uN_bits 32 v); [lia | apply Hv | exact Hv |].
Qed.

(** The sign bits of a signed word. *)
Lemma s32_high_bits s n : sN 32 s -> 31 <= n -> Z.testbit s n = (s <? 0).
Proof.
  intros Hs Hn. unfold sN in Hs. destruct (Z.ltb_spec s 0).
  - apply Z.bits_above_log2_neg; [done|]. destruct (Z.eq_dec s (-1)) as [->|]; [change (Z.log2 (Z.pred (- -1))) with 0; lia|].
    apply Z.log2_lt_pow2; [lia|]. apply Z.lt_le_trans with (2 ^ 31); [lia | apply Z.pow_le_mono_r; lia].
  - apply (uN_bits 31 s); [lia | done | unfold uN; lia | done].
Qed.

Lemma cr0_value_flags so v fields i :
  u32 v -> 0 <= so <= 1 -> GetField i (aupd fields i (cr0_value so v)) = compare_flags (to_s32 v) 0 so.
Proof.
  intros Hv Hso. rewrite GetField_flags, aat_aupd_eq. unfold compare_flags.
  pose proof (wraps_range 32 v ltac:(lia)) as Hs. pose proof (cr0_value_range so v) as Hr.
  pose proof (cr0_value_low so v Hv Hso) as Hl.
  assert (Hz : v = 0 <-> to_s32 v = 0).
  { rewrite to_s32_eq by done. unfold uN in Hv. destruct (Z.leb_spec (2 ^ 31) v); lia. }
  assert (Hp : (0 <? to_s64 (cr0_value so v)) = negb (Z.testbit (cr0_value so v) 63) && negb (v =? 0)).
  { assert (Hne : cr0_value so v = 0 -> v = 0) by (intros E; by rewrite E in Hl).
    assert (Hb : Z.testbit (cr0_value so v) 63 = (2 ^ 63 <=? cr0_value so v)).
    { unfold uN in Hr. rewrite Z.testbit_eqb by lia. destruct (Z.leb_spec (2 ^ 63) (cr0_value so v)).
      - by rewrite <- (Z.div_unique (cr0_value so v) (2 ^ 63) 1 (cr0_value so v - 2 ^ 63)) by lia.
      - by rewrite Z.div_small by lia. }
    rewrite Hb. unfold uN in Hr. destruct (Z.leb_spec (2 ^ 63) (cr0_value so v)) as [Hge|Hlt].
    - rewrite (wraps_unique 64 _ (cr0_value so v - 2 ^ 64) 1) by (unfold sN; lia).
      cbn [negb andb]. apply Z.ltb_ge. lia.
    - rewrite wraps_small by (unfold sN; lia). destruct (Z.eqb_spec v 0) as [->|Hv0].
      + exfalso. rewrite cr0_value_bits in Hb by lia. cbn [Z.eqb] in Hb. by rewrite Z.pow2_bits_true in Hb by lia.
      + apply Z.ltb_lt. destruct (Z.eq_dec (cr0_value so v) 0); [tauto | lia]. }
  rewrite Hp, Hl, cr0_value_so, !cr0_value_bits by lia.
  destruct (Z.eqb_spec v 0) as [E|E].
  - rewrite (proj1 Hz E). rewrite Z.pow2_bits_true, Z.pow2_bits_false by lia. done.
  - rewrite !s32_high_bits by (done || lia). f_equal.
    + destruct (Z.ltb_spec (to_s32 v) 0), (Z.ltb_spec 0 (to_s32 v)); cbn; (done || lia).
    + destruct (Z.eqb_spec (to_s32 v) 0); [tauto | done].
Qed.

(** * What an instruction changes

    The registers an arithmetic instruction does not write. *)
Definition others p := (pc p, npc p, spr p, msr p, Exceptions p, downcount p, feature_flags p,
  xer_stringctrl p, ppc_sr p, reserve p, reserve_address p, fpscr p, ps0 p, ps1 p).

(** A result in register [r], a carry, an overflow for XER if the instruction asks for it,
    and field 0 of the condition register if it asks for that. *)
Record result_written inst (r v ca : Z) (overflow : bool) p p' : Prop := {
  rw_gpr : forall i, get_gpr i p' = if i =? r then v else get_gpr i p;
  rw_ca : GetCarry p' = ca;
  rw_ov : GetXER_OV p' = if OE inst then truth overflow else GetXER_OV p;
  rw_so : GetXER_SO p' = if OE inst && overflow then 1 else GetXER_SO p;
  rw_cr0 : GetField 0 (cr_fields p') =
    if Rc inst then compare_flags (to_s32 v) 0 (GetXER_SO p') else GetField 0 (cr_fields p);
  rw_cr : forall i, i <> 0 -> GetField i (cr_fields p') = GetField i (cr_fields p);
  rw_others : others p' = others p
}.

Lemma SetXER_OV_eq b p : ppc_ok p ->
  xer_so_ov (SetXER_OV b p) = (if b then 3 else GetXER_SO p * 2).
Proof.
  intros Hp. pose proof (pk_so_ov p Hp). cbn -[Z.land Z.lor Z.shiftl]. unfold GetXER_SO.
  assert (H4 : xer_so_ov p = 0 \/ xer_so_ov p = 1 \/ xer_so_ov p = 2 \/ xer_so_ov p = 3) by lia.
  by destruct H4 as [->|[->|[->| ->]]], b.
Qed.

Lemma get_set_gpr i r v p : get_gpr i (set_gpr r v p) = if i =? r then v else get_gpr i p.
Proof. unfold get_gpr, set_gpr. cbn. rewrite aat_aupd. by rewrite Z.eqb_sym. Qed.

Lemma get_gpr_same r v p : get_gpr r (set_gpr r v p) = v.
Proof. rewrite get_set_gpr. by rewrite Z.eqb_refl. Qed.

Lemma ppc_ok_set_gpr r v p : u32 v -> ppc_ok p -> ppc_ok (set_gpr r v p).
Proof. intros Hv []. split; cbn; try done. by apply arr_ok_aupd. Qed.

Lemma ppc_ok_SetCarry ca p : 0 <= ca <= 1 -> ppc_ok p -> ppc_ok (SetCarry ca p).
Proof. intros Hc []. split; cbn; try done. rewrite wrapu_small by (unfold uN; lia). done. Qed.

Lemma ppc_ok_SetXER_OV b p : ppc_ok p -> ppc_ok (SetXER_OV b p).
Proof.
  intros Hp. pose proof (SetXER_OV_eq b p Hp) as E. pose proof (so_bit p Hp).
  destruct Hp. split; try done. rewrite E. destruct b; lia.
Qed.

Lemma ppc_ok_UpdateCR0 v p : ppc_ok p -> ppc_ok (Helper_UpdateCR0 v p).
Proof. intros []. split; cbn; try done. apply arr_ok_aupd; [done|]. apply cr0_value_range. Qed.

Lemma ppc_ok_SetCRField i v p : 0 <= v < 16 -> ppc_ok p -> ppc_ok (SetCRField i v p).
Proof. intros Hv []. split; cbn; try done. by apply SetField_ok. Qed.

Lemma ppc_ok_update_Rc inst v p : ppc_ok p -> ppc_ok (update_Rc inst v p).
Proof. intros. unfold update_Rc. case_match; [by apply ppc_ok_UpdateCR0 | done]. Qed.

Lemma ppc_ok_update_OE inst b p : ppc_ok p -> ppc_ok (update_OE inst b p).
Proof. intros. unfold update_OE. case_match; [by apply ppc_ok_SetXER_OV | done]. Qed.

(** A carry that was not written. *)
Lemma SetCarry_same p : ppc_ok p -> SetCarry (GetCarry p) p = p.
Proof.
  intros Hp. pose proof (pk_ca p Hp). unfold SetCarry, GetCarry. rewrite wrapu_small by (unfold uN; lia). by destruct p.
Qed.

Lemma SetXER_OV_values b p : ppc_ok p ->
  GetXER_OV (SetXER_OV b p) = truth b /\ GetXER_SO (SetXER_OV b p) = if b then 1 else GetXER_SO p.
Proof.
  intros Hp. pose proof (so_bit p Hp). unfold GetXER_OV, GetXER_SO at 1. rewrite SetXER_OV_eq by done.
  destruct b; [done|]. by assert (GetXER_SO p = 0 \/ GetXER_SO p = 1) as [->| ->] by lia.
Qed.

Lemma GetField_UpdateCR0_ne i v p : i <> 0 -> GetField i (cr_fields (Helper_UpdateCR0 v p)) = GetField i (cr_fields p).
Proof.
  intros Hi. change (GetField i (aupd (cr_fields p) 0 (cr0_value (GetXER_SO p) v)) = GetField i (cr_fields p)).
  unfold GetField. by rewrite aat_aupd_ne.
Qed.

(** The common end of the arithmetic instructions. *)
Lemma result_written_intro inst r v ca ov p :
  ppc_ok p -> u32 v -> 0 <= ca <= 1 ->
  result_written inst r v ca ov p (update_Rc inst v (update_OE inst ov (SetCarry ca (set_gpr r v p)))).
Proof.
  intros Hp Hv Hc. set (p1 := SetCarry ca (set_gpr r v p)).
  assert (H1 : ppc_ok p1) by by apply ppc_ok_SetCarry, ppc_ok_set_gpr.
  set (p2 := update_OE inst ov p1). pose proof (ppc_ok_update_OE inst ov p1 H1) as H2. fold p2 in H2.
  assert (Hov : GetXER_OV p2 = if OE inst then truth ov else GetXER_OV p)
    by (unfold p2, update_OE; destruct (OE inst); [apply (SetXER_OV_values ov p1 H1) | done]).
  assert (Hso : GetXER_SO p2 = if OE inst && ov then 1 else GetXER_SO p).
  { unfold p2, update_OE; destruct (OE inst); [|done]. rewrite (proj2 (SetXER_OV_values ov p1 H1)). by destruct ov. }
  assert (Hg : gpr p2 = gpr (set_gpr r v p) /\ xer_ca p2 = to_u8 ca /\ cr_fields p2 = cr_fields p /\ others p2 = others p)
    by (unfold p2, update_OE; by destruct (OE inst)).
  destruct Hg as (Hg & Hca & Hcr & Hoth). rewrite (wrapu_small 8 ca) in Hca by (unfold uN; lia).
  unfold update_Rc. destruct (Rc inst) eqn:ERc; split; rewrite ?ERc; try done.
  - intros i. change (aat (gpr p2) i = if i =? r then v else get_gpr i p). rewrite Hg. apply get_set_gpr.
  - apply cr0_value_flags; [done | exact (so_bit p2 H2)].
  - intros i Hi. by rewrite GetField_UpdateCR0_ne, Hcr.
  - intros i. change (aat (gpr p2) i = if i =? r then v else get_gpr i p). rewrite Hg. apply get_set_gpr.
  - by rewrite Hcr.
  - by rewrite Hcr.
Qed.

Lemma result_written_no_carry inst r v ov p :
  ppc_ok p -> u32 v ->
  result_written inst r v (GetCarry p) ov p (update_Rc inst v (update_OE inst ov (set_gpr r v p))).
Proof.
  intros Hp Hv. pose proof (result_written_intro inst r v (GetCarry p) ov p Hp Hv (pk_ca p Hp)) as H.
  pose proof (SetCarry_same (set_gpr r v p) (ppc_ok_set_gpr r v p Hv Hp)) as E.
  change (GetCarry (set_gpr r v p)) with (GetCarry p) in E. by rewrite E in H.
Qed.

(** * Addition and subtraction *)

Lemma to_s32_not32 x : u32 x -> to_s32 (not32 x) = -1 - to_s32 x.
Proof.
  intros Hx. rewrite not32_eq by done. unfold uN in Hx. rewrite !to_s32_eq by (unfold uN; lia).
  destruct (Z.leb_spec (2 ^ 31) (0xFFFFFFFF - x)), (Z.leb_spec (2 ^ 31) x); lia.
Qed.

Lemma wrapu_mod_eq x y k : x = y + k * 2 ^ 32 -> to_u32 x = to_u32 y.
Proof. intros ->. unfold wrapu. by rewrite Z.mod_add. Qed.

(** [x + y + c] on 64 bits, [c] a single bit: the carry of the two-step test. *)
Lemma carry_two_steps x y c : u32 x -> u32 y -> 0 <= c <= 1 ->
  Helper_Carry x y || Helper_Carry (to_u32 (x + y)) c = (2 ^ 32 <=? x + y + c).
Proof.
  intros Hx Hy Hc. rewrite !Helper_Carry_spec by (done || (apply wrapu_range; lia)). unfold uN in *.
  destruct (Z.leb_spec (2 ^ 32) (x + y)) as [H|H]; cbn [orb].
  - symmetry. apply Z.leb_le. lia.
  - by rewrite (wrapu_small 32) by (unfold uN; lia).
Qed.

Lemma truth_range b : 0 <= truth b <= 1.
Proof. destruct b; cbn; lia. Qed.

#[local] Hint Resolve truth_range not32_range : core.

Section Arithmetic.
Context (inst : Z) (p : PPCState) (Hp : ppc_ok p).
Let a := get_gpr (RA inst) p.
Let b := get_gpr (RB inst) p.
Let c := GetCarry p.

Lemma gpr_u32 i : u32 (get_gpr i p).
Proof. apply (pk_gpr p Hp). Qed.

Lemma ca_bit : 0 <= c <= 1.
Proof. apply (pk_ca p Hp). Qed.

#[local] Hint Resolve gpr_u32 ca_bit : core.

(** The value and the flags of a sum, given as it is written in the code. *)
Lemma sum_written x y k ca v s ov p' :
  u32 x -> u32 y -> 0 <= k <= 1 ->
  to_u32 (x + y + k) = v -> to_s32 x + to_s32 y + k = s -> overflows s = ov ->
  p' = update_Rc inst (to_u32 (x + y + k))
         (update_OE inst (HasAddOverflowed x y (to_u32 (x + y + k)))
           (SetCarry (truth ca) (set_gpr (RD inst) (to_u32 (x + y + k)) p))) ->
  result_written inst (RD inst) v (truth ca) ov p p'.
Proof.
  intros Hx Hy Hk <- <- <- ->. rewrite HasAddOverflowed_spec by done.
  apply result_written_intro; [done | apply wrapu_range; lia | done].
Qed.

Lemma sum_written_no_carry x y k v s ov p' :
  u32 x -> u32 y -> 0 <= k <= 1 ->
  to_u32 (x + y + k) = v -> to_s32 x + to_s32 y + k = s -> overflows s = ov ->
  p' = update_Rc inst (to_u32 (x + y + k))
         (update_OE inst (HasAddOverflowed x y (to_u32 (x + y + k))) (set_gpr (RD inst) (to_u32 (x + y + k)) p)) ->
  result_written inst (RD inst) v c ov p p'.
Proof.
  intros Hx Hy Hk <- <- <- ->. rewrite HasAddOverflowed_spec by done.
  apply result_written_no_carry; [done | apply wrapu_range; lia].
Qed.
End Arithmetic.

(** The carry of [subfic], from the source as it is when the carry is computed. *)
Lemma subfic_carry inst p : ppc_ok p ->
  let a := get_gpr (RA inst) p in let imm := SIMM_16 inst in
  let x := get_gpr (RA inst) (set_gpr (RD inst) (to_u32 (imm - a)) p) in
  ((x =? 0) || Helper_Carry (to_u32 (0 - x)) (to_u32 imm)) = (a <=? to_u32 imm).
Proof.
  intros Hp a imm x. pose proof (gpr_u32 p Hp (RA inst)) as Ha. fold a in Ha.
  pose proof (wrapu_range 32 imm ltac:(lia)) as Hi. set (i := to_u32 imm) in *.
  assert (Hneg : forall y, u32 y -> y <> 0 -> to_u32 (0 - y) = 2 ^ 32 - y)
    by (intros y Hy Hy0; apply wrapu_unique with (k := -1); unfold uN in *; lia).
  rewrite Helper_Carry_spec by (apply wrapu_range; lia).
  destruct (Z.eq_dec (RA inst) (RD inst)) as [E|E].
  - assert (Ex : x = to_u32 (i - a)).
    { unfold x. rewrite E, get_gpr_same. unfold i. destruct (wrapu_spec 32 imm ltac:(lia)) as [k Hk].
      apply (wrapu_mod_eq _ _ k). lia. }
    rewrite Ex. unfold uN in *. destruct (Z.le_gt_cases a i) as [Hle|Hgt].
    + rewrite (wrapu_small 32 (i - a)) by (unfold uN; lia). destruct (Z.eqb_spec (i - a) 0); cbn [orb]; [symmetry; apply Z.leb_le; lia|].
      rewrite Hneg by (unfold uN; lia). destruct (Z.leb_spec (2 ^ 32) (2 ^ 32 - (i - a) + i)), (Z.leb_spec a i); lia.
    + rewrite (wrapu_unique 32 (i - a) (i - a + 2 ^ 32) (-1)) by (unfold uN; lia).
      destruct (Z.eqb_spec (i - a + 2 ^ 32) 0); cbn [orb]; [lia|].
      rewrite Hneg by (unfold uN; lia). destruct (Z.leb_spec (2 ^ 32) (2 ^ 32 - (i - a + 2 ^ 32) + i)), (Z.leb_spec a i); lia.
  - assert (Ex : x = a) by (unfold x; rewrite get_set_gpr, (proj2 (Z.eqb_neq _ _) E); done).
    rewrite Ex. unfold uN in *. destruct (Z.eqb_spec a 0); cbn [orb]; [symmetry; apply Z.leb_le; lia|].
    rewrite Hneg by done. destruct (Z.leb_spec (2 ^ 32) (2 ^ 32 - a + i)), (Z.leb_spec a i); lia.
Qed.

(** The forms of an instruction that has no bits for overflow and record, as the words
    whose bits say the same. *)
Definition plain_form : Z := 0.
Definition record_form : Z := 1.

Lemma to_u32_add a x : to_u32 (a + to_u32 x) = to_u32 (a + x).
Proof. destruct (wrapu_spec 32 x ltac:(lia)) as [k Hk]. apply (wrapu_mod_eq _ _ (- k)). lia. Qed.

Lemma immediate_additions inst p :
  ppc_ok p ->
  let a := get_gpr (RA inst) p in let c := GetCarry p in
  let imm := to_s16 inst in let base := if RA inst =? 0 then 0 else a in
  result_written plain_form (RD inst) (to_u32 (base + imm)) c false p (addi inst p) /\
  result_written plain_form (RD inst) (to_u32 (base + imm * 2 ^ 16)) c false p (addis inst p) /\
  result_written plain_form (RD inst) (to_u32 (a + imm)) (truth (2 ^ 32 <=? a + to_u32 imm)) false p (addic inst p) /\
  result_written record_form (RD inst) (to_u32 (a + imm)) (truth (2 ^ 32 <=? a + to_u32 imm)) false p (addic_rc inst p).
Proof.
  intros Hp a c imm base. pose proof (gpr_u32 p Hp (RA inst)) as Ha. fold a in Ha.
  assert (Hw : forall x, u32 (to_u32 x)) by (intros; apply wrapu_range; lia).
  assert (Hcarry : Helper_Carry a (to_u32 imm) = (2 ^ 32 <=? a + to_u32 imm)) by by apply Helper_Carry_spec.
  split; [|split; [|split]].
  - replace (addi inst p) with (set_gpr (RD inst) (to_u32 (base + imm)) p) by
      (unfold addi, base; destruct (RA inst =? 0); [done|]; cbn [negb]; by rewrite to_u32_add).
    by apply (result_written_no_carry plain_form _ _ false).
  - replace (addis inst p) with (set_gpr (RD inst) (to_u32 (base + imm * 2 ^ 16)) p) by
      (unfold addis, base; rewrite <- !(Z.shiftl_mul_pow2 imm 16) by lia; destruct (RA inst =? 0); [done|]; cbn [negb]; by rewrite to_u32_add).
    by apply (result_written_no_carry plain_form _ _ false).
  - unfold addic. cbv zeta. fold a. change (SIMM_16 inst) with imm. rewrite Hcarry, to_u32_add.
    by apply (result_written_intro plain_form _ _ _ false).
  - unfold addic_rc, addic. cbv zeta. fold a. change (SIMM_16 inst) with imm. rewrite Hcarry, to_u32_add.
    change (get_gpr (RD inst) (SetCarry ?x ?y)) with (get_gpr (RD inst) y). rewrite get_gpr_same.
    by apply (result_written_intro record_form _ _ _ false).
Qed.

(** C24. Additions.  [add], [addc], [adde] and [addze] leave the sum of their operands (and the
    carry) modulo 2^32, the carry out of bit 31, and for their overflow forms whether the
    signed sum does not fit 32 bits, which also sticks in the summary bit; their record
    forms compare the result with zero.  [addme] does too, but for the carry: with the
    carry set it always carries out, and the code clears it.  [addi] and [addis] add the
    signed immediate, or 2^16 times it, to the operand, or to zero if that is register 0,
    and touch nothing else; [addic] adds it to the operand and leaves the carry, and [addic.]
    compares the result with zero as well. *)
Theorem ppc_additions_spec inst p :
  ppc_ok p ->
  let a := get_gpr (RA inst) p in let b := get_gpr (RB inst) p in let c := GetCarry p in
  let sa := to_s32 a in let sb := to_s32 b in
  result_written inst (RD inst) (to_u32 (a + b)) c (overflows (sa + sb)) p (addx inst p) /\
  result_written inst (RD inst) (to_u32 (a + b)) (truth (2 ^ 32 <=? a + b)) (overflows (sa + sb)) p (addcx inst p) /\
  result_written inst (RD inst) (to_u32 (a + b + c)) (truth (2 ^ 32 <=? a + b + c)) (overflows (sa + sb + c)) p (addex inst p) /\
  result_written inst (RD inst) (to_u32 (a + c)) (truth (2 ^ 32 <=? a + c)) (overflows (sa + c)) p (addzex inst p) /\
  result_written inst (RD inst) (to_u32 (a - 1 + c)) (truth ((2 ^ 32 <=? a + 0xFFFFFFFF + c) && (c =? 0)))
    (overflows (sa - 1 + c)) p (addmex inst p) /\
  let imm := to_s16 inst in let base := if RA inst =? 0 then 0 else a in
  result_written plain_form (RD inst) (to_u32 (base + imm)) c false p (addi inst p) /\
  result_written plain_form (RD inst) (to_u32 (base + imm * 2 ^ 16)) c false p (addis inst p) /\
  result_written plain_form (RD inst) (to_u32 (a + imm)) (truth (2 ^ 32 <=? a + to_u32 imm)) false p (addic inst p) /\
  result_written record_form (RD inst) (to_u32 (a + imm)) (truth (2 ^ 32 <=? a + to_u32 imm)) false p (addic_rc inst p).
Proof.
  intros Hp a b c sa sb. pose proof (gpr_u32 p Hp (RA inst)) as Ha. pose proof (gpr_u32 p Hp (RB inst)) as Hb.
  pose proof (ca_bit p Hp) as Hc. fold a in Ha. fold b in Hb. fold c in Hc.
  split; [|split; [|split; [|split; [|split]]]]; [..|by apply immediate_additions].
  - apply (sum_written_no_carry inst p Hp a b 0 _ (sa + sb)); rewrite ?Z.add_0_r; (done || lia).
  - apply (sum_written inst p Hp a b 0 (2 ^ 32 <=? a + b) _ (sa + sb)); rewrite ?Z.add_0_r; try (done || lia).
    unfold addcx. cbv zeta. by rewrite Helper_Carry_spec.
  - apply (sum_written inst p Hp a b c (2 ^ 32 <=? a + b + c) _ (sa + sb + c)); try (done || lia).
    unfold addex. cbv zeta. fold a b c. do 4 f_equal. rewrite <- carry_two_steps by done.
    destruct (Z.eqb_spec c 0) as [E|E]; [|done]. rewrite E. cbn [negb andb]. f_equal.
    rewrite Helper_Carry_spec by (apply wrapu_range; lia). symmetry. apply Z.leb_gt.
    pose proof (wrapu_range 32 (a + b) ltac:(lia)) as Hr. unfold uN in Hr. lia.
  - apply (sum_written inst p Hp a 0 c (2 ^ 32 <=? a + c) _ (sa + c));
      rewrite ?Z.add_0_r; try (done || lia || (change (to_s32 0) with 0; unfold sa; lia)).
    unfold addzex. cbv zeta. fold a c. by rewrite Helper_Carry_spec.
  - apply (sum_written inst p Hp a 0xFFFFFFFF c ((2 ^ 32 <=? a + 0xFFFFFFFF + c) && (c =? 0)) _ (sa - 1 + c));
      try (done || lia || (change (to_s32 0xFFFFFFFF) with (-1); unfold sa; lia)).
    + apply (wrapu_mod_eq _ _ 1). lia.
    + unfold addmex. cbv zeta. fold a c. do 4 f_equal. rewrite Helper_Carry_spec by done.
      assert (c = 0 \/ c = 1) as [->| ->] by lia.
      * by rewrite andb_true_r, Z.add_0_r.
      * rewrite andb_false_r. change (to_u32 (1 - 1)) with 0. apply Z.leb_gt. unfold uN in Ha. lia.
Qed.

Lemma negx_written inst p : ppc_ok p ->
  let a := get_gpr (RA inst) p in
  result_written inst (RD inst) (to_u32 (- a)) (GetCarry p) (overflows (- to_s32 a)) p (negx inst p).
Proof.
  intros Hp a. pose proof (gpr_u32 p Hp (RA inst)) as Ha. fold a in Ha. pose proof (not32_eq a Ha) as En. set (sa := to_s32 a).
  assert (En1 : to_u32 (not32 a + 1) = to_u32 (- a)) by (rewrite En; apply (wrapu_mod_eq _ _ 1); lia).
  assert (Eo : (a =? 0x80000000) = overflows (- sa)).
  { rewrite overflows_spec. unfold sa. rewrite to_s32_eq by done. unfold uN in Ha.
    destruct (Z.leb_spec (2 ^ 31) a).
    - destruct (Z.ltb_spec (- (a - 2 ^ 32)) (- 2 ^ 31)), (Z.leb_spec (2 ^ 31) (- (a - 2 ^ 32))), (Z.eqb_spec a 0x80000000); (done || lia).
    - destruct (Z.ltb_spec (- a) (- 2 ^ 31)), (Z.leb_spec (2 ^ 31) (- a)), (Z.eqb_spec a 0x80000000); (done || lia). }
  unfold negx. cbv zeta. fold a. rewrite En1, Eo.
  replace (get_gpr (RD inst) (update_OE inst (overflows (- sa)) (set_gpr (RD inst) (to_u32 (- a)) p))) with (to_u32 (- a)).
  + apply result_written_no_carry; [done | apply wrapu_range; lia].
  + symmetry. unfold update_OE. destruct (OE inst); apply get_gpr_same.
Qed.

Lemma subfic_eq inst p : ppc_ok p ->
  let a := get_gpr (RA inst) p in
  subfic inst p = SetCarry (truth (a <=? to_u32 (SIMM_16 inst))) (set_gpr (RD inst) (to_u32 (SIMM_16 inst - a)) p).
Proof.
  intros Hp a. pose proof (gpr_u32 p Hp (RA inst)) as Ha. fold a in Ha.
  unfold subfic. cbv zeta. fold a.
  assert (Ei : forall k : Z, u32 k -> u32 a -> to_u32 (SIMM_16 inst - to_s32 a) = to_u32 (SIMM_16 inst - a)).
  { intros k _ _. rewrite to_s32_eq by done. destruct (2 ^ 31 <=? a); [apply (wrapu_mod_eq _ _ 1); lia | done]. }
  rewrite (Ei 0) by done. f_equal. f_equal. apply subfic_carry. done.
Qed.

(** Subtractions.  [subf], [subfc], [subfe], [subfze] and [neg] leave the difference modulo
    2^32, no borrow as the carry, and the overflow of the signed difference; the carry of
    [subfic] is right also when the source is the destination, where the code computes
    it from the result.  [subfme] has the wrong carry of [addme]. *)
Theorem ppc_subtractions_spec inst p :
  ppc_ok p ->
  let a := get_gpr (RA inst) p in let b := get_gpr (RB inst) p in let c := GetCarry p in
  let sa := to_s32 a in let sb := to_s32 b in
  result_written inst (RD inst) (to_u32 (b - a)) c (overflows (sb - sa)) p (subfx inst p) /\
  result_written inst (RD inst) (to_u32 (b - a)) (truth (a <=? b)) (overflows (sb - sa)) p (subfcx inst p) /\
  result_written inst (RD inst) (to_u32 (b - a - 1 + c)) (truth (a + 1 - c <=? b)) (overflows (sb - sa - 1 + c)) p (subfex inst p) /\
  result_written inst (RD inst) (to_u32 (- a - 1 + c)) (truth (a + 1 - c <=? 0)) (overflows (- sa - 1 + c)) p (subfzex inst p) /\
  result_written inst (RD inst) (to_u32 (- a)) c (overflows (- sa)) p (negx inst p) /\
  subfic inst p = SetCarry (truth (a <=? to_u32 (SIMM_16 inst))) (set_gpr (RD inst) (to_u32 (SIMM_16 inst - a)) p) /\
  result_written inst (RD inst) (to_u32 (- a - 2 + c)) (truth ((a <=? 0xFFFFFFFE + c) && (c =? 0)))
    (overflows (- sa - 2 + c)) p (subfmex inst p).
Proof.
  intros Hp a b c sa sb. pose proof (gpr_u32 p Hp (RA inst)) as Ha. pose proof (gpr_u32 p Hp (RB inst)) as Hb.
  pose proof (ca_bit p Hp) as Hc. fold a in Ha. fold b in Hb. fold c in Hc.
  pose proof (to_s32_not32 a Ha) as Es. pose proof (not32_eq a Ha) as En. pose proof (not32_range a) as Hna.
  split; [|split; [|split; [|split; [|split; [|split]]]]].
  - apply (sum_written_no_carry inst p Hp (not32 a) b 1 _ (sb - sa)); try (done || lia).
    rewrite En. apply (wrapu_mod_eq _ _ 1). lia.
  - apply (sum_written inst p Hp (not32 a) b 1 (a <=? b) _ (sb - sa)); try (done || lia).
    + rewrite En. apply (wrapu_mod_eq _ _ 1). lia.
    + unfold subfcx. cbv zeta. fold a b. do 4 f_equal. rewrite Helper_Carry_spec, En by done. unfold uN in *.
      destruct (Z.eqb_spec (0xFFFFFFFF - a) 0xFFFFFFFF) as [E|E]; cbn [orb].
      * symmetry. apply Z.leb_le. lia.
      * rewrite (wrapu_small 32) by (unfold uN; lia). destruct (Z.leb_spec (2 ^ 32) (b + (0xFFFFFFFF - a + 1))), (Z.leb_spec a b); lia.
  - apply (sum_written inst p Hp (not32 a) b c (a + 1 - c <=? b) _ (sb - sa - 1 + c)); try (done || lia).
    + rewrite En. apply (wrapu_mod_eq _ _ 1). lia.
    + unfold subfex. cbv zeta. fold a b c. do 4 f_equal. rewrite carry_two_steps, En by done.
      destruct (Z.leb_spec (2 ^ 32) (0xFFFFFFFF - a + b + c)), (Z.leb_spec (a + 1 - c) b); lia.
  - apply (sum_written inst p Hp (not32 a) 0 c (a + 1 - c <=? 0) _ (- sa - 1 + c));
      rewrite ?Z.add_0_r; try (done || lia || (change (to_s32 0) with 0; lia)).
    + rewrite En. apply (wrapu_mod_eq _ _ 1). lia.
    + unfold subfzex. cbv zeta. fold a c. do 4 f_equal. rewrite Helper_Carry_spec, En by done.
      destruct (Z.leb_spec (2 ^ 32) (0xFFFFFFFF - a + c)), (Z.leb_spec (a + 1 - c) 0); lia.
  - by apply negx_written.
  - by apply subfic_eq.
  - apply (sum_written inst p Hp (not32 a) 0xFFFFFFFF c ((a <=? 0xFFFFFFFE + c) && (c =? 0)) _ (- sa - 2 + c));
      try (done || lia || (change (to_s32 0xFFFFFFFF) with (-1); lia)).
    + rewrite En. apply (wrapu_mod_eq _ _ 2). lia.
    + unfold subfmex. cbv zeta. fold a c. do 4 f_equal. rewrite Helper_Carry_spec, En by done.
      unfold uN in Ha. assert (c = 0 \/ c = 1) as [->| ->] by lia.
      * rewrite andb_true_r. change (to_u32 (0 - 1)) with 0xFFFFFFFF.
        destruct (Z.leb_spec (2 ^ 32) (0xFFFFFFFF - a + 0xFFFFFFFF)), (Z.leb_spec a (0xFFFFFFFE + 0)); lia.
      * rewrite andb_false_r. change (to_u32 (1 - 1)) with 0. apply Z.leb_gt. lia.
Qed.

(** * Comparisons *)

(** One field of the condition register says how two numbers compare. *)
Definition compared inst (a b : Z) p p' : Prop :=
  GetField (CRFD inst) (cr_fields p') = compare_flags a b (GetXER_SO p) /\
  (forall i, i <> CRFD inst -> GetField i (cr_fields p') = GetField i (cr_fields p)) /\
  p' = fset p_cr_fields (cr_fields p') p.

Lemma Helper_IntCompare_spec inst a b p : ppc_ok p -> compared inst a b p (Helper_IntCompare inst a b p).
Proof.
  intros Hp. pose proof (so_bit p Hp) as Hso. unfold Helper_IntCompare, SetCRField. cbv zeta. split; [|split].
  - change (GetField (CRFD inst) (SetField (CRFD inst)
      (if negb (GetXER_SO p =? 0) then (if a <? b then 8 else if b <? a then 4 else 2) .| 1
       else if a <? b then 8 else if b <? a then 4 else 2) (cr_fields p)) = compare_flags a b (GetXER_SO p)).
    rewrite GetField_SetField by (by destruct (negb _), (a <? b), (b <? a)).
    unfold compare_flags. destruct (Z.ltb_spec a b), (Z.ltb_spec b a), (Z.eqb_spec a b); try lia; by destruct (negb _).
  - intros i Hi. cbn. by apply GetField_SetField_ne.
  - done.
Qed.

(** Comparisons.  [cmp] and [cmpi] compare signed, [cmpl] and [cmpli] unsigned numbers:
    the field they name says whether the first is less, greater or equal, with a copy of
    the summary overflow bit, and nothing else changes. *)
Theorem ppc_comparisons_spec inst p :
  ppc_ok p ->
  let a := get_gpr (RA inst) p in let b := get_gpr (RB inst) p in
  compared inst (to_s32 a) (to_s32 b) p (cmp inst p) /\
  compared inst a b p (cmpl inst p) /\
  compared inst (to_s32 a) (SIMM_16 inst) p (cmpi inst p) /\
  compared inst a (UIMM inst) p (cmpli inst p).
Proof. intros Hp a b. split; [|split; [|split]]; exact (Helper_IntCompare_spec inst _ _ p Hp). Qed.

(** * Results without overflow *)

Record logic_written inst (r v : Z) p p' : Prop := {
  lw_gpr : forall i, get_gpr i p' = if i =? r then v else get_gpr i p;
  lw_cr0 : GetField 0 (cr_fields p') =
    if Rc inst then compare_flags (to_s32 v) 0 (GetXER_SO p) else GetField 0 (cr_fields p);
  lw_cr : forall i, i <> 0 -> GetField i (cr_fields p') = GetField i (cr_fields p);
  lw_xer : xer_ca p' = xer_ca p /\ xer_so_ov p' = xer_so_ov p;
  lw_others : others p' = others p
}.

Lemma logic_written_intro inst r v p :
  ppc_ok p -> u32 v -> logic_written inst r v p (update_Rc inst v (set_gpr r v p)).
Proof.
  intros Hp Hv. unfold update_Rc. destruct (Rc inst) eqn:ERc; split; rewrite ?ERc; try done.
  - intros i. apply get_set_gpr.
  - apply (cr0_value_flags (GetXER_SO p) v (cr_fields p) 0 Hv (so_bit p Hp)).
  - intros i Hi. by rewrite GetField_UpdateCR0_ne.
  - intros i. apply get_set_gpr.
Qed.

(** The value that is compared is read back from the register. *)
Lemma logic_written_read inst r v p p' :
  ppc_ok p -> u32 v -> p' = update_Rc inst (get_gpr r (set_gpr r v p)) (set_gpr r v p) -> logic_written inst r v p p'.
Proof. intros Hp Hv ->. rewrite get_gpr_same. by apply logic_written_intro. Qed.

(** * Rotations *)

Lemma bits_range i n x : 0 <= n -> 0 <= bits i n x < 2 ^ n.
Proof. intros Hn. unfold bits. pose proof (land_bound (x .>> i) (2 ^ n - 1) ltac:(pose proof (pow2_pos n Hn); lia)). lia. Qed.

(** Bit [i] of a word, counted from the most significant one as the PowerPC does, is in
    the mask from [mb] to [me], which wraps around. *)
Definition in_mask (mb me i : Z) : bool := if mb <=? me then (mb <=? i) && (i <=? me) else (mb <=? i) || (i <=? me).

Lemma ones_shiftr_testbit n k j : 0 <= n -> 0 <= k -> 0 <= j -> Z.testbit (Z.ones n .>> k) j = (j + k <? n).
Proof.
  intros Hn Hk Hj. rewrite Z.shiftr_spec by done. destruct (Z.ltb_spec (j + k) n).
  - apply Z.ones_spec_low. lia.
  - apply Z.ones_spec_high. lia.
Qed.

Lemma MakeRotationMask_testbit mb me i :
  0 <= mb < 32 -> 0 <= me < 32 -> 0 <= i < 32 -> Z.testbit (MakeRotationMask mb me) (31 - i) = in_mask mb me i.
Proof.
  intros Hb He Hi. unfold MakeRotationMask. cbv zeta.
  change 0xFFFFFFFF with (Z.ones 32). change 0x7FFFFFFF with (Z.ones 31).
  assert (Hx : Z.testbit (Z.lxor (Z.ones 32 .>> mb) (Z.ones 31 .>> me)) (31 - i) = xorb (mb <=? i) (me <? i)).
  { rewrite Z.lxor_spec, !ones_shiftr_testbit by lia. f_equal.
    - destruct (Z.ltb_spec (31 - i + mb) 32), (Z.leb_spec mb i); (reflexivity || lia).
    - destruct (Z.ltb_spec (31 - i + me) 31), (Z.ltb_spec me i); (reflexivity || lia). }
  unfold in_mask. destruct (Z.ltb_spec me mb), (Z.leb_spec mb me); try lia.
  - unfold wrapu. rewrite Z.mod_pow2_bits_low, Z.lnot_spec, Hx by lia.
    destruct (Z.leb_spec mb i), (Z.ltb_spec me i), (Z.leb_spec i me); (done || lia).
  - rewrite Hx. destruct (Z.leb_spec mb i), (Z.ltb_spec me i), (Z.leb_spec i me); (done || lia).
Qed.

Lemma MakeRotationMask_range mb me : 0 <= mb -> 0 <= me -> u32 (MakeRotationMask mb me).
Proof.
  intros Hb He. unfold MakeRotationMask. cbv zeta. case_match; [apply wrapu_range; lia|].
  apply uN_lxor; [lia | rewrite Z.shiftr_div_pow2 by done; apply u32_div; [by unfold uN | done]..].
Qed.

Lemma rotl32_range x s : u32 x -> 0 <= s < 32 -> u32 (rotl32 x s).
Proof.
  intros Hx Hs. unfold rotl32. apply uN_lor; [lia | apply wrapu_range; lia |].
  rewrite Z.shiftr_div_pow2 by lia. apply u32_div; [done | lia].
Qed.

Lemma rotl32_testbit x s i :
  u32 x -> 0 <= s < 32 -> 0 <= i < 32 -> Z.testbit (rotl32 x s) (31 - i) = Z.testbit x (31 - (i + s) mod 32).
Proof.
  intros Hx Hs Hi. unfold rotl32, wrapu.
  rewrite Z.lor_spec, Z.mod_pow2_bits_low, Z.shiftl_spec, Z.shiftr_spec by lia.
  assert (Hh : forall n, 32 <= n -> Z.testbit x n = false) by (apply (uN_bits 32); [lia | apply Hx | exact Hx]).
  destruct (Z.lt_ge_cases (i + s) 32).
  - rewrite Z.mod_small by lia. rewrite (Hh (31 - i + (32 - s))) by lia. rewrite orb_false_r. f_equal. lia.
  - rewrite (Z.testbit_neg_r x (31 - i - s)) by lia. cbn [orb]. f_equal.
    rewrite <- (Z.mod_unique (i + s) 32 1 (i + s - 32)) by lia. lia.
Qed.

(** C26. Rotations.  Counting bits from the most significant one, [rlwinm] keeps the bits of
    the rotated register inside the mask, which may wrap around the end of the word, and
    clears the others; [rlwimi] inserts them into the destination, and [rlwnm] takes the
    amount from a register; a record form compares the result with zero. *)
Theorem ppc_rotations_spec inst p :
  ppc_ok p ->
  let rotated n i := Z.testbit (get_gpr (RS inst) p) (31 - (i + n) mod 32) in
  let inside := in_mask (MB inst) (ME inst) in
  exists vn vi vr,
    logic_written inst (RA inst) vn p (rlwinmx inst p) /\
    logic_written inst (RA inst) vi p (rlwimix inst p) /\
    logic_written inst (RA inst) vr p (rlwnmx inst p) /\
    forall i, 0 <= i < 32 ->
      Z.testbit vn (31 - i) = inside i && rotated (SH inst) i /\
      Z.testbit vi (31 - i) = (if inside i then rotated (SH inst) i else Z.testbit (get_gpr (RA inst) p) (31 - i)) /\
      Z.testbit vr (31 - i) = inside i && rotated (get_gpr (RB inst) p mod 32) i.
Proof.
  intros Hp rotated inside. set (mask := MakeRotationMask (MB inst) (ME inst)).
  pose proof (bits_range 6 5 inst ltac:(lia)) as Hb. pose proof (bits_range 1 5 inst ltac:(lia)) as He.
  pose proof (bits_range 11 5 inst ltac:(lia)) as Hs. fold (MB inst) in Hb. fold (ME inst) in He. fold (SH inst) in Hs.
  assert (Hm : u32 mask) by (apply MakeRotationMask_range; lia).
  assert (Hk : forall i, 0 <= i < 32 -> Z.testbit mask (31 - i) = inside i)
    by (intros i Hi; apply MakeRotationMask_testbit; lia).
  assert (Hn : get_gpr (RB inst) p .& 0x1F = get_gpr (RB inst) p mod 32) by exact (Z.land_ones _ 5 ltac:(lia)).
  pose proof (Z.mod_pos_bound (get_gpr (RB inst) p) 32 ltac:(lia)) as Hn'.
  pose proof (gpr_u32 p Hp) as Hg.
  exists (rotl32 (get_gpr (RS inst) p) (SH inst) .& mask),
    ((get_gpr (RA inst) p .& not32 mask) .| (rotl32 (get_gpr (RS inst) p) (SH inst) .& mask)),
    (rotl32 (get_gpr (RS inst) p) (get_gpr (RB inst) p mod 32) .& mask).
  split; [|split; [|split]].
  - apply logic_written_read; [done | apply uN_land_r; [lia | done] | done].
  - apply logic_written_read; [done | | done].
    apply uN_lor; [lia | apply uN_land_r; [lia | apply not32_range] | apply uN_land_r; [lia | done]].
  - apply logic_written_read; [done | apply uN_land_r; [lia | done] |]. unfold rlwnmx. cbv zeta. by rewrite Hn.
  - intros i Hi. rewrite Z.lor_spec, !Z.land_spec, Hk, !rotl32_testbit by (done || lia). fold (rotated (SH inst) i).
    assert (Hnot : Z.testbit (not32 mask) (31 - i) = negb (inside i))
      by (unfold not32, wrapu; by rewrite Z.mod_pow2_bits_low, Z.lnot_spec, Hk by lia).
    rewrite Hnot. unfold rotated.
    destruct (inside i); rewrite ?andb_true_r, ?andb_false_r, ?andb_true_l, ?orb_false_r, ?orb_false_l; done.
Qed.

(** * Shifts *)

(** A shift amount is six bits of a register; bit 5 shifts everything out. *)
Lemma land_single x i : 0 <= i -> x .& 2 ^ i = truth (Z.testbit x i) * 2 ^ i.
Proof.
  intros Hi. apply Z.bits_inj'. intros k Hk. rewrite Z.land_spec, Z.mul_pow2_bits, Z.pow2_bits_eqb by lia.
  destruct (Z.eqb_spec i k) as [<-|Hne].
  - rewrite andb_true_r, Z.sub_diag. by destruct (Z.testbit x i).
  - rewrite andb_false_r. symmetry. destruct (Z.lt_ge_cases (k - i) 0); [by apply Z.testbit_neg_r|].
    apply (uN_bits 1); unfold uN; destruct (Z.testbit x i); cbn [truth]; lia.
Qed.

Lemma land_single_set x i : 0 <= i -> negb ((x .& 2 ^ i) =? 0) = Z.testbit x i.
Proof.
  intros Hi. rewrite land_single by done. pose proof (pow2_pos i Hi).
  destruct (Z.testbit x i); cbn [truth]; [by rewrite (proj2 (Z.eqb_neq _ 0)) by lia | done].
Qed.

Lemma amount_split n :
  n mod 64 = (if Z.testbit n 5 then 32 else 0) + (n .& 0x1f).
Proof.
  assert (E5 : n .& 0x1f = n mod 32) by exact (Z.land_ones n 5 ltac:(lia)). rewrite E5.
  rewrite Z.testbit_eqb by lia. change (2 ^ 5) with 32.
  destruct (Z.eqb_spec ((n / 32) mod 2) 1); Z.div_mod_to_equations; lia.
Qed.

(** Whether a right shift of a negative number loses ones. *)
Lemma shifted_out_spec x n : sN 32 x -> 0 <= n < 32 -> shifted_out x n = (x <? 0) && negb (x mod 2 ^ n =? 0).
Proof.
  intros Hx Hn. unfold shifted_out. destruct (x <? 0); [|done]. cbn [andb].
  destruct (Z.ltb_spec 0 n); cbn [andb].
  - f_equal. rewrite Z.shiftl_mul_pow2 by lia. unfold wrapu.
    assert (E32 : 2 ^ 32 = 2 ^ n * 2 ^ (32 - n)) by (rewrite <- Z.pow_add_r by lia; f_equal; lia).
    rewrite E32 at 2. rewrite Z.mul_mod_distr_r by (apply Z.pow_nonzero; lia).
    assert (Em : (x mod 2 ^ 32) mod 2 ^ n = x mod 2 ^ n).
    { rewrite E32, (Z.mul_comm (2 ^ n)). rewrite Z.mul_comm. by rewrite Z.rem_mul_r, Z.mul_comm, Z.mod_add, Zmod_mod by (try apply Z.pow_nonzero; try apply pow2_pos; lia). }
    rewrite Em. pose proof (pow2_pos (32 - n) ltac:(lia)).
    destruct (Z.eqb_spec (x mod 2 ^ n) 0), (Z.eqb_spec (x mod 2 ^ n * 2 ^ (32 - n)) 0); (reflexivity || nia).
  - assert (n = 0) as -> by lia. by rewrite Z.mod_1_r.
Qed.

(** A right shift by 32 and more leaves the sign. *)
Lemma shift_all x n : sN 32 x -> 32 <= n ->
  x / 2 ^ n = (if x <? 0 then -1 else 0) /\ (x mod 2 ^ n =? 0) = (x =? 0).
Proof.
  intros Hx Hn. unfold sN in Hx. assert (H32 : 2 ^ 32 <= 2 ^ n) by (apply Z.pow_le_mono_r; lia).
  destruct (Z.ltb_spec x 0).
  - rewrite <- (Z.div_unique x (2 ^ n) (-1) (x + 2 ^ n)) by lia. rewrite <- (Z.mod_unique x (2 ^ n) (-1) (x + 2 ^ n)) by lia.
    split; [done|]. destruct (Z.eqb_spec (x + 2 ^ n) 0), (Z.eqb_spec x 0); (reflexivity || lia).
  - by rewrite Z.div_small, Z.mod_small by lia.
Qed.

(** The arithmetic right shift also writes the carry. *)
Record shift_written inst (v : Z) (ca : bool) p p' : Prop := {
  sh_ca : xer_ca p' = truth ca;
  sh_logic : logic_written inst (RA inst) v (SetCarry (truth ca) p) p'
}.

Lemma shift_written_intro inst v v' ca p : ppc_ok p -> v = v' -> u32 v' ->
  let p1 := SetCarry (truth ca) (set_gpr (RA inst) v p) in
  shift_written inst v' ca p (update_Rc inst (get_gpr (RA inst) p1) p1).
Proof.
  intros Hp -> Hv p1. assert (E : p1 = set_gpr (RA inst) v' (SetCarry (truth ca) p)) by by destruct p. rewrite E.
  assert (Hok : ppc_ok (SetCarry (truth ca) p)) by by apply ppc_ok_SetCarry.
  pose proof (logic_written_read inst (RA inst) v' (SetCarry (truth ca) p) _ Hok Hv eq_refl) as H.
  split; [|exact H]. rewrite (proj1 (lw_xer _ _ _ _ _ H)). cbn. by destruct ca.
Qed.

(** The sign of a word is its top bit. *)
Lemma to_s32_sign x : u32 x -> (to_s32 x <? 0) = Z.testbit x 31.
Proof.
  intros Hx. rewrite testbit31, to_s32_eq by done. unfold uN in Hx.
  destruct (Z.leb_spec (2 ^ 31) x); [apply Z.ltb_lt | apply Z.ltb_ge]; lia.
Qed.

Lemma srawx_written inst p :
  ppc_ok p ->
  let ss := to_s32 (get_gpr (RS inst) p) in let n := get_gpr (RB inst) p mod 64 in
  shift_written inst (to_u32 (ss / 2 ^ n)) ((ss <? 0) && negb (ss mod 2 ^ n =? 0)) p (srawx inst p).
Proof.
  intros Hp ss n. pose proof (gpr_u32 p Hp (RS inst)) as Hs. set (rb := get_gpr (RB inst) p) in *.
  pose proof (wraps_range 32 (get_gpr (RS inst) p) ltac:(lia)) as Hss. fold ss in Hss.
  assert (En : n = (if Z.testbit rb 5 then 32 else 0) + (rb .& 0x1f)) by apply amount_split.
  pose proof (land_bound rb 0x1f ltac:(lia)) as Hl.
  unfold srawx. cbv zeta. fold rb ss. change 0x20 with (2 ^ 5). change 0x80000000 with (2 ^ 31).
  rewrite !land_single_set by lia. rewrite <- to_s32_sign by done. fold ss. destruct (Z.testbit rb 5) eqn:E5.
  - destruct (shift_all ss n Hss ltac:(lia)) as [-> ->]. destruct (Z.ltb_spec ss 0).
    + rewrite (proj2 (Z.eqb_neq ss 0)) by lia. exact (shift_written_intro inst 0xFFFFFFFF 0xFFFFFFFF true p Hp eq_refl ltac:(by unfold uN)).
    + exact (shift_written_intro inst 0 0 false p Hp eq_refl ltac:(by unfold uN)).
  - rewrite En, Z.add_0_l, shifted_out_spec, Z.shiftr_div_pow2 by (done || lia).
    apply (shift_written_intro inst); [done | done | apply wrapu_range; lia].
Qed.

Lemma cntlzwx_written inst p :
  ppc_ok p ->
  let s := get_gpr (RS inst) p in
  exists z, logic_written inst (RA inst) z p (cntlzwx inst p) /\ 0 <= z <= 32 /\ s < 2 ^ (32 - z) /\ (s <> 0 -> 2 ^ (31 - z) <= s).
Proof.
  intros Hp s. pose proof (gpr_u32 p Hp (RS inst)) as Hs. fold s in Hs. exists (countl_zero32 s).
  unfold countl_zero32. unfold uN in Hs. destruct (Z.eqb_spec s 0) as [E0|E0].
  - split; [|lia]. apply logic_written_read; [done | by unfold uN |]. unfold cntlzwx. cbv zeta. fold s. by rewrite E0.
  - pose proof (Z.log2_spec s ltac:(lia)) as Hlog. pose proof (Z.log2_nonneg s).
    assert (Z.log2 s < 32) by (apply Z.log2_lt_pow2; lia). unfold Z.succ in Hlog.
    split; [|split; [lia|]].
    + apply logic_written_read; [done | unfold uN; lia |]. unfold cntlzwx, countl_zero32. cbv zeta. fold s.
      by rewrite (proj2 (Z.eqb_neq s 0)).
    + replace (32 - (31 - Z.log2 s)) with (Z.log2 s + 1) by lia. replace (31 - (31 - Z.log2 s)) with (Z.log2 s) by lia. lia.
Qed.

(** C27. Shifts.  [slw], [srw] and [sraw] shift by the low six bits of a register, [srawi] by
    its own five: left modulo 2^32, right rounding down, unsigned or signed.  The
    arithmetic right shifts set the carry when a negative number loses a one, so that
    adding it rounds the quotient towards zero.  [cntlzw] counts the leading zeros. *)
Theorem ppc_shifts_spec inst p :
  ppc_ok p ->
  let s := get_gpr (RS inst) p in let n := get_gpr (RB inst) p mod 64 in let ss := to_s32 s in
  logic_written inst (RA inst) (to_u32 (s * 2 ^ n)) p (slwx inst p) /\
  logic_written inst (RA inst) (s / 2 ^ n) p (srwx inst p) /\
  shift_written inst (to_u32 (ss / 2 ^ n)) ((ss <? 0) && negb (ss mod 2 ^ n =? 0)) p (srawx inst p) /\
  shift_written inst (to_u32 (ss / 2 ^ SH inst)) ((ss <? 0) && negb (ss mod 2 ^ SH inst =? 0)) p (srawix inst p) /\
  (exists z, logic_written inst (RA inst) z p (cntlzwx inst p) /\
     0 <= z <= 32 /\ s < 2 ^ (32 - z) /\ (s <> 0 -> 2 ^ (31 - z) <= s)).
Proof.
  intros Hp s n ss. pose proof (gpr_u32 p Hp (RS inst)) as Hs. fold s in Hs.
  pose proof (wraps_range 32 s ltac:(lia)) as Hss. fold ss in Hss.
  set (rb := get_gpr (RB inst) p) in *. assert (En : n = (if Z.testbit rb 5 then 32 else 0) + (rb .& 0x1f)) by apply amount_split.
  pose proof (land_bound rb 0x1f ltac:(lia)) as Hl. set (k := rb .& 0x1f) in *.
  split; [|split; [|split; [|split]]].
  - apply logic_written_read; [done | apply wrapu_range; lia |]. unfold slwx. cbv zeta. fold s rb k.
    change 0x20 with (2 ^ 5). rewrite land_single_set, En by lia. destruct (Z.testbit rb 5).
    + rewrite Z.pow_add_r by lia. replace (s * (2 ^ 32 * 2 ^ k)) with (s * 2 ^ k * 2 ^ 32) by lia.
      unfold wrapu. by rewrite Z.mod_mul by lia.
    + by rewrite Z.shiftl_mul_pow2 by lia.
  - assert (Hv : u32 (s / 2 ^ n)) by (apply u32_div; [done | rewrite En; destruct (Z.testbit rb 5); lia]).
    apply logic_written_read; [done | done |]. unfold srwx. cbv zeta. fold s rb k.
    change 0x20 with (2 ^ 5). rewrite land_single_set, En by lia. destruct (Z.testbit rb 5).
    + rewrite Z.div_small; [done|]. unfold uN in Hs. rewrite Z.pow_add_r by lia. pose proof (pow2_pos k ltac:(lia)). nia.
    + by rewrite Z.shiftr_div_pow2 by lia.
  - by apply srawx_written.
  - pose proof (bits_range 11 5 inst ltac:(lia)) as Hsh. fold (SH inst) in Hsh.
    unfold srawix. cbv zeta. fold s ss. rewrite shifted_out_spec, Z.shiftr_div_pow2 by (done || lia).
    apply (shift_written_intro inst); [done | done | apply wrapu_range; lia].
  - by apply cntlzwx_written.
Qed.

(** * Multiplication and division *)

Lemma to_s32_wrapu_eq s v : to_u32 s = v -> overflows s = false -> to_s32 v = s.
Proof. intros <- Ho. rewrite wraps_wrapu by lia. unfold overflows in Ho. by apply negb_false_iff, Z.eqb_eq in Ho. Qed.

(** The two halves of a product. *)
Lemma product_halves x : to_s64 x = x -> to_s32 (to_u32 (x .>> 32)) * 2 ^ 32 + to_u32 x = x.
Proof.
  intros Hx. pose proof (wraps_range 64 x ltac:(lia)) as Hr. rewrite Hx in Hr. unfold sN in Hr.
  rewrite wraps_wrapu, Z.shiftr_div_pow2 by lia.
  assert (Hh : sN 32 (x / 2 ^ 32)) by (unfold sN; split; [apply Z.div_le_lower_bound | apply Z.div_lt_upper_bound]; lia).
  rewrite (wraps_small 32 _ ltac:(lia) Hh).
  unfold wrapu. pose proof (Z.div_mod x (2 ^ 32) ltac:(lia)). lia.
Qed.

Lemma product_range a b : sN 32 a -> sN 32 b -> - 2 ^ 62 <= a * b <= 2 ^ 62.
Proof. unfold sN. intros. nia. Qed.

Lemma quotient_overflows a b : sN 32 a -> sN 32 b -> b <> 0 ->
  overflows (a ÷ b) = (to_u32 a =? 0x80000000) && (b =? -1).
Proof.
  intros Ha Hb Hb0. unfold sN in *. rewrite overflows_spec.
  assert (Hu : (to_u32 a =? 0x80000000) = (a =? - 2 ^ 31)).
  { destruct (Z.lt_ge_cases a 0).
    - rewrite (wrapu_unique 32 a (a + 2 ^ 32) (-1)) by (unfold uN; lia).
      destruct (Z.eqb_spec (a + 2 ^ 32) 0x80000000), (Z.eqb_spec a (- 2 ^ 31)); (reflexivity || lia).
    - rewrite wrapu_small by (unfold uN; lia). destruct (Z.eqb_spec a 0x80000000), (Z.eqb_spec a (- 2 ^ 31)); (reflexivity || lia). }
  rewrite Hu. pose proof (Z.quot_rem a b Hb0) as Hq. pose proof (Z.rem_bound_abs a b Hb0) as Hr.
  destruct (Z.eqb_spec b (-1)) as [->|Hb1].
  - assert (E : a ÷ -1 = - a) by (change (-1) with (- (1)); rewrite Z.quot_opp_r by lia; by rewrite Z.quot_1_r).
    rewrite E, andb_true_r. destruct (Z.ltb_spec (- a) (- 2 ^ 31)), (Z.leb_spec (2 ^ 31) (- a)), (Z.eqb_spec a (- 2 ^ 31)); (reflexivity || lia).
  - rewrite andb_false_r. destruct (Z.eq_dec b 1) as [->|Hb2].
    + rewrite Z.quot_1_r. destruct (Z.ltb_spec a (- 2 ^ 31)), (Z.leb_spec (2 ^ 31) a); (reflexivity || lia).
    + assert (2 <= Z.abs b) by lia. assert (Z.abs (a ÷ b) <= 2 ^ 30).
      { rewrite <- Z.quot_abs by lia. rewrite Z.quot_div_nonneg by lia. apply Z.div_le_upper_bound; [lia|]. nia. }
      destruct (Z.ltb_spec (a ÷ b) (- 2 ^ 31)), (Z.leb_spec (2 ^ 31) (a ÷ b)); (reflexivity || lia).
Qed.

(** Multiplication and division.  [mullw] and [mulhw] leave the two halves of the signed
    product, [mulhwu] the upper half of the unsigned one; [mullw] reports a product that
    does not fit.  [divw] and [divwu] leave the quotient rounded towards zero; a division
    by zero or of -2^31 by -1 reports an overflow and leaves the sign of the dividend,
    respectively zero, where C++ would leave the behaviour undefined. *)
Theorem ppc_products_spec inst p :
  ppc_ok p ->
  let a := get_gpr (RA inst) p in let b := get_gpr (RB inst) p in let c := GetCarry p in
  let sa := to_s32 a in let sb := to_s32 b in
  let written v ov := result_written inst (RD inst) v c ov p in
  written (to_u32 (sa * sb)) (overflows (sa * sb)) (mullwx inst p) /\
  (exists h, logic_written inst (RD inst) h p (mulhwx inst p) /\ to_s32 h * 2 ^ 32 + to_u32 (sa * sb) = sa * sb) /\
  (exists h, logic_written inst (RD inst) h p (mulhwux inst p) /\ h * 2 ^ 32 + to_u32 (a * b) = a * b) /\
  (let ov := (sb =? 0) || overflows (sa ÷ sb) in
   written (if ov then (if sa <? 0 then 0xFFFFFFFF else 0) else to_u32 (sa ÷ sb)) ov (divwx inst p)) /\
  written (if b =? 0 then 0 else a / b) (b =? 0) (divwux inst p).
Proof.
  intros Hp a b c sa sb written. pose proof (gpr_u32 p Hp (RA inst)) as Ha. pose proof (gpr_u32 p Hp (RB inst)) as Hb.
  fold a in Ha. fold b in Hb.
  pose proof (wraps_range 32 a ltac:(lia)) as Hsa. pose proof (wraps_range 32 b ltac:(lia)) as Hsb. fold sa in Hsa. fold sb in Hsb.
  pose proof (product_range sa sb Hsa Hsb) as Hpr.
  assert (Hread : forall v ov, get_gpr (RD inst) (update_OE inst ov (set_gpr (RD inst) v p)) = v)
    by (intros; unfold update_OE; destruct (OE inst); apply get_gpr_same).
  split; [|split; [|split; [|split]]].
  - unfold mullwx. cbv zeta. fold a b sa sb. rewrite Hread.
    replace ((sa * sb <? -0x80000000) || (0x7FFFFFFF <? sa * sb)) with (overflows (sa * sb)).
    + apply result_written_no_carry; [done | apply wrapu_range; lia].
    + rewrite overflows_spec. f_equal. destruct (Z.leb_spec (2 ^ 31) (sa * sb)), (Z.ltb_spec 0x7FFFFFFF (sa * sb)); (reflexivity || lia).
  - eexists. split; [apply logic_written_intro; [done | apply wrapu_range; lia]|].
    apply product_halves. apply wraps_small; unfold sN; lia.
  - eexists. split; [apply logic_written_intro; [done | apply wrapu_range; lia]|].
    unfold uN in *. assert (Hab : 0 <= a * b < 2 ^ 64) by nia. fold a b. rewrite (wrapu_small 64) by (unfold uN; lia).
    rewrite Z.shiftr_div_pow2 by lia. rewrite (wrapu_small 32 (a * b / 2 ^ 32))
      by (unfold uN; split; [apply Z.div_pos | apply Z.div_lt_upper_bound]; lia).
    unfold wrapu. pose proof (Z.div_mod (a * b) (2 ^ 32) ltac:(lia)). lia.
  - intros ov. assert (Eov : ov = (sb =? 0) || ((to_u32 sa =? 0x80000000) && (sb =? -1))).
    { unfold ov. destruct (Z.eqb_spec sb 0); [done|]. by rewrite quotient_overflows. }
    unfold divwx. cbv zeta. fold a b sa sb. rewrite <- Eov.
    destruct ov; [destruct (sa <? 0)|]; rewrite Hread;
      (apply result_written_no_carry; [done | first [by unfold uN | apply wrapu_range; lia]]).
  - unfold divwux. cbv zeta. fold a b. unfold uN in Ha, Hb. destruct (Z.eqb_spec b 0); rewrite Hread.
    + apply result_written_no_carry; [done | by unfold uN].
    + apply result_written_no_carry; [done|]. unfold uN. split; [apply Z.div_pos; lia|].
      apply Z.le_lt_trans with a; [|lia]. apply Z.div_le_upper_bound; nia.
Qed.

(** * A state *)

Definition sample_cpu : PPCState :=
  mkPPC 0x80003100 0x80003104 (aupd (aupd ∅ 3 0x12345678) 4 0xFFFFFFF0) (aupd (aupd ∅ SPR_LR 0x80001237) SPR_CTR 1)
    0xB032 0 20000 0 (CR_Set 0x24000048 ∅) 0 0 0 ∅ false 0 0 ∅ ∅.

Lemma sample_cpu_ok : ppc_ok sample_cpu.
Proof.
  assert (H0 : forall w, 0 <= w -> arr_ok (uN w) ∅) by (intros w Hw; apply arr_ok_empty; unfold uN; pose proof (pow2_pos w Hw); lia).
  split; cbn [sample_cpu pc npc gpr spr msr Exceptions cr_fields xer_ca xer_so_ov xer_stringctrl ppc_sr]; unfold uN;
    try lia; [apply arr_ok_aupd; [apply arr_ok_aupd|].. | apply CR_Set_ok |]; try (unfold uN; lia); apply H0; lia.
Qed.

(** [addco. r5, r3, r4] and its relatives. *)
Lemma ppc_additions_spec_witness :
  get_gpr 5 (addcx 0x7CA32415 sample_cpu) = 0x12345668 /\ GetCarry (addcx 0x7CA32415 sample_cpu) = 1.
Proof.
  destruct (ppc_additions_spec 0x7CA32415 sample_cpu sample_cpu_ok) as (_ & [Hg Hc _ _ _ _ _] & _).
  split; [exact (eq_trans (Hg 5) eq_refl) | exact (eq_trans Hc eq_refl)].
Defined.

Lemma ppc_subtractions_spec_witness :
  get_gpr 5 (subfcx 0x7CA32010 sample_cpu) = 0xEDCBA978 /\ GetCarry (subfcx 0x7CA32010 sample_cpu) = 1.
Proof.
  destruct (ppc_subtractions_spec 0x7CA32010 sample_cpu sample_cpu_ok) as (_ & [Hg Hc _ _ _ _ _] & _).
  split; [exact (eq_trans (Hg 5) eq_refl) | exact (eq_trans Hc eq_refl)].
Defined.

(** [cmpw cr2, r3, r4] and [cmplw cr2, r3, r4]: 0x12345678 is above -16, and below 0xFFFFFFF0. *)
Lemma ppc_comparisons_spec_witness :
  GetField 2 (cr_fields (cmp 0x7D032000 sample_cpu)) = 4 /\ GetField 2 (cr_fields (cmpl 0x7D032040 sample_cpu)) = 8.
Proof.
  destruct (ppc_comparisons_spec 0x7D032000 sample_cpu sample_cpu_ok) as ([H1 _] & _).
  destruct (ppc_comparisons_spec 0x7D032040 sample_cpu sample_cpu_ok) as (_ & [H2 _] & _).
  split; [exact (eq_trans H1 eq_refl) | exact (eq_trans H2 eq_refl)].
Defined.

(** [rlwinm r5, r3, 8, 24, 31] extracts the first byte. *)
Lemma ppc_rotations_spec_witness :
  Z.testbit (get_gpr 5 (rlwinmx 0x5465463E sample_cpu)) 4 = true.
Proof.
  destruct (ppc_rotations_spec 0x5465463E sample_cpu sample_cpu_ok) as (vn & vi & vr & [Hg _ _ _ _] & _ & _ & Hb).
  destruct (Hb 27 ltac:(lia)) as (Hv & _). rewrite (Hg 5). exact (eq_trans Hv eq_refl).
Defined.

(** [srawi r5, r4, 5]: -16 / 32 is -1/2, rounded down. *)
Lemma ppc_shifts_spec_witness :
  get_gpr 5 (srawix 0x7C852E70 sample_cpu) = 0xFFFFFFFF /\ xer_ca (srawix 0x7C852E70 sample_cpu) = 1.
Proof.
  destruct (ppc_shifts_spec 0x7C852E70 sample_cpu sample_cpu_ok) as (_ & _ & _ & [Hc [Hg _ _ _ _]] & _).
  split; [exact (eq_trans (Hg 5) eq_refl) | exact (eq_trans Hc eq_refl)].
Defined.

(** [divw r5, r3, r4] and [divwo r5, r3, r6], where r6 is zero. *)
Lemma ppc_products_spec_witness :
  to_s32 (get_gpr 5 (divwx 0x7CA323D6 sample_cpu)) = -19088743 /\ GetXER_OV (divwx 0x7CA337D6 sample_cpu) = 1.
Proof.
  destruct (ppc_products_spec 0x7CA323D6 sample_cpu sample_cpu_ok) as (_ & _ & _ & [Hg _ _ _ _ _ _] & _).
  destruct (ppc_products_spec 0x7CA337D6 sample_cpu sample_cpu_ok) as (_ & _ & _ & [_ _ Ho _ _ _ _] & _).
  split; [rewrite (Hg 5); reflexivity | exact (eq_trans Ho eq_refl)].
Defined.
