(* ===== verification/PPCSystem.v ===== *)
(** Branches, system calls and the return from interrupts
    ([Core/PowerPC/Interpreter/Interpreter_Branch.cpp]).  All of them end the block, but
    for an [rfi] without the privilege.  Recording for the debugger is not modelled.

    Instructions on the condition register, the machine state, the segment registers and
    the floating-point status
    ([Core/PowerPC/Interpreter/Interpreter_SystemRegisters.cpp], and the exception summary
    of [Interpreter_FPUtils.h]).  The host's rounding mode is not modelled. *)
From stdpp Require Import base tactics option list gmap.
From Stdlib Require Import ZArith Lia Bool.
From S2P Require Import Prelude PowerPC ConditionRegister Gekko.

#[local] Open Scope Z_scope.
Implicit Types (inst : Z) (p : PPCState).

Abbreviation BO_DONT_DECREMENT_FLAG := 4 (only parsing).

(** [LR(ppc_state) = ppc_state.pc + 4] *)
Definition link p : PPCState := set_spr SPR_LR (to_u32 (pc p + 4)) p.

Definition bx inst p : PPCState :=
  let p := if LK inst then link p else p in
  let destination_addr := to_u32 (SignExt26 (to_u32 (LI inst .<< 2))) in
  let destination_addr := if negb (AA inst) then to_u32 (destination_addr + pc p) else destination_addr in
  fset p_npc destination_addr p.

(** [CTR(ppc_state)--], if the instruction asks for it. *)
Definition decrement_CTR inst p : PPCState :=
  if (BO inst .& BO_DONT_DECREMENT_FLAG) =? 0 then set_spr SPR_CTR (to_u32 (get_spr SPR_CTR p - 1)) p else p.

Definition bcx inst p : PPCState :=
  let p := decrement_CTR inst p in
  let true_false := negb (((BO inst .>> 3) .& 1) =? 0) in
  let only_counter_check := negb (((BO inst .>> 4) .& 1) =? 0) in
  let only_condition_check := negb (((BO inst .>> 2) .& 1) =? 0) in
  let ctr_check := (truth (negb (get_spr SPR_CTR p =? 0)) .^ (BO inst .>> 1)) .& 1 in
  let counter := only_condition_check || negb (ctr_check =? 0) in
  let condition := only_counter_check || (GetBit (BI inst) (cr_fields p) =? truth true_false) in
  if counter && condition then
    let p := if LK inst then link p else p in
    let destination_addr := to_u32 (SignExt16 (to_s16 (BD inst .<< 2))) in
    let destination_addr := if negb (AA inst) then to_u32 (destination_addr + pc p) else destination_addr in
    fset p_npc destination_addr p
  else p.

Definition bcctrx inst p : PPCState :=
  let condition :=
    ((BO inst .>> 4) .| truth (GetBit (BI inst) (cr_fields p) =? ((BO inst .>> 3) .& 1))) .& 1 in
  if negb (condition =? 0) then
    let destination_addr := get_spr SPR_CTR p .& to_u32 (Z.lnot 3) in
    let p := fset p_npc destination_addr p in
    if LK inst then link p else p
  else p.

Definition bclrx inst p : PPCState :=
  let p := decrement_CTR inst p in
  let counter := ((BO inst .>> 2) .| (truth (negb (get_spr SPR_CTR p =? 0)) .^ (BO inst .>> 1))) .& 1 in
  let condition :=
    ((BO inst .>> 4) .| truth (GetBit (BI inst) (cr_fields p) =? ((BO inst .>> 3) .& 1))) .& 1 in
  if negb ((counter .& condition) =? 0) then
    let destination_addr := get_spr SPR_LR p .& to_u32 (Z.lnot 3) in
    let p := fset p_npc destination_addr p in
    if LK inst then link p else p
  else p.

(** [msr.PR] is bit 14. *)
Definition user_mode p : bool := Z.testbit (msr p) 14.

Definition rfi (inst : Z) p : PPCState * bool :=
  if user_mode p then (GenerateProgramException PrivilegedInstruction p, false)
  else
    let mask := 0x87C0FFFF in
    let p := fset p_msr ((msr p .& to_u32 (Z.lnot mask)) .| (get_spr SPR_SRR1 p .& mask)) p in
    let p := fset p_msr (msr p .& 0xFFFBFFFF) p in
    let p := fset p_npc (get_spr SPR_SRR0 p) p in
    (MSRUpdated p, true).

Definition sc (inst : Z) p : PPCState := CheckExceptions (raise_exception EXCEPTION_SYSCALL p).

(** * The floating-point status *)

Abbreviation FPSCR_FX := 0x80000000 (only parsing).
Abbreviation FPSCR_VX_ANY := 0x01F80700 (only parsing).
Abbreviation FPSCR_ANY_X := 0x1FF80700 (only parsing).
Abbreviation FPSCR_ANY_E := 0x000000F8 (only parsing).

(** The bit 11 is reserved: [UReg_FPSCR]'s constructor and assignments drop it. *)
Definition set_fpscr (value : Z) p : PPCState := fset p_fpscr (value .& 0xFFFFF7FF) p.

(** A single bit of [Hex]. *)
Definition put_bit (i : Z) (b : bool) (x : Z) : Z :=
  (x .& to_u32 (Z.lnot (1 .<< i))) .| (truth b .<< i).

Definition CheckFPExceptions p : PPCState :=
  if Z.testbit (fpscr p) 30 && (Z.testbit (msr p) 11 || Z.testbit (msr p) 8)
  then GenerateProgramException FloatingPoint p else p.

Definition UpdateFPExceptionSummary p : PPCState :=
  let p := fset p_fpscr (put_bit 29 (negb ((fpscr p .& FPSCR_VX_ANY) =? 0)) (fpscr p)) p in
  let p := fset p_fpscr (put_bit 30 (negb (((fpscr p .>> 22) .& (fpscr p .& FPSCR_ANY_E)) =? 0)) (fpscr p)) p in
  CheckFPExceptions p.

Definition SetFPException (mask : Z) p : PPCState :=
  let p := if negb ((fpscr p .& mask) =? mask) then fset p_fpscr (put_bit 31 true (fpscr p)) p else p in
  UpdateFPExceptionSummary (fset p_fpscr (fpscr p .| mask) p).

Definition FPSCRUpdated p : PPCState := UpdateFPExceptionSummary p.

Definition UpdateCR1 p : PPCState :=
  let bit i := bits i 1 (fpscr p) in
  SetCRField 1 (((((bit 31 .<< 3) .| (bit 30 .<< 2)) .| (bit 29 .<< 1))) .| bit 28) p.

Definition record_CR1 inst p : PPCState := if Rc inst then UpdateCR1 p else p.

Definition mtfsb0x inst p : PPCState :=
  let b := 0x80000000 .>> CRBD inst in
  let p := fset p_fpscr (fpscr p .& to_u32 (Z.lnot b)) p in
  record_CR1 inst (FPSCRUpdated p).

Definition mtfsb1x inst p : PPCState :=
  let bit := CRBD inst in
  let b := 0x80000000 .>> bit in
  let p := if negb ((b .& FPSCR_ANY_X) =? 0) then SetFPException b p else set_fpscr (fpscr p .| b) p in
  record_CR1 inst (FPSCRUpdated p).

Definition mtfsfix inst p : PPCState :=
  let field := CRFD inst in
  let pre_shifted_mask := 0xF0000000 in
  let mask := pre_shifted_mask .>> (4 * field) in
  let imm := to_u32 (inst .<< 16) .& pre_shifted_mask in
  let p := set_fpscr ((fpscr p .& to_u32 (Z.lnot mask)) .| (imm .>> (4 * field))) p in
  record_CR1 inst (FPSCRUpdated p).

(** [for (i = 0; i < 8; i++) if (fm & (1U << i)) m |= 0xFU << (i * 4);] *)
Definition expand_field_mask (fm : Z) : Z :=
  foldl (fun m i => if negb ((fm .& (1 .<< i)) =? 0) then m .| (0xF .<< (i * 4)) else m) 0 field_indices.

(** [FM] is at bit 17, [FB] and [FD] are like [RB] and [RD]. *)
Definition mtfsfx inst p : PPCState :=
  let m := expand_field_mask (bits 17 8 inst) in
  let p := set_fpscr ((fpscr p .& to_u32 (Z.lnot m)) .| (to_u32 (aat (ps0 p) (RB inst)) .& m)) p in
  record_CR1 inst (FPSCRUpdated p).

Definition mcrfs inst p : PPCState :=
  let shift := 4 * (7 - CRFS inst) in
  let fpflags := (fpscr p .>> shift) .& 0xF in
  let p := fset p_fpscr (fpscr p .& to_u32 (Z.lnot (to_u32 (0xF .<< shift) .& (FPSCR_FX .| FPSCR_ANY_X)))) p in
  SetCRField (CRFD inst) fpflags (FPSCRUpdated p).

Definition mffsx inst p : PPCState :=
  let p := fset p_ps0 (aupd (ps0 p) (RD inst) (0xFFF8000000000000 .| fpscr p)) p in
  record_CR1 inst p.

(** * The condition register *)

Definition mcrxr inst p : PPCState :=
  let p := SetCRField (CRFD inst) (GetXER p .>> 28) p in
  fset p_xer_so_ov 0 (fset p_xer_ca 0 p).

Definition mfcr inst p : PPCState := set_gpr (RD inst) (CR_Get (cr_fields p)) p.

Definition set_cr (cr : Z) p : PPCState := fset p_cr_fields (CR_Set cr (cr_fields p)) p.

Definition mtcrf inst p : PPCState :=
  let crm := CRM inst in
  if crm =? 0xFF then set_cr (get_gpr (RS inst) p) p
  else
    let mask := expand_field_mask crm in
    set_cr ((CR_Get (cr_fields p) .& to_u32 (Z.lnot mask)) .| (get_gpr (RS inst) p .& mask)) p.

Definition cr_bit (bit : Z) p : Z := GetBit bit (cr_fields p).
Definition set_cr_bit inst (value : Z) p : PPCState :=
  fset p_cr_fields (SetBit (CRBD inst) value (cr_fields p)) p.

Definition crand inst p : PPCState :=
  let a := cr_bit (CRBA inst) p in let b := cr_bit (CRBB inst) p in set_cr_bit inst (a .& b) p.
Definition crandc inst p : PPCState :=
  let a := cr_bit (CRBA inst) p in let b := cr_bit (CRBB inst) p in set_cr_bit inst (a .& (1 .^ b)) p.
Definition creqv inst p : PPCState :=
  let a := cr_bit (CRBA inst) p in let b := cr_bit (CRBB inst) p in set_cr_bit inst (1 .^ (a .^ b)) p.
Definition crnand inst p : PPCState :=
  let a := cr_bit (CRBA inst) p in let b := cr_bit (CRBB inst) p in set_cr_bit inst (1 .^ (a .& b)) p.
Definition crnor inst p : PPCState :=
  let a := cr_bit (CRBA inst) p in let b := cr_bit (CRBB inst) p in set_cr_bit inst (1 .^ (a .| b)) p.
Definition cror inst p : PPCState :=
  let a := cr_bit (CRBA inst) p in let b := cr_bit (CRBB inst) p in set_cr_bit inst (a .| b) p.
Definition crorc inst p : PPCState :=
  let a := cr_bit (CRBA inst) p in let b := cr_bit (CRBB inst) p in set_cr_bit inst (a .| (1 .^ b)) p.
Definition crxor inst p : PPCState :=
  let a := cr_bit (CRBA inst) p in let b := cr_bit (CRBB inst) p in set_cr_bit inst (a .^ b) p.

Definition mcrf inst p : PPCState :=
  let cr_f := GetField (CRFS inst) (cr_fields p) in
  SetCRField (CRFD inst) cr_f p.

Definition isync (inst : Z) p : PPCState := p.

(** * Supervisor registers

    In user mode these are privileged instructions. *)
Definition privileged (supervisor : PPCState -> PPCState) p : PPCState :=
  if user_mode p then GenerateProgramException PrivilegedInstruction p else supervisor p.

Definition mfmsr inst : PPCState -> PPCState := privileged (fun p => set_gpr (RD inst) (msr p) p).
Definition mfsr inst : PPCState -> PPCState := privileged (fun p => set_gpr (RD inst) (aat (ppc_sr p) (SR_ inst)) p).
Definition mfsrin inst : PPCState -> PPCState := privileged (fun p =>
  let index := (get_gpr (RB inst) p .>> 28) .& 0xF in
  set_gpr (RD inst) (aat (ppc_sr p) index) p).

Definition SetSR (index value : Z) p : PPCState := fset p_ppc_sr (aupd (ppc_sr p) index value) p.

Definition mtsr inst : PPCState -> PPCState := privileged (fun p =>
  SetSR (SR_ inst) (get_gpr (RS inst) p) p).
Definition mtsrin inst : PPCState -> PPCState := privileged (fun p =>
  let index := (get_gpr (RB inst) p .>> 28) .& 0xF in
  SetSR index (get_gpr (RS inst) p) p).

(** It ends the block, unless it is privileged. *)
Definition mtmsr inst p : PPCState * bool :=
  if user_mode p then (GenerateProgramException PrivilegedInstruction p, false)
  else
    let p := fset p_msr (get_gpr (RS inst) p) p in
    (CheckExceptions (CheckFPExceptions (MSRUpdated p)), true).
