(* ===== verification/PPCSystemProps.v ===== *)
(** Branches, the condition register, the floating-point status and the return from
    interrupts. *)
From stdpp Require Import base tactics option list gmap.
From Stdlib Require Import ZArith Lia Bool.
From S2P Require Import Prelude PowerPC PowerPCProps ConditionRegister Gekko PPCInteger PPCIntegerProps PPCSystem.

#[local] Open Scope Z_scope.
Implicit Types (inst : Z) (p : PPCState).

(** * The condition register as one word *)

(** Bit [i] of the register, counted from the most significant one. *)
Lemma GetBit_CR_Get i fields : 0 <= i < 32 -> GetBit i fields = truth (Z.testbit (CR_Get fields) (31 - i)).
Proof.
  intros Hi. rewrite GetBit_testbit, CR_Get_testbit by lia.
  assert (E : 7 - (31 - i) / 4 = i / 4 /\ (31 - i) mod 4 = 3 - i mod 4) by (Z.div_mod_to_equations; lia).
  by destruct E as [-> ->].
Qed.

Lemma CR_Get_CR_Set cr fields : u32 cr -> CR_Get (CR_Set cr fields) = cr.
Proof.
  intros Hcr. apply Z.bits_inj'. intros j Hj. destruct (Z.lt_ge_cases j 32).
  - assert (0 <= j / 4 < 8) by (split; [apply Z.div_pos | apply Z.div_lt_upper_bound]; lia).
    pose proof (Z.mod_pos_bound j 4 ltac:(lia)).
    rewrite CR_Get_testbit, GetField_CR_Set, nibble_bit by lia. f_equal. pose proof (Z.div_mod j 4 ltac:(lia)). lia.
  - rewrite (proj1 (uN_bits 32 cr ltac:(lia) (proj1 Hcr)) Hcr) by done.
    pose proof (CR_Get_u32 (CR_Set cr fields)) as Hu. exact (proj1 (uN_bits 32 _ ltac:(lia) (proj1 Hu)) Hu j H).
Qed.

Lemma SetBit_GetBit i b v fields :
  0 <= i < 32 -> 0 <= b < 32 -> GetBit i (SetBit b v fields) = if i =? b then v .& 1 else GetBit i fields.
Proof.
  intros Hi Hb. rewrite !GetBit_testbit by done.
  pose proof (GetField_range (b / 4) fields) as Hr. pose proof (Z.mod_pos_bound i 4 ltac:(lia)).
  pose proof (Z.mod_pos_bound b 4 ltac:(lia)) as Hm.
  assert (E3 : b .& 3 = b mod 4) by exact (Z.land_ones b 2 ltac:(lia)).
  assert (E8 : 8 .>> (b mod 4) = 2 ^ (3 - b mod 4)).
  { rewrite Z.shiftr_div_pow2 by lia. change 8 with (2 ^ 3). rewrite <- Z.pow_sub_r by lia. done. }
  assert (E1 : (v .& 1) = truth (Z.testbit v 0)).
  { change (v .& 1) with (v .& 2 ^ 0). rewrite land_single by lia. by destruct (Z.testbit v 0). }
  assert (H8 : 0 <= 2 ^ (3 - b mod 4) < 16).
  { split; [apply Z.pow_nonneg; lia|]. apply (Z.pow_lt_mono_r 2 (3 - b mod 4) 4); lia. }
  set (x := GetField (b / 4) fields) in *. set (s := 3 - b mod 4) in *.
  assert (Hfield : exists y, 0 <= y < 16 /\ SetBit b v fields = SetField (b / 4) y fields /\
    forall k, 0 <= k < 4 -> Z.testbit y k = if k =? s then Z.testbit v 0 else Z.testbit x k).
  { unfold SetBit. rewrite E3, E8, (Z.shiftr_div_pow2 b 2), E1 by lia. change (2 ^ 2) with 4. fold x.
    destruct (Z.testbit v 0); cbn [truth Z.eqb negb].
    - exists (x .| 2 ^ s). split; [apply (uN_lor 4); unfold uN; lia|]. split; [done|]. intros k Hk.
      rewrite Z.lor_spec, Z.pow2_bits_eqb by lia.
      destruct (Z.eqb_spec s k), (Z.eqb_spec k s); try lia; rewrite ?orb_true_r, ?orb_false_r; done.
    - exists (x .& to_u32 (Z.lnot (2 ^ s))). split; [apply (uN_land_l 4); unfold uN; lia|]. split; [done|]. intros k Hk.
      rewrite Z.land_spec. unfold wrapu. rewrite Z.mod_pow2_bits_low, Z.lnot_spec, Z.pow2_bits_eqb by lia.
      destruct (Z.eqb_spec s k), (Z.eqb_spec k s); try lia; rewrite ?andb_true_r, ?andb_false_r; done. }
  destruct Hfield as (y & Hy & -> & Hk).
  destruct (Z.eq_dec (i / 4) (b / 4)) as [E|E].
  - rewrite E, GetField_SetField, Hk by lia. fold x. rewrite E1.
    destruct (Z.eqb_spec i b) as [->|Hne].
    + by rewrite Z.eqb_refl.
    + rewrite (proj2 (Z.eqb_neq _ _)); [done|]. unfold s. pose proof (Z.div_mod i 4 ltac:(lia)). pose proof (Z.div_mod b 4 ltac:(lia)). lia.
  - rewrite GetField_SetField_ne by congruence. rewrite (proj2 (Z.eqb_neq i b)); [done|]. by intros ->.
Qed.

(** Eight fields of four bits: field [i] of the mask is the bit [i] of the instruction's. *)
Lemma expand_field_mask_testbit fm j :
  0 <= j < 32 -> Z.testbit (expand_field_mask fm) j = Z.testbit fm (j / 4).
Proof.
  intros Hj. unfold expand_field_mask, field_indices. cbn [foldl].
  change (1 .<< 0) with (2 ^ 0). change (1 .<< 1) with (2 ^ 1). change (1 .<< 2) with (2 ^ 2). change (1 .<< 3) with (2 ^ 3).
  change (1 .<< 4) with (2 ^ 4). change (1 .<< 5) with (2 ^ 5). change (1 .<< 6) with (2 ^ 6). change (1 .<< 7) with (2 ^ 7).
  rewrite !land_single_set by lia.
  assert (Hif : forall b m k, Z.testbit (if b : bool then m .| k else m) j = Z.testbit m j || (b && Z.testbit k j)).
  { intros [] m k; [by rewrite Z.lor_spec | by rewrite orb_false_r]. }
  assert (Hk : forall i, 0 <= i < 8 -> Z.testbit (15 .<< (i * 4)) j = (j / 4 =? i)).
  { intros i Hi. rewrite Z.shiftl_spec by lia. change 15 with (Z.ones 4). rewrite Z.testbit_ones by lia.
    pose proof (Z.div_mod j 4 ltac:(lia)). pose proof (Z.mod_pos_bound j 4 ltac:(lia)).
    destruct (Z.leb_spec 0 (j - i * 4)), (Z.ltb_spec (j - i * 4) 4), (Z.eqb_spec (j / 4) i); (reflexivity || lia). }
  rewrite !Hif, !Hk, Z.bits_0 by lia. cbn [orb].
  assert (Hq : 0 <= j / 4 < 8) by (split; [apply Z.div_pos; lia | apply Z.div_lt_upper_bound; lia]).
  revert Hq. generalize (j / 4). intros q Hq.
  repeat match goal with |- context [q =? ?i] => destruct (Z.eqb_spec q i) as [->|]; [cbn; rewrite ?andb_false_r, ?andb_true_r, ?orb_false_r; reflexivity | rewrite andb_false_r] end. lia.
Qed.

Lemma expand_field_mask_range fm : u32 (expand_field_mask fm).
Proof.
  assert (Hn : 0 <= expand_field_mask fm).
  { unfold expand_field_mask, field_indices. cbn [foldl].
    repeat (case_match; [apply Z.lor_nonneg; split; [|by apply Z.shiftl_nonneg] |]); done. }
  apply (uN_bits 32); [lia | done |]. intros i Hi. unfold expand_field_mask, field_indices. cbn [foldl].
  assert (Hk : forall n, n = 0 \/ n = 4 \/ n = 8 \/ n = 12 \/ n = 16 \/ n = 20 \/ n = 24 \/ n = 28 -> Z.testbit (15 .<< n) i = false).
  { intros n Hnn. rewrite Z.shiftl_spec by lia. apply (uN_bits 4); unfold uN; lia. }
  repeat (case_match; [rewrite Z.lor_spec, Hk, orb_false_r by lia|]); apply Z.bits_0.
Qed.

(** * Instructions on the condition register *)

(** Two states that differ in the condition register alone. *)
Definition only_cr p p' := forall fields, fset p_cr_fields fields p' = fset p_cr_fields fields p.

Lemma only_cr_set fields p : only_cr p (fset p_cr_fields fields p).
Proof. by destruct p. Qed.

(** One bit of the register is written. *)
Definition bit_written (bit : Z) (b : bool) p p' : Prop :=
  only_cr p p' /\ forall i, 0 <= i < 32 -> cr_bit i p' = if i =? bit then truth b else cr_bit i p.

Definition cr_flag (i : Z) p : bool := negb (cr_bit i p =? 0).

Lemma cr_bit_flag i p : 0 <= i < 32 -> cr_bit i p = truth (cr_flag i p).
Proof. intros Hi. unfold cr_flag, cr_bit. rewrite GetBit_testbit by done. by destruct (Z.testbit _ _). Qed.

Lemma set_cr_bit_written inst v b p : v .& 1 = truth b -> bit_written (CRBD inst) b p (set_cr_bit inst v p).
Proof.
  intros Hv. pose proof (bits_range 21 5 inst ltac:(lia)) as Hd. fold (CRBD inst) in Hd.
  split; [apply only_cr_set|]. intros i Hi. unfold cr_bit, set_cr_bit. cbn [fset p_cr_fields cr_fields].
  rewrite SetBit_GetBit by lia. by rewrite Hv.
Qed.

(** C28. The condition register is one 32-bit word kept in eight fields.  [mtcrf] writes the
    fields its mask selects from a register and keeps the others, and [mfcr] reads the
    word back; [mcrf] copies a field; the eight logical instructions write the bit they
    name with the Boolean function of two others, and no other bit. *)
Theorem condition_register_instructions inst p :
  let a := cr_flag (CRBA inst) p in let b := cr_flag (CRBB inst) p in
  let written c f := bit_written (CRBD inst) c p (f inst p) in
  (only_cr p (mtcrf inst p) /\ forall r i, u32 (get_gpr (RS inst) p) -> 0 <= i < 32 ->
     Z.testbit (get_gpr (RD r) (mfcr r (mtcrf inst p))) i =
       if Z.testbit (CRM inst) (i / 4) then Z.testbit (get_gpr (RS inst) p) i else Z.testbit (get_gpr (RD r) (mfcr r p)) i) /\
  (only_cr p (mcrf inst p) /\ forall i,
     GetField i (cr_fields (mcrf inst p)) = GetField (if i =? CRFD inst then CRFS inst else i) (cr_fields p)) /\
  written (a && b) crand /\ written (a && negb b) crandc /\ written (eqb a b) creqv /\ written (negb (a && b)) crnand /\
  written (negb (a || b)) crnor /\ written (a || b) cror /\ written (a || negb b) crorc /\ written (xorb a b) crxor.
Proof.
  intros a b written. split; [|split].
  - assert (Hm : exists w, mtcrf inst p = set_cr w p /\ (u32 (get_gpr (RS inst) p) -> u32 w) /\ forall i, 0 <= i < 32 ->
      Z.testbit w i = if Z.testbit (CRM inst) (i / 4) then Z.testbit (get_gpr (RS inst) p) i else Z.testbit (CR_Get (cr_fields p)) i).
    { unfold mtcrf. destruct (Z.eqb_spec (CRM inst) 0xFF) as [E|E].
      - exists (get_gpr (RS inst) p). split; [done|]. split; [done|]. intros i Hi. rewrite E.
        assert (0 <= i / 4 < 8) by (split; [apply Z.div_pos | apply Z.div_lt_upper_bound]; lia).
        change 255 with (Z.ones 8). rewrite Z.ones_spec_low by lia. done.
      - eexists. split; [reflexivity|]. split.
        + intros Hg. apply uN_lor; [lia | |]; (apply uN_land_l; [lia|]); [apply CR_Get_u32 | done].
        + intros i Hi. rewrite Z.lor_spec, !Z.land_spec, testbit_u32_lnot, expand_field_mask_testbit by lia.
          destruct (Z.testbit (CRM inst) (i / 4)); by rewrite ?andb_true_r, ?andb_false_r, ?orb_false_r. }
    destruct Hm as (w & -> & Hu & Hw). split; [apply only_cr_set|]. intros r i Hg Hi.
    unfold mfcr. rewrite !get_gpr_same. cbn [set_cr fset p_cr_fields cr_fields].
    rewrite CR_Get_CR_Set by auto. by apply Hw.
  - split; [apply only_cr_set|]. intros i. unfold mcrf, SetCRField. cbn [fset p_cr_fields cr_fields].
    destruct (Z.eqb_spec i (CRFD inst)) as [->|]; [apply GetField_SetField, GetField_range | by rewrite GetField_SetField_ne by congruence].
  - pose proof (bits_range 16 5 inst ltac:(lia)) as Ha. fold (CRBA inst) in Ha.
    pose proof (bits_range 11 5 inst ltac:(lia)) as Hb. fold (CRBB inst) in Hb.
    pose proof (cr_bit_flag (CRBA inst) p Ha) as Ea. pose proof (cr_bit_flag (CRBB inst) p Hb) as Eb.
    fold a in Ea. fold b in Eb. unfold written, crand, crandc, creqv, crnand, crnor, cror, crorc, crxor. rewrite Ea, Eb.
    split; [|split; [|split; [|split; [|split; [|split; [|split]]]]]]; apply set_cr_bit_written; destruct a, b; reflexivity.
Qed.

(** [mtcrf 0x81, r3] writes the first and the last field. *)
Lemma condition_register_instructions_witness :
  Z.testbit (get_gpr 5 (mfcr 0x7CA00026 (mtcrf 0x7C681120 sample_cpu))) 3 = true.
Proof.
  destruct (condition_register_instructions 0x7C681120 sample_cpu) as [[_ H] _].
  assert (Hr : u32 (get_gpr (RS 0x7C681120) sample_cpu)) by by vm_compute.
  exact (eq_trans (H 0x7CA00026 3 Hr ltac:(lia)) eq_refl).
Defined.

(** * Branches *)

(** What a conditional branch decides, by the bits of [BO] counted from the lowest: bit 4
    ignores the condition and bit 3 is its sense; bit 2 ignores the counter and bit 1 is
    set to branch when it has become zero. *)
Definition branch_taken inst (ctr : Z) p : bool :=
  let bo := Z.testbit (BO inst) in
  (bo 2 || xorb (negb (ctr =? 0)) (bo 1)) && (bo 4 || eqb (cr_flag (BI inst) p) (bo 3)).

(** The counter after the branch counted. *)
Definition counted inst p : Z :=
  if Z.testbit (BO inst) 2 then get_spr SPR_CTR p else to_u32 (get_spr SPR_CTR p - 1).

(** A branch changes where execution goes on, the link register if it is taken and asks
    for it, and the counter. *)
Definition branched inst (taken : bool) (target ctr : Z) p p' : Prop :=
  npc p' = (if taken then target else npc p) /\
  (forall i, get_spr i p' = if (i =? SPR_LR) && taken && LK inst then to_u32 (pc p + 4)
                            else if i =? SPR_CTR then ctr else get_spr i p) /\
  (forall n r, fset p_npc n (fset p_spr r p') = fset p_npc n (fset p_spr r p)).

(** A branch's displacement is relative to itself, unless it is absolute. *)
Definition displaced inst (d : Z) p : Z := to_u32 (if AA inst then d else pc p + d).

Lemma SignExt26_LI inst : SignExt26 (to_u32 (LI inst .<< 2)) = wraps 26 (LI inst * 4).
Proof.
  pose proof (bits_range 2 24 inst ltac:(lia)) as Hl. fold (LI inst) in Hl.
  rewrite Z.shiftl_mul_pow2 by lia. change (2 ^ 2) with 4. set (x := LI inst * 4).
  assert (Hx : uN 26 x) by (unfold uN, x; lia). rewrite wrapu_small by (unfold uN in *; lia).
  unfold SignExt26. change 0x2000000 with (2 ^ 25). rewrite land_single_set by lia. unfold uN in Hx.
  assert (Ht : Z.testbit x 25 = (2 ^ 25 <=? x)).
  { rewrite Z.testbit_eqb by lia. destruct (Z.leb_spec (2 ^ 25) x).
    - by rewrite <- (Z.div_unique x (2 ^ 25) 1 (x - 2 ^ 25)) by lia.
    - by rewrite Z.div_small by lia. }
  rewrite Ht. destruct (Z.leb_spec (2 ^ 25) x).
  - change 0xFC000000 with (0x3F .<< 26). rewrite lor_shiftl_add by (unfold uN; lia).
    rewrite (wraps_unique 32 _ (x - 2 ^ 26) 1) by (unfold sN; lia).
    symmetry. apply (wraps_unique 26 _ _ 1); unfold sN; lia.
  - rewrite !wraps_small by (unfold sN; lia). done.
Qed.

Lemma SignExt16_BD inst : SignExt16 (to_s16 (BD inst .<< 2)) = wraps 16 (BD inst * 4).
Proof.
  unfold SignExt16. rewrite Z.shiftl_mul_pow2 by lia. apply wraps_small; [lia|]. apply wraps_range. lia.
Qed.

Lemma displaced_eq inst d p :
  u32 (pc p) -> (if negb (AA inst) then to_u32 (to_u32 d + pc p) else to_u32 d) = displaced inst d p.
Proof.
  intros Hp. unfold displaced. destruct (AA inst); cbn [negb]; [done|]. unfold wrapu.
  rewrite Zplus_mod_idemp_l. by rewrite Z.add_comm.
Qed.

Lemma testbit_land1 x i : 0 <= i -> (x .>> i) .& 1 = truth (Z.testbit x i).
Proof.
  intros Hi. change 1 with (2 ^ 0). rewrite land_single, Z.shiftr_spec, Z.add_0_l by lia. by destruct (Z.testbit x i).
Qed.

Lemma decrement_CTR_eq inst p : decrement_CTR inst p = set_spr SPR_CTR (counted inst p) p \/
  (Z.testbit (BO inst) 2 = true /\ decrement_CTR inst p = p).
Proof.
  unfold decrement_CTR, counted. change BO_DONT_DECREMENT_FLAG with (2 ^ 2).
  rewrite <- (negb_involutive (_ =? 0)), land_single_set by lia. destruct (Z.testbit (BO inst) 2); [by right | by left].
Qed.

Lemma get_set_spr i r v p : get_spr i (set_spr r v p) = if i =? r then v else get_spr i p.
Proof. unfold get_spr, set_spr. cbn [fset p_spr spr]. rewrite aat_aupd. by rewrite Z.eqb_sym. Qed.

Lemma get_spr_counted i inst p :
  get_spr i (decrement_CTR inst p) = if i =? SPR_CTR then counted inst p else get_spr i p.
Proof.
  destruct (decrement_CTR_eq inst p) as [->|[E ->]]; [apply get_set_spr|].
  unfold counted. rewrite E. by destruct (Z.eqb_spec i SPR_CTR) as [->|].
Qed.

(** The steps a taken branch has in common. *)
Lemma branched_taken inst target ctr p q :
  (forall i, get_spr i q = if i =? SPR_CTR then ctr else get_spr i p) ->
  (forall n r, fset p_npc n (fset p_spr r q) = fset p_npc n (fset p_spr r p)) ->
  npc q = npc p ->
  let linked := fset p_npc target (if LK inst then link q else q) in
  branched inst false target ctr p q /\ branched inst true target ctr p linked.
Proof.
  intros Hs Hq Hn. assert (Hpc : pc q = pc p) by exact (f_equal pc (Hq 0 ∅)). split.
  - split; [done|]. split; [|done]. intros i. rewrite andb_false_r. apply Hs.
  - cbn zeta. split; [done|]. split.
    + intros i. rewrite andb_true_r. change (get_spr i (fset p_npc target ?x)) with (get_spr i x).
      destruct (LK inst); [|rewrite andb_false_r; apply Hs]. rewrite andb_true_r.
      unfold link. rewrite get_set_spr, Hs, Hpc. done.
    + intros n r. rewrite <- Hq. by destruct (LK inst), q.
Qed.

Lemma decrement_CTR_others inst p n r :
  fset p_npc n (fset p_spr r (decrement_CTR inst p)) = fset p_npc n (fset p_spr r p).
Proof. destruct (decrement_CTR_eq inst p) as [->|[_ ->]]; by destruct p. Qed.

(** [npc] and the link register are written in either order. *)
Lemma link_npc inst target q :
  (if LK inst then link (fset p_npc target q) else fset p_npc target q) = fset p_npc target (if LK inst then link q else q).
Proof. by destruct (LK inst), q. Qed.

Lemma bit_condition inst q : 0 <= BI inst < 32 ->
  (GetBit (BI inst) (cr_fields q) =? truth (Z.testbit (BO inst) 3)) = eqb (cr_flag (BI inst) q) (Z.testbit (BO inst) 3).
Proof.
  intros Hb. change (GetBit (BI inst) (cr_fields q)) with (cr_bit (BI inst) q). rewrite cr_bit_flag by done.
  by destruct (cr_flag _ _), (Z.testbit _ _).
Qed.

Lemma cr_flag_counted i inst p : cr_flag i (decrement_CTR inst p) = cr_flag i p.
Proof. destruct (decrement_CTR_eq inst p) as [->|[_ ->]]; reflexivity. Qed.

Lemma counter_bit bo c : 0 <= bo < 32 -> ((truth c .^ (bo .>> 1)) .& 1) = truth (xorb c (Z.testbit bo 1)).
Proof.
  intros Hbo. change 1 with (2 ^ 0) at 2. rewrite land_single, Z.lxor_spec, Z.shiftr_spec by lia. change (0 + 1) with 1.
  by destruct c, (Z.testbit bo 1).
Qed.

Lemma lor_land1 a b : (a .| b) .& 1 = truth (Z.testbit a 0 || Z.testbit b 0).
Proof. change 1 with (2 ^ 0). rewrite land_single, Z.lor_spec by lia. by destruct (_ || _). Qed.

Lemma truth_eqb0 b : negb (truth b =? 0) = b.
Proof. by destruct b. Qed.

Lemma truth_land a b : truth a .& truth b = truth (a && b).
Proof. by destruct a, b. Qed.

(** The two ways the conditions are computed. *)
Lemma bcx_decision inst q : 0 <= BI inst < 32 -> 0 <= BO inst < 32 ->
  (negb (((BO inst .>> 2) .& 1) =? 0) || negb (((truth (negb (get_spr SPR_CTR q =? 0)) .^ (BO inst .>> 1)) .& 1) =? 0)) &&
  (negb (((BO inst .>> 4) .& 1) =? 0) || (GetBit (BI inst) (cr_fields q) =? truth (negb (((BO inst .>> 3) .& 1) =? 0)))) =
  branch_taken inst (get_spr SPR_CTR q) q.
Proof.
  intros Hbi Hbo. rewrite !testbit_land1, counter_bit, !truth_eqb0 by lia. by rewrite bit_condition.
Qed.

Lemma condition_value inst q : 0 <= BI inst < 32 ->
  ((BO inst .>> 4) .| truth (GetBit (BI inst) (cr_fields q) =? ((BO inst .>> 3) .& 1))) .& 1 =
  truth (Z.testbit (BO inst) 4 || eqb (cr_flag (BI inst) q) (Z.testbit (BO inst) 3)).
Proof.
  intros Hbi. rewrite lor_land1, testbit_land1, bit_condition, Z.shiftr_spec by lia. change (0 + 4) with 4.
  by destruct (eqb _ _).
Qed.

Lemma counter_value inst c : 0 <= BO inst < 32 ->
  ((BO inst .>> 2) .| (truth c .^ (BO inst .>> 1))) .& 1 = truth (Z.testbit (BO inst) 2 || xorb c (Z.testbit (BO inst) 1)).
Proof.
  intros Hbo. rewrite lor_land1, Z.lxor_spec, !Z.shiftr_spec by lia. change (0 + 2) with 2. change (0 + 1) with 1.
  by destruct c.
Qed.

(** C25. Branches.  A conditional branch is taken exactly as its [BO] says of the counter,
    after counting, and of its condition bit; it then goes to the displacement, the link
    register or the counter, relative to itself unless absolute, with the two lowest bits
    cleared when the target comes from a register; the address of the next instruction goes
    to the link register if the branch is taken and asks for it.  A branch that is not
    taken goes on with the next instruction, and nothing else changes. *)
Theorem branches_spec inst p :
  ppc_ok p ->
  let ctr := counted inst p in let word r := get_spr r p .& 0xFFFFFFFC in
  branched inst true (displaced inst (wraps 26 (LI inst * 4)) p) (get_spr SPR_CTR p) p (bx inst p) /\
  branched inst (branch_taken inst ctr p) (displaced inst (wraps 16 (BD inst * 4)) p) ctr p (bcx inst p) /\
  branched inst (branch_taken inst ctr p) (word SPR_LR) ctr p (bclrx inst p) /\
  (Z.testbit (BO inst) 2 = true ->
   branched inst (branch_taken inst ctr p) (word SPR_CTR) ctr p (bcctrx inst p)).
Proof.
  intros Hp ctr word. set (q := decrement_CTR inst p).
  pose proof (bits_range 16 5 inst ltac:(lia)) as Hbi. fold (BI inst) in Hbi.
  pose proof (bits_range 21 5 inst ltac:(lia)) as Hbo. fold (BO inst) in Hbo.
  assert (Hq : npc q = npc p /\ pc q = pc p) by (unfold q; destruct (decrement_CTR_eq inst p) as [->|[_ ->]]; done).
  destruct Hq as [Hq Hpq].
  assert (Hctr : get_spr SPR_CTR q = ctr) by (unfold q; by rewrite get_spr_counted).
  assert (Hbr : forall c, branch_taken inst c q = branch_taken inst c p) by (intros c; unfold branch_taken, q; by rewrite cr_flag_counted).
  pose proof (fun target => branched_taken inst target ctr p q (fun i => get_spr_counted i inst p) (decrement_CTR_others inst p) Hq) as Hall.
  split; [|split; [|split]].
  - unfold bx. cbv zeta. rewrite SignExt26_LI.
    replace (pc (if LK inst then link p else p)) with (pc p) by by destruct (LK inst).
    rewrite displaced_eq by apply Hp. apply (branched_taken inst _ (get_spr SPR_CTR p) p p); [|done|done].
    intros i. by destruct (Z.eqb_spec i SPR_CTR) as [->|].
  - unfold bcx. cbv zeta. fold q. rewrite bcx_decision, Hctr, Hbr, SignExt16_BD by lia.
    replace (pc (if LK inst then link q else q)) with (pc p) by by destruct (LK inst).
    rewrite displaced_eq by apply Hp. destruct (Hall (displaced inst (wraps 16 (BD inst * 4)) p)) as [Hf Ht].
    by destruct (branch_taken inst ctr p).
  - unfold bclrx. cbv zeta. fold q. rewrite condition_value, counter_value, truth_land, truth_eqb0 by lia. rewrite Hctr.
    rewrite <- (Hbr ctr). unfold branch_taken at 1. cbv zeta. rewrite link_npc.
    destruct (Hall (get_spr SPR_LR q .& to_u32 (Z.lnot 3))) as [Hf Ht].
    replace (get_spr SPR_LR q) with (get_spr SPR_LR p) in * by (unfold q; by rewrite get_spr_counted).
    fold (word SPR_LR) in Hf, Ht |- *. unfold branch_taken. cbv zeta. by destruct (_ && _).
  - intros H2. assert (Eq : q = p).
    { unfold q, decrement_CTR. change BO_DONT_DECREMENT_FLAG with (2 ^ 2).
      by rewrite <- (negb_involutive (_ =? 0)), land_single_set, H2 by lia. }
    unfold bcctrx. cbv zeta. rewrite condition_value, truth_eqb0, link_npc by lia.
    unfold branch_taken. rewrite H2. cbn [orb andb].
    destruct (Hall (get_spr SPR_CTR p .& to_u32 (Z.lnot 3))) as [Hf Ht]. rewrite Eq in Hf, Ht.
    by destruct (_ || _).
Qed.

(** The loop of [sample_cpu] is over: the counter becomes zero. *)
Lemma branches_spec_witness :
  npc (bcx 0x4200FFFC sample_cpu) = 0x80003104 /\ npc (bcx 0x4240FFFC sample_cpu) = 0x800030FC /\
  npc (bclrx 0x4E800020 sample_cpu) = 0x80001234 /\ npc (bcctrx 0x4E800420 sample_cpu) = 0.
Proof.
  pose proof sample_cpu_ok as Hok.
  destruct (branches_spec 0x4200FFFC sample_cpu Hok) as (_ & [-> _] & _).
  destruct (branches_spec 0x4240FFFC sample_cpu Hok) as (_ & [-> _] & _).
  destruct (branches_spec 0x4E800020 sample_cpu Hok) as (_ & _ & [-> _] & _).
  destruct (branches_spec 0x4E800420 sample_cpu Hok) as (_ & _ & _ & H). destruct (H eq_refl) as [-> _].
  split; [reflexivity|]. split; [reflexivity|]. split; reflexivity.
Defined.

(** * Exceptions raised by instructions *)

(** The processor entered the handler at [vector]: it will come back to [ret] with the
    state [saved]; the exception [bit] is no longer pending. *)
Record entered (ret saved vector bit : Z) p p' : Prop := {
  en_pc : pc p' = vector;
  en_npc : npc p' = vector;
  en_srr0 : get_spr SPR_SRR0 p' = ret;
  en_srr1 : get_spr SPR_SRR1 p' = saved;
  en_msr : msr p' = exception_msr (msr p);
  en_pending : forall i, 0 <= i < 32 -> Z.testbit (Exceptions p') i = Z.testbit (Exceptions p) i && negb (i =? bit);
  en_gpr : gpr p' = gpr p;
  en_spr : forall i, i <> SPR_SRR0 -> i <> SPR_SRR1 -> get_spr i p' = get_spr i p
}.

Lemma take_exception_entered ret saved vector bit p :
  0 <= bit -> entered ret saved vector bit p (MSRUpdated (take_exception ret saved vector (2 ^ bit) p)).
Proof.
  intros Hb. set (p' := MSRUpdated _).
  assert (Hs : forall i, get_spr i p' = if i =? SPR_SRR1 then saved else if i =? SPR_SRR0 then ret else get_spr i p).
  { intros i. change (get_spr i p') with (get_spr i (set_spr SPR_SRR1 saved (set_spr SPR_SRR0 ret p))). by rewrite !get_set_spr. }
  split; [exact eq_refl | exact eq_refl | exact (Hs SPR_SRR0) | exact (Hs SPR_SRR1) | exact eq_refl | | exact eq_refl |].
  - intros i Hi. change (Exceptions p') with (Exceptions p .& to_u32 (Z.lnot (2 ^ bit))).
    rewrite Z.land_spec, testbit_u32_lnot, testbit_pow2 by lia. by rewrite Z.eqb_sym.
  - intros i H0 H1. rewrite Hs. by rewrite (proj2 (Z.eqb_neq _ _) H0), (proj2 (Z.eqb_neq _ _) H1).
Qed.

(** When a trap instruction traps, by the bits of [TO] counted from the lowest. *)
Definition traps inst (a b : Z) : bool :=
  let to := Z.testbit (TO inst) in
  (to 4 && (to_s32 a <? to_s32 b)) || (to 3 && (to_s32 b <? to_s32 a)) || (to 2 && (a =? b)) ||
  (to 1 && (a <? b)) || (to 0 && (b <? a)).

Lemma land_mask x k m : 0 <= k -> m = 2 ^ k -> negb ((x .& m) =? 0) = Z.testbit x k.
Proof. intros Hk ->. by apply land_single_set. Qed.

Lemma trap_condition_traps inst a b : u32 a -> u32 b -> trap_condition (TO inst) (to_s32 a) (to_s32 b) = traps inst a b.
Proof.
  intros Ha Hb. unfold trap_condition, traps.
  rewrite (land_mask _ 4 0x10), (land_mask _ 3 0x08), (land_mask _ 2 0x04), (land_mask _ 1 0x02), (land_mask _ 0 0x01) by (done || lia).
  rewrite !wrapu_wraps, !wrapu_small by (done || lia).
  assert (E : (to_s32 a =? to_s32 b) = (a =? b)).
  { rewrite !to_s32_eq by done. unfold uN in *.
    apply Bool.eq_iff_eq_true. rewrite !Z.eqb_eq.
    destruct (Z.leb_spec (2 ^ 31) a), (Z.leb_spec (2 ^ 31) b); lia. }
  rewrite E. by destruct (to_s32 a <? to_s32 b), (to_s32 b <? to_s32 a), (a =? b), (a <? b), (b <? a),
    (Z.testbit (TO inst) 4), (Z.testbit (TO inst) 3), (Z.testbit (TO inst) 2), (Z.testbit (TO inst) 1), (Z.testbit (TO inst) 0).
Qed.

(** No exception more important than the instruction's own is pending. *)
Lemma raised_first n p : 0 <= n -> has (2 ^ n) (Exceptions (raise_exception (2 ^ n) p)) = true.
Proof.
  intros Hn. rewrite has_testbit by done. unfold raise_exception. cbn [fset p_Exceptions Exceptions].
  rewrite Z.lor_spec, testbit_pow2, Z.eqb_refl by done. apply orb_true_r.
Qed.

Lemma has_raise m n p : 0 <= m -> 0 <= n -> m <> n ->
  has (2 ^ m) (Exceptions (raise_exception (2 ^ n) p)) = Z.testbit (Exceptions p) m.
Proof.
  intros Hm Hn Hne. rewrite has_testbit by done. unfold raise_exception. cbn [fset p_Exceptions Exceptions].
  rewrite Z.lor_spec, testbit_pow2, (proj2 (Z.eqb_neq n m)) by lia. apply orb_false_r.
Qed.

(** Raising an exception and entering its handler leaves the pending ones as they were. *)
Lemma entered_raised ret saved vector bit q p p' :
  entered ret saved vector bit q p' -> 0 <= bit < 32 -> Z.testbit (Exceptions p) bit = false ->
  Exceptions q = Exceptions p .| 2 ^ bit ->
  forall i, 0 <= i < 32 -> Z.testbit (Exceptions p') i = Z.testbit (Exceptions p) i.
Proof.
  intros He Hb Hc Hq i Hi. rewrite (en_pending _ _ _ _ _ _ He) by done. rewrite Hq, Z.lor_spec, testbit_pow2 by lia.
  destruct (Z.eqb_spec i bit) as [->|]; [by rewrite Hc, andb_false_r|].
  by rewrite (proj2 (Z.eqb_neq bit i)), orb_false_r, andb_true_r by congruence.
Qed.

(** C29. Traps and system calls.  [tw] and [twi] trap exactly when one of the five relations
    their [TO] selects holds between the operands, signed or unsigned; the trap enters the
    program exception's handler at once, with the address of the trap instruction to come
    back to and the reason in SRR1, and ends the block; otherwise nothing changes.  [sc]
    enters its handler and comes back after itself.  Other pending exceptions stay. *)
Theorem traps_and_system_calls inst p :
  ppc_ok p -> Z.testbit (Exceptions p) 4 = false -> Z.testbit (Exceptions p) 7 = false ->
  let trapping condition r :=
    if condition : bool
    then exists p', r = (p', true) /\
      entered (pc p) (2 ^ 17 .| saved_msr p) 0x700 7 (GenerateProgramException Trap p) p' /\
      forall i, 0 <= i < 32 -> Z.testbit (Exceptions p') i = Z.testbit (Exceptions p) i
    else r = (p, false) in
  trapping (traps inst (get_gpr (RA inst) p) (get_gpr (RB inst) p)) (tw inst p) /\
  trapping (traps inst (get_gpr (RA inst) p) (to_u32 (SIMM_16 inst))) (twi inst p) /\
  (Z.testbit (Exceptions p) 1 = false ->
   entered (npc p) (saved_msr p) 0xC00 1 (raise_exception EXCEPTION_SYSCALL p) (sc inst p) /\
   forall i, 0 <= i < 32 -> Z.testbit (Exceptions (sc inst p)) i = Z.testbit (Exceptions p) i).
Proof.
  intros Hp H4 H7 trapping. pose proof (fun i => gpr_u32 p Hp i) as Hg.
  assert (Htrap : forall c, trapping c (take_trap c p)).
  { intros []; [|done]. exists (CheckExceptions (GenerateProgramException Trap p)). split; [done|].
    assert (E : CheckExceptions (GenerateProgramException Trap p) =
      MSRUpdated (take_exception (pc p) (2 ^ 17 .| saved_msr p) 0x700 (2 ^ 7) (GenerateProgramException Trap p))).
    { unfold CheckExceptions.
      change (Exceptions (GenerateProgramException Trap p)) with (Exceptions (raise_exception (2 ^ 7) p)).
      change EXCEPTION_ISI with (2 ^ 4). rewrite has_raise, H4 by lia.
      change EXCEPTION_PROGRAM with (2 ^ 7). rewrite raised_first by lia. unfold GenerateProgramException.
      rewrite get_set_spr. reflexivity. }
    rewrite E. pose proof (take_exception_entered (pc p) (2 ^ 17 .| saved_msr p) 0x700 7 (GenerateProgramException Trap p) ltac:(lia)) as He.
    split; [exact He|]. eapply entered_raised; [exact He | lia | exact H7 | reflexivity]. }
  split; [|split].
  - unfold tw. cbv zeta. rewrite trap_condition_traps by apply Hg. apply Htrap.
  - unfold twi. cbv zeta. pose proof (wraps_range 16 inst ltac:(lia)) as Hs. unfold sN in Hs.
    replace (SIMM_16 inst) with (to_s32 (to_u32 (SIMM_16 inst))) at 2
      by (rewrite wraps_wrapu by lia; apply wraps_small; unfold sN, SIMM_16; lia).
    rewrite trap_condition_traps; [apply Htrap | apply Hg | apply wrapu_range; lia].
  - intros H1. assert (E : sc inst p =
      MSRUpdated (take_exception (npc p) (saved_msr p) 0xC00 (2 ^ 1) (raise_exception (2 ^ 1) p))).
    { unfold sc, CheckExceptions. change EXCEPTION_ISI with (2 ^ 4). change EXCEPTION_PROGRAM with (2 ^ 7).
      change EXCEPTION_SYSCALL with (2 ^ 1). by rewrite !has_raise, H4, H7, raised_first by lia. }
    rewrite E. pose proof (take_exception_entered (npc p) (saved_msr p) 0xC00 1 (raise_exception (2 ^ 1) p) ltac:(lia)) as He.
    split; [exact He|]. eapply entered_raised; [exact He | lia | exact H1 | reflexivity].
Qed.

(** [twge r3, r4] traps: 0x12345678 is not below -16; [tweq] does not. *)
Lemma traps_and_system_calls_witness :
  pc (tw 0x7D832008 sample_cpu).1 = 0x700 /\ tw 0x7C832008 sample_cpu = (sample_cpu, false).
Proof.
  destruct (traps_and_system_calls 0x7D832008 sample_cpu sample_cpu_ok eq_refl eq_refl) as ((p' & E & He & _) & _).
  destruct (traps_and_system_calls 0x7C832008 sample_cpu sample_cpu_ok eq_refl eq_refl) as (E2 & _).
  split; [rewrite E; exact (en_pc _ _ _ _ _ _ He) | exact E2].
Defined.

(** * The return from interrupts *)

Lemma exception_msr_kept m : exception_msr m .& 0x783F0000 = m .& 0x783B0000.
Proof.
  unfold exception_msr. change (to_u32 (Z.lnot 1)) with 0xFFFFFFFE. change (to_u32 (Z.lnot 0x04EF36)) with 0xFFFB10C9.
  rewrite <- Z.land_assoc. change (0xFFFB10C9 .& 0x783F0000) with 0x783B0000.
  rewrite Z.land_lor_distr_l, <- !Z.land_assoc. change (1 .& 0x783B0000) with 0. change (0xFFFFFFFE .& 0x783B0000) with 0x783B0000.
  by rewrite Z.land_0_r, Z.lor_0_r.
Qed.

(** What the handler's entry changes in the machine state is saved, but for the bit 18, which
    the entry and the return both clear. *)
Lemma msr_restored m h s :
  s .& 0x87C0FFFF = m .& 0x87C0FFFF -> h .& 0x783F0000 = exception_msr m .& 0x783F0000 ->
  ((h .& to_u32 (Z.lnot 0x87C0FFFF)) .| (s .& 0x87C0FFFF)) .& 0xFFFBFFFF = m .& 0xFFFBFFFF.
Proof.
  intros Hs Ho. change (to_u32 (Z.lnot 0x87C0FFFF)) with 0x783F0000. rewrite Hs, Ho, exception_msr_kept.
  rewrite <- Z.land_lor_distr_r, <- Z.land_assoc. reflexivity.
Qed.

Lemma exception_msr_supervisor m : Z.testbit (exception_msr m) 14 = false.
Proof. unfold exception_msr. rewrite Z.land_spec, testbit_u32_lnot by lia. apply andb_false_r. Qed.

(** A handler that comes back as it was entered: it may have changed anything but the saved
    registers and the part of the machine state that is not saved, and is still privileged. *)
Record handled p' q : Prop := {
  ha_srr0 : get_spr SPR_SRR0 q = get_spr SPR_SRR0 p';
  ha_srr1 : get_spr SPR_SRR1 q = get_spr SPR_SRR1 p';
  ha_msr : msr q .& 0x783F0000 = msr p' .& 0x783F0000;
  ha_supervisor : user_mode q = false
}.

(** C30. Interrupts are transparent.  An asynchronous exception enters its handler in
    supervisor mode with interrupts disabled; when the handler returns with [rfi],
    execution goes on at the instruction that was interrupted, in the machine state it had
    (but for the power management bit), with the registers the handler left; [rfi] does not
    change any other register.  In user mode [rfi] only raises the program exception. *)
Theorem interrupt_return inst p bit vector q :
  Z.testbit (msr p) 15 = true -> first_pending (Exceptions p) = Some (bit, vector) ->
  let p' := CheckExternalExceptions p in
  (pc p' = vector /\ user_mode p' = false /\ Z.testbit (msr p') 15 = false) /\
  (handled p' q ->
     let r := (rfi inst q).1 in
     (rfi inst q).2 = true /\ npc r = npc p /\ msr r = msr p .& 0xFFFBFFFF /\
     feature_flags r .& 3 = (msr p .>> 4) .& 3 /\
     forall n m f, fset p_npc n (fset p_msr m (fset p_feature_flags f r)) = fset p_npc n (fset p_msr m (fset p_feature_flags f q))) /\
  (user_mode q = true -> rfi inst q = (GenerateProgramException PrivilegedInstruction q, false)).
Proof.
  intros HEE Hf p'. pose proof (CheckExternalExceptions_taken p bit vector HEE Hf) as Ht. fold p' in Ht.
  assert (Hm : msr p' = exception_msr (msr p)).
  { unfold p'. rewrite CheckExternalExceptions_eq, Hf by done. reflexivity. }
  split; [|split].
  - split; [apply Ht|]. unfold user_mode. rewrite Hm. split; [apply exception_msr_supervisor | apply exception_msr_masked].
  - intros [H0 H1 Hk Hu] r. unfold r, rfi. rewrite Hu. cbn [fst snd].
    pose proof (tk_srr1 _ _ _ _ Ht) as Hs1. rewrite <- H1 in Hs1. rewrite Hm in Hk.
    assert (Em : ((msr q .& to_u32 (Z.lnot 0x87C0FFFF)) .| (get_spr SPR_SRR1 q .& 0x87C0FFFF)) .& 0xFFFBFFFF = msr p .& 0xFFFBFFFF).
    { apply msr_restored; [|exact Hk]. rewrite Hs1, <- Z.land_assoc. reflexivity. }
    split; [done|]. split; [|split; [exact Em|split]].
    + etransitivity; [|exact (tk_srr0 _ _ _ _ Ht)]. exact H0.
    + cbn [MSRUpdated fset p_feature_flags p_npc p_msr feature_flags msr]. rewrite Em.
      rewrite Z.land_lor_distr_l, <- !Z.land_assoc. change (4 .& 3) with 0. change (3 .& 3) with 3. rewrite Z.land_0_r, Z.lor_0_l.
      rewrite Z.shiftr_land. rewrite <- Z.land_assoc. reflexivity.
    + intros n m f. by destruct q.
  - intros Hu. unfold rfi. by rewrite Hu.
Qed.

(** The external interrupt of [waiting_cpu]; the handler changed a register. *)
Lemma interrupt_return_witness :
  let q := set_gpr 3 0x42 (CheckExternalExceptions waiting_cpu) in
  npc (rfi 0x4C000064 q).1 = npc waiting_cpu /\ msr (rfi 0x4C000064 q).1 = msr waiting_cpu.
Proof.
  intros q.
  destruct (interrupt_return 0x4C000064 waiting_cpu 2 0x500 q eq_refl eq_refl) as (_ & H & _).
  destruct H as (_ & Hn & Hm & _); [|split; [exact Hn | exact Hm]].
  split; reflexivity.
Defined.
