(* ===== verification/PPCStatusProps.v ===== *)
(** The floating-point status and its summary bits. *)
From stdpp Require Import base tactics option list gmap.
From Stdlib Require Import ZArith Lia Bool.
From S2P Require Import Prelude PowerPC PowerPCProps ConditionRegister Gekko PPCInteger PPCIntegerProps PPCSystem PPCSystemProps.

#[local] Open Scope Z_scope.
Implicit Types (inst : Z) (p : PPCState).

(** * The floating-point status *)

(** The word with the bits [ks]. *)
Definition mask_of (ks : list Z) : Z := foldr (fun k m => 2 ^ k .| m) 0 ks.

Lemma land_mask_of x ks : Forall (fun k => 0 <= k) ks -> negb ((x .& mask_of ks) =? 0) = existsb (Z.testbit x) ks.
Proof.
  intros Hk. induction Hk as [|k ks Hk _ IH]; cbn [mask_of foldr existsb].
  - by rewrite Z.land_0_r.
  - fold (mask_of ks). rewrite Z.land_lor_distr_r, <- IH, <- (land_single_set x k) by done.
    destruct (Z.eqb_spec (x .& 2 ^ k) 0) as [->|E]; [by rewrite Z.lor_0_l|]. cbn [negb orb].
    apply negb_true_iff, Z.eqb_neq. intros H. apply Z.lor_eq_0_iff in H. tauto.
Qed.

Lemma put_bit_testbit i b x j : 0 <= i -> 0 <= j < 32 -> Z.testbit (put_bit i b x) j = if j =? i then b else Z.testbit x j.
Proof.
  intros Hi Hj. unfold put_bit. rewrite Z.lor_spec, Z.land_spec, testbit_u32_lnot by lia.
  rewrite Z.shiftl_1_l, testbit_pow2, Z.shiftl_spec, Z.eqb_sym by lia. destruct (Z.eqb_spec j i) as [->|Hne]; cbn [negb].
  - rewrite andb_false_r, Z.sub_diag. by destruct b.
  - rewrite andb_true_r. assert (E : Z.testbit (truth b) (j - i) = false).
    { destruct (Z.lt_ge_cases (j - i) 0); [by apply Z.testbit_neg_r|]. apply (uN_bits 1); unfold uN; destruct b; cbn [truth]; lia. }
    by rewrite E, orb_false_r.
Qed.

(** The bits of the invalid operation exceptions, and an exception with its enable bit. *)
Definition invalid_operations : list Z := [8; 9; 10; 19; 20; 21; 22; 23; 24].
Definition some_invalid (x : Z) : bool := existsb (Z.testbit x) invalid_operations.
Definition some_enabled (x : Z) : bool := existsb (fun k => Z.testbit x (k + 22) && Z.testbit x k) [3; 4; 5; 6; 7].

(** Bit 29 sums up the invalid operations, bit 30 the enabled exceptions. *)
Definition summary_ok (x : Z) : Prop := Z.testbit x 29 = some_invalid x /\ Z.testbit x 30 = some_enabled x.

(** The two bits, computed from the others. *)
Definition summarised (x : Z) (i : Z) : bool :=
  if i =? 29 then some_invalid x
  else if i =? 30 then some_enabled (put_bit 29 (some_invalid x) x) else Z.testbit x i.

Lemma update_summary x i : 0 <= i < 32 ->
  let y := put_bit 29 (negb ((x .& FPSCR_VX_ANY) =? 0)) x in
  Z.testbit (put_bit 30 (negb (((y .>> 22) .& (y .& FPSCR_ANY_E)) =? 0)) y) i = summarised x i.
Proof.
  intros Hi y. assert (Ev : negb ((x .& FPSCR_VX_ANY) =? 0) = some_invalid x).
  { change FPSCR_VX_ANY with (mask_of invalid_operations). apply land_mask_of. unfold invalid_operations.
    repeat (apply Forall_cons; split; [lia|]). by apply Forall_nil. }
  unfold y. rewrite Ev. set (z := put_bit 29 (some_invalid x) x).
  assert (Ee : negb (((z .>> 22) .& (z .& FPSCR_ANY_E)) =? 0) = some_enabled z).
  { change FPSCR_ANY_E with (mask_of [3; 4; 5; 6; 7]). rewrite Z.land_assoc, land_mask_of
      by (repeat (apply Forall_cons; split; [lia|]); by apply Forall_nil).
    unfold some_enabled. cbn [existsb]. by rewrite !Z.land_spec, !Z.shiftr_spec by lia. }
  rewrite Ee, put_bit_testbit by lia. unfold summarised. fold z.
  destruct (Z.eqb_spec i 30) as [->|]; [done|]. unfold z at 1. by rewrite put_bit_testbit by lia.
Qed.

(** The invariant of the register: its bit 11 is reserved. *)
Record fpscr_ok (x : Z) : Prop := {
  fo_u32 : u32 x;
  fo_reserved : Z.testbit x 11 = false;
  fo_summary : summary_ok x
}.

Definition fp_exceptions_enabled p : bool := Z.testbit (msr p) 11 || Z.testbit (msr p) 8.

(** The status has the bits [x], but for the two that are computed, and an exception is
    raised if one is enabled. *)
Record status_written (x : Z -> bool) p p' : Prop := {
  sw_bits : forall i, 0 <= i < 32 -> i <> 29 -> i <> 30 -> Z.testbit (fpscr p') i = x i;
  sw_ok : fpscr_ok (fpscr p');
  sw_exception :
    if Z.testbit (fpscr p') 30 && fp_exceptions_enabled p
    then Exceptions p' = Exceptions p .| EXCEPTION_PROGRAM /\ get_spr SPR_SRR1 p' = 2 ^ 20
    else Exceptions p' = Exceptions p /\ spr p' = spr p;
  sw_others : forall e s f c, fset p_Exceptions e (fset p_spr s (fset p_fpscr f (fset p_cr_fields c p'))) =
                              fset p_Exceptions e (fset p_spr s (fset p_fpscr f (fset p_cr_fields c p)))
}.

Lemma put_bit_range i b x : 0 <= i < 32 -> u32 x -> u32 (put_bit i b x).
Proof.
  intros Hi Hx. unfold put_bit. apply uN_lor; [lia | by apply uN_land_l; [lia|] |].
  rewrite Z.shiftl_mul_pow2 by lia. unfold uN. assert (2 ^ i <= 2 ^ 31) by (apply Z.pow_le_mono_r; lia).
  destruct b; cbn [truth]; lia.
Qed.

Lemma some_invalid_ext x y : (forall i, 0 <= i < 29 -> Z.testbit x i = Z.testbit y i) -> some_invalid x = some_invalid y.
Proof. intros H. unfold some_invalid, invalid_operations. cbn [existsb]. by rewrite !H by lia. Qed.

Lemma some_enabled_ext x y : (forall i, 0 <= i < 30 -> Z.testbit x i = Z.testbit y i) -> some_enabled x = some_enabled y.
Proof. intros H. unfold some_enabled. cbn [existsb]. by rewrite !H by lia. Qed.

Lemma fpscr_ok_summarised x y : u32 y -> Z.testbit x 11 = false ->
  (forall i, 0 <= i < 32 -> Z.testbit y i = summarised x i) -> fpscr_ok y.
Proof.
  intros Hu Hr Hy. assert (Hlow : forall i, 0 <= i < 29 -> Z.testbit y i = Z.testbit x i).
  { intros i Hi. rewrite Hy by lia. unfold summarised. by rewrite !(proj2 (Z.eqb_neq i _)) by lia. }
  split; [done | by rewrite Hlow by lia |]. split.
  - rewrite Hy by lia. symmetry. by apply some_invalid_ext.
  - rewrite Hy by lia. change (summarised x 30) with (some_enabled (put_bit 29 (some_invalid x) x)).
    apply some_enabled_ext. intros i Hi. rewrite put_bit_testbit, Hy by lia. unfold summarised.
    by rewrite (proj2 (Z.eqb_neq i 30)) by lia.
Qed.

(** The summary of a state whose status is [x]. *)
Lemma UpdateFPExceptionSummary_written x p :
  u32 x -> Z.testbit x 11 = false ->
  status_written (Z.testbit x) p (UpdateFPExceptionSummary (fset p_fpscr x p)).
Proof.
  intros Hx Hr. unfold UpdateFPExceptionSummary. cbn [fset p_fpscr fpscr].
  set (y := put_bit 29 (negb ((x .& FPSCR_VX_ANY) =? 0)) x). set (z := put_bit 30 _ y).
  assert (Hz : forall i, 0 <= i < 32 -> Z.testbit z i = summarised x i) by (intros; by apply update_summary).
  assert (Hzu : u32 z) by (apply put_bit_range; [lia|]; by apply put_bit_range; [lia|]).
  set (q := mkPPC _ _ _ _ _ _ _ _ _ _ _ _ _ _ _ _ _ _).
  assert (Hq : fpscr (CheckFPExceptions q) = z) by (unfold CheckFPExceptions; by case_match).
  split; rewrite ?Hq.
  - intros i Hi H29 H30. rewrite Hz by done. unfold summarised. by rewrite (proj2 (Z.eqb_neq _ _) H29), (proj2 (Z.eqb_neq _ _) H30).
  - by apply (fpscr_ok_summarised x).
  - unfold CheckFPExceptions. change (fpscr q) with z. change (msr q) with (msr p). fold (fp_exceptions_enabled p).
    destruct (Z.testbit z 30 && fp_exceptions_enabled p); [|done]. split; [done|].
    unfold GenerateProgramException. by rewrite get_set_spr.
  - intros e s f c. unfold CheckFPExceptions. case_match; by destruct p.
Qed.

Lemma sw_msr x p p' : status_written x p p' -> msr p' = msr p.
Proof. intros H. exact (f_equal msr (sw_others _ _ _ H 0 ∅ 0 ∅)). Qed.

(** The two computed bits are determined by the others. *)
Lemma fpscr_ok_enabled x y : fpscr_ok x -> fpscr_ok y ->
  (forall i, 0 <= i < 29 -> Z.testbit x i = Z.testbit y i) -> Z.testbit x 30 = Z.testbit y 30.
Proof.
  intros [_ _ [Hx1 Hx2]] [_ _ [Hy1 Hy2]] H. rewrite Hx2, Hy2. apply some_enabled_ext. intros i Hi.
  destruct (Z.eq_dec i 29) as [->|]; [|apply H; lia]. rewrite Hx1, Hy1. by apply some_invalid_ext.
Qed.

(** Summing up twice is summing up once. *)
Lemma FPSCRUpdated_again x p q : status_written x p q -> status_written x p (FPSCRUpdated q).
Proof.
  intros Hq. pose proof (sw_ok _ _ _ Hq) as Hok.
  assert (Hr : status_written (Z.testbit (fpscr q)) q (FPSCRUpdated q)).
  { replace (FPSCRUpdated q) with (UpdateFPExceptionSummary (fset p_fpscr (fpscr q) q)) by by destruct q.
    by apply UpdateFPExceptionSummary_written; apply Hok. }
  set (r := FPSCRUpdated q) in *. assert (E30 : Z.testbit (fpscr r) 30 = Z.testbit (fpscr q) 30).
  { apply fpscr_ok_enabled; [apply Hr | done |]. intros i Hi. apply (sw_bits _ _ _ Hr); lia. }
  split.
  - intros i Hi H29 H30. rewrite (sw_bits _ _ _ Hr) by done. by apply (sw_bits _ _ _ Hq).
  - apply Hr.
  - pose proof (sw_exception _ _ _ Hr) as He. pose proof (sw_exception _ _ _ Hq) as Hf. rewrite E30 in *.
    unfold fp_exceptions_enabled in He. rewrite (sw_msr _ _ _ Hq) in He. fold (fp_exceptions_enabled p) in He.
    destruct (_ && _).
    + destruct He as [-> Hs], Hf as [-> _]. split; [|done]. by rewrite <- Z.lor_assoc.
    + destruct He as [-> ->]. exact Hf.
  - intros e s f c. rewrite (sw_others _ _ _ Hr). apply Hq.
Qed.

(** A record form copies the upper four bits to field 1 of the condition register. *)
Definition copied_to_CR1 inst p p' : Prop := forall i,
  GetField i (cr_fields p') = if (i =? 1) && Rc inst then fpscr p' .>> 28 else GetField i (cr_fields p).

Lemma bits4 x : u32 x -> (((bits 31 1 x .<< 3) .| (bits 30 1 x .<< 2)) .| (bits 29 1 x .<< 1)) .| bits 28 1 x = x .>> 28.
Proof.
  intros Hx. unfold bits. change (2 ^ 1 - 1) with 1. rewrite !testbit_land1 by lia.
  apply Z.bits_inj'. intros i Hi. rewrite !Z.lor_spec, !Z.shiftl_spec, Z.shiftr_spec by lia.
  assert (Ht : forall b k, Z.testbit (truth b) k = b && (k =? 0)).
  { intros [] k; cbn [truth andb]; [|apply Z.bits_0]. change 1 with (2 ^ 0). rewrite testbit_pow2, Z.eqb_sym by lia. done. }
  rewrite !Ht. destruct (Z.lt_ge_cases i 4).
  - assert (i = 0 \/ i = 1 \/ i = 2 \/ i = 3) as [->|[->|[->| ->]]] by lia; cbn; rewrite ?andb_true_r, ?andb_false_r, ?orb_false_r; done.
  - rewrite !(proj2 (Z.eqb_neq _ _)), !andb_false_r by lia. symmetry. apply (uN_bits 32); [lia | apply Hx | done | lia].
Qed.

Lemma record_CR1_written inst x p q :
  cr_fields q = cr_fields p -> status_written x p q ->
  status_written x p (record_CR1 inst q) /\ copied_to_CR1 inst p (record_CR1 inst q).
Proof.
  intros Hc Hq. unfold record_CR1, copied_to_CR1. destruct (Rc inst).
  - split.
    + destruct Hq as [Hb Ho He Hs]. split; [exact Hb | exact Ho | exact He |]. intros e s f c. by rewrite <- Hs.
    + intros i. rewrite andb_true_r. unfold UpdateCR1. cbv zeta. rewrite bits4 by apply Hq.
      change (cr_fields (SetCRField ?k ?v q)) with (SetField k v (cr_fields q)). rewrite Hc.
      pose proof (fo_u32 _ (sw_ok _ _ _ Hq)) as Hu. assert (Hv : 0 <= fpscr q .>> 28 < 16).
      { unfold uN in Hu. rewrite Z.shiftr_div_pow2 by lia. split; [apply Z.div_pos | apply Z.div_lt_upper_bound]; lia. }
      destruct (Z.eqb_spec i 1) as [->|]; [by apply GetField_SetField | by apply GetField_SetField_ne].
  - split; [done|]. intros i. by rewrite andb_false_r, Hc.
Qed.

Lemma status_written_ext x y p p' :
  (forall i, 0 <= i < 32 -> x i = y i) -> status_written x p p' -> status_written y p p'.
Proof. intros E [Hb Ho He Hs]. split; [|done..]. intros i Hi H29 H30. rewrite <- E by done. by apply Hb. Qed.

(** The value is assigned through [UReg_FPSCR], which drops the reserved bit. *)
Lemma assigned_written inst v x p :
  u32 v -> (forall i, 0 <= i < 32 -> Z.testbit (v .& 0xFFFFF7FF) i = x i) ->
  let p' := record_CR1 inst (FPSCRUpdated (set_fpscr v p)) in
  status_written x p p' /\ copied_to_CR1 inst p p'.
Proof.
  intros Hv Hx p'. apply record_CR1_written.
  - unfold FPSCRUpdated, UpdateFPExceptionSummary, CheckFPExceptions. by case_match.
  - apply (status_written_ext (Z.testbit (v .& 0xFFFFF7FF))); [done|]. apply UpdateFPExceptionSummary_written.
    + by apply uN_land_l; [lia|].
    + rewrite Z.land_spec. apply andb_false_r.
Qed.

Lemma reserved_testbit v i : 0 <= i < 32 -> Z.testbit (v .& 0xFFFFF7FF) i = negb (i =? 11) && Z.testbit v i.
Proof.
  intros Hi. change 0xFFFFF7FF with (to_u32 (Z.lnot (2 ^ 11))). rewrite Z.land_spec, testbit_u32_lnot, testbit_pow2 by lia.
  rewrite Z.eqb_sym. by rewrite andb_comm.
Qed.

(** The sticky exception bits, counted from the lowest. *)
Definition sticky (i : Z) : bool := existsb (Z.eqb i) [8; 9; 10; 19; 20; 21; 22; 23; 24; 25; 26; 27; 28].

Lemma any_x_testbit k : 0 <= k -> negb ((2 ^ k .& FPSCR_ANY_X) =? 0) = sticky k.
Proof.
  intros Hk. change FPSCR_ANY_X with (mask_of [8; 9; 10; 19; 20; 21; 22; 23; 24; 25; 26; 27; 28]).
  rewrite land_mask_of by (repeat (apply Forall_cons; split; [lia|]); by apply Forall_nil).
  unfold sticky. cbn [existsb]. by rewrite !testbit_pow2 by done.
Qed.

Lemma mtfsb1x_written inst p :
  fpscr_ok (fpscr p) ->
  let bit := 31 - CRBD inst in let old := Z.testbit (fpscr p) in
  let x i := negb (i =? 11) && (old i || (i =? bit) || ((i =? 31) && sticky bit && negb (old bit))) in
  status_written x p (mtfsb1x inst p) /\ copied_to_CR1 inst p (mtfsb1x inst p).
Proof.
  intros [Hu Hr _] bit old x. pose proof (bits_range 21 5 inst ltac:(lia)) as Hd. fold (CRBD inst) in Hd.
  assert (Eb : 0x80000000 .>> CRBD inst = 2 ^ bit).
  { rewrite Z.shiftr_div_pow2 by lia. change 0x80000000 with (2 ^ 31). unfold bit. rewrite Z.pow_sub_r by lia. done. }
  assert (Hb : u32 (2 ^ bit)).
  { unfold uN. split; [apply Z.pow_nonneg; lia|]. apply Z.pow_lt_mono_r; unfold bit; lia. }
  assert (H11 : old 11 = false) by exact Hr.
  unfold mtfsb1x. cbv zeta. rewrite Eb, any_x_testbit by (unfold bit; lia). destruct (sticky bit) eqn:Es.
  - assert (Hne : bit <> 11) by (intros E; by rewrite E in Es).
    set (y := (if negb ((fpscr p .& 2 ^ bit) =? 2 ^ bit) then put_bit 31 true (fpscr p) else fpscr p) .| 2 ^ bit).
    assert (Ey : SetFPException (2 ^ bit) p = UpdateFPExceptionSummary (fset p_fpscr y p)).
    { unfold SetFPException, y. by case_match. }
    assert (Hy : u32 y) by (apply uN_lor; [lia | case_match; [apply put_bit_range; [lia | done] | done] | done]).
    assert (Et : negb ((fpscr p .& 2 ^ bit) =? 2 ^ bit) = negb (old bit)).
    { f_equal. rewrite land_single by (unfold bit; lia). pose proof (pow2_pos bit ltac:(unfold bit; lia)). fold old.
      destruct (old bit); cbn [truth]; [by rewrite Z.mul_1_l, Z.eqb_refl | by rewrite (proj2 (Z.eqb_neq (0 * _) _)) by lia]. }
    assert (Hx : forall i, 0 <= i < 32 -> Z.testbit y i = x i).
    { intros i Hi. unfold y, x. rewrite Z.lor_spec, testbit_pow2, Et by (unfold bit; lia). rewrite (Z.eqb_sym bit i).
      destruct (Z.eqb_spec i 11) as [->|]; cbn [negb andb].
      - rewrite (proj2 (Z.eqb_neq 11 bit)), orb_false_r by congruence. case_match; [rewrite put_bit_testbit by lia|]; exact H11.
      - destruct (old bit); cbn [negb]; rewrite ?andb_false_r, ?andb_true_r, ?orb_false_r; [done|].
        rewrite put_bit_testbit by lia. fold (old i). by destruct (i =? 31), (old i), (i =? bit). }
    rewrite Ey. apply record_CR1_written.
    + unfold FPSCRUpdated, UpdateFPExceptionSummary, CheckFPExceptions. by repeat case_match.
    + apply FPSCRUpdated_again. apply (status_written_ext (Z.testbit y)); [done|].
      apply UpdateFPExceptionSummary_written; [done|]. rewrite Hx by lia. done.
  - apply assigned_written; [by apply uN_lor|]. intros i Hi. rewrite reserved_testbit, Z.lor_spec, testbit_pow2 by (done || unfold bit; lia).
    unfold x. rewrite andb_false_r, orb_false_r. by rewrite (Z.eqb_sym bit i).
Qed.

Lemma ps_range_land x m i : u32 m -> 0 <= i < 32 -> Z.testbit (to_u32 x .& m) i = Z.testbit x i && Z.testbit m i.
Proof. intros Hm Hi. rewrite Z.land_spec. unfold wrapu. by rewrite Z.mod_pow2_bits_low by lia. Qed.

Lemma mtfsfix_imm inst i : 0 <= CRFD inst < 8 -> 0 <= i < 32 ->
  let m := 0xF0000000 .>> (4 * CRFD inst) in let imm := to_u32 (inst .<< 16) .& 0xF0000000 in
  Z.testbit m i = (i / 4 =? 7 - CRFD inst) /\
  Z.testbit (imm .>> (4 * CRFD inst)) i = (i / 4 =? 7 - CRFD inst) && Z.testbit inst (12 + i mod 4).
Proof.
  intros Hf Hi m imm. assert (Hbit : forall k, 0 <= k -> Z.testbit 0xF0000000 k = (28 <=? k) && (k <? 32)).
  { intros k Hk. change 0xF0000000 with (Z.ones 4 .<< 28). rewrite Z.shiftl_spec, Z.testbit_ones by lia.
    destruct (Z.leb_spec 0 (k - 28)), (Z.ltb_spec (k - 28) 4), (Z.leb_spec 28 k), (Z.ltb_spec k 32); (reflexivity || lia). }
  pose proof (Z.div_mod i 4 ltac:(lia)) as Ei. pose proof (Z.mod_pos_bound i 4 ltac:(lia)) as Em.
  assert (Er : (28 <=? i + 4 * CRFD inst) && (i + 4 * CRFD inst <? 32) = (i / 4 =? 7 - CRFD inst)).
  { destruct (Z.leb_spec 28 (i + 4 * CRFD inst)), (Z.ltb_spec (i + 4 * CRFD inst) 32), (Z.eqb_spec (i / 4) (7 - CRFD inst)); (reflexivity || lia). }
  unfold m, imm. rewrite !Z.shiftr_spec, Z.land_spec, Hbit, Er by lia. split; [done|].
  destruct (Z.eqb_spec (i / 4) (7 - CRFD inst)); [|apply andb_false_r]. rewrite andb_true_r. cbn [andb].
  unfold wrapu. rewrite Z.mod_pow2_bits_low, Z.shiftl_spec by lia. f_equal. lia.
Qed.

Lemma mcrfs_mask inst i : 0 <= CRFS inst < 8 -> 0 <= i < 32 ->
  Z.testbit (to_u32 (0xF .<< (4 * (7 - CRFS inst))) .& (FPSCR_FX .| FPSCR_ANY_X)) i =
    (i / 4 =? 7 - CRFS inst) && ((i =? 31) || sticky i).
Proof.
  intros Hf Hi. rewrite ps_range_land by (done || unfold uN; lia). rewrite Z.shiftl_spec by lia.
  pose proof (Z.div_mod i 4 ltac:(lia)) as Ei. pose proof (Z.mod_pos_bound i 4 ltac:(lia)) as Em. f_equal.
  - change 0xF with (Z.ones 4). rewrite Z.testbit_ones by lia.
    destruct (Z.leb_spec 0 (i - 4 * (7 - CRFS inst))), (Z.ltb_spec (i - 4 * (7 - CRFS inst)) 4), (Z.eqb_spec (i / 4) (7 - CRFS inst)); (reflexivity || lia).
  - rewrite <- any_x_testbit, Z.lor_spec by lia. rewrite (Z.land_comm (2 ^ i)), land_single_set by lia.
    change FPSCR_FX with (2 ^ 31). by rewrite testbit_pow2, Z.eqb_sym by lia.
Qed.

(** Clearing bits of the status. *)
Lemma cleared_bits p : fpscr_ok (fpscr p) -> forall m,
  u32 (fpscr p .& to_u32 (Z.lnot m)) /\ Z.testbit (fpscr p .& to_u32 (Z.lnot m)) 11 = false /\
  forall i, 0 <= i < 32 -> Z.testbit (fpscr p .& to_u32 (Z.lnot m)) i = Z.testbit (fpscr p) i && negb (Z.testbit m i).
Proof.
  intros [Hu Hr _] m. split; [by apply uN_land_l; [lia|]|]. split; [by rewrite Z.land_spec, Hr|].
  intros i Hi. by rewrite Z.land_spec, testbit_u32_lnot by lia.
Qed.

Lemma mcrfs_written inst p : fpscr_ok (fpscr p) ->
  status_written (fun i => Z.testbit (fpscr p) i && negb ((i / 4 =? 7 - CRFS inst) && ((i =? 31) || sticky i))) p (mcrfs inst p) /\
  forall i, GetField i (cr_fields (mcrfs inst p)) =
    if i =? CRFD inst then (fpscr p / 2 ^ (4 * (7 - CRFS inst))) mod 16 else GetField i (cr_fields p).
Proof.
  intros Hok. pose proof (cleared_bits p Hok) as Hclear.
  pose proof (bits_range 18 3 inst ltac:(lia)) as Hfs. fold (CRFS inst) in Hfs.
  unfold mcrfs. cbv zeta. set (m := to_u32 (0xF .<< (4 * (7 - CRFS inst))) .& (FPSCR_FX .| FPSCR_ANY_X)).
  destruct (Hclear m) as (Hcu & Hcr & Hct). set (x := fpscr p .& to_u32 (Z.lnot m)) in *.
  pose proof (UpdateFPExceptionSummary_written x p Hcu Hcr) as Hs. fold (FPSCRUpdated (fset p_fpscr x p)) in Hs.
  set (q := FPSCRUpdated (fset p_fpscr x p)) in *. split.
  + apply (status_written_ext (Z.testbit x)).
    * intros i Hi. rewrite Hct by done. unfold m. by rewrite mcrfs_mask.
    * destruct Hs as [Hb Ho He Hs]. split; [exact Hb | exact Ho | exact He |]. intros e s f c. by rewrite <- Hs.
  + assert (Hc : cr_fields q = cr_fields p).
    { unfold q, FPSCRUpdated, UpdateFPExceptionSummary, CheckFPExceptions. by case_match. }
    intros i. change (cr_fields (SetCRField ?k ?v q)) with (SetField k v (cr_fields q)). rewrite Hc.
    rewrite Z.shiftr_div_pow2 by lia. change 15 with (Z.ones 4). rewrite Z.land_ones by lia. change (2 ^ 4) with 16.
    destruct (Z.eqb_spec i (CRFD inst)) as [->|]; [|by apply GetField_SetField_ne]. apply GetField_SetField. by apply Z.mod_pos_bound.
Qed.

(** C31. The floating-point status.  [mtfsb0], [mtfsb1], [mtfsfi], [mtfsf] and [mcrfs] write
    the bits they name and no other; whatever they write, the summary of the invalid
    operations and the summary of the enabled exceptions are recomputed, the reserved bit
    stays zero, and an exception that is enabled is raised if the machine state asks for
    it; setting an exception bit that was clear also sets bit 31.  The record forms copy
    the upper bits to the condition register; [mcrfs] copies a field of the old status and
    clears the exception bits it read. *)
Theorem fpscr_instructions inst p :
  fpscr_ok (fpscr p) ->
  let old := Z.testbit (fpscr p) in let bit := 31 - CRBD inst in
  let written x f := status_written x p (f inst p) /\ copied_to_CR1 inst p (f inst p) in
  written (fun i => old i && negb (i =? bit)) mtfsb0x /\
  written (fun i => negb (i =? 11) && (old i || (i =? bit) || ((i =? 31) && sticky bit && negb (old bit)))) mtfsb1x /\
  written (fun i => negb (i =? 11) && if i / 4 =? 7 - CRFD inst then Z.testbit inst (12 + i mod 4) else old i) mtfsfix /\
  written (fun i => negb (i =? 11) && if Z.testbit inst (17 + i / 4) then Z.testbit (aat (ps0 p) (RB inst)) i else old i) mtfsfx /\
  (status_written (fun i => old i && negb ((i / 4 =? 7 - CRFS inst) && ((i =? 31) || sticky i))) p (mcrfs inst p) /\
   forall i, GetField i (cr_fields (mcrfs inst p)) =
     if i =? CRFD inst then (fpscr p / 2 ^ (4 * (7 - CRFS inst))) mod 16 else GetField i (cr_fields p)).
Proof.
  intros Hok old bit written. pose proof Hok as [Hu Hr _].
  pose proof (bits_range 21 5 inst ltac:(lia)) as Hd. fold (CRBD inst) in Hd.
  pose proof (bits_range 23 3 inst ltac:(lia)) as Hf. fold (CRFD inst) in Hf.
  pose proof (cleared_bits p Hok) as Hclear. fold old in Hclear.
  split; [|split; [|split; [|split]]].
  - destruct (Hclear (0x80000000 .>> CRBD inst)) as (Hcu & Hcr & Hct). apply record_CR1_written.
    + unfold FPSCRUpdated, UpdateFPExceptionSummary, CheckFPExceptions. by case_match.
    + eapply status_written_ext; [|by apply UpdateFPExceptionSummary_written]. intros i Hi. rewrite Hct by done. do 2 f_equal.
      change 0x80000000 with (2 ^ 31). rewrite Z.shiftr_spec, testbit_pow2 by lia.
      unfold bit. destruct (Z.eqb_spec 31 (i + CRBD inst)), (Z.eqb_spec i (31 - CRBD inst)); (reflexivity || lia).
  - by apply mtfsb1x_written.
  - destruct (Hclear (0xF0000000 .>> (4 * CRFD inst))) as (Hcu & _ & Hct). apply assigned_written.
    + apply uN_lor; [lia | done |]. rewrite Z.shiftr_div_pow2 by lia. apply u32_div; [|lia]. apply uN_land_r; [lia|]. by unfold uN.
    + intros i Hi. rewrite reserved_testbit, Z.lor_spec, Hct by done. destruct (mtfsfix_imm inst i Hf Hi) as [-> ->].
      f_equal. destruct (_ =? _); cbn [negb andb]; by rewrite ?andb_false_r, ?andb_true_r, ?orb_false_r.
  - set (m := expand_field_mask (bits 17 8 inst)). assert (Hm : u32 m) by apply expand_field_mask_range.
    destruct (Hclear m) as (Hcu & _ & Hct). apply assigned_written.
    + apply uN_lor; [lia | done |]. by apply uN_land_r; [lia|].
    + intros i Hi. rewrite reserved_testbit, Z.lor_spec, Hct, ps_range_land by done. f_equal.
      assert (Em : Z.testbit m i = Z.testbit inst (17 + i / 4)).
      { unfold m. rewrite expand_field_mask_testbit by done. unfold bits. change (2 ^ 8 - 1) with (Z.ones 8).
        assert (0 <= i / 4 < 8) by (split; [apply Z.div_pos | apply Z.div_lt_upper_bound]; lia).
        rewrite Z.land_spec, Z.shiftr_spec, Z.ones_spec_low, andb_true_r by lia. f_equal. lia. }
      fold m. rewrite Em. destruct (Z.testbit inst (17 + i / 4)); cbn [negb]; by rewrite ?andb_false_r, ?andb_true_r, ?orb_false_r.
  - by apply mcrfs_written.
Qed.

(** [mtfsb1 7] sets the invalid operation exception bit 24 and so bits 29 and 31. *)
Lemma fpscr_instructions_witness :
  fpscr (mtfsb1x 0xFCE0004C sample_cpu) = 0xA1000000 /\ Z.testbit (fpscr (mtfsb1x 0xFCE0004C sample_cpu)) 31 = true.
Proof.
  assert (Hok : fpscr_ok (fpscr sample_cpu)) by (split; [by unfold uN | done | split; reflexivity]).
  destruct (fpscr_instructions 0xFCE0004C sample_cpu Hok) as (_ & [Hs _] & _).
  split; [reflexivity|]. exact (eq_trans (sw_bits _ _ _ Hs 31 ltac:(lia) ltac:(lia) ltac:(lia)) eq_refl).
Defined.
