(* ===== verification/PPCTables.v ===== *)
(** The tables of the PowerPC's instructions ([Core/PowerPC/PPCTables.h] and [.cpp]): what
    every instruction may do, how long it takes, and how it is found.  The statistics kept
    for profiling are not modelled. *)
From stdpp Require Import base tactics option list gmap.
From Stdlib Require Import ZArith Lia Bool String.
From S2P Require Import Prelude PowerPC Gekko.

#[local] Open Scope Z_scope.
#[local] Open Scope string_scope.

(** * Flags that indicate what an instruction can do *)

Definition FL_SET_CR0 : Z := 1 .<< 0.
Definition FL_SET_CR1 : Z := 1 .<< 1.
Definition FL_SET_CRn : Z := 1 .<< 2.
Definition FL_SET_CA : Z := 1 .<< 3.
Definition FL_READ_CA : Z := 1 .<< 4.
Definition FL_RC_BIT : Z := 1 .<< 5.
Definition FL_RC_BIT_F : Z := 1 .<< 6.
Definition FL_ENDBLOCK : Z := 1 .<< 7.
Definition FL_IN_A : Z := 1 .<< 8.
Definition FL_IN_A0 : Z := 1 .<< 9.
Definition FL_IN_B : Z := 1 .<< 10.
Definition FL_IN_C : Z := 1 .<< 11.
Definition FL_IN_S : Z := 1 .<< 12.
Definition FL_IN_AB : Z := FL_IN_A .| FL_IN_B.
Definition FL_IN_AC : Z := FL_IN_A .| FL_IN_C.
Definition FL_IN_ABC : Z := FL_IN_A .| FL_IN_B .| FL_IN_C.
Definition FL_IN_SB : Z := FL_IN_S .| FL_IN_B.
Definition FL_IN_A0B : Z := FL_IN_A0 .| FL_IN_B.
Definition FL_IN_A0BC : Z := FL_IN_A0 .| FL_IN_B .| FL_IN_C.
Definition FL_OUT_D : Z := 1 .<< 13.
Definition FL_OUT_A : Z := 1 .<< 14.
Definition FL_OUT_AD : Z := FL_OUT_A .| FL_OUT_D.
Definition FL_TIMER : Z := 1 .<< 15.
Definition FL_CHECKEXCEPTIONS : Z := 1 .<< 16.
Definition FL_NO_REORDER : Z := 1 .<< 17.
Definition FL_USE_FPU : Z := 1 .<< 18.
Definition FL_LOADSTORE : Z := 1 .<< 19.
Definition FL_SET_FPRF : Z := 1 .<< 20.
Definition FL_READ_FPRF : Z := 1 .<< 21.
Definition FL_SET_OE : Z := 1 .<< 22.
Definition FL_IN_FLOAT_A : Z := 1 .<< 23.
Definition FL_IN_FLOAT_B : Z := 1 .<< 24.
Definition FL_IN_FLOAT_C : Z := 1 .<< 25.
Definition FL_IN_FLOAT_S : Z := 1 .<< 26.
Definition FL_IN_FLOAT_D : Z := 1 .<< 27.
Definition FL_IN_FLOAT_AB : Z := FL_IN_FLOAT_A .| FL_IN_FLOAT_B.
Definition FL_IN_FLOAT_AC : Z := FL_IN_FLOAT_A .| FL_IN_FLOAT_C.
Definition FL_IN_FLOAT_ABC : Z := FL_IN_FLOAT_A .| FL_IN_FLOAT_B .| FL_IN_FLOAT_C.
Definition FL_OUT_FLOAT_D : Z := 1 .<< 28.
Definition FL_INOUT_FLOAT_D : Z := FL_IN_FLOAT_D .| FL_OUT_FLOAT_D.
Definition FL_IN_FLOAT_A_BITEXACT : Z := 1 .<< 29.
Definition FL_IN_FLOAT_B_BITEXACT : Z := 1 .<< 30.
Definition FL_IN_FLOAT_C_BITEXACT : Z := 1 .<< 31.
Definition FL_IN_FLOAT_AB_BITEXACT : Z := FL_IN_FLOAT_A_BITEXACT .| FL_IN_FLOAT_B_BITEXACT.
Definition FL_IN_FLOAT_BC_BITEXACT : Z := FL_IN_FLOAT_B_BITEXACT .| FL_IN_FLOAT_C_BITEXACT.
Definition FL_PROGRAMEXCEPTION : Z := 1 .<< 32.
Definition FL_FLOAT_EXCEPTION : Z := 1 .<< 33.
Definition FL_FLOAT_DIV : Z := 1 .<< 34.
Definition FL_SET_ALL_CR : Z := 1 .<< 35.
Definition FL_READ_CRn : Z := 1 .<< 36.
Definition FL_READ_CR_BI : Z := 1 .<< 37.
Definition FL_READ_ALL_CR : Z := 1 .<< 38.
Definition FL_SET_CRx : Z := FL_SET_CR0 .| FL_SET_CR1 .| FL_SET_CRn .| FL_SET_ALL_CR.
Definition FL_READ_CRx : Z := FL_READ_CRn .| FL_READ_CR_BI .| FL_READ_ALL_CR.

Inductive OpType : Type :=
  | TypeInvalid
  | TypeSubtable
  | TypeInteger
  | TypeCR
  | TypeSPR
  | TypeSystem
  | TypeSystemFP
  | TypeLoad
  | TypeStore
  | TypeLoadFP
  | TypeStoreFP
  | TypeDoubleFP
  | TypeSingleFP
  | TypeLoadPS
  | TypeStorePS
  | TypePS
  | TypeDataCache
  | TypeInstructionCache
  | TypeBranch
  | TypeUnknown.

#[export] Instance OpType_eq_dec : EqDecision OpType.
Proof. solve_decision. Defined.

Record GekkoOPTemplate : Type := Template {
  opcode : Z;
  opname : string;
  op_type : OpType;
  num_cycles : Z;
  op_flags : Z
}.

Definition s_unknown_op_info : GekkoOPTemplate := Template 0 "unknown_instruction" TypeUnknown 0 FL_ENDBLOCK.

(** * The templates *)

Definition s_primary_table : list GekkoOPTemplate := [
  Template 4 "RunTable4" TypeSubtable 0 0;
  Template 19 "RunTable19" TypeSubtable 0 0;
  Template 31 "RunTable31" TypeSubtable 0 0;
  Template 59 "RunTable59" TypeSubtable 0 0;
  Template 63 "RunTable63" TypeSubtable 0 0;
  Template 16 "bcx" TypeBranch 1 (FL_ENDBLOCK .| FL_READ_CR_BI);
  Template 18 "bx" TypeBranch 1 FL_ENDBLOCK;
  Template 3 "twi" TypeSystem 1 (FL_IN_A .| FL_ENDBLOCK);
  Template 17 "sc" TypeSystem 2 FL_ENDBLOCK;
  Template 7 "mulli" TypeInteger 3 (FL_OUT_D .| FL_IN_A);
  Template 8 "subfic" TypeInteger 1 (FL_OUT_D .| FL_IN_A .| FL_SET_CA);
  Template 10 "cmpli" TypeInteger 1 (FL_IN_A .| FL_SET_CRn);
  Template 11 "cmpi" TypeInteger 1 (FL_IN_A .| FL_SET_CRn);
  Template 12 "addic" TypeInteger 1 (FL_OUT_D .| FL_IN_A .| FL_SET_CA);
  Template 13 "addic_rc" TypeInteger 1 (FL_OUT_D .| FL_IN_A .| FL_SET_CA .| FL_SET_CR0);
  Template 14 "addi" TypeInteger 1 (FL_OUT_D .| FL_IN_A0);
  Template 15 "addis" TypeInteger 1 (FL_OUT_D .| FL_IN_A0);
  Template 20 "rlwimix" TypeInteger 1 (FL_OUT_A .| FL_IN_A .| FL_IN_S .| FL_RC_BIT);
  Template 21 "rlwinmx" TypeInteger 1 (FL_OUT_A .| FL_IN_S .| FL_RC_BIT);
  Template 23 "rlwnmx" TypeInteger 1 (FL_OUT_A .| FL_IN_SB .| FL_RC_BIT);
  Template 24 "ori" TypeInteger 1 (FL_OUT_A .| FL_IN_S);
  Template 25 "oris" TypeInteger 1 (FL_OUT_A .| FL_IN_S);
  Template 26 "xori" TypeInteger 1 (FL_OUT_A .| FL_IN_S);
  Template 27 "xoris" TypeInteger 1 (FL_OUT_A .| FL_IN_S);
  Template 28 "andi_rc" TypeInteger 1 (FL_OUT_A .| FL_IN_S .| FL_SET_CR0);
  Template 29 "andis_rc" TypeInteger 1 (FL_OUT_A .| FL_IN_S .| FL_SET_CR0);
  Template 32 "lwz" TypeLoad 1 (FL_OUT_D .| FL_IN_A0 .| FL_LOADSTORE);
  Template 33 "lwzu" TypeLoad 1 (FL_OUT_D .| FL_OUT_A .| FL_IN_A .| FL_LOADSTORE);
  Template 34 "lbz" TypeLoad 1 (FL_OUT_D .| FL_IN_A0 .| FL_LOADSTORE);
  Template 35 "lbzu" TypeLoad 1 (FL_OUT_D .| FL_OUT_A .| FL_IN_A .| FL_LOADSTORE);
  Template 40 "lhz" TypeLoad 1 (FL_OUT_D .| FL_IN_A0 .| FL_LOADSTORE);
  Template 41 "lhzu" TypeLoad 1 (FL_OUT_D .| FL_OUT_A .| FL_IN_A .| FL_LOADSTORE);
  Template 42 "lha" TypeLoad 1 (FL_OUT_D .| FL_IN_A0 .| FL_LOADSTORE);
  Template 43 "lhau" TypeLoad 1 (FL_OUT_D .| FL_OUT_A .| FL_IN_A .| FL_LOADSTORE);
  Template 44 "sth" TypeStore 1 (FL_IN_A0 .| FL_IN_S .| FL_LOADSTORE);
  Template 45 "sthu" TypeStore 1 (FL_OUT_A .| FL_IN_A .| FL_IN_S .| FL_LOADSTORE);
  Template 36 "stw" TypeStore 1 (FL_IN_A0 .| FL_IN_S .| FL_LOADSTORE);
  Template 37 "stwu" TypeStore 1 (FL_OUT_A .| FL_IN_A .| FL_IN_S .| FL_LOADSTORE);
  Template 38 "stb" TypeStore 1 (FL_IN_A0 .| FL_IN_S .| FL_LOADSTORE);
  Template 39 "stbu" TypeStore 1 (FL_OUT_A .| FL_IN_A .| FL_IN_S .| FL_LOADSTORE);
  Template 46 "lmw" TypeSystem 11 (FL_IN_A0 .| FL_LOADSTORE);
  Template 47 "stmw" TypeSystem 11 (FL_IN_A0 .| FL_LOADSTORE);
  Template 48 "lfs" TypeLoadFP 1 (FL_OUT_FLOAT_D .| FL_IN_A .| FL_USE_FPU .| FL_LOADSTORE);
  Template 49 "lfsu" TypeLoadFP 1 (FL_OUT_FLOAT_D .| FL_OUT_A .| FL_IN_A .| FL_USE_FPU .| FL_LOADSTORE);
  Template 50 "lfd" TypeLoadFP 1 (FL_INOUT_FLOAT_D .| FL_IN_A .| FL_USE_FPU .| FL_LOADSTORE);
  Template 51 "lfdu" TypeLoadFP 1 (FL_INOUT_FLOAT_D .| FL_OUT_A .| FL_IN_A .| FL_USE_FPU .| FL_LOADSTORE);
  Template 52 "stfs" TypeStoreFP 1 (FL_IN_FLOAT_S .| FL_IN_A0 .| FL_USE_FPU .| FL_LOADSTORE);
  Template 53 "stfsu" TypeStoreFP 1 (FL_IN_FLOAT_S .| FL_OUT_A .| FL_IN_A .| FL_USE_FPU .| FL_LOADSTORE);
  Template 54 "stfd" TypeStoreFP 1 (FL_IN_FLOAT_S .| FL_IN_A0 .| FL_USE_FPU .| FL_LOADSTORE);
  Template 55 "stfdu" TypeStoreFP 1 (FL_IN_FLOAT_S .| FL_OUT_A .| FL_IN_A .| FL_USE_FPU .| FL_LOADSTORE);
  Template 56 "psq_l" TypeLoadPS 1 (FL_OUT_FLOAT_D .| FL_IN_A0 .| FL_USE_FPU .| FL_LOADSTORE .| FL_PROGRAMEXCEPTION);
  Template 57 "psq_lu" TypeLoadPS 1 (FL_OUT_FLOAT_D .| FL_OUT_A .| FL_IN_A .| FL_USE_FPU .| FL_LOADSTORE .| FL_PROGRAMEXCEPTION);
  Template 60 "psq_st" TypeStorePS 1 (FL_IN_FLOAT_S .| FL_IN_A0 .| FL_USE_FPU .| FL_LOADSTORE .| FL_PROGRAMEXCEPTION);
  Template 61 "psq_stu" TypeStorePS 1 (FL_IN_FLOAT_S .| FL_OUT_A .| FL_IN_A .| FL_USE_FPU .| FL_LOADSTORE .| FL_PROGRAMEXCEPTION)
].

Definition s_table4 : list GekkoOPTemplate := [
  Template 0 "ps_cmpu0" TypePS 1 (FL_IN_FLOAT_AB .| FL_SET_CRn .| FL_USE_FPU .| FL_READ_FPRF .| FL_SET_FPRF .| FL_PROGRAMEXCEPTION .| FL_FLOAT_EXCEPTION);
  Template 32 "ps_cmpo0" TypePS 1 (FL_IN_FLOAT_AB .| FL_SET_CRn .| FL_USE_FPU .| FL_READ_FPRF .| FL_SET_FPRF .| FL_PROGRAMEXCEPTION .| FL_FLOAT_EXCEPTION);
  Template 40 "ps_neg" TypePS 1 (FL_OUT_FLOAT_D .| FL_IN_FLOAT_B .| FL_IN_FLOAT_B_BITEXACT .| FL_RC_BIT_F .| FL_USE_FPU .| FL_PROGRAMEXCEPTION);
  Template 136 "ps_nabs" TypePS 1 (FL_OUT_FLOAT_D .| FL_IN_FLOAT_B .| FL_IN_FLOAT_B_BITEXACT .| FL_RC_BIT_F .| FL_USE_FPU .| FL_PROGRAMEXCEPTION);
  Template 264 "ps_abs" TypePS 1 (FL_OUT_FLOAT_D .| FL_IN_FLOAT_B .| FL_IN_FLOAT_B_BITEXACT .| FL_RC_BIT_F .| FL_USE_FPU .| FL_PROGRAMEXCEPTION);
  Template 64 "ps_cmpu1" TypePS 1 (FL_IN_FLOAT_AB .| FL_SET_CRn .| FL_USE_FPU .| FL_READ_FPRF .| FL_SET_FPRF .| FL_PROGRAMEXCEPTION .| FL_FLOAT_EXCEPTION);
  Template 72 "ps_mr" TypePS 1 (FL_OUT_FLOAT_D .| FL_IN_FLOAT_B .| FL_IN_FLOAT_B_BITEXACT .| FL_RC_BIT_F .| FL_USE_FPU .| FL_PROGRAMEXCEPTION);
  Template 96 "ps_cmpo1" TypePS 1 (FL_IN_FLOAT_AB .| FL_SET_CRn .| FL_USE_FPU .| FL_READ_FPRF .| FL_SET_FPRF .| FL_PROGRAMEXCEPTION .| FL_FLOAT_EXCEPTION);
  Template 528 "ps_merge00" TypePS 1 (FL_OUT_FLOAT_D .| FL_IN_FLOAT_AB .| FL_IN_FLOAT_AB_BITEXACT .| FL_RC_BIT_F .| FL_USE_FPU .| FL_PROGRAMEXCEPTION);
  Template 560 "ps_merge01" TypePS 1 (FL_OUT_FLOAT_D .| FL_IN_FLOAT_AB .| FL_IN_FLOAT_AB_BITEXACT .| FL_RC_BIT_F .| FL_USE_FPU .| FL_PROGRAMEXCEPTION);
  Template 592 "ps_merge10" TypePS 1 (FL_OUT_FLOAT_D .| FL_IN_FLOAT_AB .| FL_IN_FLOAT_AB_BITEXACT .| FL_RC_BIT_F .| FL_USE_FPU .| FL_PROGRAMEXCEPTION);
  Template 624 "ps_merge11" TypePS 1 (FL_OUT_FLOAT_D .| FL_IN_FLOAT_AB .| FL_IN_FLOAT_AB_BITEXACT .| FL_RC_BIT_F .| FL_USE_FPU .| FL_PROGRAMEXCEPTION);
  Template 1014 "dcbz_l" TypeSystem 1 (FL_IN_A0B .| FL_LOADSTORE .| FL_PROGRAMEXCEPTION)
].

Definition s_table4_2 : list GekkoOPTemplate := [
  Template 10 "ps_sum0" TypePS 1 (FL_OUT_FLOAT_D .| FL_IN_FLOAT_ABC .| FL_RC_BIT_F .| FL_USE_FPU .| FL_SET_FPRF .| FL_PROGRAMEXCEPTION .| FL_FLOAT_EXCEPTION);
  Template 11 "ps_sum1" TypePS 1 (FL_OUT_FLOAT_D .| FL_IN_FLOAT_ABC .| FL_RC_BIT_F .| FL_USE_FPU .| FL_SET_FPRF .| FL_PROGRAMEXCEPTION .| FL_FLOAT_EXCEPTION);
  Template 12 "ps_muls0" TypePS 1 (FL_OUT_FLOAT_D .| FL_IN_FLOAT_AC .| FL_RC_BIT_F .| FL_USE_FPU .| FL_SET_FPRF .| FL_PROGRAMEXCEPTION .| FL_FLOAT_EXCEPTION);
  Template 13 "ps_muls1" TypePS 1 (FL_OUT_FLOAT_D .| FL_IN_FLOAT_AC .| FL_RC_BIT_F .| FL_USE_FPU .| FL_SET_FPRF .| FL_PROGRAMEXCEPTION .| FL_FLOAT_EXCEPTION);
  Template 14 "ps_madds0" TypePS 1 (FL_OUT_FLOAT_D .| FL_IN_FLOAT_ABC .| FL_RC_BIT_F .| FL_USE_FPU .| FL_SET_FPRF .| FL_PROGRAMEXCEPTION .| FL_FLOAT_EXCEPTION);
  Template 15 "ps_madds1" TypePS 1 (FL_OUT_FLOAT_D .| FL_IN_FLOAT_ABC .| FL_RC_BIT_F .| FL_USE_FPU .| FL_SET_FPRF .| FL_PROGRAMEXCEPTION .| FL_FLOAT_EXCEPTION);
  Template 18 "ps_div" TypePS 17 (FL_OUT_FLOAT_D .| FL_IN_FLOAT_AB .| FL_RC_BIT_F .| FL_USE_FPU .| FL_SET_FPRF .| FL_PROGRAMEXCEPTION .| FL_FLOAT_EXCEPTION .| FL_FLOAT_DIV);
  Template 20 "ps_sub" TypePS 1 (FL_OUT_FLOAT_D .| FL_IN_FLOAT_AB .| FL_RC_BIT_F .| FL_USE_FPU .| FL_SET_FPRF .| FL_PROGRAMEXCEPTION .| FL_FLOAT_EXCEPTION);
  Template 21 "ps_add" TypePS 1 (FL_OUT_FLOAT_D .| FL_IN_FLOAT_AB .| FL_RC_BIT_F .| FL_USE_FPU .| FL_SET_FPRF .| FL_PROGRAMEXCEPTION .| FL_FLOAT_EXCEPTION);
  Template 23 "ps_sel" TypePS 1 (FL_OUT_FLOAT_D .| FL_IN_FLOAT_ABC .| FL_IN_FLOAT_BC_BITEXACT .| FL_RC_BIT_F .| FL_USE_FPU .| FL_PROGRAMEXCEPTION);
  Template 24 "ps_res" TypePS 1 (FL_OUT_FLOAT_D .| FL_IN_FLOAT_B .| FL_RC_BIT_F .| FL_USE_FPU .| FL_SET_FPRF .| FL_PROGRAMEXCEPTION .| FL_FLOAT_EXCEPTION .| FL_FLOAT_DIV);
  Template 25 "ps_mul" TypePS 1 (FL_OUT_FLOAT_D .| FL_IN_FLOAT_AC .| FL_RC_BIT_F .| FL_USE_FPU .| FL_SET_FPRF .| FL_PROGRAMEXCEPTION .| FL_FLOAT_EXCEPTION);
  Template 26 "ps_rsqrte" TypePS 2 (FL_OUT_FLOAT_D .| FL_IN_FLOAT_B .| FL_RC_BIT_F .| FL_USE_FPU .| FL_SET_FPRF .| FL_PROGRAMEXCEPTION .| FL_FLOAT_EXCEPTION .| FL_FLOAT_DIV);
  Template 28 "ps_msub" TypePS 1 (FL_OUT_FLOAT_D .| FL_IN_FLOAT_ABC .| FL_RC_BIT_F .| FL_USE_FPU .| FL_SET_FPRF .| FL_PROGRAMEXCEPTION .| FL_FLOAT_EXCEPTION);
  Template 29 "ps_madd" TypePS 1 (FL_OUT_FLOAT_D .| FL_IN_FLOAT_ABC .| FL_RC_BIT_F .| FL_USE_FPU .| FL_SET_FPRF .| FL_PROGRAMEXCEPTION .| FL_FLOAT_EXCEPTION);
  Template 30 "ps_nmsub" TypePS 1 (FL_OUT_FLOAT_D .| FL_IN_FLOAT_ABC .| FL_RC_BIT_F .| FL_USE_FPU .| FL_SET_FPRF .| FL_PROGRAMEXCEPTION .| FL_FLOAT_EXCEPTION);
  Template 31 "ps_nmadd" TypePS 1 (FL_OUT_FLOAT_D .| FL_IN_FLOAT_ABC .| FL_RC_BIT_F .| FL_USE_FPU .| FL_SET_FPRF .| FL_PROGRAMEXCEPTION .| FL_FLOAT_EXCEPTION)
].

Definition s_table4_3 : list GekkoOPTemplate := [
  Template 6 "psq_lx" TypeLoadPS 1 (FL_OUT_FLOAT_D .| FL_IN_A0B .| FL_USE_FPU .| FL_LOADSTORE);
  Template 7 "psq_stx" TypeStorePS 1 (FL_IN_FLOAT_S .| FL_IN_A0B .| FL_USE_FPU .| FL_LOADSTORE);
  Template 38 "psq_lux" TypeLoadPS 1 (FL_OUT_FLOAT_D .| FL_OUT_A .| FL_IN_AB .| FL_USE_FPU .| FL_LOADSTORE);
  Template 39 "psq_stux" TypeStorePS 1 (FL_IN_FLOAT_S .| FL_OUT_A .| FL_IN_AB .| FL_USE_FPU .| FL_LOADSTORE)
].

Definition s_table19 : list GekkoOPTemplate := [
  Template 528 "bcctrx" TypeBranch 1 (FL_ENDBLOCK .| FL_READ_CR_BI);
  Template 16 "bclrx" TypeBranch 1 (FL_ENDBLOCK .| FL_READ_CR_BI);
  Template 257 "crand" TypeCR 1 0;
  Template 129 "crandc" TypeCR 1 0;
  Template 289 "creqv" TypeCR 1 0;
  Template 225 "crnand" TypeCR 1 0;
  Template 33 "crnor" TypeCR 1 0;
  Template 449 "cror" TypeCR 1 0;
  Template 417 "crorc" TypeCR 1 0;
  Template 193 "crxor" TypeCR 1 0;
  Template 150 "isync" TypeInstructionCache 1 FL_NO_REORDER;
  Template 0 "mcrf" TypeSystem 1 (FL_SET_CRn .| FL_READ_CRn);
  Template 50 "rfi" TypeSystem 2 (FL_ENDBLOCK .| FL_CHECKEXCEPTIONS .| FL_PROGRAMEXCEPTION)
].

Definition s_table31 : list GekkoOPTemplate := [
  Template 266 "addx" TypeInteger 1 (FL_OUT_D .| FL_IN_AB .| FL_RC_BIT);
  Template 778 "addox" TypeInteger 1 (FL_OUT_D .| FL_IN_AB .| FL_RC_BIT .| FL_SET_OE);
  Template 10 "addcx" TypeInteger 1 (FL_OUT_D .| FL_IN_AB .| FL_SET_CA .| FL_RC_BIT);
  Template 522 "addcox" TypeInteger 1 (FL_OUT_D .| FL_IN_AB .| FL_SET_CA .| FL_RC_BIT .| FL_SET_OE);
  Template 138 "addex" TypeInteger 1 (FL_OUT_D .| FL_IN_AB .| FL_READ_CA .| FL_SET_CA .| FL_RC_BIT);
  Template 650 "addeox" TypeInteger 1 (FL_OUT_D .| FL_IN_AB .| FL_READ_CA .| FL_SET_CA .| FL_RC_BIT .| FL_SET_OE);
  Template 234 "addmex" TypeInteger 1 (FL_OUT_D .| FL_IN_A .| FL_READ_CA .| FL_SET_CA .| FL_RC_BIT);
  Template 746 "addmeox" TypeInteger 1 (FL_OUT_D .| FL_IN_A .| FL_READ_CA .| FL_SET_CA .| FL_RC_BIT .| FL_SET_OE);
  Template 202 "addzex" TypeInteger 1 (FL_OUT_D .| FL_IN_A .| FL_READ_CA .| FL_SET_CA .| FL_RC_BIT);
  Template 714 "addzeox" TypeInteger 1 (FL_OUT_D .| FL_IN_A .| FL_READ_CA .| FL_SET_CA .| FL_RC_BIT .| FL_SET_OE);
  Template 491 "divwx" TypeInteger 40 (FL_OUT_D .| FL_IN_AB .| FL_RC_BIT);
  Template 1003 "divwox" TypeInteger 40 (FL_OUT_D .| FL_IN_AB .| FL_RC_BIT .| FL_SET_OE);
  Template 459 "divwux" TypeInteger 40 (FL_OUT_D .| FL_IN_AB .| FL_RC_BIT);
  Template 971 "divwuox" TypeInteger 40 (FL_OUT_D .| FL_IN_AB .| FL_RC_BIT .| FL_SET_OE);
  Template 75 "mulhwx" TypeInteger 5 (FL_OUT_D .| FL_IN_AB .| FL_RC_BIT);
  Template 11 "mulhwux" TypeInteger 5 (FL_OUT_D .| FL_IN_AB .| FL_RC_BIT);
  Template 235 "mullwx" TypeInteger 5 (FL_OUT_D .| FL_IN_AB .| FL_RC_BIT);
  Template 747 "mullwox" TypeInteger 5 (FL_OUT_D .| FL_IN_AB .| FL_RC_BIT .| FL_SET_OE);
  Template 104 "negx" TypeInteger 1 (FL_OUT_D .| FL_IN_A .| FL_RC_BIT);
  Template 616 "negox" TypeInteger 1 (FL_OUT_D .| FL_IN_A .| FL_RC_BIT .| FL_SET_OE);
  Template 40 "subfx" TypeInteger 1 (FL_OUT_D .| FL_IN_AB .| FL_RC_BIT);
  Template 552 "subfox" TypeInteger 1 (FL_OUT_D .| FL_IN_AB .| FL_RC_BIT .| FL_SET_OE);
  Template 8 "subfcx" TypeInteger 1 (FL_OUT_D .| FL_IN_AB .| FL_SET_CA .| FL_RC_BIT);
  Template 520 "subfcox" TypeInteger 1 (FL_OUT_D .| FL_IN_AB .| FL_SET_CA .| FL_RC_BIT .| FL_SET_OE);
  Template 136 "subfex" TypeInteger 1 (FL_OUT_D .| FL_IN_AB .| FL_READ_CA .| FL_SET_CA .| FL_RC_BIT);
  Template 648 "subfeox" TypeInteger 1 (FL_OUT_D .| FL_IN_AB .| FL_READ_CA .| FL_SET_CA .| FL_RC_BIT .| FL_SET_OE);
  Template 232 "subfmex" TypeInteger 1 (FL_OUT_D .| FL_IN_A .| FL_READ_CA .| FL_SET_CA .| FL_RC_BIT);
  Template 744 "subfmeox" TypeInteger 1 (FL_OUT_D .| FL_IN_A .| FL_READ_CA .| FL_SET_CA .| FL_RC_BIT .| FL_SET_OE);
  Template 200 "subfzex" TypeInteger 1 (FL_OUT_D .| FL_IN_A .| FL_READ_CA .| FL_SET_CA .| FL_RC_BIT);
  Template 712 "subfzeox" TypeInteger 1 (FL_OUT_D .| FL_IN_A .| FL_READ_CA .| FL_SET_CA .| FL_RC_BIT .| FL_SET_OE);
  Template 28 "andx" TypeInteger 1 (FL_OUT_A .| FL_IN_SB .| FL_RC_BIT);
  Template 60 "andcx" TypeInteger 1 (FL_OUT_A .| FL_IN_SB .| FL_RC_BIT);
  Template 444 "orx" TypeInteger 1 (FL_OUT_A .| FL_IN_SB .| FL_RC_BIT);
  Template 124 "norx" TypeInteger 1 (FL_OUT_A .| FL_IN_SB .| FL_RC_BIT);
  Template 316 "xorx" TypeInteger 1 (FL_OUT_A .| FL_IN_SB .| FL_RC_BIT);
  Template 412 "orcx" TypeInteger 1 (FL_OUT_A .| FL_IN_SB .| FL_RC_BIT);
  Template 476 "nandx" TypeInteger 1 (FL_OUT_A .| FL_IN_SB .| FL_RC_BIT);
  Template 284 "eqvx" TypeInteger 1 (FL_OUT_A .| FL_IN_SB .| FL_RC_BIT);
  Template 0 "cmp" TypeInteger 1 (FL_IN_AB .| FL_SET_CRn);
  Template 32 "cmpl" TypeInteger 1 (FL_IN_AB .| FL_SET_CRn);
  Template 26 "cntlzwx" TypeInteger 1 (FL_OUT_A .| FL_IN_S .| FL_RC_BIT);
  Template 922 "extshx" TypeInteger 1 (FL_OUT_A .| FL_IN_S .| FL_RC_BIT);
  Template 954 "extsbx" TypeInteger 1 (FL_OUT_A .| FL_IN_S .| FL_RC_BIT);
  Template 536 "srwx" TypeInteger 1 (FL_OUT_A .| FL_IN_SB .| FL_RC_BIT);
  Template 792 "srawx" TypeInteger 1 (FL_OUT_A .| FL_IN_SB .| FL_SET_CA .| FL_RC_BIT);
  Template 824 "srawix" TypeInteger 1 (FL_OUT_A .| FL_IN_S .| FL_SET_CA .| FL_RC_BIT);
  Template 24 "slwx" TypeInteger 1 (FL_OUT_A .| FL_IN_SB .| FL_RC_BIT);
  Template 54 "dcbst" TypeDataCache 5 (FL_IN_A0B .| FL_LOADSTORE);
  Template 86 "dcbf" TypeDataCache 5 (FL_IN_A0B .| FL_LOADSTORE);
  Template 246 "dcbtst" TypeDataCache 2 0;
  Template 278 "dcbt" TypeDataCache 2 0;
  Template 470 "dcbi" TypeDataCache 5 (FL_IN_A0B .| FL_LOADSTORE .| FL_PROGRAMEXCEPTION);
  Template 758 "dcba" TypeDataCache 5 0;
  Template 1014 "dcbz" TypeDataCache 5 (FL_IN_A0B .| FL_LOADSTORE);
  Template 23 "lwzx" TypeLoad 1 (FL_OUT_D .| FL_IN_A0B .| FL_LOADSTORE);
  Template 55 "lwzux" TypeLoad 1 (FL_OUT_D .| FL_OUT_A .| FL_IN_AB .| FL_LOADSTORE);
  Template 279 "lhzx" TypeLoad 1 (FL_OUT_D .| FL_IN_A0B .| FL_LOADSTORE);
  Template 311 "lhzux" TypeLoad 1 (FL_OUT_D .| FL_OUT_A .| FL_IN_AB .| FL_LOADSTORE);
  Template 343 "lhax" TypeLoad 1 (FL_OUT_D .| FL_IN_A0B .| FL_LOADSTORE);
  Template 375 "lhaux" TypeLoad 1 (FL_OUT_D .| FL_OUT_A .| FL_IN_AB .| FL_LOADSTORE);
  Template 87 "lbzx" TypeLoad 1 (FL_OUT_D .| FL_IN_A0B .| FL_LOADSTORE);
  Template 119 "lbzux" TypeLoad 1 (FL_OUT_D .| FL_OUT_A .| FL_IN_AB .| FL_LOADSTORE);
  Template 534 "lwbrx" TypeLoad 1 (FL_OUT_D .| FL_IN_A0B .| FL_LOADSTORE);
  Template 790 "lhbrx" TypeLoad 1 (FL_OUT_D .| FL_IN_A0B .| FL_LOADSTORE);
  Template 150 "stwcxd" TypeStore 1 (FL_IN_S .| FL_IN_A0B .| FL_SET_CR0 .| FL_LOADSTORE);
  Template 20 "lwarx" TypeLoad 1 (FL_OUT_D .| FL_IN_A0B .| FL_SET_CR0 .| FL_LOADSTORE);
  Template 533 "lswx" TypeLoad 1 (FL_IN_A0B .| FL_OUT_D .| FL_LOADSTORE);
  Template 597 "lswi" TypeLoad 1 (FL_IN_A0 .| FL_OUT_D .| FL_LOADSTORE);
  Template 151 "stwx" TypeStore 1 (FL_IN_S .| FL_IN_A0B .| FL_LOADSTORE);
  Template 183 "stwux" TypeStore 1 (FL_IN_S .| FL_OUT_A .| FL_IN_AB .| FL_LOADSTORE);
  Template 407 "sthx" TypeStore 1 (FL_IN_S .| FL_IN_A0B .| FL_LOADSTORE);
  Template 439 "sthux" TypeStore 1 (FL_IN_S .| FL_OUT_A .| FL_IN_AB .| FL_LOADSTORE);
  Template 215 "stbx" TypeStore 1 (FL_IN_S .| FL_IN_A0B .| FL_LOADSTORE);
  Template 247 "stbux" TypeStore 1 (FL_IN_S .| FL_OUT_A .| FL_IN_AB .| FL_LOADSTORE);
  Template 662 "stwbrx" TypeStore 1 (FL_IN_S .| FL_IN_A0B .| FL_LOADSTORE);
  Template 918 "sthbrx" TypeStore 1 (FL_IN_S .| FL_IN_A0B .| FL_LOADSTORE);
  Template 661 "stswx" TypeStore 1 (FL_IN_A0B .| FL_LOADSTORE);
  Template 725 "stswi" TypeStore 1 (FL_IN_A0 .| FL_LOADSTORE);
  Template 535 "lfsx" TypeLoadFP 1 (FL_OUT_FLOAT_D .| FL_IN_A0B .| FL_USE_FPU .| FL_LOADSTORE);
  Template 567 "lfsux" TypeLoadFP 1 (FL_OUT_FLOAT_D .| FL_IN_AB .| FL_OUT_A .| FL_USE_FPU .| FL_LOADSTORE);
  Template 599 "lfdx" TypeLoadFP 1 (FL_INOUT_FLOAT_D .| FL_IN_A0B .| FL_USE_FPU .| FL_LOADSTORE);
  Template 631 "lfdux" TypeLoadFP 1 (FL_INOUT_FLOAT_D .| FL_IN_AB .| FL_OUT_A .| FL_USE_FPU .| FL_LOADSTORE);
  Template 663 "stfsx" TypeStoreFP 1 (FL_IN_FLOAT_S .| FL_IN_A0B .| FL_USE_FPU .| FL_LOADSTORE);
  Template 695 "stfsux" TypeStoreFP 1 (FL_IN_FLOAT_S .| FL_IN_AB .| FL_OUT_A .| FL_USE_FPU .| FL_LOADSTORE);
  Template 727 "stfdx" TypeStoreFP 1 (FL_IN_FLOAT_S .| FL_IN_A0B .| FL_USE_FPU .| FL_LOADSTORE);
  Template 759 "stfdux" TypeStoreFP 1 (FL_IN_FLOAT_S .| FL_IN_AB .| FL_OUT_A .| FL_USE_FPU .| FL_LOADSTORE);
  Template 983 "stfiwx" TypeStoreFP 1 (FL_IN_FLOAT_S .| FL_IN_A0B .| FL_USE_FPU .| FL_LOADSTORE);
  Template 19 "mfcr" TypeSystem 1 (FL_OUT_D .| FL_READ_ALL_CR);
  Template 83 "mfmsr" TypeSystem 1 (FL_OUT_D .| FL_PROGRAMEXCEPTION);
  Template 144 "mtcrf" TypeSystem 1 (FL_IN_S .| FL_SET_ALL_CR .| FL_READ_ALL_CR);
  Template 146 "mtmsr" TypeSystem 1 (FL_IN_S .| FL_ENDBLOCK .| FL_PROGRAMEXCEPTION .| FL_FLOAT_EXCEPTION);
  Template 210 "mtsr" TypeSystem 1 (FL_IN_S .| FL_PROGRAMEXCEPTION);
  Template 242 "mtsrin" TypeSystem 1 (FL_IN_SB .| FL_PROGRAMEXCEPTION);
  Template 339 "mfspr" TypeSPR 1 (FL_OUT_D .| FL_PROGRAMEXCEPTION);
  Template 467 "mtspr" TypeSPR 2 (FL_IN_S .| FL_ENDBLOCK .| FL_PROGRAMEXCEPTION);
  Template 371 "mftb" TypeSystem 1 (FL_OUT_D .| FL_TIMER .| FL_PROGRAMEXCEPTION);
  Template 512 "mcrxr" TypeSystem 1 (FL_SET_CRn .| FL_READ_CA .| FL_SET_CA);
  Template 595 "mfsr" TypeSystem 3 (FL_OUT_D .| FL_PROGRAMEXCEPTION);
  Template 659 "mfsrin" TypeSystem 3 (FL_OUT_D .| FL_IN_B .| FL_PROGRAMEXCEPTION);
  Template 4 "tw" TypeSystem 2 (FL_IN_AB .| FL_ENDBLOCK);
  Template 598 "sync" TypeSystem 3 0;
  Template 982 "icbi" TypeSystem 4 (FL_IN_A0B .| FL_ENDBLOCK .| FL_LOADSTORE);
  Template 310 "eciwx" TypeSystem 1 (FL_IN_A0B .| FL_OUT_D .| FL_LOADSTORE);
  Template 438 "ecowx" TypeSystem 1 (FL_IN_A0B .| FL_IN_S .| FL_LOADSTORE);
  Template 854 "eieio" TypeSystem 1 0;
  Template 306 "tlbie" TypeSystem 1 (FL_IN_B .| FL_PROGRAMEXCEPTION);
  Template 566 "tlbsync" TypeSystem 1 FL_PROGRAMEXCEPTION
].

Definition s_table59 : list GekkoOPTemplate := [
  Template 18 "fdivsx" TypeSingleFP 17 (FL_OUT_FLOAT_D .| FL_IN_FLOAT_AB .| FL_RC_BIT_F .| FL_USE_FPU .| FL_SET_FPRF .| FL_FLOAT_EXCEPTION .| FL_FLOAT_DIV);
  Template 20 "fsubsx" TypeSingleFP 1 (FL_OUT_FLOAT_D .| FL_IN_FLOAT_AB .| FL_RC_BIT_F .| FL_USE_FPU .| FL_SET_FPRF .| FL_FLOAT_EXCEPTION);
  Template 21 "faddsx" TypeSingleFP 1 (FL_OUT_FLOAT_D .| FL_IN_FLOAT_AB .| FL_RC_BIT_F .| FL_USE_FPU .| FL_SET_FPRF .| FL_FLOAT_EXCEPTION);
  Template 24 "fresx" TypeSingleFP 1 (FL_OUT_FLOAT_D .| FL_IN_FLOAT_B .| FL_RC_BIT_F .| FL_USE_FPU .| FL_SET_FPRF .| FL_FLOAT_EXCEPTION .| FL_FLOAT_DIV);
  Template 25 "fmulsx" TypeSingleFP 1 (FL_OUT_FLOAT_D .| FL_IN_FLOAT_AC .| FL_RC_BIT_F .| FL_USE_FPU .| FL_SET_FPRF .| FL_FLOAT_EXCEPTION);
  Template 28 "fmsubsx" TypeSingleFP 1 (FL_OUT_FLOAT_D .| FL_IN_FLOAT_ABC .| FL_RC_BIT_F .| FL_USE_FPU .| FL_SET_FPRF .| FL_FLOAT_EXCEPTION);
  Template 29 "fmaddsx" TypeSingleFP 1 (FL_OUT_FLOAT_D .| FL_IN_FLOAT_ABC .| FL_RC_BIT_F .| FL_USE_FPU .| FL_SET_FPRF .| FL_FLOAT_EXCEPTION);
  Template 30 "fnmsubsx" TypeSingleFP 1 (FL_OUT_FLOAT_D .| FL_IN_FLOAT_ABC .| FL_RC_BIT_F .| FL_USE_FPU .| FL_SET_FPRF .| FL_FLOAT_EXCEPTION);
  Template 31 "fnmaddsx" TypeSingleFP 1 (FL_OUT_FLOAT_D .| FL_IN_FLOAT_ABC .| FL_RC_BIT_F .| FL_USE_FPU .| FL_SET_FPRF .| FL_FLOAT_EXCEPTION)
].

Definition s_table63 : list GekkoOPTemplate := [
  Template 264 "fabsx" TypeDoubleFP 1 (FL_INOUT_FLOAT_D .| FL_IN_FLOAT_B .| FL_IN_FLOAT_B_BITEXACT .| FL_RC_BIT_F .| FL_USE_FPU);
  Template 32 "fcmpo" TypeDoubleFP 1 (FL_IN_FLOAT_AB .| FL_SET_CRn .| FL_USE_FPU .| FL_READ_FPRF .| FL_SET_FPRF .| FL_FLOAT_EXCEPTION);
  Template 0 "fcmpu" TypeDoubleFP 1 (FL_IN_FLOAT_AB .| FL_SET_CRn .| FL_USE_FPU .| FL_READ_FPRF .| FL_SET_FPRF .| FL_FLOAT_EXCEPTION);
  Template 14 "fctiwx" TypeDoubleFP 1 (FL_INOUT_FLOAT_D .| FL_IN_FLOAT_B .| FL_RC_BIT_F .| FL_USE_FPU .| FL_FLOAT_EXCEPTION);
  Template 15 "fctiwzx" TypeDoubleFP 1 (FL_INOUT_FLOAT_D .| FL_IN_FLOAT_B .| FL_RC_BIT_F .| FL_USE_FPU .| FL_FLOAT_EXCEPTION);
  Template 72 "fmrx" TypeDoubleFP 1 (FL_INOUT_FLOAT_D .| FL_IN_FLOAT_B .| FL_IN_FLOAT_B_BITEXACT .| FL_RC_BIT_F .| FL_USE_FPU);
  Template 136 "fnabsx" TypeDoubleFP 1 (FL_INOUT_FLOAT_D .| FL_IN_FLOAT_B .| FL_RC_BIT_F .| FL_IN_FLOAT_B_BITEXACT .| FL_USE_FPU);
  Template 40 "fnegx" TypeDoubleFP 1 (FL_INOUT_FLOAT_D .| FL_IN_FLOAT_B .| FL_RC_BIT_F .| FL_IN_FLOAT_B_BITEXACT .| FL_USE_FPU);
  Template 12 "frspx" TypeDoubleFP 1 (FL_OUT_FLOAT_D .| FL_IN_FLOAT_B .| FL_RC_BIT_F .| FL_USE_FPU .| FL_SET_FPRF .| FL_FLOAT_EXCEPTION);
  Template 64 "mcrfs" TypeSystemFP 1 (FL_SET_CRn .| FL_USE_FPU .| FL_READ_FPRF);
  Template 583 "mffsx" TypeSystemFP 1 (FL_RC_BIT_F .| FL_INOUT_FLOAT_D .| FL_USE_FPU .| FL_READ_FPRF);
  Template 70 "mtfsb0x" TypeSystemFP 3 (FL_RC_BIT_F .| FL_USE_FPU .| FL_READ_FPRF .| FL_SET_FPRF);
  Template 38 "mtfsb1x" TypeSystemFP 3 (FL_RC_BIT_F .| FL_USE_FPU .| FL_READ_FPRF .| FL_SET_FPRF .| FL_FLOAT_EXCEPTION);
  Template 134 "mtfsfix" TypeSystemFP 3 (FL_RC_BIT_F .| FL_USE_FPU .| FL_READ_FPRF .| FL_SET_FPRF .| FL_FLOAT_EXCEPTION);
  Template 711 "mtfsfx" TypeSystemFP 3 (FL_RC_BIT_F .| FL_IN_FLOAT_B .| FL_USE_FPU .| FL_READ_FPRF .| FL_SET_FPRF .| FL_FLOAT_EXCEPTION)
].

Definition s_table63_2 : list GekkoOPTemplate := [
  Template 18 "fdivx" TypeDoubleFP 31 (FL_INOUT_FLOAT_D .| FL_IN_FLOAT_AB .| FL_RC_BIT_F .| FL_USE_FPU .| FL_SET_FPRF .| FL_FLOAT_EXCEPTION .| FL_FLOAT_DIV);
  Template 20 "fsubx" TypeDoubleFP 1 (FL_INOUT_FLOAT_D .| FL_IN_FLOAT_AB .| FL_RC_BIT_F .| FL_USE_FPU .| FL_SET_FPRF .| FL_FLOAT_EXCEPTION);
  Template 21 "faddx" TypeDoubleFP 1 (FL_INOUT_FLOAT_D .| FL_IN_FLOAT_AB .| FL_RC_BIT_F .| FL_USE_FPU .| FL_SET_FPRF .| FL_FLOAT_EXCEPTION);
  Template 23 "fselx" TypeDoubleFP 1 (FL_INOUT_FLOAT_D .| FL_IN_FLOAT_ABC .| FL_IN_FLOAT_BC_BITEXACT .| FL_RC_BIT_F .| FL_USE_FPU);
  Template 25 "fmulx" TypeDoubleFP 1 (FL_INOUT_FLOAT_D .| FL_IN_FLOAT_AC .| FL_RC_BIT_F .| FL_USE_FPU .| FL_SET_FPRF .| FL_FLOAT_EXCEPTION);
  Template 26 "frsqrtex" TypeDoubleFP 1 (FL_INOUT_FLOAT_D .| FL_IN_FLOAT_B .| FL_RC_BIT_F .| FL_USE_FPU .| FL_SET_FPRF .| FL_FLOAT_EXCEPTION .| FL_FLOAT_DIV);
  Template 28 "fmsubx" TypeDoubleFP 1 (FL_INOUT_FLOAT_D .| FL_IN_FLOAT_ABC .| FL_RC_BIT_F .| FL_USE_FPU .| FL_SET_FPRF .| FL_FLOAT_EXCEPTION);
  Template 29 "fmaddx" TypeDoubleFP 1 (FL_INOUT_FLOAT_D .| FL_IN_FLOAT_ABC .| FL_RC_BIT_F .| FL_USE_FPU .| FL_SET_FPRF .| FL_FLOAT_EXCEPTION);
  Template 30 "fnmsubx" TypeDoubleFP 1 (FL_INOUT_FLOAT_D .| FL_IN_FLOAT_ABC .| FL_RC_BIT_F .| FL_USE_FPU .| FL_SET_FPRF .| FL_FLOAT_EXCEPTION);
  Template 31 "fnmaddx" TypeDoubleFP 1 (FL_INOUT_FLOAT_D .| FL_IN_FLOAT_ABC .| FL_RC_BIT_F .| FL_USE_FPU .| FL_SET_FPRF .| FL_FLOAT_EXCEPTION)
].

(** * The tables

    A table is an array that is filled with the unknown instruction first; every write is
    asserted to hit an entry that is still unknown. *)
Abbreviation table := (gmap Z).

Section Table.
Context {A : Type} (code : A -> Z).

Definition add_entry (op : Z) (e : A) (t : table A) : table A := <[op := e]> t.
Definition add_templates (l : list A) (t : table A) : table A := foldl (fun t e => add_entry (code e) e t) t l.

(** [for (u32 i = 0; i < n; i++)] with [fill = i << shift]. *)
Definition add_filled (n : nat) (shift : Z) (l : list A) (t : table A) : table A :=
  foldl (fun t e => foldl (fun t i => add_entry ((Z.of_nat i .<< shift) + code e) e t) t (seq 0 n)) t l.
End Table.

Definition primary_table : table GekkoOPTemplate := add_templates opcode s_primary_table ∅.
Definition table4 : table GekkoOPTemplate :=
  add_templates opcode s_table4 (add_filled opcode 16 6 s_table4_3 (add_filled opcode 32 5 s_table4_2 ∅)).
Definition table19 : table GekkoOPTemplate := add_templates opcode s_table19 ∅.
Definition table31 : table GekkoOPTemplate := add_templates opcode s_table31 ∅.
Definition table59 : table GekkoOPTemplate := add_templates opcode s_table59 ∅.
Definition table63 : table GekkoOPTemplate :=
  add_filled opcode 32 5 s_table63_2 (add_templates opcode s_table63 ∅).

Definition info_at (t : table GekkoOPTemplate) (op : Z) : GekkoOPTemplate := default s_unknown_op_info (t !! op).

Definition GetOpInfo (inst : Z) : GekkoOPTemplate :=
  let info := info_at primary_table (OPCD inst) in
  match op_type info with
  | TypeSubtable =>
      match OPCD inst with
      | 4 => info_at table4 (SUBOP10 inst)
      | 19 => info_at table19 (SUBOP10 inst)
      | 31 => info_at table31 (SUBOP10 inst)
      | 59 => info_at table59 (SUBOP5 inst)
      | 63 => info_at table63 (SUBOP10 inst)
      | _ => s_unknown_op_info
      end
  | TypeInvalid => s_unknown_op_info
  | _ => info
  end.

Definition GetInstructionName (inst : Z) : string := opname (GetOpInfo inst).

Definition IsValidInstruction (inst : Z) : bool :=
  let info := GetOpInfo inst in
  negb (bool_decide (op_type info = TypeInvalid)) && negb (bool_decide (op_type info = TypeUnknown)).
