(* ===== verification/InterpreterTables.v ===== *)
(** The interpreter's dispatch tables
    ([Core/PowerPC/Interpreter/Interpreter_Tables.cpp]): from an instruction word to the
    function that executes it. *)
From stdpp Require Import base tactics option list gmap.
From Stdlib Require Import ZArith Lia Bool String.
From S2P Require Import Prelude PowerPC Gekko PPCTables.

#[local] Open Scope Z_scope.

(** [Interpreter::Instruction]: the functions that are in the tables. *)
Inductive Instruction : Type :=
  | Op_unknown_instruction
  | Op_RunTable4 | Op_RunTable19 | Op_RunTable31 | Op_RunTable59 | Op_RunTable63 | Op_bcx
  | Op_bx | Op_twi | Op_sc | Op_mulli | Op_subfic | Op_cmpli
  | Op_cmpi | Op_addic | Op_addic_rc | Op_addi | Op_addis | Op_rlwimix
  | Op_rlwinmx | Op_rlwnmx | Op_ori | Op_oris | Op_xori | Op_xoris
  | Op_andi_rc | Op_andis_rc | Op_lwz | Op_lwzu | Op_lbz | Op_lbzu
  | Op_lhz | Op_lhzu | Op_lha | Op_lhau | Op_sth | Op_sthu
  | Op_stw | Op_stwu | Op_stb | Op_stbu | Op_lmw | Op_stmw
  | Op_lfs | Op_lfsu | Op_lfd | Op_lfdu | Op_stfs | Op_stfsu
  | Op_stfd | Op_stfdu | Op_psq_l | Op_psq_lu | Op_psq_st | Op_psq_stu
  | Op_ps_cmpu0 | Op_ps_cmpo0 | Op_ps_neg | Op_ps_nabs | Op_ps_abs | Op_ps_cmpu1
  | Op_ps_mr | Op_ps_cmpo1 | Op_ps_merge00 | Op_ps_merge01 | Op_ps_merge10 | Op_ps_merge11
  | Op_dcbz_l | Op_ps_sum0 | Op_ps_sum1 | Op_ps_muls0 | Op_ps_muls1 | Op_ps_madds0
  | Op_ps_madds1 | Op_ps_div | Op_ps_sub | Op_ps_add | Op_ps_sel | Op_ps_res
  | Op_ps_mul | Op_ps_rsqrte | Op_ps_msub | Op_ps_madd | Op_ps_nmsub | Op_ps_nmadd
  | Op_psq_lx | Op_psq_stx | Op_psq_lux | Op_psq_stux | Op_bcctrx | Op_bclrx
  | Op_crand | Op_crandc | Op_creqv | Op_crnand | Op_crnor | Op_cror
  | Op_crorc | Op_crxor | Op_isync | Op_mcrf | Op_rfi | Op_addx
  | Op_addcx | Op_addex | Op_addmex | Op_addzex | Op_divwx | Op_divwux
  | Op_mulhwx | Op_mulhwux | Op_mullwx | Op_negx | Op_subfx | Op_subfcx
  | Op_subfex | Op_subfmex | Op_subfzex | Op_andx | Op_andcx | Op_orx
  | Op_norx | Op_xorx | Op_orcx | Op_nandx | Op_eqvx | Op_cmp
  | Op_cmpl | Op_cntlzwx | Op_extshx | Op_extsbx | Op_srwx | Op_srawx
  | Op_srawix | Op_slwx | Op_dcbst | Op_dcbf | Op_dcbtst | Op_dcbt
  | Op_dcbi | Op_dcba | Op_dcbz | Op_lwzx | Op_lwzux | Op_lhzx
  | Op_lhzux | Op_lhax | Op_lhaux | Op_lbzx | Op_lbzux | Op_lwbrx
  | Op_lhbrx | Op_stwcxd | Op_lwarx | Op_lswx | Op_lswi | Op_stwx
  | Op_stwux | Op_sthx | Op_sthux | Op_stbx | Op_stbux | Op_stwbrx
  | Op_sthbrx | Op_stswx | Op_stswi | Op_lfsx | Op_lfsux | Op_lfdx
  | Op_lfdux | Op_stfsx | Op_stfsux | Op_stfdx | Op_stfdux | Op_stfiwx
  | Op_mfcr | Op_mfmsr | Op_mtcrf | Op_mtmsr | Op_mtsr | Op_mtsrin
  | Op_mfspr | Op_mtspr | Op_mftb | Op_mcrxr | Op_mfsr | Op_mfsrin
  | Op_tw | Op_sync | Op_icbi | Op_eciwx | Op_ecowx | Op_eieio
  | Op_tlbie | Op_tlbsync | Op_fdivsx | Op_fsubsx | Op_faddsx | Op_fresx
  | Op_fmulsx | Op_fmsubsx | Op_fmaddsx | Op_fnmsubsx | Op_fnmaddsx | Op_fabsx
  | Op_fcmpo | Op_fcmpu | Op_fctiwx | Op_fctiwzx | Op_fmrx | Op_fnabsx
  | Op_fnegx | Op_frspx | Op_mcrfs | Op_mffsx | Op_mtfsb0x | Op_mtfsb1x
  | Op_mtfsfix | Op_mtfsfx | Op_fdivx | Op_fsubx | Op_faddx | Op_fselx
  | Op_fmulx | Op_frsqrtex | Op_fmsubx | Op_fmaddx | Op_fnmsubx | Op_fnmaddx.

(** The function's name. *)
Definition fn_name (fn : Instruction) : string :=
  match fn with
  | Op_unknown_instruction => "unknown_instruction"
  | Op_RunTable4 => "RunTable4" | Op_RunTable19 => "RunTable19" | Op_RunTable31 => "RunTable31"
  | Op_RunTable59 => "RunTable59" | Op_RunTable63 => "RunTable63" | Op_bcx => "bcx"
  | Op_bx => "bx" | Op_twi => "twi" | Op_sc => "sc"
  | Op_mulli => "mulli" | Op_subfic => "subfic" | Op_cmpli => "cmpli"
  | Op_cmpi => "cmpi" | Op_addic => "addic" | Op_addic_rc => "addic_rc"
  | Op_addi => "addi" | Op_addis => "addis" | Op_rlwimix => "rlwimix"
  | Op_rlwinmx => "rlwinmx" | Op_rlwnmx => "rlwnmx" | Op_ori => "ori"
  | Op_oris => "oris" | Op_xori => "xori" | Op_xoris => "xoris"
  | Op_andi_rc => "andi_rc" | Op_andis_rc => "andis_rc" | Op_lwz => "lwz"
  | Op_lwzu => "lwzu" | Op_lbz => "lbz" | Op_lbzu => "lbzu"
  | Op_lhz => "lhz" | Op_lhzu => "lhzu" | Op_lha => "lha"
  | Op_lhau => "lhau" | Op_sth => "sth" | Op_sthu => "sthu"
  | Op_stw => "stw" | Op_stwu => "stwu" | Op_stb => "stb"
  | Op_stbu => "stbu" | Op_lmw => "lmw" | Op_stmw => "stmw"
  | Op_lfs => "lfs" | Op_lfsu => "lfsu" | Op_lfd => "lfd"
  | Op_lfdu => "lfdu" | Op_stfs => "stfs" | Op_stfsu => "stfsu"
  | Op_stfd => "stfd" | Op_stfdu => "stfdu" | Op_psq_l => "psq_l"
  | Op_psq_lu => "psq_lu" | Op_psq_st => "psq_st" | Op_psq_stu => "psq_stu"
  | Op_ps_cmpu0 => "ps_cmpu0" | Op_ps_cmpo0 => "ps_cmpo0" | Op_ps_neg => "ps_neg"
  | Op_ps_nabs => "ps_nabs" | Op_ps_abs => "ps_abs" | Op_ps_cmpu1 => "ps_cmpu1"
  | Op_ps_mr => "ps_mr" | Op_ps_cmpo1 => "ps_cmpo1" | Op_ps_merge00 => "ps_merge00"
  | Op_ps_merge01 => "ps_merge01" | Op_ps_merge10 => "ps_merge10" | Op_ps_merge11 => "ps_merge11"
  | Op_dcbz_l => "dcbz_l" | Op_ps_sum0 => "ps_sum0" | Op_ps_sum1 => "ps_sum1"
  | Op_ps_muls0 => "ps_muls0" | Op_ps_muls1 => "ps_muls1" | Op_ps_madds0 => "ps_madds0"
  | Op_ps_madds1 => "ps_madds1" | Op_ps_div => "ps_div" | Op_ps_sub => "ps_sub"
  | Op_ps_add => "ps_add" | Op_ps_sel => "ps_sel" | Op_ps_res => "ps_res"
  | Op_ps_mul => "ps_mul" | Op_ps_rsqrte => "ps_rsqrte" | Op_ps_msub => "ps_msub"
  | Op_ps_madd => "ps_madd" | Op_ps_nmsub => "ps_nmsub" | Op_ps_nmadd => "ps_nmadd"
  | Op_psq_lx => "psq_lx" | Op_psq_stx => "psq_stx" | Op_psq_lux => "psq_lux"
  | Op_psq_stux => "psq_stux" | Op_bcctrx => "bcctrx" | Op_bclrx => "bclrx"
  | Op_crand => "crand" | Op_crandc => "crandc" | Op_creqv => "creqv"
  | Op_crnand => "crnand" | Op_crnor => "crnor" | Op_cror => "cror"
  | Op_crorc => "crorc" | Op_crxor => "crxor" | Op_isync => "isync"
  | Op_mcrf => "mcrf" | Op_rfi => "rfi" | Op_addx => "addx"
  | Op_addcx => "addcx" | Op_addex => "addex" | Op_addmex => "addmex"
  | Op_addzex => "addzex" | Op_divwx => "divwx" | Op_divwux => "divwux"
  | Op_mulhwx => "mulhwx" | Op_mulhwux => "mulhwux" | Op_mullwx => "mullwx"
  | Op_negx => "negx" | Op_subfx => "subfx" | Op_subfcx => "subfcx"
  | Op_subfex => "subfex" | Op_subfmex => "subfmex" | Op_subfzex => "subfzex"
  | Op_andx => "andx" | Op_andcx => "andcx" | Op_orx => "orx"
  | Op_norx => "norx" | Op_xorx => "xorx" | Op_orcx => "orcx"
  | Op_nandx => "nandx" | Op_eqvx => "eqvx" | Op_cmp => "cmp"
  | Op_cmpl => "cmpl" | Op_cntlzwx => "cntlzwx" | Op_extshx => "extshx"
  | Op_extsbx => "extsbx" | Op_srwx => "srwx" | Op_srawx => "srawx"
  | Op_srawix => "srawix" | Op_slwx => "slwx" | Op_dcbst => "dcbst"
  | Op_dcbf => "dcbf" | Op_dcbtst => "dcbtst" | Op_dcbt => "dcbt"
  | Op_dcbi => "dcbi" | Op_dcba => "dcba" | Op_dcbz => "dcbz"
  | Op_lwzx => "lwzx" | Op_lwzux => "lwzux" | Op_lhzx => "lhzx"
  | Op_lhzux => "lhzux" | Op_lhax => "lhax" | Op_lhaux => "lhaux"
  | Op_lbzx => "lbzx" | Op_lbzux => "lbzux" | Op_lwbrx => "lwbrx"
  | Op_lhbrx => "lhbrx" | Op_stwcxd => "stwcxd" | Op_lwarx => "lwarx"
  | Op_lswx => "lswx" | Op_lswi => "lswi" | Op_stwx => "stwx"
  | Op_stwux => "stwux" | Op_sthx => "sthx" | Op_sthux => "sthux"
  | Op_stbx => "stbx" | Op_stbux => "stbux" | Op_stwbrx => "stwbrx"
  | Op_sthbrx => "sthbrx" | Op_stswx => "stswx" | Op_stswi => "stswi"
  | Op_lfsx => "lfsx" | Op_lfsux => "lfsux" | Op_lfdx => "lfdx"
  | Op_lfdux => "lfdux" | Op_stfsx => "stfsx" | Op_stfsux => "stfsux"
  | Op_stfdx => "stfdx" | Op_stfdux => "stfdux" | Op_stfiwx => "stfiwx"
  | Op_mfcr => "mfcr" | Op_mfmsr => "mfmsr" | Op_mtcrf => "mtcrf"
  | Op_mtmsr => "mtmsr" | Op_mtsr => "mtsr" | Op_mtsrin => "mtsrin"
  | Op_mfspr => "mfspr" | Op_mtspr => "mtspr" | Op_mftb => "mftb"
  | Op_mcrxr => "mcrxr" | Op_mfsr => "mfsr" | Op_mfsrin => "mfsrin"
  | Op_tw => "tw" | Op_sync => "sync" | Op_icbi => "icbi"
  | Op_eciwx => "eciwx" | Op_ecowx => "ecowx" | Op_eieio => "eieio"
  | Op_tlbie => "tlbie" | Op_tlbsync => "tlbsync" | Op_fdivsx => "fdivsx"
  | Op_fsubsx => "fsubsx" | Op_faddsx => "faddsx" | Op_fresx => "fresx"
  | Op_fmulsx => "fmulsx" | Op_fmsubsx => "fmsubsx" | Op_fmaddsx => "fmaddsx"
  | Op_fnmsubsx => "fnmsubsx" | Op_fnmaddsx => "fnmaddsx" | Op_fabsx => "fabsx"
  | Op_fcmpo => "fcmpo" | Op_fcmpu => "fcmpu" | Op_fctiwx => "fctiwx"
  | Op_fctiwzx => "fctiwzx" | Op_fmrx => "fmrx" | Op_fnabsx => "fnabsx"
  | Op_fnegx => "fnegx" | Op_frspx => "frspx" | Op_mcrfs => "mcrfs"
  | Op_mffsx => "mffsx" | Op_mtfsb0x => "mtfsb0x" | Op_mtfsb1x => "mtfsb1x"
  | Op_mtfsfix => "mtfsfix" | Op_mtfsfx => "mtfsfx" | Op_fdivx => "fdivx"
  | Op_fsubx => "fsubx" | Op_faddx => "faddx" | Op_fselx => "fselx"
  | Op_fmulx => "fmulx" | Op_frsqrtex => "frsqrtex" | Op_fmsubx => "fmsubx"
  | Op_fmaddx => "fmaddx" | Op_fnmsubx => "fnmsubx" | Op_fnmaddx => "fnmaddx"
  end%string.

Definition InterpreterOpTemplate : Type := Z * Instruction.

Definition op_primary_table : list InterpreterOpTemplate := [
  (4, Op_RunTable4); (19, Op_RunTable19); (31, Op_RunTable31); (59, Op_RunTable59); (63, Op_RunTable63); (16, Op_bcx);
  (18, Op_bx); (3, Op_twi); (17, Op_sc); (7, Op_mulli); (8, Op_subfic); (10, Op_cmpli); (11, Op_cmpi); (12, Op_addic);
  (13, Op_addic_rc); (14, Op_addi); (15, Op_addis); (20, Op_rlwimix); (21, Op_rlwinmx); (23, Op_rlwnmx); (24, Op_ori);
  (25, Op_oris); (26, Op_xori); (27, Op_xoris); (28, Op_andi_rc); (29, Op_andis_rc); (32, Op_lwz); (33, Op_lwzu);
  (34, Op_lbz); (35, Op_lbzu); (40, Op_lhz); (41, Op_lhzu); (42, Op_lha); (43, Op_lhau); (44, Op_sth); (45, Op_sthu);
  (36, Op_stw); (37, Op_stwu); (38, Op_stb); (39, Op_stbu); (46, Op_lmw); (47, Op_stmw); (48, Op_lfs); (49, Op_lfsu);
  (50, Op_lfd); (51, Op_lfdu); (52, Op_stfs); (53, Op_stfsu); (54, Op_stfd); (55, Op_stfdu); (56, Op_psq_l);
  (57, Op_psq_lu); (60, Op_psq_st); (61, Op_psq_stu)
].

Definition op_table4 : list InterpreterOpTemplate := [
  (0, Op_ps_cmpu0); (32, Op_ps_cmpo0); (40, Op_ps_neg); (136, Op_ps_nabs); (264, Op_ps_abs); (64, Op_ps_cmpu1);
  (72, Op_ps_mr); (96, Op_ps_cmpo1); (528, Op_ps_merge00); (560, Op_ps_merge01); (592, Op_ps_merge10);
  (624, Op_ps_merge11); (1014, Op_dcbz_l)
].

Definition op_table4_2 : list InterpreterOpTemplate := [
  (10, Op_ps_sum0); (11, Op_ps_sum1); (12, Op_ps_muls0); (13, Op_ps_muls1); (14, Op_ps_madds0); (15, Op_ps_madds1);
  (18, Op_ps_div); (20, Op_ps_sub); (21, Op_ps_add); (23, Op_ps_sel); (24, Op_ps_res); (25, Op_ps_mul);
  (26, Op_ps_rsqrte); (28, Op_ps_msub); (29, Op_ps_madd); (30, Op_ps_nmsub); (31, Op_ps_nmadd)
].

Definition op_table4_3 : list InterpreterOpTemplate := [
  (6, Op_psq_lx); (7, Op_psq_stx); (38, Op_psq_lux); (39, Op_psq_stux)
].

Definition op_table19 : list InterpreterOpTemplate := [
  (528, Op_bcctrx); (16, Op_bclrx); (257, Op_crand); (129, Op_crandc); (289, Op_creqv); (225, Op_crnand);
  (33, Op_crnor); (449, Op_cror); (417, Op_crorc); (193, Op_crxor); (150, Op_isync); (0, Op_mcrf); (50, Op_rfi)
].

Definition op_table31 : list InterpreterOpTemplate := [
  (266, Op_addx); (778, Op_addx); (10, Op_addcx); (522, Op_addcx); (138, Op_addex); (650, Op_addex); (234, Op_addmex);
  (746, Op_addmex); (202, Op_addzex); (714, Op_addzex); (491, Op_divwx); (1003, Op_divwx); (459, Op_divwux);
  (971, Op_divwux); (75, Op_mulhwx); (11, Op_mulhwux); (235, Op_mullwx); (747, Op_mullwx); (104, Op_negx);
  (616, Op_negx); (40, Op_subfx); (552, Op_subfx); (8, Op_subfcx); (520, Op_subfcx); (136, Op_subfex);
  (648, Op_subfex); (232, Op_subfmex); (744, Op_subfmex); (200, Op_subfzex); (712, Op_subfzex); (28, Op_andx);
  (60, Op_andcx); (444, Op_orx); (124, Op_norx); (316, Op_xorx); (412, Op_orcx); (476, Op_nandx); (284, Op_eqvx);
  (0, Op_cmp); (32, Op_cmpl); (26, Op_cntlzwx); (922, Op_extshx); (954, Op_extsbx); (536, Op_srwx); (792, Op_srawx);
  (824, Op_srawix); (24, Op_slwx); (54, Op_dcbst); (86, Op_dcbf); (246, Op_dcbtst); (278, Op_dcbt); (470, Op_dcbi);
  (758, Op_dcba); (1014, Op_dcbz); (23, Op_lwzx); (55, Op_lwzux); (279, Op_lhzx); (311, Op_lhzux); (343, Op_lhax);
  (375, Op_lhaux); (87, Op_lbzx); (119, Op_lbzux); (534, Op_lwbrx); (790, Op_lhbrx); (150, Op_stwcxd); (20, Op_lwarx);
  (533, Op_lswx); (597, Op_lswi); (151, Op_stwx); (183, Op_stwux); (407, Op_sthx); (439, Op_sthux); (215, Op_stbx);
  (247, Op_stbux); (662, Op_stwbrx); (918, Op_sthbrx); (661, Op_stswx); (725, Op_stswi); (535, Op_lfsx);
  (567, Op_lfsux); (599, Op_lfdx); (631, Op_lfdux); (663, Op_stfsx); (695, Op_stfsux); (727, Op_stfdx);
  (759, Op_stfdux); (983, Op_stfiwx); (19, Op_mfcr); (83, Op_mfmsr); (144, Op_mtcrf); (146, Op_mtmsr); (210, Op_mtsr);
  (242, Op_mtsrin); (339, Op_mfspr); (467, Op_mtspr); (371, Op_mftb); (512, Op_mcrxr); (595, Op_mfsr);
  (659, Op_mfsrin); (4, Op_tw); (598, Op_sync); (982, Op_icbi); (310, Op_eciwx); (438, Op_ecowx); (854, Op_eieio);
  (306, Op_tlbie); (566, Op_tlbsync)
].

Definition op_table59 : list InterpreterOpTemplate := [
  (18, Op_fdivsx); (20, Op_fsubsx); (21, Op_faddsx); (24, Op_fresx); (25, Op_fmulsx); (28, Op_fmsubsx);
  (29, Op_fmaddsx); (30, Op_fnmsubsx); (31, Op_fnmaddsx)
].

Definition op_table63 : list InterpreterOpTemplate := [
  (264, Op_fabsx); (32, Op_fcmpo); (0, Op_fcmpu); (14, Op_fctiwx); (15, Op_fctiwzx); (72, Op_fmrx); (136, Op_fnabsx);
  (40, Op_fnegx); (12, Op_frspx); (64, Op_mcrfs); (583, Op_mffsx); (70, Op_mtfsb0x); (38, Op_mtfsb1x);
  (134, Op_mtfsfix); (711, Op_mtfsfx)
].

Definition op_table63_2 : list InterpreterOpTemplate := [
  (18, Op_fdivx); (20, Op_fsubx); (21, Op_faddx); (23, Op_fselx); (25, Op_fmulx); (26, Op_frsqrtex); (28, Op_fmsubx);
  (29, Op_fmaddx); (30, Op_fnmsubx); (31, Op_fnmaddx)
].

Definition s_interpreter_op_table : table InterpreterOpTemplate := add_templates fst op_primary_table ∅.
Definition s_interpreter_op_table4 : table InterpreterOpTemplate :=
  add_templates fst op_table4 (add_filled fst 16 6 op_table4_3 (add_filled fst 32 5 op_table4_2 ∅)).
Definition s_interpreter_op_table19 : table InterpreterOpTemplate := add_templates fst op_table19 ∅.
Definition s_interpreter_op_table31 : table InterpreterOpTemplate := add_templates fst op_table31 ∅.
Definition s_interpreter_op_table59 : table InterpreterOpTemplate := add_templates fst op_table59 ∅.
Definition s_interpreter_op_table63 : table InterpreterOpTemplate :=
  add_filled fst 32 5 op_table63_2 (add_templates fst op_table63 ∅).

Definition op_at (t : table InterpreterOpTemplate) (op : Z) : Instruction :=
  default Op_unknown_instruction (snd <$> t !! op).

Definition RunTable4 (inst : Z) : Instruction := op_at s_interpreter_op_table4 (SUBOP10 inst).
Definition RunTable19 (inst : Z) : Instruction := op_at s_interpreter_op_table19 (SUBOP10 inst).
Definition RunTable31 (inst : Z) : Instruction := op_at s_interpreter_op_table31 (SUBOP10 inst).
Definition RunTable59 (inst : Z) : Instruction := op_at s_interpreter_op_table59 (SUBOP5 inst).
Definition RunTable63 (inst : Z) : Instruction := op_at s_interpreter_op_table63 (SUBOP10 inst).

Definition GetInterpreterOp (inst : Z) : Instruction :=
  let result := op_at s_interpreter_op_table (OPCD inst) in
  match result with
  | Op_RunTable4 => op_at s_interpreter_op_table4 (SUBOP10 inst)
  | Op_RunTable19 => op_at s_interpreter_op_table19 (SUBOP10 inst)
  | Op_RunTable31 => op_at s_interpreter_op_table31 (SUBOP10 inst)
  | Op_RunTable59 => op_at s_interpreter_op_table59 (SUBOP5 inst)
  | Op_RunTable63 => op_at s_interpreter_op_table63 (SUBOP10 inst)
  | _ => result
  end.
