(* ===== verification/PPCInterpreter.v ===== *)
(** The instructions that work on the registers alone, by the function that the dispatch
    tables name ([Interpreter_Tables.cpp]), and what comes after an instruction
    ([Interpreter.cpp]). *)
From stdpp Require Import base tactics option list gmap.
From Stdlib Require Import ZArith Lia Bool.
From S2P Require Import Prelude PowerPC ConditionRegister Gekko PPCTables InterpreterTables.
From S2P Require Import PPCInteger PPCSystem.

#[local] Open Scope Z_scope.

(** The second component is [m_end_block]. *)
Definition goes_on (f : Z -> PPCState -> PPCState) (inst : Z) (p : PPCState) : PPCState * bool := (f inst p, false).
Definition ends_block (f : Z -> PPCState -> PPCState) (inst : Z) (p : PPCState) : PPCState * bool := (f inst p, true).

(** Instructions that do nothing: [sync], [eieio], [dcbt] and [dcbtst]. *)
Definition no_operation (inst : Z) (p : PPCState) : PPCState := p.

(** Loads, stores and cache instructions, the floating-point arithmetic and the accesses to
    special purpose registers also work on the rest of the machine. *)
Definition register_instruction (fn : Instruction) : option (Z -> PPCState -> PPCState * bool) :=
  match fn with
  | Op_bcx => Some (ends_block bcx) | Op_bx => Some (ends_block bx)
  | Op_bcctrx => Some (ends_block bcctrx) | Op_bclrx => Some (ends_block bclrx)
  | Op_sc => Some (ends_block sc) | Op_rfi => Some rfi | Op_twi => Some twi | Op_tw => Some tw
  | Op_mulli => Some (goes_on mulli) | Op_subfic => Some (goes_on subfic)
  | Op_cmpli => Some (goes_on cmpli) | Op_cmpi => Some (goes_on cmpi)
  | Op_addic => Some (goes_on addic) | Op_addic_rc => Some (goes_on addic_rc)
  | Op_addi => Some (goes_on addi) | Op_addis => Some (goes_on addis)
  | Op_rlwimix => Some (goes_on rlwimix) | Op_rlwinmx => Some (goes_on rlwinmx) | Op_rlwnmx => Some (goes_on rlwnmx)
  | Op_ori => Some (goes_on ori) | Op_oris => Some (goes_on oris)
  | Op_xori => Some (goes_on xori) | Op_xoris => Some (goes_on xoris)
  | Op_andi_rc => Some (goes_on andi_rc) | Op_andis_rc => Some (goes_on andis_rc)
  | Op_crand => Some (goes_on crand) | Op_crandc => Some (goes_on crandc) | Op_creqv => Some (goes_on creqv)
  | Op_crnand => Some (goes_on crnand) | Op_crnor => Some (goes_on crnor) | Op_cror => Some (goes_on cror)
  | Op_crorc => Some (goes_on crorc) | Op_crxor => Some (goes_on crxor)
  | Op_isync => Some (goes_on isync) | Op_mcrf => Some (goes_on mcrf)
  | Op_addx => Some (goes_on addx) | Op_addcx => Some (goes_on addcx) | Op_addex => Some (goes_on addex)
  | Op_addmex => Some (goes_on addmex) | Op_addzex => Some (goes_on addzex)
  | Op_divwx => Some (goes_on divwx) | Op_divwux => Some (goes_on divwux)
  | Op_mulhwx => Some (goes_on mulhwx) | Op_mulhwux => Some (goes_on mulhwux) | Op_mullwx => Some (goes_on mullwx)
  | Op_negx => Some (goes_on negx) | Op_subfx => Some (goes_on subfx) | Op_subfcx => Some (goes_on subfcx)
  | Op_subfex => Some (goes_on subfex) | Op_subfmex => Some (goes_on subfmex) | Op_subfzex => Some (goes_on subfzex)
  | Op_andx => Some (goes_on andx) | Op_andcx => Some (goes_on andcx) | Op_orx => Some (goes_on orx)
  | Op_norx => Some (goes_on norx) | Op_xorx => Some (goes_on xorx) | Op_orcx => Some (goes_on orcx)
  | Op_nandx => Some (goes_on nandx) | Op_eqvx => Some (goes_on eqvx)
  | Op_cmp => Some (goes_on cmp) | Op_cmpl => Some (goes_on cmpl)
  | Op_cntlzwx => Some (goes_on cntlzwx) | Op_extshx => Some (goes_on extshx) | Op_extsbx => Some (goes_on extsbx)
  | Op_srwx => Some (goes_on srwx) | Op_srawx => Some (goes_on srawx) | Op_srawix => Some (goes_on srawix)
  | Op_slwx => Some (goes_on slwx)
  | Op_dcbtst => Some (goes_on no_operation) | Op_dcbt => Some (goes_on no_operation)
  | Op_sync => Some (goes_on no_operation) | Op_eieio => Some (goes_on no_operation)
  | Op_mfcr => Some (goes_on mfcr) | Op_mtcrf => Some (goes_on mtcrf) | Op_mcrxr => Some (goes_on mcrxr)
  | Op_mfmsr => Some (goes_on mfmsr) | Op_mtmsr => Some mtmsr
  | Op_mtsr => Some (goes_on mtsr) | Op_mtsrin => Some (goes_on mtsrin)
  | Op_mfsr => Some (goes_on mfsr) | Op_mfsrin => Some (goes_on mfsrin)
  | Op_mcrfs => Some (goes_on mcrfs) | Op_mffsx => Some (goes_on mffsx)
  | Op_mtfsb0x => Some (goes_on mtfsb0x) | Op_mtfsb1x => Some (goes_on mtfsb1x)
  | Op_mtfsfix => Some (goes_on mtfsfix) | Op_mtfsfx => Some (goes_on mtfsfx)
  | _ => None
  end.

Definition RunInterpreterOp (inst : Z) (p : PPCState) : option (PPCState * bool) :=
  match register_instruction (GetInterpreterOp inst) with
  | Some f => Some (f inst p)
  | None => None
  end.

(** * After an instruction *)

Definition UpdatePC (p : PPCState) : PPCState := fset p_pc (npc p) p.

Abbreviation SPR_HID2 := 920 (only parsing).

Definition IsPairedSingleQuantizedNonIndexedInstruction (inst : Z) : bool :=
  let opcode := OPCD inst in
  (opcode =? 0x38) || (opcode =? 0x39) || (opcode =? 0x3C) || (opcode =? 0x3D).

Definition IsPairedSingleInstruction (inst : Z) : bool :=
  (OPCD inst =? 4) || IsPairedSingleQuantizedNonIndexedInstruction inst.

(** [HID2.PSE] is bit 29 and [HID2.LSQE] bit 31. *)
Definition IsInvalidPairedSingleExecution (inst : Z) (p : PPCState) : bool :=
  let hid2 := get_spr SPR_HID2 p in
  if negb (Z.testbit hid2 29) && IsPairedSingleInstruction inst then true
  else Z.testbit hid2 29 && negb (Z.testbit hid2 31) && IsPairedSingleQuantizedNonIndexedInstruction inst.
