(* ===== verification/PPCTypeProps.v ===== *)
(** The registers keep the values of their types, and a program in user mode stays within
    the registers of user mode, whichever instructions on the registers it executes. *)
From stdpp Require Import base tactics option list gmap.
From Stdlib Require Import ZArith Lia Bool.
From S2P Require Import Prelude PowerPC PowerPCProps ConditionRegister Gekko PPCTables InterpreterTables.
From S2P Require Import PPCInteger PPCIntegerProps PPCSystem PPCSystemProps PPCStatusProps PPCInterpreter.

#[local] Open Scope Z_scope.
Implicit Types (inst : Z) (p q : PPCState).

(** * Types *)

(** [ppc_ok], with the floating-point registers and their status. *)
Record cpu_ok p : Prop := {
  ck_ppc : ppc_ok p;
  ck_fpscr : u32 (fpscr p);
  ck_ps0 : arr_ok u64 (ps0 p)
}.

(** A property that the writes of the instructions preserve. *)
Record closed (P : PPCState -> Prop) : Prop := {
  cl_ok p : P p -> cpu_ok p;
  cl_gpr r v p : u32 v -> P p -> P (set_gpr r v p);
  cl_carry ca p : 0 <= ca <= 1 -> P p -> P (fset p_xer_ca ca p);
  cl_so_ov v p : 0 <= v <= 3 -> P p -> P (fset p_xer_so_ov v p);
  cl_cr fields p : arr_ok u64 fields -> P p -> P (fset p_cr_fields fields p);
  cl_fpscr v p : u32 v -> P p -> P (fset p_fpscr v p);
  cl_ps0 r v p : u64 v -> P p -> P (fset p_ps0 (aupd (ps0 p) r v) p);
  cl_npc v p : u32 v -> P p -> P (fset p_npc v p);
  cl_link v p : u32 v -> P p -> P (set_spr SPR_LR v p);
  cl_ctr v p : u32 v -> P p -> P (set_spr SPR_CTR v p);
  cl_program cause p : P p -> P (GenerateProgramException cause p)
}.

(** * Values of 32 bits *)

Create HintDb u32.
Lemma u32_wrap x : u32 (to_u32 x). Proof. apply wrapu_range; lia. Qed.
Lemma u32_lor x y : u32 x -> u32 y -> u32 (x .| y). Proof. apply uN_lor; lia. Qed.
Lemma u32_lxor x y : u32 x -> u32 y -> u32 (x .^ y). Proof. apply uN_lxor; lia. Qed.
Lemma u32_land x y : u32 x -> u32 (x .& y). Proof. apply uN_land_l; lia. Qed.
Lemma u32_land' x y : u32 y -> u32 (x .& y). Proof. apply uN_land_r; lia. Qed.
Lemma u32_not x : u32 (not32 x). Proof. apply u32_wrap. Qed.
Lemma u32_shiftr x n : u32 x -> 0 <= n -> u32 (x .>> n).
Proof.
  intros Hx Hn. apply uN_shiftr; [lia|done|]. unfold uN in *. rewrite Z.pow_add_r by lia. pose proof (pow2_pos n Hn). nia.
Qed.
Lemma u32_quotient x y : u32 x -> 0 < y -> u32 (x / y).
Proof. unfold uN. intros Hx Hy. split; [apply Z.div_pos; lia|]. pose proof (Z.div_le_upper_bound x y x Hy). nia. Qed.
Lemma u32_bits i n x : 0 <= n <= 32 -> u32 (bits i n x).
Proof. intros Hn. pose proof (bits_range i n x ltac:(lia)). pose proof (Z.pow_le_mono_r 2 n 32 ltac:(lia) ltac:(lia)). unfold uN. lia. Qed.
Lemma u32_mask inst : u32 (MakeRotationMask (MB inst) (ME inst)).
Proof. pose proof (bits_range 6 5 inst ltac:(lia)). pose proof (bits_range 1 5 inst ltac:(lia)). apply MakeRotationMask_range; unfold MB, ME; lia. Qed.
Lemma u32_clz x : u32 x -> u32 (countl_zero32 x).
Proof.
  unfold uN, countl_zero32. intros Hx. case_match; [lia|]. pose proof (Z.log2_nonneg x). pose proof (Z.log2_lt_pow2 x 32). nia.
Qed.
Lemma u32_bool (b : bool) x y : u32 x -> u32 y -> u32 (if b then x else y). Proof. by destruct b. Qed.
#[export] Hint Resolve u32_wrap u32_lor u32_lxor u32_not u32_mask u32_clz u32_bool CR_Get_u32 expand_field_mask_range : u32.
#[export] Hint Extern 1 (uN 32 (UIMM _)) => apply u32_bits; lia : u32.
#[export] Hint Extern 2 (uN 32 (_ .& _)) => first [apply u32_land; solve [eauto with u32] | apply u32_land'; solve [eauto with u32]] : u32.
Lemma shift_amount_bits i n x : 0 <= n -> 0 <= bits i n x.
Proof. intros Hn. by apply bits_range. Qed.
Ltac shift_amount :=
  unfold CRBD, CRFD, CRFS, SH;
  first [lia | apply Z.land_nonneg; lia | apply shift_amount_bits; lia | apply Z.mul_nonneg_nonneg; [lia | apply shift_amount_bits; lia]].
#[export] Hint Extern 2 (uN 32 (_ .>> _)) => apply u32_shiftr; [solve [eauto with u32] | shift_amount] : u32.
#[export] Hint Extern 9 (uN 32 _) => unfold uN; lia : u32.

Section Ok.
Context (p : PPCState) (Hp : cpu_ok p).
Lemma ok_gpr i : u32 (get_gpr i p). Proof. apply (pk_gpr p (ck_ppc p Hp)). Qed.
Lemma ok_spr i : u32 (get_spr i p). Proof. apply (pk_spr p (ck_ppc p Hp)). Qed.
Lemma ok_msr : u32 (msr p). Proof. apply (pk_msr p (ck_ppc p Hp)). Qed.
Lemma ok_pc : u32 (pc p). Proof. apply (pk_pc p (ck_ppc p Hp)). Qed.
Lemma ok_npc : u32 (npc p). Proof. apply (pk_npc p (ck_ppc p Hp)). Qed.
Lemma ok_sr i : u32 (aat (ppc_sr p) i). Proof. apply (pk_sr p (ck_ppc p Hp)). Qed.
Lemma ok_cr : arr_ok u64 (cr_fields p). Proof. apply (pk_cr p (ck_ppc p Hp)). Qed.
Lemma ok_ca : 0 <= xer_ca p <= 1. Proof. apply (pk_ca p (ck_ppc p Hp)). Qed.
Lemma ok_so_ov : 0 <= xer_so_ov p <= 3. Proof. apply (pk_so_ov p (ck_ppc p Hp)). Qed.
End Ok.
#[export] Hint Resolve ok_gpr ok_spr ok_msr ok_pc ok_npc ok_sr ok_cr ck_fpscr : u32.

(** * The parts of the instructions *)

Section Closed.
Context (P : PPCState -> Prop) (HP : closed P).

Lemma cl_SetCarry b p : P p -> P (SetCarry (truth b) p).
Proof. intros H. unfold SetCarry. apply (cl_carry P HP); [|done]. by destruct b. Qed.

Lemma cl_SetCarry_0 p : P p -> P (SetCarry 0 p).
Proof. exact (cl_SetCarry false p). Qed.
Lemma cl_SetCarry_1 p : P p -> P (SetCarry 1 p).
Proof. exact (cl_SetCarry true p). Qed.

Lemma cl_UpdateCR0 v p : P p -> P (Helper_UpdateCR0 v p).
Proof. intros H. apply (cl_cr P HP); [|done]. apply arr_ok_aupd; [apply ok_cr; by apply (cl_ok P HP) | apply cr0_value_range]. Qed.

Lemma cl_update_Rc inst v p : P p -> P (update_Rc inst v p).
Proof. intros H. unfold update_Rc. destruct (Rc inst); [by apply cl_UpdateCR0 | done]. Qed.

Lemma cl_SetXER_OV b p : P p -> P (SetXER_OV b p).
Proof.
  intros H. unfold SetXER_OV, SetXER_SO. change (fset p_xer_so_ov ?v (fset p_xer_so_ov ?w p)) with (fset p_xer_so_ov v p).
  apply (cl_so_ov P HP); [|done]. cbn -[Z.land Z.lor Z.shiftl].
  pose proof (ok_so_ov p (cl_ok P HP p H)). assert (Hx : xer_so_ov p = 0 \/ xer_so_ov p = 1 \/ xer_so_ov p = 2 \/ xer_so_ov p = 3) by lia.
  destruct Hx as [->|[->|[->| ->]]], b; done.
Qed.

Lemma cl_update_OE inst b p : P p -> P (update_OE inst b p).
Proof. intros H. unfold update_OE. destruct (OE inst); [by apply cl_SetXER_OV | done]. Qed.

Lemma SetField_any i v fields : arr_ok u64 fields -> arr_ok u64 (SetField i v fields).
Proof.
  intros Hf. apply arr_ok_aupd; [done|]. destruct (Nat.lt_ge_cases (Z.to_nat v) 16) as [Hv|Hv].
  - assert (Ha : forallb (fun x => (0 <=? x) && (x <? 2 ^ 64)) s_crTable = true) by (vm_compute; reflexivity).
    rewrite forallb_forall in Ha. specialize (Ha (nth (Z.to_nat v) s_crTable 0) (nth_In s_crTable 0 (Hv : (Z.to_nat v < length s_crTable)%nat))). unfold uN. lia.
  - rewrite nth_overflow by exact Hv. unfold uN. lia.
Qed.

Lemma cl_SetCRField i v p : P p -> P (SetCRField i v p).
Proof. intros H. apply (cl_cr P HP); [|done]. apply SetField_any. apply ok_cr. by apply (cl_ok P HP). Qed.

Lemma cl_set_cr_bit inst v p : P p -> P (set_cr_bit inst v p).
Proof. intros H. apply (cl_cr P HP); [|done]. unfold SetBit. case_match; apply SetField_any, ok_cr; by apply (cl_ok P HP). Qed.

Lemma CR_Set_any cr fields : arr_ok u64 fields -> arr_ok u64 (CR_Set cr fields).
Proof. unfold CR_Set. revert fields. induction field_indices as [|i l IH]; intros fields Hf; [done|]. cbn. by apply IH, SetField_any. Qed.

Lemma cl_set_cr cr p : P p -> P (set_cr cr p).
Proof. intros H. apply (cl_cr P HP); [|done]. apply CR_Set_any, ok_cr. by apply (cl_ok P HP). Qed.

Lemma cl_IntCompare inst a b p : P p -> P (Helper_IntCompare inst a b p).
Proof. intros H. by apply cl_SetCRField. Qed.

(** ** The floating-point status *)

Lemma u32_put_bit i b x : 0 <= i < 32 -> u32 x -> u32 (put_bit i b x).
Proof.
  intros Hi Hx. unfold put_bit. apply u32_lor; [by apply u32_land|]. rewrite Z.shiftl_mul_pow2 by lia.
  pose proof (Z.pow_lt_mono_r 2 i 32 ltac:(lia) ltac:(lia)). pose proof (pow2_pos i ltac:(lia)). unfold uN. destruct b; cbn [truth]; lia.
Qed.

Lemma cl_FPSCRUpdated p : P p -> P (FPSCRUpdated p).
Proof.
  intros H. unfold FPSCRUpdated, UpdateFPExceptionSummary. cbv zeta.
  match goal with |- P (CheckFPExceptions ?q) => assert (Hq : P q) end.
  - apply (cl_fpscr P HP); [apply u32_put_bit; [lia|]; cbn; apply u32_put_bit; [lia|] | apply (cl_fpscr P HP); [apply u32_put_bit; [lia|]|done]];
      apply ck_fpscr; by apply (cl_ok P HP).
  - unfold CheckFPExceptions. case_match; [by apply (cl_program P HP) | exact Hq].
Qed.

Lemma cl_set_fpscr v p : u32 v -> P p -> P (set_fpscr v p).
Proof. intros Hv H. apply (cl_fpscr P HP); [by apply u32_land | done]. Qed.

Lemma cl_SetFPException mask p : u32 mask -> P p -> P (SetFPException mask p).
Proof.
  intros Hm H. unfold SetFPException. cbv zeta. apply cl_FPSCRUpdated.
  match goal with |- P (fset _ _ ?q) => assert (Hq : P q) end.
  - case_match; [|done]. apply (cl_fpscr P HP); [apply u32_put_bit; [lia|]; apply ck_fpscr; by apply (cl_ok P HP) | done].
  - apply (cl_fpscr P HP); [|exact Hq]. apply u32_lor; [|done]. apply ck_fpscr. by apply (cl_ok P HP).
Qed.

Lemma cl_record_CR1 inst p : P p -> P (record_CR1 inst p).
Proof. intros H. unfold record_CR1. case_match; [by apply cl_SetCRField | done]. Qed.

(** ** Branches *)

Lemma cl_link_ p : P p -> P (link p).
Proof. intros H. apply (cl_link P HP); [apply u32_wrap | done]. Qed.

Lemma cl_decrement_CTR inst p : P p -> P (decrement_CTR inst p).
Proof. intros H. unfold decrement_CTR. case_match; [apply (cl_ctr P HP); [apply u32_wrap | done] | done]. Qed.

(** Instructions without a privileged form, that enter no exception. *)
Definition ordinary (fn : Instruction) : bool :=
  match fn with
  | Op_sc | Op_twi | Op_tw | Op_rfi | Op_mtmsr | Op_mtsr | Op_mtsrin | Op_mfmsr | Op_mfsr | Op_mfsrin => false
  | _ => true
  end.

Ltac closed_step :=
  match goal with
  | H : P ?p |- P ?p => exact H
  | |- P (update_Rc _ _ _) => apply cl_update_Rc
  | |- P (update_OE _ _ _) => apply cl_update_OE
  | |- P (SetCarry (truth _) _) => apply cl_SetCarry
  | |- P (SetCarry 0 _) => apply cl_SetCarry_0
  | |- P (SetCarry 1 _) => apply cl_SetCarry_1
  | |- P (Helper_UpdateCR0 _ _) => apply cl_UpdateCR0
  | |- P (Helper_IntCompare _ _ _ _) => apply cl_IntCompare
  | |- P (SetCRField _ _ _) => apply cl_SetCRField
  | |- P (set_cr_bit _ _ _) => apply cl_set_cr_bit
  | |- P (set_cr _ _) => apply cl_set_cr
  | |- P (FPSCRUpdated _) => apply cl_FPSCRUpdated
  | |- P (record_CR1 _ _) => apply cl_record_CR1
  | |- P (link _) => apply cl_link_
  | |- P (decrement_CTR _ _) => apply cl_decrement_CTR
  | |- P (GenerateProgramException _ _) => apply (cl_program P HP)
  | |- P (set_gpr _ _ _) => apply (cl_gpr P HP)
  | |- P (set_fpscr _ _) => apply cl_set_fpscr
  | |- P (SetFPException _ _) => apply cl_SetFPException
  | |- P (fset p_npc _ _) => apply (cl_npc P HP)
  | |- P (fset p_fpscr _ _) => apply (cl_fpscr P HP)
  | |- P (addic _ _) => unfold addic; cbv zeta
  | |- P (if ?b then _ else _) => destruct b
  end.

Lemma ordinary_closed fn f inst p : register_instruction fn = Some f -> ordinary fn = true -> P p -> P (fst (f inst p)).
Proof.
  intros Hf Ho H. pose proof (cl_ok P HP p H) as Hok.
  destruct fn; try discriminate Hf; try discriminate Ho; injection Hf as <-; unfold goes_on, ends_block; cbn [fst];
    match goal with |- P (?g _ _) => unfold g end; cbv zeta; try solve [repeat closed_step; eauto 6 with u32].
  - apply cl_update_Rc, cl_update_OE. pose proof (ok_gpr p Hok (RB inst)) as Hb. unfold uN in Hb.
    destruct (Z.eqb_spec (get_gpr (RB inst) p) 0); apply (cl_gpr P HP); [eauto with u32 | done | apply u32_quotient; [eauto with u32 | lia] | done].
  - apply (cl_so_ov P HP); [lia|]. apply (cl_carry P HP); [lia|]. by apply cl_SetCRField.
  - apply cl_record_CR1, (cl_ps0 P HP); [|done]. apply uN_lor; [lia | unfold uN; lia |]. pose proof (ck_fpscr p Hok). unfold uN in *. lia.
Qed.
End Closed.

(** * The invariant of the registers *)

Section Typed.
Lemma cpu_set_spr i v p : u32 v -> cpu_ok p -> cpu_ok (set_spr i v p).
Proof. intros Hv [[] Hf Hs]. split; [|done|done]. split; try done. by apply arr_ok_aupd. Qed.
Lemma cpu_npc v p : u32 v -> cpu_ok p -> cpu_ok (fset p_npc v p).
Proof. intros Hv [[] Hf Hs]. split; [|done|done]. by split. Qed.
Lemma cpu_pc v p : u32 v -> cpu_ok p -> cpu_ok (fset p_pc v p).
Proof. intros Hv [[] Hf Hs]. split; [|done|done]. by split. Qed.
Lemma cpu_msr v p : u32 v -> cpu_ok p -> cpu_ok (fset p_msr v p).
Proof. intros Hv [[] Hf Hs]. split; [|done|done]. by split. Qed.
Lemma cpu_exceptions v p : u32 v -> cpu_ok p -> cpu_ok (fset p_Exceptions v p).
Proof. intros Hv [[] Hf Hs]. split; [|done|done]. by split. Qed.
Lemma cpu_sr i v p : u32 v -> cpu_ok p -> cpu_ok (SetSR i v p).
Proof. intros Hv [[] Hf Hs]. split; [|done|done]. split; try done. by apply arr_ok_aupd. Qed.
Lemma cpu_MSRUpdated p : cpu_ok p -> cpu_ok (MSRUpdated p).
Proof. intros [[] Hf Hs]. split; [|done|done]. by split. Qed.

Lemma cpu_raise e p : u32 e -> cpu_ok p -> cpu_ok (raise_exception e p).
Proof. intros He Hp. apply cpu_exceptions; [|done]. apply u32_lor; [apply (pk_exceptions p (ck_ppc p Hp)) | done]. Qed.
Lemma cpu_clear e p : cpu_ok p -> cpu_ok (clear_exception e p).
Proof. intros Hp. apply cpu_exceptions; [|done]. apply u32_land, (pk_exceptions p (ck_ppc p Hp)). Qed.
Lemma cpu_program cause p : cpu_ok p -> cpu_ok (GenerateProgramException cause p).
Proof. intros Hp. apply cpu_set_spr; [destruct cause; split; by vm_compute | apply cpu_raise; [unfold uN; lia | done]]. Qed.

Lemma cpu_take srr0 srr1 vector e p : u32 srr0 -> u32 srr1 -> u32 vector -> cpu_ok p -> cpu_ok (take_exception srr0 srr1 vector e p).
Proof.
  intros H0 H1 Hv Hp. unfold take_exception. cbv zeta. apply cpu_clear, cpu_pc, cpu_npc, cpu_msr; [done | done | | by do 2 (apply cpu_set_spr; [done|])].
  unfold exception_msr. apply u32_land', u32_wrap.
Qed.

Lemma u32_saved p : cpu_ok p -> u32 (saved_msr p).
Proof. intros Hp. apply u32_land, ok_msr, Hp. Qed.
#[local] Hint Resolve u32_saved : u32.
#[local] Hint Extern 1 (uN 32 (1 .<< _)) => split; vm_compute; congruence : u32.

Lemma cpu_CheckExternal p : cpu_ok p -> cpu_ok (CheckExternalExceptions p).
Proof.
  intros Hp. unfold CheckExternalExceptions. cbv zeta.
  repeat case_match; try done; apply cpu_MSRUpdated; try done; apply cpu_take; eauto with u32.
Qed.

Lemma cpu_CheckExceptions p : cpu_ok p -> cpu_ok (CheckExceptions p).
Proof.
  intros Hp. unfold CheckExceptions. cbv zeta.
  repeat match goal with |- cpu_ok (if ?b then _ else _) => destruct b end;
    first [apply cpu_CheckExternal, Hp | apply cpu_MSRUpdated; first [apply cpu_clear, Hp | apply cpu_take; eauto with u32]].
Qed.

Lemma cpu_ok_closed : closed cpu_ok.
Proof.
  split; [done|..].
  - intros r v p Hv [Hp Hf Hs]. split; [by apply ppc_ok_set_gpr | done | done].
  - intros ca p Hc [[] Hf Hs]. split; [|done|done]. by split.
  - intros v p Hv [[] Hf Hs]. split; [|done|done]. by split.
  - intros fields p Hc [[] Hf Hs]. split; [|done|done]. by split.
  - intros v p Hv [[] Hf Hs]. split; [|done|done]. by split.
  - intros r v p Hv [[] Hf Hs]. split; [by split | done | by apply arr_ok_aupd].
  - intros v p Hv Hp. by apply cpu_npc.
  - intros v p Hv Hp. by apply cpu_set_spr.
  - intros v p Hv Hp. by apply cpu_set_spr.
  - intros cause p Hp. by apply cpu_program.
Qed.

Lemma cpu_privileged g p : (cpu_ok p -> cpu_ok (g p)) -> cpu_ok p -> cpu_ok (privileged g p).
Proof. intros Hg Hp. unfold privileged. case_match; [by apply cpu_program | by apply Hg]. Qed.

Lemma cpu_CheckFP p : cpu_ok p -> cpu_ok (CheckFPExceptions p).
Proof. intros Hp. unfold CheckFPExceptions. case_match; [by apply cpu_program | done]. Qed.

Lemma cpu_take_trap c p : cpu_ok p -> cpu_ok (fst (take_trap c p)).
Proof. intros Hp. unfold take_trap. destruct c; [by apply cpu_CheckExceptions, cpu_program | done]. Qed.

Lemma other_typed fn f inst p : register_instruction fn = Some f -> ordinary fn = false -> cpu_ok p -> cpu_ok (fst (f inst p)).
Proof.
  intros Hf Ho Hp. destruct fn; try discriminate Ho; injection Hf as <-; unfold goes_on, ends_block; cbn [fst].
  - by apply cpu_take_trap.
  - apply cpu_CheckExceptions, cpu_raise; [unfold uN; lia | done].
  - unfold rfi. case_match; [by apply cpu_program|]. cbv zeta. cbn [fst].
    apply cpu_MSRUpdated, cpu_npc; [apply (ok_spr p Hp)|]. do 2 (apply cpu_msr; [cbn; eauto 6 with u32|]). done.
  - apply cpu_privileged; [|done]. intros _. apply (cl_gpr _ cpu_ok_closed); eauto with u32.
  - unfold mtmsr. case_match; [by apply cpu_program|]. cbv zeta. cbn [fst].
    apply cpu_CheckExceptions, cpu_CheckFP, cpu_MSRUpdated, cpu_msr; eauto with u32.
  - apply cpu_privileged; [|done]. intros _. apply cpu_sr; eauto with u32.
  - apply cpu_privileged; [|done]. intros _. apply cpu_sr; eauto with u32.
  - apply cpu_privileged; [|done]. intros _. apply (cl_gpr _ cpu_ok_closed); eauto with u32.
  - apply cpu_privileged; [|done]. intros _. apply (cl_gpr _ cpu_ok_closed); eauto with u32.
  - by apply cpu_take_trap.
Qed.
End Typed.

(** * User mode *)

(** What a program in user mode may do to the machine: the machine state and the segment
    registers stay, and of the special purpose registers all but LR, CTR and, when a program
    exception is raised, SRR1. *)
Record confined p q : Prop := {
  cf_msr : msr q = msr p;
  cf_sr : ppc_sr q = ppc_sr p;
  cf_features : feature_flags q = feature_flags p;
  cf_spr i : i <> SPR_LR -> i <> SPR_CTR -> i <> SPR_SRR1 -> get_spr i q = get_spr i p;
  cf_srr1 : get_spr SPR_SRR1 q = get_spr SPR_SRR1 p \/ has EXCEPTION_PROGRAM (Exceptions q) = true;
  cf_exceptions : Exceptions q = Exceptions p \/ Exceptions q = Exceptions p .| EXCEPTION_PROGRAM
}.

Lemma confined_refl p : confined p p.
Proof. split; auto. Qed.

Lemma has_program e : has EXCEPTION_PROGRAM (e .| EXCEPTION_PROGRAM) = true.
Proof.
  unfold has. apply negb_true_iff, Z.eqb_neq. intros E. apply (f_equal (fun x => Z.testbit x 7)) in E.
  rewrite Z.land_spec, Z.lor_spec, orb_true_r in E. discriminate E.
Qed.

Lemma confined_closed p : closed (fun q => cpu_ok q /\ confined p q).
Proof.
  pose proof cpu_ok_closed as C. split; [by intros q [] | ..].
  all: try (intros v q Hv [Hq Hc]; split; [by (apply (cl_carry _ C) || apply (cl_so_ov _ C) || apply (cl_cr _ C) || apply (cl_fpscr _ C) || apply (cl_npc _ C)) | destruct Hc; by split]).
  - intros r v q Hv [Hq Hc]. split; [by apply (cl_gpr _ C) | destruct Hc; by split].
  - intros r v q Hv [Hq Hc]. split; [by apply (cl_ps0 _ C) | destruct Hc; by split].
  - intros v q Hv [Hq []]. split; [by apply (cl_link _ C)|]. split; try done.
    + intros i H1 H2 H3. rewrite get_set_spr. destruct (Z.eqb_spec i SPR_LR); [done | auto].
    + by rewrite get_set_spr.
  - intros v q Hv [Hq []]. split; [by apply (cl_ctr _ C)|]. split; try done.
    + intros i H1 H2 H3. rewrite get_set_spr. destruct (Z.eqb_spec i SPR_CTR); [done | auto].
    + by rewrite get_set_spr.
  - intros cause q [Hq Hc]. split; [by apply (cl_program _ C)|]. destruct Hc as [Hm Hs Hf Hr H1 He]. split; try done.
    + intros i H2 H3 H4. unfold GenerateProgramException. rewrite get_set_spr. destruct (Z.eqb_spec i SPR_SRR1); [done|]. by apply Hr.
    + right. apply has_program.
    + right. cbn. destruct He as [-> | ->]; [done|]. by rewrite <- Z.lor_assoc, Z.lor_diag.
Qed.

(** The two traps and the system call; the privileged instructions. *)
Definition enters_exception (fn : Instruction) : bool := match fn with Op_sc | Op_twi | Op_tw => true | _ => false end.
Definition is_privileged (fn : Instruction) : bool :=
  match fn with Op_rfi | Op_mtmsr | Op_mfmsr | Op_mtsr | Op_mtsrin | Op_mfsr | Op_mfsrin => true | _ => false end.

Lemma privileged_in_user_mode fn f inst p : register_instruction fn = Some f -> is_privileged fn = true -> user_mode p = true ->
  f inst p = (GenerateProgramException PrivilegedInstruction p, false).
Proof.
  intros Hf Hi Hu. destruct fn; try discriminate Hi; injection Hf as <-; unfold goes_on;
    match goal with
    | |- context [rfi] => unfold rfi | |- context [mfmsr] => unfold mfmsr, privileged | |- context [mtmsr] => unfold mtmsr
    | |- context [mtsr] => unfold mtsr, privileged | |- context [mtsrin] => unfold mtsrin, privileged
    | |- context [mfsr] => unfold mfsr, privileged | |- context [mfsrin] => unfold mfsrin, privileged
    end; by rewrite Hu.
Qed.

(** The exceptions that the traps and the system call raise before they enter one. *)
Definition raised fn p q : Prop :=
  match fn with
  | Op_sc => q = raise_exception EXCEPTION_SYSCALL p
  | _ => q = GenerateProgramException Trap p
  end.

Lemma entering_in_user_mode fn f inst p : register_instruction fn = Some f -> enters_exception fn = true ->
  fst (f inst p) = p \/ exists q, raised fn p q /\ fst (f inst p) = CheckExceptions q.
Proof.
  intros Hf He. destruct fn; try discriminate He; injection Hf as <-.
  - unfold twi, take_trap. case_match; [right; by eexists | by left].
  - right. by eexists.
  - unfold tw, take_trap. case_match; [right; by eexists | by left].
Qed.

(** C10. Protection.  In user mode no instruction on the registers gets at the machine's
    state: the privileged instructions do nothing but raise a program exception, and all
    others leave the machine state register, the segment registers, the translation's flags
    and the special purpose registers but LR and CTR as they are (and SRR1, unless they
    raise a program exception).  Only a system call or a trap changes the machine state, by
    the delivery of an exception out of exactly the state it was executed in. *)
Theorem user_mode_confined inst p p' end_block :
  cpu_ok p -> user_mode p = true -> RunInterpreterOp inst p = Some (p', end_block) ->
  let fn := GetInterpreterOp inst in
  (is_privileged fn = true -> p' = GenerateProgramException PrivilegedInstruction p /\ end_block = false) /\
  (confined p p' \/ enters_exception fn = true /\ exists q, raised fn p q /\ p' = CheckExceptions q).
Proof.
  intros Hp Hu Hr. cbv zeta. unfold RunInterpreterOp in Hr.
  destruct (register_instruction _) as [f|] eqn:Hf; [|discriminate Hr]. injection Hr as Hr.
  split; [intros Hi; rewrite (privileged_in_user_mode _ f inst p Hf Hi Hu) in Hr; by injection Hr as <- <-|].
  change p' with (fst (p', end_block)). rewrite <- Hr.
  destruct (is_privileged (GetInterpreterOp inst)) eqn:Hi.
  - rewrite (privileged_in_user_mode _ f inst p Hf Hi Hu). left.
    apply (cl_program _ (confined_closed p)). split; [exact Hp | apply confined_refl].
  - destruct (enters_exception (GetInterpreterOp inst)) eqn:He.
    + destruct (entering_in_user_mode _ f inst p Hf He) as [-> | Hq]; [left; apply confined_refl | by right].
    + left. assert (Ho : ordinary (GetInterpreterOp inst) = true) by (by destruct (GetInterpreterOp inst)).
      exact (proj2 (ordinary_closed _ (confined_closed p) _ _ _ _ Hf Ho (conj Hp (confined_refl p)))).
Qed.

(** ** Executions *)

(** The sample state in user mode: [msr.PR] and [msr.EE]. *)
Definition user_cpu : PPCState := fset p_msr 0xC000 sample_cpu.

Lemma sample_cpu_typed : cpu_ok sample_cpu.
Proof. split; [exact sample_cpu_ok | split; [done|reflexivity] | apply arr_ok_empty; split; [done|reflexivity]]. Qed.

Lemma user_cpu_typed : cpu_ok user_cpu.
Proof. apply cpu_msr; [split; [done|reflexivity] | exact sample_cpu_typed]. Qed.

(** [mtmsr r4] in user mode; [sc] enters its handler. *)
Lemma user_mode_confined_witness :
  exists p', RunInterpreterOp 0x7C800124 user_cpu = Some (p', false) /\ msr p' = msr user_cpu /\ has EXCEPTION_PROGRAM (Exceptions p') = true /\
    exists q, RunInterpreterOp 0x44000002 user_cpu = Some (CheckExceptions q, true) /\ raised Op_sc user_cpu q.
Proof.
  eexists. split; [reflexivity|].
  destruct (user_mode_confined 0x7C800124 user_cpu _ false user_cpu_typed eq_refl eq_refl) as [Hp _]. destruct (Hp eq_refl) as [E1 _].
  split; [exact (f_equal msr E1)|]. split; [exact (f_equal (fun q => has EXCEPTION_PROGRAM (Exceptions q)) E1)|].
  destruct (user_mode_confined 0x44000002 user_cpu _ true user_cpu_typed eq_refl eq_refl) as [_ [Hc | [_ (q & Hq & E)]]].
  - exfalso. assert (Hm := cf_msr _ _ Hc). vm_compute in Hm. discriminate Hm.
  - exists q. split; [|exact Hq]. rewrite <- E. reflexivity.
Defined.
