(* ===== verification/PPCAnalyst.v ===== *)
(** The recompilers' analysis of a block of instructions ([Core/PowerPC/PPCAnalyst.h] and
    [.cpp]): what every instruction reads and writes, the reordering of adjacent
    instructions, and the backward scan for values that are not needed any more.  How the
    block is read from memory, its floating-point flags and the analysis of whole functions
    are not modelled. *)
From stdpp Require Import base tactics option list gmap.
From Stdlib Require Import ZArith Lia Bool.
From S2P Require Import Prelude PowerPC Gekko PPCTables.

#[local] Open Scope Z_scope.

(** * [BitSet8] and [BitSet32] *)

Definition bs_set (i s : Z) : Z := s .| (1 .<< i).
Definition bs_set_if (b : bool) (i s : Z) : Z := if b then bs_set i s else s.
(** A set as a condition: it is not empty. *)
Definition bs_any (s : Z) : bool := negb (s =? 0).

(** [flags & f] as a condition. *)
Definition has_flag (f flags : Z) : bool := negb ((flags .& f) =? 0).

(** * The analyzer and its operands *)

Record CodeOp : Type := mkCodeOp {
  co_inst : Z;
  opinfo : GekkoOPTemplate;
  address : Z;
  branchTo : Z;
  regsIn : Z;
  regsOut : Z;
  fregsIn : Z;
  fregOut : Z;
  crIn : Z;
  crOut : Z;
  branchUsesCtr : bool;
  wantsFPRF : bool;
  wantsCA : bool;
  wantsCAInFlags : bool;
  outputFPRF : bool;
  outputCA : bool;
  canEndBlock : bool;
  canCauseException : bool
}.

(** [PPCAnalyzer]'s options, and the addresses with a breakpoint. *)
Record PPCAnalyzer : Type := mkAnalyzer {
  option_branch_merge : bool;
  option_carry_merge : bool;
  option_cror_merge : bool;
  m_is_debugging_enabled : bool;
  m_enable_float_exceptions : bool;
  m_enable_div_by_zero_exceptions : bool;
  IsAddressBreakPoint : Z -> bool
}.

Definition IsMtspr (inst : Z) : bool := (OPCD inst =? 31) && (SUBOP10 inst =? 467).

Definition spr_index (inst : Z) : Z := (SPRU inst .<< 5) .| (SPRL inst .& 0x1F).

Definition IsSprInstructionUsingMmcr (inst : Z) : bool :=
  let index := spr_index inst in (index =? SPR_MMCR0) || (index =? SPR_MMCR1).

Definition InstructionCanEndBlock (inst : Z) (info : GekkoOPTemplate) : bool :=
  has_flag FL_ENDBLOCK (op_flags info) && (negb (IsMtspr inst) || IsSprInstructionUsingMmcr inst).

(** * [SetInstructionStats]

    By the members it sets. *)

Definition FD (inst : Z) : Z := bits 21 5 inst.
Definition FS (inst : Z) : Z := bits 21 5 inst.
Definition FA (inst : Z) : Z := bits 16 5 inst.
Definition FB (inst : Z) : Z := bits 11 5 inst.
Definition FC (inst : Z) : Z := bits 6 5 inst.
Definition RC (inst : Z) : Z := bits 6 5 inst.

Definition crIn_of (inst : Z) (info : GekkoOPTemplate) : Z :=
  let flags := op_flags info in
  if has_flag FL_READ_ALL_CR flags then 0xFF
  else if has_flag FL_READ_CRn flags then bs_set (CRFS inst) 0
  else if has_flag FL_READ_CR_BI flags then bs_set (BI inst .>> 2) 0
  else if bool_decide (op_type info = TypeCR) then
    bs_set (CRBD inst .>> 2) (bs_set (CRBB inst .>> 2) (bs_set (CRBA inst .>> 2) 0))
  else 0.

Definition crOut_of (inst : Z) (info : GekkoOPTemplate) : Z :=
  let flags := op_flags info in
  if has_flag FL_SET_ALL_CR flags then 0xFF
  else if has_flag FL_SET_CRn flags then bs_set (CRFD inst) 0
  else if has_flag FL_SET_CR0 flags || (has_flag FL_RC_BIT flags && Rc inst) then bs_set 0 0
  else if has_flag FL_SET_CR1 flags || (has_flag FL_RC_BIT_F flags && Rc inst) then bs_set 1 0
  else if bool_decide (op_type info = TypeCR) then bs_set (CRBD inst .>> 2) 0
  else 0.

Definition canCauseException_of (an : PPCAnalyzer) (first_fpu_instruction : bool) (info : GekkoOPTemplate) : bool :=
  let flags := op_flags info in
  first_fpu_instruction || has_flag (FL_LOADSTORE .| FL_PROGRAMEXCEPTION) flags ||
  (m_enable_float_exceptions an && has_flag FL_FLOAT_EXCEPTION flags) ||
  (m_enable_div_by_zero_exceptions an && has_flag FL_FLOAT_DIV flags).

Definition is_mfspr (inst : Z) : bool := (OPCD inst =? 31) && (SUBOP10 inst =? 339).

Definition wantsCA_of (inst : Z) (info : GekkoOPTemplate) : bool :=
  if is_mfspr inst then spr_index inst =? SPR_XER else has_flag FL_READ_CA (op_flags info).

Definition outputCA_of (inst : Z) (info : GekkoOPTemplate) : bool :=
  if IsMtspr inst then spr_index inst =? SPR_XER else has_flag FL_SET_CA (op_flags info).

(** [for (int iReg = first; iReg < 32; ++iReg) set[iReg] = true;] *)
Definition bs_from (first : Z) (s : Z) : Z :=
  foldl (fun s i => bs_set (Z.of_nat i) s) s (seq (Z.to_nat first) (32 - Z.to_nat first)).

Definition regsOut_of (inst : Z) (info : GekkoOPTemplate) : Z :=
  let flags := op_flags info in
  let s := bs_set_if (has_flag FL_OUT_A flags) (RA inst) 0 in
  let s := bs_set_if (has_flag FL_OUT_D flags) (RD inst) s in
  if OPCD inst =? 46 then bs_from (RD inst) s else s.

Definition regsIn_of (inst : Z) (info : GekkoOPTemplate) : Z :=
  let flags := op_flags info in
  let s := bs_set_if (has_flag FL_IN_A flags || (has_flag FL_IN_A0 flags && negb (RA inst =? 0))) (RA inst) 0 in
  let s := bs_set_if (has_flag FL_IN_B flags) (RB inst) s in
  let s := bs_set_if (has_flag FL_IN_C flags) (RC inst) s in
  let s := bs_set_if (has_flag FL_IN_S flags) (RS inst) s in
  if OPCD inst =? 47 then bs_from (RS inst) s else s.

Definition fregsIn_of (inst : Z) (info : GekkoOPTemplate) : Z :=
  let flags := op_flags info in
  let s := bs_set_if (has_flag FL_IN_FLOAT_A flags) (FA inst) 0 in
  let s := bs_set_if (has_flag FL_IN_FLOAT_B flags) (FB inst) s in
  let s := bs_set_if (has_flag FL_IN_FLOAT_C flags) (FC inst) s in
  let s := bs_set_if (has_flag FL_IN_FLOAT_D flags) (FD inst) s in
  bs_set_if (has_flag FL_IN_FLOAT_S flags) (FS inst) s.

Definition branchTo_of (inst address : Z) : Z :=
  if OPCD inst =? 18 then
    if AA inst then to_u32 (SignExt26 (to_u32 (LI inst .<< 2)))
    else to_u32 (address + SignExt26 (to_u32 (LI inst .<< 2)))
  else if OPCD inst =? 16 then
    if AA inst then to_u32 (SignExt16 (to_s16 (BD inst .<< 2)))
    else to_u32 (address + SignExt16 (to_s16 (BD inst .<< 2)))
  else 0xFFFFFFFF.

Definition decrements (inst : Z) : bool := (BO inst .& 4) =? 0.

Definition branchUsesCtr_of (inst : Z) : bool :=
  ((OPCD inst =? 16) || ((OPCD inst =? 19) && ((SUBOP10 inst =? 16) || (SUBOP10 inst =? 528)))) && decrements inst.

(** The block's [m_fpa->any] is passed along. *)
Definition SetInstructionStats (an : PPCAnalyzer) (fpa_any : bool) (inst addr : Z) : CodeOp * bool :=
  let info := GetOpInfo inst in
  let flags := op_flags info in
  let use_fpu := has_flag FL_USE_FPU flags in
  let first_fpu_instruction := use_fpu && negb fpa_any in
  ({| co_inst := inst; opinfo := info; address := addr;
      branchTo := branchTo_of inst addr;
      regsIn := regsIn_of inst info; regsOut := regsOut_of inst info;
      fregsIn := fregsIn_of inst info;
      fregOut := if has_flag FL_OUT_FLOAT_D flags then FD inst else -1;
      crIn := crIn_of inst info; crOut := crOut_of inst info;
      branchUsesCtr := branchUsesCtr_of inst;
      wantsFPRF := has_flag FL_READ_FPRF flags;
      wantsCA := wantsCA_of inst info;
      wantsCAInFlags := option_carry_merge an && (has_flag FL_READ_CA flags && has_flag FL_SET_CA flags &&
                                                  bool_decide (op_type info = TypeInteger));
      outputFPRF := has_flag FL_SET_FPRF flags;
      outputCA := outputCA_of inst info;
      canEndBlock := InstructionCanEndBlock inst info;
      canCauseException := canCauseException_of an first_fpu_instruction info |},
   fpa_any || use_fpu).

(** The instructions of a block, from its first address, one after the other. *)
Fixpoint analyze_ops (an : PPCAnalyzer) (fpa_any : bool) (addr : Z) (insts : list Z) : list CodeOp :=
  match insts with
  | [] => []
  | inst :: insts =>
      let '(op, fpa_any) := SetInstructionStats an fpa_any inst addr in
      op :: analyze_ops an fpa_any (to_u32 (addr + 4)) insts
  end.

(** * Reordering *)

Inductive ReorderType : Type := ReorderCarry | ReorderCMP | ReorderCROR.

Definition CanSwapAdjacentOps (an : PPCAnalyzer) (a b : CodeOp) : bool :=
  let a_flags := op_flags (opinfo a) in
  let b_flags := op_flags (opinfo b) in
  if m_is_debugging_enabled an && (IsAddressBreakPoint an (address a) || IsAddressBreakPoint an (address b)) then false
  else if canCauseException a || canCauseException b then false
  else if canEndBlock a || canEndBlock b then false
  else if has_flag (FL_TIMER .| FL_NO_REORDER .| FL_SET_OE) a_flags then false
  else if has_flag (FL_TIMER .| FL_NO_REORDER .| FL_SET_OE) b_flags then false
  else if has_flag (FL_SET_CA .| FL_READ_CA) a_flags && has_flag (FL_SET_CA .| FL_READ_CA) b_flags then false
  else if negb (bool_decide (op_type (opinfo b) = TypeInteger)) then false
  else if bs_any (regsOut b .& regsIn a) then false
  else if bs_any (crOut b .& crIn a) then false
  else if bs_any (regsOut a .& regsIn b) then false
  else if bs_any (crOut a .& crIn b) then false
  else if bs_any (regsOut b .& regsOut a) then false
  else if bs_any (crOut b .& crOut a) then false
  else true.

Definition isCarryOp (a : CodeOp) : bool :=
  has_flag FL_SET_CA (op_flags (opinfo a)) && negb (has_flag FL_SET_OE (op_flags (opinfo a))) &&
  bool_decide (op_type (opinfo a) = TypeInteger).

Definition isCror (a : CodeOp) : bool := (OPCD (co_inst a) =? 19) && (SUBOP10 (co_inst a) =? 449).

Definition reorders (type : ReorderType) (a : CodeOp) : bool :=
  match type with
  | ReorderCROR => isCror a
  | ReorderCarry => isCarryOp a
  | ReorderCMP => bs_any (crOut a)
  end.

(** Next to a carry instruction, don't move away: [previous] is [code[i - increment]]. *)
Definition carry_pair (reverse : bool) (previous a : CodeOp) : bool :=
  (negb reverse && has_flag FL_READ_CA (op_flags (opinfo a)) && has_flag FL_SET_CA (op_flags (opinfo previous))) ||
  (reverse && has_flag FL_SET_CA (op_flags (opinfo a)) && has_flag FL_READ_CA (op_flags (opinfo previous))).

Section Reorder.
Context (an : PPCAnalyzer) (reverse : bool) (type : ReorderType) (start end_ increment : Z).

(** One iteration at the index [i]: the code and [go_backwards] afterwards. *)
Definition reorder_at (i : Z) (code : list CodeOp) : option (list CodeOp * bool) :=
  a ← code !! Z.to_nat i;
  b ← code !! Z.to_nat (i + increment);
  if reorders type a then
    let previous := code !! Z.to_nat (i - increment) in
    let stays := match type, previous with
                 | ReorderCarry, Some previous => negb (i =? start) && carry_pair reverse previous a
                 | _, _ => false
                 end in
    if stays then Some (code, false)
    else if CanSwapAdjacentOps an a b then
      Some (<[Z.to_nat i := b]> (<[Z.to_nat (i + increment) := a]> code), negb (i =? start))
    else Some (code, false)
  else Some (code, false).

Fixpoint reorder_loop (fuel : nat) (i next : Z) (go_backwards : bool) (code : list CodeOp) : option (list CodeOp) :=
  match fuel with
  | O => None
  | S fuel =>
      let '(i, next) := if go_backwards then (i - increment, next) else (next, next + increment) in
      if i =? end_ then Some code
      else '(code, go_backwards) ← reorder_at i code; reorder_loop fuel i next go_backwards code
  end.
End Reorder.

(** [n * (n + 1) + 1] iterations are enough. *)
Definition ReorderInstructionsCore (an : PPCAnalyzer) (reverse : bool) (type : ReorderType) (code : list CodeOp)
    : option (list CodeOp) :=
  let n := Z.of_nat (length code) in
  let start := if reverse then n - 1 else 0 in
  let end_ := if reverse then 0 else n - 1 in
  let increment := if reverse then -1 else 1 in
  reorder_loop an reverse type start end_ increment (Z.to_nat (n * (n + 1) + 1)) start start false code.

Definition ReorderInstructions (an : PPCAnalyzer) (code : list CodeOp) : option (list CodeOp) :=
  code ← (if option_carry_merge an then
            code ← ReorderInstructionsCore an false ReorderCarry code;
            ReorderInstructionsCore an true ReorderCarry code
          else Some code);
  code ← (if option_branch_merge an then ReorderInstructionsCore an false ReorderCMP code else Some code);
  if option_cror_merge an then ReorderInstructionsCore an true ReorderCROR code else Some code.
