(* ===== verification/PPCTableProps.v ===== *)
(** The two sets of instruction tables agree, what the flags of an instruction promise is what
    the instruction does, and what holds of every entry holds of the entry that any instruction
    word finds. *)
From stdpp Require Import base tactics option list gmap.
From Stdlib Require Import ZArith Lia Bool String.
From S2P Require Import Prelude PowerPC PowerPCProps ConditionRegister Gekko PPCInteger PPCIntegerProps.
From S2P Require Import PPCSystem PPCTables InterpreterTables PPCInterpreter PPCAnalyst.

#[local] Open Scope Z_scope.
Implicit Types (inst : Z) (p : PPCState).

(** * The tables side by side *)

Definition entry : Type := InterpreterOpTemplate * GekkoOPTemplate.
Definition entry_code (e : entry) : Z := fst (fst e).

Definition both_table : table entry := add_templates entry_code (zip op_primary_table s_primary_table) ∅.
Definition both_table4 : table entry :=
  add_templates entry_code (zip op_table4 s_table4)
    (add_filled entry_code 16 6 (zip op_table4_3 s_table4_3) (add_filled entry_code 32 5 (zip op_table4_2 s_table4_2) ∅)).
Definition both_table19 : table entry := add_templates entry_code (zip op_table19 s_table19) ∅.
Definition both_table31 : table entry := add_templates entry_code (zip op_table31 s_table31) ∅.
Definition both_table59 : table entry := add_templates entry_code (zip op_table59 s_table59) ∅.
Definition both_table63 : table entry :=
  add_filled entry_code 32 5 (zip op_table63_2 s_table63_2) (add_templates entry_code (zip op_table63 s_table63) ∅).

Definition sides (t : table entry) (ops : table InterpreterOpTemplate) (infos : table GekkoOPTemplate) : Prop :=
  ops = fst <$> t /\ infos = snd <$> t.

Lemma primary_sides : sides both_table s_interpreter_op_table primary_table.
Proof. split; vm_compute; reflexivity. Qed.
Lemma table4_sides : sides both_table4 s_interpreter_op_table4 table4.
Proof. split; vm_compute; reflexivity. Qed.
Lemma table19_sides : sides both_table19 s_interpreter_op_table19 table19.
Proof. split; vm_compute; reflexivity. Qed.
Lemma table31_sides : sides both_table31 s_interpreter_op_table31 table31.
Proof. split; vm_compute; reflexivity. Qed.
Lemma table59_sides : sides both_table59 s_interpreter_op_table59 table59.
Proof. split; vm_compute; reflexivity. Qed.
Lemma table63_sides : sides both_table63 s_interpreter_op_table63 table63.
Proof. split; vm_compute; reflexivity. Qed.

Definition unknown_entry : entry := ((0, Op_unknown_instruction), s_unknown_op_info).

(** The entry of an instruction word, with the index it was found under. *)
Definition entry_at (t : table entry) (op : Z) : Z * entry := (op, default unknown_entry (t !! op)).

Lemma sides_at t ops infos op : sides t ops infos ->
  op_at ops op = snd (fst (snd (entry_at t op))) /\ info_at infos op = snd (snd (entry_at t op)).
Proof.
  intros [-> ->]. unfold op_at, info_at, entry_at. cbn [snd]. rewrite !lookup_fmap. unfold entry in *.
  by destruct (t !! op) as [[[? ?] ?]|].
Qed.

Definition find_entry inst : Z * entry :=
  if OPCD inst =? 4 then entry_at both_table4 (SUBOP10 inst)
  else if OPCD inst =? 19 then entry_at both_table19 (SUBOP10 inst)
  else if OPCD inst =? 31 then entry_at both_table31 (SUBOP10 inst)
  else if OPCD inst =? 59 then entry_at both_table59 (SUBOP5 inst)
  else if OPCD inst =? 63 then entry_at both_table63 (SUBOP10 inst)
  else entry_at both_table (OPCD inst).

(** No entry of the primary table is a subtable but those five, and those are. *)
Definition subtable_of (fn : Instruction) : option Z :=
  match fn with
  | Op_RunTable4 => Some 4 | Op_RunTable19 => Some 19 | Op_RunTable31 => Some 31 | Op_RunTable59 => Some 59 | Op_RunTable63 => Some 63
  | _ => None
  end.

Definition primary_entry_ok (op : Z) : bool :=
  let e := snd (entry_at both_table op) in
  match subtable_of (snd (fst e)) with
  | Some k => (op =? k) && bool_decide (op_type (snd e) = TypeSubtable)
  | None => negb (existsb (Z.eqb op) [4; 19; 31; 59; 63]) && negb (bool_decide (op_type (snd e) = TypeSubtable)) &&
            negb (bool_decide (op_type (snd e) = TypeInvalid))
  end.

Lemma primary_entries_ok op : 0 <= op < 64 -> primary_entry_ok op = true.
Proof.
  intros Hop. assert (H : forallb primary_entry_ok (map Z.of_nat (seq 0 64)) = true) by (vm_compute; reflexivity).
  rewrite forallb_forall in H. apply H. apply in_map_iff. exists (Z.to_nat op). split; [lia|]. apply in_seq. lia.
Qed.

Definition if_subtable {A} (k : Z) (a b c d e f : A) : A :=
  if k =? 4 then a else if k =? 19 then b else if k =? 31 then c else if k =? 59 then d else if k =? 63 then e else f.

Lemma match_subtable {A} (fn : Instruction) (a b c d e f : A) :
  match fn with
  | Op_RunTable4 => a | Op_RunTable19 => b | Op_RunTable31 => c | Op_RunTable59 => d | Op_RunTable63 => e
  | _ => f
  end = match subtable_of fn with Some k => if_subtable k a b c d e f | None => f end.
Proof. destruct fn; reflexivity. Qed.

Lemma match_opcode {A} (k : Z) (a b c d e f : A) :
  match k with 4 => a | 19 => b | 31 => c | 59 => d | 63 => e | _ => f end = if_subtable k a b c d e f.
Proof.
  unfold if_subtable. destruct (Z.eqb_spec k 4) as [->|]; [done|]. destruct (Z.eqb_spec k 19) as [->|]; [done|].
  destruct (Z.eqb_spec k 31) as [->|]; [done|]. destruct (Z.eqb_spec k 59) as [->|]; [done|]. destruct (Z.eqb_spec k 63) as [->|]; [done|].
  repeat (case_match; try reflexivity; try congruence).
Qed.

Lemma subtable_cases fn k : subtable_of fn = Some k -> k = 4 \/ k = 19 \/ k = 31 \/ k = 59 \/ k = 63.
Proof. intros H. destruct fn; try discriminate H; injection H as <-; tauto. Qed.

Lemma find_entry_eq inst :
  find_entry inst = if_subtable (OPCD inst) (entry_at both_table4 (SUBOP10 inst)) (entry_at both_table19 (SUBOP10 inst))
    (entry_at both_table31 (SUBOP10 inst)) (entry_at both_table59 (SUBOP5 inst)) (entry_at both_table63 (SUBOP10 inst))
    (entry_at both_table (OPCD inst)).
Proof. reflexivity. Qed.

(** The two ways to look a word up find the two sides of one entry. *)
Lemma find_entry_spec inst :
  GetInterpreterOp inst = snd (fst (snd (find_entry inst))) /\ GetOpInfo inst = snd (snd (find_entry inst)).
Proof.
  pose proof (bits_range 26 6 inst ltac:(lia)) as Ho. fold (OPCD inst) in Ho.
  pose proof (primary_entries_ok (OPCD inst) Ho) as Hok. unfold primary_entry_ok in Hok.
  destruct (sides_at _ _ _ (OPCD inst) primary_sides) as [E1 E2].
  unfold GetInterpreterOp, GetOpInfo. cbv zeta. rewrite E1, E2, match_subtable, match_opcode, find_entry_eq.
  set (e := snd (entry_at both_table (OPCD inst))) in *.
  destruct (sides_at _ _ _ (SUBOP10 inst) table4_sides) as [A4 B4]. destruct (sides_at _ _ _ (SUBOP10 inst) table19_sides) as [A19 B19].
  destruct (sides_at _ _ _ (SUBOP10 inst) table31_sides) as [A31 B31]. destruct (sides_at _ _ _ (SUBOP5 inst) table59_sides) as [A59 B59].
  destruct (sides_at _ _ _ (SUBOP10 inst) table63_sides) as [A63 B63]. rewrite A4, B4, A19, B19, A31, B31, A59, B59, A63, B63.
  destruct (subtable_of (snd (fst e))) as [k|] eqn:Ek.
  - apply andb_prop in Hok as [Hop Ht]. apply Z.eqb_eq in Hop. apply bool_decide_eq_true in Ht. rewrite Ht, Hop.
    destruct (subtable_cases _ _ Ek) as [->|[->|[->|[->| ->]]]]; split; exact eq_refl.
  - apply andb_prop in Hok as [Hok Hi]. apply andb_prop in Hok as [Hn Hs].
    apply negb_true_iff, bool_decide_eq_false in Hs. apply negb_true_iff, bool_decide_eq_false in Hi.
    apply negb_true_iff in Hn. cbn [existsb] in Hn.
    repeat (apply orb_false_elim in Hn as [?Hk Hn]). unfold if_subtable. rewrite Hk, Hk0, Hk1, Hk2, Hk3.
    split; [exact eq_refl|]. destruct (op_type (snd e)); first [exact eq_refl | congruence].
Qed.

(** * All entries *)

(** The table a word is looked up in, by the opcode that leads to it; 0 is the primary one. *)
Definition table_of inst : Z := if_subtable (OPCD inst) 4 19 31 59 63 0.

Definition all_tables : list (Z * table entry) :=
  [(0, both_table); (4, both_table4); (19, both_table19); (31, both_table31); (59, both_table59); (63, both_table63)].

Definition every_entry (P : Z -> Z * entry -> bool) : bool :=
  forallb (fun '(k, t) => forallb (P k) (map_to_list t)) all_tables.

Lemma every_entry_in (P : Z -> Z * entry -> bool) k t op : In (k, t) all_tables ->
  (forall op, P k (op, unknown_entry) = true) -> every_entry P = true -> P k (entry_at t op) = true.
Proof.
  intros Hin Hu He. unfold every_entry in He. rewrite forallb_forall in He. specialize (He _ Hin). cbn beta iota in He.
  unfold entry_at. destruct (t !! op) as [e|] eqn:E; [|apply Hu].
  rewrite forallb_forall in He. apply He. apply list_elem_of_In. by apply elem_of_map_to_list.
Qed.

Lemma find_entry_all (P : Z -> Z * entry -> bool) inst :
  (forall k op, P k (op, unknown_entry) = true) -> every_entry P = true -> P (table_of inst) (find_entry inst) = true.
Proof.
  intros Hu He. rewrite find_entry_eq. unfold table_of, if_subtable.
  repeat match goal with |- context [OPCD inst =? ?k] => destruct (OPCD inst =? k) end;
    (apply every_entry_in; [cbn; tauto | apply Hu | exact He]).
Qed.

(** In the table of opcode 31 the index is the ten bits of the extended opcode. *)
Lemma find_entry_index31 inst : table_of inst = 31 -> OPCD inst = 31 /\ fst (find_entry inst) = SUBOP10 inst.
Proof.
  rewrite find_entry_eq. unfold table_of, if_subtable.
  repeat match goal with |- context [OPCD inst =? ?k] => destruct (Z.eqb_spec (OPCD inst) k) end; done.
Qed.

Lemma OE_bit inst : OE inst = Z.testbit (SUBOP10 inst) 9.
Proof.
  unfold OE, flag, SUBOP10, bits. change (2 ^ 10 - 1) with (Z.ones 10). by rewrite Z.land_ones, Z.mod_pow2_bits_low, Z.shiftr_spec by lia.
Qed.

(** * The names *)

(** The form of an addition, subtraction, multiplication or division that records overflow:
    [addox] for [addx]. *)
Definition overflow_name (name : string) : string := substring 0 (String.length name - 1) name ++ "ox".

Definition names_agree (k : Z) (e : Z * entry) : bool :=
  let '(op, ((_, fn), info)) := e in
  (String.eqb (opname info) (fn_name fn) && negb (has_flag FL_SET_OE (op_flags info)) ||
   (k =? 31) && Z.testbit op 9 && String.eqb (opname info) (overflow_name (fn_name fn)) && has_flag FL_SET_OE (op_flags info)) &&
  Bool.eqb (match fn with Op_unknown_instruction => true | _ => false end) (bool_decide (op_type info = TypeUnknown)) &&
  negb (bool_decide (op_type info = TypeInvalid)).

Lemma all_names_agree : every_entry names_agree = true.
Proof. vm_compute. reflexivity. Qed.

(** The number of writes that build a table of 1024 entries out of its parts. *)
Definition filled_writes {A} (n : nat) (l : list A) : nat := (n * Datatypes.length l)%nat.

(** Every write finds the slot unused, as the tables have as many entries as writes. *)
Lemma table_sizes :
  size primary_table = Datatypes.length s_primary_table /\ size table19 = Datatypes.length s_table19 /\ size table31 = Datatypes.length s_table31 /\
  size table59 = Datatypes.length s_table59 /\
  size table4 = (Datatypes.length s_table4 + filled_writes 16 s_table4_3 + filled_writes 32 s_table4_2)%nat /\
  size table63 = (Datatypes.length s_table63 + filled_writes 32 s_table63_2)%nat.
Proof. split_and!; vm_compute; reflexivity. Qed.

Lemma interpreter_table_sizes :
  size s_interpreter_op_table = Datatypes.length op_primary_table /\
  size s_interpreter_op_table4 = (Datatypes.length op_table4 + filled_writes 16 op_table4_3 + filled_writes 32 op_table4_2)%nat /\
  size s_interpreter_op_table19 = Datatypes.length op_table19 /\ size s_interpreter_op_table31 = Datatypes.length op_table31 /\
  size s_interpreter_op_table59 = Datatypes.length op_table59 /\
  size s_interpreter_op_table63 = (Datatypes.length op_table63 + filled_writes 32 op_table63_2)%nat.
Proof. split_and!; vm_compute; reflexivity. Qed.

(** C20. The analyzer's and recompiler's instruction tables and the interpreter's dispatch
    tables agree: every word whose entry has a name in the former is executed by the function
    of that name in the latter, except that the forms of an arithmetic instruction that record
    overflow (opcode 31 with the OE bit) have a name and a flag of their own; a word is
    invalid to one exactly if it is unknown to the other.  No table of either set has a slot
    that is written twice: each has as many entries as the writes that build it. *)
Theorem instruction_tables_agree inst :
  let info := GetOpInfo inst in
  let fn := GetInterpreterOp inst in
  (GetInstructionName inst = fn_name fn /\ has_flag FL_SET_OE (op_flags info) = false \/
   OPCD inst = 31 /\ OE inst = true /\ GetInstructionName inst = overflow_name (fn_name fn) /\ has_flag FL_SET_OE (op_flags info) = true) /\
  (IsValidInstruction inst = false <-> fn = Op_unknown_instruction) /\
  size primary_table = Datatypes.length s_primary_table /\ size table19 = Datatypes.length s_table19 /\ size table31 = Datatypes.length s_table31 /\
  size table59 = Datatypes.length s_table59 /\
  size table4 = (Datatypes.length s_table4 + filled_writes 16 s_table4_3 + filled_writes 32 s_table4_2)%nat /\
  size table63 = (Datatypes.length s_table63 + filled_writes 32 s_table63_2)%nat /\
  size s_interpreter_op_table = Datatypes.length op_primary_table /\
  size s_interpreter_op_table4 = (Datatypes.length op_table4 + filled_writes 16 op_table4_3 + filled_writes 32 op_table4_2)%nat /\
  size s_interpreter_op_table19 = Datatypes.length op_table19 /\ size s_interpreter_op_table31 = Datatypes.length op_table31 /\
  size s_interpreter_op_table59 = Datatypes.length op_table59 /\
  size s_interpreter_op_table63 = (Datatypes.length op_table63 + filled_writes 32 op_table63_2)%nat.
Proof.
  cbv zeta. unfold GetInstructionName, IsValidInstruction. destruct (find_entry_spec inst) as [-> ->].
  assert (H : names_agree (table_of inst) (find_entry inst) = true) by (apply find_entry_all; [reflexivity | exact all_names_agree]).
  pose proof (find_entry_index31 inst) as H31. rewrite OE_bit. destruct (find_entry inst) as [op [[code fn] info]]. cbn [fst snd] in *.
  unfold names_agree in H. rewrite !andb_true_iff, orb_true_iff, !andb_true_iff, !String.eqb_eq, negb_true_iff, Z.eqb_eq in H.
  destruct H as [[Hn Hu] Hi]. split; [|split; [|pose proof table_sizes; pose proof interpreter_table_sizes; tauto]].
  - destruct Hn as [Hn|[[[Hk Ho] Hn] Hf]]; [by left|right]. destruct (H31 Hk) as [E1 E2]. by rewrite <- E2.
  - apply negb_true_iff, bool_decide_eq_false in Hi. apply Bool.eqb_prop in Hu.
    rewrite bool_decide_eq_false_2 by done. cbn [negb andb]. rewrite <- Hu. destruct fn; cbn; split; congruence.
Qed.
