(* ===== verification/Footprint.v ===== *)
(** What an instruction reads and what it writes: instructions whose footprints do not
    overlap can be executed in either order. *)
From stdpp Require Import base tactics option list gmap.
From Stdlib Require Import ZArith Lia Bool.
From S2P Require Import Prelude PowerPC PowerPCProps ConditionRegister Gekko PPCInteger PPCIntegerProps PPCSystem.

#[local] Open Scope Z_scope.
Implicit Types (inst : Z) (p q : PPCState).

(** * Locations

    The parts of the state that instructions in the middle of a block work on. *)
Inductive Loc : Type :=
  | LGpr (i : Z) | LCr (i : Z) | LCa | LOv | LFpscr | LExceptions | LSrr1 | LPs0 (i : Z).

#[export] Instance Loc_eq_dec : EqDecision Loc.
Proof. solve_decision. Defined.

Definition get_loc (l : Loc) p : Z :=
  match l with
  | LGpr i => get_gpr i p
  | LCr i => aat (cr_fields p) i
  | LCa => xer_ca p
  | LOv => xer_so_ov p
  | LFpscr => fpscr p
  | LExceptions => Exceptions p
  | LSrr1 => get_spr SPR_SRR1 p
  | LPs0 i => aat (ps0 p) i
  end.

Definition put_loc (l : Loc) (v : Z) p : PPCState :=
  match l with
  | LGpr i => set_gpr i v p
  | LCr i => fset p_cr_fields (aupd (cr_fields p) i v) p
  | LCa => fset p_xer_ca v p
  | LOv => fset p_xer_so_ov v p
  | LFpscr => fset p_fpscr v p
  | LExceptions => fset p_Exceptions v p
  | LSrr1 => set_spr SPR_SRR1 v p
  | LPs0 i => fset p_ps0 (aupd (ps0 p) i v) p
  end.

Lemma get_put l v p : get_loc l (put_loc l v p) = v.
Proof. destruct l; cbn; try done; apply aat_aupd_eq. Qed.

Lemma get_put_ne l l' v p : l <> l' -> get_loc l (put_loc l' v p) = get_loc l p.
Proof. intros Hne. destruct l, l'; try done; cbn; apply aat_aupd_ne; congruence. Qed.

Lemma put_put_ne l l' v v' p : l <> l' -> put_loc l v (put_loc l' v' p) = put_loc l' v' (put_loc l v p).
Proof.
  intros Hne. destruct l as [i| i| | | | | |i], l' as [j| j| | | | | |j]; try reflexivity; try done;
    assert (i <> j) by congruence; cbn; unfold set_gpr; cbn; unfold aupd; by rewrite insert_insert_ne.
Qed.

Lemma put_loc_msr l v p : msr (put_loc l v p) = msr p.
Proof. by destruct l. Qed.

(** * Writes *)

Definition writes : Type := list (Loc * Z).
Fixpoint apply_writes (ws : writes) p : PPCState :=
  match ws with [] => p | (l, v) :: ws => apply_writes ws (put_loc l v p) end.

Lemma apply_writes_app l1 l2 p : apply_writes (l1 ++ l2) p = apply_writes l2 (apply_writes l1 p).
Proof. revert p. induction l1 as [|[k v] l1 IH]; intros p; [done|]. cbn. apply IH. Qed.

Lemma apply_writes_msr ws p : msr (apply_writes ws p) = msr p.
Proof. revert p. induction ws as [|[k x] ws IH]; intros p; [done|]. cbn. rewrite IH. apply put_loc_msr. Qed.

Lemma get_apply_writes l ws p : ~ In l (map fst ws) -> get_loc l (apply_writes ws p) = get_loc l p.
Proof.
  revert p. induction ws as [|[k x] ws IH]; intros p Hl; [done|]. cbn in *. rewrite IH by tauto. apply get_put_ne. intros ->. tauto.
Qed.

Lemma put_apply_writes l v ws p :
  ~ In l (map fst ws) -> put_loc l v (apply_writes ws p) = apply_writes ws (put_loc l v p).
Proof.
  revert p. induction ws as [|[k x] ws IH]; intros p Hl; [done|]. cbn in *. rewrite IH by tauto. f_equal. apply put_put_ne.
  intros ->. tauto.
Qed.

Lemma apply_writes_comm ws ws' p :
  (forall l, In l (map fst ws) -> ~ In l (map fst ws')) ->
  apply_writes ws (apply_writes ws' p) = apply_writes ws' (apply_writes ws p).
Proof.
  revert p. induction ws as [|[k x] ws IH]; intros p Hd; [done|]. cbn in *.
  rewrite put_apply_writes by (apply Hd; by left). apply IH. intros l Hl. apply Hd. by right.
Qed.

(** * Footprints *)

(** States that look the same to an instruction that reads [R]. *)
Definition agree (R : Loc -> Prop) p q : Prop := (forall l, R l -> get_loc l p = get_loc l q) /\ msr p = msr q.

(** What is written is inside [W], and depends on [R] alone. *)
Definition footprint (R W : Loc -> Prop) (f : PPCState -> PPCState) : Prop := forall p,
  exists ws, (forall l, In l (map fst ws) -> W l) /\ forall q, agree R p q -> f q = apply_writes ws q.

Lemma agree_refl R p : agree R p p.
Proof. by split. Qed.

Lemma agree_writes (R : Loc -> Prop) ws p : (forall l, In l (map fst ws) -> ~ R l) -> agree R p (apply_writes ws p).
Proof.
  intros Hd. split; [|by rewrite apply_writes_msr]. intros l Hl. symmetry. apply get_apply_writes. intros Hin. exact (Hd l Hin Hl).
Qed.

Lemma footprint_mono (R R' W W' : Loc -> Prop) f :
  (forall l, R l -> R' l) -> (forall l, W l -> W' l) -> footprint R W f -> footprint R' W' f.
Proof.
  intros HR HW Hf p. destruct (Hf p) as (ws & Hws & Heq). exists ws. split; [auto|].
  intros q [Hq Hm]. apply Heq. split; [|done]. auto.
Qed.

(** Instructions with disjoint footprints commute. *)
Theorem footprints_commute (Ra Wa Rb Wb : Loc -> Prop) f g p :
  footprint Ra Wa f -> footprint Rb Wb g ->
  (forall l, Wa l -> ~ Rb l) -> (forall l, Wb l -> ~ Ra l) -> (forall l, Wa l -> ~ Wb l) ->
  g (f p) = f (g p).
Proof.
  intros Hf Hg Hab Hba Hww. destruct (Hf p) as (wa & Hwa & Ef), (Hg p) as (wb & Hwb & Eg).
  rewrite (Ef p), (Eg p) by apply agree_refl.
  rewrite (Eg (apply_writes wa p)) by (apply agree_writes; auto).
  rewrite (Ef (apply_writes wb p)) by (apply agree_writes; auto).
  apply apply_writes_comm. intros l Hl Ha. exact (Hww l (Hwa l Ha) (Hwb l Hl)).
Qed.

(** * The shapes of instructions

    Footprints by the locations in two lists. *)
Definition within (l : list Loc) : Loc -> Prop := fun x => In x l.
Definition if_loc (b : bool) (l : Loc) : list Loc := if b then [l] else [].

Lemma agree_in R p q l : agree (within R) p q -> In l R -> get_loc l p = get_loc l q.
Proof. intros [H _]. apply H. Qed.

Lemma agree_gpr R p q i : agree (within R) p q -> In (LGpr i) R -> get_gpr i q = get_gpr i p.
Proof. intros H Hi. symmetry. exact (agree_in R p q (LGpr i) H Hi). Qed.
Lemma agree_cr R p q i : agree (within R) p q -> In (LCr i) R -> aat (cr_fields q) i = aat (cr_fields p) i.
Proof. intros H Hi. symmetry. exact (agree_in R p q (LCr i) H Hi). Qed.
Lemma agree_ca R p q : agree (within R) p q -> In LCa R -> xer_ca q = xer_ca p.
Proof. intros H Hi. symmetry. exact (agree_in R p q LCa H Hi). Qed.
Lemma agree_ov R p q : agree (within R) p q -> In LOv R -> xer_so_ov q = xer_so_ov p.
Proof. intros H Hi. symmetry. exact (agree_in R p q LOv H Hi). Qed.

(** [v] depends on the registers in [R] alone. *)
Definition depends {A} (R : list Loc) (v : PPCState -> A) : Prop := forall p q, agree (within R) p q -> v q = v p.

Lemma agree_sub (R R' : list Loc) p q : (forall l, In l R -> In l R') -> agree (within R') p q -> agree (within R) p q.
Proof. intros Hs [H Hm]. split; [|done]. intros l Hl. apply H. by apply Hs. Qed.

(** A register, and field 0 in a record form. *)
Lemma footprint_result inst r (R : list Loc) (v : PPCState -> Z) f :
  depends R v ->
  (forall q, f q = update_Rc inst (v q) (set_gpr r (v q) q)) ->
  footprint (within (LOv :: R)) (within (LGpr r :: if_loc (Rc inst) (LCr 0))) f.
Proof.
  intros Hv Hf p. exists ((LGpr r, v p) :: if Rc inst then [(LCr 0, cr0_value (GetXER_SO p) (v p))] else []). split.
  - unfold within, if_loc. by destruct (Rc inst).
  - intros q Hq. rewrite Hf, (Hv p q) by (eapply agree_sub; [|exact Hq]; cbn; auto). unfold update_Rc. destruct (Rc inst); [|done].
    unfold Helper_UpdateCR0. cbn. unfold GetXER_SO. cbn. by rewrite (agree_ov _ p q Hq) by (cbn; auto).
Qed.

Lemma footprint_carry inst r (R : list Loc) (v : PPCState -> Z) (c : PPCState -> bool) f :
  depends R v -> depends R c ->
  (forall q, f q = update_Rc inst (v q) (SetCarry (truth (c q)) (set_gpr r (v q) q))) ->
  footprint (within (LOv :: R)) (within (LGpr r :: LCa :: if_loc (Rc inst) (LCr 0))) f.
Proof.
  intros Hv Hc Hf p.
  exists ((LGpr r, v p) :: (LCa, to_u8 (truth (c p))) :: if Rc inst then [(LCr 0, cr0_value (GetXER_SO p) (v p))] else []). split.
  - unfold within, if_loc. by destruct (Rc inst).
  - intros q Hq. assert (Hs : agree (within R) p q) by (eapply agree_sub; [|exact Hq]; cbn; auto).
    rewrite Hf, (Hv p q), (Hc p q) by exact Hs. unfold update_Rc. destruct (Rc inst); [|done].
    unfold Helper_UpdateCR0. cbn. unfold GetXER_SO. cbn. by rewrite (agree_ov _ p q Hq) by (cbn; auto).
Qed.

(** A register alone. *)
Lemma footprint_gpr r (R : list Loc) (v : PPCState -> Z) f :
  depends R v -> (forall q, f q = set_gpr r (v q) q) -> footprint (within R) (within [LGpr r]) f.
Proof.
  intros Hv Hf p. exists [(LGpr r, v p)]. split; [done|]. intros q Hq. by rewrite Hf, (Hv p q).
Qed.

(** A field of the condition register. *)
Lemma footprint_field k (R : list Loc) (v : PPCState -> Z) f :
  depends R v -> (forall q, f q = SetCRField k (v q) q) -> footprint (within R) (within [LCr k]) f.
Proof.
  intros Hv Hf p. exists [(LCr k, nth (Z.to_nat (v p)) s_crTable 0)]. split; [done|]. intros q Hq. by rewrite Hf, (Hv p q).
Qed.

Lemma footprint_none f : (forall q, f q = q) -> footprint (within []) (within []) f.
Proof. intros Hf p. exists []. split; [done|]. intros q _. apply Hf. Qed.

(** * Integer instructions *)

Ltac depends_tac :=
  intros ?p ?q ?H; cbv beta zeta;
  repeat match goal with
  | H : agree (within ?R) ?p ?q |- context [get_gpr ?i ?q] => rewrite (agree_gpr R p q i H) by (cbn; tauto)
  | H : agree (within ?R) ?p ?q |- context [aat (cr_fields ?q) ?i] => rewrite (agree_cr R p q i H) by (cbn; tauto)
  | H : agree (within ?R) ?p ?q |- context [xer_ca ?q] => rewrite (agree_ca R p q H) by (cbn; tauto)
  | H : agree (within ?R) ?p ?q |- context [xer_so_ov ?q] => rewrite (agree_ov R p q H) by (cbn; tauto)
  end; reflexivity.

(** The value an instruction writes, read back by the record form. *)
Ltac result_tac :=
  intros ?q; cbv beta zeta delta [update_OE]; rewrite ?get_gpr_same; reflexivity.

Section Integer.
Context (inst : Z).

Abbreviation a q := (get_gpr (RA inst) q).
Abbreviation b q := (get_gpr (RB inst) q).
Abbreviation s q := (get_gpr (RS inst) q).
Abbreviation in_A := (LGpr (RA inst)).
Abbreviation in_B := (LGpr (RB inst)).
Abbreviation in_S := (LGpr (RS inst)).

(** The result in register [r]; [carry_of] also writes the carry. *)
Abbreviation result_of R r f := (footprint (within (LOv :: R)) (within (LGpr r :: if_loc (Rc inst) (LCr 0))) f).
Abbreviation carry_of R r f := (footprint (within (LOv :: R)) (within (LGpr r :: LCa :: if_loc (Rc inst) (LCr 0))) f).

Lemma logic_footprint (op : Z -> Z -> Z) :
  result_of [in_S; in_B] (RA inst)
    (fun q => let p := set_gpr (RA inst) (op (s q) (b q)) q in update_Rc inst (get_gpr (RA inst) p) p).
Proof. apply (footprint_result inst _ _ (fun q => op (s q) (b q))); [depends_tac | result_tac]. Qed.

Lemma unary_footprint (op : Z -> Z) :
  result_of [in_S] (RA inst)
    (fun q => let p := set_gpr (RA inst) (op (s q)) q in update_Rc inst (get_gpr (RA inst) p) p).
Proof. apply (footprint_result inst _ _ (fun q => op (s q))); [depends_tac | result_tac]. Qed.

Lemma rlwimix_footprint : result_of [in_S; in_A] (RA inst) (rlwimix inst).
Proof.
  apply (footprint_result inst _ _ (fun q => (a q .& not32 (MakeRotationMask (MB inst) (ME inst))) .|
    (rotl32 (s q) (SH inst) .& MakeRotationMask (MB inst) (ME inst)))); [depends_tac | unfold rlwimix; result_tac].
Qed.

Lemma slwx_footprint : result_of [in_S; in_B] (RA inst) (slwx inst).
Proof. exact (logic_footprint (fun x n => if negb ((n .& 0x20) =? 0) then 0 else to_u32 (x .<< (n .& 0x1f)))). Qed.
Lemma srwx_footprint : result_of [in_S; in_B] (RA inst) (srwx inst).
Proof. exact (logic_footprint (fun x n => if negb ((n .& 0x20) =? 0) then 0 else x .>> (n .& 0x1f))). Qed.
Lemma rlwnmx_footprint : result_of [in_S; in_B] (RA inst) (rlwnmx inst).
Proof. exact (logic_footprint (fun x n => rotl32 x (n .& 0x1F) .& MakeRotationMask (MB inst) (ME inst))). Qed.
Lemma rlwinmx_footprint : result_of [in_S] (RA inst) (rlwinmx inst).
Proof. exact (unary_footprint (fun x => rotl32 x (SH inst) .& MakeRotationMask (MB inst) (ME inst))). Qed.

Lemma srawx_footprint : carry_of [in_S; in_B] (RA inst) (srawx inst).
Proof.
  set (v q := if negb ((b q .& 0x20) =? 0) then (if negb ((s q .& 0x80000000) =? 0) then 0xFFFFFFFF else 0)
              else to_u32 (to_s32 (s q) .>> (b q .& 0x1f))).
  set (c q := if negb ((b q .& 0x20) =? 0) then negb ((s q .& 0x80000000) =? 0)
              else shifted_out (to_s32 (s q)) (b q .& 0x1f)).
  apply (footprint_carry inst _ _ v c); [unfold v; depends_tac | unfold c; depends_tac |].
  intros q. unfold srawx, v, c. cbv zeta.
  repeat match goal with |- context [negb ?x] => destruct x; cbn [negb] end;
    change (get_gpr (RA inst) (SetCarry ?k ?x)) with (get_gpr (RA inst) x); by rewrite get_gpr_same.
Qed.

Lemma srawix_footprint : carry_of [in_S] (RA inst) (srawix inst).
Proof.
  apply (footprint_carry inst _ _ (fun q => to_u32 (to_s32 (s q) .>> SH inst)) (fun q => shifted_out (to_s32 (s q)) (SH inst)));
    [depends_tac | depends_tac |].
  intros q. unfold srawix. cbv zeta. change (get_gpr (RA inst) (SetCarry ?k ?x)) with (get_gpr (RA inst) x). by rewrite get_gpr_same.
Qed.

(** A sum, with a carry [k] that is a constant or read from XER. *)
Lemma sum_footprint (R : list Loc) (v : PPCState -> Z) (ov : PPCState -> bool) f :
  OE inst = false -> depends R v ->
  (forall q, f q = update_Rc inst (v q) (update_OE inst (ov q) (set_gpr (RD inst) (v q) q))) ->
  result_of R (RD inst) f.
Proof.
  intros Ho Hv Hf. apply (footprint_result inst _ _ v); [done|]. intros q. rewrite Hf. unfold update_OE. by rewrite Ho.
Qed.

Lemma sum_carry_footprint (R : list Loc) (v : PPCState -> Z) (c ov : PPCState -> bool) f :
  OE inst = false -> depends R v -> depends R c ->
  (forall q, f q = update_Rc inst (v q) (update_OE inst (ov q) (SetCarry (truth (c q)) (set_gpr (RD inst) (v q) q)))) ->
  carry_of R (RD inst) f.
Proof.
  intros Ho Hv Hc Hf. apply (footprint_carry inst _ _ v c); [done|done|]. intros q. rewrite Hf. unfold update_OE. by rewrite Ho.
Qed.

Section NoOverflow.
Context (HOE : OE inst = false).

Lemma addx_footprint : result_of [in_A; in_B] (RD inst) (addx inst).
Proof. by apply (sum_footprint _ (fun q => to_u32 (a q + b q)) (fun q => HasAddOverflowed (a q) (b q) (to_u32 (a q + b q)))); [|depends_tac|]. Qed.
Lemma subfx_footprint : result_of [in_A; in_B] (RD inst) (subfx inst).
Proof.
  by apply (sum_footprint _ (fun q => to_u32 (not32 (a q) + b q + 1)) (fun q => HasAddOverflowed (not32 (a q)) (b q) (to_u32 (not32 (a q) + b q + 1))));
    [|depends_tac|].
Qed.
Lemma addcx_footprint : carry_of [in_A; in_B] (RD inst) (addcx inst).
Proof.
  by apply (sum_carry_footprint _ (fun q => to_u32 (a q + b q)) (fun q => Helper_Carry (a q) (b q))
    (fun q => HasAddOverflowed (a q) (b q) (to_u32 (a q + b q)))); [|depends_tac|depends_tac|].
Qed.
Lemma addex_footprint : carry_of [in_A; in_B; LCa] (RD inst) (addex inst).
Proof.
  by apply (sum_carry_footprint _ (fun q => to_u32 (a q + b q + GetCarry q))
    (fun q => Helper_Carry (a q) (b q) || (negb (GetCarry q =? 0) && Helper_Carry (to_u32 (a q + b q)) (GetCarry q)))
    (fun q => HasAddOverflowed (a q) (b q) (to_u32 (a q + b q + GetCarry q)))); unfold GetCarry; [|depends_tac|depends_tac|].
Qed.
Lemma addmex_footprint : carry_of [in_A; LCa] (RD inst) (addmex inst).
Proof.
  by apply (sum_carry_footprint _ (fun q => to_u32 (a q + 0xFFFFFFFF + GetCarry q))
    (fun q => Helper_Carry (a q) (to_u32 (GetCarry q - 1)))
    (fun q => HasAddOverflowed (a q) 0xFFFFFFFF (to_u32 (a q + 0xFFFFFFFF + GetCarry q)))); unfold GetCarry; [|depends_tac|depends_tac|].
Qed.
Lemma addzex_footprint : carry_of [in_A; LCa] (RD inst) (addzex inst).
Proof.
  by apply (sum_carry_footprint _ (fun q => to_u32 (a q + GetCarry q)) (fun q => Helper_Carry (a q) (GetCarry q))
    (fun q => HasAddOverflowed (a q) 0 (to_u32 (a q + GetCarry q)))); unfold GetCarry; [|depends_tac|depends_tac|].
Qed.
Lemma subfcx_footprint : carry_of [in_A; in_B] (RD inst) (subfcx inst).
Proof.
  by apply (sum_carry_footprint _ (fun q => to_u32 (not32 (a q) + b q + 1))
    (fun q => (not32 (a q) =? 0xFFFFFFFF) || Helper_Carry (b q) (to_u32 (not32 (a q) + 1)))
    (fun q => HasAddOverflowed (not32 (a q)) (b q) (to_u32 (not32 (a q) + b q + 1)))); [|depends_tac|depends_tac|].
Qed.
Lemma subfex_footprint : carry_of [in_A; in_B; LCa] (RD inst) (subfex inst).
Proof.
  by apply (sum_carry_footprint _ (fun q => to_u32 (not32 (a q) + b q + GetCarry q))
    (fun q => Helper_Carry (not32 (a q)) (b q) || Helper_Carry (to_u32 (not32 (a q) + b q)) (GetCarry q))
    (fun q => HasAddOverflowed (not32 (a q)) (b q) (to_u32 (not32 (a q) + b q + GetCarry q)))); unfold GetCarry; [|depends_tac|depends_tac|].
Qed.
Lemma subfmex_footprint : carry_of [in_A; LCa] (RD inst) (subfmex inst).
Proof.
  by apply (sum_carry_footprint _ (fun q => to_u32 (not32 (a q) + 0xFFFFFFFF + GetCarry q))
    (fun q => Helper_Carry (not32 (a q)) (to_u32 (GetCarry q - 1)))
    (fun q => HasAddOverflowed (not32 (a q)) 0xFFFFFFFF (to_u32 (not32 (a q) + 0xFFFFFFFF + GetCarry q)))); unfold GetCarry; [|depends_tac|depends_tac|].
Qed.
Lemma subfzex_footprint : carry_of [in_A; LCa] (RD inst) (subfzex inst).
Proof.
  by apply (sum_carry_footprint _ (fun q => to_u32 (not32 (a q) + GetCarry q)) (fun q => Helper_Carry (not32 (a q)) (GetCarry q))
    (fun q => HasAddOverflowed (not32 (a q)) 0 (to_u32 (not32 (a q) + GetCarry q)))); unfold GetCarry; [|depends_tac|depends_tac|].
Qed.

Lemma mullwx_footprint : result_of [in_A; in_B] (RD inst) (mullwx inst).
Proof.
  apply (footprint_result inst _ _ (fun q => to_u32 (to_s32 (a q) * to_s32 (b q)))); [depends_tac|].
  intros q. unfold mullwx, update_OE. cbv zeta. rewrite HOE. by rewrite get_gpr_same.
Qed.
Lemma negx_footprint : result_of [in_A] (RD inst) (negx inst).
Proof.
  apply (footprint_result inst _ _ (fun q => to_u32 (not32 (a q) + 1))); [depends_tac|].
  intros q. unfold negx, update_OE. cbv zeta. rewrite HOE. by rewrite get_gpr_same.
Qed.
Lemma divwx_footprint : result_of [in_A; in_B] (RD inst) (divwx inst).
Proof.
  apply (footprint_result inst _ _ (fun q =>
    if (to_s32 (b q) =? 0) || ((to_u32 (to_s32 (a q)) =? 0x80000000) && (to_s32 (b q) =? -1))
    then (if to_s32 (a q) <? 0 then 0xFFFFFFFF else 0) else to_u32 (to_s32 (a q) ÷ to_s32 (b q)))); [depends_tac|].
  intros q. unfold divwx, update_OE. cbv zeta. rewrite HOE. repeat case_match; by rewrite get_gpr_same.
Qed.
Lemma divwux_footprint : result_of [in_A; in_B] (RD inst) (divwux inst).
Proof.
  apply (footprint_result inst _ _ (fun q => if b q =? 0 then 0 else a q / b q)); [depends_tac|].
  intros q. unfold divwux, update_OE. cbv zeta. rewrite HOE. case_match; by rewrite get_gpr_same.
Qed.
End NoOverflow.

Lemma mulhwx_footprint : result_of [in_A; in_B] (RD inst) (mulhwx inst).
Proof. by apply (footprint_result inst _ _ (fun q => to_u32 ((to_s32 (a q) * to_s32 (b q)) .>> 32))); [depends_tac|]. Qed.
Lemma mulhwux_footprint : result_of [in_A; in_B] (RD inst) (mulhwux inst).
Proof. by apply (footprint_result inst _ _ (fun q => to_u32 (to_u64 (a q * b q) .>> 32))); [depends_tac|]. Qed.
End Integer.

(** * Immediate operands, comparisons and the condition register *)

Section Others.
Context (inst : Z).

Abbreviation a q := (get_gpr (RA inst) q).
Abbreviation b q := (get_gpr (RB inst) q).
Abbreviation s q := (get_gpr (RS inst) q).
Abbreviation in_A := (LGpr (RA inst)).
Abbreviation in_B := (LGpr (RB inst)).
Abbreviation in_S := (LGpr (RS inst)).

Definition in_A0 : list Loc := if_loc (negb (RA inst =? 0)) in_A.

Lemma footprint_ext (R W : Loc -> Prop) f g : (forall q, g q = f q) -> footprint R W f -> footprint R W g.
Proof. intros E Hf p. destruct (Hf p) as (ws & Hws & Heq). exists ws. split; [done|]. intros q Hq. rewrite E. auto. Qed.

Lemma immediate_footprint (k : Z) :
  footprint (within in_A0) (within [LGpr (RD inst)])
    (fun q => if negb (RA inst =? 0) then set_gpr (RD inst) (to_u32 (a q + k)) q else set_gpr (RD inst) k q).
Proof.
  unfold in_A0. destruct (negb (RA inst =? 0)); cbn [if_loc].
  - by apply (footprint_gpr _ _ (fun q => to_u32 (a q + k))); [depends_tac|].
  - by apply (footprint_gpr _ _ (fun _ => k)); [depends_tac|].
Qed.

Lemma mulli_footprint : footprint (within [in_A]) (within [LGpr (RD inst)]) (mulli inst).
Proof. by apply (footprint_gpr _ _ (fun q => to_u32 (to_s32 (a q) * SIMM_16 inst))); [depends_tac|]. Qed.

Lemma logic_immediate_footprint (op : Z -> Z) :
  footprint (within [in_S]) (within [LGpr (RA inst)]) (fun q => set_gpr (RA inst) (op (s q)) q).
Proof. by apply (footprint_gpr _ _ (fun q => op (s q))); [depends_tac|]. Qed.

(** The record forms that always compare. *)
Lemma and_immediate_footprint (k : Z) :
  footprint (within [LOv; in_S]) (within [LGpr (RA inst); LCr 0])
    (fun q => let p := set_gpr (RA inst) (s q .& k) q in Helper_UpdateCR0 (get_gpr (RA inst) p) p).
Proof.
  intros p. exists [(LGpr (RA inst), s p .& k); (LCr 0, cr0_value (GetXER_SO p) (s p .& k))]. split; [done|].
  intros q Hq. cbv zeta. rewrite get_gpr_same, (agree_gpr _ p q _ Hq) by (cbn; tauto).
  unfold Helper_UpdateCR0. cbn. unfold GetXER_SO. cbn. by rewrite (agree_ov _ p q Hq) by (cbn; auto).
Qed.

Lemma addic_footprint : footprint (within [in_A]) (within [LGpr (RD inst); LCa]) (addic inst).
Proof.
  intros p. exists [(LGpr (RD inst), to_u32 (a p + to_u32 (SIMM_16 inst)));
                    (LCa, to_u8 (truth (Helper_Carry (a p) (to_u32 (SIMM_16 inst)))))]. split; [done|].
  intros q Hq. unfold addic. cbv zeta. by rewrite (agree_gpr _ p q _ Hq) by (cbn; tauto).
Qed.

Lemma addic_rc_footprint : footprint (within [LOv; in_A]) (within [LGpr (RD inst); LCa; LCr 0]) (addic_rc inst).
Proof.
  intros p. set (v := to_u32 (a p + to_u32 (SIMM_16 inst))).
  exists [(LGpr (RD inst), v); (LCa, to_u8 (truth (Helper_Carry (a p) (to_u32 (SIMM_16 inst))))); (LCr 0, cr0_value (GetXER_SO p) v)].
  split; [done|]. intros q Hq. unfold addic_rc, addic. cbv zeta. rewrite (agree_gpr _ p q _ Hq) by (cbn; tauto). fold v.
  change (get_gpr (RD inst) (SetCarry ?k ?x)) with (get_gpr (RD inst) x). rewrite get_gpr_same.
  unfold Helper_UpdateCR0. cbn. unfold GetXER_SO. cbn. by rewrite (agree_ov _ p q Hq) by (cbn; auto).
Qed.

Lemma subfic_footprint : footprint (within [in_A]) (within [LGpr (RD inst); LCa]) (subfic inst).
Proof.
  intros p. set (v x := to_u32 (SIMM_16 inst - to_s32 x)). set (x' := if RA inst =? RD inst then v (a p) else a p).
  exists [(LGpr (RD inst), v (a p));
          (LCa, to_u8 (truth ((x' =? 0) || Helper_Carry (to_u32 (0 - x')) (to_u32 (SIMM_16 inst)))))].
  split; [done|]. intros q Hq. unfold subfic. cbv zeta. rewrite get_set_gpr, (agree_gpr _ p q _ Hq) by (cbn; tauto). done.
Qed.

Lemma compare_footprint (R : list Loc) (x y : PPCState -> Z) :
  depends (LOv :: R) x -> depends (LOv :: R) y ->
  footprint (within (LOv :: R)) (within [LCr (CRFD inst)]) (fun q => Helper_IntCompare inst (x q) (y q) q).
Proof.
  intros Hx Hy. apply (footprint_field _ _ (fun q =>
    let cr_field := if x q <? y q then CR_LT else if y q <? x q then CR_GT else CR_EQ in
    if negb (GetXER_SO q =? 0) then cr_field .| CR_SO else cr_field)); [|done].
  intros p q Hq. rewrite (Hx p q), (Hy p q) by done. unfold GetXER_SO. by rewrite (agree_ov _ p q Hq) by (cbn; auto).
Qed.

Lemma GetField_depends k R p q : agree (within R) p q -> In (LCr k) R -> GetField k (cr_fields q) = GetField k (cr_fields p).
Proof. intros Hq Hk. unfold GetField. by rewrite (agree_cr R p q k Hq Hk). Qed.

Definition in_CR_bits : list Loc := [LCr (CRBA inst .>> 2); LCr (CRBB inst .>> 2); LCr (CRBD inst .>> 2)].

Lemma cr_logic_footprint (op : Z -> Z -> Z) :
  footprint (within in_CR_bits) (within [LCr (CRBD inst .>> 2)])
    (fun q => let x := cr_bit (CRBA inst) q in let y := cr_bit (CRBB inst) q in set_cr_bit inst (op x y) q).
Proof.
  apply (footprint_field _ _ (fun q =>
    let field := GetField (CRBD inst .>> 2) (cr_fields q) in
    if negb ((op (cr_bit (CRBA inst) q) (cr_bit (CRBB inst) q) .& 1) =? 0) then field .| (0x8 .>> (CRBD inst .& 3))
    else field .& to_u32 (Z.lnot (0x8 .>> (CRBD inst .& 3))))).
  - intros p q Hq. unfold cr_bit, GetBit. cbv zeta. rewrite !(GetField_depends _ in_CR_bits p q Hq) by (cbn; tauto). done.
  - intros q. cbv zeta. unfold set_cr_bit, SetCRField, SetBit. by case_match.
Qed.

Lemma mcrf_footprint : footprint (within [LCr (CRFS inst)]) (within [LCr (CRFD inst)]) (mcrf inst).
Proof.
  apply (footprint_field _ _ (fun q => GetField (CRFS inst) (cr_fields q))); [|done].
  intros p q Hq. apply (GetField_depends _ _ p q Hq). cbn; tauto.
Qed.

Definition all_CR : list Loc := map LCr field_indices.

Lemma CR_Get_depends R p q : agree (within R) p q -> (forall l, In l all_CR -> In l R) -> CR_Get (cr_fields q) = CR_Get (cr_fields p).
Proof.
  intros Hq HR. unfold CR_Get, field_indices. cbn [foldl].
  rewrite !(GetField_depends _ R p q Hq) by (apply HR; cbn; tauto). done.
Qed.

Lemma mfcr_footprint : footprint (within all_CR) (within [LGpr (RD inst)]) (mfcr inst).
Proof.
  apply (footprint_gpr _ _ (fun q => CR_Get (cr_fields q))); [|done]. intros p q Hq. by apply (CR_Get_depends all_CR p q Hq).
Qed.

Lemma mtcrf_footprint : footprint (within (in_S :: all_CR)) (within all_CR) (mtcrf inst).
Proof.
  intros p. set (w q := if CRM inst =? 0xFF then s q
    else (CR_Get (cr_fields q) .& to_u32 (Z.lnot (expand_field_mask (CRM inst)))) .| (s q .& expand_field_mask (CRM inst))).
  exists (map (fun i => (LCr i, nth (Z.to_nat ((w p .>> (28 - i * 4)) .& 0xF)) s_crTable 0)) field_indices). split.
  - intros l. by rewrite map_map.
  - intros q Hq. assert (E : mtcrf inst q = set_cr (w q) q) by (unfold mtcrf, w; by case_match).
    assert (Ew : w q = w p).
    { unfold w. rewrite (agree_gpr _ p q _ Hq) by (cbn; tauto).
      rewrite (CR_Get_depends (in_S :: all_CR) p q Hq) by (intros l Hl; by right). done. }
    rewrite E, Ew. by destruct q.
Qed.
End Others.

(** * The floating-point status *)

Definition fp_status : list Loc := [LFpscr; LExceptions; LSrr1].

(** A state that differs in the status and, if an exception was raised, in what it writes. *)
Definition status_writes (x : Z) (raised : bool) (exceptions : Z) : writes :=
  (LFpscr, x) :: if raised then [(LExceptions, exceptions); (LSrr1, program_exception_value FloatingPoint)] else [].

(** Only the status, the pending exceptions and SRR1 change, by the status and the pending
    exceptions before. *)
Definition status_step (R : list Loc) (f : PPCState -> PPCState) : Prop :=
  footprint (within R) (within fp_status) f.

Lemma CheckFP_eq q : CheckFPExceptions q =
  if Z.testbit (fpscr q) 30 && (Z.testbit (msr q) 11 || Z.testbit (msr q) 8)
  then set_spr SPR_SRR1 (program_exception_value FloatingPoint) (fset p_Exceptions (Exceptions q .| EXCEPTION_PROGRAM) q) else q.
Proof. reflexivity. Qed.

Definition summary_of (x : Z) : Z :=
  let y := put_bit 29 (negb ((x .& FPSCR_VX_ANY) =? 0)) x in
  put_bit 30 (negb (((y .>> 22) .& (y .& FPSCR_ANY_E)) =? 0)) y.

Lemma Update_eq x q : UpdateFPExceptionSummary (fset p_fpscr x q) = CheckFPExceptions (fset p_fpscr (summary_of x) q).
Proof. by destruct q. Qed.

Lemma summary_step (R : list Loc) (x : PPCState -> Z) f :
  In LExceptions R -> depends R x -> (forall q, f q = UpdateFPExceptionSummary (fset p_fpscr (x q) q)) -> status_step R f.
Proof.
  intros He Hx Hf p. set (y := summary_of (x p)). set (r := Z.testbit y 30 && (Z.testbit (msr p) 11 || Z.testbit (msr p) 8)).
  exists (status_writes y r (Exceptions p .| EXCEPTION_PROGRAM)). split.
  - unfold status_writes, within, fp_status. destruct r; cbn; tauto.
  - intros q Hq. rewrite Hf, Update_eq, CheckFP_eq, (Hx p q) by done. fold y.
    assert (Em : msr q = msr p) by (symmetry; apply Hq). assert (Ee : Exceptions q = Exceptions p) by (symmetry; exact (proj1 Hq LExceptions He)).
    change (fpscr (fset p_fpscr y q)) with y. change (msr (fset p_fpscr y q)) with (msr q).
    change (Exceptions (fset p_fpscr y q)) with (Exceptions q). rewrite Em, Ee. fold r. unfold status_writes.
    by destruct r.
Qed.

(** Two steps in a row: what the second reads was read, or written, by the first. *)
Lemma footprint_compose (R W : Loc -> Prop) f g :
  footprint R W f -> footprint R W g -> footprint R W (fun q => g (f q)).
Proof.
  intros Hf Hg p. destruct (Hf p) as (ws & Hws & Ef), (Hg (f p)) as (ws' & Hws' & Eg).
  exists (ws ++ ws'). split.
  - intros l. rewrite map_app, in_app_iff. intros []; auto.
  - intros q Hq.
    rewrite apply_writes_app, <- (Ef q) by done. apply Eg.
    rewrite (Ef q), (Ef p) by (done || apply agree_refl). destruct Hq as [Hl Hm]. split; [|by rewrite !apply_writes_msr].
    intros l HR. clear - Hl HR. induction ws as [|[k v] ws IH] using rev_ind; [by apply Hl|].
    rewrite !apply_writes_app. cbn. destruct (decide (l = k)) as [->|Hne]; [by rewrite !get_put | by rewrite !get_put_ne].
Qed.

Lemma record_CR1_footprint inst :
  footprint (within fp_status) (within (if_loc (Rc inst) (LCr 1))) (record_CR1 inst).
Proof.
  unfold record_CR1, if_loc. destruct (Rc inst).
  - apply (footprint_field _ _ (fun q => let bit i := bits i 1 (fpscr q) in
      ((((bit 31 .<< 3) .| (bit 30 .<< 2)) .| (bit 29 .<< 1))) .| bit 28)); [|done].
    intros p q Hq. pose proof (agree_in fp_status p q LFpscr Hq ltac:(cbn; tauto)) as E. cbn in E. by rewrite E.
  - apply (footprint_mono (within []) _ (within []) _); [intros l Hl; destruct Hl | done | by apply footprint_none].
Qed.

(** The status and field 1. *)
Definition status_CR1 inst : list Loc := fp_status ++ if_loc (Rc inst) (LCr 1).

Lemma within_sub (l l' : list Loc) x : (forall y, In y l -> In y l') -> within l x -> within l' x.
Proof. intros H. apply H. Qed.

Lemma depends_fpscr (R : list Loc) (v : Z -> Z) : In LFpscr R -> depends R (fun q => v (fpscr q)).
Proof. intros HR p q Hq. f_equal. symmetry. exact (agree_in R p q LFpscr Hq HR). Qed.

(** A status step and the record form after it. *)
Lemma record_footprint inst (R : list Loc) f :
  status_step (fp_status ++ R) f ->
  footprint (within (fp_status ++ R)) (within (status_CR1 inst)) (fun q => record_CR1 inst (f q)).
Proof.
  intros Hf. apply footprint_compose.
  - eapply footprint_mono; [| |exact Hf]; [done|]. intros l. apply within_sub. intros y Hy. apply in_app_iff. by left.
  - eapply footprint_mono; [| |apply record_CR1_footprint]; intros l; apply within_sub; intros y Hy; unfold status_CR1; rewrite !in_app_iff; tauto.
Qed.

Section Status.
Context (inst : Z).

Definition in_status : list Loc := fp_status ++ [LPs0 (RB inst)].

Lemma in_status_fpscr : In LFpscr in_status.
Proof. cbn. tauto. Qed.
Lemma in_status_exceptions : In LExceptions in_status.
Proof. cbn. tauto. Qed.
#[local] Hint Resolve in_status_fpscr in_status_exceptions : core.

Lemma mtfsb0x_footprint : footprint (within in_status) (within (status_CR1 inst)) (mtfsb0x inst).
Proof.
  apply (record_footprint inst [LPs0 (RB inst)]).
  apply (summary_step _ (fun q => fpscr q .& to_u32 (Z.lnot (0x80000000 .>> CRBD inst)))); [done | | done].
  by apply (depends_fpscr in_status (fun x => x .& to_u32 (Z.lnot (0x80000000 .>> CRBD inst)))).
Qed.

Lemma mtfsfix_footprint : footprint (within in_status) (within (status_CR1 inst)) (mtfsfix inst).
Proof.
  set (v x := ((x .& to_u32 (Z.lnot (0xF0000000 .>> (4 * CRFD inst)))) .|
               ((to_u32 (inst .<< 16) .& 0xF0000000) .>> (4 * CRFD inst))) .& 0xFFFFF7FF).
  apply (record_footprint inst [LPs0 (RB inst)]). apply (summary_step _ (fun q => v (fpscr q))); [done | | done].
  by apply (depends_fpscr in_status v).
Qed.

Lemma mtfsfx_footprint : footprint (within in_status) (within (status_CR1 inst)) (mtfsfx inst).
Proof.
  set (m := expand_field_mask (bits 17 8 inst)).
  apply (record_footprint inst [LPs0 (RB inst)]).
  apply (summary_step _ (fun q => ((fpscr q .& to_u32 (Z.lnot m)) .| (to_u32 (aat (ps0 q) (RB inst)) .& m)) .& 0xFFFFF7FF)); [done | | done].
  intros p q Hq. pose proof (agree_in in_status p q LFpscr Hq ltac:(done)) as E1.
  pose proof (agree_in in_status p q (LPs0 (RB inst)) Hq ltac:(apply in_app_iff; right; by left)) as E2. cbn in E1, E2. by rewrite E1, E2.
Qed.

Lemma mtfsb1x_footprint : footprint (within in_status) (within (status_CR1 inst)) (mtfsb1x inst).
Proof.
  set (b := 0x80000000 .>> CRBD inst).
  assert (Hfirst : status_step in_status (fun p => if negb ((b .& FPSCR_ANY_X) =? 0) then SetFPException b p else set_fpscr (fpscr p .| b) p)).
  { destruct (negb ((b .& FPSCR_ANY_X) =? 0)).
    - set (v x := (if negb ((x .& b) =? b) then put_bit 31 true x else x) .| b).
      apply (summary_step _ (fun q => v (fpscr q))); [done | by apply (depends_fpscr in_status v) |].
      intros q. unfold SetFPException, v. by case_match.
    - intros p. exists [(LFpscr, (fpscr p .| b) .& 0xFFFFF7FF)]. split; [cbn; tauto|]. intros q Hq.
      pose proof (agree_in in_status p q LFpscr Hq ltac:(done)) as E1. cbn in E1. cbn. unfold set_fpscr. by rewrite E1. }
  assert (Hsecond : status_step in_status FPSCRUpdated).
  { apply (summary_step _ fpscr); [done | by apply (depends_fpscr in_status (fun x => x)) |]. intros q. by destruct q. }
  apply (record_footprint inst [LPs0 (RB inst)] (fun p => FPSCRUpdated (if negb ((b .& FPSCR_ANY_X) =? 0) then SetFPException b p else set_fpscr (fpscr p .| b) p))).
  by apply footprint_compose.
Qed.

Definition out_mcrfs : list Loc := LCr (CRFD inst) :: fp_status.

Lemma mcrfs_footprint : footprint (within fp_status) (within out_mcrfs) (mcrfs inst).
Proof.
  set (m := to_u32 (0xF .<< (4 * (7 - CRFS inst))) .& (FPSCR_FX .| FPSCR_ANY_X)).
  set (flags x := (x .>> (4 * (7 - CRFS inst))) .& 0xF).
  intros p. assert (Hs : status_step fp_status (fun q => UpdateFPExceptionSummary (fset p_fpscr (fpscr q .& to_u32 (Z.lnot m)) q))).
  { apply (summary_step _ (fun q => fpscr q .& to_u32 (Z.lnot m))); [cbn; tauto | | done].
    apply (depends_fpscr fp_status (fun x => x .& to_u32 (Z.lnot m))). cbn; tauto. }
  destruct (Hs p) as (ws & Hws & Eq). exists (ws ++ [(LCr (CRFD inst), nth (Z.to_nat (flags (fpscr p))) s_crTable 0)]). split.
  - intros l. rewrite map_app, in_app_iff. intros [Hl|Hl]; [right; by apply Hws | cbn in Hl |- *; tauto].
  - intros q Hq. unfold mcrfs. cbv zeta. fold m. unfold FPSCRUpdated. rewrite Eq by done.
    rewrite apply_writes_app. pose proof (agree_in fp_status p q LFpscr Hq ltac:(cbn; tauto)) as E1. cbn in E1. cbn. unfold SetCRField, SetField. rewrite <- E1. done.
Qed.

Lemma mffsx_footprint :
  footprint (within fp_status) (within (LPs0 (RD inst) :: status_CR1 inst)) (mffsx inst).
Proof.
  apply (footprint_compose _ _ (fun p => fset p_ps0 (aupd (ps0 p) (RD inst) (0xFFF8000000000000 .| fpscr p)) p) (record_CR1 inst)).
  - intros p. exists [(LPs0 (RD inst), 0xFFF8000000000000 .| fpscr p)]. split; [cbn; tauto|]. intros q Hq.
    pose proof (agree_in _ p q LFpscr Hq ltac:(cbn; tauto)) as E1. cbn in E1. cbn. by rewrite E1.
  - eapply footprint_mono; [| |apply record_CR1_footprint]; intros l; apply within_sub; intros y Hy; [exact Hy|]. right.
    unfold status_CR1. rewrite in_app_iff. by right.
Qed.
End Status.
