(* ===== verification/PPCReorder.v ===== *)
(** The operands of the instructions, as the analyzer's flags declare them, are what the
    instructions read and write; so the instructions that the analyzer swaps commute. *)
From stdpp Require Import base tactics option list gmap.
From Stdlib Require Import ZArith Lia Bool.
From S2P Require Import Prelude PowerPC PowerPCProps ConditionRegister Gekko PPCTables InterpreterTables.
From S2P Require Import PPCInteger PPCIntegerProps PPCSystem PPCInterpreter PPCTableProps PPCAnalyst Footprint.

#[local] Open Scope Z_scope.
Implicit Types (inst : Z) (p q : PPCState).

(** * Operands by name *)

Inductive Operand : Type :=
  | OpA | OpA0 | OpB | OpS | OpD | OpCa | OpOv | OpCr0 | OpRc0 | OpRc1 | OpCrD | OpCrS | OpCrBits | OpCrBit | OpAllCr | OpStatus | OpFB | OpFD.

Definition locs inst (o : Operand) : list Loc :=
  match o with
  | OpA => [LGpr (RA inst)] | OpA0 => in_A0 inst | OpB => [LGpr (RB inst)] | OpS => [LGpr (RS inst)] | OpD => [LGpr (RD inst)]
  | OpCa => [LCa] | OpOv => [LOv] | OpCr0 => [LCr 0] | OpRc0 => if_loc (Rc inst) (LCr 0) | OpRc1 => if_loc (Rc inst) (LCr 1)
  | OpCrD => [LCr (CRFD inst)] | OpCrS => [LCr (CRFS inst)] | OpCrBits => in_CR_bits inst | OpCrBit => [LCr (CRBD inst .>> 2)]
  | OpAllCr => all_CR | OpStatus => fp_status | OpFB => [LPs0 (RB inst)] | OpFD => [LPs0 (RD inst)]
  end.

Definition all_locs inst (os : list Operand) : list Loc := flat_map (locs inst) os.

(** What the instructions read and write, but for those that end a block, touch the machine
    state or overwrite the overflow bits. *)
Definition operands_of (fn : Instruction) : option (list Operand * list Operand) :=
  match fn with
  | Op_mulli => Some ([OpA], [OpD])
  | Op_subfic | Op_addic => Some ([OpA], [OpD; OpCa])
  | Op_addic_rc => Some ([OpOv; OpA], [OpD; OpCa; OpCr0])
  | Op_addi | Op_addis => Some ([OpA0], [OpD])
  | Op_cmpli | Op_cmpi => Some ([OpOv; OpA], [OpCrD])
  | Op_cmp | Op_cmpl => Some ([OpOv; OpA; OpB], [OpCrD])
  | Op_ori | Op_oris | Op_xori | Op_xoris => Some ([OpS], [OpA])
  | Op_andi_rc | Op_andis_rc => Some ([OpOv; OpS], [OpA; OpCr0])
  | Op_rlwimix => Some ([OpOv; OpS; OpA], [OpA; OpRc0])
  | Op_rlwinmx | Op_cntlzwx | Op_extshx | Op_extsbx => Some ([OpOv; OpS], [OpA; OpRc0])
  | Op_rlwnmx | Op_andx | Op_andcx | Op_orx | Op_norx | Op_xorx | Op_orcx | Op_nandx | Op_eqvx | Op_slwx | Op_srwx =>
      Some ([OpOv; OpS; OpB], [OpA; OpRc0])
  | Op_srawx => Some ([OpOv; OpS; OpB], [OpA; OpCa; OpRc0])
  | Op_srawix => Some ([OpOv; OpS], [OpA; OpCa; OpRc0])
  | Op_addx | Op_subfx | Op_mullwx | Op_divwx | Op_divwux | Op_mulhwx | Op_mulhwux => Some ([OpOv; OpA; OpB], [OpD; OpRc0])
  | Op_negx => Some ([OpOv; OpA], [OpD; OpRc0])
  | Op_addcx | Op_subfcx => Some ([OpOv; OpA; OpB], [OpD; OpCa; OpRc0])
  | Op_addex | Op_subfex => Some ([OpOv; OpA; OpB; OpCa], [OpD; OpCa; OpRc0])
  | Op_addmex | Op_addzex | Op_subfmex | Op_subfzex => Some ([OpOv; OpA; OpCa], [OpD; OpCa; OpRc0])
  | Op_crand | Op_crandc | Op_creqv | Op_crnand | Op_crnor | Op_cror | Op_crorc | Op_crxor => Some ([OpCrBits], [OpCrBit])
  | Op_mcrf => Some ([OpCrS], [OpCrD])
  | Op_dcbtst | Op_dcbt | Op_sync | Op_eieio => Some ([], [])
  | Op_mfcr => Some ([OpAllCr], [OpD])
  | Op_mtcrf => Some ([OpS; OpAllCr], [OpAllCr])
  | Op_mcrfs => Some ([OpStatus], [OpCrD; OpStatus])
  | Op_mffsx => Some ([OpStatus], [OpFD; OpStatus; OpRc1])
  | Op_mtfsb0x | Op_mtfsb1x | Op_mtfsfix | Op_mtfsfx => Some ([OpStatus; OpFB], [OpStatus; OpRc1])
  | _ => None
  end.

(** The arithmetic with a form that records overflow. *)
Definition has_overflow_form (fn : Instruction) : bool :=
  match fn with
  | Op_addx | Op_addcx | Op_addex | Op_addmex | Op_addzex | Op_divwx | Op_divwux | Op_mullwx | Op_negx
  | Op_subfx | Op_subfcx | Op_subfex | Op_subfmex | Op_subfzex => true
  | _ => false
  end.

(** * The instructions that compute by one of a few shapes *)

Section Shapes.
Context (inst : Z).

Abbreviation result_of R r f := (footprint (within (LOv :: R)) (within (LGpr r :: if_loc (Rc inst) (LCr 0))) f).

Lemma andx_footprint : result_of [LGpr (RS inst); LGpr (RB inst)] (RA inst) (andx inst).
Proof. exact (logic_footprint inst Z.land). Qed.
Lemma andcx_footprint : result_of [LGpr (RS inst); LGpr (RB inst)] (RA inst) (andcx inst).
Proof. exact (logic_footprint inst (fun x y => x .& not32 y)). Qed.
Lemma orx_footprint : result_of [LGpr (RS inst); LGpr (RB inst)] (RA inst) (orx inst).
Proof. exact (logic_footprint inst Z.lor). Qed.
Lemma norx_footprint : result_of [LGpr (RS inst); LGpr (RB inst)] (RA inst) (norx inst).
Proof. exact (logic_footprint inst (fun x y => not32 (x .| y))). Qed.
Lemma xorx_footprint : result_of [LGpr (RS inst); LGpr (RB inst)] (RA inst) (xorx inst).
Proof. exact (logic_footprint inst Z.lxor). Qed.
Lemma orcx_footprint : result_of [LGpr (RS inst); LGpr (RB inst)] (RA inst) (orcx inst).
Proof. exact (logic_footprint inst (fun x y => x .| not32 y)). Qed.
Lemma nandx_footprint : result_of [LGpr (RS inst); LGpr (RB inst)] (RA inst) (nandx inst).
Proof. exact (logic_footprint inst (fun x y => not32 (x .& y))). Qed.
Lemma eqvx_footprint : result_of [LGpr (RS inst); LGpr (RB inst)] (RA inst) (eqvx inst).
Proof. exact (logic_footprint inst (fun x y => not32 (x .^ y))). Qed.
Lemma cntlzwx_footprint : result_of [LGpr (RS inst)] (RA inst) (cntlzwx inst).
Proof. exact (unary_footprint inst countl_zero32). Qed.
Lemma extshx_footprint : result_of [LGpr (RS inst)] (RA inst) (extshx inst).
Proof. exact (unary_footprint inst (fun x => to_u32 (to_s16 x))). Qed.
Lemma extsbx_footprint : result_of [LGpr (RS inst)] (RA inst) (extsbx inst).
Proof. exact (unary_footprint inst (fun x => to_u32 (to_s8 x))). Qed.
Lemma ori_footprint : footprint (within [LGpr (RS inst)]) (within [LGpr (RA inst)]) (ori inst).
Proof. exact (logic_immediate_footprint inst (fun x => x .| UIMM inst)). Qed.
Lemma oris_footprint : footprint (within [LGpr (RS inst)]) (within [LGpr (RA inst)]) (oris inst).
Proof. exact (logic_immediate_footprint inst (fun x => x .| to_u32 (UIMM inst .<< 16))). Qed.
Lemma xori_footprint : footprint (within [LGpr (RS inst)]) (within [LGpr (RA inst)]) (xori inst).
Proof. exact (logic_immediate_footprint inst (fun x => x .^ UIMM inst)). Qed.
Lemma xoris_footprint : footprint (within [LGpr (RS inst)]) (within [LGpr (RA inst)]) (xoris inst).
Proof. exact (logic_immediate_footprint inst (fun x => x .^ to_u32 (UIMM inst .<< 16))). Qed.
Lemma andi_rc_footprint : footprint (within [LOv; LGpr (RS inst)]) (within [LGpr (RA inst); LCr 0]) (andi_rc inst).
Proof. exact (and_immediate_footprint inst (UIMM inst)). Qed.
Lemma andis_rc_footprint : footprint (within [LOv; LGpr (RS inst)]) (within [LGpr (RA inst); LCr 0]) (andis_rc inst).
Proof. exact (and_immediate_footprint inst (to_u32 (UIMM inst .<< 16))). Qed.
Lemma addi_footprint : footprint (within (in_A0 inst)) (within [LGpr (RD inst)]) (addi inst).
Proof. exact (immediate_footprint inst (to_u32 (SIMM_16 inst))). Qed.
Lemma addis_footprint : footprint (within (in_A0 inst)) (within [LGpr (RD inst)]) (addis inst).
Proof. exact (immediate_footprint inst (to_u32 (SIMM_16 inst .<< 16))). Qed.
Lemma cmpi_footprint : footprint (within (LOv :: [LGpr (RA inst)])) (within [LCr (CRFD inst)]) (cmpi inst).
Proof.
  apply (compare_footprint inst [LGpr (RA inst)] (fun q => to_s32 (get_gpr (RA inst) q)) (fun q => SIMM_16 inst)); depends_tac.
 Qed.
Lemma cmpli_footprint : footprint (within (LOv :: [LGpr (RA inst)])) (within [LCr (CRFD inst)]) (cmpli inst).
Proof.
  apply (compare_footprint inst [LGpr (RA inst)] (fun q => get_gpr (RA inst) q) (fun q => UIMM inst)); depends_tac.
 Qed.
Lemma cmp_footprint : footprint (within (LOv :: [LGpr (RA inst); LGpr (RB inst)])) (within [LCr (CRFD inst)]) (cmp inst).
Proof.
  apply (compare_footprint inst [LGpr (RA inst); LGpr (RB inst)] (fun q => to_s32 (get_gpr (RA inst) q)) (fun q => to_s32 (get_gpr (RB inst) q))); depends_tac.
 Qed.
Lemma cmpl_footprint : footprint (within (LOv :: [LGpr (RA inst); LGpr (RB inst)])) (within [LCr (CRFD inst)]) (cmpl inst).
Proof.
  apply (compare_footprint inst [LGpr (RA inst); LGpr (RB inst)] (fun q => get_gpr (RA inst) q) (fun q => get_gpr (RB inst) q)); depends_tac.
 Qed.
Lemma crand_footprint : footprint (within (in_CR_bits inst)) (within [LCr (CRBD inst .>> 2)]) (crand inst).
Proof. exact (cr_logic_footprint inst Z.land). Qed.
Lemma crandc_footprint : footprint (within (in_CR_bits inst)) (within [LCr (CRBD inst .>> 2)]) (crandc inst).
Proof. exact (cr_logic_footprint inst (fun a b => a .& (1 .^ b))). Qed.
Lemma creqv_footprint : footprint (within (in_CR_bits inst)) (within [LCr (CRBD inst .>> 2)]) (creqv inst).
Proof. exact (cr_logic_footprint inst (fun a b => 1 .^ (a .^ b))). Qed.
Lemma crnand_footprint : footprint (within (in_CR_bits inst)) (within [LCr (CRBD inst .>> 2)]) (crnand inst).
Proof. exact (cr_logic_footprint inst (fun a b => 1 .^ (a .& b))). Qed.
Lemma crnor_footprint : footprint (within (in_CR_bits inst)) (within [LCr (CRBD inst .>> 2)]) (crnor inst).
Proof. exact (cr_logic_footprint inst (fun a b => 1 .^ (a .| b))). Qed.
Lemma cror_footprint : footprint (within (in_CR_bits inst)) (within [LCr (CRBD inst .>> 2)]) (cror inst).
Proof. exact (cr_logic_footprint inst Z.lor). Qed.
Lemma crorc_footprint : footprint (within (in_CR_bits inst)) (within [LCr (CRBD inst .>> 2)]) (crorc inst).
Proof. exact (cr_logic_footprint inst (fun a b => a .| (1 .^ b))). Qed.
Lemma crxor_footprint : footprint (within (in_CR_bits inst)) (within [LCr (CRBD inst .>> 2)]) (crxor inst).
Proof. exact (cr_logic_footprint inst Z.lxor). Qed.

Lemma no_operation_footprint : footprint (within []) (within []) (no_operation inst).
Proof. by apply footprint_none. Qed.
End Shapes.

Create HintDb footprint.
#[local] Hint Resolve mulli_footprint subfic_footprint addic_footprint addic_rc_footprint rlwimix_footprint rlwinmx_footprint rlwnmx_footprint
  slwx_footprint srwx_footprint srawx_footprint srawix_footprint addx_footprint addcx_footprint addex_footprint
  addmex_footprint addzex_footprint subfx_footprint subfcx_footprint subfex_footprint subfmex_footprint subfzex_footprint
  mullwx_footprint mulhwx_footprint mulhwux_footprint divwx_footprint divwux_footprint negx_footprint mcrf_footprint
  mfcr_footprint mtcrf_footprint mcrfs_footprint mffsx_footprint mtfsb0x_footprint mtfsb1x_footprint mtfsfix_footprint
  mtfsfx_footprint no_operation_footprint andx_footprint andcx_footprint orx_footprint norx_footprint xorx_footprint
  orcx_footprint nandx_footprint eqvx_footprint cntlzwx_footprint extshx_footprint extsbx_footprint ori_footprint
  oris_footprint xori_footprint xoris_footprint andi_rc_footprint andis_rc_footprint addi_footprint addis_footprint
  cmpi_footprint cmpli_footprint cmp_footprint cmpl_footprint crand_footprint crandc_footprint creqv_footprint
  crnand_footprint crnor_footprint cror_footprint crorc_footprint crxor_footprint : footprint.

Definition footprint_by inst (operands : option (list Operand * list Operand)) (f : option (Z -> PPCState -> PPCState * bool)) : Prop :=
  match operands, f with
  | Some (R, W), Some f => exists g, f = goes_on g /\ footprint (within (all_locs inst R)) (within (all_locs inst W)) (g inst)
  | _, _ => True
  end.

Lemma footprint_lists (R R' W W' : list Loc) f :
  (forall l, In l R' -> In l R) -> (forall l, In l W' -> In l W) -> footprint (within R') (within W') f -> footprint (within R) (within W) f.
Proof. intros HR HW. by apply footprint_mono. Qed.

(** The operands are what the instruction reads and writes. *)
Lemma operands_footprint fn inst : (has_overflow_form fn = true -> OE inst = false) ->
  footprint_by inst (operands_of fn) (register_instruction fn).
Proof.
  intros Ho.
  destruct fn; try exact I; cbn [footprint_by operands_of register_instruction]; try specialize (Ho eq_refl);
    (eexists; split; [reflexivity|]); unfold all_locs; cbn [flat_map locs];
    (eapply footprint_lists; cycle 2; [solve [eauto 3 with footprint] | |]); unfold in_status, out_mcrfs, status_CR1; intros l Hl;
    repeat first [rewrite in_app_iff in Hl | rewrite in_app_iff | progress cbn [In] in Hl |- *]; tauto.
Qed.

(** * What the flags declare *)

(** The sets of the analysis as predicates.  The flags say nothing of the overflow bits but
    when they are written, and the floating-point status goes with the use of the FPU. *)
Definition may_read inst (l : Loc) : Prop :=
  let info := GetOpInfo inst in
  match l with
  | LGpr i => Z.testbit (regsIn_of inst info) i = true
  | LCr i => Z.testbit (crIn_of inst info) i = true
  | LCa => has_flag FL_READ_CA (op_flags info) = true
  | LOv => True
  | LFpscr | LExceptions | LSrr1 | LPs0 _ => has_flag FL_USE_FPU (op_flags info) = true
  end.

Definition may_write inst (l : Loc) : Prop :=
  let info := GetOpInfo inst in
  match l with
  | LGpr i => Z.testbit (regsOut_of inst info) i = true
  | LCr i => Z.testbit (crOut_of inst info) i = true
  | LCa => has_flag FL_SET_CA (op_flags info) = true
  | LOv => has_flag FL_SET_OE (op_flags info) = true
  | LFpscr | LExceptions | LSrr1 | LPs0 _ => has_flag FL_USE_FPU (op_flags info) = true
  end.

(** An operand is declared by the flags [fl] and the type [ty]. *)
Section Declared.
Context (fl : Z) (ty : OpType).
Abbreviation fs f := (has_flag f fl).
Abbreviation is_cr := (bool_decide (ty = TypeCR)).

Definition declares_read (o : Operand) : bool :=
  match o with
  | OpA => fs FL_IN_A | OpA0 => fs FL_IN_A || fs FL_IN_A0 | OpB => fs FL_IN_B | OpS => fs FL_IN_S | OpCa => fs FL_READ_CA | OpOv => true
  | OpCrS => fs FL_READ_ALL_CR || fs FL_READ_CRn
  | OpCrBits => fs FL_READ_ALL_CR || negb (fs FL_READ_CRn) && negb (fs FL_READ_CR_BI) && is_cr
  | OpAllCr => fs FL_READ_ALL_CR | OpStatus | OpFB => fs FL_USE_FPU
  | _ => false
  end.

Definition declares_write (o : Operand) : bool :=
  match o with
  | OpA => fs FL_OUT_A | OpD => fs FL_OUT_D | OpCa => fs FL_SET_CA | OpAllCr => fs FL_SET_ALL_CR
  | OpCrD => fs FL_SET_ALL_CR || fs FL_SET_CRn
  | OpCr0 => negb (fs FL_SET_CRn) && fs FL_SET_CR0 | OpRc0 => negb (fs FL_SET_CRn) && (fs FL_SET_CR0 || fs FL_RC_BIT)
  | OpRc1 => negb (fs FL_SET_CRn) && negb (fs FL_SET_CR0) && negb (fs FL_RC_BIT) && fs FL_RC_BIT_F
  | OpCrBit => negb (fs FL_SET_CRn) && negb (fs FL_SET_CR0) && negb (fs FL_RC_BIT) && negb (fs FL_SET_CR1) && negb (fs FL_RC_BIT_F) && is_cr
  | OpStatus | OpFD => fs FL_USE_FPU
  | _ => false
  end.
End Declared.

(** ** Sets of registers *)

Lemma bs_set_spec i s k : 0 <= i -> 0 <= k -> Z.testbit (bs_set i s) k = Z.testbit s k || (k =? i).
Proof.
  intros Hi Hk. unfold bs_set. rewrite Z.lor_spec. f_equal. rewrite Z.shiftl_spec by lia.
  destruct (Z.eqb_spec k i) as [->|Hne]; [by rewrite Z.sub_diag|]. destruct (Z_lt_le_dec k i); [by rewrite Z.testbit_neg_r by lia|].
  apply Z.bits_above_log2; cbn; lia.
Qed.

Lemma bs_set_if_spec b i s k : 0 <= i -> 0 <= k -> Z.testbit (bs_set_if b i s) k = Z.testbit s k || (b && (k =? i)).
Proof. intros. unfold bs_set_if. destruct b; [by apply bs_set_spec|]. by rewrite orb_false_r. Qed.

Lemma bs_set_grows i s k : 0 <= i -> 0 <= k -> Z.testbit s k = true -> Z.testbit (bs_set i s) k = true.
Proof. intros Hi Hk H. by rewrite bs_set_spec, H. Qed.

Lemma bs_from_grows first s k : 0 <= k -> Z.testbit s k = true -> Z.testbit (bs_from first s) k = true.
Proof.
  intros Hk. unfold bs_from. generalize (seq (Z.to_nat first) (32 - Z.to_nat first)) as l. intros l. revert s.
  induction l as [|i l IH]; intros s Hs; [exact Hs|]. cbn. apply IH, bs_set_grows; lia || done.
Qed.

Lemma bs_all k : 0 <= k < 8 -> Z.testbit 0xFF k = true.
Proof. intros Hk. by apply (Z.ones_spec_low 8 k). Qed.

Lemma bs_disjoint s t i : bs_any (s .& t) = false -> Z.testbit s i = true -> Z.testbit t i = true -> False.
Proof.
  unfold bs_any. intros H Hs Ht. apply negb_false_iff, Z.eqb_eq in H.
  assert (E : Z.testbit (s .& t) i = false) by (rewrite H; apply Z.testbit_0_l). rewrite Z.land_spec, Hs, Ht in E. discriminate E.
Qed.

Lemma RA_range inst : 0 <= RA inst < 32. Proof. by apply (bits_range 16 5). Qed.
Lemma RB_range inst : 0 <= RB inst < 32. Proof. by apply (bits_range 11 5). Qed.
Lemma RS_range inst : 0 <= RS inst < 32. Proof. by apply (bits_range 21 5). Qed.
Lemma RD_range inst : 0 <= RD inst < 32. Proof. by apply (bits_range 21 5). Qed.
Lemma RC_range inst : 0 <= RC inst < 32. Proof. by apply (bits_range 6 5). Qed.
Lemma CRFD_range inst : 0 <= CRFD inst < 8. Proof. by apply (bits_range 23 3). Qed.
Lemma CRFS_range inst : 0 <= CRFS inst < 8. Proof. by apply (bits_range 18 3). Qed.

(** The field of a bit of the condition register. *)
Lemma cr_field_range i inst : 0 <= bits i 5 inst .>> 2 < 8.
Proof. pose proof (bits_range i 5 inst ltac:(lia)). rewrite Z.shiftr_div_pow2 by lia. split; [apply Z.div_pos | apply Z.div_lt_upper_bound]; lia. Qed.


Ltac in_range :=
  match goal with
  | |- 0 <= RA ?i => apply (RA_range i) | |- 0 <= RB ?i => apply (RB_range i) | |- 0 <= RS ?i => apply (RS_range i)
  | |- 0 <= RD ?i => apply (RD_range i) | |- 0 <= RC ?i => apply (RC_range i)
  | |- 0 <= CRFD ?i => apply (CRFD_range i) | |- 0 <= CRFS ?i => apply (CRFS_range i)
  | |- 0 <= CRBA ?i .>> 2 => apply (cr_field_range 16 i) | |- 0 <= CRBB ?i .>> 2 => apply (cr_field_range 11 i)
  | |- 0 <= CRBD ?i .>> 2 => apply (cr_field_range 21 i)
  | _ => lia
  end.

Lemma regsIn_spec inst info k : 0 <= k ->
  (k = RA inst /\ (has_flag FL_IN_A (op_flags info) || (has_flag FL_IN_A0 (op_flags info) && negb (RA inst =? 0))) = true \/
   k = RB inst /\ has_flag FL_IN_B (op_flags info) = true \/ k = RS inst /\ has_flag FL_IN_S (op_flags info) = true) ->
  Z.testbit (regsIn_of inst info) k = true.
Proof.
  intros Hk Hc. unfold regsIn_of. cbv zeta.
  match goal with |- context [if _ then bs_from _ ?s else _] => assert (Hs : Z.testbit s k = true) end.
  - rewrite !bs_set_if_spec by in_range. rewrite !orb_true_iff, !andb_true_iff, !Z.eqb_eq, orb_true_iff. clear Hk.
    destruct Hc as [[-> H]|[[-> H]|[-> H]]]; rewrite ?H; [rewrite orb_true_iff in H|..]; tauto.
  - destruct (OPCD inst =? 47); [|exact Hs]. by apply bs_from_grows.
Qed.

Lemma regsOut_spec inst info k : 0 <= k ->
  (k = RA inst /\ has_flag FL_OUT_A (op_flags info) = true \/ k = RD inst /\ has_flag FL_OUT_D (op_flags info) = true) ->
  Z.testbit (regsOut_of inst info) k = true.
Proof.
  intros Hk Hc. unfold regsOut_of. cbv zeta.
  match goal with |- context [if _ then bs_from _ ?s else _] => assert (Hs : Z.testbit s k = true) end.
  - rewrite !bs_set_if_spec by in_range. rewrite !orb_true_iff, !andb_true_iff, !Z.eqb_eq. clear Hk.
    destruct Hc as [[-> H]|[-> H]]; rewrite ?H; tauto.
  - destruct (OPCD inst =? 46); [|exact Hs]. by apply bs_from_grows.
Qed.

(** One field in an empty set. *)
Lemma bs_one i : 0 <= i -> Z.testbit (bs_set i 0) i = true.
Proof. intros Hi. rewrite bs_set_spec, Z.eqb_refl, orb_true_r by lia. done. Qed.

Lemma all_CR_range l : In l all_CR -> exists k, l = LCr k /\ 0 <= k < 8.
Proof. unfold all_CR, field_indices. cbn. intros H. repeat (destruct H as [<-|H]; [eexists; split; [reflexivity|lia]|]). destruct H. Qed.

(** What the flags declare is in the sets that the analysis computes from them. *)
Lemma read_declared inst o l :
  declares_read (op_flags (GetOpInfo inst)) (op_type (GetOpInfo inst)) o = true -> In l (locs inst o) -> may_read inst l.
Proof.
  intros Hd Hl. destruct o; cbn [declares_read locs] in Hd, Hl; try discriminate Hd.
  - destruct Hl as [<-|[]]. apply regsIn_spec; [in_range|]. left. by rewrite Hd.
  - unfold in_A0, if_loc in Hl. destruct (negb (RA inst =? 0)) eqn:E; [|destruct Hl]. destruct Hl as [<-|[]].
    apply regsIn_spec; [in_range|]. left. by rewrite E, andb_true_r.
  - destruct Hl as [<-|[]]. apply regsIn_spec; [in_range|]. tauto.
  - destruct Hl as [<-|[]]. apply regsIn_spec; [in_range|]. tauto.
  - by destruct Hl as [<-|[]].
  - by destruct Hl as [<-|[]].
  - destruct Hl as [<-|[]]. cbn. unfold crIn_of. cbv zeta. destruct (has_flag FL_READ_ALL_CR _); [apply bs_all, CRFS_range|].
    cbn [orb] in Hd. rewrite Hd. apply bs_one. in_range.
  - assert (Hk : exists k, l = LCr k /\ (k = CRBA inst .>> 2 \/ k = CRBB inst .>> 2 \/ k = CRBD inst .>> 2)).
    { cbn in Hl. destruct Hl as [<-|[<-|[<-|[]]]]; eauto. }
    destruct Hk as (k & -> & Hk). assert (0 <= k < 8) by (destruct Hk as [->|[->| ->]]; apply cr_field_range).
    cbn. unfold crIn_of. cbv zeta. destruct (has_flag FL_READ_ALL_CR _); [by apply bs_all|].
    cbn [orb] in Hd. apply andb_prop in Hd as [Hd Ht]. apply andb_prop in Hd as [H1 H2].
    apply negb_true_iff in H1, H2. rewrite H1, H2, Ht. rewrite !bs_set_spec by (in_range || apply cr_field_range).
    rewrite !orb_true_iff, !Z.eqb_eq. tauto.
  - apply all_CR_range in Hl as (k & -> & Hk). cbn. unfold crIn_of. cbv zeta. rewrite Hd. by apply bs_all.
  - unfold fp_status in Hl. cbn in Hl. destruct Hl as [<-|[<-|[<-|[]]]]; exact Hd.
  - by destruct Hl as [<-|[]].
Qed.

Lemma write_declared inst o l :
  declares_write (op_flags (GetOpInfo inst)) (op_type (GetOpInfo inst)) o = true -> In l (locs inst o) -> may_write inst l.
Proof.
  intros Hd Hl. destruct o; cbn [declares_write locs] in Hd, Hl; try discriminate Hd;
    rewrite ?andb_true_iff, ?orb_true_iff, ?negb_true_iff in Hd.
  - destruct Hl as [<-|[]]. apply regsOut_spec; [in_range|]. tauto.
  - destruct Hl as [<-|[]]. apply regsOut_spec; [in_range|]. tauto.
  - by destruct Hl as [<-|[]].
  - destruct Hl as [<-|[]]. destruct Hd as [H1 H2]. cbn. unfold crOut_of. cbv zeta. rewrite H1, H2.
    by destruct (has_flag FL_SET_ALL_CR _).
  - unfold if_loc in Hl. destruct (Rc inst) eqn:E; [|destruct Hl]. destruct Hl as [<-|[]]. destruct Hd as [H1 H2].
    cbn. unfold crOut_of. cbv zeta. rewrite H1, E, andb_true_r. apply orb_true_iff in H2. rewrite H2. by destruct (has_flag FL_SET_ALL_CR _).
  - unfold if_loc in Hl. destruct (Rc inst) eqn:E; [|destruct Hl]. destruct Hl as [<-|[]]. destruct Hd as [[[H1 H2] H3] H4].
    cbn. unfold crOut_of. cbv zeta. rewrite H1, H2, H3, H4, E, orb_true_r. by destruct (has_flag FL_SET_ALL_CR _).
  - destruct Hl as [<-|[]]. cbn. unfold crOut_of. cbv zeta. destruct (has_flag FL_SET_ALL_CR _); [apply bs_all, CRFD_range|].
    destruct Hd as [Hd|Hd]; [done|]. rewrite Hd. apply bs_one. in_range.
  - destruct Hl as [<-|[]]. destruct Hd as [[[[[H1 H2] H3] H4] H5] H6].
    cbn. unfold crOut_of. cbv zeta. rewrite H1, H2, H3, H4, H5, H6. cbn [orb andb].
    destruct (has_flag FL_SET_ALL_CR _); [apply bs_all, cr_field_range | apply bs_one; in_range].
  - apply all_CR_range in Hl as (k & -> & Hk). cbn. unfold crOut_of. cbv zeta. rewrite Hd. by apply bs_all.
  - unfold fp_status in Hl. cbn in Hl. destruct Hl as [<-|[<-|[<-|[]]]]; exact Hd.
  - by destruct Hl as [<-|[]].
Qed.

(** * Every entry of the tables *)

(** The flags that keep an instruction in its place. *)
Definition FL_STAYS : Z := FL_LOADSTORE .| FL_PROGRAMEXCEPTION .| FL_ENDBLOCK .| FL_TIMER .| FL_NO_REORDER .| FL_SET_OE.

Definition is_mcrxr (fn : Instruction) : bool := match fn with Op_mcrxr => true | _ => false end.

Definition operands_declared (k : Z) (e : Z * entry) : bool :=
  let '(op, ((_, fn), info)) := e in
  match register_instruction fn with
  | None => true
  | Some _ =>
      has_flag FL_STAYS (op_flags info) || is_mcrxr fn ||
      (negb (has_overflow_form fn) || (k =? 31) && negb (Z.testbit op 9)) &&
      match operands_of fn with
      | Some (R, W) => forallb (declares_read (op_flags info) (op_type info)) R && forallb (declares_write (op_flags info) (op_type info)) W
      | None => false
      end
  end.

Lemma all_operands_declared : every_entry operands_declared = true.
Proof. vm_compute. reflexivity. Qed.

(** Integer instructions are among those modelled, and do not use the FPU. *)
Definition integer_entry (k : Z) (e : Z * entry) : bool :=
  let '(_, ((_, fn), info)) := e in
  negb (bool_decide (op_type info = TypeInteger)) ||
  negb (has_flag FL_USE_FPU (op_flags info)) && bool_decide (is_Some (register_instruction fn)).

Lemma all_integer_entries : every_entry integer_entry = true.
Proof. vm_compute. reflexivity. Qed.

Lemma integer_spec inst : op_type (GetOpInfo inst) = TypeInteger ->
  has_flag FL_USE_FPU (op_flags (GetOpInfo inst)) = false /\ is_Some (register_instruction (GetInterpreterOp inst)).
Proof.
  intros Ht. assert (H : integer_entry (table_of inst) (find_entry inst) = true) by (apply find_entry_all; [reflexivity | exact all_integer_entries]).
  destruct (find_entry_spec inst) as [E1 E2]. rewrite E2 in Ht. rewrite E1, E2.
  destruct (find_entry inst) as [op [[code fn] info]]. cbn [fst snd] in *.
  unfold integer_entry in H. rewrite bool_decide_eq_true_2 in H by done. cbn [negb orb] in H.
  apply andb_prop in H as [H1 H2]. apply negb_true_iff in H1. by apply bool_decide_eq_true in H2.
Qed.

(** An instruction that may be moved writes what it may write, from what it may read. *)
Lemma movable_footprint inst f : register_instruction (GetInterpreterOp inst) = Some f ->
  has_flag FL_STAYS (op_flags (GetOpInfo inst)) = false -> GetInterpreterOp inst <> Op_mcrxr ->
  exists g, f = goes_on g /\ footprint (may_read inst) (may_write inst) (g inst).
Proof.
  intros Hf Hs Hm.
  assert (H : operands_declared (table_of inst) (find_entry inst) = true) by (apply find_entry_all; [reflexivity | exact all_operands_declared]).
  destruct (find_entry_spec inst) as [E1 E2]. pose proof (find_entry_index31 inst) as H31.
  assert (Hr := read_declared inst). assert (Hw := write_declared inst). rewrite E2 in Hs, Hr, Hw. rewrite E1 in Hf, Hm.
  destruct (find_entry inst) as [op [[code fn] info]]. cbn [fst snd] in *.
  unfold operands_declared in H. rewrite Hf, Hs in H. cbn [orb] in H.
  assert (Em : is_mcrxr fn = false) by (by destruct fn). rewrite Em in H. cbn [orb] in H. apply andb_prop in H as [Ho Hd].
  assert (HOE : has_overflow_form fn = true -> OE inst = false).
  { intros Hov. rewrite Hov in Ho. cbn in Ho. apply andb_prop in Ho as [Hk Ho]. apply Z.eqb_eq in Hk.
    rewrite OE_bit, <- (proj2 (H31 Hk)). by apply negb_true_iff. }
  pose proof (operands_footprint fn inst HOE) as Hfp. rewrite Hf in Hfp.
  destruct (operands_of fn) as [[R W]|]; [|discriminate Hd]. apply andb_prop in Hd as [HR HW].
  rewrite forallb_forall in HR, HW. destruct Hfp as (g & -> & Hfp). exists g. split; [done|].
  eapply footprint_mono; [| |exact Hfp]; intros l Hl; apply in_flat_map in Hl as (o & Ho' & Hl); eauto.
Qed.

(** * Swapping *)

(** The analysis of a word. *)
Definition analysed (an : PPCAnalyzer) (op : CodeOp) : Prop :=
  exists fpa_any inst addr, op = fst (SetInstructionStats an fpa_any inst addr).

Lemma has_flag_split f g x : has_flag (f .| g) x = has_flag f x || has_flag g x.
Proof.
  unfold has_flag. rewrite Z.land_lor_distr_r, <- negb_andb. f_equal. apply eq_iff_eq_true. rewrite andb_true_iff, !Z.eqb_eq. apply Z.lor_eq_0_iff.
Qed.

Lemma mtspr_unmodelled inst : IsMtspr inst = true -> register_instruction (GetInterpreterOp inst) = None.
Proof.
  unfold IsMtspr. intros H. apply andb_prop in H as [H1 H2]. apply Z.eqb_eq in H1, H2.
  destruct (find_entry_spec inst) as [-> _]. rewrite find_entry_eq, H1, H2. vm_compute. reflexivity.
Qed.

(** What allows a swap. *)
Record swappable (a b : CodeOp) : Prop := {
  sw_a_stays : register_instruction (GetInterpreterOp (co_inst a)) <> None -> has_flag FL_STAYS (op_flags (opinfo a)) = false;
  sw_b_stays : register_instruction (GetInterpreterOp (co_inst b)) <> None -> has_flag FL_STAYS (op_flags (opinfo b)) = false;
  sw_carry : has_flag (FL_SET_CA .| FL_READ_CA) (op_flags (opinfo a)) && has_flag (FL_SET_CA .| FL_READ_CA) (op_flags (opinfo b)) = false;
  sw_integer : op_type (opinfo b) = TypeInteger;
  sw_regs : bs_any (regsOut b .& regsIn a) = false /\ bs_any (regsOut a .& regsIn b) = false /\ bs_any (regsOut b .& regsOut a) = false;
  sw_cr : bs_any (crOut b .& crIn a) = false /\ bs_any (crOut a .& crIn b) = false /\ bs_any (crOut b .& crOut a) = false
}.

Lemma stays_flags an op : analysed an op -> register_instruction (GetInterpreterOp (co_inst op)) <> None ->
  canCauseException op = false -> canEndBlock op = false -> has_flag (FL_TIMER .| FL_NO_REORDER .| FL_SET_OE) (op_flags (opinfo op)) = false ->
  has_flag FL_STAYS (op_flags (opinfo op)) = false.
Proof.
  intros (fpa & inst & addr & ->) Hf He Hb Ht. cbn in *.
  unfold canCauseException_of in He. apply orb_false_elim in He as [He _]. apply orb_false_elim in He as [He _]. apply orb_false_elim in He as [_ He].
  unfold InstructionCanEndBlock in Hb. destruct (IsMtspr inst) eqn:Em; [by rewrite mtspr_unmodelled in Hf|].
  cbn in Hb. rewrite andb_true_r in Hb.
  assert (E : FL_STAYS = (FL_LOADSTORE .| FL_PROGRAMEXCEPTION) .| FL_ENDBLOCK .| (FL_TIMER .| FL_NO_REORDER .| FL_SET_OE)) by reflexivity.
  by rewrite E, has_flag_split, Ht, has_flag_split, He, Hb.
Qed.

Lemma CanSwap_swappable an a b : analysed an a -> analysed an b -> CanSwapAdjacentOps an a b = true -> swappable a b.
Proof.
  intros Ha Hb H. unfold CanSwapAdjacentOps in H. cbv zeta in H.
  repeat (match type of H with (if ?c then false else _) = true => let E := fresh "E" in destruct c eqn:E; [discriminate H|] end).
  repeat match goal with E : _ || _ = false |- _ => apply orb_false_elim in E as [?E ?E] end.
  split; try (intros Hr; eapply stays_flags; eassumption); try assumption; try (split_and!; assumption).
  match goal with E : negb _ = false |- _ => apply negb_false_iff, bool_decide_eq_true in E; exact E end.
Qed.

(** The sets of two swappable instructions do not overlap. *)
Section Disjoint.
Context (an : PPCAnalyzer) (a b : CodeOp) (Ha : analysed an a) (Hb : analysed an b) (Hs : swappable a b).
Context (fa fb : Z -> PPCState -> PPCState * bool).
Context (Efa : register_instruction (GetInterpreterOp (co_inst a)) = Some fa).
Context (Efb : register_instruction (GetInterpreterOp (co_inst b)) = Some fb).

Abbreviation ia := (co_inst a).
Abbreviation ib := (co_inst b).

Lemma opinfo_analysed op : analysed an op -> opinfo op = GetOpInfo (co_inst op).
Proof. by intros (fpa & inst & addr & ->). Qed.
Lemma regsIn_analysed op : analysed an op -> regsIn op = regsIn_of (co_inst op) (GetOpInfo (co_inst op)).
Proof. by intros (fpa & inst & addr & ->). Qed.
Lemma regsOut_analysed op : analysed an op -> regsOut op = regsOut_of (co_inst op) (GetOpInfo (co_inst op)).
Proof. by intros (fpa & inst & addr & ->). Qed.
Lemma crIn_analysed op : analysed an op -> crIn op = crIn_of (co_inst op) (GetOpInfo (co_inst op)).
Proof. by intros (fpa & inst & addr & ->). Qed.
Lemma crOut_analysed op : analysed an op -> crOut op = crOut_of (co_inst op) (GetOpInfo (co_inst op)).
Proof. by intros (fpa & inst & addr & ->). Qed.

Lemma no_overflow_write op : has_flag FL_STAYS (op_flags (opinfo op)) = false -> has_flag FL_SET_OE (op_flags (opinfo op)) = false.
Proof.
  change FL_STAYS with ((FL_LOADSTORE .| FL_PROGRAMEXCEPTION .| FL_ENDBLOCK .| FL_TIMER .| FL_NO_REORDER) .| FL_SET_OE).
  rewrite has_flag_split. intros H. by apply orb_false_elim in H as [_ H].
Qed.

Lemma carry_conflict f g :
  f = FL_SET_CA \/ f = FL_READ_CA -> g = FL_SET_CA \/ g = FL_READ_CA ->
  has_flag f (op_flags (GetOpInfo ia)) = true -> has_flag g (op_flags (GetOpInfo ib)) = true -> False.
Proof.
  intros Hf Hg H1 H2. pose proof (sw_carry _ _ Hs) as E. rewrite (opinfo_analysed a Ha), (opinfo_analysed b Hb), !has_flag_split in E.
  destruct Hf as [-> | ->], Hg as [-> | ->]; rewrite H1, H2, ?orb_true_r in E; discriminate E.
Qed.

Ltac conflict :=
  match goal with
  | Hx : Z.testbit ?s ?i = true, Hy : Z.testbit ?t ?i = true, E : bs_any (?s .& ?t) = false |- _ => exact (bs_disjoint s t i E Hx Hy)
  | Hx : Z.testbit ?s ?i = true, Hy : Z.testbit ?t ?i = true, E : bs_any (?t .& ?s) = false |- _ => exact (bs_disjoint t s i E Hy Hx)
  end.

Lemma sets_disjoint :
  (forall l, may_write ia l -> ~ may_read ib l) /\ (forall l, may_write ib l -> ~ may_read ia l) /\ (forall l, may_write ia l -> ~ may_write ib l).
Proof.
  destruct (sw_regs _ _ Hs) as (R1 & R2 & R3), (sw_cr _ _ Hs) as (C1 & C2 & C3).
  rewrite (regsIn_analysed a Ha), (regsOut_analysed b Hb) in R1. rewrite (regsIn_analysed b Hb), (regsOut_analysed a Ha) in R2.
  rewrite (regsOut_analysed a Ha), (regsOut_analysed b Hb) in R3. rewrite (crIn_analysed a Ha), (crOut_analysed b Hb) in C1.
  rewrite (crIn_analysed b Hb), (crOut_analysed a Ha) in C2. rewrite (crOut_analysed a Ha), (crOut_analysed b Hb) in C3.
  pose proof (no_overflow_write a (sw_a_stays _ _ Hs ltac:(by rewrite Efa))) as Oa. rewrite (opinfo_analysed a Ha) in Oa.
  pose proof (no_overflow_write b (sw_b_stays _ _ Hs ltac:(by rewrite Efb))) as Ob. rewrite (opinfo_analysed b Hb) in Ob.
  pose proof (sw_integer _ _ Hs) as Ti. rewrite (opinfo_analysed b Hb) in Ti. destruct (integer_spec _ Ti) as [Fb _].
  split_and!; intros [i|i| | | | | |i] Hw Hr; cbn [may_write may_read] in Hw, Hr; try conflict;
    try (match goal with E : ?x = false |- _ => first [rewrite Hw in E | rewrite Hr in E]; discriminate E end);
    first [ exact (carry_conflict _ _ (or_introl eq_refl) (or_intror eq_refl) Hw Hr)
          | exact (carry_conflict _ _ (or_intror eq_refl) (or_introl eq_refl) Hr Hw)
          | exact (carry_conflict _ _ (or_introl eq_refl) (or_introl eq_refl) Hw Hr) ].
Qed.
End Disjoint.

(** * Executing a block *)

Section Run.
(** The rest of the machine, and the instructions that also work on it. *)
Context {W : Type} (other : Z -> PPCState * W -> (PPCState * W) * bool).

Definition step_op inst (s : PPCState * W) : (PPCState * W) * bool :=
  match register_instruction (GetInterpreterOp inst) with
  | Some f => let '(p, end_block) := f inst (fst s) in ((p, snd s), end_block)
  | None => other inst s
  end.

(** An instruction is executed at its own address, wherever in the block it is now. *)
Definition at_address (addr : Z) (p : PPCState) : PPCState := fset p_npc (to_u32 (addr + 4)) (fset p_pc addr p).

(** The block, up to the first instruction that leaves it; [after] is where it continues
    otherwise. *)
Fixpoint run_ops (after : Z) (ops : list CodeOp) (s : PPCState * W) : (PPCState * W) * bool :=
  match ops with
  | [] => ((at_address after (fst s), snd s), false)
  | op :: ops =>
      let '(s, end_block) := step_op (co_inst op) (at_address (address op) (fst s), snd s) in
      if end_block then (s, true) else run_ops after ops s
  end.

Lemma put_loc_at l v addr p : put_loc l v (at_address addr p) = at_address addr (put_loc l v p).
Proof. by destruct l. Qed.

Lemma apply_writes_at ws addr p : apply_writes ws (at_address addr p) = at_address addr (apply_writes ws p).
Proof. revert p. induction ws as [|[l v] ws IH]; intros p; [done|]. cbn [apply_writes]. by rewrite put_loc_at, IH. Qed.

Lemma agree_at R addr p : agree R p (at_address addr p).
Proof. split; [|done]. by intros []. Qed.

(** What moves does not depend on the address it is executed at. *)
Lemma footprint_at R V f addr p : footprint R V f -> f (at_address addr p) = at_address addr (f p).
Proof.
  intros Hf. destruct (Hf p) as (ws & _ & E). rewrite (E p), (E (at_address addr p)) by (apply agree_refl || apply agree_at). apply apply_writes_at.
Qed.

Lemma run_ops_at after ops addr p w : run_ops after ops (at_address addr p, w) = run_ops after ops (p, w).
Proof. by destruct ops. Qed.

(** What the theorem on reordering leaves out: [mcrxr], whose flags do not say that it
    clears the overflow bits, and the instructions on the floating-point registers that write
    the condition register, which are not modelled. *)
Definition covered (op : CodeOp) : Prop :=
  GetInterpreterOp (co_inst op) <> Op_mcrxr /\ (crOut op = 0 \/ register_instruction (GetInterpreterOp (co_inst op)) <> None).

(** Swapping two adjacent instructions changes nothing. *)
Lemma swap_run an after a b ops s : analysed an a -> analysed an b -> CanSwapAdjacentOps an a b = true ->
  GetInterpreterOp (co_inst a) <> Op_mcrxr -> GetInterpreterOp (co_inst b) <> Op_mcrxr -> register_instruction (GetInterpreterOp (co_inst a)) <> None ->
  run_ops after (a :: b :: ops) s = run_ops after (b :: a :: ops) s.
Proof.
  intros Ha Hb Hsw Hma Hmb Hra. apply (CanSwap_swappable an) in Hsw; [|done|done].
  assert (Ti : op_type (GetOpInfo (co_inst b)) = TypeInteger) by (rewrite <- (opinfo_analysed an b Hb); apply Hsw).
  destruct (integer_spec _ Ti) as [_ [fb Efb]]. destruct (register_instruction (GetInterpreterOp (co_inst a))) as [fa|] eqn:Efa; [|done].
  pose proof (sw_a_stays _ _ Hsw ltac:(by rewrite Efa)) as Sa. rewrite (opinfo_analysed an a Ha) in Sa.
  pose proof (sw_b_stays _ _ Hsw ltac:(by rewrite Efb)) as Sb. rewrite (opinfo_analysed an b Hb) in Sb.
  destruct (sets_disjoint an a b Ha Hb Hsw fa fb Efa Efb) as (D1 & D2 & D3).
  destruct (movable_footprint _ _ Efa Sa Hma) as (ga & -> & Fa), (movable_footprint _ _ Efb Sb Hmb) as (gb & -> & Fb).
  destruct s as [p w]. cbn [run_ops fst snd]. unfold step_op. rewrite Efa, Efb. unfold goes_on. cbn [fst snd].
  rewrite (footprint_at _ _ _ (address a) p Fa), (footprint_at _ _ _ (address b) p Fb).
  change (at_address (address b) (at_address (address a) ?q)) with (at_address (address b) q).
  change (at_address (address a) (at_address (address b) ?q)) with (at_address (address a) q).
  rewrite (footprint_at _ _ _ (address b) _ Fb), (footprint_at _ _ _ (address a) _ Fa), !run_ops_at.
  f_equal. f_equal. exact (footprints_commute _ _ _ _ (ga (co_inst a)) (gb (co_inst b)) p Fa Fb D1 D2 D3).
Qed.
End Run.
