(* ===== verification/PPCReorderProps.v ===== *)
(** The reordering of a block terminates, moves instructions only, and does not change what
    the block does. *)
From stdpp Require Import base tactics option list gmap relations.
From Stdlib Require Import ZArith Lia Bool.
From S2P Require Import Prelude PowerPC PowerPCProps ConditionRegister Gekko PPCTables InterpreterTables.
From S2P Require Import PPCInteger PPCIntegerProps PPCSystem PPCInterpreter PPCTableProps PPCAnalyst Footprint PPCReorder.

#[local] Open Scope Z_scope.
Implicit Types (inst : Z) (p : PPCState) (code : list CodeOp).

(** * One swap *)

(** [a] moves over [b], towards the end of the block or towards its start. *)
Inductive swap_step (an : PPCAnalyzer) (type : ReorderType) : list CodeOp -> list CodeOp -> Prop :=
  | swap_later l1 a b l2 : reorders type a = true -> CanSwapAdjacentOps an a b = true ->
      swap_step an type (l1 ++ a :: b :: l2) (l1 ++ b :: a :: l2)
  | swap_earlier l1 a b l2 : reorders type a = true -> CanSwapAdjacentOps an a b = true ->
      swap_step an type (l1 ++ b :: a :: l2) (l1 ++ a :: b :: l2).

Lemma swap_step_permutation an type code code' : swap_step an type code code' -> code' ≡ₚ code.
Proof. intros []; apply Permutation_app_head, Permutation_swap. Qed.

Lemma rtc_permutation an type code code' : rtc (swap_step an type) code code' -> code' ≡ₚ code.
Proof. induction 1 as [|x y z Hs _ IH]; [done|]. rewrite IH. by eapply swap_step_permutation. Qed.

(** What moves is modelled. *)
Lemma isCror_spec an op : analysed an op -> isCror op = true -> GetInterpreterOp (co_inst op) = Op_cror.
Proof.
  intros (fpa & inst & addr & ->) H. unfold isCror in H. cbn in *. apply andb_prop in H as [H1 H2]. apply Z.eqb_eq in H1, H2.
  destruct (find_entry_spec inst) as [-> _]. rewrite find_entry_eq, H1, H2. vm_compute. reflexivity.
Qed.

Lemma reorders_modelled an type op : analysed an op -> covered op -> reorders type op = true ->
  register_instruction (GetInterpreterOp (co_inst op)) <> None.
Proof.
  intros Ha [_ Hc] Hr. destruct type; cbn in Hr.
  - unfold isCarryOp in Hr. apply andb_prop in Hr as [_ Ht]. apply bool_decide_eq_true in Ht.
    rewrite (opinfo_analysed an op Ha) in Ht. destruct (integer_spec _ Ht) as [_ [f Hf]]. by rewrite Hf.
  - unfold bs_any in Hr. destruct Hc as [Hc|Hc]; [|done]. by rewrite Hc in Hr.
  - by rewrite (isCror_spec an op Ha Hr).
Qed.

Section Steps.
Context {W : Type} (other : Z -> PPCState * W -> (PPCState * W) * bool) (an : PPCAnalyzer).

Lemma run_ops_app after l1 x y s :
  (forall s, run_ops other after x s = run_ops other after y s) -> run_ops other after (l1 ++ x) s = run_ops other after (l1 ++ y) s.
Proof.
  intros Hxy. revert s. induction l1 as [|op l1 IH]; intros s; [apply Hxy|]. cbn [app run_ops].
  destruct (step_op other (co_inst op) _) as [s' []]; [done | apply IH].
Qed.

Lemma swap_step_run type after code code' s : swap_step an type code code' -> Forall (analysed an) code -> Forall covered code ->
  run_ops other after code' s = run_ops other after code s.
Proof.
  intros Hs Ha Hc.
  assert (Hsw : forall a b l2, analysed an a -> analysed an b -> covered a -> covered b -> reorders type a = true ->
    CanSwapAdjacentOps an a b = true -> forall s, run_ops other after (a :: b :: l2) s = run_ops other after (b :: a :: l2) s).
  { intros a b l2 Ha1 Hb1 Hca Hcb Hr Hcs s'. apply (swap_run other an); try done; [apply Hca | apply Hcb | by eapply reorders_modelled]. }
  destruct Hs as [l1 a b l2 Hr Hcs | l1 a b l2 Hr Hcs]; rewrite !Forall_app, !Forall_cons in Ha, Hc;
    destruct Ha as (_ & Ha1 & Ha2 & _), Hc as (_ & Hc1 & Hc2 & _); apply run_ops_app; intros s'; [symmetry|]; apply Hsw; assumption.
Qed.

Lemma rtc_run type after code code' s : rtc (swap_step an type) code code' -> Forall (analysed an) code -> Forall covered code ->
  run_ops other after code' s = run_ops other after code s.
Proof.
  induction 1 as [|x y z Hs _ IH]; [done|]. intros Ha Hc. pose proof (swap_step_permutation _ _ _ _ Hs) as Hp.
  rewrite IH by (by rewrite Hp). by eapply swap_step_run.
Qed.
End Steps.

(** * The loop *)

Lemma swap_in_list {A} (l : list A) i x y : l !! i = Some x -> l !! S i = Some y ->
  l = take i l ++ x :: y :: drop (S (S i)) l /\ <[i := y]> (<[S i := x]> l) = take i l ++ y :: x :: drop (S (S i)) l.
Proof.
  intros Hx Hy. assert (E : l = take i l ++ x :: y :: drop (S (S i)) l) by (by rewrite <- (drop_S l y (S i)), <- (drop_S l x i), take_drop).
  split; [exact E|]. assert (Hi : i = length (take i l)) by (rewrite length_take; apply lookup_lt_Some in Hx; lia).
  rewrite E at 1. rewrite Hi at 1 2. generalize (drop (S (S i)) l) (take i l). intros r h.
  rewrite !insert_app_r_alt by lia. rewrite Nat.sub_diag. by replace (S (length h) - length h)%nat with 1%nat by lia.
Qed.

Section Loop.
Context (an : PPCAnalyzer) (reverse : bool) (type : ReorderType) (n : Z).

Abbreviation start := (if reverse then n - 1 else 0).
Abbreviation end_ := (if reverse then 0 else n - 1).
Abbreviation increment := (if reverse then -1 else 1).

(** The index at a distance from the start. *)
Definition index_at (x : Z) : Z := start + increment * x.

Lemma reorder_at_spec x code : Z.of_nat (length code) = n -> 0 <= x < n - 1 ->
  exists code' back, reorder_at an reverse type start increment (index_at x) code = Some (code', back) /\
    rtc (swap_step an type) code code' /\ (back = true -> x <> 0).
Proof.
  intros Hn Hx. set (i := index_at x).
  assert (Hi : 0 <= i < n /\ 0 <= i + increment < n /\ (i = start <-> x = 0)) by (unfold i, index_at; destruct reverse; lia).
  destruct Hi as (Hi & Hj & Hz).
  destruct (lookup_lt_is_Some_2 code (Z.to_nat i) ltac:(lia)) as [a Ea]. destruct (lookup_lt_is_Some_2 code (Z.to_nat (i + increment)) ltac:(lia)) as [b Eb].
  unfold reorder_at. rewrite Ea, Eb. cbn [mbind option_bind].
  destruct (reorders type a) eqn:Er; [|by exists code, false].
  match goal with |- context [if ?c then Some (code, false) else _] => destruct c; [by exists code, false|] end.
  destruct (CanSwapAdjacentOps an a b) eqn:Ec; [|by exists code, false].
  eexists _, _. split; [reflexivity|]. split; [|rewrite negb_true_iff, Z.eqb_neq; tauto].
  apply rtc_once. clear Hz. unfold i, index_at in *. clear i. destruct reverse.
  - set (j := Z.to_nat (n - 1 + -1 * x + -1)) in *. replace (Z.to_nat (n - 1 + -1 * x)) with (S j) in * by lia.
    destruct (swap_in_list code j b a Eb Ea) as [E1 E2]. rewrite list_insert_insert_ne, E2 by lia. rewrite E1 at 1. by constructor.
  - set (j := Z.to_nat (0 + 1 * x)) in *. replace (Z.to_nat (0 + 1 * x + 1)) with (S j) in * by lia.
    destruct (swap_in_list code j a b Ea Eb) as [E1 E2]. rewrite E2. rewrite E1 at 1. by constructor.
Qed.

Lemma swap_step_length code code' : swap_step an type code code' -> length code' = length code.
Proof. intros H. apply Permutation_length. by eapply swap_step_permutation. Qed.

Lemma rtc_length code code' : rtc (swap_step an type) code code' -> length code' = length code.
Proof. intros H. apply Permutation_length. by eapply rtc_permutation. Qed.

(** [x] is the distance of [i] from the start, [k] that of [next]; every step goes one back
    or on to [next], which it moves. *)
Lemma reorder_loop_spec fuel x k back code : Z.of_nat (length code) = n ->
  0 <= k <= n - 1 -> (back = true -> 1 <= x <= n - 1) ->
  (n - 1 - k) * (n + 1) + (if back then x else 0) < Z.of_nat fuel ->
  exists code', reorder_loop an reverse type start end_ increment fuel (index_at x) (index_at k) back code = Some code' /\
    rtc (swap_step an type) code code'.
Proof.
  revert x k back code. induction fuel as [|fuel IH]; intros x k back code Hn Hk Hx Hf; [destruct back; nia|].
  cbn [reorder_loop].
  assert (Hgo : forall x' k', 0 <= x' < n - 1 -> 0 <= k' <= n - 1 -> (n - 1 - k') * (n + 1) + x' < Z.of_nat fuel ->
    exists code', ('(code, go_backwards) ← reorder_at an reverse type start increment (index_at x') code;
      reorder_loop an reverse type start end_ increment fuel (index_at x') (index_at k') go_backwards code) = Some code' /\
      rtc (swap_step an type) code code').
  { intros x' k' Hx' Hk' Hf'. destruct (reorder_at_spec x' code Hn Hx') as (code1 & back1 & -> & Hr & Hb). cbn [mbind option_bind].
    destruct (IH x' k' back1 code1) as (code2 & -> & Hr2); [by rewrite (rtc_length _ _ Hr) | done | intros ->; specialize (Hb eq_refl); lia | destruct back1; lia |].
    exists code2. split; [done|]. by transitivity code1. }
  destruct back.
  - specialize (Hx eq_refl). replace (index_at x - increment) with (index_at (x - 1)) by (unfold index_at; destruct reverse; lia).
    rewrite (proj2 (Z.eqb_neq (index_at (x - 1)) end_)) by (unfold index_at; destruct reverse; lia). apply Hgo; lia.
  - replace (index_at k + increment) with (index_at (k + 1)) by (unfold index_at; destruct reverse; lia).
    destruct (Z.eqb_spec (index_at k) end_) as [E|E]; [by exists code|].
    assert (k <> n - 1) by (intros ->; apply E; unfold index_at; destruct reverse; lia). apply Hgo; nia.
Qed.
End Loop.

Lemma ReorderInstructionsCore_spec an reverse type code : code <> [] ->
  exists code', ReorderInstructionsCore an reverse type code = Some code' /\ rtc (swap_step an type) code code'.
Proof.
  intros Hne. unfold ReorderInstructionsCore. cbv zeta. set (n := Z.of_nat (length code)).
  assert (1 <= n) by (destruct code; [done|]; unfold n; cbn; lia).
  assert (E : index_at reverse n 0 = if reverse then n - 1 else 0) by (unfold index_at; destruct reverse; lia).
  destruct (reorder_loop_spec an reverse type n (Z.to_nat (n * (n + 1) + 1)) 0 0 false code) as (code' & Hl & Hr); [done | lia | done | nia |].
  exists code'. split; [|exact Hr]. rewrite E in Hl. exact Hl.
Qed.

(** * The passes *)

Section Passes.
Context {W : Type} (other : Z -> PPCState * W -> (PPCState * W) * bool) (an : PPCAnalyzer) (after : Z).

(** What every pass gives. *)
Definition same_block code code' : Prop :=
  code' ≡ₚ code /\ forall s, run_ops other after code' s = run_ops other after code s.

Lemma pass_spec (option reverse : bool) type code : code <> [] -> Forall (analysed an) code -> Forall covered code ->
  exists code', (if option then ReorderInstructionsCore an reverse type code else Some code) = Some code' /\ same_block code code'.
Proof.
  intros Hne Ha Hc. destruct option; [|by exists code].
  destruct (ReorderInstructionsCore_spec an reverse type code Hne) as (code' & -> & Hr). exists code'.
  split; [done|]. split; [by eapply rtc_permutation|]. intros s. by eapply rtc_run.
Qed.

Lemma same_block_trans code1 code2 code3 : same_block code1 code2 -> same_block code2 code3 -> same_block code1 code3.
Proof. intros [P1 R1] [P2 R2]. split; [by rewrite P2|]. intros s. by rewrite R2. Qed.

Lemma same_block_ready code code' : same_block code code' -> code <> [] -> Forall (analysed an) code -> Forall covered code ->
  code' <> [] /\ Forall (analysed an) code' /\ Forall covered code'.
Proof. intros [Hp _] Hne Ha Hc. split; [intros ->; by apply Permutation_nil in Hp | by rewrite Hp]. Qed.
End Passes.

(** C2. The recompilers' reordering of a block terminates and is correct.  For every block of
    analysed instructions without [mcrxr] (and without floating-point instructions that
    write the condition register, which are not modelled), [ReorderInstructions] gives the
    same instructions in another order, and executing them, every one at the address it has
    in the program, gives the same machine state and leaves the block in the same way as the
    program's order, whatever the instructions do that also work on the rest of the
    machine. *)
Theorem reordering_preserves_execution {W : Type} (other : Z -> PPCState * W -> (PPCState * W) * bool) an after code :
  code <> [] -> Forall (analysed an) code -> Forall covered code ->
  exists code', ReorderInstructions an code = Some code' /\ code' ≡ₚ code /\
    forall s, run_ops other after code' s = run_ops other after code s.
Proof.
  intros Hne Ha Hc. unfold ReorderInstructions.
  assert (H1 : exists code1, (if option_carry_merge an then
            code ← ReorderInstructionsCore an false ReorderCarry code;
            ReorderInstructionsCore an true ReorderCarry code else Some code) = Some code1 /\ same_block other after code code1).
  { destruct (pass_spec other an after (option_carry_merge an) false ReorderCarry code Hne Ha Hc) as (c1 & E1 & S1).
    destruct (same_block_ready other an after _ _ S1 Hne Ha Hc) as (N1 & A1 & C1).
    destruct (pass_spec other an after (option_carry_merge an) true ReorderCarry c1 N1 A1 C1) as (c2 & E2 & S2).
    destruct (option_carry_merge an); [|by exists code]. exists c2. rewrite E1. cbn. split; [done|]. by eapply same_block_trans. }
  destruct H1 as (c1 & -> & S1). cbn [mbind option_bind]. destruct (same_block_ready other an after _ _ S1 Hne Ha Hc) as (N1 & A1 & C1).
  destruct (pass_spec other an after (option_branch_merge an) false ReorderCMP c1 N1 A1 C1) as (c2 & -> & S2). cbn [mbind option_bind].
  destruct (same_block_ready other an after _ _ S2 N1 A1 C1) as (N2 & A2 & C2).
  destruct (pass_spec other an after (option_cror_merge an) true ReorderCROR c2 N2 A2 C2) as (c3 & -> & S3).
  exists c3. split; [done|]. exact (same_block_trans other after _ _ _ (same_block_trans other after _ _ _ S1 S2) S3).
Qed.

(** ** A block *)

Definition default_analyzer : PPCAnalyzer := mkAnalyzer true true true false false false (fun _ => false).

(** [cmpwi r3, 0; addc r5, r6, r7; addi r4, r4, 1; adde r8, r9, r10; beq +8]. *)
Definition sample_block : list CodeOp :=
  analyze_ops default_analyzer false 0x80003100 [0x2C030000; 0x7CA63814; 0x38840001; 0x7D095114; 0x41820008].

(** The carry instructions are next to each other, and the comparison next to the branch. *)
Example sample_reordered :
  option_map (map co_inst) (ReorderInstructions default_analyzer sample_block) =
  Some [0x38840001; 0x7CA63814; 0x7D095114; 0x2C030000; 0x41820008].
Proof. vm_compute. reflexivity. Qed.

Lemma reordering_preserves_execution_witness :
  exists code', ReorderInstructions default_analyzer sample_block = Some code' /\ code' ≡ₚ sample_block /\
    forall s : PPCState * unit, run_ops (fun _ s => (s, true)) 0x80003114 code' s = run_ops (fun _ s => (s, true)) 0x80003114 sample_block s.
Proof.
  apply (reordering_preserves_execution (fun _ s => (s, true)) default_analyzer 0x80003114 sample_block).
  - discriminate.
  - unfold sample_block. cbn [analyze_ops]. repeat constructor; by eexists _, _, _.
  - unfold sample_block. repeat constructor; first [by left | by right | discriminate].
Defined.

(** ** [mcrxr]

    [mcrxr cr1; cmpwi cr0, r3, 0]: the first clears the summary overflow bit, which the
    second copies into field 0. *)
Definition mcrxr_block : list CodeOp := analyze_ops default_analyzer false 0x80003100 [0x7C800400; 0x2C030000].

Definition overflowed_cpu : PPCState := fset p_xer_so_ov 2 sample_cpu.

Example mcrxr_block_reordered :
  option_map (map co_inst) (ReorderInstructions default_analyzer mcrxr_block) = Some [0x2C030000; 0x7C800400].
Proof. vm_compute. reflexivity. Qed.

Example mcrxr_block_differs :
  let run code := run_ops (fun _ (s : PPCState * unit) => (s, true)) 0x80003108 code (overflowed_cpu, tt) in
  let field0 code := GetField 0 (cr_fields (fst (fst (run code)))) in
  field0 mcrxr_block .& 1 = 0 /\ field0 (default [] (ReorderInstructions default_analyzer mcrxr_block)) .& 1 = 1.
Proof. vm_compute. split; reflexivity. Qed.
