(* ===== verification/CoreTimingProps.v ===== *)
(** The scheduler: the event queue as a priority queue, the order and the lateness of
    events, the end of [Advance], and the clock across slices. *)
From stdpp Require Import base tactics option list gmap strings sorting.
From Stdlib Require Import ZArith Lia Bool.
From Stdlib Require Import SpecFloat.
From S2P Require Import Prelude Float32 PowerPC CoreTiming.

#[local] Open Scope Z_scope.

(** * The order of events *)

Definition event_le (a b : Event) : Prop := event_gt a b = false.

#[export] Instance event_le_dec a b : Decision (event_le a b).
Proof. unfold event_le. apply _. Defined.

Lemma event_le_spec a b :
  event_le a b <-> time a < time b \/ time a = time b /\ fifo_order a <= fifo_order b.
Proof.
  unfold event_le, event_gt.
  destruct (Z.ltb_spec (time b) (time a)), (Z.eqb_spec (time a) (time b)),
    (Z.ltb_spec (fifo_order b) (fifo_order a)); cbn; split; intros; try done; lia.
Qed.

#[export] Instance event_le_trans : Transitive event_le.
Proof. intros a b c. rewrite !event_le_spec. lia. Qed.
#[export] Instance event_le_refl : Reflexive event_le.
Proof. intros a. rewrite event_le_spec. lia. Qed.
#[export] Instance event_le_total : Total event_le.
Proof. intros a b. rewrite !event_le_spec. lia. Qed.

Lemma event_le_time a b : event_le a b -> time a <= time b.
Proof. rewrite event_le_spec. lia. Qed.

(** ** Heaps *)

Lemma is_heap_nil : is_heap [].
Proof. intros i p c _ H. by rewrite lookup_nil in H. Qed.

(** The front of a heap is a minimum. *)
Lemma heap_front_min e l x : is_heap (e :: l) -> x ∈ e :: l -> event_le e x.
Proof.
  intros Hh Hx. apply list_elem_of_lookup in Hx as [i Hi]. revert x Hi.
  induction i as [i IH] using lt_wf_ind. intros x Hi. destruct i as [|i].
  - injection Hi as ->. reflexivity.
  - assert (Hd : ((S i - 1) / 2 < S i)%nat)
      by (pose proof (Nat.Div0.div_le_upper_bound (S i - 1) 2 i ltac:(lia)); lia).
    destruct (lookup_lt_is_Some_2 (e :: l) ((S i - 1) / 2)) as [p Hp];
      [apply lookup_lt_Some in Hi; lia|].
    transitivity p; [by eapply IH|]. apply (Hh (S i) p x); [lia | done | done].
Qed.

(** A sorted list is a heap. *)
Lemma sorted_is_heap l : StronglySorted event_le l -> is_heap l.
Proof.
  intros Hs i p c Hi Hp Hc.
  assert (Hd : ((i - 1) / 2 < i)%nat)
    by (pose proof (Nat.Div0.div_le_upper_bound (i - 1) 2 (i - 1) ltac:(lia)); lia).
  apply (StronglySorted_app_1_elem_of event_le (take i l) (drop i l)); [by rewrite take_drop | |].
  - apply list_elem_of_lookup. exists ((i - 1) / 2)%nat. by rewrite lookup_take_lt.
  - apply list_elem_of_lookup. exists O. by rewrite lookup_drop, Nat.add_0_r.
Qed.

(** The simplest algorithms that keep the promises: they sort. *)
#[export] Instance sorting_heap : HeapAlgorithms := {
  push_heap := merge_sort event_le;
  pop_heap l := match l with [] => [] | e :: l' => merge_sort event_le l' ++ [e] end;
  make_heap := merge_sort event_le
}.

#[export] Instance sorting_heap_laws : HeapLaws (heap := sorting_heap).
Proof.
  assert (Hp : forall l, merge_sort event_le l ≡ₚ l) by (intros; apply merge_sort_Permutation).
  assert (Hh : forall l, is_heap (merge_sort event_le l))
    by (intros; apply sorted_is_heap, StronglySorted_merge_sort; apply _).
  split; cbn; intros; eauto.
Qed.

(** * The clock at normal speed *)

Section Clock.
Context {CB : Type} {heap : HeapAlgorithms} {laws : HeapLaws}.
Implicit Type t : Timing CB.

Definition queue t : list Event := fget t_m_event_queue t.
Definition now t : Z := fget t_global_timer t.

(** Overclocking is off, so cycles and downcounts are the same. *)
Record normal_speed t : Prop := {
  ns_config : fget t_m_config_oc_factor t = f32_one;
  ns_config_inv : fget t_m_config_oc_inv_factor t = f32_one;
  ns_last : fget t_m_last_oc_factor t = f32_one;
  ns_last_inv : fget t_last_OC_factor_inverted t = f32_one
}.

(** Values far from the ends of their machine types: 2^61 cycles are a hundred years. *)
Record times_ok t : Prop := {
  to_now : 0 <= now t < 2 ^ 61;
  to_queue : forall e, e ∈ queue t -> - 2 ^ 61 <= time e < 2 ^ 62
}.

(** Between two calls of [Advance]: the slice has been started, and ends no later than
    any event of the queue. *)
Record slice_ok t : Prop := {
  so_speed : normal_speed t;
  so_times : times_ok t;
  so_heap : is_heap (queue t);
  so_running : fget t_m_is_global_timer_sane t = false;
  so_length : 0 <= fget t_slice_length t <= MAX_SLICE_LENGTH;
  so_downcount : - 2 ^ 15 <= fget t_downcount t <= fget t_slice_length t;
  so_ends : forall e, e ∈ queue t -> now t + fget t_slice_length t <= time e
}.

(** What the next [Advance] needs; the state after [Init] also has it. *)
Record resting t : Prop := {
  re_speed : normal_speed t;
  re_times : times_ok t;
  re_heap : is_heap (queue t);
  re_length : 0 <= fget t_slice_length t <= MAX_SLICE_LENGTH;
  re_downcount : - 2 ^ 15 <= fget t_downcount t <= fget t_slice_length t
}.

Lemma slice_resting t : slice_ok t -> resting t.
Proof. intros []. by split. Qed.

(** The time, in cycles, that [GetTicks] returns. *)
Definition ticks t : Z := now t + fget t_slice_length t - fget t_downcount t.

Lemma DowncountToCycles_one dc t :
  fget t_last_OC_factor_inverted t = f32_one -> - 2 ^ 24 < dc < 2 ^ 24 -> DowncountToCycles dc t = dc.
Proof. intros E Hdc. unfold DowncountToCycles. rewrite E. by apply scale_one. Qed.

Lemma CyclesToDowncount_one c t :
  fget t_m_last_oc_factor t = f32_one -> - 2 ^ 24 < c < 2 ^ 24 -> CyclesToDowncount c t = c.
Proof. intros E Hc. unfold CyclesToDowncount. rewrite E. by apply scale_one. Qed.

Lemma GetTicks_spec t : slice_ok t -> GetTicks t = ticks t.
Proof.
  intros [Hs Ht _ Hr Hl Hd _]. unfold GetTicks. rewrite Hr, DowncountToCycles_one by (apply Hs || lia).
  pose proof (to_now t Ht). unfold ticks, now in *.
  rewrite (wraps_small 32) by (unfold sN; lia). rewrite (wrapu_small 64 (fget t_global_timer t)) by (unfold uN; lia).
  rewrite wrapu_small; [lia | unfold uN; lia].
Qed.

(** ** Scheduling *)

Lemma queue_push_spec e t :
  is_heap (queue t) -> queue (queue_push e t) ≡ₚ e :: queue t /\ is_heap (queue (queue_push e t)).
Proof.
  intros Hh. split.
  - etransitivity; [by apply push_heap_perm|]. apply Permutation_app_comm.
  - by apply push_heap_heap.
Qed.

Lemma ForceExceptionCheck_spec c t :
  slice_ok t -> 0 <= c < 2 ^ 60 ->
  let t' := ForceExceptionCheck c t in
  let d := Z.max 0 (fget t_downcount t - c) in
  t' = (if c <? fget t_downcount t
        then fset t_downcount c (fset t_slice_length (fget t_slice_length t - d) t) else t) /\
  slice_ok t' /\ ticks t' = ticks t /\ now t' + fget t_slice_length t' <= ticks t + c.
Proof.
  intros [Hs Ht Hh Hr Hl Hd He] Hc. cbn zeta. unfold ForceExceptionCheck.
  rewrite Z.max_r by lia. rewrite DowncountToCycles_one by (apply Hs || lia).
  destruct (Z.ltb_spec c (fget t_downcount t)) as [Hlt|Hge].
  - rewrite (wraps_small 32 c) by (unfold sN; lia). rewrite !(wraps_small 32) by (unfold sN in *; lia || (rewrite ?(wraps_small 32); unfold sN; lia)).
    rewrite CyclesToDowncount_one by (apply Hs || lia). rewrite Z.max_r by lia.
    split; [done|]. split; [|unfold ticks, now in *; cbn in *; split; lia].
    split; [by split; apply Hs | by split; apply Ht | done | done | cbn in *; lia | cbn in *; lia |].
    intros e Hin. specialize (He e Hin). unfold now in *. cbn in *. lia.
  - split; [done|]. split; [done | unfold ticks, now in *; lia].
Qed.
End Clock.

Section Steps.
Context {CB : Type} {heap : HeapAlgorithms} {laws : HeapLaws}.
Implicit Type t : Timing CB.

(** [n] cycles of instructions. *)
Definition execute (n : Z) t : Timing CB := fset t_downcount (fget t_downcount t - n) t.

Lemma ScheduleEvent_spec c name u t :
  slice_ok t -> 0 <= c < 2 ^ 60 ->
  let t' := ScheduleEvent c name u FromCPU true t in
  let e := mkEvent (ticks t + c) (fget t_m_event_fifo_id t) u name in
  queue t' ≡ₚ e :: queue t /\ slice_ok t' /\ ticks t' = ticks t.
Proof.
  intros Ht Hc. cbn zeta. unfold ScheduleEvent. rewrite (so_running t Ht), (GetTicks_spec t Ht).
  pose proof (to_now t (so_times t Ht)). pose proof (so_length t Ht). pose proof (so_downcount t Ht).
  rewrite wraps_small by (unfold sN, ticks in *; lia).
  destruct (ForceExceptionCheck_spec c t Ht Hc) as (Ef & Ht1 & Etk & Hend).
  set (t1 := ForceExceptionCheck c t) in *.
  assert (Eq : queue t1 = queue t /\ fget t_m_event_fifo_id t1 = fget t_m_event_fifo_id t)
    by (rewrite Ef; by destruct (c <? fget t_downcount t)).
  destruct Eq as [Eq Ei]. rewrite Ei. set (e := mkEvent _ _ _ _).
  destruct (queue_push_spec e (next_fifo_id t1) (so_heap t1 Ht1)) as [Hp Hh].
  change (queue (next_fifo_id t1)) with (queue t1) in Hp. rewrite Eq in Hp.
  split; [done|]. split; [|done].
  assert (Hin : forall x, x ∈ queue (queue_push e (next_fifo_id t1)) -> x = e \/ x ∈ queue t1).
  { intros x Hx. rewrite Hp, <- Eq in Hx. by apply elem_of_cons in Hx. }
  destruct Ht1 as [Hs Hti _ Hr Hl Hd He]. split; [by split; apply Hs | | done | done | done | done |].
  - split; [apply Hti|]. intros x [->|Hx]%Hin; [|by apply Hti]. cbn. unfold ticks in *. lia.
  - intros x [->|Hx]%Hin; [exact Hend | by apply He].
Qed.

Lemma execute_spec n t :
  slice_ok t -> 0 <= n -> - 2 ^ 15 <= fget t_downcount t - n ->
  slice_ok (execute n t) /\ ticks (execute n t) = ticks t + n.
Proof.
  intros [Hs Ht Hh Hr Hl Hd He] Hn Hb. split; [|unfold ticks, execute, now; cbn; lia].
  split; [by split; apply Hs | by split; apply Ht | done | done | done | cbn in *; lia | done].
Qed.

Lemma UpdatePerformanceMonitor_downcount a b c p :
  downcount (UpdatePerformanceMonitor a b c p) = downcount p.
Proof. unfold UpdatePerformanceMonitor. by repeat case_match. Qed.

Lemma Idle_spec t :
  slice_ok t -> 0 <= fget t_downcount t ->
  slice_ok (Idle t) /\ queue (Idle t) = queue t /\
  ticks (Idle t) = now t + fget t_slice_length t.
Proof.
  intros [Hs Ht Hh Hr Hl Hd He] Hb. split; [|split; [done|unfold ticks, Idle, now; cbn; lia]].
  split; [by split; apply Hs | by split; apply Ht | done | done | done | cbn in *; lia | done].
Qed.

(** What happens between two calls of [Advance]. *)
Inductive clock_step : Timing CB -> Timing CB -> Prop :=
  | StepExecute n t : 0 <= n -> - 2 ^ 15 <= fget t_downcount t - n -> clock_step t (execute n t)
  | StepSchedule c name u t : 0 <= c < 2 ^ 60 -> clock_step t (ScheduleEvent c name u FromCPU true t)
  | StepScheduleElsewhere c name u t : clock_step t (ScheduleEvent c name u FromNonCPU false t)
  | StepForce c t : 0 <= c < 2 ^ 60 -> clock_step t (ForceExceptionCheck c t)
  | StepRemove name t : clock_step t (RemoveEvent name t)
  | StepIdle t : 0 <= fget t_downcount t -> clock_step t (Idle t).

Lemma RemoveEvent_spec name t :
  is_heap (queue t) ->
  queue (RemoveEvent name t) ≡ₚ filter (fun e => type e <> name) (queue t) /\
  is_heap (queue (RemoveEvent name t)) /\
  RemoveEvent name t = fset t_m_event_queue (queue (RemoveEvent name t)) t.
Proof.
  intros Hh. unfold RemoveEvent. fold (queue t). destruct (Nat.eqb_spec (length (filter (fun e => type e <> name) (queue t))) (length (queue t))) as [E|E].
  - assert (Ef : filter (fun e => type e <> name) (queue t) = queue t).
    { clear Hh. induction (queue t) as [|e l IH]; [done|]. rewrite filter_cons in E |- *.
      pose proof (length_filter (fun e => type e <> name) l).
      case_decide; cbn in E; [f_equal; apply IH; lia | lia]. }
    rewrite Ef. split; [done|]. split; [done|]. by destruct t as [[] ?].
  - split; [|split; [apply make_heap_heap | done]]. apply make_heap_perm.
Qed.

Lemma RemoveEvent_slice name t : slice_ok t -> slice_ok (RemoveEvent name t) /\ ticks (RemoveEvent name t) = ticks t.
Proof.
  intros Ht. destruct (RemoveEvent_spec name t (so_heap t Ht)) as (Hp & Hh & ->). split; [|done].
  assert (Hin : forall e, e ∈ queue (RemoveEvent name t) -> e ∈ queue t)
    by (intros e; rewrite Hp, list_elem_of_filter; tauto).
  destruct Ht as [Hs Hti _ Hr Hl Hd He]. split; [by split; apply Hs | | done | done | done | done |].
  - split; [apply Hti|]. intros e Hx. apply Hti, Hin, Hx.
  - intros e Hx. apply He, Hin, Hx.
Qed.

Lemma clock_step_slice t t' :
  slice_ok t -> clock_step t t' -> slice_ok t' /\ ticks t <= ticks t'.
Proof.
  intros Ht Hstep. destruct Hstep as [n t0 Hn Hb|c name u t0 Hc|c name u t0|c t0 Hc|name t0|t0 Hd].
  - destruct (execute_spec n t0 Ht Hn Hb) as [? ->]. split; [done | lia].
  - destruct (ScheduleEvent_spec c name u t0 Ht Hc) as (_ & ? & ->). split; [done | lia].
  - split; [|done]. destruct Ht as [Hs Hti Hh Hr Hl Hd He].
    split; [by split; apply Hs | by split; apply Hti | done..].
  - destruct (ForceExceptionCheck_spec c t0 Ht Hc) as (_ & ? & -> & _). split; [done | lia].
  - destruct (RemoveEvent_slice name t0 Ht) as [? ->]. split; [done | lia].
  - destruct (Idle_spec t0 Ht Hd) as (? & _ & ->). split; [done|].
    destruct Ht as [_ _ _ _ _ Hdc _]. unfold ticks. lia.
Qed.

(** Slices end in time.  Between two [Advance]s the end of the slice never lies
    beyond a queued event, whatever is executed, scheduled, removed or idled, so the CPU
    always returns to [Advance] before it runs past an event; and the clock never goes
    back. *)
Theorem slices_end_before_events t t' :
  slice_ok t -> rtc clock_step t t' -> slice_ok t' /\ ticks t <= ticks t'.
Proof.
  intros Ht Hs. induction Hs as [t|t t1 t2 Hstep Hs IH]; [done|].
  destruct (clock_step_slice t t1 Ht Hstep) as [Ht1 Hle]. destruct (IH Ht1). split; [done | lia].
Qed.
End Steps.

(** * Running events *)

(** Within [Advance]: the clock stands still at [now]. *)
Record advancing {CB} (t : Timing CB) : Prop := {
  ad_speed : normal_speed t;
  ad_times : times_ok t;
  ad_heap : is_heap (queue t);
  ad_sane : fget t_m_is_global_timer_sane t = true;
  ad_slice : fget t_slice_length t = MAX_SLICE_LENGTH
}.

Definition due {CB} (t : Timing CB) (e : Event) : Prop := time e <= now t.
#[export] Instance due_dec {CB} (t : Timing CB) e : Decision (due t e).
Proof. unfold due. apply _. Defined.

(** What a callback may do to the clock when it runs for [ev]: it keeps the time, and
    what it schedules is not before [ev].  Types of events are [quick] when they
    schedule nothing that is already due; a callback of the others may schedule any
    number of quick events, but at most one other that is already due, and that
    later than [ev] (as a periodic event that is late does with its next period). *)
Record well_behaved {CB} (quick : string -> bool) (ev : Event) (t t' : Timing CB) : Prop := {
  wb_now : now t' = now t;
  wb_advancing : advancing t';
  wb_queue : exists new, queue t' ≡ₚ queue t ++ new /\
    (forall e, e ∈ new -> time ev <= time e) /\
    (quick (type ev) = true -> forall e, e ∈ new -> ~ due t e) /\
    (length (filter (fun e => due t e /\ quick (type e) = false) new) <= 1)%nat /\
    (forall e, e ∈ new -> due t e -> quick (type e) = false -> time ev < time e)
}.

(** The callbacks' side of the contract: in a state of the system's invariant [I], a
    callback is well behaved or faults.  Of the clock, [I] depends on the types of events
    only. *)
Class CallbackLaws {Sys CB} {sys : EventSystem Sys CB} (I : Sys -> Prop) (quick : string -> bool) : Prop := {
  timing_set : forall s (t : Timing CB), timing (fset f_timing t s) = t;
  timing_inv : forall s (t : Timing CB),
    I s -> fget t_m_event_types t = fget t_m_event_types (timing s) -> I (fset f_timing t s);
  config_unchanged : forall s, I s -> I (CheckForConfigChanges s) /\
    timing (CheckForConfigChanges s) = timing (CB := CB) s;
  callback_law : forall ev s, I s -> advancing (timing (CB := CB) s) -> due (timing (CB := CB) s) ev ->
    - 2 ^ 61 <= time ev ->
    match callback (type ev) (userdata ev) (now (timing s) - time ev) s with
    | Done _ s' => I s' /\ well_behaved (CB := CB) quick ev (timing s) (timing s')
    | Fault _ => True
    end
}.

Section Running.
Context {Sys CB : Type} {heap : HeapAlgorithms} {laws : HeapLaws} {sys : EventSystem Sys CB}.
Context {I : Sys -> Prop} {quick : string -> bool} {cbs : CallbackLaws (CB := CB) I quick}.
Implicit Type s : Sys.

(** The schedule as a specification: as long as an event is due, the first one in time
    (of those of the same time, the first that was queued) leaves the queue and its
    callback is called with the cycles it is late. *)
Inductive fires : Sys -> list Event -> Sys -> Prop :=
  | fires_done s : (forall e, e ∈ queue (timing s) -> ~ due (timing s) e) -> fires s [] s
  | fires_event s ev q s1 evs s2 :
      queue (timing s) ≡ₚ ev :: q -> (forall e, e ∈ q -> event_le ev e) -> due (timing s) ev ->
      callback (type ev) (userdata ev) (now (timing s) - time ev)
        (fset f_timing (fset t_m_event_queue q (timing s)) s) = Done tt s1 ->
      fires s1 evs s2 -> fires s (ev :: evs) s2.

(** ** Termination

    The slow events that are due count for the cycles they are late, so that the one
    due event a slow callback may schedule counts for less; the quick ones for one. *)
Definition slow_weight (t : Timing CB) (e : Event) : nat :=
  if decide (due t e /\ quick (type e) = false) then S (Z.to_nat (now t - time e)) else 0.
Definition quick_weight (t : Timing CB) (e : Event) : nat :=
  if decide (due t e /\ quick (type e) = true) then 1 else 0.

Lemma weight_filter t ev l :
  (length (filter (fun e => due t e /\ quick (type e) = false) l) <= 1)%nat ->
  (forall e, e ∈ l -> due t e -> quick (type e) = false -> time ev < time e) ->
  due t ev -> (sum_list_with (slow_weight t) l < S (Z.to_nat (now t - time ev)))%nat.
Proof.
  intros Hone Hlt Hdue.
  assert (H0 : forall k, filter (fun e => due t e /\ quick (type e) = false) k = [] ->
    sum_list_with (slow_weight t) k = O).
  { induction k as [|e k IH]; [done|]. cbn [sum_list_with]. rewrite filter_cons. unfold slow_weight at 1.
    case_decide; [done|]. intros Hk. by rewrite (IH Hk). }
  induction l as [|e l IH]; [cbn; lia|]. cbn [sum_list_with]. rewrite filter_cons in Hone.
  unfold slow_weight at 1. case_decide as Hd.
  - cbn in Hone. rewrite (H0 l).
    + destruct Hd as [Hd Hq]. pose proof (Hlt e ltac:(left) Hd Hq). unfold due in *. lia.
    + apply nil_length_inv. lia.
  - apply IH; [done|]. intros x Hx. apply Hlt. by right.
Qed.

Lemma quick_weight_none t l :
  (forall e, e ∈ l -> ~ due t e) ->
  sum_list_with (slow_weight t) l = O /\ sum_list_with (quick_weight t) l = O.
Proof.
  induction l as [|e l IH]; intros Hn; [done|]. cbn [sum_list_with]. destruct IH as [-> ->].
  { intros x Hx. apply Hn. by right. }
  unfold slow_weight, quick_weight. pose proof (Hn e ltac:(left)).
  rewrite !decide_False by tauto. done.
Qed.

(** One event makes the measure smaller, lexicographically. *)
Lemma measure_decreases ev q (t t0 t1 : Timing CB) :
  queue t ≡ₚ ev :: q -> queue t0 = q -> now t0 = now t -> due t ev -> well_behaved quick ev t0 t1 ->
  (sum_list_with (slow_weight t1) (queue t1) < sum_list_with (slow_weight t) (queue t))%nat \/
  (sum_list_with (slow_weight t1) (queue t1) = sum_list_with (slow_weight t) (queue t) /\
   sum_list_with (quick_weight t1) (queue t1) < sum_list_with (quick_weight t) (queue t))%nat.
Proof.
  intros Hq Hq0 Hn0 Hdue [Hn _ (new & Hp & Hge & Hquick & Hone & Hlt)].
  assert (Hdd : forall x, due t1 x <-> due t x) by (intros; unfold due; by rewrite Hn, Hn0).
  assert (Hw : forall x, slow_weight t1 x = slow_weight t x /\ quick_weight t1 x = quick_weight t x)
    by (intros x; unfold slow_weight, quick_weight; pose proof (Hdd x);
        split; repeat case_decide; (rewrite ?Hn, ?Hn0; done) || tauto).
  assert (Hs : forall l, sum_list_with (slow_weight t1) l = sum_list_with (slow_weight t) l /\
    sum_list_with (quick_weight t1) l = sum_list_with (quick_weight t) l).
  { induction l as [|x l [IH1 IH2]]; [done|]. cbn. by rewrite (proj1 (Hw x)), (proj2 (Hw x)), IH1, IH2. }
  assert (Hd : forall e, due t0 e <-> due t e) by (intros; unfold due; by rewrite Hn0).
  rewrite (proj1 (Hs _)), (proj2 (Hs _)).
  rewrite Hp, Hq, Hq0, !sum_list_with_app. cbn [sum_list_with].
  destruct (quick (type ev)) eqn:Eq.
  - right. destruct (quick_weight_none t new) as [-> ->].
    { intros e He He'. apply (Hquick eq_refl e He). by apply Hd. }
    unfold slow_weight at 2. rewrite decide_False by (intros [_ ?]; congruence).
    unfold quick_weight at 2. rewrite decide_True by done. lia.
  - left. unfold slow_weight at 3. rewrite decide_True by done.
    assert (Hwn : (sum_list_with (slow_weight t) new < S (Z.to_nat (now t - time ev)))%nat).
    { apply weight_filter; [| |done].
      - erewrite list_filter_iff; [exact Hone|]. intros x. cbn. rewrite Hd. done.
      - intros e He Hde. apply Hlt; [done|]. by apply Hd. }
    lia.
Qed.

(** ** The loop follows the specification *)

(** Taking the front off the heap. *)
Lemma pop_front ev q (t : Timing CB) :
  queue t = ev :: q -> is_heap (queue t) ->
  let t0 := fset t_m_event_queue (removelast (pop_heap (queue t))) t in
  queue t0 ≡ₚ q /\ is_heap (queue t0).
Proof.
  intros Hq Hh. cbn zeta. rewrite Hq in *. destruct (pop_heap_spec ev q Hh) as (l & -> & Hp & Hl).
  rewrite removelast_last. done.
Qed.

Lemma advancing_pop ev q l (t : Timing CB) :
  advancing t -> queue t ≡ₚ ev :: q -> l ≡ₚ q -> is_heap l -> advancing (fset t_m_event_queue l t).
Proof.
  intros [Hs Ht Hh Hsane Hsl] Hq Hl Hhl. split; [by split; apply Hs | | done | done | done].
  split; [apply Ht|]. intros e He. change (e ∈ l) in He. apply Ht. rewrite Hq. right. by rewrite <- Hl.
Qed.

(** What [n] turns of the loop lead to from [s]: the events that were called, in order;
    every event that was queued, or that was scheduled meanwhile, either was called,
    once, or is still queued and not due. *)
Definition runs_to s (o : outcome Sys (option unit)) : Prop :=
  match o with
  | Fault _ => True
  | Done None _ => False
  | Done (Some _) s' =>
      I s' /\ advancing (timing s') /\ now (timing (CB := CB) s') = now (timing s) /\
      exists evs new, fires s evs s' /\ queue (timing s) ++ new ≡ₚ evs ++ queue (timing s') /\
        StronglySorted (fun a b => time a <= time b) evs /\
        (forall b, (forall e, e ∈ queue (timing s) -> b <= time e) ->
           forall e, e ∈ evs -> b <= time e <= now (timing s))
  end.

Lemma run_events_turn n s ev q :
  queue (timing s) = ev :: q -> due (timing s) ev ->
  run_events (S n) s =
  (callback (type ev) (userdata ev) (to_s64 (now (timing s) - time ev)) ≫= fun _ => run_events n)
    (fset f_timing (fset t_m_event_queue (removelast (pop_heap (queue (timing s)))) (timing s)) s).
Proof.
  intros Hq Hd. cbn [run_events]. unfold getf, modt, modf, mbind, M_bind.
  fold (timing (CB := CB) s). fold (queue (timing s)). rewrite Hq.
  fold (now (timing s)). unfold due in Hd. rewrite (proj2 (Z.leb_le _ _) Hd).
  pose proof timing_set as Ets. unfold timing in Ets. rewrite Ets. unfold queue, now, timing in *.
  cbn [fget t_m_event_queue] in *. by rewrite Hq.
Qed.

Lemma run_events_end n s :
  (forall e, e ∈ queue (timing s) -> ~ due (timing s) e) -> run_events (S n) s = Done (Some tt) s.
Proof.
  intros Hn. cbn [run_events]. unfold getf, mbind, M_bind. fold (timing (CB := CB) s). fold (queue (timing s)).
  destruct (queue (timing s)) as [|ev q]; [done|]. fold (now (timing s)).
  pose proof (Hn ev ltac:(left)). unfold due in *. by rewrite (proj2 (Z.leb_gt _ _)) by lia.
Qed.

Lemma fires_step s ev q l s1 new s2 :
  queue (timing s) ≡ₚ ev :: q -> l ≡ₚ q -> (forall e, e ∈ q -> event_le ev e) -> due (timing s) ev ->
  callback (type ev) (userdata ev) (now (timing s) - time ev)
    (fset f_timing (fset t_m_event_queue l (timing s)) s) = Done tt s1 ->
  now (timing s1) = now (timing s) -> queue (timing s1) ≡ₚ q ++ new -> (forall e, e ∈ new -> time ev <= time e) ->
  runs_to s1 (Done (Some tt) s2) -> runs_to s (Done (Some tt) s2).
Proof.
  intros Hq Hl Hmin Hd Hcb Hn Hq1 Hge (HI & Hadv & Hn2 & evs2 & new2 & Hf & Hp & Hsort & Hb).
  split; [done|]. split; [done|]. split; [congruence|]. exists (ev :: evs2), (new ++ new2).
  assert (Hlow : forall e, e ∈ evs2 -> time ev <= time e).
  { intros e He. apply (Hb (time ev)); [|exact He].
    intros x. rewrite Hq1, elem_of_app. intros [Hx|Hx]; [by apply event_le_time, Hmin | by apply Hge]. }
  split; [|split; [|split]].
  - eapply (fires_event s ev l); [by rewrite Hl | intros e; rewrite Hl; apply Hmin | done | exact Hcb | exact Hf].
  - rewrite Hq, <- app_comm_cons. cbn. constructor. rewrite app_assoc, <- Hq1. exact Hp.
  - constructor; [done|]. apply Forall_forall. intros e He. by apply Hlow.
  - intros b Hbq. assert (Hbev : b <= time ev) by (apply Hbq; rewrite Hq; left).
    intros e [->|He]%elem_of_cons; [by split|].
    destruct (Hb (time ev) ltac:(intros x; rewrite Hq1, elem_of_app; intros [Hx|Hx];
      [by apply event_le_time, Hmin | by apply Hge]) e He). lia.
Qed.

(** Enough fuel runs every event that is due. *)
Lemma run_events_spec s :
  I s -> advancing (timing s) -> exists n, forall m, (n <= m)%nat -> runs_to s (run_events m s).
Proof.
  remember (sum_list_with (slow_weight (timing s)) (queue (timing s))) as a eqn:Ea.
  revert s Ea. induction a as [a IHa] using lt_wf_ind. intros s Ea.
  remember (sum_list_with (quick_weight (timing s)) (queue (timing s))) as b eqn:Eb.
  revert s Ea Eb. induction b as [b IHb] using lt_wf_ind. intros s Ea Eb HI Hadv.
  pose proof (ad_heap _ Hadv) as Hh.
  destruct (decide (Forall (fun e => ~ due (timing s) e) (queue (timing s)))) as [Hnone|Hsome].
  { rewrite Forall_forall in Hnone. exists 1%nat. intros [|m] Hm; [lia|]. rewrite run_events_end by done.
    repeat (split; [done|]). exists [], []. split; [by apply fires_done|].
    split; [by rewrite app_nil_r|]. split; [constructor|]. intros ? ? ? He. by apply not_elem_of_nil in He. }
  destruct (queue (timing s)) as [|ev q] eqn:Hq; [by destruct Hsome|].
  assert (Hmin : forall e, e ∈ q -> event_le ev e)
    by (intros e He; apply (heap_front_min ev q); [done | by right]).
  assert (Hd : due (timing s) ev).
  { destruct (decide (due (timing s) ev)) as [|Hnd]; [done|]. destruct Hsome. apply Forall_forall.
    intros e [->|He]%elem_of_cons; [done|]. intros Hde. apply Hnd.
    pose proof (event_le_time _ _ (Hmin e He)). unfold due in *. lia. }
  rewrite <- Hq in Hh. destruct (pop_front ev q _ Hq Hh) as [Hp Hh0].
  set (t0 := fset t_m_event_queue (removelast (pop_heap (queue (timing s)))) (timing s)) in *.
  assert (Hadv0 : advancing t0) by (eapply advancing_pop; [done | by rewrite Hq | exact Hp | exact Hh0]).
  pose proof (to_now _ (ad_times _ Hadv)) as Hnow. pose proof (to_queue _ (ad_times _ Hadv) ev) as Hev.
  rewrite Hq in Hev. specialize (Hev ltac:(left)).
  pose proof (callback_law (CB := CB) ev (fset f_timing t0 s)) as Hcb. rewrite timing_set in Hcb.
  specialize (Hcb (timing_inv s t0 HI eq_refl) Hadv0 Hd (proj1 Hev)). change (now t0) with (now (timing s)) in Hcb.
  assert (Hturn : forall n, run_events (S n) s =
    (callback (type ev) (userdata ev) (now (timing s) - time ev) ≫= fun _ => run_events n) (fset f_timing t0 s)).
  { intros n. rewrite (run_events_turn n s ev q) by done. rewrite wraps_small; [done | lia|].
    unfold due in Hd. unfold sN. lia. }
  destruct (callback _ _ _ (fset f_timing t0 s)) as [[] s1|f] eqn:Ecb.
  2:{ exists 1%nat. intros [|m] Hm; [lia|]. rewrite Hturn. by rewrite (bind_fault _ _ _ _ Ecb). }
  destruct Hcb as [HI1 Hwb]. destruct (wb_queue _ _ _ _ Hwb) as (new & Hq1 & Hge & _ & _ & _).
  assert (Hrest : exists n, forall m, (n <= m)%nat -> runs_to s1 (run_events m s1)).
  { destruct (measure_decreases ev (queue t0) (timing s) t0 (timing s1)) as [Hlt|[Heq Hlt]];
      [by rewrite Hq, Hp | done | done | done | done | |]; rewrite Hq in *.
    - eapply (IHa _ ltac:(rewrite Ea; exact Hlt)); [done | done | apply Hwb].
    - eapply (IHb _ ltac:(rewrite Eb; exact Hlt)); [congruence | done | done | apply Hwb]. }
  destruct Hrest as [n Hn]. exists (S n). intros [|m] Hm; [lia|]. rewrite Hturn.
  rewrite (bind_done _ _ _ _ _ Ecb). specialize (Hn m ltac:(lia)).
  destruct (run_events m s1) as [[[]|] s2|f]; [|done..].
  eapply (fires_step s ev q _ s1 new); [by rewrite Hq | exact Hp | done | done | exact Ecb | apply Hwb | | done | done].
  by rewrite Hq1, Hp.
Qed.

(** ** Advance *)

(** Events that other threads have queued, waiting to be moved. *)
Definition waiting (t : Timing CB) : list Event := fget t_m_ts_queue t.
Definition waiting_ok (t : Timing CB) : Prop :=
  forall e, e ∈ waiting t -> - 2 ^ 61 <= time e < 2 ^ 62.

Lemma MoveEvents_spec (t : Timing CB) :
  is_heap (queue t) ->
  exists moved i q,
    MoveEvents t = fset t_m_event_queue q (fset t_m_event_fifo_id i (fset t_m_ts_queue [] t)) /\
    is_heap q /\ q ≡ₚ queue t ++ moved /\ map time moved = map time (waiting t).
Proof.
  unfold MoveEvents. fold (waiting t). set (t0 := fset t_m_ts_queue [] t). intros Hh.
  assert (Hgen : forall l (t1 : Timing CB) k i q,
    t1 = fset t_m_event_queue q (fset t_m_event_fifo_id i t0) -> is_heap q -> q ≡ₚ queue t ++ k ->
    exists moved i' q',
      foldl (fun t ev => move_event ev t) t1 l = fset t_m_event_queue q' (fset t_m_event_fifo_id i' t0) /\
      is_heap q' /\ q' ≡ₚ queue t ++ k ++ moved /\ map time moved = map time l).
  { induction l as [|ev l IH]; intros t1 k i q -> Hhq Hq.
    - exists [], i, q. rewrite app_nil_r. done.
    - cbn [foldl]. set (e := mkEvent (time ev) i (userdata ev) (type ev)).
      destruct (IH (move_event ev (fset t_m_event_queue q (fset t_m_event_fifo_id i t0))) (k ++ [e])
        (to_u64 (i + 1)) (push_heap (q ++ [e]))) as (moved & i' & q' & E & Hh' & Hp & Hm).
      + done.
      + by apply push_heap_heap.
      + rewrite push_heap_perm by done. by rewrite Hq, app_assoc.
      + exists (e :: moved), i', q'. split; [exact E|]. split; [done|]. split; [|cbn; by rewrite Hm].
        rewrite Hp. by rewrite <- (assoc_L (++)). }
  destruct (Hgen (waiting t) t0 [] (fget t_m_event_fifo_id t) (queue t)) as (moved & i & q & E & Hhq & Hp & Hm).
  - by destruct t as [[] ?].
  - done.
  - by rewrite app_nil_r.
  - by exists moved, i, q.
Qed.

(** Nothing in [Advance] itself registers events. *)
Lemma MoveEvents_types (t : Timing CB) : fget t_m_event_types (MoveEvents t) = fget t_m_event_types t.
Proof.
  unfold MoveEvents. change (fget t_m_event_types t) with (fget t_m_event_types (fset t_m_ts_queue [] t)).
  generalize (fset t_m_ts_queue [] t). induction (fget t_m_ts_queue t) as [|ev l IH]; intros t0; [done|].
  cbn [foldl]. by rewrite IH.
Qed.

Lemma start_slice_types (t : Timing CB) : fget t_m_event_types (start_slice t) = fget t_m_event_types t.
Proof. unfold start_slice. by destruct (fget t_m_event_queue _). Qed.

Lemma time_of_moved (moved l : list Event) e :
  map time moved = map time l -> e ∈ moved -> exists e', e' ∈ l /\ time e' = time e.
Proof.
  intros Hm He. assert (Hi : In (time e) (map time moved)) by (apply in_map; by apply list_elem_of_In).
  rewrite Hm in Hi. apply in_map_iff in Hi as (e' & Ht & Hi). exists e'. by rewrite list_elem_of_In.
Qed.

(** The state the events start in: the waiting events have been moved, and the clock
    shows the time at which the CPU stopped. *)
Lemma advance_start (t : Timing CB) :
  resting t -> ticks t < 2 ^ 61 -> waiting_ok t ->
  let t' := end_slice (MoveEvents t) in
  advancing t' /\ now t' = ticks t /\
  exists moved, queue t' ≡ₚ queue t ++ moved /\ map time moved = map time (waiting t).
Proof.
  intros [Hs Ht Hh Hl Hd] Htk Hw. cbn zeta.
  destruct (MoveEvents_spec t Hh) as (moved & i & q & -> & Hhq & Hq & Hm).
  set (t1 := fset t_m_event_queue q _). pose proof (to_now t Ht) as Hn. unfold end_slice.
  change (fget t_slice_length t1) with (fget t_slice_length t).
  change (fget t_downcount t1) with (fget t_downcount t).
  rewrite DowncountToCycles_one by (apply Hs || lia).
  change (fget t_global_timer t1) with (now t).
  rewrite (wraps_small 32) by (unfold sN; lia). rewrite (wraps_small 64) by (unfold sN; lia).
  split; [split|split].
  - split; apply Hs.
  - split; [unfold now, ticks in *; cbn in *; lia|]. intros e Hin. change (e ∈ q) in Hin.
    rewrite Hq, elem_of_app in Hin. destruct Hin as [Hin|Hin]; [by apply Ht|].
    destruct (time_of_moved moved _ e Hm Hin) as (e' & Hin' & <-). by apply Hw.
  - exact Hhq.
  - done.
  - done.
  - unfold now, ticks. cbn. unfold now. cbn. lia.
  - exists moved. done.
Qed.

Lemma CheckExternalExceptions_downcount p : downcount (CheckExternalExceptions p) = downcount p.
Proof. unfold CheckExternalExceptions. by repeat case_match. Qed.

(** The state they leave, with the next slice set up. *)
Lemma advance_end (t : Timing CB) :
  advancing t -> (forall e, e ∈ queue t -> ~ due t e) ->
  let t' := start_slice t in
  slice_ok t' /\ ticks t' = now t /\ now t' = now t /\ queue t' = queue t /\ 0 < fget t_downcount t' /\
  (queue t' = [] -> fget t_downcount t' = MAX_SLICE_LENGTH).
Proof.
  intros [Hs Ht Hh Hsane Hsl] Hnd. cbn zeta. pose proof (to_now t Ht) as Hn.
  set (n := match queue t with [] => MAX_SLICE_LENGTH | ev :: _ => Z.min (time ev - now t) MAX_SLICE_LENGTH end).
  assert (Hpos : 0 < n <= MAX_SLICE_LENGTH /\ forall e, e ∈ queue t -> now t + n <= time e).
  { unfold n. destruct (queue t) as [|ev q] eqn:Hq; [split; [lia|]; intros e He; by apply not_elem_of_nil in He|].
    pose proof (Hnd ev ltac:(left)) as Hev. unfold due in Hev. split; [lia|]. intros e He.
    pose proof (event_le_time _ _ (heap_front_min ev q e Hh He)). lia. }
  assert (E : start_slice t =
    mkTiming (core_timing (fset t_slice_length n (fset t_m_is_global_timer_sane false t)))
      (CheckExternalExceptions (fset p_downcount n (ppc_state t)))).
  { unfold start_slice, n. set (t1 := fset t_m_is_global_timer_sane false t).
    change (fget t_m_event_queue t1) with (queue t). change (fget t_global_timer t1) with (now t).
    destruct (queue t) as [|ev q] eqn:Hq.
    - change (fget t_slice_length t1) with (fget t_slice_length t). rewrite Hsl.
      rewrite CyclesToDowncount_one by (apply Hs || lia). unfold t1.
      destruct t as [[] ?]. cbn in Hsl. by subst.
    - assert (Hin : ev ∈ queue t) by (rewrite Hq; left).
      pose proof (Hnd ev ltac:(left)) as Hev. unfold due in Hev. pose proof (to_queue t Ht ev Hin).
      rewrite (wraps_small 64) by (unfold sN; lia). rewrite (wraps_small 32) by (unfold sN; lia).
      set (k := Z.min (time ev - now t) 20000).
      change (fget t_slice_length (fset t_slice_length k t1)) with k.
      rewrite CyclesToDowncount_one by (apply Hs || (unfold k; lia)). done. }
  rewrite E. assert (Hdc : downcount (CheckExternalExceptions (fset p_downcount n (ppc_state t))) = n)
    by apply CheckExternalExceptions_downcount.
  set (t' := mkTiming _ _).
  assert (Hd : fget t_downcount t' = n /\ fget t_slice_length t' = n /\ now t' = now t /\ queue t' = queue t)
    by done. destruct Hd as (Hd & Hl & Hnow & Hq).
  split; [|unfold ticks; rewrite Hd, Hl, Hnow, Hq; split; [lia|]; do 2 (split; [done|]); split; [lia|];
           unfold n; by intros ->].
  split; [by split; apply Hs | by split; apply Ht | done | done | rewrite Hl; lia | rewrite Hd, Hl; lia |].
  intros e He. rewrite Hnow, Hl. apply Hpos. by rewrite <- Hq.
Qed.

(** The system when the events start. *)
Definition advance_started s : Sys :=
  let s1 := CheckForConfigChanges s in
  let s2 := fset f_timing (MoveEvents (timing (CB := CB) s1)) s1 in
  fset f_timing (end_slice (timing (CB := CB) s2)) s2.

(** The whole of [Advance]. *)
Lemma Advance_spec s :
  I s -> resting (timing (CB := CB) s) -> ticks (timing s) < 2 ^ 61 -> waiting_ok (timing s) ->
  exists n, forall m, (n <= m)%nat ->
    match Advance m s with
    | Fault _ => True
    | Done None _ => False
    | Done (Some _) s' =>
        exists s0 moved evs new s1,
          I s' /\ timing s0 = end_slice (MoveEvents (timing s)) /\ now (timing s0) = ticks (timing s) /\
          queue (timing s0) ≡ₚ queue (timing s) ++ moved /\ map time moved = map time (waiting (timing s)) /\
          s0 = advance_started s /\ fires s0 evs s1 /\
          s' = fset f_timing (start_slice (timing (CB := CB) s1)) s1 /\
          timing s' = start_slice (timing (CB := CB) s1) /\
          queue (timing s0) ++ new ≡ₚ evs ++ queue (timing s1) /\
          StronglySorted (fun a b => time a <= time b) evs /\
          (forall e, e ∈ queue (timing s1) -> ~ due (timing s1) e) /\
          advancing (timing s1) /\ now (timing s1) = now (timing s0) /\
          (forall b, (forall e, e ∈ queue (timing s0) -> b <= time e) ->
             forall e, e ∈ evs -> b <= time e <= now (timing s0))
    end.
Proof.
  intros HI Ht Htk Hw. destruct (advance_start _ Ht Htk Hw) as (Hadv & Hnow & moved & Hq & Hm).
  destruct (config_unchanged (CB := CB) s HI) as [HI1 Ec].
  set (s1 := CheckForConfigChanges s) in *.
  set (s2 := fset f_timing (MoveEvents (timing (CB := CB) s1)) s1).
  set (s3 := fset f_timing (end_slice (timing (CB := CB) s2)) s2).
  assert (E3 : timing s3 = end_slice (MoveEvents (timing (CB := CB) s)))
    by (unfold s3, s2; by rewrite !timing_set, Ec).
  assert (HI3 : I s3) by (by apply timing_inv; [apply timing_inv; [|apply MoveEvents_types]|]).
  rewrite <- E3 in *. destruct (run_events_spec s3 HI3 Hadv) as [n Hn]. exists n. intros m Hmn.
  specialize (Hn m Hmn).
  assert (Em : Advance m s = (run_events (CB := CB) m ≫= fun r => match r with
    | None => mret None | Some _ => modt start_slice ;; mret (Some tt) end) s3) by done.
  rewrite Em. unfold mbind at 1, M_bind at 1.
  destruct (run_events m s3) as [[[]|] s4|f] eqn:Er; [|done..].
  destruct Hn as (HI4 & Hadv4 & Hn4 & evs & new & Hf & Hp & Hs & Hb).
  set (s5 := fset f_timing (start_slice (timing (CB := CB) s4)) s4).
  assert (E5 : timing s5 = start_slice (timing (CB := CB) s4)) by apply timing_set.
  lazymatch goal with |- match ?m with _ => _ end => change m with (Done (Some tt) s5 : outcome Sys (option unit)) end.
  cbv iota beta.
  exists s3, moved, evs, new, s4. split; [by apply timing_inv; [|apply start_slice_types]|]. do 10 (split; [done|]). split; [|done].
  clear - Hf. induction Hf; done.
Qed.

(** More fuel does not change a run that has come to its end. *)
Lemma run_events_mono n m s s' :
  run_events (CB := CB) n s = Done (Some tt) s' -> (n <= m)%nat -> run_events (CB := CB) m s = Done (Some tt) s'.
Proof.
  revert m s. induction n as [|n IH]; intros [|m] s H Hm; try lia; [done..|]. revert H. cbn [run_events].
  unfold getf, modt, modf, mbind, M_bind. destruct (fget t_m_event_queue _) as [|ev q]; [done|].
  destruct (_ <=? _); [|done]. destruct (callback _ _ _ _) as [[] s1|f]; [|done].
  intros H. apply IH; [exact H | lia].
Qed.

Lemma Advance_mono n m s s' :
  Advance (CB := CB) n s = Done (Some tt) s' -> (n <= m)%nat -> Advance (CB := CB) m s = Done (Some tt) s'.
Proof.
  unfold Advance. unfold modt, modf, mbind, M_bind. intros H Hm. cbv beta in *.
  destruct (run_events n _) as [[[]|] s1|f] eqn:E; [|done..]. by rewrite (run_events_mono n m _ s1 E Hm).
Qed.

(** However [Advance] came to its end, the next slice has been set up. *)
Lemma Advance_slice n s s' :
  I s -> resting (timing (CB := CB) s) -> ticks (timing s) < 2 ^ 61 -> waiting_ok (timing s) ->
  Advance (CB := CB) n s = Done (Some tt) s' ->
  I s' /\ slice_ok (timing (CB := CB) s') /\ ticks (timing s') = ticks (timing s).
Proof.
  intros HI Ht Htk Hw E. destruct (Advance_spec s HI Ht Htk Hw) as [k Hk].
  specialize (Hk (Nat.max n k) (Nat.le_max_r n k)). rewrite (Advance_mono n _ s s' E (Nat.le_max_l n k)) in Hk.
  destruct Hk as (s0 & moved & evs & new & s1 & HI' & _ & Hn0 & _ & _ & _ & _ & _ & E' & _ & _ & Hnd & Hadv & Hn1 & _).
  destruct (advance_end _ Hadv Hnd) as (Hok & Htk' & _). rewrite <- E' in *. split; [done|]. split; [done|]. congruence.
Qed.

(** C7. The scheduler runs events on time, in order, and once.  [Advance] returns, unless a
    callback faults.  From the state it was called in, with the clock moved to the time
    at which the CPU stopped and the events of other threads queued, it calls exactly
    the events that are due, those scheduled by the callbacks themselves included, each
    with the cycles it is late, by time and then by the order they were queued in; every
    other event stays queued, and none that is queued is due.  What it returns is what
    the callbacks left, with the next slice set up. *)
Theorem Advance_runs_due_events s :
  I s -> slice_ok (timing (CB := CB) s) -> ticks (timing s) < 2 ^ 61 -> waiting_ok (timing s) ->
  exists n, forall m, (n <= m)%nat ->
    match Advance m s with
    | Fault _ => True
    | Done None _ => False
    | Done (Some _) s' =>
        exists evs s1 moved new,
          let s0 := advance_started s in
          now (timing s0) = ticks (timing s) /\
          queue (timing s0) ≡ₚ queue (timing s) ++ moved /\ map time moved = map time (waiting (timing s)) /\
          fires s0 evs s1 /\ s' = fset f_timing (start_slice (timing (CB := CB) s1)) s1 /\
          now (timing s') = ticks (timing s) /\
          queue (timing s) ++ moved ++ new ≡ₚ evs ++ queue (timing s') /\
          StronglySorted (fun a b => time a <= time b) evs /\
          (forall e, e ∈ queue (timing s) -> time e <= ticks (timing s) -> e ∈ evs) /\
          (forall e, e ∈ queue (timing s') -> ticks (timing s) < time e)
    end.
Proof.
  intros HI Ht Htk Hw. destruct (Advance_spec s HI (slice_resting _ Ht) Htk Hw) as [n Hn]. exists n. intros m Hm.
  specialize (Hn m Hm). destruct (Advance m s) as [[[]|] s'|f]; [|done..].
  destruct Hn as (s0 & moved & evs & new & s1 & HI' & E0 & Hn0 & Hq0 & Hmv & Es0 & Hf & Es' & E' & Hp & Hs & Hnd & Hadv & Hn1 & _).
  destruct (advance_end _ Hadv Hnd) as (_ & _ & Hnow & Eq & _). rewrite <- E' in Eq, Hnow.
  assert (Hlate : forall e, e ∈ queue (timing s1) -> ticks (timing s) < time e).
  { intros e He. specialize (Hnd e He). unfold due in Hnd. lia. }
  exists evs, s1, moved, new. cbn zeta. rewrite <- Es0. do 5 (split; [done|]). split; [congruence|]. rewrite Eq.
  split; [by rewrite app_assoc, <- Hq0|]. split; [done|]. split; [|done].
  intros e He Htime. assert (Hin : e ∈ evs ++ queue (timing s1)).
  { rewrite <- Hp, Hq0, !elem_of_app. auto. }
  apply elem_of_app in Hin as [Hin|Hin]; [done|]. specialize (Hlate e Hin). lia.
Qed.

End Running.

(** * Changing the clock *)

Lemma quot_lt_step a b o : 0 < o -> a + o <= b -> (a < 0 -> a <= - o) -> (0 < b -> o <= b) -> a ÷ o < b ÷ o.
Proof.
  intros Ho Hab Ha Hb.
  assert (Hneg : forall x, x <= 0 -> x ÷ o = - (- x / o)).
  { intros x Hx. rewrite <- Z.quot_div_nonneg, Z.quot_opp_l by lia. lia. }
  assert (Hstep : forall x y, x + o <= y -> x / o < y / o).
  { intros x y Hxy. pose proof (Z.div_add x 1 o ltac:(lia)).
    pose proof (Z.div_le_mono (x + 1 * o) y o Ho ltac:(lia)). lia. }
  destruct (Z_lt_le_dec a 0) as [Hna|Hpa]; [destruct (Z_lt_le_dec 0 b) as [Hpb|Hnb]|].
  - rewrite Hneg, Z.quot_div_nonneg by lia. pose proof (Z.div_le_lower_bound (- a) o 1 Ho ltac:(lia)).
    pose proof (Z.div_pos b o ltac:(lia) Ho). lia.
  - rewrite !Hneg by lia. pose proof (Hstep (- b) (- a) ltac:(lia)). lia.
  - rewrite !Z.quot_div_nonneg by lia. by apply Hstep.
Qed.

Section Adjust.
Context {CB : Type}.
Implicit Type t : Timing CB.

(** Changing the clock.  When the PowerPC's clock does not get slower, scaling the
    times of the queued events keeps the queue a heap; when it does get slower, two
    times may become equal and the queue is then not a heap any more, since the events
    of equal time are not in the order they were queued in. *)
Theorem AdjustEventQueueTimes_heap t new old :
  is_heap (queue t) -> 0 <= now t < 2 ^ 61 -> (forall e, e ∈ queue t -> Z.abs (time e - now t) < 2 ^ 32) ->
  0 < old <= new -> new < 2 ^ 30 ->
  is_heap (queue (AdjustEventQueueTimes new old t)) /\
  exists t1 : Timing CB, is_heap (queue t1) /\ ~ is_heap (queue (AdjustEventQueueTimes 486000000 729000000 t1)).
Proof.
  intros Hh Hn Hr Ho Hnew. split.
  - unfold AdjustEventQueueTimes, queue. intros i p c Hi Hp Hc. cbn -[Nat.div] in Hp, Hc.
    change (m_event_queue (core_timing t)) with (queue t) in *.
    change (global_timer (core_timing t)) with (now t) in *.
    rewrite list_lookup_fmap in Hp, Hc.
    destruct (queue t !! ((i - 1) / 2)%nat) as [p0|] eqn:Hp0; [|done].
    destruct (queue t !! i) as [c0|] eqn:Hc0; [|done].
    cbn in Hp, Hc. injection Hp as <-. injection Hc as <-.
    specialize (Hh i p0 c0 Hi Hp0 Hc0). apply event_le_spec in Hh. apply event_le_spec. cbn [time fifo_order].
    change (global_timer (core_timing t)) with (now t).
    assert (Hin : forall j e, queue t !! j = Some e -> Z.abs (time e - now t) < 2 ^ 32)
      by (intros j e He; apply Hr, list_elem_of_lookup; eauto).
    pose proof (Hin _ _ Hp0). pose proof (Hin _ _ Hc0).
    assert (Hs : forall x, Z.abs x < 2 ^ 32 ->
      to_s64 (now t + to_s64 (to_s64 (to_s64 x * new) ÷ old)) = now t + (x * new) ÷ old).
    { intros x Hx. rewrite (wraps_small 64 x) by (unfold sN; lia).
      assert (Habs : Z.abs (x * new) <= 2 ^ 62) by (rewrite Z.abs_mul; nia).
      rewrite (wraps_small 64 (x * new)) by (unfold sN; lia).
      assert (Hq : Z.abs ((x * new) ÷ old) <= Z.abs (x * new)).
      { rewrite <- Z.quot_abs by lia. rewrite (Z.abs_eq old) by lia. rewrite Z.quot_div_nonneg by lia.
        apply Z.div_le_upper_bound; nia. }
      rewrite (wraps_small 64 ((x * new) ÷ old)) by (unfold sN; lia). apply wraps_small; unfold sN; lia. }
    rewrite !Hs by done. destruct Hh as [Hlt|[-> Hle]]; [left | by right].
    assert (Hlt' : forall a b, a < b -> (a * new) ÷ old < (b * new) ÷ old).
    { intros a b Hab. apply quot_lt_step; [lia | nia | |]; intros Hsign.
      - assert (a <= -1) by nia. nia.
      - assert (1 <= b) by nia. nia. }
    pose proof (Hlt' (time p0 - now t) (time c0 - now t) ltac:(lia)). unfold now in *. cbn in *. lia.
  - pose (ev tm i := mkEvent tm i 0 "VICallback"%string).
    exists (fset t_global_timer 0 (fset t_m_event_queue [ev 999 5; ev 1000 1] t)). split.
    + intros i p c Hi Hp Hc. cbn in Hp, Hc. destruct i as [|[|i]]; [lia| |done].
      cbn in Hp, Hc. injection Hp as <-. injection Hc as <-. done.
    + intros Hbad. specialize (Hbad 1%nat _ _ ltac:(lia) eq_refl eq_refl). vm_compute in Hbad. done.
Qed.
End Adjust.
