(* ===== verification/HostProps.v ===== *)
(** What the DSP does to its host: every operation of the DSP core acts on the rest of
    the emulator only through the interface [DSPHost], so whatever relation the
    operations of that interface stay in, the DSP stays in. *)
From stdpp Require Import base tactics option list gmap strings.
From Stdlib Require Import ZArith Lia Bool.
From S2P Require Import Prelude Accelerator DSPState DSPTables DSPHardware DSPInterpreter.
From S2P Require Import DSPArithmetic DSPMultiplier DSPBranch DSPLoadStore DSPExtOps.
From S2P Require Import DSPIntTables DSPRun DSPLLE DSPFacts RunProps.

#[local] Open Scope Z_scope.

(** [acts G R m]: [m] leads from a host [h] to one that [R] relates to it; [G] is where
    the host is in the state. *)
Definition acts {S H A} (G : S -> H) (R : H -> H -> Prop) (m : M S A) : Prop :=
  forall s, match m s with Done _ s' => R (G s) (G s') | Fault _ => True end.

Section Acts.
Context {S H : Type} (G : S -> H) (R : H -> H -> Prop) {pre : PreOrder R}.

Lemma acts_ret {A} (a : A) : acts G R (mret a).
Proof. intros s. cbn. reflexivity. Qed.
Lemma acts_fail {A} f : acts G R (fail f : M S A).
Proof. done. Qed.
Lemma acts_bind {A B} (m : M S A) (k : A -> M S B) :
  acts G R m -> (forall a, acts G R (k a)) -> acts G R (m ≫= k).
Proof.
  intros Hm Hk s. specialize (Hm s). unfold mbind, M_bind. destruct (m s) as [a s'|f]; [|done].
  specialize (Hk a s'). destruct (k a s'); [by etransitivity | done].
Qed.
Lemma acts_getf {A} (F : field S A) : acts G R (getf F).
Proof. intros s. cbn. reflexivity. Qed.
Lemma acts_geta n (F : field S arr) i : acts G R (geta n F i).
Proof. intros s. unfold geta. destruct (inb n i); [reflexivity | done]. Qed.
Lemma acts_setf {A} (F : field S A) v : (forall s, G (fset F v s) = G s) -> acts G R (setf F v).
Proof. intros Hv s. cbn. rewrite Hv. reflexivity. Qed.
Lemma acts_modf {A} (F : field S A) f : (forall v s, G (fset F v s) = G s) -> acts G R (modf F f).
Proof. intros Hv s. cbn. rewrite Hv. reflexivity. Qed.
Lemma acts_seta n (F : field S arr) i v : (forall v s, G (fset F v s) = G s) -> acts G R (seta n F i v).
Proof. intros Hv s. unfold seta. destruct (inb n i); [|done]. rewrite Hv. reflexivity. Qed.
Lemma acts_done {A} (m : M S A) s a s' : acts G R m -> m s = Done a s' -> R (G s) (G s').
Proof. intros Hm E. specialize (Hm s). by rewrite E in Hm. Qed.
End Acts.

Create HintDb acts discriminated.

Ltac astep :=
  lazymatch goal with
  | |- forall _, _ => intros ?
  | |- acts _ _ (mbind _ _) => apply acts_bind; [exact _ | |]
  | |- acts _ _ (mret _) => apply acts_ret; exact _
  | |- acts _ _ (fail _) => apply acts_fail
  | |- acts _ _ (getf _) => apply acts_getf; exact _
  | |- acts _ _ (geta _ _ _) => apply acts_geta; exact _
  | |- acts _ _ (setf _ _) => first [ solve [ auto 4 with acts nocore ] | apply acts_setf; [exact _ | reflexivity] ]
  | |- acts _ _ (modf _ _) => first [ solve [ auto 4 with acts nocore ] | apply acts_modf; [exact _ | reflexivity] ]
  | |- acts _ _ (seta _ _ _ _) => apply acts_seta; [exact _ | reflexivity]
  | |- acts _ _ (let _ := _ in _) => cbv zeta
  | |- acts _ _ (match ?x with _ => _ end) => destruct x
  | |- acts _ _ ?m => first [ solve [ auto 4 with acts nocore ] | let h := head_of m in unfold h ]
  end.
Ltac atac := repeat astep.

Section DSP.
Context {H : Type} {hst : DSPHost H} (R : H -> H -> Prop) {pre : PreOrder R}.

(** The operations of the interface that change the host. *)
Hypothesis R_aram : forall v a h, R h (WriteARAM v a h).
Hypothesis R_memory : forall a v h, R h (mem_write_u8 a v h).
Hypothesis R_interrupt : forall h, R h (GenerateDSPInterrupt h).

Abbreviation on_host := (acts (@host H) R).

Lemma acts_accel {A} (m : M (Accel * State H) A) :
  acts (fun s : Accel * State H => host s.2) R m -> on_host (accel m).
Proof.
  intros Hm s. specialize (Hm (m_accelerator (dsp s), s)). unfold accel.
  by destruct (m _) as [a [acc s']|f].
Qed.
Lemma acts_end_exception : acts (fun s : Accel * State H => host s.2) R (modf a_env OnEndException).
Proof. intros s. cbn. reflexivity. Qed.
Lemma acts_write_memory a v : acts (fun s : Accel * State H => host s.2) R (write_memory a v).
Proof. intros s. cbn. apply R_aram. Qed.
#[local] Hint Resolve acts_end_exception acts_write_memory : acts.

Lemma acts_accel_Read regs : on_host (accel (Read (ifx_coefs regs))).
Proof. apply acts_accel. atac. Qed.
Lemma acts_accel_ReadD3 : on_host (accel ReadD3).
Proof. apply acts_accel. atac. Qed.
Lemma acts_accel_WriteD3 v : on_host (accel (WriteD3 v)).
Proof. apply acts_accel. atac. Qed.
#[local] Hint Resolve acts_accel_Read acts_accel_ReadD3 acts_accel_WriteD3 : acts.

Lemma R_store addr i ws h : R h (emu_store_words addr i ws h).
Proof.
  revert i h. induction ws as [|w ws IH]; intros i h; cbn [emu_store_words]; [reflexivity|].
  etransitivity; [|apply IH]. etransitivity; apply R_memory.
Qed.

Lemma acts_DMAFromDSP b base a n : on_host (DMAFromDSP b base a n).
Proof.
  intros s. unfold DMAFromDSP, getf, setf, mbind, M_bind, when. cbn. destruct (range_valid a n (host s)); cbn; [|reflexivity].
  destruct (dma_inside base _); cbn; [apply R_store | done].
Qed.
Lemma acts_DMAToDSP (b : field (State H) arr) base a n :
  (forall v s, host (fset b v s) = host s) -> on_host (DMAToDSP b base a n).
Proof.
  intros Hb. unfold DMAToDSP. apply acts_bind; [exact _ | apply acts_getf; exact _ |]. intros h.
  unfold when. destruct (range_valid a n h); [|atac]. cbv zeta. destruct (dma_inside base _); [|atac].
  apply acts_modf; [exact _ | done].
Qed.
Lemma acts_dma_dram base a n : on_host (DMAToDSP f_dram base a n).
Proof. by apply acts_DMAToDSP. Qed.
Lemma acts_dma_iram base a n : on_host (DMAToDSP f_iram base a n).
Proof. by apply acts_DMAToDSP. Qed.
Lemma acts_Analyze : on_host Analyze.
Proof.
  intros s. pose proof (keeps_Analyze (@host H) ltac:(done) s) as Hk.
  destruct (Analyze s); [rewrite Hk; reflexivity | done].
Qed.
Lemma acts_DIRQ : on_host (modf f_host GenerateDSPInterrupt).
Proof. intros s. cbn. apply R_interrupt. Qed.
#[local] Hint Resolve acts_DMAFromDSP acts_dma_dram acts_dma_iram acts_Analyze acts_DIRQ : acts.

Lemma acts_ReadIFX a : on_host (ReadIFX a).
Proof. unfold ReadIFX, ReadIFXImpl. atac; apply acts_accel; atac. Qed.
Lemma acts_WriteIFX a v : on_host (WriteIFX a v).
Proof. unfold WriteIFX. atac; apply acts_accel; atac. Qed.
#[local] Hint Resolve acts_ReadIFX acts_WriteIFX : acts.

Lemma acts_ReadDMEM a : on_host (ReadDMEM a).
Proof. unfold ReadDMEM. generalize (a .>> 12). intros x. repeat case_match; atac. Qed.
Lemma acts_WriteDMEM a v : on_host (WriteDMEM a v).
Proof. unfold WriteDMEM. repeat case_match; atac. Qed.
Lemma acts_ReadIMEM a : on_host (ReadIMEM a).
Proof. unfold ReadIMEM. repeat case_match; atac. Qed.
#[local] Hint Resolve acts_ReadDMEM acts_WriteDMEM acts_ReadIMEM : acts.
Lemma acts_OpReadRegister r : on_host (OpReadRegister r).
Proof. atac. Qed.
Lemma acts_OpWriteRegister r v : on_host (OpWriteRegister r v).
Proof. atac. Qed.
#[local] Hint Resolve acts_OpReadRegister acts_OpWriteRegister : acts.
Lemma acts_ApplyWriteBackLog_loop n i : on_host (ApplyWriteBackLog_loop n i).
Proof. revert i. induction n; intros; cbn [ApplyWriteBackLog_loop]; atac. Qed.
Lemma acts_CheckExceptions_loop n : on_host (CheckExceptions_loop n).
Proof. induction n; cbn [CheckExceptions_loop]; atac. Qed.
#[local] Hint Resolve acts_ApplyWriteBackLog_loop acts_CheckExceptions_loop : acts.

Lemma acts_GetOp inst opc : on_host (GetOp inst opc).
Proof.
  apply (lookup_function_forall (fun f => on_host (f opc))); [by apply acts_ret|].
  repeat apply Forall_cons_2; try apply Forall_nil_2; cbn [function]; atac.
Qed.
Lemma acts_GetExtOp inst opc : on_host (GetExtOp inst opc).
Proof.
  unfold GetExtOp. destruct (_ =? _).
  all: apply (lookup_function_forall (fun f => on_host (f opc))); [by apply acts_ret|].
  all: repeat apply Forall_cons_2; try apply Forall_nil_2; cbn [function]; atac.
Qed.
#[local] Hint Resolve acts_GetOp acts_GetExtOp : acts.

Lemma acts_Step : on_host Step.
Proof. atac. Qed.
#[local] Hint Resolve acts_Step : acts.

Lemma acts_for_steps n g c : (forall c, on_host (g c)) -> on_host (for_steps n g c).
Proof. intros Hg. revert c. induction n; intros c; cbn [for_steps]; atac; auto. Qed.
Lemma acts_while_true n b c : (forall c, on_host (b c)) -> on_host (while_true n b c).
Proof. intros Hb. revert c. induction n; intros c; cbn [while_true]; atac; auto. Qed.

Lemma acts_RunCycles c : on_host (RunCycles c).
Proof.
  unfold RunCycles, run_cycles. apply acts_bind; [exact _ | apply acts_for_steps; atac |]. intros [r|r|c'].
  1-2: atac. apply acts_while_true. intros k. unfold skip_body.
  apply acts_bind; [exact _ | apply acts_for_steps; atac |]. intros [r|r|c'']; [atac..|].
  apply acts_for_steps. atac.
Qed.
#[local] Hint Resolve acts_RunCycles : acts.

Lemma acts_CoreRunCycles n c : on_host (CoreRunCycles n c).
Proof. revert c. induction n; intros c; cbn [CoreRunCycles]; atac; auto. Qed.
#[local] Hint Resolve acts_CoreRunCycles : acts.

(** The periodic update and the mailboxes act on the host only through the interface. *)
Lemma acts_DSP_Update c : on_host (DSP_Update c).
Proof. atac. Qed.
Lemma acts_DSP_ReadMailBoxHigh b : on_host (DSP_ReadMailBoxHigh b).
Proof. atac. Qed.
Lemma acts_DSP_ReadMailBoxLow b : on_host (DSP_ReadMailBoxLow b).
Proof. atac. Qed.
Lemma acts_DSP_WriteMailBoxHigh b v : on_host (DSP_WriteMailBoxHigh b v).
Proof. atac. Qed.
Lemma acts_DSP_WriteMailBoxLow b v : on_host (DSP_WriteMailBoxLow b v).
Proof. atac. Qed.

(** Reading the control register may end the CPU's slice early. *)
Hypothesis R_force : forall h, R h (ForceExceptionCheck 50 h).
Lemma acts_force : on_host (modf f_host (ForceExceptionCheck 50)).
Proof. intros s. cbn. apply R_force. Qed.
#[local] Hint Resolve acts_force : acts.

Lemma acts_DSP_ReadControlRegister : on_host DSP_ReadControlRegister.
Proof. atac. Qed.
Lemma acts_DSP_WriteControlRegister v : on_host (DSP_WriteControlRegister v).
Proof. atac. Qed.
End DSP.
