(* ===== verification/MemoryProps.v ===== *)
(** Physical memory as the DSP's DMA sees it: the machine is a host whose memory keeps
    the promises [DmaProps] relies on. *)
From stdpp Require Import base tactics option list gmap strings.
From Stdlib Require Import ZArith Lia Bool.
From S2P Require Import Prelude Accelerator DSPState Memmap PowerPC ProcessorInterface CoreTiming Machine.
From S2P Require Import DSPHardware DSPFacts SimHost DmaProps CoreTimingProps.

#[local] Open Scope Z_scope.

(** * Regions *)

Lemma span_set_region r x a m : GetSpanForAddress a (set_region r x m) = GetSpanForAddress a m.
Proof. unfold GetSpanForAddress. destruct r; cbn; [done|]. by destruct (m_exram m). Qed.

Lemma pointer_set_region r x a n m : GetPointerForRange a n (set_region r x m) = GetPointerForRange a n m.
Proof. unfold GetPointerForRange. by rewrite span_set_region. Qed.

(** A region that a span lies in is there. *)
Definition region_present (r : region) (m : MemoryManager) : Prop :=
  match r with RAM => True | EXRAM => m_exram m <> None end.

Lemma span_present a r off len m : GetSpanForAddress a m = Some (r, off, len) -> region_present r m.
Proof.
  unfold GetSpanForAddress. case_match; [by intros [= <- _ _]|]. destruct (m_exram m) eqn:E; [|done].
  case_match; [|done]. intros [= <- _ _]. cbn. by rewrite E.
Qed.

Lemma bytes_set_region r x m : region_present r m -> region_bytes r (set_region r x m) = x.
Proof. destruct r; cbn; [done|]. by destruct (m_exram m). Qed.

Lemma memory_ok_set_region r x m : memory_ok m -> arr_ok u8 x -> memory_ok (set_region r x m).
Proof.
  intros [] Hx. destruct r; split; cbn; try done. destruct (m_exram m); [done|]. cbn. apply arr_ok_empty. range_lia.
Qed.

Lemma region_bytes_ok r m : memory_ok m -> arr_ok u8 (region_bytes r m).
Proof. intros []. by destruct r. Qed.

(** ** Pointers *)

(** The pointer of a range is good for every address in it. *)
Lemma pointer_in_range a n r off m i :
  memory_ok m -> GetPointerForRange a n m = Some (r, off) -> 0 <= i < n ->
  0 <= off /\ region_present r m /\ GetPointerForRange (a + i) 1 m = Some (r, off + i).
Proof.
  intros Hm. unfold GetPointerForRange. destruct (GetSpanForAddress a m) as [[[r' off'] len]|] eqn:E; [|done].
  destruct (span_ok a r' off' len m Hm E) as (Hoff & Hlen & Hi).
  rewrite (wrapu_small 64 len) by (unfold uN; lia). destruct (Z.ltb_spec len n); [done|].
  intros [= -> ->] Hin. split; [done|]. split; [by eapply span_present|].
  rewrite Hi by lia. rewrite (wrapu_small 64) by (unfold uN; lia). by rewrite (proj2 (Z.ltb_ge _ _)) by lia.
Qed.

#[export] Instance machine_memory {heap : HeapAlgorithms} : HostMemory Machine.
Proof.
  apply (Build_HostMemory Machine _ (fun m => memory_ok (m_memory m))).
  - intros a v m Hm Hv. cbn. unfold set_memory_u8. destruct (GetPointerForRange a 1 _) as [[r off]|]; [|done].
    apply memory_ok_set_region; [done|]. apply arr_ok_aupd; [by apply region_bytes_ok | done].
  - intros a n i j v m Hm Hv Hi Hj Hu. cbn in Hv |- *. unfold memory_range_valid in Hv.
    destruct (GetPointerForRange a n (m_memory m)) as [[r off]|] eqn:E; [|done].
    destruct (pointer_in_range a n r off _ j Hm E Hj) as (_ & Hp & Ej).
    destruct (pointer_in_range a n r off _ i Hm E Hi) as (_ & _ & Ei).
    unfold set_memory_u8. rewrite Ej. unfold memory_u8. rewrite pointer_set_region, Ei.
    rewrite bytes_set_region by done. rewrite aat_aupd.
    destruct (Z.eqb_spec (off + j) (off + i)), (Z.eqb_spec i j); done || lia.
  - intros a n b v m. cbn. unfold memory_range_valid, set_memory_u8.
    destruct (GetPointerForRange b 1 _) as [[r off]|]; [|done]. by rewrite pointer_set_region.
Defined.

(** ** The console's memories *)

Lemma NextPowerOf2_retail :
  NextPowerOf2 MEM1_SIZE_RETAIL = 0x02000000 /\ NextPowerOf2 MEM2_SIZE_RETAIL = 0x04000000.
Proof. done. Qed.

Lemma Memory_Init_ok wii : memory_ok (Memory_Init wii MEM1_SIZE_RETAIL MEM2_SIZE_RETAIL).
Proof.
  split; cbn -[NextPowerOf2 Z.pow].
  - apply arr_ok_empty. range_lia.
  - destruct wii; apply arr_ok_empty; range_lia.
  - unfold MEM1_SIZE_RETAIL. lia.
  - vm_compute. split; [discriminate | done].
  - unfold MEM2_SIZE_RETAIL. lia.
  - exists 26. split; [lia|]. by split.
Qed.

(** * Whole accesses *)

Lemma CopyFromEmu_spec a n r off data m :
  0 < n -> GetPointerForRange a n m = Some (r, off) ->
  CopyFromEmu data a n m = aslice (region_bytes r m) off (Z.to_nat n).
Proof. intros Hn E. unfold CopyFromEmu. rewrite (proj2 (Z.eqb_neq n 0)) by lia. by rewrite E. Qed.

Lemma CopyToEmu_spec a r off data m :
  data <> [] -> GetPointerForRange a (Z.of_nat (length data)) m = Some (r, off) ->
  CopyToEmu a data m = set_region r (aupd_list (region_bytes r m) off data) m.
Proof.
  intros Hd E. unfold CopyToEmu. rewrite (proj2 (Nat.eqb_neq (length data) 0)); [by rewrite E|].
  by destruct data.
Qed.
