(* ===== verification/ManagerProps.v ===== *)
(** The CPU's side of the DSP: the interrupt line, the control register, and the end of
    every register access. *)
From stdpp Require Import base tactics option list gmap strings.
From Stdlib Require Import ZArith Lia Bool.
From S2P Require Import Prelude Accelerator DSPState PowerPC ProcessorInterface Memmap CoreTiming Machine DSPManager.
From S2P Require Import DSPHardware DSPInterpreter DSPRun DSPLLE HostProps PowerPCProps.

#[local] Open Scope Z_scope.

(** * Bits *)

Lemma set_bits_testbit mask v x i :
  0 <= i < 16 -> Z.testbit (set_bits mask v x) i = if Z.testbit mask i then Z.testbit v i else Z.testbit x i.
Proof.
  intros Hi. unfold set_bits. rewrite Z.lor_spec, !Z.land_spec. unfold wrapu at 1.
  rewrite Z.mod_pow2_bits_low, Z.lnot_spec by lia.
  destruct (Z.testbit mask i), (Z.testbit v i), (Z.testbit x i); done.
Qed.

Lemma land_low_testbit x mask i : 0 <= i < 16 -> Z.testbit (x .& to_u16 (Z.lnot mask)) i = Z.testbit x i && negb (Z.testbit mask i).
Proof. intros Hi. rewrite Z.land_spec. unfold wrapu. by rewrite Z.mod_pow2_bits_low, Z.lnot_spec by lia. Qed.

(** The interrupts, each with its mask. *)
Definition any_enabled (c : Z) : bool :=
  (Z.testbit c 3 && Z.testbit c 4) || (Z.testbit c 5 && Z.testbit c 6) || (Z.testbit c 7 && Z.testbit c 8).

Lemma ints_set_bits c : ints_set c = any_enabled c.
Proof.
  unfold ints_set, any_enabled. set (x := _ .& ((INT_DSP .| INT_ARAM) .| INT_AID)).
  assert (Hb : forall i, 0 <= i -> Z.testbit x i =
    Z.testbit c i && Z.testbit c (i + 1) && ((i =? 3) || (i =? 5) || (i =? 7))).
  { intros i Hi. unfold x. rewrite !Z.land_spec, Z.shiftr_spec, !Z.lor_spec by done.
    change INT_DSP with (2 ^ 7). change INT_ARAM with (2 ^ 5). change INT_AID with (2 ^ 3).
    rewrite !testbit_pow2, (Z.eqb_sym 7), (Z.eqb_sym 5), (Z.eqb_sym 3) by lia.
    destruct (Z.testbit c i), (Z.testbit c (i + 1)), (i =? 3), (i =? 5), (i =? 7); done. }
  assert (H3 : Z.testbit x 3 = Z.testbit c 3 && Z.testbit c 4) by (by rewrite Hb, andb_true_r by lia).
  assert (H5 : Z.testbit x 5 = Z.testbit c 5 && Z.testbit c 6) by (by rewrite Hb, andb_true_r by lia).
  assert (H7 : Z.testbit x 7 = Z.testbit c 7 && Z.testbit c 8) by (by rewrite Hb, andb_true_r by lia).
  rewrite <- H3, <- H5, <- H7. destruct (Z.eqb_spec x 0) as [E|E].
  - by rewrite E, !Z.bits_0.
  - symmetry. apply not_false_is_true. intros Hf. apply E, Z.bits_inj'. intros i Hi. rewrite Z.bits_0, Hb by done.
    apply orb_false_iff in Hf as [Hf F7]. apply orb_false_iff in Hf as [F3 F5]. rewrite H3 in F3. rewrite H5 in F5. rewrite H7 in F7.
    destruct (Z.eqb_spec i 3) as [E3|], (Z.eqb_spec i 5) as [E5|], (Z.eqb_spec i 7) as [E7|]; try lia.
    + subst i. change (3 + 1) with 4. by rewrite F3.
    + subst i. change (5 + 1) with 6. by rewrite F5.
    + subst i. change (7 + 1) with 8. by rewrite F7.
Qed.

(** * The interrupt line *)

Section Line.
Context {heap : HeapAlgorithms}.

(** The line of the DSP is asserted exactly when one of its interrupts is raised and
    enabled. *)
Definition dsp_line (m : Machine) : Prop :=
  Z.testbit (m_interrupt_cause (m_pi m)) 6 = ints_set (m_dsp_control (m_dsp m)).

Definition keeps_line (m m' : Machine) : Prop := dsp_line m -> dsp_line m'.
#[export] Instance keeps_line_preorder : PreOrder keeps_line.
Proof. unfold keeps_line. split; [intros m; tauto | intros m1 m2 m3; tauto]. Qed.

Lemma UpdateInterrupts_spec m :
  exists x p, UpdateInterrupts m = Done tt (fset mf_pi x (fset mf_timing (fset f_ppc_state p (m_timing m)) m)) /\
    (forall i, 0 <= i < 32 -> Z.testbit (m_interrupt_cause x) i =
       if i =? 6 then ints_set (m_dsp_control (m_dsp m)) else Z.testbit (m_interrupt_cause (m_pi m)) i) /\
    m_interrupt_mask x = m_interrupt_mask (m_pi m) /\ p = UpdateException x (ppc_state (m_timing m)).
Proof.
  unfold UpdateInterrupts, MachineSetInterrupt. change INT_CAUSE_DSP with (2 ^ 6).
  pose proof (SetInterrupt_spec 6 (ints_set (m_dsp_control (m_dsp m))) (m_pi m) (ppc_state (m_timing m)) ltac:(lia)) as Hs.
  destruct (SetInterrupt _ _ _) as [x p]. destruct Hs as (Hc & Hm & Hp). by exists x, p.
Qed.

Abbreviation on_machine := (acts (fun m : Machine => m) keeps_line).

(** Whatever is neither the line nor the control register may change. *)
Lemma keeps_same m m' : m_pi m' = m_pi m -> m_dsp_control (m_dsp m') = m_dsp_control (m_dsp m) -> keeps_line m m'.
Proof. intros Hp Hc. unfold keeps_line, dsp_line. by rewrite Hp, Hc. Qed.

Lemma line_modf {A} (F : field Machine A) f :
  (forall v m, m_pi (fset F v m) = m_pi m /\ m_dsp_control (m_dsp (fset F v m)) = m_dsp_control (m_dsp m)) ->
  on_machine (modf F f).
Proof. intros HF m. cbn. apply keeps_same; apply HF. Qed.

(** Computations that end by updating the line. *)
Definition sets_line {A} (m : M Machine A) : Prop :=
  forall s, match m s with Done _ s' => dsp_line s' | Fault _ => True end.

Lemma sets_line_update : sets_line UpdateInterrupts.
Proof. intros m. destruct (UpdateInterrupts_spec m) as (x & p & -> & Hx & _). unfold dsp_line. by rewrite Hx. Qed.

Lemma sets_line_bind {A B} (m : M Machine A) (k : A -> M Machine B) : (forall a, sets_line (k a)) -> sets_line (m ≫= k).
Proof. intros Hk s. unfold mbind, M_bind. destruct (m s) as [a s1|f]; [apply Hk | done]. Qed.

Lemma sets_line_keeps {A} (m : M Machine A) : sets_line m -> on_machine m.
Proof. intros Hm s. specialize (Hm s). destruct (m s); [by intros _ | done]. Qed.

Lemma line_DMAState v : on_machine (modf f_m_dsp_control (set_bits 0x0200 v)).
Proof.
  intros m. cbn. unfold keeps_line, dsp_line. cbn. rewrite !ints_set_bits. unfold any_enabled.
  by rewrite !set_bits_testbit by lia.
Qed.

Lemma line_aram a m : keeps_line m (set_aram a m).
Proof. unfold set_aram. destruct (wii_mode _); by apply keeps_same. Qed.

Lemma line_GenerateDSPInterrupt t : on_machine (GenerateDSPInterrupt t).
Proof. apply sets_line_keeps, sets_line_bind. intros []. apply sets_line_update. Qed.

Lemma line_CompleteARAM : on_machine CompleteARAM.
Proof. apply acts_bind; [exact _ | apply line_DMAState | intros []; apply line_GenerateDSPInterrupt]. Qed.

Ltac same := cbv beta iota; first [ reflexivity | by apply keeps_same ].

Lemma line_aram_read i : on_machine (aram_read_u64 i).
Proof. intros m. unfold aram_read_u64. destruct (_ && _); [same | done]. Qed.
Lemma line_aram_write i v : on_machine (aram_write_u64 i v).
Proof. intros m. unfold aram_write_u64. destruct (_ && _); [apply line_aram | done]. Qed.
Lemma line_HSP_Read a : on_machine (HSP_Read a).
Proof. intros m. unfold HSP_Read. destruct (m_hsp m); [same..|]. cbv zeta. destruct (_ <=? _); [same | done]. Qed.
Lemma line_HSP_Write a v : on_machine (HSP_Write a v).
Proof. intros m. unfold HSP_Write. destruct (m_hsp m); [same..|]. cbv zeta. destruct (_ <=? _); [same | done]. Qed.
End Line.

(** Members other than the line and the control register. *)
Ltac line_member :=
  lazymatch goal with
  | |- acts _ keeps_line (modf f_m_dsp_control _) => fail
  | |- acts _ keeps_line (modf _ _) => apply line_modf; by intros
  | |- acts _ keeps_line (setf _ _) => intros ?; by apply keeps_same
  end.
#[export] Hint Extern 1 (acts _ keeps_line _) => line_member : acts.
#[export] Hint Resolve line_DMAState line_GenerateDSPInterrupt line_CompleteARAM line_aram_read line_aram_write
  line_HSP_Read line_HSP_Write : acts.

Section LineDMA.
Context {heap : HeapAlgorithms}.
Abbreviation on_machine := (acts (fun m : Machine => m) keeps_line).

Lemma line_while n body : on_machine body -> on_machine (while_count n body).
Proof. intros Hb. induction n as [|n IH]; cbn [while_count]; atac; exact Hb. Qed.

Lemma line_Do_ARAM_DMA : on_machine Do_ARAM_DMA.
Proof. unfold Do_ARAM_DMA. atac; apply line_while; atac. Qed.

Lemma line_SendAIBuffer l : on_machine (SendAIBuffer l).
Proof. atac. Qed.
#[local] Hint Resolve line_SendAIBuffer : acts.

Lemma line_UpdateAudioDMA : on_machine UpdateAudioDMA.
Proof. unfold UpdateAudioDMA. atac. Qed.

Lemma line_audio_control v : on_machine (write_audio_dma_control v).
Proof. unfold write_audio_dma_control. atac. Qed.
End LineDMA.
#[export] Hint Resolve line_Do_ARAM_DMA line_UpdateAudioDMA line_audio_control : acts.

(** ** With the emulator

    What a DSP emulator promises the manager: it changes the machine only in ways that
    [R] allows. *)
Class EmulatorActs {S} (MF : field S Machine) {emu : DSPEmulator S} (R : Machine -> Machine -> Prop) : Prop := {
  ea_member : forall v s, fget MF (fset MF v s) = v;
  ea_read_high : forall b, acts (fget MF) R (EmuReadMailBoxHigh b);
  ea_read_low : forall b, acts (fget MF) R (EmuReadMailBoxLow b);
  ea_write_high : forall b v, acts (fget MF) R (EmuWriteMailBoxHigh b v);
  ea_write_low : forall b v, acts (fget MF) R (EmuWriteMailBoxLow b v);
  ea_read_control : acts (fget MF) R EmuReadControlRegister;
  ea_write_control : forall v, acts (fget MF) R (EmuWriteControlRegister v);
  ea_update : forall c, acts (fget MF) R (EmuUpdate c)
}.
#[export] Hint Resolve ea_read_high ea_read_low ea_write_high ea_write_low ea_read_control ea_write_control
  ea_update : acts.

(** The low-level emulator keeps the promise for every relation that the four operations
    it uses stay in. *)
Lemma LLE_acts {heap : HeapAlgorithms} (R : Machine -> Machine -> Prop) :
  PreOrder R -> (forall v a m, R m (ManagerWriteARAM v a m)) ->
  (forall a v m, R m (fset mf_memory (set_memory_u8 a v (m_memory m)) m)) ->
  (forall m, R m (GenerateDSPInterruptFromDSPEmu INT_DSP 0 m)) ->
  (forall m, R m (fset mf_timing (CoreTiming.ForceExceptionCheck 50 (m_timing m)) m)) ->
  EmulatorActs (@f_host Machine) R.
Proof.
  intros Hpre Ha Hm Hi Hf. assert (Hg : fget (@f_host Machine) = @host Machine) by done.
  split; rewrite ?Hg; intros.
  - done.
  - by apply acts_DSP_ReadMailBoxHigh.
  - by apply acts_DSP_ReadMailBoxLow.
  - by apply acts_DSP_WriteMailBoxHigh.
  - by apply acts_DSP_WriteMailBoxLow.
  - by apply acts_DSP_ReadControlRegister.
  - by apply acts_DSP_WriteControlRegister.
  - change (EmuUpdate c) with (ignore (DSP_Update (hst := machine_host) c)).
    apply acts_bind; [exact _ | by apply acts_DSP_Update | intros; by apply acts_ret].
Qed.

#[export] Instance LLE_keeps_line {heap : HeapAlgorithms} : EmulatorActs (@f_host Machine) keeps_line.
Proof. apply LLE_acts; [exact _ | intros; apply line_aram | by intros; apply keeps_same..]. Qed.

Section Registers.
Context {S : Type} (MF : field S Machine) {heap : HeapAlgorithms} {emu : DSPEmulator S}.
Context {R : Machine -> Machine -> Prop} {pre : PreOrder R} {laws : EmulatorActs MF R}.

Lemma acts_on {A} (m : M Machine A) : acts (fun m => m) R m -> acts (fget MF) R (machine MF m).
Proof.
  intros Hm s. specialize (Hm (fget MF s)). unfold machine, on. destruct (m (fget MF s)); [|done].
  by rewrite (ea_member (MF := MF) (R := R)).
Qed.

Lemma acts_dspman : acts (fget MF) R (dspman MF).
Proof. apply acts_on, acts_getf. exact _. Qed.

Lemma acts_put (m : M S unit) : acts (fget MF) R m -> acts (fget MF) R (m ;; mret (Some tt)).
Proof. intros Hm. apply acts_bind; [exact _ | done | intros []; by apply acts_ret]. Qed.
End Registers.

Section LineSystem.
Context {S : Type} (MF : field S Machine) {heap : HeapAlgorithms} {emu : DSPEmulator S}.
Context {laws : EmulatorActs MF keeps_line}.
Abbreviation on_system := (acts (fget MF) keeps_line).
#[local] Hint Extern 1 (acts _ _ (dspman _)) => refine (acts_dspman MF (R := keeps_line)) : acts.
#[local] Hint Extern 2 (acts _ _ (machine _ _)) => (refine (acts_on MF (R := keeps_line) _ _); atac) : acts.

Lemma line_UpdateDSPSlice c : on_system (UpdateDSPSlice MF c).
Proof. unfold UpdateDSPSlice. destruct IsLLE; [|auto with acts]. atac. Qed.

Lemma line_read_mail_hi b : on_system (read_mail_hi MF b).
Proof. unfold read_mail_hi. atac. Qed.

Lemma line_read_dsp_control : on_system (read_dsp_control MF).
Proof. unfold read_dsp_control. atac. Qed.

Lemma line_write_dsp_control v : on_system (write_dsp_control MF v).
Proof.
  unfold write_dsp_control. apply acts_bind; [exact _ | auto with acts | intros c]. cbv zeta. refine (acts_on MF (R := keeps_line) _ _).
  apply sets_line_keeps. repeat (apply sets_line_bind; intros []). apply sets_line_update.
Qed.
#[local] Hint Resolve line_UpdateDSPSlice line_read_mail_hi line_read_dsp_control line_write_dsp_control : acts.

Lemma line_mmio_read16 a : on_system (mmio_read16 MF a).
Proof. unfold mmio_read16. atac. Qed.

Lemma line_mmio_write16 a v : on_system (mmio_write16 MF a v).
Proof. unfold mmio_write16. cbv zeta. atac. Qed.
End LineSystem.
#[export] Hint Resolve line_UpdateDSPSlice line_mmio_read16 line_mmio_write16 : acts.

(** What the machine with the low-level DSP does to the DSP's side of the line: the CPU
    accesses a register, the DSP gets its time, an event of the DSP fires, or samples
    are due. *)
Inductive manager_step {heap : HeapAlgorithms} : State Machine -> State Machine -> Prop :=
  | StepRead a v s s' : mmio_read16 f_host a s = Done v s' -> manager_step s s'
  | StepWrite a v r s s' : mmio_write16 f_host a v s = Done r s' -> manager_step s s'
  | StepSlice c s s' : UpdateDSPSlice f_host c s = Done tt s' -> manager_step s s'
  | StepInterrupt t s s' : machine f_host (GenerateDSPInterrupt t) s = Done tt s' -> manager_step s s'
  | StepDMADone s s' : machine f_host CompleteARAM s = Done tt s' -> manager_step s s'
  | StepAudio s s' : machine f_host UpdateAudioDMA s = Done tt s' -> manager_step s s'.


(** * The control register *)

(** The control register after the interrupt of bit [n] was acknowledged, if it was. *)
Definition acknowledged (n tmp c : Z) : Z := if Z.testbit tmp n then set_bits (2 ^ n) 0 c else c.

Lemma run_acknowledge n tmp m :
  0 <= n -> exists m', acknowledge (2 ^ n) tmp m = Done tt m' /\
    m' = fset f_m_dsp_control (acknowledged n tmp (m_dsp_control (m_dsp m))) m.
Proof.
  intros Hn. unfold acknowledge, acknowledged. change (negb ((tmp .& 2 ^ n) =? 0)) with (has (2 ^ n) tmp).
  rewrite has_testbit by done. destruct (Z.testbit tmp n); (eexists; split; [reflexivity|]); [done|].
  by destruct m as [? ? ? [] ? ? ? ? ?].
Qed.

Lemma acknowledged_testbit n tmp c i :
  0 <= n -> 0 <= i < 16 ->
  Z.testbit (acknowledged n tmp c) i = Z.testbit c i && negb ((i =? n) && Z.testbit tmp n).
Proof.
  intros Hn Hi. unfold acknowledged. destruct (Z.testbit tmp n).
  - rewrite set_bits_testbit, testbit_pow2, Z.bits_0, (Z.eqb_sym n i) by lia. by destruct (Z.testbit c i), (i =? n).
  - by destruct (Z.testbit c i), (i =? n).
Qed.

Section ControlWrite.
Context {S : Type} (MF : field S Machine) {heap : HeapAlgorithms} {emu : DSPEmulator S}.
Hypothesis member : forall v s, fget MF (fset MF v s) = v.

Definition written_control (tmp c : Z) : Z :=
  set_bits 0xF000 tmp (acknowledged 7 tmp (acknowledged 5 tmp (acknowledged 3 tmp
    (set_bits 0x0150 tmp (set_bits DSP_CONTROL_MASK tmp c))))).

Lemma write_dsp_control_run val c s s1 :
  EmuWriteControlRegister val s = Done c s1 ->
  let m1 := fget MF s1 in
  let tmp := (val .& to_u16 (Z.lnot DSP_CONTROL_MASK)) .| (c .& DSP_CONTROL_MASK) in
  let m2 := fset f_m_dsp_control (written_control tmp (m_dsp_control (m_dsp m1)))
              (if Z.testbit val 0 then fset f_AudioDMAControl 0 m1 else m1) in
  write_dsp_control MF val s =
  match UpdateInterrupts m2 with Done _ m => Done tt (fset MF m s1) | Fault f => Fault f end.
Proof.
  intros E. cbn zeta. unfold write_dsp_control. rewrite (bind_done _ _ _ _ _ E). cbv zeta. unfold machine, on.
  change (negb ((val .& 1) =? 0)) with (has (2 ^ 0) val). rewrite has_testbit by lia.
  set (tmp := _ .| _). set (m1 := fget MF s1).
  set (m1' := if Z.testbit val 0 then fset f_AudioDMAControl 0 m1 else m1).
  assert (Ew : when (Z.testbit val 0) (setf f_AudioDMAControl 0) m1 = Done tt m1')
    by (unfold m1', when; by destruct (Z.testbit val 0)).
  assert (Ec : m_dsp_control (m_dsp m1') = m_dsp_control (m_dsp m1)) by (unfold m1'; by destruct (Z.testbit val 0)).
  rewrite (bind_done _ _ _ _ _ Ew), !(bind_done _ _ _ _ _ (run_modf _ _ _)).
  change INT_AID with (2 ^ 3). change INT_ARAM with (2 ^ 5). change INT_DSP with (2 ^ 7).
  do 3 (lazymatch goal with |- context [(acknowledge (2 ^ ?n) tmp ≫= _) ?m] =>
    destruct (run_acknowledge n tmp m ltac:(lia)) as (? & Ea & ->); rewrite (bind_done _ _ _ _ _ Ea); clear Ea end).
  rewrite (bind_done _ _ _ _ _ (run_modf _ _ _)). unfold written_control. rewrite <- Ec. reflexivity.
Qed.

(** Writing the control register.  A one acknowledges a raised interrupt and a zero leaves it
    as it is; the masks, and the bits the DSP answers, are set as written; the state of the
    ARAM DMA stays; a reset stops the audio DMA; and the DSP's line, with the PowerPC's
    external interrupt, follows at once. *)
Theorem control_write_acknowledges val c s s1 :
  EmuWriteControlRegister val s = Done c s1 ->
  exists s', write_dsp_control MF val s = Done tt s' /\
    let m1 := fget MF s1 in let m' := fget MF s' in
    let old := m_dsp_control (m_dsp m1) in let new := m_dsp_control (m_dsp m') in
    (forall i, i ∈ [3; 5; 7] -> Z.testbit new i = Z.testbit old i && negb (Z.testbit val i)) /\
    (forall i, i ∈ [4; 6; 8; 12; 13; 14; 15] -> Z.testbit new i = Z.testbit val i) /\
    (forall i, i ∈ [0; 1; 2; 10; 11] -> Z.testbit new i = Z.testbit c i) /\
    Z.testbit new 9 = Z.testbit old 9 /\
    AudioDMAControl (m_dsp m') = (if Z.testbit val 0 then 0 else AudioDMAControl (m_dsp m1)) /\
    dsp_line m' /\ line_ok (m_pi m', ppc_state (m_timing m')).
Proof.
  intros E. pose proof (write_dsp_control_run val c s s1 E) as Hw. cbn zeta in Hw.
  set (tmp := _ .| _) in Hw. set (m2 := fset f_m_dsp_control _ _) in Hw.
  destruct (UpdateInterrupts_spec m2) as (x & p & Eu & Hx & _ & Hp). rewrite Eu in Hw.
  eexists. split; [exact Hw|]. cbn zeta. rewrite member. cbn zeta.
  set (m1 := fget MF s1) in *.
  assert (Ec : m_dsp_control (m_dsp m2) = written_control tmp (m_dsp_control (m_dsp m1))) by done.
  assert (Et : forall i, 0 <= i < 16 -> Z.testbit tmp i = if Z.testbit DSP_CONTROL_MASK i then Z.testbit c i else Z.testbit val i).
  { intros i Hi. unfold tmp. rewrite Z.lor_spec, land_low_testbit, Z.land_spec by done.
    by destruct (Z.testbit DSP_CONTROL_MASK i), (Z.testbit c i), (Z.testbit val i). }
  set (m' := fset mf_pi x _).
  assert (Hb : forall i, 0 <= i < 16 -> Z.testbit (m_dsp_control (m_dsp m')) i =
    if Z.testbit 0xFD57 i then Z.testbit tmp i else Z.testbit (m_dsp_control (m_dsp m1)) i && negb (Z.testbit 0xA8 i && Z.testbit tmp i)).
  { intros i Hi. change (m_dsp_control (m_dsp m')) with (m_dsp_control (m_dsp m2)). rewrite Ec. unfold written_control.
    rewrite set_bits_testbit, !acknowledged_testbit, !set_bits_testbit by lia.
    assert (Hcases : i ∈ [0;1;2;3;4;5;6;7;8;9;10;11;12;13;14;15]).
    { rewrite !elem_of_cons. lia. }
    repeat (apply elem_of_cons in Hcases as [->|Hcases]; [cbn [Z.eqb Pos.eqb andb];
      destruct (Z.testbit tmp 3), (Z.testbit tmp 5), (Z.testbit tmp 7); cbn; rewrite ?andb_true_r; reflexivity|]).
    by apply not_elem_of_nil in Hcases. }
  split; [|split; [|split; [|split; [|split; [|split]]]]].
  - intros i Hi. repeat (apply elem_of_cons in Hi as [->|Hi]; [rewrite Hb, Et by lia; reflexivity|]).
    by apply not_elem_of_nil in Hi.
  - intros i Hi. repeat (apply elem_of_cons in Hi as [->|Hi]; [rewrite Hb, Et by lia; reflexivity|]).
    by apply not_elem_of_nil in Hi.
  - intros i Hi. repeat (apply elem_of_cons in Hi as [->|Hi]; [rewrite Hb, Et by lia; reflexivity|]).
    by apply not_elem_of_nil in Hi.
  - rewrite Hb by lia. change (Z.testbit 0xFD57 9) with false. cbn [Z.testbit]. apply andb_true_r.
  - change (AudioDMAControl (m_dsp m')) with (AudioDMAControl (m_dsp m2)). unfold m2. by destruct (Z.testbit val 0).
  - unfold dsp_line. change (m_pi m') with x. rewrite Hx by lia. done.
  - change (m_pi m') with x. change (ppc_state (m_timing m')) with p. rewrite Hp. apply UpdateException_line.
Qed.
End ControlWrite.

(** * Every register access ends *)

Section Ends.
Context {heap : HeapAlgorithms}.

(** The loops of the ARAM DMA leave the count to [dma_advance]. *)
Definition leaves_count (body : M Machine unit) : Prop :=
  forall m, match body m with Done _ m' => Cnt (m_dsp m') = Cnt (m_dsp m) | Fault _ => True end.

Definition advance_cnt (c : Z) : Z := (c .& 0x80000000) .| wrapu 31 (dma_count c - 8).

Lemma dma_count_bound c : 0 <= dma_count c < 2 ^ 31.
Proof. unfold dma_count. pose proof (land_bound c 0x7fffffff ltac:(lia)). lia. Qed.

Lemma advance_cnt_count c : 8 <= dma_count c -> dma_count (advance_cnt c) = dma_count c - 8.
Proof.
  intros Hc. pose proof (dma_count_bound c). unfold advance_cnt. rewrite wrapu_small by (unfold uN; lia).
  set (n := dma_count c - 8) in *. unfold dma_count at 1. rewrite Z.land_lor_distr_l, <- Z.land_assoc.
  change (0x80000000 .& 0x7fffffff) with 0. rewrite Z.land_0_r, Z.lor_0_l.
  change 0x7fffffff with (2 ^ 31 - 1). rewrite land_wrapu by lia. apply wrapu_small. unfold uN. lia.
Qed.

Lemma advance_cnt_dir c : dma_to_mram (advance_cnt c) = dma_to_mram c.
Proof.
  unfold dma_to_mram, advance_cnt. rewrite Z.lor_spec, Z.land_spec. change (Z.testbit 0x80000000 31) with true.
  unfold wrapu. rewrite Z.mod_pow2_bits_high by lia. by rewrite andb_true_r, orb_false_r.
Qed.

Lemma while_count_step n body c m :
  c = Cnt (m_dsp m) -> dma_count c <> 0 ->
  while_count (S n) body m = (body ;; dma_advance ;; while_count n body) m.
Proof.
  intros -> Hc. cbn [while_count]. rewrite (bind_done _ _ _ _ _ (run_getf _ _)).
  change (fget f_Cnt m) with (Cnt (m_dsp m)). by rewrite (proj2 (Z.eqb_neq _ 0) Hc).
Qed.

Lemma while_count_end n body m : dma_count (Cnt (m_dsp m)) = 0 -> while_count (S n) body m = Done (Some tt) m.
Proof.
  intros Hc. cbn [while_count]. rewrite (bind_done _ _ _ _ _ (run_getf _ _)).
  change (fget f_Cnt m) with (Cnt (m_dsp m)). by rewrite Hc.
Qed.

(** The machine after the end of the loop's body. *)
Definition advanced (m : Machine) : Machine :=
  fset f_Cnt (advance_cnt (Cnt (m_dsp m)))
    (fset f_ARAddr (to_u32 (ARAddr (m_dsp m) + 8)) (fset f_MMAddr (to_u32 (MMAddr (m_dsp m) + 8)) m)).

Lemma run_dma_advance m : dma_advance m = Done tt (advanced m).
Proof. reflexivity. Qed.

(** The count goes down to zero from a multiple of 8. *)
Lemma while_count_ends body k : leaves_count body -> forall m n,
  dma_count (Cnt (m_dsp m)) = 8 * Z.of_nat k -> (k < n)%nat ->
  match while_count n body m with Done r m' => r = Some tt /\ dma_count (Cnt (m_dsp m')) = 0 | Fault _ => True end.
Proof.
  intros Hb. induction k as [|k IH]; intros m [|n] Hc Hn; try lia.
  - by rewrite while_count_end.
  - rewrite (while_count_step n body _ m eq_refl) by lia. specialize (Hb m). unfold mbind at 1, M_bind at 1.
    destruct (body m) as [[] m1|f]; [|done].
    rewrite (bind_done _ _ _ _ _ (run_dma_advance m1)).
    apply IH; [|lia]. change (dma_count (advance_cnt (Cnt (m_dsp m1))) = 8 * Z.of_nat k).
    rewrite Hb, advance_cnt_count; lia.
Qed.

(** ** The bodies leave the count *)

Lemma leaves_bind {A} (m : M Machine A) (k : A -> M Machine unit) :
  (forall s, match m s with Done _ s' => Cnt (m_dsp s') = Cnt (m_dsp s) | Fault _ => True end) ->
  (forall a, leaves_count (k a)) -> leaves_count (m ≫= k).
Proof.
  intros Hm Hk s. specialize (Hm s). unfold mbind, M_bind. destruct (m s) as [a s1|f]; [|done].
  specialize (Hk a s1). destruct (k a s1); congruence.
Qed.
Lemma leaves_read i m : match aram_read_u64 i m with Done _ m' => Cnt (m_dsp m') = Cnt (m_dsp m) | Fault _ => True end.
Proof. unfold aram_read_u64. by destruct (_ && _). Qed.
Lemma leaves_write i v : leaves_count (aram_write_u64 i v).
Proof.
  intros m. unfold aram_write_u64. destruct (_ && _); [|done]. unfold set_aram. by destruct (wii_mode _).
Qed.
Lemma leaves_hsp_read a m : match HSP_Read a m with Done _ m' => Cnt (m_dsp m') = Cnt (m_dsp m) | Fault _ => True end.
Proof. unfold HSP_Read. destruct (m_hsp m); [done..|]. cbv zeta. by destruct (_ <=? _). Qed.
Lemma leaves_hsp_write a v : leaves_count (HSP_Write a v).
Proof. intros m. unfold HSP_Write. destruct (m_hsp m); [done..|]. cbv zeta. by destruct (_ <=? _). Qed.

Lemma leaves_get {A} (F : field Machine A) m :
  match getf F m with Done _ m' => Cnt (m_dsp m') = Cnt (m_dsp m) | Fault _ => True end.
Proof. reflexivity. Qed.
Lemma leaves_memory f : leaves_count (modf mf_memory f).
Proof. intros m. reflexivity. Qed.
Lemma leaves_index m : match aram_index m with Done _ m' => Cnt (m_dsp m') = Cnt (m_dsp m) | Fault _ => True end.
Proof. reflexivity. Qed.

Ltac leaves := repeat lazymatch goal with
  | |- forall _ : Machine, _ => intros ?
  | |- leaves_count (_ ≫= _) => apply leaves_bind; [ | intros ?; cbv zeta]
  | |- leaves_count (aram_write_u64 _ _) => apply leaves_write
  | |- leaves_count (HSP_Write _ _) => apply leaves_hsp_write
  | |- leaves_count (modf mf_memory _) => apply leaves_memory
  | |- match aram_read_u64 _ _ with _ => _ end => apply leaves_read
  | |- match HSP_Read _ _ with _ => _ end => apply leaves_hsp_read
  | |- match getf _ _ with _ => _ end => apply leaves_get
  | |- match aram_index _ with _ => _ end => apply leaves_index
  end.

Lemma leaves_copy_from_aram : leaves_count copy_from_aram.
Proof. unfold copy_from_aram. leaves. Qed.
Lemma leaves_copy_from_hsp : leaves_count copy_from_hsp.
Proof. unfold copy_from_hsp. leaves. Qed.
Lemma leaves_copy_to_hsp : leaves_count copy_to_hsp.
Proof. unfold copy_to_hsp. leaves. Qed.
Lemma leaves_copy_to_aram : leaves_count copy_to_aram.
Proof.
  unfold copy_to_aram. apply leaves_bind; [apply leaves_get | intros d; cbv zeta].
  apply leaves_bind; [|intros []; leaves]. unfold when. destruct (_ && _); [|done].
  apply leaves_bind; [apply leaves_get | intros mem; apply leaves_write].
Qed.

(** The machine when the first byte is copied. *)
Definition dma_ticks (cnt : Z) : Z := to_s32 (dma_count cnt / 32 * 246).
Definition dma_started (m : Machine) : Machine :=
  let d := m_dsp m in
  fset f_MMAddr (MMAddr d .& 0x3ffffff) (fset f_ARAddr (ARAddr d .& 0x3ffffff)
    (fset mf_timing (ScheduleEvent (dma_ticks (Cnt d)) "ARAMint" 0 FromCPU true (m_timing m))
      (fset f_m_dsp_control (set_bits 0x0200 0x0200 (m_dsp_control d)) m))).

Lemma Do_ARAM_DMA_run m :
  Do_ARAM_DMA m =
  (let d := m_dsp (dma_started m) in let n := S (Z.to_nat (dma_count (Cnt d) / 8)) in
   if dma_to_mram (Cnt d) then
     if ARAddr d <? aram_size d then while_count n copy_from_aram (dma_started m)
     else if negb (wii_mode d) then while_count n copy_from_hsp (dma_started m)
     else Done (Some tt) (dma_started m)
   else
     if ARAddr d <? aram_size d then while_count n copy_to_aram (dma_started m)
     else if negb (wii_mode d) then while_count n copy_to_hsp (dma_started m)
     else Done (Some tt) (dma_started m)).
Proof.
  unfold Do_ARAM_DMA. rewrite (bind_done _ _ _ _ _ (run_modf _ _ _)), (bind_done _ _ _ _ _ (run_getf _ _)).
  cbv zeta. rewrite !(bind_done _ _ _ _ _ (run_modf _ _ _)), (bind_done _ _ _ _ _ (run_getf _ _)).
  lazymatch goal with |- (if _ then _ else _) ?m1 = _ => change m1 with (dma_started m) end.
  change (dma_to_mram (fget f_Cnt _)) with (dma_to_mram (Cnt (m_dsp (dma_started m)))).
  change (fget mf_dsp (dma_started m)) with (m_dsp (dma_started m)).
  destruct (dma_to_mram _), (_ <? _); [done | by destruct (negb _) | done | by destruct (negb _)].
Qed.

Lemma Do_ARAM_DMA_ends m :
  dma_count (Cnt (m_dsp m)) mod 8 = 0 ->
  match Do_ARAM_DMA m with Done r m' => r = Some tt | Fault _ => True end.
Proof.
  intros Hc. rewrite Do_ARAM_DMA_run. set (m1 := dma_started m). cbv zeta.
  change (Cnt (m_dsp m1)) with (Cnt (m_dsp m)). set (n := S _).
  assert (Hw : forall body, leaves_count body ->
    match while_count n body m1 with Done r m' => r = Some tt | Fault _ => True end).
  { intros body Hb. pose proof (dma_count_bound (Cnt (m_dsp m))).
    pose proof (while_count_ends body (Z.to_nat (dma_count (Cnt (m_dsp m)) / 8)) Hb m1 n) as Hend.
    change (Cnt (m_dsp m1)) with (Cnt (m_dsp m)) in Hend.
    pose proof (Z.div_mod (dma_count (Cnt (m_dsp m))) 8 ltac:(lia)).
    pose proof (Z.div_pos (dma_count (Cnt (m_dsp m))) 8 ltac:(lia) ltac:(lia)).
    specialize (Hend ltac:(lia) (Nat.lt_succ_diag_r _)).
    destruct (while_count n body m1); [by destruct Hend | done]. }
  pose proof leaves_copy_from_aram. pose proof leaves_copy_from_hsp.
  pose proof leaves_copy_to_aram. pose proof leaves_copy_to_hsp.
  destruct (dma_to_mram _), (_ <? _); [by apply Hw | destruct (negb _); [by apply Hw | done]
    | by apply Hw | destruct (negb _); [by apply Hw | done]].
Qed.

(** A write of the low half leaves a multiple of 32. *)
Lemma written_count x v : dma_count (put_low x (v .& WMASK_LO_ALIGN_32BIT)) mod 8 = 0.
Proof.
  unfold dma_count, put_low. change 8 with (2 ^ 3). apply Z.bits_inj'. intros i Hi. rewrite Z.bits_0.
  destruct (Z.lt_ge_cases i 3).
  - rewrite Z.mod_pow2_bits_low, Z.land_spec, Z.lor_spec, !Z.land_spec by lia.
    assert (Hc : i = 0 \/ i = 1 \/ i = 2) by lia.
    destruct Hc as [->|[->| ->]]; cbn [Z.testbit Pos.testbit]; by rewrite !andb_false_r.
  - by rewrite Z.mod_pow2_bits_high.
Qed.
End Ends.

Section EndsSystem.
Context {S : Type} (MF : field S Machine) {heap : HeapAlgorithms} {emu : DSPEmulator S}.

Definition ends (m : M S (option unit)) : Prop :=
  forall s, match m s with Done r _ => r = Some tt | Fault _ => True end.

Lemma ends_put (m : M S unit) : ends (m ;; mret (Some tt)).
Proof. intros s. unfold mbind, M_bind. by destruct (m s). Qed.

Lemma ends_bind {A} (m : M S A) k : (forall a, ends (k a)) -> ends (m ≫= k).
Proof. intros Hk s. unfold mbind, M_bind. destruct (m s) as [a s1|f]; [apply Hk | done]. Qed.

Lemma ends_dma v : ends (machine MF (modf f_Cnt (fun x => put_low x (v .& WMASK_LO_ALIGN_32BIT)) ;; Do_ARAM_DMA)).
Proof.
  intros s. unfold machine, on. rewrite (bind_done _ _ _ _ _ (run_modf _ _ _)).
  set (m := fset f_Cnt _ _). pose proof (Do_ARAM_DMA_ends m (written_count _ _)) as H.
  by destruct (Do_ARAM_DMA m).
Qed.

(** Every write to a register ends.  The loop of the ARAM DMA counts down to zero by eights,
    which only ends because the register drops the low bits of the count: no write, of 16
    or of 32 bits and with any value in any of the registers, goes on forever. *)
Theorem mmio_write_ends offset val s :
  match mmio_write16 MF offset val s with Done r _ => r = Some tt | Fault _ => True end /\
  match mmio_write32 MF offset val s with Done r _ => r = Some tt | Fault _ => True end.
Proof.
  assert (H16 : forall a v, ends (mmio_write16 MF a v)).
  { intros a v. unfold mmio_write16. cbv zeta.
    repeat lazymatch goal with
    | |- ends (match ?x with _ => _ end) => destruct x
    | |- ends (mret _) => by intros ?
    | |- ends (machine _ _) => apply ends_dma
    | |- ends (_ ≫= _) => apply ends_put
    end. }
  split; [apply H16|]. unfold mmio_write32, mbind, M_bind. pose proof (H16 offset (val .>> 16) s) as H1.
  destruct (mmio_write16 MF offset (val .>> 16) s) as [a s1|f]; [|done]. subst a.
  pose proof (H16 (offset + 2) (to_u16 val) s1) as H2.
  destruct (mmio_write16 MF (offset + 2) (to_u16 val) s1) as [b s2|f]; [|done]. by subst b.
Qed.
End EndsSystem.
