(* ===== verification/AramProps.v ===== *)
(** The ARAM DMA ([DSPManager::Do_ARAM_DMA]) on a GameCube: what a transfer copies. *)
From stdpp Require Import base tactics option list gmap strings.
From Stdlib Require Import ZArith Lia Bool.
From S2P Require Import Prelude DSPState PowerPC ProcessorInterface Memmap CoreTiming Machine DSPManager.
From S2P Require Import CoreTimingProps MemoryProps ManagerProps.

#[local] Open Scope Z_scope.

(** * Slices of arrays *)

Lemma aslice_app a i n k : aslice a i (n + k) = aslice a i n ++ aslice a (i + Z.of_nat n) k.
Proof.
  revert i. induction n as [|n IH]; intros i; cbn [aslice Nat.add app].
  - by rewrite Z.add_0_r.
  - rewrite IH. do 3 f_equal. lia.
Qed.

Lemma aupd_list_app a i l k : aupd_list a i (l ++ k) = aupd_list (aupd_list a i l) (i + Z.of_nat (length l)) k.
Proof.
  revert a i. induction l as [|v l IH]; intros a i; cbn [aupd_list app length].
  - by rewrite Z.add_0_r.
  - rewrite IH. f_equal. lia.
Qed.

Lemma aslice_ext a b i n : (forall j, i <= j < i + Z.of_nat n -> aat a j = aat b j) -> aslice a i n = aslice b i n.
Proof.
  revert i. induction n as [|n IH]; intros i H; cbn [aslice]; [done|]. rewrite (H i) by lia. f_equal.
  apply IH. intros j Hj. apply H. lia.
Qed.

Lemma aslice_aupd_list a i l : aslice (aupd_list a i l) i (length l) = l.
Proof.
  revert a i. induction l as [|v l IH]; intros a i; cbn [aslice aupd_list length]; [done|]. rewrite IH. f_equal.
  rewrite aat_aupd_list, (proj2 (Z.leb_gt _ _)) by lia. apply aat_aupd_eq.
Qed.

Lemma aslice_u8 a i n : arr_ok u8 a -> Forall u8 (aslice a i n).
Proof. intros Ha. revert i. induction n; intros i; cbn; constructor; auto. Qed.

(** * Memory *)

Lemma pointer_sub a n r off m i k :
  memory_ok m -> GetPointerForRange a n m = Some (r, off) -> 0 <= i -> 0 < k -> i + k <= n ->
  GetPointerForRange (a + i) k m = Some (r, off + i) /\ region_present r m /\ 0 <= off.
Proof.
  intros Hm. unfold GetPointerForRange. destruct (GetSpanForAddress a m) as [[[r' off'] len]|] eqn:E; [|done].
  destruct (span_ok a r' off' len m Hm E) as (Hoff & Hlen & Hi).
  rewrite (wrapu_small 64 len) by (unfold uN; lia). destruct (Z.ltb_spec len n); [done|].
  intros [= -> ->] Hi0 Hk Hin. split; [|split; [by eapply span_present | done]].
  rewrite Hi by lia. rewrite (wrapu_small 64) by (unfold uN; lia). by rewrite (proj2 (Z.ltb_ge _ _)) by lia.
Qed.

Lemma set_region_twice r x y m : set_region r y (set_region r x m) = set_region r y m.
Proof. destruct r; cbn; [done|]. by destruct (m_exram m). Qed.

(** A DMA's 64-bit accesses move the bytes as they are. *)
Lemma Read_U64_bytes a r off m :
  memory_ok m -> GetPointerForRange a 8 m = Some (r, off) ->
  le_bytes 8 (swap64 (Read_U64 a m)) = aslice (region_bytes r m) off 8.
Proof.
  intros Hm Hp. unfold Read_U64. rewrite (CopyFromEmu_spec a 8 r off) by (done || lia).
  change (Z.to_nat 8) with 8%nat. set (l := aslice _ _ _).
  assert (Hl : Forall u8 l) by (by apply aslice_u8, region_bytes_ok).
  assert (Hn : length l = 8%nat) by apply length_aslice.
  rewrite swap64_involutive by (pose proof (of_le_bytes_range l Hl) as H; by rewrite Hn in H).
  rewrite <- Hn. by apply le_bytes_of_le_bytes.
Qed.

Lemma Write_U64_Swap_bytes a r off l m :
  GetPointerForRange a 8 m = Some (r, off) -> Forall u8 l -> length l = 8%nat ->
  Write_U64_Swap (of_le_bytes l) a m = set_region r (aupd_list (region_bytes r m) off l) m.
Proof.
  intros Hp Hl Hn. unfold Write_U64_Swap. rewrite <- Hn, le_bytes_of_le_bytes by done.
  apply CopyToEmu_spec; [by destruct l|]. by rewrite Hn.
Qed.

(** * The machine *)

Section Transfer.
Context {heap : HeapAlgorithms}.

(** A GameCube: the auxiliary memory is its own. *)
Record gamecube (m : Machine) : Prop := {
  gc_mode : wii_mode (m_dsp m) = false;
  gc_size : aram_size (m_dsp m) = ARAM_SIZE;
  gc_mask : aram_mask (m_dsp m) = ARAM_MASK;
  gc_aram : arr_ok u8 (aram_mem (m_dsp m));
  gc_memory : memory_ok (m_memory m)
}.

(** The registers after [n] bytes, with the auxiliary memory [x] and main memory [mem]. *)
Definition transferred (n : Z) (x : arr) (mem : MemoryManager) (m : Machine) : Machine :=
  let d := m_dsp m in
  fset mf_memory mem (fset f_aram_mem x (fset f_Cnt (Cnt d .& 0x80000000)
    (fset f_ARAddr (ARAddr d + n) (fset f_MMAddr (MMAddr d + n) m)))).

(** A transfer of [8 * k] bytes that stays inside both memories. *)
Record transfer (k : nat) (r : region) (off : Z) (m : Machine) : Prop := {
  tr_machine : gamecube m;
  tr_count : dma_count (Cnt (m_dsp m)) = 8 * Z.of_nat k;
  tr_u32 : u32 (Cnt (m_dsp m));
  tr_aram : 0 <= ARAddr (m_dsp m) /\ ARAddr (m_dsp m) + 8 * Z.of_nat k <= ARAM_SIZE;
  tr_mram : 0 <= MMAddr (m_dsp m) /\ MMAddr (m_dsp m) + 8 * Z.of_nat k <= 2 ^ 31;
  tr_pointer : (0 < k)%nat -> GetPointerForRange (MMAddr (m_dsp m)) (8 * Z.of_nat k) (m_memory m) = Some (r, off)
}.

Lemma cnt_split c : u32 c -> c = (c .& 0x80000000) .| (c .& 0x7fffffff).
Proof.
  intros Hc. rewrite <- Z.land_lor_distr_r. change (0x80000000 .| 0x7fffffff) with (2 ^ 32 - 1).
  rewrite land_wrapu by lia. symmetry. by apply wrapu_small.
Qed.

Lemma advance_cnt_high c : advance_cnt c .& 0x80000000 = c .& 0x80000000.
Proof.
  unfold advance_cnt. apply Z.bits_inj'. intros i Hi. rewrite !Z.land_spec, Z.lor_spec, Z.land_spec.
  change 0x80000000 with (2 ^ 31). rewrite Z.pow2_bits_eqb by lia. destruct (Z.eqb_spec 31 i) as [<-|].
  - unfold wrapu. rewrite Z.mod_pow2_bits_high by lia. by rewrite !andb_true_r, orb_false_r.
  - by rewrite !andb_false_r.
Qed.

Lemma advance_cnt_u32 c : u32 c -> u32 (advance_cnt c).
Proof. intros Hc. unfold advance_cnt. apply uN_lor; [lia | by apply uN_land_l |]. range_lia. Qed.

Lemma transferred_0 m r off :
  transfer 0 r off m -> transferred 0 (aram_mem (m_dsp m)) (m_memory m) m = m.
Proof.
  intros [_ Hc Hu _ _ _]. unfold transferred. rewrite !Z.add_0_r.
  assert (E : Cnt (m_dsp m) .& 0x80000000 = Cnt (m_dsp m)).
  { rewrite (cnt_split _ Hu) at 2. unfold dma_count in Hc. by rewrite Hc, Z.lor_0_r. }
  rewrite E. by destruct m as [? ? ? [] ? ? ? ? ?].
Qed.

(** The state after one turn of the loop. *)
Lemma transfer_step k r off m x mem :
  transfer (S k) r off m -> arr_ok u8 x -> memory_ok mem ->
  (forall a n, GetPointerForRange a n mem = GetPointerForRange a n (m_memory m)) ->
  let m1 := advanced (fset mf_memory mem (fset f_aram_mem x m)) in
  transfer k r (off + 8) m1 /\
  forall y mem', transferred (8 * Z.of_nat k) y mem' m1 = transferred (8 * Z.of_nat (S k)) y mem' m.
Proof.
  intros [Hm Hc Hu Ha Hb Hp] Hx Hmem Hg. cbn zeta. destruct Hm as [Hw Hs Hk Har Hok].
  assert (Ea : to_u32 (ARAddr (m_dsp m) + 8) = ARAddr (m_dsp m) + 8) by (apply wrapu_small; unfold uN; lia).
  assert (Eb : to_u32 (MMAddr (m_dsp m) + 8) = MMAddr (m_dsp m) + 8) by (apply wrapu_small; unfold uN; lia).
  set (m1 := advanced _).
  assert (Em : Cnt (m_dsp m1) = advance_cnt (Cnt (m_dsp m)) /\ ARAddr (m_dsp m1) = ARAddr (m_dsp m) + 8 /\
    MMAddr (m_dsp m1) = MMAddr (m_dsp m) + 8) by (split; [done|]; split; [exact Ea | exact Eb]).
  destruct Em as (E1 & E2 & E3). split.
  - split.
    + by split.
    + rewrite E1, advance_cnt_count; lia.
    + rewrite E1. by apply advance_cnt_u32.
    + rewrite E2. lia.
    + rewrite E3. lia.
    + intros Hk0. rewrite E3. change (m_memory m1) with mem. rewrite Hg.
      apply (pointer_sub _ (8 * Z.of_nat (S k))); [done | apply Hp; lia | lia..].
  - intros y mem'. unfold transferred. rewrite E1, E2, E3, advance_cnt_high.
    replace (ARAddr (m_dsp m) + 8 + 8 * Z.of_nat k) with (ARAddr (m_dsp m) + 8 * Z.of_nat (S k)) by lia.
    replace (MMAddr (m_dsp m) + 8 + 8 * Z.of_nat k) with (MMAddr (m_dsp m) + 8 * Z.of_nat (S k)) by lia.
    reflexivity.
Qed.

Lemma aram_index_small a : 0 <= a < ARAM_SIZE -> a .& ARAM_MASK = a.
Proof. intros Ha. change ARAM_MASK with (2 ^ 24 - 1). rewrite land_wrapu by lia. apply wrapu_small. unfold uN. lia. Qed.

(** ** Into the auxiliary memory *)

(** Memory configuration 4 mirrors the lower 4 MiB. *)
Definition unmirrored (m : Machine) : Prop :=
  m_aram_info (m_dsp m) .& 0xf <> 4 \/ 0x400000 <= ARAddr (m_dsp m).

Lemma copy_to_aram_run k r off m :
  transfer (S k) r off m -> unmirrored m ->
  copy_to_aram m = Done tt (fset mf_memory (m_memory m) (fset f_aram_mem
    (aupd_list (aram_mem (m_dsp m)) (ARAddr (m_dsp m)) (aslice (region_bytes r (m_memory m)) off 8)) m)).
Proof.
  intros [[Hw Hs Hk Har Hok] Hc Hu Ha Hb Hp] Hi. unfold copy_to_aram. rewrite (bind_done _ _ _ _ _ (run_getf _ _)).
  cbv zeta. change (fget mf_dsp m) with (m_dsp m).
  assert (Em : ((m_aram_info (m_dsp m) .& 15 =? 4) && (ARAddr (m_dsp m) <? 4194304)) = false).
  { destruct Hi as [Hi|Hi]; [by rewrite (proj2 (Z.eqb_neq _ _) Hi)|].
    rewrite (proj2 (Z.ltb_ge _ _) Hi). apply andb_false_r. }
  rewrite Em. unfold when. rewrite (bind_done _ _ _ _ _ (run_ret _ _)), (bind_done _ _ _ _ _ (run_getf _ _)).
  change (fget mf_memory m) with (m_memory m). rewrite Hk, aram_index_small by lia.
  unfold aram_write_u64. rewrite Hs, (proj2 (Z.leb_le _ _)), (proj2 (Z.leb_le (_ + 8) _)) by lia. cbn [andb].
  unfold set_aram, aram_bytes. rewrite Hw.
  destruct (pointer_sub _ _ r off _ 0 8 Hok (Hp ltac:(lia)) ltac:(lia) ltac:(lia) ltac:(lia)) as [Hp8 _].
  rewrite !Z.add_0_r in Hp8. rewrite (Read_U64_bytes _ r off) by done. by destruct m.
Qed.

Lemma copy_to_aram_loop k r off m n :
  transfer k r off m -> unmirrored m -> (k < n)%nat ->
  while_count n copy_to_aram m =
  Done (Some tt) (transferred (8 * Z.of_nat k)
    (aupd_list (aram_mem (m_dsp m)) (ARAddr (m_dsp m)) (aslice (region_bytes r (m_memory m)) off (8 * k)))
    (m_memory m) m).
Proof.
  revert m n off. induction k as [|k IH]; intros m [|n] off Ht Hi Hn; try lia.
  - rewrite while_count_end by (rewrite (tr_count _ _ _ _ Ht); lia). f_equal. symmetry. by apply (transferred_0 m r off).
  - rewrite (while_count_step n _ _ m eq_refl) by (rewrite (tr_count _ _ _ _ Ht); lia).
    rewrite (bind_done _ _ _ _ _ (copy_to_aram_run k r off m Ht Hi)), (bind_done _ _ _ _ _ (run_dma_advance _)).
    set (x := aupd_list _ _ _). destruct (tr_machine _ _ _ _ Ht) as [Hw Hs Hk Har Hok].
    assert (Hx : arr_ok u8 x) by (apply arr_ok_aupd_list; [done | by apply aslice_u8, region_bytes_ok]).
    destruct (transfer_step k r off m x (m_memory m) Ht Hx Hok (fun _ _ => eq_refl)) as [Ht1 Eq].
    set (m1 := advanced _) in *. rewrite IH with (off := off + 8); [|done| |lia].
    + rewrite Eq. do 2 f_equal. change (aram_mem (m_dsp m1)) with x. change (m_memory m1) with (m_memory m).
      replace (8 * S k)%nat with (8 + 8 * k)%nat by lia. rewrite aslice_app, aupd_list_app, length_aslice. fold x.
      f_equal. change (to_u32 (ARAddr (m_dsp m) + 8) = ARAddr (m_dsp m) + 8). apply wrapu_small.
      pose proof (tr_aram _ _ _ _ Ht). unfold uN. lia.
    + destruct Hi as [Hi|Hi]; [by left | right]. change (0x400000 <= to_u32 (ARAddr (m_dsp m) + 8)).
      pose proof (tr_aram _ _ _ _ Ht). rewrite wrapu_small; [lia | unfold uN; lia].
Qed.

(** ** Out of it *)

Lemma copy_from_aram_run k r off m :
  transfer (S k) r off m ->
  copy_from_aram m = Done tt (fset mf_memory (set_region r
    (aupd_list (region_bytes r (m_memory m)) off (aslice (aram_mem (m_dsp m)) (ARAddr (m_dsp m)) 8)) (m_memory m))
    (fset f_aram_mem (aram_mem (m_dsp m)) m)).
Proof.
  intros [[Hw Hs Hk Har Hok] Hc Hu Ha Hb Hp]. unfold copy_from_aram, aram_index.
  assert (Er : aram_read_u64 (ARAddr (m_dsp m)) m = Done (of_le_bytes (aslice (aram_mem (m_dsp m)) (ARAddr (m_dsp m)) 8)) m).
  { unfold aram_read_u64, aram_bytes. by rewrite Hw, Hs, (proj2 (Z.leb_le _ _)), (proj2 (Z.leb_le (_ + 8) _)) by lia. }
  assert (Ei : (d ← getf mf_dsp; mret (ARAddr d .& aram_mask d)) m = Done (ARAddr (m_dsp m)) m).
  { rewrite (bind_done _ _ _ _ _ (run_getf _ _)). change (fget mf_dsp m) with (m_dsp m).
    by rewrite Hk, aram_index_small by lia. }
  rewrite (bind_done _ _ _ _ _ Ei), (bind_done _ _ _ _ _ Er), (bind_done _ _ _ _ _ (run_getf _ _)), run_modf.
  change (fget f_MMAddr m) with (MMAddr (m_dsp m)). change (fget mf_memory m) with (m_memory m).
  destruct (pointer_sub _ _ r off _ 0 8 Hok (Hp ltac:(lia)) ltac:(lia) ltac:(lia) ltac:(lia)) as [Hp8 _].
  rewrite !Z.add_0_r in Hp8. rewrite (Write_U64_Swap_bytes _ r off); [|done | by apply aslice_u8 | done].
  by destruct m as [? ? ? [] ? ? ? ? ?].
Qed.

Lemma copy_from_aram_loop k r off m n :
  transfer k r off m -> region_present r (m_memory m) -> (k < n)%nat ->
  while_count n copy_from_aram m =
  Done (Some tt) (transferred (8 * Z.of_nat k) (aram_mem (m_dsp m))
    (set_region r (aupd_list (region_bytes r (m_memory m)) off (aslice (aram_mem (m_dsp m)) (ARAddr (m_dsp m)) (8 * k)))
      (m_memory m)) m).
Proof.
  revert m n off. induction k as [|k IH]; intros m [|n] off Ht Hr Hn; try lia.
  - rewrite while_count_end by (rewrite (tr_count _ _ _ _ Ht); lia). f_equal. change (8 * 0)%nat with 0%nat. cbn [aslice aupd_list].
    assert (E : set_region r (region_bytes r (m_memory m)) (m_memory m) = m_memory m).
    { destruct m as [? [] ? ? ? ? ? ? ?], r; cbn in *; [done|]. by destruct m_exram. }
    rewrite E. symmetry. by apply (transferred_0 m r off).
  - rewrite (while_count_step n _ _ m eq_refl) by (rewrite (tr_count _ _ _ _ Ht); lia).
    rewrite (bind_done _ _ _ _ _ (copy_from_aram_run k r off m Ht)), (bind_done _ _ _ _ _ (run_dma_advance _)).
    destruct (tr_machine _ _ _ _ Ht) as [Hw Hs Hk Har Hok].
    set (x := aupd_list _ _ _). set (mem := set_region r x _).
    assert (Hx : arr_ok u8 x) by (apply arr_ok_aupd_list; [by apply region_bytes_ok | by apply aslice_u8]).
    destruct (transfer_step k r off m (aram_mem (m_dsp m)) mem Ht Har ltac:(by apply memory_ok_set_region)
      (fun a n => pointer_set_region r x a n (m_memory m))) as [Ht1 Eq].
    set (m1 := advanced _) in *. rewrite IH with (off := off + 8); [|done| |lia].
    + rewrite Eq. do 2 f_equal. change (m_memory m1) with mem. change (aram_mem (m_dsp m1)) with (aram_mem (m_dsp m)).
      assert (Eb : region_bytes r mem = x) by (by apply bytes_set_region).
      rewrite Eb. unfold mem. rewrite set_region_twice. f_equal.
      replace (8 * S k)%nat with (8 + 8 * k)%nat by lia. rewrite aslice_app, aupd_list_app, length_aslice. fold x.
      do 2 f_equal. change (to_u32 (ARAddr (m_dsp m) + 8) = ARAddr (m_dsp m) + 8). apply wrapu_small.
      pose proof (tr_aram _ _ _ _ Ht). unfold uN. lia.
    + change (m_memory m1) with mem. unfold mem. destruct r; cbn in *; [done|]. by destruct (m_exram (m_memory m)).
Qed.
End Transfer.

(** * Whole transfers *)

Section DMA.
Context {heap : HeapAlgorithms} {laws : HeapLaws}.

(** The registers describe a transfer of [8 * k] bytes inside both memories. *)
Record programmed (k : nat) (r : region) (off : Z) (m : Machine) : Prop := {
  pr_transfer : transfer k r off m;
  pr_mram : MMAddr (m_dsp m) < 2 ^ 26;
  pr_some : (0 < k)%nat
}.

Lemma mask26 a : 0 <= a < 2 ^ 26 -> a .& 0x3ffffff = a.
Proof. intros Ha. change 0x3ffffff with (2 ^ 26 - 1). rewrite land_wrapu by lia. by apply wrapu_small. Qed.

Lemma started_registers k r off m :
  programmed k r off m ->
  ARAddr (m_dsp (dma_started m)) = ARAddr (m_dsp m) /\ MMAddr (m_dsp (dma_started m)) = MMAddr (m_dsp m).
Proof.
  intros [Ht Hm Hk]. pose proof (tr_aram _ _ _ _ Ht). pose proof (tr_mram _ _ _ _ Ht).
  split; [change (ARAddr (m_dsp m) .& 0x3ffffff = ARAddr (m_dsp m)) | change (MMAddr (m_dsp m) .& 0x3ffffff = MMAddr (m_dsp m))];
    apply mask26; lia.
Qed.

Lemma started_transfer k r off m : programmed k r off m -> transfer k r off (dma_started m).
Proof.
  intros Hp. destruct (started_registers k r off m Hp) as [Ea Em]. destruct Hp as [[Hm Hc Hu Ha Hb Hg] Hmm Hk].
  destruct Hm as [Hw Hs Hmk Har Hok]. split; rewrite ?Ea, ?Em; try done; by split.
Qed.

Lemma programmed_count k r off m : programmed k r off m -> Z.to_nat (dma_count (Cnt (m_dsp m)) / 8) = k.
Proof.
  intros [Ht _ _]. rewrite (tr_count _ _ _ _ Ht), (Z.mul_comm 8), Z.div_mul by lia. lia.
Qed.

(** What a transfer into the auxiliary memory leaves. *)
Lemma dma_to_aram_run k r off m :
  programmed k r off m -> unmirrored m -> dma_to_mram (Cnt (m_dsp m)) = false ->
  Do_ARAM_DMA m = Done (Some tt) (transferred (8 * Z.of_nat k)
    (aupd_list (aram_mem (m_dsp m)) (ARAddr (m_dsp m)) (aslice (region_bytes r (m_memory m)) off (8 * k)))
    (m_memory m) (dma_started m)).
Proof.
  intros Hp Hi Hd. destruct (started_registers k r off m Hp) as [Ea Em]. pose proof (started_transfer k r off m Hp) as Ht.
  rewrite Do_ARAM_DMA_run. cbv zeta. change (Cnt (m_dsp (dma_started m))) with (Cnt (m_dsp m)).
  rewrite Hd, (programmed_count k r off m Hp), (gc_size _ (tr_machine _ _ _ _ Ht)).
  destruct Hp as [Ht0 Hmm Hk]. pose proof (tr_aram _ _ _ _ Ht0). rewrite Ea, (proj2 (Z.ltb_lt _ _)) by lia.
  rewrite (copy_to_aram_loop k r off) by (done || lia || (unfold unmirrored; rewrite Ea; exact Hi)).
  by rewrite Ea.
Qed.

Lemma dma_from_aram_run k r off m :
  programmed k r off m -> dma_to_mram (Cnt (m_dsp m)) = true ->
  Do_ARAM_DMA m = Done (Some tt) (transferred (8 * Z.of_nat k) (aram_mem (m_dsp m))
    (set_region r (aupd_list (region_bytes r (m_memory m)) off
      (aslice (aram_mem (m_dsp m)) (ARAddr (m_dsp m)) (8 * k))) (m_memory m)) (dma_started m)).
Proof.
  intros Hp Hd. destruct (started_registers k r off m Hp) as [Ea Em]. pose proof (started_transfer k r off m Hp) as Ht.
  rewrite Do_ARAM_DMA_run. cbv zeta. change (Cnt (m_dsp (dma_started m))) with (Cnt (m_dsp m)).
  rewrite Hd, (programmed_count k r off m Hp), (gc_size _ (tr_machine _ _ _ _ Ht)).
  destruct Hp as [Ht0 Hmm Hk]. pose proof (tr_aram _ _ _ _ Ht0). rewrite Ea, (proj2 (Z.ltb_lt _ _)) by lia.
  pose proof (tr_pointer _ _ _ _ Ht0 Hk) as Hg.
  destruct (pointer_sub _ _ r off _ 0 8 (gc_memory _ (tr_machine _ _ _ _ Ht0)) Hg) as (_ & Hr & _); [lia..|].
  rewrite (copy_from_aram_loop k r off) by (done || lia). by rewrite Ea.
Qed.

(** The registers after a transfer. *)
Lemma transferred_done n x mem m :
  dma_count (Cnt (m_dsp (transferred n x mem m))) = 0 /\
  m_memory (transferred n x mem m) = mem /\ aram_mem (m_dsp (transferred n x mem m)) = x /\
  ARAddr (m_dsp (transferred n x mem m)) = ARAddr (m_dsp m) + n /\
  MMAddr (m_dsp (transferred n x mem m)) = MMAddr (m_dsp m) + n /\
  m_timing (transferred n x mem m) = m_timing m /\
  m_dsp_control (m_dsp (transferred n x mem m)) = m_dsp_control (m_dsp m).
Proof.
  split; [|done]. change (Cnt (m_dsp (transferred n x mem m))) with (Cnt (m_dsp m) .& 0x80000000).
  unfold dma_count. rewrite <- Z.land_assoc. change (0x80000000 .& 0x7fffffff) with 0. apply Z.land_0_r.
Qed.

(** C37. A transfer from main memory to the auxiliary memory of a GameCube, of any multiple of
    8 bytes that lies inside both memories and is not mirrored (the size register is not
    set to mode 4, in which the code writes the lower 4 MiB a second time 4 MiB higher, or
    the transfer starts above them), copies exactly the bytes asked for and nothing else;
    main memory stays as it was;
    the address registers end behind the last byte and the count at zero; the transfer is
    marked as running and the event that ends it is queued for the time the hardware takes,
    246 cycles for every 32 bytes. *)
Theorem aram_dma_stores k r off m :
  programmed k r off m -> unmirrored m -> dma_to_mram (Cnt (m_dsp m)) = false -> slice_ok (m_timing m) ->
  exists m', Do_ARAM_DMA m = Done (Some tt) m' /\
    let n := 8 * Z.of_nat k in let a := ARAddr (m_dsp m) in
    (forall j, aat (aram_mem (m_dsp m')) j =
       if (a <=? j) && (j <? a + n) then aat (region_bytes r (m_memory m)) (off + (j - a)) else aat (aram_mem (m_dsp m)) j) /\
    m_memory m' = m_memory m /\
    dma_count (Cnt (m_dsp m')) = 0 /\ ARAddr (m_dsp m') = a + n /\ MMAddr (m_dsp m') = MMAddr (m_dsp m) + n /\
    Z.testbit (m_dsp_control (m_dsp m')) 9 = true /\
    exists e, queue (m_timing m') ≡ₚ e :: queue (m_timing m) /\ type e = "ARAMint"%string /\
      time e = ticks (m_timing m) + n / 32 * 246.
Proof.
  intros Hp Hi Hd Hs. eexists. split; [exact (dma_to_aram_run k r off m Hp Hi Hd)|]. cbv zeta.
  lazymatch goal with |- context [transferred ?n ?x ?mem ?m1] =>
    destruct (transferred_done n x mem m1) as (-> & -> & -> & -> & -> & -> & ->) end.
  destruct (started_registers k r off m Hp) as [-> ->]. destruct Hp as [Ht Hmm Hk].
  pose proof (tr_aram _ _ _ _ Ht). pose proof (tr_count _ _ _ _ Ht) as Hc.
  split; [|do 4 (split; [done|]); split].
  - intros j. rewrite aat_aupd_list, length_aslice.
    replace (ARAddr (m_dsp m) + Z.of_nat (8 * k)) with (ARAddr (m_dsp m) + 8 * Z.of_nat k) by lia.
    destruct (Z.leb_spec (ARAddr (m_dsp m)) j), (Z.ltb_spec j (ARAddr (m_dsp m) + 8 * Z.of_nat k)); cbn [andb]; try done.
    rewrite lookup_aslice, Z2Nat.id by lia. done.
  - change (Z.testbit (set_bits 0x0200 0x0200 (m_dsp_control (m_dsp m))) 9 = true). by rewrite set_bits_testbit by lia.
  - change (m_timing (dma_started m)) with (ScheduleEvent (dma_ticks (Cnt (m_dsp m))) "ARAMint" 0 FromCPU true (m_timing m)).
    assert (Hdt : dma_ticks (Cnt (m_dsp m)) = 8 * Z.of_nat k / 32 * 246).
    { unfold dma_ticks. rewrite Hc. apply wraps_small; unfold sN; Z.div_mod_to_equations; lia. }
    destruct (ScheduleEvent_spec (dma_ticks (Cnt (m_dsp m))) "ARAMint" 0 (m_timing m) Hs) as (Hq & _ & _);
      [rewrite Hdt; Z.div_mod_to_equations; lia|].
    eexists. split; [exact Hq|]. split; [done|]. cbn. by rewrite Hdt.
Qed.

(** The registers set up to fetch the same bytes back, to address [b]. *)
Definition fetch_back (a b n : Z) (m : Machine) : Machine :=
  fset f_Cnt (0x80000000 .| n) (fset f_ARAddr a (fset f_MMAddr b m)).

(** What was stored comes back: after a transfer to the auxiliary memory and one from the
    same place to any valid main memory address, overlapping or not, the bytes there are
    those that were read. *)
Theorem aram_dma_roundtrip k r off r' off' b m :
  programmed k r off m -> unmirrored m -> dma_to_mram (Cnt (m_dsp m)) = false ->
  0 <= b -> b + 8 * Z.of_nat k <= 2 ^ 26 -> GetPointerForRange b (8 * Z.of_nat k) (m_memory m) = Some (r', off') ->
  exists m1 m2, Do_ARAM_DMA m = Done (Some tt) m1 /\
    Do_ARAM_DMA (fetch_back (ARAddr (m_dsp m)) b (8 * Z.of_nat k) m1) = Done (Some tt) m2 /\
    forall data, CopyFromEmu data b (8 * Z.of_nat k) (m_memory m2) =
                 CopyFromEmu data (MMAddr (m_dsp m)) (8 * Z.of_nat k) (m_memory m).
Proof.
  intros Hp Hi Hd Hb0 Hb Hg. pose proof (dma_to_aram_run k r off m Hp Hi Hd) as E1.
  destruct (started_registers k r off m Hp) as [Ea Em]. pose proof Hp as [Ht Hmm Hk].
  pose proof (tr_aram _ _ _ _ Ht) as Hra. destruct (tr_machine _ _ _ _ Ht) as [Hw Hs Hmk Har Hok].
  lazymatch type of E1 with _ = Done _ (transferred ?n ?x ?mem ?m0) => set (m1 := transferred n x mem m0) in *; set (y := x) in * end.
  set (m1' := fetch_back (ARAddr (m_dsp m)) b (8 * Z.of_nat k) m1).
  pose proof (tr_pointer _ _ _ _ Ht Hk) as Hg0.
  assert (Hy : arr_ok u8 y) by (apply arr_ok_aupd_list; [done | by apply aslice_u8, region_bytes_ok]).
  assert (Hn : dma_count (0x80000000 .| 8 * Z.of_nat k) = 8 * Z.of_nat k).
  { unfold dma_count. rewrite Z.land_lor_distr_l. change (0x80000000 .& 0x7fffffff) with 0. rewrite Z.lor_0_l.
    change 0x7fffffff with (2 ^ 31 - 1). rewrite land_wrapu by lia. apply wrapu_small. unfold uN. lia. }
  assert (Hdir : dma_to_mram (0x80000000 .| 8 * Z.of_nat k) = true).
  { unfold dma_to_mram. by rewrite Z.lor_spec. }
  assert (Hp1 : programmed k r' off' m1').
  { split; [split| |done].
    - by split.
    - exact Hn.
    - change (Cnt (m_dsp m1')) with (0x80000000 .| 8 * Z.of_nat k). apply uN_lor; unfold uN; lia.
    - exact Hra.
    - change (MMAddr (m_dsp m1')) with b. lia.
    - intros _. exact Hg.
    - change (MMAddr (m_dsp m1')) with b. lia. }
  exists m1. eexists. split; [exact E1|]. split; [exact (dma_from_aram_run k r' off' m1' Hp1 Hdir)|].
  intros data. lazymatch goal with |- context [transferred ?n ?x ?mem ?m1] =>
    destruct (transferred_done n x mem m1) as (_ & -> & _) end.
  change (m_memory m1') with (m_memory m). change (aram_mem (m_dsp m1')) with y. change (ARAddr (m_dsp m1')) with (ARAddr (m_dsp m)).
  rewrite (CopyFromEmu_spec b _ r' off') by (lia || by rewrite pointer_set_region).
  rewrite (CopyFromEmu_spec (MMAddr (m_dsp m)) _ r off) by (lia || done).
  destruct (pointer_sub _ _ r' off' _ 0 8 Hok Hg) as (_ & Hr' & _); [lia..|].
  rewrite bytes_set_region by done. replace (Z.to_nat (8 * Z.of_nat k)) with (8 * k)%nat by lia.
  set (l := aslice y (ARAddr (m_dsp m)) (8 * k)).
  assert (El : l = aslice (region_bytes r (m_memory m)) off (8 * k)).
  { unfold l, y. set (v := aslice (region_bytes r (m_memory m)) off (8 * k)).
    replace (8 * k)%nat with (length v) by apply length_aslice. apply aslice_aupd_list. }
  rewrite <- El. assert (Hl : length l = (8 * k)%nat) by apply length_aslice. rewrite <- Hl. apply aslice_aupd_list.
Qed.
End DMA.
