(* ===== verification/PPCCache.v ===== *)
(** The PowerPC's caches ([Core/PowerPC/PPCCache.h] and [.cpp]): eight ways in 128 sets,
    pseudo-least-recently-used replacement, write-back to physical memory.  The host's JIT
    cache, which [Invalidate] of the instruction cache also tells, is not modelled. *)
From stdpp Require Import base tactics option list gmap.
From Stdlib Require Import ZArith Lia Bool.
From S2P Require Import Prelude Memmap PowerPC.

#[local] Open Scope Z_scope.
Implicit Types (m : MemoryManager).

Abbreviation CACHE_SETS := 128 (only parsing).
Abbreviation CACHE_WAYS := 8 (only parsing).
Abbreviation CACHE_EXRAM_BIT := 0x10000000 (only parsing).
Abbreviation CACHE_VMEM_BIT := 0x20000000 (only parsing).

(** [GetFakeVMemMask()]: the size is fixed, there whether or not the memory is. *)
Definition m_fakevmem_mask : Z := 0x01FFFFFF.

(** * State

    The lines are bytes, as [memcpy] sees the words, by set and way.  The lookup tables
    have a [u8] for every line of their memory; 0xFF is a line that is not cached. *)
Record Cache : Type := mkCache {
  cdata : gmap (Z * Z) (list Z);
  addrs : gmap (Z * Z) Z;
  plru : arr;
  valid : arr;
  modified : arr;
  lookup_table : gmap Z Z;
  lookup_table_ex : gmap Z Z;
  lookup_table_vmem : gmap Z Z
}.
Implicit Types (c : Cache).

Definition c_data : field Cache (gmap (Z * Z) (list Z)) := Field cdata (fun v c => mkCache v (addrs c) (plru c) (valid c) (modified c) (lookup_table c) (lookup_table_ex c) (lookup_table_vmem c)).
Definition c_addrs : field Cache (gmap (Z * Z) Z) := Field addrs (fun v c => mkCache (cdata c) v (plru c) (valid c) (modified c) (lookup_table c) (lookup_table_ex c) (lookup_table_vmem c)).
Definition c_plru : field Cache arr := Field plru (fun v c => mkCache (cdata c) (addrs c) v (valid c) (modified c) (lookup_table c) (lookup_table_ex c) (lookup_table_vmem c)).
Definition c_valid : field Cache arr := Field valid (fun v c => mkCache (cdata c) (addrs c) (plru c) v (modified c) (lookup_table c) (lookup_table_ex c) (lookup_table_vmem c)).
Definition c_modified : field Cache arr := Field modified (fun v c => mkCache (cdata c) (addrs c) (plru c) (valid c) v (lookup_table c) (lookup_table_ex c) (lookup_table_vmem c)).
Definition c_lookup_table : field Cache (gmap Z Z) := Field lookup_table (fun v c => mkCache (cdata c) (addrs c) (plru c) (valid c) (modified c) v (lookup_table_ex c) (lookup_table_vmem c)).
Definition c_lookup_table_ex : field Cache (gmap Z Z) := Field lookup_table_ex (fun v c => mkCache (cdata c) (addrs c) (plru c) (valid c) (modified c) (lookup_table c) v (lookup_table_vmem c)).
Definition c_lookup_table_vmem : field Cache (gmap Z Z) := Field lookup_table_vmem (fun v c => mkCache (cdata c) (addrs c) (plru c) (valid c) (modified c) (lookup_table c) (lookup_table_ex c) v).

Definition line (set way : Z) c : list Z := default (repeat 0 32) (cdata c !! (set, way)).
Definition line_addr (set way : Z) c : Z := default 0 (addrs c !! (set, way)).
Definition table_entry (t : gmap Z Z) (i : Z) : Z := default 0xFF (t !! i).

(** A [u8] with a bit for every way. *)
Definition has_way (way ways : Z) : bool := Z.testbit ways way.
Definition with_way (way ways : Z) : Z := to_u8 (ways .| (1 .<< way)).
Definition without_way (way ways : Z) : Z := to_u8 (ways .& Z.lnot (1 .<< way)).

(** * Replacement *)

Definition s_plru_mask : list Z := [11; 11; 19; 19; 37; 37; 69; 69].
Definition s_plru_value : list Z := [11; 3; 17; 1; 36; 4; 64; 0].

(** [while ((m & (size_t{1} << w)) != 0) w++]: the first way that is free. *)
Definition s_way_from_valid (ways : Z) : Z :=
  default 8 (head (filter (fun w => has_way w ways = false) [0; 1; 2; 3; 4; 5; 6; 7])).

Definition s_way_from_plru (bits : Z) : Z :=
  let b i := Z.testbit bits i in
  if b 0 then if b 2 then if b 6 then 7 else 6 else if b 5 then 5 else 4
  else if b 1 then if b 4 then 3 else 2 else if b 3 then 1 else 0.

(** * The lookup tables *)

Definition lookup_way (addr : Z) m c : Z :=
  if negb ((addr .& CACHE_VMEM_BIT) =? 0) then table_entry (lookup_table_vmem c) ((addr .& m_fakevmem_mask) .>> 5)
  else if negb ((addr .& CACHE_EXRAM_BIT) =? 0) then table_entry (lookup_table_ex c) ((addr .& m_exram_mask m) .>> 5)
  else table_entry (lookup_table c) ((addr .& m_ram_mask m) .>> 5).

Definition set_lookup (addr way : Z) m c : Cache :=
  if negb ((addr .& CACHE_VMEM_BIT) =? 0) then
    fset c_lookup_table_vmem (<[(addr .& m_fakevmem_mask) .>> 5 := way]> (lookup_table_vmem c)) c
  else if negb ((addr .& CACHE_EXRAM_BIT) =? 0) then
    fset c_lookup_table_ex (<[(addr .& m_exram_mask m) .>> 5 := way]> (lookup_table_ex c)) c
  else fset c_lookup_table (<[(addr .& m_ram_mask m) .>> 5 := way]> (lookup_table c)) c.

(** * Operations *)

Definition Cache_Reset c : Cache :=
  {| cdata := cdata c; addrs := addrs c; plru := ∅; valid := ∅; modified := ∅;
     lookup_table := ∅; lookup_table_ex := ∅; lookup_table_vmem := ∅ |}.

Definition Cache_Init c : Cache := Cache_Reset (fset c_data ∅ (fset c_addrs ∅ c)).

Definition cache_block (addr : Z) : Z := addr .& to_u32 (Z.lnot 31).
Definition cache_set (addr : Z) : Z := (addr .>> 5) .& 0x7f.

(** [memory.CopyToEmu(addr, data[set][way].data(), 32)] *)
Definition write_back (addr set way : Z) c m : MemoryManager := CopyToEmu addr (line set way c) m.

(** The part of [GetCache] that loads a line: the way, evicting what is there. *)
Definition choose_way (set : Z) c : Z :=
  if negb (aat (valid c) set =? 0xff) then s_way_from_valid (aat (valid c) set) else s_way_from_plru (aat (plru c) set).

Definition evict (set way : Z) (s : Cache * MemoryManager) : Cache * MemoryManager :=
  let '(c, m) := s in
  if has_way way (aat (valid c) set) then
    let m := if has_way way (aat (modified c) set) then write_back (line_addr set way c) set way c m else m in
    (set_lookup (line_addr set way c) 0xff m c, m)
  else s.

Definition load_line (addr set way : Z) (s : Cache * MemoryManager) : Cache * MemoryManager :=
  let '(c, m) := s in
  let c := fset c_data (<[(set, way) := CopyFromEmu (line set way c) (cache_block addr) 32 m]> (cdata c)) c in
  let c := set_lookup addr way m c in
  let c := fset c_addrs (<[(set, way) := addr]> (addrs c)) c in
  let c := fset c_valid (aupd (valid c) set (with_way way (aat (valid c) set))) c in
  (fset c_modified (aupd (modified c) set (without_way way (aat (modified c) set))) c, m).

Definition used_way (way bits : Z) : Z :=
  (bits .& to_u8 (Z.lnot (nth (Z.to_nat way) s_plru_mask 0))) .| nth (Z.to_nat way) s_plru_value 0.
Definition update_plru (set way : Z) c : Cache :=
  if way =? 0xff then c else fset c_plru (aupd (plru c) set (used_way way (aat (plru c) set))) c.

Definition GetCache (addr : Z) (locked : bool) (s : Cache * MemoryManager) : (Z * Z) * (Cache * MemoryManager) :=
  let '(c, m) := s in
  let addr := cache_block addr in
  let set := cache_set addr in
  let way := lookup_way addr m c in
  let '(way, (c, m)) :=
    if negb locked && (way =? 0xff) then
      let way := choose_way set c in (way, load_line addr set way (evict set way (c, m)))
    else (way, (c, m)) in
  ((set, way), (update_plru set way c, m)).

(** Not valid any more. *)
Definition drop_line (set way : Z) m c : Cache :=
  let c := set_lookup (line_addr set way c) 0xff m c in
  let c := fset c_valid (aupd (valid c) set (without_way way (aat (valid c) set))) c in
  fset c_modified (aupd (modified c) set (without_way way (aat (modified c) set))) c.

Definition Cache_Store (addr : Z) (s : Cache * MemoryManager) : Cache * MemoryManager :=
  let '((set, way), (c, m)) := GetCache addr true s in
  if way =? 0xff then (c, m)
  else
    let m := if has_way way (aat (valid c) set) && has_way way (aat (modified c) set)
             then write_back (cache_block addr) set way c m else m in
    (fset c_modified (aupd (modified c) set (without_way way (aat (modified c) set))) c, m).

Definition flush_way (s : Cache * MemoryManager) (line : Z * Z) : Cache * MemoryManager :=
  let '(c, m) := s in
  let '(set, way) := line in
  (c, if has_way way (aat (valid c) set) && has_way way (aat (modified c) set)
      then write_back (line_addr set way c) set way c m else m).

(** The two loops over sets and ways. *)
Definition all_lines : list (Z * Z) :=
  flat_map (fun set => map (fun way => (Z.of_nat set, Z.of_nat way)) (seq 0 8)) (seq 0 128).

Definition FlushAll (s : Cache * MemoryManager) : Cache * MemoryManager :=
  let '(c, m) := foldl flush_way s all_lines in (Cache_Reset c, m).

Definition Cache_Invalidate (addr : Z) (s : Cache * MemoryManager) : Cache * MemoryManager :=
  let '((set, way), (c, m)) := GetCache addr true s in
  if way =? 0xff then (c, m)
  else if has_way way (aat (valid c) set) then (drop_line set way m c, m)
  else (c, m).

Definition Cache_Flush (addr : Z) (s : Cache * MemoryManager) : Cache * MemoryManager :=
  let '((set, way), (c, m)) := GetCache addr true s in
  if way =? 0xff then (c, m)
  else if has_way way (aat (valid c) set) then
    let m := if has_way way (aat (modified c) set) then write_back (cache_block addr) set way c m else m in
    (drop_line set way m c, m)
  else (c, m).

Definition Cache_Touch (addr : Z) (store : bool) (s : Cache * MemoryManager) : Cache * MemoryManager :=
  snd (GetCache addr false s).

Definition len_in_block (addr len : Z) : Z :=
  Z.min len (to_u32 ((to_u32 (addr + 32) .& to_u32 (Z.lnot 31)) - addr)).
Definition offset_in_block (addr : Z) : nat := Z.to_nat (addr - cache_block addr).

(** One turn of the loops of [Read] and [Write], on the part of the buffer in the block. *)
Definition read_block (addr : Z) (buffer : list Z) (locked : bool) (s : Cache * MemoryManager)
    : list Z * (Cache * MemoryManager) :=
  let '((set, way), (c, m)) := GetCache addr locked s in
  if negb (way =? 0xff) then (take (length buffer) (drop (offset_in_block addr) (line set way c)), (c, m))
  else (CopyFromEmu buffer addr (Z.of_nat (length buffer)) m, (c, m)).

Definition overwrite (off : nat) (value l : list Z) : list Z := take off l ++ value ++ drop (off + length value) l.

Definition write_block (addr : Z) (value : list Z) (locked : bool) (s : Cache * MemoryManager) : Cache * MemoryManager :=
  let '((set, way), (c, m)) := GetCache addr locked s in
  if negb (way =? 0xff) then
    let c := fset c_data (<[(set, way) := overwrite (offset_in_block addr) value (line set way c)]> (cdata c)) c in
    (fset c_modified (aupd (modified c) set (with_way way (aat (modified c) set))) c, m)
  else (c, CopyToEmu addr value m).

(** Every turn takes at least a byte, so as many turns as bytes are enough. *)
Fixpoint read_loop (fuel : nat) (addr : Z) (buffer : list Z) (locked : bool) (s : Cache * MemoryManager)
    : option (list Z * (Cache * MemoryManager)) :=
  match buffer, fuel with
  | [], _ => Some ([], s)
  | _, O => None
  | _, S fuel =>
      let n := len_in_block addr (Z.of_nat (length buffer)) in
      let '(bytes, s) := read_block addr (take (Z.to_nat n) buffer) locked s in
      '(rest, s) ← read_loop fuel (to_u32 (addr + n)) (drop (Z.to_nat n) buffer) locked s;
      Some (bytes ++ rest, s)
  end.

Fixpoint write_loop (fuel : nat) (addr : Z) (buffer : list Z) (locked : bool) (s : Cache * MemoryManager)
    : option (Cache * MemoryManager) :=
  match buffer, fuel with
  | [], _ => Some s
  | _, O => None
  | _, S fuel =>
      let n := len_in_block addr (Z.of_nat (length buffer)) in
      write_loop fuel (to_u32 (addr + n)) (drop (Z.to_nat n) buffer) locked (write_block addr (take (Z.to_nat n) buffer) locked s)
  end.

(** [buffer] as it was before. *)
Definition Cache_Read (addr : Z) (buffer : list Z) (locked : bool) (s : Cache * MemoryManager) :=
  read_loop (length buffer) addr buffer locked s.
Definition Cache_Write (addr : Z) (buffer : list Z) (locked : bool) (s : Cache * MemoryManager) :=
  write_loop (length buffer) addr buffer locked s.

(** * The instruction cache *)

Abbreviation SPR_HID0 := 1008 (only parsing).

Definition swap32 (x : Z) : Z := of_le_bytes (rev (le_bytes 4 x)).
Definition Read_U32 (address : Z) m : Z := swap32 (of_le_bytes (CopyFromEmu (le_bytes 4 0) address 4 m)).

(** [HID0.ICE] is bit 15 and [HID0.ILOCK] bit 13.  [value] is uninitialised: any word. *)
Definition ReadInstruction (m_disable_icache : bool) (value : Z) (p : PPCState) (addr : Z) (s : Cache * MemoryManager)
    : option (Z * (Cache * MemoryManager)) :=
  let hid0 := get_spr SPR_HID0 p in
  if negb (Z.testbit hid0 15) || m_disable_icache then Some (Read_U32 addr (snd s), s)
  else
    '(bytes, s) ← Cache_Read addr (le_bytes 4 value) (Z.testbit hid0 13) s;
    Some (swap32 (of_le_bytes bytes), s).

(** All ways of the set, whatever the address. *)
Definition ICache_Invalidate (addr : Z) (s : Cache * MemoryManager) : Cache * MemoryManager :=
  let '(c, m) := s in
  let set := (addr .>> 5) .& 0x7f in
  let c := foldl (fun c way => if has_way way (aat (valid c) set) then set_lookup (line_addr set way c) 0xff m c else c)
             c [0; 1; 2; 3; 4; 5; 6; 7] in
  (fset c_modified (aupd (modified c) set 0) (fset c_valid (aupd (valid c) set 0) c), m).
