(* ===== verification/PPCCacheBlocks.v ===== *)
(** The blocks a cache holds: which addresses are in memory a block at a time, the bytes of a
    block in memory, and the entry of the lookup tables that is a block's own. *)
From stdpp Require Import base tactics option list gmap.
From Stdlib Require Import ZArith Lia Bool.
From S2P Require Import Prelude Memmap PowerPC MemoryProps AramProps PPCCache.

#[local] Open Scope Z_scope.
Implicit Types (m : MemoryManager) (c : Cache) (b : Z).

(** * Geometry *)

(** The mask of the first memory covers it, as [Init] makes it. *)
Record cache_memory m : Prop := {
  cm_ok : memory_ok m;
  cm_ram_mask : exists k, 0 <= k <= 28 /\ m_ram_mask m = 2 ^ k - 1 /\ m_ram_size_real m <= 2 ^ k
}.

(** Blocks without the bit of the fake virtual memory, all of them in memory. *)
Record cacheable m b : Prop := {
  cb_aligned : b mod 32 = 0;
  cb_range : 0 <= b < 0x20000000;
  cb_pointer : GetPointerForRange b 32 m <> None
}.

Definition block_region b : region := if b <? 0x10000000 then RAM else EXRAM.
Definition block_offset b : Z := b .& 0x0fffffff.

Lemma block_offset_eq b : 0 <= b < 0x20000000 ->
  0 <= block_offset b < 0x10000000 /\
  b = block_offset b + match block_region b with RAM => 0 | EXRAM => 0x10000000 end.
Proof.
  intros Hb. unfold block_offset, block_region. change 0x0fffffff with (2 ^ 28 - 1). rewrite land_wrapu by lia.
  destruct (Z.ltb_spec b 0x10000000).
  - rewrite wrapu_small by (unfold uN; lia). lia.
  - rewrite (wrapu_unique 28 b (b - 0x10000000) 1) by (unfold uN; lia). lia.
Qed.

Lemma block_unique b1 b2 : 0 <= b1 < 0x20000000 -> 0 <= b2 < 0x20000000 ->
  block_region b1 = block_region b2 -> block_offset b1 = block_offset b2 -> b1 = b2.
Proof.
  intros H1 H2 Hr Ho. destruct (block_offset_eq b1 H1) as [_ E1], (block_offset_eq b2 H2) as [_ E2].
  rewrite Hr in E1. lia.
Qed.

(** A span starts where the masks of the lookup tables say. *)
Lemma span_block a r off len m : memory_ok m -> 0 <= a < 0x20000000 -> GetSpanForAddress a m = Some (r, off, len) ->
  r = block_region a /\ off = block_offset a /\ (r = EXRAM -> off = a .& m_exram_mask m) /\
  (r = RAM -> a < m_ram_size_real m).
Proof.
  intros Hm Ha. unfold GetSpanForAddress.
  assert (E : a .& 0x3fffffff = a) by (change 0x3fffffff with (2 ^ 30 - 1); rewrite land_wrapu by lia; apply wrapu_small; unfold uN; lia).
  rewrite !E. pose proof (mok_ram_size m Hm). destruct (block_offset_eq a Ha) as [Ho Eo]. unfold block_region in *.
  destruct (Z.ltb_spec a (m_ram_size_real m)) as [Hr|Hr].
  - intros [= <- <- <-]. rewrite (proj2 (Z.ltb_lt a 0x10000000)) in * by lia. repeat split; done || lia.
  - destruct (m_exram m); [|done]. destruct (Z.eqb_spec (a .>> 28) 1) as [Hhi|]; [|done].
    destruct (Z.ltb_spec (a .& 0x0fffffff) (m_exram_size_real m)) as [Hlt|]; [|done]. intros [= <- <- <-].
    fold (block_offset a) in Hlt. rewrite Z.shiftr_div_pow2 in Hhi by lia.
    rewrite (proj2 (Z.ltb_ge a 0x10000000)) in * by (Z.div_mod_to_equations; lia).
    destruct (mok_exram_mask m Hm) as (k & Hk & -> & Hs). repeat split; try done.
    rewrite land_wrapu by lia. apply wrapu_unique with (k := 2 ^ (28 - k)); [unfold uN; lia|].
    rewrite <- Z.pow_add_r by lia. replace (28 - k + k) with 28 by lia. lia.
Qed.

Section Block.
Context (m : MemoryManager) (b : Z) (Hm : cache_memory m) (Hb : cacheable m b).

Lemma cacheable_span : exists len, 32 <= len <= 0x10000000 /\
  GetSpanForAddress b m = Some (block_region b, block_offset b, len).
Proof.
  destruct Hb as [_ Hr Hp]. unfold GetPointerForRange in Hp.
  destruct (GetSpanForAddress b m) as [[[r off] len]|] eqn:E; [|done].
  destruct (span_block b r off len m (cm_ok m Hm) Hr E) as (-> & -> & _).
  destruct (span_ok _ _ _ _ _ (cm_ok m Hm) E) as (_ & Hl & _). exists len. split; [|done].
  rewrite (wrapu_small 64 len) in Hp by (unfold uN; lia). destruct (Z.ltb_spec len 32); [done | lia].
Qed.

Lemma block_present : region_present (block_region b) m.
Proof. destruct cacheable_span as (len & _ & E). by eapply span_present. Qed.

Lemma block_pointer i n : 0 <= i -> 0 < n -> i + n <= 32 ->
  GetPointerForRange (b + i) n m = Some (block_region b, block_offset b + i).
Proof.
  intros Hi Hn Hin. destruct cacheable_span as (len & Hl & E).
  destruct (span_ok _ _ _ _ _ (cm_ok m Hm) E) as (_ & _ & Hs). unfold GetPointerForRange. rewrite Hs by lia.
  rewrite (wrapu_small 64) by (unfold uN; lia). by rewrite (proj2 (Z.ltb_ge _ _)) by lia.
Qed.

Lemma block_offset_aligned : block_offset b mod 32 = 0.
Proof.
  destruct Hb as [Ha Hr _]. destruct (block_offset_eq b Hr) as [_ E]. rewrite E in Ha.
  destruct (block_region b); [by rewrite Z.add_0_r in Ha|]. change 0x10000000 with (0x800000 * 32) in Ha.
  by rewrite Z.mod_add in Ha.
Qed.

(** The masks of the two lookup tables leave the offset in the memory. *)
Lemma block_mask : b .& (match block_region b with RAM => m_ram_mask m | EXRAM => m_exram_mask m end) = block_offset b.
Proof.
  destruct cacheable_span as (len & Hl & E). pose proof (cb_range _ _ Hb) as Hr.
  destruct (span_block b _ _ _ m (cm_ok m Hm) Hr E) as (_ & _ & He & Ha).
  destruct (block_offset_eq b Hr) as [_ Eb]. destruct (block_region b); [|by rewrite <- He].
  destruct (cm_ram_mask m Hm) as (k & Hk & -> & Hs). specialize (Ha eq_refl). rewrite land_wrapu by lia.
  rewrite wrapu_small by (unfold uN; lia). lia.
Qed.
End Block.

(** * Bytes of a block in memory *)

Definition memory_block m b : list Z := aslice (region_bytes (block_region b) m) (block_offset b) 32.

Lemma take_aslice a i n k : (k <= n)%nat -> take k (aslice a i n) = aslice a i k.
Proof.
  revert i n. induction k as [|k IH]; intros i n Hk; [done|]. destruct n as [|n]; [lia|]. cbn [aslice take firstn].
  f_equal. apply IH. lia.
Qed.

Lemma drop_aslice a i n k : (k <= n)%nat -> drop k (aslice a i n) = aslice a (i + Z.of_nat k) (n - k).
Proof.
  revert i n. induction k as [|k IH]; intros i n Hk; [by rewrite Z.add_0_r, Nat.sub_0_r|].
  destruct n as [|n]; [lia|]. cbn [aslice drop skipn]. rewrite IH by lia. f_equal; lia.
Qed.

Lemma length_memory_block m b : length (memory_block m b) = 32%nat.
Proof. apply length_aslice. Qed.

Lemma CopyFromEmu_block m b l i : cache_memory m -> cacheable m b -> l <> [] -> (i + length l <= 32)%nat ->
  CopyFromEmu l (b + Z.of_nat i) (Z.of_nat (length l)) m = take (length l) (drop i (memory_block m b)).
Proof.
  intros Hm Hb Hl Hi. assert (length l <> 0)%nat by (by destruct l).
  rewrite (CopyFromEmu_spec _ _ (block_region b) (block_offset b + Z.of_nat i)); [|lia | apply block_pointer; done || lia].
  unfold memory_block. rewrite drop_aslice, take_aslice by lia. by rewrite Nat2Z.id.
Qed.

Lemma length_overwrite off value l : (off + length value <= length l)%nat -> length (overwrite off value l) = length l.
Proof. intros H. unfold overwrite. rewrite !length_app, length_take, length_drop. lia. Qed.

Lemma overwrite_all value l : length value = length l -> overwrite 0 value l = value.
Proof. intros H. unfold overwrite. cbn [take firstn app Nat.add]. rewrite H, drop_all. apply app_nil_r. Qed.

Lemma aslice_overwrite a i n value off : (off + length value <= n)%nat ->
  aslice (aupd_list a (i + Z.of_nat off) value) i n = overwrite off value (aslice a i n).
Proof.
  intros H. unfold overwrite. rewrite take_aslice, drop_aslice by lia.
  replace n with (off + (length value + (n - (off + length value))))%nat at 1 by lia. rewrite !aslice_app. f_equal; [|f_equal].
  - apply aslice_ext. intros j Hj. rewrite aat_aupd_list, (proj2 (Z.leb_gt _ _)) by lia. done.
  - apply aslice_aupd_list.
  - replace (i + Z.of_nat off + Z.of_nat (length value)) with (i + Z.of_nat (off + length value)) by lia.
    apply aslice_ext. intros j Hj. rewrite aat_aupd_list, (proj2 (Z.ltb_ge j _)) by lia. by rewrite andb_false_r.
Qed.

(** A write inside a block changes that block, and no other. *)
Lemma CopyToEmu_block m b b' value i : cache_memory m -> cacheable m b -> cacheable m b' -> (i + length value <= 32)%nat ->
  memory_block (CopyToEmu (b + Z.of_nat i) value m) b' =
  if decide (b' = b) then overwrite i value (memory_block m b) else memory_block m b'.
Proof.
  intros Hm Hb Hb' Hi. destruct (decide (value = [])) as [->|Hv].
  { unfold CopyToEmu. cbn [length Nat.eqb]. case_decide; [|done]. subst b'. unfold overwrite.
    by rewrite app_nil_l, Nat.add_0_r, take_drop. }
  assert (length value <> 0)%nat by (by destruct value).
  rewrite (CopyToEmu_spec _ (block_region b) (block_offset b + Z.of_nat i)); [|done | apply block_pointer; done || lia].
  unfold memory_block. case_decide as E.
  - subst b'. rewrite bytes_set_region by (by apply block_present). by apply aslice_overwrite.
  - destruct (decide (block_region b' = block_region b)) as [Er|Er].
    + rewrite Er, bytes_set_region by (by apply block_present). apply aslice_ext. intros j Hj. rewrite aat_aupd_list.
      assert (block_offset b' <> block_offset b)
        by (intros Eo; apply E; apply block_unique; try done; [apply Hb' | apply Hb]).
      pose proof (block_offset_aligned m b Hb). pose proof (block_offset_aligned m b' Hb').
      destruct (Z.leb_spec (block_offset b + Z.of_nat i) j), (Z.ltb_spec j (block_offset b + Z.of_nat i + Z.of_nat (length value)));
        cbn [andb]; try done. exfalso. Z.div_mod_to_equations. lia.
    + destruct (block_region b), (block_region b'); by try (cbn; destruct (m_exram m)).
Qed.

(** ** What a write to memory leaves *)

(** Everything of a memory but its bytes. *)
Record same_layout m1 m2 : Prop := {
  sl_span : forall a, GetSpanForAddress a m2 = GetSpanForAddress a m1;
  sl_ram_mask : m_ram_mask m2 = m_ram_mask m1;
  sl_exram_mask : m_exram_mask m2 = m_exram_mask m1
}.

#[export] Instance same_layout_preorder : PreOrder same_layout.
Proof.
  split; [by intros m; split|]. intros m1 m2 m3 [H1 E1 F1] [H2 E2 F2].
  split; [intros a; by rewrite H2 | by rewrite E2 | by rewrite F2].
Qed.

Lemma same_layout_cacheable m1 m2 b : same_layout m1 m2 -> cacheable m2 b <-> cacheable m1 b.
Proof.
  intros [Hs _ _]. assert (E : GetPointerForRange b 32 m2 = GetPointerForRange b 32 m1) by (unfold GetPointerForRange; by rewrite Hs).
  split; intros [Ha Hr Hp]; split; try done; congruence.
Qed.

Lemma CopyToEmu_layout m a value : same_layout m (CopyToEmu a value m).
Proof.
  unfold CopyToEmu. case_match; [by split|]. case_match; [|by split]. case_match.
  split; [intros; apply span_set_region | |]; by destruct r.
Qed.

Lemma CopyToEmu_cache_memory m a value : Forall u8 value -> cache_memory m -> cache_memory (CopyToEmu a value m).
Proof.
  intros Hv [Ho Hk]. unfold CopyToEmu. case_match; [by split|]. case_match; [|by split]. case_match. split.
  - apply memory_ok_set_region; [done|]. apply arr_ok_aupd_list; [by apply region_bytes_ok | done].
  - by destruct r.
Qed.

(** * The lookup tables *)

Definition region_table (r : region) c : gmap Z Z := match r with RAM => lookup_table c | EXRAM => lookup_table_ex c end.

Lemma block_bits b : 0 <= b < 0x20000000 ->
  (b .& 0x20000000 =? 0) = true /\ (b .& 0x10000000 =? 0) = match block_region b with RAM => true | EXRAM => false end.
Proof.
  intros Hb.
  assert (E : forall k, 0 <= k -> (b .& 2 ^ k =? 0) = negb (Z.testbit b k)).
  { intros k Hk. destruct (Z.testbit b k) eqn:T.
    - apply Z.eqb_neq. intros E. assert (Z.testbit (b .& 2 ^ k) k = false) by (by rewrite E, Z.bits_0).
      rewrite Z.land_spec, T, Z.pow2_bits_true in H by done. done.
    - apply Z.eqb_eq, Z.bits_inj'. intros i Hi. rewrite Z.land_spec, Z.bits_0, Z.pow2_bits_eqb by done.
      destruct (Z.eqb_spec k i); [subst; by rewrite T | apply andb_false_r]. }
  change 0x20000000 with (2 ^ 29). change 0x10000000 with (2 ^ 28). rewrite (E 29), (E 28), !Z.testbit_odd, !Z.shiftr_div_pow2 by lia. unfold block_region. split.
  - by rewrite Z.div_small by lia.
  - destruct (Z.ltb_spec b 0x10000000); [by rewrite Z.div_small by lia|].
    replace (b / 2 ^ 28) with 1 by (Z.div_mod_to_equations; lia). done.
Qed.

Lemma lookup_way_table m c b : cache_memory m -> cacheable m b ->
  lookup_way b m c = table_entry (region_table (block_region b) c) (block_offset b .>> 5).
Proof.
  intros Hm Hb. destruct (block_bits b (cb_range _ _ Hb)) as [E1 E2]. pose proof (block_mask m b Hm Hb) as E.
  unfold lookup_way. rewrite E1, E2. cbn [negb]. destruct (block_region b); cbn; by rewrite E.
Qed.

(** The entries of different blocks are different. *)
Lemma lookup_set_lookup m c b b' way : cache_memory m -> cacheable m b -> cacheable m b' ->
  lookup_way b' m (set_lookup b way m c) = if decide (b' = b) then way else lookup_way b' m c.
Proof.
  intros Hm Hb Hb'. rewrite !lookup_way_table by done. destruct (block_bits b (cb_range _ _ Hb)) as [E1 E2].
  pose proof (block_mask m b Hm Hb) as E. unfold set_lookup. rewrite E1, E2. cbn [negb].
  assert (Hi : block_offset b' .>> 5 = block_offset b .>> 5 -> block_offset b' = block_offset b).
  { rewrite !Z.shiftr_div_pow2 by lia. pose proof (block_offset_aligned m b Hb). pose proof (block_offset_aligned m b' Hb').
    Z.div_mod_to_equations. lia. }
  assert (Hn : block_region b' = block_region b -> b' <> b -> block_offset b .>> 5 <> block_offset b' .>> 5).
  { intros Er Hne Eo. apply Hne, block_unique; [apply Hb' | apply Hb | done | by apply Hi]. }
  unfold table_entry. case_decide as Eb.
  - subst b'. destruct (block_region b); cbn; by rewrite E, lookup_insert_eq.
  - destruct (block_region b) eqn:Er, (block_region b') eqn:Er'; cbn; try done; rewrite E, lookup_insert_ne; auto.
Qed.

Lemma lookup_way_layout m1 m2 c b : same_layout m1 m2 -> lookup_way b m2 c = lookup_way b m1 c.
Proof. intros [_ H1 H2]. unfold lookup_way. by rewrite H1, H2. Qed.
