(* ===== verification/PPCCacheProps.v ===== *)
(** The data cache is transparent: through any sequence of its operations, reads and writes
    act on one memory, whatever of it is in lines, and writing back puts it in memory.  First
    what holds of the lines, then what each operation does to the memory behind and in them. *)
From stdpp Require Import base tactics option list gmap.
From Stdlib Require Import ZArith Lia Bool.
From S2P Require Import Prelude Memmap PowerPC MemoryProps AramProps PPCCache PPCCacheBlocks.

#[local] Open Scope Z_scope.
Implicit Types (m : MemoryManager) (c : Cache) (b : Z).

(** * Ways *)

Lemma has_with_way w w' v : 0 <= w < 8 -> 0 <= w' < 8 ->
  has_way w (with_way w' v) = (w =? w') || has_way w v.
Proof.
  intros Hw Hw'. unfold has_way, with_way, wrapu. rewrite Z.mod_pow2_bits_low, Z.lor_spec, Z.shiftl_1_l by lia.
  rewrite Z.pow2_bits_eqb by lia. rewrite (Z.eqb_sym w'). apply orb_comm.
Qed.

Lemma has_without_way w w' v : 0 <= w < 8 -> 0 <= w' < 8 ->
  has_way w (without_way w' v) = negb (w =? w') && has_way w v.
Proof.
  intros Hw Hw'. unfold has_way, without_way, wrapu. rewrite Z.mod_pow2_bits_low, Z.land_spec, Z.lnot_spec by lia.
  rewrite Z.shiftl_1_l, Z.pow2_bits_eqb by lia. rewrite (Z.eqb_sym w'). apply andb_comm.
Qed.

Lemma ways_ext v1 v2 : u8 v1 -> u8 v2 -> (forall w, 0 <= w < 8 -> has_way w v1 = has_way w v2) -> v1 = v2.
Proof.
  intros H1 H2 H. apply Z.bits_inj'. intros i Hi. destruct (Z.ltb_spec i 8); [by apply H|].
  rewrite (proj1 (uN_bits 8 v1 ltac:(lia) ltac:(unfold uN in *; lia)) H1 i) by done.
  by rewrite (proj1 (uN_bits 8 v2 ltac:(lia) ltac:(unfold uN in *; lia)) H2 i).
Qed.

Lemma with_way_u8 w v : u8 (with_way w v).
Proof. apply wrapu_range. lia. Qed.
Lemma without_way_u8 w v : u8 (without_way w v).
Proof. apply wrapu_range. lia. Qed.

Lemma with_without_way w v : 0 <= w < 8 -> with_way w (without_way w v) = with_way w v.
Proof.
  intros Hw. apply ways_ext; [apply with_way_u8 .. |]. intros w' Hw'. rewrite !has_with_way, has_without_way by done.
  by destruct (w' =? w).
Qed.

Lemma without_without_way w v : 0 <= w < 8 -> without_way w (without_way w v) = without_way w v.
Proof.
  intros Hw. apply ways_ext; [apply without_way_u8 .. |]. intros w' Hw'. rewrite !has_without_way by done.
  by destruct (w' =? w).
Qed.

(** A set with a free way gives one; a set without replaces one of its eight. *)
Lemma s_way_from_valid_free v : u8 v -> v <> 0xff ->
  0 <= s_way_from_valid v < 8 /\ has_way (s_way_from_valid v) v = false.
Proof.
  intros Hv Hn.
  assert (Hall : forallb (fun n => let v := Z.of_nat n in
      (0 <=? s_way_from_valid v) && (s_way_from_valid v <? 8) && negb (has_way (s_way_from_valid v) v)) (seq 0 255) = true)
    by (vm_compute; reflexivity).
  rewrite forallb_forall in Hall. specialize (Hall (Z.to_nat v)). cbv zeta in Hall.
  rewrite Z2Nat.id, !andb_true_iff, negb_true_iff, Z.leb_le, Z.ltb_lt in Hall by (unfold uN in Hv; lia).
  destruct Hall as [[]]; [apply in_seq; unfold uN in Hv; lia | done].
Qed.

Lemma s_way_from_plru_range bits : 0 <= s_way_from_plru bits < 8.
Proof. unfold s_way_from_plru. repeat case_match; lia. Qed.

Lemma choose_way_range set c : arr_ok u8 (valid c) -> 0 <= choose_way set c < 8.
Proof.
  intros Hv. unfold choose_way. destruct (Z.eqb_spec (aat (valid c) set) 0xff); cbn [negb].
  - apply s_way_from_plru_range.
  - by apply s_way_from_valid_free.
Qed.

(** * Addresses *)

Lemma cache_block_eq a : u32 a -> cache_block a = a - a mod 32.
Proof.
  intros Ha. unfold cache_block. change (to_u32 (Z.lnot 31)) with (Z.ldiff (Z.ones 32) (Z.ones 5)).
  assert (E : a .& Z.ldiff (Z.ones 32) (Z.ones 5) = Z.ldiff (a .& Z.ones 32) (Z.ones 5)).
  { apply Z.bits_inj'. intros i Hi. rewrite !Z.land_spec, !Z.ldiff_spec, Z.land_spec. apply andb_assoc. }
  rewrite E, Z.land_ones, Z.ldiff_ones_r, (Z.mod_small a) by (lia || exact Ha).
  rewrite Z.shiftl_mul_pow2, Z.shiftr_div_pow2 by lia. change (2 ^ 5) with 32. Z.div_mod_to_equations. lia.
Qed.

Lemma cache_block_spec a : u32 a -> cache_block a mod 32 = 0 /\ cache_block a <= a < cache_block a + 32.
Proof. intros Ha. rewrite cache_block_eq by done. Z.div_mod_to_equations. lia. Qed.

Lemma cache_block_block b : 0 <= b < 0x20000000 -> b mod 32 = 0 -> cache_block b = b.
Proof. intros Hr Ha. rewrite cache_block_eq by (unfold uN; lia). lia. Qed.

Lemma cache_set_range a : 0 <= cache_set a < 128.
Proof. unfold cache_set. pose proof (land_bound (a .>> 5) 0x7f ltac:(lia)). lia. Qed.

(** * The invariant

    [m0] is a memory with the layout of the one behind the cache. *)

Record cache_ok m0 c m : Prop := {
  co_layout : same_layout m0 m;
  co_memory : cache_memory m;
  co_valid : arr_ok u8 (valid c);
  co_line : forall set way, length (line set way c) = 32%nat /\ Forall u8 (line set way c);
  co_entry : forall b, cacheable m0 b -> lookup_way b m0 c <> 0xff ->
    0 <= lookup_way b m0 c < 8 /\ has_way (lookup_way b m0 c) (aat (valid c) (cache_set b)) = true /\
    line_addr (cache_set b) (lookup_way b m0 c) c = b;
  co_way : forall set way, 0 <= set < 128 -> 0 <= way < 8 -> has_way way (aat (valid c) set) = true ->
    cacheable m0 (line_addr set way c) /\ cache_set (line_addr set way c) = set /\
    lookup_way (line_addr set way c) m0 c = way;
  co_clean : forall set way, 0 <= set < 128 -> 0 <= way < 8 -> has_way way (aat (valid c) set) = true ->
    has_way way (aat (modified c) set) = false -> line set way c = memory_block m (line_addr set way c)
}.

(** The bytes of a block: in its line if it has one. *)
Definition block_view m0 b (s : Cache * MemoryManager) : list Z :=
  let way := lookup_way b m0 (fst s) in
  if way =? 0xff then memory_block (snd s) b else line (cache_set b) way (fst s).

Definition block_contents := Z -> list Z.
Definition put_block b (l : list Z) (v : block_contents) : block_contents := fun b' => if decide (b' = b) then l else v b'.

(** Behind and in the cache is the memory [v]. *)
Record holds m0 (v : block_contents) (s : Cache * MemoryManager) : Prop := {
  h_ok : cache_ok m0 (fst s) (snd s);
  h_view : forall b, cacheable m0 b -> block_view m0 b s = v b
}.

Lemma holds_ext m0 v v' s : (forall b, cacheable m0 b -> v b = v' b) -> holds m0 v s -> holds m0 v' s.
Proof. intros H [Ho Hv]. split; [done|]. intros b Hb. rewrite <- H by done. by apply Hv. Qed.

Lemma cache_ok_cacheable m0 c m b : cache_ok m0 c m -> cacheable m0 b -> cacheable m b.
Proof. intros H. apply (same_layout_cacheable m0 m b (co_layout _ _ _ H)). Qed.

Lemma cache_ok_lookup m0 c m c' b : cache_ok m0 c m -> lookup_way b m c' = lookup_way b m0 c'.
Proof. intros H. apply lookup_way_layout, (co_layout _ _ _ H). Qed.

Lemma set_lookup_layout m0 m b way c : same_layout m0 m -> set_lookup b way m c = set_lookup b way m0 c.
Proof. intros [_ H1 H2]. unfold set_lookup. by rewrite H1, H2. Qed.

(** The tables of a changed cache. *)
Lemma layout_set_lookup m0 c m b b' way : same_layout m0 m -> cache_memory m -> cacheable m0 b -> cacheable m0 b' ->
  lookup_way b' m0 (set_lookup b way m c) = if decide (b' = b) then way else lookup_way b' m0 c.
Proof.
  intros Hl Hm Hb Hb'. rewrite <- !(lookup_way_layout m0 m) by done.
  apply lookup_set_lookup; [done | by apply (same_layout_cacheable m0 m) ..].
Qed.

(** [set_lookup] is of the tables only. *)
Lemma set_lookup_fields b way m c :
  cdata (set_lookup b way m c) = cdata c /\ addrs (set_lookup b way m c) = addrs c /\
  plru (set_lookup b way m c) = plru c /\ valid (set_lookup b way m c) = valid c /\
  modified (set_lookup b way m c) = modified c.
Proof. unfold set_lookup. by repeat case_match. Qed.

(** * Steps *)

Section Steps.
Context (m0 : MemoryManager).

(** What is in a line is not in another. *)
Lemma cached_unique c m b b' : cache_ok m0 c m -> cacheable m0 b -> cacheable m0 b' ->
  lookup_way b m0 c <> 0xff -> lookup_way b' m0 c <> 0xff ->
  cache_set b = cache_set b' -> lookup_way b m0 c = lookup_way b' m0 c -> b = b'.
Proof.
  intros H Hb Hb' Hl Hl' Es Ew. destruct (co_entry _ _ _ H b Hb Hl) as (_ & _ & <-).
  destruct (co_entry _ _ _ H b' Hb' Hl') as (_ & _ & <-). by rewrite Es, Ew.
Qed.

(** Only the lines, the tags, the valid bits and the tables matter to the view. *)
Lemma holds_plru v c m set way : holds m0 v (c, m) -> holds m0 v (update_plru set way c, m).
Proof. intros [[] Hv]. unfold update_plru. case_match; by split. Qed.

Section Line.
Context (v : block_contents) (c : Cache) (m : MemoryManager) (set way : Z).
Context (H : holds m0 v (c, m)) (Hs : 0 <= set < 128) (Hw : 0 <= way < 8).
Let a := line_addr set way c.

(** The block in a valid line. *)
Lemma valid_line : has_way way (aat (valid c) set) = true ->
  cacheable m0 a /\ cache_set a = set /\ lookup_way a m0 c = way /\ line set way c = v a.
Proof.
  intros Hv. destruct (co_way _ _ _ (h_ok _ _ _ H) set way Hs Hw Hv) as (Ha & Es & El). cbn [fst snd] in *. fold a in Ha, Es, El.
  split; [done|]. split; [done|]. split; [done|].
  rewrite <- (h_view _ _ _ H) by done. unfold block_view. cbn [fst snd]. rewrite El, Es.
  by rewrite (proj2 (Z.eqb_neq way 0xff)) by lia.
Qed.

Lemma holds_write_back : has_way way (aat (valid c) set) = true ->
  holds m0 v (c, write_back a set way c m) /\ memory_block (write_back a set way c m) a = v a /\
  (forall b, cacheable m0 b -> b <> a -> memory_block (write_back a set way c m) b = memory_block m b).
Proof.
  intros Hv. destruct (valid_line Hv) as (Ha & Es & El & Ev). destruct H as [Hok Hview]. cbn [fst snd] in *.
  destruct (co_line _ _ _ Hok set way) as [Hlen Hu8].
  assert (Hm : forall b, cacheable m0 b ->
      memory_block (write_back a set way c m) b = if decide (b = a) then v a else memory_block m b).
  { intros b Hb. unfold write_back. rewrite <- (Z.add_0_r a). change 0 with (Z.of_nat 0).
    rewrite CopyToEmu_block; [|apply Hok | by eapply cache_ok_cacheable .. | by rewrite Hlen].
    rewrite Z.add_0_r. case_decide; [|done]. rewrite overwrite_all, Ev; [done|].
    by rewrite Hlen, length_memory_block. }
  split; [split; cbn [fst snd]|split].
  - destruct Hok. split; try done.
    + etrans; [done | apply CopyToEmu_layout].
    + by apply CopyToEmu_cache_memory.
    + intros s w Hs' Hw' Hv' Hd. destruct (co_way0 s w Hs' Hw' Hv') as (Ha' & _). rewrite Hm by done.
      case_decide as E; [|by apply co_clean0].
      destruct (co_way0 s w Hs' Hw' Hv') as (_ & Es' & El'). rewrite E in Es', El'.
      by rewrite <- Es', <- El', Es, El, Ev.
  - intros b Hb. rewrite <- Hview by done. unfold block_view. cbn [fst snd]. rewrite Hm by done.
    case_match; [|done]. case_decide as E; [|done]. subst b. rewrite El in *. lia.
  - rewrite Hm by done. by rewrite decide_True.
  - intros b Hb Hne. rewrite Hm by done. by rewrite decide_False.
Qed.

(** A line that is as memory is need not be modified. *)
Lemma holds_clean : has_way way (aat (valid c) set) = true -> memory_block m a = v a ->
  holds m0 v (fset c_modified (aupd (modified c) set (without_way way (aat (modified c) set))) c, m).
Proof.
  intros Hv Hmem. destruct (valid_line Hv) as (Ha & Es & El & Ev). destruct H as [Hok Hview]. cbn [fst snd] in *.
  split; cbn [fst snd]; [|done]. destruct Hok. split; try done. cbn. intros s w Hs' Hw' Hv'.
  rewrite aat_aupd. destruct (Z.eqb_spec set s) as [<-|]; [|by apply co_clean0].
  rewrite has_without_way by done. destruct (Z.eqb_spec w way) as [->|]; cbn; [|by apply co_clean0].
  intros _. etrans; [exact Ev|]. by symmetry.
Qed.

(** Dropping a line leaves what memory has. *)
Lemma holds_drop : has_way way (aat (valid c) set) = true ->
  holds m0 (put_block a (memory_block m a) v) (drop_line set way m c, m).
Proof.
  intros Hv. destruct (valid_line Hv) as (Ha & Es & El & Ev). destruct H as [Hok Hview]. cbn [fst snd] in *.
  unfold drop_line. fold a. set (c1 := set_lookup a 0xff m c).
  destruct (set_lookup_fields a 0xff m c) as (Fd & Fa & Fp & Fv & Fm). fold c1 in Fd, Fa, Fp, Fv, Fm.
  assert (Hl : forall b, cacheable m0 b -> lookup_way b m0 c1 = if decide (b = a) then 0xff else lookup_way b m0 c).
  { intros b Hb. apply layout_set_lookup; [apply Hok | apply Hok | done ..]. }
  assert (Hli : forall s w, line s w c1 = line s w c) by (intros; unfold line; by rewrite Fd).
  assert (Hla : forall s w, line_addr s w c1 = line_addr s w c) by (intros; unfold line_addr; by rewrite Fa).
  assert (Hval : forall s w, 0 <= s < 128 -> 0 <= w < 8 ->
      has_way w (aat (aupd (valid c1) set (without_way way (aat (valid c1) set))) s) = true ->
      has_way w (aat (valid c) s) = true /\ (s = set -> w <> way)).
  { intros s w Hs' Hw'. rewrite Fv, aat_aupd. destruct (Z.eqb_spec set s) as [<-|]; [|done].
    rewrite has_without_way by done. destruct (Z.eqb_spec w way); by cbn. }
  split; cbn [fst snd].
  - destruct Hok. split; try done.
    + cbn. apply arr_ok_aupd; [by rewrite Fv | apply without_way_u8].
    + intros s w. change (line s w _) with (line s w c1). rewrite Hli. apply co_line0.
    + intros b Hb. change (lookup_way b m0 _) with (lookup_way b m0 c1). rewrite Hl by done.
      case_decide as E; [done|]. intros Hn. destruct (co_entry0 b Hb Hn) as (Hr & Hb' & Hlb).
      split; [done|]. cbn. change (line_addr ?s ?w _) with (line_addr s w c1). rewrite Hla. split; [|done].
      rewrite Fv, aat_aupd. destruct (Z.eqb_spec set (cache_set b)) as [Eset|]; [|done].
      rewrite has_without_way by done. rewrite Eset, Hb', andb_true_r. apply negb_true_iff, Z.eqb_neq.
      intros Ew. apply E. rewrite <- Hlb, Ew, <- Eset. done.
    + intros s w Hs' Hw' Hv'. destruct (Hval s w Hs' Hw' Hv') as [Hv'' Hne].
      destruct (co_way0 s w Hs' Hw' Hv'') as (Ha' & Es' & Ew'). change (line_addr s w _) with (line_addr s w c1).
      rewrite Hla. split; [done|]. split; [done|]. change (lookup_way ?x m0 _) with (lookup_way x m0 c1).
      rewrite Hl by done. case_decide as E; [|done]. exfalso. apply Hne; [by rewrite <- Es', E | by rewrite <- Ew', E].
    + intros s w Hs' Hw' Hv' Hd'. destruct (Hval s w Hs' Hw' Hv') as [Hv'' Hne].
      change (line s w _) with (line s w c1). change (line_addr s w _) with (line_addr s w c1). rewrite Hli, Hla.
      apply co_clean0; [done .. |]. cbn in Hd'. rewrite Fm, aat_aupd in Hd'.
      destruct (Z.eqb_spec set s) as [<-|]; [|done]. rewrite has_without_way in Hd' by done.
      rewrite (proj2 (Z.eqb_neq w way)) in Hd' by (by apply Hne). done.
  - intros b Hb. unfold block_view, put_block. cbn [fst snd]. change (lookup_way b m0 _) with (lookup_way b m0 c1).
    change (line ?s ?w _) with (line s w c1). rewrite Hl, Hli by done. rewrite <- (Hview b) by done.
    case_decide as E; [by subst b | done].
Qed.
End Line.

(** ** Loading *)

Section Load.
Context (v : block_contents) (c : Cache) (m : MemoryManager) (b way : Z).
Context (H : holds m0 v (c, m)) (Hb : cacheable m0 b) (Hw : 0 <= way < 8).
Let set := cache_set b.
Let Hok : cache_ok m0 c m := h_ok _ _ _ H.
Let c' := fst (load_line b set way (c, m)).

Lemma load_memory : load_line b set way (c, m) = (c', m).
Proof. done. Qed.

Lemma load_bytes : CopyFromEmu (line set way c) (cache_block b) 32 m = memory_block m b.
Proof.
  destruct (co_line _ _ _ Hok set way) as [Hlen _]. rewrite cache_block_block by apply Hb.
  rewrite <- (Z.add_0_r b) at 1. change 0 with (Z.of_nat 0). change 32 with (Z.of_nat 32). rewrite <- Hlen.
  rewrite CopyFromEmu_block; [|apply Hok | by eapply cache_ok_cacheable | by destruct (line set way c) | by rewrite Hlen].
  apply take_ge. by rewrite Hlen, length_memory_block.
Qed.

Lemma load_lookup a : cacheable m0 a -> lookup_way a m0 c' = if decide (a = b) then way else lookup_way a m0 c.
Proof.
  intros Ha. exact (layout_set_lookup m0 (fset c_data _ c) m b a way (co_layout _ _ _ Hok) (co_memory _ _ _ Hok) Hb Ha).
Qed.

Lemma load_line_at s w : line s w c' = if decide ((s, w) = (set, way)) then memory_block m b else line s w c.
Proof.
  unfold line, c', load_line. cbn -[CopyFromEmu]. rewrite (proj1 (set_lookup_fields _ _ _ _)). cbn -[CopyFromEmu]. rewrite load_bytes.
  case_decide as E; [by rewrite E, lookup_insert_eq | by rewrite lookup_insert_ne].
Qed.

Lemma load_addr_at s w : line_addr s w c' = if decide ((s, w) = (set, way)) then b else line_addr s w c.
Proof.
  unfold line_addr, c', load_line. cbn. rewrite (proj1 (proj2 (set_lookup_fields _ _ _ _))). cbn.
  case_decide as E; [by rewrite E, lookup_insert_eq | by rewrite lookup_insert_ne].
Qed.

Lemma load_valid_at s w : 0 <= w < 8 ->
  has_way w (aat (valid c') s) = bool_decide ((s, w) = (set, way)) || has_way w (aat (valid c) s).
Proof.
  intros Hw'. unfold c', load_line. cbn. rewrite (proj1 (proj2 (proj2 (proj2 (set_lookup_fields _ _ _ _))))). cbn.
  rewrite aat_aupd. destruct (Z.eqb_spec set s) as [<-|Hne].
  - rewrite has_with_way by done. f_equal. destruct (Z.eqb_spec w way) as [->|].
    + by rewrite bool_decide_eq_true_2.
    + by rewrite bool_decide_eq_false_2 by (by intros [= ->]).
  - by rewrite bool_decide_eq_false_2 by (by intros [= ->]).
Qed.

Lemma load_modified_at s w : 0 <= w < 8 -> (s, w) <> (set, way) ->
  has_way w (aat (modified c') s) = has_way w (aat (modified c) s).
Proof.
  intros Hw' E. unfold c', load_line. cbn. rewrite !(proj2 (proj2 (proj2 (proj2 (set_lookup_fields _ _ _ _))))). cbn.
  rewrite aat_aupd. destruct (Z.eqb_spec set s) as [<-|]; [|done]. rewrite has_without_way by done.
  by rewrite (proj2 (Z.eqb_neq w way)) by (by intros ->).
Qed.

Lemma load_valid_u8 : arr_ok u8 (valid c').
Proof.
  unfold c', load_line. cbn. rewrite (proj1 (proj2 (proj2 (proj2 (set_lookup_fields _ _ _ _))))).
  apply arr_ok_aupd; [apply Hok | apply with_way_u8].
Qed.

Context (Hfree : has_way way (aat (valid c) set) = false) (Hout : lookup_way b m0 c = 0xff).

(** What is cached is not where the block goes. *)
Lemma load_elsewhere a : cacheable m0 a -> lookup_way a m0 c <> 0xff -> (cache_set a, lookup_way a m0 c) <> (set, way).
Proof.
  intros Ha Hn [= Es Ew]. destruct (co_entry _ _ _ Hok a Ha Hn) as (_ & Hv & _). by rewrite Es, Ew, Hfree in Hv.
Qed.

Lemma cache_ok_load : cache_ok m0 c' m.
Proof.
  destruct (Hok) as [Hl Hm _ Hline Hentry Hway Hclean]. split; try done.
  - apply load_valid_u8.
  - intros s w. rewrite load_line_at. case_decide; [|done]. split; [done|].
    apply aslice_u8, region_bytes_ok. apply Hm.
  - intros a Ha. rewrite load_lookup by done. case_decide as E.
    + subst a. intros _. split; [done|]. rewrite load_valid_at, load_addr_at by done. fold set.
      by rewrite bool_decide_eq_true_2, decide_True.
    + intros Hn. destruct (Hentry a Ha Hn) as (Hr & Hv & Ha'). rewrite load_valid_at, load_addr_at, Hv, orb_true_r by done.
      rewrite decide_False by (by apply load_elsewhere). done.
  - intros s w Hs Hw' Hv. rewrite load_valid_at in Hv by done. destruct (decide ((s, w) = (set, way))) as [E|E].
    + rewrite load_addr_at, decide_True by done. injection E as -> ->. split; [done|]. split; [done|].
      by rewrite load_lookup, decide_True.
    + rewrite bool_decide_eq_false_2 in Hv by done. destruct (Hway s w Hs Hw' Hv) as (Ha & Es & Ew).
      rewrite load_addr_at, decide_False by done. split; [done|]. split; [done|]. rewrite load_lookup by done.
      case_decide as Eb; [|done]. rewrite Eb, Hout in Ew. lia.
  - intros s w Hs Hw' Hv Hd. rewrite load_valid_at in Hv by done. rewrite load_addr_at, load_line_at.
    case_decide as E; [done|]. rewrite bool_decide_eq_false_2 in Hv by done. apply Hclean; [done .. |].
    by rewrite <- load_modified_at.
Qed.

(** A free way, and a block that is in no line. *)
Lemma holds_load : holds m0 v (c', m) /\ lookup_way b m0 c' = way.
Proof.
  split; [|by rewrite load_lookup, decide_True]. split; [apply cache_ok_load|]. intros a Ha.
  rewrite <- (h_view _ _ _ H) by done. unfold block_view. cbn [fst snd]. rewrite load_lookup by done. case_decide as E.
  - subst a. rewrite Hout, Z.eqb_refl, (proj2 (Z.eqb_neq way 0xff)), load_line_at by lia. fold set. by rewrite decide_True.
  - destruct (Z.eqb_spec (lookup_way a m0 c) 0xff) as [|Hn]; [done|].
    rewrite load_line_at, decide_False; [done | by apply load_elsewhere].
Qed.
End Load.

(** The evicted line is as if it had been dropped first. *)
Lemma load_over b set way c m : 0 <= way < 8 ->
  load_line b set way (c, m) =
  load_line b set way (fset c_modified (aupd (modified c) set (without_way way (aat (modified c) set)))
                         (fset c_valid (aupd (valid c) set (without_way way (aat (valid c) set))) c), m).
Proof.
  intros Hw. unfold load_line. destruct c as [d a p vl mo l1 l2 l3].
  cbn -[CopyFromEmu set_lookup cache_block]. unfold set_lookup, line.
  by repeat case_match; cbn -[CopyFromEmu]; rewrite !aat_aupd_eq, !aupd_aupd, with_without_way, without_without_way by done.
Qed.

Lemma load_evicted b set way c m : 0 <= way < 8 -> has_way way (aat (valid c) set) = true ->
  load_line b set way (evict set way (c, m)) =
  load_line b set way (drop_line set way (snd (evict set way (c, m))) c, snd (evict set way (c, m))).
Proof. intros Hw Hv. unfold evict. rewrite Hv. by apply load_over. Qed.

(** Evicting a line writes it to memory if it has to be. *)
Lemma holds_evict v c m set way : holds m0 v (c, m) -> 0 <= set < 128 -> 0 <= way < 8 ->
  has_way way (aat (valid c) set) = true ->
  holds m0 v (drop_line set way (snd (evict set way (c, m))) c, snd (evict set way (c, m))).
Proof.
  intros H Hs Hw Hv. unfold evict. rewrite Hv. cbn [snd].
  destruct (valid_line v c m set way H Hs Hw Hv) as (Ha & _ & _ & Ev).
  destruct (has_way way (aat (modified c) set)) eqn:Hd.
  - destruct (holds_write_back v c m set way H Hs Hw Hv) as (H' & Hm & _).
    pose proof (holds_drop v c _ set way H' Hs Hw Hv) as Hdrop. rewrite Hm in Hdrop.
    eapply holds_ext; [|exact Hdrop]. intros b Hb. unfold put_block. case_decide as E; [by rewrite E | done].
  - pose proof (holds_drop v c m set way H Hs Hw Hv) as Hdrop.
    pose proof (co_clean _ _ _ (h_ok _ _ _ H) set way Hs Hw Hv Hd) as Hc. cbn [fst snd] in Hc. rewrite <- Hc, Ev in Hdrop.
    eapply holds_ext; [|exact Hdrop]. intros b Hb. unfold put_block. case_decide as E; [by rewrite E | done].
Qed.

(** ** The line of an address *)

Lemma cacheable_line a : u32 a -> cacheable m0 (cache_block a) -> cache_block (cache_block a) = cache_block a.
Proof. intros Ha Hb. apply cache_block_block; apply Hb. Qed.

(** Loading a block, over the line that is there or not. *)
Lemma holds_fill v c m b way : holds m0 v (c, m) -> cacheable m0 b -> 0 <= way < 8 -> lookup_way b m0 c = 0xff ->
  exists c' m', load_line b (cache_set b) way (evict (cache_set b) way (c, m)) = (c', m') /\
    holds m0 v (c', m') /\ lookup_way b m0 c' = way.
Proof.
  intros H Hb Hw Hout. pose proof (cache_set_range b) as Hset. set (set := cache_set b) in *.
  destruct (has_way way (aat (valid c) set)) eqn:Hv.
  - rewrite load_evicted by done. set (m' := snd (evict set way (c, m))). set (c1 := drop_line set way m' c).
    pose proof (holds_evict v c m set way H Hset Hw Hv) as H1. fold m' c1 in H1.
    destruct (valid_line v c m set way H Hset Hw Hv) as (Ha & _ & El & _).
    assert (Hout1 : lookup_way b m0 c1 = 0xff).
    { etrans; [exact (layout_set_lookup m0 c m' _ b 0xff (co_layout _ _ _ (h_ok _ _ _ H1))
        (co_memory _ _ _ (h_ok _ _ _ H1)) Ha Hb)|]. by case_decide. }
    assert (Hfree : has_way way (aat (valid c1) set) = false).
    { unfold c1, drop_line. cbn. rewrite aat_aupd_eq, has_without_way, Z.eqb_refl by done. done. }
    destruct (holds_load v c1 m' b way H1 Hb Hw Hfree Hout1) as [H2 El2]. by eexists _, _.
  - unfold evict. rewrite Hv. destruct (holds_load v c m b way H Hb Hw Hv Hout) as [H2 El2]. by eexists _, _.
Qed.

Lemma update_plru_fields set way c :
  cdata (update_plru set way c) = cdata c /\ addrs (update_plru set way c) = addrs c /\
  valid (update_plru set way c) = valid c /\ modified (update_plru set way c) = modified c /\
  forall b m, lookup_way b m (update_plru set way c) = lookup_way b m c.
Proof. unfold update_plru. by case_match. Qed.

(** A way found is the block's line. *)
Definition line_of b way c : Prop :=
  lookup_way b m0 c = way /\
  (way <> 0xff -> 0 <= way < 8 /\ has_way way (aat (valid c) (cache_set b)) = true /\ line_addr (cache_set b) way c = b).

Lemma holds_line_of v c m b : holds m0 v (c, m) -> cacheable m0 b -> line_of b (lookup_way b m0 c) c.
Proof. intros H Hb. split; [done|]. intros Hn. by apply (co_entry _ _ _ (h_ok _ _ _ H)). Qed.

Lemma line_of_plru b way set w c : line_of b way c -> line_of b way (update_plru set w c).
Proof.
  destruct (update_plru_fields set w c) as (_ & Ea & Ev & _ & El). unfold line_of, line_addr. by rewrite El, Ev, Ea.
Qed.

(** [GetCache] finds the line of a block, or loads it if it is not locked, and the memory
    and cache together stay what they were. *)
Lemma GetCache_spec v a locked c m :
  holds m0 v (c, m) -> cacheable m0 (cache_block a) ->
  exists way c' m', GetCache a locked (c, m) = ((cache_set (cache_block a), way), (c', m')) /\
    holds m0 v (c', m') /\ line_of (cache_block a) way c' /\
    (locked = true -> way = lookup_way (cache_block a) m0 c /\ c' = update_plru (cache_set (cache_block a)) way c /\ m' = m) /\
    (locked = false -> way <> 0xff).
Proof.
  intros H Hb. unfold GetCache. set (b := cache_block a) in *. rewrite (cache_ok_lookup m0 c m) by apply H.
  destruct (negb locked && (lookup_way b m0 c =? 0xff)) eqn:E.
  - apply andb_true_iff in E as [El Eout]. apply negb_true_iff in El. apply Z.eqb_eq in Eout. subst locked.
    pose proof (choose_way_range (cache_set b) c (co_valid _ _ _ (h_ok _ _ _ H))) as Hw.
    set (way := choose_way (cache_set b) c) in *.
    destruct (holds_fill v c m b way H Hb Hw Eout) as (c' & m' & -> & H' & El).
    exists way, (update_plru (cache_set b) way c'), m'. split; [done|]. split; [by apply holds_plru|].
    split; [apply line_of_plru; rewrite <- El; by eapply holds_line_of|]. split; [done | lia].
  - exists (lookup_way b m0 c), (update_plru (cache_set b) (lookup_way b m0 c) c), m. split; [done|].
    split; [by apply holds_plru|]. split; [apply line_of_plru; by eapply holds_line_of|]. split; [done|].
    intros ->. cbn in E. by apply Z.eqb_neq in E.
Qed.
End Steps.

Lemma overwrite_u8 off value l : Forall u8 value -> Forall u8 l -> Forall u8 (overwrite off value l).
Proof. intros Hv Hl. unfold overwrite. apply Forall_app_2; [by apply Forall_take|]. apply Forall_app_2; [done | by apply Forall_drop]. Qed.

Section Operations.
Context (m0 : MemoryManager).

(** * Bytes into a block *)

Lemma holds_write_line v c m b way off value :
  holds m0 v (c, m) -> cacheable m0 b -> line_of m0 b way c -> way <> 0xff ->
  Forall u8 value -> (off + length value <= 32)%nat ->
  holds m0 (put_block b (overwrite off value (v b)) v)
    (fset c_modified (aupd (modified c) (cache_set b) (with_way way (aat (modified c) (cache_set b))))
       (fset c_data (<[(cache_set b, way) := overwrite off value (line (cache_set b) way c)]> (cdata c)) c), m).
Proof.
  intros H Hb [El Hline] Hn Hu Hoff. destruct (Hline Hn) as (Hw & Hv & Ha). clear Hline.
  pose proof (cache_set_range b) as Hset. destruct (valid_line m0 v c m _ way H Hset Hw Hv) as (_ & _ & _ & Ev).
  rewrite Ha in Ev. destruct H as [Hok Hview]. cbn [fst snd] in *. set (c' := fset c_modified _ _).
  assert (Hli : forall s w, line s w c' =
      if decide ((s, w) = (cache_set b, way)) then overwrite off value (v b) else line s w c).
  { intros s w. unfold line. cbn. case_decide as E; [|by rewrite lookup_insert_ne].
    rewrite E, lookup_insert_eq. cbn. f_equal. exact Ev. }
  destruct (co_line _ _ _ Hok (cache_set b) way) as [Hlen Hu8]. rewrite Ev in Hlen, Hu8.
  split; cbn [fst snd].
  - destruct Hok as [Hlay Hmem Hval Hlines Hentry Hway Hclean]. split; try done.
    + intros s w. rewrite Hli. case_decide; [|done]. rewrite length_overwrite by (by rewrite Hlen).
      split; [done | by apply overwrite_u8].
    + intros s w Hs Hw' Hv' Hd. cbn in Hd. rewrite Hli. rewrite aat_aupd in Hd.
      destruct (Z.eqb_spec (cache_set b) s) as [<-|].
      * rewrite has_with_way in Hd by done. destruct (Z.eqb_spec w way); [done|].
        rewrite decide_False by (by intros [= ->]). by apply Hclean.
      * rewrite decide_False by (by intros [= ->]). by apply Hclean.
  - intros a Ha'. unfold block_view, put_block. cbn [fst snd]. change (lookup_way a m0 c') with (lookup_way a m0 c).
    rewrite Hli. destruct (decide (a = b)) as [E|E].
    + subst a. rewrite El, (proj2 (Z.eqb_neq way 0xff)) by done. by rewrite decide_True.
    + rewrite <- (Hview a Ha'). unfold block_view. cbn [fst snd].
      destruct (Z.eqb_spec (lookup_way a m0 c) 0xff) as [|Hna]; [done|]. rewrite decide_False; [done|].
      intros [= Es Ew]. apply E, (cached_unique m0 c m); try done; [by rewrite El | by rewrite El].
Qed.

Lemma holds_write_memory v c m b off value :
  holds m0 v (c, m) -> cacheable m0 b -> lookup_way b m0 c = 0xff ->
  Forall u8 value -> (off + length value <= 32)%nat ->
  holds m0 (put_block b (overwrite off value (v b)) v) (c, CopyToEmu (b + Z.of_nat off) value m).
Proof.
  intros [Hok Hview] Hb Hout Hu Hoff. cbn [fst snd] in *.
  assert (Hm : forall a, cacheable m0 a -> memory_block (CopyToEmu (b + Z.of_nat off) value m) a =
      if decide (a = b) then overwrite off value (memory_block m b) else memory_block m a).
  { intros a Ha. apply CopyToEmu_block; [apply Hok | by eapply cache_ok_cacheable .. | done]. }
  split; cbn [fst snd].
  - destruct Hok as [Hlay Hmem Hval Hlines Hentry Hway Hclean]. split; try done.
    + etrans; [done | apply CopyToEmu_layout].
    + by apply CopyToEmu_cache_memory.
    + intros s w Hs Hw Hv Hd. destruct (Hway s w Hs Hw Hv) as (Ha & _ & El). rewrite Hm by done.
      case_decide as E; [|by apply Hclean]. rewrite E, Hout in El. lia.
  - intros a Ha. unfold block_view, put_block. cbn [fst snd]. rewrite Hm by done. case_decide as E.
    + subst a. rewrite Hout. cbn. f_equal. rewrite <- Hview by done. unfold block_view. cbn [fst snd]. by rewrite Hout.
    + by rewrite <- (Hview a Ha).
Qed.

(** * Reading and writing inside a block *)

Section Access.
Context (v : block_contents) (c : Cache) (m : MemoryManager) (a : Z) (l : list Z) (locked : bool).
Context (H : holds m0 v (c, m)) (Ha : u32 a) (Hb : cacheable m0 (cache_block a)).
Context (Hl : l <> []) (Hin : a + Z.of_nat (length l) <= cache_block a + 32).

Lemma offset_fits : (offset_in_block a + length l <= 32)%nat /\ a = cache_block a + Z.of_nat (offset_in_block a).
Proof. pose proof (cache_block_spec a Ha). unfold offset_in_block. lia. Qed.

Lemma read_block_spec : exists s',
  read_block a l locked (c, m) = (take (length l) (drop (offset_in_block a) (v (cache_block a))), s') /\ holds m0 v s'.
Proof.
  unfold read_block. destruct (GetCache_spec m0 v a locked c m H Hb) as (way & c' & m' & -> & H' & [El Hline] & _).
  destruct offset_fits as [Hoff Eoff]. pose proof (h_view _ _ _ H' _ Hb) as Hv. unfold block_view in Hv. cbn [fst snd] in Hv.
  rewrite El in Hv. destruct (way =? 0xff); cbn [negb]; exists (c', m'); (split; [|done]); f_equal.
  - rewrite Eoff at 1. rewrite CopyFromEmu_block; [by rewrite Hv | apply H' | | done | done].
    eapply cache_ok_cacheable; [apply H' | done].
  - by rewrite Hv.
Qed.

Lemma write_block_spec : Forall u8 l ->
  holds m0 (put_block (cache_block a) (overwrite (offset_in_block a) l (v (cache_block a))) v) (write_block a l locked (c, m)).
Proof.
  intros Hu. unfold write_block. destruct (GetCache_spec m0 v a locked c m H Hb) as (way & c' & m' & -> & H' & Hline & _).
  destruct offset_fits as [Hoff Eoff]. destruct (Z.eqb_spec way 0xff) as [->|Hn]; cbn [negb].
  - pose proof (holds_write_memory v c' m' _ _ l H' Hb (proj1 Hline) Hu Hoff) as Hw. by rewrite <- Eoff in Hw.
  - exact (holds_write_line v c' m' _ way _ l H' Hb Hline Hn Hu Hoff).
Qed.
End Access.

(** * Keeping memory up to date *)

Section Block.
Context (v : block_contents) (c : Cache) (m : MemoryManager) (a : Z).
Context (H : holds m0 v (c, m)) (Hb : cacheable m0 (cache_block a)).

Lemma Touch_spec store : holds m0 v (Cache_Touch a store (c, m)).
Proof.
  unfold Cache_Touch. by destruct (GetCache_spec m0 v a false c m H Hb) as (way & c' & m' & -> & H' & _).
Qed.

(** A block is in memory as it is in its line if it has no line or a clean one. *)
Lemma uncached_block b : cacheable m0 b -> lookup_way b m0 c = 0xff -> memory_block m b = v b.
Proof. intros Hb' E. rewrite <- (h_view _ _ _ H) by done. unfold block_view. cbn [fst snd]. by rewrite E. Qed.

Lemma clean_block set way : 0 <= set < 128 -> 0 <= way < 8 -> has_way way (aat (valid c) set) = true ->
  has_way way (aat (modified c) set) = false -> memory_block m (line_addr set way c) = v (line_addr set way c).
Proof.
  intros Hs Hw Hv Hd. destruct (valid_line m0 v c m set way H Hs Hw Hv) as (_ & _ & _ & Ev). rewrite <- Ev.
  symmetry. by apply (co_clean _ _ _ (h_ok _ _ _ H)).
Qed.

(** The line of a valid way after it has been written back if it was modified. *)
Lemma holds_written_back set way : 0 <= set < 128 -> 0 <= way < 8 -> has_way way (aat (valid c) set) = true ->
  let m' := if has_way way (aat (modified c) set) then write_back (line_addr set way c) set way c m else m in
  holds m0 v (c, m') /\ memory_block m' (line_addr set way c) = v (line_addr set way c) /\
  forall b, cacheable m0 b -> memory_block m b = v b -> memory_block m' b = v b.
Proof.
  intros Hs Hw Hv m'. unfold m'. destruct (has_way way (aat (modified c) set)) eqn:Hd.
  - destruct (holds_write_back m0 v c m set way H Hs Hw Hv) as (H1 & H2 & H3). split; [done|]. split; [done|].
    intros b Hb' E. destruct (decide (b = line_addr set way c)) as [->|]; [done|]. by rewrite H3.
  - split; [done|]. split; [by apply clean_block | done].
Qed.
End Block.

Section Ops.
Context (v : block_contents) (c : Cache) (m : MemoryManager) (a : Z).
Context (H : holds m0 v (c, m)) (Hb : cacheable m0 (cache_block a)).
Let b := cache_block a.

(** [Store] leaves the block in memory as it is. *)
Lemma Store_spec : holds m0 v (Cache_Store a (c, m)) /\ memory_block (snd (Cache_Store a (c, m))) b = v b.
Proof.
  unfold Cache_Store. destruct (GetCache_spec m0 v a true c m H Hb) as (way & c' & m' & -> & H' & [El Hline] & _).
  fold b in El, Hline |- *. destruct (Z.eqb_spec way 0xff) as [->|Hn].
  { split; [done|]. by apply (uncached_block v c'). }
  destruct (Hline Hn) as (Hw & Hv & Ea). rewrite Hv. cbn [andb].
  destruct (holds_written_back v c' m' H' (cache_set b) way (cache_set_range b) Hw Hv) as (H2 & E2 & _).
  rewrite Ea in H2, E2. split; [|exact E2].
  pose proof (holds_clean m0 v c' _ (cache_set b) way H2 (cache_set_range b) Hw Hv) as Hc. rewrite Ea in Hc. by apply Hc.
Qed.

(** [Flush] does too, and the block is in no line any more. *)
Lemma Flush_spec :
  holds m0 v (Cache_Flush a (c, m)) /\ memory_block (snd (Cache_Flush a (c, m))) b = v b /\
  lookup_way b m0 (fst (Cache_Flush a (c, m))) = 0xff.
Proof.
  unfold Cache_Flush. destruct (GetCache_spec m0 v a true c m H Hb) as (way & c' & m' & -> & H' & [El Hline] & _).
  fold b in El, Hline |- *. destruct (Z.eqb_spec way 0xff) as [->|Hn].
  { split; [done|]. split; [by apply (uncached_block v c') | done]. }
  destruct (Hline Hn) as (Hw & Hv & Ea). rewrite Hv.
  destruct (holds_written_back v c' m' H' (cache_set b) way (cache_set_range b) Hw Hv) as (H2 & E2 & _).
  rewrite Ea in H2, E2. set (m2 := if has_way way (aat (modified c') (cache_set b)) then _ else m') in *.
  pose proof (holds_drop m0 v c' m2 (cache_set b) way H2 (cache_set_range b) Hw Hv) as Hd. rewrite Ea, E2 in Hd.
  split; [|split; [exact E2|]].
  - eapply holds_ext; [|exact Hd]. intros b' Hb'. unfold put_block. by case_decide; subst.
  - cbn [fst]. etrans; [exact (layout_set_lookup m0 c' m2 (line_addr (cache_set b) way c') b 0xff
      (co_layout _ _ _ (h_ok _ _ _ H2)) (co_memory _ _ _ (h_ok _ _ _ H2)) ltac:(by rewrite Ea) Hb)|].
    rewrite Ea. by case_decide.
Qed.

(** [Invalidate] goes back to what memory has. *)
Lemma Invalidate_spec :
  holds m0 (put_block b (memory_block m b) v) (Cache_Invalidate a (c, m)) /\
  lookup_way b m0 (fst (Cache_Invalidate a (c, m))) = 0xff.
Proof.
  unfold Cache_Invalidate. destruct (GetCache_spec m0 v a true c m H Hb) as (way & c' & m' & -> & H' & [El Hline] & Hlock & _).
  destruct (Hlock eq_refl) as (_ & _ & ->). fold b in El, Hline |- *. destruct (Z.eqb_spec way 0xff) as [->|Hn].
  { split; [|done]. eapply holds_ext; [|exact H']. intros b' Hb'. unfold put_block. case_decide; [|done]. subst b'.
    symmetry. by apply (uncached_block v c'). }
  destruct (Hline Hn) as (Hw & Hv & Ea). rewrite Hv.
  pose proof (holds_drop m0 v c' m (cache_set b) way H' (cache_set_range b) Hw Hv) as Hd. rewrite Ea in Hd.
  split; [exact Hd|]. cbn [fst]. etrans; [exact (layout_set_lookup m0 c' m (line_addr (cache_set b) way c') b 0xff
      (co_layout _ _ _ (h_ok _ _ _ H')) (co_memory _ _ _ (h_ok _ _ _ H')) ltac:(by rewrite Ea) Hb)|].
  rewrite Ea. by case_decide.
Qed.
End Ops.
End Operations.
