(* ===== verification/PPCCacheTheorems.v ===== *)
(** The caches against a memory of bytes: the data cache refines it, whatever sequence of
    operations runs, and the instruction cache forgets what it is told to. *)
From stdpp Require Import base tactics option list gmap.
From Stdlib Require Import ZArith Lia Bool.
From S2P Require Import Prelude Memmap PowerPC MemoryProps AramProps PPCCache PPCCacheBlocks PPCCacheProps.

#[local] Open Scope Z_scope.
Implicit Types (m : MemoryManager) (c : Cache) (b : Z).

(** * A memory of bytes *)

Definition byte_memory := Z -> Z.
Implicit Types (mem : byte_memory).

Definition bytes_at mem (a : Z) (n : nat) : list Z := map (fun i => mem (a + Z.of_nat i)) (seq 0 n).
Definition store_bytes mem (a : Z) (l : list Z) : byte_memory :=
  fun x => if (a <=? x) && (x <? a + Z.of_nat (length l)) then nth (Z.to_nat (x - a)) l 0 else mem x.

Lemma length_bytes_at mem a n : length (bytes_at mem a n) = n.
Proof. unfold bytes_at. by rewrite length_map, length_seq. Qed.

Lemma lookup_bytes_at mem a n i : (i < n)%nat -> bytes_at mem a n !! i = Some (mem (a + Z.of_nat i)).
Proof. intros Hi. unfold bytes_at. rewrite list_lookup_fmap, lookup_seq_lt by done. done. Qed.

Lemma bytes_at_ext mem mem' a n :
  (forall x, a <= x < a + Z.of_nat n -> mem x = mem' x) -> bytes_at mem a n = bytes_at mem' a n.
Proof. intros H. apply map_ext_in. intros i Hi. apply in_seq in Hi. apply H. lia. Qed.

Lemma bytes_at_app mem a n k : bytes_at mem a (n + k) = bytes_at mem a n ++ bytes_at mem (a + Z.of_nat n) k.
Proof.
  apply list_eq. intros i. destruct (decide (i < n)%nat).
  { rewrite lookup_app_l by (by rewrite length_bytes_at). by rewrite !lookup_bytes_at by lia. }
  rewrite lookup_app_r by (rewrite length_bytes_at; lia). rewrite length_bytes_at. destruct (decide (i < n + k)%nat).
  - rewrite !lookup_bytes_at by lia. do 2 f_equal. lia.
  - rewrite !lookup_ge_None_2; [done | rewrite length_bytes_at; lia ..].
Qed.

Lemma bytes_at_part mem a n i k : (i + k <= n)%nat -> take k (drop i (bytes_at mem a n)) = bytes_at mem (a + Z.of_nat i) k.
Proof.
  intros H. replace n with (i + (k + (n - (i + k))))%nat by lia. rewrite bytes_at_app.
  rewrite drop_app_length' by (by rewrite length_bytes_at). rewrite bytes_at_app.
  by rewrite take_app_length' by (by rewrite length_bytes_at).
Qed.

Lemma store_bytes_in mem a l x : a <= x < a + Z.of_nat (length l) -> store_bytes mem a l x = nth (Z.to_nat (x - a)) l 0.
Proof. intros H. unfold store_bytes. by rewrite (proj2 (Z.leb_le _ _)), (proj2 (Z.ltb_lt _ _)) by lia. Qed.

Lemma store_bytes_out mem a l x : ~ (a <= x < a + Z.of_nat (length l)) -> store_bytes mem a l x = mem x.
Proof.
  intros H. unfold store_bytes. destruct (Z.leb_spec a x), (Z.ltb_spec x (a + Z.of_nat (length l))); done || lia.
Qed.

Lemma store_bytes_app mem a l k x :
  store_bytes (store_bytes mem a l) (a + Z.of_nat (length l)) k x = store_bytes mem a (l ++ k) x.
Proof.
  destruct (decide (a <= x < a + Z.of_nat (length l))) as [H1|H1].
  { rewrite store_bytes_out by lia. rewrite !store_bytes_in by (rewrite ?length_app; lia). rewrite app_nth1 by lia. done. }
  destruct (decide (a + Z.of_nat (length l) <= x < a + Z.of_nat (length l) + Z.of_nat (length k))) as [H2|H2].
  { rewrite !store_bytes_in by (rewrite ?length_app; lia). rewrite app_nth2 by lia. f_equal. lia. }
  rewrite !store_bytes_out by (rewrite ?length_app; lia). done.
Qed.

Lemma bytes_at_store mem a l : bytes_at (store_bytes mem a l) a (length l) = l.
Proof.
  apply list_eq. intros i. destruct (decide (i < length l)%nat) as [Hi|Hi].
  - rewrite lookup_bytes_at by done. rewrite store_bytes_in by lia. replace (a + Z.of_nat i - a) with (Z.of_nat i) by lia.
    rewrite Nat2Z.id. destruct (lookup_lt_is_Some_2 l i Hi) as [x Ex].
    rewrite Ex. f_equal. by apply nth_lookup_Some.
  - rewrite !lookup_ge_None_2; [done | lia | rewrite length_bytes_at; lia].
Qed.

Lemma overwrite_bytes_at mem b i l n : (i + length l <= n)%nat ->
  overwrite i l (bytes_at mem b n) = bytes_at (store_bytes mem (b + Z.of_nat i) l) b n.
Proof.
  intros H. unfold overwrite. replace n with (i + (length l + (n - (i + length l))))%nat by lia.
  rewrite !bytes_at_app, take_app_length' by (by rewrite length_bytes_at). f_equal; [|f_equal].
  - apply bytes_at_ext. intros x Hx. by rewrite store_bytes_out by lia.
  - symmetry. apply bytes_at_store.
  - rewrite app_assoc, drop_app_length' by (by rewrite length_app, !length_bytes_at). apply bytes_at_ext. intros x Hx.
    by rewrite store_bytes_out by lia.
Qed.

(** * Blocks of it *)

Definition memory_blocks mem : block_contents := fun b => bytes_at mem b 32.

(** The memory behind and in the cache has these bytes. *)
Definition mem_is m0 mem (s : Cache * MemoryManager) : Prop := holds m0 (memory_blocks mem) s.

(** Addresses in blocks of the console's memories. *)
Definition in_memory m0 (a : Z) (n : nat) : Prop :=
  0 <= a /\ forall x, a <= x < a + Z.of_nat n -> x < 0x20000000 /\ cacheable m0 (cache_block x).

Lemma in_memory_le m0 a n i k : in_memory m0 a n -> (i + k <= n)%nat -> in_memory m0 (a + Z.of_nat i) k.
Proof. intros [Ha H] Hi. split; [lia|]. intros x Hx. apply H. lia. Qed.

Lemma put_store m0 mem a l b' : u32 a -> cacheable m0 (cache_block a) -> a + Z.of_nat (length l) <= cache_block a + 32 ->
  cacheable m0 b' ->
  put_block (cache_block a) (overwrite (offset_in_block a) l (memory_blocks mem (cache_block a))) (memory_blocks mem) b' =
  memory_blocks (store_bytes mem a l) b'.
Proof.
  intros Ha Hb Hin Hb'. destruct (offset_fits a l Ha Hin) as [Ho Eo]. unfold put_block, memory_blocks. case_decide as E.
  - rewrite overwrite_bytes_at by done. by rewrite <- Eo, E.
  - apply bytes_at_ext. intros x Hx. symmetry. apply store_bytes_out. pose proof (cache_block_spec a Ha).
    pose proof (cb_aligned _ _ Hb). pose proof (cb_aligned _ _ Hb'). Z.div_mod_to_equations. lia.
Qed.

Lemma len_in_block_eq a n : 0 <= a < 0x20000000 -> len_in_block a n = Z.min n (cache_block a + 32 - a).
Proof.
  intros Ha. unfold len_in_block. f_equal. rewrite (wrapu_small 32 (a + 32)) by (unfold uN; lia).
  fold (cache_block (a + 32)).
  rewrite !cache_block_eq by (unfold uN; lia). replace ((a + 32) mod 32) with (a mod 32)
    by (symmetry; rewrite <- (Z.mul_1_l 32) at 1; by rewrite Z.mod_add).
  rewrite wrapu_small; [lia | unfold uN; Z.div_mod_to_equations; lia].
Qed.

(** * The loops of [Read] and [Write] *)

Section Loops.
Context (m0 : MemoryManager) (locked : bool).

(** The first turn takes the part of the buffer in the first block. *)
Lemma first_turn a (l : list Z) : l <> [] -> in_memory m0 a (length l) ->
  let n := Z.to_nat (len_in_block a (Z.of_nat (length l))) in
  (0 < n <= length l)%nat /\ u32 a /\ cacheable m0 (cache_block a) /\
  a + Z.of_nat n <= cache_block a + 32 /\ to_u32 (a + len_in_block a (Z.of_nat (length l))) = a + Z.of_nat n /\
  take n l <> [] /\ length (take n l) = n /\ length (drop n l) = (length l - n)%nat.
Proof.
  intros Hl [H0 Hin] n. assert (length l <> 0)%nat by (by destruct l).
  destruct (Hin a ltac:(lia)) as [Ha Hb]. unfold n. rewrite len_in_block_eq by lia.
  pose proof (cache_block_spec a ltac:(unfold uN; lia)) as Hs.
  rewrite wrapu_small by (unfold uN; lia). rewrite length_take, length_drop.
  split; [lia|]. split; [unfold uN; lia|]. split; [done|]. split; [lia|]. split; [lia|].
  split; [|lia]. intros E. apply (f_equal length) in E. rewrite length_take in E. change (length []) with 0%nat in E. lia.
Qed.

Lemma read_loop_spec fuel a buffer mem s :
  (length buffer <= fuel)%nat -> in_memory m0 a (length buffer) -> mem_is m0 mem s ->
  exists s', read_loop fuel a buffer locked s = Some (bytes_at mem a (length buffer), s') /\ mem_is m0 mem s'.
Proof.
  revert a buffer s. induction fuel as [|fuel IH]; intros a buffer s Hf Hin Hs.
  { destruct buffer; [|cbn in Hf; lia]. by exists s. }
  destruct (decide (buffer = [])) as [->|Hne]; [by exists s|].
  destruct (first_turn a buffer Hne Hin) as (Hn & Ha & Hb & Hend & Enext & Ht & Etake & Edrop).
  cbn [read_loop]. destruct buffer as [|x buffer']; [done|]. set (buffer := x :: buffer') in *.
  set (n := Z.to_nat (len_in_block a (Z.of_nat (length buffer)))) in *. rewrite Enext. destruct s as [c m].
  destruct (read_block_spec m0 (memory_blocks mem) c m a (take n buffer) locked Hs Ha Hb Ht ltac:(by rewrite Etake))
    as (s1 & -> & Hs1).
  destruct (IH (a + Z.of_nat n) (drop n buffer) s1) as (s2 & -> & Hs2); [lia | | done |].
  { rewrite Edrop. apply (in_memory_le m0 a (length buffer)); [done | lia]. }
  exists s2. split; [|done]. cbn [mbind option_bind]. cbv beta iota. do 2 f_equal. rewrite Etake, Edrop.
  destruct (offset_fits a (take n buffer) Ha ltac:(by rewrite Etake)) as [Ho Eo]. rewrite Etake in Ho.
  unfold memory_blocks. rewrite bytes_at_part by done. rewrite <- Eo, <- bytes_at_app. f_equal. lia.
Qed.

Lemma write_loop_spec fuel a l mem s :
  (length l <= fuel)%nat -> in_memory m0 a (length l) -> Forall u8 l -> mem_is m0 mem s ->
  exists s', write_loop fuel a l locked s = Some s' /\ mem_is m0 (store_bytes mem a l) s'.
Proof.
  revert a l mem s. induction fuel as [|fuel IH]; intros a l mem s Hf Hin Hu Hs.
  { destruct l; [|cbn in Hf; lia]. exists s. split; [done|]. eapply holds_ext; [|exact Hs]. intros b _.
    apply bytes_at_ext. intros x _. by rewrite store_bytes_out by (cbn; lia). }
  destruct (decide (l = [])) as [->|Hne].
  { exists s. split; [done|]. eapply holds_ext; [|exact Hs]. intros b _.
    apply bytes_at_ext. intros x _. by rewrite store_bytes_out by (cbn; lia). }
  destruct (first_turn a l Hne Hin) as (Hn & Ha & Hb & Hend & Enext & Ht & Etake & Edrop).
  cbn [write_loop]. destruct l as [|x l']; [done|]. set (l := x :: l') in *.
  set (n := Z.to_nat (len_in_block a (Z.of_nat (length l)))) in *. rewrite Enext. destruct s as [c m].
  pose proof (write_block_spec m0 (memory_blocks mem) c m a (take n l) locked Hs Ha Hb ltac:(by rewrite Etake)
    ltac:(by apply Forall_take)) as Hs1.
  destruct (IH (a + Z.of_nat n) (drop n l) (store_bytes mem a (take n l)) (write_block a (take n l) locked (c, m)))
    as (s2 & -> & Hs2); [lia | | by apply Forall_drop | |].
  - rewrite Edrop. apply (in_memory_le m0 a (length l)); [done | lia].
  - eapply holds_ext; [|exact Hs1]. intros b Hb'. apply (put_store m0); [done | done | by rewrite Etake | done].
  - exists s2. split; [done|]. eapply holds_ext; [|exact Hs2]. intros b _. apply bytes_at_ext. intros y _.
    rewrite <- (take_drop n l) at 3. rewrite <- store_bytes_app. by rewrite Etake.
Qed.
End Loops.

(** * [FlushAll] *)

Lemma all_lines_spec set way : 0 <= set < 128 -> 0 <= way < 8 -> In (set, way) all_lines.
Proof.
  intros Hs Hw. apply in_flat_map. exists (Z.to_nat set). split; [apply in_seq; lia|].
  apply in_map_iff. exists (Z.to_nat way). split; [f_equal; lia | apply in_seq; lia].
Qed.

Lemma all_lines_range set way : In (set, way) all_lines -> 0 <= set < 128 /\ 0 <= way < 8.
Proof.
  intros H. apply in_flat_map in H as (s & Hs & H). apply in_map_iff in H as (w & [= <- <-] & Hw).
  apply in_seq in Hs, Hw. lia.
Qed.

Section FlushAll.
Context (m0 : MemoryManager) (v : block_contents).

Lemma flush_way_spec c m set way : holds m0 v (c, m) -> 0 <= set < 128 -> 0 <= way < 8 ->
  exists m', flush_way (c, m) (set, way) = (c, m') /\ holds m0 v (c, m') /\
    (has_way way (aat (valid c) set) = true -> memory_block m' (line_addr set way c) = v (line_addr set way c)) /\
    forall b, cacheable m0 b -> memory_block m b = v b -> memory_block m' b = v b.
Proof.
  intros H Hs Hw. unfold flush_way. destruct (has_way way (aat (valid c) set)) eqn:Hv; cbn [andb].
  - destruct (holds_written_back m0 v c m H set way Hs Hw Hv) as (H1 & H2 & H3). by eexists.
  - exists m. by repeat (split; [done|]).
Qed.

Lemma flush_lines_spec lines c m : (forall set way, In (set, way) lines -> 0 <= set < 128 /\ 0 <= way < 8) ->
  holds m0 v (c, m) ->
  exists m', foldl flush_way (c, m) lines = (c, m') /\ holds m0 v (c, m') /\
    (forall set way, In (set, way) lines -> has_way way (aat (valid c) set) = true ->
       memory_block m' (line_addr set way c) = v (line_addr set way c)) /\
    forall b, cacheable m0 b -> memory_block m b = v b -> memory_block m' b = v b.
Proof.
  revert m. induction lines as [|[set way] lines IH]; intros m Hr H; [by exists m|]. cbn [foldl].
  destruct (Hr set way) as [Hs Hw]; [by left|].
  destruct (flush_way_spec c m set way H Hs Hw) as (m1 & -> & H1 & E1 & K1).
  destruct (IH m1) as (m2 & -> & H2 & E2 & K2); [intros s w Hi; apply Hr; by right | done |].
  exists m2. split; [done|]. split; [done|]. split; [|intros b Hb E; by apply K2, K1].
  intros s w [[= <- <-]|Hi] Hv; [|by apply E2]. apply K2; [|by apply E1].
  by apply (co_way _ _ _ (h_ok _ _ _ H) set way).
Qed.

(** The empty cache over a memory. *)
Lemma holds_reset c m : same_layout m0 m -> cache_memory m -> (forall set way, length (line set way c) = 32%nat /\ Forall u8 (line set way c)) ->
  holds m0 (memory_block m) (Cache_Reset c, m).
Proof.
  intros Hl Hm Hc. assert (E : forall b, lookup_way b m0 (Cache_Reset c) = 0xff)
    by (intros; unfold lookup_way; by repeat case_match).
  assert (Hv : forall w s, has_way w (aat (valid (Cache_Reset c)) s) = false) by (intros; apply Z.bits_0).
  split; cbn [fst snd].
  - split; try done.
    + intros b _ Hn. by rewrite E in Hn.
    + intros s w _ _ H. by rewrite Hv in H.
    + intros s w _ _ H. by rewrite Hv in H.
  - intros b _. unfold block_view. cbn [fst snd]. by rewrite E.
Qed.

Lemma FlushAll_spec s : holds m0 v s ->
  holds m0 v (FlushAll s) /\ forall b, cacheable m0 b -> memory_block (snd (FlushAll s)) b = v b.
Proof.
  destruct s as [c m]. intros H. unfold FlushAll.
  destruct (flush_lines_spec all_lines c m all_lines_range H) as (m' & -> & H' & E & K). cbn [snd].
  assert (Hall : forall b, cacheable m0 b -> memory_block m' b = v b).
  { intros b Hb. destruct (decide (lookup_way b m0 c = 0xff)) as [Eo|Hn]; [by apply (uncached_block m0 v c)|].
    destruct (co_entry _ _ _ (h_ok _ _ _ H') b Hb Hn) as (Hw & Hv & Ea). cbn [fst snd] in *. rewrite <- Ea.
    apply E; [apply all_lines_spec; [apply cache_set_range | done] | done]. }
  split; [|done]. apply (holds_ext m0 (memory_block m')); [exact Hall|]. destruct (h_ok _ _ _ H') as [? ? ? Hc ? ? ?].
  by apply holds_reset.
Qed.
End FlushAll.

(** * Sequences of operations *)

(** The operations of the data cache, [Read] with the buffer it fills. *)
Inductive cache_op : Type :=
| OpRead (addr : Z) (buffer : list Z) (locked : bool)
| OpWrite (addr : Z) (bytes : list Z) (locked : bool)
| OpTouch (addr : Z) (store : bool)
| OpStore (addr : Z)
| OpFlush (addr : Z)
| OpFlushAll.

Definition do_op (op : cache_op) (s : Cache * MemoryManager) : option (list Z * (Cache * MemoryManager)) :=
  match op with
  | OpRead addr buffer locked => Cache_Read addr buffer locked s
  | OpWrite addr bytes locked => s ← Cache_Write addr bytes locked s; Some ([], s)
  | OpTouch addr store => Some ([], Cache_Touch addr store s)
  | OpStore addr => Some ([], Cache_Store addr s)
  | OpFlush addr => Some ([], Cache_Flush addr s)
  | OpFlushAll => Some ([], FlushAll s)
  end.

Fixpoint do_ops (ops : list cache_op) (s : Cache * MemoryManager) : option (list (list Z) * (Cache * MemoryManager)) :=
  match ops with
  | [] => Some ([], s)
  | op :: ops => '(out, s) ← do_op op s; '(outs, s) ← do_ops ops s; Some (out :: outs, s)
  end.

(** What they are to a memory without a cache. *)
Definition spec_op (op : cache_op) mem : list Z * byte_memory :=
  match op with
  | OpRead addr buffer _ => (bytes_at mem addr (length buffer), mem)
  | OpWrite addr bytes _ => ([], store_bytes mem addr bytes)
  | _ => ([], mem)
  end.

Fixpoint spec_ops (ops : list cache_op) mem : list (list Z) * byte_memory :=
  match ops with
  | [] => ([], mem)
  | op :: ops => let '(out, mem) := spec_op op mem in let '(outs, mem) := spec_ops ops mem in (out :: outs, mem)
  end.

Definition op_in_memory m0 (op : cache_op) : Prop :=
  match op with
  | OpRead addr buffer _ => in_memory m0 addr (length buffer)
  | OpWrite addr bytes _ => in_memory m0 addr (length bytes) /\ Forall u8 bytes
  | OpTouch addr _ | OpStore addr | OpFlush addr => cacheable m0 (cache_block addr)
  | OpFlushAll => True
  end.

Lemma do_op_spec m0 op mem s : op_in_memory m0 op -> mem_is m0 mem s ->
  exists s', do_op op s = Some (fst (spec_op op mem), s') /\ mem_is m0 (snd (spec_op op mem)) s'.
Proof.
  intros Hop Hs. destruct op as [a buffer locked|a l locked|a store|a|a|]; cbn [do_op spec_op fst snd op_in_memory] in *.
  - apply read_loop_spec; done.
  - destruct Hop as [Hin Hu]. unfold Cache_Write.
    destruct (write_loop_spec m0 locked (length l) a l mem s) as (s' & -> & Hs'); try done. by exists s'.
  - destruct s as [c m]. eexists. split; [done|]. by apply Touch_spec.
  - destruct s as [c m]. eexists. split; [done|]. by apply Store_spec.
  - destruct s as [c m]. eexists. split; [done|]. by apply Flush_spec.
  - eexists. split; [done|]. by apply FlushAll_spec.
Qed.

Lemma do_ops_spec m0 ops mem s : Forall (op_in_memory m0) ops -> mem_is m0 mem s ->
  exists s', do_ops ops s = Some (fst (spec_ops ops mem), s') /\ mem_is m0 (snd (spec_ops ops mem)) s'.
Proof.
  intros Hops. revert mem s. induction Hops as [|op ops Hop Hops IH]; intros mem s Hs; [by exists s|].
  cbn [do_ops spec_ops]. destruct (do_op_spec m0 op mem s Hop Hs) as (s1 & -> & Hs1).
  destruct (spec_op op mem) as [out mem1]. cbn [fst snd] in *. destruct (IH mem1 s1 Hs1) as (s2 & E2 & Hs2).
  cbn [mbind option_bind]. cbv beta iota. rewrite E2. destruct (spec_ops ops mem1) as [outs mem2]. by exists s2.
Qed.

(** The memory [m] has the bytes [mem]. *)
Definition in_ram m mem : Prop := forall b, cacheable m b -> memory_block m b = memory_blocks mem b.

Lemma mem_is_init c m mem : cache_memory m -> in_ram m mem -> mem_is m mem (Cache_Init c, m).
Proof.
  intros Hm Hr. eapply holds_ext; [exact Hr|]. apply holds_reset; [done | done|].
  intros set way. split; [done|]. change (Forall u8 (replicate 32 0)). apply Forall_replicate. range_lia.
Qed.

(** * The instruction cache *)

Section Icbi.
Context (m0 : MemoryManager) (v : block_contents) (c : Cache) (m : MemoryManager) (set : Z).
Context (H : holds m0 v (c, m)) (Hset : 0 <= set < 128).

Let drop_way (cx : Cache) (way : Z) : Cache :=
  if has_way way (aat (valid cx) set) then set_lookup (line_addr set way cx) 0xff m cx else cx.

(** All but the tables as in [c]. *)
Let like (cx : Cache) : Prop :=
  cdata cx = cdata c /\ addrs cx = addrs c /\ valid cx = valid c /\ modified cx = modified c.

Lemma drop_way_like cx way : like cx -> like (drop_way cx way).
Proof.
  intros (E1 & E2 & E3 & E4). unfold drop_way. case_match; [|done].
  destruct (set_lookup_fields (line_addr set way cx) 0xff m cx) as (F1 & F2 & _ & F3 & F4).
  unfold like. by rewrite F1, F2, F3, F4.
Qed.

Lemma drop_way_lookup cx way b : like cx -> 0 <= way < 8 -> cacheable m0 b ->
  lookup_way b m0 (drop_way cx way) =
  if (cache_set b =? set) && (lookup_way b m0 c =? way) then 0xff else lookup_way b m0 cx.
Proof.
  intros (_ & Ea & Ev & _) Hw Hb. unfold drop_way, line_addr. rewrite Ea, Ev. fold (line_addr set way c).
  pose proof (h_ok _ _ _ H) as Hok. cbn [fst snd] in Hok.
  assert (Hhit : (cache_set b =? set) && (lookup_way b m0 c =? way) = true ->
      has_way way (aat (valid c) set) = true /\ line_addr set way c = b).
  { intros E. apply andb_true_iff in E as [<-%Z.eqb_eq <-%Z.eqb_eq]. apply (co_entry _ _ _ Hok b Hb). lia. }
  destruct (has_way way (aat (valid c) set)) eqn:Hv.
  - destruct (co_way _ _ _ Hok set way Hset Hw Hv) as (Ha & Es & El).
    rewrite (layout_set_lookup m0) by (done || apply Hok). case_decide as E.
    + subst b. by rewrite Es, El, !Z.eqb_refl.
    + case_match eqn:Eq; [|done]. destruct (Hhit eq_refl) as [_ Eb]. by rewrite Eb in E.
  - case_match eqn:Eq; [|done]. by destruct (Hhit eq_refl).
Qed.

Lemma drop_ways ways cx : like cx -> (forall w, In w ways -> 0 <= w < 8) ->
  like (foldl drop_way cx ways) /\ forall b, cacheable m0 b ->
  lookup_way b m0 (foldl drop_way cx ways) =
  if (cache_set b =? set) && existsb (Z.eqb (lookup_way b m0 c)) ways then 0xff else lookup_way b m0 cx.
Proof.
  revert cx. induction ways as [|w ways IH]; intros cx Hl Hr; cbn [foldl existsb].
  { split; [done|]. intros b Hb. by rewrite andb_false_r. }
  assert (Hw : 0 <= w < 8) by (apply Hr; by left).
  destruct (IH (drop_way cx w) (drop_way_like cx w Hl) (fun x Hx => Hr x (or_intror Hx))) as [Hl' E].
  split; [done|]. intros b Hb. rewrite E, drop_way_lookup by done.
  by destruct (cache_set b =? set), (lookup_way b m0 c =? w), (existsb _ ways).
Qed.

Let c' := foldl drop_way c [0; 1; 2; 3; 4; 5; 6; 7].

Lemma icbi_like : like c'.
Proof. apply drop_ways; [done | cbn; lia]. Qed.

Lemma icbi_lookup b : cacheable m0 b -> lookup_way b m0 c' = if decide (cache_set b = set) then 0xff else lookup_way b m0 c.
Proof.
  intros Hb. pose proof (h_ok _ _ _ H) as Hok. cbn [fst snd] in Hok.
  destruct (drop_ways [0; 1; 2; 3; 4; 5; 6; 7] c) as [_ El]; [done | cbn; lia |]. unfold c'. rewrite El by done.
  case_decide as Es; [|by rewrite (proj2 (Z.eqb_neq _ _))]. rewrite (proj2 (Z.eqb_eq _ _)) by done.
  destruct (decide (lookup_way b m0 c = 0xff)) as [->|Hn]; [done|].
  destruct (co_entry _ _ _ Hok b Hb Hn) as (Hw & _). cbn [andb]. rewrite (proj2 (existsb_exists _ _)); [done|].
  exists (lookup_way b m0 c). split; [cbn; lia | apply Z.eqb_refl].
Qed.

(** Every line of the set is dropped. *)
Lemma ICache_Invalidate_spec a : set = (a .>> 5) .& 0x7f ->
  holds m0 (fun b => if decide (cache_set b = set) then memory_block m b else v b) (ICache_Invalidate a (c, m)).
Proof.
  intros Ea. unfold ICache_Invalidate. rewrite <- Ea. fold drop_way. fold c'.
  pose proof (h_ok _ _ _ H) as Hok. cbn [fst snd] in Hok. destruct icbi_like as (Ed & Ead & Ev & Em).
  pose proof icbi_lookup as Hlk.
  assert (Hli : forall s w, line s w c' = line s w c) by (intros; unfold line; by rewrite Ed).
  assert (Hla : forall s w, line_addr s w c' = line_addr s w c) by (intros; unfold line_addr; by rewrite Ead).
  assert (Hval : forall s w, has_way w (aat (aupd (valid c') set 0) s) = true -> s <> set /\ has_way w (aat (valid c) s) = true).
  { intros s w. rewrite Ev, aat_aupd. destruct (Z.eqb_spec set s) as [<-|Hne]; [|intros; by split; [intros ->|]].
    unfold has_way. by rewrite Z.bits_0. }
  split; cbn [fst snd].
  - destruct Hok as [Hlay Hmem Hv Hlines Hentry Hway Hclean]. split; try done.
    + apply (arr_ok_aupd u8); [by rewrite Ev | range_lia].
    + intros s w. change (line s w _) with (line s w c'). by rewrite Hli.
    + intros b Hb. change (lookup_way b m0 _) with (lookup_way b m0 c'). rewrite Hlk by done.
      case_decide as Es; [done|]. intros Hn. destruct (Hentry b Hb Hn) as (Hw & Hv' & Ea').
      change (line_addr ?s ?w _) with (line_addr s w c'). rewrite Hla.
      change (valid _) with (aupd (valid c') set 0). by rewrite aat_aupd_ne, Ev.
    + intros s w Hs Hw Hv'. destruct (Hval s w Hv') as [Hne Hv'']. destruct (Hway s w Hs Hw Hv'') as (Ha & Es & Ew).
      change (line_addr ?s ?w _) with (line_addr s w c'). rewrite Hla. split; [done|]. split; [done|].
      change (lookup_way ?x m0 _) with (lookup_way x m0 c'). by rewrite Hlk, Es, decide_False.
    + intros s w Hs Hw Hv' Hd. destruct (Hval s w Hv') as [Hne Hv'']. change (line s w _) with (line s w c').
      change (line_addr s w _) with (line_addr s w c'). rewrite Hli, Hla. apply Hclean; [done .. |].
      change (modified _) with (aupd (modified c') set 0) in Hd. by rewrite aat_aupd_ne, Em in Hd.
  - intros b Hb. unfold block_view. cbn [fst snd]. change (lookup_way b m0 _) with (lookup_way b m0 c').
    change (line ?s ?w _) with (line s w c'). rewrite Hlk, Hli by done. case_decide; [done|].
    rewrite <- (h_view _ _ _ H) by done. done.
Qed.
End Icbi.

(** An access inside a block is one turn. *)
Lemma Cache_Read_block m0 v c m a buffer locked : holds m0 v (c, m) -> u32 a -> cacheable m0 (cache_block a) ->
  buffer <> [] -> a + Z.of_nat (length buffer) <= cache_block a + 32 ->
  exists s', Cache_Read a buffer locked (c, m) =
    Some (take (length buffer) (drop (offset_in_block a) (v (cache_block a))), s') /\ holds m0 v s'.
Proof.
  intros H Ha Hb Hne Hin. pose proof (cache_block_spec a Ha) as Hs. pose proof (cb_range _ _ Hb).
  unfold Cache_Read. destruct buffer as [|x buffer']; [done|]. cbn [length read_loop]. set (buffer := x :: buffer') in *.
  change (S (length buffer')) with (length buffer). rewrite len_in_block_eq by (unfold uN in Ha; Z.div_mod_to_equations; lia).
  rewrite Z.min_l, Nat2Z.id, take_ge, drop_ge by lia.
  destruct (read_block_spec m0 v c m a buffer locked H Ha Hb Hne Hin) as (s' & -> & Hs').
  exists s'. split; [|done]. cbn [mbind option_bind]. destruct (length buffer'); cbn [read_loop mbind option_bind]; by rewrite app_nil_r.
Qed.

(** * Results *)

(** C4. The data cache is transparent.  Started empty over a memory, it can be given any
    sequence of reads, writes, touches, stores, flushes and flushes of everything, locked or
    not, of addresses in the console's memories, across block boundaries or not: every
    operation ends, every read returns the bytes last written there (or those the memory
    started with), and a flush of everything at the end leaves in memory exactly the bytes of
    a memory without a cache that the same writes were made to. *)
Theorem data_cache_transparent c m mem ops :
  cache_memory m -> in_ram m mem -> Forall (op_in_memory m) ops ->
  exists s, do_ops ops (Cache_Init c, m) = Some (fst (spec_ops ops mem), s) /\
    forall b, cacheable m b -> memory_block (snd (FlushAll s)) b = memory_blocks (snd (spec_ops ops mem)) b.
Proof.
  intros Hm Hr Hops. destruct (do_ops_spec m ops mem _ Hops (mem_is_init c m mem Hm Hr)) as (s & E & Hs).
  exists s. split; [done|]. by apply FlushAll_spec.
Qed.

(** C22. The cache block operations.  [dcbst] ([Store]) and [dcbf] ([Flush]) leave the block in
    memory as it was in the cache, [dcbf] out of the cache; [dcbi] ([Invalidate]) takes it out
    of the cache without writing it, so that it is as memory has it.  No other block changes,
    wherever it is, and the cache's tables stay consistent with its lines. *)
Theorem cache_block_operations m0 v c m a :
  let b := cache_block a in
  holds m0 v (c, m) -> cacheable m0 b ->
  (holds m0 v (Cache_Store a (c, m)) /\ memory_block (snd (Cache_Store a (c, m))) b = v b) /\
  (holds m0 v (Cache_Flush a (c, m)) /\ memory_block (snd (Cache_Flush a (c, m))) b = v b /\
   lookup_way b m0 (fst (Cache_Flush a (c, m))) = 0xff) /\
  (holds m0 (put_block b (memory_block m b) v) (Cache_Invalidate a (c, m)) /\
   lookup_way b m0 (fst (Cache_Invalidate a (c, m))) = 0xff).
Proof. intros b H Hb. split; [by apply Store_spec|]. split; [by apply Flush_spec | by apply Invalidate_spec]. Qed.

(** [icbi] works: after it, an instruction of the block is fetched from memory, whatever
    line the block or its set had, and whether the instruction cache is enabled, locked or
    turned off. *)
Theorem icbi_refetches m0 v c m a value p m_disable_icache :
  holds m0 v (c, m) -> u32 a -> a mod 4 = 0 -> cacheable m0 (cache_block a) ->
  exists s, ReadInstruction m_disable_icache value p a (ICache_Invalidate a (c, m)) = Some (Read_U32 a m, s).
Proof.
  intros H Ha Hal Hb. pose proof (cache_block_spec a Ha) as [Hs Hr].
  assert (Hin : a + 4 <= cache_block a + 32) by (Z.div_mod_to_equations; lia).
  assert (Eset : cache_set (cache_block a) = (a .>> 5) .& 0x7f).
  { unfold cache_set. f_equal. rewrite !Z.shiftr_div_pow2 by lia. change (2 ^ 5) with 32. Z.div_mod_to_equations. lia. }
  pose proof (ICache_Invalidate_spec m0 v c m _ H (cache_set_range (cache_block a)) a Eset) as Hi.
  unfold ReadInstruction. case_match; [by eexists|]. destruct (ICache_Invalidate a (c, m)) as [c' m'] eqn:Ei.
  destruct (Cache_Read_block m0 _ c' m' a (le_bytes 4 value) (Z.testbit (get_spr SPR_HID0 p) 13) Hi Ha Hb) as (s & -> & _);
    [done | rewrite length_le_bytes; done |].
  exists s. cbn [mbind option_bind]. rewrite decide_True by done. do 2 f_equal. unfold Read_U32. do 2 f_equal.
  destruct (offset_fits a (le_bytes 4 0) Ha) as [Ho Eo]; [by rewrite length_le_bytes|].
  pose proof (CopyFromEmu_block m (cache_block a) (le_bytes 4 0) (offset_in_block a)) as E. rewrite <- Eo in E.
  rewrite length_le_bytes in *. change (Z.of_nat 4) with 4 in E. symmetry. apply E; [apply H | | done | done].
  eapply cache_ok_cacheable; [apply H | done].
Qed.

(** All the replacement states and ways. *)
Lemma used_ways_survive :
  forallb (fun bits => forallb (fun w => forallb (fun w1 => forallb (fun w2 =>
    let u w x := used_way (Z.of_nat w) x in
    let x := u w2 (u w1 (u w (Z.of_nat bits))) in
    let victim := s_way_from_plru x in
    (0 <=? x) && (x <? 128) && negb (victim =? Z.of_nat w) && negb (victim =? Z.of_nat w1) && negb (victim =? Z.of_nat w2))
  (seq 0 8)) (seq 0 8)) (seq 0 8)) (seq 0 128) = true.
Proof. vm_compute. reflexivity. Qed.

Lemma used_ways_spec x w w1 w2 : uN 7 x -> 0 <= w < 8 -> 0 <= w1 < 8 -> 0 <= w2 < 8 ->
  let x' := used_way w2 (used_way w1 (used_way w x)) in
  uN 7 x' /\ s_way_from_plru x' <> w /\ s_way_from_plru x' <> w1 /\ s_way_from_plru x' <> w2.
Proof.
  intros Hx Hw Hw1 Hw2 x'. unfold uN in *. pose proof used_ways_survive as T.
  rewrite forallb_forall in T. specialize (T (Z.to_nat x) ltac:(apply in_seq; lia)).
  rewrite forallb_forall in T. specialize (T (Z.to_nat w) ltac:(apply in_seq; lia)).
  rewrite forallb_forall in T. specialize (T (Z.to_nat w1) ltac:(apply in_seq; lia)).
  rewrite forallb_forall in T. specialize (T (Z.to_nat w2) ltac:(apply in_seq; lia)). cbv zeta in T.
  rewrite !Z2Nat.id, !andb_true_iff, Z.leb_le, Z.ltb_lt, !negb_true_iff, !Z.eqb_neq in T by lia. fold x' in T. lia.
Qed.

(** C40. Replacement.  In a full set the least recently used bits stay an index of the table of
    victims and the victim is none of the three ways used last; in a set that is not full the
    next line is loaded into a free way. *)
Theorem recently_used_survives c set w w1 w2 :
  let c' := update_plru set w2 (update_plru set w1 (update_plru set w c)) in
  arr_ok u8 (valid c) -> uN 7 (aat (plru c) set) -> 0 <= w < 8 -> 0 <= w1 < 8 -> 0 <= w2 < 8 ->
  uN 7 (aat (plru c') set) /\ 0 <= choose_way set c' < 8 /\
  (aat (valid c) set = 0xff -> choose_way set c' <> w /\ choose_way set c' <> w1 /\ choose_way set c' <> w2) /\
  (aat (valid c) set <> 0xff -> has_way (choose_way set c') (aat (valid c) set) = false).
Proof.
  intros c' Hv Hp Hw Hw1 Hw2.
  assert (Hu : forall w0 c0, 0 <= w0 < 8 -> aat (plru (update_plru set w0 c0)) set = used_way w0 (aat (plru c0) set)).
  { intros w0 c0 Hw0. unfold update_plru. rewrite (proj2 (Z.eqb_neq w0 0xff)) by lia. apply aat_aupd_eq. }
  assert (Ep : aat (plru c') set = used_way w2 (used_way w1 (used_way w (aat (plru c) set))))
    by (unfold c'; by rewrite !Hu by done).
  assert (Ev : valid c' = valid c).
  { unfold c'. by rewrite !(proj1 (proj2 (proj2 (update_plru_fields _ _ _)))). }
  destruct (used_ways_spec _ w w1 w2 Hp Hw Hw1 Hw2) as (Hr & Hn). rewrite <- Ep in Hr, Hn.
  split; [done|]. split; [apply choose_way_range; by rewrite Ev|]. unfold choose_way. rewrite Ev.
  split; intros E; [by rewrite E|]. rewrite (proj2 (Z.eqb_neq _ _)) by done. by apply s_way_from_valid_free.
Qed.

(** * Examples *)

(** A GameCube's memory, cleared. *)
Definition cache_example_memory : MemoryManager := Memory_Init false MEM1_SIZE_RETAIL MEM2_SIZE_RETAIL.
Definition empty_cache : Cache := mkCache ∅ ∅ ∅ ∅ ∅ ∅ ∅ ∅.

Lemma example_memory_ok : cache_memory cache_example_memory.
Proof. split; [apply Memory_Init_ok|]. exists 25. split; [lia|]. split; [reflexivity | vm_compute; discriminate]. Qed.

Lemma example_cleared : in_ram cache_example_memory (fun _ => 0).
Proof.
  intros b Hb. unfold memory_block, memory_blocks, bytes_at.
  assert (E : region_bytes (block_region b) cache_example_memory = ∅) by (by destruct (block_region b)).
  rewrite E. reflexivity.
Qed.

Lemma example_cacheable b : 0 <= b < 0x01800000 -> b mod 32 = 0 -> cacheable cache_example_memory b.
Proof.
  intros Hb Ha. split; [done | lia|]. unfold GetPointerForRange, GetSpanForAddress.
  change 0x3FFFFFFF with (2 ^ 30 - 1). rewrite land_wrapu, wrapu_small by (unfold uN; lia).
  change (m_ram_size_real cache_example_memory) with 0x01800000. rewrite (proj2 (Z.ltb_lt _ _)) by lia.
  rewrite wrapu_small by (unfold uN; lia). rewrite (proj2 (Z.ltb_ge _ _)); [done|]. Z.div_mod_to_equations. lia.
Qed.

Lemma example_in_memory a n : 0 <= a -> a + Z.of_nat n <= 0x01800000 -> in_memory cache_example_memory a n.
Proof.
  intros Ha Hn. split; [done|]. intros x Hx. split; [lia|].
  destruct (cache_block_spec x ltac:(unfold uN; lia)) as [Hb Hr]. apply example_cacheable; [Z.div_mod_to_equations; lia | done].
Qed.

Lemma example_holds : holds cache_example_memory (memory_blocks (fun _ => 0)) (Cache_Init empty_cache, cache_example_memory).
Proof. exact (mem_is_init _ _ _ example_memory_ok example_cleared). Qed.

(** Eight bytes over the end of a block, read back, and flushed a block at a time. *)
Definition example_ops : list cache_op :=
  [OpWrite 0x3c [1; 2; 3; 4; 5; 6; 7; 8] false; OpRead 0x3e (repeat 0 4) false; OpFlush 0x40; OpStore 0x20;
   OpRead 0x38 (repeat 0 12) true].

Lemma example_ops_in_memory : Forall (op_in_memory cache_example_memory) example_ops.
Proof.
  assert (Hu : Forall u8 [1; 2; 3; 4; 5; 6; 7; 8]) by (repeat constructor; range_lia).
  assert (Hin : forall a n, (0 <=? a) && (a + Z.of_nat n <=? 0x01800000) = true -> in_memory cache_example_memory a n).
  { intros a n [H1%Z.leb_le H2%Z.leb_le]%andb_true_iff. by apply example_in_memory. }
  assert (Hb : forall b, (0 <=? b) && (b <? 0x01800000) && (b mod 32 =? 0) = true -> cacheable cache_example_memory b).
  { intros b [[H1%Z.leb_le H2%Z.ltb_lt]%andb_true_iff H3%Z.eqb_eq]%andb_true_iff. by apply example_cacheable. }
  repeat apply Forall_cons_2; [split; [|exact Hu] | | | | | apply Forall_nil_2].
  - exact (Hin 0x3c 8%nat eq_refl).
  - exact (Hin 0x3e 4%nat eq_refl).
  - exact (Hb 0x40 eq_refl).
  - exact (Hb 0x20 eq_refl).
  - exact (Hin 0x38 12%nat eq_refl).
Qed.

Lemma data_cache_transparent_witness :
  exists s, do_ops example_ops (Cache_Init empty_cache, cache_example_memory) =
    Some ([[]; [3; 4; 5; 6]; []; []; [0; 0; 0; 0; 1; 2; 3; 4; 5; 6; 7; 8]], s) /\
  forall b, cacheable cache_example_memory b ->
    memory_block (snd (FlushAll s)) b = memory_blocks (snd (spec_ops example_ops (fun _ => 0))) b.
Proof.
  exact (data_cache_transparent empty_cache cache_example_memory (fun _ => 0) example_ops
    example_memory_ok example_cleared example_ops_in_memory).
Defined.

Lemma cache_block_operations_witness :
  lookup_way 0x40 cache_example_memory (fst (Cache_Flush 0x44 (Cache_Touch 0x50 false (Cache_Init empty_cache, cache_example_memory)))) = 0xff.
Proof.
  destruct (Cache_Touch 0x50 false (Cache_Init empty_cache, cache_example_memory)) as [c m] eqn:E.
  assert (H : holds cache_example_memory (memory_blocks (fun _ => 0)) (c, m)).
  { rewrite <- E. apply Touch_spec; [exact example_holds|]. apply example_cacheable; [vm_compute; split; done || discriminate | done]. }
  refine (proj2 (proj2 (proj1 (proj2 (cache_block_operations cache_example_memory (memory_blocks (fun _ => 0)) c m 0x44 H _))))).
  apply example_cacheable; [vm_compute; split; done || discriminate | done].
Defined.

(** The instruction cache is on in HID0. *)
Definition cache_example_ppc : PPCState :=
  mkPPC 0 0 ∅ {[ SPR_HID0 := 0x8000 ]} 0 0 0 0 ∅ 0 0 0 ∅ false 0 0 ∅ ∅.

Lemma icbi_refetches_witness :
  exists s, ReadInstruction false 0 cache_example_ppc 0x44 (ICache_Invalidate 0x44 (Cache_Init empty_cache, cache_example_memory)) =
    Some (Read_U32 0x44 cache_example_memory, s).
Proof.
  apply (icbi_refetches cache_example_memory (memory_blocks (fun _ => 0)) (Cache_Init empty_cache) cache_example_memory 0x44 0 cache_example_ppc false
    example_holds); [vm_compute; split; done || discriminate | reflexivity |].
  apply example_cacheable; [vm_compute; split; done || discriminate | done].
Defined.

(** A set whose ways are all valid. *)
Definition full_set : Cache := mkCache ∅ ∅ ∅ {[ 3 := 0xff ]} ∅ ∅ ∅ ∅.

Lemma recently_used_survives_witness :
  let victim := choose_way 3 (update_plru 3 5 (update_plru 3 0 (update_plru 3 2 full_set))) in
  victim = 3 /\ victim <> 2 /\ victim <> 0 /\ victim <> 5.
Proof.
  assert (Hv : arr_ok u8 (valid full_set)).
  { apply (arr_ok_aupd u8 ∅ 3 0xff); [apply (arr_ok_empty u8) |]; range_lia. }
  pose proof (recently_used_survives full_set 3 2 0 5 Hv ltac:(vm_compute; split; done || discriminate)
    ltac:(lia) ltac:(lia) ltac:(lia)) as H.
  split; [vm_compute; reflexivity|]. exact (proj1 (proj2 (proj2 H)) eq_refl).
Defined.
