(* ===== verification/MMU.v ===== *)
(** Memory management ([Core/PowerPC/MMU.cpp] and [.h]): block address translation, the page
    tables with the TLB, and the accesses of the CPU to memory, the locked cache and the
    devices, with the exceptions of those that fail.  The watchpoints of the debugger and the
    host's fastmem arena are not modelled. *)
From stdpp Require Import base tactics option list gmap.
From Stdlib Require Import ZArith Lia Bool.
From S2P Require Import Prelude Memmap PowerPC Gekko PPCCache.

#[local] Open Scope Z_scope.

Abbreviation BAT_INDEX_SHIFT := 17 (only parsing).
Abbreviation BAT_PAGE_SIZE := 0x20000 (only parsing).
Abbreviation BAT_MAPPED_BIT := 1 (only parsing).
Abbreviation BAT_PHYSICAL_BIT := 2 (only parsing).
Abbreviation BAT_WI_BIT := 4 (only parsing).
Abbreviation BAT_RESULT_MASK := 0xFFFFFFF8 (only parsing).
Abbreviation HW_PAGE_MASK := 0xFFF (only parsing).
Abbreviation HW_PAGE_INDEX_SHIFT := 12 (only parsing).
Abbreviation HW_PAGE_INDEX_MASK := 0x3f (only parsing).

Abbreviation SPR_SDR := 25 (only parsing).
Abbreviation SPR_IBAT0U := 528 (only parsing).
Abbreviation SPR_DBAT0U := 536 (only parsing).
Abbreviation SPR_IBAT4U := 560 (only parsing).
Abbreviation SPR_DBAT4U := 568 (only parsing).
Abbreviation SPR_HID4 := 1011 (only parsing).

Abbreviation L1_CACHE_SIZE := 0x40000 (only parsing).
Abbreviation GATHER_PIPE_PHYSICAL_ADDRESS := 0x0C008000 (only parsing).

Abbreviation INVALID_TAG := 0xffffffff (only parsing).

Inductive XCheckTLBFlag : Type := NoException | Read | Write | Opcode | OpcodeNoException.

#[export] Instance XCheckTLBFlag_eq_dec : EqDecision XCheckTLBFlag.
Proof. solve_decision. Defined.

Definition IsOpcodeFlag (flag : XCheckTLBFlag) : bool :=
  match flag with Opcode | OpcodeNoException => true | _ => false end.
Definition IsNoExceptionFlag (flag : XCheckTLBFlag) : bool :=
  match flag with NoException | OpcodeNoException => true | _ => false end.
Definition is_read (flag : XCheckTLBFlag) : bool := bool_decide (flag = Read).
Definition is_write (flag : XCheckTLBFlag) : bool := bool_decide (flag = Write).

(** * State

    A TLB entry has two ways, here a record each. *)
Record TLBWay : Type := mkWay { way_tag : Z; way_paddr : Z; way_vsid : Z; way_pte : Z }.
Record TLBEntry : Type := mkTLB { way0 : TLBWay; way1 : TLBWay; recent : Z }.

Definition empty_way : TLBWay := {| way_tag := INVALID_TAG; way_paddr := 0; way_vsid := 0; way_pte := 0 |}.
Definition empty_entry : TLBEntry := {| way0 := empty_way; way1 := empty_way; recent := 0 |}.

(** What the MMU acts on: the CPU and its caches, the memories (the locked cache is always
    there, the fake virtual memory only where there is no MMU mode), the tables, and the
    devices behind the addresses that are not memory. *)
Record MMUState {dev : Type} : Type := mkMMU {
  mm_ppc : PPCState;
  mm_memory : MemoryManager;
  mm_l1_cache : arr;
  mm_fake_vmem : option arr;
  mm_itlb : gmap Z TLBEntry;
  mm_dtlb : gmap Z TLBEntry;
  pagetable_base : Z;
  pagetable_hashmask : Z;
  m_ibat_table : arr;
  m_dbat_table : arr;
  mm_iCache : Cache;
  mm_dCache : Cache;
  m_enable_dcache : bool;
  mm_disable_icache : bool;
  mm_wii : bool;
  mm_mmu_mode : bool;
  mm_pause_on_panic : bool;
  mm_dev : dev
}.
Arguments MMUState dev : clear implicits.

Definition u_ppc {dev} : field (MMUState dev) PPCState := Field mm_ppc (fun v s => mkMMU dev v (mm_memory s) (mm_l1_cache s) (mm_fake_vmem s) (mm_itlb s) (mm_dtlb s) (pagetable_base s) (pagetable_hashmask s) (m_ibat_table s) (m_dbat_table s) (mm_iCache s) (mm_dCache s) (m_enable_dcache s) (mm_disable_icache s) (mm_wii s) (mm_mmu_mode s) (mm_pause_on_panic s) (mm_dev s)).
Definition u_memory {dev} : field (MMUState dev) MemoryManager := Field mm_memory (fun v s => mkMMU dev (mm_ppc s) v (mm_l1_cache s) (mm_fake_vmem s) (mm_itlb s) (mm_dtlb s) (pagetable_base s) (pagetable_hashmask s) (m_ibat_table s) (m_dbat_table s) (mm_iCache s) (mm_dCache s) (m_enable_dcache s) (mm_disable_icache s) (mm_wii s) (mm_mmu_mode s) (mm_pause_on_panic s) (mm_dev s)).
Definition u_l1_cache {dev} : field (MMUState dev) arr := Field mm_l1_cache (fun v s => mkMMU dev (mm_ppc s) (mm_memory s) v (mm_fake_vmem s) (mm_itlb s) (mm_dtlb s) (pagetable_base s) (pagetable_hashmask s) (m_ibat_table s) (m_dbat_table s) (mm_iCache s) (mm_dCache s) (m_enable_dcache s) (mm_disable_icache s) (mm_wii s) (mm_mmu_mode s) (mm_pause_on_panic s) (mm_dev s)).
Definition u_fake_vmem {dev} : field (MMUState dev) (option arr) := Field mm_fake_vmem (fun v s => mkMMU dev (mm_ppc s) (mm_memory s) (mm_l1_cache s) v (mm_itlb s) (mm_dtlb s) (pagetable_base s) (pagetable_hashmask s) (m_ibat_table s) (m_dbat_table s) (mm_iCache s) (mm_dCache s) (m_enable_dcache s) (mm_disable_icache s) (mm_wii s) (mm_mmu_mode s) (mm_pause_on_panic s) (mm_dev s)).
Definition u_itlb {dev} : field (MMUState dev) (gmap Z TLBEntry) := Field mm_itlb (fun v s => mkMMU dev (mm_ppc s) (mm_memory s) (mm_l1_cache s) (mm_fake_vmem s) v (mm_dtlb s) (pagetable_base s) (pagetable_hashmask s) (m_ibat_table s) (m_dbat_table s) (mm_iCache s) (mm_dCache s) (m_enable_dcache s) (mm_disable_icache s) (mm_wii s) (mm_mmu_mode s) (mm_pause_on_panic s) (mm_dev s)).
Definition u_dtlb {dev} : field (MMUState dev) (gmap Z TLBEntry) := Field mm_dtlb (fun v s => mkMMU dev (mm_ppc s) (mm_memory s) (mm_l1_cache s) (mm_fake_vmem s) (mm_itlb s) v (pagetable_base s) (pagetable_hashmask s) (m_ibat_table s) (m_dbat_table s) (mm_iCache s) (mm_dCache s) (m_enable_dcache s) (mm_disable_icache s) (mm_wii s) (mm_mmu_mode s) (mm_pause_on_panic s) (mm_dev s)).
Definition u_pagetable_base {dev} : field (MMUState dev) Z := Field pagetable_base (fun v s => mkMMU dev (mm_ppc s) (mm_memory s) (mm_l1_cache s) (mm_fake_vmem s) (mm_itlb s) (mm_dtlb s) v (pagetable_hashmask s) (m_ibat_table s) (m_dbat_table s) (mm_iCache s) (mm_dCache s) (m_enable_dcache s) (mm_disable_icache s) (mm_wii s) (mm_mmu_mode s) (mm_pause_on_panic s) (mm_dev s)).
Definition u_pagetable_hashmask {dev} : field (MMUState dev) Z := Field pagetable_hashmask (fun v s => mkMMU dev (mm_ppc s) (mm_memory s) (mm_l1_cache s) (mm_fake_vmem s) (mm_itlb s) (mm_dtlb s) (pagetable_base s) v (m_ibat_table s) (m_dbat_table s) (mm_iCache s) (mm_dCache s) (m_enable_dcache s) (mm_disable_icache s) (mm_wii s) (mm_mmu_mode s) (mm_pause_on_panic s) (mm_dev s)).
Definition u_ibat_table {dev} : field (MMUState dev) arr := Field m_ibat_table (fun v s => mkMMU dev (mm_ppc s) (mm_memory s) (mm_l1_cache s) (mm_fake_vmem s) (mm_itlb s) (mm_dtlb s) (pagetable_base s) (pagetable_hashmask s) v (m_dbat_table s) (mm_iCache s) (mm_dCache s) (m_enable_dcache s) (mm_disable_icache s) (mm_wii s) (mm_mmu_mode s) (mm_pause_on_panic s) (mm_dev s)).
Definition u_dbat_table {dev} : field (MMUState dev) arr := Field m_dbat_table (fun v s => mkMMU dev (mm_ppc s) (mm_memory s) (mm_l1_cache s) (mm_fake_vmem s) (mm_itlb s) (mm_dtlb s) (pagetable_base s) (pagetable_hashmask s) (m_ibat_table s) v (mm_iCache s) (mm_dCache s) (m_enable_dcache s) (mm_disable_icache s) (mm_wii s) (mm_mmu_mode s) (mm_pause_on_panic s) (mm_dev s)).
Definition u_iCache {dev} : field (MMUState dev) Cache := Field mm_iCache (fun v s => mkMMU dev (mm_ppc s) (mm_memory s) (mm_l1_cache s) (mm_fake_vmem s) (mm_itlb s) (mm_dtlb s) (pagetable_base s) (pagetable_hashmask s) (m_ibat_table s) (m_dbat_table s) v (mm_dCache s) (m_enable_dcache s) (mm_disable_icache s) (mm_wii s) (mm_mmu_mode s) (mm_pause_on_panic s) (mm_dev s)).
Definition u_dCache {dev} : field (MMUState dev) Cache := Field mm_dCache (fun v s => mkMMU dev (mm_ppc s) (mm_memory s) (mm_l1_cache s) (mm_fake_vmem s) (mm_itlb s) (mm_dtlb s) (pagetable_base s) (pagetable_hashmask s) (m_ibat_table s) (m_dbat_table s) (mm_iCache s) v (m_enable_dcache s) (mm_disable_icache s) (mm_wii s) (mm_mmu_mode s) (mm_pause_on_panic s) (mm_dev s)).
Definition u_enable_dcache {dev} : field (MMUState dev) bool := Field m_enable_dcache (fun v s => mkMMU dev (mm_ppc s) (mm_memory s) (mm_l1_cache s) (mm_fake_vmem s) (mm_itlb s) (mm_dtlb s) (pagetable_base s) (pagetable_hashmask s) (m_ibat_table s) (m_dbat_table s) (mm_iCache s) (mm_dCache s) v (mm_disable_icache s) (mm_wii s) (mm_mmu_mode s) (mm_pause_on_panic s) (mm_dev s)).
Definition u_disable_icache {dev} : field (MMUState dev) bool := Field mm_disable_icache (fun v s => mkMMU dev (mm_ppc s) (mm_memory s) (mm_l1_cache s) (mm_fake_vmem s) (mm_itlb s) (mm_dtlb s) (pagetable_base s) (pagetable_hashmask s) (m_ibat_table s) (m_dbat_table s) (mm_iCache s) (mm_dCache s) (m_enable_dcache s) v (mm_wii s) (mm_mmu_mode s) (mm_pause_on_panic s) (mm_dev s)).
Definition u_wii {dev} : field (MMUState dev) bool := Field mm_wii (fun v s => mkMMU dev (mm_ppc s) (mm_memory s) (mm_l1_cache s) (mm_fake_vmem s) (mm_itlb s) (mm_dtlb s) (pagetable_base s) (pagetable_hashmask s) (m_ibat_table s) (m_dbat_table s) (mm_iCache s) (mm_dCache s) (m_enable_dcache s) (mm_disable_icache s) v (mm_mmu_mode s) (mm_pause_on_panic s) (mm_dev s)).
Definition u_mmu_mode {dev} : field (MMUState dev) bool := Field mm_mmu_mode (fun v s => mkMMU dev (mm_ppc s) (mm_memory s) (mm_l1_cache s) (mm_fake_vmem s) (mm_itlb s) (mm_dtlb s) (pagetable_base s) (pagetable_hashmask s) (m_ibat_table s) (m_dbat_table s) (mm_iCache s) (mm_dCache s) (m_enable_dcache s) (mm_disable_icache s) (mm_wii s) v (mm_pause_on_panic s) (mm_dev s)).
Definition u_pause_on_panic {dev} : field (MMUState dev) bool := Field mm_pause_on_panic (fun v s => mkMMU dev (mm_ppc s) (mm_memory s) (mm_l1_cache s) (mm_fake_vmem s) (mm_itlb s) (mm_dtlb s) (pagetable_base s) (pagetable_hashmask s) (m_ibat_table s) (m_dbat_table s) (mm_iCache s) (mm_dCache s) (m_enable_dcache s) (mm_disable_icache s) (mm_wii s) (mm_mmu_mode s) v (mm_dev s)).
Definition u_dev {dev} : field (MMUState dev) dev := Field mm_dev (fun v s => mkMMU dev (mm_ppc s) (mm_memory s) (mm_l1_cache s) (mm_fake_vmem s) (mm_itlb s) (mm_dtlb s) (pagetable_base s) (pagetable_hashmask s) (m_ibat_table s) (m_dbat_table s) (mm_iCache s) (mm_dCache s) (m_enable_dcache s) (mm_disable_icache s) (mm_wii s) (mm_mmu_mode s) (mm_pause_on_panic s) v).

(** The devices: memory-mapped registers, the frame buffer, the gather pipe, the interrupt of
    an unaligned uncached write and the stop of a panic.  An access has its size in bytes. *)
Class Bus (dev : Type) : Type := {
  mmio_read : Z -> Z -> dev -> Z * dev;
  mmio_write : Z -> Z -> Z -> dev -> dev;
  efb_peek : bool -> Z -> Z -> dev -> Z * dev;
  efb_poke : bool -> Z -> Z -> Z -> dev -> dev;
  gather_pipe_write : Z -> Z -> dev -> dev;
  pi_interrupt : dev -> dev;
  cpu_break : dev -> dev;
  (* what is in a local variable that was not initialised *)
  uninitialised : dev -> Z
}.

Section MMU.
Context {dev : Type} {bus : Bus dev}.
Implicit Types (s : MMUState dev).

Definition on_ppc (f : PPCState -> PPCState) s : MMUState dev := fset u_ppc (f (mm_ppc s)) s.
Definition on_dev (f : dev -> dev) s : MMUState dev := fset u_dev (f (mm_dev s)) s.
Definition msr_DR s : bool := Z.testbit (msr (mm_ppc s)) 4.
Definition msr_IR s : bool := Z.testbit (msr (mm_ppc s)) 5.
Definition hid0_DLOCK s : bool := Z.testbit (get_spr SPR_HID0 (mm_ppc s)) 12.

(** * Exceptions *)

Definition panic s : MMUState dev :=
  if mm_pause_on_panic s then
    on_ppc (raise_exception (EXCEPTION_DSI .| EXCEPTION_FAKE_MEMCHECK_HIT)) (on_dev cpu_break s)
  else s.

Definition GenerateDSIException (effective_address : Z) (write : bool) s : MMUState dev :=
  if negb (mm_mmu_mode s) then panic s
  else
    on_ppc (fun p =>
      let p := set_spr SPR_DSISR (if write then (1 .<< 30) .| (1 .<< 25) else 1 .<< 30) p in
      let p := set_spr SPR_DAR effective_address p in
      raise_exception EXCEPTION_DSI p) s.

Definition GenerateISIException (effective_address : Z) s : MMUState dev :=
  on_ppc (fun p => raise_exception EXCEPTION_ISI (fset p_npc effective_address p)) s.

(** * Block address translation *)

Definition BAT_VP (u : Z) : bool := Z.testbit u 0.
Definition BAT_VS (u : Z) : bool := Z.testbit u 1.
Definition BAT_BL (u : Z) : Z := bits 2 11 u.
Definition BAT_BEPI (u : Z) : Z := bits 17 15 u.
Definition BAT_BRPN (l : Z) : Z := bits 17 15 l.
Definition BAT_WIMG (l : Z) : Z := bits 3 4 l.

(** Write-through or cache-inhibited. *)
Definition wimg_wi (wimg : Z) : bool := negb ((wimg .& 12) =? 0).

(** Whether a block can be accessed without a check ([BAT_PHYSICAL_BIT]). *)
Definition bat_physical (physical_address : Z) s : bool :=
  if bool_decide (is_Some (mm_fake_vmem s)) && ((physical_address .& 0xFE000000) =? 0x7E000000) then true
  else if physical_address <? m_ram_size_real (mm_memory s) then true
  else if bool_decide (is_Some (m_exram (mm_memory s))) && (physical_address .>> 28 =? 1) &&
          ((physical_address .& 0x0FFFFFFF) <? m_exram_size_real (mm_memory s)) then true
  else (physical_address .>> 28 =? 0xE) && (physical_address <? 0xE0000000 + L1_CACHE_SIZE).

Definition bat_entry (batu batl j : Z) s : Z :=
  let physical_address := to_u32 ((BAT_BRPN batl .| j) .<< BAT_INDEX_SHIFT) in
  let wi := wimg_wi (BAT_WIMG batl) in
  physical_address .|
    (BAT_MAPPED_BIT .| (if wi then BAT_WI_BIT else if bat_physical physical_address s then BAT_PHYSICAL_BIT else 0)).

(** A turn of the loop over the bit patterns of the mask. *)
Definition bat_pattern (batu batl : Z) s (bat_table : arr) (j : Z) : arr :=
  if (j .& BAT_BL batu) =? j then
    let virtual_address := to_u32 ((BAT_BEPI batu .| j) .<< BAT_INDEX_SHIFT) in
    aupd bat_table (virtual_address .>> BAT_INDEX_SHIFT) (bat_entry batu batl j s)
  else bat_table.

Definition UpdateBAT (base_spr : Z) s (bat_table : arr) (i : Z) : arr :=
  let spr := base_spr + i * 2 in
  let batu := get_spr spr (mm_ppc s) in
  let batl := get_spr (spr + 1) (mm_ppc s) in
  if negb (BAT_VS batu) && negb (BAT_VP batu) then bat_table
  else foldl (bat_pattern batu batl s) bat_table (map Z.of_nat (seq 0 (Z.to_nat (BAT_BL batu + 1)))).

Definition UpdateBATs (bat_table : arr) (base_spr : Z) s : arr := foldl (UpdateBAT base_spr s) bat_table [0; 1; 2; 3].

Definition UpdateFakeMMUBat (bat_table : arr) (start_addr : Z) : arr :=
  foldl (fun bat_table i =>
      let e_address := i + (start_addr .>> BAT_INDEX_SHIFT) in
      let p_address := 0x7E000000 .| (to_u32 (i .<< BAT_INDEX_SHIFT) .& m_fakevmem_mask) in
      aupd bat_table e_address (p_address .| (BAT_MAPPED_BIT .| BAT_PHYSICAL_BIT)))
    bat_table (map Z.of_nat (seq 0 (Z.to_nat (0x10000000 .>> BAT_INDEX_SHIFT)))).

Definition updated_bats (base_spr base_spr_extended : Z) s : arr :=
  let t := UpdateBATs ∅ base_spr s in
  let extended_bats := mm_wii s && Z.testbit (get_spr SPR_HID4 (mm_ppc s)) 25 in
  let t := if extended_bats then UpdateBATs t base_spr_extended s else t in
  match mm_fake_vmem s with
  | Some _ => UpdateFakeMMUBat (UpdateFakeMMUBat t 0x40000000) 0x70000000
  | None => t
  end.

Definition DBATUpdated s : MMUState dev := fset u_dbat_table (updated_bats SPR_DBAT0U SPR_DBAT4U s) s.
Definition IBATUpdated s : MMUState dev := fset u_ibat_table (updated_bats SPR_IBAT0U SPR_IBAT4U s) s.

(** The physical address and whether it is write-through or cache-inhibited. *)
Definition TranslateBatAddress (bat_table : arr) (address : Z) : option (Z * bool) :=
  let bat_result := aat bat_table (address .>> BAT_INDEX_SHIFT) in
  if (bat_result .& BAT_MAPPED_BIT) =? 0 then None
  else Some ((bat_result .& BAT_RESULT_MASK) .| (address .& (BAT_PAGE_SIZE - 1)), negb ((bat_result .& BAT_WI_BIT) =? 0)).

(** * Reads of physical memory *)

(** [bswap] of an integer of [n] bytes. *)
Definition bswap (n : nat) (x : Z) : Z := of_le_bytes (rev (le_bytes n x)).

Definition EFB_Read (addr : Z) s : Z * MMUState dev :=
  let x := (addr .& 0xfff) .>> 2 in
  let y := (addr .>> 12) .& 0x3ff in
  if negb ((addr .& 0x00800000) =? 0) then (0, s)
  else
    let '(var, d) := efb_peek (negb ((addr .& 0x00400000) =? 0)) x y (mm_dev s) in
    (var, fset u_dev d s).

Definition EFB_Write (data addr : Z) s : MMUState dev :=
  let x := (addr .& 0xfff) .>> 2 in
  let y := (addr .>> 12) .& 0x3ff in
  if negb ((addr .& 0x00800000) =? 0) then s
  else on_dev (efb_poke (negb ((addr .& 0x00400000) =? 0)) x y data) s.

Definition dcache_read (address : Z) (buffer : list Z) (locked : bool) s : list Z * MMUState dev :=
  match Cache_Read address buffer locked (mm_dCache s, mm_memory s) with
  | Some (bytes, (c, m)) => (bytes, fset u_dCache c (fset u_memory m s))
  | None => (buffer, s)
  end.

Definition dcache_write (address : Z) (bytes : list Z) (locked : bool) s : MMUState dev :=
  match Cache_Write address bytes locked (mm_dCache s, mm_memory s) with
  | Some (c, m) => fset u_dCache c (fset u_memory m s)
  | None => s
  end.

(** The address is in the second memory. *)
Definition in_exram (em_address : Z) s : bool :=
  bool_decide (is_Some (m_exram (mm_memory s))) && (em_address .>> 28 =? 1) &&
  ((em_address .& 0x0FFFFFFF) <? m_exram_size_real (mm_memory s)).

Definition in_l1_cache (em_address : Z) : bool :=
  (em_address .>> 28 =? 0xE) && (em_address <? 0xE0000000 + L1_CACHE_SIZE).

(** What follows the translation in [ReadFromHardware], for an integer of [n] bytes. *)
Definition ReadPhysical (flag : XCheckTLBFlag) (n : nat) (em_address : Z) (wi : bool) s : Z * MMUState dev :=
  if is_read flag && ((em_address .& 0xF8000000) =? 0x08000000) then
    if em_address <? 0x0c000000 then
      let '(v, s) := EFB_Read em_address s in (wrapu (8 * Z.of_nat n) v, s)
    else
      let '(v, d) := mmio_read (Z.of_nat n) em_address (mm_dev s) in (v, fset u_dev d s)
  else if in_l1_cache em_address then
    (bswap n (of_le_bytes (aslice (mm_l1_cache s) (em_address .& 0x0FFFFFFF) n)), s)
  else if (em_address .& 0xF8000000) =? 0 then
    let em_address := em_address .& m_ram_mask (mm_memory s) in
    if negb (m_enable_dcache s) || wi then
      (bswap n (of_le_bytes (aslice (m_ram (mm_memory s)) em_address n)), s)
    else
      let '(bytes, s) := dcache_read em_address (le_bytes n (uninitialised (mm_dev s))) (hid0_DLOCK s || negb (is_read flag)) s in
      (bswap n (of_le_bytes bytes), s)
  else if in_exram em_address s then
    let em_address := em_address .& 0x0FFFFFFF in
    if negb (m_enable_dcache s) || wi then
      (bswap n (of_le_bytes (aslice (region_bytes EXRAM (mm_memory s)) em_address n)), s)
    else
      let '(bytes, s) := dcache_read (em_address + 0x10000000) (le_bytes n (uninitialised (mm_dev s)))
                           (hid0_DLOCK s || negb (is_read flag)) s in
      (bswap n (of_le_bytes bytes), s)
  else
    match mm_fake_vmem s with
    | Some v =>
        if (em_address .& 0xFE000000) =? 0x7E000000 then
          (bswap n (of_le_bytes (aslice v (em_address .& m_fakevmem_mask) n)), s)
        else (0, panic s)
    | None => (0, panic s)
    end.

(** A read of [n] bytes is in one page. *)
Definition one_page (em_address n : Z) : bool :=
  (em_address .& to_u32 (Z.lnot HW_PAGE_MASK)) =? (to_u32 (em_address + n - 1) .& to_u32 (Z.lnot HW_PAGE_MASK)).

(** Reads of a page table entry: [ReadFromHardware<..., u32, true>], which an aligned word
    never crosses a page in. *)
Definition ReadPTE (flag : XCheckTLBFlag) (addr : Z) s : Z * MMUState dev :=
  ReadPhysical (if IsNoExceptionFlag flag then NoException else Read) 4 addr false s.

(** * The TLB *)

Definition PTE_C (pte2 : Z) : bool := Z.testbit pte2 7.
Definition PTE_WIMG (pte2 : Z) : Z := bits 3 4 pte2.
Definition PTE_RPN (pte2 : Z) : Z := bits 12 20 pte2.
Definition set_C (pte2 : Z) : Z := pte2 .| 0x80.
Definition set_R (pte2 : Z) : Z := pte2 .| 0x100.

Inductive TLBLookupResult : Type := Found (paddr : Z) (wi : bool) | NotFound | UpdateC.

Definition tlb (flag : XCheckTLBFlag) s : gmap Z TLBEntry := if IsOpcodeFlag flag then mm_itlb s else mm_dtlb s.
Definition set_tlb (flag : XCheckTLBFlag) (index : Z) (e : TLBEntry) s : MMUState dev :=
  if IsOpcodeFlag flag then fset u_itlb (<[index := e]> (mm_itlb s)) s else fset u_dtlb (<[index := e]> (mm_dtlb s)) s.
Definition tlb_entry (flag : XCheckTLBFlag) (index : Z) s : TLBEntry := default empty_entry (tlb flag s !! index).

Definition way_hit (tag vsid : Z) (w : TLBWay) : bool := (way_tag w =? tag) && (way_vsid w =? vsid).
Definition with_pte (pte : Z) (w : TLBWay) : TLBWay :=
  {| way_tag := way_tag w; way_paddr := way_paddr w; way_vsid := way_vsid w; way_pte := pte |}.

(** The entry of the way after a hit, and the result. *)
Definition hit_way (flag : XCheckTLBFlag) (vpa : Z) (w : TLBWay) : TLBLookupResult :=
  if is_write flag && negb (PTE_C (way_pte w)) then UpdateC
  else Found (way_paddr w .| (vpa .& 0xfff)) (wimg_wi (PTE_WIMG (way_pte w))).

Definition LookupTLBPageAddress (flag : XCheckTLBFlag) (vpa vsid : Z) s : TLBLookupResult * MMUState dev :=
  let tag := vpa .>> HW_PAGE_INDEX_SHIFT in
  let index := tag .& HW_PAGE_INDEX_MASK in
  let tlbe := tlb_entry flag index s in
  if way_hit tag vsid (way0 tlbe) then
    match hit_way flag vpa (way0 tlbe) with
    | UpdateC =>
        (UpdateC, set_tlb flag index {| way0 := with_pte (set_C (way_pte (way0 tlbe))) (way0 tlbe); way1 := way1 tlbe; recent := recent tlbe |} s)
    | r => (r, if IsNoExceptionFlag flag then s
               else set_tlb flag index {| way0 := way0 tlbe; way1 := way1 tlbe; recent := 0 |} s)
    end
  else if way_hit tag vsid (way1 tlbe) then
    match hit_way flag vpa (way1 tlbe) with
    | UpdateC =>
        (UpdateC, set_tlb flag index {| way0 := way0 tlbe; way1 := with_pte (set_C (way_pte (way1 tlbe))) (way1 tlbe); recent := recent tlbe |} s)
    | r => (r, if IsNoExceptionFlag flag then s
               else set_tlb flag index {| way0 := way0 tlbe; way1 := way1 tlbe; recent := 1 |} s)
    end
  else (NotFound, s).

Definition UpdateTLBEntry (flag : XCheckTLBFlag) (pte2 address vsid : Z) s : MMUState dev :=
  if IsNoExceptionFlag flag then s
  else
    let tag := address .>> HW_PAGE_INDEX_SHIFT in
    let index := tag .& HW_PAGE_INDEX_MASK in
    let tlbe := tlb_entry flag index s in
    let w := {| way_tag := tag; way_paddr := to_u32 (PTE_RPN pte2 .<< HW_PAGE_INDEX_SHIFT); way_vsid := vsid; way_pte := pte2 |} in
    set_tlb flag index
      (if (recent tlbe =? 0) && negb (way_tag (way0 tlbe) =? INVALID_TAG)
       then {| way0 := way0 tlbe; way1 := w; recent := 1 |}
       else {| way0 := w; way1 := way1 tlbe; recent := 0 |}) s.

(** [TLBEntry::Invalidate] leaves all but the tags. *)
Definition invalid_way (w : TLBWay) : TLBWay :=
  {| way_tag := INVALID_TAG; way_paddr := way_paddr w; way_vsid := way_vsid w; way_pte := way_pte w |}.
Definition invalid_entry (e : TLBEntry) : TLBEntry :=
  {| way0 := invalid_way (way0 e); way1 := invalid_way (way1 e); recent := recent e |}.

Definition InvalidateTLBEntry (address : Z) s : MMUState dev :=
  let entry_index := (address .>> HW_PAGE_INDEX_SHIFT) .& HW_PAGE_INDEX_MASK in
  let s := set_tlb Read entry_index (invalid_entry (tlb_entry Read entry_index s)) s in
  set_tlb Opcode entry_index (invalid_entry (tlb_entry Opcode entry_index s)) s.

(** * The page tables *)

Definition SDRUpdated s : MMUState dev :=
  let sdr := get_spr SPR_SDR (mm_ppc s) in
  let htabmask := bits 0 9 sdr in
  let htaborg := bits 16 16 sdr in
  fset u_pagetable_base (htaborg .<< 16) (fset u_pagetable_hashmask ((htabmask .<< 10) .| 0x3ff) s).

Inductive TranslateAddressResultEnum : Type :=
| BAT_TRANSLATED
| PAGE_TABLE_TRANSLATED
| DIRECT_STORE_SEGMENT
| PAGE_FAULT.

Record TranslateAddressResult : Type := mkResult { ta_result : TranslateAddressResultEnum; ta_address : Z; ta_wi : bool }.

Definition Success (r : TranslateAddressResult) : bool :=
  match ta_result r with BAT_TRANSLATED | PAGE_TABLE_TRANSLATED => true | _ => false end.

(** [UPTE_Lo] of an entry that is valid. *)
Definition pte_lo (vsid h api : Z) : Z := api .| ((h .<< 6) .| ((vsid .<< 7) .| (1 .<< 31))).

Definition accessed (flag : XCheckTLBFlag) (pte2 : Z) : Z :=
  match flag with
  | NoException | OpcodeNoException => pte2
  | Read | Opcode => set_R pte2
  | Write => set_C (set_R pte2)
  end.

Definition Write_U32_memory (value address : Z) (m : MemoryManager) : MemoryManager :=
  CopyToEmu address (le_bytes 4 (swap32 value)) m.

(** The entry that matches: the accessed bits, the TLB. *)
Definition found_pte (flag : XCheckTLBFlag) (res : TLBLookupResult) (address vsid pteg_addr : Z) s : TranslateAddressResult * MMUState dev :=
  let '(pte2, s) := ReadPTE flag (pteg_addr + 4) s in
  let pte2 := accessed flag pte2 in
  let s := if IsNoExceptionFlag flag then s
           else fset u_memory (Write_U32_memory pte2 (pteg_addr + 4) (mm_memory s)) s in
  let s := match res with UpdateC => s | _ => UpdateTLBEntry flag pte2 address vsid s end in
  ({| ta_result := PAGE_TABLE_TRANSLATED; ta_address := to_u32 (PTE_RPN pte2 .<< 12) .| (address .& 0xfff); ta_wi := false |}, s).

(** The loop over the eight entries of a group. *)
Fixpoint search_pteg (entries : nat) (flag : XCheckTLBFlag) (pte1 pteg_addr : Z) s : option Z * MMUState dev :=
  match entries with
  | O => (None, s)
  | S entries =>
      let '(pteg, s) := ReadPTE flag pteg_addr s in
      if pte1 =? pteg then (Some pteg_addr, s) else search_pteg entries flag pte1 (to_u32 (pteg_addr + 8)) s
  end.

Definition pteg_address (hash : Z) s : Z := to_u32 ((hash .& pagetable_hashmask s) .<< 6) .| pagetable_base s.

(** The result has no [wi], whatever the entry says. *)
Definition TranslatePageAddress (flag : XCheckTLBFlag) (address : Z) s : TranslateAddressResult * MMUState dev :=
  let sr := aat (ppc_sr (mm_ppc s)) (bits 28 4 address) in
  let VSID := bits 0 24 sr in
  let '(res, s) := LookupTLBPageAddress flag address VSID s in
  match res with
  | Found paddr _ => ({| ta_result := PAGE_TABLE_TRANSLATED; ta_address := paddr; ta_wi := false |}, s)
  | _ =>
      if Z.testbit sr 31 then ({| ta_result := DIRECT_STORE_SEGMENT; ta_address := 0; ta_wi := false |}, s)
      else if IsOpcodeFlag flag && Z.testbit sr 28 then ({| ta_result := PAGE_FAULT; ta_address := 0; ta_wi := false |}, s)
      else
        let page_index := bits 12 16 address in
        let api := bits 22 6 address in
        let hash := VSID .^ page_index in
        let '(found, s) := search_pteg 8 flag (pte_lo VSID 0 api) (pteg_address hash s) s in
        match found with
        | Some pteg_addr => found_pte flag res address VSID pteg_addr s
        | None =>
            let '(found, s) := search_pteg 8 flag (pte_lo VSID 1 api) (pteg_address (to_u32 (Z.lnot hash)) s) s in
            match found with
            | Some pteg_addr => found_pte flag res address VSID pteg_addr s
            | None => ({| ta_result := PAGE_FAULT; ta_address := 0; ta_wi := false |}, s)
            end
        end
  end.

Definition TranslateAddress (flag : XCheckTLBFlag) (address : Z) s : TranslateAddressResult * MMUState dev :=
  match TranslateBatAddress (if IsOpcodeFlag flag then m_ibat_table s else m_dbat_table s) address with
  | Some (address, wi) => ({| ta_result := BAT_TRANSLATED; ta_address := address; ta_wi := wi |}, s)
  | None => TranslatePageAddress flag address s
  end.

End MMU.
