(* ===== verification/MMUAccess.v ===== *)
(** Accesses through the MMU ([Core/PowerPC/MMU.cpp]): reads and writes of the CPU and of the
    host, instruction fetches, the cache instructions and the transfers of the locked cache. *)
From stdpp Require Import base tactics option list gmap.
From Stdlib Require Import ZArith Lia Bool.
From S2P Require Import Prelude Memmap PowerPC Gekko PPCCache MMU.

#[local] Open Scope Z_scope.

Section Access.
Context {dev : Type} {bus : Bus dev}.
Implicit Types (s : MMUState dev).

(** * Reads *)

(** An access within a page, translated unless [never_translate]. *)
Definition ReadInPage (flag : XCheckTLBFlag) (n : nat) (never_translate : bool) (em_address : Z) s : Z * MMUState dev :=
  if negb never_translate && (if IsOpcodeFlag flag then msr_IR s else msr_DR s) then
    let '(translated_addr, s) := TranslateAddress flag em_address s in
    if negb (Success translated_addr) then
      (0, if is_read flag then GenerateDSIException em_address false s else s)
    else ReadPhysical flag n (ta_address translated_addr) (ta_wi translated_addr) s
  else ReadPhysical flag n em_address false s.

(** The bytes one by one, from [i]: a [u8] never crosses a page. *)
Fixpoint ReadBytes (n : nat) (flag : XCheckTLBFlag) (never_translate : bool) (em_address i var : Z) s : Z * MMUState dev :=
  match n with
  | O => (var, s)
  | S n =>
      let '(b, s) := ReadInPage flag 1 never_translate (to_u32 (em_address + i)) s in
      ReadBytes n flag never_translate em_address (i + 1) (to_u64 (var .<< 8) .| b) s
  end.

Definition ReadFromHardware (flag : XCheckTLBFlag) (n : nat) (never_translate : bool) (em_address : Z) s : Z * MMUState dev :=
  if one_page em_address (Z.of_nat n) then ReadInPage flag n never_translate em_address s
  else
    let '(var, s) := ReadBytes n flag never_translate em_address 0 0 s in
    (wrapu (8 * Z.of_nat n) var, s).

Definition MMU_Read_U8 (address : Z) s := ReadFromHardware Read 1 false address s.
Definition MMU_Read_U16 (address : Z) s := ReadFromHardware Read 2 false address s.
Definition MMU_Read_U32 (address : Z) s := ReadFromHardware Read 4 false address s.
Definition MMU_Read_U64 (address : Z) s := ReadFromHardware Read 8 false address s.

(** * Writes *)

Definition rotr32 (x n : Z) : Z := let n := n .& 31 in to_u32 ((x .>> n) .| (x .<< (32 - n))).

(** [swap32(rotr(data, size * 8))] as bytes: the first [size] of them are the integer's. *)
Definition swapped_bytes (data size : Z) : list Z := take (Z.to_nat size) (le_bytes 4 (swap32 (rotr32 data (size * 8)))).

(** The bytes of a device, most significant first. *)
Fixpoint write_bytes_mmio (n : nat) (em_address data : Z) s : MMUState dev :=
  match n with
  | O => s
  | S n => write_bytes_mmio n (to_u32 (em_address + 1)) data
             (on_dev (mmio_write 1 em_address (wrapu 8 (data .>> (8 * Z.of_nat n)))) s)
  end.

Fixpoint write_bytes_gather (n : nat) (data : Z) s : MMUState dev :=
  match n with
  | O => s
  | S n => write_bytes_gather n data (on_dev (gather_pipe_write 1 (wrapu 8 (data .>> (8 * Z.of_nat n)))) s)
  end.

Definition direct_size (size : Z) : bool := (size =? 1) || (size =? 2) || (size =? 4).

(** What follows the translation in [WriteToHardware]; [narrow] is what a write of less than a
    word that is not cached does instead of the access to memory. *)
Definition WritePhysicalWith (narrow : MMUState dev -> MMUState dev)
    (flag : XCheckTLBFlag) (em_address data size : Z) (wi : bool) s : MMUState dev :=
  if is_write flag && ((em_address .& 0xFFFFF000) =? GATHER_PIPE_PHYSICAL_ADDRESS) then
    if direct_size size then on_dev (gather_pipe_write size (wrapu (8 * size) data)) s
    else write_bytes_gather (Z.to_nat size) data s
  else if is_write flag && ((em_address .& 0xF8000000) =? 0x08000000) then
    if em_address <? 0x0c000000 then EFB_Write data em_address s
    else if direct_size size then on_dev (mmio_write size em_address (wrapu (8 * size) data)) s
    else write_bytes_mmio (Z.to_nat size) em_address data s
  else if in_l1_cache em_address then
    fset u_l1_cache (aupd_list (mm_l1_cache s) (em_address .& 0x0FFFFFFF) (swapped_bytes data size)) s
  else if wi && ((size <? 4) || negb ((em_address .& 3) =? 0)) then narrow s
  else if (em_address .& 0xF8000000) =? 0 then
    let em_address := em_address .& m_ram_mask (mm_memory s) in
    let s := if m_enable_dcache s && negb wi then dcache_write em_address (swapped_bytes data size) (hid0_DLOCK s) s else s in
    if negb (m_enable_dcache s) || wi || negb (is_write flag) then
      fset u_memory (set_region RAM (aupd_list (m_ram (mm_memory s)) em_address (swapped_bytes data size)) (mm_memory s)) s
    else s
  else if in_exram em_address s then
    let em_address := em_address .& 0x0FFFFFFF in
    let s := if m_enable_dcache s && negb wi
             then dcache_write (em_address + 0x10000000) (swapped_bytes data size) (hid0_DLOCK s) s else s in
    if negb (m_enable_dcache s) || wi || negb (is_write flag) then
      fset u_memory (set_region EXRAM (aupd_list (region_bytes EXRAM (mm_memory s)) em_address (swapped_bytes data size)) (mm_memory s)) s
    else s
  else
    match mm_fake_vmem s with
    | Some v =>
        if (em_address .& 0xFE000000) =? 0x7E000000 then
          fset u_fake_vmem (Some (aupd_list v (em_address .& m_fakevmem_mask) (swapped_bytes data size))) s
        else panic s
    | None => panic s
    end.

(** Words, which are never narrow: the recursive call does not translate, so [wi] is false. *)
Definition WriteWord (flag : XCheckTLBFlag) (em_address data : Z) s : MMUState dev :=
  WritePhysicalWith (fun s => s) flag em_address data 4 false s.

Definition AlignDown (x a : Z) : Z := x - x mod a.
Definition AlignUp (x a : Z) : Z := AlignDown (x + a - 1) a.

(** The doublewords of a narrow write, with the data in both words of each. *)
Fixpoint write_doublewords (n : nat) (flag : XCheckTLBFlag) (addr rotated_data : Z) s : MMUState dev :=
  match n with
  | O => s
  | S n => write_doublewords n flag (to_u32 (addr + 8)) rotated_data
             (WriteWord flag (to_u32 (addr + 4)) rotated_data (WriteWord flag addr rotated_data s))
  end.

Definition WriteNarrow (flag : XCheckTLBFlag) (em_address data size : Z) s : MMUState dev :=
  let s := on_dev pi_interrupt s in
  let rotated_data := rotr32 data (((em_address .& 3) + size) * 8) in
  let start_addr := AlignDown em_address 8 in
  let end_addr := to_u32 (AlignUp (em_address + size) 8) in
  write_doublewords (Z.to_nat (to_u32 (end_addr - start_addr) / 8)) flag start_addr rotated_data s.

Definition WritePhysical (flag : XCheckTLBFlag) (em_address data size : Z) (wi : bool) s : MMUState dev :=
  WritePhysicalWith (WriteNarrow flag em_address data size) flag em_address data size wi s.

Definition WriteInPage (flag : XCheckTLBFlag) (never_translate : bool) (em_address data size : Z) s : MMUState dev :=
  if negb never_translate && msr_DR s then
    let '(translated_addr, s) := TranslateAddress flag em_address s in
    if negb (Success translated_addr) then
      if is_write flag then GenerateDSIException em_address true s else s
    else WritePhysical flag (ta_address translated_addr) data size (ta_wi translated_addr) s
  else WritePhysical flag em_address data size false s.

(** A write that crosses a page is two, neither of which does. *)
Definition WriteToHardware (flag : XCheckTLBFlag) (never_translate : bool) (em_address data size : Z) s : MMUState dev :=
  if one_page em_address size then WriteInPage flag never_translate em_address data size s
  else
    let em_address_end_page := to_u32 (em_address + size - 1) .& to_u32 (Z.lnot HW_PAGE_MASK) in
    let first_half_size := to_u32 (em_address_end_page - em_address) in
    let second_half_size := size - first_half_size in
    let s := WriteInPage flag never_translate em_address (rotr32 data (second_half_size * 8)) first_half_size s in
    WriteInPage flag never_translate em_address_end_page data second_half_size s.

Definition swap16 (x : Z) : Z := of_le_bytes (rev (le_bytes 2 x)).

Definition MMU_Write_U8 (var address : Z) s : MMUState dev := WriteToHardware Write false address var 1 s.
Definition MMU_Write_U16 (var address : Z) s : MMUState dev := WriteToHardware Write false address var 2 s.
Definition MMU_Write_U32 (var address : Z) s : MMUState dev := WriteToHardware Write false address var 4 s.
Definition MMU_Write_U64 (var address : Z) s : MMUState dev :=
  let s := WriteToHardware Write false address (to_u32 (var .>> 32)) 4 s in
  WriteToHardware Write false (to_u32 (address + 4)) (to_u32 var) 4 s.
Definition MMU_Write_U16_Swap (var address : Z) s : MMUState dev :=
  MMU_Write_U16 ((var .& 0xFFFF0000) .| swap16 (wrapu 16 var)) address s.
Definition MMU_Write_U32_Swap (var address : Z) s : MMUState dev := MMU_Write_U32 (swap32 var) address s.
Definition MMU_Write_U64_Swap (var address : Z) s : MMUState dev := MMU_Write_U64 (swap64 var) address s.

(** * Instruction fetch *)

Record TryReadInstResult : Type := mkInst { tri_from_bat : bool; tri_hex : Z; tri_physical_address : Z }.

Definition icache_read (address : Z) s : Z * MMUState dev :=
  match ReadInstruction (mm_disable_icache s) (uninitialised (mm_dev s)) (mm_ppc s) address (mm_iCache s, mm_memory s) with
  | Some (hex, (c, m)) => (hex, fset u_iCache c (fset u_memory m s))
  | None => (0, s)
  end.

(** No result is an invalid one. *)
Definition TryReadInstruction (address : Z) s : option TryReadInstResult * MMUState dev :=
  let '(translated, s) :=
    if msr_IR s then
      let '(tlb_addr, s) := TranslateAddress Opcode address s in
      (if Success tlb_addr
       then Some (ta_address tlb_addr, match ta_result tlb_addr with BAT_TRANSLATED => true | _ => false end)
       else None, s)
    else (Some (address, true), s) in
  match translated with
  | None => (None, s)
  | Some (address, from_bat) =>
      let '(hex, s) :=
        match mm_fake_vmem s with
        | Some v =>
            if (address .& 0xFE000000) =? 0x7E000000
            then (swap32 (of_le_bytes (aslice v (address .& m_fakevmem_mask) 4)), s)
            else icache_read address s
        | None => icache_read address s
        end in
      (Some {| tri_from_bat := from_bat; tri_hex := hex; tri_physical_address := address |}, s)
  end.

Definition Read_Opcode (address : Z) s : Z * MMUState dev :=
  match TryReadInstruction address s with
  | (None, s) => (0, GenerateISIException address s)
  | (Some r, s) => (tri_hex r, s)
  end.

(** No result is one that is not valid; else from a BAT or not, if translated. *)
Definition JitCache_TranslateAddress (address : Z) s : option (option bool * Z) * MMUState dev :=
  if negb (msr_IR s) then (Some (None, address), s)
  else
    let '(tlb_addr, s) := TranslateAddress Opcode address s in
    if negb (Success tlb_addr) then (None, s)
    else (Some (Some (match ta_result tlb_addr with BAT_TRANSLATED => true | _ => false end), ta_address tlb_addr), s).

(** * The cache instructions *)

(** The translation all of them start with; no address if there is nothing to do. *)
Definition translate_line (dsi : bool) (address : Z) s : option Z * MMUState dev :=
  if msr_DR s then
    let '(translated_address, s) := TranslateAddress Write address s in
    match ta_result translated_address with
    | DIRECT_STORE_SEGMENT => (None, s)
    | PAGE_FAULT => (None, if dsi then GenerateDSIException address true s else s)
    | _ => (Some (ta_address translated_address), s)
    end
  else (Some address, s).

Fixpoint clear_words (n : nat) (address : Z) s : MMUState dev :=
  match n with
  | O => s
  | S n => clear_words n (to_u32 (address + 4)) (WriteToHardware Write true address 0 4 s)
  end.

Definition ClearDCacheLine (address : Z) s : MMUState dev :=
  match translate_line true address s with
  | (None, s) => s
  | (Some address, s) => clear_words 8 address s
  end.

Definition dcache_line (dsi : bool) (op : Z -> Cache * MemoryManager -> Cache * MemoryManager) (address : Z) s : MMUState dev :=
  let address := address .& to_u32 (Z.lnot 0x1F) in
  match translate_line dsi address s with
  | (None, s) => s
  | (Some address, s) =>
      if m_enable_dcache s then
        let '(c, m) := op address (mm_dCache s, mm_memory s) in fset u_dCache c (fset u_memory m s)
      else s
  end.

Definition StoreDCacheLine (address : Z) s : MMUState dev := dcache_line true Cache_Store address s.
Definition InvalidateDCacheLine (address : Z) s : MMUState dev := dcache_line false Cache_Invalidate address s.
Definition FlushDCacheLine (address : Z) s : MMUState dev := dcache_line true Cache_Flush address s.
Definition TouchDCacheLine (address : Z) (store : bool) s : MMUState dev :=
  dcache_line true (fun address => Cache_Touch address store) address s.

(** * Transfers of the locked cache *)

Definition l1_word (address : Z) s : Z := swap32 (of_le_bytes (aslice (mm_l1_cache s) (address .& 0x3FFFF) 4)).

Fixpoint lc_to_device (n : nat) (write : Z -> Z -> MMUState dev -> MMUState dev) (mem_address cache_address i : Z) s : MMUState dev :=
  match n with
  | O => s
  | S n =>
      lc_to_device n write mem_address cache_address (i + 4)
        (write (l1_word (to_u32 (cache_address + i)) s) (to_u32 (mem_address + i)) s)
  end.

Definition DMA_LCToMemory (mem_address cache_address num_blocks : Z) s : MMUState dev :=
  let words := Z.to_nat (to_u32 (32 * num_blocks) / 4) in
  if (mem_address .& 0x0F000000) =? 0x08000000 then
    lc_to_device words EFB_Write mem_address cache_address 0 s
  else if (mem_address .& 0x0F000000) =? 0x0C000000 then
    lc_to_device words (fun data address => on_dev (mmio_write 4 address data)) mem_address cache_address 0 s
  else
    fset u_memory (CopyToEmu mem_address
      (aslice (mm_l1_cache s) (cache_address .& 0x3FFFF) (Z.to_nat (to_u32 (32 * num_blocks)))) (mm_memory s)) s.

Fixpoint device_to_lc (n : nat) (read : Z -> MMUState dev -> Z * MMUState dev) (mem_address cache_address i : Z) s : MMUState dev :=
  match n with
  | O => s
  | S n =>
      let '(v, s) := read (to_u32 (mem_address + i)) s in
      device_to_lc n read mem_address cache_address (i + 4)
        (fset u_l1_cache (aupd_list (mm_l1_cache s) (to_u32 (cache_address + i) .& 0x3FFFF) (le_bytes 4 (swap32 v))) s)
  end.

Definition DMA_MemoryToLC (cache_address mem_address num_blocks : Z) s : MMUState dev :=
  let words := Z.to_nat (to_u32 (32 * num_blocks) / 4) in
  if (mem_address .& 0x0F000000) =? 0x08000000 then
    device_to_lc words EFB_Read mem_address cache_address 0 s
  else if (mem_address .& 0x0F000000) =? 0x0C000000 then
    device_to_lc words (fun address s => let '(v, d) := mmio_read 4 address (mm_dev s) in (v, fset u_dev d s))
      mem_address cache_address 0 s
  else
    let n := to_u32 (32 * num_blocks) in
    fset u_l1_cache (aupd_list (mm_l1_cache s) (cache_address .& 0x3FFFF)
      (CopyFromEmu (aslice (mm_l1_cache s) (cache_address .& 0x3FFFF) (Z.to_nat n)) mem_address n (mm_memory s))) s.

(** * What the recompilers ask *)

(** [access_size] is in bits. *)
Definition IsOptimizableRAMAddress (has_memchecks : bool) (address access_size : Z) s : bool :=
  if has_memchecks then false
  else if negb (msr_DR s) then false
  else if m_enable_dcache s then false
  else
    let last_byte_address := to_u32 (address + (access_size .>> 3) - 1) in
    let bat_result_1 := aat (m_dbat_table s) (address .>> BAT_INDEX_SHIFT) in
    let bat_result_2 := aat (m_dbat_table s) (last_byte_address .>> BAT_INDEX_SHIFT) in
    negb (((bat_result_1 .& bat_result_2) .& BAT_PHYSICAL_BIT) =? 0).

Definition IsOptimizableGatherPipeWrite (has_memchecks : bool) (address : Z) s : bool :=
  if has_memchecks then false
  else if negb (msr_DR s) then false
  else match TranslateBatAddress (m_dbat_table s) address with
       | None => false
       | Some (address, _) => address =? GATHER_PIPE_PHYSICAL_ADDRESS
       end.

Definition IsMMIOAddress (address : Z) (is_wii : bool) : bool :=
  if address =? GATHER_PIPE_PHYSICAL_ADDRESS then false
  else if (address .& 0xFFFF0000) =? 0x0C000000 then true
  else if is_wii then ((address .& 0xFFFF0000) =? 0x0D000000) || ((address .& 0xFFFF0000) =? 0x0D800000)
  else false.

(** [access_size] is in bits; 0 is no address. *)
Definition IsOptimizableMMIOAccess (has_memchecks : bool) (address access_size : Z) s : Z :=
  if has_memchecks then 0
  else if negb (msr_DR s) then 0
  else if m_enable_dcache s then 0
  else match TranslateBatAddress (m_dbat_table s) address with
       | None => 0
       | Some (address, _) =>
           let aligned := (address .& to_u32 ((access_size .>> 3) - 1)) =? 0 in
           if negb aligned || negb (IsMMIOAddress address (mm_wii s)) then 0 else address
       end.

Definition GetTranslatedAddress (address : Z) s : option Z * MMUState dev :=
  let '(result, s) := TranslateAddress NoException address s in
  (if Success result then Some (ta_address result) else None, s).

(** * The host's accesses *)

Inductive RequestedAddressSpace : Type := Effective | Physical | Virtual.

Definition IsRAMAddress (flag : XCheckTLBFlag) (address : Z) (translate : bool) s : bool * MMUState dev :=
  let '(translated, s) :=
    if translate then
      let '(r, s) := TranslateAddress flag address s in (if Success r then Some (ta_address r) else None, s)
    else (Some address, s) in
  match translated with
  | None => (false, s)
  | Some address =>
      let segment := address .>> 28 in
      let m := mm_memory s in
      ((segment =? 0) && ((address .& 0x0FFFFFFF) <? m_ram_size_real m) || in_exram address s ||
       (bool_decide (is_Some (mm_fake_vmem s)) && ((address .& 0xFE000000) =? 0x7E000000)) || in_l1_cache address, s)
  end.

Definition HostIsRAMAddress (address : Z) (space : RequestedAddressSpace) s : bool * MMUState dev :=
  match space with
  | Effective => IsRAMAddress NoException address (msr_DR s) s
  | Physical => IsRAMAddress NoException address false s
  | Virtual => if negb (msr_DR s) then (false, s) else IsRAMAddress NoException address true s
  end.

Definition HostIsInstructionRAMAddress (address : Z) (space : RequestedAddressSpace) s : bool * MMUState dev :=
  if negb ((address .& 3) =? 0) then (false, s)
  else
    match space with
    | Effective => IsRAMAddress OpcodeNoException address (msr_IR s) s
    | Physical => IsRAMAddress OpcodeNoException address false s
    | Virtual => if negb (msr_IR s) then (false, s) else IsRAMAddress OpcodeNoException address true s
    end.

Definition HostRead (n : nat) (address : Z) s : Z * MMUState dev := ReadFromHardware NoException n false address s.

(** Whether the address was translated, and the value. *)
Definition HostTryRead (n : nat) (address : Z) (space : RequestedAddressSpace) s : option (bool * Z) * MMUState dev :=
  let '(ok, s) := HostIsRAMAddress address space s in
  if negb ok then (None, s)
  else
    match space with
    | Effective => let '(value, s') := ReadFromHardware NoException n false address s in (Some (msr_DR s', value), s')
    | Physical => let '(value, s) := ReadFromHardware NoException n true address s in (Some (false, value), s)
    | Virtual =>
        if negb (msr_DR s) then (None, s)
        else let '(value, s) := ReadFromHardware NoException n false address s in (Some (true, value), s)
    end.

Definition HostTryReadInstruction (address : Z) (space : RequestedAddressSpace) s : option (bool * Z) * MMUState dev :=
  let '(ok, s) := HostIsInstructionRAMAddress address space s in
  if negb ok then (None, s)
  else
    match space with
    | Effective => let '(value, s') := ReadFromHardware OpcodeNoException 4 false address s in (Some (msr_IR s', value), s')
    | Physical => let '(value, s) := ReadFromHardware OpcodeNoException 4 true address s in (Some (false, value), s)
    | Virtual =>
        if negb (msr_IR s) then (None, s)
        else let '(value, s) := ReadFromHardware OpcodeNoException 4 false address s in (Some (true, value), s)
    end.

Definition HostWrite (size var address : Z) s : MMUState dev := WriteToHardware NoException false address var size s.
Definition HostWrite_U64 (var address : Z) s : MMUState dev :=
  HostWrite 4 (to_u32 var) (to_u32 (address + 4)) (HostWrite 4 (to_u32 (var .>> 32)) address s).

Definition HostTryWrite (var address size : Z) (space : RequestedAddressSpace) s : option bool * MMUState dev :=
  let '(ok, s) := HostIsRAMAddress address space s in
  if negb ok then (None, s)
  else
    match space with
    | Effective => let s := WriteToHardware NoException false address var size s in (Some (msr_DR s), s)
    | Physical => (Some false, WriteToHardware NoException true address var size s)
    | Virtual =>
        if negb (msr_DR s) then (None, s) else (Some true, WriteToHardware NoException false address var size s)
    end.

Definition HostTryWriteU64 (var address : Z) (space : RequestedAddressSpace) s : option bool * MMUState dev :=
  let '(result, s) := HostTryWrite (to_u32 (var .>> 32)) address 4 space s in
  match result with
  | None => (None, s)
  | Some _ => HostTryWrite (to_u32 var) (to_u32 (address + 4)) 4 space s
  end.

End Access.
