(* ===== verification/MMUBatProps.v ===== *)
(** Block address translation: the tables are the BAT registers, and what they mark as
    accessible without checks is memory. *)
From stdpp Require Import base tactics option list gmap.
From Stdlib Require Import ZArith Lia Bool.
From S2P Require Import Prelude Memmap PowerPC Gekko PPCCache MMU MMUAccess.

#[local] Open Scope Z_scope.

(** * Bits *)

Lemma bit_field_range i n x : 0 <= i -> 0 <= n -> uN n (bits i n x).
Proof. intros Hi Hn. unfold bits. rewrite land_wrapu by done. by apply wrapu_range. Qed.

(** A number over another of [n] bits. *)
Lemma lor_low hi lo n : 0 <= n -> uN n lo -> (hi .<< n) .| lo = hi * 2 ^ n + lo.
Proof. intros Hn Hlo. rewrite Z.lor_comm, lor_shiftl_add by done. lia. Qed.

Lemma uN_le n k x : 0 <= n <= k -> uN n x -> uN k x.
Proof. intros Hk Hx. unfold uN in *. pose proof (Z.pow_le_mono_r 2 n k). lia. Qed.

Section Bats.
Context {dev : Type} {bus : Bus dev}.
Implicit Types (s : MMUState dev) (t : arr).

(** * Entries *)

Section Entry.
Context (batu batl j : Z) (s : MMUState dev) (Hj : uN 15 j).

Let pa : Z := (BAT_BRPN batl .| j) .<< 17.
Let flags : Z := BAT_MAPPED_BIT .| (if wimg_wi (BAT_WIMG batl) then BAT_WI_BIT else if bat_physical pa s then BAT_PHYSICAL_BIT else 0).

Lemma bat_block_range : uN 15 (BAT_BRPN batl .| j).
Proof. apply uN_lor; [lia | apply bit_field_range; lia | done]. Qed.

Lemma bat_pa : to_u32 pa = pa.
Proof.
  apply wrapu_small. pose proof bat_block_range as H. unfold pa. rewrite Z.shiftl_mul_pow2 by lia. unfold uN in *. lia.
Qed.

Lemma bat_entry_eq : bat_entry batu batl j s = pa .| flags.
Proof. unfold bat_entry. fold pa. by rewrite bat_pa. Qed.

(** The fields of an entry. *)
Lemma bat_entry_fields :
  (bat_entry batu batl j s .& BAT_MAPPED_BIT =? 0) = false /\
  bat_entry batu batl j s .& BAT_RESULT_MASK = pa /\
  (bat_entry batu batl j s .& BAT_WI_BIT =? 0) = negb (wimg_wi (BAT_WIMG batl)) /\
  (bat_entry batu batl j s .& BAT_PHYSICAL_BIT =? 0) = (wimg_wi (BAT_WIMG batl) || negb (bat_physical pa s)).
Proof.
  rewrite bat_entry_eq.
  assert (Hlow : forall f, uN 3 f -> forall x, uN 3 x -> (pa .| f) .& x = f .& x).
  { intros f Hf x Hx. apply Z.bits_inj'. intros i Hi. rewrite !Z.land_spec, Z.lor_spec. destruct (Z.ltb_spec i 3) as [Hl|Hl].
    - unfold pa. rewrite Z.shiftl_spec_low by lia. done.
    - rewrite (proj1 (uN_bits 3 x ltac:(lia) (proj1 Hx)) Hx i) by done. by rewrite !andb_false_r. }
  assert (Hf : uN 3 flags) by (unfold flags; repeat case_match; vm_compute; (split; [discriminate | reflexivity])).
  assert (Hmask : (pa .| flags) .& BAT_RESULT_MASK = pa).
  { apply Z.bits_inj'. intros i Hi. rewrite Z.land_spec, Z.lor_spec. destruct (Z.ltb_spec i 3) as [Hl|Hl].
    - assert (Z.testbit pa i = false) as -> by (unfold pa; by rewrite Z.shiftl_spec_low by lia).
      assert (i = 0 \/ i = 1 \/ i = 2) as [->|[->| ->]] by lia; apply andb_false_r.
    - rewrite (proj1 (uN_bits 3 flags ltac:(lia) (proj1 Hf)) Hf i), orb_false_r by done.
      destruct (Z.ltb_spec i 32) as [Hh|Hh].
      + change BAT_RESULT_MASK with (Z.ldiff (Z.ones 32) (Z.ones 3)).
        rewrite Z.ldiff_spec, Z.ones_spec_low, Z.ones_spec_high by lia. apply andb_true_r.
      + pose proof bat_pa as E. assert (H : uN 32 pa) by (rewrite <- E; apply wrapu_range; lia).
        by rewrite (proj1 (uN_bits 32 pa ltac:(lia) (proj1 H)) H i). }
  rewrite Hmask, !Hlow by (done || (unfold uN; lia)).
  unfold flags. by destruct (wimg_wi (BAT_WIMG batl)), (bat_physical pa s).
Qed.
End Entry.

(** * The table of a BAT *)

(** A block is matched by its upper bits. *)
Definition bat_valid (batu : Z) : bool := BAT_VS batu || BAT_VP batu.
Definition bat_match (batu index : Z) : bool := bat_valid batu && (Z.ldiff index (BAT_BL batu) =? BAT_BEPI batu).

Lemma pattern_spec bl bepi index j : 0 <= j -> bepi .& bl = 0 -> j .& bl = j ->
  (bepi .| j = index <-> Z.ldiff index bl = bepi /\ index .& bl = j).
Proof.
  intros Hj Hd Hs.
  assert (Hb : forall i, Z.testbit bepi i && Z.testbit bl i = false) by (intros; by rewrite <- Z.land_spec, Hd, Z.bits_0).
  assert (Hb' : forall i, Z.testbit j i && Z.testbit bl i = Z.testbit j i) by (intros; by rewrite <- Z.land_spec, Hs).
  split; [intros <- | intros [E1 E2]].
  - split; apply Z.bits_inj'; intros i Hi; rewrite ?Z.ldiff_spec, ?Z.land_spec, Z.lor_spec; specialize (Hb i); specialize (Hb' i);
      by destruct (Z.testbit bepi i), (Z.testbit j i), (Z.testbit bl i).
  - rewrite <- E1, <- E2. apply Z.bits_inj'. intros i Hi. rewrite Z.lor_spec, Z.ldiff_spec, Z.land_spec.
    by destruct (Z.testbit index i), (Z.testbit bl i).
Qed.

Lemma bat_patterns batu batl s t index js :
  uN 15 index -> BAT_BEPI batu .& BAT_BL batu = 0 -> Forall (uN 11) js ->
  aat (foldl (bat_pattern batu batl s) t js) index =
  if (Z.ldiff index (BAT_BL batu) =? BAT_BEPI batu) && existsb (Z.eqb (index .& BAT_BL batu)) js
  then bat_entry batu batl (index .& BAT_BL batu) s else aat t index.
Proof.
  intros Hi Hd Hjs. revert t. induction Hjs as [|j js Hj Hjs IH]; intros t; cbn [foldl existsb]; [by rewrite andb_false_r|].
  rewrite IH. clear IH. destruct ((Z.ldiff index (BAT_BL batu) =? BAT_BEPI batu) && existsb _ js) eqn:E.
  { apply andb_true_iff in E as [-> ->]. by rewrite orb_true_r. }
  unfold bat_pattern. destruct (Z.eqb_spec (j .& BAT_BL batu) j) as [Hs|Hs].
  - assert (Ev : to_u32 ((BAT_BEPI batu .| j) .<< 17) .>> 17 = BAT_BEPI batu .| j).
    { pose proof (uN_lor 15 (BAT_BEPI batu) j ltac:(lia) (bit_field_range 17 15 batu ltac:(lia) ltac:(lia)) (uN_le 11 15 j ltac:(lia) Hj)) as H.
      rewrite wrapu_small by (rewrite Z.shiftl_mul_pow2 by lia; unfold uN in *; lia).
      rewrite Z.shiftr_shiftl_l by lia. apply Z.shiftl_0_r. }
    rewrite Ev, aat_aupd. pose proof (pattern_spec (BAT_BL batu) (BAT_BEPI batu) index j (proj1 Hj) Hd Hs) as Hp.
    destruct (Z.eqb_spec (BAT_BEPI batu .| j) index) as [Ex|Ex].
    + apply Hp in Ex as [-> ->]. by rewrite !Z.eqb_refl.
    + destruct (Z.eqb_spec (Z.ldiff index (BAT_BL batu)) (BAT_BEPI batu)) as [E1|]; [|done].
      destruct (Z.eqb_spec (index .& BAT_BL batu) j) as [E2|]; [by destruct Ex; apply Hp|]. cbn in E |- *. by rewrite E.
  - destruct (Z.eqb_spec (index .& BAT_BL batu) j) as [E2|]; [|cbn [orb]; by rewrite E].
    destruct Hs. rewrite <- E2, <- Z.land_assoc, Z.land_diag. done.
Qed.

Definition batu_of (base_spr i : Z) s : Z := get_spr (base_spr + i * 2) (mm_ppc s).
Definition batl_of (base_spr i : Z) s : Z := get_spr (base_spr + i * 2 + 1) (mm_ppc s).

Lemma UpdateBAT_spec base i s t index :
  uN 15 index -> BAT_BEPI (batu_of base i s) .& BAT_BL (batu_of base i s) = 0 ->
  aat (UpdateBAT base s t i) index =
  if bat_match (batu_of base i s) index
  then bat_entry (batu_of base i s) (batl_of base i s) (index .& BAT_BL (batu_of base i s)) s else aat t index.
Proof.
  intros Hi Hd. unfold UpdateBAT. fold (batu_of base i s) (batl_of base i s). unfold bat_match, bat_valid.
  rewrite <- negb_orb. destruct (BAT_VS _ || BAT_VP _); cbn [negb andb]; [|done].
  pose proof (bit_field_range 2 11 (batu_of base i s) ltac:(lia) ltac:(lia)) as Hbl. fold (BAT_BL (batu_of base i s)) in Hbl.
  rewrite bat_patterns; [|done | done |].
  - destruct (Z.ldiff index _ =? _); cbn [andb]; [|done]. rewrite (proj2 (existsb_exists _ _)); [done|].
    exists (index .& BAT_BL (batu_of base i s)). split; [|apply Z.eqb_refl].
    pose proof (land_bound index (BAT_BL (batu_of base i s)) (proj1 Hbl)).
    apply in_map_iff. exists (Z.to_nat (index .& BAT_BL (batu_of base i s))). split; [lia | apply in_seq; lia].
  - apply List.Forall_forall. intros x Hx. apply in_map_iff in Hx as (k & <- & Hk). apply in_seq in Hk. unfold uN in *. lia.
Qed.

(** The registers a table is made of, each the first of its group of four and its number. *)
Definition four (base : Z) : list (Z * Z) := map (pair base) [0; 1; 2; 3].
Definition bat_registers (base base_extended : Z) s : list (Z * Z) :=
  four base ++ (if mm_wii s && Z.testbit (get_spr SPR_HID4 (mm_ppc s)) 25 then four base_extended else []).

(** The BAT of a block: the last one that matches. *)
Definition matching_bat (regs : list (Z * Z)) (index : Z) s : option (Z * Z) :=
  find (fun r => bat_match (batu_of (fst r) (snd r) s) index) (rev regs).

Definition bat_aligned s (r : Z * Z) : Prop := BAT_BEPI (batu_of (fst r) (snd r) s) .& BAT_BL (batu_of (fst r) (snd r) s) = 0.

Lemma update_bats_spec regs s t index : uN 15 index -> Forall (bat_aligned s) regs ->
  aat (foldl (fun t r => UpdateBAT (fst r) s t (snd r)) t regs) index =
  match matching_bat regs index s with
  | Some r => bat_entry (batu_of (fst r) (snd r) s) (batl_of (fst r) (snd r) s) (index .& BAT_BL (batu_of (fst r) (snd r) s)) s
  | None => aat t index
  end.
Proof.
  intros Hi. induction regs as [|r regs IH] using rev_ind; [done|]. intros [Hregs Hr]%Forall_app.
  apply Forall_cons in Hr as [Hr _]. rewrite foldl_snoc, UpdateBAT_spec by done. unfold matching_bat.
  rewrite rev_app_distr. cbn [rev app find]. destruct (bat_match _ index); [done|]. by apply IH.
Qed.

Lemma updated_bats_eq base base_extended s : mm_fake_vmem s = None ->
  updated_bats base base_extended s = foldl (fun t r => UpdateBAT (fst r) s t (snd r)) ∅ (bat_registers base base_extended s).
Proof.
  intros Hf. unfold updated_bats, bat_registers. rewrite Hf. rewrite foldl_app. by case_match.
Qed.

(** The physical address: the upper bits of the BAT, the bits under the mask and in the block. *)
Lemma bat_address_eq brpn bl a :
  ((brpn .| ((a .>> 17) .& bl)) .<< 17) .| (a .& (BAT_PAGE_SIZE - 1)) =
  (brpn .<< 17) .| (a .& ((bl .<< 17) .| (BAT_PAGE_SIZE - 1))).
Proof.
  change (BAT_PAGE_SIZE - 1) with (Z.ones 17). apply Z.bits_inj'. intros i Hi.
  rewrite !Z.lor_spec, !Z.land_spec, Z.lor_spec, !Z.shiftl_spec, Z.lor_spec, Z.land_spec by done.
  destruct (Z.ltb_spec i 17).
  - rewrite !(Z.testbit_neg_r _ (i - 17)) by lia. rewrite Z.ones_spec_low by lia. cbn. by rewrite !andb_true_r.
  - rewrite Z.ones_spec_high by lia. rewrite Z.shiftr_spec by lia. replace (i - 17 + 17) with i by lia.
    rewrite andb_false_r, !orb_false_r. done.
Qed.

Lemma index_range a : u32 a -> uN 15 (a .>> 17).
Proof. intros Ha. by apply uN_shiftr. Qed.

(** C14. Block address translation.  Looking an address up in the table of 32768 blocks that
    [DBATUpdated] and [IBATUpdated] make of the BAT registers is matching it against the
    registers themselves: the address matches a BAT if its upper bits, without those of the
    block length mask, are those of the BAT, which is valid for supervisor or for user mode,
    whichever the mode is; it is translated to the upper bits of the BAT and the bits of the
    mask and below; write-through or cache-inhibited is the BAT's.  Of several BATs that match
    the one with the highest number counts.  The validity and the priority are the program's
    choice, which its comments leave open; the PP bits are not looked at.  (The BATs are aligned
    to their length; there is no fake virtual memory, whose blocks are mapped over them.) *)
Theorem bat_translation base base_extended s a :
  u32 a -> mm_fake_vmem s = None -> Forall (bat_aligned s) (bat_registers base base_extended s) ->
  TranslateBatAddress (updated_bats base base_extended s) a =
  match matching_bat (bat_registers base base_extended s) (a .>> 17) s with
  | Some r =>
      let u := batu_of (fst r) (snd r) s in
      let l := batl_of (fst r) (snd r) s in
      Some ((BAT_BRPN l .<< 17) .| (a .& ((BAT_BL u .<< 17) .| (BAT_PAGE_SIZE - 1))), wimg_wi (BAT_WIMG l))
  | None => None
  end.
Proof.
  intros Ha Hf Hal. pose proof (index_range a Ha) as Hi. unfold TranslateBatAddress.
  rewrite updated_bats_eq, update_bats_spec by done. destruct (matching_bat _ _ s) as [r|]; [|done]. cbv zeta.
  set (u := batu_of (fst r) (snd r) s). set (l := batl_of (fst r) (snd r) s).
  assert (Hj : uN 15 ((a .>> 17) .& BAT_BL u)) by (apply uN_land_l; [lia | done]).
  destruct (bat_entry_fields u l _ s Hj) as (E1 & E2 & E3 & _). rewrite E1, E2, E3, negb_involutive. by rewrite bat_address_eq.
Qed.

(** * Blocks without checks *)

(** An entry translates to a block, and to one in memory if it is accessible without checks. *)
Definition physical_entry s (e : Z) : Prop :=
  exists x, e .& BAT_RESULT_MASK = x .<< 17 /\
    ((e .& BAT_PHYSICAL_BIT =? 0) = false ->
     (e .& BAT_MAPPED_BIT =? 0) = false /\ (e .& BAT_WI_BIT =? 0) = true /\ bat_physical (x .<< 17) s = true).

Definition physical_table s t : Prop := forall i, physical_entry s (aat t i).

Lemma physical_empty s : physical_table s ∅.
Proof. intros i. exists 0. split; [by unfold aat; rewrite lookup_empty|]. unfold aat. by rewrite lookup_empty. Qed.

Lemma physical_aupd s t i e : physical_table s t -> physical_entry s e -> physical_table s (aupd t i e).
Proof. intros Ht He k. rewrite aat_aupd. by case_match. Qed.

Lemma physical_foldl {A} s (f : arr -> A -> arr) (l : list A) t :
  (forall t a, In a l -> physical_table s t -> physical_table s (f t a)) -> physical_table s t -> physical_table s (foldl f t l).
Proof.
  revert t. induction l as [|a l IH]; intros t Hf Ht; [done|]. apply IH; [|apply Hf; [by left | done]].
  intros t' a' Ha. apply Hf. by right.
Qed.

Lemma physical_bat base s t i : physical_table s t -> physical_table s (UpdateBAT base s t i).
Proof.
  intros Ht. unfold UpdateBAT. set (batu := get_spr _ _). set (batl := get_spr _ _). case_match; [done|].
  apply physical_foldl; [|done]. intros t' j Hj Ht'. unfold bat_pattern. case_match; [|done]. apply physical_aupd; [done|].
  apply in_map_iff in Hj as (k & <- & Hk). apply in_seq in Hk.
  pose proof (bit_field_range 2 11 batu ltac:(lia) ltac:(lia)) as Hbl. fold (BAT_BL batu) in Hbl.
  destruct (bat_entry_fields batu batl (Z.of_nat k) s ltac:(unfold uN in *; lia)) as (E1 & E2 & E3 & E4).
  unfold physical_entry. rewrite E1, E2, E3, E4. eexists. split; [done|].
  intros [Hw Hp%negb_false_iff]%orb_false_iff. by rewrite Hw.
Qed.

Lemma physical_fake s t start : is_Some (mm_fake_vmem s) -> physical_table s t -> physical_table s (UpdateFakeMMUBat t start).
Proof.
  intros Hf Ht. unfold UpdateFakeMMUBat. generalize (map Z.of_nat (seq 0 (Z.to_nat (0x10000000 .>> 17)))). intros l.
  apply physical_foldl; [|done]. intros t' i Hi Ht'. apply physical_aupd; [done|].
  set (p := to_u32 (i .<< 17) .& m_fakevmem_mask).
  assert (Hp : exists x, p = x .<< 17 /\ 0 <= x < 256).
  { exists (i .& 0xff). unfold p. change m_fakevmem_mask with (Z.ones 25). rewrite Z.land_ones by lia. unfold wrapu.
    rewrite Z.mod_mod_divide by (exists (2 ^ 7); done). change 0xff with (Z.ones 8). rewrite Z.land_ones by lia.
    rewrite !Z.shiftl_mul_pow2 by lia. change (2 ^ 25) with (2 ^ 8 * 2 ^ 17). rewrite Z.mul_mod_distr_r by lia.
    split; [done|]. by apply Z.mod_pos_bound. }
  destruct Hp as (x & -> & Hx).
  assert (Hall : forallb (fun n => let e := (0x7E000000 .| (Z.of_nat n .<< 17)) .| (BAT_MAPPED_BIT .| BAT_PHYSICAL_BIT) in
      negb (e .& BAT_MAPPED_BIT =? 0) && (e .& BAT_WI_BIT =? 0) && (e .& BAT_RESULT_MASK =? (0x3F00 + Z.of_nat n) .<< 17) &&
      ((((0x3F00 + Z.of_nat n) .<< 17) .& 0xFE000000) =? 0x7E000000)) (seq 0 256) = true)
    by (vm_compute; reflexivity).
  rewrite forallb_forall in Hall. specialize (Hall (Z.to_nat x) ltac:(apply in_seq; lia)). cbv zeta in Hall.
  rewrite Z2Nat.id, !andb_true_iff, negb_true_iff in Hall by lia. destruct Hall as [[[H1 H2] H3%Z.eqb_eq] H4].
  exists (0x3F00 + x). split; [done|]. intros _. split; [done|]. split; [done|].
  unfold bat_physical. rewrite H4. by rewrite bool_decide_eq_true_2.
Qed.

Lemma physical_updated base base_extended s : physical_table s (updated_bats base base_extended s).
Proof.
  unfold updated_bats. assert (Hb : forall t b, physical_table s t -> physical_table s (UpdateBATs t b s)).
  { intros t b Ht. apply physical_foldl; [|done]. intros; by apply physical_bat. }
  assert (Ht : physical_table s (if mm_wii s && Z.testbit (get_spr SPR_HID4 (mm_ppc s)) 25
      then UpdateBATs (UpdateBATs ∅ base s) base_extended s else UpdateBATs ∅ base s))
    by (case_match; repeat apply Hb; apply physical_empty).
  destruct (mm_fake_vmem s) eqn:E; [|done]. do 2 (apply physical_fake; [by rewrite E|]). done.
Qed.

(** The memories are made of whole blocks. *)
Record whole_blocks s : Prop := {
  wb_ram : m_ram_size_real (mm_memory s) mod BAT_PAGE_SIZE = 0;
  wb_exram : m_exram_size_real (mm_memory s) mod BAT_PAGE_SIZE = 0
}.

Lemma block_sum x lo : uN 17 lo -> (x .<< 17) .| lo = x * BAT_PAGE_SIZE + lo.
Proof. intros Hlo. by apply (lor_low x lo 17). Qed.

Lemma block_below x lo c : uN 17 lo -> c mod BAT_PAGE_SIZE = 0 ->
  ((x .<< 17) <? c) = true -> (((x .<< 17) .| lo) <? c) = true.
Proof.
  intros Hlo Hc Hx%Z.ltb_lt. apply Z.ltb_lt. rewrite block_sum by done. rewrite Z.shiftl_mul_pow2 in Hx by lia.
  unfold uN in Hlo. Z.div_mod_to_equations. lia.
Qed.

Lemma block_shiftr x lo k : uN 17 lo -> 17 <= k -> ((x .<< 17) .| lo) .>> k = (x .<< 17) .>> k.
Proof.
  intros Hlo Hk. apply Z.bits_inj'. intros i Hi. rewrite !Z.shiftr_spec, Z.lor_spec by lia.
  rewrite (proj1 (uN_bits 17 lo ltac:(lia) (proj1 Hlo)) Hlo (i + k)) by lia. apply orb_false_r.
Qed.

Lemma block_land_high x lo k : uN 17 lo -> ((x .<< 17) .| lo) .& (k .<< 17) = (x .<< 17) .& (k .<< 17).
Proof.
  intros Hlo. apply Z.bits_inj'. intros i Hi. rewrite !Z.land_spec, Z.lor_spec. destruct (Z.ltb_spec i 17).
  - rewrite (Z.shiftl_spec_low k) by lia. by rewrite !andb_false_r.
  - rewrite (proj1 (uN_bits 17 lo ltac:(lia) (proj1 Hlo)) Hlo i) by lia. by rewrite orb_false_r.
Qed.

Lemma block_land_low x lo k : uN 17 lo -> 0 <= k -> ((x .<< 17) .| lo) .& Z.ones (17 + k) = ((x .& Z.ones k) .<< 17) .| lo.
Proof.
  intros Hlo Hk. apply Z.bits_inj'. intros i Hi. rewrite Z.land_spec, !Z.lor_spec. destruct (Z.ltb_spec i 17).
  - rewrite !Z.shiftl_spec_low, Z.ones_spec_low by lia. cbn. by rewrite andb_true_r.
  - rewrite !Z.shiftl_spec, Z.land_spec by lia.
    rewrite (proj1 (uN_bits 17 lo ltac:(lia) (proj1 Hlo)) Hlo i), !orb_false_r by lia.
    destruct (Z.ltb_spec i (17 + k)); [by rewrite !Z.ones_spec_low by lia | by rewrite !Z.ones_spec_high by lia].
Qed.

(** A block that starts in a memory is in it. *)
Lemma bat_physical_block s x lo : whole_blocks s -> uN 17 lo ->
  bat_physical (x .<< 17) s = true -> bat_physical ((x .<< 17) .| lo) s = true.
Proof.
  intros [Hr Hx] Hlo. unfold bat_physical. change 0xFE000000 with (0x7F00 .<< 17). rewrite block_land_high by done.
  rewrite block_shiftr by (done || lia). case_match; [done|].
  assert (Elow : (x .<< 17) .& 0x0FFFFFFF = (x .& Z.ones 11) .<< 17).
  { rewrite <- (Z.lor_0_r (x .<< 17)), <- (Z.lor_0_r ((x .& Z.ones 11) .<< 17)). by apply (block_land_low x 0 11). }
  assert (Elow' : ((x .<< 17) .| lo) .& 0x0FFFFFFF = ((x .& Z.ones 11) .<< 17) .| lo) by (by apply (block_land_low x lo 11)).
  rewrite Elow, Elow'. intros H0.
  destruct (Z.ltb (x .<< 17) (m_ram_size_real (mm_memory s))) eqn:E1; [by rewrite (block_below x lo)|].
  destruct (bool_decide _ && (_ =? 1)); cbn [andb] in H0 |- *.
  - destruct (Z.ltb ((x .& Z.ones 11) .<< 17) (m_exram_size_real (mm_memory s))) eqn:E2.
    + rewrite (block_below (x .& Z.ones 11) lo) by done. by case_match.
    + apply andb_true_iff in H0 as [-> H0]. rewrite (block_below x lo (0xE0000000 + L1_CACHE_SIZE)) by done. by repeat case_match.
  - apply andb_true_iff in H0 as [-> H0]. rewrite (block_below x lo (0xE0000000 + L1_CACHE_SIZE)) by done. by repeat case_match.
Qed.

(** Every byte of an access without checks is translated to a block without checks. *)
Lemma unchecked_physical s a access_size k :
  m_dbat_table s = updated_bats SPR_DBAT0U SPR_DBAT4U s -> whole_blocks s ->
  u32 a -> 8 <= access_size <= 64 -> a + (access_size .>> 3) <= 2 ^ 32 ->
  IsOptimizableRAMAddress false a access_size s = true -> 0 <= k < access_size .>> 3 ->
  msr_DR s = true /\ m_enable_dcache s = false /\
  exists pa, TranslateBatAddress (m_dbat_table s) (a + k) = Some (pa, false) /\
    0 <= pa < 2 ^ 32 /\ bat_physical pa s = true.
Proof.
  intros Ht Hw Ha Hsz Hend Hopt Hk. unfold IsOptimizableRAMAddress in Hopt.
  destruct (msr_DR s); [|done]. destruct (m_enable_dcache s); [done|]. cbn [negb] in Hopt. split; [done|]. split; [done|].
  set (n := access_size .>> 3) in *.
  assert (Hn : 1 <= n <= 8) by (unfold n; rewrite Z.shiftr_div_pow2 by lia; Z.div_mod_to_equations; lia).
  rewrite (wrapu_small 32) in Hopt by (unfold uN; unfold uN in Ha; lia). apply negb_true_iff in Hopt.
  set (t := m_dbat_table s) in *. set (e1 := aat t (a .>> 17)) in *. set (e2 := aat t ((a + n - 1) .>> 17)) in *.
  assert (Hboth : (e1 .& BAT_PHYSICAL_BIT =? 0) = false /\ (e2 .& BAT_PHYSICAL_BIT =? 0) = false).
  { split; apply Z.eqb_neq; intros E; apply Z.eqb_neq in Hopt; apply Hopt.
    - by rewrite (Z.land_comm e1), <- Z.land_assoc, E, Z.land_0_r.
    - by rewrite <- Z.land_assoc, E, Z.land_0_r. }
  set (e := aat t ((a + k) .>> 17)).
  assert (He : (e .& BAT_PHYSICAL_BIT =? 0) = false).
  { assert (Hi : (a + k) .>> 17 = a .>> 17 \/ (a + k) .>> 17 = (a + n - 1) .>> 17)
      by (clear -Hn Hk; clearbody n; rewrite !Z.shiftr_div_pow2 by lia; change (2 ^ 17) with BAT_PAGE_SIZE; Z.div_mod_to_equations; lia).
    unfold e. by destruct Hi as [-> | ->], Hboth. }
  destruct (physical_updated SPR_DBAT0U SPR_DBAT4U s ((a + k) .>> 17)) as (x & H3 & H4).
  rewrite <- Ht in H3, H4. fold t e in H3, H4. destruct (H4 He) as (H1 & H2 & Hpa). unfold TranslateBatAddress. fold t e. rewrite H1, H2. cbn [negb].
  eexists. split; [done|].
  assert (Hlo : uN 17 ((a + k) .& (BAT_PAGE_SIZE - 1)))
    by (change (BAT_PAGE_SIZE - 1) with (2 ^ 17 - 1); rewrite land_wrapu by lia; by apply wrapu_range).
  split; [apply (uN_lor 32); [lia | apply uN_land_r; [lia | split; done] | by apply (uN_le 17)]|]. rewrite H3. apply bat_physical_block; done.
Qed.
(** An address of a memory, by its number. *)
Lemma segment_range a k i : 0 <= a -> 0 <= k -> 0 <= i -> a .>> k = i -> i * 2 ^ k <= a < (i + 1) * 2 ^ k.
Proof.
  intros Ha Hk Hi E. rewrite Z.shiftr_div_pow2 in E by done. pose proof (Z.pow_pos_nonneg 2 k ltac:(lia) Hk).
  pose proof (Z.mod_pos_bound a (2 ^ k) ltac:(lia)). pose proof (Z.div_mod a (2 ^ k) ltac:(lia)). nia.
Qed.

Lemma fake_segment a : 0 <= a < 2 ^ 32 -> (a .& 0xFE000000) = 0x7E000000 -> 0x7E000000 <= a < 0x80000000.
Proof.
  intros Ha E. pose proof (uN_shiftr 7 a 25 ltac:(lia) ltac:(lia) Ha) as Hs. unfold uN in Hs.
  assert (Es : a .>> 25 = 0x3F).
  { change 0x3F with (0x7E000000 .>> 25). rewrite <- E, Z.shiftr_land. change (0xFE000000 .>> 25) with (Z.ones 7).
    rewrite Z.land_ones, Z.mod_small by lia. done. }
  pose proof (segment_range a 25 0x3F (proj1 Ha) ltac:(lia) ltac:(lia) Es). lia.
Qed.

Lemma memory_tail s pa : 0 <= pa < 2 ^ 32 ->
  (if bool_decide (is_Some (m_exram (mm_memory s))) && (pa .>> 28 =? 1) &&
      ((pa .& 0x0FFFFFFF) <? m_exram_size_real (mm_memory s)) then true
   else (pa .>> 28 =? 0xE) && (pa <? 0xE0000000 + L1_CACHE_SIZE)) = true ->
  pa < m_ram_size_real (mm_memory s) \/
  is_Some (m_exram (mm_memory s)) /\ 0x10000000 <= pa < 0x20000000 /\ pa - 0x10000000 < m_exram_size_real (mm_memory s) \/
  is_Some (mm_fake_vmem s) /\ 0x7E000000 <= pa < 0x80000000 \/
  0xE0000000 <= pa < 0xE0040000.
Proof.
  intros Hpa. destruct (_ && _ && _) eqn:E; intros H.
  - rewrite !andb_true_iff, Z.eqb_eq, Z.ltb_lt in E. destruct E as [[He%bool_decide_eq_true_1 Eh] El].
    pose proof (segment_range pa 28 1 (proj1 Hpa) ltac:(lia) ltac:(lia) Eh). right; left. split; [done|].
    split; [lia|]. change 0x0FFFFFFF with (Z.ones 28) in El. rewrite Z.land_ones in El by lia.
    replace (pa mod 2 ^ 28) with (pa - 0x10000000) in El by (Z.div_mod_to_equations; lia). done.
  - apply andb_true_iff in H as [Eh%Z.eqb_eq El%Z.ltb_lt].
    pose proof (segment_range pa 28 0xE (proj1 Hpa) ltac:(lia) ltac:(lia) Eh). right; right; right. lia.
Qed.

(** The addresses that may be accessed without checks, segment by segment. *)
Lemma bat_physical_memory s pa : 0 <= pa < 2 ^ 32 -> bat_physical pa s = true ->
  pa < m_ram_size_real (mm_memory s) \/
  is_Some (m_exram (mm_memory s)) /\ 0x10000000 <= pa < 0x20000000 /\ pa - 0x10000000 < m_exram_size_real (mm_memory s) \/
  is_Some (mm_fake_vmem s) /\ 0x7E000000 <= pa < 0x80000000 \/
  0xE0000000 <= pa < 0xE0040000.
Proof.
  intros Hpa. unfold bat_physical. destruct (bool_decide (is_Some (mm_fake_vmem s))) eqn:Ef; cbn [andb].
  - apply bool_decide_eq_true_1 in Ef. destruct (Z.eqb_spec (pa .& 0xFE000000) 0x7E000000) as [E|_].
    { intros _. right; right; left. split; [done|]. by apply fake_segment. }
    destruct (Z.ltb_spec pa (m_ram_size_real (mm_memory s))); [by left|]. by apply memory_tail.
  - destruct (Z.ltb_spec pa (m_ram_size_real (mm_memory s))); [by left|]. by apply memory_tail.
Qed.

(** C15. Unchecked accesses are safe.  If an access of the given size may be made without checks
    ([IsOptimizableRAMAddress], from which the recompilers emit a bare load or store), then
    every byte of it is translated by the tables of the BATs, is not write-through or
    cache-inhibited, and its physical address is within the size of the main memory, within
    that of the second memory in its segment, among the 256 KiB of the locked cache, or in
    the 32 MiB of the fake virtual memory if there is one.  So it is never among the
    addresses of the frame buffer and the devices, from 0x08000000 up to 0x0FFFFFFF, if the
    main memory ends below them.  Translation is enabled and the data cache is not
    emulated. *)
Theorem unchecked_accesses_safe s a access_size k :
  m_dbat_table s = updated_bats SPR_DBAT0U SPR_DBAT4U s -> whole_blocks s ->
  m_ram_size_real (mm_memory s) <= 0x08000000 ->
  u32 a -> 8 <= access_size <= 64 -> a + (access_size .>> 3) <= 2 ^ 32 ->
  IsOptimizableRAMAddress false a access_size s = true -> 0 <= k < access_size .>> 3 ->
  msr_DR s = true /\ m_enable_dcache s = false /\
  exists pa, TranslateBatAddress (m_dbat_table s) (a + k) = Some (pa, false) /\
    (0 <= pa < m_ram_size_real (mm_memory s) \/
     is_Some (m_exram (mm_memory s)) /\ 0x10000000 <= pa < 0x20000000 /\ pa - 0x10000000 < m_exram_size_real (mm_memory s) \/
     is_Some (mm_fake_vmem s) /\ 0x7E000000 <= pa < 0x80000000 \/
     0xE0000000 <= pa < 0xE0040000) /\
    ~ (0x08000000 <= pa < 0x10000000).
Proof.
  intros Ht Hw Hram Ha Hsz Hend Hopt Hk.
  destruct (unchecked_physical s a access_size k Ht Hw Ha Hsz Hend Hopt Hk) as (HDR & Hdc & pa & Etr & Hpa & Hphys).
  split; [done|]. split; [done|]. exists pa. split; [done|].
  pose proof (bat_physical_memory s pa Hpa Hphys) as Hmem. split; [|lia].
  destruct Hmem as [?|?]; [left; lia | by right].
Qed.
End Bats.
