(* ===== verification/MMUPageProps.v ===== *)
(** Page address translation: the TLB is transparent.  While its entries are what the page
    table has, a translation is a walk of the page table. *)
From stdpp Require Import base tactics option list gmap.
From Stdlib Require Import ZArith Lia Bool.
From S2P Require Import Prelude Memmap PowerPC Gekko MemoryProps AramProps PPCCache PPCCacheBlocks MMU MMUBatProps.

#[local] Open Scope Z_scope.
Implicit Types (m : MemoryManager).

(** * Words of memory *)

Definition pte_word m (a : Z) : Z := bswap 4 (of_le_bytes (aslice (m_ram m) a 4)).

(** [n] bytes from [a] in the first memory, below the addresses of devices. *)
Record in_ram_at m (a n : Z) : Prop := {
  ir_low : 0 <= a;
  ir_real : a + n <= m_ram_size_real m;
  ir_high : a + n <= 0x08000000
}.

Lemma swap32_bswap x : swap32 x = bswap 4 x.
Proof. done. Qed.

Lemma bswap_bytes l : Forall u8 l -> bswap (length l) (of_le_bytes l) = of_le_bytes (rev l).
Proof. intros Hl. unfold bswap. by rewrite le_bytes_of_le_bytes. Qed.

Lemma bswap_involutive n x : uN (8 * Z.of_nat n) x -> bswap n (bswap n x) = x.
Proof.
  intros Hx. unfold bswap at 2. rewrite <- (length_le_bytes n x) at 1. rewrite <- (length_rev (le_bytes n x)).
  rewrite bswap_bytes by (apply Forall_rev, le_bytes_u8). rewrite rev_involutive, of_le_bytes_le_bytes. by apply wrapu_small.
Qed.

Lemma bswap_range n x : uN (8 * Z.of_nat n) (bswap n x).
Proof.
  unfold bswap. rewrite <- (length_le_bytes n x) at 1. rewrite <- (length_rev (le_bytes n x)).
  apply of_le_bytes_range, Forall_rev, le_bytes_u8.
Qed.

Lemma pte_word_u32 m a : u32 (pte_word m a).
Proof. apply (bswap_range 4). Qed.

Lemma ram_pointer m a n : memory_ok m -> in_ram_at m a n -> 0 < n -> GetPointerForRange a n m = Some (RAM, a).
Proof.
  intros Hm [Hl Hr Hh] Hn. unfold GetPointerForRange, GetSpanForAddress. pose proof (mok_ram_size m Hm).
  change 0x3FFFFFFF with (2 ^ 30 - 1). rewrite land_wrapu by lia. rewrite (wrapu_small 30) by (unfold uN; lia).
  rewrite (proj2 (Z.ltb_lt a _)) by lia. rewrite wrapu_small by (unfold uN; lia). by rewrite (proj2 (Z.ltb_ge _ _)) by lia.
Qed.

Lemma Write_U32_ram m a v : memory_ok m -> in_ram_at m a 4 ->
  Write_U32_memory v a m = set_region RAM (aupd_list (m_ram m) a (le_bytes 4 (swap32 v))) m.
Proof.
  intros Hm Ha. unfold Write_U32_memory. apply (CopyToEmu_spec a RAM a); [done|]. apply (ram_pointer m a 4); [done | done | lia].
Qed.

(** A word that is written is read back, and no other one changes. *)
Lemma pte_word_write m a v b : memory_ok m -> in_ram_at m a 4 -> u32 v -> (b = a \/ b + 4 <= a \/ a + 4 <= b) ->
  pte_word (Write_U32_memory v a m) b = if b =? a then v else pte_word m b.
Proof.
  intros Hm Ha Hv Hb. rewrite Write_U32_ram by done. unfold pte_word. cbn [m_ram set_region].
  destruct (Z.eqb_spec b a) as [->|Hne].
  - change 4%nat with (length (le_bytes 4 (swap32 v))) at 2. rewrite aslice_aupd_list, of_le_bytes_le_bytes.
    rewrite wrapu_small by apply (bswap_range 4). by apply (bswap_involutive 4).
  - do 2 f_equal. apply aslice_ext. intros j Hj. rewrite aat_aupd_list, length_le_bytes.
    destruct (Z.leb_spec a j), (Z.ltb_spec j (a + Z.of_nat 4)); cbn [andb]; done || lia.
Qed.

Lemma Write_U32_ok m a v : memory_ok m -> memory_ok (Write_U32_memory v a m).
Proof.
  intros Hm. unfold Write_U32_memory, CopyToEmu. case_match; [done|]. case_match; [|done]. case_match.
  apply memory_ok_set_region; [done|]. apply arr_ok_aupd_list; [by apply region_bytes_ok | apply le_bytes_u8].
Qed.

Lemma Write_U32_real m a v : m_ram_size_real (Write_U32_memory v a m) = m_ram_size_real m.
Proof. unfold Write_U32_memory, CopyToEmu. case_match; [done|]. case_match; [|done]. case_match. by destruct r. Qed.

Lemma Write_U32_cache_memory m a v : cache_memory m -> cache_memory (Write_U32_memory v a m).
Proof. apply CopyToEmu_cache_memory, le_bytes_u8. Qed.

(** * The walk *)

(** The page table entry a page's translation comes from, if there is one: the first that
    matches in the group of the first hash, else in that of the second. *)
Definition pteg_entries (a : Z) : list Z := map (fun i => a + 8 * Z.of_nat i) (seq 0 8).

Definition pteg (base hashmask hash : Z) : Z := to_u32 ((hash .& hashmask) .<< 6) .| base.

Definition walk m (base hashmask vsid page : Z) : option Z :=
  let hash := vsid .^ page in
  match find (fun a => pte_lo vsid 0 (bits 10 6 page) =? pte_word m a) (pteg_entries (pteg base hashmask hash)) with
  | Some a => Some a
  | None => find (fun a => pte_lo vsid 1 (bits 10 6 page) =? pte_word m a) (pteg_entries (pteg base hashmask (to_u32 (Z.lnot hash))))
  end.

Section Walk.
Context {dev : Type} {bus : Bus dev}.
Implicit Types (s : MMUState dev).

(** The page table is in memory, which is read and written directly. *)
Record paged s : Prop := {
  pg_memory : cache_memory (mm_memory s);
  pg_dcache : m_enable_dcache s = false;
  pg_base : pagetable_base s mod 0x10000 = 0;
  pg_table : forall hash, in_ram_at (mm_memory s) (pteg (pagetable_base s) (pagetable_hashmask s) hash) 64
}.

Definition page_walk s (vsid page : Z) : option Z := walk (mm_memory s) (pagetable_base s) (pagetable_hashmask s) vsid page.
Definition page_pte s (a : Z) : Z := pte_word (mm_memory s) (a + 4).

Lemma ReadPTE_ram flag a s : paged s -> in_ram_at (mm_memory s) a 4 -> ReadPTE flag a s = (pte_word (mm_memory s) a, s).
Proof.
  intros [[Hm (k & Hk & Emask & Hreal)] Hd _ _] [Hl Hr Hh]. unfold ReadPTE, ReadPhysical.
  assert (Eand : forall c, c mod 0x08000000 = 0 -> a .& c = 0).
  { intros c Hc. apply Z.bits_inj'. intros i Hi. rewrite Z.land_spec, Z.bits_0. destruct (Z.ltb_spec i 27).
    - apply andb_false_intro2. apply Z.mod_divide in Hc as [d ->]; [|done]. change 0x08000000 with (2 ^ 27).
      by apply Z.mul_pow2_bits_low.
    - apply andb_false_intro1. apply (proj1 (uN_bits 27 a ltac:(lia) Hl)); [unfold uN; lia | lia]. }
  rewrite Eand by done. rewrite andb_false_r.
  assert (E1 : in_l1_cache a = false) by (unfold in_l1_cache; rewrite Z.shiftr_div_pow2, Z.div_small by lia; done).
  rewrite E1, Hd. cbn [negb orb Z.eqb]. rewrite Emask, land_wrapu, wrapu_small by (unfold uN; lia). done.
Qed.

Lemma pteg_aligned base hashmask hash : base mod 0x10000 = 0 -> pteg base hashmask hash mod 64 = 0.
Proof.
  intros Hb. apply Z.mod_divide in Hb as [d ->]; [|done]. change 64 with (2 ^ 6). rewrite <- Z.land_ones by lia.
  apply Z.bits_inj'. intros i Hi. rewrite Z.land_spec, Z.bits_0. destruct (Z.ltb_spec i 6).
  - apply andb_false_intro1. unfold pteg, wrapu. rewrite Z.lor_spec, Z.mod_pow2_bits_low, Z.shiftl_spec_low by lia. cbn [orb].
    change 0x10000 with (2 ^ 16). by rewrite Z.mul_pow2_bits_low by lia.
  - apply andb_false_intro2, Z.ones_spec_high. lia.
Qed.

Lemma search_pteg_spec n flag pte1 a s : paged s -> in_ram_at (mm_memory s) a (8 * Z.of_nat n) ->
  search_pteg n flag pte1 a s =
  (find (fun a => pte1 =? pte_word (mm_memory s) a) (map (fun i => a + 8 * Z.of_nat i) (seq 0 n)), s).
Proof.
  intros Hp. revert a. induction n as [|n IH]; intros a [Hl Hr Hh]; [done|]. cbn [search_pteg seq map find].
  rewrite ReadPTE_ram by (done || (split; lia)). replace (a + 8 * Z.of_nat 0) with a by lia.
  destruct (pte1 =? _); [done|]. destruct n as [|n'] eqn:En; [done|]. rewrite <- En in *.
  rewrite wrapu_small by (unfold uN; lia).
  rewrite IH by (split; lia). do 2 f_equal. rewrite <- seq_shift, map_map. apply map_ext. intros i. lia.
Qed.

(** The addresses of a walk: aligned, in memory. *)
Lemma walk_address s vsid page a : paged s -> page_walk s vsid page = Some a ->
  a mod 8 = 0 /\ in_ram_at (mm_memory s) a 8.
Proof.
  intros Hp. unfold page_walk, walk.
  assert (Hin : forall hash a, In a (pteg_entries (pteg (pagetable_base s) (pagetable_hashmask s) hash)) ->
      a mod 8 = 0 /\ in_ram_at (mm_memory s) a 8).
  { intros hash a' Ha. apply in_map_iff in Ha as (i & <- & Hi). apply in_seq in Hi.
    pose proof (pteg_aligned (pagetable_base s) (pagetable_hashmask s) hash (pg_base s Hp)).
    destruct (pg_table s Hp hash). split; [Z.div_mod_to_equations; lia | split; lia]. }
  case_match eqn:E1.
  - intros [= <-]. apply find_some in E1 as [H1 _]. by eapply Hin.
  - intros E2. apply find_some in E2 as [H2 _]. by eapply Hin.
Qed.

(** ** What setting the accessed bits changes *)

Lemma accessed_u32 flag x : u32 x -> u32 (accessed flag x).
Proof. intros Hx. unfold accessed, set_C, set_R. case_match; try done; repeat apply uN_lor; (done || lia || (unfold uN; lia)). Qed.

Lemma accessed_fields flag x :
  PTE_RPN (accessed flag x) = PTE_RPN x /\ PTE_WIMG (accessed flag x) = PTE_WIMG x /\
  (PTE_C x = true -> PTE_C (accessed flag x) = true) /\ (Z.testbit x 8 = true -> Z.testbit (accessed flag x) 8 = true) /\
  (flag = Write -> PTE_C (accessed flag x) = true) /\ (IsNoExceptionFlag flag = false -> Z.testbit (accessed flag x) 8 = true).
Proof.
  assert (Hb : forall i n c, (c .>> i) .& (2 ^ n - 1) = 0 -> 0 <= i -> bits i n (x .| c) = bits i n x).
  { intros i n c Hc Hi. unfold bits. rewrite Z.shiftr_lor, Z.land_lor_distr_l, Hc. apply Z.lor_0_r. }
  unfold PTE_RPN, PTE_WIMG, PTE_C.
  assert (H12 : forall y, bits 12 20 (set_R y) = bits 12 20 y /\ bits 12 20 (set_C y) = bits 12 20 y /\
      bits 3 4 (set_R y) = bits 3 4 y /\ bits 3 4 (set_C y) = bits 3 4 y).
  { intros y. unfold set_R, set_C, bits. rewrite !Z.shiftr_lor, !Z.land_lor_distr_l. cbn -[Z.land Z.shiftr].
    rewrite !(Z.lor_0_r). done. }
  unfold accessed. destruct flag; try (repeat split; done).
  all: rewrite ?(proj1 (proj2 (H12 (set_R x)))), ?(proj2 (proj2 (proj2 (H12 (set_R x))))), ?(proj1 (H12 x)), ?(proj1 (proj2 (proj2 (H12 x)))).
  all: unfold set_R, set_C; rewrite !Z.lor_spec; cbn; rewrite ?orb_true_r, ?orb_false_r; done.
Qed.

(** A memory in which the accessed bits of the entry at [a] have been set. *)
Definition with_accessed flag m a : MemoryManager := Write_U32_memory (accessed flag (pte_word m (a + 4))) (a + 4) m.

Lemma with_accessed_word flag m a b : memory_ok m -> in_ram_at m a 8 -> a mod 8 = 0 -> b mod 4 = 0 ->
  pte_word (with_accessed flag m a) b = if b =? a + 4 then accessed flag (pte_word m (a + 4)) else pte_word m b.
Proof.
  intros Hm [Hl Hr Hh] Ha Hb. apply pte_word_write; [done | split; lia | apply accessed_u32, pte_word_u32 |].
  Z.div_mod_to_equations. lia.
Qed.

Lemma find_ext {A} (f g : A -> bool) l : (forall x, In x l -> f x = g x) -> find f l = find g l.
Proof.
  induction l as [|x l IH]; intros H; [done|]. cbn. rewrite (H x) by (by left). rewrite IH; [done|]. intros y Hy. apply H. by right.
Qed.

(** Walks only see the words that are not written. *)
Lemma walk_accessed flag m a base hashmask vsid page : memory_ok m -> in_ram_at m a 8 -> a mod 8 = 0 -> base mod 0x10000 = 0 ->
  walk (with_accessed flag m a) base hashmask vsid page = walk m base hashmask vsid page.
Proof.
  intros Hm Ha Hal Hb. unfold walk.
  assert (E : forall p h, find (fun x => p =? pte_word (with_accessed flag m a) x) (pteg_entries (pteg base hashmask h)) =
      find (fun x => p =? pte_word m x) (pteg_entries (pteg base hashmask h))).
  { intros p h. apply find_ext. intros x Hx. f_equal. pose proof (pteg_aligned base hashmask h Hb).
    apply in_map_iff in Hx as (i & <- & _). rewrite with_accessed_word; [|done | done | done | Z.div_mod_to_equations; lia].
    rewrite (proj2 (Z.eqb_neq _ _)); [done|]. Z.div_mod_to_equations. lia. }
  by rewrite !E.
Qed.

(** * Coherence of the TLB *)

(** What a valid way says is what a walk finds. *)
Definition coherent_way s (w : TLBWay) : Prop :=
  way_tag w <> INVALID_TAG ->
  exists a, page_walk s (way_vsid w) (bits 0 16 (way_tag w)) = Some a /\
    way_paddr w = to_u32 (PTE_RPN (page_pte s a) .<< 12) /\ Z.testbit (page_pte s a) 8 = true /\
    (PTE_C (way_pte w) = true -> PTE_C (page_pte s a) = true).

Definition coherent_entry s (e : TLBEntry) : Prop := coherent_way s (way0 e) /\ coherent_way s (way1 e).
Definition tlb_coherent s : Prop := forall flag index, coherent_entry s (tlb_entry flag index s).

(** All of a state but the TLBs. *)
Definition same_memory s s' : Prop :=
  mm_memory s' = mm_memory s /\ pagetable_base s' = pagetable_base s /\ pagetable_hashmask s' = pagetable_hashmask s /\
  m_enable_dcache s' = m_enable_dcache s /\ mm_ppc s' = mm_ppc s.

Lemma set_tlb_memory flag index e s : same_memory s (set_tlb flag index e s).
Proof. unfold set_tlb. by case_match. Qed.

Lemma paged_same s s' : same_memory s s' -> paged s -> paged s'.
Proof. intros (E1 & E2 & E3 & E4 & _) [H1 H2 H3 H4]. split; rewrite ?E1, ?E2, ?E3, ?E4; done. Qed.

Lemma coherent_way_same s s' w : same_memory s s' -> coherent_way s w -> coherent_way s' w.
Proof. intros (E1 & E2 & E3 & _) H. unfold coherent_way, page_walk, page_pte. by rewrite E1, E2, E3. Qed.

Lemma tlb_entry_set flag index e s flag' index' :
  tlb_entry flag' index' (set_tlb flag index e s) =
  if bool_decide (IsOpcodeFlag flag' = IsOpcodeFlag flag /\ index' = index) then e else tlb_entry flag' index' s.
Proof.
  unfold tlb_entry, set_tlb, tlb. case_bool_decide as Hc.
  - destruct Hc as [-> ->]. destruct (IsOpcodeFlag flag); cbn; by rewrite lookup_insert_eq.
  - destruct (IsOpcodeFlag flag), (IsOpcodeFlag flag'); cbn; try done;
      rewrite lookup_insert_ne; try done; intros <-; by apply Hc.
Qed.

Lemma coherent_set_tlb s flag index e : tlb_coherent s -> coherent_entry s e -> tlb_coherent (set_tlb flag index e s).
Proof.
  intros Ht He flag' index'. rewrite tlb_entry_set.
  assert (H : coherent_entry s (if bool_decide (IsOpcodeFlag flag' = IsOpcodeFlag flag /\ index' = index) then e else tlb_entry flag' index' s))
    by (case_match; [done | apply Ht]).
  destruct H. split; (eapply coherent_way_same; [apply set_tlb_memory | done]).
Qed.

(** ** The accessed bits and the TLB *)

Section Accessed.
Context (s : MMUState dev) (flag : XCheckTLBFlag) (a vsid page : Z).
Context (Hp : paged s) (Hw : page_walk s vsid page = Some a).

Let s' := fset u_memory (with_accessed flag (mm_memory s) a) s.

Lemma accessed_paged : paged s'.
Proof.
  destruct Hp as [H1 H2 H3 H4]. split; [by apply Write_U32_cache_memory | done | done |]. intros hash.
  destruct (H4 hash) as [Hl Hr Hh]. split; [done | | done].
  assert (E : m_ram_size_real (mm_memory s') = m_ram_size_real (mm_memory s)) by apply Write_U32_real. by rewrite E.
Qed.

Lemma accessed_walk v p : page_walk s' v p = page_walk s v p.
Proof.
  destruct (walk_address s vsid page a Hp Hw) as [Ha Hr].
  exact (walk_accessed flag (mm_memory s) a (pagetable_base s) (pagetable_hashmask s) v p
    (cm_ok _ (pg_memory s Hp)) Hr Ha (pg_base s Hp)).
Qed.

Lemma accessed_pte b : b mod 8 = 0 -> page_pte s' b = if b =? a then accessed flag (page_pte s a) else page_pte s b.
Proof.
  intros Hb. destruct (walk_address s vsid page a Hp Hw) as [Ha Hr]. unfold page_pte.
  assert (Hb4 : (b + 4) mod 4 = 0) by (Z.div_mod_to_equations; lia).
  etrans; [exact (with_accessed_word flag (mm_memory s) a (b + 4) (cm_ok _ (pg_memory s Hp)) Hr Ha Hb4)|].
  destruct (Z.eqb_spec b a) as [->|Hne]; [by rewrite Z.eqb_refl|]. by rewrite (proj2 (Z.eqb_neq _ _)) by lia.
Qed.

Lemma accessed_coherent w : coherent_way s w -> coherent_way s' w.
Proof.
  intros H Hn. destruct (H Hn) as (b & Eb & Ep & Er & Ec). destruct (walk_address s _ _ b Hp Eb) as [Hb _].
  exists b. rewrite accessed_walk, accessed_pte by done. split; [done|]. destruct (Z.eqb_spec b a) as [->|]; [|done].
  destruct (accessed_fields flag (page_pte s a)) as (F1 & _ & F3 & F4 & _). rewrite F1. auto.
Qed.
End Accessed.

(** * Translation *)

Lemma bits_bits i n k l x : 0 <= i -> 0 <= n -> 0 <= k -> 0 <= l -> k + l <= n -> bits k l (bits i n x) = bits (i + k) l x.
Proof.
  intros Hi Hn Hk Hl H. unfold bits. apply Z.bits_inj'. intros j Hj.
  assert (E : forall w y, 0 <= w -> Z.testbit (y .& (2 ^ w - 1)) j = (j <? w) && Z.testbit y j).
  { intros w y Hw. replace (2 ^ w - 1) with (Z.ones w) by (rewrite Z.ones_equiv; lia).
    rewrite Z.land_spec. destruct (Z.ltb_spec j w); [rewrite Z.ones_spec_low by lia | rewrite Z.ones_spec_high by lia];
      by destruct (Z.testbit y j). }
  rewrite !E by done. destruct (Z.ltb_spec j l); [|done]. cbn [andb]. rewrite !Z.shiftr_spec by lia.
  replace (2 ^ n - 1) with (Z.ones n) by (rewrite Z.ones_equiv; lia).
  rewrite Z.land_spec, Z.ones_spec_low, andb_true_r, Z.shiftr_spec by lia. f_equal. lia.
Qed.

Lemma tag_page a : bits 0 16 (a .>> 12) = bits 12 16 a.
Proof. unfold bits. by rewrite Z.shiftr_0_r. Qed.

(** The lookup of a coherent TLB. *)
Inductive lookup_outcome s flag vpa vsid : TLBLookupResult -> MMUState dev -> Prop :=
| lookup_found w wi s' : tlb_coherent s' -> same_memory s s' -> coherent_way s w -> way_hit (vpa .>> 12) vsid w = true ->
    (flag = Write -> PTE_C (way_pte w) = true) ->
    lookup_outcome s flag vpa vsid (Found (way_paddr w .| (vpa .& 0xfff)) wi) s'
| lookup_update w e : coherent_way s w -> way_hit (vpa .>> 12) vsid w = true -> flag = Write ->
    (forall s1, coherent_way s1 (way0 (tlb_entry flag ((vpa .>> 12) .& 0x3f) s)) ->
      coherent_way s1 (way1 (tlb_entry flag ((vpa .>> 12) .& 0x3f) s)) ->
      coherent_way s1 (with_pte (set_C (way_pte w)) w) -> coherent_entry s1 e) ->
    lookup_outcome s flag vpa vsid UpdateC (set_tlb flag ((vpa .>> 12) .& 0x3f) e s)
| lookup_none : lookup_outcome s flag vpa vsid NotFound s.

Lemma lookup_spec s flag vpa vsid : tlb_coherent s ->
  let '(r, s') := LookupTLBPageAddress flag vpa vsid s in lookup_outcome s flag vpa vsid r s'.
Proof.
  intros Ht. unfold LookupTLBPageAddress. set (index := (vpa .>> 12) .& 0x3f).
  destruct (Ht flag index) as [H0 H1]. set (e := tlb_entry flag index s) in *.
  assert (Hrec : forall x, tlb_coherent (set_tlb flag index {| way0 := way0 e; way1 := way1 e; recent := x |} s))
    by (intros; by apply coherent_set_tlb).
  assert (Hfound : forall w x, coherent_way s w -> way_hit (vpa .>> 12) vsid w = true ->
      (flag = Write -> PTE_C (way_pte w) = true) -> lookup_outcome s flag vpa vsid
        (Found (way_paddr w .| (vpa .& 0xfff)) (wimg_wi (PTE_WIMG (way_pte w))))
        (if IsNoExceptionFlag flag then s else set_tlb flag index {| way0 := way0 e; way1 := way1 e; recent := x |} s)).
  { intros w x Hc Hh Hw. case_match; [by apply lookup_found | apply lookup_found; try done; apply set_tlb_memory]. }
  assert (Hwrite : forall w, is_write flag && negb (PTE_C (way_pte w)) = false -> flag = Write -> PTE_C (way_pte w) = true).
  { intros w Hc ->. cbn in Hc. by apply negb_false_iff in Hc. }
  assert (Hflag : forall w, is_write flag && negb (PTE_C (way_pte w)) = true -> flag = Write).
  { intros w Hc. apply andb_true_iff in Hc as [Hc _]. by apply bool_decide_eq_true_1 in Hc. }
  unfold hit_way. destruct (way_hit _ vsid (way0 e)) eqn:E0.
  { destruct (is_write flag && _) eqn:Ec; [|by eauto]. eapply (lookup_update _ _ _ _ (way0 e)); eauto.
    intros s1 C0 C1 C2. by split. }
  destruct (way_hit _ vsid (way1 e)) eqn:E1; [|constructor].
  destruct (is_write flag && _) eqn:Ec; [|by eauto]. eapply (lookup_update _ _ _ _ (way1 e)); eauto.
  intros s1 C0 C1 C2. by split.
Qed.

(** What a translation leaves: the entry it came from with its accessed bits, and coherence. *)
Record translated s flag (vsid page : Z) s' : Prop := {
  tr_paged : paged s';
  tr_coherent : tlb_coherent s';
  tr_walks : forall v p, page_walk s' v p = page_walk s v p;
  tr_ppc : mm_ppc s' = mm_ppc s;
  tr_memory : mm_memory s' = mm_memory s \/
    exists a, page_walk s vsid page = Some a /\ mm_memory s' = with_accessed flag (mm_memory s) a;
  tr_accessed : forall a, page_walk s vsid page = Some a -> IsNoExceptionFlag flag = false ->
    Z.testbit (page_pte s' a) 8 = true /\ (flag = Write -> PTE_C (page_pte s' a) = true)
}.

(** The address a page's entry translates to. *)
Definition pte_address s (a address : Z) : Z := to_u32 (PTE_RPN (page_pte s a) .<< 12) .| (address .& 0xfff).

Definition walk_result s (vsid address : Z) : TranslateAddressResult :=
  match page_walk s vsid (bits 12 16 address) with
  | Some a => {| ta_result := PAGE_TABLE_TRANSLATED; ta_address := pte_address s a address; ta_wi := false |}
  | None => {| ta_result := PAGE_FAULT; ta_address := 0; ta_wi := false |}
  end.

Lemma tag_index_valid address : u32 address -> address .>> 12 <> INVALID_TAG.
Proof. intros Ha. rewrite Z.shiftr_div_pow2 by lia. unfold uN in Ha. Z.div_mod_to_equations. lia. Qed.

Lemma way_hit_spec tag vsid w : way_hit tag vsid w = true -> way_tag w = tag /\ way_vsid w = vsid.
Proof. unfold way_hit. by intros [?%Z.eqb_eq ?%Z.eqb_eq]%andb_true_iff. Qed.

(** The walk in the code is the one of the specification. *)
Lemma translate_walk flag res address vsid s : paged s ->
  (let '(found, s) := search_pteg 8 flag (pte_lo vsid 0 (bits 22 6 address)) (pteg_address (vsid .^ bits 12 16 address) s) s in
   match found with
   | Some pteg_addr => found_pte flag res address vsid pteg_addr s
   | None =>
       let '(found, s) := search_pteg 8 flag (pte_lo vsid 1 (bits 22 6 address)) (pteg_address (to_u32 (Z.lnot (vsid .^ bits 12 16 address))) s) s in
       match found with
       | Some pteg_addr => found_pte flag res address vsid pteg_addr s
       | None => ({| ta_result := PAGE_FAULT; ta_address := 0; ta_wi := false |}, s)
       end
   end) =
  match page_walk s vsid (bits 12 16 address) with
  | Some a => found_pte flag res address vsid a s
  | None => ({| ta_result := PAGE_FAULT; ta_address := 0; ta_wi := false |}, s)
  end.
Proof.
  intros Hp. unfold page_walk, walk. rewrite (bits_bits 12 16 10 6) by lia. change (12 + 10) with 22.
  rewrite search_pteg_spec by (done || apply (pg_table s Hp)). fold (pteg_entries (pteg_address (vsid .^ bits 12 16 address) s)).
  change (pteg_address (vsid .^ bits 12 16 address) s) with (pteg (pagetable_base s) (pagetable_hashmask s) (vsid .^ bits 12 16 address)).
  destruct (find _ _); [done|]. rewrite search_pteg_spec by (done || apply (pg_table s Hp)). by destruct (find _ _).
Qed.

(** The entry found: result and state. *)
Lemma found_pte_spec flag res address vsid a s : paged s -> page_walk s vsid (bits 12 16 address) = Some a ->
  let sA := if IsNoExceptionFlag flag then s else fset u_memory (with_accessed flag (mm_memory s) a) s in
  found_pte flag res address vsid a s =
  (walk_result s vsid address,
   match res with UpdateC => sA | _ => UpdateTLBEntry flag (accessed flag (page_pte s a)) address vsid sA end).
Proof.
  intros Hp Hw sA. destruct (walk_address s _ _ a Hp Hw) as [Ha [Hl Hr Hh]]. unfold found_pte.
  rewrite ReadPTE_ram by (done || (split; lia)). unfold walk_result. rewrite Hw. unfold pte_address.
  fold (page_pte s a). by rewrite (proj1 (accessed_fields flag (page_pte s a))).
Qed.

(** ** The two ways a translation ends *)

(** A new way is coherent with the entry it comes from. *)
Lemma updated_tlb_coherent s flag address vsid a : paged s -> u32 address -> IsNoExceptionFlag flag = false ->
  page_walk s vsid (bits 12 16 address) = Some a -> tlb_coherent s ->
  let sA := fset u_memory (with_accessed flag (mm_memory s) a) s in
  tlb_coherent (UpdateTLBEntry flag (accessed flag (page_pte s a)) address vsid sA).
Proof.
  intros Hp Ha Hf Hw Ht sA. unfold UpdateTLBEntry. rewrite Hf. set (w := {| way_tag := _ |}).
  assert (HtA : tlb_coherent sA).
  { intros flag' index. destruct (Ht flag' index). split; by apply (accessed_coherent s flag a vsid (bits 12 16 address)). }
  apply coherent_set_tlb; [done|]. destruct (HtA flag ((address .>> 12) .& 0x3f)) as [C0 C1].
  destruct (walk_address s _ _ a Hp Hw) as [Hal _].
  assert (Cw : coherent_way sA w).
  { intros _. exists a. cbn [w way_vsid way_tag way_paddr way_pte]. rewrite tag_page.
    pose proof (accessed_walk s flag a vsid (bits 12 16 address) Hp Hw) as Ew. fold sA in Ew. rewrite Ew.
    pose proof (accessed_pte s flag a vsid (bits 12 16 address) Hp Hw a Hal) as Epte. fold sA in Epte. rewrite Z.eqb_refl in Epte.
    rewrite Epte. destruct (accessed_fields flag (page_pte s a)) as (_ & _ & _ & _ & _ & F6). auto. }
  case_match; by split.
Qed.

Lemma page_walk_same s s' v p : same_memory s s' -> page_walk s' v p = page_walk s v p.
Proof. intros (E1 & E2 & E3 & _). unfold page_walk. by rewrite E1, E2, E3. Qed.

Lemma page_pte_same s s' a : same_memory s s' -> page_pte s' a = page_pte s a.
Proof. intros (E1 & _). unfold page_pte. by rewrite E1. Qed.

(** Only the TLBs changed. *)
Lemma translated_same s flag vsid page s' : paged s -> same_memory s s' -> tlb_coherent s' ->
  (forall a, page_walk s vsid page = Some a -> IsNoExceptionFlag flag = false ->
     Z.testbit (page_pte s a) 8 = true /\ (flag = Write -> PTE_C (page_pte s a) = true)) ->
  translated s flag vsid page s'.
Proof.
  intros Hp Hs Ht Hacc. pose proof (page_walk_same s s') as Hw. pose proof (page_pte_same s s') as Hpte. split; try done.
  - by apply (paged_same s).
  - intros v p. by apply Hw.
  - apply Hs.
  - left. apply Hs.
  - intros a Ea Hf. rewrite Hpte by done. by apply Hacc.
Qed.

(** The accessed bits were set. *)
Lemma translated_accessed s flag vsid page a s' : paged s -> page_walk s vsid page = Some a ->
  same_memory (fset u_memory (with_accessed flag (mm_memory s) a) s) s' -> tlb_coherent s' -> translated s flag vsid page s'.
Proof.
  set (sA := fset u_memory _ s). intros Hp Hw Hs Ht. destruct (walk_address s _ _ a Hp Hw) as [Hal _].
  pose proof (accessed_walk s flag a vsid page Hp Hw) as Ew. pose proof (accessed_pte s flag a vsid page Hp Hw a Hal) as Epte.
  fold sA in Ew, Epte. rewrite Z.eqb_refl in Epte. split; try done.
  - apply (paged_same sA); [done|]. by apply (accessed_paged s flag a).
  - intros v p. rewrite (page_walk_same sA) by done. apply Ew.
  - destruct Hs as (_ & _ & _ & _ & E). exact E.
  - right. exists a. split; [done|]. apply Hs.
  - intros b Eb Hf. assert (b = a) as -> by congruence. rewrite (page_pte_same sA), Epte by done.
    destruct (accessed_fields flag (page_pte s a)) as (_ & _ & _ & _ & F5 & F6). auto.
Qed.

(** What a coherent way that hits says. *)
Lemma coherent_hit s w address vsid : u32 address -> coherent_way s w -> way_hit (address .>> 12) vsid w = true ->
  exists a, page_walk s vsid (bits 12 16 address) = Some a /\
    way_paddr w = to_u32 (PTE_RPN (page_pte s a) .<< 12) /\ Z.testbit (page_pte s a) 8 = true /\
    (PTE_C (way_pte w) = true -> PTE_C (page_pte s a) = true).
Proof.
  intros Ha Hc [Et Ev]%way_hit_spec. rewrite <- tag_page, <- Et, <- Ev. apply Hc. rewrite Et. by apply tag_index_valid.
Qed.

(** A way whose changed bit was set, with the entry in memory. *)
Lemma changed_coherent s address vsid w a (e : TLBEntry) :
  let index := (address .>> 12) .& 0x3f in
  paged s -> tlb_coherent s -> coherent_way s w -> way_hit (address .>> 12) vsid w = true ->
  page_walk s vsid (bits 12 16 address) = Some a ->
  (forall s1, coherent_way s1 (way0 (tlb_entry Write index s)) -> coherent_way s1 (way1 (tlb_entry Write index s)) ->
     coherent_way s1 (with_pte (set_C (way_pte w)) w) -> coherent_entry s1 e) ->
  let s1 := set_tlb Write index e s in
  translated s Write vsid (bits 12 16 address) (fset u_memory (with_accessed Write (mm_memory s1) a) s1).
Proof.
  intros index Hp Ht Hc Hh Ea He s1. set (sA := fset u_memory (with_accessed Write (mm_memory s) a) s).
  assert (HtA : forall x, coherent_way s x -> coherent_way sA x)
    by (intros; by apply (accessed_coherent s Write a vsid (bits 12 16 address))).
  apply (translated_accessed s Write vsid (bits 12 16 address) a); [done | done | exact (set_tlb_memory Write index e sA) |].
  apply (coherent_set_tlb sA Write index e); [intros flag' i; destruct (Ht flag' i); split; by apply HtA|].
  destruct (Ht Write index) as [C0 C1]. apply He; [by apply HtA | by apply HtA |].
  intros Hn. cbn [with_pte way_tag way_vsid way_paddr way_pte] in *. destruct (HtA w Hc Hn) as (b & Eb & Epb & Erb & _).
  exists b. split; [done|]. split; [done|]. split; [done|]. intros _.
  pose proof (accessed_walk s Write a vsid (bits 12 16 address) Hp Ea) as Ew. fold sA in Ew. rewrite Ew in Eb.
  destruct (way_hit_spec _ _ _ Hh) as [Etag Evsid]. rewrite Etag, Evsid, tag_page, Ea in Eb. injection Eb as <-.
  destruct (walk_address s _ _ a Hp Ea) as [Hal _].
  pose proof (accessed_pte s Write a vsid (bits 12 16 address) Hp Ea a Hal) as Epte. fold sA in Epte. rewrite Z.eqb_refl in Epte.
  rewrite Epte. by apply accessed_fields.
Qed.

(** C6. The TLB is transparent.  While every entry of both TLBs is what a walk of the page
    table finds, translating an address gives what the walk gives, whether the TLB has the page
    or not and whichever entries it replaces: the page of the first matching entry of the two
    hash groups, or a page fault.  The TLBs stay so, every other walk finds what it found
    before, the only memory that changes is the accessed bits of the entry used, and after a
    translation that may raise exceptions the entry in memory is marked referenced, and changed
    if it was for a write.  (The page table is in memory that is not cached; the segment is not
    a direct-store segment, nor one without execution for an instruction.) *)
Theorem tlb_transparent s flag address :
  let sr := aat (ppc_sr (mm_ppc s)) (bits 28 4 address) in
  let vsid := bits 0 24 sr in
  paged s -> tlb_coherent s -> u32 address -> Z.testbit sr 31 = false -> IsOpcodeFlag flag && Z.testbit sr 28 = false ->
  let '(r, s') := TranslatePageAddress flag address s in
  r = walk_result s vsid address /\ translated s flag vsid (bits 12 16 address) s'.
Proof.
  intros sr vsid Hp Ht Ha HT HN. unfold TranslatePageAddress. fold sr. fold vsid. cbv zeta.
  pose proof (lookup_spec s flag address vsid Ht) as Hl.
  destruct (LookupTLBPageAddress flag address vsid s) as [res s1]. destruct Hl as [w wi s1 Ht1 Hsame Hc Hh HC | w e Hc Hh -> He |].
  - destruct (coherent_hit s w address vsid Ha Hc Hh) as (a & Ea & Ep & Er & Ec). split.
    + unfold walk_result, pte_address. by rewrite Ea, Ep.
    + apply translated_same; try done. intros b Eb Hf. assert (b = a) as -> by congruence. auto.
  - rewrite HT, HN. set (s1 := set_tlb Write _ e s). pose proof (set_tlb_memory Write ((address .>> 12) .& 0x3f) e s) as Hs1. fold s1 in Hs1.
    destruct (coherent_hit s w address vsid Ha Hc Hh) as (a & Ea & Ep & Er & _).
    pose proof (paged_same s s1 Hs1 Hp) as Hp1. pose proof (page_walk_same s s1 vsid (bits 12 16 address) Hs1) as Ea1. rewrite Ea in Ea1.
    rewrite translate_walk, Ea1, (found_pte_spec Write UpdateC) by done. cbn [IsNoExceptionFlag]. split.
    { unfold walk_result, pte_address. by rewrite Ea1, Ea, (page_pte_same s s1). }
    by apply (changed_coherent s address vsid w a).
  - rewrite HT, HN, translate_walk by done. destruct (page_walk s vsid (bits 12 16 address)) as [a|] eqn:Ea.
    + rewrite (found_pte_spec flag NotFound) by done. split; [done|]. destruct (IsNoExceptionFlag flag) eqn:Hf.
      * unfold UpdateTLBEntry. rewrite Hf. apply translated_same; try done. intros b _ Hf'. by rewrite Hf in Hf'.
      * pose proof (updated_tlb_coherent s flag address vsid a Hp Ha Hf Ea Ht) as Ht1.
        apply (translated_accessed s flag vsid (bits 12 16 address) a); [done | done | | exact Ht1].
        unfold UpdateTLBEntry. rewrite Hf. apply set_tlb_memory.
    + split; [unfold walk_result; by rewrite Ea|]. apply translated_same; try done. intros b Eb. by rewrite Ea in Eb.
Qed.
End Walk.
