(* ===== verification/MMUAccessProps.v ===== *)
(** Accesses to memory through the MMU refine a memory of bytes: a read gives the big-endian
    bytes at the physical addresses of its bytes, a write puts them there, whether the data
    cache is emulated or not. *)
From stdpp Require Import base tactics option list gmap.
From Stdlib Require Import ZArith Lia Bool.
From S2P Require Import Prelude Memmap PowerPC Gekko MemoryProps AramProps.
From S2P Require Import PPCCache PPCCacheBlocks PPCCacheProps PPCCacheTheorems MMU MMUAccess MMUBatProps MMUPageProps.

#[local] Open Scope Z_scope.
Implicit Types (m : MemoryManager) (mem : byte_memory).

(** * Big-endian integers *)

Definition be_value (l : list Z) : Z := of_le_bytes (rev l).
Definition be_bytes (n : nat) (x : Z) : list Z := rev (le_bytes n x).

Lemma length_be_bytes n x : length (be_bytes n x) = n.
Proof. unfold be_bytes. by rewrite length_rev, length_le_bytes. Qed.

Lemma be_bytes_u8 n x : Forall u8 (be_bytes n x).
Proof. apply Forall_rev, le_bytes_u8. Qed.

Lemma be_value_bytes n x : be_value (be_bytes n x) = wrapu (8 * Z.of_nat n) x.
Proof. unfold be_value, be_bytes. rewrite rev_involutive. apply of_le_bytes_le_bytes. Qed.

Lemma testbit_bits_byte x i j : 0 <= i -> 0 <= j -> Z.testbit (wrapu 8 (x .>> i)) j = (j <? 8) && Z.testbit x (i + j).
Proof.
  intros Hi Hj. unfold wrapu. destruct (Z.ltb_spec j 8).
  - rewrite Z.mod_pow2_bits_low, Z.shiftr_spec by lia. cbn. f_equal. lia.
  - by rewrite Z.mod_pow2_bits_high by lia.
Qed.

(** The bytes of a rotation. *)
Lemma rotr32_byte x k i : u32 x -> 0 <= k < 4 -> 0 <= i < 4 ->
  wrapu 8 (rotr32 x (8 * k) .>> (8 * i)) = wrapu 8 (x .>> (8 * ((i + k) mod 4))).
Proof.
  intros Hx Hk Hi. apply Z.bits_inj'. intros j Hj. pose proof (Z.mod_pos_bound (i + k) 4 ltac:(lia)).
  rewrite !testbit_bits_byte by lia. destruct (Z.ltb_spec j 8) as [Hj8|]; [|done]. cbn [andb].
  unfold rotr32. change 31 with (2 ^ 5 - 1). rewrite land_wrapu, (wrapu_small 5) by (unfold uN; lia).
  unfold wrapu. rewrite Z.mod_pow2_bits_low, Z.lor_spec by lia. rewrite Z.shiftr_spec by lia.
  assert (Hhigh : forall n, 32 <= n -> Z.testbit x n = false) by (apply (uN_bits 32 x); [lia | apply Hx | done]).
  destruct (Z.ltb_spec (i + k) 4) as [Hs|Hs].
  - rewrite (Z.mod_small (i + k)) by lia. rewrite Z.shiftl_spec by lia.
    destruct (Z.ltb_spec (8 * i + j - (32 - 8 * k)) 0); [rewrite (Z.testbit_neg_r x (8 * i + j - (32 - 8 * k))) by lia|lia].
    rewrite orb_false_r. f_equal. lia.
  - rewrite Hhigh by lia. cbn [orb]. rewrite Z.shiftl_spec by lia. f_equal.
    replace ((i + k) mod 4) with (i + k - 4) by (rewrite <- (Z.mod_small (i + k - 4) 4) by lia; rewrite <- (Z.mod_add _ 1) by lia; f_equal; lia).
    lia.
Qed.

Lemma lookup_le_bytes n x i : (i < n)%nat -> le_bytes n x !! i = Some (wrapu 8 (x .>> (8 * Z.of_nat i))).
Proof.
  revert x i. induction n as [|n IH]; intros x i Hi; [lia|]. cbn [le_bytes]. destruct i as [|i]; [by rewrite Z.shiftr_0_r|].
  cbn [lookup list_lookup]. rewrite IH by lia. rewrite Z.shiftr_shiftr by lia. do 3 f_equal. lia.
Qed.

(** The bytes that [WriteToHardware] stores are those of the integer, most significant first. *)
Lemma swapped_bytes_be data n : u32 data -> (1 <= n <= 4)%nat -> swapped_bytes data (Z.of_nat n) = be_bytes n data.
Proof.
  intros Hd Hn. unfold swapped_bytes, be_bytes. rewrite Nat2Z.id. set (r := rotr32 data (Z.of_nat n * 8)).
  assert (E : le_bytes 4 (swap32 r) = rev (le_bytes 4 r)).
  { apply (le_bytes_of_le_bytes (rev (le_bytes 4 r))). apply Forall_rev, le_bytes_u8. }
  rewrite E, firstn_rev, length_le_bytes. f_equal. apply list_eq. intros i.
  destruct (decide (i < n)%nat) as [Hi|Hi]; [|rewrite !lookup_ge_None_2; [done | rewrite length_le_bytes; lia | rewrite length_drop, length_le_bytes; lia]].
  rewrite lookup_drop, !lookup_le_bytes by lia. f_equal.
  assert (Er : r = rotr32 data (8 * (Z.of_nat n mod 4))).
  { unfold r. assert (n = 1 \/ n = 2 \/ n = 3 \/ n = 4)%nat as [->|[->|[->| ->]]] by lia; done. }
  rewrite Er, rotr32_byte; [|done | apply Z.mod_pos_bound; lia | lia]. do 3 f_equal.
  rewrite Z.add_mod_idemp_r by lia. replace (Z.of_nat (4 - n + i) + Z.of_nat n) with (Z.of_nat i + 1 * 4) by lia.
  rewrite Z.mod_add by lia. apply Z.mod_small. lia.
Qed.

(** * Memory as the CPU sees it *)

(** Bytes of the console's memories, at their physical addresses and no mirror of them. *)
Definition plain m0 (a : Z) (n : nat) : Prop :=
  in_memory m0 a n /\ (a + Z.of_nat n <= 0x08000000 \/ 0x10000000 <= a).

Definition memory_has m0 m mem : Prop := forall b, cacheable m0 b -> memory_block m b = memory_blocks mem b.

(** Where a byte is. *)
Lemma byte_place m0 x : u32 x -> cacheable m0 (cache_block x) ->
  block_region x = block_region (cache_block x) /\
  block_offset x = block_offset (cache_block x) + (x - cache_block x) /\ 0 <= x < 0x20000000.
Proof.
  intros Hx Hb. destruct (cache_block_spec x Hx) as [Ha Hr]. pose proof (cb_range _ _ Hb) as Hbr.
  assert (Hxr : 0 <= x < 0x20000000) by (Z.div_mod_to_equations; lia).
  assert (Er : block_region x = block_region (cache_block x)).
  { unfold block_region. destruct (Z.ltb_spec x 0x10000000), (Z.ltb_spec (cache_block x) 0x10000000); try done;
      exfalso; Z.div_mod_to_equations; lia. }
  destruct (block_offset_eq x Hxr) as [_ E1], (block_offset_eq (cache_block x) Hbr) as [_ E2]. rewrite <- Er in E2.
  split; [done|]. split; [lia | done].
Qed.

Lemma memory_has_byte m0 m mem x : memory_has m0 m mem -> u32 x -> cacheable m0 (cache_block x) ->
  aat (region_bytes (block_region x) m) (block_offset x) = mem x.
Proof.
  intros Hm Hx Hb. destruct (byte_place m0 x Hx Hb) as (-> & -> & _). destruct (cache_block_spec x Hx) as [_ Hr].
  pose proof (f_equal (lookup (Z.to_nat (x - cache_block x))) (Hm _ Hb)) as E. unfold memory_block, memory_blocks in E.
  rewrite lookup_aslice, lookup_bytes_at in E by lia. rewrite !Z2Nat.id in E by lia. injection E as ->. f_equal. lia.
Qed.

(** A memory with these bytes, from the bytes. *)
Lemma memory_has_intro m0 m mem : (forall x, 0 <= x < 0x20000000 -> cacheable m0 (cache_block x) ->
    aat (region_bytes (block_region x) m) (block_offset x) = mem x) -> memory_has m0 m mem.
Proof.
  intros H b Hb. unfold memory_block, memory_blocks. apply list_eq. intros i. destruct (decide (i < 32)%nat) as [Hi|Hi];
    [|rewrite !lookup_ge_None_2; [done | rewrite length_bytes_at; lia | rewrite length_aslice; lia]].
  rewrite lookup_aslice, lookup_bytes_at by done. f_equal. pose proof (cb_aligned _ _ Hb) as Ha. pose proof (cb_range _ _ Hb) as Hr.
  assert (Hx : u32 (b + Z.of_nat i)) by (unfold uN; lia).
  assert (Ec : cache_block (b + Z.of_nat i) = b) by (rewrite cache_block_eq by done; Z.div_mod_to_equations; lia).
  assert (Hb' : cacheable m0 (cache_block (b + Z.of_nat i))) by (by rewrite Ec).
  destruct (byte_place m0 _ Hx Hb') as (E1 & E2 & Hr2). rewrite <- (H _ Hr2 Hb'), E1, E2, Ec. f_equal. lia.
Qed.

Lemma byte_span m x : cache_memory m -> u32 x -> cacheable m (cache_block x) ->
  exists len, GetSpanForAddress x m = Some (block_region x, block_offset x, len).
Proof.
  intros Hm Hx Hb. destruct (byte_place m x Hx Hb) as (-> & -> & _). destruct (cache_block_spec x Hx) as [_ Hr].
  destruct (cacheable_span _ _ Hm Hb) as (len & Hlen & E). destruct (span_ok _ _ _ _ _ (cm_ok _ Hm) E) as (_ & _ & Hi).
  specialize (Hi (x - cache_block x) ltac:(lia)). replace (cache_block x + (x - cache_block x)) with x in Hi by lia. by eexists.
Qed.

Lemma land_top5 a : u32 a -> a .& 0xF8000000 = (a / 2 ^ 27) * 2 ^ 27.
Proof.
  intros Ha. change 0xF8000000 with (Z.ldiff (Z.ones 32) (Z.ones 27)).
  assert (El : a .& Z.ldiff (Z.ones 32) (Z.ones 27) = Z.ldiff (a .& Z.ones 32) (Z.ones 27)).
  { apply Z.bits_inj'. intros i Hi. rewrite !Z.land_spec, !Z.ldiff_spec, Z.land_spec. apply andb_assoc. }
  rewrite El, Z.land_ones, Z.ldiff_ones_r, (Z.mod_small a) by (lia || exact Ha). by rewrite Z.shiftl_mul_pow2, Z.shiftr_div_pow2 by lia.
Qed.

(** An address of the first two memories is not one of the devices. *)
Lemma not_device a : 0 <= a < 0x20000000 -> a < 0x08000000 \/ 0x10000000 <= a ->
  (a .& 0xF8000000 =? 0) = (match block_region a with RAM => true | EXRAM => false end) /\
  (a .& 0xF8000000 =? 0x08000000) = false /\ (a .& 0xFFFFF000 =? GATHER_PIPE_PHYSICAL_ADDRESS) = false /\ in_l1_cache a = false.
Proof.
  intros Hr Hd. assert (Hu : u32 a) by (unfold uN; lia).
  assert (E8 : a .& 0xF8000000 <> 0x08000000) by (rewrite land_top5 by done; Z.div_mod_to_equations; lia).
  split; [|split; [by apply Z.eqb_neq|split]].
  - rewrite land_top5 by done. unfold block_region.
    destruct (Z.ltb_spec a 0x10000000); [apply Z.eqb_eq | apply Z.eqb_neq]; Z.div_mod_to_equations; lia.
  - apply Z.eqb_neq. intros Eg. apply E8.
    assert (Hc : (a .& 0xFFFFF000) .& 0xF8000000 = GATHER_PIPE_PHYSICAL_ADDRESS .& 0xF8000000) by (by rewrite Eg).
    by rewrite <- Z.land_assoc in Hc.
  - unfold in_l1_cache. rewrite Z.shiftr_div_pow2 by lia. rewrite (proj2 (Z.eqb_neq _ _)); [done|]. Z.div_mod_to_equations. lia.
Qed.

Section View.
Context {dev : Type} {bus : Bus dev}.
Implicit Types (s : MMUState dev).

(** The CPU sees the bytes [mem]: in memory, or in the cache and memory if it is emulated. *)
Record sees m0 s mem : Prop := {
  vw_layout : same_layout m0 (mm_memory s);
  vw_memory : cache_memory (mm_memory s);
  vw_bytes : if m_enable_dcache s then mem_is m0 mem (mm_dCache s, mm_memory s) else memory_has m0 (mm_memory s) mem
}.

(** All of a state but the memory and the data cache. *)
Definition rest s :=
  (mm_ppc s, mm_l1_cache s, mm_fake_vmem s, mm_itlb s, mm_dtlb s, pagetable_base s, pagetable_hashmask s,
   m_ibat_table s, m_dbat_table s, mm_iCache s, m_enable_dcache s, mm_disable_icache s, mm_wii s, mm_mmu_mode s,
   mm_pause_on_panic s, mm_dev s).

Section Physical.
Context (m0 : MemoryManager) (s : MMUState dev) (mem : byte_memory) (a : Z) (n : nat).
Context (Hs : sees m0 s mem) (Ha : plain m0 a n) (Hn : (0 < n)%nat).

(** What is seen is bytes. *)
Lemma sees_u8 : Forall u8 (bytes_at mem a n).
Proof.
  assert (Hx : forall x, u32 x -> cacheable m0 (cache_block x) -> u8 (mem x)).
  { intros x Hx Hb. destruct Hs as [Hl Hm Hv]. pose proof (cache_block_spec x Hx) as [_ Hr].
    assert (Hv' : Forall u8 (memory_blocks mem (cache_block x))).
    { destruct (m_enable_dcache s).
      - destruct Hv as [Hok Hv]. rewrite <- Hv by done. unfold block_view. case_match; [|apply Hok].
        apply aslice_u8, region_bytes_ok, (cm_ok _ Hm).
      - rewrite <- Hv by done. apply aslice_u8, region_bytes_ok, (cm_ok _ Hm). }
    apply (Forall_lookup_1 _ _ (Z.to_nat (x - cache_block x)) _ Hv'). unfold memory_blocks.
    rewrite lookup_bytes_at by lia. do 2 f_equal. lia. }
  apply Forall_lookup_2. intros i y Hy. assert (Hi : (i < n)%nat) by (apply lookup_lt_Some in Hy; by rewrite length_bytes_at in Hy).
  rewrite lookup_bytes_at in Hy by done. injection Hy as <-. destruct Ha as [[H0 Hin] _].
  destruct (Hin (a + Z.of_nat i)); [lia|]. apply Hx; [unfold uN; lia | done].
Qed.

Lemma plain_byte i : 0 <= i < Z.of_nat n -> 0 <= a + i < 0x20000000 /\ cacheable m0 (cache_block (a + i)).
Proof. destruct Ha as [[H0 Hin] _]. intros Hi. destruct (Hin (a + i)); [lia|]. split; [lia | done]. Qed.

Lemma plain_range : 0 <= a < 0x20000000.
Proof. destruct (plain_byte 0); [lia|]. lia. Qed.

(** All bytes are in one memory. *)
Lemma plain_region i : 0 <= i < Z.of_nat n -> block_region (a + i) = block_region a /\ block_offset (a + i) = block_offset a + i.
Proof.
  intros Hi. destruct (plain_byte i Hi) as [Hr _]. pose proof plain_range as Hr0. destruct Ha as [_ Hd].
  assert (Er : block_region (a + i) = block_region a).
  { unfold block_region. destruct (Z.ltb_spec (a + i) 0x10000000), (Z.ltb_spec a 0x10000000); done || lia. }
  destruct (block_offset_eq a Hr0) as [_ E1], (block_offset_eq (a + i) Hr) as [_ E2]. rewrite Er in E2. split; [done | lia].
Qed.

(** The branch of the first memory is taken, with the address as it is, or that of the second. *)
Lemma plain_branch :
  match block_region a with
  | RAM => a .& m_ram_mask (mm_memory s) = a /\ block_offset a = a
  | EXRAM => in_exram a s = true /\ a .& 0x0FFFFFFF = block_offset a /\ block_offset a + 0x10000000 = a
  end.
Proof.
  pose proof plain_range as Hr. destruct (plain_byte 0) as [_ Hb]; [lia|]. rewrite Z.add_0_r in Hb.
  pose proof (proj2 (same_layout_cacheable _ _ _ (vw_layout _ _ _ Hs)) Hb) as Hbm.
  assert (Hu : u32 a) by (unfold uN; lia). pose proof (vw_memory _ _ _ Hs) as Hm.
  destruct (byte_span _ _ Hm Hu Hbm) as (len & Espan). destruct (block_offset_eq a Hr) as [Ho E].
  destruct (span_block _ _ _ _ _ (cm_ok _ Hm) Hr Espan) as (_ & _ & _ & Hreal).
  destruct (block_region a).
  - destruct (cm_ram_mask _ Hm) as (k & Hk & -> & Hsz). specialize (Hreal eq_refl).
    rewrite land_wrapu, wrapu_small by (unfold uN; lia). lia.
  - split; [|split; [done | lia]]. unfold in_exram. unfold GetSpanForAddress in Espan.
    change 0x3FFFFFFF with (2 ^ 30 - 1) in Espan. rewrite land_wrapu, wrapu_small in Espan by (unfold uN; lia).
    case_match; [done|]. destruct (m_exram (mm_memory s)); [|done]. rewrite bool_decide_eq_true_2 by done. by case_match.
Qed.

(** A read of the bytes. *)
Lemma ReadPhysical_plain : exists s', ReadPhysical Read n a false s = (be_value (bytes_at mem a n), s') /\
  sees m0 s' mem /\ rest s' = rest s.
Proof.
  pose proof plain_range as Hr. destruct (not_device a Hr) as (E1 & E2 & _ & E4); [destruct Ha as [_ Hd]; lia|].
  pose proof plain_branch as Hbr. pose proof sees_u8 as Hu8. unfold ReadPhysical. cbn [is_read andb]. rewrite E2, E4, E1. rewrite andb_false_r.
  assert (Hdirect : forall o, m_enable_dcache s = false -> o = block_offset a ->
      bswap n (of_le_bytes (aslice (region_bytes (block_region a) (mm_memory s)) o n)) = be_value (bytes_at mem a n)).
  { intros o Ed ->. destruct Hs as [_ Hm Hb]. rewrite Ed in Hb.
    assert (El : aslice (region_bytes (block_region a) (mm_memory s)) (block_offset a) n = bytes_at mem a n).
    { apply list_eq. intros i. destruct (decide (i < n)%nat) as [Hi|Hi];
        [|rewrite !lookup_ge_None_2; [done | rewrite length_bytes_at; lia | rewrite length_aslice; lia]].
      rewrite lookup_aslice, lookup_bytes_at by done. f_equal. destruct (plain_byte (Z.of_nat i)) as [Hri Hci]; [lia|].
      rewrite <- (memory_has_byte m0 _ mem _ Hb) by (done || (unfold uN; lia)).
      destruct (plain_region (Z.of_nat i)) as [-> ->]; [lia | done]. }
    rewrite El. rewrite <- (length_bytes_at mem a n) at 1. apply bswap_bytes. rewrite <- El.
    apply aslice_u8, region_bytes_ok, (cm_ok _ Hm). }
  assert (Hcached : forall o bytes locked, m_enable_dcache s = true -> o = a -> length bytes = n ->
      exists s', (let '(bytes, s) := dcache_read o bytes locked s in (bswap n (of_le_bytes bytes), s)) =
        (be_value (bytes_at mem a n), s') /\ sees m0 s' mem /\ rest s' = rest s).
  { intros o bytes locked Ed -> Hlen. destruct Hs as [Hl Hm Hb]. rewrite Ed in Hb. unfold dcache_read, Cache_Read.
    destruct (read_loop_spec m0 locked (length bytes) a bytes mem _ ltac:(lia) ltac:(rewrite Hlen; apply Ha) Hb) as ([c m] & -> & Hs').
    exists (fset u_dCache c (fset u_memory m s)). cbv beta iota.
    assert (Eb : bswap n (of_le_bytes (bytes_at mem a (length bytes))) = be_value (bytes_at mem a n)).
    { rewrite Hlen. rewrite <- (length_bytes_at mem a n) at 1. by apply bswap_bytes. }
    rewrite Eb. split; [done|]. split; [|done]. split; [apply Hs' | apply Hs' |]. cbn. by rewrite Ed. }
  destruct (m_enable_dcache s) eqn:Ed; cbn [negb orb].
  - destruct (block_region a).
    + destruct Hbr as [-> _]. apply Hcached; [done | done | apply length_le_bytes].
    + destruct Hbr as (-> & -> & Eo). apply Hcached; [done | done | apply length_le_bytes].
  - exists s. split; [|done]. destruct (block_region a) eqn:Er.
    + destruct Hbr as [-> Eo]. f_equal. by apply (Hdirect a).
    + destruct Hbr as (-> & -> & _). f_equal. by apply Hdirect.
Qed.

(** The bytes of a region after a write to it. *)
Lemma memory_has_store l : length l = n -> memory_has m0 (mm_memory s) mem -> region_present (block_region a) (mm_memory s) ->
  memory_has m0 (set_region (block_region a) (aupd_list (region_bytes (block_region a) (mm_memory s)) (block_offset a) l) (mm_memory s))
    (store_bytes mem a l).
Proof.
  intros Hlen Hm Hp. apply memory_has_intro. intros x Hx Hb. pose proof plain_range as Hr.
  assert (Hu : u32 x) by (unfold uN; lia). pose proof (memory_has_byte m0 _ mem x Hm Hu Hb) as Ex.
  destruct (block_offset_eq a Hr) as [_ Ea], (block_offset_eq x Hx) as [_ Exo].
  destruct (decide (block_region x = block_region a)) as [Er|Er].
  - rewrite Er in *. rewrite bytes_set_region by done. rewrite aat_aupd_list.
    unfold store_bytes. replace (block_offset a <=? block_offset x) with (a <=? x) by (apply eq_true_iff_eq; rewrite !Z.leb_le; lia).
    replace (block_offset x <? block_offset a + Z.of_nat (length l)) with (x <? a + Z.of_nat (length l))
      by (apply eq_true_iff_eq; rewrite !Z.ltb_lt; lia).
    destruct ((a <=? x) && _); [|exact Ex]. rewrite nth_lookup. do 2 f_equal. lia.
  - destruct (decide (a <= x < a + Z.of_nat (length l))) as [Hin|Hout].
    + destruct Er. replace x with (a + (x - a)) by lia. apply plain_region. lia.
    + rewrite store_bytes_out by done. rewrite <- Ex.
      destruct (block_region x), (block_region a); by try (cbn; destruct (m_exram (mm_memory s))).
Qed.

Lemma sees_store l : length l = n -> Forall u8 l -> m_enable_dcache s = false -> region_present (block_region a) (mm_memory s) ->
  let m := set_region (block_region a) (aupd_list (region_bytes (block_region a) (mm_memory s)) (block_offset a) l) (mm_memory s) in
  sees m0 (fset u_memory m s) (store_bytes mem a l).
Proof.
  intros Hlen Hu Ed Hp m. destruct Hs as [Hl Hm Hb]. rewrite Ed in Hb. split; cbn.
  - etrans; [exact Hl|]. split; [intros x; apply span_set_region | |]; unfold m; by destruct (block_region a).
  - destruct Hm as [Hok Hk]. split; [|unfold m; by destruct (block_region a)].
    apply memory_ok_set_region; [done|]. apply arr_ok_aupd_list; [by apply region_bytes_ok | done].
  - rewrite Ed. by apply memory_has_store.
Qed.

Lemma dcache_write_plain l locked : length l = n -> Forall u8 l -> m_enable_dcache s = true ->
  sees m0 (dcache_write a l locked s) (store_bytes mem a l) /\ rest (dcache_write a l locked s) = rest s.
Proof.
  intros Hlen Hu Ed. destruct Hs as [Hl Hm Hb]. rewrite Ed in Hb. unfold dcache_write, Cache_Write.
  destruct (write_loop_spec m0 locked (length l) a l mem _ ltac:(lia) ltac:(rewrite Hlen; apply Ha) Hu Hb) as ([c m] & -> & Hs').
  split; [|done]. split; [apply Hs' | apply Hs' |]. cbn. by rewrite Ed.
Qed.

(** A write of the bytes. *)
Lemma WritePhysical_plain data : (n <= 4)%nat -> u32 data ->
  let s' := WritePhysical Write a data (Z.of_nat n) false s in
  sees m0 s' (store_bytes mem a (be_bytes n data)) /\ rest s' = rest s.
Proof.
  intros Hn4 Hd. pose proof plain_range as Hr. destruct (not_device a Hr) as (E1 & E2 & E3 & E4); [destruct Ha as [_ Hd']; lia|].
  pose proof plain_branch as Hbr. unfold WritePhysical, WritePhysicalWith. change (is_write Write) with true. cbn [andb negb].
  rewrite E1, E2, E3, E4, orb_false_r.
  rewrite swapped_bytes_be by (done || lia). pose proof (length_be_bytes n data) as Hlen. pose proof (be_bytes_u8 n data) as Hu.
  destruct (m_enable_dcache s) eqn:Ed; cbn [negb orb andb].
  - destruct (block_region a).
    + destruct Hbr as [-> _]. assert (Ed' : m_enable_dcache (dcache_write a (be_bytes n data) (hid0_DLOCK s) s) = true)
        by (rewrite <- Ed; unfold dcache_write; by repeat case_match).
      rewrite Ed'. cbn [negb orb]. by apply dcache_write_plain.
    + destruct Hbr as (-> & -> & Eo). rewrite Eo.
      assert (Ed' : m_enable_dcache (dcache_write a (be_bytes n data) (hid0_DLOCK s) s) = true)
        by (rewrite <- Ed; unfold dcache_write; by repeat case_match).
      rewrite Ed'. cbn [negb orb]. by apply dcache_write_plain.
  - destruct (block_region a) eqn:Er.
    + destruct Hbr as [Ea Eo]. rewrite Ed, Ea. cbn [negb orb]. split; [|done].
      pose proof (sees_store (be_bytes n data) Hlen Hu Ed) as Hst. rewrite Er, Eo in Hst. by apply Hst.
    + destruct Hbr as (Hex & -> & Eo). rewrite Hex, Ed. cbn [negb orb]. split; [|done].
      pose proof (sees_store (be_bytes n data) Hlen Hu Ed) as Hst. rewrite Er in Hst. apply Hst.
      unfold in_exram in Hex. apply andb_true_iff in Hex as [[Hex _]%andb_true_iff _]. apply bool_decide_eq_true_1 in Hex.
      cbn. by destruct Hex as [? ->].
Qed.
End Physical.

Lemma sees_ext m0 s mem mem' : (forall x, mem x = mem' x) -> sees m0 s mem -> sees m0 s mem'.
Proof.
  intros H [Hl Hm Hb]. assert (E : forall b, memory_blocks mem b = memory_blocks mem' b)
    by (intros b; apply bytes_at_ext; intros x _; apply H).
  split; [done | done |]. case_match; [by eapply holds_ext; [intros b _; apply E |] | intros b Hcb; rewrite <- E; by apply Hb].
Qed.

(** * Effective addresses *)

(** The physical address of data, when it is translated by the BATs or not at all, and cached. *)
Definition data_pa s (ea : Z) : option Z :=
  if msr_DR s then
    match TranslateBatAddress (m_dbat_table s) ea with
    | Some (pa, false) => Some pa
    | _ => None
    end
  else Some ea.

Definition block_table (t : arr) : Prop := forall i, exists x, aat t i .& BAT_RESULT_MASK = x .<< 17.

(** The bytes of an access, each at its own physical address in memory. *)
Definition pa_at s (ea i : Z) : Z := default 0 (data_pa s (to_u32 (ea + i))).
Record mapped m0 s (ea : Z) (n : nat) : Prop := {
  mp_table : block_table (m_dbat_table s);
  mp_ea : u32 ea;
  mp_bytes : forall i, 0 <= i < Z.of_nat n -> is_Some (data_pa s (to_u32 (ea + i))) /\ plain m0 (pa_at s ea i) 1
}.

Definition pas s (ea : Z) (n : nat) : list Z := map (fun i => pa_at s ea (Z.of_nat i)) (seq 0 n).

Lemma rest_data_pa s s' ea : rest s' = rest s -> data_pa s' ea = data_pa s ea.
Proof. intros [= E1 _ _ _ _ _ _ _ E2 _ _ _ _ _ _ _]. unfold data_pa, msr_DR. by rewrite E1, E2. Qed.

Lemma rest_mapped m0 s s' ea n : rest s' = rest s -> mapped m0 s ea n -> mapped m0 s' ea n.
Proof.
  intros Hr [Ht He Hb]. pose proof (rest_data_pa s s') as Hd. split; [by injection Hr as _ _ _ _ _ _ _ _ -> _ _ _ _ _ _ _ | done |].
  intros i Hi. unfold pa_at. rewrite Hd by done. by apply Hb.
Qed.

Lemma rest_pas s s' ea n : rest s' = rest s -> pas s' ea n = pas s ea n.
Proof. intros Hr. unfold pas, pa_at. apply map_ext. intros i. by rewrite (rest_data_pa s s'). Qed.

Lemma length_pas s ea n : length (pas s ea n) = n.
Proof. unfold pas. by rewrite length_map, length_seq. Qed.

(** In a block addresses are translated together. *)
Lemma data_pa_block s ea i pa : block_table (m_dbat_table s) -> 0 <= i -> u32 ea ->
  (ea + i) .>> 17 = ea .>> 17 -> data_pa s ea = Some pa -> data_pa s (ea + i) = Some (pa + i).
Proof.
  intros Ht Hi Hu Hb. unfold data_pa. destruct (msr_DR s); [|intros [= ->]; done].
  unfold TranslateBatAddress. rewrite Hb. destruct (_ =? 0); [done|]. destruct (negb _); [done|]. intros [= <-]. f_equal.
  destruct (Ht (ea .>> 17)) as [x ->]. change (BAT_PAGE_SIZE - 1) with (2 ^ 17 - 1). rewrite !land_wrapu by lia.
  pose proof (wrapu_range 17 ea ltac:(lia)). pose proof (wrapu_range 17 (ea + i) ltac:(lia)). rewrite !block_sum by done.
  rewrite !Z.shiftr_div_pow2 in Hb by lia. unfold wrapu in *. change (2 ^ 17) with BAT_PAGE_SIZE in *. Z.div_mod_to_equations. lia.
Qed.

(** A part of an access that is in one page. *)
Lemma mapped_run m0 s ea n k c : mapped m0 s ea n -> 0 <= k -> (0 < c)%nat -> k + Z.of_nat c <= Z.of_nat n ->
  to_u32 (ea + k) mod 0x1000 + Z.of_nat c <= 0x1000 ->
  data_pa s (to_u32 (ea + k)) = Some (pa_at s ea k) /\ plain m0 (pa_at s ea k) c /\
  forall i, 0 <= i < Z.of_nat c -> pa_at s ea (k + i) = pa_at s ea k + i.
Proof.
  intros [Ht He Hb] Hk Hc Hkc Hpage. destruct (Hb k) as [[pa Epa] _]; [lia|]. unfold pa_at at 1 2 4. rewrite Epa. cbn.
  pose proof (wrapu_range 32 (ea + k) ltac:(lia)) as Hu. unfold uN in Hu.
  assert (Erun : forall i, 0 <= i < Z.of_nat c -> pa_at s ea (k + i) = pa + i).
  { intros i Hi. unfold pa_at. rewrite Z.add_assoc.
    assert (Ew : to_u32 (ea + k + i) = to_u32 (ea + k) + i).
    { destruct (wrapu_spec 32 (ea + k) ltac:(lia)) as [q Hq]. apply wrapu_unique with (k := q); [unfold uN; Z.div_mod_to_equations; lia | lia]. }
    rewrite Ew. rewrite (data_pa_block s _ i pa); [done | done | lia | done | | done].
    rewrite !Z.shiftr_div_pow2 by lia. change (2 ^ 17) with (0x1000 * 0x20). rewrite <- !Z.div_div by lia. f_equal.
    Z.div_mod_to_equations. lia. }
  split; [done|]. split; [|done].
  assert (Hplain : forall i, 0 <= i < Z.of_nat c -> plain m0 (pa + i) 1).
  { intros i Hi. rewrite <- Erun by done. apply Hb. lia. }
  destruct (Hplain 0) as [[H0 _] Hd0]; [lia|]. destruct (Hplain (Z.of_nat c - 1)) as [_ Hd1]; [lia|].
  assert (Hsmall : Z.of_nat c <= 0x1000) by (Z.div_mod_to_equations; lia).
  split; [split; [lia|]|lia]. intros x Hx. destruct (Hplain (x - pa)) as [[_ Hin] _]; [lia|]. apply Hin. lia.
Qed.

Lemma pas_run m0 s ea n k c : mapped m0 s ea n -> 0 <= k -> (0 < c)%nat -> k + Z.of_nat c <= Z.of_nat n ->
  to_u32 (ea + k) mod 0x1000 + Z.of_nat c <= 0x1000 ->
  forall mem, bytes_at mem (pa_at s ea k) c = map (fun i => mem (pa_at s ea (k + Z.of_nat i))) (seq 0 c).
Proof.
  intros Hm Hk Hc Hkc Hp mem. destruct (mapped_run m0 s ea n k c Hm Hk Hc Hkc Hp) as (_ & _ & Hi).
  apply map_ext_in. intros i Hin. apply in_seq in Hin. by rewrite Hi by lia.
Qed.

(** ** Reads *)

Lemma ReadInPage_run m0 s mem ea k c n : sees m0 s mem -> mapped m0 s ea n -> 0 <= k -> (0 < c)%nat -> k + Z.of_nat c <= Z.of_nat n ->
  to_u32 (ea + k) mod 0x1000 + Z.of_nat c <= 0x1000 ->
  exists s', ReadInPage Read c false (to_u32 (ea + k)) s =
      (be_value (map (fun i => mem (pa_at s ea (k + Z.of_nat i))) (seq 0 c)), s') /\ sees m0 s' mem /\ rest s' = rest s.
Proof.
  intros Hs Hm Hk Hc Hkc Hp. destruct (mapped_run m0 s ea n k c Hm Hk Hc Hkc Hp) as (Epa & Hpl & _).
  rewrite <- (pas_run m0 s ea n k c) by done. set (pa := pa_at s ea k) in *.
  destruct (ReadPhysical_plain m0 s mem pa c Hs Hpl Hc) as (s' & E & Hs'). exists s'. split; [|done].
  unfold ReadInPage. cbn [IsOpcodeFlag negb andb]. unfold data_pa in Epa. destruct (msr_DR s); [|injection Epa as ->; done].
  unfold TranslateAddress. cbn [IsOpcodeFlag]. destruct (TranslateBatAddress _ _) as [[pa' wi]|]; [|done].
  destruct wi; [done|]. injection Epa as ->. exact E.
Qed.

Lemma be_value_snoc l b : u8 b -> Forall u8 l -> be_value (l ++ [b]) = (be_value l .<< 8) .| b.
Proof. intros Hb Hl. unfold be_value. rewrite rev_app_distr. cbn [rev app of_le_bytes]. apply Z.lor_comm. Qed.

Lemma be_value_range l : Forall u8 l -> uN (8 * Z.of_nat (length l)) (be_value l).
Proof. intros Hl. unfold be_value. rewrite <- (length_rev l). by apply of_le_bytes_range, Forall_rev. Qed.

Lemma be_value_one b : be_value [b] = b.
Proof. unfold be_value. cbn. by rewrite Z.shiftl_0_l, Z.lor_0_r. Qed.

Lemma mapped_u8 m0 s mem ea n i : sees m0 s mem -> mapped m0 s ea n -> 0 <= i < Z.of_nat n -> u8 (mem (pa_at s ea i)).
Proof.
  intros Hs Hm Hi. destruct (mp_bytes _ _ _ _ Hm i Hi) as [_ Hp]. pose proof (sees_u8 m0 s mem _ 1 Hs Hp ltac:(lia)) as Hu.
  cbn in Hu. rewrite Z.add_0_r in Hu. by apply Forall_cons in Hu as [Hu _].
Qed.

Lemma pas_u8 m0 s mem ea n c : sees m0 s mem -> mapped m0 s ea n -> (c <= n)%nat -> Forall u8 (map mem (pas s ea c)).
Proof.
  intros Hs Hm Hc. apply List.Forall_forall. intros x Hx. apply in_map_iff in Hx as (y & <- & Hy).
  apply in_map_iff in Hy as (i & <- & Hi). apply in_seq in Hi. apply (mapped_u8 m0 s mem ea n); [done | done | lia].
Qed.

Lemma ReadBytes_spec m0 s mem ea n first todo : sees m0 s mem -> mapped m0 s ea n -> (first + todo = n)%nat -> (n <= 8)%nat ->
  exists s', ReadBytes todo Read false ea (Z.of_nat first) (be_value (map mem (pas s ea first))) s =
    (be_value (map mem (pas s ea n)), s') /\ sees m0 s' mem /\ rest s' = rest s.
Proof.
  intros Hs Hm. revert first s Hs Hm. induction todo as [|todo IH]; intros first s Hs Hm Hn Hn8; cbn [ReadBytes].
  { rewrite Nat.add_0_r in Hn. subst. by exists s. }
  pose proof (wrapu_range 32 (ea + Z.of_nat first) ltac:(lia)) as Hu. unfold uN in Hu.
  destruct (ReadInPage_run m0 s mem ea (Z.of_nat first) 1 n Hs Hm) as (s1 & -> & Hs1 & Hr1); [lia | lia | lia | Z.div_mod_to_equations; lia |].
  cbn [seq map]. rewrite be_value_one, Z.add_0_r.
  pose proof (pas_u8 m0 s mem ea n first Hs Hm ltac:(lia)) as Hu8.
  pose proof (be_value_range _ Hu8) as Hv. rewrite length_map, length_pas in Hv.
  rewrite wrapu_small.
  2: { rewrite Z.shiftl_mul_pow2 by lia. unfold uN in *. destruct Hv as [Hv0 Hv].
       assert (2 ^ (8 * Z.of_nat first) * 2 ^ 8 <= 2 ^ 64) by (rewrite <- Z.pow_add_r by lia; apply Z.pow_le_mono_r; lia). lia. }
  rewrite <- be_value_snoc; [|apply (mapped_u8 m0 s mem ea n); [done | done | lia] | done].
  assert (Epas : map mem (pas s ea first) ++ [mem (pa_at s ea (Z.of_nat first))] = map mem (pas s ea (S first))).
  { unfold pas. rewrite seq_S, !map_app. done. }
  rewrite Epas, <- !(rest_pas s s1) by done. replace (Z.of_nat first + 1) with (Z.of_nat (S first)) by lia.
  destruct (IH (S first) s1 Hs1) as (s2 & -> & Hs2 & Hr2); [by eapply rest_mapped | lia | done |].
  exists s2. split; [done|]. split; [done|]. by rewrite Hr2.
Qed.

Lemma page_of x : u32 x -> x .& to_u32 (Z.lnot HW_PAGE_MASK) = x - x mod 0x1000.
Proof.
  intros Hx. change (to_u32 (Z.lnot HW_PAGE_MASK)) with (Z.ldiff (Z.ones 32) (Z.ones 12)).
  assert (El : x .& Z.ldiff (Z.ones 32) (Z.ones 12) = Z.ldiff (x .& Z.ones 32) (Z.ones 12)).
  { apply Z.bits_inj'. intros i Hi. rewrite !Z.land_spec, !Z.ldiff_spec, Z.land_spec. apply andb_assoc. }
  rewrite El, Z.land_ones, Z.ldiff_ones_r, (Z.mod_small x) by (lia || exact Hx). rewrite Z.shiftl_mul_pow2, Z.shiftr_div_pow2 by lia.
  change (2 ^ 12) with 0x1000. Z.div_mod_to_equations. lia.
Qed.

Lemma one_page_spec ea n : u32 ea -> 1 <= n <= 8 -> one_page ea n = (ea mod 0x1000 + n <=? 0x1000).
Proof.
  intros He Hn. unfold one_page. pose proof (wrapu_range 32 (ea + n - 1) ltac:(lia)) as Hu.
  rewrite !page_of by done. destruct (wrapu_spec 32 (ea + n - 1) ltac:(lia)) as [q Hq]. unfold uN in *.
  apply eq_true_iff_eq. rewrite Z.eqb_eq, Z.leb_le. change (2 ^ 32) with (0x100000 * 0x1000) in *. Z.div_mod_to_equations. nia.
Qed.

Lemma ReadFromHardware_mapped m0 s mem ea n : sees m0 s mem -> mapped m0 s ea n -> (1 <= n <= 8)%nat ->
  exists s', ReadFromHardware Read n false ea s = (be_value (map mem (pas s ea n)), s') /\ sees m0 s' mem /\ rest s' = rest s.
Proof.
  intros Hs Hm Hn. pose proof (mp_ea _ _ _ _ Hm) as He. unfold ReadFromHardware. rewrite one_page_spec by (done || lia).
  destruct (Z.leb_spec (ea mod 0x1000 + Z.of_nat n) 0x1000).
  - destruct (ReadInPage_run m0 s mem ea 0 n n Hs Hm) as (s' & E & Hs'); [lia | lia | lia | rewrite Z.add_0_r, wrapu_small by done; lia |].
    rewrite Z.add_0_r, wrapu_small in E by done. exists s'. split; [|done]. rewrite E. f_equal. f_equal. unfold pas. by rewrite map_map.
  - destruct (ReadBytes_spec m0 s mem ea n 0 n Hs Hm) as (s' & E & Hs'); [lia | lia |].
    change (be_value (map mem (pas s ea 0))) with 0 in E. change (Z.of_nat 0) with 0 in E. rewrite E. exists s'. split; [|done].
    f_equal. pose proof (be_value_range _ (pas_u8 m0 s mem ea n n Hs Hm ltac:(lia))) as Hv. rewrite length_map, length_pas in Hv.
    by apply wrapu_small.
Qed.
End View.
