(* ===== verification/MMUMemoryProps.v ===== *)
(** Writes through the MMU, and what loads and stores mean together: each byte is at its own
    physical address, also of an access that crosses a page, and what was stored is loaded
    back.  An access to a page that is not mapped is an exception and nothing else. *)
From stdpp Require Import base tactics option list gmap.
From Stdlib Require Import ZArith Lia Bool.
From S2P Require Import Prelude Memmap PowerPC Gekko MemoryProps AramProps.
From S2P Require Import PPCCache PPCCacheBlocks PPCCacheProps PPCCacheTheorems MMU MMUAccess MMUBatProps MMUPageProps MMUAccessProps.

#[local] Open Scope Z_scope.
Implicit Types (m : MemoryManager) (mem : byte_memory).

(** * Bytes at given addresses *)

Fixpoint store_at mem (addresses bytes : list Z) : byte_memory :=
  match addresses, bytes with
  | a :: addresses, b :: bytes => store_at (store_bytes mem a [b]) addresses bytes
  | _, _ => mem
  end.

Lemma store_one mem a b x : store_bytes mem a [b] x = if x =? a then b else mem x.
Proof.
  destruct (Z.eqb_spec x a) as [->|Hne].
  - rewrite store_bytes_in by (cbn; lia). by rewrite Z.sub_diag.
  - apply store_bytes_out. cbn. lia.
Qed.

Lemma store_at_ext mem mem' addresses bytes x :
  (forall y, mem y = mem' y) -> store_at mem addresses bytes x = store_at mem' addresses bytes x.
Proof.
  revert mem mem' bytes. induction addresses as [|a l IH]; intros mem mem' bytes H; [apply H|].
  destruct bytes as [|b bytes]; [apply H|]. cbn. apply IH. intros y. rewrite !store_one. by case_match.
Qed.

Lemma store_at_app mem p1 p2 l1 l2 : length p1 = length l1 ->
  store_at mem (p1 ++ p2) (l1 ++ l2) = store_at (store_at mem p1 l1) p2 l2.
Proof.
  revert mem l1. induction p1 as [|a p1 IH]; intros mem [|b l1] Hl; try done. cbn. apply IH. by injection Hl.
Qed.

Lemma store_at_notin mem addresses bytes x : ~ In x addresses -> store_at mem addresses bytes x = mem x.
Proof.
  revert mem bytes. induction addresses as [|a l IH]; intros mem bytes Hx; [done|]. destruct bytes as [|b bytes]; [done|].
  cbn in *. rewrite IH by tauto. rewrite store_one. destruct (Z.eqb_spec x a); [|done]. subst. tauto.
Qed.

Lemma store_at_load mem addresses bytes : NoDup addresses -> length addresses = length bytes ->
  map (store_at mem addresses bytes) addresses = bytes.
Proof.
  revert mem bytes. induction addresses as [|a l IH]; intros mem [|b bytes] Hd Hl; try done. apply NoDup_cons in Hd as [Ha Hd].
  cbn. rewrite IH by (done || (cbn in Hl; lia)). f_equal. rewrite store_at_notin by (by rewrite <- list_elem_of_In).
  by rewrite store_one, Z.eqb_refl.
Qed.

Lemma store_at_other mem addresses bytes l : (forall x, In x l -> ~ In x addresses) -> map (store_at mem addresses bytes) l = map mem l.
Proof. intros H. apply map_ext_in. intros x Hx. by apply store_at_notin, H. Qed.

(** A run of addresses. *)
Lemma store_at_run mem a bytes x :
  store_at mem (map (fun i => a + Z.of_nat i) (seq 0 (length bytes))) bytes x = store_bytes mem a bytes x.
Proof.
  revert mem a. induction bytes as [|b bytes IH]; intros mem a; cbn [length seq map store_at].
  { by rewrite store_bytes_out by (cbn; lia). }
  rewrite <- seq_shift, map_map. rewrite (map_ext _ (fun i => a + 1 + Z.of_nat i)) by lia. rewrite IH, Z.add_0_r.
  pose proof (store_bytes_app mem a [b] bytes x) as E. cbn [app length] in E. by rewrite <- E.
Qed.

(** The parts of a write that crosses a page. *)
Lemma take_le_bytes k n x : (k <= n)%nat -> take k (le_bytes n x) = le_bytes k x.
Proof.
  intros Hk. apply list_eq. intros i. destruct (decide (i < k)%nat).
  - by rewrite lookup_take_lt, !lookup_le_bytes by lia.
  - rewrite !lookup_ge_None_2; [done | rewrite length_le_bytes; lia | rewrite length_take, length_le_bytes; lia].
Qed.

Lemma be_bytes_drop k n x : (k <= n)%nat -> drop k (be_bytes n x) = be_bytes (n - k) x.
Proof. intros Hk. unfold be_bytes. rewrite skipn_rev, length_le_bytes, take_le_bytes by lia. done. Qed.

Lemma be_bytes_take k n x : u32 x -> (k < n <= 4)%nat -> (0 < k)%nat ->
  take k (be_bytes n x) = be_bytes k (rotr32 x (Z.of_nat (n - k) * 8)).
Proof.
  intros Hx Hk Hk0. unfold be_bytes. rewrite firstn_rev, length_le_bytes. f_equal. apply list_eq. intros i.
  destruct (decide (i < k)%nat) as [Hi|Hi].
  - rewrite lookup_drop, !lookup_le_bytes by lia. f_equal. rewrite (Z.mul_comm _ 8), rotr32_byte by (done || lia).
    do 3 f_equal. rewrite Z.mod_small by lia. lia.
  - rewrite !lookup_ge_None_2; [done | rewrite length_le_bytes; lia | rewrite length_drop, length_le_bytes; lia].
Qed.

Lemma rotr32_u32 x n : u32 (rotr32 x n).
Proof. apply (wrapu_range 32). lia. Qed.

Section Memory.
Context {dev : Type} {bus : Bus dev}.
Implicit Types (s : MMUState dev).

(** ** Writes *)

Lemma pas_app s ea k c : pas s ea (k + c) = pas s ea k ++ map (fun i => pa_at s ea (Z.of_nat k + Z.of_nat i)) (seq 0 c).
Proof.
  unfold pas. rewrite seq_app, map_app. f_equal. replace (seq (0 + k) c) with (Nat.add k <$> seq 0 c)
    by (rewrite fmap_add_seq; f_equal; lia).
  change (Nat.add k <$> seq 0 c) with (map (Nat.add k) (seq 0 c)). rewrite map_map. apply map_ext. intros i. f_equal. lia.
Qed.

Lemma WriteInPage_run m0 s mem ea k c n data : sees m0 s mem -> mapped m0 s ea n -> u32 data ->
  0 <= k -> (0 < c <= 4)%nat -> k + Z.of_nat c <= Z.of_nat n -> to_u32 (ea + k) mod 0x1000 + Z.of_nat c <= 0x1000 ->
  let s' := WriteInPage Write false (to_u32 (ea + k)) data (Z.of_nat c) s in
  sees m0 s' (store_at mem (map (fun i => pa_at s ea (k + Z.of_nat i)) (seq 0 c)) (be_bytes c data)) /\ rest s' = rest s.
Proof.
  intros Hs Hm Hd Hk Hc Hkc Hp. destruct (mapped_run m0 s ea n k c Hm Hk ltac:(lia) Hkc Hp) as (Epa & Hpl & Hrun).
  rewrite (map_ext_in _ (fun i => pa_at s ea k + Z.of_nat i)) by (intros i Hi; apply in_seq in Hi; apply Hrun; lia).
  set (pa := pa_at s ea k) in *. destruct (WritePhysical_plain m0 s mem pa c Hs Hpl ltac:(lia) data) as [Hs' Hr]; [lia | done |].
  assert (E : WriteInPage Write false (to_u32 (ea + k)) data (Z.of_nat c) s = WritePhysical Write pa data (Z.of_nat c) false s).
  { unfold WriteInPage. cbn [negb andb]. unfold data_pa in Epa. destruct (msr_DR s); [|by injection Epa as ->].
    unfold TranslateAddress. cbn [IsOpcodeFlag]. destruct (TranslateBatAddress _ _) as [[pa' wi]|]; [|done].
    destruct wi; [done|]. by injection Epa as ->. }
  cbv zeta. rewrite E. split; [|done]. revert Hs'. apply sees_ext. intros x. symmetry.
  rewrite <- (length_be_bytes c data) at 1. apply store_at_run.
Qed.

(** The page where a write that crosses one ends. *)
Lemma crossing ea n : u32 ea -> (1 <= n <= 8)%nat -> 0x1000 < ea mod 0x1000 + Z.of_nat n ->
  exists k, (0 < k < n)%nat /\ Z.of_nat k = 0x1000 - ea mod 0x1000 /\
    to_u32 (ea + Z.of_nat n - 1) .& to_u32 (Z.lnot HW_PAGE_MASK) = to_u32 (ea + Z.of_nat k) /\
    to_u32 (to_u32 (ea + Z.of_nat k) - ea) = Z.of_nat k /\ to_u32 (ea + Z.of_nat k) mod 0x1000 = 0.
Proof.
  intros He Hn Hc. pose proof (Z.mod_pos_bound ea 0x1000 ltac:(lia)). exists (Z.to_nat (0x1000 - ea mod 0x1000)).
  rewrite Z2Nat.id by lia. split; [lia|]. split; [done|]. set (k := 0x1000 - ea mod 0x1000) in *.
  assert (Ek : (ea + k) mod 0x1000 = 0) by (unfold k; Z.div_mod_to_equations; lia).
  destruct (wrapu_spec 32 (ea + k) ltac:(lia)) as [q Hq]. pose proof (wrapu_range 32 (ea + k) ltac:(lia)) as Hu. unfold uN in Hu, He.
  assert (Em : to_u32 (ea + k) mod 0x1000 = 0) by (change (2 ^ 32) with (0x100000 * 0x1000) in *; Z.div_mod_to_equations; lia).
  split.
  - rewrite page_of by (apply (wrapu_range 32); lia).
    assert (El : to_u32 (ea + Z.of_nat n - 1) = to_u32 (ea + k) + (Z.of_nat n - 1 - k)).
    { change (2 ^ 32) with (0x100000 * 0x1000) in Hu, Hq.
      apply wrapu_unique with (k := q); [unfold uN; change (2 ^ 32) with (0x100000 * 0x1000); Z.div_mod_to_equations; lia|].
      change (2 ^ 32) with (0x100000 * 0x1000). lia. }
    rewrite El. rewrite Z.add_mod, Em by lia. rewrite Z.add_0_l, Z.mod_mod, Z.mod_small by lia. lia.
  - split; [|done]. apply wrapu_unique with (k := - q); [unfold uN; lia|]. lia.
Qed.

Lemma WriteToHardware_mapped m0 s mem ea n data : sees m0 s mem -> mapped m0 s ea n -> u32 data -> (1 <= n <= 4)%nat ->
  let s' := WriteToHardware Write false ea data (Z.of_nat n) s in
  sees m0 s' (store_at mem (pas s ea n) (be_bytes n data)) /\ rest s' = rest s.
Proof.
  intros Hs Hm Hd Hn. pose proof (mp_ea _ _ _ _ Hm) as He. unfold WriteToHardware. rewrite one_page_spec by (done || lia).
  destruct (Z.leb_spec (ea mod 0x1000 + Z.of_nat n) 0x1000).
  - pose proof (WriteInPage_run m0 s mem ea 0 n n data Hs Hm Hd) as Hw. rewrite Z.add_0_r, wrapu_small in Hw by done. apply Hw; lia.
  - destruct (crossing ea n He ltac:(lia) ltac:(lia)) as (k & Hk & Ek & -> & E2 & E3). rewrite E2.
    replace (Z.of_nat n - Z.of_nat k) with (Z.of_nat (n - k)) by lia.
    set (d1 := rotr32 data (Z.of_nat (n - k) * 8)).
    pose proof (WriteInPage_run m0 s mem ea 0 k n d1 Hs Hm (rotr32_u32 _ _)) as H1. rewrite Z.add_0_r, wrapu_small in H1 by done.
    destruct H1 as [Hs1 Hr1]; [lia | lia | lia | lia |]. set (s1 := WriteInPage _ _ _ _ _ s) in *.
    pose proof (WriteInPage_run m0 s1 _ ea (Z.of_nat k) (n - k) n data Hs1 (rest_mapped _ _ _ _ _ Hr1 Hm) Hd) as H2.
    destruct H2 as [Hs2 Hr2]; [lia | lia | lia | lia |]. split; [|by rewrite Hr2].
    revert Hs2. apply sees_ext. intros x. rewrite <- (take_drop k (be_bytes n data)).
    replace n with (k + (n - k))%nat at 3 by lia. rewrite pas_app, store_at_app
      by (rewrite length_pas, length_take, length_be_bytes; lia).
    rewrite be_bytes_take, be_bytes_drop by (done || lia). fold d1. f_equal.
    apply map_ext. intros i. unfold pa_at. by rewrite (rest_data_pa s s1).
Qed.

(** A doubleword is written as two words. *)
Lemma be_bytes_words x : u64 x -> be_bytes 4 (to_u32 (x .>> 32)) ++ be_bytes 4 (to_u32 x) = be_bytes 8 x.
Proof.
  intros Hx. unfold be_bytes. rewrite <- rev_app_distr. f_equal. apply list_eq. intros i.
  destruct (decide (i < 8)%nat) as [Hi|Hi];
    [|rewrite !lookup_ge_None_2; [done | rewrite length_le_bytes; lia | rewrite length_app, !length_le_bytes; lia]].
  rewrite (lookup_le_bytes 8) by done.
  assert (Hbyte : forall y j, 0 <= j < 4 -> wrapu 8 (to_u32 y .>> (8 * j)) = wrapu 8 (y .>> (8 * j))).
  { intros y j Hj. apply Z.bits_inj'. intros b Hb. rewrite !testbit_bits_byte by lia. destruct (Z.ltb_spec b 8); [|done].
    cbn [andb]. unfold wrapu. by rewrite Z.mod_pow2_bits_low by lia. }
  destruct (decide (i < 4)%nat).
  - rewrite lookup_app_l, lookup_le_bytes, Hbyte by (rewrite ?length_le_bytes; lia). done.
  - rewrite lookup_app_r, length_le_bytes, lookup_le_bytes, Hbyte by (rewrite ?length_le_bytes; lia).
    rewrite Z.shiftr_shiftr by lia. do 3 f_equal. lia.
Qed.

Lemma pa_at_shift s ea k i : pa_at s (to_u32 (ea + k)) i = pa_at s ea (k + i).
Proof. unfold pa_at. f_equal. f_equal. unfold wrapu. rewrite Z.add_mod_idemp_l by done. f_equal. lia. Qed.

Lemma mapped_part m0 s ea n k c : mapped m0 s ea n -> (k + c <= n)%nat -> mapped m0 s (to_u32 (ea + Z.of_nat k)) c.
Proof.
  intros [Ht He Hb] Hk. split; [done | apply (wrapu_range 32); lia|]. intros i Hi. rewrite pa_at_shift.
  assert (E : to_u32 (to_u32 (ea + Z.of_nat k) + i) = to_u32 (ea + (Z.of_nat k + i)))
    by (unfold wrapu; rewrite Z.add_mod_idemp_l by done; f_equal; lia).
  rewrite E. apply Hb. lia.
Qed.

Lemma Write_U64_mapped m0 s mem ea data : sees m0 s mem -> mapped m0 s ea 8 -> u64 data ->
  let s' := MMU_Write_U64 data ea s in sees m0 s' (store_at mem (pas s ea 8) (be_bytes 8 data)) /\ rest s' = rest s.
Proof.
  intros Hs Hm Hd. pose proof (mp_ea _ _ _ _ Hm) as He. pose proof (mapped_part m0 s ea 8 0 4 Hm ltac:(lia)) as M1.
  change (Z.of_nat 0) with 0 in M1. rewrite Z.add_0_r, wrapu_small in M1 by done. pose proof (mapped_part m0 s ea 8 4 4 Hm ltac:(lia)) as M2.
  unfold MMU_Write_U64.
  destruct (WriteToHardware_mapped m0 s mem ea 4 (to_u32 (data .>> 32)) Hs M1 ltac:(apply (wrapu_range 32); lia) ltac:(lia)) as [Hs1 Hr1].
  set (s1 := WriteToHardware _ _ _ _ _ s) in *.
  destruct (WriteToHardware_mapped m0 s1 _ (to_u32 (ea + 4)) 4 (to_u32 data) Hs1 (rest_mapped _ _ _ _ _ Hr1 M2)
    ltac:(apply (wrapu_range 32); lia) ltac:(lia)) as [Hs2 Hr2].
  split; [|by etrans; [exact Hr2|]]. revert Hs2. apply sees_ext. intros x. rewrite <- be_bytes_words by done.
  change 8%nat with (4 + 4)%nat. rewrite pas_app, store_at_app by (rewrite length_pas, length_be_bytes; done).
  rewrite (rest_pas s s1) by done. do 2 f_equal. unfold pas. apply map_ext. intros i. by rewrite pa_at_shift.
Qed.

(** C3. Loads and stores refine a memory of bytes.  If every byte of an access has an effective
    address that is not translated, or translated by the BATs to memory that may be cached,
    then a load of one to eight bytes gives the bytes at their physical addresses, most
    significant first, and a store of one to four bytes, or of a doubleword, puts the bytes of
    the integer there and changes no other; the rest of the state stays as it is.  It is so
    whether the access crosses a page or not, also into another block or around the end of the
    address space, and whether the data cache is emulated or not, when what the CPU sees is
    partly in the cache. *)
Theorem memory_accesses m0 s mem ea n data :
  sees m0 s mem -> mapped m0 s ea n -> (1 <= n <= 8)%nat ->
  (exists s', ReadFromHardware Read n false ea s = (be_value (map mem (pas s ea n)), s') /\ sees m0 s' mem /\ rest s' = rest s) /\
  ((n <= 4)%nat -> u32 data ->
    let s' := WriteToHardware Write false ea data (Z.of_nat n) s in
    sees m0 s' (store_at mem (pas s ea n) (be_bytes n data)) /\ rest s' = rest s) /\
  (n = 8%nat -> u64 data ->
    let s' := MMU_Write_U64 data ea s in sees m0 s' (store_at mem (pas s ea n) (be_bytes n data)) /\ rest s' = rest s).
Proof.
  intros Hs Hm Hn. split; [by apply ReadFromHardware_mapped|]. split.
  - intros H4 Hd. apply WriteToHardware_mapped; [done | done | done | lia].
  - intros -> Hd. by apply Write_U64_mapped.
Qed.

(** What a store leaves for the loads that follow. *)
Lemma load_after m0 s s' mem ea n l ea' n' : sees m0 s' (store_at mem (pas s ea n) l) -> rest s' = rest s ->
  mapped m0 s ea' n' -> (1 <= n' <= 8)%nat ->
  fst (ReadFromHardware Read n' false ea' s') = be_value (map (store_at mem (pas s ea n) l) (pas s ea' n')).
Proof.
  intros Hs Hr Hm Hn. destruct (ReadFromHardware_mapped m0 s' _ ea' n' Hs) as (s2 & -> & _); [by eapply rest_mapped | done |].
  by rewrite (rest_pas s s').
Qed.

(** C18. What is stored is loaded back.  After a store whose bytes have different physical
    addresses a load of the same size and effective address gives the integer stored, and a
    load of bytes that are elsewhere gives what it did before, also when either crosses a page,
    and with the data cache emulated or not; the same of doublewords. *)
Theorem stored_is_loaded m0 s mem ea n data ea' n' :
  sees m0 s mem -> mapped m0 s ea n -> NoDup (pas s ea n) -> (1 <= n <= 4 /\ u32 data \/ n = 8%nat /\ u64 data)%nat ->
  mapped m0 s ea' n' -> (1 <= n' <= 8)%nat -> (forall x, In x (pas s ea' n') -> ~ In x (pas s ea n)) ->
  let s' := if decide (n = 8%nat) then MMU_Write_U64 data ea s else WriteToHardware Write false ea data (Z.of_nat n) s in
  fst (ReadFromHardware Read n false ea s') = wrapu (8 * Z.of_nat n) data /\
  fst (ReadFromHardware Read n' false ea' s') = fst (ReadFromHardware Read n' false ea' s).
Proof.
  intros Hs Hm Hd Hn Hm' Hn' Hne s'.
  assert (Hs' : sees m0 s' (store_at mem (pas s ea n) (be_bytes n data)) /\ rest s' = rest s).
  { unfold s'. destruct Hn as [[Hn Hu]|[-> Hu]]; [|by apply Write_U64_mapped].
    rewrite decide_False by lia. by apply WriteToHardware_mapped. }
  assert (Hn8 : (1 <= n <= 8)%nat) by (destruct Hn as [[? _]|[-> _]]; lia).
  destruct Hs' as [Hs' Hr]. clearbody s'. pose proof (load_after m0 s s' mem ea n (be_bytes n data)) as Hload.
  rewrite !Hload by done.
  rewrite store_at_load by (done || by rewrite length_pas, length_be_bytes). rewrite be_value_bytes. split; [done|].
  rewrite store_at_other by done. by destruct (ReadFromHardware_mapped m0 s mem ea' n' Hs Hm' Hn') as (s2 & -> & _).
Qed.

(** ** Accesses that fail *)

(** No BAT and no page table entry has the address, in a segment that is not direct-store. *)
Record unmapped s (table : arr) (ea : Z) : Prop := {
  um_paged : paged s;
  um_tlb : tlb_coherent s;
  um_u32 : u32 ea;
  um_bat : TranslateBatAddress table ea = None;
  um_segment : Z.testbit (aat (ppc_sr (mm_ppc s)) (bits 28 4 ea)) 31 = false;
  um_page : page_walk s (bits 0 24 (aat (ppc_sr (mm_ppc s)) (bits 28 4 ea))) (bits 12 16 ea) = None
}.

Lemma unmapped_fault s flag ea : unmapped s (if IsOpcodeFlag flag then m_ibat_table s else m_dbat_table s) ea ->
  exists r, TranslateAddress flag ea s = (r, s) /\ Success r = false.
Proof.
  intros [Hp Ht Hu Hb HT Hw]. unfold TranslateAddress. rewrite Hb. unfold TranslatePageAddress. set (vsid := bits 0 24 _) in *.
  pose proof (lookup_spec s flag ea vsid Ht) as Hl. destruct (LookupTLBPageAddress flag ea vsid s) as [res s1].
  destruct Hl as [w wi s1 Ht1 Hsame Hc Hh HC | w e Hc Hh -> He |].
  - destruct (coherent_hit s w ea vsid Hu Hc Hh) as (a & Ea & _). by rewrite Hw in Ea.
  - destruct (coherent_hit s w ea vsid Hu Hc Hh) as (a & Ea & _). by rewrite Hw in Ea.
  - rewrite HT. destruct (IsOpcodeFlag flag && _); [by eexists; split|]. rewrite translate_walk, Hw by done. by eexists; split.
Qed.

(** An address is not one of the memories', in either space that is translated. *)
Lemma unmapped_not_ram s ea space : unmapped s (m_dbat_table s) ea -> msr_DR s = true -> space <> Physical ->
  HostIsRAMAddress ea space s = (false, s).
Proof.
  intros Hu HDR Hsp. destruct (unmapped_fault s NoException ea Hu) as (r & E & S).
  unfold HostIsRAMAddress, IsRAMAddress. destruct space; [| done |]; rewrite HDR; cbn [negb]; by rewrite E, S.
Qed.

Lemma unmapped_not_instruction_ram s ea space : unmapped s (m_ibat_table s) ea -> msr_IR s = true -> space <> Physical ->
  HostIsInstructionRAMAddress ea space s = (false, s).
Proof.
  intros Hu HIR Hsp. destruct (unmapped_fault s OpcodeNoException ea Hu) as (r & E & S).
  unfold HostIsInstructionRAMAddress, IsRAMAddress. destruct (_ =? 0); [|done]. cbn [negb].
  destruct space; [| done |]; rewrite HIR; cbn [negb]; by rewrite E, S.
Qed.

(** C19. An access to a page that is not mapped is an exception and nothing else.  Let
    translation be on and the access lie within one page.  With the setting that enables the
    MMU, a load gives 0 and raises a DSI exception with the address in DAR and the kind of
    access in DSISR, and a store changes no memory and raises it with the bit of stores set.
    An instruction fetch raises an ISI exception at the address.  The plain accesses of the
    host give 0 or do nothing and raise none, and each of its checked ones (of data, of
    doublewords and of instructions), in the space of the CPU's current mode or in the
    virtual space, answers that there is no memory and changes nothing. *)
Theorem unmapped_access_faults s ea n data :
  (1 <= n <= 8)%nat -> one_page ea (Z.of_nat n) = true ->
  (msr_DR s = true -> unmapped s (m_dbat_table s) ea ->
    let dsi dsisr := on_ppc (fun p => raise_exception EXCEPTION_DSI (set_spr SPR_DAR ea (set_spr SPR_DSISR dsisr p))) s in
    (mm_mmu_mode s = true ->
      ReadFromHardware Read n false ea s = (0, dsi 0x40000000) /\
      WriteToHardware Write false ea data (Z.of_nat n) s = dsi 0x42000000) /\
    HostRead n ea s = (0, s) /\ HostWrite (Z.of_nat n) data ea s = s /\
    (forall space, space = Effective \/ space = Virtual ->
      HostIsRAMAddress ea space s = (false, s) /\ HostTryRead n ea space s = (None, s) /\
      HostTryWrite data ea (Z.of_nat n) space s = (None, s) /\ HostTryWriteU64 data ea space s = (None, s))) /\
  (msr_IR s = true -> unmapped s (m_ibat_table s) ea ->
    Read_Opcode ea s = (0, on_ppc (fun p => raise_exception EXCEPTION_ISI (fset p_npc ea p)) s) /\
    (forall space, space = Effective \/ space = Virtual ->
      HostIsInstructionRAMAddress ea space s = (false, s) /\ HostTryReadInstruction ea space s = (None, s))).
Proof.
  intros Hn Hone. split.
  - intros HDR Hu. destruct (unmapped_fault s Read ea Hu) as (r1 & E1 & S1), (unmapped_fault s Write ea Hu) as (r2 & E2 & S2),
      (unmapped_fault s NoException ea Hu) as (r3 & E3 & S3). cbv zeta.
    split; [intros Hmode; unfold ReadFromHardware, WriteToHardware, ReadInPage, WriteInPage; rewrite Hone; cbn [negb andb IsOpcodeFlag];
      rewrite HDR, E1, E2; rewrite S1, S2; unfold GenerateDSIException; by rewrite Hmode|].
    unfold HostRead, HostWrite. split; [|split].
    1,2: unfold ReadFromHardware, WriteToHardware, ReadInPage, WriteInPage; rewrite Hone; cbn [negb andb IsOpcodeFlag];
      rewrite HDR, E3; by rewrite S3.
    intros space Hsp. assert (Hnp : space <> Physical) by (by destruct Hsp as [-> | ->]).
    unfold HostTryRead, HostTryWriteU64, HostTryWrite. by rewrite unmapped_not_ram.
  - intros HIR Hu. split.
    + destruct (unmapped_fault s Opcode ea Hu) as (r & E & S). unfold Read_Opcode, TryReadInstruction. by rewrite HIR, E, S.
    + intros space Hsp. assert (Hnp : space <> Physical) by (by destruct Hsp as [-> | ->]).
      unfold HostTryReadInstruction. by rewrite unmapped_not_instruction_ram.
Qed.
End Memory.
