(* ===== verification/PPCLoadStore.v ===== *)
(** The loads, stores and cache instructions
    ([Core/PowerPC/Interpreter/Interpreter_LoadStore.cpp]), over the memory management unit, and
    the conversions of single precision numbers that they make ([Interpreter_FPUtils.h]). *)
From stdpp Require Import base tactics option list gmap.
From Stdlib Require Import ZArith Lia Bool.
From S2P Require Import Prelude Memmap PowerPC ConditionRegister Gekko InterpreterTables PPCSystem PPCInterpreter.
From S2P Require Import PPCCache MMU MMUAccess.

#[local] Open Scope Z_scope.

Abbreviation SPR_EAR := 282 (only parsing).
Abbreviation DOUBLE_SIGN := 0x8000000000000000 (only parsing).
Abbreviation DOUBLE_FRAC := 0x000FFFFFFFFFFFFF (only parsing).

(** * Single precision in double precision registers *)

Definition ConvertToSingle (x : Z) : Z :=
  let exp := to_u32 ((x .>> 52) .& 0x7ff) in
  if (896 <? exp) || ((x .& to_u64 (Z.lnot DOUBLE_SIGN)) =? 0) then
    to_u32 (((x .>> 32) .& 0xc0000000) .| ((x .>> 29) .& 0x3fffffff))
  else if 874 <=? exp then
    let t := to_u32 (0x80000000 .| ((x .& DOUBLE_FRAC) .>> 21)) in
    let t := t .>> (905 - exp) in
    t .| to_u32 ((x .>> 32) .& 0x80000000)
  else to_u32 (((x .>> 32) .& 0xc0000000) .| ((x .>> 29) .& 0x3fffffff)).

(** The fraction is shifted left until its leading one is at bit 23, at most 23 times. *)
Fixpoint normalise (fuel : nat) (frac exp : Z) : Z * Z :=
  match fuel with
  | O => (frac, exp)
  | S fuel =>
      let frac := to_u64 (frac .<< 1) in
      let exp := exp - 1 in
      if (frac .& 0x00800000) =? 0 then normalise fuel frac exp else (frac, exp)
  end.

Definition ConvertToDouble (value : Z) : Z :=
  let x := value in
  let exp := (x .>> 23) .& 0xff in
  let frac := x .& 0x007fffff in
  if (0 <? exp) && (exp <? 255) then
    let y := truth ((exp .>> 7) =? 0) in
    let z := to_u64 ((y .<< 61) .| ((y .<< 60) .| (y .<< 59))) in
    (to_u64 ((x .& 0xc0000000) .<< 32) .| z) .| to_u64 ((x .& 0x3fffffff) .<< 29)
  else if (exp =? 0) && negb (frac =? 0) then
    let '(frac, exp) := normalise 23 frac (1023 - 126) in
    (to_u64 ((x .& 0x80000000) .<< 32) .| to_u64 (exp .<< 52)) .| to_u64 ((frac .& 0x007fffff) .<< 29)
  else
    let y := exp .>> 7 in
    let z := to_u64 ((y .<< 61) .| ((y .<< 60) .| (y .<< 59))) in
    (to_u64 ((x .& 0xc0000000) .<< 32) .| z) .| to_u64 ((x .& 0x3fffffff) .<< 29).

(** * Effective addresses *)

Definition NB (inst : Z) : Z := bits 11 5 inst.

Definition Helper_Get_EA (inst : Z) (p : PPCState) : Z :=
  if negb (RA inst =? 0) then to_u32 (get_gpr (RA inst) p + to_u32 (SIMM_16 inst)) else to_u32 (SIMM_16 inst).
Definition Helper_Get_EA_U (inst : Z) (p : PPCState) : Z := to_u32 (get_gpr (RA inst) p + to_u32 (SIMM_16 inst)).
Definition Helper_Get_EA_X (inst : Z) (p : PPCState) : Z :=
  if negb (RA inst =? 0) then to_u32 (get_gpr (RA inst) p + get_gpr (RB inst) p) else get_gpr (RB inst) p.
Definition Helper_Get_EA_UX (inst : Z) (p : PPCState) : Z := to_u32 (get_gpr (RA inst) p + get_gpr (RB inst) p).

Section LoadStore.
Context {dev : Type} {bus : Bus dev}.
Implicit Types (s : MMUState dev).

Definition dsi_pending s : bool := negb ((Exceptions (mm_ppc s) .& EXCEPTION_DSI) =? 0).
Definition msr_LE s : bool := Z.testbit (msr (mm_ppc s)) 0.

Definition to_gpr (r v : Z) s : MMUState dev := on_ppc (set_gpr r v) s.
Definition SetPS0 (r v : Z) s : MMUState dev := on_ppc (fun p => fset p_ps0 (aupd (ps0 p) r v) p) s.
Definition SetPS1 (r v : Z) s : MMUState dev := on_ppc (fun p => fset p_ps1 (aupd (ps1 p) r v) p) s.
Definition Fill (r v : Z) s : MMUState dev := SetPS1 r v (SetPS0 r v s).
Definition PS0AsU64 (r : Z) s : Z := aat (ps0 (mm_ppc s)) r.
Definition PS0AsU32 (r : Z) s : Z := to_u32 (aat (ps0 (mm_ppc s)) r).

(** A load completes unless there is a DSI exception. *)
Definition load (read : Z -> MMUState dev -> Z * MMUState dev) (address : Z)
    (complete : Z -> MMUState dev -> MMUState dev) s : MMUState dev :=
  let '(temp, s) := read address s in
  if negb (dsi_pending s) then complete temp s else s.

(** So does the update of the base register of a store. *)
Definition store_update (inst : Z) (write : Z -> Z -> MMUState dev -> MMUState dev) (var address : Z) s : MMUState dev :=
  let s := write var address s in
  if negb (dsi_pending s) then to_gpr (RA inst) address s else s.

Definition word_aligned (address : Z) (k : MMUState dev -> MMUState dev) s : MMUState dev :=
  if negb ((address .& 3) =? 0) then on_ppc (GenerateAlignmentException address) s else k s.

(** What a load does with what it read. *)
Definition to_RD (inst temp : Z) s : MMUState dev := to_gpr (RD inst) temp s.
Definition to_RD_update (inst address temp : Z) s : MMUState dev := to_gpr (RA inst) address (to_gpr (RD inst) temp s).
Definition sign16 (temp : Z) : Z := to_u32 (to_s32 (to_s16 temp)).

(** * Loads of integers *)

Definition lbz inst s := load MMU_Read_U8 (Helper_Get_EA inst (mm_ppc s)) (to_RD inst) s.
Definition lbzu inst s :=
  let address := Helper_Get_EA_U inst (mm_ppc s) in load MMU_Read_U8 address (to_RD_update inst address) s.
Definition lbzux inst s :=
  let address := Helper_Get_EA_UX inst (mm_ppc s) in load MMU_Read_U8 address (to_RD_update inst address) s.
Definition lbzx inst s := load MMU_Read_U8 (Helper_Get_EA_X inst (mm_ppc s)) (to_RD inst) s.

Definition lha inst s :=
  load MMU_Read_U16 (Helper_Get_EA inst (mm_ppc s)) (fun temp => to_RD inst (sign16 temp)) s.
Definition lhau inst s :=
  let address := Helper_Get_EA_U inst (mm_ppc s) in
  load MMU_Read_U16 address (fun temp => to_RD_update inst address (sign16 temp)) s.
Definition lhaux inst s :=
  let address := Helper_Get_EA_UX inst (mm_ppc s) in
  load MMU_Read_U16 address (fun temp => to_RD_update inst address (sign16 temp)) s.
Definition lhax inst s :=
  load MMU_Read_U16 (Helper_Get_EA_X inst (mm_ppc s)) (fun temp => to_RD inst (sign16 temp)) s.

Definition lhz inst s := load MMU_Read_U16 (Helper_Get_EA inst (mm_ppc s)) (to_RD inst) s.
Definition lhzu inst s :=
  let address := Helper_Get_EA_U inst (mm_ppc s) in load MMU_Read_U16 address (to_RD_update inst address) s.
Definition lhzux inst s :=
  let address := Helper_Get_EA_UX inst (mm_ppc s) in load MMU_Read_U16 address (to_RD_update inst address) s.
Definition lhzx inst s := load MMU_Read_U16 (Helper_Get_EA_X inst (mm_ppc s)) (to_RD inst) s.
Definition lhbrx inst s :=
  load MMU_Read_U16 (Helper_Get_EA_X inst (mm_ppc s)) (fun temp => to_RD inst (swap16 temp)) s.

Definition lwz inst s := load MMU_Read_U32 (Helper_Get_EA inst (mm_ppc s)) (to_RD inst) s.
Definition lwzu inst s :=
  let address := Helper_Get_EA_U inst (mm_ppc s) in load MMU_Read_U32 address (to_RD_update inst address) s.
Definition lwzux inst s :=
  let address := Helper_Get_EA_UX inst (mm_ppc s) in load MMU_Read_U32 address (to_RD_update inst address) s.
Definition lwzx inst s := load MMU_Read_U32 (Helper_Get_EA_X inst (mm_ppc s)) (to_RD inst) s.
Definition lwbrx inst s :=
  load MMU_Read_U32 (Helper_Get_EA_X inst (mm_ppc s)) (fun temp => to_RD inst (swap32 temp)) s.

(** * Stores of integers *)

Definition stb inst s := MMU_Write_U8 (get_gpr (RS inst) (mm_ppc s)) (Helper_Get_EA inst (mm_ppc s)) s.
Definition stbu inst s :=
  store_update inst MMU_Write_U8 (get_gpr (RS inst) (mm_ppc s)) (Helper_Get_EA_U inst (mm_ppc s)) s.
Definition stbux inst s :=
  store_update inst MMU_Write_U8 (get_gpr (RS inst) (mm_ppc s)) (Helper_Get_EA_UX inst (mm_ppc s)) s.
Definition stbx inst s := MMU_Write_U8 (get_gpr (RS inst) (mm_ppc s)) (Helper_Get_EA_X inst (mm_ppc s)) s.

Definition sth inst s := MMU_Write_U16 (get_gpr (RS inst) (mm_ppc s)) (Helper_Get_EA inst (mm_ppc s)) s.
Definition sthu inst s :=
  store_update inst MMU_Write_U16 (get_gpr (RS inst) (mm_ppc s)) (Helper_Get_EA_U inst (mm_ppc s)) s.
Definition sthux inst s :=
  store_update inst MMU_Write_U16 (get_gpr (RS inst) (mm_ppc s)) (Helper_Get_EA_UX inst (mm_ppc s)) s.
Definition sthx inst s := MMU_Write_U16 (get_gpr (RS inst) (mm_ppc s)) (Helper_Get_EA_X inst (mm_ppc s)) s.
Definition sthbrx inst s := MMU_Write_U16_Swap (get_gpr (RS inst) (mm_ppc s)) (Helper_Get_EA_X inst (mm_ppc s)) s.

Definition stw inst s := MMU_Write_U32 (get_gpr (RS inst) (mm_ppc s)) (Helper_Get_EA inst (mm_ppc s)) s.
Definition stwu inst s :=
  store_update inst MMU_Write_U32 (get_gpr (RS inst) (mm_ppc s)) (Helper_Get_EA_U inst (mm_ppc s)) s.
Definition stwux inst s :=
  store_update inst MMU_Write_U32 (get_gpr (RS inst) (mm_ppc s)) (Helper_Get_EA_UX inst (mm_ppc s)) s.
Definition stwx inst s := MMU_Write_U32 (get_gpr (RS inst) (mm_ppc s)) (Helper_Get_EA_X inst (mm_ppc s)) s.
Definition stwbrx inst s := MMU_Write_U32_Swap (get_gpr (RS inst) (mm_ppc s)) (Helper_Get_EA_X inst (mm_ppc s)) s.

(** * Floating point *)

Definition double_loaded (inst temp : Z) s : MMUState dev := SetPS0 (RD inst) temp s.
Definition single_loaded (inst temp : Z) s : MMUState dev := Fill (RD inst) (ConvertToDouble temp) s.

Definition lfd inst s :=
  let address := Helper_Get_EA inst (mm_ppc s) in
  word_aligned address (load MMU_Read_U64 address (double_loaded inst)) s.
Definition lfdu inst s :=
  let address := Helper_Get_EA_U inst (mm_ppc s) in
  word_aligned address (load MMU_Read_U64 address (fun temp s => to_gpr (RA inst) address (double_loaded inst temp s))) s.
Definition lfdux inst s :=
  let address := Helper_Get_EA_UX inst (mm_ppc s) in
  word_aligned address (load MMU_Read_U64 address (fun temp s => to_gpr (RA inst) address (double_loaded inst temp s))) s.
Definition lfdx inst s :=
  let address := Helper_Get_EA_X inst (mm_ppc s) in
  word_aligned address (load MMU_Read_U64 address (double_loaded inst)) s.

Definition lfs inst s :=
  let address := Helper_Get_EA inst (mm_ppc s) in
  word_aligned address (load MMU_Read_U32 address (single_loaded inst)) s.
Definition lfsu inst s :=
  let address := Helper_Get_EA_U inst (mm_ppc s) in
  word_aligned address (load MMU_Read_U32 address (fun temp s => to_gpr (RA inst) address (single_loaded inst temp s))) s.
Definition lfsux inst s :=
  let address := Helper_Get_EA_UX inst (mm_ppc s) in
  word_aligned address (load MMU_Read_U32 address (fun temp s => to_gpr (RA inst) address (single_loaded inst temp s))) s.
Definition lfsx inst s :=
  let address := Helper_Get_EA_X inst (mm_ppc s) in
  word_aligned address (load MMU_Read_U32 address (single_loaded inst)) s.

Definition stfd inst s :=
  let address := Helper_Get_EA inst (mm_ppc s) in
  word_aligned address (MMU_Write_U64 (PS0AsU64 (RS inst) s) address) s.
Definition stfdu inst s :=
  let address := Helper_Get_EA_U inst (mm_ppc s) in
  word_aligned address (store_update inst MMU_Write_U64 (PS0AsU64 (RS inst) s) address) s.
Definition stfdux inst s :=
  let address := Helper_Get_EA_UX inst (mm_ppc s) in
  word_aligned address (store_update inst MMU_Write_U64 (PS0AsU64 (RS inst) s) address) s.
Definition stfdx inst s :=
  let address := Helper_Get_EA_X inst (mm_ppc s) in
  word_aligned address (MMU_Write_U64 (PS0AsU64 (RS inst) s) address) s.

Definition stfs inst s :=
  let address := Helper_Get_EA inst (mm_ppc s) in
  word_aligned address (MMU_Write_U32 (ConvertToSingle (PS0AsU64 (RS inst) s)) address) s.
Definition stfsu inst s :=
  let address := Helper_Get_EA_U inst (mm_ppc s) in
  word_aligned address (store_update inst MMU_Write_U32 (ConvertToSingle (PS0AsU64 (RS inst) s)) address) s.
Definition stfsux inst s :=
  let address := Helper_Get_EA_UX inst (mm_ppc s) in
  word_aligned address (store_update inst MMU_Write_U32 (ConvertToSingle (PS0AsU64 (RS inst) s)) address) s.
Definition stfsx inst s :=
  let address := Helper_Get_EA_X inst (mm_ppc s) in
  word_aligned address (MMU_Write_U32 (ConvertToSingle (PS0AsU64 (RS inst) s)) address) s.

Definition stfiwx inst s :=
  let address := Helper_Get_EA_X inst (mm_ppc s) in
  word_aligned address (MMU_Write_U32 (PS0AsU32 (RS inst) s) address) s.

(** * Several registers *)

(** The registers from [i], [n] of them. *)
Fixpoint load_words (n : nat) (i address : Z) s : MMUState dev :=
  match n with
  | O => s
  | S n =>
      let '(temp_reg, s) := MMU_Read_U32 address s in
      if dsi_pending s then s else load_words n (i + 1) (to_u32 (address + 4)) (to_gpr i temp_reg s)
  end.

Definition lmw inst s : MMUState dev :=
  let address := Helper_Get_EA inst (mm_ppc s) in
  if negb ((address .& 3) =? 0) || msr_LE s then on_ppc (GenerateAlignmentException address) s
  else load_words (Z.to_nat (32 - RD inst)) (RD inst) address s.

Fixpoint store_words (n : nat) (i address : Z) s : MMUState dev :=
  match n with
  | O => s
  | S n =>
      let s := MMU_Write_U32 (get_gpr i (mm_ppc s)) address s in
      if dsi_pending s then s else store_words n (i + 1) (to_u32 (address + 4)) s
  end.

Definition stmw inst s : MMUState dev :=
  let address := Helper_Get_EA inst (mm_ppc s) in
  if negb ((address .& 3) =? 0) || msr_LE s then on_ppc (GenerateAlignmentException address) s
  else store_words (Z.to_nat (32 - RS inst)) (RS inst) address s.

(** [todo] more bytes, the first of them byte [n]. *)
Fixpoint load_string (todo : nat) (rd n EA : Z) s : MMUState dev :=
  match todo with
  | O => s
  | S todo =>
      let reg := (rd + (n .>> 2)) .& 0x1f in
      let offset := (n .& 3) .<< 3 in
      let s := if (n .& 3) =? 0 then to_gpr reg 0 s else s in
      let '(b, s) := MMU_Read_U8 EA s in
      let temp_value := to_u32 (b .<< (24 - offset)) in
      if dsi_pending s then s
      else load_string todo rd (n + 1) (to_u32 (EA + 1)) (to_gpr reg (get_gpr reg (mm_ppc s) .| temp_value) s)
  end.

Definition lswx inst s : MMUState dev :=
  let EA := Helper_Get_EA_X inst (mm_ppc s) in
  if msr_LE s then on_ppc (GenerateAlignmentException EA) s
  else load_string (Z.to_nat (to_u8 (xer_stringctrl (mm_ppc s)))) (RD inst) 0 EA s.

(** The other loop over the bytes, with the register and the shift as it goes. *)
Fixpoint load_string_immediate (n : nat) (r i EA : Z) s : MMUState dev :=
  match n with
  | O => s
  | S n =>
      let r := if i =? 0 then to_u32 (r + 1) .& 31 else r in
      let s := if i =? 0 then to_gpr r 0 s else s in
      let '(b, s) := MMU_Read_U8 EA s in
      let temp_value := to_u32 (b .<< (24 - i)) in
      if dsi_pending s then s
      else
        let s := to_gpr r (get_gpr r (mm_ppc s) .| temp_value) s in
        load_string_immediate n r (if i + 8 =? 32 then 0 else i + 8) (to_u32 (EA + 1)) s
  end.

Definition string_address (inst : Z) (p : PPCState) : Z := if negb (RA inst =? 0) then get_gpr (RA inst) p else 0.
Definition string_length (inst : Z) : Z := if negb (NB inst =? 0) then NB inst else 32.

Definition lswi inst s : MMUState dev :=
  let EA := string_address inst (mm_ppc s) in
  if msr_LE s then on_ppc (GenerateAlignmentException EA) s
  else load_string_immediate (Z.to_nat (string_length inst)) (to_u32 (RD inst - 1)) 0 EA s.

Fixpoint store_string_immediate (n : nat) (r i EA : Z) s : MMUState dev :=
  match n with
  | O => s
  | S n =>
      let r := if i =? 0 then to_u32 (r + 1) .& 31 else r in
      let s := MMU_Write_U8 ((get_gpr r (mm_ppc s) .>> (24 - i)) .& 0xFF) EA s in
      if dsi_pending s then s
      else store_string_immediate n r (if i + 8 =? 32 then 0 else i + 8) (to_u32 (EA + 1)) s
  end.

Definition stswi inst s : MMUState dev :=
  let EA := string_address inst (mm_ppc s) in
  if msr_LE s then on_ppc (GenerateAlignmentException EA) s
  else store_string_immediate (Z.to_nat (string_length inst)) (to_u32 (RS inst - 1)) 0 EA s.

(** This one does not look at the exceptions. *)
Fixpoint store_string (n : nat) (r i EA : Z) s : MMUState dev :=
  match n with
  | O => s
  | S n =>
      let s := MMU_Write_U8 ((get_gpr r (mm_ppc s) .>> (24 - i)) .& 0xFF) EA s in
      let EA := to_u32 (EA + 1) in
      if i + 8 =? 32 then store_string n ((r + 1) .& 0x1f) 0 EA s else store_string n r (i + 8) EA s
  end.

Definition stswx inst s : MMUState dev :=
  let EA := Helper_Get_EA_X inst (mm_ppc s) in
  if msr_LE s then on_ppc (GenerateAlignmentException EA) s
  else store_string (Z.to_nat (to_u8 (xer_stringctrl (mm_ppc s)))) (RS inst) 0 EA s.

(** * Reservations *)

Definition lwarx inst s : MMUState dev :=
  let address := Helper_Get_EA_X inst (mm_ppc s) in
  word_aligned address
    (load MMU_Read_U32 address (fun temp s =>
       on_ppc (fun p => fset p_reserve_address address (fset p_reserve true p)) (to_RD inst temp s))) s.

Definition stwcxd inst s : MMUState dev :=
  let address := Helper_Get_EA_X inst (mm_ppc s) in
  let failed s := on_ppc (fun p => SetCRField 0 (GetXER_SO p) p) s in
  word_aligned address (fun s =>
    if reserve (mm_ppc s) && (address =? reserve_address (mm_ppc s)) then
      let s := MMU_Write_U32 (get_gpr (RS inst) (mm_ppc s)) address s in
      if negb (dsi_pending s) then
        on_ppc (fun p => let p := fset p_reserve false p in SetCRField 0 (2 .| GetXER_SO p) p) s
      else failed s
    else failed s) s.

(** * Cache and TLB instructions

    Without the data cache the block instructions only tell the recompiler, which is not
    modelled, that instructions may have changed. *)

Definition supervisor_only (k : MMUState dev -> MMUState dev) s : MMUState dev :=
  if user_mode (mm_ppc s) then on_ppc (GenerateProgramException PrivilegedInstruction) s else k s.

Definition dcbf inst s : MMUState dev :=
  let address := Helper_Get_EA_X inst (mm_ppc s) in
  if negb (m_enable_dcache s) then s else FlushDCacheLine address s.
Definition dcbi inst s : MMUState dev :=
  supervisor_only (fun s =>
    let address := Helper_Get_EA_X inst (mm_ppc s) in
    if negb (m_enable_dcache s) then s else InvalidateDCacheLine address s) s.
Definition dcbst inst s : MMUState dev :=
  let address := Helper_Get_EA_X inst (mm_ppc s) in
  if negb (m_enable_dcache s) then s else StoreDCacheLine address s.

Definition hid0_DCE s : bool := Z.testbit (get_spr SPR_HID0 (mm_ppc s)) 14.
Definition hid2_LCE s : bool := Z.testbit (get_spr SPR_HID2 (mm_ppc s)) 28.
Definition line_of (address : Z) : Z := address .& to_u32 (Z.lnot 31).

(** [low_dcbz_hack] is the setting [MAIN_LOW_DCBZ_HACK]. *)
Definition dcbz (low_dcbz_hack : bool) inst s : MMUState dev :=
  let dcbz_addr := Helper_Get_EA_X inst (mm_ppc s) in
  if negb (hid0_DCE s) then on_ppc (GenerateAlignmentException dcbz_addr) s
  else if negb (m_enable_dcache s) && ((dcbz_addr <? 0x80008000) && (0x80000000 <=? dcbz_addr) && low_dcbz_hack) then s
  else ClearDCacheLine (line_of dcbz_addr) s.

Definition dcbz_l inst s : MMUState dev :=
  if negb (hid2_LCE s) then on_ppc (GenerateProgramException IllegalInstruction) s
  else
    let address := Helper_Get_EA_X inst (mm_ppc s) in
    if negb (hid0_DCE s) then on_ppc (GenerateAlignmentException address) s
    else ClearDCacheLine (line_of address) s.

Definition icbi inst s : MMUState dev :=
  let '(c, m) := ICache_Invalidate (Helper_Get_EA_X inst (mm_ppc s)) (mm_iCache s, mm_memory s) in
  fset u_iCache c (fset u_memory m s).

Definition tlbie inst s : MMUState dev := supervisor_only (fun s => InvalidateTLBEntry (get_gpr (RB inst) (mm_ppc s)) s) s.
Definition tlbsync (inst : Z) s : MMUState dev := supervisor_only (fun s => s) s.

(** * External control *)

Definition external_access (EA : Z) (k : MMUState dev -> MMUState dev) s : MMUState dev :=
  if (get_spr SPR_EAR (mm_ppc s) .& 0x80000000) =? 0 then on_ppc (Gekko.GenerateDSIException EA) s
  else word_aligned EA k s.

(** The result goes to the register even if the access fails. *)
Definition eciwx inst s : MMUState dev :=
  let EA := Helper_Get_EA_X inst (mm_ppc s) in
  external_access EA (fun s => let '(temp, s) := MMU_Read_U32 EA s in to_RD inst temp s) s.
Definition ecowx inst s : MMUState dev :=
  let EA := Helper_Get_EA_X inst (mm_ppc s) in
  external_access EA (fun s => MMU_Write_U32 (get_gpr (RS inst) (mm_ppc s)) EA s) s.

(** * Dispatch *)

Definition memory_instruction (low_dcbz_hack : bool) (fn : Instruction) : option (Z -> MMUState dev -> MMUState dev) :=
  match fn with
  | Op_lbz => Some lbz | Op_lbzu => Some lbzu | Op_lbzux => Some lbzux | Op_lbzx => Some lbzx
  | Op_lha => Some lha | Op_lhau => Some lhau | Op_lhaux => Some lhaux | Op_lhax => Some lhax
  | Op_lhz => Some lhz | Op_lhzu => Some lhzu | Op_lhzux => Some lhzux | Op_lhzx => Some lhzx
  | Op_lhbrx => Some lhbrx | Op_lwbrx => Some lwbrx
  | Op_lwz => Some lwz | Op_lwzu => Some lwzu | Op_lwzux => Some lwzux | Op_lwzx => Some lwzx
  | Op_stb => Some stb | Op_stbu => Some stbu | Op_stbux => Some stbux | Op_stbx => Some stbx
  | Op_sth => Some sth | Op_sthu => Some sthu | Op_sthux => Some sthux | Op_sthx => Some sthx
  | Op_sthbrx => Some sthbrx | Op_stwbrx => Some stwbrx
  | Op_stw => Some stw | Op_stwu => Some stwu | Op_stwux => Some stwux | Op_stwx => Some stwx
  | Op_lfd => Some lfd | Op_lfdu => Some lfdu | Op_lfdux => Some lfdux | Op_lfdx => Some lfdx
  | Op_lfs => Some lfs | Op_lfsu => Some lfsu | Op_lfsux => Some lfsux | Op_lfsx => Some lfsx
  | Op_stfd => Some stfd | Op_stfdu => Some stfdu | Op_stfdux => Some stfdux | Op_stfdx => Some stfdx
  | Op_stfs => Some stfs | Op_stfsu => Some stfsu | Op_stfsux => Some stfsux | Op_stfsx => Some stfsx
  | Op_stfiwx => Some stfiwx
  | Op_lmw => Some lmw | Op_stmw => Some stmw
  | Op_lswx => Some lswx | Op_lswi => Some lswi | Op_stswx => Some stswx | Op_stswi => Some stswi
  | Op_lwarx => Some lwarx | Op_stwcxd => Some stwcxd
  | Op_dcbf => Some dcbf | Op_dcbi => Some dcbi | Op_dcbst => Some dcbst
  | Op_dcbz => Some (dcbz low_dcbz_hack) | Op_dcbz_l => Some dcbz_l
  | Op_icbi => Some icbi | Op_tlbie => Some tlbie | Op_tlbsync => Some tlbsync
  | Op_eciwx => Some eciwx | Op_ecowx => Some ecowx
  | _ => None
  end.

(** An instruction on the registers or memory; none that is not modelled. *)
Definition run_instruction (low_dcbz_hack : bool) (inst : Z) s : option (MMUState dev * bool) :=
  match register_instruction (GetInterpreterOp inst) with
  | Some f => let '(p, ends) := f inst (mm_ppc s) in Some (fset u_ppc p s, ends)
  | None =>
      match memory_instruction low_dcbz_hack (GetInterpreterOp inst) with
      | Some f => Some (f inst s, false)
      | None => None
      end
  end.
End LoadStore.
