(* ===== verification/PPCLoadStoreProps.v ===== *)
(** What the loads and stores of the PowerPC do to a memory of bytes and to the registers, and
    what they leave when the access fails. *)
From stdpp Require Import base tactics option list gmap.
From Stdlib Require Import ZArith Lia Bool.
From S2P Require Import Prelude Memmap PowerPC ConditionRegister Gekko InterpreterTables PPCSystem PPCInterpreter.
From S2P Require Import MemoryProps AramProps PPCCache PPCCacheBlocks PPCCacheTheorems MMU MMUAccess MMUPageProps MMUAccessProps MMUMemoryProps PPCLoadStore.

#[local] Open Scope Z_scope.
Implicit Types (mem : byte_memory) (p : PPCState).

(** * The forms of the instructions

    A load of one datum: the number of its bytes, whether its address must be a multiple of
    four, its address, whether that goes to the base register, and what becomes of the
    registers, from the bytes. *)
Record load_form : Type := mkLoad {
  lf_size : nat;
  lf_aligned : bool;
  lf_ea : Z -> PPCState -> Z;
  lf_update : bool;
  lf_effect : Z -> list Z -> PPCState -> PPCState
}.

Definition gpr_effect (value : list Z -> Z) (inst : Z) (l : list Z) p : PPCState := set_gpr (RD inst) (value l) p.
Definition double_effect (inst : Z) (l : list Z) p : PPCState := fset p_ps0 (aupd (ps0 p) (RD inst) (be_value l)) p.
Definition single_effect (inst : Z) (l : list Z) p : PPCState :=
  let d := ConvertToDouble (be_value l) in
  let p := fset p_ps0 (aupd (ps0 p) (RD inst) d) p in fset p_ps1 (aupd (ps1 p) (RD inst) d) p.
Definition signed_value (l : list Z) : Z := to_u32 (to_s16 (be_value l)).

(** The four addressing modes. *)
Definition loads_of (size : nat) (aligned : bool) (effect : Z -> list Z -> PPCState -> PPCState) : list load_form :=
  [{| lf_size := size; lf_aligned := aligned; lf_ea := Helper_Get_EA; lf_update := false; lf_effect := effect |};
   {| lf_size := size; lf_aligned := aligned; lf_ea := Helper_Get_EA_U; lf_update := true; lf_effect := effect |};
   {| lf_size := size; lf_aligned := aligned; lf_ea := Helper_Get_EA_X; lf_update := false; lf_effect := effect |};
   {| lf_size := size; lf_aligned := aligned; lf_ea := Helper_Get_EA_UX; lf_update := true; lf_effect := effect |}].

Definition loads : list (Instruction * load_form) :=
  zip [Op_lbz; Op_lbzu; Op_lbzx; Op_lbzux] (loads_of 1 false (gpr_effect be_value)) ++
  zip [Op_lhz; Op_lhzu; Op_lhzx; Op_lhzux] (loads_of 2 false (gpr_effect be_value)) ++
  zip [Op_lha; Op_lhau; Op_lhax; Op_lhaux] (loads_of 2 false (gpr_effect signed_value)) ++
  zip [Op_lwz; Op_lwzu; Op_lwzx; Op_lwzux] (loads_of 4 false (gpr_effect be_value)) ++
  [(Op_lhbrx, {| lf_size := 2; lf_aligned := false; lf_ea := Helper_Get_EA_X; lf_update := false; lf_effect := gpr_effect of_le_bytes |});
   (Op_lwbrx, {| lf_size := 4; lf_aligned := false; lf_ea := Helper_Get_EA_X; lf_update := false; lf_effect := gpr_effect of_le_bytes |})] ++
  zip [Op_lfs; Op_lfsu; Op_lfsx; Op_lfsux] (loads_of 4 true single_effect) ++
  zip [Op_lfd; Op_lfdu; Op_lfdx; Op_lfdux] (loads_of 8 true double_effect).

(** A store: the bytes, from the instruction and the registers. *)
Record store_form : Type := mkStore {
  sf_size : nat;
  sf_aligned : bool;
  sf_ea : Z -> PPCState -> Z;
  sf_update : bool;
  sf_bytes : Z -> PPCState -> list Z
}.

Definition gpr_bytes (n : nat) (inst : Z) p : list Z := be_bytes n (get_gpr (RS inst) p).
Definition gpr_bytes_reversed (n : nat) (inst : Z) p : list Z := le_bytes n (get_gpr (RS inst) p).
Definition single_bytes (inst : Z) p : list Z := be_bytes 4 (ConvertToSingle (aat (ps0 p) (RS inst))).
Definition double_bytes (inst : Z) p : list Z := be_bytes 8 (aat (ps0 p) (RS inst)).
Definition integer_bytes (inst : Z) p : list Z := be_bytes 4 (aat (ps0 p) (RS inst)).

Definition stores_of (size : nat) (aligned : bool) (bytes : Z -> PPCState -> list Z) : list store_form :=
  [{| sf_size := size; sf_aligned := aligned; sf_ea := Helper_Get_EA; sf_update := false; sf_bytes := bytes |};
   {| sf_size := size; sf_aligned := aligned; sf_ea := Helper_Get_EA_U; sf_update := true; sf_bytes := bytes |};
   {| sf_size := size; sf_aligned := aligned; sf_ea := Helper_Get_EA_X; sf_update := false; sf_bytes := bytes |};
   {| sf_size := size; sf_aligned := aligned; sf_ea := Helper_Get_EA_UX; sf_update := true; sf_bytes := bytes |}].

Definition stores : list (Instruction * store_form) :=
  zip [Op_stb; Op_stbu; Op_stbx; Op_stbux] (stores_of 1 false (gpr_bytes 1)) ++
  zip [Op_sth; Op_sthu; Op_sthx; Op_sthux] (stores_of 2 false (gpr_bytes 2)) ++
  zip [Op_stw; Op_stwu; Op_stwx; Op_stwux] (stores_of 4 false (gpr_bytes 4)) ++
  [(Op_sthbrx, {| sf_size := 2; sf_aligned := false; sf_ea := Helper_Get_EA_X; sf_update := false; sf_bytes := gpr_bytes_reversed 2 |});
   (Op_stwbrx, {| sf_size := 4; sf_aligned := false; sf_ea := Helper_Get_EA_X; sf_update := false; sf_bytes := gpr_bytes_reversed 4 |});
   (Op_stfiwx, {| sf_size := 4; sf_aligned := true; sf_ea := Helper_Get_EA_X; sf_update := false; sf_bytes := integer_bytes |})] ++
  zip [Op_stfs; Op_stfsu; Op_stfsx; Op_stfsux] (stores_of 4 true single_bytes) ++
  zip [Op_stfd; Op_stfdu; Op_stfdx; Op_stfdux] (stores_of 8 true double_bytes).

(** * Bytes *)

Lemma bswap_be_value l : Forall u8 l -> bswap (length l) (be_value l) = of_le_bytes l.
Proof.
  intros Hl. unfold be_value. rewrite <- (length_rev l). rewrite bswap_bytes by by apply Forall_rev. by rewrite rev_involutive.
Qed.

Lemma swapped_value n l : length l = n -> Forall u8 l -> bswap n (be_value l) = of_le_bytes l.
Proof. intros <-. apply bswap_be_value. Qed.

Lemma be_bytes_bswap n x : be_bytes n (bswap n x) = le_bytes n x.
Proof.
  unfold be_bytes, bswap. rewrite <- (length_le_bytes n x) at 1. rewrite <- (length_rev (le_bytes n x)) at 1.
  rewrite le_bytes_of_le_bytes by apply Forall_rev, le_bytes_u8. apply rev_involutive.
Qed.

Lemma le_bytes_wrapu n x : le_bytes n (wrapu (8 * Z.of_nat n) x) = le_bytes n x.
Proof.
  apply list_eq. intros i. destruct (decide (i < n)%nat) as [Hi|Hi].
  - rewrite !lookup_le_bytes by done. f_equal. apply Z.bits_inj'. intros j Hj. rewrite !testbit_bits_byte by lia.
    destruct (Z.ltb_spec j 8); [|done]. cbn [andb]. unfold wrapu. by rewrite Z.mod_pow2_bits_low by lia.
  - by rewrite !lookup_ge_None_2 by (rewrite length_le_bytes; lia).
Qed.

Lemma be_bytes_wrapu n x : be_bytes n (wrapu (8 * Z.of_nat n) x) = be_bytes n x.
Proof. unfold be_bytes. by rewrite le_bytes_wrapu. Qed.

Lemma sign16_wraps x : sign16 x = to_u32 (to_s16 x).
Proof. unfold sign16. f_equal. unfold wraps. change (2 ^ (32 - 1)) with 0x80000000. change (2 ^ (16 - 1)) with 0x8000. change (2 ^ 32) with 0x100000000.
  change (2 ^ 16) with 0x10000. Z.div_mod_to_equations. lia. Qed.

Section Instructions.
Context {dev : Type} {bus : Bus dev} (low_dcbz_hack : bool).
Implicit Types (s : MMUState dev).

Definition when_aligned (aligned : bool) (a : Z) (k : MMUState dev -> MMUState dev) s : MMUState dev :=
  if aligned then word_aligned a k s else k s.

Definition updated (update : bool) (inst a : Z) p : PPCState := if update then set_gpr (RA inst) a p else p.

(** Every load is of the same form. *)
Ltac completes_with c :=
  exists c; split; [reflexivity|]; split; [cbn; lia|]; intros ? ? ? ? ? ?.

Ltac load_completes :=
  first [ completes_with (fun (inst a : Z) => to_RD inst : Z -> MMUState dev -> MMUState dev); reflexivity
        | completes_with (fun (inst a : Z) => to_RD_update inst a : Z -> MMUState dev -> MMUState dev); reflexivity
        | completes_with (fun (inst a temp : Z) => to_RD inst (sign16 temp) : MMUState dev -> MMUState dev);
            rewrite sign16_wraps; reflexivity
        | completes_with (fun (inst a temp : Z) => to_RD_update inst a (sign16 temp) : MMUState dev -> MMUState dev);
            rewrite sign16_wraps; reflexivity
        | completes_with (fun (inst a temp : Z) => to_RD inst (swap16 temp) : MMUState dev -> MMUState dev);
            change swap16 with (bswap 2); rewrite (swapped_value 2) by assumption; reflexivity
        | completes_with (fun (inst a temp : Z) => to_RD inst (swap32 temp) : MMUState dev -> MMUState dev);
            change swap32 with (bswap 4); rewrite (swapped_value 4) by assumption; reflexivity
        | completes_with (fun (inst a : Z) => single_loaded inst : Z -> MMUState dev -> MMUState dev); reflexivity
        | completes_with (fun (inst a temp : Z) s => to_gpr (RA inst) a (single_loaded inst temp s : MMUState dev)); reflexivity
        | completes_with (fun (inst a : Z) => double_loaded inst : Z -> MMUState dev -> MMUState dev); reflexivity
        | completes_with (fun (inst a temp : Z) s => to_gpr (RA inst) a (double_loaded inst temp s : MMUState dev)); reflexivity ].

Lemma load_instruction fn f : In (fn, f) loads -> exists complete,
  memory_instruction low_dcbz_hack fn = Some (fun inst s =>
    let a := lf_ea f inst (mm_ppc s) in
    when_aligned (lf_aligned f) a (load (ReadFromHardware Read (lf_size f) false) a (complete inst a)) s) /\
  (1 <= lf_size f <= 8)%nat /\
  forall inst a l s, length l = lf_size f -> Forall u8 l ->
    complete inst a (be_value l) s = on_ppc (fun p => updated (lf_update f) inst a (lf_effect f inst l p)) s.
Proof. intros Hin. cbn in Hin. repeat (destruct Hin as [[= <- <-]|Hin]; [load_completes|]). done. Qed.

(** Every store is a write of the datum whose bytes the form has. *)
Record store_write (f : store_form) (write : Z -> Z -> MMUState dev -> MMUState dev) (datum : Z -> PPCState -> Z) : Prop := {
  sw_write : (1 <= sf_size f <= 4)%nat /\ (forall v a s, write v a s = WriteToHardware Write false a v (Z.of_nat (sf_size f)) s) \/
    sf_size f = 8%nat /\ write = MMU_Write_U64;
  sw_bytes : forall inst p, be_bytes (sf_size f) (datum inst p) = sf_bytes f inst p;
  sw_range : forall inst p, ppc_ok p -> arr_ok u64 (ps0 p) -> if decide (sf_size f = 8%nat) then u64 (datum inst p) else u32 (datum inst p)
}.

Definition store_form_of (f : store_form) (write : Z -> Z -> MMUState dev -> MMUState dev) (datum : Z -> PPCState -> Z) inst s :=
  let a := sf_ea f inst (mm_ppc s) in
  when_aligned (sf_aligned f) a
    (if sf_update f then store_update inst write (datum inst (mm_ppc s)) a else write (datum inst (mm_ppc s)) a) s.

Lemma ConvertToSingle_u32 x : u32 (ConvertToSingle x).
Proof.
  assert (Hw : forall y, u32 (to_u32 y)) by (intros; apply (wrapu_range 32); lia).
  unfold ConvertToSingle. repeat case_match; [done | | done]. apply uN_lor; [lia | | done].
  unfold uN. rewrite Z.shiftr_div_pow2 by (apply Z.leb_le in H0; apply orb_false_iff in H as [H _]; apply Z.ltb_ge in H; lia).
  pose proof (Hw (0x80000000 .| ((x .& DOUBLE_FRAC) .>> 21))) as Hu. set (t := to_u32 _) in *. unfold uN in Hu.
  set (k := 905 - _). assert (0 < 2 ^ k) by (apply Z.pow_pos_nonneg; [lia|]; unfold k; apply orb_false_iff in H as [H _]; apply Z.ltb_ge in H; lia).
  split; [apply Z.div_pos; lia|]. apply Z.div_lt_upper_bound; [lia|]. nia.
Qed.

Definition gpr_datum (inst : Z) p : Z := get_gpr (RS inst) p.
Definition half_swapped (inst : Z) p : Z := (get_gpr (RS inst) p .& 0xFFFF0000) .| swap16 (wrapu 16 (get_gpr (RS inst) p)).
Definition word_swapped (inst : Z) p : Z := swap32 (get_gpr (RS inst) p).
Definition single_datum (inst : Z) p : Z := ConvertToSingle (aat (ps0 p) (RS inst)).
Definition integer_datum (inst : Z) p : Z := to_u32 (aat (ps0 p) (RS inst)).
Definition double_datum (inst : Z) p : Z := aat (ps0 p) (RS inst).

Lemma half_swapped_bytes inst p : be_bytes 2 (half_swapped inst p) = gpr_bytes_reversed 2 inst p.
Proof.
  unfold half_swapped, gpr_bytes_reversed. set (v := get_gpr _ p). rewrite <- be_bytes_wrapu.
  replace (wrapu _ _) with (bswap 2 (wrapu (8 * Z.of_nat 2) v)); [by rewrite be_bytes_bswap, le_bytes_wrapu|].
  symmetry. pose proof (bswap_range 2 (wrapu 16 v)) as Hr. change (swap16 (wrapu 16 v)) with (bswap 2 (wrapu 16 v)).
  change (8 * Z.of_nat 2) with 16 in *. apply Z.bits_inj'. intros i Hi. unfold wrapu at 1. destruct (Z.ltb_spec i 16).
  - rewrite Z.mod_pow2_bits_low, Z.lor_spec, Z.land_spec by lia.
    assert (E : Z.testbit 0xFFFF0000 i = false) by (change 0xFFFF0000 with (0xFFFF .<< 16); by apply Z.shiftl_spec_low).
    by rewrite E, andb_false_r.
  - rewrite Z.mod_pow2_bits_high by lia. symmetry. by apply (proj1 (uN_bits 16 _ ltac:(lia) (proj1 Hr)) Hr).
Qed.

Lemma gpr_value_u32 p i : ppc_ok p -> u32 (get_gpr i p).
Proof. intros Hp. apply (pk_gpr p Hp). Qed.

Lemma half_swapped_u32 inst p : ppc_ok p -> u32 (half_swapped inst p).
Proof.
  intros Hp. apply uN_lor; [lia | apply uN_land_l; [lia | by apply gpr_value_u32] |].
  pose proof (bswap_range 2 (wrapu 16 (get_gpr (RS inst) p))) as H. unfold uN in *. change (swap16 _) with (bswap 2 (wrapu 16 (get_gpr (RS inst) p))). lia.
Qed.

Lemma double_u64 inst p : arr_ok u64 (ps0 p) -> if decide (8%nat = 8%nat) then u64 (double_datum inst p) else u32 (double_datum inst p).
Proof. intros H. rewrite decide_True by done. apply H. Qed.

Ltac store_is_write w d bytes range :=
  exists w, d; split; [reflexivity|]; split;
    [first [left; split; [cbn; lia | reflexivity] | right; split; reflexivity] | intros ? ?; bytes | intros ? ? ? ?; cbn; range].

Ltac store_written :=
  lazymatch goal with
  | |- context [gpr_bytes 1] => store_is_write (@MMU_Write_U8 dev bus) gpr_datum ltac:(reflexivity) ltac:(by apply gpr_value_u32)
  | |- context [gpr_bytes 2] => store_is_write (@MMU_Write_U16 dev bus) gpr_datum ltac:(reflexivity) ltac:(by apply gpr_value_u32)
  | |- context [gpr_bytes 4] => store_is_write (@MMU_Write_U32 dev bus) gpr_datum ltac:(reflexivity) ltac:(by apply gpr_value_u32)
  | |- context [gpr_bytes_reversed 2] =>
      store_is_write (@MMU_Write_U16 dev bus) half_swapped ltac:(apply half_swapped_bytes) ltac:(by apply half_swapped_u32)
  | |- context [gpr_bytes_reversed 4] =>
      store_is_write (@MMU_Write_U32 dev bus) word_swapped ltac:(apply (be_bytes_bswap 4)) ltac:(apply (bswap_range 4))
  | |- context [single_bytes] =>
      store_is_write (@MMU_Write_U32 dev bus) single_datum ltac:(reflexivity) ltac:(apply ConvertToSingle_u32)
  | |- context [integer_bytes] =>
      store_is_write (@MMU_Write_U32 dev bus) integer_datum ltac:(apply (be_bytes_wrapu 4)) ltac:(apply (wrapu_range 32); lia)
  | |- context [double_bytes] => store_is_write (@MMU_Write_U64 dev bus) double_datum ltac:(reflexivity) ltac:(by apply double_u64)
  end.

Lemma store_instruction fn f : In (fn, f) stores -> exists write datum,
  memory_instruction low_dcbz_hack fn = Some (store_form_of f write datum) /\ store_write f write datum.
Proof. intros Hin. cbn in Hin. repeat (destruct Hin as [[= <- <-]|Hin]; [store_written|]). done. Qed.

(** ** What they do *)

Lemma dsi_pending_rest s s' : rest s' = rest s -> dsi_pending s' = dsi_pending s.
Proof. intros Hr. unfold dsi_pending. by injection Hr as ->. Qed.

Lemma rest_on_ppc s s' g : rest s' = rest s -> rest (on_ppc g s') = rest (on_ppc g s).
Proof. intros E. injection E. intros. unfold rest, on_ppc. cbn. congruence. Qed.

Lemma sees_on_ppc m0 s mem g : sees m0 s mem -> sees m0 (on_ppc g s) mem.
Proof. intros [H1 H2 H3]. by split. Qed.

(** C8. Loads.  Every load of one datum - of bytes, halfwords, words and doublewords, with sign
    extension or the bytes reversed, to integer and floating-point registers, in each addressing
    mode - reads the bytes at the physical addresses of its operand, puts the value they mean in
    its register (an update form also the effective address in the base register) and changes
    nothing else of the registers or memory.  A floating-point load whose address is not a
    multiple of four only raises an alignment exception. *)
Theorem loads_spec fn f op m0 s mem inst :
  let a := lf_ea f inst (mm_ppc s) in
  In (fn, f) loads -> memory_instruction low_dcbz_hack fn = Some op ->
  sees m0 s mem -> mapped m0 s a (lf_size f) -> dsi_pending s = false ->
  if lf_aligned f && negb ((a .& 3) =? 0) then op inst s = on_ppc (GenerateAlignmentException a) s
  else sees m0 (op inst s) mem /\
    rest (op inst s) =
    rest (on_ppc (fun p => updated (lf_update f) inst a (lf_effect f inst (map mem (pas s a (lf_size f))) p)) s).
Proof.
  intros a Hin Hop Hs Hm Hd. destruct (load_instruction fn f Hin) as (complete & Eop & Hn & Hc).
  rewrite Eop in Hop. injection Hop as <-. cbv zeta. fold a.
  destruct (ReadFromHardware_mapped m0 s mem a (lf_size f) Hs Hm Hn) as (s' & Er & Hs' & Hr).
  assert (El : load (ReadFromHardware Read (lf_size f) false) a (complete inst a) s =
    on_ppc (fun p => updated (lf_update f) inst a (lf_effect f inst (map mem (pas s a (lf_size f))) p)) s').
  { unfold load. rewrite Er, (dsi_pending_rest s s'), Hd by done. cbn [negb]. apply Hc; [by rewrite length_map, length_pas|].
    by apply (pas_u8 m0 s mem a (lf_size f)). }
  unfold when_aligned, word_aligned. destruct (lf_aligned f), ((a .& 3) =? 0); cbn [andb negb]; try done;
    rewrite El; (split; [by apply sees_on_ppc | by apply rest_on_ppc]).
Qed.

Lemma store_write_spec f write datum m0 s mem inst p a : store_write f write datum -> sees m0 s mem -> mapped m0 s a (sf_size f) ->
  ppc_ok p -> arr_ok u64 (ps0 p) ->
  let s' := write (datum inst p) a s in
  sees m0 s' (store_at mem (pas s a (sf_size f)) (sf_bytes f inst p)) /\ rest s' = rest s.
Proof.
  intros [Hw Hb Hr] Hs Hm Hp Hps. specialize (Hr inst p Hp Hps). cbv zeta. rewrite <- Hb. destruct Hw as [[Hn Hw]|[Hn ->]].
  - rewrite Hw. rewrite decide_False in Hr by lia. by apply WriteToHardware_mapped.
  - rewrite Hn in *. rewrite decide_True in Hr by done. by apply Write_U64_mapped.
Qed.

(** C9. Stores.  Every store of one datum - bytes, halfwords, words and doublewords, integers
    with their bytes reversed, floating-point numbers in double or single precision or the low
    word of a register, in each addressing mode - puts the bytes of the datum at the physical
    addresses of its operand and changes no other byte; an update form puts the effective
    address in the base register, and nothing else of the registers changes.  A floating-point
    store whose address is not a multiple of four only raises an alignment exception. *)
Theorem stores_spec fn f op m0 s mem inst :
  let a := sf_ea f inst (mm_ppc s) in
  In (fn, f) stores -> memory_instruction low_dcbz_hack fn = Some op ->
  sees m0 s mem -> mapped m0 s a (sf_size f) -> dsi_pending s = false -> ppc_ok (mm_ppc s) -> arr_ok u64 (ps0 (mm_ppc s)) ->
  if sf_aligned f && negb ((a .& 3) =? 0) then op inst s = on_ppc (GenerateAlignmentException a) s
  else sees m0 (op inst s) (store_at mem (pas s a (sf_size f)) (sf_bytes f inst (mm_ppc s))) /\
    rest (op inst s) = rest (on_ppc (updated (sf_update f) inst a) s).
Proof.
  intros a Hin Hop Hs Hm Hd Hp Hps. destruct (store_instruction fn f Hin) as (write & datum & Eop & Hw).
  rewrite Eop in Hop. injection Hop as <-. unfold store_form_of. cbv zeta. fold a.
  destruct (store_write_spec f write datum m0 s mem inst (mm_ppc s) a Hw Hs Hm Hp Hps) as [Hs' Hr].
  assert (Es : let s' := (if sf_update f then store_update inst write (datum inst (mm_ppc s)) a else write (datum inst (mm_ppc s)) a) s in
    sees m0 s' (store_at mem (pas s a (sf_size f)) (sf_bytes f inst (mm_ppc s))) /\ rest s' = rest (on_ppc (updated (sf_update f) inst a) s)).
  { destruct (sf_update f); [|split; [done|]; by destruct s]. unfold store_update. rewrite (dsi_pending_rest s) by done. rewrite Hd.
    cbn [negb]. split; [by apply sees_on_ppc | by apply rest_on_ppc]. }
  unfold when_aligned, word_aligned. destruct (sf_aligned f), ((a .& 3) =? 0); cbn [andb negb]; done.
Qed.

(** ** What they leave when the access fails *)

Definition dsi_exception (dsisr a : Z) s : MMUState dev :=
  on_ppc (fun p => raise_exception EXCEPTION_DSI (set_spr SPR_DAR a (set_spr SPR_DSISR dsisr p))) s.

Lemma dsi_exception_pending dsisr a s : dsi_pending (dsi_exception dsisr a s) = true.
Proof.
  unfold dsi_pending, dsi_exception. cbn. apply negb_true_iff, Z.eqb_neq. intros E.
  pose proof (f_equal (fun x => Z.testbit x 3) E) as Eb. cbn beta in Eb. by rewrite Z.land_spec, Z.lor_spec, orb_true_r in Eb.
Qed.

Lemma failed_read n a s : one_page a (Z.of_nat n) = true -> mm_mmu_mode s = true -> msr_DR s = true -> unmapped s (m_dbat_table s) a ->
  ReadFromHardware Read n false a s = (0, dsi_exception 0x40000000 a s).
Proof.
  intros Hone Hmode HDR Hu. destruct (unmapped_fault s Read a Hu) as (r & E & S). unfold ReadFromHardware, ReadInPage.
  rewrite Hone. cbn [negb andb IsOpcodeFlag]. rewrite HDR, E, S. unfold MMU.GenerateDSIException. by rewrite Hmode.
Qed.

Lemma failed_write n a v s : one_page a n = true -> mm_mmu_mode s = true -> msr_DR s = true -> unmapped s (m_dbat_table s) a ->
  WriteToHardware Write false a v n s = dsi_exception 0x42000000 a s.
Proof.
  intros Hone Hmode HDR Hu. destruct (unmapped_fault s Write a Hu) as (r & E & S). unfold WriteToHardware, WriteInPage.
  rewrite Hone. cbn [negb andb IsOpcodeFlag]. rewrite HDR, E, S. unfold MMU.GenerateDSIException. by rewrite Hmode.
Qed.

(** Without the setting that enables the MMU a failed access shows an alert, and a load goes
    on with 0 (unless the emulation pauses on an alert). *)
Lemma unreported_read n a s : one_page a (Z.of_nat n) = true -> mm_mmu_mode s = false -> mm_pause_on_panic s = false -> msr_DR s = true ->
  unmapped s (m_dbat_table s) a -> ReadFromHardware Read n false a s = (0, s).
Proof.
  intros Hone Hmode Hpause HDR Hu. destruct (unmapped_fault s Read a Hu) as (r & E & S). unfold ReadFromHardware, ReadInPage.
  rewrite Hone. cbn [negb andb IsOpcodeFlag]. rewrite HDR, E, S. unfold MMU.GenerateDSIException, panic. by rewrite Hmode, Hpause.
Qed.

Lemma unreported_write n a v s : one_page a n = true -> mm_mmu_mode s = false -> mm_pause_on_panic s = false -> msr_DR s = true ->
  unmapped s (m_dbat_table s) a -> WriteToHardware Write false a v n s = s.
Proof.
  intros Hone Hmode Hpause HDR Hu. destruct (unmapped_fault s Write a Hu) as (r & E & S). unfold WriteToHardware, WriteInPage.
  rewrite Hone. cbn [negb andb IsOpcodeFlag]. rewrite HDR, E, S. unfold MMU.GenerateDSIException, panic. by rewrite Hmode, Hpause.
Qed.

Lemma be_value_zeros n : be_value (repeat 0 n) = 0.
Proof.
  unfold be_value. assert (E : Forall (eq 0) (rev (repeat 0 n))).
  { apply Forall_rev, List.Forall_forall. intros x Hx. symmetry. by apply repeat_spec in Hx. }
  induction E as [|x l <- _ IH]; [done|]. cbn. by rewrite IH.
Qed.

(** C12. Loads and stores can be restarted, when the MMU is enabled.  Let translation be on and the
    operand lie within one page, which is not mapped, and let a floating-point access be
    aligned.  With the setting that enables the MMU, a load of one datum ([loads]: all but
    lwarx, eciwx and the loads of several registers or strings) or a store of at most a word
    ([stores] but stfd and its forms) changes nothing but what the DSI exception needs: the
    exception is pending, DAR has the effective address and DSISR says that no translation was
    found and whether it was a store.  No destination or base register is written, so the
    instruction does what it should when it is executed again after the handler.  Without the
    setting an alert is shown and the instruction completes (unless alerts pause): a load as if it had read zeros,
    and a store with its base register updated and nothing stored. *)
Theorem failed_access_restartable s inst :
  msr_DR s = true ->
  (forall fn f op, In (fn, f) loads -> memory_instruction low_dcbz_hack fn = Some op ->
    let a := lf_ea f inst (mm_ppc s) in
    one_page a (Z.of_nat (lf_size f)) = true -> unmapped s (m_dbat_table s) a -> lf_aligned f && negb ((a .& 3) =? 0) = false ->
    (mm_mmu_mode s = true -> op inst s = dsi_exception 0x40000000 a s) /\
    (mm_mmu_mode s = false -> mm_pause_on_panic s = false -> dsi_pending s = false ->
       op inst s = on_ppc (fun p => updated (lf_update f) inst a (lf_effect f inst (repeat 0 (lf_size f)) p)) s)) /\
  (forall fn f op, In (fn, f) stores -> memory_instruction low_dcbz_hack fn = Some op -> sf_size f <> 8%nat ->
    let a := sf_ea f inst (mm_ppc s) in
    one_page a (Z.of_nat (sf_size f)) = true -> unmapped s (m_dbat_table s) a -> sf_aligned f && negb ((a .& 3) =? 0) = false ->
    (mm_mmu_mode s = true -> op inst s = dsi_exception 0x42000000 a s) /\
    (mm_mmu_mode s = false -> mm_pause_on_panic s = false -> dsi_pending s = false ->
       op inst s = on_ppc (updated (sf_update f) inst a) s)).
Proof.
  intros HDR. split.
  - intros fn f op Hin Hop a Hone Hu Hal. destruct (load_instruction fn f Hin) as (complete & Eop & Hn & Hc).
    rewrite Eop in Hop. injection Hop as <-. cbv zeta. fold a.
    assert (Ew : forall k, when_aligned (lf_aligned f) a k s = k s).
    { intros k. unfold when_aligned, word_aligned. destruct (lf_aligned f); [|done]. cbn [andb] in Hal. by rewrite Hal. }
    rewrite Ew. split; intros Hmode.
    + unfold load. by rewrite failed_read, dsi_exception_pending.
    + intros Hpause Hd. unfold load. rewrite unreported_read, Hd by done.
      cbn [negb]. rewrite <- (be_value_zeros (lf_size f)) at 1. apply Hc; [by rewrite repeat_length|].
      apply Forall_forall. intros x Hx%list_elem_of_In%repeat_spec. by subst.
  - intros fn f op Hin Hop H8 a Hone Hu Hal. destruct (store_instruction fn f Hin) as (write & datum & Eop & Hw).
    rewrite Eop in Hop. injection Hop as <-. unfold store_form_of. cbv zeta. fold a.
    destruct Hw as [[[Hn Hw]|[Hn _]] _ _]; [|done].
    assert (Ew : forall k, when_aligned (sf_aligned f) a k s = k s).
    { intros k. unfold when_aligned, word_aligned. destruct (sf_aligned f); [|done]. cbn [andb] in Hal. by rewrite Hal. }
    rewrite Ew. split; intros Hmode.
    + destruct (sf_update f); [unfold store_update|]; rewrite Hw, failed_write by done; [by rewrite dsi_exception_pending | done].
    + intros Hpause Hd. destruct (sf_update f); [unfold store_update|]; rewrite Hw, unreported_write by done; [by rewrite Hd | by destruct s].
Qed.
End Instructions.
