(* ===== verification/PPCMultipleProps.v ===== *)
(** The instructions that move several registers, which save and restore them, and the
    reservations of the conditional store. *)
From stdpp Require Import base tactics option list gmap.
From Stdlib Require Import ZArith Lia Bool.
From S2P Require Import Prelude Memmap PowerPC ConditionRegister Gekko InterpreterTables PPCSystem PPCInterpreter.
From S2P Require Import MemoryProps AramProps PPCCache PPCCacheBlocks PPCCacheTheorems MMU MMUAccess MMUBatProps MMUPageProps MMUAccessProps MMUMemoryProps.
From S2P Require Import PPCLoadStore PPCLoadStoreProps.

#[local] Open Scope Z_scope.
Implicit Types (mem : byte_memory) (p : PPCState).

(** * Words of a run of bytes *)

Fixpoint words (n : nat) (l : list Z) : list Z :=
  match n with
  | O => []
  | S n => be_value (take 4 l) :: words n (drop 4 l)
  end.

Definition word_bytes (ws : list Z) : list Z := concat (map (be_bytes 4) ws).

Lemma length_word_bytes ws : length (word_bytes ws) = (4 * length ws)%nat.
Proof. induction ws as [|w ws IH]; [done|]. unfold word_bytes in *. cbn [map concat length]. rewrite length_app, length_be_bytes, IH. lia. Qed.

Lemma length_words n l : length (words n l) = n.
Proof. revert l. induction n as [|n IH]; intros l; [done|]. cbn. by rewrite IH. Qed.

Lemma words_word_bytes ws : Forall u32 ws -> words (length ws) (word_bytes ws) = ws.
Proof.
  induction 1 as [|w ws Hw _ IH]; [done|]. unfold word_bytes in *. cbn [map concat length words].
  rewrite take_app_length', drop_app_length' by (by rewrite length_be_bytes).
  rewrite IH. f_equal. rewrite be_value_bytes. by apply wrapu_small.
Qed.

(** Registers from [i]. *)
Definition gprs (i : Z) (n : nat) p : list Z := map (fun k => get_gpr (i + Z.of_nat k) p) (seq 0 n).

Fixpoint set_gprs (i : Z) (ws : list Z) p : PPCState :=
  match ws with
  | [] => p
  | w :: ws => set_gprs (i + 1) ws (set_gpr i w p)
  end.

Lemma length_gprs i n p : length (gprs i n p) = n.
Proof. unfold gprs. by rewrite length_map, length_seq. Qed.

Lemma gprs_S i n p : gprs i (S n) p = get_gpr i p :: gprs (i + 1) n p.
Proof.
  unfold gprs. cbn [seq map]. rewrite Z.add_0_r. f_equal. rewrite <- seq_shift, map_map. apply map_ext. intros k. f_equal. lia.
Qed.

Lemma get_gpr_set i v j p : get_gpr j (set_gpr i v p) = if j =? i then v else get_gpr j p.
Proof. unfold get_gpr, set_gpr. cbn. destruct (Z.eqb_spec j i) as [->|Hne]; [apply aat_aupd_eq | apply aat_aupd_ne; congruence]. Qed.

Lemma get_set_gprs i ws j p :
  get_gpr j (set_gprs i ws p) = if (i <=? j) && (j <? i + Z.of_nat (length ws)) then nth (Z.to_nat (j - i)) ws 0 else get_gpr j p.
Proof.
  revert i p. induction ws as [|w ws IH]; intros i p; cbn [set_gprs length].
  { destruct (Z.leb_spec i j), (Z.ltb_spec j (i + Z.of_nat 0)); cbn [andb]; done || lia. }
  rewrite IH, get_gpr_set. destruct (Z.leb_spec (i + 1) j), (Z.ltb_spec j (i + 1 + Z.of_nat (length ws))),
    (Z.leb_spec i j), (Z.ltb_spec j (i + Z.of_nat (S (length ws)))), (Z.eqb_spec j i); cbn [andb]; try done; try lia.
  - replace (Z.to_nat (j - i)) with (S (Z.to_nat (j - (i + 1)))) by lia. done.
  - subst. by rewrite Z.sub_diag.
Qed.

Lemma set_gprs_fields i ws p :
  msr (set_gprs i ws p) = msr p /\ Exceptions (set_gprs i ws p) = Exceptions p.
Proof. revert i p. induction ws as [|w ws IH]; intros i p; [done|]. cbn [set_gprs]. by destruct (IH (i + 1) (set_gpr i w p)) as [-> ->]. Qed.

Section Multiple.
Context {dev : Type} {bus : Bus dev}.
Implicit Types (s : MMUState dev).

(** Translation depends on the machine state and the BATs. *)
Definition same_translation s s' : Prop := msr (mm_ppc s') = msr (mm_ppc s) /\ m_dbat_table s' = m_dbat_table s.

Lemma same_data_pa s s' ea : same_translation s s' -> data_pa s' ea = data_pa s ea.
Proof. intros [E1 E2]. unfold data_pa, msr_DR. by rewrite E1, E2. Qed.

Lemma same_pas s s' ea n : same_translation s s' -> pas s' ea n = pas s ea n.
Proof. intros H. unfold pas, pa_at. apply map_ext. intros i. by rewrite (same_data_pa s s'). Qed.

Lemma same_mapped m0 s s' ea n : same_translation s s' -> mapped m0 s ea n -> mapped m0 s' ea n.
Proof.
  intros H [Ht He Hb]. split; [by rewrite (proj2 H) | done |]. intros i Hi. unfold pa_at. rewrite (same_data_pa s s') by done. by apply Hb.
Qed.

Lemma rest_translation s s' g : rest s' = rest (on_ppc g s) -> msr (g (mm_ppc s)) = msr (mm_ppc s) -> same_translation s s'.
Proof. intros Hr Hm. unfold rest in Hr. cbn in Hr. injection Hr. intros. unfold same_translation. split; congruence. Qed.

Lemma rest_ppc s s' : rest s' = rest s -> mm_ppc s' = mm_ppc s.
Proof. by intros [=]. Qed.

Lemma pas_split s ea k c : pas s ea (k + c) = pas s ea k ++ pas s (to_u32 (ea + Z.of_nat k)) c.
Proof. rewrite pas_app. f_equal. unfold pas. apply map_ext. intros i. by rewrite pa_at_shift. Qed.

Lemma mapped_head m0 s ea n k : mapped m0 s ea n -> (k <= n)%nat -> mapped m0 s ea k.
Proof.
  intros Hm Hk. pose proof (mapped_part m0 s ea n 0 k Hm Hk) as H. change (Z.of_nat 0) with 0 in H.
  rewrite Z.add_0_r, wrapu_small in H by apply Hm. done.
Qed.

(** ** [lmw] and [stmw] *)

Lemma load_words_spec m0 mem n i a s : sees m0 s mem -> mapped m0 s a (4 * n) -> dsi_pending s = false ->
  let s' := load_words n i a s in
  sees m0 s' mem /\ rest s' = rest (on_ppc (set_gprs i (words n (map mem (pas s a (4 * n))))) s).
Proof.
  revert i a s. induction n as [|n IH]; intros i a s Hs Hm Hd; cbn [load_words].
  { split; [done|]. by destruct s. }
  replace (4 * S n)%nat with (4 + 4 * n)%nat in * by lia.
  destruct (ReadFromHardware_mapped m0 s mem a 4 Hs) as (s1 & E & Hs1 & Hr1); [apply (mapped_head m0 s a _ 4 Hm); lia | lia |].
  unfold MMU_Read_U32. rewrite E, (dsi_pending_rest s s1), Hd by done. cbn zeta.
  set (w := be_value (map mem (pas s a 4))). set (s2 := to_gpr i w s1).
  assert (Hr2 : rest s2 = rest (on_ppc (set_gpr i w) s)) by (by apply rest_on_ppc).
  assert (Ht : same_translation s s2) by (by apply (rest_translation s s2 (set_gpr i w))).
  destruct (IH (i + 1) (to_u32 (a + 4)) s2) as [Hs' Hr'].
  - by apply sees_on_ppc.
  - apply (same_mapped m0 s s2); [done|]. by apply (mapped_part m0 s a (4 + 4 * n) 4).
  - rewrite (dsi_pending_rest _ _ Hr2). exact Hd.
  - split; [done|]. rewrite Hr'. rewrite (rest_on_ppc _ _ _ Hr2). rewrite (same_pas s s2) by done.
    rewrite pas_split, map_app. cbn [words]. rewrite take_app_length', drop_app_length' by (by rewrite length_map, length_pas). done.
Qed.

Lemma store_words_spec m0 n i a s mem : sees m0 s mem -> mapped m0 s a (4 * n) -> dsi_pending s = false -> ppc_ok (mm_ppc s) ->
  let s' := store_words n i a s in
  sees m0 s' (store_at mem (pas s a (4 * n)) (word_bytes (gprs i n (mm_ppc s)))) /\ rest s' = rest s.
Proof.
  revert i a s mem. induction n as [|n IH]; intros i a s mem Hs Hm Hd Hp; cbn [store_words]; [done|].
  replace (4 * S n)%nat with (4 + 4 * n)%nat in * by lia.
  destruct (WriteToHardware_mapped m0 s mem a 4 (get_gpr i (mm_ppc s)) Hs) as [Hs1 Hr1];
    [apply (mapped_head m0 s a _ 4 Hm); lia | by apply gpr_value_u32 | lia |].
  unfold MMU_Write_U32. change (Z.of_nat 4) with 4 in *. set (s1 := WriteToHardware _ _ _ _ _ s) in *.
  rewrite (dsi_pending_rest s s1), Hd by done. cbn zeta.
  assert (Ep : mm_ppc s1 = mm_ppc s) by (exact (rest_ppc _ _ Hr1)).
  destruct (IH (i + 1) (to_u32 (a + 4)) s1 _ Hs1) as [Hs' Hr'].
  - apply (rest_mapped m0 s s1); [done|]. by apply (mapped_part m0 s a (4 + 4 * n) 4).
  - by rewrite (dsi_pending_rest s s1).
  - by rewrite Ep.
  - split; [|by rewrite Hr']. revert Hs'. apply sees_ext. intros x. rewrite Ep, (rest_pas s s1) by done.
    rewrite gprs_S, pas_split. unfold word_bytes. cbn [map concat]. by rewrite store_at_app by (by rewrite length_pas, length_be_bytes).
Qed.

Lemma nth_gprs i n p k : (k < n)%nat -> nth k (gprs i n p) 0 = get_gpr (i + Z.of_nat k) p.
Proof. intros Hk. unfold gprs. rewrite (nth_indep _ _ (get_gpr (i + Z.of_nat 0) p)) by (by rewrite length_map, length_seq).
  rewrite (map_nth (fun k => get_gpr (i + Z.of_nat k) p) (seq 0 n) 0%nat k). by rewrite seq_nth. Qed.

Lemma RD_register inst : 0 <= RD inst < 32.
Proof. unfold RD. pose proof (bit_field_range 21 5 inst ltac:(lia) ltac:(lia)) as H. exact H. Qed.

(** C13. Registers that are saved are restored.  If [stmw] stores the registers from [r] to 31 to
    bytes that have different physical addresses and later, whatever was done to the registers
    in between as long as the machine state and the exceptions are the same, [lmw] with the same
    register and effective address loads them, they have the values they had at the save and
    the other registers those they have; in between the bytes from the address on, four for
    each register, are the registers' and all others what they were. *)
Theorem saved_registers_restored m0 s mem inst inst' (g : PPCState -> PPCState) :
  let r := RS inst in
  let n := Z.to_nat (32 - r) in
  let a := Helper_Get_EA inst (mm_ppc s) in
  let s1 := stmw inst s in
  let s2 := lmw inst' (on_ppc g s1) in
  sees m0 s mem -> mapped m0 s a (4 * n) -> NoDup (pas s a (4 * n)) -> a .& 3 = 0 -> msr_LE s = false ->
  dsi_pending s = false -> ppc_ok (mm_ppc s) ->
  RD inst' = r -> Helper_Get_EA inst' (g (mm_ppc s)) = a -> msr (g (mm_ppc s)) = msr (mm_ppc s) ->
  Exceptions (g (mm_ppc s)) = Exceptions (mm_ppc s) ->
  sees m0 s1 (store_at mem (pas s a (4 * n)) (word_bytes (gprs r n (mm_ppc s)))) /\
  forall i, 0 <= i < 32 -> get_gpr i (mm_ppc s2) = if r <=? i then get_gpr i (mm_ppc s) else get_gpr i (g (mm_ppc s)).
Proof.
  intros r n a s1 s2 Hs Hm Hnd Hal HLE Hd Hp Hr' Hea Hmsr Hexc. pose proof (RD_register inst) as Hrange. change (RD inst) with r in Hrange.
  assert (E1 : s1 = store_words n r a s) by (unfold s1, stmw; fold a; by rewrite Hal, HLE).
  destruct (store_words_spec m0 n r a s mem Hs Hm Hd Hp) as [Hs1 Hr1]. rewrite <- E1 in Hs1, Hr1.
  split; [done|]. clearbody s1. set (sg := on_ppc g s1) in *.
  assert (Hrg : rest sg = rest (on_ppc g s)) by (by apply rest_on_ppc).
  assert (Ht : same_translation s sg) by (by apply (rest_translation s sg g)).
  assert (Epg : mm_ppc sg = g (mm_ppc s)) by (exact (rest_ppc _ _ Hrg)).
  assert (E2 : s2 = load_words n r a sg).
  { unfold s2, lmw. fold sg. rewrite Epg, Hea, Hal, Hr'. unfold msr_LE. rewrite Epg, Hmsr. unfold msr_LE in HLE. by rewrite HLE. }
  assert (Hsg : sees m0 sg (store_at mem (pas s a (4 * n)) (word_bytes (gprs r n (mm_ppc s))))) by (by apply sees_on_ppc).
  assert (Hdg : dsi_pending sg = false) by (unfold dsi_pending; by rewrite Epg, Hexc).
  pose proof (load_words_spec m0 _ n r a sg Hsg (same_mapped m0 s sg a _ Ht Hm) Hdg) as Hl. cbv zeta in Hl. apply proj2 in Hl as Hr2.
  clear Hl. clearbody sg.
  rewrite <- E2, (same_pas s sg), store_at_load in Hr2
    by (done || rewrite length_pas, length_word_bytes, length_gprs; done).
  rewrite <- (length_gprs r n (mm_ppc s)) in Hr2 at 1. rewrite words_word_bytes in Hr2.
  2: { apply List.Forall_forall. intros x Hx. apply in_map_iff in Hx as (k & <- & _). by apply gpr_value_u32. }
  assert (Ep2 : mm_ppc s2 = set_gprs r (gprs r n (mm_ppc s)) (mm_ppc sg)) by (exact (rest_ppc _ _ Hr2)).
  intros i Hi. rewrite Ep2, get_set_gprs, length_gprs, Epg. destruct (Z.leb_spec r i); [|done]. cbn [andb].
  rewrite (proj2 (Z.ltb_lt i _)) by lia. rewrite nth_gprs by lia. f_equal. lia.
Qed.

(** ** Reservations *)

(** C23. Conditional stores.  [lwarx] loads its word and reserves its address; [stwcx.] stores
    the word and sets the equal bit of CR0, giving up the reservation, if its address is the one
    reserved, and otherwise stores nothing and clears the bit; the summary overflow bit is
    copied in both cases.  An address that is not a multiple of four only raises an alignment
    exception. *)
Theorem conditional_stores m0 s mem inst :
  let a := Helper_Get_EA_X inst (mm_ppc s) in
  sees m0 s mem -> mapped m0 s a 4 -> dsi_pending s = false -> ppc_ok (mm_ppc s) ->
  if negb ((a .& 3) =? 0) then
    lwarx inst s = on_ppc (GenerateAlignmentException a) s /\ stwcxd inst s = on_ppc (GenerateAlignmentException a) s
  else
    (sees m0 (lwarx inst s) mem /\ rest (lwarx inst s) =
      rest (on_ppc (fun p => fset p_reserve_address a (fset p_reserve true (set_gpr (RD inst) (be_value (map mem (pas s a 4))) p))) s)) /\
    if reserve (mm_ppc s) && (a =? reserve_address (mm_ppc s)) then
      sees m0 (stwcxd inst s) (store_at mem (pas s a 4) (be_bytes 4 (get_gpr (RS inst) (mm_ppc s)))) /\
      rest (stwcxd inst s) = rest (on_ppc (fun p => SetCRField 0 (2 .| GetXER_SO p) (fset p_reserve false p)) s)
    else stwcxd inst s = on_ppc (fun p => SetCRField 0 (GetXER_SO p) p) s.
Proof.
  intros a Hs Hm Hd Hp. unfold lwarx, stwcxd, word_aligned. fold a. destruct (negb ((a .& 3) =? 0)); [done|]. split.
  - destruct (ReadFromHardware_mapped m0 s mem a 4 Hs Hm) as (s1 & E & Hs1 & Hr1); [lia|]. unfold load, MMU_Read_U32.
    rewrite E, (dsi_pending_rest s s1), Hd by done. cbn [negb]. split; [by do 2 apply sees_on_ppc|].
    by apply (rest_on_ppc s s1 (fun p => fset p_reserve_address a (fset p_reserve true (set_gpr (RD inst) _ p)))).
  - destruct (reserve (mm_ppc s) && _); [|done].
    destruct (WriteToHardware_mapped m0 s mem a 4 (get_gpr (RS inst) (mm_ppc s)) Hs Hm) as [Hs1 Hr1]; [by apply gpr_value_u32 | lia |].
    unfold MMU_Write_U32. change (Z.of_nat 4) with 4 in *. rewrite (dsi_pending_rest s) by done. rewrite Hd. cbn [negb].
    split; [by apply sees_on_ppc | by apply (rest_on_ppc s _ (fun p => SetCRField 0 (2 .| GetXER_SO p) (fset p_reserve false p)))].
Qed.
End Multiple.
