(* ===== verification/PPCSingleProps.v ===== *)
(** Single precision numbers in the floating-point registers: the conversions of the loads and
    stores are exact and inverse to each other. *)
From stdpp Require Import base tactics option list gmap.
From Stdlib Require Import ZArith Lia Bool.
From S2P Require Import Prelude Gekko PPCCache MMU MMUBatProps PPCLoadStore.

#[local] Open Scope Z_scope.

(** A number in single precision has a sign, an exponent of 8 bits and a fraction of 23, one in
    double precision an exponent of 11 bits and a fraction of 52. *)
Definition single_of (s e f : Z) : Z := s * 2 ^ 31 + e * 2 ^ 23 + f.
Definition double_of (s e f : Z) : Z := s * 2 ^ 63 + e * 2 ^ 52 + f.

Record single_fields (s e f : Z) : Prop := { sf_sign : 0 <= s < 2; sf_exp : 0 <= e < 2 ^ 8; sf_frac : 0 <= f < 2 ^ 23 }.
Record double_fields (s e f : Z) : Prop := { df_sign : 0 <= s < 2; df_exp : 0 <= e < 2 ^ 11; df_frac : 0 <= f < 2 ^ 52 }.

Lemma single_split x : u32 x -> exists s e f, single_fields s e f /\ x = single_of s e f.
Proof.
  intros Hx. unfold uN in Hx. exists (x / 2 ^ 31), ((x / 2 ^ 23) mod 2 ^ 8), (x mod 2 ^ 23). unfold single_of.
  change (2 ^ 32) with (2 ^ 31 * 2) in Hx. change (2 ^ 31) with (2 ^ 23 * 2 ^ 8) in *. split.
  - split; Z.div_mod_to_equations; lia.
  - rewrite <- Z.div_div by lia. Z.div_mod_to_equations. lia.
Qed.

(** The bits from [k] of an integer of [w] bits. *)
Lemma land_top w k x : 0 <= k <= w -> uN w x -> x .& Z.ldiff (Z.ones w) (Z.ones k) = (x / 2 ^ k) * 2 ^ k.
Proof.
  intros Hk Hx. assert (El : x .& Z.ldiff (Z.ones w) (Z.ones k) = Z.ldiff (x .& Z.ones w) (Z.ones k)).
  { apply Z.bits_inj'. intros i Hi. rewrite !Z.land_spec, !Z.ldiff_spec, Z.land_spec. apply andb_assoc. }
  rewrite El, Z.land_ones, (Z.mod_small x) by (lia || exact Hx). rewrite Z.ldiff_ones_r, Z.shiftl_mul_pow2, Z.shiftr_div_pow2 by lia. done.
Qed.

Lemma land_low k x : 0 <= k -> x .& Z.ones k = x mod 2 ^ k.
Proof. intros Hk. by apply Z.land_ones. Qed.

(** The parts that both conversions move: the two upper bits and the thirty lower ones. *)
Lemma moved_parts hi lo y : 0 <= hi < 4 -> 0 <= lo < 2 ^ 30 -> 0 <= y < 2 ->
  (to_u64 ((hi * 2 ^ 30) .<< 32) .| to_u64 ((y .<< 61) .| ((y .<< 60) .| (y .<< 59)))) .| to_u64 (lo .<< 29) =
  hi * 2 ^ 62 + y * (7 * 2 ^ 59) + lo * 2 ^ 29.
Proof.
  intros Hhi Hlo Hy.
  assert (Ez : to_u64 ((y .<< 61) .| ((y .<< 60) .| (y .<< 59))) = (7 * y) .<< 59)
    by (assert (y = 0 \/ y = 1) as [-> | ->] by lia; reflexivity).
  assert (Eh : to_u64 ((hi * 2 ^ 30) .<< 32) = hi .<< 62).
  { rewrite !Z.shiftl_mul_pow2 by lia. rewrite wrapu_small by (unfold uN; lia). lia. }
  assert (El : to_u64 (lo .<< 29) = lo * 2 ^ 29).
  { rewrite Z.shiftl_mul_pow2 by lia. apply wrapu_small. unfold uN. lia. }
  rewrite Ez, Eh, El. rewrite (Z.shiftl_mul_pow2 (7 * y)) by lia. rewrite lor_low by (unfold uN; lia).
  replace (hi * 2 ^ 62 + 7 * y * 2 ^ 59) with ((8 * hi + 7 * y) .<< 59) by (rewrite Z.shiftl_mul_pow2 by lia; lia).
  rewrite lor_low by (unfold uN; lia). lia.
Qed.

Section Single.
Context (s e f : Z) (H : single_fields s e f).
Let x := single_of s e f.

Lemma single_exp : (x .>> 23) .& 0xff = e.
Proof.
  destruct H. unfold x, single_of. change 0xff with (Z.ones 8). rewrite Z.shiftr_div_pow2, land_low by lia.
  change (2 ^ 31) with (2 ^ 8 * 2 ^ 23). Z.div_mod_to_equations. lia.
Qed.

Lemma single_frac : x .& 0x007fffff = f.
Proof.
  destruct H. unfold x, single_of. change 0x007fffff with (Z.ones 23). rewrite land_low by lia.
  change (2 ^ 31) with (2 ^ 8 * 2 ^ 23). Z.div_mod_to_equations. lia.
Qed.

Lemma single_u32 : u32 x.
Proof. destruct H. unfold x, single_of, uN. lia. Qed.

Lemma single_top : x .& 0xc0000000 = (2 * s + e / 128) * 2 ^ 30.
Proof.
  change 0xc0000000 with (Z.ldiff (Z.ones 32) (Z.ones 30)). rewrite (land_top 32) by (lia || exact single_u32). f_equal.
  destruct H. unfold x, single_of. change (2 ^ 31) with (2 * 2 ^ 30). change (2 ^ 30) with (128 * 2 ^ 23).
  Z.div_mod_to_equations. lia.
Qed.

Lemma single_low : x .& 0x3fffffff = (e mod 128) * 2 ^ 23 + f.
Proof.
  destruct H. unfold x, single_of. change 0x3fffffff with (Z.ones 30). rewrite land_low by lia.
  change (2 ^ 31) with (2 * (128 * 2 ^ 23)). change (2 ^ 30) with (128 * 2 ^ 23). Z.div_mod_to_equations. lia.
Qed.

(** Numbers that are not denormalised. *)
Lemma double_of_normal : ~ (e = 0 /\ f <> 0) ->
  ConvertToDouble x = double_of s (if decide (e = 0) then 0 else if decide (e = 255) then 2047 else e + 896) (f * 2 ^ 29).
Proof.
  intros Hn. destruct H. unfold ConvertToDouble. rewrite single_exp, single_frac, single_top, single_low by done.
  set (hi := 2 * s + e / 128). set (lo := e mod 128 * 2 ^ 23 + f).
  assert (Hhi : 0 <= hi < 4) by (unfold hi; Z.div_mod_to_equations; lia).
  assert (Hlo : 0 <= lo < 2 ^ 30) by (unfold lo; Z.div_mod_to_equations; lia).
  rewrite !Z.shiftr_div_pow2 by lia. change (2 ^ 7) with 128.
  assert (Hy : 0 <= e / 128 < 2) by (Z.div_mod_to_equations; lia).
  destruct (Z.ltb_spec 0 e), (Z.ltb_spec e 255); cbn [andb]; [| | |lia].
  - rewrite moved_parts by (done || destruct (_ =? _); cbn; lia). rewrite decide_False, decide_False by lia.
    unfold hi, lo, double_of. destruct (Z.eqb_spec (e / 128) 0); cbn [truth]; Z.div_mod_to_equations; lia.
  - assert (e = 255) as -> by lia. cbn [Z.eqb andb]. rewrite moved_parts by done. unfold hi, lo, double_of.
    rewrite decide_False, decide_True by lia. change (255 / 128) with 1. change (255 mod 128) with 127. lia.
  - assert (e = 0) as -> by lia. destruct (Z.eqb_spec f 0) as [->|]; [|lia]. cbn [Z.eqb andb negb].
    rewrite moved_parts by done. unfold hi, lo, double_of.
    rewrite decide_True by lia. change (0 / 128) with 0. change (0 mod 128) with 0. lia.
Qed.
End Single.

(** The leading one of a fraction goes to bit 23. *)
Lemma normalise_spec n g exp : 0 < g < 2 ^ 23 -> 2 ^ 23 <= g * 2 ^ Z.of_nat n ->
  exists k, 1 <= k <= Z.of_nat n /\ normalise n g exp = (g * 2 ^ k, exp - k) /\ 2 ^ 23 <= g * 2 ^ k < 2 ^ 24.
Proof.
  revert g exp. induction n as [|n IH]; intros g exp Hg Hn; [cbn in Hn; lia|]. cbn [normalise].
  rewrite Z.shiftl_mul_pow2 by lia. rewrite wrapu_small by (unfold uN; lia). change (2 ^ 1) with 2.
  assert (Eb : (g * 2) .& 0x00800000 = (g * 2 / 2 ^ 23) * 2 ^ 23).
  { change 0x00800000 with (Z.ldiff (Z.ones 24) (Z.ones 23)). apply (land_top 24); [lia | unfold uN; lia]. }
  rewrite Eb. destruct (Z.eqb_spec (g * 2 / 2 ^ 23 * 2 ^ 23) 0) as [E|E].
  - destruct (IH (g * 2) (exp - 1)) as (k & Hk & -> & Hr).
    { split; [lia|]. Z.div_mod_to_equations. lia. }
    { rewrite Nat2Z.inj_succ, Z.pow_succ_r in Hn by lia. lia. }
    exists (k + 1). rewrite Z.pow_add_r, Z.pow_1_r by lia. split; [lia|]. split; [f_equal; lia | lia].
  - exists 1. rewrite Z.pow_1_r. split; [lia|]. split; [done|]. Z.div_mod_to_equations. lia.
Qed.

Lemma double_of_denormal s f : single_fields s 0 f -> f <> 0 -> exists k, 1 <= k <= 23 /\ 2 ^ 23 <= f * 2 ^ k < 2 ^ 24 /\
  ConvertToDouble (single_of s 0 f) = double_of s (897 - k) ((f * 2 ^ k - 2 ^ 23) * 2 ^ 29).
Proof.
  intros H Hf. destruct H as [Hs He Hf']. destruct (normalise_spec 23 f (1023 - 126)) as (k & Hk & E & Hr); [lia | change (Z.of_nat 23) with 23; lia |].
  exists k. split; [lia|]. split; [done|]. unfold ConvertToDouble.
  rewrite (single_exp s 0 f), (single_frac s 0 f) by done. cbn [Z.ltb Z.eqb andb Z.compare].
  destruct (Z.eqb_spec f 0); [done|]. cbn [negb]. rewrite E.
  assert (E1 : single_of s 0 f .& 0x80000000 = s * 2 ^ 31).
  { change 0x80000000 with (Z.ldiff (Z.ones 32) (Z.ones 31)). rewrite (land_top 32) by (lia || by apply single_u32). f_equal.
    unfold single_of. change (2 ^ 31) with (2 ^ 8 * 2 ^ 23). Z.div_mod_to_equations. lia. }
  assert (E2 : (f * 2 ^ k) .& 0x007fffff = f * 2 ^ k - 2 ^ 23).
  { change 0x007fffff with (Z.ones 23). rewrite land_low by lia. symmetry. apply (Z.mod_unique _ _ 1); lia. }
  rewrite E1, E2. rewrite !Z.shiftl_mul_pow2 by lia. rewrite !wrapu_small by (unfold uN; lia).
  change 1023 with (897 + 126). replace (897 + 126 - 126 - k) with (897 - k) by lia. unfold double_of.
  replace (s * 2 ^ 31 * 2 ^ 32) with (s .<< 63) by (rewrite Z.shiftl_mul_pow2 by lia; lia).
  rewrite lor_low by (unfold uN; lia).
  replace (s * 2 ^ 63 + (897 - k) * 2 ^ 52) with ((s * 2 ^ 11 + (897 - k)) .<< 52) by (rewrite Z.shiftl_mul_pow2 by lia; lia).
  rewrite lor_low by (unfold uN; lia). by rewrite Z.shiftl_mul_pow2 by lia.
Qed.

(** ** Back to single precision *)

Lemma double_fields_of s e f : double_fields s e f ->
  let x := double_of s e f in
  (x .>> 52) .& 0x7ff = e /\ x .& DOUBLE_FRAC = f /\ (x .>> 32) .& 0x80000000 = s * 2 ^ 31 /\
  (x .>> 32) .& 0xc0000000 = (2 * s + e / 1024) * 2 ^ 30 /\ (x .>> 29) .& 0x3fffffff = e mod 128 * 2 ^ 23 + f / 2 ^ 29 /\
  x .& to_u64 (Z.lnot DOUBLE_SIGN) = e * 2 ^ 52 + f /\ u64 x.
Proof.
  intros [Hs He Hf] x. unfold x, double_of.
  assert (Hx : uN 32 ((s * 2 ^ 63 + e * 2 ^ 52 + f) / 2 ^ 32)).
  { unfold uN. split; [apply Z.div_pos; lia | apply Z.div_lt_upper_bound; lia]. }
  rewrite !Z.shiftr_div_pow2 by lia.
  change 0x7ff with (Z.ones 11). change DOUBLE_FRAC with (Z.ones 52). change 0x3fffffff with (Z.ones 30).
  change (to_u64 (Z.lnot DOUBLE_SIGN)) with (Z.ones 63). rewrite !land_low by lia.
  change 0x80000000 with (Z.ldiff (Z.ones 32) (Z.ones 31)). change 0xc0000000 with (Z.ldiff (Z.ones 32) (Z.ones 30)).
  rewrite !(land_top 32) by (lia || done).
  change (2 ^ 63) with (2 ^ 11 * 2 ^ 52). change (2 ^ 52) with (2 ^ 23 * 2 ^ 29). change (2 ^ 32) with (2 ^ 3 * 2 ^ 29).
  split; [Z.div_mod_to_equations; lia|]. split; [Z.div_mod_to_equations; lia|].
  split; [Z.div_mod_to_equations; lia|]. split; [Z.div_mod_to_equations; lia|].
  split; [Z.div_mod_to_equations; lia|]. split; [Z.div_mod_to_equations; lia|]. unfold uN. lia.
Qed.

Lemma ConvertToSingle_fields s e f : double_fields s e f ->
  ConvertToSingle (double_of s e f) =
  if (874 <=? e) && (e <=? 896) then s * 2 ^ 31 + (2 ^ 31 + f / 2 ^ 21) / 2 ^ (905 - e)
  else s * 2 ^ 31 + e / 1024 * 2 ^ 30 + (e mod 128 * 2 ^ 23 + f / 2 ^ 29).
Proof.
  intros H. destruct (double_fields_of s e f H) as (E1 & E2 & E3 & E4 & E5 & E6 & _). destruct H as [Hs He Hf].
  unfold ConvertToSingle. rewrite E1, E2, E3, E4, E5, E6. rewrite (wrapu_small 32 e) by (unfold uN; lia).
  assert (Emoved : to_u32 ((2 * s + e / 1024) * 2 ^ 30 .| (e mod 128 * 2 ^ 23 + f / 2 ^ 29)) =
    s * 2 ^ 31 + e / 1024 * 2 ^ 30 + (e mod 128 * 2 ^ 23 + f / 2 ^ 29)).
  { rewrite <- Z.shiftl_mul_pow2 by lia. change (2 ^ 52) with (2 ^ 23 * 2 ^ 29) in Hf.
    assert (0 <= f / 2 ^ 29 < 2 ^ 23) by (Z.div_mod_to_equations; lia).
    assert (0 <= e / 1024 < 2) by (Z.div_mod_to_equations; lia). assert (0 <= e mod 128 < 128) by (Z.div_mod_to_equations; lia).
    rewrite lor_low by (unfold uN; lia). rewrite wrapu_small by (unfold uN; lia). lia. }
  rewrite Emoved. destruct (Z.ltb_spec 896 e); cbn [orb]; [by rewrite (proj2 (Z.leb_gt e 896)), andb_false_r by lia|].
  destruct (Z.eqb_spec (e * 2 ^ 52 + f) 0); [rewrite (proj2 (Z.leb_gt 874 e)) by lia; done|].
  destruct (Z.leb_spec 874 e); [|done]. cbn [andb]. rewrite (proj2 (Z.leb_le e 896)) by lia.
  rewrite (Z.shiftr_div_pow2 f) by lia. assert (Hf21 : 0 <= f / 2 ^ 21 < 2 ^ 31) by (change (2 ^ 52) with (2 ^ 31 * 2 ^ 21) in Hf; Z.div_mod_to_equations; lia).
  change (0x80000000 .| f / 2 ^ 21) with ((1 .<< 31) .| f / 2 ^ 21). rewrite lor_low by (done || lia).
  rewrite (wrapu_small 32) by (unfold uN; lia). rewrite Z.shiftr_div_pow2 by lia.
  rewrite (wrapu_small 32) by (unfold uN; lia). rewrite Z.lor_comm.
  set (t := (1 * 2 ^ 31 + f / 2 ^ 21) / 2 ^ (905 - e)).
  assert (Ht : uN 31 t).
  { unfold uN, t. split; [apply Z.div_pos; lia|]. apply Z.div_lt_upper_bound; [lia|].
    assert (2 ^ 9 <= 2 ^ (905 - e)) by (apply Z.pow_le_mono_r; lia). nia. }
  rewrite <- Z.shiftl_mul_pow2 by lia. rewrite lor_low by (done || lia). unfold t. by rewrite Z.mul_1_l, Z.shiftl_mul_pow2 by lia.
Qed.

(** The magnitude of a finite number, as a multiple of [2 ^ -1074]. *)
Definition single_magnitude (e f : Z) : Z := (if e =? 0 then f else 2 ^ 23 + f) * 2 ^ (Z.max e 1 + 924).
Definition double_magnitude (e f : Z) : Z := (if e =? 0 then f else 2 ^ 52 + f) * 2 ^ (Z.max e 1 - 1).

(** C17. Single precision numbers are kept exactly.  Loading a single precision number into a
    floating-point register converts it to a double precision one of the same sign and exactly
    the same magnitude, also zeros and denormalised numbers; infinities and NaNs stay so, with
    the bits of the fraction.  Storing the register in single precision gives back the same 32
    bits, whatever they were. *)
Theorem single_precision_exact x :
  u32 x ->
  ConvertToSingle (ConvertToDouble x) = x /\ u64 (ConvertToDouble x) /\
  exists s e f e' f', single_fields s e f /\ x = single_of s e f /\ double_fields s e' f' /\
    ConvertToDouble x = double_of s e' f' /\
    if e =? 255 then e' = 2047 /\ f' = f * 2 ^ 29 else e' < 2047 /\ double_magnitude e' f' = single_magnitude e f.
Proof.
  intros Hx. destruct (single_split x Hx) as (s & e & f & H & ->). pose proof H as [Hs He Hf].
  assert (Hd : exists e' f', double_fields s e' f' /\ ConvertToDouble (single_of s e f) = double_of s e' f' /\
    ConvertToSingle (double_of s e' f') = single_of s e f /\
    if e =? 255 then e' = 2047 /\ f' = f * 2 ^ 29 else e' < 2047 /\ double_magnitude e' f' = single_magnitude e f).
  { destruct (decide (e = 0 /\ f <> 0)) as [[-> Hf0]|Hn].
    - destruct (double_of_denormal s f H Hf0) as (k & Hk & Hr & E). exists (897 - k), ((f * 2 ^ k - 2 ^ 23) * 2 ^ 29).
      assert (Hd : double_fields s (897 - k) ((f * 2 ^ k - 2 ^ 23) * 2 ^ 29)) by (split; lia).
      split; [done|]. split; [done|]. split.
      + rewrite ConvertToSingle_fields by done. rewrite (proj2 (Z.leb_le 874 _)), (proj2 (Z.leb_le _ 896)) by lia. cbn [andb].
        replace (905 - (897 - k)) with (8 + k) by lia. unfold single_of. f_equal; [lia|].
        replace ((f * 2 ^ k - 2 ^ 23) * 2 ^ 29) with ((f * 2 ^ k - 2 ^ 23) * 2 ^ 8 * 2 ^ 21) by lia. rewrite Z.div_mul by lia.
        replace (2 ^ 31 + (f * 2 ^ k - 2 ^ 23) * 2 ^ 8) with (f * 2 ^ (8 + k)) by (rewrite Z.pow_add_r by lia; lia).
        by rewrite Z.div_mul by lia.
      + cbn [Z.eqb]. split; [lia|]. unfold double_magnitude, single_magnitude. cbn [Z.eqb].
        rewrite (proj2 (Z.eqb_neq _ 0)), Z.max_l, Z.max_r by lia. change (1 + 924) with (29 + 896).
        replace (2 ^ 52 + (f * 2 ^ k - 2 ^ 23) * 2 ^ 29) with (f * 2 ^ (29 + k)) by (rewrite Z.pow_add_r by lia; lia).
        rewrite <- Z.mul_assoc, <- Z.pow_add_r by lia. do 2 f_equal. lia.
    - pose proof (double_of_normal s e f H Hn) as E. set (e' := if decide (e = 0) then _ else _) in E.
      assert (He' : e = 0 /\ e' = 0 /\ f = 0 \/ e = 255 /\ e' = 2047 \/ 0 < e < 255 /\ e' = e + 896)
        by (unfold e'; repeat case_decide; lia).
      clearbody e'. exists e', (f * 2 ^ 29). assert (Hd : double_fields s e' (f * 2 ^ 29)) by (split; lia).
      split; [done|]. split; [done|]. split.
      + rewrite ConvertToSingle_fields by done. assert (Eb : (874 <=? e') && (e' <=? 896) = false)
          by (destruct (Z.leb_spec 874 e'), (Z.leb_spec e' 896); done || lia).
        rewrite Eb, Z.div_mul by lia. unfold single_of. Z.div_mod_to_equations. lia.
      + destruct (Z.eqb_spec e 255); [split; [lia | done]|]. split; [lia|]. unfold double_magnitude, single_magnitude.
        destruct He' as [(-> & -> & ->)|[?|[He1 ->]]]; [done | lia|]. rewrite !(proj2 (Z.eqb_neq _ 0)), !Z.max_l by lia.
        replace (e + 924) with (29 + (e + 896 - 1)) by lia. rewrite (Z.pow_add_r 2 29) by lia. lia. }
  destruct Hd as (e' & f' & Hd & E & Eback & Hv). rewrite E. split; [done|]. split; [apply (double_fields_of s e' f' Hd)|].
  by exists s, e, f, e', f'.
Qed.

Lemma single_precision_exact_witness :
  ConvertToSingle (ConvertToDouble 0x80000001) = 0x80000001 /\ ConvertToDouble 0x80000001 = 0xB6A0000000000000.
Proof.
  split; [|reflexivity]. refine (proj1 (single_precision_exact 0x80000001 _)). vm_compute. split; done || discriminate.
Defined.
