(* ===== verification/MemoryExamples.v ===== *)
(** The theorems about the MMU and about loads and stores at states of a GameCube: two blocks of
    data addresses that are next to each other and translated to different parts of memory, and
    a page table with one entry. *)
From stdpp Require Import base tactics option list gmap.
From Stdlib Require Import ZArith Lia Bool.
From S2P Require Import Prelude Memmap PowerPC ConditionRegister Gekko PPCSystem InterpreterTables.
From S2P Require Import PPCInterpreter MemoryProps AramProps PPCCache PPCCacheBlocks PPCCacheProps.
From S2P Require Import PPCCacheTheorems MMU MMUAccess MMUBatProps MMUPageProps MMUAccessProps MMUMemoryProps.
From S2P Require Import PPCLoadStore PPCLoadStoreProps PPCMultipleProps.

#[local] Open Scope Z_scope.

(** A bus without devices. *)
#[local] Instance no_devices : Bus unit := {|
  mmio_read _ _ d := (0, d); mmio_write _ _ _ d := d; efb_peek _ _ _ d := (0, d); efb_poke _ _ _ _ d := d;
  gather_pipe_write _ _ d := d; pi_interrupt d := d; cpu_break d := d; uninitialised _ := 0
|}.

(** [0x80000000] of 256 KiB to 0, [0x80040000] of 128 KiB to [0x00100000]; translation is on, and
    the segment of the addresses from 0 has the VSID 1. *)
Definition example_ppc : PPCState :=
  mkPPC 0 0 ∅ (<[536 := 0x80000007]> (<[537 := 2]> (<[538 := 0x80040003]> (<[539 := 0x00100002]> ∅))))
    0x30 0 0 0 ∅ 0 0 0 (<[0 := 1]> ∅) false 0 0 ∅ ∅.

(** The entry of page 1: valid, VSID 1, to page 5. *)
Definition example_paged_memory : MemoryManager :=
  Write_U32_memory 0x5000 0x00200004 (Write_U32_memory 0x80000080 0x00200000 cache_example_memory).

Definition example_state (m : MemoryManager) (dcache : bool) : MMUState unit :=
  DBATUpdated (mkMMU unit example_ppc m ∅ None ∅ ∅ 0x00200000 0x3ff ∅ ∅
    (Cache_Init empty_cache) (Cache_Init empty_cache) dcache false false true false tt).

Lemma example_table m d :
  m_dbat_table (example_state m d) = updated_bats SPR_DBAT0U SPR_DBAT4U (example_state m d).
Proof. reflexivity. Qed.

Lemma bat_translation_witness :
  TranslateBatAddress (updated_bats SPR_DBAT0U SPR_DBAT4U (example_state cache_example_memory false)) 0x80041234 =
  Some (0x00101234, false).
Proof.
  rewrite bat_translation; [vm_compute; reflexivity | vm_compute; split; done || discriminate | reflexivity |].
  vm_compute. repeat constructor.
Defined.

Lemma unchecked_accesses_safe_witness :
  let s := example_state cache_example_memory false in
  msr_DR s = true /\ m_enable_dcache s = false /\
  exists pa, TranslateBatAddress (m_dbat_table s) (0x8003fffe + 3) = Some (pa, false) /\ ~ (0x08000000 <= pa < 0x10000000).
Proof.
  intros s. destruct (unchecked_accesses_safe (example_state cache_example_memory false) 0x8003fffe 32 3 (example_table _ _))
    as (HDR & Hdc & pa & Etr & _ & Hdev).
  - split; vm_compute; reflexivity.
  - vm_compute. discriminate.
  - vm_compute; split; done || discriminate.
  - lia.
  - vm_compute. discriminate.
  - vm_compute. reflexivity.
  - vm_compute. split; done || discriminate.
  - split; [exact HDR|]. split; [exact Hdc|]. exists pa. split; [exact Etr | exact Hdev].
Defined.

(** ** The page table *)

Lemma example_paged : paged (example_state example_paged_memory false).
Proof.
  split; [| reflexivity | reflexivity |].
  - apply Write_U32_cache_memory, Write_U32_cache_memory, example_memory_ok.
  - intros hash. unfold pteg. change (pagetable_hashmask _) with 0x3ff. change (pagetable_base _) with (0x20 .<< 16).
    change (mm_memory _) with example_paged_memory. change 0x3ff with (2 ^ 10 - 1). rewrite land_wrapu by lia.
    pose proof (wrapu_range 10 hash ltac:(lia)) as Hh. unfold uN in Hh.
    rewrite Z.shiftl_mul_pow2 by lia. rewrite wrapu_small by (unfold uN; lia).
    rewrite Z.lor_comm, lor_low by (unfold uN; lia).
    unfold example_paged_memory. split; rewrite ?Write_U32_real; change (m_ram_size_real cache_example_memory) with 0x01800000; lia.
Qed.

Lemma example_coherent m d : tlb_coherent (example_state m d).
Proof. intros flag index. unfold tlb_entry. destruct flag; cbn; split; intros Hn; by destruct Hn. Qed.

Lemma tlb_transparent_witness :
  fst (TranslatePageAddress Read 0x1234 (example_state example_paged_memory false)) =
  {| ta_result := PAGE_TABLE_TRANSLATED; ta_address := 0x5234; ta_wi := false |}.
Proof.
  pose proof (tlb_transparent (example_state example_paged_memory false) Read 0x1234 example_paged (example_coherent _ _)
    ltac:(vm_compute; split; done || discriminate) ltac:(vm_compute; reflexivity) ltac:(reflexivity)) as H.
  destruct (TranslatePageAddress Read 0x1234 (example_state example_paged_memory false)) as [r s'].
  destruct H as [-> _]. vm_compute. reflexivity.
Defined.

Lemma unmapped_access_faults_witness :
  let s := example_state example_paged_memory false in
  fst (ReadFromHardware Read 4 false 0x9000 s) = 0 /\
  WriteToHardware Write false 0x9000 7 4 s =
    on_ppc (fun p => raise_exception EXCEPTION_DSI (set_spr SPR_DAR 0x9000 (set_spr SPR_DSISR 0x42000000 p))) s /\
  HostIsRAMAddress 0x9000 Virtual s = (false, s).
Proof.
  intros s.
  assert (Hu : unmapped s (m_dbat_table s) 0x9000).
  { split; [exact example_paged | apply example_coherent | vm_compute; split; done || discriminate
           | vm_compute; reflexivity | vm_compute; reflexivity | vm_compute; reflexivity]. }
  destruct (proj1 (unmapped_access_faults s 0x9000 4 7 ltac:(lia) ltac:(vm_compute; reflexivity))
    ltac:(vm_compute; reflexivity) Hu) as (H & _ & _ & Hhost). destruct (H ltac:(reflexivity)) as [-> Hw].
  split; [reflexivity|]. split; [exact Hw|]. apply (Hhost Virtual). right. reflexivity.
Defined.

(** ** Accesses that cross the two blocks, with the data cache *)

Definition cached_state : MMUState unit := example_state cache_example_memory true.

Lemma cached_sees : sees cache_example_memory cached_state (fun _ => 0).
Proof.
  split; [reflexivity | apply example_memory_ok |].
  exact (mem_is_init empty_cache cache_example_memory (fun _ => 0) example_memory_ok example_cleared).
Qed.

Lemma example_block_table m d : block_table (m_dbat_table (example_state m d)).
Proof. intros i. rewrite example_table. destruct (physical_updated SPR_DBAT0U SPR_DBAT4U (example_state m d) i) as (x & E & _). by exists x. Qed.

Lemma example_plain a : (0 <=? a) && (a + 1 <=? 0x01800000) = true -> plain cache_example_memory a 1.
Proof. intros [H1%Z.leb_le H2%Z.leb_le]%andb_true_iff. split; [apply example_in_memory; lia | lia]. Qed.

Lemma cached_mapped ea n : u32 ea ->
  forallb (fun i => let pa := data_pa cached_state (to_u32 (ea + Z.of_nat i)) in
    bool_decide (is_Some pa) && ((0 <=? default 0 pa) && (default 0 pa + 1 <=? 0x01800000))) (seq 0 n) = true ->
  mapped cache_example_memory cached_state ea n.
Proof.
  intros Hu Hf. split; [apply example_block_table | done |]. intros i Hi. rewrite forallb_forall in Hf.
  specialize (Hf (Z.to_nat i) ltac:(apply in_seq; lia)). rewrite Z2Nat.id in Hf by lia.
  apply andb_true_iff in Hf as [H1 H2]. split; [by apply bool_decide_eq_true_1 in H1 | by apply example_plain].
Qed.

Lemma memory_accesses_witness :
  exists s', ReadFromHardware Read 4 false 0x8003fffe cached_state = (0, s') /\ sees cache_example_memory s' (fun _ => 0) /\
    rest s' = rest cached_state.
Proof.
  refine (proj1 (memory_accesses cache_example_memory cached_state (fun _ => 0) 0x8003fffe 4 0 cached_sees _ _)); [|lia].
  apply cached_mapped; [vm_compute; split; done || discriminate | vm_compute; reflexivity].
Defined.

(** Eight bytes, half of them in each block. *)
Lemma stored_is_loaded_witness :
  let s' := MMU_Write_U64 0x0123456789abcdef 0x8003fffc cached_state in
  fst (ReadFromHardware Read 8 false 0x8003fffc s') = 0x0123456789abcdef /\
  fst (ReadFromHardware Read 2 false 0x80040004 s') = fst (ReadFromHardware Read 2 false 0x80040004 cached_state).
Proof.
  refine (stored_is_loaded cache_example_memory cached_state (fun _ => 0) 0x8003fffc 8 0x0123456789abcdef 0x80040004 2
    cached_sees _ _ (or_intror (conj eq_refl _)) _ _ _).
  - apply cached_mapped; [vm_compute; split; done || discriminate | vm_compute; reflexivity].
  - apply (bool_decide_unpack _). vm_compute. exact I.
  - vm_compute; split; done || discriminate.
  - apply cached_mapped; [vm_compute; split; done || discriminate | vm_compute; reflexivity].
  - lia.
  - assert (E1 : pas cached_state 0x80040004 2 = [0x00100004; 0x00100005]) by (vm_compute; reflexivity).
    assert (E2 : pas cached_state 0x8003fffc 8 =
      [0x3fffc; 0x3fffd; 0x3fffe; 0x3ffff; 0x00100000; 0x00100001; 0x00100002; 0x00100003]) by (vm_compute; reflexivity).
    rewrite E1, E2. intros x Hx Hy. cbn in Hx, Hy. lia.
Defined.


(** Register 3 is four bytes before the end of a block; there is a reservation there. *)
Definition example_registers (p : PPCState) : PPCState :=
  fset p_reserve_address 0x8003fffc (fset p_reserve true
    (set_gpr 31 0x33333333 (set_gpr 30 0x22222222 (set_gpr 29 0x11111111 (set_gpr 3 0x8003fffc p))))).
Definition register_state : MMUState unit := on_ppc example_registers cached_state.

Lemma register_sees : sees cache_example_memory register_state (fun _ => 0).
Proof. apply sees_on_ppc, cached_sees. Qed.

Lemma register_mapped ea n : mapped cache_example_memory cached_state ea n -> mapped cache_example_memory register_state ea n.
Proof. by apply same_mapped. Qed.

Lemma register_ppc_ok : ppc_ok (mm_ppc register_state).
Proof.
  assert (Ha : forall a i v, arr_ok u32 a -> (0 <=? v) && (v <? 2 ^ 32) = true -> arr_ok u32 (aupd a i v)).
  { intros a i v H [H1%Z.leb_le H2%Z.ltb_lt]%andb_true_iff. apply arr_ok_aupd; [done | unfold uN; lia]. }
  assert (He : arr_ok u32 ∅) by (apply arr_ok_empty; unfold uN; lia).
  change (mm_ppc register_state) with (example_registers example_ppc).
  split; [by split | by split | | | by split | by split | | by split | by split | by split |].
  - by do 4 (apply Ha; [|done]).
  - by do 4 (apply Ha; [|done]).
  - apply arr_ok_empty. unfold uN. lia.
  - by apply Ha.
Qed.

(** Operands of [lwz], [stw], [lwarx] and the like. *)
Definition word (opcode rd ra imm : Z) : Z := (opcode .<< 26) .| ((rd .<< 21) .| ((ra .<< 16) .| imm)).

(** [lhau r4, 3(r3)]: a byte in each block. *)
Lemma loads_spec_witness :
  let s' := lhau (word 43 4 3 3) register_state in
  sees cache_example_memory s' (fun _ => 0) /\
  rest s' = rest (on_ppc (fun p => set_gpr 3 0x8003ffff (set_gpr 4 0 p)) register_state).
Proof.
  apply (loads_spec true Op_lhau (mkLoad 2 false Helper_Get_EA_U true (gpr_effect signed_value)) lhau cache_example_memory register_state
    (fun _ => 0) (word 43 4 3 3)); [cbn; tauto | reflexivity | exact register_sees | | reflexivity].
  apply register_mapped, cached_mapped; [vm_compute; split; done || discriminate | vm_compute; reflexivity].
Defined.

(** [stwbrx r30, r0, r3] and [stfs f1, 0(r3)]. *)
Lemma stores_spec_witness :
  sees cache_example_memory (stwbrx (word 31 30 0 0x1d2c) register_state)
    (store_at (fun _ => 0) (pas register_state 0x8003fffc 4) [0x22; 0x22; 0x22; 0x22]) /\
  sees cache_example_memory (stfs (word 52 1 3 0) register_state) (store_at (fun _ => 0) (pas register_state 0x8003fffc 4) [0; 0; 0; 0]).
Proof.
  assert (Hm : mapped cache_example_memory register_state 0x8003fffc 4).
  { apply register_mapped, cached_mapped; [vm_compute; split; done || discriminate | vm_compute; reflexivity]. }
  assert (Hp : arr_ok u64 (ps0 (mm_ppc register_state))) by (apply arr_ok_empty; unfold uN; lia).
  split.
  - apply (stores_spec true Op_stwbrx (mkStore 4 false Helper_Get_EA_X false (gpr_bytes_reversed 4)) stwbrx cache_example_memory
      register_state (fun _ => 0) (word 31 30 0 0x1d2c)); [cbn; tauto | reflexivity | exact register_sees | exact Hm | reflexivity
      | exact register_ppc_ok | exact Hp].
  - apply (stores_spec true Op_stfs (mkStore 4 true Helper_Get_EA false single_bytes) stfs cache_example_memory
      register_state (fun _ => 0) (word 52 1 3 0)); [cbn; tauto | reflexivity | exact register_sees | exact Hm | reflexivity
      | exact register_ppc_ok | exact Hp].
Defined.

Lemma page_unmapped a : u32 a -> TranslateBatAddress (m_dbat_table (example_state example_paged_memory false)) a = None ->
  Z.testbit (aat (ppc_sr (mm_ppc (example_state example_paged_memory false))) (bits 28 4 a)) 31 = false ->
  page_walk (example_state example_paged_memory false)
    (bits 0 24 (aat (ppc_sr (mm_ppc (example_state example_paged_memory false))) (bits 28 4 a))) (bits 12 16 a) = None ->
  unmapped (example_state example_paged_memory false) (m_dbat_table (example_state example_paged_memory false)) a.
Proof. intros. split; [exact example_paged | apply example_coherent | done..]. Qed.

(** [lwz r4, 0x3000(0)] and [stwu r4, 0x3000(r3)]. *)
Lemma failed_access_restartable_witness :
  let s := example_state example_paged_memory false in
  lwz (word 32 4 0 0x3000) s = dsi_exception 0x40000000 0x3000 s /\ stwu (word 37 4 3 0x3000) s = dsi_exception 0x42000000 0x3000 s.
Proof.
  intros s.
  assert (Hu : unmapped s (m_dbat_table s) 0x3000)
    by (apply page_unmapped; [vm_compute; split; done || discriminate | vm_compute; reflexivity | vm_compute; reflexivity | vm_compute; reflexivity]).
  split.
  - refine (proj1 (proj1 (failed_access_restartable true s (word 32 4 0 0x3000) eq_refl) Op_lwz
      (mkLoad 4 false Helper_Get_EA false (gpr_effect be_value)) lwz _ eq_refl _ Hu _) eq_refl);
      [cbn; tauto | vm_compute; reflexivity | reflexivity].
  - refine (proj1 (proj2 (failed_access_restartable true s (word 37 4 3 0x3000) eq_refl) Op_stwu
      (mkStore 4 false Helper_Get_EA_U true (gpr_bytes 4)) stwu _ eq_refl _ _ Hu _) eq_refl);
      [cbn; tauto | done | vm_compute; reflexivity | reflexivity].
Defined.

(** A doubleword store to such a page leaves the address of its second word in DAR, because its
    second write fails as well. *)
Example failed_stfd_address :
  get_spr SPR_DAR (mm_ppc (stfd (word 54 1 0 0x3000) (example_state example_paged_memory false))) = 0x3004.
Proof. vm_compute. reflexivity. Qed.

(** [stmw r29, 0(r3)], the registers used for something else, [lmw r29, 0(r3)]. *)
Lemma saved_registers_restored_witness :
  let g p := set_gpr 31 5 (set_gpr 29 7 p) in
  get_gpr 29 (mm_ppc (lmw (word 46 29 3 0) (on_ppc g (stmw (word 47 29 3 0) register_state)))) = 0x11111111.
Proof.
  intros g.
  refine (proj2 (saved_registers_restored cache_example_memory register_state (fun _ => 0) (word 47 29 3 0) (word 46 29 3 0) g
    register_sees _ _ eq_refl eq_refl eq_refl register_ppc_ok eq_refl eq_refl eq_refl eq_refl) 29 _); [| |lia].
  - apply register_mapped, cached_mapped; [vm_compute; split; done || discriminate | vm_compute; reflexivity].
  - apply (bool_decide_unpack _). vm_compute. exact I.
Defined.

(** [stwcx. r30, r0, r3]. *)
Lemma conditional_stores_witness :
  let s' := stwcxd (word 31 30 0 0x192d) register_state in
  sees cache_example_memory s' (store_at (fun _ => 0) (pas register_state 0x8003fffc 4) [0x22; 0x22; 0x22; 0x22]) /\
  rest s' = rest (on_ppc (fun p => SetCRField 0 (2 .| GetXER_SO p) (fset p_reserve false p)) register_state).
Proof.
  refine (proj2 (conditional_stores cache_example_memory register_state (fun _ => 0) (word 31 30 0 0x192d) register_sees _ eq_refl register_ppc_ok)).
  apply register_mapped, cached_mapped; [vm_compute; split; done || discriminate | vm_compute; reflexivity].
Defined.
