(* ===== verification/PPCRun.v ===== *)
(** The moves of special purpose registers
    ([Core/PowerPC/Interpreter/Interpreter_SystemRegisters.cpp]), which act on the timers, the
    caches and the translation of addresses, and the interpreter's execution of one instruction,
    of a block and of a slice ([Core/PowerPC/Interpreter/Interpreter.cpp]). *)
From stdpp Require Import base tactics option list gmap.
From Stdlib Require Import ZArith Lia Bool.
From S2P Require Import Prelude Memmap PowerPC ConditionRegister Gekko PPCSystem PPCTables InterpreterTables PPCInterpreter.
From S2P Require Import PPCCache MMU MMUAccess PPCLoadStore.

#[local] Open Scope Z_scope.

Abbreviation SPR_TL_W := 284 (only parsing).
Abbreviation SPR_TU_W := 285 (only parsing).
Abbreviation SPR_PVR := 287 (only parsing).
Abbreviation SPR_WPAR := 921 (only parsing).
Abbreviation SPR_DMAU := 922 (only parsing).
Abbreviation SPR_DMAL := 923 (only parsing).
Abbreviation SPR_UPMC1 := 937 (only parsing).
Abbreviation SPR_UPMC2 := 938 (only parsing).
Abbreviation SPR_UPMC3 := 941 (only parsing).
Abbreviation SPR_UPMC4 := 942 (only parsing).
Abbreviation SPR_HID1 := 1009 (only parsing).
Abbreviation SPR_IABR := 1010 (only parsing).
Abbreviation SPR_THRM1 := 1020 (only parsing).
Abbreviation SPR_THRM2 := 1021 (only parsing).
Abbreviation SPR_THRM3 := 1022 (only parsing).
Abbreviation FEATURE_FLAG_PERFMON := 4 (only parsing).

(** What the instructions ask of [SystemTimersManager], which reads the registers of the CPU,
    and of the gather pipe. *)
Class Timers (dev : Type) : Type := {
  timers_GetFakeDecrementer : PPCState -> dev -> Z;
  timers_DecrementerSet : PPCState -> dev -> dev;
  timers_GetFakeTimeBase : PPCState -> dev -> Z;
  timers_TimeBaseSet : PPCState -> dev -> dev;
  timers_ResetGatherPipe : dev -> dev
}.

(** [GPFifoManager::IsBNE] *)
Definition IsBNE : bool := false.

(** * Parts of [mtspr] *)

Definition MMCRUpdated (p : PPCState) : PPCState :=
  let perfmon := negb (get_spr SPR_MMCR0 p =? 0) || negb (get_spr SPR_MMCR1 p =? 0) in
  fset p_feature_flags
    ((feature_flags p .& to_u32 (Z.lnot FEATURE_FLAG_PERFMON)) .| (if perfmon then FEATURE_FLAG_PERFMON else 0)) p.

Definition RecalculateAllFeatureFlags (p : PPCState) : PPCState :=
  let perfmon := negb (get_spr SPR_MMCR0 p =? 0) || negb (get_spr SPR_MMCR1 p =? 0) in
  fset p_feature_flags (((msr p .>> 4) .& 0x3) .| (if perfmon then FEATURE_FLAG_PERFMON else 0)) p.

Abbreviation SIMULATED_TEMP := 42 (only parsing).

(** [E] and [V] are bit 0, [TID] bit 2, the threshold 7 bits from 23, [TIV] and [TIN] the last. *)
Definition UpdateThermalReg (thrm3 reg : Z) : Z :=
  if negb (Z.testbit thrm3 0) || negb (Z.testbit reg 0) then put_bit 30 false reg
  else
    let reg := put_bit 30 true reg in
    let threshold := bits 23 7 reg in
    if Z.testbit reg 2 then put_bit 31 (SIMULATED_TEMP <? threshold) reg
    else put_bit 31 (threshold <? SIMULATED_TEMP) reg.

(** The upper and lower registers of the data and instruction BATs. *)
Definition is_dbat (index : Z) : bool := ((536 <=? index) && (index <=? 543)) || ((568 <=? index) && (index <=? 575)).
Definition is_ibat (index : Z) : bool := ((528 <=? index) && (index <=? 535)) || ((560 <=? index) && (index <=? 567)).

(** The three registers user mode has, and the two halves of the time base it can read. *)
Definition user_spr (index : Z) : bool := (index =? SPR_XER) || (index =? SPR_LR) || (index =? SPR_CTR).
Definition user_readable_spr (index : Z) : bool := user_spr index || (index =? SPR_TL) || (index =? SPR_TU).

Section SpecialRegisters.
Context {dev : Type} {bus : Bus dev} {timers : Timers dev}.
Implicit Types (s : MMUState dev).

(** * mfspr *)

Definition spr_of (index : Z) s : Z := get_spr index (mm_ppc s).
Definition put_spr (index value : Z) s : MMUState dev := on_ppc (set_spr index value) s.

(** The update of the register before it is read. *)
Definition refresh_spr (index : Z) s : MMUState dev :=
  if index =? SPR_DEC then
    if (spr_of index s .& 0x80000000) =? 0
    then put_spr index (timers_GetFakeDecrementer (mm_ppc s) (mm_dev s)) s else s
  else if (index =? SPR_TL) || (index =? SPR_TU) then
    on_ppc (WriteFullTimeBaseValue (timers_GetFakeTimeBase (mm_ppc s) (mm_dev s))) s
  else if index =? SPR_WPAR then
    put_spr index (if IsBNE then spr_of index s .| 1 else spr_of index s .& to_u32 (Z.lnot 1)) s
  else if index =? SPR_XER then put_spr index (GetXER (mm_ppc s)) s
  else if index =? SPR_UPMC1 then put_spr index (spr_of SPR_PMC1 s) s
  else if index =? SPR_UPMC2 then put_spr index (spr_of SPR_PMC2 s) s
  else if index =? SPR_UPMC3 then put_spr index (spr_of SPR_PMC3 s) s
  else if index =? SPR_UPMC4 then put_spr index (spr_of SPR_PMC4 s) s
  else s.

Definition mfspr inst s : MMUState dev :=
  let index := to_u32 (((SPR inst .& 0x1F) .<< 5) + ((SPR inst .>> 5) .& 0x1F)) in
  if user_mode (mm_ppc s) && negb (user_readable_spr index) then
    on_ppc (GenerateProgramException PrivilegedInstruction) s
  else
    let s := refresh_spr index s in
    if index =? SPR_IABR then to_gpr (RD inst) (spr_of index s .& to_u32 (Z.lnot 1)) s
    else to_gpr (RD inst) (spr_of index s) s.

(** The check of the index is only in debug builds. *)
Definition mftb inst s : MMUState dev := mfspr inst s.

(** * mtspr *)

(** [HID0.ICFI] is bit 11. *)
Definition hid0_written s : MMUState dev :=
  if Z.testbit (spr_of SPR_HID0 s) 11 then
    fset u_iCache (Cache_Reset (mm_iCache s)) (put_spr SPR_HID0 (put_bit 11 false (spr_of SPR_HID0 s)) s)
  else s.

(** The lower register has [DMA_T] at bit 1, [DMA_LEN_L] in bits 2 and 3, [DMA_LD] at bit 4 and
    the address in the locked cache from bit 5, the upper one [DMA_LEN_U] and the other address. *)
Definition dmal_written s : MMUState dev :=
  let dmal := spr_of SPR_DMAL s in
  let dmau := spr_of SPR_DMAU s in
  let s :=
    if Z.testbit dmal 1 then
      let mem_address := to_u32 (bits 5 27 dmau .<< 5) in
      let cache_address := to_u32 (bits 5 27 dmal .<< 5) in
      let length := (bits 0 5 dmau .<< 2) .| bits 2 2 dmal in
      let length := if length =? 0 then 128 else length in
      if Z.testbit dmal 4 then DMA_MemoryToLC cache_address mem_address length s
      else DMA_LCToMemory mem_address cache_address length s
    else s in
  put_spr SPR_DMAL (put_bit 1 false (spr_of SPR_DMAL s)) s.

Definition dec_written (old_value value : Z) s : MMUState dev :=
  let s := if (old_value .>> 31 =? 0) && negb (value .>> 31 =? 0)
           then on_ppc (raise_exception EXCEPTION_DECREMENTER) s else s in
  on_dev (timers_DecrementerSet (mm_ppc s)) s.

Definition time_base_written (index value : Z) s : MMUState dev :=
  let s := put_spr index value s in on_dev (timers_TimeBaseSet (mm_ppc s)) s.

(** A thermal register: both of the first two. *)
Definition thermal_written s : MMUState dev :=
  let s := put_spr SPR_THRM1 (UpdateThermalReg (spr_of SPR_THRM3 s) (spr_of SPR_THRM1 s)) s in
  put_spr SPR_THRM2 (UpdateThermalReg (spr_of SPR_THRM3 s) (spr_of SPR_THRM2 s)) s.

(** The switch, after the register has its new value.  A write to the time base by the numbers
    for reading it, and an unexpected address of the gather pipe, are only reported. *)
Definition spr_written (index old_value value : Z) s : MMUState dev :=
  let changed := negb (old_value =? spr_of index s) in
  if index =? SPR_TL_W then time_base_written SPR_TL value s
  else if index =? SPR_TU_W then time_base_written SPR_TU value s
  else if index =? SPR_PVR then put_spr index old_value s
  else if index =? SPR_HID0 then hid0_written s
  else if index =? SPR_HID1 then put_spr index (spr_of index s .& 0xF8000000) s
  else if index =? SPR_HID2 then
    put_spr index ((spr_of index s .& 0xF0FF0000) .| (old_value .& 0x0F000000)) s
  else if index =? SPR_HID4 then if changed then DBATUpdated (IBATUpdated s) else s
  else if index =? SPR_WPAR then on_dev timers_ResetGatherPipe s
  else if index =? SPR_DMAL then dmal_written s
  else if index =? SPR_DEC then dec_written old_value value s
  else if index =? SPR_SDR then SDRUpdated s
  else if index =? SPR_XER then on_ppc (SetXER (spr_of index s)) s
  else if is_dbat index then if changed then DBATUpdated s else s
  else if is_ibat index then if changed then IBATUpdated s else s
  else if (index =? SPR_MMCR0) || (index =? SPR_MMCR1) then on_ppc MMCRUpdated s
  else if (index =? SPR_THRM1) || (index =? SPR_THRM2) || (index =? SPR_THRM3) then thermal_written s
  else s.

Definition mtspr inst s : MMUState dev :=
  let index := (SPRU inst .<< 5) .| (SPRL inst .& 0x1F) in
  if user_mode (mm_ppc s) && negb (user_spr index) then
    on_ppc (GenerateProgramException PrivilegedInstruction) s
  else
    let old_value := spr_of index s in
    let value := get_gpr (RD inst) (mm_ppc s) in
    spr_written index old_value value (put_spr index value s).

Definition special_instruction (fn : Instruction) : option (Z -> MMUState dev -> MMUState dev) :=
  match fn with
  | Op_mfspr => Some mfspr | Op_mtspr => Some mtspr | Op_mftb => Some mftb
  | _ => None
  end.

(** All instructions but those that compute with floating-point numbers, the quantised loads
    and stores and [dcba]; the second component is [m_end_block]. *)
Definition execute (low_dcbz_hack : bool) (inst : Z) s : option (MMUState dev * bool) :=
  match special_instruction (GetInterpreterOp inst) with
  | Some f => Some (f inst s, false)
  | None => run_instruction low_dcbz_hack inst s
  end.
End SpecialRegisters.

(** * The interpreter *)

Inductive HookType : Type := HookNone | HookStart | HookReplace.

#[export] Instance HookType_eq_dec : EqDecision HookType.
Proof. solve_decision. Defined.

(** What the interpreter asks of the replacements of known functions ([HLE/HLE.cpp]). *)
Class FunctionHooks (dev : Type) : Type := {
  HLE_TryReplaceFunction : Z -> MMUState dev -> HookType * Z;
  HLE_Execute : Z -> Z -> MMUState dev -> MMUState dev
}.

(** What the run loop asks of [CoreTiming] and [CPUManager]. *)
Class RunLoop (dev : Type) : Type := {
  CoreTiming_Advance : MMUState dev -> MMUState dev;
  set_slice_length : Z -> dev -> dev;
  cpu_is_running : dev -> bool
}.

Record Interpreter {dev : Type} : Type := mkInterpreter {
  i_mmu : MMUState dev;
  m_prev_inst : Z;
  m_last_pc : Z;
  m_end_block : bool
}.
Arguments Interpreter : clear implicits.
Arguments mkInterpreter {dev}.

Definition x_mmu {dev} : field (Interpreter dev) (MMUState dev) := Field i_mmu (fun v i => mkInterpreter v (m_prev_inst i) (m_last_pc i) (m_end_block i)).
Definition x_prev_inst {dev} : field (Interpreter dev) Z := Field m_prev_inst (fun v i => mkInterpreter (i_mmu i) v (m_last_pc i) (m_end_block i)).
Definition x_last_pc {dev} : field (Interpreter dev) Z := Field m_last_pc (fun v i => mkInterpreter (i_mmu i) (m_prev_inst i) v (m_end_block i)).
Definition x_end_block {dev} : field (Interpreter dev) bool := Field m_end_block (fun v i => mkInterpreter (i_mmu i) (m_prev_inst i) (m_last_pc i) v).

Section Steps.
Context {dev : Type} {bus : Bus dev} {timers : Timers dev} {hooks : FunctionHooks dev} {loop : RunLoop dev}.
Context (low_dcbz_hack : bool).
Implicit Types (i : Interpreter dev) (s : MMUState dev).

Definition i_ppc i : PPCState := mm_ppc (i_mmu i).
Definition on_mmu (f : MMUState dev -> MMUState dev) i : Interpreter dev := fset x_mmu (f (i_mmu i)) i.
Definition on_cpu (f : PPCState -> PPCState) : Interpreter dev -> Interpreter dev := on_mmu (on_ppc f).

Definition Interpreter_UpdatePC i : Interpreter dev := on_cpu UpdatePC (fset x_last_pc (pc (i_ppc i)) i).
Definition Interpreter_CheckExceptions i : Interpreter dev := fset x_end_block true (on_cpu CheckExceptions i).

Definition HLEFunction (hook_index : Z) i : Interpreter dev :=
  fset x_end_block true (on_mmu (HLE_Execute (pc (i_ppc i)) hook_index) i).

Definition HandleFunctionHooking (address : Z) i : bool * Interpreter dev :=
  let '(type, hook_index) := HLE_TryReplaceFunction address (i_mmu i) in
  if bool_decide (type = HookNone) then (false, i)
  else (negb (bool_decide (type = HookStart)), HLEFunction hook_index i).

(** No result for an instruction that is not modelled. *)
Definition Interpreter_RunInterpreterOp (inst : Z) i : option (Interpreter dev) :=
  match execute low_dcbz_hack inst (i_mmu i) with
  | Some (s, ends) => Some (fset x_end_block (m_end_block i || ends) (fset x_mmu s i))
  | None => None
  end.

Definition op_flag (f flags : Z) : bool := negb ((flags .& f) =? 0).

(** An instruction, and the exceptions of a data access. *)
Definition run_and_check (inst : Z) i : option (Interpreter dev) :=
  match Interpreter_RunInterpreterOp inst i with
  | Some i => Some (if has EXCEPTION_DSI (Exceptions (i_ppc i)) then Interpreter_CheckExceptions i else i)
  | None => None
  end.

(** What is done with the word that was fetched; [MSR.FP] is bit 13. *)
Definition dispatch (inst flags : Z) i : option (Interpreter dev) :=
  if negb (inst =? 0) then
    if IsInvalidPairedSingleExecution inst (i_ppc i) then
      Some (Interpreter_CheckExceptions (on_cpu (GenerateProgramException IllegalInstruction) i))
    else if Z.testbit (msr (i_ppc i)) 13 then run_and_check inst i
    else if op_flag FL_USE_FPU flags then
      Some (Interpreter_CheckExceptions (on_cpu (raise_exception EXCEPTION_FPU_UNAVAILABLE) i))
    else run_and_check inst i
  else Some (Interpreter_CheckExceptions i).

(** The fetch of the next instruction. *)
Definition fetch i : Interpreter dev :=
  let i := on_cpu (fun p => fset p_npc (to_u32 (pc p + 4)) p) i in
  let '(hex, s) := Read_Opcode (pc (i_ppc i)) (i_mmu i) in
  fset x_prev_inst hex (fset x_mmu s i).

(** The cycles of the instruction, and the state after it. *)
Definition SingleStepInner i : option (Z * Interpreter dev) :=
  let '(hooked, i) := HandleFunctionHooking (pc (i_ppc i)) i in
  if hooked then
    let i := Interpreter_UpdatePC i in
    Some (num_cycles (GetOpInfo (m_prev_inst i)), i)
  else
    let i := fetch i in
    let opinfo := GetOpInfo (m_prev_inst i) in
    match dispatch (m_prev_inst i) (op_flags opinfo) i with
    | Some i =>
        let i := Interpreter_UpdatePC i in
        Some (num_cycles opinfo,
          on_cpu (UpdatePerformanceMonitor (num_cycles opinfo) (truth (op_flag FL_LOADSTORE (op_flags opinfo)))
                    (truth (op_flag FL_USE_FPU (op_flags opinfo)))) i)
    | None => None
    end.

Definition SingleStep i : option (Interpreter dev) :=
  let i := on_mmu CoreTiming_Advance i in
  match SingleStepInner i with
  | Some (_, i) =>
      let i := on_mmu (on_dev (set_slice_length 1)) i in
      let i := on_cpu (fset p_downcount 0) i in
      Some (if negb (Exceptions (i_ppc i) =? 0) then on_cpu (fun p => UpdatePC (CheckExceptions p)) i else i)
  | None => None
  end.

(** [while (!m_end_block) cycles += SingleStepInner();] *)
Fixpoint run_block (fuel : nat) (cycles : Z) i : option (Z * Interpreter dev) :=
  if m_end_block i then Some (cycles, i)
  else
    match fuel with
    | O => None
    | S fuel =>
        match SingleStepInner i with
        | Some (c, i) => run_block fuel (to_s32 (cycles + c)) i
        | None => None
        end
    end.

(** [while (m_ppc_state.downcount > 0)], with [fuel] blocks of at most [size] instructions. *)
Fixpoint run_slice (fuel size : nat) i : option (Interpreter dev) :=
  if negb (0 <? downcount (i_ppc i)) then Some i
  else
    match fuel with
    | O => None
    | S fuel =>
        match run_block size 0 (fset x_end_block false i) with
        | Some (cycles, i) => run_slice fuel size (on_cpu (fun p => fset p_downcount (to_s32 (downcount p - cycles)) p) i)
        | None => None
        end
    end.

(** The outer loop of [Run] without a debugger: [slices] slices, or until the CPU stops. *)
Fixpoint Run (slices fuel size : nat) i : option (Interpreter dev) :=
  if negb (cpu_is_running (mm_dev (i_mmu i))) then Some i
  else
    match slices with
    | O => None
    | S slices =>
        match run_slice fuel size (on_mmu CoreTiming_Advance i) with
        | Some i => Run slices fuel size i
        | None => None
        end
    end.
End Steps.
