(* ===== verification/PPCFrame.v ===== *)
(** What accesses to memory leave alone: whatever the address, the state of the page tables and
    of the caches, and the devices, an access changes of the CPU's registers at most the cause
    of an exception, and of the memory unit neither the sizes of the memories nor the tables of
    blocks.  So a property of the registers that the writes of instructions preserve holds
    after every load, store and cache instruction. *)
From stdpp Require Import base tactics option list gmap.
From Stdlib Require Import ZArith Lia Bool.
From S2P Require Import Prelude Memmap PowerPC PowerPCProps ConditionRegister Gekko PPCInteger PPCIntegerProps PPCSystem.
From S2P Require Import InterpreterTables PPCInterpreter PPCTypeProps PPCCache MMU MMUAccess MMUBatProps MMUPageProps PPCLoadStore PPCLoadStoreProps.

#[local] Open Scope Z_scope.

(** [closed], with the writes of accesses to memory and of exceptions. *)
Record access_closed (P : PPCState -> Prop) : Prop := {
  ac_closed : closed P;
  ac_dsisr v p : u32 v -> P p -> P (set_spr SPR_DSISR v p);
  ac_dar v p : u32 v -> P p -> P (set_spr SPR_DAR v p);
  ac_raise e p : u32 e -> P p -> P (raise_exception e p);
  ac_ps1 a p : P p -> P (fset p_ps1 a p);
  ac_reserve b p : P p -> P (fset p_reserve b p);
  ac_reserve_address a p : P p -> P (fset p_reserve_address a p)
}.

(** What a device gives for a register of [n] bytes fits in them. *)
Class BusLaws {dev} (bus : Bus dev) : Prop :=
  mmio_read_range n a d : 0 <= n -> uN (8 * n) (fst (mmio_read n a d)).

(** * The memories and their caches *)

Definition sizes (m : MemoryManager) := (m_ram_size_real m, bool_decide (is_Some (m_exram m)), m_exram_size_real m).

Lemma sizes_set_region r a m : sizes (set_region r a m) = sizes m.
Proof. destruct r, m as [? []]; done. Qed.

Lemma sizes_CopyToEmu a l m : sizes (CopyToEmu a l m) = sizes m.
Proof. unfold CopyToEmu. repeat case_match; try done. apply sizes_set_region. Qed.

Create HintDb sizes.
Create HintDb inv.

(** A constant is a word. *)
Ltac constant := split; [vm_compute; discriminate | reflexivity].
#[local] Hint Resolve sizes_set_region sizes_CopyToEmu : sizes.

Lemma sizes_GetCache a locked c m : sizes (snd (snd (GetCache a locked (c, m)))) = sizes m.
Proof.
  unfold GetCache. destruct (negb locked && _); [|done]. unfold evict. destruct (has_way _ (aat (valid c) _)); [|done].
  destruct (has_way _ (aat (modified c) _)); cbn; [apply sizes_CopyToEmu | done].
Qed.

Ltac getcache :=
  match goal with |- context [GetCache ?a ?l (?c, ?m)] =>
    pose proof (sizes_GetCache a l c m); destruct (GetCache a l (c, m)) as [[? ?] [? ?]]; cbn [fst snd] in * end.

Lemma sizes_dcache_op c m a :
  sizes (snd (Cache_Store a (c, m))) = sizes m /\ sizes (snd (Cache_Invalidate a (c, m))) = sizes m /\
  sizes (snd (Cache_Flush a (c, m))) = sizes m /\ forall store, sizes (snd (Cache_Touch a store (c, m))) = sizes m.
Proof.
  split; [|split; [|split]].
  - unfold Cache_Store. getcache. repeat case_match; try done. cbn. unfold write_back. by rewrite sizes_CopyToEmu.
  - unfold Cache_Invalidate. getcache. by repeat case_match.
  - unfold Cache_Flush. getcache. repeat case_match; try done. cbn. unfold write_back. by rewrite sizes_CopyToEmu.
  - intros store. unfold Cache_Touch. by getcache.
Qed.

Lemma sizes_read_loop fuel a buffer locked c m r : read_loop fuel a buffer locked (c, m) = Some r -> sizes (snd (snd r)) = sizes m.
Proof.
  revert a buffer c m r. induction fuel as [|fuel IH]; intros a [|b buffer] c m r; [by intros [= <-] | done | by intros [= <-] |].
  cbn [read_loop]. destruct (read_block _ _ _ _) as [bytes [c' m']] eqn:E.
  destruct (read_loop fuel _ _ _ _) as [[rest s]|] eqn:El; cbn; [|done]. intros [= <-]. cbn. change (sizes (snd s)) with (sizes (snd (snd (rest, s)))). rewrite (IH _ _ _ _ _ El).
  unfold read_block in E. revert E. getcache. case_match; intros [= _ _ <-]; done.
Qed.

Lemma sizes_write_loop fuel a buffer locked c m r : write_loop fuel a buffer locked (c, m) = Some r -> sizes (snd r) = sizes m.
Proof.
  revert a buffer c m r. induction fuel as [|fuel IH]; intros a [|b buffer] c m r; [by intros [= <-] | done | by intros [= <-] |].
  cbn [write_loop]. destruct (write_block _ _ _ _) as [c' m'] eqn:E. intros Hr. rewrite (IH _ _ _ _ _ Hr).
  unfold write_block in E. revert E. getcache. case_match; intros [= _ <-]; [done|]. by rewrite sizes_CopyToEmu.
Qed.

Section Frame.
Context {dev : Type} {bus : Bus dev} {laws : BusLaws bus}.
Context (P : PPCState -> Prop) (HP : access_closed P).
Implicit Types (s : MMUState dev).

(** What decides, with the registers, how addresses are translated. *)
Definition layout s :=
  (sizes (mm_memory s), bool_decide (is_Some (mm_fake_vmem s)), mm_wii s,
   (m_ibat_table s, m_dbat_table s), (pagetable_base s, pagetable_hashmask s)).

Context (l0 : (Z * bool * Z) * bool * bool * (arr * arr) * (Z * Z)).
Definition inv s : Prop := P (mm_ppc s) /\ layout s = l0.

(** * Writes of the state *)

Lemma inv_ppc f s : (P (mm_ppc s) -> P (f (mm_ppc s))) -> inv s -> inv (on_ppc f s).
Proof. intros Hf [Hp Hl]. split; [exact (Hf Hp) | exact Hl]. Qed.

Lemma inv_memory m s : sizes m = sizes (mm_memory s) -> inv s -> inv (fset u_memory m s).
Proof. intros Hm [Hp Hl]. split; [exact Hp|]. rewrite <- Hl. unfold layout. cbn. by rewrite Hm. Qed.

Lemma inv_same s s' : mm_ppc s' = mm_ppc s -> layout s' = layout s -> inv s -> inv s'.
Proof. intros Hp Hl [H1 H2]. split; [by rewrite Hp | by rewrite Hl]. Qed.

Lemma inv_u_dev d s : inv s -> inv (fset u_dev d s). Proof. by apply inv_same. Qed.
Lemma inv_on_dev f s : inv s -> inv (on_dev f s). Proof. apply inv_u_dev. Qed.
Lemma inv_l1 a s : inv s -> inv (fset u_l1_cache a s). Proof. by apply inv_same. Qed.
Lemma inv_icache c s : inv s -> inv (fset u_iCache c s). Proof. by apply inv_same. Qed.
Lemma inv_dcache c s : inv s -> inv (fset u_dCache c s). Proof. by apply inv_same. Qed.
Lemma inv_vmem v a s : mm_fake_vmem s = Some v -> inv s -> inv (fset u_fake_vmem (Some a) s).
Proof. intros Hv. apply inv_same; [done|]. unfold layout. cbn. by rewrite Hv. Qed.
Lemma inv_tlb flag index e s : inv s -> inv (set_tlb flag index e s).
Proof. unfold set_tlb. case_match; by apply inv_same. Qed.
Lemma inv_if (b : bool) s s' : inv s -> inv s' -> inv (if b then s else s').
Proof. by destruct b. Qed.
Hint Resolve inv_u_dev inv_on_dev inv_l1 inv_icache inv_dcache inv_tlb inv_if : inv.

Lemma inv_raise e s : u32 e -> inv s -> inv (on_ppc (raise_exception e) s).
Proof. intros He. apply inv_ppc, (ac_raise P HP), He. Qed.

Lemma inv_panic s : inv s -> inv (panic s).
Proof. intros Hs. unfold panic. case_match; [|done]. apply inv_raise; [constant | auto with inv]. Qed.

Lemma inv_DSI a w s : u32 a -> inv s -> inv (MMU.GenerateDSIException a w s).
Proof.
  intros Ha Hs. unfold MMU.GenerateDSIException. case_match; [by apply inv_panic|]. apply inv_ppc; [|done]. intros Hp.
  apply (ac_raise P HP), (ac_dar P HP), (ac_dsisr P HP), Hp; try done. destruct w; constant.
Qed.

Lemma inv_ISI a s : u32 a -> inv s -> inv (GenerateISIException a s).
Proof.
  intros Ha Hs. unfold GenerateISIException. apply inv_ppc; [|done]. intros Hp.
  apply (ac_raise P HP); [constant|]. by apply (cl_npc P (ac_closed P HP)).
Qed.
Hint Resolve inv_panic : inv.

(** * Reads

    A read gives an integer of its width. *)
Definition reads (n : nat) (r : Z * MMUState dev) : Prop := uN (8 * Z.of_nat n) (fst r) /\ inv (snd r).

Lemma uN_zero n : 0 <= n -> uN n 0.
Proof. intros Hn. unfold uN. pose proof (pow2_pos n Hn). lia. Qed.

Lemma reads_value n v s : uN (8 * Z.of_nat n) v -> inv s -> reads n (v, s). Proof. done. Qed.

Lemma inv_EFB_Read a s : inv s -> inv (snd (EFB_Read a s)).
Proof. intros Hs. unfold EFB_Read. case_match; [done|]. destruct (efb_peek _ _ _ _). by apply inv_u_dev. Qed.

Lemma inv_dcache_read a buffer locked s : inv s -> inv (snd (dcache_read a buffer locked s)).
Proof.
  intros Hs. unfold dcache_read, Cache_Read. destruct (read_loop _ _ _ _ _) as [[bytes [c m]]|] eqn:E; [|done].
  apply sizes_read_loop in E. apply inv_dcache. by apply inv_memory.
Qed.

Lemma inv_dcache_write a bytes locked s : inv s -> inv (dcache_write a bytes locked s).
Proof.
  intros Hs. unfold dcache_write, Cache_Write. destruct (write_loop _ _ _ _ _) as [[c m]|] eqn:E; [|done].
  apply sizes_write_loop in E. apply inv_dcache. by apply inv_memory.
Qed.
Hint Resolve inv_dcache_write : inv.

Lemma reads_physical flag n a wi s : inv s -> reads n (ReadPhysical flag n a wi s).
Proof.
  intros Hs. pose proof (uN_zero (8 * Z.of_nat n) ltac:(lia)) as Hz. unfold ReadPhysical.
  destruct (_ && _); [destruct (_ <? _)|].
  - pose proof (inv_EFB_Read a s Hs) as He. destruct (EFB_Read a s) as [v s']. apply reads_value; [apply wrapu_range; lia | done].
  - pose proof (mmio_read_range (Z.of_nat n) a (mm_dev s) ltac:(lia)) as Hr. destruct (mmio_read _ _ _) as [v d].
    by apply reads_value, inv_u_dev.
  - repeat match goal with
      | |- context [dcache_read ?a ?b ?l s] =>
          let H := fresh in pose proof (inv_dcache_read a b l s Hs) as H; destruct (dcache_read a b l s) as [? ?]
      | |- reads n (if ?b then _ else _) => destruct b
      | |- reads n (match ?v with Some _ => _ | None => _ end) => destruct v
      end; apply reads_value; first [apply bswap_range | done | by apply inv_panic].
Qed.

(** * Translation *)

Lemma inv_lookup flag vpa vsid s : inv s -> inv (snd (LookupTLBPageAddress flag vpa vsid s)).
Proof. intros Hs. unfold LookupTLBPageAddress. repeat case_match; cbn; auto with inv. Qed.

Lemma inv_update_tlb flag pte2 a vsid s : inv s -> inv (UpdateTLBEntry flag pte2 a vsid s).
Proof. intros Hs. unfold UpdateTLBEntry. case_match; auto with inv. Qed.

Lemma inv_found flag res a vsid pteg s : inv s -> inv (snd (found_pte flag res a vsid pteg s)).
Proof.
  intros Hs. unfold found_pte, ReadPTE.
  pose proof (reads_physical (if IsNoExceptionFlag flag then NoException else Read) 4 (pteg + 4) false s Hs) as [_ Hi].
  destruct (ReadPhysical _ _ _ _ _) as [pte2 s']. cbn [snd] in *. destruct (IsNoExceptionFlag flag) eqn:Ef.
  - destruct res; try done; by apply inv_update_tlb.
  - assert (H2 : inv (fset u_memory (Write_U32_memory (accessed flag pte2) (pteg + 4) (mm_memory s')) s'))
      by (apply inv_memory; [apply sizes_CopyToEmu | done]).
    destruct res; try done; by apply inv_update_tlb.
Qed.

Lemma inv_search n flag pte1 a s : inv s -> inv (snd (search_pteg n flag pte1 a s)).
Proof.
  revert a s. induction n as [|n IH]; intros a s Hs; [done|]. cbn [search_pteg]. unfold ReadPTE.
  pose proof (reads_physical (if IsNoExceptionFlag flag then NoException else Read) 4 a false s Hs) as [_ Hi].
  destruct (ReadPhysical _ _ _ _ _) as [pte s']. case_match; [done | by apply IH].
Qed.

Lemma inv_page flag a s : inv s -> inv (snd (TranslatePageAddress flag a s)).
Proof.
  intros Hs. unfold TranslatePageAddress. cbv zeta. set (VSID := bits 0 24 _).
  pose proof (inv_lookup flag a VSID s Hs) as H1. destruct (LookupTLBPageAddress flag a VSID s) as [res s1]. cbn [snd] in H1.
  assert (Hw : inv (snd (
    let '(found, s) := search_pteg 8 flag (pte_lo VSID 0 (bits 22 6 a)) (pteg_address (VSID .^ bits 12 16 a) s1) s1 in
    match found with
    | Some pteg_addr => found_pte flag res a VSID pteg_addr s
    | None =>
        let '(found, s) := search_pteg 8 flag (pte_lo VSID 1 (bits 22 6 a)) (pteg_address (to_u32 (Z.lnot (VSID .^ bits 12 16 a))) s) s in
        match found with
        | Some pteg_addr => found_pte flag res a VSID pteg_addr s
        | None => ({| ta_result := PAGE_FAULT; ta_address := 0; ta_wi := false |}, s)
        end
    end))).
  { match goal with |- context [search_pteg 8 flag ?p ?b s1] => pose proof (inv_search 8 flag p b s1 H1) as H2; destruct (search_pteg 8 flag p b s1) as [[pa|] s2] end;
      cbn [snd] in *; [by apply inv_found|].
    match goal with |- context [search_pteg 8 flag ?p ?b s2] => pose proof (inv_search 8 flag p b s2 H2) as H3; destruct (search_pteg 8 flag p b s2) as [[pb|] s3] end;
      cbn [snd] in *; [by apply inv_found | done]. }
  destruct res; [done | |]; (destruct (Z.testbit _ 31); [done|]; destruct (_ && _); [done | exact Hw]).
Qed.

Lemma inv_translate flag a s : inv s -> inv (snd (TranslateAddress flag a s)).
Proof. intros Hs. unfold TranslateAddress. destruct (TranslateBatAddress _ _) as [[? ?]|]; [done | by apply inv_page]. Qed.

Ltac translate :=
  match goal with Hs : inv ?s |- context [TranslateAddress ?f ?a ?s] =>
    let H := fresh "Ht" in pose proof (inv_translate f a s Hs) as H; destruct (TranslateAddress f a s) as [? ?]; cbn [snd] in H end.

(** * Accesses *)

Lemma reads_in_page flag n nt a s : u32 a -> inv s -> reads n (ReadInPage flag n nt a s).
Proof.
  intros Ha Hs. unfold ReadInPage. destruct (negb nt && _); [|by apply reads_physical]. translate.
  destruct (negb (Success _)); [|by apply reads_physical].
  apply reads_value; [apply uN_zero; lia|]. case_match; [by apply inv_DSI | done].
Qed.

Lemma inv_read_bytes n flag nt a i var s : inv s -> inv (snd (ReadBytes n flag nt a i var s)).
Proof.
  revert i var s. induction n as [|n IH]; intros i var s Hs; [done|]. cbn [ReadBytes].
  pose proof (reads_in_page flag 1 nt (to_u32 (a + i)) s (u32_wrap _) Hs) as [_ Hi]. destruct (ReadInPage _ _ _ _ _) as [b s']. by apply IH.
Qed.

Lemma reads_hardware flag n nt a s : u32 a -> inv s -> reads n (ReadFromHardware flag n nt a s).
Proof.
  intros Ha Hs. unfold ReadFromHardware. case_match; [by apply reads_in_page|].
  pose proof (inv_read_bytes n flag nt a 0 0 s Hs) as Hi. destruct (ReadBytes _ _ _ _ _ _ _) as [v s'].
  apply reads_value; [apply wrapu_range; lia | done].
Qed.

Lemma inv_EFB_Write d a s : inv s -> inv (EFB_Write d a s).
Proof. intros Hs. unfold EFB_Write. case_match; auto with inv. Qed.

Lemma inv_write_bytes_mmio n a d s : inv s -> inv (write_bytes_mmio n a d s).
Proof. revert a s. induction n as [|n IH]; intros a s Hs; [done|]. apply IH. auto with inv. Qed.

Lemma inv_write_bytes_gather n d s : inv s -> inv (write_bytes_gather n d s).
Proof. revert s. induction n as [|n IH]; intros s Hs; [done|]. apply IH. auto with inv. Qed.
Hint Resolve inv_EFB_Write inv_write_bytes_mmio inv_write_bytes_gather : inv.

Lemma inv_write_with narrow flag a d size wi s : (inv s -> inv (narrow s)) -> inv s -> inv (WritePhysicalWith narrow flag a d size wi s).
Proof.
  intros Hn Hs. unfold WritePhysicalWith. cbv zeta.
  repeat match goal with
    | |- inv (fset u_memory _ _) => apply inv_memory; [apply sizes_set_region|]
    | |- inv (if ?b then _ else _) => destruct b
    | |- inv (match ?v with Some _ => _ | None => _ end) => destruct v eqn:?
    end; auto with inv; by eapply inv_vmem.
Qed.

Lemma inv_write_word flag a d s : inv s -> inv (WriteWord flag a d s).
Proof. intros Hs. by apply inv_write_with. Qed.

Lemma inv_write_doublewords n flag a d s : inv s -> inv (write_doublewords n flag a d s).
Proof. revert a s. induction n as [|n IH]; intros a s Hs; [done|]. cbn [write_doublewords]. by apply IH, inv_write_word, inv_write_word. Qed.

Lemma inv_write_physical flag a d size wi s : inv s -> inv (WritePhysical flag a d size wi s).
Proof.
  intros Hs. unfold WritePhysical. apply inv_write_with; [|done]. intros H. unfold WriteNarrow. cbv zeta.
  apply inv_write_doublewords. auto with inv.
Qed.

Lemma inv_write_in_page flag nt a d size s : (nt = false -> u32 a) -> inv s -> inv (WriteInPage flag nt a d size s).
Proof.
  intros Ha Hs. unfold WriteInPage. destruct nt; cbn [negb andb]; [by apply inv_write_physical|].
  destruct (msr_DR s); [|by apply inv_write_physical]. translate. specialize (Ha eq_refl).
  destruct (negb (Success _)); [|by apply inv_write_physical]. case_match; [by apply inv_DSI | done].
Qed.

Lemma inv_write_hardware flag nt a d size s : (nt = false -> u32 a) -> inv s -> inv (WriteToHardware flag nt a d size s).
Proof.
  intros Ha Hs. unfold WriteToHardware. cbv zeta. case_match; [by apply inv_write_in_page|].
  apply inv_write_in_page; [intros _; apply u32_land, u32_wrap | by apply inv_write_in_page].
Qed.

Lemma reads_opcode a s : u32 a -> inv s -> reads 4 (Read_Opcode a s).
Proof.
  intros Ha Hs. unfold Read_Opcode, TryReadInstruction.
  assert (Hi : forall a s, inv s -> reads 4 (icache_read a s)).
  { clear. intros a s Hs. unfold icache_read, ReadInstruction. cbv zeta. destruct (negb _ || _); [|unfold Cache_Read].
    - apply reads_value; [apply (bswap_range 4) | by apply inv_icache, inv_memory].
    - destruct (read_loop _ _ _ _ _) as [[bytes [c m]]|] eqn:E; cbn [mbind option_bind]; [|apply reads_value; [by apply uN_zero | done]].
      apply sizes_read_loop in E. apply reads_value; [apply (bswap_range 4) | by apply inv_icache, inv_memory]. }
  assert (Hf : forall t s', inv s' -> reads 4 (match
      (let '(hex, s) := match mm_fake_vmem s' with
         | Some v => if (fst t .& 0xFE000000) =? 0x7E000000 then (swap32 (of_le_bytes (aslice v (fst t .& m_fakevmem_mask) 4)), s')
                     else icache_read (fst t) s'
         | None => icache_read (fst t) s' end in
       (Some {| tri_from_bat := snd t; tri_hex := hex; tri_physical_address := fst t |}, s))
      with (None, s) => (0, GenerateISIException a s) | (Some r, s) => (tri_hex r, s) end)).
  { intros [pa fb] s' Hs'. cbn [fst snd]. pose proof (Hi pa s' Hs') as Hc.
    destruct (mm_fake_vmem s'); [destruct (_ =? _)|]; try (destruct (icache_read pa s') as [hex s2]; done).
    apply reads_value; [apply (bswap_range 4) | done]. }
  destruct (msr_IR s); [|exact (Hf (a, true) s Hs)]. translate. destruct (Success _); [exact (Hf (_, _) _ Ht)|].
  apply reads_value; [by apply uN_zero | by apply inv_ISI].
Qed.

(** * Cache instructions and transfers *)

Lemma inv_translate_line dsi a s : u32 a -> inv s -> inv (snd (translate_line dsi a s)).
Proof.
  intros Ha Hs. unfold translate_line. destruct (msr_DR s); [|done]. translate. destruct (ta_result _); try done.
  destruct dsi; [by apply inv_DSI | done].
Qed.

Lemma inv_clear_words n a s : inv s -> inv (clear_words n a s).
Proof. revert a s. induction n as [|n IH]; intros a s Hs; [done|]. by apply IH, inv_write_hardware. Qed.

Lemma inv_dcache_line dsi op a s :
  (forall a c m, sizes (snd (op a (c, m))) = sizes m) -> inv s -> inv (dcache_line dsi op a s).
Proof.
  intros Hop Hs. unfold dcache_line. cbv zeta.
  pose proof (inv_translate_line dsi (a .& to_u32 (Z.lnot 0x1F)) s ltac:(apply u32_land', u32_wrap) Hs) as Ht.
  destruct (translate_line _ _ _) as [[pa|] s1]; [|done]. cbn [snd] in Ht. destruct (m_enable_dcache s1); [|done].
  pose proof (Hop pa (mm_dCache s1) (mm_memory s1)) as E. destruct (op pa _) as [c m]. by apply inv_dcache, inv_memory.
Qed.

Lemma inv_lc_to_device n write ma ca i s : (forall v a s, inv s -> inv (write v a s)) -> inv s -> inv (lc_to_device n write ma ca i s).
Proof. intros Hw. revert i s. induction n as [|n IH]; intros i s Hs; [done|]. by apply IH, Hw. Qed.

Lemma inv_device_to_lc n read ma ca i s : (forall a s, inv s -> inv (snd (read a s))) -> inv s -> inv (device_to_lc n read ma ca i s).
Proof.
  intros Hr. revert i s. induction n as [|n IH]; intros i s Hs; [done|]. cbn [device_to_lc].
  pose proof (Hr (to_u32 (ma + i)) s Hs) as H. destruct (read _ s) as [v s']. by apply IH, inv_l1.
Qed.

Lemma inv_DMA_LCToMemory ma ca n s : inv s -> inv (DMA_LCToMemory ma ca n s).
Proof.
  intros Hs. unfold DMA_LCToMemory. cbv zeta. case_match; [|case_match].
  - apply inv_lc_to_device; auto with inv.
  - apply inv_lc_to_device; auto with inv.
  - apply inv_memory; [apply sizes_CopyToEmu | done].
Qed.

Lemma inv_DMA_MemoryToLC ca ma n s : inv s -> inv (DMA_MemoryToLC ca ma n s).
Proof.
  intros Hs. unfold DMA_MemoryToLC. cbv zeta. case_match; [|case_match].
  - apply inv_device_to_lc; [intros; by apply inv_EFB_Read | done].
  - apply inv_device_to_lc; [|done]. intros a s' H'. destruct (mmio_read _ _ _). by apply inv_u_dev.
  - by apply inv_l1.
Qed.

(** * Instructions *)

Lemma inv_cpu s : inv s -> cpu_ok (mm_ppc s).
Proof. intros [Hp _]. exact (cl_ok P (ac_closed P HP) _ Hp). Qed.

Lemma inv_gpr r s : inv s -> u32 (get_gpr r (mm_ppc s)).
Proof. intros Hs. apply gpr_value_u32, (inv_cpu s Hs). Qed.

Lemma EA_u32 inst p : u32 (Helper_Get_EA inst p). Proof. unfold Helper_Get_EA. case_match; apply u32_wrap. Qed.
Lemma EA_U_u32 inst p : u32 (Helper_Get_EA_U inst p). Proof. apply u32_wrap. Qed.
Lemma EA_UX_u32 inst p : u32 (Helper_Get_EA_UX inst p). Proof. apply u32_wrap. Qed.
Lemma EA_X_u32 inst s : inv s -> u32 (Helper_Get_EA_X inst (mm_ppc s)).
Proof. intros Hs. unfold Helper_Get_EA_X. case_match; [apply u32_wrap | by apply inv_gpr]. Qed.
Lemma string_address_u32 inst s : inv s -> u32 (string_address inst (mm_ppc s)).
Proof. intros Hs. unfold string_address. case_match; [by apply inv_gpr | constant]. Qed.
Hint Resolve EA_u32 EA_U_u32 EA_UX_u32 EA_X_u32 string_address_u32 inv_gpr u32_wrap : inv.

Lemma inv_to_gpr r v s : u32 v -> inv s -> inv (to_gpr r v s).
Proof. intros Hv. apply inv_ppc, (cl_gpr P (ac_closed P HP)), Hv. Qed.

Lemma inv_ps0 r v s : u64 v -> inv s -> inv (SetPS0 r v s).
Proof. intros Hv. apply inv_ppc. intros Hp. by apply (cl_ps0 P (ac_closed P HP)). Qed.

Lemma inv_fill r v s : u64 v -> inv s -> inv (Fill r v s).
Proof. intros Hv Hs. unfold Fill, SetPS1. apply inv_ppc; [apply (ac_ps1 P HP) | by apply inv_ps0]. Qed.

Lemma inv_alignment a s : u32 a -> inv s -> inv (on_ppc (GenerateAlignmentException a) s).
Proof. intros Ha. apply inv_ppc. intros Hp. apply (ac_dar P HP); [done|]. apply (ac_raise P HP); [constant | done]. Qed.

Lemma inv_word_aligned a k s : u32 a -> (inv s -> inv (k s)) -> inv s -> inv (word_aligned a k s).
Proof. intros Ha Hk Hs. unfold word_aligned. case_match; [by apply inv_alignment | by apply Hk]. Qed.

Lemma inv_program cause s : inv s -> inv (on_ppc (GenerateProgramException cause) s).
Proof. apply inv_ppc, (cl_program P (ac_closed P HP)). Qed.

Lemma inv_load n read a complete s :
  reads n (read a s) -> (forall v s', uN (8 * Z.of_nat n) v -> inv s' -> inv (complete v s')) -> inv (load read a complete s).
Proof. intros [Hv Hi] Hc. unfold load. destruct (read a s) as [v s']. case_match; [by apply Hc | done]. Qed.

Lemma reads_MMU n a s : u32 a -> inv s -> reads n (ReadFromHardware Read n false a s).
Proof. apply reads_hardware. Qed.

Lemma inv_MMU_write a v size s : u32 a -> inv s -> inv (WriteToHardware Write false a v size s).
Proof. intros Ha. by apply inv_write_hardware. Qed.

Lemma inv_write_U64 v a s : u32 a -> inv s -> inv (MMU_Write_U64 v a s).
Proof. intros Ha Hs. unfold MMU_Write_U64. cbv zeta. apply inv_MMU_write; [apply u32_wrap | by apply inv_MMU_write]. Qed.

Definition writes (write : Z -> Z -> MMUState dev -> MMUState dev) : Prop := forall v a s, u32 a -> inv s -> inv (write v a s).

Lemma inv_store_update inst write v a s : writes write -> u32 a -> inv s -> inv (store_update inst write v a s).
Proof. intros Hw Ha Hs. unfold store_update. cbv zeta. pose proof (Hw v a s Ha Hs) as H. case_match; [by apply inv_to_gpr | done]. Qed.

Lemma u32_bytes n v : (n <= 4)%nat -> uN (8 * Z.of_nat n) v -> u32 v.
Proof. intros Hn. apply uN_le. lia. Qed.

Lemma u32_sign16 v : u32 (sign16 v). Proof. apply u32_wrap. Qed.
Lemma u32_swap16 v : u32 (swap16 v). Proof. apply (u32_bytes 2); [lia | apply (bswap_range 2)]. Qed.
Lemma u32_swap32 v : u32 (swap32 v). Proof. apply (bswap_range 4). Qed.
Hint Resolve u32_sign16 u32_swap16 u32_swap32 : inv.
Hint Extern 4 (uN 32 ?v) => match goal with H : uN (8 * Z.of_nat ?n) v |- _ => apply (u32_bytes n v); [lia | exact H] end : inv.
Hint Resolve inv_to_gpr inv_ps0 inv_fill inv_program : inv.

Lemma inv_to_RD inst v s : u32 v -> inv s -> inv (to_RD inst v s). Proof. apply inv_to_gpr. Qed.
Lemma inv_to_RD_update inst a v s : u32 a -> u32 v -> inv s -> inv (to_RD_update inst a v s).
Proof. intros Ha Hv Hs. by apply inv_to_gpr, inv_to_gpr. Qed.
Hint Resolve inv_to_RD inv_to_RD_update : inv.

Lemma writes_MMU size : writes (fun v a => WriteToHardware Write false a v size).
Proof. intros v a s. apply inv_MMU_write. Qed.
Lemma writes_U64 : writes MMU_Write_U64. Proof. intros v a s. apply inv_write_U64. Qed.
Hint Resolve inv_MMU_write inv_write_U64 writes_MMU writes_U64 : inv.
Hint Extern 2 (inv (MMU_Write_U8 _ _ _)) => apply inv_MMU_write : inv.
Hint Extern 2 (inv (MMU_Write_U16 _ _ _)) => apply inv_MMU_write : inv.
Hint Extern 2 (inv (MMU_Write_U32 _ _ _)) => apply inv_MMU_write : inv.
Hint Extern 2 (inv (MMU_Write_U16_Swap _ _ _)) => apply inv_MMU_write : inv.
Hint Extern 2 (inv (MMU_Write_U32_Swap _ _ _)) => apply inv_MMU_write : inv.

(** ** Several registers *)

Lemma inv_load_words n i a s : u32 a -> inv s -> inv (load_words n i a s).
Proof.
  revert i a s. induction n as [|n IH]; intros i a s Ha Hs; [done|]. cbn [load_words]. unfold MMU_Read_U32.
  destruct (reads_MMU 4 a s Ha Hs) as [Hv Hi]. destruct (ReadFromHardware _ _ _ _ _) as [v s']. case_match; [done|].
  apply IH; [apply u32_wrap | by apply inv_to_gpr].
Qed.

Lemma inv_store_words n i a s : u32 a -> inv s -> inv (store_words n i a s).
Proof.
  revert i a s. induction n as [|n IH]; intros i a s Ha Hs; [done|]. cbn [store_words]. unfold MMU_Write_U32.
  pose proof (inv_MMU_write a (get_gpr i (mm_ppc s)) 4 s Ha Hs) as Hi. case_match; [done|]. apply IH; [apply u32_wrap | done].
Qed.

(** A byte read into a register. *)
Lemma inv_byte r a f s (k : MMUState dev -> MMUState dev) : u32 a -> inv s -> (forall b, u32 (f b)) -> (forall s, inv s -> inv (k s)) ->
  inv (let '(b, s) := MMU_Read_U8 a s in
       if dsi_pending s then s else k (to_gpr r (get_gpr r (mm_ppc s) .| f b) s)).
Proof.
  intros Ha Hs Hf Hk. unfold MMU_Read_U8. destruct (reads_MMU 1 a s Ha Hs) as [_ Hi]. destruct (ReadFromHardware _ _ _ _ _) as [v s'].
  case_match; [done|]. apply Hk, inv_to_gpr; [|done]. apply u32_lor; [by apply inv_gpr | apply Hf].
Qed.

Lemma inv_load_string n rd i a s : u32 a -> inv s -> inv (load_string n rd i a s).
Proof.
  revert i a s. induction n as [|n IH]; intros i a s Ha Hs; [done|]. cbn [load_string]. cbv zeta.
  apply (inv_byte _ a (fun b => to_u32 (b .<< _))); [done | | intros; apply u32_wrap | intros s' Hs'; apply IH; [apply u32_wrap | done]].
  apply inv_if; [apply inv_to_gpr; [constant|] |]; done.
Qed.

Lemma inv_load_string_immediate n r i a s : u32 a -> inv s -> inv (load_string_immediate n r i a s).
Proof.
  revert r i a s. induction n as [|n IH]; intros r i a s Ha Hs; [done|]. cbn [load_string_immediate]. cbv zeta.
  apply (inv_byte _ a (fun b => to_u32 (b .<< _))); [done | | intros; apply u32_wrap | intros s' Hs'; apply IH; [apply u32_wrap | done]].
  apply inv_if; [apply inv_to_gpr; [constant|] |]; done.
Qed.

Lemma inv_store_string_immediate n r i a s : u32 a -> inv s -> inv (store_string_immediate n r i a s).
Proof.
  revert r i a s. induction n as [|n IH]; intros r i a s Ha Hs; [done|]. cbn [store_string_immediate]. cbv zeta. unfold MMU_Write_U8.
  match goal with |- context [WriteToHardware _ _ _ ?v _ _] => pose proof (inv_MMU_write a v 1 s Ha Hs) as Hi end.
  destruct (dsi_pending _); [done|]. apply IH; [apply u32_wrap | done].
Qed.

Lemma inv_store_string n r i a s : u32 a -> inv s -> inv (store_string n r i a s).
Proof.
  revert r i a s. induction n as [|n IH]; intros r i a s Ha Hs; [done|]. cbn [store_string]. cbv zeta. unfold MMU_Write_U8.
  match goal with |- context [WriteToHardware _ _ _ ?v _ _] => pose proof (inv_MMU_write a v 1 s Ha Hs) as Hi end.
  destruct (_ =? 32); apply IH; first [apply u32_wrap | done].
Qed.
Hint Resolve inv_load_words inv_store_words inv_load_string inv_load_string_immediate inv_store_string_immediate inv_store_string
  inv_alignment : inv.

(** ** All of them *)

Lemma ConvertToDouble_u64 v : u64 (ConvertToDouble v).
Proof.
  unfold ConvertToDouble. cbv zeta. repeat case_match; repeat apply uN_lor; try apply wrapu_range; lia.
Qed.

Lemma inv_single inst v s : inv s -> inv (single_loaded inst v s).
Proof. intros Hs. apply inv_fill; [apply ConvertToDouble_u64 | done]. Qed.

Lemma inv_double inst v s : uN (8 * Z.of_nat 8) v -> inv s -> inv (double_loaded inst v s).
Proof. intros Hv. by apply inv_ps0. Qed.

Lemma inv_dcache_op dsi op a s : In op [Cache_Store; Cache_Invalidate; Cache_Flush] -> inv s -> inv (dcache_line dsi op a s).
Proof.
  intros Hop Hs. apply inv_dcache_line; [|done]. intros b c m. destruct (sizes_dcache_op c m b) as (H1 & H2 & H3 & _).
  by destruct Hop as [<-|[<-|[<-|[]]]].
Qed.
Hint Resolve inv_single inv_double : inv.
Hint Extern 2 (inv (StoreDCacheLine _ _)) => apply inv_dcache_op; [cbn; tauto|] : inv.
Hint Extern 2 (inv (InvalidateDCacheLine _ _)) => apply inv_dcache_op; [cbn; tauto|] : inv.
Hint Extern 2 (inv (FlushDCacheLine _ _)) => apply inv_dcache_op; [cbn; tauto|] : inv.
Hint Extern 2 (inv (InvalidateTLBEntry _ _)) => apply inv_tlb, inv_tlb : inv.

Lemma inv_clear_line a s : u32 a -> inv s -> inv (ClearDCacheLine a s).
Proof.
  intros Ha Hs. unfold ClearDCacheLine. pose proof (inv_translate_line true a s Ha Hs) as Ht.
  destruct (translate_line _ _ _) as [[pa|] s1]; [by apply inv_clear_words | done].
Qed.

Lemma inv_supervisor k s : (inv s -> inv (k s)) -> inv s -> inv (supervisor_only k s).
Proof. intros Hk Hs. unfold supervisor_only. case_match; [by apply inv_program | by apply Hk]. Qed.

Lemma inv_icbi inst s : inv s -> inv (icbi inst s).
Proof. intros Hs. unfold icbi, ICache_Invalidate. by apply inv_icache, inv_memory. Qed.

Lemma inv_external a k s : u32 a -> (inv s -> inv (k s)) -> inv s -> inv (external_access a k s).
Proof.
  intros Ha Hk Hs. unfold external_access. case_match; [|by apply inv_word_aligned]. apply inv_ppc; [|done]. intros Hp.
  apply (ac_dar P HP); [done|]. apply (ac_raise P HP); [constant | done].
Qed.

Lemma inv_reserve a s : inv s -> inv (on_ppc (fun p => fset p_reserve_address a (fset p_reserve true p)) s).
Proof. apply inv_ppc. intros Hp. by apply (ac_reserve_address P HP), (ac_reserve P HP). Qed.

Lemma inv_stwcxd inst s : inv s -> inv (stwcxd inst s).
Proof.
  intros Hs. unfold stwcxd. cbv zeta. apply inv_word_aligned; [by apply EA_X_u32 | intros _ | done].
  assert (Hcr : forall v s, inv s -> inv (on_ppc (fun p => SetCRField 0 (v p) p) s)).
  { intros v s' H'. apply inv_ppc; [|done]. apply (cl_SetCRField P (ac_closed P HP)). }
  destruct (reserve _ && _); [|by apply (Hcr GetXER_SO)].
  pose proof (inv_MMU_write (Helper_Get_EA_X inst (mm_ppc s)) (get_gpr (RS inst) (mm_ppc s)) 4 s (EA_X_u32 inst s Hs) Hs) as Hw.
  unfold MMU_Write_U32. destruct (negb (dsi_pending _)); [|by apply (Hcr GetXER_SO)]. apply inv_ppc; [|exact Hw]. intros Hp.
  apply (cl_SetCRField P (ac_closed P HP)). by apply (ac_reserve P HP).
Qed.

Lemma inv_lwarx inst s : inv s -> inv (lwarx inst s).
Proof.
  intros Hs. unfold lwarx. cbv zeta. apply inv_word_aligned; [by apply EA_X_u32 | intros _ | done].
  eapply (inv_load 4); [apply reads_MMU; [by apply EA_X_u32 | done] |]. intros v s' Hv H'. by apply inv_reserve, inv_to_RD.
Qed.

Lemma inv_dcbz hack inst s : inv s -> inv (dcbz hack inst s).
Proof.
  intros Hs. pose proof (EA_X_u32 inst s Hs). unfold dcbz. cbv zeta. destruct (negb _); [by apply inv_alignment|].
  destruct (_ && _); [done|]. apply inv_clear_line; [by apply u32_land | done].
Qed.

Lemma inv_dcbz_l inst s : inv s -> inv (dcbz_l inst s).
Proof.
  intros Hs. pose proof (EA_X_u32 inst s Hs). unfold dcbz_l. cbv zeta. destruct (negb _); [by apply inv_program|].
  destruct (negb _); [by apply inv_alignment|]. apply inv_clear_line; [by apply u32_land | done].
Qed.

Lemma inv_eciwx inst s : inv s -> inv (eciwx inst s).
Proof.
  intros Hs. unfold eciwx. cbv zeta. apply inv_external; [by apply EA_X_u32 | intros _ | done]. unfold MMU_Read_U32.
  destruct (reads_MMU 4 (Helper_Get_EA_X inst (mm_ppc s)) s (EA_X_u32 inst s Hs) Hs) as [Hv Hi].
  destruct (ReadFromHardware _ _ _ _ _). by apply inv_to_RD.
Qed.

Ltac instruction :=
  repeat match goal with
    | |- inv (word_aligned _ _ _) => apply inv_word_aligned; [auto with inv | intros _ | assumption]
    | |- inv (supervisor_only _ _) => apply inv_supervisor; [intros _ | assumption]
    | |- inv (external_access _ _ _) => apply inv_external; [auto with inv | intros _ | assumption]
    | |- inv (load MMU_Read_U8 _ _ _) => apply (inv_load 1); [apply reads_MMU; auto with inv | intros ? ? ? ?]
    | |- inv (load MMU_Read_U16 _ _ _) => apply (inv_load 2); [apply reads_MMU; auto with inv | intros ? ? ? ?]
    | |- inv (load MMU_Read_U32 _ _ _) => apply (inv_load 4); [apply reads_MMU; auto with inv | intros ? ? ? ?]
    | |- inv (load MMU_Read_U64 _ _ _) => apply (inv_load 8); [apply reads_MMU; auto with inv | intros ? ? ? ?]
    | |- inv (store_update _ _ _ _ _) => apply inv_store_update; [intros ? ? ? ? ?; auto with inv | auto with inv | assumption]
    | |- inv (if _ then _ else _) => apply inv_if
    end.

(** The property holds after every load, store and cache instruction. *)
Lemma inv_memory_instruction hack fn f inst s : memory_instruction hack fn = Some f -> inv s -> inv (f inst s).
Proof.
  intros Hf Hs. destruct fn; try discriminate Hf; injection Hf as <-.
  all: first [by apply inv_dcbz | by apply inv_dcbz_l | by apply inv_eciwx | by apply inv_lwarx | by apply inv_stwcxd | by apply inv_icbi | idtac].
  all: match goal with |- inv ?t => let u := eval red in t in change (inv u) | _ => idtac end; cbv zeta; instruction.
  all: auto with inv.
Qed.
End Frame.
