(* ===== verification/PPCRunProps.v ===== *)
(** The interpreter's steps and the moves of special purpose registers: whatever program runs,
    the tables and flags of the translation follow the registers, and a slice takes the cycles
    of its blocks. *)
From stdpp Require Import base tactics option list gmap strings.
From Stdlib Require Import ZArith Lia Bool.
From S2P Require Import Prelude Memmap PowerPC PowerPCProps ConditionRegister Gekko PPCInteger PPCIntegerProps PPCSystem PPCSystemProps.
From S2P Require Import PPCTables InterpreterTables PPCInterpreter PPCTypeProps PPCAnalyst PPCTableProps.
From S2P Require Import CoreTiming Machine SystemTimers PPCCache MMU MMUAccess MMUBatProps MMUPageProps PPCLoadStore PPCLoadStoreProps.
From S2P Require Import MemoryProps AramProps PPCCacheProps PPCCacheTheorems MMUMemoryProps MemoryExamples PPCRun PPCFrame.

#[local] Open Scope Z_scope.

Lemma some_pair {A B} (a a' : A) (b b' : B) : Some (a, b) = Some (a', b') -> a = a' /\ b = b'.
Proof. by intros [= -> ->]. Qed.

(** * What instructions leave alone *)

(** The special registers that tables and flags are made of; only [mtspr] writes them. *)
Definition control_spr (i : Z) : bool :=
  is_dbat i || is_ibat i || (i =? SPR_HID4) || (i =? SPR_SDR) || (i =? SPR_MMCR0) || (i =? SPR_MMCR1).

Definition perfmon (p : PPCState) : Z :=
  if negb (get_spr SPR_MMCR0 p =? 0) || negb (get_spr SPR_MMCR1 p =? 0) then FEATURE_FLAG_PERFMON else 0.

(** The flags are those of the registers, and but for the bits of MSR. *)
Definition flags_current (p : PPCState) : Prop := feature_flags p = ((msr p .>> 4) .& 0x3) .| perfmon p.
Definition flags_perfmon (p : PPCState) : Prop := feature_flags p .& 4 = perfmon p.

Lemma land3_range x : 0 <= x .& 3 <= 3.
Proof. change (x .& 3) with (Z.land x (Z.ones 2)). rewrite Z.land_ones by lia. pose proof (Z.mod_pos_bound x (2 ^ 2) ltac:(lia)). lia. Qed.

Lemma flags_perfmon_of p : flags_current p -> flags_perfmon p.
Proof.
  unfold flags_current, flags_perfmon, perfmon. intros ->. pose proof (land3_range (msr p .>> 4)) as H.
  assert (Hx : exists x, (msr p .>> 4) .& 3 = x /\ (x = 0 \/ x = 1 \/ x = 2 \/ x = 3)) by (eexists; split; [reflexivity | lia]).
  destruct Hx as (x & -> & [->|[->|[->| ->]]]); by case_match.
Qed.

Lemma MSRUpdated_flags p : flags_perfmon p -> flags_current (MSRUpdated p).
Proof. unfold flags_perfmon, flags_current. intros H. cbn. rewrite H, Z.lor_comm. done. Qed.

(** The flags, bit by bit. *)
Lemma flags_bits p k : flags_current p -> Z.testbit (feature_flags p) k =
  ((k =? 0) && Z.testbit (msr p) 4) || ((k =? 1) && Z.testbit (msr p) 5) ||
  ((k =? 2) && negb ((get_spr SPR_MMCR0 p =? 0) && (get_spr SPR_MMCR1 p =? 0))).
Proof.
  unfold flags_current, perfmon. intros ->. rewrite negb_andb. destruct (Z.ltb_spec k 0).
  { rewrite Z.testbit_neg_r by lia. by rewrite !(proj2 (Z.eqb_neq k _)) by lia. }
  rewrite Z.lor_spec, Z.land_spec, Z.shiftr_spec by lia.
  assert (H3 : Z.testbit 3 k = (k =? 0) || (k =? 1)).
  { change 3 with (Z.ones 2). destruct (Z.ltb_spec k 2); [rewrite Z.ones_spec_low by lia | rewrite Z.ones_spec_high by lia]; lia. }
  assert (H4 : forall b : bool, Z.testbit (if b then FEATURE_FLAG_PERFMON else 0) k = b && (k =? 2)).
  { intros []; [|by rewrite Z.bits_0]. change 4 with (2 ^ 2). rewrite Z.pow2_bits_eqb by lia. lia. }
  rewrite H3, H4. destruct (Z.eqb_spec k 0) as [->|]; [cbn; by rewrite !andb_true_r, !andb_false_r, !orb_false_r|].
  destruct (Z.eqb_spec k 1) as [->|]; [cbn; by rewrite !andb_true_r, !andb_false_r, !orb_false_r|].
  cbn. rewrite andb_false_r. cbn. apply andb_comm.
Qed.

(** [p] is typed, and compared with [p0] the control registers and the downcount are as they
    were. *)
Record kept (p0 p : PPCState) : Prop := {
  kp_ok : cpu_ok p;
  kp_spr i : control_spr i = true -> get_spr i p = get_spr i p0;
  kp_downcount : downcount p = downcount p0;
  kp_flags : flags_current p
}.

(** The same in the middle of an exception. *)
Record kept_weakly (p0 p : PPCState) : Prop := {
  kw_ok : cpu_ok p;
  kw_spr i : control_spr i = true -> get_spr i p = get_spr i p0;
  kw_downcount : downcount p = downcount p0;
  kw_flags : flags_perfmon p
}.

Lemma kept_weaken p0 p : kept p0 p -> kept_weakly p0 p.
Proof. intros []. split; try done. by apply flags_perfmon_of. Qed.

Lemma perfmon_same p q : (forall i, control_spr i = true -> get_spr i q = get_spr i p) -> perfmon q = perfmon p.
Proof. intros H. unfold perfmon. by rewrite !H. Qed.

Section Kept.
Context (p0 : PPCState).
Implicit Types (p q : PPCState).

Lemma kept_same p q :
  cpu_ok q -> (forall i, control_spr i = true -> get_spr i q = get_spr i p) ->
  (downcount q, feature_flags q, msr q) = (downcount p, feature_flags p, msr p) -> kept p0 p -> kept p0 q.
Proof.
  intros Hq Hs [= Hd Hf Hm] [_ Hs0 Hd0 Hf0]. split; [done | | congruence |].
  - intros i Hi. rewrite Hs by done. by apply Hs0.
  - unfold flags_current in *. by rewrite Hf, Hm, (perfmon_same p q Hs).
Qed.

Lemma weakly_same p q :
  cpu_ok q -> (forall i, control_spr i = true -> get_spr i q = get_spr i p) ->
  (downcount q, feature_flags q) = (downcount p, feature_flags p) -> kept_weakly p0 p -> kept_weakly p0 q.
Proof.
  intros Hq Hs [= Hd Hf] [_ Hs0 Hd0 Hf0]. split; [done | | congruence |].
  - intros i Hi. rewrite Hs by done. by apply Hs0.
  - unfold flags_perfmon in *. by rewrite Hf, (perfmon_same p q Hs).
Qed.

Lemma other_spr i v p j : control_spr i = false -> control_spr j = true -> get_spr j (set_spr i v p) = get_spr j p.
Proof. intros Hi Hj. rewrite get_set_spr. destruct (Z.eqb_spec j i) as [->|]; [congruence | done]. Qed.

Lemma kept_set_spr i v p : control_spr i = false -> u32 v -> kept p0 p -> kept p0 (set_spr i v p).
Proof. intros Hi Hv H. apply (kept_same p); [by apply cpu_set_spr, H | intros j Hj; by apply other_spr | done | done]. Qed.

Lemma kept_raise e p : u32 e -> kept p0 p -> kept p0 (raise_exception e p).
Proof. intros He H. by apply (kept_same p); [apply cpu_raise; [|apply H]|..]. Qed.

Lemma kept_program cause p : kept p0 p -> kept p0 (GenerateProgramException cause p).
Proof. intros H. apply kept_set_spr; [done | destruct cause; constant | apply kept_raise; [constant | done]]. Qed.

Lemma kept_closed : closed (kept p0).
Proof.
  pose proof cpu_ok_closed as C. split; [by intros p [] | ..].
  - intros r v p Hv H. by apply (kept_same p); [apply (cl_gpr _ C), H|..].
  - intros v p Hv H. by apply (kept_same p); [apply (cl_carry _ C), H|..].
  - intros v p Hv H. by apply (kept_same p); [apply (cl_so_ov _ C), H|..].
  - intros v p Hv H. by apply (kept_same p); [apply (cl_cr _ C), H|..].
  - intros v p Hv H. by apply (kept_same p); [apply (cl_fpscr _ C), H|..].
  - intros r v p Hv H. by apply (kept_same p); [apply (cl_ps0 _ C), H|..].
  - intros v p Hv H. by apply (kept_same p); [apply (cl_npc _ C), H|..].
  - intros v p Hv H. by apply kept_set_spr.
  - intros v p Hv H. by apply kept_set_spr.
  - intros cause p H. by apply kept_program.
Qed.

Lemma cpu_other p q : cpu_ok p -> ppc_ok q -> fpscr q = fpscr p -> ps0 q = ps0 p -> cpu_ok q.
Proof. intros [] Hq Hf Hp. split; [done | by rewrite Hf | by rewrite Hp]. Qed.

Lemma kept_access : access_closed (kept p0).
Proof.
  split; [exact kept_closed | ..].
  - intros v p Hv H. by apply kept_set_spr.
  - intros v p Hv H. by apply kept_set_spr.
  - intros e p He H. by apply kept_raise.
  - intros a p H. apply (kept_same p); try done. destruct H as [[[] ? ?]]. by split; [split|..].
  - intros b p H. apply (kept_same p); try done. destruct H as [[[] ? ?]]. by split; [split|..].
  - intros a p H. apply (kept_same p); try done. destruct H as [[[] ? ?]]. by split; [split|..].
Qed.

(** ** Exceptions *)

Lemma kept_MSRUpdated p : kept_weakly p0 p -> kept p0 (MSRUpdated p).
Proof. intros []. split; [by apply cpu_MSRUpdated | done | done | by apply MSRUpdated_flags]. Qed.

Lemma weakly_take srr0 srr1 vector e p : u32 srr0 -> u32 srr1 -> u32 vector -> kept_weakly p0 p -> kept_weakly p0 (take_exception srr0 srr1 vector e p).
Proof.
  intros H0 H1 Hv H. apply (weakly_same p); try done; [by apply cpu_take, H|]. intros j Hj. unfold take_exception. cbv zeta.
  change (get_spr j (set_spr SPR_SRR1 srr1 (set_spr SPR_SRR0 srr0 p)) = get_spr j p). by rewrite !other_spr.
Qed.

Lemma kept_take srr0 srr1 vector e p : u32 srr0 -> u32 srr1 -> u32 vector -> kept p0 p -> kept p0 (MSRUpdated (take_exception srr0 srr1 vector e p)).
Proof. intros H0 H1 Hv H. apply kept_MSRUpdated, weakly_take; try done. by apply kept_weaken. Qed.

Hint Resolve u32_saved kp_ok : u32.
Hint Extern 1 (uN 32 (1 .<< _)) => constant : u32.
Hint Extern 1 (uN 32 (Zpos _)) => constant : u32.

Lemma kept_CheckExternal p : kept p0 p -> kept p0 (CheckExternalExceptions p).
Proof.
  intros H. unfold CheckExternalExceptions. cbv zeta. pose proof (kp_ok _ _ H). repeat case_match; try done; try (by apply kept_MSRUpdated, kept_weaken);
    apply kept_take; eauto with u32.
Qed.

Lemma kept_CheckExceptions p : kept p0 p -> kept p0 (CheckExceptions p).
Proof.
  intros H. unfold CheckExceptions. cbv zeta. pose proof (kp_ok _ _ H).
  repeat match goal with |- kept _ (if ?b then _ else _) => destruct b end;
    first [apply kept_CheckExternal, H | apply kept_take; eauto 6 with u32 | idtac].
  apply kept_MSRUpdated, kept_weaken. apply (kept_same p); try done. by apply cpu_clear.
Qed.

(** ** The instructions on the registers *)

Lemma kept_privileged g p : (kept p0 p -> kept p0 (g p)) -> kept p0 p -> kept p0 (privileged g p).
Proof. intros Hg H. unfold privileged. case_match; [by apply kept_program | by apply Hg]. Qed.

Lemma kept_gpr r v p : u32 v -> kept p0 p -> kept p0 (set_gpr r v p).
Proof. apply (cl_gpr _ kept_closed). Qed.

Lemma kept_sr i v p : u32 v -> kept p0 p -> kept p0 (SetSR i v p).
Proof. intros Hv H. by apply (kept_same p); [apply cpu_sr, H|..]. Qed.

Lemma kept_pc v p : u32 v -> kept p0 p -> kept p0 (fset p_pc v p).
Proof. intros Hv H. by apply (kept_same p); [apply cpu_pc, H|..]. Qed.

Lemma kept_take_trap c p : kept p0 p -> kept p0 (fst (take_trap c p)).
Proof. intros H. unfold take_trap. destruct c; [by apply kept_CheckExceptions, kept_program | done]. Qed.

(** The machine state register is followed by the flags. *)
Lemma kept_msr v p : u32 v -> kept p0 p -> kept p0 (MSRUpdated (fset p_msr v p)).
Proof.
  intros Hv H. apply kept_MSRUpdated. apply (weakly_same p); try done; [by apply cpu_msr, H | by apply kept_weaken].
Qed.

Lemma kept_other fn f inst p : register_instruction fn = Some f -> ordinary fn = false -> kept p0 p -> kept p0 (fst (f inst p)).
Proof.
  intros Hf Ho H. pose proof (kp_ok _ _ H) as Hp. destruct fn; try discriminate Ho; injection Hf as <-; unfold goes_on, ends_block; cbn [fst].
  - by apply kept_take_trap.
  - apply kept_CheckExceptions, kept_raise; [constant | done].
  - unfold rfi. destruct (user_mode p); [by apply kept_program|]. cbv zeta. cbn [fst].
    apply kept_MSRUpdated, (weakly_same p); try done; [|by apply kept_weaken].
    apply cpu_npc; [apply (ok_spr p Hp)|]. do 2 (apply cpu_msr; [cbn; eauto 6 with u32|]). done.
  - apply kept_privileged; [|done]. intros _. apply kept_gpr; eauto with u32.
  - unfold mtmsr. destruct (user_mode p); [by apply kept_program|]. cbv zeta. cbn [fst].
    apply kept_CheckExceptions. unfold CheckFPExceptions.
    destruct (_ && _); [apply kept_program|]; apply kept_msr; eauto with u32.
  - apply kept_privileged; [|done]. intros _. apply kept_sr; eauto with u32.
  - apply kept_privileged; [|done]. intros _. apply kept_sr; eauto with u32.
  - apply kept_privileged; [|done]. intros _. apply kept_gpr; eauto with u32.
  - apply kept_privileged; [|done]. intros _. apply kept_gpr; eauto with u32.
  - by apply kept_take_trap.
Qed.

Lemma kept_register fn f inst p : register_instruction fn = Some f -> kept p0 p -> kept p0 (fst (f inst p)).
Proof.
  intros Hf H. destruct (ordinary fn) eqn:Ho; [exact (ordinary_closed _ kept_closed _ _ _ _ Hf Ho H) | by apply (kept_other fn)].
Qed.

Lemma kept_UpdatePC p : kept p0 p -> kept p0 (UpdatePC p).
Proof. intros H. apply kept_pc; [|done]. apply ok_npc, H. Qed.

Lemma kept_pmc i v p : control_spr i = false -> kept p0 p -> kept p0 (add_pmc i v p).
Proof. intros Hi H. apply kept_set_spr; [done | apply u32_wrap | done]. Qed.

Lemma kept_monitor c l f p : kept p0 p -> kept p0 (UpdatePerformanceMonitor c l f p).
Proof.
  intros H. unfold UpdatePerformanceMonitor. cbv zeta.
  assert (Hraise : forall (b : bool) q, kept p0 q -> kept p0 (if b then raise_exception EXCEPTION_PERFORMANCE_MONITOR q else q))
    by (intros [] q Hq; [apply kept_raise; [constant|] |]; done).
  apply Hraise. clear Hraise.
  repeat match goal with
    | |- kept _ (match ?x with _ => _ end) => destruct x
    | |- kept _ (add_pmc _ _ _) => apply kept_pmc; [done|]
    end; exact H.
Qed.
End Kept.

(** * The state of the machine *)

(** The decrementer is a word. *)
Class TimersLaws {dev} (timers : Timers dev) : Prop :=
  timers_decrementer_u32 p d : u32 (timers_GetFakeDecrementer p d).

(** The replacement of a function leaves the control registers, the downcount, the sizes of
    the memories and the tables alone. *)
Class HooksLaws {dev} (hooks : FunctionHooks dev) : Prop :=
  HLE_Execute_frame a k (s : MMUState dev) : cpu_ok (mm_ppc s) -> flags_current (mm_ppc s) ->
    inv (kept (mm_ppc s)) (layout s) (HLE_Execute a k s).

(** So does what the scheduler does between two slices, but for the downcount. *)
Class RunLoopLaws {dev} (loop : RunLoop dev) : Prop :=
  CoreTiming_Advance_frame (s : MMUState dev) : cpu_ok (mm_ppc s) -> flags_current (mm_ppc s) ->
    inv (fun p => cpu_ok p /\ flags_current p /\ forall i, control_spr i = true -> get_spr i p = get_spr i (mm_ppc s))
      (layout s) (CoreTiming_Advance s).

Section Sound.
Context {dev : Type} {bus : Bus dev} {laws : BusLaws bus} {timers : Timers dev}.
Implicit Types (s : MMUState dev).

(** The tables of blocks and the place of the page table are those of the registers. *)
Record translation_current s : Prop := {
  tc_ibat : m_ibat_table s = updated_bats SPR_IBAT0U SPR_IBAT4U s;
  tc_dbat : m_dbat_table s = updated_bats SPR_DBAT0U SPR_DBAT4U s;
  tc_base : pagetable_base s = bits 16 16 (get_spr SPR_SDR (mm_ppc s)) .<< 16;
  tc_hashmask : pagetable_hashmask s = (bits 0 9 (get_spr SPR_SDR (mm_ppc s)) .<< 10) .| 0x3ff;
  tc_flags : flags_current (mm_ppc s)
}.

Record sound (d : Z) s : Prop := {
  sd_ok : cpu_ok (mm_ppc s);
  sd_current : translation_current s;
  sd_downcount : downcount (mm_ppc s) = d
}.

(** The tables depend on the BATs and on the memories there are. *)
Definition memories s := fst (fst (layout s)).

Section Bats.
Context (s s' : MMUState dev) (Hl : memories s' = memories s).
Context (R : Z -> bool) (Hr : forall i, R i = true -> get_spr i (mm_ppc s') = get_spr i (mm_ppc s)).

Lemma bat_physical_same pa : bat_physical pa s' = bat_physical pa s.
Proof. injection Hl as H1 H2 H3 H4 _. unfold bat_physical. by rewrite H1, H2, H3, H4. Qed.

Lemma UpdateBAT_same base t i :
  R (base + i * 2) = true -> R (base + i * 2 + 1) = true -> UpdateBAT base s' t i = UpdateBAT base s t i.
Proof.
  intros H1 H2. unfold UpdateBAT. cbv zeta. rewrite !Hr by done. destruct (_ && _); [done|].
  generalize (map Z.of_nat (seq 0 (Z.to_nat (BAT_BL (get_spr (base + i * 2) (mm_ppc s)) + 1)))). intros js. revert t.
  induction js as [|j js IH]; intros t; [done|]. cbn [foldl]. rewrite IH. f_equal. unfold bat_pattern, bat_entry. by rewrite bat_physical_same.
Qed.

Definition bats_among (base : Z) : bool := forallb (fun i => R (base + i * 2) && R (base + i * 2 + 1)) [0; 1; 2; 3].

Lemma UpdateBATs_same base t : bats_among base = true -> UpdateBATs t base s' = UpdateBATs t base s.
Proof.
  unfold bats_among, UpdateBATs. cbn [forallb foldl]. rewrite !andb_true_iff. intros ([? ?] & [? ?] & [? ?] & [? ?] & _).
  by rewrite !UpdateBAT_same.
Qed.

Lemma updated_bats_same base extended : bats_among base = true -> bats_among extended = true -> R SPR_HID4 = true ->
  updated_bats base extended s' = updated_bats base extended s.
Proof.
  intros H1 H2 H4. unfold updated_bats. cbv zeta. rewrite !UpdateBATs_same by done. rewrite (Hr SPR_HID4) by done.
  injection Hl as _ _ _ Hf Hw. rewrite Hw. destruct (_ && _); destruct (mm_fake_vmem s'), (mm_fake_vmem s); (discriminate Hf || reflexivity).
Qed.
End Bats.

(** The table itself is not among what it is made of. *)
Lemma updated_bats_ibat base extended s : updated_bats base extended (IBATUpdated s) = updated_bats base extended s.
Proof. by apply (updated_bats_same s (IBATUpdated s) eq_refl (fun _ => true)). Qed.

Lemma updated_bats_dbat base extended s : updated_bats base extended (DBATUpdated s) = updated_bats base extended s.
Proof. by apply (updated_bats_same s (DBATUpdated s) eq_refl (fun _ => true)). Qed.

Lemma updated_bats_sdr base extended s : updated_bats base extended (SDRUpdated s) = updated_bats base extended s.
Proof. by apply (updated_bats_same s (SDRUpdated s) eq_refl (fun _ => true)). Qed.

Lemma updated_bats_ppc base extended f s : (forall i, get_spr i (f (mm_ppc s)) = get_spr i (mm_ppc s)) ->
  updated_bats base extended (on_ppc f s) = updated_bats base extended s.
Proof. intros Hf. by apply (updated_bats_same s (on_ppc f s) eq_refl (fun _ => true) (fun i _ => Hf i)). Qed.

(** What keeps the control registers and the layout keeps the tables current. *)
Lemma current_inv s s' : translation_current s -> flags_current (mm_ppc s') -> layout s' = layout s ->
  (forall i, control_spr i = true -> get_spr i (mm_ppc s') = get_spr i (mm_ppc s)) -> translation_current s'.
Proof.
  intros [Hi Hd Hb Hh Hf] Hfl Hl Hspr.
  assert (Hm : memories s' = memories s) by exact (f_equal (fun l => fst (fst l)) Hl). assert (Hl' := Hl). injection Hl' as _ _ _ _ _ Ei Ed Eb Eh. split.
  - by rewrite Ei, Hi, (updated_bats_same s s' Hm control_spr Hspr).
  - by rewrite Ed, Hd, (updated_bats_same s s' Hm control_spr Hspr).
  - by rewrite Eb, Hb, (Hspr SPR_SDR).
  - by rewrite Eh, Hh, (Hspr SPR_SDR).
  - done.
Qed.

Lemma sound_inv d s s' : sound d s -> inv (kept (mm_ppc s)) (layout s) s' -> sound d s'.
Proof.
  intros [Hok Hcur Hc] [[Hok' Hspr Hdc Hfl] Hl]. split; [done | by apply (current_inv s) | congruence].
Qed.

Lemma inv_start d s : sound d s -> inv (kept (mm_ppc s)) (layout s) s.
Proof. intros [Hok [] Hd]. by split; [split|]. Qed.

Lemma sound_ppc d f s : (forall p0 p, kept p0 p -> kept p0 (f p)) -> sound d s -> sound d (on_ppc f s).
Proof. intros Hf Hs. apply (sound_inv d s); [done|]. apply inv_ppc; [apply Hf | by apply (inv_start d)]. Qed.

(** * Loads, stores and instructions on the registers *)

Lemma sound_run hack inst s s' e d : sound d s -> run_instruction hack inst s = Some (s', e) -> sound d s'.
Proof.
  intros Hs. unfold run_instruction. destruct (register_instruction _) as [f|] eqn:Ef.
  - destruct (f inst (mm_ppc s)) as [p e'] eqn:E. intros [= <- <-].
    change p with (fst (p, e')). rewrite <- E. apply (sound_inv d s); [done|].
    change (inv (kept (mm_ppc s)) (layout s) (on_ppc (fun p => fst (f inst p)) s)).
    apply inv_ppc; [by apply (kept_register _ (GetInterpreterOp inst)) | by apply (inv_start d)].
  - destruct (memory_instruction _ _) as [f|] eqn:Em; [|done]. intros [= <- <-]. apply (sound_inv d s); [done|].
    apply (inv_memory_instruction _ (kept_access _) _ hack (GetInterpreterOp inst)); [done | by apply (inv_start d)].
Qed.

(** * The moves of special registers *)

Lemma sound_dev d f s : sound d s -> sound d (on_dev f s).
Proof. intros Hs. apply (sound_inv d s); [done|]. apply inv_on_dev. by apply (inv_start d). Qed.

Lemma sound_put d i v s : control_spr i = false -> u32 v -> sound d s -> sound d (put_spr i v s).
Proof. intros Hi Hv. apply sound_ppc. intros p0 p. by apply kept_set_spr. Qed.

Lemma sound_gpr d r v s : u32 v -> sound d s -> sound d (to_gpr r v s).
Proof. intros Hv. apply sound_ppc. intros p0 p. by apply kept_gpr. Qed.

Lemma sound_raise d e s : u32 e -> sound d s -> sound d (on_ppc (raise_exception e) s).
Proof. intros He. apply sound_ppc. intros p0 p. by apply kept_raise. Qed.

Lemma sound_program d cause s : sound d s -> sound d (on_ppc (GenerateProgramException cause) s).
Proof. apply sound_ppc. intros p0 p. apply kept_program. Qed.

Lemma sound_spr d i s : sound d s -> u32 (spr_of i s).
Proof. intros Hs. apply ok_spr, Hs. Qed.

Lemma GetXER_u32 p : cpu_ok p -> u32 (GetXER p).
Proof.
  intros H. destruct (ck_ppc p H). unfold GetXER. cbv zeta.
  do 2 (apply u32_lor; [|apply u32_wrap]). change (0 .| xer_stringctrl p) with (xer_stringctrl p).
  apply (uN_le 16 32); [lia | done].
Qed.

Lemma ppc_ok_SetXER v p : ppc_ok p -> ppc_ok (SetXER v p).
Proof.
  intros []. unfold SetXER. split; cbn -[Z.pow Z.add]; try done.
  - pose proof (bits_range 29 1 v ltac:(lia)). lia.
  - pose proof (bits_range 31 1 v ltac:(lia)). pose proof (bits_range 30 1 v ltac:(lia)).
    rewrite Z.shiftl_mul_pow2 by lia. rewrite wrapu_small by (unfold uN; lia). lia.
  - apply (wrapu_range 16). lia.
Qed.

Lemma sound_xer d v s : sound d s -> sound d (on_ppc (SetXER v) s).
Proof.
  apply sound_ppc. intros p0 p H. apply (kept_same p0 p); try done. destruct (kp_ok _ _ H). split; [by apply ppc_ok_SetXER | done | done].
Qed.

Lemma put_bit_u32 i b x : 0 <= i < 32 -> u32 x -> u32 (put_bit i b x).
Proof.
  intros Hi Hx. unfold put_bit. apply uN_lor; [lia | by apply u32_land|]. rewrite Z.shiftl_mul_pow2 by lia.
  pose proof (Z.pow_lt_mono_r 2 i 32 ltac:(lia) ltac:(lia) ltac:(lia)). pose proof (pow2_pos i ltac:(lia)). unfold uN. destruct b; cbn [truth]; lia.
Qed.

Lemma UpdateThermalReg_u32 e x : u32 x -> u32 (UpdateThermalReg e x).
Proof. intros Hx. unfold UpdateThermalReg. cbv zeta. repeat case_match; repeat (apply put_bit_u32; [lia|]); done. Qed.

Context {timers_laws : TimersLaws timers}.

Lemma sound_refresh d i s : control_spr i = false -> sound d s -> sound d (refresh_spr i s).
Proof.
  intros Hi Hs. unfold refresh_spr.
  repeat match goal with |- sound _ (if ?b then _ else _) => destruct b end; try done;
    try (apply sound_put; [done | first [apply timers_decrementer_u32 | by apply GetXER_u32, Hs | by apply (sound_spr d) | idtac] | done]).
  - apply sound_ppc; [|done]. intros p0 p Hp. unfold WriteFullTimeBaseValue. do 2 (apply kept_set_spr; [done | apply u32_wrap|]). done.
  - apply u32_land, (sound_spr d), Hs.
Qed.

(** A control register is only read. *)
Lemma refresh_control i s : control_spr i = true -> refresh_spr i s = s.
Proof.
  intros Hi. unfold refresh_spr.
  repeat match goal with |- context [?x =? ?k] => destruct (Z.eqb_spec x k) as [->|]; [discriminate Hi | cbn [orb]] end. done.
Qed.

Lemma sound_mfspr d inst s : sound d s -> sound d (mfspr inst s).
Proof.
  intros Hs. unfold mfspr. cbv zeta. set (i := to_u32 _). destruct (_ && _); [by apply sound_program|].
  assert (Hr : sound d (refresh_spr i s)) by (destruct (control_spr i) eqn:Hi; [by rewrite refresh_control | by apply sound_refresh]).
  destruct (i =? SPR_IABR); apply sound_gpr; try done; [apply u32_land|]; by apply (sound_spr d).
Qed.

(** ** Writes of registers that nothing is made of *)

Lemma sound_hid0 d s : sound d s -> sound d (hid0_written s).
Proof.
  intros Hs. unfold hid0_written. case_match; [|done].
  assert (H1 : sound d (put_spr SPR_HID0 (put_bit 11 false (spr_of SPR_HID0 s)) s))
    by (apply sound_put; [done | apply put_bit_u32; [lia | by apply (sound_spr d)] | done]).
  apply (sound_inv d _ _ H1). by apply inv_icache, (inv_start d).
Qed.

Lemma sound_dmal d s : sound d s -> sound d (dmal_written s).
Proof.
  intros Hs. unfold dmal_written. cbv zeta.
  assert (Hx : forall x, sound d x -> sound d (put_spr SPR_DMAL (put_bit 1 false (spr_of SPR_DMAL x)) x))
    by (intros x H; apply sound_put; [done | apply put_bit_u32; [lia | by apply (sound_spr d)] | done]).
  apply Hx. clear Hx. destruct (Z.testbit (spr_of SPR_DMAL s) 1); [|done]. apply (sound_inv d s _ Hs).
  pose proof (inv_start d s Hs). destruct (Z.testbit _ 4); [by apply inv_DMA_MemoryToLC | by apply inv_DMA_LCToMemory].
Qed.

Lemma sound_dec d o v s : sound d s -> sound d (dec_written o v s).
Proof. intros Hs. unfold dec_written. cbv zeta. apply sound_dev. case_match; [apply sound_raise; [constant|]|]; done. Qed.

Lemma sound_time_base d i v s : control_spr i = false -> u32 v -> sound d s -> sound d (time_base_written i v s).
Proof. intros Hi Hv Hs. unfold time_base_written. cbv zeta. by apply sound_dev, sound_put. Qed.

Lemma sound_thermal d s : sound d s -> sound d (thermal_written s).
Proof.
  intros Hs. unfold thermal_written. cbv zeta.
  assert (H1 : sound d (put_spr SPR_THRM1 (UpdateThermalReg (spr_of SPR_THRM3 s) (spr_of SPR_THRM1 s)) s))
    by (apply sound_put; [done | by apply UpdateThermalReg_u32, (sound_spr d) | done]).
  apply sound_put; [done | by apply UpdateThermalReg_u32, (sound_spr d) | exact H1].
Qed.

Lemma sound_plain_written d i o v s : control_spr i = false -> u32 o -> u32 v -> sound d s -> sound d (spr_written i o v s).
Proof.
  intros Hi Ho Hv Hs. unfold spr_written. cbv zeta.
  destruct (is_dbat i) eqn:Hd; [unfold control_spr in Hi; by rewrite Hd in Hi|]. destruct (is_ibat i) eqn:Hb; [unfold control_spr in Hi; by rewrite Hd, Hb in Hi|].
  repeat match goal with
    | |- context [?x =? ?k] => is_var x; destruct (Z.eqb_spec x k) as [->|]; [try discriminate Hi; cbn [orb] | cbn [orb]]
    end; try done; try (by apply sound_thermal).
  - by apply sound_time_base.
  - by apply sound_time_base.
  - by apply sound_put.
  - by apply sound_hid0.
  - apply sound_put; [done | by apply u32_land, (sound_spr d) | done].
  - apply sound_put; [done | apply u32_lor; [apply u32_land, (sound_spr d), Hs | by apply u32_land] | done].
  - by apply sound_dev.
  - by apply sound_dmal.
  - by apply sound_dec.
  - by apply sound_xer.
Qed.

(** ** Writes of the control registers *)

(** The parts of [translation_current] that a register does not appear in stay. *)
Lemma bats_put i v s base extended t (R : Z -> bool) :
  R i = false -> R SPR_HID4 = true -> bats_among R base = true -> bats_among R extended = true ->
  t = updated_bats base extended s -> t = updated_bats base extended (put_spr i v s).
Proof.
  intros Hi H4 Hb He ->. symmetry. apply (updated_bats_same s (put_spr i v s) eq_refl R); try done.
  intros j Hj. change (get_spr j (set_spr i v (mm_ppc s)) = get_spr j (mm_ppc s)). rewrite get_set_spr.
  destruct (Z.eqb_spec j i) as [->|]; [congruence | done].
Qed.

Definition dbat_or_hid4 (i : Z) : bool := is_dbat i || (i =? SPR_HID4).
Definition ibat_or_hid4 (i : Z) : bool := is_ibat i || (i =? SPR_HID4).

(** Writing a register the value it has changes nothing. *)
Lemma sound_put_same d i s : sound d s -> sound d (put_spr i (spr_of i s) s).
Proof.
  intros Hs. apply (sound_inv d s); [done|]. split; [|done].
  change (kept (mm_ppc s) (set_spr i (spr_of i s) (mm_ppc s))). apply (kept_same (mm_ppc s) (mm_ppc s)); try done.
  - apply cpu_set_spr; [by apply (sound_spr d) | apply Hs].
  - intros j _. rewrite get_set_spr. by destruct (Z.eqb_spec j i) as [->|].
  - by apply (inv_start d).
Qed.

(** What the bare write of a register leaves current. *)
Record written_current (d i : Z) s : Prop := {
  wc_ok : cpu_ok (mm_ppc s);
  wc_downcount : downcount (mm_ppc s) = d;
  wc_ibat : ibat_or_hid4 i = false -> m_ibat_table s = updated_bats SPR_IBAT0U SPR_IBAT4U s;
  wc_dbat : dbat_or_hid4 i = false -> m_dbat_table s = updated_bats SPR_DBAT0U SPR_DBAT4U s;
  wc_sdr : (i =? SPR_SDR) = false -> pagetable_base s = bits 16 16 (get_spr SPR_SDR (mm_ppc s)) .<< 16 /\
    pagetable_hashmask s = (bits 0 9 (get_spr SPR_SDR (mm_ppc s)) .<< 10) .| 0x3ff;
  wc_flags : (i =? SPR_MMCR0) || (i =? SPR_MMCR1) = false -> flags_current (mm_ppc s);
  wc_perfmon : feature_flags (mm_ppc s) .& to_u32 (Z.lnot FEATURE_FLAG_PERFMON) = (msr (mm_ppc s) .>> 4) .& 3
}.

Lemma perfmon_off p : flags_current p -> feature_flags p .& to_u32 (Z.lnot FEATURE_FLAG_PERFMON) = (msr p .>> 4) .& 3.
Proof.
  unfold flags_current, perfmon. intros ->. pose proof (land3_range (msr p .>> 4)) as H.
  assert (Hx : exists x, (msr p .>> 4) .& 3 = x /\ (x = 0 \/ x = 1 \/ x = 2 \/ x = 3)) by (eexists; split; [reflexivity | lia]).
  destruct Hx as (x & -> & [->|[->|[->| ->]]]); by case_match.
Qed.

Lemma put_current d i v s : u32 v -> sound d s -> written_current d i (put_spr i v s).
Proof.
  intros Hv [Hok [Hi Hd Hb Hh Hf] Hc]. split; try done.
  - by apply cpu_set_spr.
  - intros Hn. by apply (bats_put i v s SPR_IBAT0U SPR_IBAT4U _ ibat_or_hid4).
  - intros Hn. by apply (bats_put i v s SPR_DBAT0U SPR_DBAT4U _ dbat_or_hid4).
  - intros Hn. change (mm_ppc (put_spr i v s)) with (set_spr i v (mm_ppc s)). rewrite get_set_spr, Z.eqb_sym, Hn. done.
  - intros [H0 H1]%orb_false_iff. change (mm_ppc (put_spr i v s)) with (set_spr i v (mm_ppc s)). unfold flags_current, perfmon in *.
    rewrite !get_set_spr, !(Z.eqb_sym _ i), H0, H1. exact Hf.
  - exact (perfmon_off _ Hf).
Qed.

(** The tables made again after the write. *)
Lemma sound_DBATUpdated d i s : written_current d i s -> (i =? SPR_SDR) = false -> (i =? SPR_MMCR0) || (i =? SPR_MMCR1) = false ->
  m_ibat_table s = updated_bats SPR_IBAT0U SPR_IBAT4U s -> sound d (DBATUpdated s).
Proof.
  intros [Hok Hc Hib Hdb Hsdr Hfl Hpm] H1 H2 Hi. destruct (Hsdr H1) as [Hb Hh].
  split; [exact Hok | split | exact Hc]; rewrite ?updated_bats_dbat; [exact Hi | reflexivity | exact Hb | exact Hh | exact (Hfl H2)].
Qed.

Lemma sound_IBATUpdated d i s : written_current d i s -> (i =? SPR_SDR) = false -> (i =? SPR_MMCR0) || (i =? SPR_MMCR1) = false ->
  m_dbat_table s = updated_bats SPR_DBAT0U SPR_DBAT4U s -> sound d (IBATUpdated s).
Proof.
  intros [Hok Hc Hib Hdb Hsdr Hfl Hpm] H1 H2 Hi. destruct (Hsdr H1) as [Hb Hh].
  split; [exact Hok | split | exact Hc]; rewrite ?updated_bats_ibat; [reflexivity | exact Hi | exact Hb | exact Hh | exact (Hfl H2)].
Qed.

Lemma IBATUpdated_current d i s : written_current d i s -> written_current d i (IBATUpdated s).
Proof.
  intros [Hok Hc Hib Hdb Hsdr Hfl Hpm]. split; rewrite ?updated_bats_ibat;
    [exact Hok | exact Hc | reflexivity | exact Hdb | exact Hsdr | exact Hfl | exact Hpm].
Qed.

Lemma sound_SDRUpdated d s : written_current d SPR_SDR s -> sound d (SDRUpdated s).
Proof.
  intros [Hok Hc Hib Hdb Hsdr Hfl Hpm]. split; [exact Hok | split | exact Hc]; rewrite ?updated_bats_sdr;
    [exact (Hib eq_refl) | exact (Hdb eq_refl) | reflexivity | reflexivity | exact (Hfl eq_refl)].
Qed.

Lemma sound_MMCRUpdated d i s : written_current d i s -> (i =? SPR_MMCR0) || (i =? SPR_MMCR1) = true -> sound d (on_ppc MMCRUpdated s).
Proof.
  intros [Hok Hc Hib Hdb Hsdr Hfl Hpm] Hi.
  assert (Hn : ibat_or_hid4 i = false /\ dbat_or_hid4 i = false /\ (i =? SPR_SDR) = false)
    by (apply orb_true_iff in Hi as [->%Z.eqb_eq | ->%Z.eqb_eq]; done).
  destruct Hn as (H1 & H2 & H3). destruct (Hsdr H3) as [Hb Hh].
  split; [destruct Hok as [[]]; by split; [split|..] | split | exact Hc]; rewrite ?updated_bats_ppc by done;
    [exact (Hib H1) | exact (Hdb H2) | exact Hb | exact Hh |].
  - unfold flags_current. change (feature_flags (mm_ppc (on_ppc MMCRUpdated s))) with
      ((feature_flags (mm_ppc s) .& to_u32 (Z.lnot FEATURE_FLAG_PERFMON)) .| perfmon (mm_ppc s)). by rewrite Hpm.
Qed.

Ltac not_that Hi :=
  repeat match goal with
    | |- context [?x =? ?k] => is_var x; destruct (Z.eqb_spec x k) as [->|]; [try discriminate Hi; cbn [orb] | cbn [orb]]
    end.

Lemma sound_control_written d i v s : control_spr i = true -> u32 v -> sound d s -> sound d (spr_written i (spr_of i s) v (put_spr i v s)).
Proof.
  intros Hi Hv Hs. pose proof (put_current d i v s Hv Hs) as Hw.
  assert (Enew : spr_of i (put_spr i v s) = v)
    by (unfold spr_of; change (mm_ppc (put_spr i v s)) with (set_spr i v (mm_ppc s)); rewrite get_set_spr; by rewrite Z.eqb_refl).
  unfold spr_written. cbv zeta. rewrite Enew. set (s1 := put_spr i v s) in *.
  assert (Hsame : negb (spr_of i s =? v) = false -> sound d s1)
    by (intros H%negb_false_iff%Z.eqb_eq; unfold s1; rewrite <- H; by apply sound_put_same).
  destruct (is_dbat i) eqn:Hd; [|destruct (is_ibat i) eqn:Hb].
  - assert (Hn : ibat_or_hid4 i = false /\ (i =? SPR_SDR) = false /\ (i =? SPR_MMCR0) || (i =? SPR_MMCR1) = false)
      by (clear - Hd; unfold is_dbat, ibat_or_hid4, is_ibat in *; lia).
    destruct Hn as (H1 & H2 & H3). not_that Hd. destruct (negb _) eqn:E; [|by apply Hsame]. exact (sound_DBATUpdated d i s1 Hw ltac:(lia) H3 (wc_ibat _ _ _ Hw H1)).
  - assert (Hn : dbat_or_hid4 i = false /\ (i =? SPR_SDR) = false /\ (i =? SPR_MMCR0) || (i =? SPR_MMCR1) = false)
      by (clear - Hb; unfold is_ibat, dbat_or_hid4, is_dbat in *; lia).
    destruct Hn as (H1 & H2 & H3). not_that Hb. destruct (negb _) eqn:E; [|by apply Hsame]. exact (sound_IBATUpdated d i s1 Hw ltac:(lia) H3 (wc_dbat _ _ _ Hw H1)).
  - not_that Hi; try (by apply sound_SDRUpdated); try (by apply (sound_MMCRUpdated _ _ _ Hw)).
    + destruct (negb _) eqn:E; [|by apply Hsame]. apply IBATUpdated_current in Hw.
      apply (sound_DBATUpdated d _ _ Hw); [reflexivity | reflexivity |]. rewrite updated_bats_ibat. reflexivity.
    + exfalso. unfold control_spr in Hi. rewrite Hd, Hb in Hi. cbn [orb] in Hi. lia.
Qed.

Lemma sound_mtspr d inst s : sound d s -> sound d (mtspr inst s).
Proof.
  intros Hs. unfold mtspr. cbv zeta. set (i := (SPRU inst .<< 5) .| (SPRL inst .& 0x1F)).
  assert (Hv : u32 (get_gpr (RD inst) (mm_ppc s))) by apply gpr_value_u32, Hs.
  destruct (_ && _); [by apply sound_program|]. destruct (control_spr i) eqn:Hi; [by apply sound_control_written|].
  apply sound_plain_written; [done | by apply (sound_spr d) | done | by apply sound_put].
Qed.

Lemma sound_execute d hack inst s s' e : sound d s -> execute hack inst s = Some (s', e) -> sound d s'.
Proof.
  intros Hs. unfold execute. destruct (special_instruction (GetInterpreterOp inst)) as [f|] eqn:Ef; [|by apply sound_run].
  intros [= <- _]. destruct (GetInterpreterOp inst); try discriminate Ef; injection Ef as <-;
    [by apply sound_mfspr | by apply sound_mtspr | by apply sound_mfspr].
Qed.

(** * Steps *)

Context {hooks : FunctionHooks dev} {hooks_laws : HooksLaws hooks}.
Implicit Types (i : Interpreter dev).

Lemma sound_CheckExceptions d i : sound d (i_mmu i) -> sound d (i_mmu (Interpreter_CheckExceptions i)).
Proof. intros Hs. apply (sound_ppc d CheckExceptions); [|done]. intros p0 p. apply kept_CheckExceptions. Qed.

Lemma sound_UpdatePC d i : sound d (i_mmu i) -> sound d (i_mmu (Interpreter_UpdatePC i)).
Proof. intros Hs. apply (sound_ppc d UpdatePC); [|done]. intros p0 p. apply kept_UpdatePC. Qed.

Lemma sound_run_and_check d hack inst i i' : sound d (i_mmu i) -> run_and_check hack inst i = Some i' -> sound d (i_mmu i').
Proof.
  intros Hs. unfold run_and_check, Interpreter_RunInterpreterOp. destruct (execute _ _ _) as [[s e]|] eqn:E; [|done].
  apply (sound_execute d) in E; [|done]. intros [= <-]. case_match; [by apply sound_CheckExceptions | done].
Qed.

Lemma sound_dispatch d hack inst flags i i' : sound d (i_mmu i) -> dispatch hack inst flags i = Some i' -> sound d (i_mmu i').
Proof.
  intros Hs. unfold dispatch. repeat case_match; try (by apply sound_run_and_check); intros [= <-]; apply sound_CheckExceptions; try done.
  - exact (sound_program d IllegalInstruction (i_mmu i) Hs).
  - refine (sound_raise d EXCEPTION_FPU_UNAVAILABLE (i_mmu i) _ Hs). constant.
Qed.

Lemma sound_fetch d i : sound d (i_mmu i) -> sound d (i_mmu (fetch i)).
Proof.
  intros Hs. unfold fetch. cbv zeta.
  set (i1 := on_cpu _ i).
  assert (H1 : sound d (i_mmu i1)).
  { apply (sound_ppc d (fun p => fset p_npc (to_u32 (pc p + 4)) p)); [|done]. intros p0 p. apply (cl_npc _ (kept_closed p0)), u32_wrap. }
  destruct (reads_opcode _ (kept_access _) _ (pc (i_ppc i1)) (i_mmu i1) (ok_pc _ (sd_ok _ _ H1)) (inv_start d _ H1)) as [_ Hi].
  destruct (Read_Opcode _ _) as [hex s]. by apply (sound_inv d (i_mmu i1)).
Qed.

Lemma sound_hook d i : sound d (i_mmu i) -> sound d (i_mmu (snd (HandleFunctionHooking (pc (i_ppc i)) i))).
Proof.
  intros Hs. unfold HandleFunctionHooking. destruct (HLE_TryReplaceFunction _ _) as [type k]. case_match; [done|].
  apply (sound_inv d (i_mmu i)); [done|]. apply HLE_Execute_frame; [apply Hs | apply Hs].
Qed.

Lemma sound_step d hack i c i' : sound d (i_mmu i) -> SingleStepInner hack i = Some (c, i') -> sound d (i_mmu i').
Proof.
  intros Hs. unfold SingleStepInner. pose proof (sound_hook d i Hs) as Hh.
  destruct (HandleFunctionHooking _ _) as [[] i1]; cbn [snd] in Hh; cbv zeta.
  - intros [_ <-]%some_pair. by apply sound_UpdatePC.
  - destruct (dispatch _ _ _ _) as [i2|] eqn:E; [|done]. apply (sound_dispatch d) in E; [|by apply sound_fetch].
    intros [_ <-]%some_pair. apply (sound_ppc d (UpdatePerformanceMonitor _ _ _)); [|by apply sound_UpdatePC].
    intros p0 p. apply kept_monitor.
Qed.

(** * Cycles

    An instruction takes at most 40 cycles, and one that is known at least one. *)
Definition no_instruction (fn : Instruction) : bool :=
  match fn with
  | Op_unknown_instruction | Op_RunTable4 | Op_RunTable19 | Op_RunTable31 | Op_RunTable59 | Op_RunTable63 => true
  | _ => false
  end.

Definition cycles_ok (k : Z) (e : Z * entry) : bool :=
  let '(_, ((_, fn), info)) := e in
  (0 <=? num_cycles info) && (num_cycles info <=? 40) && (no_instruction fn || (1 <=? num_cycles info)).

Lemma all_cycles_ok : every_entry cycles_ok = true.
Proof. vm_compute. reflexivity. Qed.

Lemma cycles_range inst : 0 <= num_cycles (GetOpInfo inst) <= 40 /\
  (no_instruction (GetInterpreterOp inst) = false -> 1 <= num_cycles (GetOpInfo inst)).
Proof.
  pose proof (find_entry_all cycles_ok inst (fun _ _ => eq_refl) all_cycles_ok) as H. destruct (find_entry_spec inst) as [-> ->].
  destruct (find_entry inst) as [op [[c fn] info]]. cbn [cycles_ok fst snd] in *.
  apply andb_prop in H as [[H1 H2]%andb_prop H3]. split; [lia|]. intros Hn. rewrite Hn in H3. cbn [orb] in H3. lia.
Qed.

Lemma s32_small x : - 2 ^ 31 <= x < 2 ^ 31 -> to_s32 x = x.
Proof. intros Hx. apply wraps_small; [lia | exact Hx]. Qed.

Lemma step_cycles hack i c i' : SingleStepInner hack i = Some (c, i') -> 0 <= c <= 40.
Proof.
  unfold SingleStepInner. destruct (HandleFunctionHooking _ _) as [[] i1]; cbv zeta.
  - intros [<- _]%some_pair. apply cycles_range.
  - destruct (dispatch _ _ _ _); [|done]. intros [<- _]%some_pair. apply cycles_range.
Qed.

Lemma block_cycles hack d size c0 i c i' : sound d (i_mmu i) -> 0 <= c0 -> c0 + 40 * Z.of_nat size < 2 ^ 31 ->
  run_block hack size c0 i = Some (c, i') -> c0 <= c <= c0 + 40 * Z.of_nat size /\ sound d (i_mmu i').
Proof.
  revert c0 i. induction size as [|size IH]; intros c0 i Hs H0 Hm; cbn [run_block].
  - destruct (m_end_block i); [|done]. intros [<- <-]%some_pair. split; [lia | done].
  - destruct (m_end_block i); [intros [<- <-]%some_pair; split; [lia | done]|].
    destruct (SingleStepInner hack i) as [[c1 i1]|] eqn:E; [|done]. pose proof (step_cycles _ _ _ _ E) as Hc.
    rewrite Nat2Z.inj_succ in *. rewrite s32_small by lia. intros Hr.
    destruct (IH (c0 + c1) i1 (sound_step d hack i c1 i1 Hs E) ltac:(lia) ltac:(lia) Hr). split; [lia | done].
Qed.

Lemma sound_charge d c i : sound d (i_mmu i) ->
  sound (to_s32 (d - c)) (i_mmu (on_cpu (fun p => fset p_downcount (to_s32 (downcount p - c)) p) i)).
Proof.
  intros [[[] Hf Hs] [Hib Hdb Hb Hh Hfl] Hd]. split; [split; [by split | done | done] | |].
  - split; [..| exact Hb | exact Hh | exact Hfl].
    + etransitivity; [exact Hib | symmetry; by apply updated_bats_ppc].
    + etransitivity; [exact Hdb | symmetry; by apply updated_bats_ppc].
  - change (to_s32 (downcount (mm_ppc (i_mmu i)) - c) = to_s32 (d - c)). by rewrite Hd.
Qed.

Definition total (blocks : list Z) : Z := foldr Z.add 0 blocks.

Lemma slice_blocks hack fuel size d i i' : sound d (i_mmu i) -> d < 2 ^ 31 -> 40 * Z.of_nat size < 2 ^ 31 -> - 2 ^ 31 <= d ->
  run_slice hack fuel size i = Some i' ->
  exists blocks, Forall (fun c => 0 <= c <= 40 * Z.of_nat size) blocks /\
    (forall k, (k < length blocks)%nat -> total (take k blocks) < d) /\
    d - total blocks <= 0 /\ sound (d - total blocks) (i_mmu i').
Proof.
  revert d i. induction fuel as [|fuel IH]; intros d i Hs Hd Hm Hl; cbn [run_slice].
  - rewrite (sd_downcount _ _ Hs : downcount (i_ppc i) = d). destruct (Z.ltb_spec 0 d); cbn [negb]; [done|]. intros [= <-].
    exists []. cbn. rewrite Z.sub_0_r. split; [done|]. split; [intros; lia|]. by split.
  - rewrite (sd_downcount _ _ Hs : downcount (i_ppc i) = d). destruct (Z.ltb_spec 0 d) as [Hp|Hp]; cbn [negb].
    2:{ intros [= <-]. exists []. cbn. rewrite Z.sub_0_r. split; [done|]. split; [intros; lia|]. by split. }
    destruct (run_block hack size 0 _) as [[c i1]|] eqn:E; [|done]. intros Hr.
    destruct (block_cycles hack d size 0 (fset x_end_block false i) c i1 Hs ltac:(lia) ltac:(lia) E) as [Hc H1].
    pose proof (sound_charge d c i1 H1) as H2. rewrite s32_small in H2 by lia.
    destruct (IH (d - c) _ H2 ltac:(lia) Hm ltac:(lia) Hr) as (blocks & Hf & Hk & Ht & Hs').
    exists (c :: blocks). unfold total in *. cbn [foldr]. rewrite Z.sub_add_distr. split; [by constructor|]. split; [|split; [lia | done]].
    intros [|k] Hlt; cbn [take foldr]; [lia|]. cbn in Hlt. specialize (Hk k ltac:(lia)). lia.
Qed.

(** * Any number of steps

    An instruction, the parts of the loops of [Run] between two instructions, and the
    scheduler's turn. *)
Context {loop : RunLoop dev} {loop_laws : RunLoopLaws loop}.

Inductive cpu_step (hack : bool) : Interpreter dev -> Interpreter dev -> Prop :=
  | StepInstruction i c i' : SingleStepInner hack i = Some (c, i') -> cpu_step hack i i'
  | StepBlock i : cpu_step hack i (fset x_end_block false i)
  | StepCharge i c : cpu_step hack i (on_cpu (fun p => fset p_downcount (to_s32 (downcount p - c)) p) i)
  | StepAdvance i : cpu_step hack i (on_mmu CoreTiming_Advance i).

Lemma run_block_steps hack size c i c' i' : run_block hack size c i = Some (c', i') -> rtc (cpu_step hack) i i'.
Proof.
  revert c i. induction size as [|size IH]; intros c i; cbn [run_block]; destruct (m_end_block i).
  - by intros [_ <-]%some_pair.
  - done.
  - by intros [_ <-]%some_pair.
  - destruct (SingleStepInner hack i) as [[c1 i1]|] eqn:E; [|done]. intros H. eapply rtc_l; [by eapply StepInstruction | by eapply IH].
Qed.

Lemma run_slice_steps hack fuel size i i' : run_slice hack fuel size i = Some i' -> rtc (cpu_step hack) i i'.
Proof.
  revert i. induction fuel as [|fuel IH]; intros i; cbn [run_slice]; destruct (negb _); [by intros [= <-] | done | by intros [= <-] |].
  destruct (run_block hack size 0 _) as [[c i1]|] eqn:E; [|done]. intros H.
  eapply rtc_l; [apply StepBlock|]. etransitivity; [by eapply run_block_steps|]. eapply rtc_l; [apply (StepCharge _ _ c) | by apply IH].
Qed.

Lemma Run_steps hack slices fuel size i i' : Run hack slices fuel size i = Some i' -> rtc (cpu_step hack) i i'.
Proof.
  revert i. induction slices as [|slices IH]; intros i; cbn [Run]; destruct (negb _); [by intros [= <-] | done | by intros [= <-] |].
  destruct (run_slice hack fuel size _) as [i1|] eqn:E; [|done]. intros H.
  eapply rtc_l; [apply StepAdvance|]. etransitivity; [by eapply run_slice_steps | by apply IH].
Qed.

Lemma step_current hack i i' : cpu_step hack i i' ->
  cpu_ok (mm_ppc (i_mmu i)) /\ translation_current (i_mmu i) -> cpu_ok (mm_ppc (i_mmu i')) /\ translation_current (i_mmu i').
Proof.
  intros Hstep [Hok Hcur]. assert (Hs : sound (downcount (mm_ppc (i_mmu i))) (i_mmu i)) by by split.
  destruct Hstep as [i c i' E|i|i c|i].
  - apply (sound_step _ hack i c i' Hs) in E as [Hok' Hcur' _]. by split.
  - by split.
  - apply (sound_charge _ c) in Hs as [Hok' Hcur' _]. by split.
  - destruct (CoreTiming_Advance_frame (i_mmu i) Hok (tc_flags _ Hcur)) as [(Hok' & Hfl & Hspr) Hl].
    split; [exact Hok' | by apply (current_inv (i_mmu i))].
Qed.

(** C11. Address translation follows the registers.  Whatever program of modelled instructions
    the interpreter runs, for any number of instructions, blocks and slices, the tables it translates by are those of the
    registers at every moment: the two tables of blocks are those that the BATs (of both sets,
    as HID4 says) give, the place and the mask of the page table are those of SDR1, and the
    flags that choose the way of an access have translation on exactly as MSR has, and the
    performance monitor on exactly if MMCR0 or MMCR1 is not zero.  So no instruction, exception
    or return from one forgets to bring them up to date.  The replacements of functions and the
    scheduler, which are parameters, are assumed not to write these registers and tables. *)
Theorem translation_follows_registers hack i i' :
  cpu_ok (mm_ppc (i_mmu i)) -> translation_current (i_mmu i) ->
  (rtc (cpu_step hack) i i' \/ exists slices fuel size, Run hack slices fuel size i = Some i') ->
  let s := i_mmu i' in let p := mm_ppc s in
  m_ibat_table s = updated_bats SPR_IBAT0U SPR_IBAT4U s /\
  m_dbat_table s = updated_bats SPR_DBAT0U SPR_DBAT4U s /\
  pagetable_base s = bits 16 16 (get_spr SPR_SDR p) .<< 16 /\
  pagetable_hashmask s = (bits 0 9 (get_spr SPR_SDR p) .<< 10) .| 0x3ff /\
  (forall k, Z.testbit (feature_flags p) k =
     ((k =? 0) && Z.testbit (msr p) 4) || ((k =? 1) && Z.testbit (msr p) 5) ||
     ((k =? 2) && negb ((get_spr SPR_MMCR0 p =? 0) && (get_spr SPR_MMCR1 p =? 0)))).
Proof.
  intros Hok Hcur Hrun. assert (Hsteps : rtc (cpu_step hack) i i')
    by (destruct Hrun as [H|(slices & fuel & size & H)]; [exact H | by eapply Run_steps]).
  assert (H : cpu_ok (mm_ppc (i_mmu i')) /\ translation_current (i_mmu i')).
  { clear Hrun. induction Hsteps as [i|i i1 i' Hstep _ IH]; [done|]. destruct (step_current _ _ _ Hstep); [done | by apply IH]. }
  destruct H as [_ [Hib Hdb Hb Hh Hf]]. cbv zeta. do 4 (split; [done|]). intros k. by apply flags_bits.
Qed.
End Sound.

(** * A program

    [li r3, 2; mtspr DBAT0U, r3; b .] at the address 0x100 of a GameCube, without translation of
    instructions: the block at 0x80000000 moves to 0. *)
#[local] Existing Instance no_devices.
#[local] Instance no_timers : Timers unit := {|
  timers_GetFakeDecrementer _ _ := 0; timers_DecrementerSet _ d := d;
  timers_GetFakeTimeBase _ _ := 0; timers_TimeBaseSet _ d := d; timers_ResetGatherPipe d := d
|}.
#[local] Instance no_hooks : FunctionHooks unit := {|
  HLE_TryReplaceFunction _ _ := (HookNone, 0); HLE_Execute _ _ s := s
|}.
#[local] Instance idle_scheduler : RunLoop unit := {|
  CoreTiming_Advance s := on_ppc CheckExternalExceptions s; set_slice_length _ d := d; cpu_is_running _ := true
|}.

Lemma no_devices_laws : BusLaws no_devices.
Proof. intros n a d Hn. cbn. split; [lia | apply Z.pow_pos_nonneg; lia]. Qed.

Lemma no_timers_laws : TimersLaws no_timers.
Proof. intros p d. constant. Qed.

Lemma no_hooks_laws : HooksLaws no_hooks.
Proof. intros a k s Hok Hf. by split; [split|]. Qed.

Lemma idle_scheduler_laws : RunLoopLaws idle_scheduler.
Proof.
  intros s Hok Hf. split; [|done].
  pose proof (kept_CheckExternal (mm_ppc s) (mm_ppc s) ltac:(by split)) as [Hok' Hspr _ Hf']. done.
Qed.
#[local] Existing Instances no_devices_laws no_timers_laws no_hooks_laws idle_scheduler_laws.

Definition program_memory : MemoryManager :=
  Write_U32_memory 0x48000000 0x108 (Write_U32_memory 0x7C7883A6 0x104 (Write_U32_memory 0x38600002 0x100 cache_example_memory)).
Definition program_cpu : PPCState :=
  fset p_pc 0x100 (fset p_feature_flags 1 (fset p_msr 0x10 (set_spr SPR_SDR 0x00200000 example_ppc))).
Definition program_loaded : MMUState unit := SDRUpdated (on_ppc (fun _ => program_cpu) (example_state program_memory false)).
Definition program_start : Interpreter unit := mkInterpreter (IBATUpdated (DBATUpdated program_loaded)) 0 0 false.

Lemma program_ok : cpu_ok (mm_ppc (i_mmu program_start)).
Proof.
  assert (H0 : forall w, 0 <= w -> arr_ok (uN w) ∅) by (intros w Hw; apply arr_ok_empty; unfold uN; pose proof (pow2_pos w Hw); lia).
  split; [split|..]; cbn -[arr_ok uN]; try constant; try lia; try (apply H0; lia).
  - do 5 (eapply (arr_ok_aupd u32); [|constant]). apply H0. lia.
  - eapply (arr_ok_aupd u32); [apply H0; lia | constant].
Qed.

Lemma program_current : translation_current (i_mmu program_start).
Proof.
  split; [| | reflexivity | reflexivity | reflexivity].
  - exact (eq_sym (updated_bats_ibat SPR_IBAT0U SPR_IBAT4U (DBATUpdated program_loaded))).
  - exact (eq_sym (eq_trans (updated_bats_ibat SPR_DBAT0U SPR_DBAT4U (DBATUpdated program_loaded))
      (updated_bats_dbat SPR_DBAT0U SPR_DBAT4U program_loaded))).
Qed.

Lemma program_runs : is_Some (run_block true 3 0 program_start).
Proof.
  assert (H : match run_block true 3 0 program_start with Some _ => true | None => false end = true) by (vm_compute; reflexivity).
  destruct (run_block true 3 0 program_start); [by eexists | discriminate].
Qed.

Lemma translation_follows_registers_witness :
  exists c i', run_block true 3 0 program_start = Some (c, i') /\
    m_dbat_table (i_mmu i') = updated_bats SPR_DBAT0U SPR_DBAT4U (i_mmu i').
Proof.
  destruct program_runs as [[c i'] E]. exists c, i'. split; [exact E|].
  apply (translation_follows_registers true program_start i' program_ok program_current).
  left. exact (run_block_steps true 3 0 program_start c i' E).
Defined.

(** The block has moved. *)
Example program_moves_block :
  match run_block true 3 0 program_start with
  | Some (c, i') => c = 4 /\ pc (i_ppc i') = 0x108 /\ TranslateBatAddress (m_dbat_table (i_mmu i')) 0x1234 = Some (0x1234, false) /\
      TranslateBatAddress (m_dbat_table (i_mmu i')) 0x80001234 = None
  | None => False
  end.
Proof. vm_compute. repeat split. Qed.
