(* ===== verification/DeviceProps.v ===== *)
(** The audio DMA ([DSPManager::UpdateAudioDMA]): the samples of a buffer are played in
    order, and the CPU is told when the last were taken.  The decrementer and the time base
    ([SystemTimers.cpp]). *)
From stdpp Require Import base tactics option list gmap strings.
From Stdlib Require Import ZArith Lia Bool.
From S2P Require Import Prelude DSPState Memmap PowerPC ProcessorInterface CoreTiming Machine DSPManager.
From S2P Require Import SystemTimers PowerPCProps CoreTimingProps MemoryProps ManagerProps AramProps.

#[local] Open Scope Z_scope.

Section Audio.
Context {heap : HeapAlgorithms}.

(** [n] turns of the timer. *)
Fixpoint updates (n : nat) : M Machine unit :=
  match n with O => mret tt | S n' => UpdateAudioDMA ;; updates n' end.

(** [n] blocks of the buffer at [off] of region [r] are left. *)
Record playing (n : nat) (r : region) (off : Z) (m : Machine) : Prop := {
  pl_enabled : AudioEnable (AudioDMAControl (m_dsp m)) = true;
  pl_left : remaining_blocks_count (m_dsp m) = Z.of_nat n;
  pl_some : (0 < n)%nat /\ Z.of_nat n < 2 ^ 15;
  pl_address : 0 <= current_source_address (m_dsp m) /\ current_source_address (m_dsp m) + 32 * Z.of_nat n < 2 ^ 32;
  pl_memory : memory_ok (m_memory m);
  pl_pointer : GetPointerForRange (current_source_address (m_dsp m)) (32 * Z.of_nat n) (m_memory m) = Some (r, off)
}.

(** The first [k] blocks from [off]. *)
Fixpoint blocks (k : nat) (r : region) (off : Z) (m : Machine) : list (list Z) :=
  match k with
  | O => []
  | S k' => aslice (region_bytes r (m_memory m)) off 32 :: blocks k' r (off + 32) m
  end.

(** One block was played and others are left. *)
Definition played (r : region) (off : Z) (m : Machine) : Machine :=
  fset f_current_source_address (current_source_address (m_dsp m) + 32)
    (fset f_remaining_blocks_count (remaining_blocks_count (m_dsp m) - 1)
      (fset mf_samples (m_samples m ++ [aslice (region_bytes r (m_memory m)) off 32]) m)).

Lemma UpdateAudioDMA_run n r off m :
  playing n r off m ->
  UpdateAudioDMA m =
  if (n =? 1)%nat then
    GenerateDSPInterrupt INT_AID
      (fset f_remaining_blocks_count (NumBlocks (AudioDMAControl (m_dsp m)))
        (fset f_current_source_address (SourceAddress (m_dsp m)) (played r off m)))
  else Done tt (played r off m).
Proof.
  intros [He Hl [Hn Hn'] Ha Hm Hp]. unfold UpdateAudioDMA. rewrite (bind_done _ _ _ _ _ (run_getf _ _)).
  change (fget f_AudioDMAControl m) with (AudioDMAControl (m_dsp m)). rewrite He.
  rewrite !(bind_done _ _ _ _ _ (run_getf _ _)). change (fget mf_memory m) with (m_memory m).
  change (fget f_current_source_address m) with (current_source_address (m_dsp m)).
  destruct (pointer_sub _ _ r off _ 0 32 Hm Hp) as (Hp32 & _ & _); [lia..|]. rewrite !Z.add_0_r in Hp32. rewrite Hp32.
  unfold SendAIBuffer. rewrite (bind_done _ _ _ _ _ (run_modf _ _ _)), (bind_done _ _ _ _ _ (run_getf _ _)).
  set (m1 := fset mf_samples _ m). change (fget f_remaining_blocks_count m1) with (remaining_blocks_count (m_dsp m)).
  rewrite Hl. rewrite (proj2 (Z.eqb_neq (Z.of_nat n) 0)) by lia. unfold when at 1. cbn [negb].
  assert (Ew : (modf f_remaining_blocks_count (fun n => to_u16 (n - 1)) ;;
    modf f_current_source_address (fun a => to_u32 (a + 32))) m1 = Done tt (played r off m)).
  { rewrite (bind_done _ _ _ _ _ (run_modf _ _ _)), run_modf. unfold played. do 2 f_equal.
    - change (to_u32 (current_source_address (m_dsp m) + 32) = current_source_address (m_dsp m) + 32).
      apply wrapu_small. unfold uN. lia.
    - f_equal. change (to_u16 (remaining_blocks_count (m_dsp m) - 1) = remaining_blocks_count (m_dsp m) - 1).
      rewrite Hl. apply wrapu_small. unfold uN. lia. }
  rewrite (bind_done _ _ _ _ _ Ew), (bind_done _ _ _ _ _ (run_getf _ _)).
  change (fget f_remaining_blocks_count (played r off m)) with (remaining_blocks_count (m_dsp m) - 1). rewrite Hl.
  destruct (Nat.eqb_spec n 1) as [->|Hne]; [reflexivity|].
  rewrite (proj2 (Z.eqb_neq _ 0)) by lia. reflexivity.
Qed.

Lemma playing_next n r off m : playing (S n) r off m -> (0 < n)%nat -> playing n r (off + 32) (played r off m).
Proof.
  intros [He Hl [Hn Hn'] Ha Hm Hp] Hn0. split; try done.
  - change (remaining_blocks_count (m_dsp m) - 1 = Z.of_nat n). lia.
  - lia.
  - change (current_source_address (m_dsp (played r off m))) with (current_source_address (m_dsp m) + 32). lia.
  - change (GetPointerForRange (current_source_address (m_dsp m) + 32) (32 * Z.of_nat n) (m_memory m) = Some (r, off + 32)).
    apply (pointer_sub _ (32 * Z.of_nat (S n))); done || lia.
Qed.

(** C38. The audio DMA.  A buffer of [n] blocks is sent to the mixer in [n] turns of the timer,
    each block once and in order; before the last turn no interrupt is raised, and with the
    last one the interrupt of the audio DMA is, while the next buffer that the CPU has
    set up, or the same one again, is started without a gap. *)
Theorem audio_dma_plays n r off m :
  playing n r off m ->
  (forall k, (k < n)%nat -> exists m', updates k m = Done tt m' /\
     m_samples m' = m_samples m ++ blocks k r off m /\ m_dsp_control (m_dsp m') = m_dsp_control (m_dsp m) /\
     remaining_blocks_count (m_dsp m') = Z.of_nat (n - k)) /\
  exists m', updates n m = Done tt m' /\
    m_samples m' = m_samples m ++ blocks n r off m /\
    Z.testbit (m_dsp_control (m_dsp m')) 3 = true /\ dsp_line m' /\
    current_source_address (m_dsp m') = SourceAddress (m_dsp m) /\
    remaining_blocks_count (m_dsp m') = NumBlocks (AudioDMAControl (m_dsp m)).
Proof.
  revert off m. induction n as [|n IH]; intros off m Hp; [by destruct Hp as [_ _ [? _]]; lia|].
  pose proof (UpdateAudioDMA_run (S n) r off m Hp) as E.
  assert (Hb : forall k o, blocks k r o (played r off m) = blocks k r o m)
    by (induction k; intros o; cbn [blocks]; [done | by rewrite IHk]).
  destruct (Nat.eqb_spec (S n) 1) as [H1|H1].
  - assert (n = O) as -> by lia. split.
    + intros k Hk. assert (k = O) as -> by lia. exists m. rewrite app_nil_r. by destruct Hp.
    + set (m1 := fset f_remaining_blocks_count _ _) in E. cbn [updates].
      unfold GenerateDSPInterrupt in E. rewrite (bind_done _ _ _ _ _ (run_modf _ _ _)) in E. set (m2 := fset f_m_dsp_control _ _) in E.
      destruct (UpdateInterrupts_spec m2) as (x & p & Eu & Hx & _). rewrite Eu in E.
      exists (fset mf_pi x (fset mf_timing (fset f_ppc_state p (m_timing m2)) m2)).
      split; [by rewrite (bind_done _ _ _ _ _ E)|]. split; [done|]. split; [|split; [|done]].
      * change (Z.testbit (m_dsp_control (m_dsp m) .| to_u16 (INT_AID .& ((INT_DSP .| INT_ARAM) .| INT_AID))) 3 = true).
        rewrite Z.lor_spec. apply orb_true_r.
      * pose proof (Hx 6 ltac:(lia)) as H6. exact H6.
  - pose proof (playing_next n r off m Hp ltac:(lia)) as Hp1. specialize (IH (off + 32) (played r off m) Hp1).
    destruct IH as [IHk IHn].
    assert (Hs : m_samples (played r off m) = m_samples m ++ [aslice (region_bytes r (m_memory m)) off 32]) by done.
    split.
    + intros [|k] Hk.
      * exists m. rewrite app_nil_r, Nat.sub_0_r. by destruct Hp.
      * destruct (IHk k ltac:(lia)) as (m' & E' & H2 & H3 & H4). exists m'.
        split; [cbn [updates]; by rewrite (bind_done _ _ _ _ _ E)|]. rewrite H2, Hs, Hb, <- app_assoc. done.
    + destruct IHn as (m' & E' & H2 & H3 & H4 & H5 & H6). exists m'.
      split; [cbn [updates]; by rewrite (bind_done _ _ _ _ _ E)|]. rewrite H2, Hs, Hb, <- app_assoc. done.
Qed.
End Audio.

Section Decrementer.
Context {heap : HeapAlgorithms} {laws : HeapLaws}.

(** The decrementer was loaded with [dec] when the clock showed [start]. *)
Definition loaded (dec start : Z) (t : Timing TimedCallback) : Prop :=
  fget t_m_fake_dec_start_value t = dec /\ fget t_m_fake_dec_start_ticks t = start.

Lemma ticks_bound {CB} (t : Timing CB) : slice_ok t -> - 2 ^ 16 <= ticks t < 2 ^ 62.
Proof.
  intros Ht. pose proof (to_now t (so_times t Ht)). pose proof (so_length t Ht). pose proof (so_downcount t Ht).
  unfold ticks. lia.
Qed.

Lemma GetFakeDecrementer_spec dec start m :
  slice_ok (m_timing m) -> loaded dec start (m_timing m) -> u32 dec -> start <= ticks (m_timing m) <= start + 12 * dec + 11 ->
  GetFakeDecrementer m = dec - (ticks (m_timing m) - start) / 12.
Proof.
  intros Ht [Hv Hs] Hd Hb. unfold GetFakeDecrementer. rewrite Hv, Hs, (GetTicks_spec _ Ht).
  pose proof (ticks_bound _ Ht). unfold uN in Hd.
  rewrite (wrapu_small 64) by (unfold uN; lia).
  rewrite (wrapu_small 32 (_ / _)) by (unfold uN; Z.div_mod_to_equations; lia).
  apply wrapu_small. unfold uN. Z.div_mod_to_equations. lia.
Qed.

(** Loading the decrementer: the event of an earlier value is replaced. *)
Lemma DecrementerSet_spec m :
  slice_ok (m_timing m) -> 0 <= ticks (m_timing m) ->
  let dec := get_spr SPR_DEC (ppc_state (m_timing m)) in
  0 <= dec < 2 ^ 31 ->
  let m' := DecrementerSet m in
  slice_ok (m_timing m') /\ ticks (m_timing m') = ticks (m_timing m) /\
  loaded dec (ticks (m_timing m)) (m_timing m') /\
  exists e, queue (m_timing m') ≡ₚ e :: filter (fun e => type e <> "DecCallback"%string) (queue (m_timing m)) /\
    type e = "DecCallback"%string /\ time e = ticks (m_timing m) + to_u32 (dec * 12).
Proof.
  intros Ht Hn0 dec Hd m'. unfold m', DecrementerSet. fold dec.
  assert (Hb : dec .& 0x80000000 = 0).
  { apply Z.bits_inj'. intros i Hi. rewrite Z.land_spec, Z.bits_0. change 0x80000000 with (2 ^ 31).
    rewrite Z.pow2_bits_eqb by lia. destruct (Z.eqb_spec 31 i) as [<-|]; [|apply andb_false_r].
    rewrite andb_true_r. apply (uN_bits 31 dec); [lia | lia | exact Hd | lia]. }
  rewrite Hb. cbn [Z.eqb].
  destruct (RemoveEvent_spec "DecCallback" (m_timing m) (so_heap _ Ht)) as (Hp & _ & Er).
  destruct (RemoveEvent_slice "DecCallback" (m_timing m) Ht) as [Ht0 Etk].
  set (t0 := RemoveEvent "DecCallback" (m_timing m)) in *.
  set (t1 := fset t_m_fake_dec_start_value dec (fset t_m_fake_dec_start_ticks (GetTicks t0) t0)).
  assert (Ht1 : slice_ok t1).
  { destruct Ht0 as [Hs Hti Hhe Hr Hl Hdc He]. split; [by split; apply Hs | by split; apply Hti | done..]. }
  assert (Et1 : ticks t1 = ticks (m_timing m)) by (rewrite <- Etk; done).
  pose proof (wrapu_range 32 (dec * TIMER_RATIO) ltac:(lia)) as Hw. unfold uN in Hw.
  assert (Em : m_timing (Schedule (to_u32 (dec * TIMER_RATIO)) "DecCallback" 0 (fset mf_timing t1 (fset mf_timing t0 m))) =
    ScheduleEvent (to_u32 (dec * TIMER_RATIO)) "DecCallback" 0 FromCPU true t1) by done.
  destruct (ScheduleEvent_spec (to_u32 (dec * TIMER_RATIO)) "DecCallback" 0 t1 Ht1) as (Hq & Hok & Htk); [lia|].
  change (m_timing (fset mf_timing t0 m)) with t0. fold t1. rewrite Em. split; [exact Hok|]. rewrite Htk, Et1.
  split; [done|]. split.
  - rewrite <- Etk, <- (GetTicks_spec t0 Ht0). unfold ScheduleEvent. rewrite (so_running _ Ht1).
    unfold ForceExceptionCheck, loaded. by destruct (_ <? _).
  - eexists. split; [etransitivity; [exact Hq|]; apply perm_skip; exact Hp|]. split; [done|]. cbn [time]. by rewrite Et1.
Qed.

(** The decrementer.  Loading it with a positive value replaces the event of the earlier
    value by one at which the register has counted down to zero and before which it has
    not, as long as twelve times the value fits 32 bits; from 357913942 on, 8.8 seconds of
    a GameCube, the product wraps around and the event comes while the register still
    reads a positive value. *)
Theorem decrementer_expires m :
  slice_ok (m_timing m) -> 0 <= ticks (m_timing m) ->
  let dec := get_spr SPR_DEC (ppc_state (m_timing m)) in
  0 <= dec < 2 ^ 31 ->
  let m' := DecrementerSet m in
  exists e, queue (m_timing m') ≡ₚ e :: filter (fun e => type e <> "DecCallback"%string) (queue (m_timing m)) /\
    type e = "DecCallback"%string /\
    slice_ok (m_timing m') /\ loaded dec (ticks (m_timing m)) (m_timing m') /\
    (forall m2, slice_ok (m_timing m2) -> loaded dec (ticks (m_timing m)) (m_timing m2) ->
       ticks (m_timing m) <= ticks (m_timing m2) <= time e ->
       (dec < 357913942 -> (GetFakeDecrementer m2 = 0 <-> time e <= ticks (m_timing m2))) /\
       (357913942 <= dec -> 0 < GetFakeDecrementer m2)).
Proof.
  intros Ht Hn0 dec Hd m'. destruct (DecrementerSet_spec m Ht Hn0 Hd) as (Hok & _ & Hl & e & Hq & Hty & Htime).
  exists e. split; [exact Hq|]. split; [done|]. split; [done|]. split; [done|]. intros m2 Ht2 Hl2 Hb.
  fold dec in Htime. rewrite Htime in *. split; intros Hdec.
  - rewrite (wrapu_small 32) in * by (unfold uN; lia).
    rewrite (GetFakeDecrementer_spec dec _ m2 Ht2 Hl2) by (unfold uN; lia).
    split; intros; Z.div_mod_to_equations; lia.
  - assert (Hw : to_u32 (dec * 12) <= dec * 12 - 2 ^ 32).
    { unfold wrapu. pose proof (Z.div_mod (dec * 12) (2 ^ 32) ltac:(lia)).
      pose proof (Z.div_le_lower_bound (dec * 12) (2 ^ 32) 1 ltac:(lia) ltac:(lia)). nia. }
    rewrite (GetFakeDecrementer_spec dec _ m2 Ht2 Hl2) by (unfold uN; lia).
    Z.div_mod_to_equations. lia.
Qed.
End Decrementer.
