(* ===== verification/SystemClock.v ===== *)
(** The whole machine under the scheduler: the callbacks of the DSP, the audio DMA, the
    ARAM DMA and the decrementer meet the contract [CoreTimingProps] has for callbacks,
    and an interrupt the DSP asks for reaches the CPU. *)
From stdpp Require Import base tactics option list gmap strings.
From Stdlib Require Import ZArith Lia Bool.
From S2P Require Import Prelude Accelerator DSPState PowerPC ProcessorInterface Memmap CoreTiming Machine.
From S2P Require Import DSPHardware DSPInterpreter DSPRun DSPLLE DSPManager SystemTimers.
From S2P Require Import CoreTimingProps HostProps PowerPCProps ManagerProps.

#[local] Open Scope Z_scope.

(** * Effects on the clock *)

Section Clock.
Context {heap : HeapAlgorithms} {laws : HeapLaws}.
Implicit Types (t : Timing TimedCallback) (m : Machine).

(** Within [Advance] the clock stands still. *)
Record stopped t : Prop := {
  st_sane : fget t_m_is_global_timer_sane t = true;
  st_now : 0 <= now t < 2 ^ 61;
  st_heap : is_heap (queue t)
}.

(** Some events have been queued, each as [P] says of the time that is. *)
Definition queues (P : Z -> Event -> Prop) t t' : Prop :=
  stopped t -> exists q i p new,
    t' = fset f_ppc_state p (fset t_m_event_queue q (fset t_m_event_fifo_id i t)) /\
    is_heap q /\ q ≡ₚ queue t ++ new /\ Forall (P (now t)) new.

#[export] Instance queues_preorder P : PreOrder (queues P).
Proof.
  split.
  - intros t [_ _ Hh]. exists (queue t), (fget t_m_event_fifo_id t), (ppc_state t), [].
    rewrite app_nil_r. split; [by destruct t as [[] ?]|]. done.
  - intros t t1 t2 H1 H2 Ht. destruct (H1 Ht) as (q & i & p & new & -> & Hh & Hq & Hn).
    destruct (H2 ltac:(by destruct Ht; split)) as (q' & i' & p' & new' & -> & Hh' & Hq' & Hn').
    exists q', i', p', (new ++ new'). split; [done|]. split; [done|]. split; [|by apply Forall_app].
    rewrite Hq'. change (queue (fset f_ppc_state p (fset t_m_event_queue q (fset t_m_event_fifo_id i t)))) with q.
    by rewrite Hq, app_assoc.
Qed.

Lemma queues_ppc P p t : queues P t (fset f_ppc_state p t).
Proof.
  intros [_ _ Hh]. exists (queue t), (fget t_m_event_fifo_id t), p, []. rewrite app_nil_r.
  split; [by destruct t as [[] ?]|]. done.
Qed.

(** Scheduling while the clock stands still. *)
Lemma ScheduleEvent_stopped c name u from t :
  stopped t -> from <> FromNonCPU -> - 2 ^ 62 <= now t + c < 2 ^ 62 ->
  exists q i j, ScheduleEvent c name u from true t = fset t_m_event_queue q (fset t_m_event_fifo_id i t) /\
    is_heap q /\ q ≡ₚ queue t ++ [mkEvent (now t + c) j u name].
Proof.
  intros Ht Hfrom Hr. pose proof (st_now t Ht) as Hn. pose proof (st_sane t Ht) as Hsane. unfold ScheduleEvent.
  rewrite Hsane.
  assert (Eg : to_s64 (GetTicks t + c) = now t + c).
  { unfold GetTicks. rewrite Hsane. change (fget t_global_timer t) with (now t).
    rewrite (wrapu_small 64) by (unfold uN; lia). apply wraps_small; unfold sN; lia. }
  rewrite Eg. set (e := mkEvent _ _ _ _).
  destruct (queue_push_spec e (next_fifo_id t) (st_heap t Ht)) as [Hp Hh].
  assert (E : (match from with FromAny => true | FromCPU => true | FromNonCPU => false end) = true) by (by destruct from).
  rewrite E. exists (push_heap (queue t ++ [e])), (to_u64 (fget t_m_event_fifo_id t + 1)), (fget t_m_event_fifo_id t).
  split; [done|]. split; [exact Hh|]. etransitivity; [exact Hp|]. apply Permutation_cons_append.
Qed.

Lemma queues_ScheduleEvent (P : Z -> Event -> Prop) c name u from t :
  from <> FromNonCPU ->
  (stopped t -> forall i, - 2 ^ 62 <= now t + c < 2 ^ 62 /\ P (now t) (mkEvent (now t + c) i u name)) ->
  queues P t (ScheduleEvent c name u from true t).
Proof.
  intros Hfrom HP Ht. destruct (HP Ht 0) as [Hr _].
  destruct (ScheduleEvent_stopped c name u from t Ht Hfrom Hr) as (q & i & j & -> & Hh & Hq).
  exists q, i, (ppc_state t), [mkEvent (now t + c) j u name]. split; [by destruct t as [[] ?]|].
  split; [done|]. split; [done|]. constructor; [by apply HP | done].
Qed.

(** What a computation that touches the machine does to the clock, leaving the settings it
    depends on. *)
Record clocked (P : Z -> Event -> Prop) m m' : Prop := {
  cl_queues : queues P (m_timing m) (m_timing m');
  cl_types : fget t_m_event_types (m_timing m') = fget t_m_event_types (m_timing m);
  cl_clock : m_cpu_core_clock m' = m_cpu_core_clock m;
  cl_divisor : m_aid_sample_rate_divisor m' = m_aid_sample_rate_divisor m;
  cl_count : Cnt (m_dsp m') = Cnt (m_dsp m)
}.

#[export] Instance clocked_preorder P : PreOrder (clocked P).
Proof.
  split; [by split|]. intros m m1 m2 [] []. split; [by etransitivity | congruence..].
Qed.

Lemma clocked_mono (P Q : Z -> Event -> Prop) m m' : (forall k e, P k e -> Q k e) -> clocked P m m' -> clocked Q m m'.
Proof.
  intros HPQ [Hq Ht Hc Hd]. split; [|done..]. intros Hs. destruct (Hq Hs) as (q & i & p & new & E & Hh & Hp & Hnew).
  exists q, i, p, new. split; [done|]. split; [done|]. split; [done|]. eapply Forall_impl; eauto.
Qed.

(** ** The CPU's interrupt *)

(** The DSP's interrupt is raised, its line is asserted, and the CPU's exception pending. *)
Record raised m : Prop := {
  ra_control : Z.testbit (m_dsp_control (m_dsp m)) 7 = true;
  ra_cause : Z.testbit (m_interrupt_cause (m_pi m)) 6 = true;
  ra_exception : Z.testbit (Exceptions (ppc_state (m_timing m))) 2 = true
}.

(** ... and nothing masks it. *)
Record unmasked m : Prop := {
  un_control : Z.testbit (m_dsp_control (m_dsp m)) 8 = true;
  un_mask : Z.testbit (m_interrupt_mask (m_pi m)) 6 = true;
  un_msr : Z.testbit (msr (ppc_state (m_timing m))) 15 = true
}.

(** The interrupt stays unmasked, and raised once it is. *)
Record keeps_request m m' : Prop := {
  kr_types : fget t_m_event_types (m_timing m') = fget t_m_event_types (m_timing m);
  kr_unmasked : unmasked m -> unmasked m';
  kr_raised : unmasked m -> raised m -> raised m'
}.

#[export] Instance keeps_request_preorder : PreOrder keeps_request.
Proof.
  split; [by split|]. intros m m1 m2 [] []. split; [congruence.. | auto | auto].
Qed.

(** The program stays where it is. *)
Definition same_npc m m' : Prop := npc (ppc_state (m_timing m')) = npc (ppc_state (m_timing m)).

#[export] Instance same_npc_preorder : PreOrder same_npc.
Proof. split; [done|]. intros m m1 m2 E1 E2. unfold same_npc. congruence. Qed.

(** Where the program is, and the interrupt once it is raised, survive. *)
Record preserves m m' : Prop := {
  ps_npc : npc (ppc_state (m_timing m')) = npc (ppc_state (m_timing m));
  ps_msr : msr (ppc_state (m_timing m')) = msr (ppc_state (m_timing m));
  ps_types : fget t_m_event_types (m_timing m') = fget t_m_event_types (m_timing m);
  ps_unmasked : unmasked m -> unmasked m';
  ps_raised : unmasked m -> raised m -> raised m'
}.

#[export] Instance preserves_preorder : PreOrder preserves.
Proof.
  split; [by split|]. intros m m1 m2 [] []. split; [congruence.. | auto | auto].
Qed.

Lemma preserves_request m m' : preserves m m' -> keeps_request m m'.
Proof. intros []. by split. Qed.

(** Both: [P] tells which events are queued. *)
Definition effect (P : Z -> Event -> Prop) m m' : Prop := clocked P m m' /\ preserves m m'.

#[export] Instance effect_preorder P : PreOrder (effect P).
Proof.
  split; [intros m; split; reflexivity|]. intros m m1 m2 [] []. split; by etransitivity.
Qed.

(** Nothing but members the clock and the interrupt do not depend on. *)
Lemma effect_same P m m' :
  m_timing m' = m_timing m -> m_pi m' = m_pi m -> m_dsp_control (m_dsp m') = m_dsp_control (m_dsp m) ->
  m_cpu_core_clock m' = m_cpu_core_clock m -> m_aid_sample_rate_divisor m' = m_aid_sample_rate_divisor m ->
  Cnt (m_dsp m') = Cnt (m_dsp m) -> effect P m m'.
Proof.
  intros Et Ep Ec Ek Ed En. split.
  - split; try done; rewrite Et; [reflexivity | done].
  - split; rewrite ?Et; try done; intros []; try intros []; split; by rewrite ?Et, ?Ep, ?Ec.
Qed.

Lemma effect_control P f m :
  (forall c, Z.testbit (f c) 8 = Z.testbit c 8 /\ (Z.testbit c 7 = true -> Z.testbit (f c) 7 = true)) ->
  effect P m (fset f_m_dsp_control (f (m_dsp_control (m_dsp m))) m).
Proof.
  intros Hf. destruct (Hf (m_dsp_control (m_dsp m))) as [H8 H7]. split; [split; [reflexivity | done..]|].
  split; try done.
  - intros [H ? ?]. split; [|done..]. change (Z.testbit (f (m_dsp_control (m_dsp m))) 8 = true). by rewrite H8.
  - intros _ [H ? ?]. split; [|done..]. by apply H7.
Qed.

(** A new state of the PowerPC that leaves the interrupt alone. *)
Lemma effect_ppc P p m :
  npc p = npc (ppc_state (m_timing m)) -> msr p = msr (ppc_state (m_timing m)) ->
  (Z.testbit (Exceptions (ppc_state (m_timing m))) 2 = true -> Z.testbit (Exceptions p) 2 = true) ->
  effect P m (fset mf_timing (fset f_ppc_state p (m_timing m)) m).
Proof.
  intros Hn Hm He. split; [split; [apply queues_ppc | done..]|]. split; try done.
  - intros [? ? H]. split; [done..|]. change (Z.testbit (msr p) 15 = true). by rewrite Hm.
  - intros _ [? ? H]. split; [done..|]. by apply He.
Qed.

Lemma effect_UpdateInterrupts P m :
  match UpdateInterrupts m with Done _ m' => effect P m m' | Fault _ => True end.
Proof.
  destruct (UpdateInterrupts_spec m) as (x & p & -> & Hx & Hm & ->).
  destruct (UpdateException_others x (ppc_state (m_timing m))) as (e & Ee & _).
  pose proof (UpdateException_line x (ppc_state (m_timing m))) as Hl. unfold line_ok in Hl. cbn [fst snd] in Hl.
  split; [split; [apply queues_ppc | done..]|]. split.
  - change (npc (UpdateException x (ppc_state (m_timing m))) = npc (ppc_state (m_timing m))). by rewrite Ee.
  - change (msr (UpdateException x (ppc_state (m_timing m))) = msr (ppc_state (m_timing m))). by rewrite Ee.
  - done.
  - intros [? H ?]. split; [done | by rewrite <- Hm in H|].
    change (Z.testbit (msr (UpdateException x (ppc_state (m_timing m)))) 15 = true). by rewrite Ee.
  - intros [H8 Hpm ?] [H7 ? ?]. assert (Hi : ints_set (m_dsp_control (m_dsp m)) = true).
    { rewrite ints_set_bits. unfold any_enabled. rewrite H7, H8. apply orb_true_r. }
    assert (Hc : Z.testbit (m_interrupt_cause x) 6 = true) by (rewrite Hx by lia; exact Hi).
    split; [done | exact Hc|].
    change (Z.testbit (Exceptions (UpdateException x (ppc_state (m_timing m)))) 2 = true). rewrite Hl.
    unfold asserted. apply negb_true_iff, Z.eqb_neq. intros H0.
    assert (Hb : Z.testbit (m_interrupt_cause x .& m_interrupt_mask x) 6 = true)
      by (by rewrite Z.land_spec, Hc, Hm, Hpm). by rewrite H0, Z.bits_0 in Hb.
Qed.

Lemma ScheduleEvent_preserves c name u from m :
  preserves m (fset mf_timing (ScheduleEvent c name u from true (m_timing m)) m).
Proof.
  set (t' := ScheduleEvent _ _ _ _ _ _).
  assert (Hp : exists d, ppc_state t' = fset p_downcount d (ppc_state (m_timing m)) /\
    fget t_m_event_types t' = fget t_m_event_types (m_timing m)).
  { assert (Ep : fset p_downcount (downcount (ppc_state (m_timing m))) (ppc_state (m_timing m)) = ppc_state (m_timing m))
      by (by destruct (ppc_state (m_timing m))).
    unfold t', ScheduleEvent. destruct from; [| eexists; (split; [symmetry; exact Ep | reflexivity]) |];
      (destruct (fget t_m_is_global_timer_sane _); [|unfold ForceExceptionCheck; destruct (_ <? _)];
       eexists; (split; [|reflexivity]); first [ reflexivity | symmetry; exact Ep ]). }
  destruct Hp as (d & Hd & Hty). split.
  - change (npc (ppc_state t') = npc (ppc_state (m_timing m))). by rewrite Hd.
  - change (msr (ppc_state t') = msr (ppc_state (m_timing m))). by rewrite Hd.
  - exact Hty.
  - intros [? ? H]. split; [done..|]. change (Z.testbit (msr (ppc_state t')) 15 = true). by rewrite Hd.
  - intros _ [? ? H]. split; [done..|]. change (Z.testbit (Exceptions (ppc_state t')) 2 = true). by rewrite Hd.
Qed.

Lemma effect_ScheduleEvent (P : Z -> Event -> Prop) c name u from m :
  from <> FromNonCPU ->
  (stopped (m_timing m) -> forall i, - 2 ^ 62 <= now (m_timing m) + c < 2 ^ 62 /\
     P (now (m_timing m)) (mkEvent (now (m_timing m) + c) i u name)) ->
  effect P m (fset mf_timing (ScheduleEvent c name u from true (m_timing m)) m).
Proof.
  intros Hf HP. pose proof (ScheduleEvent_preserves c name u from m) as Hp. split; [|exact Hp].
  split; [by apply queues_ScheduleEvent | apply Hp | done..].
Qed.
End Clock.

(** * The operations of the machine *)

Section Operations.
Context {heap : HeapAlgorithms} {laws : HeapLaws} (P : Z -> Event -> Prop).
Abbreviation on_machine := (acts (fun m : Machine => m) (effect P)).

Lemma effect_set_control f :
  (forall c, Z.testbit (f c) 8 = Z.testbit c 8 /\ (Z.testbit c 7 = true -> Z.testbit (f c) 7 = true)) ->
  on_machine (modf f_m_dsp_control f).
Proof. intros Hf m. by apply effect_control. Qed.

Lemma effect_update : on_machine UpdateInterrupts.
Proof. intros m. apply effect_UpdateInterrupts. Qed.

Lemma effect_GenerateDSPInterrupt t : on_machine (GenerateDSPInterrupt t).
Proof.
  apply acts_bind; [exact _ | | intros []; apply effect_update]. apply effect_set_control. intros c.
  rewrite !Z.lor_spec. unfold wrapu. rewrite !Z.mod_pow2_bits_low, !Z.land_spec by lia.
  change (Z.testbit ((INT_DSP .| INT_ARAM) .| INT_AID) 8) with false. rewrite andb_false_r, orb_false_r.
  split; [done|]. by intros ->.
Qed.

Lemma effect_CompleteARAM : on_machine CompleteARAM.
Proof.
  apply acts_bind; [exact _ | | intros []; apply effect_GenerateDSPInterrupt]. apply effect_set_control. intros c.
  by rewrite !set_bits_testbit by lia.
Qed.

Lemma effect_member {A} (F : field Machine A) f :
  (forall v m, m_timing (fset F v m) = m_timing m /\ m_pi (fset F v m) = m_pi m /\
     m_dsp_control (m_dsp (fset F v m)) = m_dsp_control (m_dsp m) /\
     m_cpu_core_clock (fset F v m) = m_cpu_core_clock m /\
     m_aid_sample_rate_divisor (fset F v m) = m_aid_sample_rate_divisor m /\
     Cnt (m_dsp (fset F v m)) = Cnt (m_dsp m)) ->
  on_machine (modf F f).
Proof. intros HF m. cbn. destruct (HF (f (fget F m)) m) as (? & ? & ? & ? & ? & ?). by apply effect_same. Qed.

Lemma effect_SendAIBuffer l : on_machine (SendAIBuffer l).
Proof. destruct l; [by apply effect_member | apply acts_ret; exact _]. Qed.

Lemma effect_decrementer m : effect P m (decrementer_callback m).
Proof.
  unfold decrementer_callback. apply effect_ppc; [done..|]. intros H.
  change (Exceptions (raise_exception EXCEPTION_DECREMENTER (set_spr SPR_DEC 0xFFFFFFFF (ppc_state (m_timing m)))))
    with (Exceptions (ppc_state (m_timing m)) .| EXCEPTION_DECREMENTER).
  by rewrite Z.lor_spec, H.
Qed.

Ltac member :=
  lazymatch goal with
  | |- acts _ (effect _) (modf _ _) => by apply effect_member
  | |- acts _ (effect _) (setf _ _) => intros ?; by apply effect_same
  end.
#[local] Hint Extern 1 (acts _ (effect _) _) => member : acts.
#[local] Hint Resolve effect_GenerateDSPInterrupt effect_SendAIBuffer : acts.

Lemma effect_UpdateAudioDMA : on_machine UpdateAudioDMA.
Proof. unfold UpdateAudioDMA. atac. Qed.
End Operations.

(** ** The DSP *)

(** The DSP asks for its interrupt, to be raised now. *)
Definition dsp_request (k : Z) (e : Event) : Prop :=
  type e = "DSPint"%string /\ time e = k /\ userdata e = INT_DSP.

Section DSP.
Context {heap : HeapAlgorithms} {laws : HeapLaws}.
Abbreviation on_system := (acts (@host Machine) (effect dsp_request)).

Lemma effect_request m : effect dsp_request m (GenerateDSPInterruptFromDSPEmu INT_DSP 0 m).
Proof.
  apply effect_ScheduleEvent; [done|]. intros Hs i. pose proof (st_now _ Hs). rewrite Z.add_0_r. split; [lia|]. done.
Qed.

(** Whatever its program does, a slice of DSP time only queues requests. *)
Lemma effect_DSP_Update c : on_system (DSP_Update c).
Proof.
  apply acts_DSP_Update; [exact _ | | | apply effect_request].
  - intros v a m. cbn. unfold ManagerWriteARAM, set_aram. destruct (wii_mode _); by apply effect_same.
  - intros a v m. by apply effect_same.
Qed.

Lemma acts_on_host {A} R (m : M Machine A) :
  acts (fun m => m) R m -> acts (@host Machine) R (machine f_host m).
Proof. intros Hm s. specialize (Hm (host s)). unfold machine, on. cbn. by destruct (m (host s)). Qed.

Lemma effect_UpdateDSPSlice c : on_system (UpdateDSPSlice f_host c).
Proof.
  unfold UpdateDSPSlice. cbn [IsLLE LLE]. unfold dspman.
  apply acts_bind; [exact _ | apply acts_on_host, acts_getf; exact _ | intros d].
  apply acts_bind; [exact _ | | intros []].
  - change (EmuUpdate (m_dsp_slice d)) with (ignore (DSP_Update (hst := machine_host) (m_dsp_slice d))).
    apply acts_bind; [exact _ | apply effect_DSP_Update | intros; apply acts_ret; exact _].
  - apply acts_bind; [exact _ | | intros []]; by apply acts_on_host, effect_member.
Qed.
End DSP.

(** * The callbacks *)

(** The events whose callbacks queue nothing that is already due. *)
Definition quick (name : string) : bool :=
  bool_decide (name = "DSPint"%string \/ name = "ARAMint"%string \/ name = "DecCallback"%string).

(** Events are registered under the names the code gives them. *)
Definition types_ok (types : gmap string TimedCallback) : Prop :=
  forall name cb, types !! name = Some cb ->
    match cb with
    | DSPCallback => name = "DSPCallback"%string
    | AudioDMACallback => name = "AudioDMACallback"%string
    | OtherCallback n => name = n
    | _ => True
    end.

(** The period of the audio DMA is positive and fits its type. *)
Definition rates_ok (m : Machine) : Prop :=
  13500000 <= m_cpu_core_clock m * m_aid_sample_rate_divisor m < 13500000 * 2 ^ 31.

(** The count of the ARAM DMA is one that the registers can hold. *)
Definition count_ok (c : Z) : Prop := dma_count c mod 8 = 0 /\ dma_count c < 2 ^ 26.

Record machine_ok (m : Machine) : Prop := {
  mo_rates : rates_ok m;
  mo_types : types_ok (fget t_m_event_types (m_timing m));
  mo_count : count_ok (Cnt (m_dsp m))
}.
Definition system_ok (s : State Machine) : Prop := machine_ok (host s).

Section Callbacks.
Context {heap : HeapAlgorithms} {laws : HeapLaws}.
Implicit Type t : Timing TimedCallback.

Lemma advancing_stopped t : advancing t -> stopped t.
Proof. intros Ht. split; [apply Ht | apply Ht | apply Ht]. Qed.

Lemma well_behaved_intro ev t q i p new :
  advancing t -> is_heap q -> q ≡ₚ queue t ++ new ->
  Forall (fun e => - 2 ^ 61 <= time e < 2 ^ 62 /\ time ev <= time e /\ (quick (type ev) = true -> ~ due t e)) new ->
  (length (filter (fun e => due t e /\ quick (type e) = false) new) <= 1)%nat ->
  (forall e, e ∈ new -> due t e -> quick (type e) = false -> time ev < time e) ->
  well_behaved quick ev t (fset f_ppc_state p (fset t_m_event_queue q (fset t_m_event_fifo_id i t))).
Proof.
  intros [Hs Ht Hh Hsane Hsl] Hq Hp Hnew Hone Hlt. rewrite Forall_forall in Hnew. split; [done| |].
  - split; [by split; apply Hs | | done | done | done]. split; [apply Ht|]. intros e He. change (e ∈ q) in He.
    rewrite Hp in He. apply elem_of_app in He as [He|He]; [by apply Ht | by apply Hnew].
  - exists new. split; [exact Hp|]. split; [intros e He; by apply Hnew|].
    split; [intros Hqk e He; by apply Hnew|]. done.
Qed.

(** A callback that queues nothing. *)
Lemma well_behaved_none ev m m' :
  effect (fun _ _ => False) m m' -> advancing (m_timing m) -> well_behaved quick ev (m_timing m) (m_timing m').
Proof.
  intros [[Hq _ _ _ _] _] Ha. destruct (Hq (advancing_stopped _ Ha)) as (q & i & p & new & -> & Hh & Hp & Hn).
  destruct new as [|e new]; [|by inversion Hn]. apply (well_behaved_intro ev _ q i p []); [done..| |].
  - cbn. lia.
  - intros e He. by apply not_elem_of_nil in He.
Qed.

(** A callback of a periodic event: requests of the DSP, and then its own next event. *)
Lemma well_behaved_periodic ev m m1 c :
  effect dsp_request m m1 -> advancing (m_timing m) -> due (m_timing m) ev -> - 2 ^ 61 <= time ev ->
  quick (type ev) = false -> 0 < c < 2 ^ 31 ->
  well_behaved quick ev (m_timing m)
    (ScheduleEvent (to_s64 (c - (now (m_timing m) - time ev))) (type ev) 0 FromCPU true (m_timing m1)).
Proof.
  intros [[Hq _ _ _ _] _] Ha Hd Hlo Hs Hc. pose proof (advancing_stopped _ Ha) as Hst.
  destruct (Hq Hst) as (q & i & p & new & -> & Hh & Hp & Hn). unfold due in Hd. pose proof (st_now _ Hst) as Hnow.
  set (t1 := fset f_ppc_state p _). assert (Hst1 : stopped t1) by (split; [apply Hst | apply Hst | exact Hh]).
  rewrite (wraps_small 64) by (unfold sN; lia).
  assert (En : now t1 = now (m_timing m)) by done.
  destruct (ScheduleEvent_stopped (c - (now (m_timing m) - time ev)) (type ev) 0 FromCPU t1 Hst1) as (q' & i' & j & -> & Hh' & Hq');
    [done | rewrite En; lia |].
  rewrite En in Hq'. replace (now (m_timing m) + (c - (now (m_timing m) - time ev))) with (time ev + c) in Hq' by lia.
  set (e := mkEvent _ _ _ _) in Hq'.
  change (fset t_m_event_queue q' (fset t_m_event_fifo_id i' t1)) with
    (fset f_ppc_state p (fset t_m_event_queue q' (fset t_m_event_fifo_id i' (m_timing m)))).
  assert (Hreq : forall x, x ∈ new -> dsp_request (now (m_timing m)) x) by (by rewrite Forall_forall in Hn).
  apply (well_behaved_intro ev _ q' i' p (new ++ [e])); try done.
  - rewrite Hq'. change (queue t1) with q. by rewrite Hp, app_assoc.
  - apply Forall_app_2; [|constructor; [cbn; split; [lia | split; [lia | congruence]] | done]].
    eapply Forall_impl; [exact Hn|]. intros x (_ & Ex & _). rewrite Ex. split; [lia | split; [lia | congruence]].
  - rewrite filter_app, length_app.
    assert (E0 : filter (fun e => due (m_timing m) e /\ quick (type e) = false) new = []).
    { apply elem_of_nil_inv. intros x [[_ Hf] Hx]%list_elem_of_filter. destruct (Hreq x Hx) as (Ht & _).
      rewrite Ht in Hf. done. }
    rewrite E0. pose proof (length_filter (fun e => due (m_timing m) e /\ quick (type e) = false) [e]). cbn in *. lia.
  - intros x Hx Hdx Hqx. apply elem_of_app in Hx as [Hx|Hx].
    + destruct (Hreq x Hx) as (Ht & _). rewrite Ht in Hqx. done.
    + apply list_elem_of_singleton in Hx as ->. cbn. lia.
Qed.
End Callbacks.

(** * The system

    What is asked of the callbacks of the devices that are not modelled: they keep the
    contract of [CoreTimingProps], and neither mask the DSP's interrupt nor take it
    back. *)
Class OtherLaws (other : string -> Z -> Z -> M (State Machine) unit) : Prop := {
  other_law : forall ev s,
    system_ok s -> advancing (m_timing (host s)) -> due (m_timing (host s)) ev -> - 2 ^ 61 <= time ev ->
    match other (type ev) (userdata ev) (now (m_timing (host s)) - time ev) s with
    | Done _ s' => system_ok s' /\ well_behaved quick ev (m_timing (host s)) (m_timing (host s'))
    | Fault _ => True
    end;
  other_request : forall name u late, acts (@host Machine) keeps_request (other name u late)
}.

Section System.
Context {heap : HeapAlgorithms} {laws : HeapLaws}.
Context (other : string -> Z -> Z -> M (State Machine) unit) {others : OtherLaws other}.
#[local] Instance sys : EventSystem (State Machine) TimedCallback := lle_system other.

Lemma system_ok_effect P s s' : effect P (host s) (host s') -> system_ok s -> system_ok s'.
Proof.
  intros [[_ Ht Hc Hd Hn] _] [Hr Hty Hcnt]. split; [unfold rates_ok; by rewrite Hc, Hd | by rewrite Ht | by rewrite Hn].
Qed.

(** A callback that does nothing but change the machine. *)
Lemma run_on_machine {A} (m : M Machine A) s :
  machine f_host m s = match m (host s) with Done a h => Done a (fset f_host h s) | Fault f => Fault f end.
Proof. done. Qed.

(** What a callback does, from a state of the invariant. *)
Definition callback_ok (ev : Event) (m : M (State Machine) unit) : Prop :=
  forall s, system_ok s -> advancing (m_timing (host s)) -> due (m_timing (host s)) ev -> - 2 ^ 61 <= time ev ->
  match m s with
  | Done _ s' => system_ok s' /\ well_behaved quick ev (m_timing (host s)) (m_timing (host s'))
  | Fault _ => True
  end.

Lemma callback_ok_none ev m :
  acts (@host Machine) (effect (fun _ _ => False)) m -> callback_ok ev m.
Proof.
  intros Hm s Hok Ha _ _. specialize (Hm s). destruct (m s) as [[] s'|f]; [|done].
  split; [by eapply system_ok_effect | by apply well_behaved_none].
Qed.

(** A periodic event's callback: [m], and its next event [c] cycles after this one. *)
Lemma callback_ok_periodic ev (m : M (State Machine) unit) (c : State Machine -> Z) :
  acts (@host Machine) (effect dsp_request) m -> quick (type ev) = false ->
  (forall s, system_ok s -> 0 < c s < 2 ^ 31) ->
  callback_ok ev (fun s => match m s with
    | Done _ s1 => Done tt (fset f_host (Schedule (to_s64 (c s1 - (now (m_timing (host s)) - time ev))) (type ev) 0 (host s1)) s1)
    | Fault f => Fault f end).
Proof.
  intros Hm Hq Hc s Hok Ha Hd Hlo. specialize (Hm s). destruct (m s) as [[] s1|f]; [|done].
  pose proof (system_ok_effect _ _ _ Hm Hok) as Hok1. set (k := to_s64 _).
  assert (He : effect (fun _ _ => True) (host s1) (Schedule k (type ev) 0 (host s1))).
  { apply effect_ScheduleEvent; [done|]. intros Hs i. split; [|done]. pose proof (st_now _ Hs).
    pose proof (wraps_range 64 (c s1 - (now (m_timing (host s)) - time ev)) ltac:(lia)) as Hk. fold k in Hk.
    pose proof (to_now _ (ad_times _ Ha)). unfold due in Hd. pose proof (Hc s1 Hok1).
    assert (Ek : k = c s1 - (now (m_timing (host s)) - time ev)) by (apply wraps_small; unfold sN; lia). lia. }
  split.
  - by apply (system_ok_effect (fun _ _ => True) s1).
  - exact (well_behaved_periodic ev _ _ (c s1) Hm Ha Hd Hlo Hq (Hc s1 Hok1)).
Qed.

Lemma audio_period_range m :
  rates_ok m -> 0 < GetAudioDMACallbackPeriod (m_cpu_core_clock m) (m_aid_sample_rate_divisor m) < 2 ^ 31.
Proof.
  intros Hr. unfold rates_ok in Hr. unfold GetAudioDMACallbackPeriod. change (108000000 * 4 / 32) with 13500000.
  rewrite (wrapu_small 64) by (unfold uN; lia).
  set (p := m_cpu_core_clock m * m_aid_sample_rate_divisor m) in *.
  assert (1 <= p / 13500000 < 2 ^ 31) by (Z.div_mod_to_equations; lia).
  rewrite wraps_small by (unfold sN; lia). lia.
Qed.

(** Every callback of the machine keeps the contract. *)
Lemma system_callback_ok ev s :
  system_ok s -> advancing (m_timing (host s)) -> due (m_timing (host s)) ev -> - 2 ^ 61 <= time ev ->
  match callback (type ev) (userdata ev) (now (m_timing (host s)) - time ev) s with
  | Done _ s' => system_ok s' /\ well_behaved quick ev (m_timing (host s)) (m_timing (host s'))
  | Fault _ => True
  end.
Proof.
  intros Hok Ha Hd Hlo. unfold callback. change (fget t_m_event_types (timing s)) with (fget t_m_event_types (m_timing (host s))).
  destruct (fget t_m_event_types (m_timing (host s)) !! type ev) as [cb|] eqn:Ety; [|done].
  pose proof (mo_types _ Hok _ _ Ety) as Hname.
  cbn [invoke sys lle_system invoke_callback]. destruct cb as [| | | | | |name]; cbn [invoke_callback].
  - apply (callback_ok_none ev (mret tt)); [apply acts_ret; exact _ | done..].
  - apply (callback_ok_none ev (machine f_host (GenerateDSPInterrupt (userdata ev)))); [|done..].
    apply acts_on_host, effect_GenerateDSPInterrupt.
  - apply (callback_ok_none ev (machine f_host CompleteARAM)); [|done..]. apply acts_on_host, effect_CompleteARAM.
  - set (late := now _ - _). assert (Hq : quick (type ev) = false) by (by rewrite Hname).
    pose proof (callback_ok_periodic ev (UpdateDSPSlice f_host (to_s32 (12600 - late))) (fun _ => 12600)
      (effect_UpdateDSPSlice _) Hq ltac:(lia) s Hok Ha Hd Hlo) as H.
    rewrite Hname in H. exact H.
  - assert (Hq : quick (type ev) = false) by (by rewrite Hname).
    pose proof (callback_ok_periodic ev (machine f_host UpdateAudioDMA)
      (fun s => GetAudioDMACallbackPeriod (m_cpu_core_clock (host s)) (m_aid_sample_rate_divisor (host s)))
      (acts_on_host _ _ (effect_UpdateAudioDMA _)) Hq (fun s Hs => audio_period_range _ (mo_rates _ Hs)) s Hok Ha Hd Hlo) as H.
    rewrite Hname in H. exact H.
  - apply (callback_ok_none ev (modf f_host decrementer_callback)); [|done..].
    intros s0. apply effect_decrementer.
  - rewrite <- Hname. by apply (other_law ev s).
Qed.

#[export] Instance system_callbacks : CallbackLaws (CB := TimedCallback) system_ok quick.
Proof.
  split; [done | | done |].
  - intros s t [Hr Hty Hc] Et. split; [exact Hr | | exact Hc]. change (types_ok (fget t_m_event_types t)). rewrite Et. exact Hty.
  - intros ev s Hok Ha Hd Hlo. pose proof (system_callback_ok ev s Hok Ha Hd Hlo) as H.
    change (timing s) with (m_timing (host s)).
    by destruct (callback _ _ _ s) as [[] s'|f].
Qed.

(** ** An interrupt on its way *)

Lemma acts_preserves {A} P (m : M (State Machine) A) :
  acts (@host Machine) (effect P) m -> acts (@host Machine) preserves m.
Proof. intros Hm s. specialize (Hm s). destruct (m s); [apply Hm | done]. Qed.

Lemma callback_keeps (R : Machine -> Machine -> Prop) {HR : PreOrder R} name u late :
  (forall m m', preserves m m' -> R m m') -> (forall n, acts (@host Machine) R (other n u late)) ->
  acts (@host Machine) R (callback name u late).
Proof.
  intros HP Ho.
  assert (Hsub : forall A (m : M (State Machine) A), acts (@host Machine) preserves m -> acts (@host Machine) R m)
    by (intros A m Hm s; specialize (Hm s); destruct (m s); [by apply HP | done]).
  assert (Hsched : forall c n, acts (@host Machine) preserves (modf f_host (Schedule c n 0)))
    by (intros c n s; apply ScheduleEvent_preserves).
  intros s. unfold callback. destruct (_ !! name) as [cb|]; [|done]. revert s.
  change (acts (@host Machine) R (invoke_callback f_host other cb u late)).
  destruct cb as [| | | | | |n]; cbn [invoke_callback].
  - by apply acts_ret.
  - apply Hsub, (acts_preserves (fun _ _ => True)), acts_on_host, effect_GenerateDSPInterrupt.
  - apply Hsub, (acts_preserves (fun _ _ => True)), acts_on_host, effect_CompleteARAM.
  - apply Hsub, acts_bind; [exact _ | apply (acts_preserves dsp_request), effect_UpdateDSPSlice | intros []; apply Hsched].
  - apply Hsub, acts_bind; [exact _ | | intros []].
    + apply (acts_preserves (fun _ _ => True)), acts_on_host, effect_UpdateAudioDMA.
    + apply acts_bind; [exact _ | apply acts_getf; exact _ | intros m; apply Hsched].
  - apply Hsub. intros s. apply (effect_decrementer (fun _ _ => True)).
  - apply Ho.
Qed.

(** The request itself. *)
Lemma request_raises s s' late :
  fget t_m_event_types (m_timing (host s)) !! "DSPint"%string = Some GlobalGenerateDSPInterrupt ->
  unmasked (host s) -> callback "DSPint" INT_DSP late s = Done tt s' -> raised (host s').
Proof.
  intros Hty Hu E. unfold callback in E. change (fget t_m_event_types (timing s)) with (fget t_m_event_types (m_timing (host s))) in E.
  rewrite Hty in E. change (machine f_host (GenerateDSPInterrupt INT_DSP) s = Done tt s') in E.
  rewrite run_on_machine in E. unfold GenerateDSPInterrupt in E. rewrite (bind_done _ _ _ _ _ (run_modf _ _ _)) in E.
  set (m1 := fset f_m_dsp_control _ _) in E.
  assert (Hc : m_dsp_control (m_dsp m1) = m_dsp_control (m_dsp (host s)) .| INT_DSP) by done.
  destruct (UpdateInterrupts_spec m1) as (x & p & Eu & Hx & Hm & Hp). rewrite Eu in E. injection E as <-.
  destruct Hu as [H8 Hpm _].
  assert (H7 : Z.testbit (m_dsp_control (m_dsp m1)) 7 = true) by (rewrite Hc, Z.lor_spec; apply orb_true_r).
  assert (H8' : Z.testbit (m_dsp_control (m_dsp m1)) 8 = true) by (by rewrite Hc, Z.lor_spec, H8).
  assert (Hcause : Z.testbit (m_interrupt_cause x) 6 = true).
  { rewrite Hx by lia. change (ints_set (m_dsp_control (m_dsp m1)) = true). rewrite ints_set_bits. unfold any_enabled.
    rewrite H7, H8'. apply orb_true_r. }
  split; [exact H7 | exact Hcause|].
  change (Z.testbit (Exceptions p) 2 = true).
  pose proof (UpdateException_line x (ppc_state (m_timing m1))) as Hl. unfold line_ok in Hl. cbn [fst snd] in Hl.
  rewrite Hp, Hl. unfold asserted. apply negb_true_iff, Z.eqb_neq. intros H0.
  assert (Hb : Z.testbit (m_interrupt_cause x .& m_interrupt_mask x) 6 = true)
    by (by rewrite Z.land_spec, Hcause, Hm). by rewrite H0, Z.bits_0 in Hb.
Qed.

Lemma fires_keeps (R : Machine -> Machine -> Prop) {HR : PreOrder R} s evs s' :
  (forall m m', preserves m m' -> R m m') -> (forall name u late, acts (@host Machine) R (other name u late)) ->
  fires s evs s' -> R (host s) (host s').
Proof.
  intros HP Ho Hf. induction Hf as [s Hn|s ev q s1 evs s2 Hq Hmin Hd Hcb Hf IH]; [reflexivity|].
  set (s0 := fset f_timing _ s) in Hcb.
  assert (H0 : R (host s) (host s0)) by (apply HP; split; try done; intros []; try intros []; by split).
  pose proof (acts_done _ _ _ s0 _ s1 (callback_keeps R _ _ _ HP (fun n => Ho n _ _)) Hcb) as H1.
  by do 2 (etransitivity; [eassumption|]).
Qed.

Lemma fires_raises s evs s' :
  fires s evs s' -> keeps_request (host s) (host s') /\
  (forall ev, ev ∈ evs -> type ev = "DSPint"%string -> userdata ev = INT_DSP ->
     fget t_m_event_types (m_timing (host s)) !! "DSPint"%string = Some GlobalGenerateDSPInterrupt ->
     unmasked (host s) -> raised (host s')).
Proof.
  intros Hf. split; [by apply (fires_keeps _ s evs s' preserves_request other_request)|].
  induction Hf as [s Hn|s ev q s1 evs s2 Hq Hmin Hd Hcb Hf IHr].
  - intros ev Hev. by apply not_elem_of_nil in Hev.
  - set (s0 := fset f_timing _ s) in Hcb.
    assert (Hu0 : unmasked (host s) -> unmasked (host s0)) by (intros []; by split).
    pose proof (acts_done _ _ _ s0 _ s1 (callback_keeps keeps_request _ _ _ preserves_request
      (fun n => other_request n _ _)) Hcb) as H1.
    pose proof (fires_keeps _ s1 evs s2 preserves_request other_request Hf) as H2.
    intros e He Hty Hud Hreg Hu. specialize (Hu0 Hu). assert (Hu1 : unmasked (host s1)) by (by apply H1).
    apply elem_of_cons in He as [->|He].
    + apply (kr_raised _ _ H2); [done|]. rewrite Hty, Hud in Hcb.
      eapply request_raises; [|exact Hu0 | exact Hcb]. exact Hreg.
    + apply (IHr e He Hty Hud); [|done]. by rewrite (kr_types _ _ H1).
Qed.

(** What [Advance] leaves of the CPU before it sets up the next slice. *)
Lemma advance_started_ppc s :
  ppc_state (m_timing (host (advance_started (sys := sys) s))) = ppc_state (m_timing (host s)) /\
  fget t_m_event_types (m_timing (host (advance_started (sys := sys) s))) = fget t_m_event_types (m_timing (host s)).
Proof.
  assert (Hpp : forall l (t : Timing TimedCallback), ppc_state (foldl (fun t ev => move_event ev t) t l) = ppc_state t)
    by (induction l as [|e l IH]; intros t; [done|]; cbn [foldl]; by rewrite IH).
  split; [|apply MoveEvents_types].
  change (ppc_state (MoveEvents (m_timing (host s))) = ppc_state (m_timing (host s))). unfold MoveEvents. by rewrite Hpp.
Qed.

Lemma start_slice_ppc (t : Timing TimedCallback) :
  exists d, ppc_state (start_slice t) = CheckExternalExceptions (fset p_downcount d (ppc_state t)).
Proof. unfold start_slice. destruct (fget t_m_event_queue _); eexists; reflexivity. Qed.

(** C1. From the DSP to the CPU.  On the whole machine, an interrupt the DSP has asked for, with
    nothing masking it, is taken by the CPU at the end of the next [Advance], unless a
    callback faults: the CPU continues at the external interrupt's vector with interrupts
    off, and what it will return to is where the program stands when the events have
    run.  That is the instruction it was about to execute, if no callback of a device
    that is not modelled moves the program; the handler of the Gecko codes, which
    PatchEngine's callback runs when cheats are on, does, and the CPU then returns to
    it.  Of the callbacks that are not modelled the theorem assumes the scheduler's
    contract and that they neither mask nor withdraw the DSP's interrupt
    ([OtherLaws]). *)
Theorem dsp_interrupt_taken s ev :
  system_ok s -> slice_ok (m_timing (host s)) -> ticks (m_timing (host s)) < 2 ^ 61 -> waiting_ok (m_timing (host s)) ->
  fget t_m_event_types (m_timing (host s)) !! "DSPint"%string = Some GlobalGenerateDSPInterrupt ->
  unmasked (host s) ->
  ev ∈ queue (m_timing (host s)) -> type ev = "DSPint"%string -> userdata ev = INT_DSP ->
  time ev <= ticks (m_timing (host s)) ->
  exists n, forall k, (n <= k)%nat ->
    match Advance (CB := TimedCallback) k s with
    | Fault _ => True
    | Done None _ => False
    | Done (Some _) s' =>
        let p' := ppc_state (m_timing (host s')) in
        pc p' = 0x500 /\ npc p' = 0x500 /\ Z.testbit (msr p') 15 = false /\
        Z.testbit (m_dsp_control (m_dsp (host s'))) 7 = true /\
        (exists evs s1, fires (advance_started s) evs s1 /\ ev ∈ evs /\
           get_spr SPR_SRR0 p' = npc (ppc_state (m_timing (host s1)))) /\
        ((forall name u late, acts (@host Machine) same_npc (other name u late)) ->
           get_spr SPR_SRR0 p' = npc (ppc_state (m_timing (host s))))
    end.
Proof.
  intros Hok Hs Htk Hw Hreg Hu Hev Hty Hud Htime.
  destruct (Advance_spec (sys := sys) (I := system_ok) (quick := quick) s Hok (slice_resting _ Hs) Htk Hw) as [n Hn].
  exists n. intros k Hk. specialize (Hn k Hk). destruct (Advance k s) as [[[]|] s'|f]; [|done..].
  destruct Hn as (s0 & moved & evs & new & s1 & _ & _ & Hn0 & Hq0 & _ & Es0 & Hf & Es' & E' & Hp & _ & Hnd & _ & Hn1 & _).
  assert (Hin : ev ∈ evs).
  { assert (Hin : ev ∈ evs ++ queue (timing (CB := TimedCallback) s1)) by (rewrite <- Hp, Hq0, !elem_of_app; auto).
    apply elem_of_app in Hin as [Hin|Hin]; [done|]. destruct (Hnd ev Hin). unfold due.
    rewrite Hn1, Hn0. exact Htime. }
  destruct (advance_started_ppc s) as [Hpp0 Hty0]. rewrite <- Es0 in *.
  assert (Hu0 : unmasked (host s0)) by (destruct Hu; split; [by rewrite Es0 | by rewrite Es0 | by rewrite Hpp0]).
  destruct (fires_raises _ _ _ Hf) as [Hkeep Hr].
  assert (Hraised : raised (host s1)) by (apply (Hr ev Hin Hty Hud); [by rewrite Hty0 | done]).
  pose proof (kr_unmasked _ _ Hkeep Hu0) as Hu1.
  destruct (start_slice_ppc (m_timing (host s1))) as [d Ep].
  assert (Ep' : ppc_state (m_timing (host s')) = CheckExternalExceptions (fset p_downcount d (ppc_state (m_timing (host s1)))))
    by (by rewrite Es').
  cbn zeta. rewrite Ep'.
  destruct (CheckExternalExceptions_taken (fset p_downcount d (ppc_state (m_timing (host s1)))) 2 0x500) as [T1 T2 T3 _ T5 _ _].
  - apply Hu1.
  - rewrite first_pending_eq.
    change (Exceptions (fset p_downcount d (ppc_state (m_timing (host s1))))) with (Exceptions (ppc_state (m_timing (host s1)))).
    by rewrite (ra_exception _ Hraised).
  - do 3 (split; [done|]). split; [rewrite Es'; exact (ra_control _ Hraised)|]. rewrite T3.
    split; [by exists evs, s1|]. intros Hsame.
    transitivity (npc (ppc_state (m_timing (host s0)))); [|by rewrite Hpp0].
    exact (fires_keeps same_npc s0 evs s1 ps_npc Hsame Hf).
Qed.
End System.
