(* ===== verification/HWInit.v ===== *)
(** Start-up and the main loop of the emulated hardware ([Core/HW/HW.cpp] and
    [Interpreter::Run]): the machine as it is built and initialised. *)
From stdpp Require Import base tactics option list gmap strings.
From Stdlib Require Import ZArith Lia Bool.
From S2P Require Import Prelude Float32 DSPState PowerPC ProcessorInterface Memmap CoreTiming Machine DSPManager SystemTimers.

#[local] Open Scope Z_scope.

(** * The objects as constructed

    [m_cpu_core_clock] is 486000000, the sample rate divisor that of 32 kHz. *)
Definition ppc_constructed : PPCState := mkPPC 0 0 ∅ ∅ 0 0 0 0 ∅ 0 0 0 ∅ false 0 0 ∅ ∅.
Definition timing_constructed {CB} : Timing CB :=
  mkTiming (mkCoreTiming 0 0 0 0 f32_one ∅ [] 0 [] f32_one 0 0 0 false None f32_one f32_one false 0 0 0) ppc_constructed.
Definition memory_constructed : MemoryManager := mkMemory ∅ None 0 0 0 0 0 0.
Definition dsp_constructed : DSPManager := mkDSPManager false 0 0 ∅ 0 0 0 0 0 0 0 0 0 0 0 0.
Definition machine_constructed (wii : bool) : Machine := {|
  m_timing := timing_constructed;
  m_memory := memory_constructed;
  m_pi := mkPI 0 0 0 0 0 0;
  m_dsp := dsp_constructed;
  m_hsp := NoDevice;
  m_cpu_core_clock := 486000000;
  m_aid_sample_rate_divisor := 3375;
  m_samples := [];
  m_is_wii := wii
|}.

(** * [HW::Init]

    The parts of the hardware that are not modelled are left out. *)
Section Init.
Context {heap : HeapAlgorithms}.

Definition Register (name : string) (cb : TimedCallback) (m : Machine) : Machine :=
  fset mf_timing (RegisterEvent name cb (m_timing m)) m.

Definition InitCoreTiming (overclock_enable : bool) (overclock : SpecFloat.spec_float) (sync_on_skip_idle : bool)
    (m : Machine) : Machine :=
  fset mf_timing (CoreTiming.Init EmptyTimedCallback overclock_enable overclock sync_on_skip_idle (m_timing m)) m.

(** The processor interface also registers the events of the console's buttons. *)
Definition InitProcessorInterface (m : Machine) : Machine :=
  let reg name := Register name (OtherCallback name) in
  reg "IOSNotifyPowerButton"%string (reg "IOSNotifyResetButton"%string (reg "ToggleResetButton"%string (fset mf_pi PI_Init m))).

Definition InitMemory (mem1_size mem2_size : Z) (m : Machine) : Machine :=
  fset mf_memory (Memory_Init (m_is_wii m) mem1_size mem2_size) m.

Definition HW_Init (overclock_enable : bool) (overclock : SpecFloat.spec_float) (sync_on_skip_idle : bool)
    (mem1_size mem2_size emulated_time vi_half_line vi_field : Z) (m : Machine) : Machine :=
  TimersInit emulated_time vi_half_line vi_field
    (DSPManager.Init
      (InitMemory mem1_size mem2_size
        (InitProcessorInterface
          (PreInit
            (InitCoreTiming overclock_enable overclock sync_on_skip_idle m))))).
End Init.

(** A console at normal speed with the memories it was sold with. *)
Definition machine_started {heap : HeapAlgorithms} (wii : bool) : Machine :=
  HW_Init false f32_one false MEM1_SIZE_RETAIL MEM2_SIZE_RETAIL 0 15444 8108100 (machine_constructed wii).
