(* ===== verification/SystemRun.v ===== *)
(** The machine from start-up on: the scheduler's invariant holds in every state that the
    CPU's main loop reaches. *)
From stdpp Require Import base tactics option list gmap strings.
From Stdlib Require Import ZArith Lia Bool.
From S2P Require Import Prelude Accelerator DSPState PowerPC ProcessorInterface Memmap CoreTiming Machine.
From S2P Require Import DSPHardware DSPInterpreter DSPRun DSPLLE DSPManager SystemTimers HWInit Float32.
From S2P Require Import CoreTimingProps HostProps PowerPCProps ManagerProps SystemClock.

#[local] Open Scope Z_scope.

(** * The invariant of the machine between two [Advance]s *)

Section Invariant.
Context {heap : HeapAlgorithms} {laws : HeapLaws}.
Implicit Type m : Machine.

Record running m : Prop := {
  rn_machine : machine_ok m;
  rn_slice : slice_ok (m_timing m)
}.

Definition keeps_running m m' : Prop := running m -> running m'.
#[export] Instance keeps_running_preorder : PreOrder keeps_running.
Proof. unfold keeps_running. split; [intros m; tauto | intros m1 m2 m3; tauto]. Qed.

(** Registers the clock does not depend on. *)
Lemma running_same m m' :
  m_timing m' = m_timing m -> m_cpu_core_clock m' = m_cpu_core_clock m ->
  m_aid_sample_rate_divisor m' = m_aid_sample_rate_divisor m -> Cnt (m_dsp m') = Cnt (m_dsp m) -> keeps_running m m'.
Proof.
  intros Et Ec Ed En [[Hr Hty Hc] Hs].
  split; [split; [unfold rates_ok; by rewrite Ec, Ed | by rewrite Et | by rewrite En] | by rewrite Et].
Qed.

(** A new clock that still is in its slice. *)
Lemma running_timing (t : Timing TimedCallback) m :
  (slice_ok (m_timing m) -> slice_ok t /\ fget t_m_event_types t = fget t_m_event_types (m_timing m)) ->
  keeps_running m (fset mf_timing t m).
Proof.
  intros Ht [[Hr Hty Hc] Hs]. destruct (Ht Hs) as [Hs' Et]. split; [split; [exact Hr | | exact Hc] | exact Hs'].
  change (types_ok (fget t_m_event_types t)). by rewrite Et.
Qed.

Lemma ScheduleEvent_types c name u from b (t : Timing TimedCallback) :
  fget t_m_event_types (ScheduleEvent c name u from b t) = fget t_m_event_types t.
Proof.
  unfold ScheduleEvent, ForceExceptionCheck. destruct from, b; try done;
    (destruct (fget t_m_is_global_timer_sane t); [done|]; by destruct (_ <? _)).
Qed.

Lemma running_schedule c name u from m :
  from <> FromNonCPU -> 0 <= c < 2 ^ 60 ->
  keeps_running m (fset mf_timing (ScheduleEvent c name u from true (m_timing m)) m).
Proof.
  intros Hf Hc. apply running_timing. intros Hs. split; [|apply ScheduleEvent_types].
  destruct (ScheduleEvent_spec c name u (m_timing m) Hs Hc) as (_ & H & _). by destruct from.
Qed.

Lemma running_force c m :
  0 <= c < 2 ^ 60 -> keeps_running m (fset mf_timing (CoreTiming.ForceExceptionCheck c (m_timing m)) m).
Proof.
  intros Hc. apply running_timing. intros Hs.
  destruct (ForceExceptionCheck_spec c (m_timing m) Hs Hc) as (_ & H & _). split; [exact H|].
  unfold CoreTiming.ForceExceptionCheck. by destruct (_ <? _).
Qed.

(** A new state of the PowerPC with the same downcount. *)
Lemma slice_ok_ppc p (t : Timing TimedCallback) :
  downcount p = downcount (ppc_state t) -> slice_ok t -> slice_ok (fset f_ppc_state p t).
Proof.
  intros Ed [Hs Ht Hh Hr Hl Hd He]. split; [by split; apply Hs | by split; apply Ht | done..| | done].
  change (fget t_downcount (fset f_ppc_state p t)) with (downcount p). rewrite Ed. exact Hd.
Qed.

Lemma running_UpdateInterrupts : acts (fun m => m) keeps_running UpdateInterrupts.
Proof.
  intros m. destruct (UpdateInterrupts_spec m) as (x & p & -> & _ & _ & Hp).
  set (t := fset f_ppc_state p (m_timing m)). transitivity (fset mf_timing t m); [|by apply running_same].
  apply running_timing. intros Hs. split; [|done]. apply slice_ok_ppc; [|done].
  rewrite Hp. destruct (UpdateException_others x (ppc_state (m_timing m))) as (e & -> & _). done.
Qed.

(** ** The registers *)

Abbreviation on_machine := (acts (fun m : Machine => m) keeps_running).

Lemma running_member {A} (F : field Machine A) f :
  (forall v m, m_timing (fset F v m) = m_timing m /\ m_cpu_core_clock (fset F v m) = m_cpu_core_clock m /\
     m_aid_sample_rate_divisor (fset F v m) = m_aid_sample_rate_divisor m /\
     Cnt (m_dsp (fset F v m)) = Cnt (m_dsp m)) ->
  on_machine (modf F f).
Proof. intros HF m. cbn. destruct (HF (f (fget F m)) m) as (? & ? & ? & ?). by apply running_same. Qed.

Lemma running_count f : (forall c, count_ok c -> count_ok (f c)) -> on_machine (modf f_Cnt f).
Proof. intros Hf m [[Hr Hty Hc] Hs]. split; [split; [done | done | by apply Hf] | done]. Qed.

Lemma running_GenerateDSPInterrupt t : on_machine (GenerateDSPInterrupt t).
Proof. apply acts_bind; [exact _ | by apply running_member | intros []; apply running_UpdateInterrupts]. Qed.

Lemma running_aram a m : keeps_running m (set_aram a m).
Proof. unfold set_aram. destruct (wii_mode _); by apply running_same. Qed.

(** ** The ARAM DMA *)

(** The bits the registers hold at zero. *)
Lemma count_ok_bits c : count_ok c <-> forall i, 0 <= i < 3 \/ 26 <= i < 31 -> Z.testbit c i = false.
Proof.
  assert (Hb : forall i, 0 <= i < 31 -> Z.testbit (dma_count c) i = Z.testbit c i).
  { intros i Hi. unfold dma_count. change 0x7fffffff with (2 ^ 31 - 1). rewrite land_wrapu by lia.
    apply Z.mod_pow2_bits_low. lia. }
  pose proof (dma_count_bound c) as Hd. unfold count_ok. change 8 with (2 ^ 3). split.
  - intros [Hm Hl] i [Hi|Hi]; rewrite <- Hb by lia.
    + rewrite <- (Z.mod_pow2_bits_low (dma_count c) 3 i) by lia. rewrite Hm. apply Z.bits_0.
    + apply (uN_bits 26); unfold uN; lia.
  - intros Hz. split.
    + apply Z.bits_inj'. intros i Hi. rewrite Z.bits_0. destruct (Z.lt_ge_cases i 3).
      * rewrite Z.mod_pow2_bits_low, Hb by lia. apply Hz. lia.
      * by apply Z.mod_pow2_bits_high.
    + apply (uN_bits 26); [lia | lia |]. intros i Hi. destruct (Z.lt_ge_cases i 31); [rewrite Hb by lia; apply Hz; lia|].
      apply (uN_bits 31 (dma_count c)); [lia | lia | exact Hd | done].
Qed.

Lemma held_bits i : 0 <= i < 3 \/ 26 <= i < 31 -> i ∈ [0; 1; 2; 26; 27; 28; 29; 30].
Proof. rewrite !elem_of_cons. lia. Qed.

Lemma count_ok_high x v : count_ok x -> count_ok (put_high x (v .& (WMASK_AR_HI_RESTRICT .| WMASK_AR_CNT_DIR_BIT))).
Proof.
  rewrite !count_ok_bits. intros Hx i Hi. pose proof (Hx i Hi) as Hxi. unfold put_high.
  rewrite Z.lor_spec, Z.shiftl_spec, !Z.land_spec, Hxi by lia. apply held_bits in Hi.
  repeat (apply elem_of_cons in Hi as [->|Hi]; [cbn; by rewrite ?andb_false_r|]). by apply not_elem_of_nil in Hi.
Qed.

Lemma count_ok_low x v : count_ok x -> count_ok (put_low x (v .& WMASK_LO_ALIGN_32BIT)).
Proof.
  rewrite !count_ok_bits. intros Hx i Hi. pose proof (Hx i Hi) as Hxi. unfold put_low.
  rewrite Z.lor_spec, !Z.land_spec, Hxi. apply held_bits in Hi.
  repeat (apply elem_of_cons in Hi as [->|Hi]; [cbn; by rewrite ?andb_false_r|]). by apply not_elem_of_nil in Hi.
Qed.

Lemma running_advanced m : running m -> dma_count (Cnt (m_dsp m)) <> 0 -> running (advanced m).
Proof.
  intros [[Hr Hty [Hm Hl]] Hs] Hne. pose proof (dma_count_bound (Cnt (m_dsp m))).
  assert (8 <= dma_count (Cnt (m_dsp m))) by (Z.div_mod_to_equations; lia).
  split; [split; [exact Hr | exact Hty |] | exact Hs]. change (count_ok (advance_cnt (Cnt (m_dsp m)))).
  unfold count_ok. rewrite advance_cnt_count by lia. split; [Z.div_mod_to_equations; lia | lia].
Qed.

Lemma running_while n body : leaves_count body -> on_machine body -> on_machine (while_count n body).
Proof.
  intros Hl Hb. induction n as [|n IH]; intros m; cbn [while_count]; [cbn; reflexivity|].
  rewrite (bind_done _ _ _ _ _ (run_getf _ _)). change (fget f_Cnt m) with (Cnt (m_dsp m)).
  destruct (Z.eqb_spec (dma_count (Cnt (m_dsp m))) 0) as [|Hne]; [cbn; reflexivity|].
  specialize (Hl m). specialize (Hb m). unfold mbind at 1, M_bind at 1. destruct (body m) as [[] m1|f]; [|done].
  rewrite (bind_done _ _ _ _ _ (run_dma_advance m1)). specialize (IH (advanced m1)).
  destruct (while_count n body (advanced m1)); [|done]. intros Hm. apply IH, running_advanced; [by apply Hb|].
  by rewrite Hl.
Qed.

Lemma running_started m : running m -> running (dma_started m).
Proof.
  intros Hm. pose proof (mo_count _ (rn_machine _ Hm)) as [Hmod Hlt]. pose proof (dma_count_bound (Cnt (m_dsp m))).
  assert (Hc : 0 <= dma_ticks (Cnt (m_dsp m)) < 2 ^ 60).
  { unfold dma_ticks. rewrite wraps_small by (unfold sN; Z.div_mod_to_equations; lia). Z.div_mod_to_equations. lia. }
  pose proof (running_schedule (dma_ticks (Cnt (m_dsp m))) "ARAMint" 0 FromCPU m ltac:(done) Hc Hm) as H1.
  revert H1. by apply running_same.
Qed.

Lemma running_Do_ARAM_DMA : on_machine Do_ARAM_DMA.
Proof.
  intros m. rewrite Do_ARAM_DMA_run. cbv zeta. set (n := S _).
  assert (Hrd : forall i, on_machine (aram_read_u64 i))
    by (intros i m0; unfold aram_read_u64; destruct (_ && _); [cbv iota; reflexivity | done]).
  assert (Hwr : forall i v, on_machine (aram_write_u64 i v))
    by (intros i v m0; unfold aram_write_u64; destruct (_ && _); [apply running_aram | done]).
  assert (Hget : forall A (F : field Machine A), on_machine (getf F)) by (intros; apply acts_getf; exact _).
  assert (Hmem : forall f, on_machine (modf mf_memory f)) by (intros; by apply running_member).
  assert (Hhr : forall a, on_machine (HSP_Read a))
    by (intros a m0; unfold HSP_Read; destruct (m_hsp m0); [cbv iota; reflexivity..|]; cbv zeta; destruct (_ <=? _); [cbv iota; reflexivity | done]).
  assert (Hhw : forall a v, on_machine (HSP_Write a v))
    by (intros a v m0; unfold HSP_Write; destruct (m_hsp m0); [cbv iota; reflexivity..|]; cbv zeta;
        destruct (_ <=? _); [by apply running_same | done]).
  assert (Hw : forall body, leaves_count body -> on_machine body ->
    match while_count n body (dma_started m) with Done _ m' => keeps_running m m' | Fault _ => True end).
  { intros body Hl Hb. pose proof (running_while n body Hl Hb (dma_started m)) as H.
    destruct (while_count n body (dma_started m)); [|done]. intros Hm. by apply H, running_started. }
  assert (Hst : keeps_running m (dma_started m)) by (intros Hm; by apply running_started).
  destruct (dma_to_mram _), (_ <? _); [| destruct (negb _); [|exact Hst] | | destruct (negb _); [|exact Hst]]; apply Hw.
  - apply leaves_copy_from_aram.
  - unfold copy_from_aram, aram_index. atac; auto.
  - apply leaves_copy_from_hsp.
  - unfold copy_from_hsp. atac; auto.
  - apply leaves_copy_to_aram.
  - unfold copy_to_aram. atac; auto.
  - apply leaves_copy_to_hsp.
  - unfold copy_to_hsp. atac; auto.
Qed.
End Invariant.

(** ** Register accesses *)

Ltac running_member_tac :=
  lazymatch goal with
  | |- acts _ keeps_running (modf f_Cnt _) => fail
  | |- acts _ keeps_running (setf f_Cnt _) => fail
  | |- acts _ keeps_running (modf mf_timing _) => fail
  | |- acts _ keeps_running (modf _ _) => apply running_member; by intros
  | |- acts _ keeps_running (setf _ _) => intros ?; by apply running_same
  end.
#[export] Hint Extern 1 (acts _ keeps_running _) => running_member_tac : acts.
#[export] Hint Resolve running_GenerateDSPInterrupt running_Do_ARAM_DMA running_UpdateInterrupts : acts.

#[export] Instance LLE_keeps_running {heap : HeapAlgorithms} {laws : HeapLaws} : EmulatorActs (@f_host Machine) keeps_running.
Proof.
  apply LLE_acts; [exact _ | | | |].
  - intros. apply running_aram.
  - intros. by apply running_same.
  - intros m. by apply running_schedule.
  - intros m. by apply running_force.
Qed.

Section Registers.
Context {heap : HeapAlgorithms} {laws : HeapLaws}.
Abbreviation on_machine := (acts (fun m : Machine => m) keeps_running).
Abbreviation on_system := (acts (@host Machine) keeps_running).

Lemma running_audio_control v : on_machine (write_audio_dma_control v).
Proof.
  unfold write_audio_dma_control. apply acts_bind; [exact _ | apply acts_getf; exact _ | intros c; cbv zeta].
  apply acts_bind; [exact _ | auto with acts | intros []]. unfold when.
  destruct (negb _ && _); [|apply acts_ret; exact _]. apply acts_bind; [exact _ | apply acts_getf; exact _ | intros a].
  apply acts_bind; [exact _ | auto with acts | intros []].
  apply acts_bind; [exact _ | auto with acts | intros []]. intros m. by apply running_schedule.
Qed.

Lemma running_count_low v : on_machine (modf f_Cnt (fun x => put_low x (v .& WMASK_LO_ALIGN_32BIT))).
Proof. apply running_count. intros c. apply count_ok_low. Qed.
Lemma running_count_high v :
  on_machine (modf f_Cnt (fun x => put_high x (v .& (WMASK_AR_HI_RESTRICT .| WMASK_AR_CNT_DIR_BIT)))).
Proof. apply running_count. intros c. apply count_ok_high. Qed.

#[local] Hint Resolve running_audio_control running_count_low running_count_high : acts.
#[local] Hint Extern 2 (acts _ _ (machine _ _)) => (apply acts_on_host; atac) : acts.

Lemma running_dspman : on_system (dspman f_host).
Proof. apply acts_on_host, acts_getf. exact _. Qed.
#[local] Hint Resolve running_dspman : acts.

Lemma running_write_dsp_control v : on_system (write_dsp_control f_host v).
Proof.
  unfold write_dsp_control. apply acts_bind; [exact _ | exact (ea_write_control (MF := f_host) v) | intros c; cbv zeta].
  apply acts_on_host. atac.
Qed.

Lemma running_read_mail_hi b : on_system (read_mail_hi f_host b).
Proof.
  unfold read_mail_hi. apply acts_bind; [exact _ | apply running_dspman | intros d].
  apply acts_bind; [exact _ | | intros []; exact (ea_read_high (MF := f_host) b)].
  unfold when. destruct (_ && _); [|apply acts_ret; exact _].
  apply acts_bind; [exact _ | exact (ea_update (MF := f_host) _) | intros []; auto with acts].
Qed.

Lemma running_read_dsp_control : on_system (read_dsp_control f_host).
Proof.
  unfold read_dsp_control. apply acts_bind; [exact _ | apply running_dspman | intros d].
  apply acts_bind; [exact _ | exact (ea_read_control (MF := f_host)) | intros c; apply acts_ret; exact _].
Qed.
#[local] Hint Resolve running_write_dsp_control running_read_mail_hi running_read_dsp_control : acts.

Lemma running_mmio_read16 a : on_system (mmio_read16 f_host a).
Proof.
  pose proof (ea_read_low (MF := f_host) (R := keeps_running)) as Hl. change (fget f_host) with (@host Machine) in Hl.
  unfold mmio_read16. atac.
Qed.

Lemma running_mmio_write16 a v : on_system (mmio_write16 f_host a v).
Proof.
  pose proof (ea_write_high (MF := f_host) (R := keeps_running)) as Hh. change (fget f_host) with (@host Machine) in Hh.
  pose proof (ea_write_low (MF := f_host) (R := keeps_running)) as Hl. change (fget f_host) with (@host Machine) in Hl.
  unfold mmio_write16. cbv zeta. atac.
Qed.
End Registers.

(** * From start-up *)

Section Run.
Context {heap : HeapAlgorithms} {laws : HeapLaws}.
Context (other : string -> Z -> Z -> M (State Machine) unit) {others : OtherLaws other}.
#[local] Instance run_sys : EventSystem (State Machine) TimedCallback := lle_system other.

Lemma clock_step_types (t t' : Timing TimedCallback) :
  clock_step t t' -> fget t_m_event_types t' = fget t_m_event_types t.
Proof.
  intros []; [done | apply ScheduleEvent_types | done | | | done].
  - unfold CoreTiming.ForceExceptionCheck. by destruct (_ <? _).
  - unfold RemoveEvent. by destruct (_ =? _)%nat.
Qed.

(** The machine as [HW_Init] leaves it, at normal speed; [half] and [field] are periods of
    the video interface. *)
Definition booted (m : Machine) : Prop :=
  exists wii overclock sync mem1 mem2 t half field,
    0 <= half < 2 ^ 60 /\ 0 <= field < 2 ^ 60 /\
    m = HW_Init false overclock sync mem1 mem2 t half field (machine_constructed wii).

(** The states of the main loop: [Advance], and then instructions, register accesses, and
    events of other devices and threads, in any order, until the next. *)
Inductive main_loop : State Machine -> Prop :=
  | LoopStart s k s' : booted (host s) -> Advance (CB := TimedCallback) k s = Done (Some tt) s' -> main_loop s'
  | LoopClock s t : main_loop s -> clock_step (m_timing (host s)) t -> main_loop (fset f_timing t s)
  | LoopRead s a v s' : main_loop s -> mmio_read16 f_host a s = Done v s' -> main_loop s'
  | LoopWrite s a v r s' : main_loop s -> mmio_write16 f_host a v s = Done r s' -> main_loop s'
  | LoopAdvance s k s' :
      main_loop s -> ticks (m_timing (host s)) < 2 ^ 61 -> waiting_ok (m_timing (host s)) ->
      Advance (CB := TimedCallback) k s = Done (Some tt) s' -> main_loop s'.

(** ** The state after [HW_Init] *)

(** Adding events to a queue at time zero, before the first slice. *)
Record starting (m : Machine) : Prop := {
  sg_resting : resting (m_timing m);
  sg_stopped : stopped (m_timing m);
  sg_now : now (m_timing m) = 0 /\ fget t_slice_length (m_timing m) = MAX_SLICE_LENGTH /\
           fget t_downcount (m_timing m) = MAX_SLICE_LENGTH /\ waiting (m_timing m) = [];
  sg_machine : machine_ok m
}.

Lemma starting_schedule c name m : 0 <= c < 2 ^ 60 -> starting m -> starting (Schedule c name 0 m).
Proof.
  intros Hc [[Hs Ht Hh Hl Hd] Hst (Hn & Hsl & Hdc & Hw) Hm].
  destruct (ScheduleEvent_stopped c name 0 FromCPU (m_timing m) Hst) as (q & i & j & E & Hh' & Hq); [done | lia |].
  unfold Schedule. rewrite E. split; cbn [m_timing fset mf_timing].
  - split; [by split; apply Hs | | exact Hh' | done | done]. split; [apply Ht|]. intros e He. change (e ∈ q) in He.
    rewrite Hq in He. apply elem_of_app in He as [He|He]; [by apply Ht|].
    apply list_elem_of_singleton in He as ->. cbn [time]. lia.
  - split; [apply Hst | apply Hst | exact Hh'].
  - done.
  - destruct Hm as [Hr Hty Hcn]. by split.
Qed.

Lemma starting_timing (t : Timing TimedCallback) m :
  fget t_m_event_types t = fget t_m_event_types (m_timing m) ->
  fget t_m_event_queue t = fget t_m_event_queue (m_timing m) -> normal_speed t ->
  fget t_m_is_global_timer_sane t = fget t_m_is_global_timer_sane (m_timing m) ->
  now t = now (m_timing m) -> fget t_slice_length t = fget t_slice_length (m_timing m) ->
  fget t_downcount t = fget t_downcount (m_timing m) -> waiting t = waiting (m_timing m) ->
  starting m -> starting (fset mf_timing t m).
Proof.
  intros Ety Eq Hs Es En El Ed Ew [[_ Ht Hh Hl Hd] Hst (Hn & Hsl & Hdc & Hw) [Hr Hty Hc]].
  assert (Eqq : queue t = queue (m_timing m)) by exact Eq.
  split; cbn [m_timing fset mf_timing].
  - split; [done | | by rewrite Eqq | by rewrite El | by rewrite El, Ed]. split; [rewrite En; apply Ht|].
    rewrite Eqq. apply Ht.
  - split; [rewrite Es; apply Hst | rewrite En; apply Hst | by rewrite Eqq].
  - by rewrite En, El, Ed, Ew.
  - split; [exact Hr | | exact Hc]. change (types_ok (fget t_m_event_types t)). by rewrite Ety.
Qed.

Lemma starting_register name cb m :
  match cb with
  | DSPCallback => name = "DSPCallback"%string
  | AudioDMACallback => name = "AudioDMACallback"%string
  | OtherCallback n => name = n
  | _ => True
  end -> starting m -> starting (fset mf_timing (RegisterEvent name cb (m_timing m)) m).
Proof.
  intros Hcb Hm. unfold RegisterEvent. destruct (fget t_m_event_types (m_timing m) !! name) eqn:E.
  - by destruct m.
  - destruct Hm as [[Hs Ht Hh Hl Hd] Hst Hn [Hr Hty Hc]]. split; cbn [m_timing fset mf_timing].
    + split; [by split; apply Hs | by split; apply Ht | done..].
    + split; apply Hst.
    + done.
    + split; [exact Hr | | exact Hc]. intros n c. cbn [m_timing fget t_m_event_types].
      change (<[name:=cb]> (fget t_m_event_types (m_timing m)) !! n = Some c -> 
        match c with DSPCallback => n = "DSPCallback"%string | AudioDMACallback => n = "AudioDMACallback"%string
        | OtherCallback n0 => n = n0 | _ => True end).
      destruct (decide (name = n)) as [<-|Hne]; [rewrite lookup_insert_eq; by intros [= <-]|].
      rewrite lookup_insert_ne by done. apply Hty.
Qed.

Lemma f32_div_one : f32_div f32_one f32_one = f32_one.
Proof. reflexivity. Qed.

(** The clock after [CoreTiming::Init], before any event. *)
Lemma starting_Init oc sync m :
  m_timing m = timing_constructed -> rates_ok m -> Cnt (m_dsp m) = 0 ->
  starting (fset mf_timing (CoreTiming.Init EmptyTimedCallback false oc sync (m_timing m)) m) /\
  queue (CoreTiming.Init EmptyTimedCallback false oc sync (m_timing m)) = [].
Proof.
  intros Et Hr Hc. rewrite Et.
  assert (Hd : CyclesToDowncount 20000 (timing_constructed (CB := TimedCallback)) = 20000) by (vm_compute; reflexivity).
  set (t := CoreTiming.Init _ _ _ _ _).
  assert (Hq : queue t = []) by reflexivity. assert (Hnow : now t = 0) by reflexivity.
  assert (Hsl : fget t_slice_length t = MAX_SLICE_LENGTH) by reflexivity.
  assert (Hdc : fget t_downcount t = MAX_SLICE_LENGTH) by exact Hd.
  assert (Hh : is_heap (queue t)) by (rewrite Hq; apply is_heap_nil).
  split; [|exact Hq]. split; cbn [m_timing fset mf_timing].
  - split; [split; first [ exact f32_div_one | reflexivity ] | | exact Hh | rewrite Hsl; lia | rewrite Hdc, Hsl; lia].
    split; [rewrite Hnow; lia|]. intros e He. rewrite Hq in He. by apply not_elem_of_nil in He.
  - split; [reflexivity | rewrite Hnow; lia | exact Hh].
  - split; [exact Hnow | split; [exact Hsl | split; [exact Hdc | reflexivity]]].
  - split; [exact Hr | | cbn [m_dsp fset mf_timing]; rewrite Hc; by split].
    change (types_ok (<["_lost_event"%string := EmptyTimedCallback]> ∅)). intros name cb.
    destruct (decide ("_lost_event"%string = name)) as [<-|Hne]; [rewrite lookup_insert_eq; by intros [= <-]|].
    by rewrite lookup_insert_ne, lookup_empty by done.
Qed.

(** Members that starting does not depend on. *)
Lemma starting_same m m' :
  m_timing m' = m_timing m -> m_cpu_core_clock m' = m_cpu_core_clock m ->
  m_aid_sample_rate_divisor m' = m_aid_sample_rate_divisor m -> Cnt (m_dsp m') = Cnt (m_dsp m) \/ Cnt (m_dsp m') = 0 ->
  starting m -> starting m'.
Proof.
  intros Et Ec Ed En [Hr Hst Hn [Hrt Hty Hc]]. split; rewrite ?Et; [done..|].
  split; [unfold rates_ok; by rewrite Ec, Ed | by rewrite Et |]. destruct En as [->| ->]; [done | by split].
Qed.

Lemma starting_clock c m :
  13500000 <= c * m_aid_sample_rate_divisor m < 13500000 * 2 ^ 31 -> starting m -> starting (fset mf_cpu_core_clock c m).
Proof. intros Hc [Hr Hst Hn [Hrt Hty Hcn]]. split; [done..|]. by split. Qed.

(** There are no events to adjust yet. *)
Lemma starting_adjust a b m :
  queue (m_timing m) = [] -> starting m -> starting (fset mf_timing (AdjustEventQueueTimes a b (m_timing m)) m).
Proof.
  intros Hq Hm. pose proof (re_speed _ (sg_resting _ Hm)) as Hs. set (t := AdjustEventQueueTimes a b (m_timing m)).
  assert (Eq : fget t_m_event_queue t = fget t_m_event_queue (m_timing m)).
  { transitivity (@nil Event); [|by symmetry].
    change (map (fun ev => mkEvent (to_s64 (now (m_timing m) +
        to_s64 (to_s64 (to_s64 (time ev - now (m_timing m)) * a) ÷ b))) (fifo_order ev) (userdata ev) (type ev))
      (queue (m_timing m)) = []). by rewrite Hq. }
  apply starting_timing; [reflexivity | exact Eq | split; apply Hs | reflexivity.. | exact Hm].
Qed.

Lemma starting_PreInit m :
  queue (m_timing m) = [] -> m_aid_sample_rate_divisor m = 3375 -> starting m -> starting (PreInit m).
Proof.
  intros Hq Hd Hm. unfold PreInit, ChangePPCClock. cbv zeta. apply starting_adjust; [exact Hq|].
  apply starting_clock; [rewrite Hd; destruct (m_is_wii m); lia | exact Hm].
Qed.

Lemma starting_DSPInit m : starting m -> starting (DSPManager.Init m).
Proof.
  intros Hm. unfold DSPManager.Init. cbv zeta. do 2 (apply starting_register; [exact I|]).
  revert Hm. apply starting_same; [reflexivity.. | by right].
Qed.

Lemma starting_TimersInit t half field m :
  0 <= half < 2 ^ 60 -> 0 <= field < 2 ^ 60 -> 0 <= m_cpu_core_clock m < 2 ^ 32 ->
  starting m -> starting (TimersInit t half field m).
Proof.
  intros Hh Hf Hcl Hm. pose proof (mo_rates _ (sg_machine _ Hm)) as Hr.
  unfold TimersInit, GetTicksPerSecond. cbv zeta.
  set (m1 := fset mf_timing _ m).
  assert (H1 : starting m1 /\ m_cpu_core_clock m1 = m_cpu_core_clock m /\
    m_aid_sample_rate_divisor m1 = m_aid_sample_rate_divisor m).
  { split; [|done]. pose proof (re_speed _ (sg_resting _ Hm)) as Hs. unfold m1.
    apply starting_timing; [reflexivity | reflexivity | split; apply Hs | reflexivity.. | exact Hm]. }
  destruct H1 as (H1 & Ec & Ed). clearbody m1.
  set (m2 := fset mf_timing (RegisterEvent "PatchEngine" _ _) _).
  assert (H2 : starting m2 /\ m_cpu_core_clock m2 = m_cpu_core_clock m /\
    m_aid_sample_rate_divisor m2 = m_aid_sample_rate_divisor m).
  { split; [|by rewrite <- Ec, <- Ed]. unfold m2. do 8 (apply starting_register; [first [exact I | reflexivity]|]). exact H1. }
  clear H1 Ec Ed. destruct H2 as (H2 & Ec & Ed). clearbody m2.
  set (m3 := Schedule 0 "DSPCallback" 0 _).
  assert (H3 : starting m3 /\ m_cpu_core_clock m3 = m_cpu_core_clock m /\
    m_aid_sample_rate_divisor m3 = m_aid_sample_rate_divisor m).
  { split; [|by rewrite <- Ec, <- Ed]. unfold m3. repeat (apply starting_schedule; [lia|]). exact H2. }
  clear H2 Ec Ed. destruct H3 as (H3 & Ec & Ed). clearbody m3.
  rewrite Ec, Ed. pose proof (audio_period_range m Hr) as Ha. set (m4 := Schedule field "PatchEngine" 0 _).
  assert (H4 : starting m4) by (unfold m4; repeat (apply starting_schedule; [lia|]); exact H3). clearbody m4.
  destruct (m_is_wii m4); [|exact H4]. apply starting_schedule; [|exact H4]. Z.div_mod_to_equations. lia.
Qed.

Lemma starting_InitProcessorInterface m : starting m -> starting (InitProcessorInterface m).
Proof.
  intros Hm. unfold InitProcessorInterface, Register. do 3 (apply starting_register; [reflexivity|]).
  revert Hm. apply starting_same; [reflexivity.. | by left].
Qed.

Lemma starting_InitMemory mem1 mem2 m : starting m -> starting (InitMemory mem1 mem2 m).
Proof. apply starting_same; [reflexivity.. | by left]. Qed.

Lemma PreInit_clock m : 0 <= m_cpu_core_clock (PreInit m) < 2 ^ 32.
Proof. change (0 <= (if m_is_wii m then 729000000 else 486000000) < 2 ^ 32). destruct (m_is_wii m); lia. Qed.

(** The clock rate is not touched after [PreInit]. *)
Lemma later_clock mem1 mem2 m :
  m_cpu_core_clock (DSPManager.Init (InitMemory mem1 mem2 (InitProcessorInterface m))) = m_cpu_core_clock m.
Proof. reflexivity. Qed.

Lemma booted_starting m : booted m -> starting m.
Proof.
  intros (wii & oc & sync & mem1 & mem2 & t & half & field & Hhalf & Hfield & ->). unfold HW_Init.
  destruct (starting_Init oc sync (machine_constructed wii)) as [H1 Hq]; [reflexivity | | reflexivity |].
  { unfold rates_ok. cbn. lia. }
  apply starting_TimersInit; [done | done | rewrite later_clock; apply PreInit_clock |].
  apply starting_DSPInit, starting_InitMemory, starting_InitProcessorInterface, starting_PreInit;
    [exact Hq | reflexivity | exact H1].
Qed.

Lemma main_loop_running s : main_loop s -> running (host s).
Proof.
  intros Hm.
  induction Hm as [s k s' Hb Ha|s t Hm IH Hs|s a v s' Hm IH E|s a v r s' Hm IH E|s k s' Hm IH Htk Hw Ha].
  - pose proof (booted_starting _ Hb) as [Hr Hst (Hn & Hsl & Hdc & Hwt) Hok].
    assert (Htk : ticks (m_timing (host s)) = 0) by (unfold ticks; rewrite Hn, Hsl, Hdc; done).
    destruct (Advance_slice (sys := run_sys) (I := system_ok) (quick := quick) k s s' Hok Hr) as (Hok' & Hs' & _).
    + change (ticks (m_timing (host s)) < 2 ^ 61). rewrite Htk. lia.
    + change (waiting_ok (m_timing (host s))). unfold waiting_ok. rewrite Hwt. intros e He. by apply not_elem_of_nil in He.
    + exact Ha.
    + split; [exact Hok' | exact Hs'].
  - destruct (clock_step_slice _ _ (rn_slice _ IH) Hs) as [Hs' _]. revert IH.
    change (host (fset f_timing t s)) with (fset mf_timing t (host s)). apply running_timing. intros _.
    split; [exact Hs' | by apply clock_step_types].
  - exact (acts_done _ _ _ s v s' (running_mmio_read16 a) E IH).
  - exact (acts_done _ _ _ s r s' (running_mmio_write16 a v) E IH).
  - destruct (Advance_slice (sys := run_sys) (I := system_ok) (quick := quick) k s s' (rn_machine _ IH)
      (slice_resting _ (rn_slice _ IH)) Htk Hw Ha) as (Hok' & Hs' & _).
    split; [exact Hok' | exact Hs'].
Qed.
(** C5. The scheduler's invariant from start-up on.  In every state that the main loop of the
    emulator reaches - after [Advance], and between two of them, whatever instructions are
    executed, whichever registers of the DSP are read and written with whatever values,
    whatever the DSP's own program does, and whatever other devices schedule or remove -
    the current slice ends no later than any queued event, and the count of the ARAM DMA
    is one its register can hold. *)
Theorem main_loop_slices s : main_loop s -> slice_ok (m_timing (host s)) /\ count_ok (Cnt (m_dsp (host s))).
Proof. intros Hm. pose proof (main_loop_running s Hm) as Hr. split; [apply Hr | apply (mo_count _ (rn_machine _ Hr))]. Qed.
End Run.
