(* ===== verification/SystemWitnesses.v ===== *)
(** A GameCube that was just switched on, on which the theorems about the whole machine
    are exercised: it has no devices but those modelled, and its DSP has no program. *)
From stdpp Require Import base tactics option list gmap strings.
From Stdlib Require Import ZArith Lia Bool.
From S2P Require Import Prelude Accelerator DSPState PowerPC ProcessorInterface Memmap CoreTiming Machine Float32.
From S2P Require Import DSPHardware DSPInterpreter DSPRun DSPLLE DSPManager SystemTimers HWInit.
From S2P Require Import CoreTimingProps HostProps PowerPCProps MemoryProps ManagerProps AramProps DeviceProps.
From S2P Require Import SystemClock SystemRun SimHost.

#[local] Open Scope Z_scope.

(** Callbacks that do nothing, for the devices that are not modelled. *)
Definition no_others : string -> Z -> Z -> M (State Machine) unit := fun _ _ _ => mret tt.

#[export] Instance no_others_laws : OtherLaws no_others.
Proof.
  split.
  - intros ev s Hok Ha _ _. split; [exact Hok|]. apply well_behaved_none; [reflexivity | exact Ha].
  - intros name u late s. cbn. reflexivity.
Qed.

#[export] Instance gamecube_system : EventSystem (State Machine) TimedCallback := lle_system no_others.

Definition power_on : State Machine := constructed (machine_started false).

(** The state an outcome leads to. *)
Definition result {S A} (s0 : S) (o : outcome S A) : S := match o with Done _ s => s | Fault _ => s0 end.
Definition ended {S} (o : outcome S (option unit)) : bool := match o with Done (Some _) _ => true | _ => false end.

Lemma ended_result {S} (s0 : S) (o : outcome S (option unit)) : ended o = true -> o = Done (Some tt) (result s0 o).
Proof. by destruct o as [[[]|] s|f]. Qed.

Lemma done_result {S} (s0 : S) (o : outcome S unit) : is_done o = true -> o = Done tt (result s0 o).
Proof. by destruct o as [[] s|f]. Qed.

(** The first slice. *)
Definition first_slice : State Machine := result power_on (Advance (CB := TimedCallback) 10 power_on).

Lemma first_slice_run : Advance (CB := TimedCallback) 10 power_on = Done (Some tt) first_slice.
Proof. apply ended_result. vm_compute. reflexivity. Qed.

Lemma power_on_booted : booted (host power_on).
Proof. exists false, f32_one, false, MEM1_SIZE_RETAIL, MEM2_SIZE_RETAIL, 0, 15444, 8108100. done. Qed.

Lemma first_slice_main_loop : main_loop no_others first_slice.
Proof. exact (LoopStart no_others power_on 10 first_slice power_on_booted first_slice_run). Qed.

Lemma first_slice_running : running (host first_slice).
Proof. exact (main_loop_running no_others first_slice first_slice_main_loop). Qed.

#[local] Opaque first_slice.

(** * The scheduler *)

Abbreviation clock0 := (m_timing (host first_slice)).

Lemma clock0_ok : slice_ok clock0.
Proof. apply first_slice_running. Qed.

Lemma clock0_now : ticks clock0 = 0.
Proof. vm_compute. reflexivity. Qed.

Lemma clock0_waiting : waiting_ok clock0.
Proof.
  assert (E : waiting clock0 = []) by (vm_compute; reflexivity). unfold waiting_ok. rewrite E.
  intros e He. destruct (not_elem_of_nil e He).
Qed.

Lemma slices_end_before_events_witness :
  slice_ok (ScheduleEvent 100 "ARAMint" 0 FromCPU true (execute 50 clock0)).
Proof.
  eapply (slices_end_before_events clock0); [exact clock0_ok|].
  apply (rtc_l _ _ (execute 50 clock0)); [apply StepExecute; [lia | vm_compute; discriminate]|].
  apply rtc_once, StepSchedule. lia.
Defined.

Lemma Advance_runs_due_events_witness :
  exists n, forall m, (n <= m)%nat ->
    match Advance (CB := TimedCallback) m first_slice with Done None _ => False | _ => True end.
Proof.
  destruct (Advance_runs_due_events (sys := gamecube_system) (cbs := system_callbacks no_others) first_slice
    (rn_machine _ first_slice_running) clock0_ok ltac:(change (ticks clock0 < 2 ^ 61); rewrite clock0_now; lia) clock0_waiting)
    as [n Hn].
  exists n. intros m Hm. specialize (Hn m Hm). destruct (Advance m first_slice) as [[[]|] s'|f]; [exact I | exact Hn | exact I].
Defined.


Lemma AdjustEventQueueTimes_heap_witness :
  let t := fset t_m_event_queue [mkEvent 12 0 0 "VICallback"%string; mkEvent 12 1 0 "DSPCallback"%string] clock0 in
  is_heap (queue (AdjustEventQueueTimes 729000000 486000000 t)).
Proof.
  intros t. refine (proj1 (AdjustEventQueueTimes_heap t 729000000 486000000 _ _ _ _ _)).
  - intros [|[|i]] p c Hi Hp Hc; [lia | | done]. injection Hp as <-. injection Hc as <-. reflexivity.
  - assert (E : now t = 0) by (vm_compute; reflexivity). rewrite E. lia.
  - assert (E : now t = 0) by (vm_compute; reflexivity). rewrite E. intros e He. change (queue t) with
      [mkEvent 12 0 0 "VICallback"%string; mkEvent 12 1 0 "DSPCallback"%string] in He.
    repeat (apply elem_of_cons in He as [->|He]; [cbn; lia|]). destruct (not_elem_of_nil e He).
  - lia.
  - lia.
Defined.

Lemma main_loop_slices_witness : slice_ok (m_timing (host first_slice)).
Proof. exact (proj1 (main_loop_slices no_others first_slice first_slice_main_loop)). Defined.

(** * The interface of the DSP *)

(** The CPU takes the DSP out of its reset, with the mask of its interrupt set. *)
Definition control_written : State Machine := result power_on (mmio_write16 f_host 0x500A 0x0100 power_on).

Lemma control_written_run : mmio_write16 f_host 0x500A 0x0100 power_on = Done (Some tt) control_written.
Proof. apply ended_result. vm_compute. reflexivity. Qed.


Definition emu_control : outcome (State Machine) Z := EmuWriteControlRegister 0x0100 power_on.
Definition emu_answer : Z := match emu_control with Done c _ => c | Fault _ => 0 end.

Lemma emu_control_run : EmuWriteControlRegister 0x0100 power_on = Done emu_answer (result power_on emu_control).
Proof.
  assert (H : is_done emu_control = true) by (vm_compute; reflexivity). unfold emu_answer, emu_control in *.
  by destruct (EmuWriteControlRegister 0x0100 power_on).
Qed.

Lemma control_write_acknowledges_witness :
  exists s', write_dsp_control f_host 0x0100 power_on = Done tt s' /\ dsp_line (host s').
Proof.
  destruct (control_write_acknowledges (@f_host Machine) (fun v s => eq_refl) 0x0100 emu_answer power_on
    (result power_on emu_control) emu_control_run) as (s' & E & _ & _ & _ & _ & _ & Hl & _).
  exists s'. split; [exact E | exact Hl].
Defined.

(** ** The DMA *)

Definition sample_bytes : list Z := map Z.of_nat (seq 1 64).

(** 64 bytes at 0x2000, to be stored at 0x1000 of the auxiliary memory. *)
Definition dma_program (m : Machine) : Machine :=
  fset f_Cnt 64 (fset f_ARAddr 0x1000 (fset f_MMAddr 0x2000
    (fset mf_memory (CopyToEmu 0x2000 sample_bytes (m_memory m)) m))).
Definition dma_machine : Machine := dma_program (host first_slice).

Lemma dma_program_members m :
  m_timing (dma_program m) = m_timing m /\ m_memory (dma_program m) = CopyToEmu 0x2000 sample_bytes (m_memory m).
Proof. split; reflexivity. Qed.

Lemma dma_slice : slice_ok (m_timing dma_machine).
Proof. unfold dma_machine. rewrite (proj1 (dma_program_members _)). exact clock0_ok. Qed.

Lemma memory0_ok : memory_ok (m_memory (host power_on)).
Proof. exact (Memory_Init_ok false). Qed.

(** The memory and the auxiliary memory of the first slice: nothing has written to them. *)
Lemma first_slice_memory : m_memory (host first_slice) = m_memory (host power_on).
Proof. vm_compute. reflexivity. Qed.

Lemma dma_gamecube : gamecube dma_machine.
Proof.
  split.
  - vm_compute. reflexivity.
  - vm_compute. reflexivity.
  - vm_compute. reflexivity.
  - assert (E : aram_mem (m_dsp dma_machine) = ∅) by (vm_compute; reflexivity). rewrite E. apply arr_ok_empty. range_lia.
  - unfold dma_machine. rewrite (proj2 (dma_program_members _)), first_slice_memory.
    rewrite (CopyToEmu_spec 0x2000 RAM 0x2000) by (discriminate || (vm_compute; reflexivity)).
    apply memory_ok_set_region; [exact memory0_ok|]. apply arr_ok_aupd_list; [apply memory0_ok|].
    apply Forall_forall. intros x Hx. unfold sample_bytes in Hx. apply list_elem_of_fmap in Hx as (n & -> & Hn).
    apply elem_of_seq in Hn. unfold uN. lia.
Qed.

Lemma dma_programmed : programmed 8 RAM 0x2000 dma_machine.
Proof.
  split; [split| |lia].
  - exact dma_gamecube.
  - vm_compute. reflexivity.
  - vm_compute. split; [discriminate | reflexivity].
  - vm_compute. split; discriminate.
  - vm_compute. split; discriminate.
  - intros _. vm_compute. reflexivity.
  - vm_compute. reflexivity.
Qed.

Lemma dma_unmirrored : unmirrored dma_machine.
Proof. left. vm_compute. discriminate. Qed.

Lemma aram_dma_stores_witness :
  exists m', Do_ARAM_DMA dma_machine = Done (Some tt) m' /\ dma_count (Cnt (m_dsp m')) = 0.
Proof.
  destruct (aram_dma_stores 8 RAM 0x2000 dma_machine dma_programmed dma_unmirrored) as (m' & E & _ & _ & Hc & _).
  - vm_compute. reflexivity.
  - exact dma_slice.
  - exists m'. split; [exact E | exact Hc].
Defined.

Lemma aram_dma_roundtrip_witness :
  exists m1 m2, Do_ARAM_DMA dma_machine = Done (Some tt) m1 /\
    Do_ARAM_DMA (fetch_back (ARAddr (m_dsp dma_machine)) 0x2020 64 m1) = Done (Some tt) m2 /\
    CopyFromEmu [] 0x2020 64 (m_memory m2) = CopyFromEmu [] (MMAddr (m_dsp dma_machine)) 64 (m_memory dma_machine).
Proof.
  destruct (aram_dma_roundtrip 8 RAM 0x2000 RAM 0x2020 0x2020 dma_machine dma_programmed dma_unmirrored) as (m1 & m2 & E1 & E2 & H).
  - vm_compute. reflexivity.
  - lia.
  - lia.
  - vm_compute. reflexivity.
  - exists m1, m2. split; [exact E1|]. split; [exact E2 | exact (H [])].
Defined.

(** ** Audio *)

Definition audio_program (m : Machine) : Machine :=
  fset f_AudioDMAControl 0x8002 (fset f_remaining_blocks_count 2 (fset f_current_source_address 0x2000 m)).
Definition audio_machine : Machine := audio_program dma_machine.

Lemma audio_program_memory m : m_memory (audio_program m) = m_memory m.
Proof. reflexivity. Qed.

Lemma audio_playing : playing 2 RAM 0x2000 audio_machine.
Proof.
  split.
  - vm_compute. reflexivity.
  - vm_compute. reflexivity.
  - vm_compute. split; [lia | reflexivity].
  - vm_compute. split; [discriminate | reflexivity].
  - unfold audio_machine. rewrite audio_program_memory. exact (gc_memory _ dma_gamecube).
  - vm_compute. reflexivity.
Qed.

Lemma audio_dma_plays_witness :
  exists m', updates 2 audio_machine = Done tt m' /\ Z.testbit (m_dsp_control (m_dsp m')) 3 = true.
Proof.
  destruct (audio_dma_plays 2 RAM 0x2000 audio_machine audio_playing) as (_ & m' & E & _ & Hb & _).
  exists m'. split; [exact E | exact Hb].
Defined.

(** ** The decrementer *)

Definition decrementer_program (m : Machine) : Machine :=
  fset mf_timing (fset f_ppc_state (set_spr SPR_DEC 1000 (ppc_state (m_timing m))) (m_timing m)) m.
Definition decrementer_machine : Machine := decrementer_program (host first_slice).

Lemma decrementer_slice m : slice_ok (m_timing m) -> slice_ok (m_timing (decrementer_program m)).
Proof. apply slice_ok_ppc. reflexivity. Qed.

Lemma decrementer_expires_witness :
  exists e, type e = "DecCallback"%string /\ e ∈ queue (m_timing (DecrementerSet decrementer_machine)).
Proof.
  destruct (decrementer_expires decrementer_machine) as (e & Hq & Ht & _).
  - exact (decrementer_slice (host first_slice) clock0_ok).
  - vm_compute. discriminate.
  - vm_compute. split; [discriminate | reflexivity].
  - exists e. split; [exact Ht|]. rewrite Hq. left.
Defined.

(** ** The interrupt

    Everything is unmasked, and the DSP has just asked for its interrupt. *)
Definition unmask (m : Machine) : Machine :=
  let t := m_timing m in
  fset mf_pi (fset pi_m_interrupt_mask 0x40 (m_pi m)) (fset f_m_dsp_control 0x104
    (fset mf_timing (fset f_ppc_state (fset p_npc 0x80003104 (fset p_msr 0x8000 (ppc_state t))) t) m)).
Definition requested (m : Machine) : Machine := GenerateDSPInterruptFromDSPEmu INT_DSP 0 (unmask m).
Definition interrupting : State Machine := fset f_host (requested (host first_slice)) first_slice.

Lemma requested_running m : running m -> running (requested m).
Proof.
  intros Hm. unfold requested. apply running_schedule; [done | lia |]. destruct Hm as [[Hr Hty Hc] Hs].
  split; [by split|]. by apply slice_ok_ppc.
Qed.

Lemma interrupting_running : running (host interrupting).
Proof. exact (requested_running (host first_slice) first_slice_running). Qed.

Definition is_request (e : Event) : bool :=
  String.eqb (type e) "DSPint" && (userdata e =? INT_DSP) && (time e <=? ticks (m_timing (host interrupting))).
Definition request : Event :=
  default (mkEvent 0 0 0 ""%string) (find is_request (queue (m_timing (host interrupting)))).

Lemma request_queued : request ∈ queue (m_timing (host interrupting)).
Proof. vm_compute. repeat first [ left | right ]. Qed.

Lemma dsp_interrupt_taken_witness :
  exists n, forall k, (n <= k)%nat ->
    match Advance (CB := TimedCallback) k interrupting with
    | Done (Some _) s' => pc (ppc_state (m_timing (host s'))) = 0x500 /\
        get_spr SPR_SRR0 (ppc_state (m_timing (host s'))) = npc (ppc_state (m_timing (host interrupting)))
    | Done None _ => False
    | Fault _ => True
    end.
Proof.
  destruct (dsp_interrupt_taken no_others interrupting request) as [n Hn].
  - exact (rn_machine _ interrupting_running).
  - exact (rn_slice _ interrupting_running).
  - vm_compute. reflexivity.
  - assert (E : waiting (m_timing (host interrupting)) = []) by (vm_compute; reflexivity). unfold waiting_ok. rewrite E.
    intros e He. destruct (not_elem_of_nil e He).
  - vm_compute. reflexivity.
  - split; vm_compute; reflexivity.
  - exact request_queued.
  - vm_compute. reflexivity.
  - vm_compute. reflexivity.
  - vm_compute. discriminate.
  - exists n. intros k Hk. specialize (Hn k Hk).
    change (Advance (CB := TimedCallback) k interrupting) with (Advance (sys := SystemClock.sys no_others) k interrupting).
    destruct (Advance k interrupting) as [[[]|] s'|f]; [|exact Hn | exact I].
    destruct Hn as (Hpc & _ & _ & _ & _ & Hsrr). split; [exact Hpc|]. apply Hsrr. intros name u late s. reflexivity.
Defined.
